(* ===== verification/_CoqProject ===== *)
-Q . S2P
Prelude.v
LLComms.v
TtyBus.v
WbuSpec.v
TtyBase.v
TtyRecv.v
TtySend.v
TtyWord.v
TtyRead.v
Board.v
TtyProps.v
Words.v
TbClock.v
MemSim.v
EnetCtrlSim.v
FlashSim.v
FlashProps.v
FlashClaims.v
FlashDrvr.v
FlashChip.v
FlashDrvrProps.v
FlashWrite.v
Uart.v
UartRx.v
UartTx.v
UartProps.v
UartClaims.v
UartSim.v
UartSimProps.v
Zopcodes.v
ZopcodesProps.v
Boot.v
Txfns.v
Irq.v
Zipelf.v
Zipload.v
LoadBoard.v
LoadProps.v
LoadClaims.v
MainTb.v
Wbregs.v
WbregsProps.v
WbregsTty.v
Mkspeech.v
Syscalls.v
SyscallsProps.v
NetUart.v
NetUartProps.v
TtyBridge.v
Scope.v
ScopeProps.v
LongDiv.v
Net.v
NetProto.v
NetWp.v
NetIp.v
NetRx.v
NetClaims.v
NetArp.v
NetUdp.v
SimplePing.v
PingProps.v
PingClaims.v
Fft.v
FftSpec.v
FftProps.v
FftClaims.v
FftClient.v
FftProto.v
