(* ===== verification/Prelude.v ===== *)
(** * A verification library for the software of the ZipVersa repository

    The repository puts a small computer on an FPGA board.  Its C and C++ code
    has three parts, and this library has files for each.

    - The host software (src/sw/host) talks to the board over a serial line that
      carries a bus protocol, programs its flash, shows its programs and uses its
      Fourier transform over the network.
    - The simulation (src/sim/verilated) surrounds the simulated logic with
      models of the chips of the board.
    - The board software (src/sw/rv32, src/sw/zlib, src/sw/board) is the C
      library support, the boot loader, a network stack and two servers on it, and
      an earlier network program.

    Every definition is a function: pure C functions are functions, methods and
    functions with effects are programs of the state and exception monads of
    [Prelude] or of a component, with the members or the global variables as a
    record.  [FAULT] or [None] stand for behaviour that C leaves undefined, such
    as an access outside of an array, and for a failed assertion.

    ** Host software

    - [LLComms]: LLCOMMSI (llcomms.cpp).  The system calls are the class [Os],
      what POSIX says of them [OsLaws].
    - [TtyBus]: TTYBUS (ttybus.cpp), every method.  [WbuSpec] is the other end of
      the line, a receiver of codewords, after src/rtl/wbubus; [Board] is a
      memory behind it.  [TtyBase], [TtyRecv], [TtySend], [TtyWord] and [TtyRead]
      hold the lemmas, [TtyProps] the theorems: words that are written come back
      when they are read, over any system that obeys [OsLaws] and any of the
      encodings that the FPGA may choose; what is sent is what was asked for,
      whatever is answered; every routine ends.
    - [Words]: byteswap.cpp and twoc.cpp.
    - [FlashDrvr]: FLASHDRVR (flashdrvr.cpp) over the interface DEVBUS.
      [FlashChip] is the flash behind its controller, [FlashDrvrProps] and
      [FlashWrite] prove that [write] leaves the data in it.
    - [Zopcodes], [ZopcodesProps]: the disassembler (zopcodes.cpp), total and
      within its tables and buffers, and where it and the processor disagree.
    - [Zipelf]: zipelf.cpp on what libelf finds in a file: the segments come out in
      order and within the block that holds them, but for an empty one.
    - [Zipload]: zipload.cpp.  [LoadBoard] is a board with flash, block RAM and a
      processor, as an instance of DEVBUS; [LoadProps] and [LoadClaims] prove that
      the loader leaves a program in its memories, with [FlashWrite] for the flash
      and, through [Boot], up to the memory of the program that runs.
    - [NetUart]: netuart.cpp over an interface of system calls; [NetUartProps]: the
      bridge gives each client its share of the serial line and loses nothing;
      [TtyBridge]: so the writes of [TtyBus] over the bridge are those of the buffer.
    - [Wbregs]: wbregs.cpp and regdefs.cpp over DEVBUS; [WbregsProps]: a register is
      found by any of its names or its address, and what the option for a map file
      does; [WbregsTty]: on [TtyBus], what one run writes the next one shows.
    - [Scope]: scopecls.cpp; [ScopeProps]: a reader of the VCD file of a capture
      finds the values that were captured, clock by clock.
    - [FftClient]: the client of the transform server (testfft.cpp) over the
      interface of a datagram socket.

    ** Simulation

    - [TbClock]: TBCLOCK and the clocks of TESTB (tbclock.h, testb.h).
    - [MemSim]: MEMSIM (memsim.cpp), which refines a memory without a pipeline.
    - [EnetCtrlSim]: ENETCTRLSIM (enetctrlsim.cpp), the management port of the
      network chip, bit by bit.
    - [FlashSim]: FLASHSIM (flashsim.cpp), every command.  [FlashProps] folds its
      bit transfers into bytes; [FlashClaims] has the theorems on its
      transactions.
    - [Uart]: DBLUARTSIM (dbluartsim.cpp) over an interface of sockets.
      [UartRx] and [UartTx] treat the line, [UartProps] and [UartClaims] the
      port: it stays within its arrays whatever it meets, and carries characters
      in order.
    - [UartSim], [UartSimProps]: UARTSIM (rtl/helloworld/uartsim.cpp), with the same
      line and one connection or a terminal: it carries characters whole.
    - [MainTb]: load and loadelf of main_tb.cpp, on [FlashSim] and block RAM: they
      leave a program as [Zipload] does, where sections of block RAM start with it.
    - [Mkspeech]: mkspeech.cpp (rtl/helloworld), whose files Verilog reads as the text.

    ** Board software

    - [LongDiv]: the 64-bit division (zlib/udiv.c, umod.c), which is division.
    - [Boot]: the boot loader (rv32/bootloader.c).  [Txfns]: output (txfns.c).
    - [Irq]: the interrupt handler (irq.c): it counts, or reports an error and stops.
    - [Syscalls], [SyscallsProps]: the system calls (rv32/syscalls.c): the console,
      the heap and the clock.
    - [Net]: packets on a heap, Ethernet, the checksum (pkt.c, ethproto.c,
      ipcksum.c).  [NetProto]: arp.c, ipproto.c, icmp.c, udpproto.c and the loop
      of pingtest.c.  [NetWp], [NetIp] and [NetRx] have the rules for packets in
      memory; [NetClaims], [NetArp] and [NetUdp] the theorems: the frames that
      answer an echo or address resolution request, datagrams that survive the
      trip, and the packets on which the code fails.
    - [Fft]: the transform server (fftmain.c).  [FftSpec] is the abstract server,
      on the variables of the protocol and without packets or memory;
      [FftProps] and [FftClaims] prove that the server implements it, frame by
      frame.  [FftProto] runs client and abstract server together over a network
      that loses, repeats and reorders datagrams: a transform that is read was
      given the data of the client.

    - [SimplePing]: the earlier network program (board/simple_ping.c, arp.c and
      ipcksum.c).  [PingProps] has its checksum, which assembly, C and the later
      program compute alike, and its reply; [PingClaims] the pings it answers, leaks
      old data to, and fails on, and those it sends.

    ** Bounds

    C integers are integers [Z] with their wrap-around written where a value can
    leave its width.  Loops that end by a count are structural.  The others have
    a bound, and theorems show it is enough: the receiving routines of [TtyBus]
    end within the length of what the line holds ([readword_total],
    [readidle_total]); [udiv_loop] takes at most 64 turns; [flwait] needs more
    turns than the flash is busy for; [write_pages] and [write_sectors] take as
    many as a sector has pages and the flash sectors; the loops of the client
    take ten turns against a server that answers; the loops of [NetUart] take as
    many as there is to read and as writes are refused, and a buffer more; the
    arguments of [Wbregs] take a turn each; [tb_load] calls itself once for each of
    the two memories.  Loops that wait for the
    outside, such as the polling loops of the servers, are modelled by their
    turn.  What a compiler finds in an uninitialised variable is an argument:
    the theorems hold for every value, or say which they need.

    ** Not modelled

    - What is only printed, and the options and messages of the programs'
      [main]; the start of [main] on the board, which sets up hardware.
    - The test signals of testfft.cpp, which are computed with [double].
    - The logic (src/rtl); of main_tb.cpp the ticks, which connect the pins of
      generated code to the parts of the simulation; programs that only print
      (hello.c, gettysburg.c, job.c) or only show registers (netstat.cpp, readmdio.cpp,
      flashid.cpp, the scopes).
    - Code that this design does not build: zipdbg.cpp and zipstate.cpp, for the
      ZipCPU, whose constants are not in the repository; netsetup.cpp, rdclocks.cpp
      and dumpflash.cpp, for macros that are not defined.
    - System calls that open sockets and terminals (udpsocket.cpp,
      automaster_tb.cpp, the start of netuart.cpp).
    - cputest.c, crt0.c and rvboot.S, which are assembly but for the boot loader of
      crt0.c, whose text is that of [Boot]; zlib/syscalls.c, whose text is that of
      [Syscalls] but for the heap, which is there. *)

From stdpp Require Import base tactics list numbers option.
From Stdlib Require Import ZArith Lia.

#[global] Open Scope Z_scope.

(** ** Machine integers

    A C integer is a [Z]; its width is written at the operations that can
    leave it.  [char] and [int] are two's complement, as on the x86 hosts the
    repository's tools run on. *)

Definition u8 (x : Z) : Z := x mod 2 ^ 8.
Definition u16 (x : Z) : Z := x mod 2 ^ 16.
Definition u32 (x : Z) : Z := x mod 2 ^ 32.
Definition u64 (x : Z) : Z := x mod 2 ^ 64.
Definition s8 (x : Z) : Z := (x + 2 ^ 7) mod 2 ^ 8 - 2 ^ 7.
Definition s32 (x : Z) : Z := (x + 2 ^ 31) mod 2 ^ 32 - 2 ^ 31.
Definition s64 (x : Z) : Z := (x + 2 ^ 63) mod 2 ^ 64 - 2 ^ 63.

(** A C condition: any value but zero is true. *)
Definition truthy (x : Z) : bool := negb (x =? 0).

(** The value of a C comparison. *)
Definition of_bool (b : bool) : Z := if b then 1 else 0.

Declare Scope c_scope.
Delimit Scope c_scope with c.
Infix ".&" := Z.land (at level 40, left associativity) : c_scope.
Infix ".|" := Z.lor (at level 50, left associativity) : c_scope.
Infix ".^" := Z.lxor (at level 50, left associativity) : c_scope.
Infix ".<<" := Z.shiftl (at level 38, left associativity) : c_scope.
Infix ".>>" := Z.shiftr (at level 38, left associativity) : c_scope.
Notation "~. x" := (Z.lnot x) (at level 30, right associativity) : c_scope.
#[global] Open Scope c_scope.

(** [zlia] is [lia] with [/] and [mod] by constants unfolded. *)
Ltac zlia := Z.div_mod_to_equations; lia.

(** ** Bits and arithmetic *)

Lemma land_ones_mod (k x : Z) : 0 <= k -> x .& (2 ^ k - 1) = x mod 2 ^ k.
Proof.
  intros Hk. rewrite <- Z.land_ones by done. rewrite Z.ones_equiv. done.
Qed.

Lemma land_1 x : x .& 1 = x mod 2.
Proof. exact (land_ones_mod 1 x ltac:(lia)). Qed.
Lemma land_3 x : x .& 3 = x mod 4.
Proof. exact (land_ones_mod 2 x ltac:(lia)). Qed.
Lemma land_7 x : x .& 7 = x mod 8.
Proof. exact (land_ones_mod 3 x ltac:(lia)). Qed.
Lemma land_15 x : x .& 15 = x mod 16.
Proof. exact (land_ones_mod 4 x ltac:(lia)). Qed.
Lemma land_63 x : x .& 63 = x mod 64.
Proof. exact (land_ones_mod 6 x ltac:(lia)). Qed.
Lemma land_255 x : x .& 255 = x mod 256.
Proof. exact (land_ones_mod 8 x ltac:(lia)). Qed.
Lemma land_1023 x : x .& 1023 = x mod 1024.
Proof. exact (land_ones_mod 10 x ltac:(lia)). Qed.
Lemma land_65535 x : x .& 65535 = x mod 65536.
Proof. exact (land_ones_mod 16 x ltac:(lia)). Qed.
Lemma land_24bits x : x .& 0xffffff = x mod 2 ^ 24.
Proof. exact (land_ones_mod 24 x ltac:(lia)). Qed.

Lemma shiftr_div x k : 0 <= k -> x .>> k = x / 2 ^ k.
Proof. apply Z.shiftr_div_pow2. Qed.

Lemma shiftl_mul x k : 0 <= k -> x .<< k = x * 2 ^ k.
Proof. apply Z.shiftl_mul_pow2. Qed.

Lemma s32_id x : - 2 ^ 31 <= x < 2 ^ 31 -> s32 x = x.
Proof. intros Hx. unfold s32. rewrite Z.mod_small by lia. lia. Qed.

Lemma u32_id x : 0 <= x < 2 ^ 32 -> u32 x = x.
Proof. apply Z.mod_small. Qed.

Lemma testbit_above b k n : 0 <= k -> 0 <= b < 2 ^ k -> k <= n -> Z.testbit b n = false.
Proof.
  intros Hk Hb Hn. rewrite <- (Z.mod_small b (2 ^ k)) by done.
  by apply Z.mod_pow2_bits_high.
Qed.

(** Values that share no bit: [or] is addition. *)
Lemma lor_add a b : a .& b = 0 -> a .| b = a + b.
Proof. intros H. rewrite <- Z.lxor_lor, <- Z.add_nocarry_lxor; done. Qed.

(** [or] of a value shifted by [k] with one of [k] bits is their sum. *)
Lemma lor_shiftl_add a b k :
  0 <= k -> 0 <= b < 2 ^ k -> (a .<< k) .| b = a * 2 ^ k + b.
Proof.
  intros Hk Hb. rewrite lor_add; [by rewrite Z.shiftl_mul_pow2 |].
  apply Z.bits_inj'. intros n Hn. rewrite Z.land_spec, Z.testbit_0_l.
  destruct (Z.lt_ge_cases n k).
  - by rewrite Z.shiftl_spec_low.
  - by rewrite (testbit_above b k n), andb_false_r.
Qed.

Lemma land_bit x i : 0 <= i -> (x .& 2 ^ i =? 0) = negb (Z.testbit x i).
Proof.
  intros Hi. destruct (Z.testbit x i) eqn:E; cbn.
  - apply Z.eqb_neq. intros H. apply (f_equal (fun z => Z.testbit z i)) in H.
    by rewrite Z.land_spec, E, Z.pow2_bits_true, Z.testbit_0_l in H by lia.
  - apply Z.eqb_eq. apply Z.bits_inj'. intros n Hn. rewrite Z.land_spec, Z.testbit_0_l, Z.pow2_bits_eqb by lia.
    destruct (Z.eqb_spec i n) as [<- |]; [by rewrite E | apply andb_false_r].
Qed.

(** ** Deciding a statement on a small range by evaluation *)

Definition forall_range (lo : Z) (n : nat) (P : Z -> bool) : bool :=
  forallb (fun i => P (lo + Z.of_nat i)) (seq 0 n).

Lemma forall_range_spec lo n P :
  forall_range lo n P = true ->
  forall x, lo <= x < lo + Z.of_nat n -> P x = true.
Proof.
  unfold forall_range. rewrite forallb_forall. intros H x Hx.
  replace x with (lo + Z.of_nat (Z.to_nat (x - lo))) by lia.
  apply H. apply in_seq. lia.
Qed.

(** [by_range lo n] proves [P x = true] for a variable [x] bounded in
    context, by evaluating [P] on the [n] integers from [lo]. *)
Ltac by_range x lo n :=
  pattern x;
  match goal with
  | |- (fun y => ?P = true) x =>
      refine (forall_range_spec lo n (fun y => P) _ x _);
      [vm_compute; reflexivity | lia]
  end.

(** Boolean hypotheses, as propositions. *)
Ltac bools := repeat match goal with
  | H : _ && _ = true |- _ => apply andb_true_iff in H as [? ?]
  | H : _ && _ = false |- _ => apply andb_false_iff in H
  | H : _ || _ = true |- _ => apply orb_true_iff in H
  | H : _ || _ = false |- _ => apply orb_false_iff in H as [? ?]
  | H : (_ <=? _) = true |- _ => apply Z.leb_le in H
  | H : (_ <=? _) = false |- _ => apply Z.leb_gt in H
  | H : (_ <? _) = true |- _ => apply Z.ltb_lt in H
  | H : (_ <? _) = false |- _ => apply Z.ltb_ge in H
  end.

(** ** Record update

    [s <| f := v |>] updates field [f]; every field of a state record that the
    code assigns has its [Setter] instance. *)

Class Setter {R E : Type} (getter : R -> E) := set_field : E -> R -> R.
Arguments set_field {R E} getter {Setter} v s.
Notation "s <| f := v |>" := (set_field f v s)
  (at level 1, left associativity, f at level 0, v at level 99,
   format "s  <| f  :=  v |>").

(** ** Effects

    The C++ code mutates an object, throws, asserts, exits and loops on its
    environment.  [M S A] threads the object's state [S]; an [exn] is every way
    of not returning. *)

Inductive exn : Type :=
  | BUSERR (addr : Z)      (** [throw BUSERR(addr)] *)
  | COMMFAIL               (** [throw "Read-Failure"] / ["Write-Failure"] *)
  | EXIT (code : Z)        (** [exit(code)] *)
  | ASSERT                 (** a failed [assert] *)
  | FAULT                  (** an access outside of an array *)
  | HANG                   (** [for(;;) ;] *)
  | NOFUEL.                (** the bound given to a loop ran out *)

Inductive res (S A : Type) : Type :=
  | Ret (a : A) (s : S)
  | Exn (e : exn) (s : S).
Arguments Ret {S A} a s.
Arguments Exn {S A} e s.

Definition M (S A : Type) : Type := S -> res S A.

Definition ret {S A} (a : A) : M S A := fun s => Ret a s.
Definition raise {S A} (e : exn) : M S A := fun s => Exn e s.
Definition bind {S A B} (m : M S A) (k : A -> M S B) : M S B := fun s =>
  match m s with
  | Ret a s' => k a s'
  | Exn e s' => Exn e s'
  end.
Definition get {S} : M S S := fun s => Ret s s.
Definition gets {S A} (f : S -> A) : M S A := fun s => Ret (f s) s.
Definition modify {S} (f : S -> S) : M S unit := fun s => Ret tt (f s).
Definition assert {S} (b : bool) : M S unit := if b then ret tt else raise ASSERT.
(** [try { m } catch(BUSERR b) { throw BUSERR(h b) }], with the state at the throw. *)
Definition rethrow_buserr {S A} (h : S -> Z -> Z) (m : M S A) : M S A := fun s =>
  match m s with
  | Exn (BUSERR b) s' => Exn (BUSERR (h s' b)) s'
  | r => r
  end.

Declare Scope monad_scope.
Delimit Scope monad_scope with monad.
Notation "'let*' x ':=' m 'in' k" := (bind m (fun x => k))
  (at level 10, x pattern, m at level 100, k at level 200,
   format "'[v' 'let*'  x  ':='  m  'in' '/' k ']'").
Notation "m ;; k" := (bind m (fun _ => k))
  (at level 100, k at level 200, right associativity) : monad_scope.
#[global] Open Scope monad_scope.

(** A loop whose body either continues with a new loop variable ([inl]) or
    leaves with a result ([inr]); [fuel] bounds the number of iterations. *)
Fixpoint loop {S A B} (fuel : nat) (body : A -> M S (A + B)) (a : A) : M S B :=
  match fuel with
  | O => raise NOFUEL
  | Datatypes.S fuel' =>
      bind (body a) (fun r =>
        match r with
        | inl a' => loop fuel' body a'
        | inr b => ret b
        end)
  end.

(** [for_each l f]: a loop over the elements of a list, in order. *)
Fixpoint for_each {S A} (l : list A) (f : A -> M S unit) : M S unit :=
  match l with
  | [] => ret tt
  | x :: l' => bind (f x) (fun _ => for_each l' f)
  end.

(** ** Running

    A sequence of steps, rewritten by the results of its steps. *)

Lemma bind_eq {St A B} (m : M St A) (k : A -> M St B) s a s' : m s = Ret a s' -> bind m k s = k a s'.
Proof. unfold bind. by intros ->. Qed.
Lemma bind_cong {St A B} (m m' : M St A) (k : A -> M St B) s s' : m s = m' s' -> bind m k s = bind m' k s'.
Proof. unfold bind. by intros ->. Qed.
Lemma bind_assoc {St A B C} (m : M St A) (k : A -> M St B) (j : B -> M St C) s :
  bind (bind m k) j s = bind m (fun a => bind (k a) j) s.
Proof. unfold bind. by destruct (m s). Qed.
Lemma bind_exn {St A B} (m : M St A) (k : A -> M St B) s e s' : m s = Exn e s' -> bind m k s = Exn e s'.
Proof. unfold bind. by intros ->. Qed.

(** One step of a sequence, given its result. *)
Ltac nstep e := rewrite (bind_eq _ _ _ _ _ e).

(** ** Lists *)

(** The first elements, the last of them just stored. *)
Lemma take_insert_end {A} (l : list A) n v : (n < length l)%nat -> take (S n) (<[n := v]> l) = take n l ++ [v].
Proof. intros Hn. rewrite (take_S_r _ n v) by (by apply list_lookup_insert_eq). by rewrite take_insert_ge. Qed.

Lemma split_list {A} (n : nat) (l : list A) : (n <= length l)%nat ->
  exists x y, l = x ++ y /\ length x = n /\ length y = (length l - n)%nat.
Proof.
  intros Hn. exists (take n l), (drop n l). rewrite take_drop, length_take, length_drop. split; [done | lia].
Qed.

(** Nested appends, to the right. *)
Ltac lapp := repeat first [progress cbn [app] | rewrite <- app_assoc].

(** ** Weakest preconditions

    [wp m Q E s]: run from [s], [m] returns into [Q] or raises into [E]. *)

Definition wp {S A} (m : M S A) (Q : A -> S -> Prop) (E : exn -> S -> Prop) (s : S) : Prop :=
  match m s with
  | Ret a s' => Q a s'
  | Exn e s' => E e s'
  end.

#[global] Arguments wp : simpl never.
#[global] Arguments bind : simpl never.
#[global] Arguments ret : simpl never.
#[global] Arguments raise : simpl never.
#[global] Arguments get : simpl never.
#[global] Arguments gets : simpl never.
#[global] Arguments modify : simpl never.
#[global] Arguments assert : simpl never.

Section Wp.
Context {S A B : Type}.
Implicit Types (s : S).

Lemma wp_ret (a : A) Q E s : Q a s -> wp (ret a) Q E s.
Proof. done. Qed.

Lemma wp_raise e Q E s : E e s -> wp (raise (A := A) e) Q E s.
Proof. done. Qed.

Lemma wp_get Q E s : Q s s -> wp get Q E s.
Proof. done. Qed.

Lemma wp_gets (f : S -> A) Q E s : Q (f s) s -> wp (gets f) Q E s.
Proof. done. Qed.

Lemma wp_modify f Q E s : Q tt (f s) -> wp (modify f) Q E s.
Proof. done. Qed.

Lemma wp_bind (m : M S A) (k : A -> M S B) Q E s :
  wp m (fun a s' => wp (k a) Q E s') E s -> wp (bind m k) Q E s.
Proof. unfold wp, bind. by destruct (m s). Qed.

Lemma wp_assert b Q E s :
  (b = true -> Q tt s) -> (b = false -> E ASSERT s) -> wp (assert b) Q E s.
Proof. destruct b; cbv; auto. Qed.

Lemma wp_mono (m : M S A) (Q Q' : A -> S -> Prop) (E E' : exn -> S -> Prop) s :
  wp m Q E s ->
  (forall a s', Q a s' -> Q' a s') ->
  (forall e s', E e s' -> E' e s') ->
  wp m Q' E' s.
Proof. unfold wp. destruct (m s); eauto. Qed.

Lemma wp_and (m : M S A) (Q1 Q2 : A -> S -> Prop) (E1 E2 : exn -> S -> Prop) s :
  wp m Q1 E1 s -> wp m Q2 E2 s ->
  wp m (fun a s' => Q1 a s' /\ Q2 a s') (fun e s' => E1 e s' /\ E2 e s') s.
Proof. unfold wp. by destruct (m s). Qed.

End Wp.

Section WpLoop.
Context {S A B : Type}.
Implicit Types (s : S).

(** A loop with an invariant and a measure that fuel covers. *)
Lemma wp_loop (body : A -> M S (A + B)) (I : A -> S -> Prop) (m : A -> S -> nat) Q E fuel a s :
  (forall a s, I a s ->
    wp (body a) (fun r s' =>
      match r with
      | inl a' => I a' s' /\ (m a' s' < m a s)%nat
      | inr b => Q b s'
      end) E s) ->
  I a s -> (m a s < fuel)%nat ->
  wp (loop fuel body a) Q E s.
Proof.
  intros Hstep. revert a s. induction fuel as [| fuel IH]; intros a s HI Hm; [lia |].
  cbn [loop]. apply wp_bind. eapply wp_mono; [by apply Hstep | | done].
  intros [a' | b] s' H; cbv beta iota in H.
  - destruct H. apply IH; [done | lia].
  - by apply wp_ret.
Qed.

Lemma wp_for_each (l : list A) (f : A -> M S unit) (I : list A -> S -> Prop) Q E s :
  (forall x l s, I (x :: l) s -> wp (f x) (fun _ s' => I l s') E s) ->
  (forall s, I [] s -> Q tt s) ->
  I l s -> wp (for_each l f) Q E s.
Proof.
  intros Hf HQ. revert s. induction l as [| x l IH]; intros s HI; cbn [for_each].
  - apply wp_ret. auto.
  - apply wp_bind. eapply wp_mono; [by apply Hf | | done]. intros [] s'. cbn. apply IH.
Qed.
End WpLoop.

Create HintDb wp.
#[export] Hint Resolve wp_ret wp_raise wp_get wp_gets wp_modify : wp.

(** One step of symbolic execution. *)
Ltac wp_step :=
  lazymatch goal with
  | |- wp (bind _ _) _ _ _ => apply wp_bind
  | |- wp (ret _) _ _ _ => apply wp_ret
  | |- wp (raise _) _ _ _ => apply wp_raise
  | |- wp get _ _ _ => apply wp_get
  | |- wp (gets _) _ _ _ => apply wp_gets
  | |- wp (modify _) _ _ _ => apply wp_modify
  | |- wp (assert _) _ _ _ => apply wp_assert; intros
  end.
