(* ===== verification/LLComms.v ===== *)
(** The byte channel to the FPGA: [LLCOMMSI] of src/sw/host/llcomms.cpp.

    The class wraps a pair of file descriptors.  The operating system's
    [read], [write], [poll] and [close] are not code of the repository: they
    are the operations of the class [Os], and [OsLaws] is what POSIX documents
    of them for a stream descriptor (a read delivers a non-empty prefix of the
    pending bytes, a write of [n] bytes to a blocking descriptor accepts all of
    them, a poll that reports POLLIN means that a read will not block).
    [Fifo] is an instance: a pair of byte queues with a bound on the bytes one
    read delivers. *)

From stdpp Require Import base tactics list numbers option.
From Stdlib Require Import ZArith Lia.
From S2P Require Import Prelude.
Local Open Scope Z_scope.

(** The operating system, with two observations of its state: the bytes it
    holds for the reader, and everything that was written. *)
Class Os (W : Type) := {
  os_read : Z -> Z -> W -> Z * list Z * W;   (** fd, length: return value, bytes stored *)
  os_write : Z -> list Z -> W -> Z * W;      (** fd, bytes: return value *)
  os_poll : Z -> Z -> W -> bool * W;         (** fd, timeout: is POLLIN set? *)
  os_close : Z -> W -> W;
  incoming : W -> list Z;
  sent : W -> list Z
}.

Class OsLaws (W : Type) `{Os W} : Prop := {
  os_read_some : forall fd len w, 0 < len -> incoming w <> [] ->
    exists k w', (1 <= k <= Z.to_nat len)%nat /\ (k <= length (incoming w))%nat /\
      os_read fd len w = (Z.of_nat k, take k (incoming w), w') /\
      incoming w' = drop k (incoming w) /\ sent w' = sent w;
  os_read_none : forall fd len w, incoming w = [] ->
    exists r w', r <= 0 /\ os_read fd len w = (r, [], w') /\
      incoming w' = [] /\ sent w' = sent w;
  os_write_all : forall fd bs w, bs <> [] ->
    exists reply w', os_write fd bs w = (Z.of_nat (length bs), w') /\
      sent w' = sent w ++ bs /\ incoming w' = incoming w ++ reply;
  os_poll_frame : forall fd ms w,
    incoming (os_poll fd ms w).2 = incoming w /\ sent (os_poll fd ms w).2 = sent w;
  os_poll_in : forall fd ms w, (os_poll fd ms w).1 = true -> incoming w <> []
}.

Section LLCOMMSI.
Context {W : Type} {HOs : Os W}.

(** The members of [class LLCOMMSI], and the operating system they act on. *)
Record LLCOMMSI : Type := mkLLCOMMSI {
  m_fdw : Z;
  m_fdr : Z;
  ll_total_nread : Z;
  ll_total_nwrit : Z;
  ll_os : W
}.

Definition LLCOMMSI_init (w : W) : LLCOMMSI := mkLLCOMMSI (-1) (-1) 0 0 w.

Definition ll_write (bs : list Z) : M LLCOMMSI unit := fun c =>
  let '(nw, w') := os_write (m_fdw c) bs (ll_os c) in
  if nw <=? 0 then Exn COMMFAIL (mkLLCOMMSI (m_fdw c) (m_fdr c) (ll_total_nread c) (ll_total_nwrit c) w')
  else
    let c' := mkLLCOMMSI (m_fdw c) (m_fdr c) (ll_total_nread c) (u64 (ll_total_nwrit c + nw)) w' in
    assert (nw =? Z.of_nat (length bs)) c'.

(** The bytes [read] stored into the caller's buffer, with the count it returns. *)
Definition ll_read (len : Z) : M LLCOMMSI (Z * list Z) := fun c =>
  let '(nr, bs, w') := os_read (m_fdr c) len (ll_os c) in
  if nr <=? 0 then Exn COMMFAIL (mkLLCOMMSI (m_fdw c) (m_fdr c) (ll_total_nread c) (ll_total_nwrit c) w')
  else Ret (nr, bs)
    (mkLLCOMMSI (m_fdw c) (m_fdr c) (u64 (ll_total_nread c + nr)) (ll_total_nwrit c) w').

Definition ll_close (c : LLCOMMSI) : LLCOMMSI :=
  let w := if 0 <=? m_fdw c then os_close (m_fdw c) (ll_os c) else ll_os c in
  let w := if (0 <=? m_fdr c) && negb (m_fdr c =? m_fdw c) then os_close (m_fdr c) w else w in
  mkLLCOMMSI (-1) (-1) (ll_total_nread c) (ll_total_nwrit c) w.

Definition ll_poll (ms : Z) : M LLCOMMSI bool := fun c =>
  let '(b, w') := os_poll (m_fdr c) ms (ll_os c) in
  Ret b (mkLLCOMMSI (m_fdw c) (m_fdr c) (ll_total_nread c) (ll_total_nwrit c) w').

Definition ll_available : M LLCOMMSI Z :=
  let* b := ll_poll 0 in ret (of_bool b).

Context {HL : OsLaws W}.

Definition ll_incoming (c : LLCOMMSI) : list Z := incoming (ll_os c).
Definition ll_sent (c : LLCOMMSI) : list Z := sent (ll_os c).

(** A read of at least one byte delivers a non-empty prefix of what is pending,
    or throws when nothing is. *)
Lemma ll_read_wp len c (Q : Z * list Z -> LLCOMMSI -> Prop) (E : exn -> LLCOMMSI -> Prop) :
  0 < len ->
  (forall k c', (1 <= k <= Z.to_nat len)%nat -> (k <= length (ll_incoming c))%nat ->
     ll_incoming c' = drop k (ll_incoming c) -> ll_sent c' = ll_sent c ->
     Q (Z.of_nat k, take k (ll_incoming c)) c') ->
  (ll_incoming c = [] -> forall c', ll_incoming c' = [] -> ll_sent c' = ll_sent c -> E COMMFAIL c') ->
  wp (ll_read len) Q E c.
Proof.
  intros Hlen HQ HE. unfold wp, ll_read.
  destruct (decide (incoming (ll_os c) = [])) as [Hnil | Hne].
  - destruct (os_read_none (m_fdr c) len _ Hnil) as (r & w' & Hr & -> & Hi & Hs).
    destruct (Z.leb_spec r 0); [| lia]. by apply HE.
  - destruct (os_read_some (m_fdr c) len _ Hlen Hne) as (k & w' & Hk & Hkl & -> & Hi & Hs).
    destruct (Z.leb_spec (Z.of_nat k) 0); [lia |]. by apply HQ.
Qed.

(** The peer does not answer the next write of [bs]. *)
Definition no_answer (bs : list Z) (c : LLCOMMSI) : Prop :=
  incoming (os_write (m_fdw c) bs (ll_os c)).2 = incoming (ll_os c).

(** A write of a non-empty buffer is sent whole. *)
Lemma ll_write_wp bs c (Q : unit -> LLCOMMSI -> Prop) (E : exn -> LLCOMMSI -> Prop) :
  bs <> [] ->
  (forall reply c', ll_sent c' = ll_sent c ++ bs -> ll_incoming c' = ll_incoming c ++ reply ->
     (no_answer bs c -> reply = []) -> Q tt c') ->
  wp (ll_write bs) Q E c.
Proof.
  intros Hbs HQ. unfold wp, ll_write.
  destruct (os_write_all (m_fdw c) bs (ll_os c) Hbs) as (reply & w' & Hw & Hs & Hi).
  assert (Hnr : no_answer bs c -> reply = []).
  { unfold no_answer. rewrite Hw. cbn. intros Hnr.
    apply (app_inv_head (incoming (ll_os c))). by rewrite app_nil_r, <- Hi. }
  rewrite Hw. clear Hw.
  assert (0 < Z.of_nat (length bs)) by (destruct bs; [done | cbn; lia]).
  destruct (Z.leb_spec (Z.of_nat (length bs)) 0); [lia |].
  rewrite Z.eqb_refl. by apply (HQ reply).
Qed.

(** Polling changes neither the pending bytes nor the sent ones, and does not
    promise bytes that are not there. *)
Lemma ll_poll_wp ms c (Q : bool -> LLCOMMSI -> Prop) (E : exn -> LLCOMMSI -> Prop) :
  (forall b c', ll_incoming c' = ll_incoming c -> ll_sent c' = ll_sent c ->
     (b = true -> ll_incoming c <> []) -> Q b c') ->
  wp (ll_poll ms) Q E c.
Proof.
  intros HQ. unfold wp, ll_poll.
  pose proof (os_poll_frame (m_fdr c) ms (ll_os c)) as [Hi Hs].
  pose proof (os_poll_in (m_fdr c) ms (ll_os c)) as Hin.
  destruct (os_poll _ _ _) as [b w']; cbn in *. by apply HQ.
Qed.

Lemma ll_available_wp c (Q : Z -> LLCOMMSI -> Prop) (E : exn -> LLCOMMSI -> Prop) :
  (forall b c', ll_incoming c' = ll_incoming c -> ll_sent c' = ll_sent c ->
     (b = true -> ll_incoming c <> []) -> Q (of_bool b) c') ->
  wp ll_available Q E c.
Proof. intros HQ. apply wp_bind, ll_poll_wp. intros b c' ? ? ?. apply wp_ret. by apply HQ. Qed.
End LLCOMMSI.

Arguments LLCOMMSI W : clear implicits.

(** ** A concrete operating system: two queues

    [fifo_max] bounds the bytes that one read delivers, so that a reader has
    to cope with partial reads. *)
Record Fifo : Type := mkFifo { fifo_rx : list Z; fifo_tx : list Z; fifo_max : nat }.

Definition fifo_read (len : Z) (w : Fifo) : Z * list Z * Fifo :=
  let k := Nat.min (Nat.min (Z.to_nat len) (S (fifo_max w))) (length (fifo_rx w)) in
  (Z.of_nat k, take k (fifo_rx w), mkFifo (drop k (fifo_rx w)) (fifo_tx w) (fifo_max w)).

#[export] Instance fifo_os : Os Fifo := {
  os_read _ len w := fifo_read len w;
  os_write _ bs w :=
    (Z.of_nat (length bs), mkFifo (fifo_rx w) (fifo_tx w ++ bs) (fifo_max w));
  os_poll _ _ w := (match fifo_rx w with [] => false | _ => true end, w);
  os_close _ w := w;
  incoming := fifo_rx;
  sent := fifo_tx
}.

#[export] Instance fifo_laws : OsLaws Fifo.
Proof.
  split; cbn; unfold fifo_read.
  - intros _ len [rx tx mx] Hlen Hne; cbn in *.
    destruct rx as [| x rx]; [done |].
    eexists _, _; split; [| split; [| split; [reflexivity | done]]]; cbn [length]; lia.
  - intros _ len [rx tx mx] Heq; cbn in *. subst rx. rewrite Nat.min_0_r.
    exists 0, (mkFifo [] tx mx). by split_and!.
  - intros _ bs w _. exists [], (mkFifo (fifo_rx w) (fifo_tx w ++ bs) (fifo_max w)).
    split_and!; [done.. |]. cbn. by rewrite app_nil_r.
  - done.
  - intros _ _ [[| x rx] tx mx]; done.
Qed.
