(* ===== verification/TtyBus.v ===== *)
(** The host end of the debugging bus: [TTYBUS] of src/sw/host/ttybus.cpp.

    [TTYBUS] implements [DEVBUS] (src/sw/host/devbus.h) over a byte channel: a
    read or write of 32-bit words on the FPGA's Wishbone bus becomes a string of
    printable characters, six bits each, and the FPGA's answer is decoded from
    such a string.  Every method of the class is a definition here, with the
    object's members as the record [TTYBUS].

    Buffers: [m_buf] is the list of the characters of the allocation ([[]] is
    the null pointer), a pointer into it is an offset, and an access outside of
    it is the exception [FAULT].  [BUSW] values are integers below 2^32. *)

From stdpp Require Import base tactics list numbers option.
From Stdlib Require Import ZArith Lia.
From S2P Require Import Prelude LLComms.
Local Open Scope Z_scope.

(** ** The six-bit character code *)

Definition charenc (sixbitval : Z) : option Z :=
  if sixbitval <? 10 then Some (s8 (48 + sixbitval))
  else if sixbitval <? 10 + 26 then Some (s8 (65 - 10 + sixbitval))
  else if sixbitval <? 10 + 26 + 26 then Some (s8 (97 - 10 - 26 + sixbitval))
  else if sixbitval =? 0x3e then Some 64
  else if sixbitval =? 0x3f then Some 37
  else None. (* assert((sixbitval & (~0x03f))==0) fails: sixbitval > 0x3f *)

Definition chardec (b : Z) : Z :=
  if (48 <=? b) && (b <=? 57) then b - 48
  else if (65 <=? b) && (b <=? 90) then b - 65 + 10
  else if (97 <=? b) && (b <=? 122) then b - 97 + 36
  else if b =? 64 then 0x3e
  else if b =? 37 then 0x3f
  else 0x100.

(** [chardec(b)&(~0x3f)]: not a code character. *)
Definition notcode (b : Z) : bool := truthy (chardec b .& ~. 0x3f).

Definition decodehex (hx : Z) : Z :=
  if (48 <=? hx) && (hx <=? 57) then hx - 48
  else if (65 <=? hx) && (hx <=? 90) then hx - 65 + 10
  else if (97 <=? hx) && (hx <=? 122) then hx - 97 + 10
  else 0.

(** [decodestr]: a 32-bit value from the low bits of six characters. *)
Definition decodestr (c0 c1 c2 c3 c4 c5 : Z) : Z :=
  let r := chardec c0 .& 0x03 in
  let r := u32 (r .<< 6) .| (chardec c1 .& 0x03f) in
  let r := u32 (r .<< 6) .| (chardec c2 .& 0x03f) in
  let r := u32 (r .<< 6) .| (chardec c3 .& 0x03f) in
  let r := u32 (r .<< 6) .| (chardec c4 .& 0x03f) in
  u32 (r .<< 6) .| (chardec c5 .& 0x03f).

(** The in-place filter of [lclreadcode]: [nr] characters from [buf], [sp] and
    [dp] as the code moves them, [ret] the count of code characters. *)
Fixpoint lclfilter (n : nat) (sp dp : nat) (rt : Z) (buf : list Z) : Z * list Z :=
  match n with
  | O => (rt, buf)
  | S n' =>
      if notcode (buf !!! sp) then lclfilter n' (S sp) dp (rt - 1) buf
      else lclfilter n' (S sp) (S dp) rt (<[sp := buf !!! dp]> buf)
  end.

Definition MAXRDLEN : Z := 1024.
Definition MAXWRLEN : Z := 32.

Section TTYBUS.
Context {W : Type} {HOs : Os W}.

(** The members of [class TTYBUS] (src/sw/host/ttybus.h); [m_rdfirst],
    [m_rdlast] and [m_rdbuf] are initialised and never used. *)
Record TTYBUS : Type := mkTTYBUS {
  m_total_nread : Z;
  m_dev : LLCOMMSI W;
  m_interrupt_flag : bool;
  m_decode_err : bool;
  m_addr_set : bool;
  m_bus_err : bool;
  m_lastaddr : Z;
  m_buflen : Z;
  m_buf : list Z;
  m_wrloaded : bool;
  m_rdaddr : Z;
  m_wraddr : Z;
  m_readtbl : list Z;   (* 1024 words *)
  m_writetbl : list Z   (* 512 words *)
}.

#[export] Instance set_m_total_nread : Setter m_total_nread := fun v s =>
  mkTTYBUS v (m_dev s) (m_interrupt_flag s) (m_decode_err s) (m_addr_set s) (m_bus_err s) (m_lastaddr s) (m_buflen s) (m_buf s) (m_wrloaded s) (m_rdaddr s) (m_wraddr s) (m_readtbl s) (m_writetbl s).
#[export] Instance set_m_dev : Setter m_dev := fun v s =>
  mkTTYBUS (m_total_nread s) v (m_interrupt_flag s) (m_decode_err s) (m_addr_set s) (m_bus_err s) (m_lastaddr s) (m_buflen s) (m_buf s) (m_wrloaded s) (m_rdaddr s) (m_wraddr s) (m_readtbl s) (m_writetbl s).
#[export] Instance set_m_interrupt_flag : Setter m_interrupt_flag := fun v s =>
  mkTTYBUS (m_total_nread s) (m_dev s) v (m_decode_err s) (m_addr_set s) (m_bus_err s) (m_lastaddr s) (m_buflen s) (m_buf s) (m_wrloaded s) (m_rdaddr s) (m_wraddr s) (m_readtbl s) (m_writetbl s).
#[export] Instance set_m_addr_set : Setter m_addr_set := fun v s =>
  mkTTYBUS (m_total_nread s) (m_dev s) (m_interrupt_flag s) (m_decode_err s) v (m_bus_err s) (m_lastaddr s) (m_buflen s) (m_buf s) (m_wrloaded s) (m_rdaddr s) (m_wraddr s) (m_readtbl s) (m_writetbl s).
#[export] Instance set_m_bus_err : Setter m_bus_err := fun v s =>
  mkTTYBUS (m_total_nread s) (m_dev s) (m_interrupt_flag s) (m_decode_err s) (m_addr_set s) v (m_lastaddr s) (m_buflen s) (m_buf s) (m_wrloaded s) (m_rdaddr s) (m_wraddr s) (m_readtbl s) (m_writetbl s).
#[export] Instance set_m_lastaddr : Setter m_lastaddr := fun v s =>
  mkTTYBUS (m_total_nread s) (m_dev s) (m_interrupt_flag s) (m_decode_err s) (m_addr_set s) (m_bus_err s) v (m_buflen s) (m_buf s) (m_wrloaded s) (m_rdaddr s) (m_wraddr s) (m_readtbl s) (m_writetbl s).
#[export] Instance set_m_buflen : Setter m_buflen := fun v s =>
  mkTTYBUS (m_total_nread s) (m_dev s) (m_interrupt_flag s) (m_decode_err s) (m_addr_set s) (m_bus_err s) (m_lastaddr s) v (m_buf s) (m_wrloaded s) (m_rdaddr s) (m_wraddr s) (m_readtbl s) (m_writetbl s).
#[export] Instance set_m_buf : Setter m_buf := fun v s =>
  mkTTYBUS (m_total_nread s) (m_dev s) (m_interrupt_flag s) (m_decode_err s) (m_addr_set s) (m_bus_err s) (m_lastaddr s) (m_buflen s) v (m_wrloaded s) (m_rdaddr s) (m_wraddr s) (m_readtbl s) (m_writetbl s).
#[export] Instance set_m_wrloaded : Setter m_wrloaded := fun v s =>
  mkTTYBUS (m_total_nread s) (m_dev s) (m_interrupt_flag s) (m_decode_err s) (m_addr_set s) (m_bus_err s) (m_lastaddr s) (m_buflen s) (m_buf s) v (m_rdaddr s) (m_wraddr s) (m_readtbl s) (m_writetbl s).
#[export] Instance set_m_rdaddr : Setter m_rdaddr := fun v s =>
  mkTTYBUS (m_total_nread s) (m_dev s) (m_interrupt_flag s) (m_decode_err s) (m_addr_set s) (m_bus_err s) (m_lastaddr s) (m_buflen s) (m_buf s) (m_wrloaded s) v (m_wraddr s) (m_readtbl s) (m_writetbl s).
#[export] Instance set_m_wraddr : Setter m_wraddr := fun v s =>
  mkTTYBUS (m_total_nread s) (m_dev s) (m_interrupt_flag s) (m_decode_err s) (m_addr_set s) (m_bus_err s) (m_lastaddr s) (m_buflen s) (m_buf s) (m_wrloaded s) (m_rdaddr s) v (m_readtbl s) (m_writetbl s).
#[export] Instance set_m_readtbl : Setter m_readtbl := fun v s =>
  mkTTYBUS (m_total_nread s) (m_dev s) (m_interrupt_flag s) (m_decode_err s) (m_addr_set s) (m_bus_err s) (m_lastaddr s) (m_buflen s) (m_buf s) (m_wrloaded s) (m_rdaddr s) (m_wraddr s) v (m_writetbl s).
#[export] Instance set_m_writetbl : Setter m_writetbl := fun v s =>
  mkTTYBUS (m_total_nread s) (m_dev s) (m_interrupt_flag s) (m_decode_err s) (m_addr_set s) (m_bus_err s) (m_lastaddr s) (m_buflen s) (m_buf s) (m_wrloaded s) (m_rdaddr s) (m_wraddr s) (m_readtbl s) v.

(** ** Buffers and the device *)

(** An operation of the device object, run on [m_dev]. *)
Definition dev {A} (m : M (LLCOMMSI W) A) : M TTYBUS A := fun s =>
  match m (m_dev s) with
  | Ret a d => Ret a (s <| m_dev := d |>)
  | Exn e d => Exn e (s <| m_dev := d |>)
  end.

(** [m_buf[i] = c] *)
Definition poke (i : nat) (c : Z) : M TTYBUS unit := fun s =>
  if decide (i < length (m_buf s))%nat
  then Ret tt (s <| m_buf := <[i := c]> (m_buf s) |>)
  else Exn FAULT s.

(** [*ptr++ = charenc(v)]: the new value of [ptr]. *)
Definition putc (ptr : nat) (v : Z) : M TTYBUS nat :=
  match charenc v with
  | Some c => poke ptr c ;; ret (S ptr)
  | None => raise ASSERT
  end.

Fixpoint putcs (ptr : nat) (vs : list Z) : M TTYBUS nat :=
  match vs with
  | [] => ret ptr
  | v :: vs' => let* ptr' := putc ptr v in putcs ptr' vs'
  end.

(** [m_dev->write(m_buf, n)] *)
Definition dev_write (n : nat) : M TTYBUS unit := fun s =>
  if decide (n <= length (m_buf s))%nat then dev (ll_write (take n (m_buf s))) s
  else Exn FAULT s.

Definition bufalloc (len : Z) : M TTYBUS unit := fun s =>
  if (match m_buf s with [] => false | _ => true end) && (len <=? m_buflen s) then Ret tt s
  else
    let buflen := (len .& (-0x3f)) + 0x40 in
    Ret tt (s <| m_buflen := buflen |> <| m_buf := replicate (Z.to_nat buflen) 0 |>).

(** The constructor: [init()] on a device, with the indeterminate contents of
    the members it leaves alone. *)
Definition init (comms : LLCOMMSI W) (lastaddr0 : Z) (readtbl0 writetbl0 : list Z) : TTYBUS :=
  match bufalloc 64 (mkTTYBUS 0 comms false false false false lastaddr0 0 [] false 0 0
                       readtbl0 writetbl0) with
  | Ret _ s => s
  | Exn _ s => s
  end.

Definition encode (hb val : Z) (buf : nat) : M TTYBUS nat :=
  putcs buf [ (hb .<< 2) .| ((val .>> 30) .& 0x03);
              (val .>> 24) .& 0x3f;
              (val .>> 18) .& 0x3f;
              (val .>> 12) .& 0x3f;
              (val .>> 6) .& 0x3f;
              val .& 0x3f ].

(** ** Receiving *)

Definition lclreadcode (off : nat) (len : Z) : M TTYBUS Z := fun s =>
  if decide (off + Z.to_nat len <= length (m_buf s))%nat then
    (let* (nr, bs) := dev (ll_read len) in
     let '(rt, bs') := lclfilter (length bs) 0 0 nr bs in
     modify (fun s => s <| m_total_nread := u64 (m_total_nread s + nr) |>
                        <| m_buf := list_inserts off bs' (m_buf s) |>) ;;
     ret rt) s
  else Exn FAULT s.

(** Enough iterations for any loop that consumes a byte every time around. *)
Definition rxfuel (s : TTYBUS) : nat := S (S (length (ll_incoming (m_dev s)))).

(** [do { nr = lclreadcode(&m_buf[0], 1); } while (nr < 1);] *)
Definition readcode1 : M TTYBUS Z := fun s =>
  loop (rxfuel s) (fun _ : unit =>
    let* nr := lclreadcode 0 1 in
    ret (if nr <? 1 then inl tt else inr nr)) tt s.

(** [do { nr += lclreadcode(&m_buf[nr], n-nr); } while (nr < n);] *)
Definition readcodes (n : Z) (nr : Z) : M TTYBUS Z := fun s =>
  loop (rxfuel s) (fun nr =>
    let* k := lclreadcode (Z.to_nat nr) (n - nr) in
    let nr := nr + k in
    ret (if nr <? n then inl nr else inr nr)) nr s.

(** The character [m_buf[i]], decoded. *)
Definition bufdec (s : TTYBUS) (i : nat) : Z := chardec (m_buf s !!! i).

(** [val = (val<<6) | (chardec(m_buf[i]) & 0x03f)] *)
Definition shiftin (s : TTYBUS) (val : Z) (i : nat) : Z :=
  u32 (val .<< 6) .| (bufdec s i .& 0x03f).

(** Six more bits from each of [m_buf[1]] to [m_buf[5]]. *)
Definition shiftin5 (s : TTYBUS) (val : Z) : Z :=
  shiftin s (shiftin s (shiftin s (shiftin s (shiftin s val 1) 2) 3) 4) 5.

(** The value of a compressed address of [nw] characters. *)
Definition caddrval (s : TTYBUS) (nw : Z) : Z :=
  if nw =? 2 then bufdec s 1
  else if nw =? 3 then shiftin s (bufdec s 1) 2
  else if nw =? 4 then shiftin s (shiftin s (bufdec s 1) 2) 3
  else shiftin s (shiftin s (shiftin s (bufdec s 1) 2) 3) 4.

Definition add_lastaddr (sixbits : Z) (s : TTYBUS) : TTYBUS :=
  s <| m_lastaddr := u32 (m_lastaddr s + (if truthy (sixbits .& 1) then 4 else 0)) |>.

(** A table read: the value [idx] back, and the address moves on. *)
Definition tblread (idx sixbits : Z) : M TTYBUS Z :=
  let* s := get in
  let rdaddr := (m_rdaddr s - idx) .& 0x03ff in
  let val := m_readtbl s !!! Z.to_nat rdaddr in
  modify (add_lastaddr sixbits) ;;
  ret val.

(** The codeword that starts with [sixbits] in [m_buf[0]] is a data word:
    decode it.  [val] is what the code returns for an unknown character. *)
Definition readdata (sixbits nr val : Z) : M TTYBUS Z :=
  if 0x06 =? sixbits .& 0x03e then tblread 1 sixbits
  else if 0x10 =? sixbits .& 0x030 then
    readcodes 2 nr ;;
    let* s := get in
    let idx := (bufdec s 0 .>> 1) .& 0x07 in
    let idx := ((idx .<< 6) .| (bufdec s 1 .& 0x03f)) + 2 + 8 in
    tblread idx sixbits
  else if 0x20 =? sixbits .& 0x030 then
    tblread (((sixbits .>> 1) .& 0x07) + 2) sixbits
  else if 0x38 =? sixbits .& 0x038 then
    readcodes 6 nr ;;
    let* s := get in
    let val := shiftin5 s ((bufdec s 0 .>> 1) .& 0x03) in
    modify (fun s => s <| m_readtbl := <[Z.to_nat (m_rdaddr s) := val]> (m_readtbl s) |>
                       <| m_rdaddr := (m_rdaddr s + 1) .& 0x03ff |>) ;;
    modify (add_lastaddr sixbits) ;;
    ret val
  else ret val.

(** What [readword] does with one codeword: [inl val] to go on looking for
    data, [inr] when [m_buf[0]] starts a data word. *)
Definition readword_step (val : Z) : M TTYBUS (Z + Z * Z * Z) :=
  let* nr := readcode1 in
  let* s := get in
  let sixbits := bufdec s 0 in
  if truthy (sixbits .& ~. 0x03f) then ret (inl val)
  else if sixbits <? 6 then
    if (sixbits =? 3) || (sixbits =? 5) then
      modify (fun s => s <| m_bus_err := true |>) ;; raise (BUSERR 0)
    else if sixbits =? 4 then
      modify (fun s => s <| m_interrupt_flag := true |>) ;; ret (inl val)
    else ret (inl val)
  else if 0x08 =? sixbits .& 0x3c then
    readcodes 6 nr ;;
    let* s := get in
    let val := shiftin5 s (bufdec s 0 .& 0x03) in
    modify (fun s => s <| m_addr_set := true |> <| m_lastaddr := u32 (val .<< 2) |>) ;;
    ret (inl val)
  else if 0x0c =? sixbits .& 0x03c then
    let nw := (sixbits .& 0x03) + 2 in
    readcodes nw nr ;;
    let* s := get in
    let val := caddrval s nw in
    modify (fun s => s <| m_addr_set := true |> <| m_lastaddr := u32 (val .<< 2) |>) ;;
    ret (inl val)
  else ret (inr (sixbits, nr, val)).

Definition readword : M TTYBUS Z := fun s =>
  (let* (sixbits, nr, val) := loop (rxfuel s) readword_step 0 in
   readdata sixbits nr val) s.

(** One iteration of [readidle]'s loop, its condition included: the loop reads
    one character to decide whether to go on and a second one to look at. *)
Definition readidle_step (val : Z) : M TTYBUS (Z + option (Z * Z * Z)) :=
  let* av := dev ll_available in
  if negb (truthy av) then ret (inr None) else
  let* nr := lclreadcode 0 1 in
  if nr <=? 0 then ret (inr None) else
  let* nr := lclreadcode 0 1 in
  let* s := get in
  let sixbits := bufdec s 0 in
  if truthy (sixbits .& ~. 0x03f) then ret (inl val)
  else if sixbits <? 6 then
    if (sixbits =? 3) || (sixbits =? 5) then
      modify (fun s => s <| m_bus_err := true |>) ;; raise (BUSERR 0)
    else if sixbits =? 4 then
      modify (fun s => s <| m_interrupt_flag := true |>) ;; ret (inl val)
    else ret (inl val)
  else if 0x08 =? sixbits .& 0x3c then
    readcodes 6 nr ;;
    let* s := get in
    ret (inl (shiftin5 s (bufdec s 0 .& 0x03)))
  else if 0x0c =? sixbits .& 0x03c then
    let nw := (sixbits .& 0x03) + 2 in
    readcodes nw nr ;;
    let* s := get in
    ret (inl (caddrval s nw))
  else ret (inr (Some (sixbits, nr, val))).

Definition readidle : M TTYBUS unit := fun s =>
  (let* r := loop (rxfuel s) readidle_step 0 in
   match r with
   | None => ret tt
   | Some (sixbits, nr, val) => readdata sixbits nr val ;; ret tt
   end) s.

(** ** Commands *)

Definition encode_address (a : Z) : M TTYBUS nat :=
  let* s := get in
  let addr := a .>> 2 in
  if negb (a .& 3 =? 0) then raise (BUSERR a)
  else if m_addr_set s && (a =? m_lastaddr s) then ret 0%nat
  else
    let* ptr :=
      (if m_addr_set s then
         let diffaddr := s32 (u32 (a - m_lastaddr s) .>> 2) in
         let* ptr :=
           (if (-32 <=? diffaddr) && (diffaddr <? 32) then
              putcs 0 [0x09; diffaddr .& 0x03f]
            else if (-2048 <=? diffaddr) && (diffaddr <? 2048) then
              putcs 0 [0x0b; (diffaddr .>> 6) .& 0x03f; diffaddr .& 0x03f]
            else if (- (1 .<< 17) <=? diffaddr) && (diffaddr <? 1 .<< 17) then
              putcs 0 [0x0d; (diffaddr .>> 12) .& 0x03f; (diffaddr .>> 6) .& 0x03f;
                       diffaddr .& 0x03f]
            else if (- (1 .<< 23) <=? diffaddr) && (diffaddr <? 1 .<< 23) then
              putcs 0 [0x0f; (diffaddr .>> 18) .& 0x03f; (diffaddr .>> 12) .& 0x03f;
                       (diffaddr .>> 6) .& 0x03f; diffaddr .& 0x03f]
            else ret 0%nat) in
         poke ptr 0 ;; ret ptr
       else ret 0%nat) in
    let* ptr :=
      (if (addr <=? 0x03f) && ((ptr =? 0)%nat || (2 <=? ptr)%nat) then
         putcs 0 [0x08; addr]
       else if (addr <=? 0x0fff) && ((ptr =? 0)%nat || (3 <=? ptr)%nat) then
         putcs 0 [0x0a; (addr .>> 6) .& 0x03f; addr .& 0x03f]
       else if (addr <=? 0x03ffff) && ((ptr =? 0)%nat || (4 <=? ptr)%nat) then
         putcs 0 [0x0c; (addr .>> 12) .& 0x03f; (addr .>> 6) .& 0x03f; addr .& 0x03f]
       else if (addr <=? 0x0ffffff) && ((ptr =? 0)%nat || (5 <=? ptr)%nat) then
         putcs 0 [0x0e; (addr .>> 18) .& 0x03f; (addr .>> 12) .& 0x03f;
                  (addr .>> 6) .& 0x03f; addr .& 0x03f]
       else if (ptr =? 0)%nat then encode 0 addr 0
       else ret ptr) in
    poke ptr 0 ;;
    modify (fun s => s <| m_rdaddr := 0 |>) ;;
    ret ptr.

Definition readcmd (inc len : Z) (buf : nat) : M TTYBUS nat :=
  assert (len <? 520) ;;
  assert (0 <? len) ;;
  if len <=? 8 then
    putcs buf [0x20 + (((len - 1) .& 0x07) .<< 1) + (if truthy inc then 1 else 0)]
  else
    putcs buf [0x30 + (((len - 9) .>> 5) .& 0x0e) + (if truthy inc then 1 else 0);
               (len - 9) .& 0x03f].

(** The compression search of [writev]: the distance back, 1 to 255, of a word
    of the table equal to [val], or 0.  [n] iterations are left, from [i]. *)
Fixpoint caddr_search (wrloaded : bool) (wraddr : Z) (tbl : list Z) (val : Z)
    (n : nat) (i : Z) : Z :=
  match n with
  | O => 0
  | S n' =>
      let tstaddr := (wraddr - i) .& 0x0ff in
      if negb wrloaded && (wraddr <? tstaddr) then 0
      else if tbl !!! Z.to_nat tstaddr =? val then (wraddr - tstaddr) .& 0x0ff
      else caddr_search wrloaded wraddr tbl val n' (i + 1)
  end.

(** The body of [writev]'s inner loop: one word. *)
Definition write_word (p val : Z) (ptr : nat) : M TTYBUS nat :=
  let* s := get in
  let caddr := caddr_search (m_wrloaded s) (m_wraddr s) (m_writetbl s) val 255 1 in
  let* ptr :=
    (if negb (caddr =? 0) then
       putcs ptr [(((caddr .>> 6) .& 0x03) .<< 1) + (if truthy p then 1 else 0) + 0x010;
                  caddr .& 0x3f]
     else
       let* ptr := putcs ptr
         [(((val .>> 30) .& 0x03) .<< 1) + (if truthy p then 1 else 0) + 0x018;
          (val .>> 24) .& 0x3f; (val .>> 18) .& 0x3f; (val .>> 12) .& 0x3f;
          (val .>> 6) .& 0x3f; val .& 0x3f] in
       modify (fun s => s <| m_writetbl := <[Z.to_nat (m_wraddr s) := val]> (m_writetbl s) |>
                          <| m_wraddr := (m_wraddr s + 1) .& 0x0ff |>) ;;
       modify (fun s => if m_wraddr s =? 0 then s <| m_wrloaded := true |> else s) ;;
       ret ptr) in
  modify (fun s => if p =? 1 then s <| m_lastaddr := u32 (m_lastaddr s + 4) |> else s) ;;
  ret ptr.

(** The words [buf[nw]] to [buf[nw+n-1]], one after the other. *)
Fixpoint write_words (p : Z) (buf : list Z) (nw n : nat) (ptr : nat) : M TTYBUS nat :=
  match n with
  | O => ret ptr
  | S n' =>
      match buf !! nw with
      | Some val => let* ptr := write_word p val ptr in write_words p buf (S nw) n' ptr
      | None => raise FAULT
      end
  end.

(** One iteration of [writev]'s outer loop: at most MAXWRLEN words. *)
Definition writev_block (p len : Z) (buf : list Z) (nw_ptr : Z * nat) :
    M TTYBUS (Z * nat + unit) :=
  let '(nw, ptr) := nw_ptr in
  if nw <? len then
    let ln := len - nw in
    let ln := if MAXWRLEN <? u32 ln then MAXWRLEN else ln in
    let* ptr := write_words p buf (Z.to_nat nw) (Z.to_nat ln) ptr in
    let* ptr := (if ln =? len - nw then poke ptr 10 ;; ret (S ptr) else ret ptr) in
    poke ptr 0 ;;
    dev_write ptr ;;
    readidle ;;
    ret (inl (nw + ln, 0%nat))
  else ret (inr tt).

Definition writev (a p len : Z) (buf : list Z) : M TTYBUS unit :=
  bufalloc ((len + 2) * 6) ;;
  let* ptr := encode_address a in
  modify (fun s => s <| m_lastaddr := a |> <| m_addr_set := true |>) ;;
  loop (S (Z.to_nat len)) (writev_block p len buf) (0, ptr) ;;
  readidle.

Definition writeio (a v : Z) : M TTYBUS unit :=
  writev a 0 1 [v] ;;
  modify (fun s => s <| m_lastaddr := a |> <| m_addr_set := true |>).

Definition writez (a len : Z) (buf : list Z) : M TTYBUS unit := writev a 0 len buf.
Definition writei (a len : Z) (buf : list Z) : M TTYBUS unit := writev a 1 len buf.

Definition READAHEAD : Z := MAXRDLEN / 2.
Definition READBLOCK : Z := if 512 <? MAXRDLEN / 2 then 512 else MAXRDLEN / 2.

(** [readv]'s [do ... while]: issue read commands up to READAHEAD+READBLOCK
    words ahead.  The new [cmdrd] and [ptr]. *)
Definition issue_step (inc len nread : Z) (c : Z * nat) : M TTYBUS (Z * nat + Z * nat) :=
  let '(cmdrd, ptr) := c in
  let nrd := len - cmdrd in
  let nrd := if READBLOCK <? nrd then READBLOCK else nrd in
  let nrd := if READAHEAD + READBLOCK <? cmdrd - nread + nrd
             then READAHEAD + READBLOCK - (cmdrd - nread) else nrd in
  let* ptr := readcmd inc nrd ptr in
  let cmdrd := cmdrd + nrd in
  ret (if (cmdrd - nread <? READAHEAD + READBLOCK) && (cmdrd <? len)
       then inl (cmdrd, ptr) else inr (cmdrd, ptr)).

(** [while(nread < lim) buf[nread++] = readword();] for [n] words, [acc] the words
    read so far.  A bus error carries the address of
    the word that failed: [a+(nread<<2)], or [a] when not incrementing. *)
Fixpoint read_words (a inc : Z) (n : nat) (acc : list Z) : M TTYBUS (list Z) :=
  match n with
  | O => ret acc
  | S n' =>
      let* v := rethrow_buserr
        (fun _ _ => u32 (a + (if truthy inc then Z.of_nat (length acc) .<< 2 else 0))) readword in
      read_words a inc n' (acc ++ [v])
  end.

(** One iteration of [readv]'s outer loop. *)
Definition readv_block (a inc len : Z) (c : Z * nat * list Z) :
    M TTYBUS (Z * nat * list Z + list Z) :=
  let '(cmdrd, ptr, acc) := c in
  if cmdrd <? len then
    let nread := Z.of_nat (length acc) in
    let* (cmdrd, ptr) := loop 3 (issue_step inc len nread) (cmdrd, ptr) in
    poke ptr 10 ;;
    poke (S ptr) 0 ;;
    dev_write (S ptr) ;;
    let* acc := read_words a inc (Z.to_nat (cmdrd - READAHEAD - nread)) acc in
    ret (inl (cmdrd, 0%nat, acc))
  else
    let nread := Z.of_nat (length acc) in
    let* acc := read_words a inc (Z.to_nat (len - nread)) acc in
    ret (inr acc).

(** The words that [readv] stores into [buf]. *)
Definition readv (a inc len : Z) : M TTYBUS (list Z) :=
  if len <=? 0 then ret []
  else
    let* ptr := encode_address a in
    let* vs := loop (S (Z.to_nat len)) (readv_block a inc len) (0, ptr, []) in
    let* s := get in
    if negb (m_lastaddr s =? u32 (a + (if truthy inc then len .<< 2 else 0))) then
      (* assert((int)m_lastaddr == (a+(inc)?(len<<2):0)): [?:] binds last *)
      assert (s32 (m_lastaddr s) =? (if truthy (u32 (a + inc)) then len .<< 2 else 0)) ;;
      raise (EXIT (-3))
    else ret vs.

Definition readi (a len : Z) : M TTYBUS (list Z) := readv a 1 len.
Definition readz (a len : Z) : M TTYBUS (list Z) := readv a 0 len.

Definition readio (a : Z) : M TTYBUS Z :=
  let* vs := rethrow_buserr (fun _ _ => a) (readv a 0 1) in
  let* s := get in
  if negb (m_lastaddr s =? a) then
    modify (fun s => s <| m_addr_set := false |>) ;;
    raise (EXIT (-3))
  else ret (vs !!! 0%nat).

(** ** Waiting *)

Definition TTYC_INT : Z := 52.   (* '4' *)

(** The scan of the characters read: only an interrupt changes anything. *)
Definition usleep_scan (bs : list Z) (s : TTYBUS) : TTYBUS :=
  foldl (fun s b => if b =? TTYC_INT then s <| m_interrupt_flag := true |> else s) s bs.

Definition usleep (ms : Z) : M TTYBUS unit := fun s =>
  (let* b := dev (ll_poll ms) in
   if b : bool then
     if decide (16 <= length (m_buf s))%nat then
       let* (nr, bs) := dev (ll_read 16) in
       modify (fun s => s <| m_buf := list_inserts 0 bs (m_buf s) |>) ;;
       if nr =? 0 then
         modify (fun s => s <| m_dev := ll_close (m_dev s) |>) ;; raise (EXIT (-1))
       else modify (usleep_scan bs)
     else raise FAULT
   else ret tt) s.

(** [wait] polls without bound; [fuel] bounds the polls. *)
Definition wait (fuel : nat) : M TTYBUS unit :=
  loop fuel (fun _ : unit =>
    usleep 200 ;;
    let* s := get in
    ret (if m_interrupt_flag s then inr tt else inl tt)) tt.

(** ** The rest of the class *)

Definition tty_close (s : TTYBUS) : TTYBUS := s <| m_dev := ll_close (m_dev s) |>.
Definition tty_kill (s : TTYBUS) : TTYBUS := s <| m_dev := ll_close (m_dev s) |>.
Definition poll (s : TTYBUS) : bool := m_interrupt_flag s.
Definition bus_err (s : TTYBUS) : bool := m_bus_err s.
Definition reset_err (s : TTYBUS) : TTYBUS := s <| m_bus_err := false |>.
Definition clear (s : TTYBUS) : TTYBUS := s <| m_interrupt_flag := false |>.
End TTYBUS.

Arguments TTYBUS W : clear implicits.
