(* ===== verification/WbuSpec.v ===== *)
(** What the FPGA end of the debugging bus makes of a byte stream: the
    specification that the host's encoder ([TtyBus]) is verified against.

    The chain of src/rtl/wbubus is described by codewords instead of clocks: a
    byte gives six bits or a line break ([wbutohex]), the first six bits of a
    codeword give its length ([wbureadcw]), a codeword is expanded with the
    history of written words ([wbudecompress]) and executed ([wbuexec]).  The
    registers and the timing of the logic are not part of the description. *)

From stdpp Require Import base tactics list numbers option.
From Stdlib Require Import ZArith Lia.
From S2P Require Import Prelude.
Local Open Scope Z_scope.

(** The six bits of a code character; any other byte ends the line. *)
Definition tohex (b : Z) : option Z :=
  if (0x30 <=? b) && (b <=? 0x39) then Some (b .& 15)
  else if (0x41 <=? b) && (b <=? 0x5a) then Some (((b .& 63) - 1 + 10) .& 63)
  else if (0x61 <=? b) && (b <=? 0x7a) then Some (((b .& 63) + 3) .& 63)
  else if b =? 0x40 then Some 0x3e
  else if b =? 0x25 then Some 0x3f
  else None.

(** The length of a codeword from its first six bits. *)
Definition cwlen (h : Z) : nat :=
  if h .>> 4 =? 3 then 2
  else if h .>> 4 =? 2 then 1
  else if h .>> 3 =? 2 then 2
  else if h .>> 3 =? 1 then 2 + Z.to_nat ((h .>> 1) .& 3)
  else 6.

(** Expanded codewords. *)
Inductive codeword : Type :=
  | CwAddr (a : Z)               (** set the (word) address *)
  | CwRel (d : Z)                (** move the address *)
  | CwWrite (v : Z) (inc : bool)
  | CwRead (len : Z) (inc : bool)
  | CwEow                        (** end of a string of writes *)
  | CwOther.                     (** ignored by the executor *)

(** The value of a string of six-bit digits. *)
Definition digits (hs : list Z) : Z := foldl (fun r h => r * 64 + h) 0 hs.

(** [d] sign extended from [k] bits. *)
Definition sext (k d : Z) : Z := if d <? 2 ^ (k - 1) then d else d - 2 ^ k.

(** Expand a complete codeword; [hist] is the words written in full so far,
    the last one first. *)
Definition expand (hist : list Z) (hs : list Z) : codeword :=
  match hs with
  | [] => CwOther
  | h :: t =>
      let inc := truthy (h .& 1) in
      if h =? 0x2e then CwEow
      else if h .>> 3 =? 1 then
        if inc then CwRel (sext (6 * Z.of_nat (length t)) (digits t)) else CwAddr (digits t)
      else if h .>> 3 =? 2 then
        match hist !! Z.to_nat (((h .>> 1) .& 3) * 64 + digits t - 1) with
        | Some v => CwWrite v inc
        | None => CwOther
        end
      else if h .>> 3 =? 3 then CwWrite (((h .>> 1) .& 3) * 2 ^ 30 + digits t) inc
      else if h .>> 4 =? 2 then CwRead (1 + ((h .>> 1) .& 7)) inc
      else if h .>> 4 =? 3 then CwRead (9 + ((h .>> 1) .& 7) * 64 + digits t) inc
      else if h <? 4 then CwAddr (h * 2 ^ 30 + digits t)
      else CwOther
  end.

(** What happens on the bus. *)
Inductive bus_event : Type :=
  | BusWrite (waddr v : Z)
  | BusRead (waddr len : Z) (inc : bool).

(** The state of the receiving end: bits of an incomplete codeword, whether
    the last codeword was a write, the history and the address register. *)
Record wbu : Type := mkWbu {
  w_pend : list Z;
  w_lastwr : bool;
  w_hist : list Z;
  w_addr : Z
}.

Definition exec (f : wbu) (c : codeword) : wbu * list bus_event :=
  let goto a := mkWbu (w_pend f) (w_lastwr f) (w_hist f) a in
  match c with
  | CwAddr a => (goto a, [])
  | CwRel d => (goto ((w_addr f + d) mod 2 ^ 32), [])
  | CwWrite v inc =>
      (goto (if inc then (w_addr f + 1) mod 2 ^ 32 else w_addr f), [BusWrite (w_addr f) v])
  | CwRead len inc =>
      (goto (if inc then (w_addr f + len) mod 2 ^ 32 else w_addr f), [BusRead (w_addr f) len inc])
  | CwEow | CwOther => (f, [])
  end.

(** The history after a codeword: a write in full is remembered. *)
Definition remember (hist : list Z) (hs : list Z) : list Z :=
  match hs with
  | h :: t => if h .>> 3 =? 3 then (((h .>> 1) .& 3) * 2 ^ 30 + digits t) :: hist else hist
  | [] => hist
  end.

(** A complete codeword. *)
Definition accept (f : wbu) (hs : list Z) : wbu * list bus_event :=
  let c := expand (w_hist f) hs in
  let lastwr := match hs with h :: _ => h .>> 4 =? 1 | [] => false end in
  exec (mkWbu [] lastwr (remember (w_hist f) hs) (w_addr f)) c.

(** One byte. *)
Definition rxbyte (f : wbu) (b : Z) : wbu * list bus_event :=
  match tohex b with
  | Some h =>
      let hs := w_pend f ++ [h] in
      if (length hs =? cwlen (hd 0%Z hs))%nat then accept f hs
      else (mkWbu hs (w_lastwr f) (w_hist f) (w_addr f), [])
  | None => (mkWbu [] false (w_hist f) (w_addr f), [])
  end.

(** A string of bytes. *)
Fixpoint rxbytes (f : wbu) (bs : list Z) : wbu * list bus_event :=
  match bs with
  | [] => (f, [])
  | b :: bs' =>
      let '(f1, e1) := rxbyte f b in
      let '(f2, e2) := rxbytes f1 bs' in
      (f2, e1 ++ e2)
  end.

Lemma rxbytes_app f b1 b2 :
  rxbytes f (b1 ++ b2) =
    let '(f1, e1) := rxbytes f b1 in
    let '(f2, e2) := rxbytes f1 b2 in (f2, e1 ++ e2).
Proof.
  revert f. induction b1 as [| b b1 IH]; intros f; cbn.
  - by destruct (rxbytes f b2).
  - destruct (rxbyte f b) as [f1 e1]. rewrite IH.
    destruct (rxbytes f1 b1) as [f2 e2]. destruct (rxbytes f2 b2). by rewrite app_assoc.
Qed.

(** The digits of a codeword, delivered to a receiver between codewords. *)
Lemma rxbytes_pending f bs hs :
  Forall2 (fun b h => tohex b = Some h) bs hs ->
  forall pre, pre ++ hs <> [] -> (length (pre ++ hs) < cwlen (hd 0%Z (pre ++ hs)))%nat ->
  w_pend f = pre ->
  rxbytes f bs = (mkWbu (pre ++ hs) (w_lastwr f) (w_hist f) (w_addr f), []).
Proof.
  intros HF. revert f. induction HF as [| b h bs hs Hb HF IH]; intros f pre Hne Hlen Hp.
  - rewrite app_nil_r, <- Hp. by destruct f.
  - cbn. unfold rxbyte. rewrite Hb, Hp.
    replace (pre ++ h :: hs) with ((pre ++ [h]) ++ hs) in * by (by rewrite <- app_assoc).
    assert (Hhd : hd 0%Z ((pre ++ [h]) ++ hs) = hd 0%Z (pre ++ [h])) by (by destruct pre).
    rewrite Hhd in Hlen.
    rewrite (proj2 (Nat.eqb_neq _ _)) by (rewrite length_app in Hlen; lia).
    erewrite IH; [done | done | by rewrite Hhd | done].
Qed.

(** A whole codeword. *)
Lemma rxbytes_codeword f bs hs :
  Forall2 (fun b h => tohex b = Some h) bs hs -> hs <> [] ->
  length hs = cwlen (hd 0%Z hs) -> w_pend f = [] ->
  rxbytes f bs = accept f hs.
Proof.
  intros HF Hne Hlen Hp.
  destruct hs as [| h0 hs'] using rev_ind; [done |]. clear IHhs'.
  apply Forall2_app_inv_r in HF as (bs1 & bs2 & HF1 & HF2 & ->).
  inversion HF2 as [| b h' [| ] ? Hb HF3]; subst; [| inversion HF3]. clear HF2 HF3.
  rewrite rxbytes_app.
  assert (Hlast : forall g, w_pend g = hs' -> w_lastwr g = w_lastwr f -> w_hist g = w_hist f ->
            w_addr g = w_addr f -> rxbytes g [b] = accept f (hs' ++ [h0])).
  { intros g H1 H2 H3 H4. cbn. unfold rxbyte. rewrite Hb, H1, Hlen, Nat.eqb_refl.
    unfold accept. rewrite H3, H4. destruct (exec _ _). by rewrite app_nil_r. }
  destruct hs' as [| h1 hs'].
  - apply Forall2_nil_inv_r in HF1 as ->.
    change (rxbytes f []) with (f, @nil bus_event). cbv beta iota.
    rewrite Hlast by done. by destruct (accept _ _).
  - rewrite (rxbytes_pending f bs1 (h1 :: hs') HF1 []); cbn [app] in *;
      [| done | cbn [length hd] in *; rewrite length_app in Hlen; cbn [length] in Hlen; lia | done].
    rewrite Hlast by done. by destruct (accept _ _).
Qed.
