(* ===== verification/TtyBase.v ===== *)
(** Facts about [TTYBUS] that both directions of the traffic share: the
    character code, the class invariant [tty_wf], and the rules of [wp] for the
    buffer and for the device. *)

From stdpp Require Import base tactics list numbers option.
From Stdlib Require Import ZArith Lia.
From S2P Require Import Prelude LLComms TtyBus WbuSpec.
Local Open Scope Z_scope.

(** ** The character code *)

Definition enc (v : Z) : Z := default 0 (charenc v).

Definition code_ok (v : Z) : bool :=
  match charenc v with
  | Some c => (chardec c =? v) && negb (notcode c) && (0 <=? c) && (c <? 128) &&
              match tohex c with Some h => h =? v | None => false end
  | None => false
  end.

Lemma code_ok_sixbit v : 0 <= v < 64 -> code_ok v = true.
Proof. intros Hv. by_range v 0 64%nat. Qed.

Lemma enc_spec v : 0 <= v < 64 ->
  charenc v = Some (enc v) /\ chardec (enc v) = v /\ notcode (enc v) = false /\
  tohex (enc v) = Some v /\ 0 <= enc v < 128.
Proof.
  intros Hv. pose proof (code_ok_sixbit v Hv) as H. unfold code_ok, enc in *.
  destruct (charenc v) as [c |]; [| done]. cbn.
  destruct (tohex c); repeat rewrite ?andb_true_iff, ?Z.eqb_eq, ?negb_true_iff in H; [| by destruct H].
  destruct H as [[[[? ?] ?] ?] ->]. repeat split; [done.. | lia | lia].
Qed.

Lemma enc_tohex vs : Forall (fun v => 0 <= v < 64) vs ->
  Forall2 (fun b h => tohex b = Some h) (enc <$> vs) vs.
Proof. induction 1; constructor; [by apply enc_spec | done]. Qed.

(** Six bits of anything. *)
Lemma land63_range x : 0 <= x .& 0x3f < 64.
Proof. rewrite land_63. apply Z.mod_pos_bound. lia. Qed.


(** Under [wp], unfold a routine whose loop takes its bound from the state. *)
Ltac fold_wp :=
  match goal with
  | |- wp ?m ?Q ?E ?s => unfold wp; cbv delta [readcode1 readcodes readword readidle usleep] beta;
      match goal with |- match ?m' s with _ => _ end => change (wp m' Q E s) end
  end.

(** ** The class invariant *)

Section Base.
Context {W : Type} {HOs : Os W} {HLaws : OsLaws W}.
Implicit Types (s : TTYBUS W).

Record tty_wf (s : TTYBUS W) : Prop := {
  wf_buflen : m_buflen s = Z.of_nat (length (m_buf s));
  wf_buf : (128 <= length (m_buf s))%nat;
  wf_wrtbl : length (m_writetbl s) = 512%nat;
  wf_rdtbl : length (m_readtbl s) = 1024%nat;
  wf_wraddr : 0 <= m_wraddr s < 256;
  wf_rdaddr : 0 <= m_rdaddr s < 1024;
  wf_lastaddr : 0 <= m_lastaddr s < 2 ^ 32
}.

Lemma init_wf d la rt wt :
  0 <= la < 2 ^ 32 -> length rt = 1024%nat -> length wt = 512%nat ->
  tty_wf (init d la rt wt).
Proof. intros. split; cbn; try done; lia. Qed.

(** ** Buffers *)

Lemma poke_wp i c s (Q : unit -> TTYBUS W -> Prop) E :
  (i < length (m_buf s))%nat -> Q tt (s <| m_buf := <[i := c]> (m_buf s) |>) ->
  wp (poke i c) Q E s.
Proof. intros Hi HQ. unfold wp, poke. by rewrite decide_True. Qed.

(** Appending characters at [ptr]: the buffer then holds them after what was
    before [ptr]. *)
Lemma putcs_wp ptr vs s (Q : nat -> TTYBUS W -> Prop) E :
  Forall (fun v => 0 <= v < 64) vs ->
  (ptr + length vs <= length (m_buf s))%nat ->
  (forall b, length b = length (m_buf s) ->
     take (ptr + length vs) b = take ptr (m_buf s) ++ (enc <$> vs) ->
     Q (ptr + length vs)%nat (s <| m_buf := b |>)) ->
  wp (putcs ptr vs) Q E s.
Proof.
  intros Hvs. revert ptr s. induction Hvs as [| v vs Hv Hvs IH]; intros ptr s Hl HQ; cbn in *.
  - apply wp_ret. rewrite Nat.add_0_r in HQ. specialize (HQ (m_buf s) eq_refl).
    rewrite app_nil_r in HQ. destruct s. exact (HQ eq_refl).
  - apply wp_bind. unfold putc. destruct (enc_spec v Hv) as [-> _]. cbv iota.
    apply wp_bind. apply poke_wp; [lia |]. apply wp_ret.
    apply IH; [cbn; rewrite length_insert; lia |].
    intros b Hb Htk. change (m_buf (s <| m_buf := _ |>)) with (<[ptr := enc v]> (m_buf s)) in Hb, Htk.
    rewrite length_insert in Hb.
    replace (ptr + S (length vs))%nat with (S ptr + length vs)%nat in * by lia.
    specialize (HQ b Hb). apply HQ. rewrite Htk.
    erewrite take_S_r by (apply list_lookup_insert_eq; lia).
    by rewrite take_insert_ge, <- app_assoc by lia.
Qed.

(** An operation of the device object. *)
Lemma dev_wp {A} (m : M (LLCOMMSI W) A) s (Q : A -> TTYBUS W -> Prop) E :
  wp m (fun a d => Q a (s <| m_dev := d |>)) (fun e d => E e (s <| m_dev := d |>)) (m_dev s) ->
  wp (dev m) Q E s.
Proof. unfold wp, dev. by destruct (m (m_dev s)). Qed.

Lemma dev_write_wp n s (Q : unit -> TTYBUS W -> Prop) E :
  (0 < n <= length (m_buf s))%nat ->
  (forall reply d, ll_sent d = ll_sent (m_dev s) ++ take n (m_buf s) ->
     ll_incoming d = ll_incoming (m_dev s) ++ reply -> (no_answer (take n (m_buf s)) (m_dev s) -> reply = []) ->
     Q tt (s <| m_dev := d |>)) ->
  wp (dev_write n) Q E s.
Proof.
  intros Hn HQ. unfold wp, dev_write. rewrite decide_True by lia.
  apply (dev_wp (ll_write _) s Q E). apply ll_write_wp.
  - intros Heq. apply (f_equal length) in Heq. rewrite length_take in Heq. cbn in Heq. lia.
  - intros reply d Hs Hi Hr. by apply (HQ reply).
Qed.

Lemma bufalloc_size len : len < (len .& (-0x3f)) + 0x40.
Proof.
  assert (Hsplit : (len .& (-0x3f)) + (len .& 0x3e) = len).
  { change (-0x3f) with (~. 0x3e). rewrite <- Z.ldiff_land.
    rewrite <- lor_add; [apply Z.lor_ldiff_and |].
    rewrite (Z.land_comm len), Z.land_assoc, Z.land_ldiff. done. }
  assert (Hle : len .& 0x3e <= 0x3e); [| lia].
  replace (len .& 0x3e) with ((len mod 64) .& 0x3e)
    by (rewrite <- land_63, <- Z.land_assoc; done).
  pose proof (Z.mod_pos_bound len 64). apply Z.leb_le.
  assert (0 <= len mod 64 < 64) by lia. generalize dependent (len mod 64). intros x _ Hx.
  by_range x 0 64%nat.
Qed.

End Base.
