(* ===== verification/TtyRecv.v ===== *)
(** The receiving half of [TTYBUS]: [lclreadcode], [readword] and [readidle].

    [rx_frame] is what any receiving routine leaves alone, whatever the FPGA
    sends; the second part shows that [readword] returns the word that a
    response codeword stands for, for every encoding the FPGA may choose. *)

From stdpp Require Import base tactics list numbers option.
From Stdlib Require Import ZArith Lia.
From S2P Require Import Prelude LLComms TtyBus WbuSpec TtyBase.
Local Open Scope Z_scope.

(** ** The filter of [lclreadcode] *)

(** How many of the characters are code characters. *)
Definition codes (bs : list Z) : Z := Z.of_nat (length (filter (fun b => notcode b = false) bs)).

Lemma codes_nil : codes [] = 0.
Proof. done. Qed.

Lemma codes_cons b bs : codes (b :: bs) = (if notcode b then 0 else 1) + codes bs.
Proof.
  unfold codes. rewrite filter_cons. destruct (notcode b); cbn; [done |].
  rewrite decide_True by done. cbn. lia.
Qed.

Lemma lclfilter_count n sp dp rt buf :
  (sp + n = length buf)%nat ->
  (lclfilter n sp dp rt buf).1 = rt - (Z.of_nat n - codes (drop sp buf)) /\
  length (lclfilter n sp dp rt buf).2 = length buf.
Proof.
  revert sp dp rt buf. induction n as [| n IH]; intros sp dp rt buf Hl; cbn [lclfilter].
  - split; [| done]. rewrite drop_ge, codes_nil by lia. cbn [fst]. lia.
  - assert (Hsp : is_Some (buf !! sp)) by (apply lookup_lt_is_Some; lia).
    destruct Hsp as [b Hb]. rewrite (list_lookup_total_correct _ _ _ Hb).
    rewrite (drop_S _ _ _ Hb), codes_cons.
    destruct (notcode b).
    + destruct (IH (S sp) dp (rt - 1) buf) as [-> ->]; [lia |]. split; [lia | done].
    + destruct (IH (S sp) (S dp) rt (<[sp := buf !!! dp]> buf)) as [-> ->];
        rewrite ?length_insert; [lia |].
      rewrite drop_insert_lt by lia. split; [lia | done].
Qed.

(** On code characters alone the filter keeps everything. *)
Lemma lclfilter_all n sp rt buf :
  (sp + n = length buf)%nat -> Forall (fun b => notcode b = false) buf ->
  lclfilter n sp sp rt buf = (rt, buf).
Proof.
  intros Hl Hall. revert sp Hl. induction n as [| n IH]; intros sp Hl; cbn [lclfilter]; [done |].
  assert (Hsp : is_Some (buf !! sp)) by (apply lookup_lt_is_Some; lia).
  destruct Hsp as [b Hb]. rewrite (list_lookup_total_correct _ _ _ Hb).
  rewrite Forall_lookup in Hall. rewrite (Hall _ _ Hb), list_insert_id by done.
  apply IH. lia.
Qed.

Lemma codes_bounds bs : 0 <= codes bs <= Z.of_nat (length bs).
Proof.
  unfold codes. pose proof (length_filter (fun b => notcode b = false) bs). lia.
Qed.

Section Recv.
Context {W : Type} {HOs : Os W} {HLaws : OsLaws W}.
Implicit Types (s : TTYBUS W).

(** ** Reading characters *)

Definition pending (s : TTYBUS W) : list Z := ll_incoming (m_dev s).

(** The state after [lclreadcode] has taken [k] characters. *)
Definition took (off k : nat) (d : LLCOMMSI W) (s : TTYBUS W) : TTYBUS W :=
  s <| m_dev := d |>
    <| m_total_nread := u64 (m_total_nread s + Z.of_nat k) |>
    <| m_buf := list_inserts off (lclfilter k 0 0 (Z.of_nat k) (take k (pending s))).2 (m_buf s) |>.

Lemma lclreadcode_wp off len s (Q : Z -> TTYBUS W -> Prop) E :
  0 < len -> (off + Z.to_nat len <= length (m_buf s))%nat ->
  (forall k d, (1 <= k <= Z.to_nat len)%nat -> (k <= length (pending s))%nat ->
     ll_incoming d = drop k (pending s) -> ll_sent d = ll_sent (m_dev s) ->
     Q (codes (take k (pending s))) (took off k d s)) ->
  (pending s = [] -> forall d, ll_incoming d = [] -> ll_sent d = ll_sent (m_dev s) ->
     E COMMFAIL (s <| m_dev := d |>)) ->
  wp (lclreadcode off len) Q E s.
Proof.
  intros Hlen Hoff HQ HE. unfold wp, lclreadcode. rewrite decide_True by done.
  match goal with |- match ?m s with _ => _ end => change (wp m Q E s) end.
  apply wp_bind, dev_wp, ll_read_wp; [done | | by apply HE].
  intros k d Hk Hkl Hin Hs. cbv beta iota. rewrite length_take_le by done.
  destruct (lclfilter_count k 0 0 (Z.of_nat k) (take k (pending s))) as [Hc _];
    [by rewrite length_take_le |].
  specialize (HQ k d Hk Hkl Hin Hs). unfold took in HQ.
  change (ll_incoming (m_dev s)) with (pending s).
  destruct (lclfilter k 0 0 _ _) as [rt bs']. cbn [fst snd] in *.
  rewrite drop_0 in Hc. replace rt with (codes (take k (pending s))) by lia.
  apply wp_bind, wp_modify, wp_ret. exact HQ.
Qed.

(** ** What receiving leaves alone *)

(** A byte that neither is nor starts data: not a code character, or one of
    the six status characters. *)
Definition nodata (b : Z) : Prop := notcode b = true \/ chardec b < 6.

(** Receiving sends nothing, consumes a prefix of the pending bytes and keeps
    the encoder's state; on status characters alone it keeps the address. *)
Record rx_frame (s s' : TTYBUS W) : Prop := {
  rf_sent : ll_sent (m_dev s') = ll_sent (m_dev s);
  rf_wrloaded : m_wrloaded s' = m_wrloaded s;
  rf_wraddr : m_wraddr s' = m_wraddr s;
  rf_writetbl : m_writetbl s' = m_writetbl s;
  rf_buf : length (m_buf s') = length (m_buf s);
  rf_addr_set : m_addr_set s = true -> m_addr_set s' = true;
  rf_wf : tty_wf s -> tty_wf s';
  rf_pending : exists pre, pending s = pre ++ pending s' /\
    (Forall nodata pre -> m_lastaddr s' = m_lastaddr s)
}.

Lemma rx_frame_refl s : rx_frame s s.
Proof. split; try done. by exists []. Qed.

Lemma rx_frame_trans s1 s2 s3 : rx_frame s1 s2 -> rx_frame s2 s3 -> rx_frame s1 s3.
Proof.
  intros [] []. split; try congruence; try tauto.
  destruct rf_pending0 as (p1 & Hp1 & Ha1), rf_pending1 as (p2 & Hp2 & Ha2).
  exists (p1 ++ p2). split; [by rewrite Hp1, Hp2, app_assoc |].
  intros [? ?]%Forall_app. rewrite Ha2, Ha1; done.
Qed.

(** Taking a non-empty prefix of the pending bytes into the buffer. *)
Lemma took_frame off k d s :
  (1 <= k <= length (pending s))%nat ->
  ll_incoming d = drop k (pending s) -> ll_sent d = ll_sent (m_dev s) ->
  rx_frame s (took off k d s) /\
  (length (pending (took off k d s)) < length (pending s))%nat.
Proof.
  intros Hk Hin Hs. unfold took, pending. split; cbn.
  - split; cbn; rewrite ?length_inserts; try done.
    + intros []. split; cbn; rewrite ?length_inserts; done.
    + exists (take k (pending s)). split; [| done].
      unfold pending; cbn. by rewrite Hin, take_drop.
  - rewrite Hin, length_drop. unfold pending in *. lia.
Qed.

(** The state a receiving routine leaves, and that it made progress. *)
Definition rx_less (s s' : TTYBUS W) : Prop :=
  rx_frame s s' /\ (length (pending s') < length (pending s))%nat.

(** Reading throws only when nothing is pending. *)
Definition rx_fail (s : TTYBUS W) (e : exn) (s' : TTYBUS W) : Prop :=
  e = COMMFAIL /\ rx_frame s s'.

Lemma rx_fail_trans s1 s2 e s3 : rx_frame s1 s2 -> rx_fail s2 e s3 -> rx_fail s1 e s3.
Proof. intros H12 [? H23]. split; [done |]. by eapply rx_frame_trans. Qed.

Lemma rx_less_trans s1 s2 s3 : rx_frame s1 s2 -> rx_less s2 s3 -> rx_less s1 s3.
Proof.
  intros H12 [H23 Hl]. split; [by eapply rx_frame_trans |].
  destruct H12. destruct rf_pending0 as (p & -> & _). rewrite length_app. lia.
Qed.

Lemma closed_frame d s :
  pending s = [] -> ll_incoming d = [] -> ll_sent d = ll_sent (m_dev s) ->
  rx_frame s (s <| m_dev := d |>).
Proof.
  intros Hp Hd Hs. split; cbn; try done.
  - intros []. by split.
  - exists []. unfold pending in *. cbn. by rewrite Hp, Hd.
Qed.

Lemma lclreadcode_frame off len s :
  0 < len -> (off + Z.to_nat len <= length (m_buf s))%nat ->
  wp (lclreadcode off len) (fun rt s' => rx_less s s' /\ 0 <= rt <= len) (rx_fail s) s.
Proof.
  intros Hlen Hoff. apply lclreadcode_wp; [done | done | |].
  - intros k d Hk Hkl Hin Hs. split; [apply took_frame; [lia | done..] |].
    pose proof (codes_bounds (take k (pending s))) as Hc.
    rewrite length_take_le in Hc by done. lia.
  - intros Hp d Hd Hs. split; [done |]. by apply closed_frame.
Qed.

(** One character: it ends up in [m_buf[0]]. *)
Lemma lclreadcode_one s : tty_wf s ->
  wp (lclreadcode 0 1) (fun rt s' => rx_less s s' /\
      exists b, pending s = b :: pending s' /\ m_buf s' !!! 0%nat = b /\
        rt = (if notcode b then 0 else 1))
    (rx_fail s) s.
Proof.
  intros Hwf. destruct Hwf as [_ Hbuf _ _ _ _ _].
  apply lclreadcode_wp; [lia | cbn; lia | |].
  - intros k d Hk Hkl Hin Hs. assert (k = 1)%nat as -> by (cbn in Hk; lia).
    destruct (pending s) as [| b rest] eqn:Hp; [cbn in Hkl; lia |].
    split; [apply took_frame; rewrite ?Hp; [cbn; lia | done..] |].
    exists b. change (take 1 (b :: rest)) with [b]. rewrite codes_cons, codes_nil.
    split; [| split; [| destruct (notcode b); lia]].
    + f_equal. unfold took, pending. cbn. by rewrite Hin.
    + unfold took. rewrite Hp. change (take 1 (b :: rest)) with [b].
      replace (lclfilter 1 0 0 (Z.of_nat 1) [b]).2 with [b]
        by (cbn; by destruct (notcode b)).
      change (list_inserts 0 [b] (m_buf s) !!! 0%nat = b).
      by rewrite list_lookup_total_inserts by (cbn; lia).
  - intros Hp d Hd Hs. split; [done |]. by apply closed_frame.
Qed.

(** The next code character: everything before it is dropped. *)
Definition next_code (s s' : TTYBUS W) (b : Z) : Prop :=
  exists pre, pending s = pre ++ b :: pending s' /\ Forall (fun c => notcode c = true) pre /\
    notcode b = false /\ m_buf s' !!! 0%nat = b.

Lemma readcode1_frame s : tty_wf s ->
  wp readcode1 (fun nr s' => rx_less s s' /\ nr = 1 /\ exists b, next_code s s' b) (rx_fail s) s.
Proof.
  intros Hwf. fold_wp.
  apply (wp_loop _ (fun _ s' => rx_frame s s' /\ exists pre, pending s = pre ++ pending s' /\
      Forall (fun c => notcode c = true) pre) (fun _ s' => length (pending s'))).
  - intros [] s1 (H1 & pre & Hp & Hpre). apply wp_bind.
    eapply wp_mono; [apply lclreadcode_one; by apply H1 | |].
    + intros rt s2 (H2 & b & Hb & Hbuf & ->). apply wp_ret.
      destruct (notcode b) eqn:Hc; cbn.
      * split; [| apply H2]. split; [eapply rx_frame_trans; [done | apply H2] |].
        exists (pre ++ [b]). split; [by rewrite Hp, Hb, <- app_assoc |].
        apply Forall_app; auto.
      * split; [by eapply rx_less_trans |]. split; [done |].
        exists b, pre. by rewrite Hp, Hb.
    + intros e s2. by apply rx_fail_trans.
  - split; [apply rx_frame_refl |]. by exists [].
  - unfold rxfuel, pending. lia.
Qed.

Lemma readcodes_frame n nr s : tty_wf s -> 0 <= nr < n -> n <= 6 ->
  wp (readcodes n nr) (fun r s' => rx_less s s' /\ r = n) (rx_fail s) s.
Proof.
  intros Hwf Hnr Hn. fold_wp.
  apply (wp_loop _ (fun nr s' => rx_frame s s' /\ 0 <= nr < n) (fun _ s' => length (pending s'))).
  - intros k s1 [H1 Hk]. apply wp_bind.
    eapply wp_mono; [apply lclreadcode_frame; [lia |] | |].
    + destruct (rf_wf _ _ H1 Hwf). lia.
    + intros rt s2 [H2 Hrt]. apply wp_ret. cbv zeta.
      destruct (Z.ltb_spec (k + rt) n).
      * split; [| apply H2]. split; [| lia]. eapply rx_frame_trans; [done | apply H2].
      * split; [by eapply rx_less_trans | lia].
    + intros e s2. by apply rx_fail_trans.
  - split; [apply rx_frame_refl | done].
  - unfold rxfuel, pending. lia.
Qed.

(** ** Any codeword *)

(** What was consumed between [s] and [s'] is not only status characters. *)
Definition started (s s' : TTYBUS W) : Prop :=
  exists pre, pending s = pre ++ pending s' /\ ~ Forall nodata pre.

Lemma started_later s s1 s2 : started s s1 -> rx_frame s1 s2 -> started s s2.
Proof.
  intros (p1 & Hp1 & Hn) []. destruct rf_pending0 as (p2 & Hp2 & _).
  exists (p1 ++ p2). rewrite Hp1, Hp2, app_assoc. split; [done |].
  by intros [? _]%Forall_app.
Qed.

(** Receiving has got into an address or a data word. *)
Definition rx_data (s s' : TTYBUS W) : Prop := rx_frame s s' /\ started s s'.

Lemma rx_data_less s s' : rx_data s s' -> rx_less s s'.
Proof.
  intros [H1 (pre & Hp & Hn)]. split; [done |]. rewrite Hp, length_app.
  destruct pre; [by destruct Hn | cbn; lia].
Qed.

Lemma rx_data_trans s s1 s2 : rx_data s s1 -> rx_frame s1 s2 -> rx_data s s2.
Proof. intros [] ?. split; [by eapply rx_frame_trans | by eapply started_later]. Qed.

Lemma rx_frame_data_trans s s1 s2 : rx_frame s s1 -> rx_data s1 s2 -> rx_data s s2.
Proof.
  intros H1 [H2 (pre & Hp & Hn)]. split; [by eapply rx_frame_trans |].
  destruct H1 as [_ _ _ _ _ _ _ (p1 & Hp1 & _)]. exists (p1 ++ pre).
  rewrite Hp1, Hp, app_assoc. split; [done |]. by intros [_ ?]%Forall_app.
Qed.

(** A change of the address or of the read table, once data has started. *)
Lemma data_frame s s1 s2 :
  rx_data s s1 ->
  m_dev s2 = m_dev s1 -> m_wrloaded s2 = m_wrloaded s1 -> m_wraddr s2 = m_wraddr s1 ->
  m_writetbl s2 = m_writetbl s1 -> length (m_buf s2) = length (m_buf s1) ->
  (m_addr_set s1 = true -> m_addr_set s2 = true) -> (tty_wf s1 -> tty_wf s2) ->
  rx_data s s2.
Proof.
  intros [[] (pre & Hp & Hn)] Hd ? ? ? ? ? ?.
  assert (Hp2 : pending s = pre ++ pending s2) by (unfold pending in *; by rewrite Hd).
  split; [split; try congruence; try tauto |]; by exists pre.
Qed.

(** A change of the flags. *)
Lemma flag_frame s s1 s2 :
  rx_frame s s1 ->
  m_dev s2 = m_dev s1 -> m_wrloaded s2 = m_wrloaded s1 -> m_wraddr s2 = m_wraddr s1 ->
  m_writetbl s2 = m_writetbl s1 -> length (m_buf s2) = length (m_buf s1) ->
  m_addr_set s2 = m_addr_set s1 -> m_lastaddr s2 = m_lastaddr s1 -> (tty_wf s1 -> tty_wf s2) ->
  rx_frame s s2.
Proof.
  intros [] Hd ? ? ? ? Hset Hl ?.
  split; try congruence; try tauto; [by rewrite Hset |].
  destruct rf_pending0 as (pre & Hp & Ha).
  exists pre. unfold pending in *. rewrite Hd, Hl. auto.
Qed.

(** A bus error, or nothing left to read. *)
Definition rx_error (s : TTYBUS W) (e : exn) (s' : TTYBUS W) : Prop :=
  rx_frame s s' /\ (e = COMMFAIL \/ e = BUSERR 0 /\ m_bus_err s' = true).

Lemma rx_fail_error s s1 e s2 : rx_frame s s1 -> rx_fail s1 e s2 -> rx_error s e s2.
Proof. intros H1 [-> H2]. split; [by eapply rx_frame_trans | by left]. Qed.

Lemma u32_range x : 0 <= u32 x < 2 ^ 32.
Proof. apply Z.mod_pos_bound. lia. Qed.

Lemma land_1023_range x : 0 <= x .& 0x3ff < 1024.
Proof. rewrite land_1023. apply Z.mod_pos_bound. lia. Qed.

Lemma add_lastaddr_wf six s : tty_wf s -> tty_wf (add_lastaddr six s).
Proof. intros []. split; cbn; try done. apply u32_range. Qed.

Lemma tblread_frame s s1 idx six : rx_data s s1 ->
  wp (tblread idx six) (fun _ s' => rx_data s s') (rx_error s) s1.
Proof.
  intros H1. unfold tblread. repeat wp_step.
  eapply data_frame; [done | done.. | apply add_lastaddr_wf].
Qed.

Lemma readdata_frame s s1 six val : tty_wf s -> rx_data s s1 ->
  wp (readdata six 1 val) (fun _ s' => rx_data s s') (rx_error s) s1.
Proof.
  intros Hwf H1. pose proof H1 as [Hf1 _]. unfold readdata.
  destruct (_ =? _); [by apply tblread_frame |].
  destruct (_ =? _).
  { apply wp_bind. eapply wp_mono; [apply readcodes_frame; [by apply Hf1 | lia | lia] | |].
    - intros r s2 [[H2 _] _]. repeat wp_step. apply tblread_frame. by eapply rx_data_trans.
    - intros e s2. by apply rx_fail_error. }
  destruct (_ =? _); [by apply tblread_frame |].
  destruct (_ =? _); [| by apply wp_ret].
  apply wp_bind. eapply wp_mono; [apply readcodes_frame; [by apply Hf1 | lia | lia] | |].
  - intros r s2 [[H2 _] _]. repeat wp_step.
    eapply data_frame; [by eapply rx_data_trans | done.. |].
    intros Hwf2. apply add_lastaddr_wf. destruct Hwf2. split; cbn; rewrite ?length_insert; try done.
    apply land_1023_range.
  - intros e s2. by apply rx_fail_error.
Qed.

(** A code character above 5 starts an address or data. *)
Lemma next_code_started s s1 s2 b :
  pending s1 = b :: pending s2 -> notcode b = false -> 6 <= chardec b -> rx_frame s s1 ->
  started s s2.
Proof.
  intros Hp Hc Hb []. destruct rf_pending0 as (p & Hp1 & _). exists (p ++ [b]).
  rewrite Hp1, Hp, <- app_assoc. split; [done |].
  intros [_ Hf]%Forall_app. inversion Hf as [| ? ? Hnd]; subst. destruct Hnd; [congruence | lia].
Qed.

Lemma next_code_pending s s1 b : next_code s s1 b -> 6 <= chardec b -> started s s1.
Proof.
  intros (pre & Hp & Hpre & Hb & _) Hge. exists (pre ++ [b]).
  rewrite Hp, <- app_assoc. split; [done |].
  intros [_ Hf]%Forall_app. inversion Hf as [| ? ? Hnd]; subst. destruct Hnd; [congruence | lia].
Qed.

(** The status characters: [inl] to go on, or a bus error. *)
Definition status_step {B} (sixbits val : Z) : M (TTYBUS W) (Z + B) :=
  if (sixbits =? 3) || (sixbits =? 5) then
    modify (fun s => s <| m_bus_err := true |>) ;; raise (BUSERR 0)
  else if sixbits =? 4 then
    modify (fun s => s <| m_interrupt_flag := true |>) ;; ret (inl val)
  else ret (inl val).

Lemma status_frame {B} s s1 six val : rx_frame s s1 ->
  wp (status_step (B := B) six val) (fun r s' => r = inl val /\ rx_frame s s' /\
      pending s' = pending s1) (rx_error s) s1.
Proof.
  intros H1. unfold status_step.
  destruct (_ || _); [repeat wp_step; split; [eapply flag_frame; try done; by intros [] | by right] |].
  destruct (_ =? _); repeat wp_step; (split; [done |]; split; [| done]); [| done].
  eapply flag_frame; try done. by intros [].
Qed.

(** One codeword: the reader goes on, or it is at the start of data. *)
Lemma readword_step_frame s val : tty_wf s ->
  wp (readword_step val) (fun r s' => rx_less s s' /\
      match r with inl _ => True | inr (six, nr, _) => nr = 1 /\ rx_data s s' end)
    (rx_error s) s.
Proof.
  intros Hwf. unfold readword_step. apply wp_bind.
  eapply wp_mono; [by apply readcode1_frame | | intros e s2; apply rx_fail_error, rx_frame_refl].
  intros nr s1 ((H1 & Hl1) & -> & b & Hnc). wp_step. wp_step.
  assert (Hsix : bufdec s1 0 = chardec b) by (unfold bufdec; by destruct Hnc as (? & ? & ? & ? & ->)).
  rewrite Hsix. destruct (truthy _); [by wp_step |].
  destruct (Z.ltb_spec (chardec b) 6) as [Hlt | Hge].
  { eapply wp_mono; [by apply (status_frame s s1) | | done].
    intros r s2 (-> & H2 & Hp). unfold rx_less. by rewrite Hp. }
  assert (Hd1 : rx_data s s1) by (split; [done | by eapply next_code_pending]).
  assert (Hsetaddr : forall v s2, rx_less s1 s2 ->
    rx_less s (s2 <| m_addr_set := true |> <| m_lastaddr := u32 v |>)).
  { intros v s2 [H2 Hl2]. apply rx_data_less.
    eapply data_frame; [by eapply rx_data_trans | done.. |].
    intros []. split; cbn; try done. apply u32_range. }
  pose proof (Z.mod_pos_bound (chardec b) 4) as Hm. rewrite <- land_3 in Hm.
  destruct (_ =? _); [| destruct (_ =? _)].
  1, 2: apply wp_bind; eapply wp_mono; [apply readcodes_frame; [by apply H1 | lia | lia] | |];
    [intros r s2 [H2 _]; repeat wp_step; by split; [apply Hsetaddr |]
    | intros e s2; by apply rx_fail_error].
  by wp_step.
Qed.

Lemma rx_error_trans s s1 e s2 : rx_frame s s1 -> rx_error s1 e s2 -> rx_error s e s2.
Proof. intros H1 [H2 ?]. split; [by eapply rx_frame_trans | done]. Qed.

Lemma readword_frame s : tty_wf s ->
  wp readword (fun _ s' => rx_less s s') (rx_error s) s.
Proof.
  intros Hwf. fold_wp. apply wp_bind.
  apply (wp_loop _ (fun _ s' => rx_frame s s') (fun _ s' => length (pending s'))).
  - intros val s1 H1.
    eapply wp_mono; [apply readword_step_frame; by apply H1 | | intros e s2; by apply rx_error_trans].
    intros [v | [[six nr] v]] s2 [H2 Hr].
    + split; [| apply H2]. eapply rx_frame_trans; [done | apply H2].
    + destruct Hr as [-> Hst].
      eapply wp_mono; [apply (readdata_frame s); [done | by eapply rx_frame_data_trans] | | done].
      intros v' s3. apply rx_data_less.
  - apply rx_frame_refl.
  - unfold rxfuel, pending. lia.
Qed.

(** One iteration of [readidle]. *)
Lemma readidle_step_frame s val : tty_wf s ->
  wp (readidle_step val) (fun r s' =>
      match r with
      | inl _ => rx_less s s'
      | inr None => rx_frame s s'
      | inr (Some (six, nr, _)) => nr = 1 /\ rx_data s s'
      end) (fun e s' => rx_error s e s' /\ pending s <> []) s.
Proof.
  intros Hwf. unfold readidle_step. apply wp_bind, dev_wp, ll_available_wp.
  intros av d Hin Hs Hav.
  assert (H0 : rx_frame s (s <| m_dev := d |>)).
  { split; cbn; try done; [by intros [] |]. exists []. unfold pending. cbn. by rewrite Hin. }
  destruct av; [change (negb (truthy (of_bool true))) with false; cbv iota
    | change (negb (truthy (of_bool false))) with true; cbv iota; by wp_step].
  eapply (wp_mono _ _ _ (rx_error s)); [| intros a s' Ha; exact Ha | intros; split; auto].
  apply wp_bind. eapply wp_mono; [apply lclreadcode_one; by apply H0 | |
    intros e s2 ?; by eapply rx_fail_error].
  intros rt s1 ((H1 & Hl1) & _).
  pose proof (rx_frame_trans _ _ _ H0 H1) as H01.
  destruct (rt <=? 0); [by wp_step |].
  apply wp_bind. eapply wp_mono; [apply lclreadcode_one; by apply H01 | |
    intros e s2 ?; by eapply rx_fail_error].
  intros nr s2 ((H2 & Hl2) & b & Hb & Hbuf & ->). wp_step. wp_step.
  assert (Hl : rx_less s s2) by (eapply rx_less_trans; [apply H01 | by split]).
  replace (bufdec s2 0) with (chardec b) by (unfold bufdec; by rewrite Hbuf).
  unfold notcode in *. destruct (truthy _) eqn:Hc; [by wp_step |].
  destruct (Z.ltb_spec (chardec b) 6) as [Hlt | Hge].
  { eapply wp_mono; [by apply (status_frame s s2), Hl | | done].
    intros r s3 (-> & H3 & Hp). unfold rx_less in *. rewrite Hp. tauto. }
  assert (Hd1 : rx_data s s2)
    by (split; [apply Hl | by eapply (next_code_started s s1)]).
  pose proof (Z.mod_pos_bound (chardec b) 4) as Hm. rewrite <- land_3 in Hm.
  destruct (_ =? _); [| destruct (_ =? _)].
  1, 2: apply wp_bind; eapply wp_mono; [apply readcodes_frame; [by apply Hl | lia | lia] | |];
    [intros r s3 [[H3 _] _]; repeat wp_step; apply rx_data_less; by eapply rx_data_trans
    | intros e s3 ?; eapply rx_fail_error; [apply Hl | done]].
  by wp_step.
Qed.

Lemma readidle_frame s : tty_wf s ->
  wp readidle (fun _ s' => rx_frame s s') (fun e s' => rx_error s e s' /\ pending s <> []) s.
Proof.
  intros Hwf. fold_wp. apply wp_bind.
  apply (wp_loop _ (fun _ s' => rx_frame s s') (fun _ s' => length (pending s'))).
  - intros val s1 H1.
    assert (Hpend : forall s', rx_frame s s' -> pending s' <> [] -> pending s <> []).
    { intros s' [_ _ _ _ _ _ _ (pre & -> & _)] Hne [_ ?]%app_eq_nil. done. }
    eapply wp_mono; [apply readidle_step_frame; by apply H1 | |
      intros e s2 [He Hne]; split; [by eapply rx_error_trans | by eapply Hpend]].
    intros [v | [[[six nr] v] |]] s2 H2.
    + split; [| apply H2]. eapply rx_frame_trans; [done | apply H2].
    + destruct H2 as [-> Hst]. apply wp_bind.
      pose proof (rx_frame_data_trans _ _ _ H1 Hst) as Hd.
      eapply wp_mono; [by apply (readdata_frame s) | |].
      * intros v' s3 [H3 _]. by wp_step.
      * intros e s3 He. split; [done |]. apply rx_data_less in Hd as [_ Hl].
        intros Hnil. rewrite Hnil in Hl. cbn in Hl. lia.
    + wp_step. by eapply rx_frame_trans.
  - apply rx_frame_refl.
  - unfold rxfuel, pending. lia.
Qed.

(** ** Waiting *)

Lemma usleep_scan_eq bs s : usleep_scan bs s =
  s <| m_interrupt_flag := m_interrupt_flag s || existsb (Z.eqb TTYC_INT) bs |>.
Proof.
  revert s. induction bs as [| b bs IH]; intros s; cbn -[TTYC_INT].
  - rewrite orb_false_r. by destruct s.
  - unfold usleep_scan in IH. rewrite IH, (Z.eqb_sym TTYC_INT b).
    destruct (b =? TTYC_INT); cbn; [by rewrite orb_true_r | done].
Qed.

Lemma usleep_wp ms s : tty_wf s ->
  wp (usleep ms) (fun _ s' => tty_wf s' /\ exists pre, pending s = pre ++ pending s' /\
      (length pre <= 16)%nat /\
      m_interrupt_flag s' = m_interrupt_flag s || existsb (Z.eqb TTYC_INT) pre)
    (fun _ _ => False) s.
Proof.
  intros Hwf. pose proof (wf_buf _ Hwf) as Hbuf. fold_wp.
  apply wp_bind, dev_wp, ll_poll_wp. intros av d Hi Hs Hav.
  assert (Hwf1 : tty_wf (s <| m_dev := d |>)) by (destruct Hwf; by split).
  destruct av; [| wp_step; split; [done |]; exists []; unfold pending; cbn; rewrite orb_false_r, Hi; split_and!; (done || lia)].
  rewrite decide_True by lia. apply wp_bind, dev_wp, ll_read_wp; [lia | |].
  2: { intros Hnil. change (ll_incoming d = []) in Hnil. rewrite Hi in Hnil. by destruct (Hav eq_refl). }
  cbn [m_dev set_field set_m_dev]. change (m_dev (s <| m_dev := d |>)) with d. rewrite Hi.
  intros k d' Hk Hkl Hin _. wp_step. wp_step.
  destruct (Z.eqb_spec (Z.of_nat k) 0); [lia |]. wp_step. rewrite usleep_scan_eq. split.
  - destruct Hwf1. split; cbn; rewrite ?length_inserts; done.
  - exists (take k (pending s)). unfold pending. cbn. rewrite Hin, take_drop, length_take_le by done.
    split_and!; [done | lia | done].
Qed.
End Recv.
