(* ===== verification/TtySend.v ===== *)
(** The sending half of [TTYBUS]: what its commands put on the wire.

    The encoder's output is read back with the receiver of [WbuSpec]; [link]
    ties the encoder's memory of the address and of the written words to the
    receiver's. *)

From stdpp Require Import base tactics list numbers option.
From Stdlib Require Import ZArith Lia.
From S2P Require Import Prelude LLComms TtyBus WbuSpec TtyBase TtyRecv.
Local Open Scope Z_scope.

(** ** Codewords on the wire *)

(** All of the values have six bits. *)
Abbreviation sixbit vs := (Forall (fun v : Z => 0 <= v < 64) vs).
Abbreviation words32 vs := (Forall (fun v : Z => 0 <= v < 2 ^ 32) vs).

Lemma rx_code f vs :
  sixbit vs -> vs <> [] -> length vs = cwlen (hd 0 vs) -> w_pend f = [] ->
  rxbytes f (enc <$> vs) = accept f vs.
Proof. intros Hvs Hne Hl Hp. apply rxbytes_codeword; [by apply enc_tohex | done..]. Qed.

Ltac sixbits := repeat constructor; try apply land63_range; try lia.

(** A receiver at word address [w], between codewords, that remembers [hist]. *)
Definition at_addr (f : wbu) (hist : list Z) (w : Z) : Prop :=
  w_pend f = [] /\ w_hist f = hist /\ w_addr f = w.

Lemma rx_setaddr f h t w :
  0 <= h < 64 -> sixbit t -> S (length t) = cwlen h -> w_pend f = [] ->
  expand (w_hist f) (h :: t) = CwAddr w -> h .>> 3 <> 3 ->
  exists f', rxbytes f (enc <$> h :: t) = (f', []) /\ at_addr f' (w_hist f) w.
Proof.
  intros Hh Ht Hl Hp He Hn. rewrite rx_code by (try constructor; done).
  unfold accept. rewrite He. cbn. rewrite (proj2 (Z.eqb_neq _ _) Hn). by eexists.
Qed.

Lemma rx_reladdr f h t d w :
  0 <= h < 64 -> sixbit t -> S (length t) = cwlen h -> w_pend f = [] ->
  expand (w_hist f) (h :: t) = CwRel d -> h .>> 3 <> 3 -> (w_addr f + d) mod 2 ^ 32 = w ->
  exists f', rxbytes f (enc <$> h :: t) = (f', []) /\ at_addr f' (w_hist f) w.
Proof.
  intros Hh Ht Hl Hp He Hn Hw. rewrite rx_code by (try constructor; done).
  unfold accept. rewrite He. cbn. rewrite (proj2 (Z.eqb_neq _ _) Hn). by eexists.
Qed.

(** The value of digits taken from a number. *)
Lemma digits_1 d : digits [d .& 0x3f] = d mod 2 ^ 6.
Proof. unfold digits. cbn [foldl]. rewrite land_63. change (2 ^ 6) with 64. lia. Qed.

Lemma digits_2 d : digits [(d .>> 6) .& 0x3f; d .& 0x3f] = d mod 2 ^ 12.
Proof. unfold digits. cbn [foldl]. rewrite !land_63, !shiftr_div by lia. zlia. Qed.

Lemma digits_3 d :
  digits [(d .>> 12) .& 0x3f; (d .>> 6) .& 0x3f; d .& 0x3f] = d mod 2 ^ 18.
Proof. unfold digits. cbn [foldl]. rewrite !land_63, !shiftr_div by lia. zlia. Qed.

Lemma digits_4 d :
  digits [(d .>> 18) .& 0x3f; (d .>> 12) .& 0x3f; (d .>> 6) .& 0x3f; d .& 0x3f] = d mod 2 ^ 24.
Proof. unfold digits. cbn [foldl]. rewrite !land_63, !shiftr_div by lia. zlia. Qed.

Lemma digits_5 d :
  digits [(d .>> 24) .& 0x3f; (d .>> 18) .& 0x3f; (d .>> 12) .& 0x3f; (d .>> 6) .& 0x3f;
          d .& 0x3f] = d mod 2 ^ 30.
Proof. unfold digits. cbn [foldl]. rewrite !land_63, !shiftr_div by lia. zlia. Qed.

(** Writes, with the two high bits of the distance or of the value in the first
    character. *)
Definition wr_addr (inc : bool) (w : Z) : Z := if inc then (w + 1) mod 2 ^ 32 else w.

(** The fields of the first character of a write; [k] is 2 for a compressed
    one and 3 for one in full. *)
Lemma wr_head q (inc : bool) k : 0 <= q < 4 -> k = 2 \/ k = 3 ->
  let h := (q .<< 1) + of_bool inc + 8 * k in
  0 <= h < 64 /\ (h =? 0x2e) = false /\ h .>> 3 = k /\ (h .>> 1) .& 3 = q /\
  truthy (h .& 1) = inc /\ h .>> 4 = 1 /\ cwlen h = (if (k =? 2)%Z then 2 else 6)%nat.
Proof.
  intros Hq Hk. assert (Hqs : q = 0 \/ q = 1 \/ q = 2 \/ q = 3) by lia.
  destruct Hqs as [-> | [-> | [-> | ->]]], Hk as [-> | ->], inc;
    repeat split; cbn; try done; lia.
Qed.

Lemma rx_cwrite f q (inc : bool) t v :
  0 <= q < 4 -> 0 <= t < 64 -> w_pend f = [] ->
  w_hist f !! Z.to_nat (q * 64 + t - 1) = Some v ->
  rxbytes f (enc <$> [(q .<< 1) + of_bool inc + 0x10; t]) =
    (mkWbu [] true (w_hist f) (wr_addr inc (w_addr f)), [BusWrite (w_addr f) v]).
Proof.
  intros Hq Ht Hp Hh.
  destruct (wr_head q inc 2 Hq (or_introl eq_refl)) as (Hr & H1 & H2 & H3 & H4 & H5 & H6).
  change (8 * 2) with 0x10 in *. generalize dependent ((q .<< 1) + of_bool inc + 16).
  intros h Hr H1 H2 H3 H4 H5 H6.
  rewrite rx_code; [| by apply Forall_cons; [| apply Forall_cons] | done | cbn [length hd]; by rewrite H6 | done].
  unfold accept, expand, remember. rewrite H1, H2, H3, H4, H5.
  change (digits [t]) with t. cbn [Z.eqb Pos.eqb]. rewrite Hh. done.
Qed.

Lemma rx_write f q (inc : bool) t :
  0 <= q < 4 -> sixbit t -> length t = 5%nat -> w_pend f = [] ->
  rxbytes f (enc <$> ((q .<< 1) + of_bool inc + 0x18) :: t) =
    (mkWbu [] true ((q * 2 ^ 30 + digits t) :: w_hist f) (wr_addr inc (w_addr f)),
     [BusWrite (w_addr f) (q * 2 ^ 30 + digits t)]).
Proof.
  intros Hq Ht Hl Hp.
  destruct (wr_head q inc 3 Hq (or_intror eq_refl)) as (Hr & H1 & H2 & H3 & H4 & H5 & H6).
  change (8 * 3) with 0x18 in *. generalize dependent ((q .<< 1) + of_bool inc + 24).
  intros h Hr H1 H2 H3 H4 H5 H6.
  rewrite rx_code; [| by apply Forall_cons | done | cbn [length hd]; by rewrite H6, Hl | done].
  unfold accept, expand, remember. rewrite H1, H2, H3, H4, H5. done.
Qed.

Section Send.
Context {W : Type} {HOs : Os W} {HLaws : OsLaws W}.
Implicit Types (s : TTYBUS W).

(** ** The encoder and the receiver agree *)

(** Every word of the table that the encoder may refer to is the word that far
    back in the receiver's history. *)
Definition hist_agree (wl : bool) (wa : Z) (tbl hist : list Z) : Prop :=
  forall i, 1 <= i <= 255 -> wl = true \/ i <= wa ->
    hist !! Z.to_nat (i - 1) = Some (tbl !!! Z.to_nat ((wa - i) mod 256)).

Definition hist_ok (s : TTYBUS W) (hist : list Z) : Prop :=
  hist_agree (m_wrloaded s) (m_wraddr s) (m_writetbl s) hist.

Record link (s : TTYBUS W) (f : wbu) : Prop := {
  lk_pend : w_pend f = [];
  lk_addr : m_addr_set s = true -> m_lastaddr s = 4 * w_addr f;
  lk_hist : hist_ok s (w_hist f)
}.

(** A fresh object and a receiver between codewords, whatever the receiver
    has in its memory. *)
Lemma init_link d la rt wt f : w_pend f = [] -> link (init d la rt wt) f.
Proof.
  intros Hp. split; [done | done |]. intros i Hi [Hl | Hl]; cbn in Hl; [done | lia].
Qed.

(** ** Addresses *)

(** The differential part of [encode_address]. *)
Definition diff_codes (d : Z) : list Z :=
  if (-32 <=? d) && (d <? 32) then [0x09; d .& 0x3f]
  else if (-2048 <=? d) && (d <? 2048) then [0x0b; (d .>> 6) .& 0x3f; d .& 0x3f]
  else if (- (1 .<< 17) <=? d) && (d <? 1 .<< 17) then
    [0x0d; (d .>> 12) .& 0x3f; (d .>> 6) .& 0x3f; d .& 0x3f]
  else if (- (1 .<< 23) <=? d) && (d <? 1 .<< 23) then
    [0x0f; (d .>> 18) .& 0x3f; (d .>> 12) .& 0x3f; (d .>> 6) .& 0x3f; d .& 0x3f]
  else [].

(** The absolute part, given how long the differential one is. *)
Definition abs_codes (addr : Z) (dvs : list Z) : list Z :=
  let ptr := length dvs in
  if (addr <=? 0x03f) && ((ptr =? 0)%nat || (2 <=? ptr)%nat) then [0x08; addr]
  else if (addr <=? 0x0fff) && ((ptr =? 0)%nat || (3 <=? ptr)%nat) then
    [0x0a; (addr .>> 6) .& 0x3f; addr .& 0x3f]
  else if (addr <=? 0x03ffff) && ((ptr =? 0)%nat || (4 <=? ptr)%nat) then
    [0x0c; (addr .>> 12) .& 0x3f; (addr .>> 6) .& 0x3f; addr .& 0x3f]
  else if (addr <=? 0x0ffffff) && ((ptr =? 0)%nat || (5 <=? ptr)%nat) then
    [0x0e; (addr .>> 18) .& 0x3f; (addr .>> 12) .& 0x3f; (addr .>> 6) .& 0x3f; addr .& 0x3f]
  else if (ptr =? 0)%nat then
    [(0 .<< 2) .| ((addr .>> 30) .& 0x03); (addr .>> 24) .& 0x3f; (addr .>> 18) .& 0x3f;
     (addr .>> 12) .& 0x3f; (addr .>> 6) .& 0x3f; addr .& 0x3f]
  else dvs.

Lemma diff_codes_six d : sixbit (diff_codes d).
Proof. unfold diff_codes. repeat case_match; sixbits. Qed.

Lemma diff_codes_len d : (length (diff_codes d) <= 5)%nat.
Proof. unfold diff_codes. repeat case_match; cbn; lia. Qed.

Lemma abs_codes_six addr dvs : 0 <= addr < 2 ^ 30 -> sixbit dvs -> sixbit (abs_codes addr dvs).
Proof.
  intros Ha Hd. unfold abs_codes. cbv zeta.
  assert (0 <= (0 .<< 2) .| ((addr .>> 30) .& 3) < 64).
  { change (0 .<< 2) with 0. rewrite Z.lor_0_l, land_3. pose proof (Z.mod_pos_bound (addr .>> 30) 4). lia. }
  repeat case_match; try done; sixbits.
  all: rewrite andb_true_iff, Z.leb_le in *; lia.
Qed.

Lemma abs_codes_len addr dvs : (length dvs <= 5)%nat -> (length (abs_codes addr dvs) <= 6)%nat.
Proof. intros. unfold abs_codes. cbv zeta. repeat case_match; cbn; lia. Qed.

(** The difference that [encode_address] computes: unsigned, so never negative. *)
Definition diffaddr (a last : Z) : Z := s32 (u32 (a - last) .>> 2).

Lemma diffaddr_val a last : diffaddr a last = ((a - last) mod 2 ^ 32) / 4.
Proof.
  unfold diffaddr, s32, u32. rewrite shiftr_div by lia. change (2 ^ 2) with 4.
  pose proof (Z.mod_pos_bound (a - last) (2 ^ 32)).
  rewrite Z.mod_small; zlia.
Qed.

(** The absolute encodings lead to the address they encode. *)
Lemma abs_codes_rx f addr dvs :
  0 <= addr < 2 ^ 30 -> w_pend f = [] -> abs_codes addr dvs <> dvs \/ dvs = [] ->
  exists f', rxbytes f (enc <$> abs_codes addr dvs) = (f', []) /\ at_addr f' (w_hist f) addr.
Proof.
  intros Ha Hp Hne. unfold abs_codes in *. cbv zeta in *.
  destruct (_ && _) eqn:E1; bools.
  { apply rx_setaddr; sixbits; done. }
  destruct (_ && _) eqn:E2; bools.
  { apply rx_setaddr; sixbits; try done.
    unfold expand. rewrite digits_2. cbn. f_equal. apply Z.mod_small. lia. }
  destruct (_ && _) eqn:E3; bools.
  { apply rx_setaddr; sixbits; try done.
    unfold expand. rewrite digits_3. cbn. f_equal. apply Z.mod_small. lia. }
  destruct (_ && _) eqn:E4; bools.
  { apply rx_setaddr; sixbits; try done.
    unfold expand. rewrite digits_4. cbn. f_equal. apply Z.mod_small. lia. }
  destruct (length dvs =? 0)%nat eqn:E5; [| destruct Hne as [? | ->]; done].
  replace ((0 .<< 2) .| ((addr .>> 30) .& 3)) with 0.
  2: { rewrite land_3, shiftr_div by lia. rewrite (Z.div_small addr) by lia. done. }
  apply rx_setaddr; sixbits; try done.
  unfold expand. rewrite digits_5. cbn. f_equal. apply Z.mod_small. lia.
Qed.

Lemma sext_small k d : 0 < k -> 0 <= d < 2 ^ (k - 1) -> sext k (d mod 2 ^ k) = d.
Proof.
  intros Hk Hd. assert (2 ^ (k - 1) <= 2 ^ k) by (apply Z.pow_le_mono_r; lia).
  unfold sext. rewrite Z.mod_small by lia.
  destruct (Z.ltb_spec d (2 ^ (k - 1))); [done | lia].
Qed.

(** A differential encoding leads to the sum, when the sum is what is wanted. *)
Lemma diff_codes_rx f d w :
  0 <= d < 2 ^ 23 -> w_pend f = [] -> w_addr f + d = w -> 0 <= w < 2 ^ 32 ->
  exists f', rxbytes f (enc <$> diff_codes d) = (f', []) /\ at_addr f' (w_hist f) w.
Proof.
  intros Hd Hp Hw Hr.
  assert (Hm : (w_addr f + d) mod 2 ^ 32 = w) by (rewrite Z.mod_small; lia).
  unfold diff_codes. change (1 .<< 17) with (2 ^ 17). change (1 .<< 23) with (2 ^ 23).
  destruct (_ && _) eqn:E1; bools.
  { apply (rx_reladdr f _ _ d); sixbits; try done.
    unfold expand. rewrite digits_1. cbn -[sext Z.pow]. f_equal. apply (sext_small 6); lia. }
  destruct (_ && _) eqn:E2; bools.
  { apply (rx_reladdr f _ _ d); sixbits; try done.
    unfold expand. rewrite digits_2. cbn -[sext Z.pow]. f_equal. apply (sext_small 12); lia. }
  destruct (_ && _) eqn:E3; bools.
  { apply (rx_reladdr f _ _ d); sixbits; try done.
    unfold expand. rewrite digits_3. cbn -[sext Z.pow]. f_equal. apply (sext_small 18); lia. }
  destruct (_ && _) eqn:E4; bools; [| lia].
  apply (rx_reladdr f _ _ d); sixbits; try done.
  unfold expand. rewrite digits_4. cbn -[sext Z.pow]. f_equal. apply (sext_small 24); lia.
Qed.

Lemma diff_codes_nil d : diff_codes d = [] -> d < - 2 ^ 23 \/ 2 ^ 23 <= d.
Proof.
  unfold diff_codes. change (1 .<< 17) with (2 ^ 17). change (1 .<< 23) with (2 ^ 23).
  repeat case_match; try done. bools. lia.
Qed.

Lemma diff_codes_size d : 0 <= d < 2 ^ 23 ->
  (length (diff_codes d) = 2%nat /\ d < 32) \/ (length (diff_codes d) = 3%nat /\ 32 <= d < 2048) \/
  (length (diff_codes d) = 4%nat /\ 2048 <= d < 2 ^ 17) \/
  (length (diff_codes d) = 5%nat /\ 2 ^ 17 <= d).
Proof.
  intros Hd. unfold diff_codes. change (1 .<< 17) with (2 ^ 17). change (1 .<< 23) with (2 ^ 23).
  repeat case_match; bools; cbn; lia.
Qed.

(** Where the differential encoding survives, the address did not wrap. *)
Lemma abs_codes_diff addr d :
  0 <= addr -> 0 <= d < 2 ^ 23 -> abs_codes addr (diff_codes d) = diff_codes d ->
  diff_codes d <> [] -> d < addr.
Proof.
  intros Ha Hd Heq Hne. destruct (Z.lt_ge_cases d addr); [done | exfalso].
  pose proof (diff_codes_size d Hd) as Hs.
  unfold abs_codes in Heq. cbv zeta in Heq.
  assert (Hh : forall h t, diff_codes d = h :: t -> Z.odd h = true).
  { unfold diff_codes. intros h t. repeat case_match; intros [= <- _]; done. }
  destruct (diff_codes d) as [| h t] eqn:Hdc; [done |]. specialize (Hh h t eq_refl).
  repeat (case_match; [injection Heq as <- _; done |]).
  rewrite ?andb_false_iff, ?orb_false_iff, ?Nat.leb_gt, ?Nat.eqb_neq, ?Z.leb_gt in *.
  cbn [length] in *. lia.
Qed.

(** The codes of [encode_address]. *)
Definition addr_codes (set : bool) (last a : Z) : list Z :=
  if set && (a =? last) then []
  else abs_codes (a .>> 2) (if set then diff_codes (diffaddr a last) else []).

Lemma addr_codes_six set last a : 0 <= a < 2 ^ 32 -> sixbit (addr_codes set last a).
Proof.
  intros Ha. unfold addr_codes. case_match; [constructor |].
  apply abs_codes_six; [rewrite shiftr_div; zlia |].
  destruct set; [apply diff_codes_six | constructor].
Qed.

Lemma addr_codes_len set last a : (length (addr_codes set last a) <= 6)%nat.
Proof.
  unfold addr_codes. case_match; [cbn; lia |]. apply abs_codes_len.
  destruct set; [apply diff_codes_len | cbn; lia].
Qed.

(** Whatever the encoding chosen, the receiver ends at the address. *)
Lemma addr_codes_rx s f a :
  tty_wf s -> link s f -> 0 <= a < 2 ^ 32 -> a mod 4 = 0 ->
  exists f', rxbytes f (enc <$> addr_codes (m_addr_set s) (m_lastaddr s) a) = (f', []) /\
    at_addr f' (w_hist f) (a / 4).
Proof.
  intros Hwf [Hp Hla _] Ha Hal. unfold addr_codes.
  destruct (m_addr_set s && (a =? m_lastaddr s)) eqn:E; bools.
  - exists f. split; [done |]. split; [done |]. split; [done |].
    apply Z.eqb_eq in H0. rewrite H0, Hla by done. zlia.
  - assert (Hsh : a .>> 2 = a / 4) by (by rewrite shiftr_div). rewrite Hsh.
    destruct (m_addr_set s) eqn:Hset.
    2: { apply abs_codes_rx; [zlia | done | by right]. }
    specialize (Hla eq_refl). destruct Hwf as [_ _ _ _ _ _ Hl].
    set (d := diffaddr a (m_lastaddr s)). set (dvs := diff_codes d).
    destruct (decide (abs_codes (a / 4) dvs = dvs)) as [Heq | Hne].
    2: { apply abs_codes_rx; [zlia | done | by left]. }
    destruct (decide (dvs = [])) as [Hnil | Hnn].
    { apply abs_codes_rx; [zlia | done | by right]. }
    rewrite Heq. pose proof (diffaddr_val a (m_lastaddr s)) as Hd. fold d in Hd.
    assert (Hd23 : 0 <= d < 2 ^ 23).
    { unfold dvs, diff_codes in Hnn. change (1 .<< 17) with (2 ^ 17) in Hnn.
      change (1 .<< 23) with (2 ^ 23) in Hnn.
      split; [zlia |]. repeat case_match; bools; try lia; done. }
    pose proof (abs_codes_diff (a / 4) d ltac:(zlia) Hd23 Heq Hnn).
    apply diff_codes_rx; [done | done | zlia | zlia].
Qed.

(** The first part of [encode_address], up to its terminating zero. *)
Definition diff_part (set : bool) (last a : Z) : M (TTYBUS W) nat :=
  if set then
    let* ptr := putcs 0 (diff_codes (diffaddr a last)) in
    poke ptr 0 ;; ret ptr
  else ret 0%nat.

Lemma diff_part_wp last a s (Q : nat -> TTYBUS W -> Prop) E :
  let dvs := if m_addr_set s then diff_codes (diffaddr a last) else [] in
  tty_wf s ->
  (forall b, length b = length (m_buf s) -> take (length dvs) b = enc <$> dvs ->
     Q (length dvs) (s <| m_buf := b |>)) ->
  wp (diff_part (m_addr_set s) last a) Q E s.
Proof.
  intros dvs Hwf HQ. unfold diff_part. subst dvs. destruct Hwf as [_ Hbuf _ _ _ _ _].
  destruct (m_addr_set s).
  - pose proof (diff_codes_len (diffaddr a last)).
    apply wp_bind, putcs_wp; [apply diff_codes_six | lia |]. cbn [plus].
    intros b Hb Htk. apply wp_bind, poke_wp; [cbn; lia |]. wp_step.
    apply HQ; cbn; rewrite ?length_insert; [done |]. by rewrite take_insert_ge.
  - wp_step. destruct s. by apply (HQ _ eq_refl).
Qed.

(** The second part: an absolute address over the first one, or nothing. *)
Definition abs_part (addr : Z) (ptr : nat) : M (TTYBUS W) nat :=
  if (addr <=? 0x03f) && ((ptr =? 0)%nat || (2 <=? ptr)%nat) then
    putcs 0 [0x08; addr]
  else if (addr <=? 0x0fff) && ((ptr =? 0)%nat || (3 <=? ptr)%nat) then
    putcs 0 [0x0a; (addr .>> 6) .& 0x03f; addr .& 0x03f]
  else if (addr <=? 0x03ffff) && ((ptr =? 0)%nat || (4 <=? ptr)%nat) then
    putcs 0 [0x0c; (addr .>> 12) .& 0x03f; (addr .>> 6) .& 0x03f; addr .& 0x03f]
  else if (addr <=? 0x0ffffff) && ((ptr =? 0)%nat || (5 <=? ptr)%nat) then
    putcs 0 [0x0e; (addr .>> 18) .& 0x03f; (addr .>> 12) .& 0x03f;
             (addr .>> 6) .& 0x03f; addr .& 0x03f]
  else if (ptr =? 0)%nat then encode 0 addr 0
  else ret ptr.

Lemma abs_part_wp addr dvs s (Q : nat -> TTYBUS W -> Prop) E :
  let vs := abs_codes addr dvs in
  tty_wf s -> 0 <= addr < 2 ^ 30 -> (length dvs <= 5)%nat -> sixbit dvs ->
  take (length dvs) (m_buf s) = enc <$> dvs ->
  (forall b, length b = length (m_buf s) -> take (length vs) b = enc <$> vs ->
     Q (length vs) (s <| m_buf := b |>)) ->
  wp (abs_part addr (length dvs)) Q E s.
Proof.
  intros vs Hwf Ha Hd Hdv Htk HQ.
  pose proof (abs_codes_len addr dvs Hd) as Hlen. pose proof (abs_codes_six addr dvs Ha Hdv) as Hsix.
  fold vs in Hlen, Hsix. destruct Hwf as [_ Hbuf _ _ _ _ _].
  unfold abs_part. subst vs. unfold abs_codes in *. cbv zeta in *.
  do 5 (case_match; [apply putcs_wp; [done | lia | exact HQ] |]).
  wp_step. destruct s. by apply (HQ _ eq_refl).
Qed.

(** [encode_address] writes its codes to the start of the buffer, and throws on
    an unaligned address. *)
Lemma encode_address_wp a s (Q : nat -> TTYBUS W -> Prop) E :
  tty_wf s -> 0 <= a < 2 ^ 32 ->
  (a mod 4 <> 0 -> E (BUSERR a) s) ->
  (a mod 4 = 0 -> forall b r,
     let vs := addr_codes (m_addr_set s) (m_lastaddr s) a in
     length b = length (m_buf s) -> take (length vs) b = enc <$> vs -> 0 <= r < 1024 ->
     (m_addr_set s && (a =? m_lastaddr s) = true -> r = m_rdaddr s) ->
     Q (length vs) (s <| m_buf := b |> <| m_rdaddr := r |>)) ->
  wp (encode_address a) Q E s.
Proof.
  intros Hwf Ha HE HQ. unfold encode_address. wp_step. wp_step. cbv zeta.
  rewrite land_3. destruct (Z.eqb_spec (a mod 4) 0) as [Hal | Hal]; cbn [negb];
    [| wp_step; auto].
  specialize (HQ Hal). pose proof Hwf as [_ Hbuf _ _ _ Hrd Hl]. unfold addr_codes in HQ.
  destruct (m_addr_set s && (a =? m_lastaddr s)) eqn:Hsame.
  { wp_step. specialize (HQ (m_buf s) (m_rdaddr s) eq_refl eq_refl Hrd (fun _ => eq_refl)). by destruct s. }
  apply wp_bind.
  match goal with |- wp ?m _ _ _ => replace m with (diff_part (m_addr_set s) (m_lastaddr s) a) end.
  2: { unfold diff_part, diff_codes, diffaddr. destruct (m_addr_set s); [| done].
       repeat case_match; done. }
  apply diff_part_wp; [done |]. intros b Hb Htk.
  set (dvs := if m_addr_set s then _ else _) in *.
  apply wp_bind. change (wp (abs_part (a .>> 2) (length dvs))
    (fun ptr => wp (poke ptr 0 ;; modify (fun s => s <| m_rdaddr := 0 |>) ;; ret ptr) Q E) E
    (s <| m_buf := b |>)).
  assert (Hdl : (length dvs <= 5)%nat)
    by (unfold dvs; destruct (m_addr_set s); [apply diff_codes_len | cbn; lia]).
  apply (abs_part_wp _ dvs); [| rewrite shiftr_div; zlia | done | | done |].
  - destruct Hwf. split; cbn; by rewrite ?Hb.
  - unfold dvs. destruct (m_addr_set s); [apply diff_codes_six | constructor].
  - intros b' Hb' Htk'. pose proof (abs_codes_len (a .>> 2) dvs Hdl) as Hvl. cbn in Hb'.
    apply wp_bind, poke_wp; [cbn; lia |]. repeat wp_step.
    apply (HQ _ 0); cbn; rewrite ?length_insert; [lia | | lia | done]. by rewrite take_insert_ge.
Qed.

(** ** Words *)

(** What the compression search finds is a word the encoder may refer to. *)
Lemma caddr_search_spec wl wraddr tbl val n i :
  0 <= wraddr < 256 -> 1 <= i -> i + Z.of_nat n = 256 ->
  let c := caddr_search wl wraddr tbl val n i in
  c = 0 \/ (1 <= c <= 255 /\ (wl = true \/ c <= wraddr) /\
           tbl !!! Z.to_nat ((wraddr - c) mod 256) = val).
Proof.
  intros Hw. revert i. induction n as [| n IH]; intros i Hi Hn; cbn [caddr_search]; [by left |].
  cbv zeta. rewrite !land_255.
  destruct (negb wl && (wraddr <? (wraddr - i) mod 256)) eqn:Hbrk; [by left |].
  destruct (Z.eqb_spec (tbl !!! Z.to_nat ((wraddr - i) mod 256)) val) as [Hv | _].
  - right. assert (Hc : (wraddr - (wraddr - i) mod 256) mod 256 = i).
    { rewrite Zminus_mod_idemp_r. replace (wraddr - (wraddr - i)) with i by lia.
      apply Z.mod_small. lia. }
    rewrite Hc. split; [lia |]. split; [| done].
    destruct wl; [by left | right]. cbn in Hbrk. apply Z.ltb_ge in Hbrk. zlia.
  - apply IH; lia.
Qed.

(** Writing a word in full: it enters the table and the history. *)
Lemma hist_agree_push wl wa tbl hist v :
  0 <= wa < 256 -> length tbl = 512%nat -> hist_agree wl wa tbl hist ->
  let wa' := (wa + 1) mod 256 in
  hist_agree (if wa' =? 0 then true else wl) wa' (<[Z.to_nat wa := v]> tbl) (v :: hist).
Proof.
  intros Hwa Hl Hh wa' i Hi Hav. subst wa'.
  assert (Hidx : ((wa + 1) mod 256 - i) mod 256 = (wa - (i - 1)) mod 256).
  { rewrite Zminus_mod_idemp_l. f_equal. lia. }
  rewrite Hidx. destruct (decide (i = 1)) as [-> | Hne].
  - rewrite Z.sub_diag, Z.sub_0_r, Z.mod_small by lia. cbn.
    by rewrite list_lookup_total_insert_eq by lia.
  - rewrite list_lookup_total_insert_ne by zlia.
    replace (Z.to_nat (i - 1)) with (S (Z.to_nat (i - 1 - 1))) by lia. cbn [lookup list_lookup].
    apply Hh; [lia |]. destruct (Z.eqb_spec ((wa + 1) mod 256) 0); [right; zlia |].
    destruct Hav; [by left | right; zlia].
Qed.

(** The characters of the line have seven bits. *)
Definition ascii (cs : list Z) : Prop := Forall (fun b => 0 <= b < 128) cs.

Lemma enc_ascii vs : Forall (fun v => 0 <= v < 64) vs -> ascii (enc <$> vs).
Proof. intros H. apply Forall_fmap. revert H. apply Forall_impl. intros v Hv. by apply enc_spec. Qed.

(** What writing one word achieves: the bytes appended at [ptr] are one write of
    it, and the encoder and the receiver stay in step. *)
Definition word_sent (inc : bool) (val : Z) (ptr : nat) (s : TTYBUS W) (f : wbu)
    (ptr' : nat) (s' : TTYBUS W) : Prop :=
  exists cs f',
    ptr' = (ptr + length cs)%nat /\ ((1 <= length cs <= 6)%nat /\ ascii cs) /\
    take ptr' (m_buf s') = take ptr (m_buf s) ++ cs /\
    length (m_buf s') = length (m_buf s) /\
    rxbytes f cs = (f', [BusWrite (w_addr f) val]) /\
    w_pend f' = [] /\ w_addr f' = wr_addr inc (w_addr f) /\
    hist_ok s' (w_hist f') /\ tty_wf s' /\ m_dev s' = m_dev s /\
    m_addr_set s' = m_addr_set s /\
    m_lastaddr s' = (if inc then u32 (m_lastaddr s + 4) else m_lastaddr s).

Definition bump (inc : bool) (s : TTYBUS W) : TTYBUS W :=
  if inc then s <| m_lastaddr := u32 (m_lastaddr s + 4) |> else s.

Lemma bump_facts inc s :
  m_buf (bump inc s) = m_buf s /\ m_dev (bump inc s) = m_dev s /\
  m_addr_set (bump inc s) = m_addr_set s /\
  (forall h, hist_ok s h -> hist_ok (bump inc s) h) /\ (tty_wf s -> tty_wf (bump inc s)) /\
  m_lastaddr (bump inc s) = (if inc then u32 (m_lastaddr s + 4) else m_lastaddr s).
Proof.
  destruct inc; cbn; [| tauto]. split_and!; try done.
  intros []. split; cbn; try done. apply u32_range.
Qed.

Lemma word_sent_intro inc val ptr s f cs f' s1 :
  (1 <= length cs <= 6)%nat /\ ascii cs ->
  take (ptr + length cs) (m_buf s1) = take ptr (m_buf s) ++ cs ->
  length (m_buf s1) = length (m_buf s) ->
  rxbytes f cs = (f', [BusWrite (w_addr f) val]) ->
  w_pend f' = [] -> w_addr f' = wr_addr inc (w_addr f) ->
  hist_ok s1 (w_hist f') -> tty_wf s1 -> m_dev s1 = m_dev s -> m_addr_set s1 = m_addr_set s ->
  m_lastaddr s1 = m_lastaddr s ->
  word_sent inc val ptr s f (ptr + length cs) (bump inc s1).
Proof.
  intros [? ?] ? ? ? ? ? ? ? ? ? Hla. destruct (bump_facts inc s1) as (B1 & B2 & B3 & B4 & B5 & B6).
  exists cs, f'. rewrite B1, B2, B3, B6, Hla. split_and!; try done; try lia; auto.
Qed.

Lemma write_word_wp (inc : bool) val ptr s f E :
  tty_wf s -> (ptr + 6 <= length (m_buf s))%nat -> 0 <= val < 2 ^ 32 ->
  w_pend f = [] -> hist_ok s (w_hist f) ->
  wp (write_word (of_bool inc) val ptr) (word_sent inc val ptr s f) E s.
Proof.
  intros Hwf Hptr Hval Hp Hh. unfold write_word. wp_step. wp_step. cbv zeta.
  pose proof Hwf as [Hbl Hbuf Hwt Hrt Hwa Hra Hla].
  set (c := caddr_search _ _ _ _ _ _).
  pose proof (caddr_search_spec (m_wrloaded s) (m_wraddr s) (m_writetbl s) val 255 1 Hwa
                ltac:(lia) ltac:(lia)) as Hc. cbv zeta in Hc. fold c in Hc.
  replace (if truthy (of_bool inc) then 1 else 0) with (of_bool inc) by (by destruct inc).
  assert (Hend : forall (s1 : TTYBUS W) ptr1 (Q : nat -> TTYBUS W -> Prop), Q ptr1 (bump inc s1) ->
    wp (modify (fun s => if of_bool inc =? 1 then s <| m_lastaddr := u32 (m_lastaddr s + 4) |> else s) ;;
        ret ptr1) Q E s1).
  { intros s1 ptr1 Q HQ. repeat wp_step. by destruct inc. }
  assert (Hq : forall x, 0 <= x .& 3 < 4).
  { intros x. rewrite land_3. apply Z.mod_pos_bound. lia. }
  pose proof (Z.mod_pos_bound val (2 ^ 30)) as Hlow.
  destruct (Z.eqb_spec c 0) as [H0 | H0]; cbn [negb].
  - clear Hc. destruct (wr_head ((val .>> 30) .& 3) inc 3 (Hq _) (or_intror eq_refl)) as [Hr _].
    do 2 apply wp_bind. apply putcs_wp; [by sixbits | cbn; lia |].
    intros b Hb Htk. repeat wp_step. apply Hend.
    pose proof (rx_write f ((val .>> 30) .& 3) inc
      [(val .>> 24) .& 0x3f; (val .>> 18) .& 0x3f; (val .>> 12) .& 0x3f; (val .>> 6) .& 0x3f;
       val .& 0x3f] (Hq _) ltac:(sixbits) eq_refl Hp) as Hrx.
    rewrite digits_5 in Hrx.
    replace ((val .>> 30) .& 3 * 2 ^ 30 + val mod 2 ^ 30) with val in Hrx
      by (rewrite land_3, shiftr_div by lia; zlia).
    set (s1 := s <| m_buf := b |> <| m_writetbl := _ |> <| m_wraddr := _ |>).
    set (s2 := if m_wraddr s1 =? 0 then s1 <| m_wrloaded := true |> else s1).
    assert (Hs2 : m_buf s2 = b /\ m_dev s2 = m_dev s /\ m_addr_set s2 = m_addr_set s /\
      m_lastaddr s2 = m_lastaddr s) by (subst s2; destruct (m_wraddr s1 =? 0); by split_and!).
    destruct Hs2 as (E1 & E2 & E3 & E4).
    rewrite <- (length_fmap enc). eapply (word_sent_intro inc val ptr s f _ _ s2);
      [.. | exact Hrx | done | done | | | done | done | done]; [split; [cbn; lia | apply enc_ascii; by sixbits] | | | |].
    + by rewrite E1, length_fmap.
    + by rewrite E1.
    + pose proof (hist_agree_push _ _ _ _ val Hwa Hwt Hh) as Hpush. cbv zeta in Hpush.
      rewrite <- land_255 in Hpush.
      change ((m_wraddr s + 1) .& 255) with (m_wraddr s1) in Hpush.
      subst s2. unfold hist_ok. destruct (m_wraddr s1 =? 0); exact Hpush.
    + subst s2. destruct (m_wraddr s1 =? 0); subst s1; split; cbn; rewrite ?length_insert, ?Hb; try done.
      all: rewrite land_255; apply Z.mod_pos_bound; lia.
  - destruct Hc as [Hc | (Hcr & Hav & Hv)]; [done |].
    destruct (wr_head ((c .>> 6) .& 3) inc 2 (Hq _) (or_introl eq_refl)) as [Hr _].
    apply wp_bind, putcs_wp; [by sixbits | cbn; lia |].
    intros b Hb Htk. apply Hend.
    pose proof (rx_cwrite f ((c .>> 6) .& 3) inc (c .& 0x3f) val (Hq _) (land63_range _) Hp) as Hrx.
    replace (Z.to_nat ((c .>> 6) .& 3 * 64 + c .& 0x3f - 1)) with (Z.to_nat (c - 1)) in Hrx
      by (rewrite land_3, land_63, shiftr_div by lia; zlia).
    rewrite <- Hv in Hrx at 1. specialize (Hrx (Hh c Hcr Hav)).
    rewrite <- (length_fmap enc). eapply word_sent_intro; try exact Hrx; [split; [cbn; lia | apply enc_ascii; by sixbits] | ..]; cbn; try done; try lia.
    split; cbn; by rewrite ?Hb.
Qed.

(** ** Strings of words *)

(** The bus writes of the words [vs] from word address [w] on. *)
Fixpoint wr_events (inc : bool) (w : Z) (vs : list Z) : list bus_event :=
  match vs with
  | [] => []
  | v :: vs' => BusWrite w v :: wr_events inc (wr_addr inc w) vs'
  end.

(** The word address after [n] of them. *)
Definition wr_end (inc : bool) (w : Z) (n : nat) : Z :=
  if inc then (w + Z.of_nat n) mod 2 ^ 32 else w.

Lemma wr_end_0 inc w : 0 <= w < 2 ^ 32 -> wr_end inc w 0 = w.
Proof. intros Hw. destruct inc; cbn [wr_end]; [| done]. rewrite Z.add_0_r. by apply Z.mod_small. Qed.

Lemma wr_end_S inc w n : wr_end inc (wr_addr inc w) n = wr_end inc w (S n).
Proof.
  destruct inc; cbn [wr_end wr_addr]; [| done].
  rewrite Zplus_mod_idemp_l. f_equal. lia.
Qed.

Lemma wr_end_range inc w n : 0 <= w < 2 ^ 32 -> 0 <= wr_end inc w n < 2 ^ 32.
Proof. intros Hw. destruct inc; cbn [wr_end]; [apply Z.mod_pos_bound; lia | done]. Qed.

Lemma wr_end_add inc w n m : wr_end inc (wr_end inc w n) m = wr_end inc w (n + m).
Proof.
  destruct inc; cbn [wr_end]; [| done]. rewrite Zplus_mod_idemp_l. f_equal. lia.
Qed.

Lemma wr_events_app inc w vs vs' :
  0 <= w < 2 ^ 32 ->
  wr_events inc w (vs ++ vs') = wr_events inc w vs ++ wr_events inc (wr_end inc w (length vs)) vs'.
Proof.
  revert w. induction vs as [| v vs IH]; intros w Hw; cbn [app wr_events length].
  - by rewrite wr_end_0.
  - rewrite <- wr_end_S, IH; [done |]. destruct inc; cbn [wr_addr]; [apply Z.mod_pos_bound; lia | done].
Qed.

(** [m_lastaddr] after [n] words. *)
Definition la_end (inc : bool) (a : Z) (n : nat) : Z :=
  if inc then u32 (a + 4 * Z.of_nat n) else a.

Lemma la_end_S inc la n :
  la_end inc (if inc then u32 (la + 4) else la) n = la_end inc la (S n).
Proof.
  destruct inc; cbn [la_end]; [| done]. unfold u32. rewrite Zplus_mod_idemp_l. f_equal. lia.
Qed.

Lemma la_end_add inc la n m : la_end inc (la_end inc la n) m = la_end inc la (n + m).
Proof.
  destruct inc; cbn [la_end]; [| done]. unfold u32. rewrite Zplus_mod_idemp_l. f_equal. lia.
Qed.

Lemma la_end_0 inc la : 0 <= la < 2 ^ 32 -> la_end inc la 0 = la.
Proof. intros Hw. destruct inc; cbn; [| done]. rewrite Z.add_0_r. by apply Z.mod_small. Qed.

(** What writing [vs] at [ptr] achieves. *)
Definition words_sent (inc : bool) (vs : list Z) (ptr : nat) (s : TTYBUS W) (f : wbu)
    (ptr' : nat) (s' : TTYBUS W) : Prop :=
  exists cs f',
    ptr' = (ptr + length cs)%nat /\ ((length vs <= length cs <= 6 * length vs)%nat /\ ascii cs) /\
    take ptr' (m_buf s') = take ptr (m_buf s) ++ cs /\
    length (m_buf s') = length (m_buf s) /\
    rxbytes f cs = (f', wr_events inc (w_addr f) vs) /\
    w_pend f' = [] /\ w_addr f' = wr_end inc (w_addr f) (length vs) /\
    hist_ok s' (w_hist f') /\ tty_wf s' /\ m_dev s' = m_dev s /\
    m_addr_set s' = m_addr_set s /\
    m_lastaddr s' = la_end inc (m_lastaddr s) (length vs).

Lemma words_sent_nil inc ptr s f : tty_wf s -> w_pend f = [] -> hist_ok s (w_hist f) ->
  0 <= w_addr f < 2 ^ 32 -> words_sent inc [] ptr s f ptr s.
Proof.
  intros Hwf Hp Hh Hw. exists [], f. rewrite Nat.add_0_r, app_nil_r, la_end_0 by apply Hwf.
  rewrite wr_end_0 by done. split_and!; try done. apply Forall_nil_2.
Qed.

Lemma words_sent_cons inc v vs ptr s f ptr1 s1 ptr2 s2 :
  word_sent inc v ptr s f ptr1 s1 ->
  (forall f1, w_pend f1 = [] -> hist_ok s1 (w_hist f1) -> w_addr f1 = wr_addr inc (w_addr f) ->
     words_sent inc vs ptr1 s1 f1 ptr2 s2) ->
  words_sent inc (v :: vs) ptr s f ptr2 s2.
Proof.
  intros (cs & f1 & -> & [Hl Hasc] & Htk & Hbl & Hrx & Hp & Ha & Hh & Hwf & Hd & Hs & Hla) Hrest.
  destruct (Hrest f1 Hp Hh Ha) as (cs2 & f2 & -> & [Hl2 Hasc2] & Htk2 & Hbl2 & Hrx2 & Hp2 & Ha2 & Hh2 & Hwf2
    & Hd2 & Hs2 & Hla2).
  exists (cs ++ cs2), f2. cbn [length wr_events]. rewrite length_app.
  split_and!; try done; try lia.
  - by apply Forall_app_2.
  - by rewrite Htk2, Htk, app_assoc.
  - by rewrite rxbytes_app, Hrx, Hrx2, Ha.
  - by rewrite Ha2, Ha, wr_end_S.
  - congruence.
  - congruence.
  - by rewrite Hla2, Hla, la_end_S.
Qed.

Lemma wr_addr_range inc w : 0 <= w < 2 ^ 32 -> 0 <= wr_addr inc w < 2 ^ 32.
Proof. destruct inc; cbn [wr_addr]; [intros _; apply Z.mod_pos_bound; lia | done]. Qed.

Lemma write_words_wp inc buf nw n ptr s f E :
  tty_wf s -> (ptr + 6 * n <= length (m_buf s))%nat -> words32 buf -> (nw + n <= length buf)%nat ->
  w_pend f = [] -> hist_ok s (w_hist f) -> 0 <= w_addr f < 2 ^ 32 ->
  wp (write_words (of_bool inc) buf nw n ptr)
    (words_sent inc (take n (drop nw buf)) ptr s f) E s.
Proof.
  intros Hwf Hptr Hbuf. revert nw ptr s f Hwf Hptr.
  induction n as [| n IH]; intros nw ptr s f Hwf Hptr Hn Hp Hh Hw; cbn [write_words].
  - wp_step. by apply words_sent_nil.
  - assert (Hv : is_Some (buf !! nw)) by (apply lookup_lt_is_Some; lia).
    destruct Hv as [v Hv]. rewrite Hv, (drop_S _ _ _ Hv). cbn [take].
    pose proof (proj1 (Forall_lookup _ _) Hbuf _ _ Hv) as Hvr.
    apply wp_bind. eapply wp_mono; [apply (write_word_wp inc v ptr s f E); (done || lia) | | done].
    intros ptr1 s1 Hws.
    pose proof Hws as (cs & f1 & Hp1 & [Hl _] & _ & Hbl & _ & Hpd & Ha & Hh1 & Hwf1 & _).
    assert (Hstep : forall f1, w_pend f1 = [] -> hist_ok s1 (w_hist f1) ->
      w_addr f1 = wr_addr inc (w_addr f) ->
      wp (write_words (of_bool inc) buf (S nw) n ptr1)
        (words_sent inc (take n (drop (S nw) buf)) ptr1 s1 f1) E s1).
    { intros f2 ? ? Ha2. apply IH; try done; try lia. rewrite Ha2. by apply wr_addr_range. }
    unfold wp in *. destruct (write_words _ _ _ _ _ _) as [ptr2 s2 | e s2].
    + by eapply words_sent_cons.
    + by apply (Hstep f1).
Qed.

(** ** The whole command *)

(** Since [s0], the FPGA has answered something, and some of all that was
    pending has been read; if it was status only, the address is [la]. *)
Definition heard (s0 s : TTYBUS W) (la : Z) : Prop :=
  exists replies consumed, pending s0 ++ replies = consumed ++ pending s /\
    (Forall nodata consumed -> m_lastaddr s = la).

Lemma heard_refl s : heard s s (m_lastaddr s).
Proof. exists [], []. by rewrite app_nil_r. Qed.

Lemma heard_reply s0 s s' la reply :
  heard s0 s la -> pending s' = pending s ++ reply -> m_lastaddr s' = m_lastaddr s ->
  heard s0 s' la.
Proof.
  intros (rs & cs & Heq & Hq) Hp Hla. exists (rs ++ reply), cs.
  rewrite Hp, Hla, !app_assoc, Heq. by rewrite <- !app_assoc.
Qed.

Lemma heard_frame s0 s s' la : heard s0 s la -> rx_frame s s' -> heard s0 s' la.
Proof.
  intros (rs & cs & Heq & Hq) [_ _ _ _ _ _ _ (pre & Hp & Hla)]. exists rs, (cs ++ pre).
  rewrite Heq, Hp, app_assoc. split; [done |]. intros [? ?]%Forall_app. rewrite Hla; auto.
Qed.

Lemma heard_move s0 s s' la inc n :
  heard s0 s la -> pending s' = pending s -> m_lastaddr s' = la_end inc (m_lastaddr s) n ->
  heard s0 s' (la_end inc la n).
Proof.
  intros (rs & cs & Heq & Hq) Hp Hla. exists rs, cs. rewrite Hp, Hla.
  split; [done |]. intros Hnd. by rewrite Hq.
Qed.

(** A peer in state [f] that does not answer writes. *)
Definition is_write (e : bus_event) : bool :=
  match e with BusWrite _ _ => true | BusRead _ _ _ => false end.
Definition mute (f : wbu) (s0 : TTYBUS W) : Prop := forall (c : LLCOMMSI W) out bs,
  ll_sent c = ll_sent (m_dev s0) ++ out ->
  forallb is_write (rxbytes f (out ++ bs)).2 = true -> no_answer bs c.

Lemma wr_events_write inc w vs : forallb is_write (wr_events inc w vs) = true.
Proof. revert w. induction vs as [| v vs IH]; intros w; [done | apply IH]. Qed.

(** The state of [writev] between blocks: [nw] words are sent, or will be
    with the [ptr] characters at the start of the buffer. *)
Definition wr_inv (inc : bool) (a : Z) (buf : list Z) (s0 : TTYBUS W) (f : wbu)
    (nw : nat) (ptr : nat) (s : TTYBUS W) : Prop :=
  exists out f1,
    ll_sent (m_dev s) = ll_sent (m_dev s0) ++ out /\
    rxbytes f (out ++ take ptr (m_buf s)) = (f1, wr_events inc (a / 4) (take nw buf)) /\
    ((ptr <= 6)%nat /\ ascii (out ++ take ptr (m_buf s))) /\ w_pend f1 = [] /\ w_addr f1 = wr_end inc (a / 4) nw /\
    hist_ok s (w_hist f1) /\ tty_wf s /\ (6 * length buf + 12 <= length (m_buf s))%nat /\
    m_addr_set s = true /\ heard s0 s (la_end inc a nw) /\
    (mute f s0 -> pending s0 = [] -> pending s = [] /\ m_lastaddr s = la_end inc a nw).

Lemma wr_inv_wf inc a buf s0 f nw ptr s : wr_inv inc a buf s0 f nw ptr s -> tty_wf s.
Proof. intros (? & ? & ? & ? & ? & ? & ? & ? & ? & _). done. Qed.

Lemma wr_inv_rx inc a buf s0 f nw s s' : wr_inv inc a buf s0 f nw 0 s -> rx_frame s s' ->
  wr_inv inc a buf s0 f nw 0 s'.
Proof.
  intros (out & f1 & Hs & Hrx & [Hptr Hasc] & Hp & Ha & Hh & Hwf & Hbl & Hset & Hq & Hnr) Hf.
  exists out, f1. pose proof (heard_frame _ _ _ _ Hq Hf).
  destruct Hf as [F1 F2 F3 F4 F5 F6 F7 (pre & Hpre & Hlaf)].
  unfold hist_ok. rewrite F1, F2, F3, F4, F5. split_and!; auto; [].
  intros H1 H2. destruct (Hnr H1 H2) as [Hnil Hla]. rewrite Hpre in Hnil.
  apply app_eq_nil in Hnil as [-> ?]. split; [done |]. by rewrite Hlaf.
Qed.

(** A line break ends the codeword and changes nothing else. *)
Lemma rx_newline f : w_pend f = [] ->
  rxbytes f [10] = (mkWbu [] false (w_hist f) (w_addr f), []).
Proof. done. Qed.

(** The ways [writev] fails: an unaligned address before anything is sent, or
    an answer of the FPGA (a bus error, or its end of file). *)
Definition wr_fail (a : Z) (s0 : TTYBUS W) (f : wbu) (e : exn) (s : TTYBUS W) : Prop :=
  tty_wf s /\
  (e = BUSERR a /\ a mod 4 <> 0 /\ ll_sent (m_dev s) = ll_sent (m_dev s0) \/
   (e = COMMFAIL \/ e = BUSERR 0 /\ m_bus_err s = true) /\
   ~ (mute f s0 /\ pending s0 = [])).

Lemma rx_error_wr_fail inc a buf s0 f nw s e s' :
  wr_inv inc a buf s0 f nw 0 s -> rx_error s e s' /\ pending s <> [] -> wr_fail a s0 f e s'.
Proof.
  intros Hinv [[Hf He] Hne]. split; [by eapply Hf, wr_inv_wf |]. right. split; [done |].
  intros [H1 H2]. destruct Hinv as (? & ? & ? & ? & ? & ? & ? & ? & ? & ? & ? & ? & Hnr).
  by destruct (Hnr H1 H2).
Qed.

Lemma writev_block_wp inc a buf s0 f nw ptr s :
  words32 buf -> 0 <= a < 2 ^ 32 -> Z.of_nat (length buf) < 2 ^ 31 ->
  (nw <= length buf)%nat -> wr_inv inc a buf s0 f nw ptr s ->
  wp (writev_block (of_bool inc) (Z.of_nat (length buf)) buf (Z.of_nat nw, ptr))
    (fun r s' =>
      match r with
      | inl (nw', ptr') => exists n, nw' = Z.of_nat n /\ (nw < n <= length buf)%nat /\ ptr' = 0%nat /\
                             wr_inv inc a buf s0 f n 0 s'
      | inr _ => nw = length buf /\ s' = s
      end) (wr_fail a s0 f) s.
Proof.
  intros Hbuf Har Hlen Hnw (out & f1 & Hs & Hrx & [Hptr Hasc] & Hp & Ha & Hh & Hwf & Hbl & Hset & Hq & Hnr).
  unfold writev_block. destruct (Z.ltb_spec (Z.of_nat nw) (Z.of_nat (length buf))) as [Hlt | Hge].
  2: { wp_step. split; [lia | done]. }
  set (ln := if MAXWRLEN <? _ then _ else _).
  assert (Hln : 1 <= ln <= Z.of_nat (length buf) - Z.of_nat nw).
  { subst ln. unfold MAXWRLEN, u32. rewrite Z.mod_small by lia.
    destruct (Z.ltb_spec 32 (Z.of_nat (length buf) - Z.of_nat nw)); lia. }
  clearbody ln. set (n := Z.to_nat ln). rewrite Nat2Z.id.
  assert (Hw : 0 <= w_addr f1 < 2 ^ 32) by (rewrite Ha; apply wr_end_range; zlia).
  apply wp_bind. eapply wp_mono; [apply (write_words_wp inc buf nw n ptr s f1); (done || lia) | | done].
  intros ptr1 s1 (cs & f2 & Hp1 & [Hcl Hasc1] & Htk & Hbl1 & Hrx1 & Hpd & Ha1 & Hh1 & Hwf1 & Hd1 & Hset1 & Hla1).
  rewrite length_take_le in Hcl, Ha1, Hla1 by (rewrite length_drop; lia).
  (* the words, and a line break after the last of them *)
  set (nl := if ln =? Z.of_nat (length buf) - Z.of_nat nw then [10] else []).
  apply wp_bind.
  apply (wp_mono _ (fun p s2 => exists b, p = (ptr1 + length nl)%nat /\ s2 = s1 <| m_buf := b |> /\
    length b = length (m_buf s1) /\ take p b = take ptr1 (m_buf s1) ++ nl) _ (wr_fail a s0 f)); [| | done].
  { subst nl. destruct (_ =? _).
    - apply wp_bind, poke_wp; [lia |]. wp_step. eexists. split; [cbn; lia |].
      split; [done |]. rewrite length_insert. split; [done |].
      erewrite take_S_r by (apply list_lookup_insert_eq; lia). by rewrite take_insert_ge.
    - wp_step. exists (m_buf s1). rewrite Nat.add_0_r, app_nil_r. split; [done |].
      split; [by destruct s1 | done]. }
  intros p2 s2 (b & Hp2 & -> & Hb & Htk2).
  assert (Hnl : (length nl <= 1)%nat) by (subst nl; destruct (_ =? _); cbn; lia).
  apply wp_bind, poke_wp; [cbn; lia |].
  apply wp_bind, dev_write_wp; [cbn; rewrite length_insert; lia |].
  intros reply d Hsd Hin Hrep. cbn in Hsd, Hin, Hrep.
  rewrite take_insert_ge, Htk2, Htk, Hd1 in Hsd, Hrep by lia.
  set (s3 := _ <| m_dev := d |>).
  assert (Hinv : wr_inv inc a buf s0 f (nw + n) 0 s3).
  { exists (out ++ (take ptr (m_buf s) ++ cs) ++ nl).
    set (f3 := if ln =? Z.of_nat (length buf) - Z.of_nat nw then mkWbu [] false (w_hist f2) (w_addr f2) else f2).
    assert (Hnlrx : rxbytes f2 nl = (f3, [])) by (subst nl f3; destruct (_ =? _); [by apply rx_newline | done]).
    assert (Hf3 : w_pend f3 = [] /\ w_hist f3 = w_hist f2 /\ w_addr f3 = w_addr f2)
      by (subst f3; destruct (_ =? _); done).
    destruct Hf3 as (G1 & G2 & G3).
    assert (Hall : rxbytes f (out ++ (take ptr (m_buf s) ++ cs) ++ nl) =
      (f3, wr_events inc (a / 4) (take (nw + n) buf))).
    { rewrite !app_assoc.
      rewrite <- (app_assoc (out ++ _)), rxbytes_app, Hrx, rxbytes_app, Hrx1, Hnlrx, app_nil_r.
      pose proof (wr_events_app inc (a / 4) (take nw buf) (take n (drop nw buf)) ltac:(zlia)) as Hev.
      rewrite length_take_le in Hev by lia. by rewrite Ha, <- Hev, take_take_drop. }
    exists f3. rewrite G1, G2, G3. split_and!; try done; try lia.
    - change (m_dev s3) with d. by rewrite Hsd, Hs, !app_assoc.
    - change (take 0 (m_buf s3)) with (@nil Z). by rewrite app_nil_r.
    - change (take 0 (m_buf s3)) with (@nil Z). rewrite app_nil_r, !app_assoc. apply Forall_app_2; [by apply Forall_app_2 |].
      subst nl. destruct (_ =? _); [| apply Forall_nil_2]. apply Forall_cons_2; [lia | apply Forall_nil_2].
    - by rewrite Ha1, Ha, wr_end_add.
    - subst s3. destruct Hwf1. split; cbn; rewrite ?length_insert, ?Hb; try done.
    - subst s3. cbn. rewrite length_insert, Hb, Hbl1. lia.
    - subst s3. cbn. by rewrite Hset1.
    - eapply heard_reply with (reply := reply); [| by unfold pending; cbn; rewrite Hin |].
      2: reflexivity.
      rewrite <- la_end_add. eapply heard_move; [exact Hq | unfold pending; by rewrite Hd1 | exact Hla1].
    - intros H1 H2. destruct (Hnr H1 H2) as [Hnil Hla]. split.
      + unfold pending in *. cbn. rewrite Hin, Hrep, app_nil_r, Hd1; [done |].
        apply (H1 _ out); [done |]. rewrite Hall. apply wr_events_write.
      + rewrite <- la_end_add, <- Hla. exact Hla1. }
  apply wp_bind. eapply wp_mono; [apply (readidle_frame s3), (wr_inv_wf _ _ _ _ _ _ _ _ Hinv) | |].
  - intros [] s4 Hf. wp_step. exists (nw + n)%nat. split; [lia |]. split; [lia |].
    split; [done |]. by eapply wr_inv_rx.
  - intros e s4. by eapply rx_error_wr_fail.
Qed.

Lemma bufalloc_wp len s (Q : unit -> TTYBUS W -> Prop) E :
  tty_wf s ->
  (forall b, (length (m_buf s) <= length b)%nat -> len <= Z.of_nat (length b) ->
     Q tt (s <| m_buflen := Z.of_nat (length b) |> <| m_buf := b |>)) ->
  wp (bufalloc len) Q E s.
Proof.
  intros [Hbl Hbuf _ _ _ _ _] HQ. unfold wp, bufalloc.
  replace (match m_buf s with [] => false | _ => true end) with true
    by (destruct (m_buf s); [cbn in Hbuf; lia | done]). cbn [andb].
  destruct (Z.leb_spec len (m_buflen s)) as [Hle | Hgt].
  - specialize (HQ (m_buf s) ltac:(lia) ltac:(lia)). rewrite <- Hbl in HQ. by destruct s.
  - pose proof (bufalloc_size len). specialize (HQ (replicate (Z.to_nat ((len .& -63) + 64)) 0)).
    rewrite length_replicate, Z2Nat.id in HQ by lia. apply HQ; lia.
Qed.

(** What a completed [writev] has done. *)
Definition writev_done (inc : bool) (a : Z) (buf : list Z) (s : TTYBUS W) (f : wbu)
    (s' : TTYBUS W) : Prop :=
  exists out f',
    ll_sent (m_dev s') = ll_sent (m_dev s) ++ out /\ ascii out /\
    rxbytes f out = (f', wr_events inc (a / 4) buf) /\
    w_pend f' = [] /\ w_addr f' = wr_end inc (a / 4) (length buf) /\
    hist_ok s' (w_hist f') /\ tty_wf s' /\ m_addr_set s' = true /\
    heard s s' (la_end inc a (length buf)) /\
    (mute f s -> pending s = [] -> pending s' = [] /\ m_lastaddr s' = la_end inc a (length buf)).

Lemma writev_wp inc a buf s f :
  tty_wf s -> link s f -> 0 <= a < 2 ^ 32 -> words32 buf -> buf <> [] ->
  Z.of_nat (length buf) < 2 ^ 31 ->
  wp (writev a (of_bool inc) (Z.of_nat (length buf)) buf)
    (fun _ s' => a mod 4 = 0 /\ writev_done inc a buf s f s') (wr_fail a s f) s.
Proof.
  intros Hwf Hlk Ha Hbuf Hne Hlen. unfold writev. set (len := Z.of_nat (length buf)).
  apply wp_bind, bufalloc_wp; [done |]. intros b Hbl Hb.
  set (s1 := s <| m_buflen := _ |> <| m_buf := b |>).
  assert (Hwf1 : tty_wf s1) by (destruct Hwf; split; cbn; (done || lia)).
  apply wp_bind, encode_address_wp; [done | done | intros; split; [done | by left] |].
  intros Hal b2 r vs Hbl2 Htk Hr _. wp_step. wp_step.
  set (s2 := _ <| m_addr_set := true |>).
  assert (Hvl : (length vs <= 6)%nat) by apply addr_codes_len.
  assert (Hinv : wr_inv inc a buf s f 0 (length vs) s2).
  { destruct (addr_codes_rx s f a Hwf Hlk Ha Hal) as (f1 & Hrx & Hp & Hh & Haddr).
    exists [], f1. split_and!; try done; try lia.
    - by rewrite app_nil_r.
    - cbn [app]. change (m_buf s2) with b2. rewrite Htk. exact Hrx.
    - cbn [app]. change (m_buf s2) with b2. rewrite Htk. by apply enc_ascii, addr_codes_six.
    - rewrite Haddr, wr_end_0; [done | zlia].
    - rewrite Hh. apply (lk_hist _ _ Hlk).
    - destruct Hwf1. subst s2. split; cbn; rewrite ?Hbl2; done.
    - change (m_buf s2) with b2. rewrite Hbl2. cbn. lia.
    - rewrite la_end_0 by done. exists [], []. by rewrite app_nil_r.
    - intros _ Hnil. split; [done |]. by rewrite la_end_0 by done. }
  apply wp_bind.
  apply (wp_loop _ (fun c s3 => exists n, c.1 = Z.of_nat n /\ (n <= length buf)%nat /\
      wr_inv inc a buf s f n c.2 s3 /\ (n = 0%nat \/ c.2 = 0%nat))
    (fun c _ => (length buf - Z.to_nat c.1)%nat)).
  - intros [nw p] s3 (n & Hn & Hle & Hi & Hc). cbn in Hn, Hi, Hc. subst nw.
    eapply wp_mono; [by apply (writev_block_wp inc a buf s f n p s3) | | done].
    intros [[nw' p'] | []] s4.
    + intros (n' & -> & Hn' & -> & Hi'). cbn. split; [exists n' | lia].
      split; [done |]. split; [lia |]. split; [done | by right].
    + intros [-> ->]. assert (p = 0%nat) as -> by (destruct buf, Hc; done).
      eapply wp_mono; [by eapply readidle_frame, wr_inv_wf | |].
      * intros [] s4 Hf. split; [done |].
        destruct (wr_inv_rx _ _ _ _ _ _ _ _ Hi Hf)
          as (out & f1 & Hs & Hrx & [_ Hasc] & Hp & Haddr & Hh & Hwf4 & _ & Hset & Hq & Hmt).
        change (take 0 (m_buf s4)) with (@nil Z) in Hrx, Hasc. rewrite app_nil_r in Hasc.
        rewrite app_nil_r, take_ge in Hrx by lia. by exists out, f1.
      * intros e s4. by eapply rx_error_wr_fail.
  - exists 0%nat. cbn. split; [done |]. split; [lia |]. split; [done | by left].
  - cbn. lia.
Qed.
End Send.
