(* ===== verification/TtyWord.v ===== *)
(** [readword] returns the word that the FPGA encoded.

    [rsp] is the set of encodings a data word may have in the FPGA's answer:
    in full, or as a reference 1, 2 to 9 or 10 to 521 words back into the words
    sent in full since the last address (src/rtl/wbubus/wbucompress.v takes
    whichever its search happens to find in time).  [readword] decodes all of
    them, whatever status characters and line breaks come before. *)

From stdpp Require Import base tactics list numbers option.
From Stdlib Require Import ZArith Lia.
From S2P Require Import Prelude LLComms TtyBus WbuSpec TtyBase TtyRecv TtySend.
Local Open Scope Z_scope.

(** The six-bit digits of an encoding of [v], and the history after it. *)
Inductive rsp (hist : list Z) (inc : bool) (v : Z) : list Z -> list Z -> Prop :=
  | rsp_full :
      rsp hist inc v
        [(((v .>> 30) .& 3) .<< 1) + of_bool inc + 0x38; (v .>> 24) .& 0x3f; (v .>> 18) .& 0x3f;
         (v .>> 12) .& 0x3f; (v .>> 6) .& 0x3f; v .& 0x3f] (v :: hist)
  | rsp_last :
      hist !! 0%nat = Some v -> rsp hist inc v [0x06 + of_bool inc] hist
  | rsp_short d :
      2 <= d <= 9 -> hist !! Z.to_nat (d - 1) = Some v ->
      rsp hist inc v [0x20 + ((d - 2) .<< 1) + of_bool inc] hist
  | rsp_long d :
      10 <= d <= 521 -> hist !! Z.to_nat (d - 1) = Some v ->
      rsp hist inc v [0x10 + (((d - 10) .>> 6) .<< 1) + of_bool inc; (d - 10) .& 0x3f] hist.

(** What may come before it: line breaks and other bytes that are no code, the
    status characters but for the two errors, and addresses.  The reader's
    address and whether it has one go from the first two arguments to the last
    two. *)
Inductive chatter (la : Z) (set : bool) : list Z -> Z -> bool -> Prop :=
  | chat_nil : chatter la set [] la set
  | chat_noise b bs la' set' :
      notcode b = true -> chatter la set bs la' set' -> chatter la set (b :: bs) la' set'
  | chat_status h bs la' set' :
      h = 0 \/ h = 1 \/ h = 2 \/ h = 4 ->
      chatter la set bs la' set' -> chatter la set (enc h :: bs) la' set'
  | chat_addr q t bs la' set' :
      0 <= q < 4 -> sixbit t -> length t = 5%nat ->
      chatter (u32 ((q * 2 ^ 30 + digits t) .<< 2)) true bs la' set' ->
      chatter la set ((enc <$> 0x08 + q :: t) ++ bs) la' set'
  | chat_caddr t bs la' set' :
      sixbit t -> (1 <= length t <= 4)%nat ->
      chatter (u32 (digits t .<< 2)) true bs la' set' ->
      chatter la set ((enc <$> 0x0b + Z.of_nat (length t) :: t) ++ bs) la' set'.

(** The first digits of data. *)
Definition data_head (h : Z) : Prop :=
  h = 6 \/ h = 7 \/ 0x10 <= h < 0x30 \/ 0x38 <= h < 0x40.

Section Word.
Context {W : Type} {HOs : Os W} {HLaws : OsLaws W}.
Implicit Types (s : TTYBUS W).

(** The reader's table holds the history, as far back as a reference reaches. *)
Definition rd_ok (s : TTYBUS W) (hist : list Z) : Prop :=
  forall i x, 1 <= i <= 1023 -> hist !! Z.to_nat (i - 1) = Some x ->
    m_readtbl s !!! Z.to_nat ((m_rdaddr s - i) mod 1024) = x.

(** What answers of the FPGA that are not errors leave alone. *)
Record kept (s s' : TTYBUS W) : Prop := {
  kp_sent : ll_sent (m_dev s') = ll_sent (m_dev s);
  kp_bus_err : m_bus_err s' = m_bus_err s;
  kp_wrloaded : m_wrloaded s' = m_wrloaded s;
  kp_wraddr : m_wraddr s' = m_wraddr s;
  kp_writetbl : m_writetbl s' = m_writetbl s;
  kp_buf : length (m_buf s') = length (m_buf s);
  kp_wf : tty_wf s -> tty_wf s'
}.

(** Only the device, the buffer and the interrupt flag may differ. *)
Record quiet (s s' : TTYBUS W) : Prop := {
  q_kept :> kept s s';
  q_addr_set : m_addr_set s' = m_addr_set s;
  q_lastaddr : m_lastaddr s' = m_lastaddr s;
  q_rdaddr : m_rdaddr s' = m_rdaddr s;
  q_readtbl : m_readtbl s' = m_readtbl s
}.

Lemma kept_refl s : kept s s.
Proof. by split. Qed.

Lemma kept_trans s1 s2 s3 : kept s1 s2 -> kept s2 s3 -> kept s1 s3.
Proof. intros [] []. split; try congruence. tauto. Qed.

Lemma quiet_refl s : quiet s s.
Proof. by split; [apply kept_refl | ..]. Qed.

Lemma quiet_trans s1 s2 s3 : quiet s1 s2 -> quiet s2 s3 -> quiet s1 s3.
Proof. intros [] []. split; [by eapply kept_trans | congruence..]. Qed.

Definition q_wf s s' (H : quiet s s') : tty_wf s -> tty_wf s' := kp_wf _ _ (q_kept _ _ H).

Lemma took_quiet off k d s :
  ll_sent d = ll_sent (m_dev s) -> quiet s (took off k d s).
Proof.
  intros Hs. unfold took. split; [split |..]; cbn; rewrite ?length_inserts; try done.
  intros []. split; cbn; rewrite ?length_inserts; done.
Qed.

Lemma pending_took off k d s : pending (took off k d s) = ll_incoming d.
Proof. done. Qed.

(** ** Characters *)

(** Code characters delivered into [m_buf[off]] on. *)
Lemma lclreadcode_codes off len s cs rest (Q : Z -> TTYBUS W -> Prop) E :
  0 < len -> (off + Z.to_nat len <= length (m_buf s))%nat ->
  pending s = cs ++ rest -> length cs = Z.to_nat len -> Forall (fun b => notcode b = false) cs ->
  (forall k s', (1 <= k <= length cs)%nat -> quiet s s' -> pending s' = drop k cs ++ rest ->
     m_buf s' = list_inserts off (take k cs) (m_buf s) -> Q (Z.of_nat k) s') ->
  wp (lclreadcode off len) Q E s.
Proof.
  intros Hlen Hoff Hp Hcs Hall HQ. apply lclreadcode_wp; [done | done | |].
  - intros k d Hk Hkl Hin Hs.
    assert (Htk : take k (pending s) = take k cs) by (by rewrite Hp, take_app_le by lia).
    assert (Hc : lclfilter k 0 0 (Z.of_nat k) (take k cs) = (Z.of_nat k, take k cs)).
    { apply lclfilter_all; [rewrite length_take_le; lia |]. by apply Forall_take. }
    pose proof (lclfilter_count k 0 0 (Z.of_nat k) (take k cs)) as Hn.
    rewrite Hc in Hn. cbn in Hn. rewrite drop_0, length_take_le in Hn by lia.
    rewrite Htk. replace (codes (take k cs)) with (Z.of_nat k) by (destruct Hn; lia).
    apply HQ; [lia | by apply took_quiet | |].
    + by rewrite pending_took, Hin, Hp, drop_app_le by lia.
    + unfold took. rewrite Htk, Hc. done.
  - intros Hnil. rewrite Hnil in Hp. destruct cs; [cbn in Hcs; lia | done].
Qed.

(** [readcodes] up to [n] characters. *)
Lemma readcodes_wp n nr s cs rest (Q : Z -> TTYBUS W -> Prop) E :
  tty_wf s -> 0 <= nr < n -> n <= 6 ->
  pending s = cs ++ rest -> Z.of_nat (length cs) = n - nr -> Forall (fun b => notcode b = false) cs ->
  (forall s', quiet s s' -> pending s' = rest ->
     m_buf s' = list_inserts (Z.to_nat nr) cs (m_buf s) -> Q n s') ->
  wp (readcodes n nr) Q E s.
Proof.
  intros Hwf Hnr Hn Hp Hcs Hall HQ. fold_wp.
  apply (wp_loop _ (fun k s1 => nr <= k < n /\ quiet s s1 /\
      pending s1 = drop (Z.to_nat (k - nr)) cs ++ rest /\
      m_buf s1 = list_inserts (Z.to_nat nr) (take (Z.to_nat (k - nr)) cs) (m_buf s))
    (fun k _ => Z.to_nat (n - k))).
  - intros k s1 (Hk & Hq & Hp1 & Hb1). apply wp_bind.
    destruct (q_wf _ _ Hq Hwf) as [_ Hbuf _ _ _ _ _].
    eapply (lclreadcode_codes (Z.to_nat k) (n - k) s1); [lia | lia | done | | |].
    { rewrite length_drop. lia. }
    { by apply Forall_drop. }
    rewrite length_drop. intros j s2 Hj Hq2 Hp2 Hb2. apply wp_ret. cbv zeta.
    assert (Hq02 : quiet s s2) by (by eapply quiet_trans).
    assert (Hpos : Z.to_nat (k + Z.of_nat j - nr) = (Z.to_nat (k - nr) + j)%nat) by lia.
    assert (Hb02 : m_buf s2 = list_inserts (Z.to_nat nr) (take (Z.to_nat (k - nr) + j) cs) (m_buf s)).
    { rewrite Hb2, Hb1, <- (take_take_drop cs), list_inserts_app_l, length_take_le by lia.
      f_equal. lia. }
    rewrite drop_drop in Hp2.
    destruct (Z.ltb_spec (k + Z.of_nat j) n) as [Hlt | Hge].
    + rewrite Hpos. split; [| lia]. split; [lia |]. by split_and!.
    + replace (k + Z.of_nat j) with n by lia.
      apply HQ; [done | |]; [rewrite Hp2, drop_ge by lia | rewrite Hb02, take_ge by lia]; done.
  - split; [lia |]. rewrite Z.sub_diag. change (take (Z.to_nat 0) cs) with (@nil Z).
    rewrite drop_0. by split_and!; [apply quiet_refl | |].
  - unfold rxfuel, pending in *. rewrite Hp, length_app. lia.
Qed.

(** [readcode1] skips what is not code. *)
Lemma readcode1_wp s pre c rest (Q : Z -> TTYBUS W -> Prop) E :
  tty_wf s -> pending s = pre ++ c :: rest -> Forall (fun b => notcode b = true) pre ->
  notcode c = false ->
  (forall s', quiet s s' -> pending s' = rest -> m_buf s' !!! 0%nat = c -> Q 1 s') ->
  wp readcode1 Q E s.
Proof.
  intros Hwf Hp Hpre Hc HQ. fold_wp.
  apply (wp_loop _ (fun _ s1 => quiet s s1 /\ exists pre, pending s1 = pre ++ c :: rest /\
      Forall (fun b => notcode b = true) pre) (fun _ s1 => length (pending s1))).
  - intros [] s1 (Hq & pre1 & Hp1 & Hpre1). apply wp_bind.
    destruct (q_wf _ _ Hq Hwf) as [_ Hbuf _ _ _ _ _].
    apply lclreadcode_wp; [lia | cbn; lia | |].
    2: { intros Hnil. rewrite Hnil in Hp1. by destruct pre1. }
    intros k d Hk Hkl Hin Hs. assert (k = 1)%nat as -> by (cbn in Hk; lia).
    wp_step. pose proof (quiet_trans _ _ _ Hq (took_quiet 0 1 d s1 Hs)) as Hq1.
    destruct pre1 as [| b pre1]; cbn [app] in Hp1.
    + assert (Ht1 : take 1 (pending s1) = [c]) by (by rewrite Hp1).
      rewrite Ht1, codes_cons, codes_nil, Hc. cbn.
      apply HQ; [done | by rewrite pending_took, Hin, Hp1 |].
      unfold took. rewrite Ht1. cbn [lclfilter]. 
      change ([c] !!! 0%nat) with c. rewrite Hc.
      change (list_inserts 0 [c] (m_buf s1) !!! 0%nat = c).
      by rewrite list_lookup_total_inserts by (cbn; lia).
    + inversion Hpre1 as [| ? ? Hb Hpre2]; subst.
      assert (Ht1 : take 1 (pending s1) = [b]) by (by rewrite Hp1).
      rewrite Ht1, codes_cons, codes_nil, Hb. cbn. split.
      * split; [done |]. exists pre1. by rewrite pending_took, Hin, Hp1.
      * rewrite pending_took, Hin, length_drop, Hp1. cbn [length]. lia.
  - split; [apply quiet_refl |]. by exists pre.
  - unfold rxfuel, pending in *. lia.
Qed.

(** The rest of a codeword whose first character is in [m_buf[0]]. *)
Lemma readcodes_digits h t s rest (Q : Z -> TTYBUS W -> Prop) E :
  tty_wf s -> m_buf s !!! 0%nat = enc h -> sixbit (h :: t) -> (1 <= length t <= 5)%nat ->
  pending s = (enc <$> t) ++ rest ->
  (forall s', quiet s s' -> pending s' = rest ->
     (forall i, (i <= length t)%nat -> bufdec s' i = (h :: t) !!! i) -> Q (1 + Z.of_nat (length t)) s') ->
  wp (readcodes (1 + Z.of_nat (length t)) 1) Q E s.
Proof.
  intros Hwf H0 Hsix Hl Hp HQ. inversion Hsix as [| ? ? Hh Ht]; subst.
  eapply readcodes_wp; [done | lia | lia | done | rewrite length_fmap; lia | |].
  { apply Forall_fmap. eapply Forall_impl; [| exact Ht]. intros x Hx. by apply enc_spec. }
  intros s' Hq Hp' Hb. apply HQ; [done | done |]. intros i Hi. unfold bufdec. rewrite Hb.
  pose proof (wf_buf _ Hwf). destruct i as [| i].
  - rewrite list_lookup_total_inserts_lt, H0 by (cbn; lia). by apply enc_spec.
  - rewrite list_lookup_total_inserts by (cbn; rewrite ?length_fmap; lia).
    change (Z.to_nat 1) with 1%nat. replace (S i - 1)%nat with i by lia.
    rewrite (list_lookup_total_fmap enc) by lia.
    assert (Hx : is_Some (t !! i)) by (apply lookup_lt_is_Some; lia). destruct Hx as [x Hx].
    change ((h :: t) !!! S i) with (t !!! i). rewrite (list_lookup_total_correct _ _ _ Hx).
    apply enc_spec. rewrite Forall_lookup in Ht. by eapply Ht.
Qed.

(** Six more bits. *)
Lemma shiftin_val s v i d : bufdec s i = d -> 0 <= d < 64 -> 0 <= v < 2 ^ 26 ->
  shiftin s v i = v * 64 + d.
Proof.
  intros Hd Hr Hv. unfold shiftin. rewrite Hd, land_63, (Z.mod_small d) by done.
  unfold u32. rewrite Z.mod_small by (rewrite shiftl_mul by lia; lia).
  rewrite lor_shiftl_add; [lia | lia | done].
Qed.

Lemma shiftin5_val s h t q :
  (forall i, (i <= length t)%nat -> bufdec s i = (h :: t) !!! i) -> length t = 5%nat ->
  sixbit t -> 0 <= q < 4 -> shiftin5 s q = q * 2 ^ 30 + digits t.
Proof.
  intros Hb Hl Hsix Hq. destruct t as [| d1 [| d2 [| d3 [| d4 [| d5 [|]]]]]]; try done.
  repeat match goal with H : Forall _ (_ :: _) |- _ => inversion H; clear H; subst end.
  unfold shiftin5.
  pose proof (Hb 1%nat ltac:(cbn; lia)) as B1. pose proof (Hb 2%nat ltac:(cbn; lia)) as B2.
  pose proof (Hb 3%nat ltac:(cbn; lia)) as B3. pose proof (Hb 4%nat ltac:(cbn; lia)) as B4.
  pose proof (Hb 5%nat ltac:(cbn; lia)) as B5.
  rewrite (shiftin_val _ q 1 d1), (shiftin_val _ _ 2 d2), (shiftin_val _ _ 3 d3),
    (shiftin_val _ _ 4 d4), (shiftin_val _ _ 5 d5) by (done || lia).
  unfold digits. cbn [foldl]. lia.
Qed.

Lemma caddrval_val s h t :
  (forall i, (i <= length t)%nat -> bufdec s i = (h :: t) !!! i) -> (1 <= length t <= 4)%nat ->
  sixbit t -> caddrval s (1 + Z.of_nat (length t)) = digits t.
Proof.
  intros Hb Hl Hsix. unfold caddrval, digits.
  destruct t as [| d1 [| d2 [| d3 [| d4 [|]]]]]; cbn in Hl; try lia;
    repeat match goal with H : Forall _ (_ :: _) |- _ => inversion H; clear H; subst end;
    pose proof (Hb 1%nat ltac:(cbn; lia)) as B1; rewrite B1;
    change ((h :: d1 :: _) !!! 1%nat) with d1;
    match goal with |- context [1 + Z.of_nat ?n] =>
      let v := eval vm_compute in (1 + Z.of_nat n) in change (1 + Z.of_nat n) with v end;
    cbn [Z.eqb Pos.eqb foldl]; try lia;
    pose proof (Hb 2%nat ltac:(cbn; lia)) as B2; rewrite (shiftin_val _ d1 2 d2) by (done || lia); try lia;
    pose proof (Hb 3%nat ltac:(cbn; lia)) as B3; rewrite (shiftin_val _ _ 3 d3) by (done || lia); try lia;
    pose proof (Hb 4%nat ltac:(cbn; lia)) as B4; rewrite (shiftin_val _ _ 4 d4) by (done || lia); lia.
Qed.

(** ** Before the data *)

(** [readcode1] on an encoded digit after noise. *)
Lemma readcode1_digit s pre h rest (Q : Z -> TTYBUS W -> Prop) E :
  tty_wf s -> pending s = pre ++ enc h :: rest -> Forall (fun b => notcode b = true) pre ->
  0 <= h < 64 ->
  (forall s', quiet s s' -> pending s' = rest -> m_buf s' !!! 0%nat = enc h -> bufdec s' 0 = h -> Q 1 s') ->
  wp readcode1 Q E s.
Proof.
  intros Hwf Hp Hpre Hh HQ. destruct (enc_spec h Hh) as (_ & Hd & Hn & _).
  eapply readcode1_wp; [done.. |]. intros s' Hq Hp' Hb.
  apply HQ; try done. unfold bufdec. by rewrite Hb.
Qed.

(** After noise: what [readword_step] does with a status character, an address
    in full, a compressed address and the first digit of data. *)
Lemma step_status s val pre h rest :
  tty_wf s -> pending s = pre ++ enc h :: rest -> Forall (fun b => notcode b = true) pre ->
  h = 0 \/ h = 1 \/ h = 2 \/ h = 4 ->
  wp (readword_step val) (fun r s' => r = inl val /\ quiet s s' /\ pending s' = rest) (fun _ _ => False) s.
Proof.
  intros Hwf Hp Hpre Hh. unfold readword_step. apply wp_bind.
  eapply readcode1_digit; [done.. | lia |]. intros s' Hq Hp' _ Hb. wp_step. wp_step. rewrite Hb.
  destruct Hh as [-> | [-> | [-> | ->]]]; cbn -[Z.lnot]; repeat wp_step; split_and!; try done.
  destruct Hq as [[] ? ? ? ?]. split; [split |..]; cbn; try done.
  intros H1. destruct (kp_wf0 H1). by split.
Qed.

Lemma set_addr_kept s s' a : quiet s s' ->
  kept s (s' <| m_addr_set := true |> <| m_lastaddr := u32 a |>).
Proof.
  intros [[] ? ? ? ?]. split; cbn; try done.
  intros H1. destruct (kp_wf0 H1). split; cbn; try done. apply u32_range.
Qed.

(** The state after an address, but for the interrupt flag and the buffer. *)
Definition addressed (s s' : TTYBUS W) (la : Z) : Prop :=
  kept s s' /\ m_rdaddr s' = m_rdaddr s /\ m_readtbl s' = m_readtbl s /\
  m_lastaddr s' = la /\ m_addr_set s' = true.

Lemma step_addr s val pre q t rest :
  tty_wf s -> pending s = pre ++ (enc <$> 0x08 + q :: t) ++ rest ->
  Forall (fun b => notcode b = true) pre -> 0 <= q < 4 -> sixbit t -> length t = 5%nat ->
  wp (readword_step val) (fun r s' => (exists v, r = inl v) /\ pending s' = rest /\
      addressed s s' (u32 ((q * 2 ^ 30 + digits t) .<< 2))) (fun _ _ => False) s.
Proof.
  intros Hwf Hp Hpre Hq Ht Hl. unfold readword_step. apply wp_bind.
  apply (readcode1_digit s pre (8 + q) ((enc <$> t) ++ rest)); [done.. | lia |]. intros s1 Hq1 Hp1 H0 Hb. wp_step. wp_step. rewrite Hb.
  assert (Htests : negb (truthy ((8 + q) .& ~. 0x3f)) && negb (8 + q <? 6) &&
            (0x08 =? (8 + q) .& 0x3c) && ((8 + q) .& 3 =? q) = true)
    by (clear -Hq; by_range q 0 4%nat).
  rewrite !andb_true_iff, !negb_true_iff in Htests.
  destruct Htests as [[[-> ->] ->] Hq3%Z.eqb_eq]. apply wp_bind.
  change 6 with (1 + Z.of_nat 5). rewrite <- Hl.
  eapply readcodes_digits; [by eapply q_wf | done | by constructor; [lia |] | lia | done |].
  intros s2 Hq2 Hp2 Hb2. repeat wp_step. rewrite (Hb2 0%nat ltac:(lia)).
  change ((8 + q :: t) !!! 0%nat) with (8 + q). rewrite Hq3, (shiftin5_val _ _ _ _ Hb2) by done.
  pose proof (quiet_trans _ _ _ Hq1 Hq2) as Hq12.
  split; [by eexists |]. split; [done |]. split; [by apply set_addr_kept |]. by destruct Hq12.
Qed.

Lemma step_caddr s val pre t rest :
  tty_wf s -> pending s = pre ++ (enc <$> 0x0b + Z.of_nat (length t) :: t) ++ rest ->
  Forall (fun b => notcode b = true) pre -> sixbit t -> (1 <= length t <= 4)%nat ->
  wp (readword_step val) (fun r s' => (exists v, r = inl v) /\ pending s' = rest /\
      addressed s s' (u32 (digits t .<< 2))) (fun _ _ => False) s.
Proof.
  intros Hwf Hp Hpre Ht Hl. set (n := Z.of_nat (length t)) in *.
  unfold readword_step. apply wp_bind.
  apply (readcode1_digit s pre (0x0b + n) ((enc <$> t) ++ rest)); [done.. | lia |]. intros s1 Hq1 Hp1 H0 Hb. wp_step. wp_step. rewrite Hb.
  assert (Hn : 1 <= n <= 4) by lia.
  assert (Htests : negb (truthy ((0x0b + n) .& ~. 0x3f)) && negb (0x0b + n <? 6) &&
            negb (0x08 =? (0x0b + n) .& 0x3c) && (0x0c =? (0x0b + n) .& 0x3c) &&
            (((0x0b + n) .& 3) + 2 =? 1 + n) = true)
    by (clear -Hn; clearbody n; by_range n 1 4%nat).
  rewrite !andb_true_iff, !negb_true_iff in Htests.
  destruct Htests as [[[[-> ->] ->] ->] Hnw%Z.eqb_eq]. rewrite Hnw. apply wp_bind. subst n.
  eapply readcodes_digits; [by eapply q_wf | done | by constructor; [lia |] | lia | done |].
  intros s2 Hq2 Hp2 Hb2. repeat wp_step. rewrite (caddrval_val _ _ _ Hb2) by done.
  pose proof (quiet_trans _ _ _ Hq1 Hq2) as Hq12.
  split; [by eexists |]. split; [done |]. split; [by apply set_addr_kept |]. by destruct Hq12.
Qed.

Lemma step_data s val pre h rest :
  tty_wf s -> pending s = pre ++ enc h :: rest -> Forall (fun b => notcode b = true) pre ->
  data_head h ->
  wp (readword_step val) (fun r s' => r = inr (h, 1, val) /\ quiet s s' /\ pending s' = rest /\
      m_buf s' !!! 0%nat = enc h) (fun _ _ => False) s.
Proof.
  intros Hwf Hp Hpre Hh.
  assert (Hr : 0 <= h < 64) by (unfold data_head in Hh; lia).
  assert (Htests : (if (h <? 8) || (0x10 <=? h) && (h <? 0x30) || (0x38 <=? h) then
             negb (truthy (h .& ~. 0x3f)) && negb (0x08 =? h .& 0x3c) && negb (0x0c =? h .& 0x3c)
           else true) = true) by (clear -Hr; by_range h 0 64%nat).
  rewrite (proj2 (orb_true_iff _ _)) in Htests
    by (rewrite orb_true_iff, andb_true_iff, !Z.ltb_lt, !Z.leb_le; unfold data_head in Hh; lia).
  rewrite !andb_true_iff, !negb_true_iff in Htests. destruct Htests as [[T1 T2] T3].
  unfold readword_step. apply wp_bind.
  eapply readcode1_digit; [done.. |]. intros s1 Hq1 Hp1 H0 Hb. wp_step. wp_step. rewrite Hb, T1, T2, T3.
  rewrite (proj2 (Z.ltb_ge _ _)) by (unfold data_head in Hh; lia). by wp_step.
Qed.

(** ** The data *)

(** What a data word leaves. *)
Definition answered (hist' : list Z) (inc : bool) (s s' : TTYBUS W) : Prop :=
  kept s s' /\ rd_ok s' hist' /\ m_addr_set s' = m_addr_set s /\
  m_lastaddr s' = u32 (m_lastaddr s + (if inc then 4 else 0)).

Lemma add_lastaddr_kept s s' h : kept s s' -> kept s (add_lastaddr h s').
Proof. intros []. split; cbn; try done. intros H. by apply add_lastaddr_wf, kp_wf0. Qed.

Lemma add_lastaddr_val s h inc : truthy (h .& 1) = inc ->
  m_lastaddr (add_lastaddr h s) = u32 (m_lastaddr s + (if inc then 4 else 0)).
Proof. intros <-. cbn. by destruct (truthy _). Qed.

(** A reference into the table. *)
Lemma tblread_wp d h inc v hist s0 s E :
  1 <= d <= 1023 -> hist !! Z.to_nat (d - 1) = Some v -> rd_ok s hist -> truthy (h .& 1) = inc ->
  quiet s0 s ->
  wp (tblread d h) (fun r s' => r = v /\ answered hist inc s0 s' /\ pending s' = pending s) E s.
Proof.
  intros Hd Hv Hok Hinc Hq. unfold tblread. repeat wp_step.
  rewrite land_1023, (Hok d v) by done. split; [done |]. split; [| done].
  split; [by apply add_lastaddr_kept, Hq |]. split; [done |].
  rewrite (add_lastaddr_val _ _ inc), (q_lastaddr _ _ Hq) by done. split; [| done].
  by apply (q_addr_set _ _ Hq).
Qed.

Lemma quiet_rd_ok s s' hist : quiet s s' -> rd_ok s hist -> rd_ok s' hist.
Proof. intros [_ _ _ Hr Ht] Hok i x. rewrite Hr, Ht. apply Hok. Qed.

(** A word in full goes into the table. *)
Lemma push_rd_ok s v hist : tty_wf s -> rd_ok s hist ->
  rd_ok (s <| m_readtbl := <[Z.to_nat (m_rdaddr s) := v]> (m_readtbl s) |>
           <| m_rdaddr := (m_rdaddr s + 1) .& 0x03ff |>) (v :: hist).
Proof.
  intros [_ _ _ Htbl _ Hrd _] Hok i x Hi Hx. cbn. rewrite land_1023, Zminus_mod_idemp_l.
  destruct (decide (i = 1)) as [-> | Hne].
  - cbn in Hx. injection Hx as ->. replace (m_rdaddr s + 1 - 1) with (m_rdaddr s) by lia.
    rewrite Z.mod_small, list_lookup_total_insert_eq by lia. done.
  - replace (Z.to_nat (i - 1)) with (S (Z.to_nat (i - 1 - 1))) in Hx by lia. cbn in Hx.
    replace (m_rdaddr s + 1 - i) with (m_rdaddr s - (i - 1)) by lia.
    rewrite list_lookup_total_insert_ne by zlia. apply Hok; [lia | done].
Qed.

Lemma readdata_full h t s rest val inc hist v :
  tty_wf s -> m_buf s !!! 0%nat = enc h -> 0x38 <= h < 0x40 -> sixbit t -> length t = 5%nat ->
  truthy (h .& 1) = inc -> v = ((h .>> 1) .& 3) * 2 ^ 30 + digits t ->
  pending s = (enc <$> t) ++ rest -> rd_ok s hist ->
  wp (readdata h 1 val) (fun r s' => r = v /\ answered (v :: hist) inc s s' /\ pending s' = rest)
    (fun _ _ => False) s.
Proof.
  intros Hwf H0 Hh Ht Hl Hinc Hv Hp Hok. unfold readdata.
  assert (Htests : negb (0x06 =? h .& 0x3e) && negb (0x10 =? h .& 0x30) &&
     negb (0x20 =? h .& 0x30) && (0x38 =? h .& 0x38) = true) by (clear -Hh; by_range h 0x38 8%nat).
  rewrite !andb_true_iff, !negb_true_iff in Htests. destruct Htests as [[[-> ->] ->] ->].
  apply wp_bind. change 6 with (1 + Z.of_nat 5). rewrite <- Hl.
  eapply readcodes_digits; [done | done | by constructor; [lia |] | lia | done |].
  intros s1 Hq Hp1 Hb. repeat wp_step. rewrite (Hb 0%nat ltac:(lia)).
  change ((h :: t) !!! 0%nat) with h. rewrite (shiftin5_val _ _ _ _ Hb), <- Hv; try done.
  2: { rewrite land_3. apply Z.mod_pos_bound. lia. }
  split; [done |]. split; [| done].
  pose proof (q_wf _ _ Hq Hwf) as Hwf1.
  split_and!.
  - apply add_lastaddr_kept. destruct Hq as [[] _ _ _ _]. split; cbn; try done.
    intros _. destruct Hwf1. split; cbn; rewrite ?length_insert; try done. apply land_1023_range.
  - apply push_rd_ok; [done |]. by eapply quiet_rd_ok.
  - apply (q_addr_set _ _ Hq).
  - rewrite (add_lastaddr_val _ _ inc) by done. cbn. by rewrite (q_lastaddr _ _ Hq).
Qed.

Lemma readdata_long h e d s rest val inc hist v :
  tty_wf s -> m_buf s !!! 0%nat = enc h -> 0x10 <= h < 0x20 -> 0 <= e < 64 ->
  truthy (h .& 1) = inc -> d = ((h .>> 1) .& 7) * 64 + e + 10 -> hist !! Z.to_nat (d - 1) = Some v ->
  pending s = enc e :: rest -> rd_ok s hist ->
  wp (readdata h 1 val) (fun r s' => r = v /\ answered hist inc s s' /\ pending s' = rest)
    (fun _ _ => False) s.
Proof.
  intros Hwf H0 Hh He Hinc Hd Hv Hp Hok. unfold readdata.
  assert (Htests : negb (0x06 =? h .& 0x3e) && (0x10 =? h .& 0x30) = true)
    by (clear -Hh; by_range h 0x10 16%nat).
  rewrite !andb_true_iff, !negb_true_iff in Htests. destruct Htests as [-> ->].
  apply wp_bind. apply (readcodes_digits h [e] s rest); [done | done | | cbn; lia | done |].
  { repeat constructor; lia. }
  intros s1 Hq Hp1 Hb. repeat wp_step.
  rewrite (Hb 0%nat), (Hb 1%nat) by (cbn; lia).
  change ([h; e] !!! 0%nat) with h. change ([h; e] !!! 1%nat) with e.
  rewrite land_63, (Z.mod_small e), lor_shiftl_add by lia.
  assert (Hr : 0 <= (h .>> 1) .& 7 < 8) by (rewrite land_7; apply Z.mod_pos_bound; lia).
  replace (((h .>> 1) .& 7) * 2 ^ 6 + e + 2 + 8) with d by lia.
  rewrite <- Hp1. apply tblread_wp; try done; [lia |]. by eapply quiet_rd_ok.
Qed.

(** The data words of the relation [rsp]. *)
Lemma readdata_wp s hist inc v ds hist' h t rest val :
  tty_wf s -> rsp hist inc v ds hist' -> 0 <= v < 2 ^ 32 -> rd_ok s hist ->
  ds = h :: t -> m_buf s !!! 0%nat = enc h -> pending s = (enc <$> t) ++ rest ->
  wp (readdata h 1 val) (fun r s' => r = v /\ answered hist' inc s s' /\ pending s' = rest)
    (fun _ _ => False) s.
Proof.
  intros Hwf Hrsp Hv Hok Hds H0 Hp. destruct Hrsp as [| Hl | d Hd Hl | d Hd Hl];
    injection Hds as <- <-.
  - assert (Hq : 0 <= (v .>> 30) .& 3 < 4) by (rewrite land_3; apply Z.mod_pos_bound; lia).
    assert (Hval : ((v .>> 30) .& 3) * 2 ^ 30 + digits [(v .>> 24) .& 0x3f; (v .>> 18) .& 0x3f;
      (v .>> 12) .& 0x3f; (v .>> 6) .& 0x3f; v .& 0x3f] = v).
    { rewrite digits_5, land_3, shiftr_div by lia. zlia. }
    eapply readdata_full with (8 := Hp); try done.
    + rewrite shiftl_mul by lia. destruct inc; cbn; lia.
    + sixbits.
    + clear -Hq. generalize dependent ((v .>> 30) .& 3). intros q Hq.
      apply (proj1 (Bool.eqb_true_iff _ _)). destruct inc; by_range q 0 4%nat.
    + rewrite <- Hval at 1. f_equal. f_equal. clear -Hq. generalize dependent ((v .>> 30) .& 3).
      intros q Hq. symmetry. apply Z.eqb_eq. destruct inc; by_range q 0 4%nat.
  - unfold readdata. replace (0x06 =? (6 + of_bool inc) .& 0x03e) with true by (by destruct inc).
    change (pending s = rest) in Hp. rewrite <- Hp. by apply tblread_wp; [.. | destruct inc | apply quiet_refl].
  - set (h := 0x20 + ((d - 2) .<< 1) + of_bool inc).
    assert (Htests : (fun d => let h := 0x20 + ((d - 2) .<< 1) + of_bool inc in
      negb (0x06 =? h .& 0x3e) && negb (0x10 =? h .& 0x30) && (0x20 =? h .& 0x30) &&
      (((h .>> 1) .& 7) + 2 =? d) && Bool.eqb (truthy (h .& 1)) inc) d = true)
      by (clear -Hd; cbv beta; destruct inc; by_range d 2 8%nat).
    cbv beta zeta in Htests. fold h in Htests.
    rewrite !andb_true_iff, !negb_true_iff, Bool.eqb_true_iff in Htests.
    destruct Htests as [[[[T1 T2] T3] T4%Z.eqb_eq] T5].
    unfold readdata. rewrite T1, T2, T3, T4.
    change (pending s = rest) in Hp. rewrite <- Hp. apply tblread_wp; try done; lia.
  - set (h := 0x10 + _ + _) in *.
    assert (Hq : 0 <= (d - 10) .>> 6 < 8) by (rewrite shiftr_div by lia; zlia).
    assert (Hh : 0x10 <= h < 0x20) by (subst h; rewrite shiftl_mul by lia; destruct inc; cbn; lia).
    assert (Hb : ((h .>> 1) .& 7 =? (d - 10) .>> 6) && Bool.eqb (truthy (h .& 1)) inc = true).
    { subst h. clear -Hq. generalize dependent ((d - 10) .>> 6). intros q Hq.
      destruct inc; by_range q 0 8%nat. }
    apply andb_true_iff in Hb as [Hb1%Z.eqb_eq Hb2%Bool.eqb_prop].
    pose proof (land63_range (d - 10)).
    eapply (readdata_long h ((d - 10) .& 0x3f) d); try done.
    rewrite Hb1, land_63, shiftr_div by lia. zlia.
Qed.

Lemma rsp_head hist inc v ds hist' : rsp hist inc v ds hist' -> exists h t, ds = h :: t /\ data_head h.
Proof.
  assert (Ho : 0 <= of_bool inc <= 1) by (destruct inc; cbn; lia).
  intros Hr. unfold data_head. destruct Hr as [| Hl | d Hd Hl | d Hd Hl]; do 2 eexists;
    (split; [reflexivity |]); rewrite ?shiftl_mul, ?shiftr_div by lia; rewrite ?land_3; zlia.
Qed.

(** [readword] returns the word, whatever came before. *)
Lemma readword_wp s bs la set hist inc v ds hist' rest :
  tty_wf s -> chatter (m_lastaddr s) (m_addr_set s) bs la set ->
  rsp hist inc v ds hist' -> 0 <= v < 2 ^ 32 -> rd_ok s hist ->
  pending s = bs ++ (enc <$> ds) ++ rest ->
  wp readword (fun r s' => r = v /\ pending s' = rest /\ kept s s' /\ rd_ok s' hist' /\
      m_addr_set s' = set /\ m_lastaddr s' = u32 (la + (if inc then 4 else 0)))
    (fun _ _ => False) s.
Proof.
  intros Hwf Hch Hrsp Hv Hok Hp. fold_wp. apply wp_bind.
  destruct (rsp_head _ _ _ _ _ Hrsp) as (h & t & -> & Hh).
  apply (wp_loop _ (fun _ s1 => exists pre bs1, kept s s1 /\ rd_ok s1 hist /\
      chatter (m_lastaddr s1) (m_addr_set s1) bs1 la set /\
      Forall (fun b => notcode b = true) pre /\
      pending s1 = pre ++ bs1 ++ (enc <$> h :: t) ++ rest) (fun _ s1 => length (pending s1))).
  3: unfold rxfuel, pending; lia.
  2: { exists [], bs. split_and!; done. }
  clear bs Hp Hch. intros val s1 (pre & bs & Hk & Hok1 & Hch & Hpre & Hp).
  pose proof (kp_wf _ _ Hk Hwf) as Hwf1.
  remember (m_lastaddr s1) as la1. remember (m_addr_set s1) as set1.
  revert pre Hpre Hp. induction Hch as [la0 set0 | la0 set0 b bs la' set' Hb Hch IH
    | la0 set0 h0 bs la' set' Hh0 Hch _ | la0 set0 q u bs la' set' Hq Hu Hlu Hch _
    | la0 set0 u bs la' set' Hu Hlu Hch _]; intros pre Hpre Hp; subst.
  - eapply wp_mono; [by apply (step_data s1 val pre h ((enc <$> t) ++ rest)) | | done].
    intros r s2 (-> & Hq & Hp2 & H0).
    eapply wp_mono; [eapply (readdata_wp s2 hist inc v); try done | | done].
    { by eapply q_wf. }
    { by eapply quiet_rd_ok. }
    intros r s3 (-> & (Hk3 & Hok3 & Hset & Hla) & Hp3). split_and!; try done.
    + eapply kept_trans; [done |]. eapply kept_trans; [apply Hq | done].
    + by rewrite Hset, (q_addr_set _ _ Hq).
    + by rewrite Hla, (q_lastaddr _ _ Hq).
  - apply (IH eq_refl eq_refl (pre ++ [b])); [by apply Forall_app; auto |].
    by rewrite Hp, <- app_assoc.
  - eapply wp_mono; [by apply (step_status s1 val pre h0 (bs ++ (enc <$> h :: t) ++ rest)) | | done].
    intros r s2 (-> & Hq & Hp2). rewrite Hp2, Hp. split.
    + exists [], bs. rewrite (q_addr_set _ _ Hq), (q_lastaddr _ _ Hq). split_and!; try done.
      * eapply kept_trans; [done | apply Hq].
      * by eapply quiet_rd_ok.
    + rewrite !length_app. cbn [length]. lia.
  - eapply wp_mono; [apply (step_addr s1 val pre q u (bs ++ (enc <$> h :: t) ++ rest)); try done;
      by rewrite Hp, <- app_assoc | | done].
    intros r s2 ([v' ->] & Hp2 & Hk2 & Hr2 & Ht2 & Hla & Hset). rewrite Hp2, Hp. split.
    + exists [], bs. rewrite Hla, Hset. split_and!; try done; [by eapply kept_trans |].
      intros i x. rewrite Hr2, Ht2. apply Hok1.
    + rewrite !length_app. cbn [length fmap list_fmap]. lia.
  - eapply wp_mono; [apply (step_caddr s1 val pre u (bs ++ (enc <$> h :: t) ++ rest)); try done;
      by rewrite Hp, <- app_assoc | | done].
    intros r s2 ([v' ->] & Hp2 & Hk2 & Hr2 & Ht2 & Hla & Hset). rewrite Hp2, Hp. split.
    + exists [], bs. rewrite Hla, Hset. split_and!; try done; [by eapply kept_trans |].
      intros i x. rewrite Hr2, Ht2. apply Hok1.
    + rewrite !length_app. cbn [length fmap list_fmap]. lia.
Qed.
End Word.
