(* ===== verification/TtyRead.v ===== *)
(** Reading: [readv], [readi], [readz] and [readio].

    The first half is independent of what the FPGA answers: the commands that
    are sent ask for the right words, and the call ends.  The second half is
    about the values: when the FPGA answers with the encoding of some words
    ([stream]), those words are returned. *)

From stdpp Require Import base tactics list numbers option.
From Stdlib Require Import ZArith Lia.
From S2P Require Import Prelude LLComms TtyBus WbuSpec TtyBase TtyRecv TtySend TtyWord.
Local Open Scope Z_scope.

(** ** Read commands *)

(** The codes of [readcmd]. *)
Definition rd_codes (inc : bool) (n : Z) : list Z :=
  if n <=? 8 then [0x20 + (((n - 1) .& 0x07) .<< 1) + of_bool inc]
  else [0x30 + (((n - 9) .>> 5) .& 0x0e) + of_bool inc; (n - 9) .& 0x03f].

(** A length that the commands can express: the code of 8 words that do not
    increment is taken for the end of a write. *)
Definition rd_len (inc : bool) (n : Z) : Prop := 1 <= n <= 512 /\ (inc = true \/ n <> 8).

Definition rd_codes_ok (inc : bool) (n : Z) : bool :=
  match rd_codes inc n with
  | [] => false
  | h :: t =>
      (length (h :: t) =? cwlen h)%nat && forallb (fun d => (0 <=? d) && (d <? 64)) (h :: t) &&
      negb (h .>> 3 =? 2) && negb (h .>> 3 =? 3) &&
      match expand [] (h :: t) with
      | CwRead m i => (m =? n) && Bool.eqb i inc
      | _ => negb inc && (n =? 8)
      end
  end.

Lemma rd_codes_all inc n : 1 <= n <= 512 -> rd_codes_ok inc n = true.
Proof. intros Hn. destruct inc; by_range n 1 512%nat. Qed.

Lemma expand_nohist hist h t : (h .>> 3 =? 2) = false -> expand hist (h :: t) = expand [] (h :: t).
Proof. intros H. cbn [expand]. by rewrite H. Qed.

Lemma rd_codes_six inc n : 1 <= n <= 512 -> sixbit (rd_codes inc n).
Proof.
  intros Hn. pose proof (rd_codes_all inc n Hn) as H. unfold rd_codes_ok in H.
  destruct (rd_codes inc n) as [| h t]; [done |]. rewrite !andb_true_iff in H.
  destruct H as [[[[_ H] _] _] _]. apply Forall_forall. intros x Hx.
  rewrite forallb_forall in H. specialize (H x). rewrite andb_true_iff, Z.leb_le, Z.ltb_lt in H.
  by apply H.
Qed.

Lemma rd_codes_len inc n : (1 <= length (rd_codes inc n) <= 2)%nat.
Proof. unfold rd_codes. destruct (_ <=? _); cbn; lia. Qed.

(** The address after reading [n] words. *)
Lemma rx_read f inc n : w_pend f = [] -> rd_len inc n -> 0 <= w_addr f < 2 ^ 32 ->
  exists f', rxbytes f (enc <$> rd_codes inc n) = (f', [BusRead (w_addr f) n inc]) /\
    w_pend f' = [] /\ w_hist f' = w_hist f /\ w_addr f' = wr_end inc (w_addr f) (Z.to_nat n).
Proof.
  intros Hp [Hn H8] Hw. pose proof (rd_codes_six inc n Hn) as Hsix.
  pose proof (rd_codes_all inc n Hn) as H. unfold rd_codes_ok in H.
  destruct (rd_codes inc n) as [| h t]; [done |]. rewrite !andb_true_iff in H.
  destruct H as [[[[Hl _] H2%negb_true_iff] H3%negb_true_iff] He]. apply Nat.eqb_eq in Hl.
  rewrite rx_code by done. unfold accept, remember. rewrite (expand_nohist _ _ _ H2), H3.
  assert (Hcw : expand [] (h :: t) = CwRead n inc).
  { destruct (expand [] (h :: t)); try (destruct inc, H8; bools; lia || done).
    apply andb_true_iff in He as [->%Z.eqb_eq ->%Bool.eqb_prop]. done. }
  rewrite Hcw. cbn. eexists. split; [reflexivity |]. split_and!; try done.
  unfold wr_end. destruct inc; cbn; [| done]. f_equal. lia.
Qed.

(** ** What the commands ask for *)

(** The word addresses of [n] words. *)
Definition rd_addrs (inc : bool) (w : Z) (n : nat) : list Z := map (wr_end inc w) (seq 0 n).

Lemma rd_addrs_app inc w n m :
  rd_addrs inc w (n + m) = rd_addrs inc w n ++ rd_addrs inc (wr_end inc w n) m.
Proof.
  unfold rd_addrs. rewrite seq_app, map_app. f_equal. cbn [Nat.add].
  rewrite <- (Nat.add_0_r n) at 1. generalize 0%nat. revert n.
  induction m as [| m IH]; intros n k; cbn; [done |].
  f_equal; [by rewrite wr_end_add |]. rewrite <- IH. by rewrite Nat.add_succ_r.
Qed.

(** The words read by some events, and that there are no writes among them. *)
Definition asked1 (e : bus_event) : list Z :=
  match e with BusRead w n inc => rd_addrs inc w (Z.to_nat n) | BusWrite _ _ => [] end.
Definition asked (evs : list bus_event) : list Z := concat (map asked1 evs).
Definition is_read (inc : bool) (e : bus_event) : bool :=
  match e with BusRead _ _ i => Bool.eqb i inc | BusWrite _ _ => false end.

Lemma asked_snoc evs w n inc : asked (evs ++ [BusRead w n inc]) = asked evs ++ rd_addrs inc w (Z.to_nat n).
Proof. unfold asked. by rewrite map_app, concat_app, <- (app_nil_r (rd_addrs _ _ _)). Qed.

(** Answers: words with what may come before each, and the reader's address,
    whether it has one and its history, before and after. *)
Inductive stream (inc : bool) (la : Z) (set : bool) (hist : list Z) :
    list Z -> list Z -> Z -> bool -> list Z -> Prop :=
  | stream_nil : stream inc la set hist [] [] la set hist
  | stream_cons v vs bs la1 set1 ds hist1 bytes la' set' hist' :
      chatter la set bs la1 set1 -> rsp hist inc v ds hist1 -> 0 <= v < 2 ^ 32 ->
      stream inc (u32 (la1 + (if inc then 4 else 0))) set1 hist1 vs bytes la' set' hist' ->
      stream inc la set hist (v :: vs) (bs ++ (enc <$> ds) ++ bytes) la' set' hist'.

Lemma stream_app inc la set hist vs1 b1 la1 set1 hist1 vs2 b2 la2 set2 hist2 :
  stream inc la set hist vs1 b1 la1 set1 hist1 -> stream inc la1 set1 hist1 vs2 b2 la2 set2 hist2 ->
  stream inc la set hist (vs1 ++ vs2) (b1 ++ b2) la2 set2 hist2.
Proof.
  intros H1 H2. induction H1 as [| la set hist v vs bs la1 set1 ds hist1 bytes la' set' hist' ? ? ? ? IH];
    [done |]. rewrite <- !app_assoc. cbn [app]. econstructor; eauto.
Qed.

Section Read.
Context {W : Type} {HOs : Os W} {HLaws : OsLaws W}.
Implicit Types (s : TTYBUS W).

(** [n] words have been asked for, with what is in the buffer. *)
Definition rd_inv (inc : bool) (a : Z) (s0 : TTYBUS W) (f : wbu) (n : Z) (ptr : nat)
    (s : TTYBUS W) : Prop :=
  exists out f1 evs,
    ll_sent (m_dev s) = ll_sent (m_dev s0) ++ out /\
    rxbytes f (out ++ take ptr (m_buf s)) = (f1, evs) /\ forallb (is_read inc) evs = true /\
    asked evs = rd_addrs inc (a / 4) (Z.to_nat n) /\
    w_pend f1 = [] /\ w_addr f1 = wr_end inc (a / 4) (Z.to_nat n) /\
    hist_ok s (w_hist f1) /\ tty_wf s.

Lemma rd_inv_wf inc a s0 f n ptr s : rd_inv inc a s0 f n ptr s -> tty_wf s.
Proof. by intros (? & ? & ? & ? & ? & ? & ? & ? & ? & ? & ?). Qed.

Lemma rd_inv_rx inc a s0 f n s s' : rd_inv inc a s0 f n 0 s -> rx_frame s s' ->
  rd_inv inc a s0 f n 0 s'.
Proof.
  intros (out & f1 & evs & Hs & Hrx & Hr & Has & Hp & Ha & Hh & Hwf) Hf.
  exists out, f1, evs. destruct Hf as [F1 F2 F3 F4 F5 F6 F7 _].
  unfold hist_ok. rewrite F1, F2, F3, F4. split_and!; auto.
Qed.

(** Only the buffer's characters differ. *)
Definition buffered (s s' : TTYBUS W) : Prop :=
  exists b, length b = length (m_buf s) /\ s' = s <| m_buf := b |>.

Lemma buffered_refl s : buffered s s.
Proof. exists (m_buf s). by destruct s. Qed.

Lemma buffered_trans s1 s2 s3 : buffered s1 s2 -> buffered s2 s3 -> buffered s1 s3.
Proof. intros (b & Hb & ->) (b' & Hb' & ->). exists b'. cbn in Hb'. split; [congruence | done]. Qed.

(** [readcmd] appends its codes. *)
Lemma readcmd_wp inc n ptr s (Q : nat -> TTYBUS W -> Prop) E :
  1 <= n <= 512 -> (ptr + 2 <= length (m_buf s))%nat ->
  (forall b, length b = length (m_buf s) ->
     take (ptr + length (rd_codes inc n)) b = take ptr (m_buf s) ++ (enc <$> rd_codes inc n) ->
     Q (ptr + length (rd_codes inc n))%nat (s <| m_buf := b |>)) ->
  wp (readcmd (of_bool inc) n ptr) Q E s.
Proof.
  intros Hn Hptr HQ. unfold readcmd. pose proof (rd_codes_len inc n).
  wp_step. wp_step; bools; [| lia]. wp_step. wp_step; bools; [| lia].
  pose proof (rd_codes_six inc n Hn) as Hsix. unfold rd_codes in *.
  replace (if truthy (of_bool inc) then 1 else 0) with (of_bool inc) by (by destruct inc).
  destruct (n <=? 8); apply putcs_wp; (done || lia).
Qed.

Lemma readcmd_inv inc a s0 f n k ptr s E :
  rd_inv inc a s0 f n ptr s -> 0 <= n -> rd_len inc k -> 0 <= a < 2 ^ 32 -> (ptr <= 100)%nat ->
  wp (readcmd (of_bool inc) k ptr)
    (fun ptr' s' => rd_inv inc a s0 f (n + k) ptr' s' /\ (ptr < ptr' <= ptr + 2)%nat /\ buffered s s') E s.
Proof.
  intros (out & f1 & evs & Hs & Hrx & Hr & Has & Hp & Ha & Hh & Hwf) Hn Hk Har Hptr.
  pose proof (wf_buf _ Hwf) as Hbuf. pose proof Hk as [Hk1 _].
  apply readcmd_wp; [done | lia |]. intros b Hb Htk. pose proof (rd_codes_len inc k) as Hcl.
  split; [| split; [lia | by exists b]].
  destruct (rx_read f1 inc k) as (f2 & Hrx2 & Hp2 & Hh2 & Ha2); [done | done | |].
  { rewrite Ha. apply wr_end_range. zlia. }
  unfold rd_inv. rewrite Z2Nat.inj_add by lia.
  exists out, f2, (evs ++ [BusRead (w_addr f1) k inc]). split_and!; try done.
  - cbn. rewrite Htk, app_assoc, rxbytes_app, Hrx, Hrx2. done.
  - rewrite forallb_app, Hr. cbn. by rewrite Bool.eqb_reflx.
  - by rewrite asked_snoc, Has, Ha, rd_addrs_app.
  - by rewrite Ha2, Ha, wr_end_add.
  - by rewrite Hh2.
  - destruct Hwf. split; cbn; by rewrite ?Hb.
Qed.

(** ** Issuing commands *)

Lemma issue_step_wp inc a len nread cmdrd ptr s0 f s E :
  rd_inv inc a s0 f cmdrd ptr s -> 0 <= a < 2 ^ 32 -> (ptr <= 8)%nat ->
  0 <= nread <= cmdrd -> cmdrd < len -> cmdrd mod 512 = 0 -> cmdrd - nread = 0 \/ cmdrd - nread = 512 ->
  inc = true \/ len mod 512 <> 8 ->
  wp (issue_step (of_bool inc) len nread (cmdrd, ptr))
    (fun r s' =>
      match r with
      | inl (c, p) => rd_inv inc a s0 f c p s' /\ (p <= ptr + 2)%nat /\ c = cmdrd + 512 /\ c < len /\
                      c - nread = 512 /\ buffered s s'
      | inr (c, p) => rd_inv inc a s0 f c p s' /\ (p <= ptr + 2)%nat /\ cmdrd < c <= len /\
                      (c = len \/ c mod 512 = 0 /\ c - nread = 1024) /\ buffered s s'
      end) E s.
Proof.
  intros Hinv Ha Hptr Hn Hlt Hmod Hd H8. unfold issue_step.
  change READBLOCK with 512. change READAHEAD with 512. change (512 + 512) with 1024.
  set (k := if 512 <? len - cmdrd then 512 else len - cmdrd).
  assert (Hk : (1 <= k <= 512 /\ cmdrd + k <= len) /\ (k = 512 \/ cmdrd + k = len))
    by (subst k; destruct (Z.ltb_spec 512 (len - cmdrd)); lia).
  rewrite (proj2 (Z.ltb_ge 1024 _)) by lia.
  assert (Hkl : rd_len inc k).
  { split; [lia |]. destruct H8 as [-> | H8]; [by left |]. right. intros ->.
    apply H8. destruct Hk as [_ [| <-]]; [lia |]. zlia. }
  clearbody k. apply wp_bind.
  eapply wp_mono; [apply (readcmd_inv inc a s0 f cmdrd k ptr s E); (done || lia) | | done].
  intros p s' (Hinv' & Hp & Hbf). apply wp_ret.
  destruct (Z.ltb_spec (cmdrd + k - nread) 1024); cbn [andb];
    [destruct (Z.ltb_spec (cmdrd + k) len) |]; split_and!; try done; try lia.
  zlia.
Qed.

(** The [do ... while] loop takes at most two rounds. *)
Lemma issue_wp inc a len nread cmdrd ptr s0 f s E :
  rd_inv inc a s0 f cmdrd ptr s -> 0 <= a < 2 ^ 32 ->
  0 <= nread <= cmdrd -> cmdrd < len -> cmdrd mod 512 = 0 ->
  cmdrd - nread = 0 /\ (ptr <= 6)%nat \/ cmdrd - nread = 512 /\ (ptr <= 8)%nat ->
  inc = true \/ len mod 512 <> 8 ->
  wp (loop 3 (issue_step (of_bool inc) len nread) (cmdrd, ptr))
    (fun '(c, p) s' => rd_inv inc a s0 f c p s' /\ (p <= 10)%nat /\ cmdrd < c <= len /\
       (c = len \/ c mod 512 = 0 /\ c - nread = 1024) /\ buffered s s') E s.
Proof.
  intros Hinv Ha Hn Hlt Hmod Hd H8.
  apply (wp_loop _ (fun '(c, p) s1 => rd_inv inc a s0 f c p s1 /\ cmdrd <= c < len /\ c mod 512 = 0 /\
      (c - nread = 0 /\ (p <= 6)%nat \/ c - nread = 512 /\ (p <= 8)%nat) /\ buffered s s1)
    (fun '(c, _) _ => Z.to_nat ((1024 - (c - nread)) / 512))).
  - intros [c p] s1 (Hi & Hc & Hm & Hdp & Hbf).
    eapply wp_mono; [apply (issue_step_wp inc a len nread c p s0 f s1 E); (done || lia) | | done].
    intros [[c' p'] | [c' p']] s2.
    + intros (Hi' & Hp' & -> & Hlt' & Hd' & Hbf'). split; [| zlia].
      split_and!; [done | lia | lia | zlia | lia | by eapply buffered_trans].
    + intros (Hi' & Hp' & Hc' & He & Hbf').
      split_and!; [done | lia | lia | lia | lia | by eapply buffered_trans].
  - split_and!; (done || lia || apply buffered_refl).
  - zlia.
Qed.

(** ** Reading the words *)

(** The ways a read fails: an unaligned address before anything is sent, the
    end of the FPGA's answers, a bus error at one of the words, or answers that
    leave [m_lastaddr] at another address than the last one. *)
Definition rd_fail (inc : bool) (a len : Z) (s0 : TTYBUS W) (e : exn) (s : TTYBUS W) : Prop :=
  tty_wf s /\
  (e = BUSERR a /\ a mod 4 <> 0 /\ ll_sent (m_dev s) = ll_sent (m_dev s0) \/
   e = COMMFAIL \/
   (exists i, 0 <= i < len /\ e = BUSERR (u32 (a + (if inc then 4 * i else 0))) /\ m_bus_err s = true) \/
   (e = ASSERT \/ e = EXIT (-3)) /\ m_lastaddr s <> la_end inc a (Z.to_nat len)).

Lemma read_words_wp inc a len s0 n acc s : tty_wf s -> Z.of_nat (length acc + n) <= len ->
  wp (read_words a (of_bool inc) n acc)
    (fun acc' s' => length acc' = (length acc + n)%nat /\ rx_frame s s') (rd_fail inc a len s0) s.
Proof.
  revert acc s. induction n as [| n IH]; intros acc s Hwf Hlen; cbn [read_words].
  { wp_step. split; [lia | apply rx_frame_refl]. }
  apply wp_bind. pose proof (readword_frame s Hwf) as Hrw.
  unfold wp at 1, rethrow_buserr. unfold wp in Hrw. destruct (readword s) as [v s1 | e s1].
  - destruct Hrw as [Hf _]. eapply wp_mono; [apply IH | | done].
    + by apply Hf.
    + rewrite length_app. cbn [length]. lia.
    + intros acc' s2 [Hl Hf2]. rewrite length_app in Hl. cbn [length] in Hl.
      split; [lia |]. by eapply rx_frame_trans.
  - destruct Hrw as [Hf [-> | [-> Hbe]]].
    + split; [by apply Hf | by right; left].
    + split; [by apply Hf |]. right; right; left. exists (Z.of_nat (length acc)).
      split; [lia |]. split; [| done]. f_equal. f_equal. rewrite shiftl_mul by lia.
      destruct inc; cbn; lia.
Qed.

(** Between the rounds of [readv]: all the words asked for, and how many of
    them have been read. *)
Definition rdv_inv (inc : bool) (a len : Z) (s0 : TTYBUS W) (f : wbu)
    (c : Z * nat * list Z) (s : TTYBUS W) : Prop :=
  let '(cmdrd, ptr, acc) := c in
  let nread := Z.of_nat (length acc) in
  rd_inv inc a s0 f cmdrd ptr s /\ (ptr <= 6)%nat /\ (cmdrd <> 0 -> ptr = 0%nat) /\
  0 <= nread <= cmdrd /\ cmdrd <= len /\
  (cmdrd = len \/ cmdrd mod 512 = 0 /\ (cmdrd - nread = 0 \/ cmdrd - nread = 512)).

Lemma readv_block_wp inc a len c s0 f s :
  rdv_inv inc a len s0 f c s -> 0 <= a < 2 ^ 32 -> 0 < len -> inc = true \/ len mod 512 <> 8 ->
  wp (readv_block a (of_bool inc) len c)
    (fun r s' =>
      match r with
      | inl c' => rdv_inv inc a len s0 f c' s' /\ c.1.1 < c'.1.1
      | inr acc => Z.of_nat (length acc) = len /\ rd_inv inc a s0 f len 0 s'
      end) (rd_fail inc a len s0) s.
Proof.
  destruct c as [[cmdrd ptr] acc]. intros (Hi & Hptr & Hp0 & Hn & Hle & Hc) Ha Hlen H8.
  unfold readv_block. set (nread := Z.of_nat (length acc)) in *.
  destruct (Z.ltb_spec cmdrd len) as [Hlt | Hge].
  - apply wp_bind.
    eapply wp_mono; [apply (issue_wp inc a len nread cmdrd ptr s0 f s); (done || lia) | | done].
    intros [c p] s1 (Hi1 & Hp & Hcl & Hce & _). pose proof (rd_inv_wf _ _ _ _ _ _ _ Hi1) as Hwf1.
    pose proof (wf_buf _ Hwf1) as Hbuf.
    apply wp_bind, poke_wp; [lia |]. apply wp_bind, poke_wp; [cbn; rewrite length_insert; lia |].
    apply wp_bind, dev_write_wp; [cbn; rewrite !length_insert; lia |].
    intros reply d Hs Hin _. cbn in Hs, Hin. set (s2 := _ <| m_dev := d |>).
    rewrite take_insert_ge in Hs by lia.
    erewrite take_S_r in Hs by (apply list_lookup_insert_eq; lia). rewrite take_insert_ge in Hs by lia.
    assert (Hi2 : rd_inv inc a s0 f c 0 s2).
    { destruct Hi1 as (out & f1 & evs & Hs1 & Hrx & Hr & Has & Hpd & Haddr & Hh & _).
      exists (out ++ take p (m_buf s1) ++ [10]), (mkWbu [] false (w_hist f1) (w_addr f1)), evs.
      split_and!; try done.
      - change (m_dev s2) with d. by rewrite Hs, Hs1, !app_assoc.
      - change (take 0 (m_buf s2)) with (@nil Z).
        rewrite app_nil_r, app_assoc, rxbytes_app, Hrx, (rx_newline _ Hpd). by rewrite app_nil_r.
      - destruct Hwf1. split; cbn; rewrite ?length_insert; done. }
    apply wp_bind. change READAHEAD with 512.
    eapply wp_mono; [apply (read_words_wp inc a len s0) | | done].
    + by eapply rd_inv_wf.
    + rewrite Nat2Z.inj_add. subst nread. lia.
    + intros acc' s3 [Hl Hf]. wp_step. split; [| cbn; lia].
      assert (Hnr : Z.of_nat (length acc') = Z.max nread (c - 512)) by lia.
      unfold rdv_inv. rewrite Hnr. split; [by eapply rd_inv_rx |]. split_and!; lia.
  - assert (cmdrd = len) as -> by lia. rewrite Hp0 in Hi by lia. apply wp_bind.
    eapply wp_mono; [apply (read_words_wp inc a len s0) | | done].
    + by eapply rd_inv_wf.
    + subst nread. lia.
    + intros acc' s3 [Hl Hf]. wp_step. split; [lia |]. by eapply rd_inv_rx.
Qed.

Lemma rdv_start inc a len s f b r :
  tty_wf s -> link s f -> 0 <= a < 2 ^ 32 -> a mod 4 = 0 -> 0 < len ->
  length b = length (m_buf s) -> 0 <= r < 1024 ->
  let codes := addr_codes (m_addr_set s) (m_lastaddr s) a in
  take (length codes) b = enc <$> codes ->
  rdv_inv inc a len s f (0, length codes, []) (s <| m_buf := b |> <| m_rdaddr := r |>).
Proof.
  intros Hwf Hlk Ha Hal Hlen Hbl Hr codes Htk.
  destruct (addr_codes_rx s f a Hwf Hlk Ha Hal) as (f1 & Hrx & Hp & Hh & Haddr).
  pose proof (addr_codes_len (m_addr_set s) (m_lastaddr s) a) as Hvl.
  split_and!; try done; try (cbn; lia); [| right; cbn; split; [done | by left]].
  exists [], f1, []. split_and!; try done.
  - by rewrite app_nil_r.
  - cbn [app]. cbn. rewrite Htk. exact Hrx.
  - rewrite Haddr. symmetry. apply wr_end_0. zlia.
  - rewrite Hh. apply (lk_hist _ _ Hlk).
  - destruct Hwf. split; cbn; rewrite ?Hbl; done.
Qed.

(** What a completed read has asked for. *)
Definition readv_done (inc : bool) (a len : Z) (s : TTYBUS W) (f : wbu) (vs : list Z)
    (s' : TTYBUS W) : Prop :=
  Z.of_nat (length vs) = len /\
  exists out f' evs,
    ll_sent (m_dev s') = ll_sent (m_dev s) ++ out /\
    rxbytes f out = (f', evs) /\ forallb (is_read inc) evs = true /\
    asked evs = rd_addrs inc (a / 4) (Z.to_nat len) /\
    w_pend f' = [] /\ w_addr f' = wr_end inc (a / 4) (Z.to_nat len) /\
    hist_ok s' (w_hist f') /\ tty_wf s' /\ m_lastaddr s' = la_end inc a (Z.to_nat len).

Lemma readv_wp inc a len s f :
  tty_wf s -> link s f -> 0 <= a < 2 ^ 32 -> 0 < len -> inc = true \/ len mod 512 <> 8 ->
  wp (readv a (of_bool inc) len)
    (fun vs s' => a mod 4 = 0 /\ readv_done inc a len s f vs s') (rd_fail inc a len s) s.
Proof.
  intros Hwf Hlk Ha Hlen H8. unfold readv. rewrite (proj2 (Z.leb_gt _ _)) by lia.
  apply wp_bind, encode_address_wp; [done | done | intros; split; [done | by left] |].
  intros Hal b r vs Hbl Htk Hr _. pose proof (addr_codes_len (m_addr_set s) (m_lastaddr s) a) as Hvl.
  apply wp_bind.
  apply (wp_loop _ (rdv_inv inc a len s f) (fun c _ => Z.to_nat (len - c.1.1))).
  - intros c s1 Hi. eapply wp_mono; [by apply (readv_block_wp inc a len c s f s1) | | done].
    intros [c' | acc] s2.
    + intros [Hi' Hc]. split; [done |]. destruct c' as [[c' ?] ?], c as [[c ?] ?].
      destruct Hi as (_ & _ & _ & _ & ? & _), Hi' as (_ & _ & _ & _ & ? & _). cbn in *. lia.
    + intros [Hl Hi']. wp_step. wp_step.
      assert (Hend : u32 (a + (if truthy (of_bool inc) then len .<< 2 else 0)) = la_end inc a (Z.to_nat len)).
      { unfold la_end. rewrite shiftl_mul by lia. destruct inc; cbn -[u32 Z.add Z.mul Z.pow];
          [f_equal; lia | unfold u32; rewrite Z.add_0_r; by apply Z.mod_small]. }
      rewrite Hend. destruct (Z.eqb_spec (m_lastaddr s2) (la_end inc a (Z.to_nat len))) as [Heq | Hne]; cbn [negb].
      * wp_step. split; [done |]. split; [done |].
        destruct Hi' as (out & f1 & evs & Hs1 & Hrx & Hrd & Has & Hpd & Haddr & Hh & Hwf2).
        change (take 0 (m_buf s2)) with (@nil Z) in Hrx. rewrite app_nil_r in Hrx.
        exists out, f1, evs. by split_and!.
      * apply rd_inv_wf in Hi'.
        wp_step. wp_step; [wp_step |]; (split; [done |]; right; right; right; split; [auto | done]).
  - by apply rdv_start.
  - cbn. lia.
Qed.

Lemma readv_done_link inc a len s f vs s' :
  readv_done inc a len s f vs s' -> 0 <= a -> a mod 4 = 0 -> a + 4 * len < 2 ^ 32 ->
  exists out f', ll_sent (m_dev s') = ll_sent (m_dev s) ++ out /\ (rxbytes f out).1 = f' /\ link s' f'.
Proof.
  intros (Hl & out & f' & evs & Hs & Hrx & _ & _ & Hp & Ha & Hh & Hwf & Hla) H0 Hal Hr.
  exists out, f'. split; [done |]. rewrite Hrx. split; [done |]. split; [done | | done].
  intros _. rewrite Hla, Ha. unfold la_end, wr_end, u32. destruct inc; [| zlia].
  rewrite !Z.mod_small by zlia. zlia.
Qed.

(** ** The values *)

(** An FPGA in state [f] that serves the words [vs]: a command that asks for
    words [n] to [m] is answered with an encoding of them, whose references are
    relative to the words [H n] it has sent before. *)
Record serves (inc : bool) (a : Z) (vs : list Z) (f : wbu) (s0 : TTYBUS W)
    (H : nat -> list Z) : Prop := {
  sv_pending : pending s0 = [];
  sv_hist : rd_ok s0 (H 0%nat);
  sv_fresh : m_addr_set s0 = true /\ m_lastaddr s0 = a \/ H 0%nat = [];
  sv_answer : forall (c : LLCOMMSI W) out bs n m,
    ll_sent c = ll_sent (m_dev s0) ++ out -> (n < m <= length vs)%nat ->
    asked (rxbytes f out).2 = rd_addrs inc (a / 4) n ->
    asked (rxbytes f (out ++ bs)).2 = rd_addrs inc (a / 4) m ->
    forallb (is_read inc) (rxbytes f (out ++ bs)).2 = true ->
    exists bytes,
      incoming (os_write (m_fdw c) bs (ll_os c)).2 = ll_incoming c ++ bytes /\
      stream inc (if (n =? 0)%nat then m_lastaddr s0 else la_end inc a n)
        (if (n =? 0)%nat then m_addr_set s0 else true) (H n) (take (m - n) (drop n vs)) bytes
        (la_end inc a m) true (H m)
}.

(** The words [n] to [m] are there to be read. *)
Definition answering (inc : bool) (vs : list Z) (la' : Z) (set' : bool) (hist' : list Z)
    (s : TTYBUS W) : Prop :=
  tty_wf s /\ exists hist,
    rd_ok s hist /\ stream inc (m_lastaddr s) (m_addr_set s) hist vs (pending s) la' set' hist'.

Lemma answering_nil inc la' set' hist' s : answering inc [] la' set' hist' s -> m_lastaddr s = la'.
Proof. intros (_ & hist & _ & Hst). by inversion Hst. Qed.

Lemma read_words_values inc a n vs la' set' hist' acc s :
  answering inc vs la' set' hist' s -> (n <= length vs)%nat ->
  wp (read_words a (of_bool inc) n acc)
    (fun acc' s' => acc' = acc ++ take n vs /\ answering inc (drop n vs) la' set' hist' s' /\
       ll_sent (m_dev s') = ll_sent (m_dev s)) (fun _ _ => False) s.
Proof.
  revert vs acc s. induction n as [| n IH]; intros vs acc s Hans Hn; cbn [read_words].
  { wp_step. by rewrite take_0, app_nil_r. }
  destruct Hans as (Hwf & hist & Hok & Hst). remember (pending s) as ps eqn:Hp. symmetry in Hp.
  destruct Hst as [| v vs bs la1 set1 ds hist1 bytes la' set' hist' Hch Hrsp Hv Hst]; [cbn in Hn; lia |].
  apply wp_bind.
  pose proof (readword_wp s bs la1 set1 hist inc v ds hist1 bytes Hwf Hch Hrsp Hv Hok Hp) as Hrw.
  unfold wp at 1, rethrow_buserr. unfold wp in Hrw. destruct (readword s) as [r s1 | e s1]; [| done].
  destruct Hrw as (-> & Hp1 & Hk & Hok1 & Hset & Hla).
  eapply wp_mono; [apply (IH vs) | | done].
  - split; [by apply Hk |]. exists hist1. by rewrite Hset, Hla, Hp1.
  - cbn in Hn. lia.
  - intros acc' s2 (-> & Hans & Hs). rewrite <- app_assoc. split_and!; [done.. |].
    by rewrite Hs, (kp_sent _ _ Hk).
Qed.

(** Between the rounds of [readv]: [k] words asked for. *)
Definition rdv_vals (inc : bool) (a : Z) (vs : list Z) (s0 : TTYBUS W) (H : nat -> list Z)
    (k : nat) (acc : list Z) (s : TTYBUS W) : Prop :=
  acc = take (length acc) vs /\
  answering inc (take (k - length acc) (drop (length acc) vs))
    (if (k =? 0)%nat then m_lastaddr s0 else la_end inc a k)
    (if (k =? 0)%nat then m_addr_set s0 else true) (H k) s.

Lemma rdv_vals_read inc a vs s0 H k acc n s :
  rdv_vals inc a vs s0 H k acc s -> (length acc + n <= k)%nat -> (k <= length vs)%nat ->
  wp (read_words a (of_bool inc) n acc)
    (fun acc' s' => rdv_vals inc a vs s0 H k acc' s' /\ length acc' = (length acc + n)%nat)
    (fun _ _ => False) s.
Proof.
  intros [Hacc Hans] Hn Hk.
  eapply wp_mono; [apply (read_words_values inc a n); [exact Hans |] | | done].
  { rewrite length_take, length_drop. lia. }
  intros acc' s1 (-> & Hans1 & _).
  rewrite take_take, Nat.min_l in * by lia.
  assert (Hl : length (acc ++ take n (drop (length acc) vs)) = (length acc + n)%nat)
    by (rewrite length_app, length_take_le; [done | rewrite length_drop; lia]).
  split; [| done]. unfold rdv_vals. rewrite Hl. split; [by rewrite Hacc at 1; apply take_take_drop |].
  rewrite skipn_firstn_comm, drop_drop in Hans1.
  by replace (k - (length acc + n))%nat with (k - length acc - n)%nat by lia.
Qed.

Lemma rdv_vals_write inc a vs f s0 H k m acc out n s :
  serves inc a vs f s0 H -> rdv_vals inc a vs s0 H k acc s ->
  ll_sent (m_dev s) = ll_sent (m_dev s0) ++ out -> (length acc <= k)%nat -> (k < m <= length vs)%nat ->
  (0 < n <= length (m_buf s))%nat ->
  asked (rxbytes f out).2 = rd_addrs inc (a / 4) k ->
  asked (rxbytes f (out ++ take n (m_buf s))).2 = rd_addrs inc (a / 4) m ->
  forallb (is_read inc) (rxbytes f (out ++ take n (m_buf s))).2 = true ->
  wp (dev_write n) (fun _ s' => rdv_vals inc a vs s0 H m acc s') (fun _ _ => False) s.
Proof.
  intros Hsv [Hacc (Hwf & hist & Hok & Hst)] Hs Hak Hkm Hn Has1 Has2 Hrd.
  unfold wp, dev_write. rewrite decide_True by lia. unfold dev, ll_write.
  set (bs := take n (m_buf s)) in *.
  assert (Hne : bs <> []).
  { intros Heq. apply (f_equal length) in Heq. subst bs. rewrite length_take in Heq. cbn in Heq. lia. }
  destruct (sv_answer _ _ _ _ _ _ Hsv (m_dev s) out bs k m Hs Hkm Has1 Has2 Hrd) as (bytes & Hin & Hst2).
  destruct (os_write_all (m_fdw (m_dev s)) bs (ll_os (m_dev s)) Hne) as (rp & w' & Hw & _ & _).
  rewrite Hw in *. cbn in Hin.
  assert (0 < Z.of_nat (length bs)) by (destruct bs; [done | cbn; lia]).
  destruct (Z.leb_spec (Z.of_nat (length bs)) 0); [lia |]. rewrite Z.eqb_refl. cbn.
  split; [done |]. split; [destruct Hwf; by split |]. exists hist. split; [done |]. cbn.
  unfold pending, ll_incoming in *. cbn. rewrite Hin.
  replace (m =? 0)%nat with false by (symmetry; apply Nat.eqb_neq; lia).
  pose proof (stream_app _ _ _ _ _ _ _ _ _ _ _ _ _ _ Hst Hst2) as Happ.
  replace (take (m - length acc) (drop (length acc) vs)) with
    (take (k - length acc) (drop (length acc) vs) ++ take (m - k) (drop k vs)); [exact Happ |].
  replace (drop k vs) with (drop (k - length acc) (drop (length acc) vs))
    by (rewrite drop_drop; f_equal; lia).
  rewrite take_take_drop. f_equal. lia.
Qed.

Lemma readv_block_values inc a vs f s0 H c s :
  serves inc a vs f s0 H -> rdv_inv inc a (Z.of_nat (length vs)) s0 f c s ->
  rdv_vals inc a vs s0 H (Z.to_nat c.1.1) c.2 s -> (c.1.1 = 0 -> ll_sent (m_dev s) = ll_sent (m_dev s0)) ->
  0 <= a < 2 ^ 32 -> vs <> [] -> inc = true \/ Z.of_nat (length vs) mod 512 <> 8 ->
  wp (readv_block a (of_bool inc) (Z.of_nat (length vs)) c)
    (fun r s' =>
      match r with
      | inl c' => c'.1.1 <> 0 /\ rdv_vals inc a vs s0 H (Z.to_nat c'.1.1) c'.2 s'
      | inr acc => acc = vs /\ m_lastaddr s' = la_end inc a (length vs)
      end) (fun _ _ => False) s.
Proof.
  destruct c as [[cmdrd ptr] acc]. intros Hsv (Hi & Hptr & Hp0 & Hn & Hle & Hc) Hv Hs0 Ha Hne H8.
  cbn [fst snd] in *. set (len := Z.of_nat (length vs)) in *.
  assert (0 < length vs)%nat by (destruct vs; [done | cbn; lia]).
  unfold readv_block. destruct (Z.ltb_spec cmdrd len) as [Hlt | Hge].
  - assert (Hout : exists out, ll_sent (m_dev s) = ll_sent (m_dev s0) ++ out /\
      asked (rxbytes f out).2 = rd_addrs inc (a / 4) (Z.to_nat cmdrd)).
    { destruct (decide (cmdrd = 0)) as [-> | Hnz].
      - exists []. rewrite app_nil_r. split; [by apply Hs0 | done].
      - rewrite (Hp0 Hnz) in Hi. destruct Hi as (out & f1 & evs & Hs & Hrx & _ & Has & _).
        exists out. change (take 0 (m_buf s)) with (@nil Z) in Hrx. rewrite app_nil_r in Hrx.
        by rewrite Hrx. }
    destruct Hout as (out & Hs & Has). apply wp_bind.
    eapply wp_mono; [apply (issue_wp inc a len (Z.of_nat (length acc)) cmdrd ptr s0 f s (fun _ _ => False));
      (done || lia) | | done].
    intros [c p] s1 (Hi1 & Hp & Hcl & Hce & (b & Hb & ->)).
    pose proof (wf_buf _ (rd_inv_wf _ _ _ _ _ _ _ Hi1)) as Hbuf. cbn in Hbuf.
    destruct Hi1 as (out' & f1 & evs & Hs1 & Hrx & Hrd1 & Has1 & Hpd & _). cbn in Hs1, Hrx.
    rewrite Hs in Hs1. apply app_inv_head in Hs1 as <-.
    apply wp_bind, poke_wp; [cbn; lia |]. apply wp_bind, poke_wp; [cbn; rewrite length_insert; lia |].
    match goal with |- wp _ _ _ ?st => assert (Hall : (rxbytes f (out ++ take (S p) (m_buf st))).2 = evs) end.
    { cbn. rewrite take_insert_ge by lia.
      erewrite take_S_r by (apply list_lookup_insert_eq; lia). rewrite take_insert_ge by lia.
      rewrite app_assoc, rxbytes_app, Hrx, (rx_newline _ Hpd). cbn. by rewrite app_nil_r. }
    apply wp_bind.
    eapply wp_mono; [eapply (rdv_vals_write inc a vs f s0 H (Z.to_nat cmdrd) (Z.to_nat c) acc out) | | done];
      try done; try lia.
    + destruct Hv as [Hacc ([] & Hv)]. split; [done |].
      split; [split; cbn; rewrite ?length_insert, ?Hb; done | done].
    + cbn. rewrite !length_insert. lia.
    + by rewrite Hall.
    + by rewrite Hall.
    + intros [] s2 Hv2. apply wp_bind. change READAHEAD with 512.
      eapply wp_mono; [apply (rdv_vals_read inc a vs s0 H (Z.to_nat c)); [exact Hv2 | lia | lia] | | done].
      intros acc' s3 [Hv3 _]. wp_step. split; [cbn; lia | done].
  - assert (cmdrd = len) as -> by lia. apply wp_bind.
    eapply wp_mono; [apply (rdv_vals_read inc a vs s0 H (Z.to_nat len)); [exact Hv | lia | lia] | | done].
    intros acc' s3 [[Hacc Hans] Hl]. wp_step.
    assert (Hl' : length acc' = length vs) by lia. rewrite Hl' in *.
    rewrite drop_ge, take_nil in Hans by lia. apply answering_nil in Hans.
    split; [by rewrite Hacc, take_ge by lia |]. rewrite Hans. subst len. rewrite Nat2Z.id.
    by replace (length vs =? 0)%nat with false by (symmetry; apply Nat.eqb_neq; lia).
Qed.

(** An FPGA that serves the words: they are returned. *)
Lemma readv_values inc a vs s f H :
  tty_wf s -> link s f -> 0 <= a < 2 ^ 32 -> a mod 4 = 0 -> vs <> [] ->
  inc = true \/ Z.of_nat (length vs) mod 512 <> 8 -> serves inc a vs f s H ->
  wp (readv a (of_bool inc) (Z.of_nat (length vs)))
    (fun r s' => r = vs /\ m_lastaddr s' = la_end inc a (length vs)) (fun _ _ => False) s.
Proof.
  intros Hwf Hlk Ha Hal Hne H8 Hsv.
  assert (Hlen : 0 < Z.of_nat (length vs)) by (destruct vs; [done | cbn; lia]).
  unfold readv. rewrite (proj2 (Z.leb_gt _ _)) by lia.
  apply wp_bind, encode_address_wp; [done | done | done |].
  intros _ b r codes Hbl Htk Hr Hrd.
  set (s1 := s <| m_buf := b |> <| m_rdaddr := r |>).
  assert (Hv1 : rdv_vals inc a vs s H 0 [] s1).
  { split; [done |]. split; [destruct Hwf; split; cbn; rewrite ?Hbl; done |]. exists (H 0%nat).
    split; [| change (pending s1) with (pending s); rewrite (sv_pending _ _ _ _ _ _ Hsv); constructor].
    destruct (sv_fresh _ _ _ _ _ _ Hsv) as [[Hset Hla] | ->]; [| by intros i x].
    rewrite Hset, Hla, Z.eqb_refl in Hrd. intros i x. cbn. rewrite Hrd by done.
    apply (sv_hist _ _ _ _ _ _ Hsv). }
  apply wp_bind.
  apply (wp_loop _ (fun c s2 => rdv_inv inc a (Z.of_nat (length vs)) s f c s2 /\
      rdv_vals inc a vs s H (Z.to_nat c.1.1) c.2 s2 /\ (c.1.1 = 0 -> ll_sent (m_dev s2) = ll_sent (m_dev s)))
    (fun c _ => Z.to_nat (Z.of_nat (length vs) - c.1.1))).
  - intros c s2 (Hi & Hv & Hs0).
    eapply wp_mono; [apply wp_and; [by eapply (readv_block_wp inc a) | by eapply (readv_block_values inc a)] | |
      by intros ? ? [_ []]].
    intros [c' | acc] s3.
    + intros [[Hi' Hc] [Hnz Hv']]. split; [done |]. destruct c' as [[c' ?] ?], c as [[c ?] ?].
      destruct Hi as (_ & _ & _ & _ & ? & _), Hi' as (_ & _ & _ & _ & ? & _). cbn in *. lia.
    + intros [[_ Hi'] [-> Hla]]. wp_step. wp_step.
      rewrite Hla. unfold la_end at 1. rewrite shiftl_mul by lia.
      replace (_ =? _) with true.
      * cbn [negb]. by wp_step.
      * symmetry. apply Z.eqb_eq. destruct inc; cbn -[u32 Z.add Z.mul Z.pow]; [f_equal; lia |].
        unfold u32. rewrite Z.add_0_r. symmetry. by apply Z.mod_small.
  - split; [by apply rdv_start; try lia |]. by split.
  - cbn. lia.
Qed.
End Read.
