(* ===== verification/Board.v ===== *)
(** A board at the other end of the byte channel: a memory behind the receiver
    of [WbuSpec].

    The board keeps no state but the bytes exchanged: its receiver and its
    memory are what [WbuSpec.rxbytes] makes of everything that was written.  It
    does not acknowledge writes, and answers a read with the address and the
    words in full.  It is an operating system in the sense of [OsLaws], and an
    FPGA that [serves] the contents of its memory. *)

From stdpp Require Import base tactics list numbers option.
From Stdlib Require Import ZArith Lia.
From S2P Require Import Prelude LLComms TtyBus WbuSpec TtyBase TtyRecv TtySend TtyWord TtyRead.
Local Open Scope Z_scope.

Record Board (f0 : wbu) (m0 : Z -> Z) : Type := mkBoard { bd_in : list Z; bd_out : list Z; bd_max : nat }.
Arguments mkBoard {f0 m0}.
Arguments bd_in {f0 m0}.
Arguments bd_out {f0 m0}.
Arguments bd_max {f0 m0}.

(** The memory after some bus events. *)
Definition write1 (m : Z -> Z) (e : bus_event) : Z -> Z :=
  match e with
  | BusWrite w v => fun x => if x =? w then v else m x
  | BusRead _ _ _ => m
  end.
Definition mem_after (m : Z -> Z) (evs : list bus_event) : Z -> Z := foldl write1 m evs.

(** The codes of a word in full, and of a word address. *)
Definition word_codes (inc : bool) (v : Z) : list Z :=
  [(((v .>> 30) .& 3) .<< 1) + of_bool inc + 0x38; (v .>> 24) .& 0x3f; (v .>> 18) .& 0x3f;
   (v .>> 12) .& 0x3f; (v .>> 6) .& 0x3f; v .& 0x3f].
Definition waddr_codes (w : Z) : list Z :=
  [0x08 + ((w .>> 30) .& 3); (w .>> 24) .& 0x3f; (w .>> 18) .& 0x3f;
   (w .>> 12) .& 0x3f; (w .>> 6) .& 0x3f; w .& 0x3f].

Definition words_answer (inc : bool) (vs : list Z) : list Z :=
  concat (map (fun v => enc <$> word_codes inc v) vs).

(** A word of the memory. *)
Definition peek (m : Z -> Z) (w : Z) : Z := u32 (m w).

Definition answer1 (m : Z -> Z) (e : bus_event) : list Z :=
  match e with
  | BusWrite _ _ => []
  | BusRead w n inc =>
      if n <=? 0 then []
      else (enc <$> waddr_codes (u32 w)) ++
           words_answer inc (map (peek m) (rd_addrs inc (u32 w) (Z.to_nat n)))
  end.

Fixpoint answers (m : Z -> Z) (evs : list bus_event) : list Z :=
  match evs with
  | [] => []
  | e :: evs' => answer1 m e ++ answers (write1 m e) evs'
  end.

Section Board.
Context {f0 : wbu} {m0 : Z -> Z}.

Definition board_rx (out : list Z) : wbu := (rxbytes f0 out).1.
Definition board_mem (out : list Z) : Z -> Z := mem_after m0 (rxbytes f0 out).2.

Definition board_write (bs : list Z) (w : Board f0 m0) : Z * Board f0 m0 :=
  (Z.of_nat (length bs),
   mkBoard (bd_in w ++ answers (board_mem (bd_out w)) (rxbytes (board_rx (bd_out w)) bs).2)
     (bd_out w ++ bs) (bd_max w)).

Definition board_read (len : Z) (w : Board f0 m0) : Z * list Z * Board f0 m0 :=
  let k := Nat.min (Nat.min (Z.to_nat len) (S (bd_max w))) (length (bd_in w)) in
  (Z.of_nat k, take k (bd_in w), mkBoard (drop k (bd_in w)) (bd_out w) (bd_max w)).
End Board.

#[export] Instance board_os f0 m0 : Os (Board f0 m0) := {
  os_read _ len w := board_read len w;
  os_write _ bs w := board_write bs w;
  os_poll _ _ w := (match bd_in w with [] => false | _ => true end, w);
  os_close _ w := w;
  incoming := bd_in;
  sent := bd_out
}.

#[export] Instance board_laws f0 m0 : OsLaws (Board f0 m0).
Proof.
  split; cbn; unfold board_read, board_write.
  - intros _ len [rx tx mx] Hlen Hne; cbn in *. destruct rx as [| x rx]; [done |].
    eexists _, _; split; [| split; [| split; [reflexivity | done]]]; cbn [length]; lia.
  - intros _ len [rx tx mx] Heq; cbn in *. subst rx. rewrite Nat.min_0_r.
    exists 0, (mkBoard [] tx mx). by split_and!.
  - intros _ bs w _. do 2 eexists. split; [reflexivity |]. by split.
  - done.
  - intros _ _ [[| x rx] tx mx]; done.
Qed.

(** ** Answers are streams *)

Lemma words_stream inc la set hist vs : 0 <= la < 2 ^ 32 -> words32 vs ->
  stream inc la set hist vs (words_answer inc vs) (la_end inc la (length vs)) set (rev vs ++ hist).
Proof.
  intros Hla Hvs. revert la hist Hla. induction Hvs as [| v vs Hv Hvs IH]; intros la hist Hla.
  - rewrite la_end_0 by done. constructor.
  - cbn [length rev]. rewrite <- la_end_S, <- app_assoc.
    change (words_answer inc (v :: vs)) with ([] ++ (enc <$> word_codes inc v) ++ words_answer inc vs).
    eapply stream_cons; [constructor | apply rsp_full | done |].
    destruct inc; [apply IH, u32_range |].
    unfold u32. rewrite Z.add_0_r, Z.mod_small by done. by apply IH.
Qed.

Lemma waddr_digits w : 0 <= w < 2 ^ 32 -> exists q t, waddr_codes w = 0x08 + q :: t /\ 0 <= q < 4 /\
  sixbit t /\ length t = 5%nat /\ q * 2 ^ 30 + digits t = w.
Proof.
  intros Hw. do 2 eexists. split; [reflexivity |].
  split; [rewrite land_3; apply Z.mod_pos_bound; lia |].
  split; [sixbits |]. split; [done |].
  rewrite digits_5, land_3, shiftr_div by lia. zlia.
Qed.

Lemma peek_words m ws : words32 (map (peek m) ws).
Proof. induction ws; constructor; [apply u32_range | done]. Qed.

(** The address before the words. *)
Lemma stream_waddr inc la set hist w vs bytes la' set' hist' : 0 <= w < 2 ^ 32 -> vs <> [] ->
  stream inc (u32 (w .<< 2)) true hist vs bytes la' set' hist' ->
  stream inc la set hist vs ((enc <$> waddr_codes w) ++ bytes) la' set' hist'.
Proof.
  intros Hw Hne Hst. destruct (waddr_digits w Hw) as (q & t & Hc & Hq & Ht & Hl & Hval).
  destruct Hst as [| v vs bs la1 set1 ds hist1 bytes la' set' hist' Hch Hr Hv Hst]; [done |].
  rewrite Hc, app_assoc. eapply stream_cons; [| exact Hr | done | exact Hst].
  apply chat_addr; try done. by rewrite Hval.
Qed.

(** The answer to one read: the address, then the words. *)
Lemma answer_stream inc la set hist m w n : 0 <= w < 2 ^ 32 -> (0 < n)%nat ->
  let vs := map (peek m) (rd_addrs inc w n) in
  stream inc la set hist vs ((enc <$> waddr_codes w) ++ words_answer inc vs)
    (u32 (4 * wr_end inc w n)) true (rev vs ++ hist).
Proof.
  intros Hw Hn vs.
  assert (Hend : la_end inc (u32 (w .<< 2)) (length vs) = u32 (4 * wr_end inc w n)).
  { subst vs. unfold rd_addrs. rewrite !length_map, length_seq, shiftl_mul by lia.
    unfold la_end, wr_end, u32. destruct inc; [| f_equal; lia].
    rewrite Zplus_mod_idemp_l, Zmult_mod_idemp_r. f_equal. lia. }
  rewrite <- Hend. apply stream_waddr; [done | | apply words_stream; [apply u32_range | apply peek_words]].
  subst vs. unfold rd_addrs. destruct n; [lia | done].
Qed.

Lemma rd_addrs_length inc w n : length (rd_addrs inc w n) = n.
Proof. unfold rd_addrs. by rewrite length_map, length_seq. Qed.

(** The first words of a request. *)
Lemma rd_addrs_split inc w k x n rest : rd_addrs inc x n ++ rest = rd_addrs inc w k ->
  (n <= k)%nat /\ rd_addrs inc x n = rd_addrs inc w n /\ rest = rd_addrs inc (wr_end inc w n) (k - n).
Proof.
  intros Heq. assert (Hnk : (n <= k)%nat).
  { apply (f_equal length) in Heq. rewrite length_app, !rd_addrs_length in Heq. lia. }
  replace k with (n + (k - n))%nat in Heq by lia. rewrite rd_addrs_app in Heq.
  apply app_inj_1 in Heq as [H1 H2]; [done | by rewrite !rd_addrs_length].
Qed.

Lemma mem_after_app m e1 e2 : mem_after m (e1 ++ e2) = mem_after (mem_after m e1) e2.
Proof. apply foldl_app. Qed.

Lemma reads_mem inc m evs : forallb (is_read inc) evs = true -> mem_after m evs = m.
Proof. induction evs as [| [] evs IH]; intros H; cbn in *; [done | done |]. apply IH. by bools. Qed.

(** The answer to reads of consecutive words. *)
Lemma answers_stream inc m evs : forall w k la set hist,
  forallb (is_read inc) evs = true -> asked evs = rd_addrs inc w k -> 0 <= w < 2 ^ 32 ->
  let vs := map (peek m) (rd_addrs inc w k) in
  stream inc la set hist vs (answers m evs)
    (if (k =? 0)%nat then la else u32 (4 * wr_end inc w k))
    (if (k =? 0)%nat then set else true) (rev vs ++ hist).
Proof.
  induction evs as [| e evs IH]; intros w k la set hist Hr Has Hw vs.
  - apply (f_equal length) in Has. rewrite rd_addrs_length in Has. cbn in Has. subst k. constructor.
  - cbn in Hr. apply andb_true_iff in Hr as [He Hr]. destruct e as [| x n i]; [done |].
    apply Bool.eqb_prop in He as ->.
    change (asked (BusRead x n inc :: evs)) with (rd_addrs inc x (Z.to_nat n) ++ asked evs) in Has.
    destruct (rd_addrs_split _ _ _ _ _ _ Has) as (Hnk & Heq & Hrest). cbn [answers answer1 write1].
    destruct (Z.leb_spec n 0).
    { replace (Z.to_nat n) with 0%nat in * by lia. cbn [app].
      rewrite wr_end_0, Nat.sub_0_r in Hrest by done. by apply IH. }
    assert (Hx0 : u32 x = w).
    { unfold rd_addrs in Heq. destruct (Z.to_nat n) eqn:E; [lia |]. cbn [seq map] in Heq.
      injection Heq as Heq _. rewrite (wr_end_0 inc w Hw) in Heq. unfold u32, wr_end in *.
      destruct inc; [by rewrite Z.add_0_r in Heq | subst x; by apply Z.mod_small]. }
    rewrite Hx0. clear Hx0 Heq Has. set (n' := Z.to_nat n) in *.
    assert (Hvs : vs = map (peek m) (rd_addrs inc w n') ++
                       map (peek m) (rd_addrs inc (wr_end inc w n') (k - n'))).
    { subst vs. rewrite <- map_app, <- rd_addrs_app. do 2 f_equal. lia. }
    rewrite Hvs, rev_app_distr, <- (app_assoc (rev _)).
    replace (k =? 0)%nat with false by (symmetry; apply Nat.eqb_neq; lia).
    eapply stream_app; [apply answer_stream; [done | lia] |].
    specialize (IH (wr_end inc w n') (k - n')%nat (u32 (4 * wr_end inc w n')) true
      (rev (map (peek m) (rd_addrs inc w n')) ++ hist) Hr Hrest (wr_end_range _ _ _ Hw)).
    rewrite wr_end_add in IH. replace (n' + (k - n'))%nat with k in IH by lia.
    revert IH. destruct (Nat.eqb_spec (k - n') 0); [| done].
    by replace (wr_end inc w k) with (wr_end inc w n') by (f_equal; lia).
Qed.

(** ** A board serves its memory *)

Section Serve.
Context {f0 : wbu} {m0 : Z -> Z}.
Implicit Types (s : TTYBUS (Board f0 m0)).

(** The receiver and the memory of the board a host is connected to. *)
Definition rx_of s : wbu := board_rx (f0 := f0) (ll_sent (m_dev s)).
Definition mem_of s : Z -> Z := board_mem (f0 := f0) (m0 := m0) (ll_sent (m_dev s)).

Lemma board_rx_app out bs : board_rx (f0 := f0) (out ++ bs) = (rxbytes (board_rx (f0 := f0) out) bs).1.
Proof.
  unfold board_rx. rewrite rxbytes_app. destruct (rxbytes f0 out) as [f1 e1]. cbn.
  by destruct (rxbytes f1 bs).
Qed.

Lemma board_mem_app out bs : board_mem (f0 := f0) (m0 := m0) (out ++ bs) =
  mem_after (board_mem (f0 := f0) (m0 := m0) out) (rxbytes (board_rx (f0 := f0) out) bs).2.
Proof.
  unfold board_mem, board_rx. rewrite rxbytes_app. destruct (rxbytes f0 out) as [f1 e1]. cbn.
  destruct (rxbytes f1 bs). cbn. apply mem_after_app.
Qed.

(** What the answer to a write of [bs] is, after [out]. *)
Lemma board_answer (c : LLCOMMSI (Board f0 m0)) s out bs :
  ll_sent c = ll_sent (m_dev s) ++ out ->
  let e1 := (rxbytes (rx_of s) out).2 in
  exists e2, (rxbytes (rx_of s) (out ++ bs)).2 = e1 ++ e2 /\
    incoming (os_write (m_fdw c) bs (ll_os c)).2 =
      ll_incoming c ++ answers (mem_after (mem_of s) e1) e2.
Proof.
  intros Hs e1. subst e1. unfold rx_of, mem_of.
  change (incoming (os_write _ bs (ll_os c)).2) with (ll_incoming c ++
    answers (board_mem (f0 := f0) (m0 := m0) (ll_sent c)) (rxbytes (board_rx (f0 := f0) (ll_sent c)) bs).2).
  rewrite Hs, board_mem_app, board_rx_app, rxbytes_app.
  destruct (rxbytes (board_rx (ll_sent (m_dev s))) out) as [f1 e1]. cbn [fst snd].
  destruct (rxbytes f1 bs) as [f2 e2]. by exists e2.
Qed.

Lemma board_mute s : mute (rx_of s) s.
Proof.
  intros c out bs Hs Hw. destruct (board_answer c s out bs Hs) as (e2 & He & Hin).
  rewrite He, forallb_app in Hw. apply andb_true_iff in Hw as [_ Hw].
  unfold no_answer. rewrite Hin. rewrite <- (app_nil_r (incoming (ll_os c))). f_equal.
  generalize (mem_after (mem_of s) (rxbytes (rx_of s) out).2). clear -Hw.
  induction e2 as [| [] e2 IH]; intros m; [done | | done]. cbn. by apply IH.
Qed.

Lemma board_serves inc a len s :
  pending s = [] -> 0 <= a < 2 ^ 32 -> a mod 4 = 0 ->
  let vs := map (peek (mem_of s)) (rd_addrs inc (a / 4) len) in
  serves inc a vs (rx_of s) s (fun n => rev (take n vs)).
Proof.
  intros Hp Ha Hal vs. assert (Hlen : length vs = len) by (subst vs; by rewrite length_map, rd_addrs_length).
  split; [done | by intros i x | by right |].
  intros c out bs n m Hs Hnm Has1 Has2 Hrd. rewrite Hlen in Hnm.
  destruct (board_answer c s out bs Hs) as (e2 & He & Hin).
  rewrite He in Has2, Hrd. rewrite forallb_app in Hrd. apply andb_true_iff in Hrd as [Hr1 Hr2].
  rewrite (reads_mem inc _ _ Hr1) in Hin. eexists. split; [exact Hin |].
  assert (Has : asked e2 = rd_addrs inc (wr_end inc (a / 4) n) (m - n)).
  { unfold asked in Has1, Has2. rewrite map_app, concat_app, Has1 in Has2.
    by apply rd_addrs_split in Has2 as (_ & _ & ?). }
  assert (Hw : 0 <= a / 4 < 2 ^ 32) by zlia.
  pose proof (answers_stream inc (mem_of s) e2 (wr_end inc (a / 4) n) (m - n)
    (if (n =? 0)%nat then m_lastaddr s else la_end inc a n)
    (if (n =? 0)%nat then m_addr_set s else true) (rev (take n vs)) Hr2 Has (wr_end_range _ _ _ Hw)) as Hst.
  cbv zeta in Hst.
  replace (m - n =? 0)%nat with false in Hst by (symmetry; apply Nat.eqb_neq; lia).
  rewrite wr_end_add in Hst. replace (n + (m - n))%nat with m in Hst by lia.
  assert (Hseg : map (peek (mem_of s)) (rd_addrs inc (wr_end inc (a / 4) n) (m - n)) = take (m - n) (drop n vs)).
  { subst vs. replace len with (n + ((m - n) + (len - m)))%nat by lia.
    rewrite !rd_addrs_app, !map_app, drop_app_length', take_app_length'; [done | |];
      by rewrite length_map, rd_addrs_length. }
  rewrite Hseg in Hst. rewrite <- rev_app_distr, take_take_drop in Hst.
  replace (n + (m - n))%nat with m in Hst by lia.
  replace (la_end inc a m) with (u32 (4 * wr_end inc (a / 4) m)); [exact Hst |].
  unfold la_end, wr_end, u32. destruct inc.
  - rewrite Zmult_mod_idemp_r. f_equal. zlia.
  - rewrite Z.mod_small; zlia.
Qed.

(** ** Memory round trip *)

(** The memory after writing consecutive words. *)
Lemma mem_after_other m w vs x : 0 <= w -> w + Z.of_nat (length vs) < 2 ^ 32 ->
  x < w \/ w + Z.of_nat (length vs) <= x -> mem_after m (wr_events true w vs) x = m x.
Proof.
  revert m w. induction vs as [| v vs IH]; intros m w Hw Hl Hx; [done |]. cbn [length] in *.
  cbn [wr_events wr_addr]. rewrite Z.mod_small by lia.
  unfold mem_after in *. cbn [foldl]. rewrite IH by lia. cbn.
  by rewrite (proj2 (Z.eqb_neq _ _)) by lia.
Qed.

Lemma mem_after_writes m w vs : 0 <= w -> w + Z.of_nat (length vs) < 2 ^ 32 -> words32 vs ->
  map (peek (mem_after m (wr_events true w vs))) (rd_addrs true w (length vs)) = vs.
Proof.
  intros Hw Hl Hvs. revert m w Hw Hl. induction Hvs as [| v vs Hv Hvs IH]; intros m w Hw Hl; [done |].
  cbn [length] in *. change (S (length vs)) with (1 + length vs)%nat.
  rewrite rd_addrs_app. change (wr_end true w 1) with ((w + 1) mod 2 ^ 32).
  change (rd_addrs true w 1) with [wr_end true w 0]. rewrite wr_end_0 by lia.
  cbn [app map wr_events wr_addr]. unfold mem_after in *. cbn [foldl].
  rewrite Z.mod_small by lia. f_equal.
  - unfold peek. fold (mem_after (write1 m (BusWrite w v)) (wr_events true (w + 1) vs)).
    rewrite mem_after_other by lia. cbn. rewrite Z.eqb_refl. by apply Z.mod_small.
  - apply IH; lia.
Qed.

(** Writing words and reading them back. *)
Lemma write_read a buf s :
  tty_wf s -> link s (rx_of s) -> pending s = [] -> 0 <= a -> a mod 4 = 0 ->
  a + 4 * Z.of_nat (length buf) < 2 ^ 32 -> words32 buf -> buf <> [] ->
  exists s1 s2,
    writei a (Z.of_nat (length buf)) buf s = Ret tt s1 /\
    readi a (Z.of_nat (length buf)) s1 = Ret buf s2.
Proof.
  intros Hwf Hlk Hp Ha Hal Hend Hbuf Hne.
  pose proof (writev_wp true a buf s (rx_of s) Hwf Hlk ltac:(lia) Hbuf Hne ltac:(lia)) as Hw.
  unfold wp in Hw. change (of_bool true) with 1 in Hw. unfold writei.
  destruct (writev a 1 _ buf s) as [[] s1 | e s1].
  2: { exfalso. destruct Hw as [_ [(_ & Hbad & _) | [_ Hbad]]]; [done |].
       apply Hbad. split; [apply board_mute | done]. }
  destruct Hw as [_ (out & f' & Hs & _ & Hrx & Hpd & Haddr & Hh & Hwf1 & Hset & _ & Hq)].
  destruct (Hq (board_mute s) Hp) as [Hp1 Hla].
  unfold rx_of in Hrx.
  assert (Hf' : rx_of s1 = f') by (unfold rx_of; by rewrite Hs, board_rx_app, Hrx).
  assert (Hm : mem_of s1 = mem_after (mem_of s) (wr_events true (a / 4) buf))
    by (unfold mem_of; by rewrite Hs, board_mem_app, Hrx).
  assert (Hlk1 : link s1 (rx_of s1)).
  { rewrite Hf'. split; [done | | done]. intros _. rewrite Hla, Haddr. unfold la_end, wr_end, u32.
    rewrite !Z.mod_small by zlia. zlia. }
  pose proof (board_serves true a (length buf) s1 Hp1 ltac:(lia) Hal) as Hsv. cbv zeta in Hsv.
  rewrite Hm, mem_after_writes in Hsv by (done || zlia).
  pose proof (readv_values true a buf s1 (rx_of s1) _ Hwf1 Hlk1 ltac:(lia) Hal Hne (or_introl eq_refl) Hsv) as Hr.
  unfold wp in Hr. change (of_bool true) with 1 in Hr. unfold readi.
  destruct (readv a 1 _ s1) as [vs s2 | e s2] eqn:Er; [| done]. destruct Hr as [-> _]. by exists s1, s2.
Qed.
End Serve.
