(* ===== verification/TtyProps.v ===== *)
(** The properties of [TTYBUS].

    Each theorem is about the methods of src/sw/host/ttybus.cpp, over any
    operating system that obeys [OsLaws], and against the receiver of
    [WbuSpec].  The states of the examples are [demo], a fresh object on two
    byte queues, and [board], a fresh object on a board with a memory. *)

From stdpp Require Import base tactics list numbers option.
From Stdlib Require Import ZArith Lia.
From S2P Require Import Prelude LLComms TtyBus WbuSpec TtyBase TtyRecv TtySend TtyWord TtyRead Board.
Local Open Scope Z_scope.

(** A fresh object, with [rx] waiting to be read, at most three bytes at a time. *)
Definition demo (rx : list Z) : TTYBUS Fifo :=
  init (LLCOMMSI_init (mkFifo rx [] 2)) 0 (replicate 1024 0) (replicate 512 0).
Definition idle : wbu := mkWbu [] false [] 0.
Definition board : TTYBUS (Board idle (fun _ => 0)) :=
  init (LLCOMMSI_init (mkBoard [] [] 2)) 0 (replicate 1024 0) (replicate 512 0).

Lemma demo_wf rx : tty_wf (demo rx).
Proof. by apply init_wf. Qed.
Lemma demo_link rx : link (demo rx) idle.
Proof. by apply init_link. Qed.
Lemma board_wf : tty_wf board.
Proof. by apply init_wf. Qed.
Lemma board_link : link board (rx_of board).
Proof. by apply init_link. Qed.

(** The invariant and the states in which a call may begin. *)
Lemma words32_check vs : forallb (fun v => (0 <=? v) && (v <? 2 ^ 32)) vs = true -> words32 vs.
Proof.
  induction vs as [| v vs IH]; intros H; constructor; cbn in H; bools; [lia | by apply IH].
Qed.

(** ** Whole commands *)



(** C2: A write command that returns has sent bytes that the FPGA's receiver
    takes for exactly the bus writes of the buffer, at consecutive addresses or
    all at one, whatever the compression chose, and the invariant holds after
    it; when it does not return, the address was unaligned and nothing was
    sent, or the FPGA had answered something. *)
Theorem writev_sends_writes {W} {HOs : Os W} {HLaws : OsLaws W} inc a buf (s : TTYBUS W) f :
  tty_wf s -> link s f -> 0 <= a < 2 ^ 32 -> words32 buf -> buf <> [] ->
  Z.of_nat (length buf) < 2 ^ 31 ->
  wp (writev a (of_bool inc) (Z.of_nat (length buf)) buf)
    (fun _ s' => a mod 4 = 0 /\ writev_done inc a buf s f s') (wr_fail a s f) s.
Proof. apply writev_wp. Qed.

Lemma writev_sends_writes_witness :
  wp (writev 0x2000 0 2 [1; 2]) (fun _ s' => 0x2000 mod 4 = 0 /\
    writev_done false 0x2000 [1; 2] (demo []) idle s') (wr_fail 0x2000 (demo []) idle) (demo []).
Proof.
  apply (writev_sends_writes false 0x2000 [1; 2] (demo []) idle);
    [apply demo_wf | apply demo_link | lia | by apply words32_check | done | cbn; lia].
Defined.

(** A write to a silent FPGA returns, with seven bits characters that are the bus
    writes, and host and FPGA agree on the address after it. *)
Lemma writev_silent {V} {HOs : Os V} {HLaws : OsLaws V} inc a buf (s : TTYBUS V) f :
  tty_wf s -> link s f -> mute f s -> pending s = [] -> 0 <= a -> a mod 4 = 0 ->
  a + 4 * Z.of_nat (length buf) < 2 ^ 32 -> words32 buf -> buf <> [] ->
  exists s' out, writev a (of_bool inc) (Z.of_nat (length buf)) buf s = Ret tt s' /\
    ll_sent (m_dev s') = ll_sent (m_dev s) ++ out /\ ascii out /\ tty_wf s' /\
    link s' (rxbytes f out).1 /\ (rxbytes f out).2 = wr_events inc (a / 4) buf /\ pending s' = [].
Proof.
  intros Hwf Hlk Hmu Hp Ha Hal Hend Hbuf Hne.
  pose proof (writev_wp inc a buf s f Hwf Hlk ltac:(lia) Hbuf Hne ltac:(lia)) as Hw. unfold wp in Hw.
  destruct (writev a _ _ buf s) as [[] s1 | e s1].
  2: { exfalso. destruct Hw as [_ [(_ & Hbad & _) | [_ Hbad]]]; [done |]. by apply Hbad. }
  destruct Hw as [_ (out & f' & Hs & Hasc & Hrx & Hpd & Haddr & Hh & Hwf1 & Hset & _ & Hq)].
  destruct (Hq Hmu Hp) as [Hp1 Hla]. exists s1, out. rewrite Hrx. split_and!; try done. split; [done | | done].
  intros _. cbn. rewrite Hla, Haddr. unfold la_end, wr_end, u32.
  destruct inc; rewrite ?Z.mod_small by zlia; zlia.
Qed.

(** A write of a buffer to an aligned address returns, when the FPGA is
    silent, and then host and FPGA agree on the address again: the next command
    starts from a state that [link] relates. *)
Theorem writei_keeps_link {W} {HOs : Os W} {HLaws : OsLaws W} a buf (s : TTYBUS W) f :
  tty_wf s -> link s f -> mute f s -> pending s = [] -> 0 <= a -> a mod 4 = 0 ->
  a + 4 * Z.of_nat (length buf) < 2 ^ 32 -> words32 buf -> buf <> [] ->
  exists s' out, writei a (Z.of_nat (length buf)) buf s = Ret tt s' /\
    ll_sent (m_dev s') = ll_sent (m_dev s) ++ out /\ tty_wf s' /\ link s' (rxbytes f out).1.
Proof.
  intros. destruct (writev_silent true a buf s f) as (s' & out & Hw & Hs & _ & Hwf' & Hlk' & _); [done .. |].
  by exists s', out.
Qed.

Lemma writei_keeps_link_witness : exists s' out, writei 0x40 2 [5; 5] (demo []) = Ret tt s' /\
  ll_sent (m_dev s') = ll_sent (m_dev (demo [])) ++ out /\ tty_wf s' /\ link s' (rxbytes idle out).1.
Proof.
  apply (writei_keeps_link 0x40 [5; 5] (demo []) idle);
    [apply demo_wf | apply demo_link | intros c out bs _ _; reflexivity | reflexivity | lia | reflexivity |
     cbn; lia | by apply words32_check | done].
Defined.

(** A read command asks for the right words, whatever the FPGA answers: when
    it returns, the bytes sent are read requests for exactly the addresses of
    the range, as many words are returned, and host and FPGA agree on the
    address; otherwise the error is one of those of [rd_fail], and never an
    access outside of the buffer. *)
Theorem readv_asks {W} {HOs : Os W} {HLaws : OsLaws W} inc a len (s : TTYBUS W) f :
  tty_wf s -> link s f -> 0 <= a -> 0 < len -> a + 4 * len < 2 ^ 32 -> inc = true \/ len mod 512 <> 8 ->
  wp (readv a (of_bool inc) len)
    (fun vs s' => readv_done inc a len s f vs s' /\
       exists out f', ll_sent (m_dev s') = ll_sent (m_dev s) ++ out /\ (rxbytes f out).1 = f' /\ link s' f')
    (rd_fail inc a len s) s.
Proof.
  intros Hwf Hlk Ha Hlen Hend H8. eapply wp_mono; [apply readv_wp; (done || lia) | | done].
  intros vs s' [Hal Hd]. split; [done |]. by eapply readv_done_link.
Qed.

Lemma readv_asks_witness :
  wp (readv 0x100 1 9)
    (fun vs s' => readv_done true 0x100 9 (demo []) idle vs s' /\
       exists out f', ll_sent (m_dev s') = ll_sent (m_dev (demo [])) ++ out /\ (rxbytes idle out).1 = f' /\ link s' f')
    (rd_fail true 0x100 9 (demo [])) (demo []).
Proof.
  apply (readv_asks true 0x100 9 (demo []) idle);
    [apply demo_wf | apply demo_link | lia | lia | lia | by left].
Defined.

(** C3: Against an FPGA that answers read requests with any encoding of the
    words it is asked for, in full or as references to earlier words, after any
    status characters and addresses, a read returns those words. *)
Theorem readv_returns_words {W} {HOs : Os W} {HLaws : OsLaws W} inc a vs (s : TTYBUS W) f H :
  tty_wf s -> link s f -> 0 <= a < 2 ^ 32 -> a mod 4 = 0 -> vs <> [] ->
  inc = true \/ Z.of_nat (length vs) mod 512 <> 8 -> serves inc a vs f s H ->
  exists s', readv a (of_bool inc) (Z.of_nat (length vs)) s = Ret vs s' /\
    m_lastaddr s' = la_end inc a (length vs).
Proof.
  intros Hwf Hlk Ha Hal Hne H8 Hsv. pose proof (readv_values inc a vs s f H Hwf Hlk Ha Hal Hne H8 Hsv) as Hr.
  unfold wp in Hr. destruct (readv _ _ _ s) as [r s' |]; [| done]. destruct Hr as [-> Hla]. by exists s'.
Qed.

Lemma readv_returns_words_witness :
  exists s', readv 0x80 0 3 board = Ret [0; 0; 0] s' /\ m_lastaddr s' = 0x80.
Proof.
  apply (readv_returns_words false 0x80 [0; 0; 0] board (rx_of board) (fun n => rev (take n [0; 0; 0])));
    [apply board_wf | apply board_link | lia | reflexivity | done | by right |].
  exact (board_serves false 0x80 3 board eq_refl ltac:(lia) eq_refl).
Defined.

(** A single word: [readio] returns the word at the address. *)
Theorem readio_returns_word {W} {HOs : Os W} {HLaws : OsLaws W} a v (s : TTYBUS W) f H :
  tty_wf s -> link s f -> 0 <= a < 2 ^ 32 -> a mod 4 = 0 -> serves false a [v] f s H ->
  exists s', readio a s = Ret v s' /\ m_lastaddr s' = a.
Proof.
  intros Hwf Hlk Ha Hal Hsv.
  pose proof (readv_values false a [v] s f H Hwf Hlk Ha Hal ltac:(done) ltac:(by right) Hsv) as Hr.
  unfold wp in Hr. change (of_bool false) with 0 in Hr. change (Z.of_nat (length [v])) with 1 in Hr.
  unfold readio, bind, rethrow_buserr. destruct (readv a 0 1 s) as [r s' |]; [| done].
  destruct Hr as [-> Hla]. cbn in Hla. unfold get. rewrite Hla, Z.eqb_refl. by exists s'.
Qed.

Lemma readio_returns_word_witness : exists s', readio 0x80 board = Ret 0 s' /\ m_lastaddr s' = 0x80.
Proof.
  apply (readio_returns_word 0x80 0 board (rx_of board) (fun n => rev (take n [0])));
    [apply board_wf | apply board_link | lia | reflexivity |].
  exact (board_serves false 0x80 1 board eq_refl ltac:(lia) eq_refl).
Defined.

(** ** Receiving *)

(** [readword] decodes: with any mixture of line breaks, status characters
    and addresses before it, a data word in any of its encodings is returned,
    exactly its characters are consumed, the table of earlier words is kept in
    step and the address moves on. *)
Theorem readword_decodes {W} {HOs : Os W} {HLaws : OsLaws W} (s : TTYBUS W) bs la set hist inc v ds hist' rest :
  tty_wf s -> chatter (m_lastaddr s) (m_addr_set s) bs la set ->
  rsp hist inc v ds hist' -> 0 <= v < 2 ^ 32 -> rd_ok s hist ->
  pending s = bs ++ (enc <$> ds) ++ rest ->
  exists s', readword s = Ret v s' /\ pending s' = rest /\ tty_wf s' /\ rd_ok s' hist' /\
    m_addr_set s' = set /\ m_lastaddr s' = u32 (la + (if inc then 4 else 0)).
Proof.
  intros Hwf Hch Hrsp Hv Hok Hp.
  pose proof (readword_wp s bs la set hist inc v ds hist' rest Hwf Hch Hrsp Hv Hok Hp) as Hr.
  unfold wp in Hr. destruct (readword s) as [r s' |]; [| done].
  destruct Hr as (-> & Hp' & Hk & Hok' & Hset & Hla). exists s'. split_and!; try done. by apply Hk.
Qed.

(** The word 10 in full after a line break and the address 4. *)
Lemma readword_decodes_witness :
  let s := demo ([10] ++ (enc <$> [0x0c; 1]) ++ (enc <$> [0x39; 0; 0; 0; 0; 10]) ++ [10]) in
  exists s', readword s = Ret 10 s' /\ pending s' = [10] /\ tty_wf s' /\ rd_ok s' [10] /\
    m_addr_set s' = true /\ m_lastaddr s' = 8.
Proof.
  intros s. apply (readword_decodes s ([10] ++ (enc <$> [0x0c; 1])) 4 true [] true 10
    [0x39; 0; 0; 0; 0; 10] [10] [10]).
  - apply demo_wf.
  - apply chat_noise; [reflexivity |]. apply (chat_caddr _ _ [1] []); [repeat constructor; lia | cbn; lia |].
    apply chat_nil.
  - exact (rsp_full [] true 10).
  - lia.
  - by intros i x.
  - reflexivity.
Defined.

(** C35: Whatever bytes are pending, [readword] ends: it returns having consumed
    some of them, or throws a bus error with the flag set, or finds nothing
    more to read; the invariant holds, nothing is sent and the encoder's state
    is untouched.  It never leaves the buffer and never loops. *)
Theorem readword_total {W} {HOs : Os W} {HLaws : OsLaws W} (s : TTYBUS W) : tty_wf s ->
  wp readword (fun _ s' => rx_less s s') (rx_error s) s.
Proof. apply readword_frame. Qed.

Lemma readword_total_witness :
  wp readword (fun _ s' => rx_less (demo [48; 200; 37]) s') (rx_error (demo [48; 200; 37])) (demo [48; 200; 37]).
Proof. apply (readword_total (demo [48; 200; 37])). apply demo_wf. Defined.

(** The same of [readidle], which may also find nothing to read and return. *)
Theorem readidle_total {W} {HOs : Os W} {HLaws : OsLaws W} (s : TTYBUS W) : tty_wf s ->
  wp readidle (fun _ s' => rx_frame s s') (fun e s' => rx_error s e s' /\ pending s <> []) s.
Proof. apply readidle_frame. Qed.

Lemma readidle_total_witness :
  wp readidle (fun _ s' => rx_frame (demo [48; 49]) s')
    (fun e s' => rx_error (demo [48; 49]) e s' /\ pending (demo [48; 49]) <> []) (demo [48; 49]).
Proof. apply (readidle_total (demo [48; 49])). apply demo_wf. Defined.

(** ** The codes *)

Definition code_agrees (c : Z) : bool :=
  match tohex c with
  | Some h => negb (notcode c) && (chardec c =? h) && match charenc h with Some c' => c' =? c | None => false end
  | None => notcode c
  end.

(** The character code.  Six bits are encoded as a character that both the
    host's [chardec] and the FPGA's [wbutohex] decode to them; and on all 256
    bytes host and FPGA agree which are code characters and for what. *)
Theorem character_code_roundtrip :
  (forall v, 0 <= v < 64 ->
     exists c, charenc v = Some c /\ chardec c = v /\ notcode c = false /\ tohex c = Some v) /\
  (forall c, 0 <= c < 256 -> tohex c = if notcode c then None else Some (chardec c)).
Proof.
  split.
  - intros v Hv. destruct (enc_spec v Hv) as (H1 & H2 & H3 & H4 & _). by exists (enc v).
  - intros c Hc. assert (H : code_agrees c = true) by (by_range c 0 256%nat).
    unfold code_agrees in H. destruct (tohex c) as [h |].
    + rewrite !andb_true_iff, negb_true_iff in H. destruct H as [[-> Hd%Z.eqb_eq] _]. by rewrite Hd.
    + by rewrite H.
Qed.

(** [encode_address] appends to an empty buffer at most six characters that
    take the FPGA's address register from where the host believes it to be to
    the address asked for, and throws [BUSERR] exactly on unaligned addresses. *)
Theorem encode_address_reaches {W} {HOs : Os W} {HLaws : OsLaws W} a (s : TTYBUS W) f :
  tty_wf s -> link s f -> 0 <= a < 2 ^ 32 ->
  wp (encode_address a)
    (fun n s' => a mod 4 = 0 /\ (n <= 6)%nat /\ m_dev s' = m_dev s /\ tty_wf s' /\
       exists f', rxbytes f (take n (m_buf s')) = (f', []) /\ w_pend f' = [] /\ w_addr f' = a / 4 /\
         w_hist f' = w_hist f)
    (fun e s' => e = BUSERR a /\ a mod 4 <> 0 /\ s' = s) s.
Proof.
  intros Hwf Hlk Ha. apply encode_address_wp; [done | done | done |].
  intros Hal b r vs Hbl Htk Hr _.
  destruct (addr_codes_rx s f a Hwf Hlk Ha Hal) as (f' & Hrx & Hp & Hh & Haddr).
  split_and!; try done; [apply addr_codes_len | destruct Hwf; split; cbn; rewrite ?Hbl; done |].
  exists f'. cbn. by rewrite Htk.
Qed.

Lemma encode_address_reaches_witness :
  wp (encode_address 0x7654)
    (fun n s' => 0x7654 mod 4 = 0 /\ (n <= 6)%nat /\ m_dev s' = m_dev (demo []) /\ tty_wf s' /\
       exists f', rxbytes idle (take n (m_buf s')) = (f', []) /\ w_pend f' = [] /\ w_addr f' = 0x7654 / 4 /\
         w_hist f' = w_hist idle)
    (fun e s' => e = BUSERR 0x7654 /\ 0x7654 mod 4 <> 0 /\ s' = demo []) (demo []).
Proof.
  apply (encode_address_reaches 0x7654 (demo []) idle); [apply demo_wf | apply demo_link | lia].
Defined.

(** The compression of [writev]: a distance that the search returns is one
    that the FPGA can look up, and it leads to the word to be written. *)
Theorem caddr_search_sound {W} (s : TTYBUS W) f val :
  link s f -> 0 <= m_wraddr s < 256 ->
  let d := caddr_search (m_wrloaded s) (m_wraddr s) (m_writetbl s) val 255 1 in
  d = 0 \/ 1 <= d <= 255 /\ w_hist f !! Z.to_nat (d - 1) = Some val.
Proof.
  intros Hlk Hw d. destruct (caddr_search_spec (m_wrloaded s) (m_wraddr s) (m_writetbl s) val 255 1)
    as [H0 | (Hd & Hav & Hv)]; [lia | lia | lia | by left |].
  right. split; [subst d; lia |]. subst d. rewrite (lk_hist _ _ Hlk) by (done || lia). by rewrite Hv.
Qed.

Lemma caddr_search_sound_witness :
  let d := caddr_search false 0 (replicate 512 0) 0 255 1 in
  d = 0 \/ 1 <= d <= 255 /\ w_hist idle !! Z.to_nat (d - 1) = Some 0.
Proof. apply (caddr_search_sound (demo []) idle 0); [apply demo_link | cbn; lia]. Defined.

(** [usleep] consumes at most sixteen pending bytes, never fails, and sets
    the interrupt flag exactly when one of them is the interrupt character. *)
Theorem usleep_sees_interrupt {W} {HOs : Os W} {HLaws : OsLaws W} ms (s : TTYBUS W) : tty_wf s ->
  wp (usleep ms) (fun _ s' => tty_wf s' /\ exists pre, pending s = pre ++ pending s' /\
      (length pre <= 16)%nat /\
      m_interrupt_flag s' = m_interrupt_flag s || existsb (Z.eqb TTYC_INT) pre)
    (fun _ _ => False) s.
Proof. apply usleep_wp. Qed.

Lemma usleep_sees_interrupt_witness :
  let s := demo [48; 52; 10] in
  wp (usleep 5) (fun _ s' => tty_wf s' /\ exists pre, pending s = pre ++ pending s' /\
      (length pre <= 16)%nat /\
      m_interrupt_flag s' = m_interrupt_flag s || existsb (Z.eqb TTYC_INT) pre) (fun _ _ => False) s.
Proof. intros s. apply (usleep_sees_interrupt 5 s). apply demo_wf. Defined.

(** ** Where the code falls short *)

Lemma code_range b : notcode b = false -> 0 <= b < 128.
Proof.
  unfold notcode, chardec. repeat case_match; bools; try lia. done.
Qed.

Definition lone_status_fails (b : Z) : bool :=
  match readidle (demo [b]) with Exn COMMFAIL _ => true | _ => notcode b end.

(** A single status character pending when [readidle] starts is read by the
    loop's condition; its body then waits for another one and throws. *)
Theorem readidle_lone_status b : notcode b = false ->
  exists s', readidle (demo [b]) = Exn COMMFAIL s'.
Proof.
  intros Hb. pose proof (code_range b Hb) as Hr.
  assert (H : lone_status_fails b = true) by (clear Hb; by_range b 0 128%nat).
  unfold lone_status_fails in H. rewrite Hb in H. destruct (readidle (demo [b])) as [| [] s']; try done. by exists s'.
Qed.

Lemma readidle_lone_status_witness : exists s', readidle (demo [50]) = Exn COMMFAIL s'.
Proof. apply (readidle_lone_status 50). reflexivity. Defined.

(** The command to read eight words from one address is the FPGA's end of a
    write: no word is read, where the incrementing command reads eight. *)
Theorem readcmd_eight_words f : w_pend f = [] ->
  (rxbytes f (enc <$> rd_codes false 8)).2 = [] /\
  (rxbytes f (enc <$> rd_codes true 8)).2 = [BusRead (w_addr f) 8 true].
Proof.
  intros Hp. split; rewrite rx_code by (done || by apply rd_codes_six); reflexivity.
Qed.

Lemma readcmd_eight_words_witness :
  (rxbytes idle (enc <$> rd_codes false 8)).2 = [] /\
  (rxbytes idle (enc <$> rd_codes true 8)).2 = [BusRead 0 8 true].
Proof. apply (readcmd_eight_words idle). reflexivity. Defined.

Definition nothing_sent (a : Z) : bool :=
  match writev a 1 0 [] (demo []) with
  | Ret _ s' => bool_decide (ll_sent (m_dev s') = []) && m_addr_set s' && (m_lastaddr s' =? a)
  | Exn _ _ => negb (a mod 4 =? 0)
  end.

(** A write of no words sends nothing, yet leaves the host believing that
    the FPGA is at the address. *)
Theorem writev_nothing a : 0 <= a < 0x100 -> a mod 4 = 0 ->
  exists s', writev a 1 0 [] (demo []) = Ret tt s' /\ ll_sent (m_dev s') = [] /\
    m_addr_set s' = true /\ m_lastaddr s' = a.
Proof.
  intros Ha Hal.
  assert (H : nothing_sent a = true) by (clear Hal; by_range a 0 256%nat). unfold nothing_sent in H.
  destruct (writev a 1 0 [] (demo [])) as [[] s' | e s'].
  - rewrite !andb_true_iff, bool_decide_eq_true, Z.eqb_eq in H. exists s'. tauto.
  - by rewrite Hal in H.
Qed.

Lemma writev_nothing_witness :
  exists s', writev 0x40 1 0 [] (demo []) = Ret tt s' /\ ll_sent (m_dev s') = [] /\
    m_addr_set s' = true /\ m_lastaddr s' = 0x40.
Proof. apply (writev_nothing 0x40); [lia | reflexivity]. Defined.

(** The filter of [lclreadcode] copies the wrong way: a code character that
    follows another character is counted, but lost. *)
Theorem lclfilter_loses b c : notcode b = true -> notcode c = false ->
  lclfilter 2 0 0 2 [b; c] = (1, [b; b]).
Proof.
  intros Hb Hc. cbn [lclfilter]. change ([b; c] !!! 0%nat) with b. rewrite Hb.
  change ([b; c] !!! 1%nat) with c. by rewrite Hc.
Qed.

Lemma lclfilter_loses_witness : lclfilter 2 0 0 2 [10; 65] = (1, [10; 10]).
Proof. apply (lclfilter_loses 10 65); reflexivity. Defined.
