(* ===== verification/Words.v ===== *)
(** Words and bits: byte order (src/sw/host/byteswap.cpp and its copy
    src/sim/verilated/byteswap.cpp) and two's complement fields
    (src/sw/host/twoc.cpp).

    A [uint32_t] is an integer below 2^32, a [long] one of 64 bits in two's
    complement, a byte string a list of integers below 256. *)

From stdpp Require Import base tactics list numbers option.
From Stdlib Require Import ZArith Lia.
From S2P Require Import Prelude.
Local Open Scope Z_scope.

(** ** Byte order *)

Definition byteswap (v : Z) : Z :=
  let r := v .& 0x0ff in
  let r := u32 (r .<< 8) in let v := v .>> 8 in
  let r := r .| (v .& 0x0ff) in
  let r := u32 (r .<< 8) in let v := v .>> 8 in
  let r := r .| (v .& 0x0ff) in
  let r := u32 (r .<< 8) in let v := v .>> 8 in
  r .| (v .& 0x0ff).

(** [for(int i=0; i<ln; i++) buf[i] = byteswap(buf[i]);] *)
Fixpoint byteswapbuf_from (n i : nat) (buf : list Z) : option (list Z) :=
  match n with
  | O => Some buf
  | S n' =>
      match buf !! i with
      | Some v => byteswapbuf_from n' (S i) (<[i := byteswap v]> buf)
      | None => None
      end
  end.
Definition byteswapbuf (ln : Z) (buf : list Z) : option (list Z) :=
  byteswapbuf_from (Z.to_nat ln) 0 buf.

(** The host's copy, with LITTLEENDIAN_CPU defined (src/sw/host/regdefs.h). *)
Definition buildword (p0 p1 p2 p3 : Z) : Z :=
  let r := p0 in
  let r := r .| u32 (p1 .<< 8) in
  let r := r .| u32 (p2 .<< 16) in
  r .| u32 (p3 .<< 24).

Definition buildswap (p0 p1 p2 p3 : Z) : Z :=
  let r := p3 in let r := u32 (r .<< 8) in
  let r := r .| p2 in let r := u32 (r .<< 8) in
  let r := r .| p1 in let r := u32 (r .<< 8) in
  r .| p0.

(** The simulation's copy: big endian. *)
Definition sim_byteswap (v : Z) : Z :=
  let r := v .& 0x0ff in
  let r := u32 (r .<< 8) in let v := v .>> 8 in
  let r := r .| (v .& 0x0ff) in
  let r := u32 (r .<< 8) in let v := v .>> 8 in
  let r := r .| (v .& 0x0ff) in
  let r := u32 (r .<< 8) in let v := v .>> 8 in
  r .| (v .& 0x0ff).
Definition sim_buildword (p0 p1 p2 p3 : Z) : Z :=
  let r := p0 in let r := u32 (r .<< 8) in
  let r := r .| p1 in let r := u32 (r .<< 8) in
  let r := r .| p2 in let r := u32 (r .<< 8) in
  r .| p3.
Definition sim_buildswap (p0 p1 p2 p3 : Z) : Z :=
  let r := p3 in let r := u32 (r .<< 8) in
  let r := r .| p2 in let r := u32 (r .<< 8) in
  let r := r .| p1 in let r := u32 (r .<< 8) in
  r .| p0.

(** ** Two's complement *)

Definition sbits (val bits : Z) : Z :=
  let r := val .& ((1 .<< bits) - 1) in
  if truthy (r .& (1 .<< (bits - 1))) then r .| ((-1) .<< bits) else r.

Definition sfits (val bits : Z) : bool := sbits val bits =? bits.

Definition ubits (val bits : Z) : Z := u64 (val .& ((1 .<< bits) - 1)).

Definition rndbits (val bits_in bits_out : Z) : Z :=
  let s := sbits val bits_in in
  u64 (if bits_in =? bits_out then s
       else if bits_in - 1 =? bits_out then
         let t := sbits (val .>> 1) bits_out in
         if 3 =? s .& 3 then t + 1 else t
       else
         let t := sbits (val .>> (bits_in - bits_out)) bits_out in
         if 0 =? (s .>> (bits_in - bits_out - 1)) .& 1 then t
         else if negb (0 =? s .& ((1 .<< (bits_in - bits_out - 1)) - 1)) then t + 1
         else if truthy (t .& 1) then t + 1
         else t).

(** ** Lemmas on bytes *)

Abbreviation byte b := (0 <= b < 256).

(** The word of four bytes, the least significant one first. *)
Definition le32 (b0 b1 b2 b3 : Z) : Z := b0 + 256 * b1 + 65536 * b2 + 16777216 * b3.

Lemma le32_bytes v : 0 <= v < 2 ^ 32 ->
  exists b0 b1 b2 b3, byte b0 /\ byte b1 /\ byte b2 /\ byte b3 /\ v = le32 b0 b1 b2 b3.
Proof.
  intros Hv. exists (v mod 256), (v / 256 mod 256), (v / 65536 mod 256), (v / 16777216).
  unfold le32. zlia.
Qed.

Lemma le32_inj b0 b1 b2 b3 c0 c1 c2 c3 :
  byte b0 -> byte b1 -> byte b2 -> byte b3 -> byte c0 -> byte c1 -> byte c2 -> byte c3 ->
  le32 b0 b1 b2 b3 = le32 c0 c1 c2 c3 -> b0 = c0 /\ b1 = c1 /\ b2 = c2 /\ b3 = c3.
Proof. unfold le32. lia. Qed.

(** One step of the shift-in loops: eight more bits. *)
Lemma shift_in8 r b : 0 <= r < 2 ^ 24 -> byte b -> u32 (r .<< 8) .| b = r * 256 + b.
Proof.
  intros Hr Hb. unfold u32. rewrite Z.mod_small by (rewrite shiftl_mul by lia; lia).
  rewrite lor_shiftl_add; lia.
Qed.

Lemma shift_in32 a b c d : byte a -> byte b -> byte c -> byte d ->
  u32 ((u32 ((u32 (a .<< 8) .| b) .<< 8) .| c) .<< 8) .| d = le32 d c b a.
Proof.
  intros. rewrite (shift_in8 a b), (shift_in8 _ c), (shift_in8 _ d) by lia. unfold le32. lia.
Qed.

Lemma byteswap_le32 b0 b1 b2 b3 : byte b0 -> byte b1 -> byte b2 -> byte b3 ->
  byteswap (le32 b0 b1 b2 b3) = le32 b3 b2 b1 b0.
Proof.
  intros H0 H1 H2 H3. unfold byteswap. set (v := le32 b0 b1 b2 b3).
  assert (E0 : v .& 0x0ff = b0) by (rewrite land_255; unfold v, le32; zlia).
  assert (E1 : (v .>> 8) .& 0x0ff = b1) by (rewrite land_255, shiftr_div by lia; unfold v, le32; zlia).
  assert (E2 : (v .>> 8 .>> 8) .& 0x0ff = b2)
    by (rewrite land_255, !shiftr_div by lia; unfold v, le32; zlia).
  assert (E3 : (v .>> 8 .>> 8 .>> 8) .& 0x0ff = b3)
    by (rewrite land_255, !shiftr_div by lia; unfold v, le32; zlia).
  rewrite E0, E1, E2, E3. by apply shift_in32.
Qed.

Lemma byteswap_involutive v : 0 <= v < 2 ^ 32 -> byteswap (byteswap v) = v.
Proof.
  intros Hv. destruct (le32_bytes v Hv) as (b0 & b1 & b2 & b3 & H0 & H1 & H2 & H3 & ->).
  by rewrite !byteswap_le32.
Qed.

Lemma byteswap_twice l : Forall (fun v => 0 <= v < 2 ^ 32) l -> map (fun v => byteswap (byteswap v)) l = l.
Proof. induction 1 as [| v l Hv _ IH]; cbn; [done |]. by rewrite byteswap_involutive, IH. Qed.

Lemma buildswap_le32 b0 b1 b2 b3 : byte b0 -> byte b1 -> byte b2 -> byte b3 ->
  buildswap b0 b1 b2 b3 = le32 b0 b1 b2 b3.
Proof. intros. by apply shift_in32. Qed.

Lemma sim_buildword_le32 b0 b1 b2 b3 : byte b0 -> byte b1 -> byte b2 -> byte b3 ->
  sim_buildword b0 b1 b2 b3 = le32 b3 b2 b1 b0.
Proof. intros. by apply shift_in32. Qed.

Lemma lor_add_high lo hi k : 0 <= k -> 0 <= lo < 2 ^ k -> lo .| (hi .<< k) = hi * 2 ^ k + lo.
Proof. intros Hk Hlo. rewrite Z.lor_comm. by apply lor_shiftl_add. Qed.

Lemma buildword_le32 b0 b1 b2 b3 : byte b0 -> byte b1 -> byte b2 -> byte b3 ->
  buildword b0 b1 b2 b3 = le32 b0 b1 b2 b3.
Proof.
  intros. unfold buildword, u32.
  rewrite !(Z.mod_small (_ .<< _)) by (rewrite shiftl_mul by lia; lia).
  rewrite (lor_add_high b0 b1 8), (lor_add_high _ b2 16), (lor_add_high _ b3 24) by lia. unfold le32. lia.
Qed.

(** The buffer is swapped word by word. *)
Lemma byteswapbuf_from_spec n i buf : (i + n <= length buf)%nat ->
  byteswapbuf_from n i buf =
    Some (take i buf ++ map byteswap (take n (drop i buf)) ++ drop (i + n) buf).
Proof.
  revert i buf. induction n as [| n IH]; intros i buf Hl; cbn [byteswapbuf_from].
  - rewrite Nat.add_0_r, take_0. cbn [map app]. by rewrite take_drop.
  - assert (Hi : is_Some (buf !! i)) by (apply lookup_lt_is_Some; lia). destruct Hi as [v Hv].
    rewrite Hv, IH by (rewrite length_insert; lia).
    f_equal. erewrite take_S_r by (apply list_lookup_insert_eq; lia).
    rewrite take_insert_ge, !drop_insert_lt by lia. rewrite (drop_S _ _ _ Hv). cbn [take map].
    rewrite <- app_assoc. cbn [app]. by rewrite Nat.add_succ_r.
Qed.

(** ** Lemmas on two's complement *)

Lemma ones_shift bits : 0 <= bits -> (1 .<< bits) - 1 = 2 ^ bits - 1.
Proof. intros. rewrite shiftl_mul; lia. Qed.

(** The value of [sbits]. *)
Lemma sbits_val val bits : 1 <= bits ->
  sbits val bits = let r := val mod 2 ^ bits in if r <? 2 ^ (bits - 1) then r else r - 2 ^ bits.
Proof.
  intros Hb. unfold sbits. rewrite ones_shift, land_ones_mod by lia.
  assert (H2 : 2 ^ bits = 2 * 2 ^ (bits - 1)) by (rewrite <- Z.pow_succ_r by lia; f_equal; lia).
  pose proof (Z.mod_pos_bound val (2 ^ bits) ltac:(lia)) as Hr.
  set (r := val mod 2 ^ bits) in *. cbv zeta.
  assert (Htop : r .& (1 .<< (bits - 1)) = if r <? 2 ^ (bits - 1) then 0 else 2 ^ (bits - 1)).
  { rewrite Z.shiftl_1_l. apply Z.bits_inj'. intros n Hn.
    rewrite Z.land_spec, Z.pow2_bits_eqb by lia.
    destruct (Z.eqb_spec (bits - 1) n) as [<- | Hne].
    - rewrite andb_true_r. rewrite Z.testbit_odd, shiftr_div by lia.
      destruct (Z.ltb_spec r (2 ^ (bits - 1))).
      + rewrite Z.div_small by lia. by rewrite Z.testbit_0_l.
      + replace (r / 2 ^ (bits - 1)) with 1; [by rewrite Z.pow2_bits_true by lia |].
        apply (Z.div_unique _ _ _ (r - 2 ^ (bits - 1))); lia.
    - rewrite andb_false_r. destruct (_ <? _); [by rewrite Z.testbit_0_l |].
      by rewrite Z.pow2_bits_false by lia. }
  rewrite Htop. assert (Hp : 0 < 2 ^ (bits - 1)) by lia.
  destruct (r <? 2 ^ (bits - 1)); cbn; [done |].
  unfold truthy. rewrite (proj2 (Z.eqb_neq _ _)) by lia. cbn.
  rewrite lor_add_high by lia. lia.
Qed.

Lemma sbits_range val bits : 1 <= bits -> - 2 ^ (bits - 1) <= sbits val bits < 2 ^ (bits - 1).
Proof.
  intros Hb. rewrite sbits_val by done. cbv zeta.
  assert (H2 : 2 ^ bits = 2 * 2 ^ (bits - 1)) by (rewrite <- Z.pow_succ_r by lia; f_equal; lia).
  pose proof (Z.mod_pos_bound val (2 ^ bits) ltac:(lia)).
  destruct (Z.ltb_spec (val mod 2 ^ bits) (2 ^ (bits - 1))); lia.
Qed.

Lemma sbits_mod val bits : 1 <= bits -> exists q, val = sbits val bits + q * 2 ^ bits.
Proof.
  intros Hb. rewrite sbits_val by done. cbv zeta. pose proof (Z.div_mod val (2 ^ bits)) as H.
  destruct (_ <? _); [exists (val / 2 ^ bits) | exists (val / 2 ^ bits + 1)]; lia.
Qed.

(** There is only one value of a field. *)
Lemma sbits_unique val bits r q : 1 <= bits -> - 2 ^ (bits - 1) <= r < 2 ^ (bits - 1) ->
  val = r + q * 2 ^ bits -> sbits val bits = r.
Proof.
  intros Hb Hr Hv. destruct (sbits_mod val bits Hb) as [q' Hq'].
  pose proof (sbits_range val bits Hb).
  assert (H2 : 2 ^ bits = 2 * 2 ^ (bits - 1)) by (rewrite <- Z.pow_succ_r by lia; f_equal; lia).
  assert (q = q') by nia. lia.
Qed.

(** Dropping [k] bits before or after taking the field. *)
Lemma sbits_shiftr val bi k : 0 <= k -> k < bi -> sbits (val .>> k) (bi - k) = sbits val bi / 2 ^ k.
Proof.
  intros Hk Hb. destruct (sbits_mod val bi) as [q Hq]; [lia |].
  pose proof (sbits_range val bi ltac:(lia)) as Hr.
  assert (Hp : 2 ^ bi = 2 ^ (bi - k) * 2 ^ k) by (rewrite <- Z.pow_add_r by lia; f_equal; lia).
  assert (Hp1 : 2 ^ (bi - 1) = 2 ^ (bi - k - 1) * 2 ^ k)
    by (rewrite <- Z.pow_add_r by lia; f_equal; lia).
  apply (sbits_unique _ _ _ q); [lia | |].
  - split; [apply Z.div_le_lower_bound; lia | apply Z.div_lt_upper_bound; lia].
  - rewrite shiftr_div by done. rewrite Hq at 1. rewrite Hp, Z.mul_assoc, Z.div_add by lia. done.
Qed.

(** ** Properties *)

(** Byte order.  [byteswap] is its own inverse; of the same four bytes the
    host's [buildword] makes the little-endian word and the simulation's copy
    the big-endian one, and [byteswap] takes one to the other. *)
Theorem byteswap_roundtrip :
  (forall v, 0 <= v < 2 ^ 32 -> 0 <= byteswap v < 2 ^ 32 /\ byteswap (byteswap v) = v) /\
  (forall b0 b1 b2 b3, byte b0 -> byte b1 -> byte b2 -> byte b3 ->
     buildword b0 b1 b2 b3 = buildswap b0 b1 b2 b3 /\
     byteswap (buildword b0 b1 b2 b3) = sim_buildword b0 b1 b2 b3).
Proof.
  split.
  - intros v Hv. destruct (le32_bytes v Hv) as (b0 & b1 & b2 & b3 & H0 & H1 & H2 & H3 & ->).
    rewrite !byteswap_le32 by done. split; [unfold le32; lia | done].
  - intros b0 b1 b2 b3 H0 H1 H2 H3.
    by rewrite buildword_le32, buildswap_le32, byteswap_le32, sim_buildword_le32.
Qed.

(** [byteswapbuf] swaps exactly the first [ln] words in place; done twice it
    restores a buffer of 32-bit words. *)
Theorem byteswapbuf_involutive ln buf :
  0 <= ln <= Z.of_nat (length buf) -> Forall (fun v => 0 <= v < 2 ^ 32) buf ->
  exists buf', byteswapbuf ln buf = Some buf' /\
    buf' = map byteswap (take (Z.to_nat ln) buf) ++ drop (Z.to_nat ln) buf /\
    byteswapbuf ln buf' = Some buf.
Proof.
  intros Hln Hbuf. set (n := Z.to_nat ln).
  assert (Hspec : forall b, length b = length buf ->
    byteswapbuf ln b = Some (map byteswap (take n b) ++ drop n b)).
  { intros b Hb. unfold byteswapbuf. by rewrite byteswapbuf_from_spec by lia. }
  eexists. split; [by apply Hspec |]. split; [done |].
  assert (Hl : length (map byteswap (take n buf)) = n) by (rewrite length_map, length_take_le; lia).
  rewrite Hspec by (rewrite length_app, Hl, length_drop; lia).
  rewrite take_app_length', drop_app_length' by done. rewrite map_map.
  f_equal. rewrite <- (take_drop n buf) at 3. f_equal.
  by apply byteswap_twice, Forall_take.
Qed.

Lemma byteswapbuf_involutive_witness :
  exists buf', byteswapbuf 2 [1; 2; 3] = Some buf' /\
    buf' = map byteswap (take 2 [1; 2; 3]) ++ drop 2 [1; 2; 3] /\
    byteswapbuf 2 buf' = Some [1; 2; 3].
Proof.
  apply (byteswapbuf_involutive 2 [1; 2; 3]); [cbn; lia | repeat constructor; lia].
Defined.

(** [sbits] is the two's complement value of the low bits: the one integer
    of the range that differs from the argument by a multiple of 2^bits; so a
    value that fits is unchanged. *)
Theorem sbits_twos_complement val bits : 1 <= bits <= 62 ->
  - 2 ^ (bits - 1) <= sbits val bits < 2 ^ (bits - 1) /\
  (sbits val bits) mod 2 ^ bits = val mod 2 ^ bits /\
  (- 2 ^ (bits - 1) <= val < 2 ^ (bits - 1) -> sbits val bits = val).
Proof.
  intros Hb. split; [apply sbits_range; lia |]. split.
  - destruct (sbits_mod val bits) as [q Hq]; [lia |]. rewrite Hq at 2. by rewrite Z.mod_add by lia.
  - intros Hv. apply (sbits_unique _ _ _ 0); lia.
Qed.

Lemma sbits_twos_complement_witness :
  - 2 ^ 7 <= sbits 0x1ff 8 < 2 ^ 7 /\ (sbits 0x1ff 8) mod 2 ^ 8 = 0x1ff mod 2 ^ 8 /\
  (- 2 ^ 7 <= 0x1ff < 2 ^ 7 -> sbits 0x1ff 8 = 0x1ff).
Proof. apply (sbits_twos_complement 0x1ff 8). lia. Defined.

(** The three ways of [rndbits] to round, in terms of quotient and remainder. *)
Lemma round_even s k r t m :
  1 <= k -> t = s / 2 ^ k -> m = s mod 2 ^ k ->
  (2 * m < 2 ^ k -> r = t) -> (2 ^ k < 2 * m -> r = t + 1) ->
  (2 * m = 2 ^ k -> r = t /\ Z.even t = true \/ r = t + 1 /\ Z.even t = false) ->
  2 * Z.abs (r * 2 ^ k - s) <= 2 ^ k /\ (2 * Z.abs (r * 2 ^ k - s) = 2 ^ k -> Z.even r = true).
Proof.
  intros Hk Ht Hm Hlt Hgt Htie. pose proof (Z.div_mod s (2 ^ k) ltac:(lia)) as Hs.
  pose proof (Z.mod_pos_bound s (2 ^ k) ltac:(lia)) as Hr. rewrite <- Ht, <- Hm in *.
  destruct (Z.lt_trichotomy (2 * m) (2 ^ k)) as [H | [H | H]].
  - rewrite (Hlt H). split; lia.
  - destruct (Htie H) as [[-> He] | [-> He]].
    + split; [lia | done].
    + split; [lia |]. intros _. by rewrite Z.even_add, He.
  - rewrite (Hgt H). split; lia.
Qed.

(** [rndbits] rounds a signed field to the nearest value with fewer bits,
    and a tie to the even one. *)
Theorem rndbits_rounds val bi bo : 1 <= bo < bi -> bi <= 62 -> bi - bo <= 31 ->
  let s := sbits val bi in let k := bi - bo in
  exists r, rndbits val bi bo = u64 r /\
    2 * Z.abs (r * 2 ^ k - s) <= 2 ^ k /\ (2 * Z.abs (r * 2 ^ k - s) = 2 ^ k -> Z.even r = true).
Proof.
  intros Hbo Hbi Hk s k. unfold rndbits. fold s.
  rewrite (proj2 (Z.eqb_neq bi bo)) by lia.
  assert (Hsh : sbits (val .>> k) bo = s / 2 ^ k).
  { replace bo with (bi - k) by lia. apply sbits_shiftr; lia. }
  assert (Hhalf : 2 ^ k = 2 * 2 ^ (k - 1)) by (rewrite <- Z.pow_succ_r by lia; f_equal; lia).
  destruct (Z.eqb_spec (bi - 1) bo) as [H1 | Hne].
  - eexists. split; [reflexivity |].
    assert (Hk1 : k = 1) by lia. rewrite Hk1 in *. cbv zeta. rewrite Hsh.
    apply (round_even s 1 _ (s / 2 ^ 1) (s mod 2 ^ 1)); [lia | done | done | | |];
      rewrite land_3; change (2 ^ 1) with 2; destruct (Z.eqb_spec 3 (s mod 4)); intros; try zlia.
    + right. split; [done |]. rewrite Zeven_mod. apply Z.eqb_neq. zlia.
    + left. split; [done |]. rewrite Zeven_mod. apply Z.eqb_eq. zlia.
  - eexists. split; [reflexivity |]. cbv zeta. fold k. rewrite Hsh.
    assert (Hbit : (s .>> (k - 1)) .& 1 = (s / 2 ^ (k - 1)) mod 2) by (by rewrite land_1, shiftr_div by lia).
    assert (Hlow : s .& ((1 .<< (k - 1)) - 1) = s mod 2 ^ (k - 1))
      by (by rewrite ones_shift, land_ones_mod by lia).
    rewrite Hbit, Hlow, land_1.
    assert (Hm : s mod 2 ^ k = s mod 2 ^ (k - 1) + 2 ^ (k - 1) * ((s / 2 ^ (k - 1)) mod 2)).
    { rewrite Hhalf, Z.mul_comm. apply Z.rem_mul_r; lia. }
    pose proof (Z.mod_pos_bound s (2 ^ (k - 1)) ltac:(lia)) as Hlo.
    pose proof (Z.mod_pos_bound (s / 2 ^ (k - 1)) 2 ltac:(lia)) as Hb2.
    apply (round_even s k _ (s / 2 ^ k) (s mod 2 ^ k)); [lia | done | done | | |]; rewrite Hm;
      destruct (Z.eqb_spec 0 ((s / 2 ^ (k - 1)) mod 2)) as [E0 | E0];
      destruct (Z.eqb_spec 0 (s mod 2 ^ (k - 1))) as [E1 | E1]; cbn [negb]; intros H;
      try (rewrite <- ?E0, <- ?E1 in H; exfalso; nia); try done.
    unfold truthy. rewrite Zeven_mod. destruct (Z.eqb_spec ((s / 2 ^ k) mod 2) 0) as [E2 | E2]; cbn [negb].
    + by left.
    + by right.
Qed.

Lemma rndbits_rounds_witness :
  let s := sbits 0x7 5 in let k := 5 - 3 in
  exists r, rndbits 0x7 5 3 = u64 r /\
    2 * Z.abs (r * 2 ^ k - s) <= 2 ^ k /\ (2 * Z.abs (r * 2 ^ k - s) = 2 ^ k -> Z.even r = true).
Proof. apply (rndbits_rounds 0x7 5 3); lia. Defined.

(** [sfits] compares with the number of bits instead of the value: it is
    false of every value that fits but the one that equals the width. *)
Theorem sfits_wrong val bits : 1 <= bits <= 62 -> - 2 ^ (bits - 1) <= val < 2 ^ (bits - 1) ->
  sfits val bits = (val =? bits).
Proof.
  intros Hb Hv. unfold sfits. by rewrite (sbits_unique val bits val 0) by lia.
Qed.

Lemma sfits_wrong_witness : sfits 1 4 = (1 =? 4).
Proof. apply (sfits_wrong 1 4); lia. Defined.
