(* ===== verification/TbClock.v ===== *)
(** The clocks of the simulation: [TBCLOCK] (src/sim/verilated/tbclock.h) and
    the [tick] of [TESTB] (src/sim/verilated/testb.h) that advances three of
    them to the next edge of any.

    Times are [unsigned long] picoseconds: integers below 2^64, wrapping.  A
    failed [assert] is [None].  The simulated core is generated code: what
    [tick] does to it is the list of [tbevent]s. *)

From stdpp Require Import base tactics list numbers option.
From Stdlib Require Import ZArith Lia.
From S2P Require Import Prelude.
Local Open Scope Z_scope.

Record TBCLOCK : Type := mkTBCLOCK {
  m_increment_ps : Z;
  m_now_ps : Z;
  m_last_posedge_ps : Z;
  m_ticks : Z
}.

(** [TBCLOCK(void)] *)
Definition TBCLOCK_default : TBCLOCK := mkTBCLOCK 10000 10001 0 0.

Definition set_interval_ps (interval_ps : Z) (c : TBCLOCK) : option TBCLOCK :=
  let inc := u64 ((interval_ps .>> 1) .& (-2)) in
  if 0 <? inc then Some (mkTBCLOCK inc (m_now_ps c) (m_last_posedge_ps c) (m_ticks c)) else None.

Definition clk_init (increment_ps : Z) (c : TBCLOCK) : option TBCLOCK :=
  match set_interval_ps increment_ps c with
  | Some c => Some (mkTBCLOCK (m_increment_ps c) (u64 (m_increment_ps c + 1)) 0 (m_ticks c))
  | None => None
  end.

Definition time_to_edge (c : TBCLOCK) : option Z :=
  let last := m_last_posedge_ps c in let inc := m_increment_ps c in let now := m_now_ps c in
  if now <? last then None
  else if now <? u64 (last + inc) then Some (u64 (last + inc - now))
  else if now <? u64 (last + 2 * inc) then Some (u64 (last + 2 * inc - now))
  else None.

(** The level of the clock. *)
Definition advance (itime : Z) (c : TBCLOCK) : option (Z * TBCLOCK) :=
  let inc := m_increment_ps c in
  if itime <? u64 (4 * inc) then
    let now := u64 (m_now_ps c + itime) in
    let last := m_last_posedge_ps c in
    if u64 (last + 2 * inc) <=? now then
      Some (1, mkTBCLOCK inc now (u64 (last + 2 * inc)) (u64 (m_ticks c + 1)))
    else if u64 (last + inc) <=? now then Some (0, mkTBCLOCK inc now last (m_ticks c))
    else Some (1, mkTBCLOCK inc now last (m_ticks c))
  else None.

Definition rising_edge (c : TBCLOCK) : bool := m_now_ps c =? m_last_posedge_ps c.
Definition falling_edge (c : TBCLOCK) : bool := m_now_ps c =? u64 (m_last_posedge_ps c + m_increment_ps c).

(** ** TESTB *)

Record TESTB : Type := mkTESTB {
  m_time_ps : Z;
  m_clk : TBCLOCK;
  m_clk_125mhz : TBCLOCK;
  m_net1_rx_clk : TBCLOCK
}.

(** What happens to the core, in order. *)
Inductive tbevent : Type :=
  | EvEval
  | EvClocks (i_clk i_clk_125mhz i_net1_rx_clk : Z)
  | EvSimClk
  | EvSimClk125
  | EvSimNet1Rx.

Definition TESTB_init : option TESTB :=
  match clk_init 20000 TBCLOCK_default, clk_init 8000 TBCLOCK_default, clk_init 8000 TBCLOCK_default with
  | Some a, Some b, Some c => Some (mkTESTB 0 a b c)
  | _, _, _ => None
  end.

Definition mbind2 {A B} (o : option A) (f : A -> option B) : option B :=
  match o with Some a => f a | None => None end.

(** [unsigned mintime]: 32 bits. *)
Definition tick (t : TESTB) : option (list tbevent * TESTB) :=
  mbind2 (time_to_edge (m_clk t)) (fun t0 =>
  mbind2 (time_to_edge (m_clk_125mhz t)) (fun t1 =>
  mbind2 (time_to_edge (m_net1_rx_clk t)) (fun t2 =>
  let mintime := u32 t0 in
  let mintime := if t1 <? mintime then u32 t1 else mintime in
  let mintime := if t2 <? mintime then u32 t2 else mintime in
  if 1 <? mintime then
    mbind2 (advance mintime (m_clk t)) (fun '(l0, c0) =>
    mbind2 (advance mintime (m_clk_125mhz t)) (fun '(l1, c1) =>
    mbind2 (advance mintime (m_net1_rx_clk t)) (fun '(l2, c2) =>
    Some ([EvEval; EvClocks l0 l1 l2; EvEval] ++
          (if falling_edge c0 then [EvSimClk] else []) ++
          (if falling_edge c1 then [EvSimClk125] else []) ++
          (if falling_edge c2 then [EvSimNet1Rx] else []),
          mkTESTB (u64 (m_time_ps t + mintime)) c0 c1 c2))))
  else None))).

Fixpoint ticks (n : nat) (t : TESTB) : option (list tbevent * TESTB) :=
  match n with
  | O => Some ([], t)
  | S n' =>
      mbind2 (tick t) (fun '(e1, t1) => mbind2 (ticks n' t1) (fun '(e2, t2) => Some (e1 ++ e2, t2)))
  end.

(** ** One clock *)

(** Between two positive edges, and far from the wrap-around. *)
Record clk_ok (c : TBCLOCK) : Prop := {
  ck_inc : 2 <= m_increment_ps c < 2 ^ 31;
  ck_last : 0 <= m_last_posedge_ps c <= m_now_ps c;
  ck_now : m_now_ps c < m_last_posedge_ps c + 2 * m_increment_ps c;
  ck_far : m_now_ps c < 2 ^ 63
}.

(** The time to the next edge, as a number. *)
Definition tte (c : TBCLOCK) : Z :=
  if m_now_ps c <? m_last_posedge_ps c + m_increment_ps c
  then m_last_posedge_ps c + m_increment_ps c - m_now_ps c
  else m_last_posedge_ps c + 2 * m_increment_ps c - m_now_ps c.

Ltac u64_small := unfold u64; rewrite ?Z.mod_small by lia.

Lemma time_to_edge_ok c : clk_ok c -> time_to_edge c = Some (tte c) /\ 0 < tte c <= m_increment_ps c.
Proof.
  intros [H1 H2 H3 H4]. unfold time_to_edge, tte.
  assert (E1 : u64 (m_last_posedge_ps c + m_increment_ps c) = m_last_posedge_ps c + m_increment_ps c)
    by (apply Z.mod_small; lia).
  assert (E2 : u64 (m_last_posedge_ps c + 2 * m_increment_ps c) = m_last_posedge_ps c + 2 * m_increment_ps c)
    by (apply Z.mod_small; lia).
  rewrite E1, E2.
  destruct (Z.ltb_spec (m_now_ps c) (m_last_posedge_ps c)); [lia |].
  destruct (Z.ltb_spec (m_now_ps c) (m_last_posedge_ps c + m_increment_ps c));
    [u64_small; split; [done | lia] |].
  destruct (Z.ltb_spec (m_now_ps c) (m_last_posedge_ps c + 2 * m_increment_ps c));
    [u64_small; split; [done | lia] | lia].
Qed.

(** What [advance] does when no edge is skipped. *)
Lemma advance_ok c dt : clk_ok c -> 0 < dt <= tte c -> m_now_ps c + dt < 2 ^ 63 -> m_ticks c < 2 ^ 63 ->
  0 <= m_ticks c ->
  exists lvl c', advance dt c = Some (lvl, c') /\ clk_ok c' /\
    m_increment_ps c' = m_increment_ps c /\ m_now_ps c' = m_now_ps c + dt /\
    (m_last_posedge_ps c' = m_last_posedge_ps c \/
     m_last_posedge_ps c' = m_last_posedge_ps c + 2 * m_increment_ps c) /\
    lvl = of_bool (m_now_ps c' <? m_last_posedge_ps c' + m_increment_ps c') /\
    rising_edge c' || falling_edge c' = (dt =? tte c) /\
    m_ticks c' = m_ticks c + of_bool (rising_edge c') /\
    m_last_posedge_ps c' - m_last_posedge_ps c = 2 * m_increment_ps c * (m_ticks c' - m_ticks c).
Proof.
  intros [H1 H2 H3 H4] Hdt Hfar Ht Ht0. unfold advance, tte in *. u64_small.
  destruct (Z.ltb_spec dt (4 * m_increment_ps c)) as [_ |]; [| destruct (_ <? _); lia].
  destruct (Z.ltb_spec (m_now_ps c) (m_last_posedge_ps c + m_increment_ps c)) as [Ha | Ha];
    destruct (Z.leb_spec (m_last_posedge_ps c + 2 * m_increment_ps c) (m_now_ps c + dt)) as [Hb | Hb];
    try lia; [destruct (Z.leb_spec (m_last_posedge_ps c + m_increment_ps c) (m_now_ps c + dt)) as [Hc | Hc] | |
      destruct (Z.leb_spec (m_last_posedge_ps c + m_increment_ps c) (m_now_ps c + dt)) as [Hc | Hc]; [| lia]];
    do 2 eexists; (split; [reflexivity |]); unfold rising_edge, falling_edge; cbn [m_increment_ps m_now_ps m_last_posedge_ps m_ticks];
    u64_small; (split; [split; cbn; lia |]); (split; [done |]); (split; [done |]); (split; [lia |]);
    repeat match goal with |- context [?a =? ?b] => destruct (Z.eqb_spec a b); try lia end;
    repeat match goal with |- context [?a <? ?b] => destruct (Z.ltb_spec a b); try lia end; cbn;
    split_and!; (done || lia).
Qed.

(** ** The three clocks *)

(** One clock of half period [inc], [T] picoseconds after the start. *)
Record clk_at (inc T : Z) (c : TBCLOCK) : Prop := {
  ca_ok : clk_ok c;
  ca_inc : m_increment_ps c = inc;
  ca_now : m_now_ps c = T + inc + 1;
  ca_last : m_last_posedge_ps c = 2 * inc * m_ticks c;
  ca_ticks : 0 <= m_ticks c
}.

(** The state of the test bench: all clocks are at the same time, which is the
    start or an edge of one of them. *)
Record tb_ok (t : TESTB) : Prop := {
  tb_time : 0 <= m_time_ps t < 2 ^ 62;
  tb_clk : clk_at 10000 (m_time_ps t) (m_clk t);
  tb_125 : clk_at 4000 (m_time_ps t) (m_clk_125mhz t);
  tb_rx : clk_at 4000 (m_time_ps t) (m_net1_rx_clk t);
  tb_edge : m_time_ps t = 0 \/ m_time_ps t mod 2000 = 1999
}.

(** The state after construction. *)
Definition tb0 : TESTB :=
  mkTESTB 0 (mkTBCLOCK 10000 10001 0 0) (mkTBCLOCK 4000 4001 0 0) (mkTBCLOCK 4000 4001 0 0).

Lemma tb0_ok : tb_ok tb0.
Proof. split; cbn; [lia | | | | by left]; split; cbn; try lia; split; cbn; lia. Qed.

Lemma TESTB_init_ok : exists t, TESTB_init = Some t /\ tb_ok t.
Proof. exists tb0. split; [reflexivity | apply tb0_ok]. Qed.

(** The next edge of a clock is a multiple of its half period after its start. *)
Lemma tte_at inc T c : clk_at inc T c -> exists k, tte c = inc * k - inc - 1 - T /\ 0 < tte c <= inc.
Proof.
  intros [Hok Hinc Hnow Hlast Ht]. pose proof (time_to_edge_ok c Hok) as [_ Hr]. rewrite Hinc in Hr.
  revert Hr. unfold tte. rewrite Hinc, Hnow, Hlast.
  destruct (_ <? _); intros Hr; [exists (2 * m_ticks c + 1) | exists (2 * m_ticks c + 2)]; lia.
Qed.

Lemma advance_at inc T c dt : clk_at inc T c -> 0 < dt <= tte c -> T + dt < 2 ^ 62 ->
  exists lvl c', advance dt c = Some (lvl, c') /\ clk_at inc (T + dt) c' /\
    lvl = of_bool (m_now_ps c' <? m_last_posedge_ps c' + inc) /\
    rising_edge c' || falling_edge c' = (dt =? tte c).
Proof.
  intros [Hok Hinc Hnow Hlast Ht] Hdt Hfar.
  assert (Hi : 2 <= inc < 2 ^ 31) by (rewrite <- Hinc; apply Hok).
  assert (Hl : m_last_posedge_ps c <= m_now_ps c) by apply Hok.
  destruct (advance_ok c dt) as (lvl & c' & Ha & Hok' & Hi' & Hn' & _ & Hl' & He & Htk & Hd);
    [done | done | lia | nia | done |].
  exists lvl, c'. split; [done |]. split.
  - split; [done | lia | lia | nia |]. rewrite Htk. destruct (rising_edge c'); cbn; lia.
  - by rewrite <- Hinc, <- Hi'.
Qed.

Lemma tick_ok t : tb_ok t -> m_time_ps t + 10000 < 2 ^ 62 ->
  exists l0 l1 l2 sims dt t', tick t = Some ([EvEval; EvClocks l0 l1 l2; EvEval] ++ sims, t') /\ tb_ok t' /\
    m_time_ps t' = m_time_ps t + dt /\ 2000 <= dt <= 4000 /\
    dt = Z.min (tte (m_clk t)) (Z.min (tte (m_clk_125mhz t)) (tte (m_net1_rx_clk t))) /\
    sims = (if falling_edge (m_clk t') then [EvSimClk] else []) ++
           (if falling_edge (m_clk_125mhz t') then [EvSimClk125] else []) ++
           (if falling_edge (m_net1_rx_clk t') then [EvSimNet1Rx] else []) /\
    l0 = of_bool (m_now_ps (m_clk t') <? m_last_posedge_ps (m_clk t') + 10000) /\
    l1 = of_bool (m_now_ps (m_clk_125mhz t') <? m_last_posedge_ps (m_clk_125mhz t') + 4000) /\
    l2 = of_bool (m_now_ps (m_net1_rx_clk t') <? m_last_posedge_ps (m_net1_rx_clk t') + 4000).
Proof.
  intros [Htime H0 H1 H2 Hedge] Hfar.
  destruct (tte_at _ _ _ H0) as (k0 & E0 & R0). destruct (tte_at _ _ _ H1) as (k1 & E1 & R1).
  destruct (tte_at _ _ _ H2) as (k2 & E2 & R2).
  destruct (time_to_edge_ok _ (ca_ok _ _ _ H0)) as [T0 _].
  destruct (time_to_edge_ok _ (ca_ok _ _ _ H1)) as [T1 _].
  destruct (time_to_edge_ok _ (ca_ok _ _ _ H2)) as [T2 _].
  unfold tick. rewrite T0, T1, T2. cbn [mbind2].
  set (dt := Z.min (tte (m_clk t)) (Z.min (tte (m_clk_125mhz t)) (tte (m_net1_rx_clk t)))).
  match goal with |- context [1 <? ?m] => replace m with dt end.
  2: { unfold u32. rewrite !Z.mod_small by lia.
       destruct (Z.ltb_spec (tte (m_clk_125mhz t)) (tte (m_clk t))); rewrite ?Z.mod_small by lia;
       match goal with |- context [?a <? ?b] => destruct (Z.ltb_spec a b) end; rewrite ?Z.mod_small by lia; lia. }
  assert (Hdt : 2000 <= dt <= 4000 /\ (m_time_ps t + dt) mod 2000 = 1999).
  { assert (Hd : dt = tte (m_clk t) \/ dt = tte (m_clk_125mhz t) \/ dt = tte (m_net1_rx_clk t)) by lia.
    assert (0 < dt <= 4000) by lia.
    assert (Hm : (m_time_ps t + dt) mod 2000 = 1999).
    { destruct Hd as [Hd | [Hd | Hd]]; rewrite Hd, ?E0, ?E1, ?E2; zlia. }
    split; [| done]. destruct Hedge as [Hz | Hz]; [rewrite Hz in Hm |]; zlia. }
  destruct Hdt as [Hdt Hm]. rewrite (proj2 (Z.ltb_lt _ _)) by lia.
  destruct (advance_at _ _ _ dt H0) as (l0 & c0 & A0 & C0 & L0 & _); [lia | lia |].
  destruct (advance_at _ _ _ dt H1) as (l1 & c1 & A1 & C1 & L1 & _); [lia | lia |].
  destruct (advance_at _ _ _ dt H2) as (l2 & c2 & A2 & C2 & L2 & _); [lia | lia |].
  rewrite A0, A1, A2. cbn [mbind2]. do 6 eexists. split; [reflexivity |].
  assert (HT : u64 (m_time_ps t + dt) = m_time_ps t + dt) by (apply Z.mod_small; lia).
  split; [split; cbn; rewrite ?HT; (done || lia || by right) |]. cbn. by rewrite HT.
Qed.

(** C39: The test bench ticks for as long as its time does not run out: no
    assertion fails, in particular some clock edge is always at least two
    nanoseconds away; each tick goes to the nearest edge of the three clocks,
    gives the core the levels the clocks have there, and calls exactly the
    handlers of the clocks that fall. *)
Theorem tick_reaches_next_edge t : tb_ok t -> m_time_ps t + 10000 < 2 ^ 62 ->
  exists l0 l1 l2 sims dt t', tick t = Some ([EvEval; EvClocks l0 l1 l2; EvEval] ++ sims, t') /\ tb_ok t' /\
    m_time_ps t' = m_time_ps t + dt /\ 2000 <= dt <= 4000 /\
    dt = Z.min (tte (m_clk t)) (Z.min (tte (m_clk_125mhz t)) (tte (m_net1_rx_clk t))) /\
    sims = (if falling_edge (m_clk t') then [EvSimClk] else []) ++
           (if falling_edge (m_clk_125mhz t') then [EvSimClk125] else []) ++
           (if falling_edge (m_net1_rx_clk t') then [EvSimNet1Rx] else []) /\
    l0 = of_bool (m_now_ps (m_clk t') <? m_last_posedge_ps (m_clk t') + 10000) /\
    l1 = of_bool (m_now_ps (m_clk_125mhz t') <? m_last_posedge_ps (m_clk_125mhz t') + 4000) /\
    l2 = of_bool (m_now_ps (m_net1_rx_clk t') <? m_last_posedge_ps (m_net1_rx_clk t') + 4000).
Proof. apply tick_ok. Qed.

Lemma tick_reaches_next_edge_witness :
  exists l0 l1 l2 sims dt t', tick tb0 = Some ([EvEval; EvClocks l0 l1 l2; EvEval] ++ sims, t') /\ tb_ok t' /\
    m_time_ps t' = m_time_ps tb0 + dt /\ 2000 <= dt <= 4000 /\
    dt = Z.min (tte (m_clk tb0)) (Z.min (tte (m_clk_125mhz tb0)) (tte (m_net1_rx_clk tb0))) /\
    sims = (if falling_edge (m_clk t') then [EvSimClk] else []) ++
           (if falling_edge (m_clk_125mhz t') then [EvSimClk125] else []) ++
           (if falling_edge (m_net1_rx_clk t') then [EvSimNet1Rx] else []) /\
    l0 = of_bool (m_now_ps (m_clk t') <? m_last_posedge_ps (m_clk t') + 10000) /\
    l1 = of_bool (m_now_ps (m_clk_125mhz t') <? m_last_posedge_ps (m_clk_125mhz t') + 4000) /\
    l2 = of_bool (m_now_ps (m_net1_rx_clk t') <? m_last_posedge_ps (m_net1_rx_clk t') + 4000).
Proof. apply (tick_reaches_next_edge tb0); [exact tb0_ok | cbn; lia]. Defined.

(** From construction on, [n] ticks run to completion and take between two
    and four nanoseconds each, for more than a simulated month. *)
Theorem ticks_run n : 4000 * Z.of_nat n < 2 ^ 61 ->
  exists t0 evs t, TESTB_init = Some t0 /\ ticks n t0 = Some (evs, t) /\ tb_ok t /\
    2000 * Z.of_nat n <= m_time_ps t <= 4000 * Z.of_nat n.
Proof.
  intros Hn. destruct TESTB_init_ok as (t0 & Hi & Ht). exists t0.
  assert (H0 : m_time_ps t0 = 0) by (by injection Hi as <-).
  enough (Hrun : forall m T, (4000 * Z.of_nat m + m_time_ps T < 2 ^ 61) -> tb_ok T ->
    exists evs t, ticks m T = Some (evs, t) /\ tb_ok t /\
      2000 * Z.of_nat m <= m_time_ps t - m_time_ps T <= 4000 * Z.of_nat m).
  { destruct (Hrun n t0) as (evs & t & Hr & Hok & Hb); [lia | done |]. exists evs, t. rewrite H0 in Hb.
    split_and!; try done; lia. }
  induction m as [| m IH]; intros T Hm HT; cbn [ticks].
  - exists [], T. split_and!; (done || lia).
  - destruct (tick_ok T HT) as (l0 & l1 & l2 & sims & dt & t' & Htk & Hok & Htime & Hdt & _); [lia |].
    rewrite Htk. cbn [mbind2]. destruct (IH t') as (evs & t & Hr & Hok' & Hb); [lia | done |].
    rewrite Hr. cbn [mbind2]. do 2 eexists. split; [reflexivity |]. split; [done | lia].
Qed.

Lemma ticks_run_witness :
  exists t0 evs t, TESTB_init = Some t0 /\ ticks 5 t0 = Some (evs, t) /\ tb_ok t /\
    2000 * Z.of_nat 5 <= m_time_ps t <= 4000 * Z.of_nat 5.
Proof. apply (ticks_run 5). lia. Defined.
