(* ===== verification/MemSim.v ===== *)
(** The simulated memory: [MEMSIM] (src/sim/verilated/memsim.cpp, memsim.h), a
    Wishbone memory that answers every request a fixed number of clocks later.

    [m_mem], [m_fifo_ack] and [m_fifo_data] are lists; their initial contents
    where the constructor leaves them uninitialised are arguments.  An access
    outside of an array is [None]. *)

From stdpp Require Import base tactics list numbers option.
From Stdlib Require Import ZArith Lia.
From S2P Require Import Prelude Words.
Local Open Scope Z_scope.

Record MEMSIM : Type := mkMEMSIM {
  m_mem : list Z;
  m_len : Z;
  m_mask : Z;
  m_head : Z;
  m_tail : Z;
  m_delay_mask : Z;
  m_delay : Z;
  m_fifo_ack : list Z;
  m_fifo_data : list Z
}.

#[export] Instance set_mem : Setter m_mem := fun v s =>
  mkMEMSIM v (m_len s) (m_mask s) (m_head s) (m_tail s) (m_delay_mask s) (m_delay s) (m_fifo_ack s) (m_fifo_data s).
#[export] Instance set_head : Setter m_head := fun v s =>
  mkMEMSIM (m_mem s) (m_len s) (m_mask s) v (m_tail s) (m_delay_mask s) (m_delay s) (m_fifo_ack s) (m_fifo_data s).
#[export] Instance set_tail : Setter m_tail := fun v s =>
  mkMEMSIM (m_mem s) (m_len s) (m_mask s) (m_head s) v (m_delay_mask s) (m_delay s) (m_fifo_ack s) (m_fifo_data s).
#[export] Instance set_fifo_ack : Setter m_fifo_ack := fun v s =>
  mkMEMSIM (m_mem s) (m_len s) (m_mask s) (m_head s) (m_tail s) (m_delay_mask s) (m_delay s) v (m_fifo_data s).
#[export] Instance set_fifo_data : Setter m_fifo_data := fun v s =>
  mkMEMSIM (m_mem s) (m_len s) (m_mask s) (m_head s) (m_tail s) (m_delay_mask s) (m_delay s) (m_fifo_ack s) v.

(** [for(nxt=1; nxt < n; nxt<<=1) ;] on 32 bits; 33 rounds are enough for any
    [n] the loop ends on. *)
Fixpoint pow2_from (fuel : nat) (nxt n : Z) : option Z :=
  if nxt <? n then
    match fuel with
    | O => None
    | S fuel' => pow2_from fuel' (u32 (nxt .<< 1)) n
    end
  else Some nxt.
Definition pow2_ge (n : Z) : option Z := pow2_from 32 1 n.

(** The constructor; [junk] is what an uninitialised word holds. *)
Definition memsim_new (junk nwords delay : Z) : option MEMSIM :=
  match pow2_ge nwords, pow2_ge delay with
  | Some nxt, Some dm =>
      Some (mkMEMSIM (replicate (Z.to_nat nxt) junk) nxt (nxt - 1) 0
              ((0 - delay) .& (dm - 1)) (dm - 1) delay
              (replicate (Z.to_nat dm) 0) (replicate (Z.to_nat dm) junk))
  | _, _ => None
  end.

(** [load(fname)]: [file] is what [fopen] and [fread] give, the words of the
    file, or nothing when it cannot be opened. *)
Definition load_file (file : option (list Z)) (s : MEMSIM) : MEMSIM :=
  let ws := match file with Some ws => take (Z.to_nat (m_len s)) ws | None => [] end in
  s <| m_mem := ws ++ replicate (Z.to_nat (m_len s) - length ws) 0 |>.

(** [memcpy] of bytes onto the words of a little-endian host. *)
Definition put_byte (w : Z) (i : nat) (b : Z) : Z :=
  let sh := 8 * Z.of_nat i in
  (w .& ~. (0xff .<< sh)) .| (b .<< sh).
Fixpoint memcpy_from (bs : list Z) (pos : nat) (mem : list Z) : option (list Z) :=
  match bs with
  | [] => Some mem
  | b :: bs' =>
      match mem !! (pos / 4)%nat with
      | Some w => memcpy_from bs' (S pos) (<[(pos / 4)%nat := put_byte w (pos mod 4) b]> mem)
      | None => None
      end
  end.
Definition load_buf (addr : Z) (buf : list Z) (s : MEMSIM) : option MEMSIM :=
  match memcpy_from buf (4 * Z.to_nat addr) (m_mem s) with
  | Some mem => Some (s <| m_mem := mem |>)
  | None => None
  end.

(** The inputs of one clock, and its outputs [o_ack], [o_stall], [o_data]. *)
Record wbreq : Type := mkReq {
  wb_cyc : bool; wb_stb : bool; wb_we : bool; wb_addr : Z; wb_data : Z; wb_sel : Z
}.

Definition selmask (wb_sel : Z) : Z :=
  let sel := 0 in
  let sel := if truthy (wb_sel .& 0x8) then sel .| 0x0ff000000 else sel in
  let sel := if truthy (wb_sel .& 0x4) then sel .| 0x000ff0000 else sel in
  let sel := if truthy (wb_sel .& 0x2) then sel .| 0x00000ff00 else sel in
  if truthy (wb_sel .& 0x1) then sel .| 0x0000000ff else sel.

(** The word that a write leaves. *)
Definition merge (sel memv data : Z) : Z :=
  if sel =? 0xffffffff then data else (memv .& (0xffffffff .^ sel)) .| (data .& sel).

Definition apply (r : wbreq) (s : MEMSIM) : option (Z * Z * Z * MEMSIM) :=
  let sel := selmask (wb_sel r) in
  let head := u32 (m_head s + 1) in
  let tail := u32 (head - m_delay s) .& m_delay_mask s in
  let head := head .& m_delay_mask s in
  match m_fifo_ack s !! Z.to_nat tail, m_fifo_data s !! Z.to_nat tail with
  | Some o_ack, Some o_data =>
      let s := s <| m_head := head |> <| m_tail := tail |>
                 <| m_fifo_ack := <[Z.to_nat head := 0]> (m_fifo_ack s) |>
                 <| m_fifo_data := <[Z.to_nat head := 0]> (m_fifo_data s) |> in
      if wb_cyc r && wb_stb r then
        let a := Z.to_nat (wb_addr r .& m_mask s) in
        match m_mem s !! a with
        | Some memv =>
            let v := if wb_we r then merge sel memv (wb_data r) else memv in
            Some (o_ack, 0, o_data,
              s <| m_mem := <[a := v]> (m_mem s) |>
                <| m_fifo_ack := <[Z.to_nat head := 1]> (m_fifo_ack s) |>
                <| m_fifo_data := <[Z.to_nat head := v]> (m_fifo_data s) |>)
        | None => None
        end
      else Some (o_ack, 0, o_data, s)
  | _, _ => None
  end.

(** A string of clocks. *)
Fixpoint run (rs : list wbreq) (s : MEMSIM) : option (list (Z * Z * Z) * MEMSIM) :=
  match rs with
  | [] => Some ([], s)
  | r :: rs' =>
      match apply r s with
      | Some (o, s1) =>
          match run rs' s1 with
          | Some (os, s2) => Some (o :: os, s2)
          | None => None
          end
      | None => None
      end
  end.

(** [operator[]] *)
Definition memsim_at (addr : Z) (s : MEMSIM) : option Z := m_mem s !! Z.to_nat (addr .& m_mask s).

(** ** The memory without its pipeline

    The answer to a request is given at once: an acknowledgement and the word
    as the request leaves it. *)

Definition mem_step (mask : Z) (r : wbreq) (mem : list Z) : (Z * Z) * list Z :=
  if wb_cyc r && wb_stb r then
    let a := Z.to_nat (wb_addr r .& mask) in
    let v := if wb_we r then merge (selmask (wb_sel r)) (mem !!! a) (wb_data r) else mem !!! a in
    ((1, v), <[a := v]> mem)
  else ((0, 0), mem).

Fixpoint mem_run (mask : Z) (rs : list wbreq) (mem : list Z) : list (Z * Z) * list Z :=
  match rs with
  | [] => ([], mem)
  | r :: rs' =>
      let '(o, mem1) := mem_step mask r mem in
      let '(os, mem2) := mem_run mask rs' mem1 in (o :: os, mem2)
  end.

(** ** The invariant *)

Record mem_wf (s : MEMSIM) : Prop := {
  mw_mem : Z.of_nat (length (m_mem s)) = m_len s;
  mw_mask : m_mask s = m_len s - 1;
  mw_len : exists k, 0 <= k <= 31 /\ m_len s = 2 ^ k;
  mw_delay : exists k, 0 <= k <= 31 /\ m_delay_mask s = 2 ^ k - 1;
  mw_range : 1 <= m_delay s <= m_delay_mask s + 1;
  mw_ack : Z.of_nat (length (m_fifo_ack s)) = m_delay_mask s + 1;
  mw_data : Z.of_nat (length (m_fifo_data s)) = m_delay_mask s + 1;
  mw_head : 0 <= m_head s <= m_delay_mask s
}.

(** The ring holds the answers of the last requests, the latest at the head. *)
Definition ring_ok (s : MEMSIM) (past : list (Z * Z)) : Prop :=
  forall i o, 0 <= i <= m_delay_mask s -> past !! Z.to_nat i = Some o ->
    m_fifo_ack s !!! Z.to_nat ((m_head s - i) mod (m_delay_mask s + 1)) = o.1 /\
    m_fifo_data s !!! Z.to_nat ((m_head s - i) mod (m_delay_mask s + 1)) = o.2.

(** Before the first request nothing is acknowledged. *)
Definition ring_quiet (s : MEMSIM) (n : Z) : Prop :=
  forall i, n <= i <= m_delay_mask s ->
    m_fifo_ack s !!! Z.to_nat ((m_head s - i) mod (m_delay_mask s + 1)) = 0.

Lemma mask_mod x m k : 0 <= k -> m = 2 ^ k - 1 -> x .& m = x mod (m + 1).
Proof. intros Hk ->. rewrite land_ones_mod by done. f_equal. lia. Qed.

Lemma pow2_from_spec fuel j n : 0 <= j <= 31 -> 31 <= j + Z.of_nat fuel -> n <= 2 ^ 31 ->
  exists k, j <= k <= 31 /\ pow2_from fuel (2 ^ j) n = Some (2 ^ k) /\ n <= 2 ^ k /\ (k = j \/ 2 ^ (k - 1) < n).
Proof.
  revert j. induction fuel as [| fuel IH]; intros j Hj Hf Hn; cbn [pow2_from].
  - assert (j = 31) as -> by lia. rewrite (proj2 (Z.ltb_ge _ _)) by lia. exists 31. split_and!; (done || lia || by left).
  - destruct (Z.ltb_spec (2 ^ j) n) as [Hlt | Hge].
    + assert (Hj31 : j < 31) by (destruct (decide (j = 31)); [subst; lia | lia]).
      assert (Hs : u32 (2 ^ j .<< 1) = 2 ^ (j + 1)).
      { rewrite shiftl_mul, <- Z.pow_add_r by lia. apply Z.mod_small.
        split; [lia | apply Z.pow_lt_mono_r; lia]. }
      rewrite Hs. destruct (IH (j + 1)) as (k & Hk & -> & Hle & Hm); [lia | lia | done |].
      exists k. split; [lia |]. split; [done |]. split; [done |]. right.
      destruct Hm as [-> | Hm]; [by replace (j + 1 - 1) with j by lia | done].
    + exists j. split; [lia |]. split; [done |]. split; [done | by left].
Qed.

Lemma pow2_ge_spec n : n <= 2 ^ 31 -> exists k, 0 <= k <= 31 /\ pow2_ge n = Some (2 ^ k) /\ n <= 2 ^ k /\
  (k = 0 \/ 2 ^ (k - 1) < n).
Proof. intros Hn. exact (pow2_from_spec 32 0 n ltac:(lia) ltac:(lia) Hn). Qed.

Lemma memsim_new_ok junk nwords delay : 1 <= nwords <= 2 ^ 31 -> 1 <= delay <= 2 ^ 31 ->
  exists s, memsim_new junk nwords delay = Some s /\ mem_wf s /\ ring_ok s [] /\ ring_quiet s 0 /\
    m_delay s = delay /\ nwords <= m_len s.
Proof.
  intros Hn Hd. unfold memsim_new.
  destruct (pow2_ge_spec nwords) as (k & Hk & -> & Hle & _); [lia |].
  destruct (pow2_ge_spec delay) as (j & Hj & -> & Hlej & _); [lia |].
  assert (0 < 2 ^ k) by lia. assert (0 < 2 ^ j) by lia.
  eexists. split; [reflexivity |]. split; [split; cbn -[Z.pow]; rewrite ?length_replicate; try lia |].
  - by exists k.
  - by exists j.
  - split; [by intros i o _ Ho |]. split; [| split; [done | cbn; lia]].
    intros i Hi. cbn -[Z.pow] in *. rewrite lookup_total_replicate_2; [done |].
    pose proof (Z.mod_pos_bound (0 - i) (2 ^ j - 1 + 1)). lia.
Qed.

(** The slot that a clock reads: the answer of the request [m_delay] clocks ago. *)
Lemma tail_slot s : mem_wf s ->
  u32 (u32 (m_head s + 1) - m_delay s) .& m_delay_mask s =
    (m_head s - (m_delay s - 1)) mod (m_delay_mask s + 1) /\
  u32 (m_head s + 1) .& m_delay_mask s = (m_head s + 1) mod (m_delay_mask s + 1).
Proof.
  intros [_ _ _ (k & Hk & Hm) Hd _ _ Hh].
  assert (Hp : 2 ^ k <= 2 ^ 31) by (apply Z.pow_le_mono_r; lia).
  assert (Hh1 : u32 (m_head s + 1) = m_head s + 1) by (apply Z.mod_small; lia).
  rewrite Hh1, !(mask_mod _ _ k) by lia. split; [| done].
  unfold u32. replace (m_delay_mask s + 1) with (2 ^ k) by lia.
  replace (2 ^ 32) with (2 ^ k * 2 ^ (32 - k)) by (rewrite <- Z.pow_add_r by lia; f_equal; lia).
  rewrite Z.mod_mod_divide; [f_equal; lia | exists (2 ^ (32 - k)); lia].
Qed.

Lemma ring_push N h i : 0 < N -> 0 <= h < N -> 1 <= i < N ->
  ((h + 1) mod N - i) mod N = (h - (i - 1)) mod N /\ (h - (i - 1)) mod N <> (h + 1) mod N.
Proof.
  intros HN Hh Hi. split; [rewrite Zminus_mod_idemp_l; f_equal; lia |].
  intros Heq. assert (Hz : (i mod N) = 0).
  { replace i with ((h + 1) - (h - (i - 1))) by lia. rewrite Zminus_mod, Heq, Z.sub_diag. by apply Z.mod_0_l; lia. }
  rewrite Z.mod_small in Hz by lia. lia.
Qed.

(** One clock. *)
Lemma apply_ok r s past : mem_wf s -> ring_ok s past -> ring_quiet s (Z.of_nat (length past)) ->
  exists ack data s',
    apply r s = Some (ack, 0, data, s') /\ mem_wf s' /\
    m_mem s' = (mem_step (m_mask s) r (m_mem s)).2 /\ m_mask s' = m_mask s /\ m_delay s' = m_delay s /\
    ring_ok s' ((mem_step (m_mask s) r (m_mem s)).1 :: past) /\
    ring_quiet s' (Z.of_nat (S (length past))) /\
    match past !! Z.to_nat (m_delay s - 1) with
    | Some o => (ack, data) = o
    | None => ack = 0
    end.
Proof.
  intros Hwf Hring Hquiet. destruct (tail_slot s Hwf) as [Htail Hhead].
  pose proof Hwf as [W1 W2 (k & Hk & W3) W4 W5 W6 W7 W8].
  unfold apply. rewrite Htail, Hhead. set (N := m_delay_mask s + 1) in *.
  pose proof (Z.mod_pos_bound (m_head s - (m_delay s - 1)) N ltac:(lia)) as Ht.
  pose proof (Z.mod_pos_bound (m_head s + 1) N ltac:(lia)) as Hh.
  set (tl := (m_head s - (m_delay s - 1)) mod N) in *. set (hd := (m_head s + 1) mod N) in *.
  assert (Ha : is_Some (m_fifo_ack s !! Z.to_nat tl)) by (apply lookup_lt_is_Some; lia).
  assert (Hd : is_Some (m_fifo_data s !! Z.to_nat tl)) by (apply lookup_lt_is_Some; lia).
  destruct Ha as [ack Ha], Hd as [data Hd]. rewrite Ha, Hd.
  assert (Hout : match past !! Z.to_nat (m_delay s - 1) with
     | Some o => (ack, data) = o | None => ack = 0 end).
  { apply list_lookup_total_correct in Ha, Hd. destruct (past !! Z.to_nat (m_delay s - 1)) as [o |] eqn:Ho.
    - destruct (Hring (m_delay s - 1) o) as [R1 R2]; [lia | done |]. fold N tl in R1, R2.
      rewrite Ha in R1. rewrite Hd in R2. by destruct o; cbn in *; subst.
    - apply lookup_ge_None in Ho. rewrite <- Ha. apply (Hquiet (m_delay s - 1)). lia. }
  unfold mem_step. cbn [m_mask m_mem set_field set_head set_tail set_fifo_ack set_fifo_data].
  assert (Hnew : forall o s', m_delay_mask s' = m_delay_mask s -> m_head s' = hd ->
    m_fifo_ack s' = <[Z.to_nat hd := o.1]> (m_fifo_ack s) ->
    m_fifo_data s' = <[Z.to_nat hd := o.2]> (m_fifo_data s) ->
    ring_ok s' (o :: past) /\ ring_quiet s' (Z.of_nat (S (length past)))).
  { intros o s' E1 E2 E3 E4. split.
    - intros i x Hi Hx. rewrite E1, E2, E3, E4 in *. fold N. destruct (decide (i = 0)) as [-> | Hne].
      + injection Hx as <-. rewrite Z.sub_0_r, (Z.mod_small hd) by lia.
        rewrite !list_lookup_total_insert_eq by lia. done.
      + destruct (ring_push N (m_head s) i) as [R1 R2]; [lia | lia | lia |]. fold hd in R1, R2.
        pose proof (Z.mod_pos_bound (m_head s - (i - 1)) N ltac:(lia)).
        rewrite R1, !list_lookup_total_insert_ne by lia. apply Hring; [lia |].
        replace (Z.to_nat i) with (S (Z.to_nat (i - 1))) in Hx by lia. done.
    - intros i Hi. rewrite E1, E2, E3 in *. fold N.
      destruct (ring_push N (m_head s) i) as [R1 R2]; [lia | lia | lia |]. fold hd in R1, R2.
      pose proof (Z.mod_pos_bound (m_head s - (i - 1)) N ltac:(lia)).
      rewrite R1, list_lookup_total_insert_ne by lia. apply Hquiet. lia. }
  destruct (wb_cyc r && wb_stb r).
  - assert (Hlen : 0 < 2 ^ k) by lia.
    pose proof (Z.mod_pos_bound (wb_addr r) (2 ^ k) Hlen) as Haddr.
    rewrite (mask_mod _ _ k) by lia. replace (m_mask s + 1) with (2 ^ k) by lia.
    assert (Hm : is_Some (m_mem s !! Z.to_nat (wb_addr r mod 2 ^ k))) by (apply lookup_lt_is_Some; lia).
    destruct Hm as [memv Hm]. rewrite Hm, (list_lookup_total_correct _ _ _ Hm).
    set (v := if wb_we r then _ else _).
    do 3 eexists. split; [reflexivity |]. cbn -[Z.pow]. rewrite !list_insert_insert_eq.
    destruct (Hnew (1, v) (s <| m_head := hd |> <| m_tail := tl |>
      <| m_mem := <[Z.to_nat (wb_addr r mod 2 ^ k) := v]> (m_mem s) |>
      <| m_fifo_ack := <[Z.to_nat hd := 1]> (m_fifo_ack s) |>
      <| m_fifo_data := <[Z.to_nat hd := v]> (m_fifo_data s) |>)) as [N1 N2]; [done.. |].
    split_and!; try done. split; cbn -[Z.pow]; rewrite ?length_insert; try done; [by exists k | lia].
  - do 3 eexists. split; [reflexivity |]. cbn.
    destruct (Hnew (0, 0) (s <| m_head := hd |> <| m_tail := tl |>
      <| m_fifo_ack := <[Z.to_nat hd := 0]> (m_fifo_ack s) |>
      <| m_fifo_data := <[Z.to_nat hd := 0]> (m_fifo_data s) |>)) as [N1 N2]; [done.. |].
    split_and!; try done. split; cbn; rewrite ?length_insert; try done; [by exists k | lia].
Qed.

(** A string of clocks, with the requests before it. *)
Lemma run_ok rs s past : mem_wf s -> ring_ok s past -> ring_quiet s (Z.of_nat (length past)) ->
  let answers := (mem_run (m_mask s) rs (m_mem s)).1 in
  exists outs s', run rs s = Some (outs, s') /\ mem_wf s' /\
    m_mem s' = (mem_run (m_mask s) rs (m_mem s)).2 /\ length outs = length rs /\
    forall k ack stall data, outs !! k = Some (ack, stall, data) -> stall = 0 /\
      match (reverse (take k answers) ++ past) !! Z.to_nat (m_delay s - 1) with
      | Some o => (ack, data) = o
      | None => ack = 0
      end.
Proof.
  revert s past. induction rs as [| r rs IH]; intros s past Hwf Hr Hq; cbn [run mem_run].
  { exists [], s. split_and!; done. }
  destruct (apply_ok r s past Hwf Hr Hq) as (ack & data & s1 & Ha & Hwf1 & Hm & Hmask & Hdl & Hr1 & Hq1 & Ho).
  rewrite Ha. destruct (mem_step (m_mask s) r (m_mem s)) as [o mem1]. cbn [fst snd] in *. subst mem1.
  destruct (IH s1 (o :: past) Hwf1 Hr1 Hq1) as (outs & s2 & Hrun & Hwf2 & Hm2 & Hl & Hout).
  rewrite Hrun. rewrite Hmask, Hdl in *. destruct (mem_run (m_mask s) rs (m_mem s1)) as [os mem2].
  cbn [fst snd] in *. do 2 eexists. split; [reflexivity |]. split_and!; try done; [cbn; lia |].
  intros [| k] a st d Hk; cbn in Hk.
  - injection Hk as <- <- <-. split; [done |]. exact Ho.
  - cbn [take]. rewrite reverse_cons, <- app_assoc. cbn [app]. by apply Hout.
Qed.

(** ** Properties *)

(** C18: The simulated memory answers every request exactly [delay] clocks
    later.  From construction on, whatever the requests, no access leaves an
    array, the memory never stalls, the first [delay] clocks acknowledge
    nothing, and the output of each later clock is the acknowledgement and the
    word that a memory without a pipeline gives to the request [delay] clocks
    before. *)
Theorem memsim_pipeline junk nwords delay rs : 1 <= nwords <= 2 ^ 31 -> 1 <= delay <= 2 ^ 31 ->
  exists s outs s', memsim_new junk nwords delay = Some s /\ run rs s = Some (outs, s') /\
    let '(answers, mem') := mem_run (m_mask s) rs (m_mem s) in
    m_mem s' = mem' /\ length outs = length rs /\
    forall k ack stall data, outs !! k = Some (ack, stall, data) -> stall = 0 /\
      (if Z.of_nat k <? delay then ack = 0 else answers !! (k - Z.to_nat delay)%nat = Some (ack, data)).
Proof.
  intros Hn Hd. destruct (memsim_new_ok junk nwords delay Hn Hd) as (s & Hnew & Hwf & Hr & Hq & Hdl & _).
  destruct (run_ok rs s [] Hwf Hr Hq) as (outs & s' & Hrun & _ & Hm & Hl & Hout).
  exists s, outs, s'. split; [done |]. split; [done |].
  assert (Hal : forall mem, length (mem_run (m_mask s) rs mem).1 = length rs).
  { clear. induction rs as [| r rs IH]; intros mem; cbn; [done |].
    destruct (mem_step _ r mem) as [o m1]. specialize (IH m1). destruct (mem_run _ rs m1). cbn in *. lia. }
  specialize (Hal (m_mem s)). destruct (mem_run (m_mask s) rs (m_mem s)) as [answers mem']. cbn [fst snd] in *.
  split; [done |]. split; [done |]. intros k ack stall data Hk.
  destruct (Hout k ack stall data Hk) as [-> Ho]. split; [done |].
  apply lookup_lt_Some in Hk. rewrite app_nil_r, Hdl in Ho.
  assert (Htk : length (take k answers) = k) by (apply length_take_le; lia).
  destruct (Z.ltb_spec (Z.of_nat k) delay) as [Hlt | Hge].
  - by rewrite (lookup_ge_None_2 (reverse _)) in Ho by (rewrite length_reverse; lia).
  - rewrite reverse_lookup, Htk, lookup_take_lt in Ho by lia.
    replace (k - S (Z.to_nat (delay - 1)))%nat with (k - Z.to_nat delay)%nat in Ho by lia.
    assert (Hs : is_Some (answers !! (k - Z.to_nat delay)%nat)) by (apply lookup_lt_is_Some; lia).
    destruct Hs as [o Hs]. rewrite Hs in *. by f_equal.
Qed.

Lemma memsim_pipeline_witness :
  exists s outs s', memsim_new 0 16 3 = Some s /\
    run [mkReq true true true 2 7 15; mkReq true true false 2 0 0] s = Some (outs, s') /\
    let '(answers, mem') := mem_run (m_mask s) [mkReq true true true 2 7 15; mkReq true true false 2 0 0] (m_mem s) in
    m_mem s' = mem' /\ length outs = 2%nat /\
    forall k ack stall data, outs !! k = Some (ack, stall, data) -> stall = 0 /\
      (if Z.of_nat k <? 3 then ack = 0 else answers !! (k - Z.to_nat 3)%nat = Some (ack, data)).
Proof.
  apply (memsim_pipeline 0 16 3 [mkReq true true true 2 7 15; mkReq true true false 2 0 0]); lia.
Defined.

(** A byte of a word. *)
Definition lane (i v : Z) : Z := (v .>> (8 * i)) .& 0xff.

Definition lanes_ok (sel : Z) : bool :=
  let m := selmask sel in
  forallb (fun i => (lane i m =? if Z.testbit sel i then 0xff else 0) &&
                    (lane i (0xffffffff .^ m) =? if Z.testbit sel i then 0 else 0xff)) [0; 1; 2; 3] &&
  Bool.eqb (m =? 0xffffffff) (sel =? 15).

Lemma land_lane i a b : 0 <= i -> lane i (a .& b) = lane i a .& lane i b.
Proof.
  intros Hi. unfold lane. rewrite Z.shiftr_land. apply Z.bits_inj'. intros n Hn.
  rewrite !Z.land_spec. destruct (Z.testbit 255 n), (Z.testbit (a .>> (8 * i)) n), (Z.testbit (b .>> (8 * i)) n); done.
Qed.

Lemma lor_lane i a b : 0 <= i -> lane i (a .| b) = lane i a .| lane i b.
Proof.
  intros Hi. unfold lane. rewrite Z.shiftr_lor. apply Z.bits_inj'. intros n Hn.
  rewrite !Z.land_spec, !Z.lor_spec, !Z.land_spec.
  destruct (Z.testbit 255 n), (Z.testbit (a .>> (8 * i)) n), (Z.testbit (b .>> (8 * i)) n); done.
Qed.

Lemma lane_ff i v : lane i v .& 0xff = lane i v.
Proof. unfold lane. by rewrite <- Z.land_assoc. Qed.

(** Byte enables: a write replaces exactly the bytes that [wb_sel] selects,
    and reads back as written when all four are. *)
Theorem write_lanes sel memv data i : 0 <= sel < 16 -> 0 <= i <= 3 ->
  lane i (merge (selmask sel) memv data) = (if Z.testbit sel i then lane i data else lane i memv) /\
  (sel = 15 -> merge (selmask sel) memv data = data).
Proof.
  intros Hs Hi. assert (Hok : lanes_ok sel = true) by (clear -Hs; by_range sel 0 16%nat).
  unfold lanes_ok in Hok. cbn [forallb] in Hok. rewrite !andb_true_iff, !Z.eqb_eq in Hok.
  destruct Hok as [(L0 & L1 & L2 & L3 & _) Heq%Bool.eqb_prop].
  assert (HL : lane i (selmask sel) = (if Z.testbit sel i then 0xff else 0) /\
               lane i (0xffffffff .^ selmask sel) = (if Z.testbit sel i then 0 else 0xff)).
  { assert (Hc : i = 0 \/ i = 1 \/ i = 2 \/ i = 3) by lia.
    by destruct Hc as [-> | [-> | [-> | ->]]]. }
  destruct HL as [Hm Hn]. unfold merge. rewrite Heq. destruct (Z.eqb_spec sel 15) as [-> | Hne].
  - split; [| done]. assert (Hc : i = 0 \/ i = 1 \/ i = 2 \/ i = 3) by lia.
    by destruct Hc as [-> | [-> | [-> | ->]]].
  - split; [| done]. rewrite lor_lane, !land_lane, Hm, Hn by lia.
    destruct (Z.testbit sel i); rewrite ?Z.land_0_r, lane_ff; [by rewrite Z.lor_0_l | by rewrite Z.lor_0_r].
Qed.

Lemma write_lanes_witness :
  lane 1 (merge (selmask 5) 0x11223344 0xaabbccdd) = 0x33 /\ (5 = 15 -> merge (selmask 5) 0x11223344 0xaabbccdd = 0xaabbccdd).
Proof. apply (write_lanes 5 0x11223344 0xaabbccdd 1); lia. Defined.
