(* ===== verification/EnetCtrlSim.v ===== *)
(** The simulated Ethernet PHY's management port: [ENETCTRLSIM]
    (src/sim/verilated/enetctrlsim.cpp), called once per system clock with the
    MDIO clock and data lines.

    [int] is 32 bits; the shift registers [m_datareg] and [m_outreg] wrap, as
    they do on the hosts it runs on.  [None] is the failed [assert].  The
    diagnostics that [operator()] prints are left out. *)

From stdpp Require Import base tactics list numbers option.
From Stdlib Require Import ZArith Lia.
From S2P Require Import Prelude.
Local Open Scope Z_scope.

Definition ENET_MEMWORDS : Z := 32.

Record ENETCTRLSIM : Type := mkENETCTRLSIM {
  m_consecutive_clocks : Z;
  m_lastout : Z;
  m_tickcount : Z;
  m_ticks_per_clock : Z;
  m_lastclk : Z;
  TICKS_PER_CLOCK : Z;
  PHY_ADDR : Z;
  m_emem : list Z;       (* m_mem *)
  m_synched : bool;
  m_datareg : Z;
  m_halfword : Z;
  m_outreg : Z
}.

#[export] Instance set_m_consecutive_clocks : Setter m_consecutive_clocks := fun v s =>
  mkENETCTRLSIM v (m_lastout s) (m_tickcount s) (m_ticks_per_clock s) (m_lastclk s) (TICKS_PER_CLOCK s) (PHY_ADDR s) (m_emem s) (m_synched s) (m_datareg s) (m_halfword s) (m_outreg s).
#[export] Instance set_m_lastout : Setter m_lastout := fun v s =>
  mkENETCTRLSIM (m_consecutive_clocks s) v (m_tickcount s) (m_ticks_per_clock s) (m_lastclk s) (TICKS_PER_CLOCK s) (PHY_ADDR s) (m_emem s) (m_synched s) (m_datareg s) (m_halfword s) (m_outreg s).
#[export] Instance set_m_tickcount : Setter m_tickcount := fun v s =>
  mkENETCTRLSIM (m_consecutive_clocks s) (m_lastout s) v (m_ticks_per_clock s) (m_lastclk s) (TICKS_PER_CLOCK s) (PHY_ADDR s) (m_emem s) (m_synched s) (m_datareg s) (m_halfword s) (m_outreg s).
#[export] Instance set_m_ticks_per_clock : Setter m_ticks_per_clock := fun v s =>
  mkENETCTRLSIM (m_consecutive_clocks s) (m_lastout s) (m_tickcount s) v (m_lastclk s) (TICKS_PER_CLOCK s) (PHY_ADDR s) (m_emem s) (m_synched s) (m_datareg s) (m_halfword s) (m_outreg s).
#[export] Instance set_m_lastclk : Setter m_lastclk := fun v s =>
  mkENETCTRLSIM (m_consecutive_clocks s) (m_lastout s) (m_tickcount s) (m_ticks_per_clock s) v (TICKS_PER_CLOCK s) (PHY_ADDR s) (m_emem s) (m_synched s) (m_datareg s) (m_halfword s) (m_outreg s).
#[export] Instance set_m_emem : Setter m_emem := fun v s =>
  mkENETCTRLSIM (m_consecutive_clocks s) (m_lastout s) (m_tickcount s) (m_ticks_per_clock s) (m_lastclk s) (TICKS_PER_CLOCK s) (PHY_ADDR s) v (m_synched s) (m_datareg s) (m_halfword s) (m_outreg s).
#[export] Instance set_m_synched : Setter m_synched := fun v s =>
  mkENETCTRLSIM (m_consecutive_clocks s) (m_lastout s) (m_tickcount s) (m_ticks_per_clock s) (m_lastclk s) (TICKS_PER_CLOCK s) (PHY_ADDR s) (m_emem s) v (m_datareg s) (m_halfword s) (m_outreg s).
#[export] Instance set_m_datareg : Setter m_datareg := fun v s =>
  mkENETCTRLSIM (m_consecutive_clocks s) (m_lastout s) (m_tickcount s) (m_ticks_per_clock s) (m_lastclk s) (TICKS_PER_CLOCK s) (PHY_ADDR s) (m_emem s) (m_synched s) v (m_halfword s) (m_outreg s).
#[export] Instance set_m_halfword : Setter m_halfword := fun v s =>
  mkENETCTRLSIM (m_consecutive_clocks s) (m_lastout s) (m_tickcount s) (m_ticks_per_clock s) (m_lastclk s) (TICKS_PER_CLOCK s) (PHY_ADDR s) (m_emem s) (m_synched s) (m_datareg s) v (m_outreg s).
#[export] Instance set_m_outreg : Setter m_outreg := fun v s =>
  mkENETCTRLSIM (m_consecutive_clocks s) (m_lastout s) (m_tickcount s) (m_ticks_per_clock s) (m_lastclk s) (TICKS_PER_CLOCK s) (PHY_ADDR s) (m_emem s) (m_synched s) (m_datareg s) (m_halfword s) v.

(** The constructor. *)
Definition ENETCTRLSIM_new : ENETCTRLSIM :=
  mkENETCTRLSIM 0 0 0 0 0 4 1 (replicate 32 0) false (-1) 0 (-1).

(** The part of [operator()] under [if ((posedge)&&(m_synched))]: a bit is
    shifted in, and what is then in the register is looked at. *)
Definition enet_cmd (s : ENETCTRLSIM) : option ENETCTRLSIM :=
  if (m_halfword s =? 0) && (m_datareg s .& 0x8000 =? 0) then
    let s := s <| m_halfword := 1 |> in
    let cmd := (m_datareg s .>> 12) .& 0x0f in
    let phy := (m_datareg s .>> 7) .& 0x01f in
    if (cmd =? 6) && (phy =? PHY_ADDR s) then
      let addr := (m_datareg s .>> 2) .& 0x01f in
      Some (s <| m_outreg := s32 (((m_emem s !!! Z.to_nat addr .& 0x0ffff) .<< 15) .| 0x080007fff) |>)
    else Some s
  else if negb (m_halfword s =? 0) && (m_halfword s <? 16) then
    Some (s <| m_halfword := m_halfword s + 1 |>)
  else if negb (m_halfword s =? 0) then
    let s := s <| m_halfword := 0 |> in
    let cmd := (m_datareg s .>> 28) .& 0x0f in
    let phy := (m_datareg s .>> 23) .& 0x01f in
    if (cmd =? 5) && (phy =? PHY_ADDR s) then
      if m_datareg s .& 0x010000 =? 0 then
        let addr := (m_datareg s .>> 18) .& 0x1f in
        Some (s <| m_emem := <[Z.to_nat addr := m_datareg s .& 0x0ffff]> (m_emem s) |> <| m_datareg := -1 |>)
      else None
    else Some (s <| m_datareg := -1 |>)
  else Some s.

Definition enet_shift (data : Z) (s : ENETCTRLSIM) : option ENETCTRLSIM :=
  enet_cmd (s <| m_datareg := s32 (s32 (m_datareg s .<< 1) .| (data .& 1)) |>).

Definition enet_call (in_reset clk data : Z) (s : ENETCTRLSIM) : option (Z * ENETCTRLSIM) :=
  let posedge := truthy clk && negb (truthy (m_lastclk s)) in
  let negedge := negb (truthy clk) && truthy (m_lastclk s) in
  let s := s <| m_tickcount := s32 (m_tickcount s + 1) |> in
  if truthy in_reset then
    Some (1, s <| m_consecutive_clocks := 0 |> <| m_synched := false |> <| m_lastout := 1 |>
               <| m_datareg := -1 |> <| m_lastclk := clk |>)
  else
    let s :=
      if posedge then
        let s :=
          if truthy data && (m_consecutive_clocks s <? 128)
          then s <| m_consecutive_clocks := m_consecutive_clocks s + 1 |>
          else if negb (truthy data) then s <| m_consecutive_clocks := 0 |> else s in
        let s :=
          if negb (m_tickcount s =? m_ticks_per_clock s) || (m_ticks_per_clock s <? TICKS_PER_CLOCK s)
          then s <| m_consecutive_clocks := 0 |> <| m_synched := false |> else s in
        s <| m_ticks_per_clock := m_tickcount s |> <| m_tickcount := 0 |>
      else s in
    let s :=
      if 32 <? m_consecutive_clocks s
      then s <| m_synched := true |> <| m_lastout := 1 |> <| m_halfword := 0 |> <| m_datareg := -1 |>
      else s in
    match (if posedge && m_synched s then enet_shift data s
           else if negedge then Some (s <| m_outreg := s32 (s32 (m_outreg s .<< 1) .| 1) |>)
           else Some s) with
    | Some s =>
        let output := if truthy (m_outreg s .& 0x40000000) then 1 else 0 in
        Some ((data .& output) .& 1, s <| m_lastclk := clk |>)
    | None => None
    end.

(** [operator[]] *)
Definition enet_at (index : Z) (s : ENETCTRLSIM) : Z :=
  m_emem s !!! Z.to_nat (index .& (ENET_MEMWORDS - 1)) .& 0x0ffff.

(** A string of calls out of reset: the clock and data lines, the data driven
    by the PHY. *)
Fixpoint enet_calls (io : list (Z * Z)) (s : ENETCTRLSIM) : option (list Z * ENETCTRLSIM) :=
  match io with
  | [] => Some ([], s)
  | (clk, data) :: io' =>
      match enet_call 0 clk data s with
      | Some (o, s1) =>
          match enet_calls io' s1 with
          | Some (os, s2) => Some (o :: os, s2)
          | None => None
          end
      | None => None
      end
  end.

(** One period of the MDIO clock: high for [h] calls and low for [l]. *)
Definition period (h l : nat) (b : bool) : list (Z * Z) :=
  replicate h (1, of_bool b) ++ replicate l (0, of_bool b).

(** ** One period *)

Lemma enet_calls_app io1 io2 s : enet_calls (io1 ++ io2) s =
  match enet_calls io1 s with
  | Some (o1, s1) =>
      match enet_calls io2 s1 with Some (o2, s2) => Some (o1 ++ o2, s2) | None => None end
  | None => None
  end.
Proof.
  revert s. induction io1 as [| [clk data] io1 IH]; intros s; cbn [enet_calls app].
  - by destruct (enet_calls io2 s) as [[]|].
  - destruct (enet_call 0 clk data s) as [[o s1] |]; [| done]. rewrite IH.
    destruct (enet_calls io1 s1) as [[o1 s2] |]; [| done]. by destruct (enet_calls io2 s2) as [[]|].
Qed.

(** Calls without an edge only count. *)
Lemma hold_calls k clk data s :
  clk = 0 \/ clk = 1 -> m_lastclk s = clk -> m_consecutive_clocks s <= 32 -> 0 <= m_tickcount s ->
  m_tickcount s + Z.of_nat k < 2 ^ 31 ->
  exists os, enet_calls (replicate k (clk, data)) s =
    Some (os, s <| m_tickcount := m_tickcount s + Z.of_nat k |>).
Proof.
  intros Hclk. revert s. induction k as [| k IH]; intros s Hl Hc H0 Ht; cbn [replicate enet_calls].
  - exists []. rewrite Z.add_0_r. by destruct s.
  - unfold enet_call. rewrite s32_id by lia. rewrite Hl.
    replace (truthy clk && negb (truthy clk)) with false by (destruct Hclk as [-> | ->]; done).
    replace (negb (truthy clk) && truthy clk) with false by (destruct Hclk as [-> | ->]; done).
    cbn [truthy Z.eqb negb andb m_consecutive_clocks set_field set_m_tickcount].
    rewrite (proj2 (Z.ltb_ge 32 (m_consecutive_clocks s))) by lia.
    destruct (IH (s <| m_tickcount := m_tickcount s + 1 |> <| m_lastclk := clk |>)) as [os Hos];
      [done | done | cbn; lia | cbn; lia |].
    cbv beta iota zeta. rewrite Hos. eexists. cbn. do 2 f_equal. rewrite <- Hl. unfold set_field, set_m_tickcount, set_m_lastclk. cbn.
    f_equal. lia.
Qed.

(** Between two frames or inside of one, at the end of an MDIO clock of [n] calls. *)
Record mdio (n : Z) (s : ENETCTRLSIM) : Prop := {
  md_n : 4 <= n < 2 ^ 31;
  md_clk : m_lastclk s = 0;
  md_tick : m_tickcount s = n - 1;
  md_per : m_ticks_per_clock s = n;
  md_tpc : TICKS_PER_CLOCK s = 4;
  md_phy : PHY_ADDR s = 1;
  md_sync : m_synched s = true;
  md_mem : length (m_emem s) = 32%nat
}.

(** What [operator()] has done at the positive edge before it shifts. *)
Definition edged (n : Z) (b : bool) (s : ENETCTRLSIM) : ENETCTRLSIM :=
  s <| m_tickcount := 0 |> <| m_ticks_per_clock := n |>
    <| m_consecutive_clocks := (if b then m_consecutive_clocks s + 1 else 0) |>.

Definition outbit (s : ENETCTRLSIM) : Z := if truthy (m_outreg s .& 0x40000000) then 1 else 0.

(** The end of a period: the output register has moved on. *)
Definition lowered (n : Z) (s : ENETCTRLSIM) : ENETCTRLSIM :=
  s <| m_tickcount := n - 1 |> <| m_lastclk := 0 |> <| m_outreg := s32 (s32 (m_outreg s .<< 1) .| 1) |>.

Lemma posedge_call n b s s2 : mdio n s -> (b = true -> m_consecutive_clocks s < 32) ->
  enet_shift (of_bool b) (edged n b s) = Some s2 ->
  enet_call 0 1 (of_bool b) s = Some ((of_bool b .& outbit s2) .& 1, s2 <| m_lastclk := 1 |>).
Proof.
  intros [Hn Hc Ht Hp Htp Hph Hsy Hm] Hcc Hsh. destruct s as [cc lo tk tpc lc TPC PHY mem sy dr hw og].
  cbn in Hc, Ht, Hp, Htp, Hph, Hsy, Hm, Hcc. subst lc tk tpc TPC PHY sy. unfold enet_call, edged in *.
  unfold set_field in *. cbv [set_m_tickcount set_m_lastclk set_m_consecutive_clocks set_m_ticks_per_clock
    m_lastclk m_tickcount m_consecutive_clocks m_ticks_per_clock TICKS_PER_CLOCK m_synched set_m_synched
    set_m_lastout set_m_halfword set_m_datareg m_lastout PHY_ADDR m_emem m_datareg m_halfword m_outreg] in Hsh |- *.
  change (truthy 1) with true. change (truthy 0) with false. cbn [andb negb].
  rewrite s32_id by lia. replace (n - 1 + 1) with n by lia.
  assert (E1 : b = true -> (cc <? 128) = true) by (intros Hb; specialize (Hcc Hb); apply Z.ltb_lt; lia).
  assert (E2 : (n <? 4) = false) by (apply Z.ltb_ge; lia).
  assert (E3 : b = true -> (32 <? cc + 1) = false) by (intros Hb; specialize (Hcc Hb); apply Z.ltb_ge; lia).
  destruct b; cbn [of_bool] in *; [change (truthy 1) with true | change (truthy 0) with false];
    cbn [andb negb]; rewrite ?E1, Z.eqb_refl, E2 by done; cbn [andb negb orb]; [rewrite E3 by done | change (32 <? 0) with false];
    cbv iota; rewrite Hsh; by destruct s2.
Qed.

(** A whole period around [enet_shift]. *)
Lemma period_run h l b s s2 n : n = Z.of_nat (h + l) -> (1 <= h)%nat -> (1 <= l)%nat -> mdio n s ->
  (b = true -> m_consecutive_clocks s < 32) -> enet_shift (of_bool b) (edged n b s) = Some s2 ->
  m_consecutive_clocks s2 <= 32 -> m_tickcount s2 = 0 ->
  exists os, enet_calls (period h l b) s = Some ((of_bool b .& outbit s2) .& 1 :: os, lowered n s2).
Proof.
  intros -> Hh Hl Hmd Hcc Hsh Hc2 Ht2. unfold period. destruct h as [| h]; [lia |].
  destruct l as [| l]; [lia |]. cbn [replicate app enet_calls].
  rewrite (posedge_call _ _ _ _ Hmd Hcc Hsh). rewrite enet_calls_app.
  pose proof (md_n _ _ Hmd) as Hn.
  destruct (hold_calls h 1 (of_bool b) (s2 <| m_lastclk := 1 |>)) as [o1 H1];
    [by right | done | done | cbn; lia | cbn; lia |].
  rewrite H1. cbn [replicate enet_calls].
  set (s3 := s2 <| m_lastclk := 1 |> <| m_tickcount := _ |>).
  assert (H2 : exists o, enet_call 0 0 (of_bool b) s3 = Some (o,
     s2 <| m_tickcount := Z.of_nat h + 1 |> <| m_lastclk := 0 |> <| m_outreg := s32 (s32 (m_outreg s2 .<< 1) .| 1) |>)).
  { destruct s2 as [cc lo tk tpc lc TPC PHY mem sy dr hw og]. cbn in Hc2, Ht2. subst tk s3.
    unfold enet_call, set_field. cbv [set_m_tickcount set_m_lastclk m_lastclk m_tickcount m_consecutive_clocks].
    cbn [m_consecutive_clocks m_synched truthy Z.eqb negb andb m_outreg].
    rewrite (s32_id (_ + 1)) by lia. rewrite (proj2 (Z.ltb_ge 32 cc)) by lia. by eexists. }
  destruct H2 as [o2 ->].
  destruct (hold_calls l 0 (of_bool b) (s2 <| m_tickcount := Z.of_nat h + 1 |> <| m_lastclk := 0 |>
    <| m_outreg := s32 (s32 (m_outreg s2 .<< 1) .| 1) |>)) as [o3 H3];
    [by left | done | done | cbn; lia | cbn; lia |].
  rewrite H3. eexists. do 2 f_equal. unfold lowered. cbn. 
  unfold set_field, set_m_tickcount, set_m_lastclk, set_m_outreg. cbn. f_equal. lia.
Qed.

(** ** Frames *)

(** A frame, a period for each bit: the line as seen at each positive edge. *)
Fixpoint enet_frame (h l : nat) (bits : list bool) (s : ENETCTRLSIM) : option (list Z * ENETCTRLSIM) :=
  match bits with
  | [] => Some ([], s)
  | b :: bits' =>
      match enet_calls (period h l b) s with
      | Some (o :: _, s1) =>
          match enet_frame h l bits' s1 with
          | Some (os, s2) => Some (o :: os, s2)
          | None => None
          end
      | _ => None
      end
  end.

Lemma enet_frame_app h l b1 b2 s : enet_frame h l (b1 ++ b2) s =
  match enet_frame h l b1 s with
  | Some (o1, s1) =>
      match enet_frame h l b2 s1 with Some (o2, s2) => Some (o1 ++ o2, s2) | None => None end
  | None => None
  end.
Proof.
  revert s. induction b1 as [| b b1 IH]; intros s; cbn [enet_frame app].
  - by destruct (enet_frame h l b2 s) as [[]|].
  - destruct (enet_calls (period h l b) s) as [[[| o os] s1] |]; [done | | done]. rewrite IH.
    destruct (enet_frame h l b1 s1) as [[o1 s2] |]; [| done]. by destruct (enet_frame h l b2 s2) as [[]|].
Qed.

(** *** Shift registers *)

Lemma s32_mod x : exists q, s32 x = x + q * 2 ^ 32.
Proof. unfold s32. exists (- ((x + 2 ^ 31) / 2 ^ 32)). pose proof (Z.div_mod (x + 2 ^ 31) (2 ^ 32)). lia. Qed.

Lemma s32_add x q : s32 (x + q * 2 ^ 32) = s32 x.
Proof.
  unfold s32. replace (x + q * 2 ^ 32 + 2 ^ 31) with (x + 2 ^ 31 + q * 2 ^ 32) by lia.
  by rewrite Z.mod_add.
Qed.

Lemma lor_bit x b : (2 * x) .| of_bool b = 2 * x + of_bool b.
Proof.
  pose proof (lor_shiftl_add x (of_bool b) 1 ltac:(lia)) as H. rewrite shiftl_mul in H by lia.
  replace (2 * x) with (x * 2 ^ 1) by lia. apply H. destruct b; cbn; lia.
Qed.

(** One more bit in a shift register. *)
Lemma shift_raw x b : s32 (s32 (x .<< 1) .| of_bool b) = s32 (2 * x + of_bool b).
Proof.
  rewrite shiftl_mul by lia. destruct (s32_mod (x * 2 ^ 1)) as [p ->].
  replace (x * 2 ^ 1 + p * 2 ^ 32) with (2 * (x + p * 2 ^ 31)) by lia.
  rewrite lor_bit. rewrite <- (s32_add (2 * x + of_bool b) p). f_equal. lia.
Qed.

Lemma shift_bit x b : s32 (s32 (s32 x .<< 1) .| of_bool b) = s32 (2 * x + of_bool b).
Proof.
  rewrite shift_raw. destruct (s32_mod x) as [q ->].
  rewrite <- (s32_add (2 * x + of_bool b) (2 * q)). f_equal. lia.
Qed.

(** A field of a shift register. *)
Lemma s32_field x sh k : 0 <= sh -> 0 <= k -> sh + k <= 32 ->
  (s32 x .>> sh) .& (2 ^ k - 1) = (x / 2 ^ sh) mod 2 ^ k.
Proof.
  intros Hs Hk Hle. rewrite land_ones_mod, shiftr_div by lia. destruct (s32_mod x) as [q ->].
  replace (q * 2 ^ 32) with ((q * 2 ^ (32 - sh - k) * 2 ^ k) * 2 ^ sh).
  - rewrite Z.div_add by lia. by rewrite Z.mod_add by lia.
  - rewrite <- !Z.mul_assoc, <- !Z.pow_add_r by lia. do 2 f_equal. lia.
Qed.

Lemma s32_testbit x i : 0 <= i < 32 -> Z.testbit (s32 x) i = Z.testbit x i.
Proof.
  intros Hi. destruct (s32_mod x) as [q ->].
  rewrite <- (Z.mod_pow2_bits_low (x + q * 2 ^ 32) 32 i), <- (Z.mod_pow2_bits_low x 32 i) by lia.
  by rewrite Z.mod_add.
Qed.

(** *** Inside of a frame *)

(** [k] bits of a frame are in the register, [w] of value. *)
Record inframe (n k w : Z) (s : ENETCTRLSIM) : Prop := {
  if_md : mdio n s;
  if_k : 0 <= k < 32;
  if_cc : 0 < k -> 0 <= m_consecutive_clocks s <= k;
  if_w : 0 <= w < 2 ^ k;
  if_dr : m_datareg s = s32 (w - 2 ^ k);
  if_hw : m_halfword s = if k <? 16 then 0 else k - 15
}.

(** The register with one more bit, before it is looked at. *)
Definition shifted (n k w : Z) (b : bool) (s : ENETCTRLSIM) : ENETCTRLSIM :=
  (edged n b s) <| m_datareg := s32 (2 * w + of_bool b - 2 ^ (k + 1)) |>.

Lemma of_bool_range b : 0 <= of_bool b <= 1.
Proof. destruct b; cbn; lia. Qed.

(** A period: what the command interpreter makes of the register decides. *)
Lemma frame_period h l n k w b s s2 :
  n = Z.of_nat (h + l) -> (1 <= h)%nat -> (1 <= l)%nat -> inframe n k w s -> (k = 0 -> b = false) ->
  enet_cmd (shifted n k w b s) = Some s2 ->
  m_consecutive_clocks s2 = m_consecutive_clocks (shifted n k w b s) -> m_tickcount s2 = 0 ->
  exists os, enet_calls (period h l b) s = Some ((of_bool b .& outbit s2) .& 1 :: os, lowered n s2).
Proof.
  intros Hn Hh Hl [Hmd Hk Hcc Hw Hdr Hhw] Hb0 Hcmd Hc2 Ht2.
  assert (Hcc' : b = true -> m_consecutive_clocks s < 32).
  { intros ->. destruct (decide (k = 0)) as [E | E]; [by specialize (Hb0 E) |]. specialize (Hcc ltac:(lia)). lia. }
  eapply period_run; try done.
  - unfold enet_shift. rewrite <- Hcmd. f_equal. unfold shifted.
    change (m_datareg (edged n b s)) with (m_datareg s). rewrite Hdr.
    replace (of_bool b .& 1) with (of_bool b) by (by destruct b). rewrite shift_bit.
    replace (2 * (w - 2 ^ k) + of_bool b) with (2 * w + of_bool b - 2 ^ (k + 1)); [done |].
    rewrite Z.pow_add_r by lia. lia.
  - rewrite Hc2. cbn. destruct b; [specialize (Hcc' eq_refl); lia | lia].
Qed.

(** The state at the end of a period. *)
Lemma lowered_inframe n k w b s s2 : inframe n k w s -> k < 31 -> (k = 0 -> b = false) ->
  m_ticks_per_clock s2 = n -> TICKS_PER_CLOCK s2 = 4 -> PHY_ADDR s2 = 1 -> m_synched s2 = true ->
  length (m_emem s2) = 32%nat -> m_consecutive_clocks s2 = m_consecutive_clocks (shifted n k w b s) ->
  m_datareg s2 = m_datareg (shifted n k w b s) ->
  m_halfword s2 = (if k + 1 <? 16 then 0 else k + 1 - 15) ->
  inframe n (k + 1) (2 * w + of_bool b) (lowered n s2).
Proof.
  intros [[] Hk Hcc Hw Hdr Hhw] Hk31 Hb0 Htpc HT HP HS HM HC HD HH.
  pose proof (of_bool_range b). assert (Hpow : 2 ^ (k + 1) = 2 * 2 ^ k) by (rewrite Z.pow_add_r by lia; lia).
  split; cbn; try done; try lia.
  intros _. rewrite HC. cbn. destruct b; [| lia].
  destruct (decide (k = 0)) as [E | E]; [by specialize (Hb0 E) |]. specialize (Hcc ltac:(lia)). lia.
Qed.

(** The number of a string of bits, the most significant one first. *)
Definition bitsval (w : Z) (bits : list bool) : Z := foldl (fun w b => 2 * w + of_bool b) w bits.

Lemma testbit_div x i : 0 <= i -> Z.testbit x i = Z.odd (x / 2 ^ i).
Proof. intros Hi. by rewrite Z.testbit_odd, shiftr_div. Qed.

(** Up to the fifteenth bit nothing is recognised. *)
Lemma cmd_early n k w b s : inframe n k w s -> k + 1 < 16 ->
  enet_cmd (shifted n k w b s) = Some (shifted n k w b s).
Proof.
  intros [_ Hk _ Hw _ Hhw] Hk16. pose proof (of_bool_range b).
  assert (Hpow : 2 ^ (k + 1) = 2 * 2 ^ k) by (rewrite Z.pow_add_r by lia; lia).
  assert (H15 : 2 ^ (k + 1) <= 2 ^ 15) by (apply Z.pow_le_mono_r; lia).
  rewrite (proj2 (Z.ltb_lt k 16)) in Hhw by lia.
  unfold enet_cmd. change (m_halfword (shifted n k w b s)) with (m_halfword s). rewrite Hhw.
  change (m_datareg (shifted n k w b s)) with (s32 (2 * w + of_bool b - 2 ^ (k + 1))).
  change 0x8000 with (2 ^ 15). rewrite land_bit, s32_testbit, testbit_div by lia.
  replace ((2 * w + of_bool b - 2 ^ (k + 1)) / 2 ^ 15) with (-1); [done |].
  apply (Z.div_unique _ _ _ (2 * w + of_bool b - 2 ^ (k + 1) + 2 ^ 15)); lia.
Qed.

(** From the seventeenth to the thirty-first they are counted. *)
Lemma cmd_middle n k w b s : inframe n k w s -> 16 <= k < 31 ->
  enet_cmd (shifted n k w b s) = Some ((shifted n k w b s) <| m_halfword := k + 1 - 15 |>).
Proof.
  intros [_ _ _ _ _ Hhw] Hk. rewrite (proj2 (Z.ltb_ge k 16)) in Hhw by lia.
  unfold enet_cmd. change (m_halfword (shifted n k w b s)) with (m_halfword s). rewrite Hhw.
  rewrite (proj2 (Z.eqb_neq (k - 15) 0)), (proj2 (Z.ltb_lt (k - 15) 16)) by lia. cbn [andb negb].
  by replace (k - 15 + 1) with (k + 1 - 15) by lia.
Qed.

Lemma outbit_s32 s Y : m_outreg s = s32 Y -> outbit s = of_bool (Z.testbit Y 30).
Proof.
  intros Hy. unfold outbit, truthy. rewrite Hy. change 0x40000000 with (2 ^ 30).
  rewrite land_bit, s32_testbit, negb_involutive by lia. by destruct (Z.testbit Y 30).
Qed.

Section Frames.
Context (h l : nat) (n : Z) (Hn : n = Z.of_nat (h + l)) (Hh : (1 <= h)%nat) (Hl : (1 <= l)%nat).

Lemma frame_early bits : forall k w s, inframe n k w s -> k + Z.of_nat (length bits) <= 15 ->
  (k = 0 -> forall b, head bits = Some b -> b = false) ->
  exists outs s', enet_frame h l bits s = Some (outs, s') /\
    inframe n (k + Z.of_nat (length bits)) (bitsval w bits) s' /\ m_emem s' = m_emem s /\
    length outs = length bits.
Proof.
  induction bits as [| b bits IH]; intros k w s Hi Hlen H0; cbn [enet_frame length bitsval foldl] in *.
  { exists [], s. rewrite Z.add_0_r. done. }
  assert (Hb0 : k = 0 -> b = false) by (intros E; by apply (H0 E)).
  pose proof (cmd_early n k w b s Hi ltac:(lia)) as Hcmd.
  pose proof Hi as [[Mn Mc Mt Mp Mtp Mph Ms Mm] Hk _ _ _ Hhw].
  destruct (frame_period h l n k w b s _ Hn Hh Hl Hi Hb0 Hcmd) as [os Hos]; [done | done |].
  rewrite Hos. set (s1 := lowered n _).
  assert (Hi1 : inframe n (k + 1) (2 * w + of_bool b) s1).
  { eapply lowered_inframe; try done; [lia |]. cbn. rewrite Hhw.
    by rewrite !(proj2 (Z.ltb_lt _ _)) by lia. }
  destruct (IH (k + 1) _ s1 Hi1) as (outs & s' & -> & Hi' & Hm & Hlo); [lia | lia |].
  exists ((of_bool b .& outbit (shifted n k w b s)) .& 1 :: outs), s'. split; [done |].
  replace (k + Z.of_nat (S (length bits))) with (k + 1 + Z.of_nat (length bits)) by lia.
  split; [done |]. split; [by rewrite Hm | cbn; lia].
Qed.

Lemma frame_middle bits : forall k w s Y, inframe n k w s -> 16 <= k -> k + Z.of_nat (length bits) <= 31 ->
  m_outreg s = s32 Y ->
  exists outs s', enet_frame h l bits s = Some (outs, s') /\
    inframe n (k + Z.of_nat (length bits)) (bitsval w bits) s' /\ m_emem s' = m_emem s /\
    length outs = length bits /\
    (forall i b, bits !! i = Some b -> outs !! i = Some (of_bool (b && Z.testbit Y (30 - Z.of_nat i)))).
Proof.
  induction bits as [| b bits IH]; intros k w s Y Hi Hk Hlen HY; cbn [enet_frame length bitsval foldl] in *.
  { exists [], s. rewrite Z.add_0_r. split_and!; done. }
  pose proof (cmd_middle n k w b s Hi ltac:(lia)) as Hcmd.
  pose proof Hi as [[Mn Mc Mt Mp Mtp Mph Ms Mm] _ _ _ _ Hhw].
  assert (Hb0 : k = 0 -> b = false) by lia.
  destruct (frame_period h l n k w b s _ Hn Hh Hl Hi Hb0 Hcmd) as [os Hos]; [done | done |].
  rewrite Hos. set (s1 := lowered n _). set (s2 := (shifted n k w b s) <| m_halfword := k + 1 - 15 |>) in *.
  assert (Hi1 : inframe n (k + 1) (2 * w + of_bool b) s1).
  { eapply lowered_inframe; try done; [lia |]. cbn. by rewrite (proj2 (Z.ltb_ge _ _)) by lia. }
  assert (HY1 : m_outreg s1 = s32 (2 * Y + 1)).
  { subst s1. cbn. rewrite HY. exact (shift_bit Y true). }
  destruct (IH (k + 1) _ s1 (2 * Y + 1) Hi1) as (outs & s' & -> & Hi' & Hm & Hlo & Hout); [lia | lia | done |].
  eexists _, s'. split; [reflexivity |].
  replace (k + Z.of_nat (S (length bits))) with (k + 1 + Z.of_nat (length bits)) by lia.
  split; [done |]. split; [by rewrite Hm |]. split; [cbn; lia |].
  intros [| i] b' Hb'; cbn in Hb'.
  - injection Hb' as ->. rewrite (outbit_s32 s2 Y) by done.
    change (30 - Z.of_nat 0) with 30. destruct (Z.testbit Y 30); by destruct b'.
  - match goal with |- (?o :: outs) !! _ = _ => change ((o :: outs) !! S i) with (outs !! i) end.
    rewrite (Hout i b' Hb'). do 3 f_equal.
    apply lookup_lt_Some in Hb'. rewrite !testbit_div by lia. f_equal.
    replace (30 - Z.of_nat i) with (Z.succ (30 - Z.of_nat (S i))) by lia.
    rewrite Z.pow_succ_r, <- Z.div_div by lia. f_equal. zlia.
Qed.
End Frames.

(** The sixteenth bit: the first half of the frame is complete. *)
Definition half_cmd (w : Z) (s : ENETCTRLSIM) : ENETCTRLSIM :=
  if ((w / 2 ^ 12) mod 16 =? 6) && ((w / 2 ^ 7) mod 32 =? 1)
  then s <| m_halfword := 1 |>
         <| m_outreg := s32 (m_emem s !!! Z.to_nat ((w / 2 ^ 2) mod 32) mod 2 ^ 16 * 2 ^ 15 + 0x7fff + 2 ^ 31) |>
  else s <| m_halfword := 1 |>.

Lemma s32_field_sub w sh k j : 0 <= sh -> 0 <= k -> sh + k <= j -> j <= 32 ->
  (s32 (w - 2 ^ j) .>> sh) .& (2 ^ k - 1) = (w / 2 ^ sh) mod 2 ^ k.
Proof.
  intros Hs Hk Hle Hj. rewrite s32_field by lia.
  replace (w - 2 ^ j) with (w + (- 2 ^ (j - sh - k) * 2 ^ k) * 2 ^ sh).
  - rewrite Z.div_add by lia. by rewrite Z.mod_add by lia.
  - replace (2 ^ j) with (2 ^ (j - sh - k) * 2 ^ k * 2 ^ sh); [lia |].
    rewrite <- !Z.pow_add_r by lia. f_equal. lia.
Qed.

Lemma outreg_val v : (v .& 0x0ffff) .<< 15 .| 0x080007fff = v mod 2 ^ 16 * 2 ^ 15 + 0x7fff + 2 ^ 31.
Proof.
  rewrite land_65535. change 65536 with (2 ^ 16).
  pose proof (Z.mod_pos_bound v (2 ^ 16) ltac:(lia)) as Hv. set (x := v mod 2 ^ 16) in *.
  change 0x080007fff with (0x7fff .| (1 .<< 31)). rewrite Z.lor_assoc, lor_shiftl_add by lia.
  rewrite Z.lor_comm, lor_shiftl_add by lia. lia.
Qed.

Lemma cmd_half n w b s : inframe n 15 w s -> 2 * w + of_bool b < 2 ^ 15 ->
  enet_cmd (shifted n 15 w b s) = Some (half_cmd (2 * w + of_bool b) (shifted n 15 w b s)).
Proof.
  intros [[Mn Mc Mt Mp Mtp Mph Ms Mm] _ _ Hw _ Hhw] Hlow. pose proof (of_bool_range b).
  set (w' := 2 * w + of_bool b) in *.
  unfold enet_cmd, half_cmd. change (m_halfword (shifted n 15 w b s)) with (m_halfword s). rewrite Hhw.
  change (m_datareg (shifted n 15 w b s)) with (s32 (w' - 2 ^ 16)).
  change 0x8000 with (2 ^ 15). rewrite land_bit, s32_testbit, testbit_div by lia.
  replace ((w' - 2 ^ 16) / 2 ^ 15) with (-2) by (apply (Z.div_unique _ _ _ w'); lia).
  change ((if 15 <? 16 then 0 else 15 - 15) =? 0) with true. change (negb (Z.odd (-2))) with true. cbn [andb].
  change (m_datareg ((shifted n 15 w b s) <| m_halfword := 1 |>)) with (s32 (w' - 2 ^ 16)).
  pose proof (s32_field_sub w' 12 4 16 ltac:(lia) ltac:(lia) ltac:(lia) ltac:(lia)) as F1.
  pose proof (s32_field_sub w' 7 5 16 ltac:(lia) ltac:(lia) ltac:(lia) ltac:(lia)) as F2.
  pose proof (s32_field_sub w' 2 5 16 ltac:(lia) ltac:(lia) ltac:(lia) ltac:(lia)) as F3.
  change (2 ^ 4 - 1) with 0x0f in F1. change (2 ^ 4) with 16 in F1.
  change (2 ^ 5 - 1) with 0x01f in F2, F3. change (2 ^ 5) with 32 in F2, F3.
  rewrite F1, F2, F3.
  change (PHY_ADDR ((shifted n 15 w b s) <| m_halfword := 1 |>)) with (PHY_ADDR s). rewrite Mph.
  destruct (_ && _); [| done]. by rewrite outreg_val.
Qed.

(** The last bit: the frame is complete. *)
Definition full_cmd (w : Z) (s : ENETCTRLSIM) : ENETCTRLSIM :=
  let s := s <| m_halfword := 0 |> <| m_datareg := -1 |> in
  if ((w / 2 ^ 28) mod 16 =? 5) && ((w / 2 ^ 23) mod 32 =? 1)
  then s <| m_emem := <[Z.to_nat ((w / 2 ^ 18) mod 32) := w mod 2 ^ 16]> (m_emem s) |>
  else s.

Lemma cmd_full n w b s : inframe n 31 w s ->
  (((2 * w + of_bool b) / 2 ^ 28) mod 16 = 5 -> Z.testbit (2 * w + of_bool b) 16 = false) ->
  enet_cmd (shifted n 31 w b s) = Some (full_cmd (2 * w + of_bool b) (shifted n 31 w b s)).
Proof.
  intros [[Mn Mc Mt Mp Mtp Mph Ms Mm] _ _ Hw _ Hhw] H16. pose proof (of_bool_range b).
  set (w' := 2 * w + of_bool b) in *.
  unfold enet_cmd, full_cmd. change (m_halfword (shifted n 31 w b s)) with (m_halfword s). rewrite Hhw.
  change (if 31 <? 16 then 0 else 31 - 15) with 16.
  change (m_datareg (shifted n 31 w b s)) with (s32 (w' - 2 ^ 32)).
  change ((16 =? 0) && _) with false. change (negb (16 =? 0)) with true. change (16 <? 16) with false.
  cbn [andb].
  change (m_datareg ((shifted n 31 w b s) <| m_halfword := 0 |>)) with (s32 (w' - 2 ^ 32)).
  pose proof (s32_field_sub w' 28 4 32 ltac:(lia) ltac:(lia) ltac:(lia) ltac:(lia)) as F1.
  pose proof (s32_field_sub w' 23 5 32 ltac:(lia) ltac:(lia) ltac:(lia) ltac:(lia)) as F2.
  pose proof (s32_field_sub w' 18 5 32 ltac:(lia) ltac:(lia) ltac:(lia) ltac:(lia)) as F3.
  change (2 ^ 4 - 1) with 0x0f in F1. change (2 ^ 4) with 16 in F1.
  change (2 ^ 5 - 1) with 0x01f in F2, F3. change (2 ^ 5) with 32 in F2, F3.
  rewrite F1, F2, F3.
  change (PHY_ADDR ((shifted n 31 w b s) <| m_halfword := 0 |>)) with (PHY_ADDR s). rewrite Mph.
  destruct (Z.eqb_spec ((w' / 2 ^ 28) mod 16) 5) as [E | E]; cbn [andb]; [| done].
  destruct ((w' / 2 ^ 23) mod 32 =? 1); [| done].
  assert (Hb : Z.testbit (w' - 2 ^ 32) 16 = false).
  { rewrite <- s32_testbit by lia. replace (w' - 2 ^ 32) with (w' + (-1) * 2 ^ 32) by lia.
    rewrite s32_add, s32_testbit by lia. by apply H16. }
  change 0x010000 with (2 ^ 16). rewrite land_bit, s32_testbit, Hb by lia. cbn [negb].
  pose proof (s32_field_sub w' 0 16 32 ltac:(lia) ltac:(lia) ltac:(lia) ltac:(lia)) as F4.
  rewrite Z.shiftr_0_r, Z.pow_0_r, Z.div_1_r in F4. change 0x0ffff with (2 ^ 16 - 1). by rewrite F4.
Qed.

(** The bits of a frame. *)
Definition fbits (F : Z) (k m : nat) : list bool := map (fun i => Z.testbit F (31 - Z.of_nat i)) (seq k m).

Lemma fbits_app F k m m' : fbits F k (m + m') = fbits F k m ++ fbits F (k + m) m'.
Proof. unfold fbits. by rewrite seq_app, map_app. Qed.

Lemma next_bit F k : 0 <= k < 32 ->
  2 * (F / 2 ^ (32 - k)) + of_bool (Z.testbit F (31 - k)) = F / 2 ^ (31 - k).
Proof.
  intros Hk. rewrite testbit_div by lia. replace (32 - k) with (Z.succ (31 - k)) by lia.
  rewrite Z.pow_succ_r, (Z.mul_comm 2 (2 ^ (31 - k))), <- Z.div_div by lia. set (x := F / 2 ^ (31 - k)).
  pose proof (Zmod_odd x). destruct (Z.odd x); cbn; zlia.
Qed.

Lemma bitsval_fbits F k m : (k + m <= 32)%nat ->
  bitsval (F / 2 ^ (32 - Z.of_nat k)) (fbits F k m) = F / 2 ^ (32 - Z.of_nat (k + m)).
Proof.
  revert k. induction m as [| m IH]; intros k Hk; [by rewrite Nat.add_0_r |].
  cbn [fbits seq map bitsval foldl]. rewrite next_bit by lia.
  replace (31 - Z.of_nat k) with (32 - Z.of_nat (S k)) by lia.
  rewrite Nat.add_succ_r. apply (IH (S k)). lia.
Qed.

(** *** Whole frames *)

Definition fcmd (F : Z) : Z := (F / 2 ^ 28) mod 16.
Definition fphy (F : Z) : Z := (F / 2 ^ 23) mod 32.
Definition freg (F : Z) : Z := (F / 2 ^ 18) mod 32.

Lemma outreg_bit v m : 0 <= m < 16 ->
  Z.testbit (v mod 2 ^ 16 * 2 ^ 15 + 0x7fff + 2 ^ 31) (m + 15) = Z.testbit v m.
Proof.
  intros Hm. pose proof (Z.mod_pos_bound v (2 ^ 16) ltac:(lia)) as Hv.
  rewrite <- Z.shiftr_spec, shiftr_div by lia.
  replace ((v mod 2 ^ 16 * 2 ^ 15 + 0x7fff + 2 ^ 31) / 2 ^ 15) with (v mod 2 ^ 16 + 2 ^ 16)
    by (apply (Z.div_unique _ _ _ 0x7fff); lia).
  rewrite <- (Z.mod_pow2_bits_low (v mod 2 ^ 16 + 2 ^ 16) 16 m) by lia.
  replace (v mod 2 ^ 16 + 2 ^ 16) with (v mod 2 ^ 16 + 1 * 2 ^ 16) by lia.
  rewrite Z.mod_add, Z.mod_mod by lia. apply Z.mod_pow2_bits_low. lia.
Qed.

Lemma double_bit Y i : 1 <= i -> Z.testbit (2 * Y + 1) i = Z.testbit Y (i - 1).
Proof.
  intros Hi. rewrite <- (Z.testbit_odd_succ Y (i - 1)) by lia. f_equal. lia.
Qed.

Section Whole.
Context (h l : nat) (n : Z) (Hn : n = Z.of_nat (h + l)) (Hh : (1 <= h)%nat) (Hl : (1 <= l)%nat).

(** The sixteenth period. *)
Lemma frame_half w b s : inframe n 15 w s -> 2 * w + of_bool b < 2 ^ 15 ->
  exists o Y s', enet_frame h l [b] s = Some ([o], s') /\ inframe n 16 (2 * w + of_bool b) s' /\
    m_emem s' = m_emem s /\ m_outreg s' = s32 (2 * Y + 1) /\
    (((2 * w + of_bool b) / 2 ^ 12) mod 16 = 6 -> ((2 * w + of_bool b) / 2 ^ 7) mod 32 = 1 ->
     Y = m_emem s !!! Z.to_nat (((2 * w + of_bool b) / 2 ^ 2) mod 32) mod 2 ^ 16 * 2 ^ 15 + 0x7fff + 2 ^ 31 /\
     o = of_bool (b && Z.testbit Y 30)).
Proof.
  intros Hi Hlow. pose proof (cmd_half n w b s Hi Hlow) as Hcmd.
  pose proof Hi as [[Mn Mc Mt Mp Mtp Mph Ms Mm] _ _ _ _ Hhw].
  set (w' := 2 * w + of_bool b) in *. set (s2 := half_cmd w' (shifted n 15 w b s)) in *.
  assert (Hb0 : 15 = 0 -> b = false) by lia.
  destruct (frame_period h l n 15 w b s _ Hn Hh Hl Hi Hb0 Hcmd) as [os Hos].
  { subst s2. unfold half_cmd. by destruct (_ && _). }
  { subst s2. unfold half_cmd. by destruct (_ && _). }
  assert (Hi' : inframe n (15 + 1) w' (lowered n s2)).
  { apply (lowered_inframe n 15 w b s s2 Hi); try done; subst s2; unfold half_cmd; by destruct (_ && _). }
  exists ((of_bool b .& outbit s2) .& 1).
  destruct (((w' / 2 ^ 12) mod 16 =? 6) && ((w' / 2 ^ 7) mod 32 =? 1)) eqn:E.
  - set (Y := m_emem s !!! Z.to_nat ((w' / 2 ^ 2) mod 32) mod 2 ^ 16 * 2 ^ 15 + 0x7fff + 2 ^ 31).
    assert (HY : m_outreg s2 = s32 Y) by (subst s2; unfold half_cmd; by rewrite E).
    exists Y, (lowered n s2). cbn [enet_frame]. rewrite Hos. split; [done |]. split; [exact Hi' |].
    split; [subst s2; unfold half_cmd; by rewrite E |].
    split; [cbn; rewrite HY; exact (shift_bit Y true) |]. intros _ _. split; [done |].
    rewrite (outbit_s32 s2 Y HY). destruct (Z.testbit Y 30); by destruct b.
  - exists (m_outreg s2), (lowered n s2). cbn [enet_frame]. rewrite Hos. split; [done |]. split; [exact Hi' |].
    split; [subst s2; unfold half_cmd; by rewrite E |]. split.
    + exact (shift_raw (m_outreg s2) true).
    + intros H1 H2. by rewrite H1, H2 in E.
Qed.

(** The last one. *)
Lemma frame_full w b s : inframe n 31 w s ->
  (((2 * w + of_bool b) / 2 ^ 28) mod 16 = 5 -> Z.testbit (2 * w + of_bool b) 16 = false) ->
  exists o s', enet_frame h l [b] s = Some ([o], s') /\ inframe n 0 0 s' /\
    m_emem s' = (if (fcmd (2 * w + of_bool b) =? 5) && (fphy (2 * w + of_bool b) =? 1)
                 then <[Z.to_nat (freg (2 * w + of_bool b)) := (2 * w + of_bool b) mod 2 ^ 16]> (m_emem s)
                 else m_emem s).
Proof.
  intros Hi H16. pose proof (cmd_full n w b s Hi H16) as Hcmd.
  pose proof Hi as [[Mn Mc Mt Mp Mtp Mph Ms Mm] _ _ _ _ Hhw].
  set (w' := 2 * w + of_bool b) in *. set (s2 := full_cmd w' (shifted n 31 w b s)) in *.
  assert (Hb0 : 31 = 0 -> b = false) by lia.
  destruct (frame_period h l n 31 w b s _ Hn Hh Hl Hi Hb0 Hcmd) as [os Hos].
  { subst s2. unfold full_cmd. by destruct (_ && _). }
  { subst s2. unfold full_cmd. by destruct (_ && _). }
  exists ((of_bool b .& outbit s2) .& 1), (lowered n s2). cbn [enet_frame]. rewrite Hos.
  split; [done |]. unfold fcmd, fphy, freg. subst s2. unfold full_cmd.
  destruct (_ && _); (split; [split; [split |..] |]; cbn; rewrite ?length_insert; try done; lia).
Qed.

Lemma frame_run s F : inframe n 0 0 s -> 0 <= F < 2 ^ 31 -> (fcmd F = 5 -> Z.testbit F 16 = false) ->
  exists outs s', enet_frame h l (fbits F 0 32) s = Some (outs, s') /\ inframe n 0 0 s' /\
    m_emem s' = (if (fcmd F =? 5) && (fphy F =? 1)
                 then <[Z.to_nat (freg F) := F mod 2 ^ 16]> (m_emem s) else m_emem s) /\
    (fcmd F = 6 -> fphy F = 1 -> forall j, (j < 16)%nat ->
       outs !! (15 + j)%nat = Some (of_bool (Z.testbit F (16 - Z.of_nat j) &&
         Z.testbit (m_emem s !!! Z.to_nat (freg F)) (15 - Z.of_nat j)))).
Proof.
  intros Hi HF H16. change 32%nat with (15 + (1 + (15 + 1)))%nat. rewrite !fbits_app.
  change (0 + 15)%nat with 15%nat. change (15 + 1)%nat with 16%nat. change (16 + 15)%nat with 31%nat.
  (* the first fifteen *)
  destruct (frame_early h l n Hn Hh Hl (fbits F 0 15) 0 0 s Hi) as (o1 & s1 & R1 & I1 & M1 & L1); [cbn; lia | |].
  { intros _ b Hb. injection Hb as <-. change (31 - Z.of_nat 0) with 31.
    apply (testbit_above F 31 31); lia. }
  assert (V1 : bitsval 0 (fbits F 0 15) = F / 2 ^ 17).
  { pose proof (bitsval_fbits F 0 15 ltac:(lia)) as V. rewrite (Z.div_small F) in V by (cbn; lia). exact V. }
  rewrite V1 in I1. change (0 + Z.of_nat (length (fbits F 0 15))) with 15 in I1.
  (* the sixteenth *)
  set (b15 := Z.testbit F 16). assert (E15 : fbits F 15 1 = [b15]) by done.
  assert (V2 : 2 * (F / 2 ^ 17) + of_bool b15 = F / 2 ^ 16) by exact (next_bit F 15 ltac:(lia)).
  destruct (frame_half (F / 2 ^ 17) b15 s1 I1) as (o2 & Y & s2 & R2 & I2 & M2 & Y2 & Hrd).
  { rewrite V2. apply Z.div_lt_upper_bound; lia. }
  rewrite V2 in I2, Hrd.
  (* the next fifteen *)
  destruct (frame_middle h l n Hn Hh Hl (fbits F 16 15) 16 (F / 2 ^ 16) s2 (2 * Y + 1) I2)
    as (o3 & s3 & R3 & I3 & M3 & L3 & O3); [lia | cbn; lia | done |].
  pose proof (bitsval_fbits F 16 15 ltac:(lia)) as V3.
  change (32 - Z.of_nat 16) with 16 in V3. change (32 - Z.of_nat (16 + 15)) with 1 in V3.
  rewrite V3 in I3. change (16 + Z.of_nat (length (fbits F 16 15))) with 31 in I3.
  (* the last *)
  set (b31 := Z.testbit F 0). assert (E31 : fbits F 31 1 = [b31]) by done.
  assert (V4 : 2 * (F / 2 ^ 1) + of_bool b31 = F)
    by (pose proof (next_bit F 31 ltac:(lia)) as V; change (31 - 31) with 0 in V; by rewrite Z.pow_0_r, Z.div_1_r in V).
  destruct (frame_full (F / 2 ^ 1) b31 s3 I3) as (o4 & s4 & R4 & I4 & M4); [by rewrite V4 |].
  rewrite V4 in M4.
  exists (o1 ++ [o2] ++ o3 ++ [o4]), s4.
  split; [by rewrite enet_frame_app, R1, E15, enet_frame_app, R2, enet_frame_app, R3, E31, R4 |].
  split; [done |]. split; [by rewrite M4, M3, M2, M1 |].
  intros Hc Hp j Hj.
  assert (Hfield : forall sh k, 0 <= sh -> (F / 2 ^ 16 / 2 ^ sh) mod k = (F / 2 ^ (16 + sh)) mod k)
    by (intros sh k Hs; by rewrite Z.div_div, <- Z.pow_add_r by lia).
  rewrite !Hfield in Hrd by lia. destruct (Hrd Hc Hp) as [HY Ho2]. fold (freg F) in HY. rewrite M1 in HY.
  rewrite lookup_app_r by (rewrite L1; cbn; lia). rewrite L1. change (length (fbits F 0 15)) with 15%nat.
  replace (15 + j - 15)%nat with j by lia. destruct j as [| j].
  - cbn [app lookup list_lookup]. rewrite Ho2. do 3 f_equal. rewrite HY. exact (outreg_bit _ 15 ltac:(lia)).
  - change (([o2] ++ o3 ++ [o4]) !! S j) with ((o3 ++ [o4]) !! j).
    rewrite lookup_app_l by (rewrite L3; cbn; lia).
    rewrite (O3 j (Z.testbit F (16 - Z.of_nat (S j)))).
    + do 3 f_equal. rewrite double_bit, HY by lia.
      replace (30 - Z.of_nat j - 1) with (15 - Z.of_nat (S j) + 15) by lia. apply outreg_bit. lia.
    + unfold fbits. change (map ?f ?x) with (f <$> x).
      rewrite list_lookup_fmap, lookup_seq_lt by lia. cbn [fmap option_fmap option_map].
      do 2 f_equal. lia.
Qed.
End Whole.

(** ** Properties *)

(** The state after a preamble of forty ones at four calls a clock. *)
Definition synced : ENETCTRLSIM :=
  match enet_frame 2 2 (replicate 40 true) ENETCTRLSIM_new with
  | Some (_, s) => s
  | None => ENETCTRLSIM_new
  end.

Lemma synced_ok : inframe 4 0 0 synced.
Proof. split; [split | ..]; vm_compute; try reflexivity; try (split; congruence); congruence. Qed.

(** Management frames.  After a preamble, at any steady clock of at least
    four calls, a frame of 32 bits is decoded as the MDIO protocol has it: a write
    to this PHY sets exactly the register it names, any other frame changes no
    register, and during a read of this PHY the line carries the register's
    sixteen bits from the sixteenth positive edge on, the most significant one
    first; then the PHY is ready for the next frame. *)
Theorem mdio_frame h l n s F :
  n = Z.of_nat (h + l) -> (1 <= h)%nat -> (1 <= l)%nat ->
  inframe n 0 0 s -> 0 <= F < 2 ^ 31 -> (fcmd F = 5 -> Z.testbit F 16 = false) ->
  exists outs s', enet_frame h l (fbits F 0 32) s = Some (outs, s') /\ inframe n 0 0 s' /\
    m_emem s' = (if (fcmd F =? 5) && (fphy F =? 1)
                 then <[Z.to_nat (freg F) := F mod 2 ^ 16]> (m_emem s) else m_emem s) /\
    (fcmd F = 6 -> fphy F = 1 -> forall j, (j < 16)%nat ->
       outs !! (15 + j)%nat = Some (of_bool (Z.testbit F (16 - Z.of_nat j) &&
         Z.testbit (m_emem s !!! Z.to_nat (freg F)) (15 - Z.of_nat j)))).
Proof. intros Hn Hh Hl. by apply frame_run. Qed.

Lemma mdio_frame_witness :
  exists outs s', enet_frame 2 2 (fbits 0x50821234 0 32) synced = Some (outs, s') /\ inframe 4 0 0 s' /\
    m_emem s' = (if (fcmd 0x50821234 =? 5) && (fphy 0x50821234 =? 1)
                 then <[Z.to_nat (freg 0x50821234) := 0x50821234 mod 2 ^ 16]> (m_emem synced) else m_emem synced) /\
    (fcmd 0x50821234 = 6 -> fphy 0x50821234 = 1 -> forall j, (j < 16)%nat ->
       outs !! (15 + j)%nat = Some (of_bool (Z.testbit 0x50821234 (16 - Z.of_nat j) &&
         Z.testbit (m_emem synced !!! Z.to_nat (freg 0x50821234)) (15 - Z.of_nat j)))).
Proof.
  apply (mdio_frame 2 2 4 synced 0x50821234 ); [reflexivity | lia | lia | apply synced_ok | lia | reflexivity].
Defined.

Definition wframe (r v : Z) : Z := 5 * 2 ^ 28 + 1 * 2 ^ 23 + r * 2 ^ 18 + 2 * 2 ^ 16 + v.
Definition rframe (r : Z) : Z := 6 * 2 ^ 28 + 1 * 2 ^ 23 + r * 2 ^ 18 + (2 ^ 18 - 1).

Lemma wframe_fields r v : 0 <= r < 32 -> 0 <= v < 2 ^ 16 ->
  0 <= wframe r v < 2 ^ 31 /\ fcmd (wframe r v) = 5 /\ fphy (wframe r v) = 1 /\ freg (wframe r v) = r /\
  wframe r v mod 2 ^ 16 = v /\ Z.testbit (wframe r v) 16 = false.
Proof.
  intros Hr Hv. unfold wframe, fcmd, fphy, freg. split_and!; try zlia.
  rewrite testbit_div by lia.
  replace ((5 * 2 ^ 28 + 1 * 2 ^ 23 + r * 2 ^ 18 + 2 * 2 ^ 16 + v) / 2 ^ 16) with (2 * (0x2800 + 64 + 2 * r + 1))
    by (apply (Z.div_unique _ _ _ v); lia).
  by rewrite Z.odd_mul.
Qed.

Lemma rframe_fields r : 0 <= r < 32 ->
  0 <= rframe r < 2 ^ 31 /\ fcmd (rframe r) = 6 /\ fphy (rframe r) = 1 /\ freg (rframe r) = r /\
  forall i, 0 <= i < 18 -> Z.testbit (rframe r) i = true.
Proof.
  intros Hr. unfold rframe, fcmd, fphy, freg. split_and!; try zlia.
  intros i Hi. rewrite <- (Z.mod_pow2_bits_low _ 18 i) by lia.
  replace ((6 * 2 ^ 28 + 1 * 2 ^ 23 + r * 2 ^ 18 + (2 ^ 18 - 1)) mod 2 ^ 18) with (Z.ones 18)
    by (rewrite Z.ones_equiv; zlia).
  apply Z.ones_spec_low. lia.
Qed.

(** C36: Register round trip over the wire: a write frame and then a read frame
    put the written value on the line. *)
Theorem mdio_roundtrip h l n s r v :
  n = Z.of_nat (h + l) -> (1 <= h)%nat -> (1 <= l)%nat -> inframe n 0 0 s ->
  0 <= r < 32 -> 0 <= v < 2 ^ 16 ->
  exists o1 s1 o2 s2,
    enet_frame h l (fbits (wframe r v) 0 32) s = Some (o1, s1) /\ enet_at r s1 = v /\
    enet_frame h l (fbits (rframe r) 0 32) s1 = Some (o2, s2) /\ m_emem s2 = m_emem s1 /\
    forall j, (j < 16)%nat -> o2 !! (15 + j)%nat = Some (of_bool (Z.testbit v (15 - Z.of_nat j))).
Proof.
  intros Hn Hh Hl Hi Hr Hv.
  destruct (wframe_fields r v Hr Hv) as (W1 & W2 & W3 & W4 & W5 & W6).
  destruct (rframe_fields r Hr) as (R1 & R2 & R3 & R4 & R5).
  destruct (frame_run h l n Hn Hh Hl s (wframe r v) Hi W1) as (o1 & s1 & E1 & I1 & M1 & _); [done |].
  destruct (frame_run h l n Hn Hh Hl s1 (rframe r) I1 R1) as (o2 & s2 & E2 & _ & M2 & O2); [lia |].
  rewrite W2, W3, W4, W5 in M1. rewrite R2 in M2. cbn [Z.eqb Pos.eqb andb] in M1, M2.
  assert (Hlk : m_emem s1 !!! Z.to_nat r = v).
  { rewrite M1, list_lookup_total_insert_eq; [done |]. rewrite (md_mem _ _ (if_md _ _ _ _ Hi)). lia. }
  exists o1, s1, o2, s2. split; [done |]. split_and!; try done.
  - unfold enet_at. change (ENET_MEMWORDS - 1) with (2 ^ 5 - 1). rewrite land_ones_mod, Z.mod_small by lia.
    rewrite Hlk, land_65535, Z.mod_small by lia. done.
  - intros j Hj. rewrite (O2 R2 R3 j Hj), R4, Hlk, R5 by lia. done.
Qed.

Lemma mdio_roundtrip_witness : exists o1 s1 o2 s2,
    enet_frame 2 2 (fbits (wframe 3 0xbeef) 0 32) synced = Some (o1, s1) /\ enet_at 3 s1 = 0xbeef /\
    enet_frame 2 2 (fbits (rframe 3) 0 32) s1 = Some (o2, s2) /\ m_emem s2 = m_emem s1 /\
    forall j, (j < 16)%nat -> o2 !! (15 + j)%nat = Some (of_bool (Z.testbit 0xbeef (15 - Z.of_nat j))).
Proof. apply (mdio_roundtrip 2 2 4 synced 3 0xbeef); [reflexivity | lia | lia | apply synced_ok | lia | lia]. Defined.
