(* ===== verification/FlashSim.v ===== *)
(** The simulated serial flash: [FLASHSIM] (src/sim/verilated/flashsim.cpp,
    flashsim.h), called with the chip select, the clock and the data lines.

    The memory and the page buffer are functions from the byte address; an
    access outside of them, a failed [assert], [exit] and a shift by a negative
    count are [None].  Registers are [unsigned]: 32 bits.  The members that the
    constructor leaves uninitialised ([m_addr], [m_count], [m_pmem]) are its
    arguments; [m_debug] output and the [CKDELAY] line, which the constructor
    fixes to none, are left out. *)

From stdpp Require Import base tactics list numbers option.
From Stdlib Require Import ZArith Lia.
From S2P Require Import Prelude.
Local Open Scope Z_scope.

(** ** Constants *)

Definition CLKRATE_HZ : Z := 100000000.
Definition DEVID : Z := 0x01152340.
Definition DEVESD : Z := 0x014.
Definition MICROSECONDS : Z := (CLKRATE_HZ + 1) / 1000000.
Definition MILLISECONDS : Z := (CLKRATE_HZ + 1) / 1000.
Definition SECONDS : Z := CLKRATE_HZ.
Definition tW : Z := 50 * MICROSECONDS.
Definition tBE : Z := 32 * SECONDS.
Definition tDP : Z := 10 * SECONDS.
Definition tRES : Z := 30 * SECONDS.
Definition tPP : Z := 12 * MICROSECONDS.
Definition tSE : Z := 15 * MILLISECONDS.

Definition QSPIF_WIP_FLAG : Z := 0x0001.
Definition QSPIF_WEL_FLAG : Z := 0x0002.
Definition QSPIF_DEEP_POWER_DOWN_FLAG : Z := 0x0200.

(** ** State *)

Inductive QSPIF_STATE : Type :=
  | QSPIF_IDLE | QSPIF_QUAD_READ_IDLE | QSPIF_RDSR | QSPIF_RDCR | QSPIF_WRSR | QSPIF_CLSR
  | QSPIF_RDID | QSPIF_RELEASE | QSPIF_SLOW_READ | QSPIF_FAST_READ | QSPIF_QUAD_READ_CMD
  | QSPIF_QUAD_READ | QSPIF_SECTOR_ERASE | QSPIF_PP | QSPIF_QPP | QSPIF_BULK_ERASE
  | QSPIF_DEEP_POWER_DOWN | QSPIF_DUAL_READ_IDLE | QSPIF_DUAL_READ_CMD | QSPIF_DUAL_READ
  | QSPIF_INVALID.

Inductive FLASH_MODE : Type := FM_SPI | FM_DSPI | FM_QSPI.

#[export] Instance QSPIF_STATE_eq_dec : EqDecision QSPIF_STATE.
Proof. solve_decision. Defined.
#[export] Instance FLASH_MODE_eq_dec : EqDecision FLASH_MODE.
Proof. solve_decision. Defined.

Record FLASHSIM : Type := mkFLASHSIM {
  m_state : QSPIF_STATE;
  m_fmem : Z -> Z;        (* m_mem *)
  m_pmem : Z -> Z;
  m_last_sck : Z;
  m_write_count : Z;
  m_ireg : Z;
  m_oreg : Z;
  m_sreg : Z;
  m_addr : Z;
  m_count : Z;
  m_mode_byte : Z;
  m_creg : Z;
  m_membytes : Z;
  m_memmask : Z;
  m_idle_throttle : bool;
  m_mode : FLASH_MODE;
  NDUMMY : Z
}.

#[export] Instance set_m_state : Setter m_state := fun v s =>
  mkFLASHSIM v (m_fmem s) (m_pmem s) (m_last_sck s) (m_write_count s) (m_ireg s) (m_oreg s) (m_sreg s) (m_addr s) (m_count s) (m_mode_byte s) (m_creg s) (m_membytes s) (m_memmask s) (m_idle_throttle s) (m_mode s) (NDUMMY s).
#[export] Instance set_m_fmem : Setter m_fmem := fun v s =>
  mkFLASHSIM (m_state s) v (m_pmem s) (m_last_sck s) (m_write_count s) (m_ireg s) (m_oreg s) (m_sreg s) (m_addr s) (m_count s) (m_mode_byte s) (m_creg s) (m_membytes s) (m_memmask s) (m_idle_throttle s) (m_mode s) (NDUMMY s).
#[export] Instance set_m_pmem : Setter m_pmem := fun v s =>
  mkFLASHSIM (m_state s) (m_fmem s) v (m_last_sck s) (m_write_count s) (m_ireg s) (m_oreg s) (m_sreg s) (m_addr s) (m_count s) (m_mode_byte s) (m_creg s) (m_membytes s) (m_memmask s) (m_idle_throttle s) (m_mode s) (NDUMMY s).
#[export] Instance set_m_last_sck : Setter m_last_sck := fun v s =>
  mkFLASHSIM (m_state s) (m_fmem s) (m_pmem s) v (m_write_count s) (m_ireg s) (m_oreg s) (m_sreg s) (m_addr s) (m_count s) (m_mode_byte s) (m_creg s) (m_membytes s) (m_memmask s) (m_idle_throttle s) (m_mode s) (NDUMMY s).
#[export] Instance set_m_write_count : Setter m_write_count := fun v s =>
  mkFLASHSIM (m_state s) (m_fmem s) (m_pmem s) (m_last_sck s) v (m_ireg s) (m_oreg s) (m_sreg s) (m_addr s) (m_count s) (m_mode_byte s) (m_creg s) (m_membytes s) (m_memmask s) (m_idle_throttle s) (m_mode s) (NDUMMY s).
#[export] Instance set_m_ireg : Setter m_ireg := fun v s =>
  mkFLASHSIM (m_state s) (m_fmem s) (m_pmem s) (m_last_sck s) (m_write_count s) v (m_oreg s) (m_sreg s) (m_addr s) (m_count s) (m_mode_byte s) (m_creg s) (m_membytes s) (m_memmask s) (m_idle_throttle s) (m_mode s) (NDUMMY s).
#[export] Instance set_m_oreg : Setter m_oreg := fun v s =>
  mkFLASHSIM (m_state s) (m_fmem s) (m_pmem s) (m_last_sck s) (m_write_count s) (m_ireg s) v (m_sreg s) (m_addr s) (m_count s) (m_mode_byte s) (m_creg s) (m_membytes s) (m_memmask s) (m_idle_throttle s) (m_mode s) (NDUMMY s).
#[export] Instance set_m_sreg : Setter m_sreg := fun v s =>
  mkFLASHSIM (m_state s) (m_fmem s) (m_pmem s) (m_last_sck s) (m_write_count s) (m_ireg s) (m_oreg s) v (m_addr s) (m_count s) (m_mode_byte s) (m_creg s) (m_membytes s) (m_memmask s) (m_idle_throttle s) (m_mode s) (NDUMMY s).
#[export] Instance set_m_addr : Setter m_addr := fun v s =>
  mkFLASHSIM (m_state s) (m_fmem s) (m_pmem s) (m_last_sck s) (m_write_count s) (m_ireg s) (m_oreg s) (m_sreg s) v (m_count s) (m_mode_byte s) (m_creg s) (m_membytes s) (m_memmask s) (m_idle_throttle s) (m_mode s) (NDUMMY s).
#[export] Instance set_m_count : Setter m_count := fun v s =>
  mkFLASHSIM (m_state s) (m_fmem s) (m_pmem s) (m_last_sck s) (m_write_count s) (m_ireg s) (m_oreg s) (m_sreg s) (m_addr s) v (m_mode_byte s) (m_creg s) (m_membytes s) (m_memmask s) (m_idle_throttle s) (m_mode s) (NDUMMY s).
#[export] Instance set_m_mode_byte : Setter m_mode_byte := fun v s =>
  mkFLASHSIM (m_state s) (m_fmem s) (m_pmem s) (m_last_sck s) (m_write_count s) (m_ireg s) (m_oreg s) (m_sreg s) (m_addr s) (m_count s) v (m_creg s) (m_membytes s) (m_memmask s) (m_idle_throttle s) (m_mode s) (NDUMMY s).
#[export] Instance set_m_creg : Setter m_creg := fun v s =>
  mkFLASHSIM (m_state s) (m_fmem s) (m_pmem s) (m_last_sck s) (m_write_count s) (m_ireg s) (m_oreg s) (m_sreg s) (m_addr s) (m_count s) (m_mode_byte s) v (m_membytes s) (m_memmask s) (m_idle_throttle s) (m_mode s) (NDUMMY s).
#[export] Instance set_m_idle_throttle : Setter m_idle_throttle := fun v s =>
  mkFLASHSIM (m_state s) (m_fmem s) (m_pmem s) (m_last_sck s) (m_write_count s) (m_ireg s) (m_oreg s) (m_sreg s) (m_addr s) (m_count s) (m_mode_byte s) (m_creg s) (m_membytes s) (m_memmask s) v (m_mode s) (NDUMMY s).
#[export] Instance set_m_mode : Setter m_mode := fun v s =>
  mkFLASHSIM (m_state s) (m_fmem s) (m_pmem s) (m_last_sck s) (m_write_count s) (m_ireg s) (m_oreg s) (m_sreg s) (m_addr s) (m_count s) (m_mode_byte s) (m_creg s) (m_membytes s) (m_memmask s) (m_idle_throttle s) v (NDUMMY s).

(** [for(i=0; i<n; i++) m[base+i] = f(i, m[base+i]);] *)
Fixpoint loop_set (n : nat) (base : Z) (f : Z -> Z -> Z) (m : Z -> Z) : Z -> Z :=
  match n with
  | O => m
  | S n' =>
      let m := loop_set n' base f m in
      let i := Z.of_nat n' in
      fun a => if a =? base + i then f i (m a) else m a
  end.

(** The same without the loop. *)
Definition range_set (n : Z) (base : Z) (f : Z -> Z -> Z) (m : Z -> Z) : Z -> Z :=
  fun a => if (base <=? a) && (a <? base + n) then f (a - base) (m a) else m a.

Lemma loop_set_range n base f m a : loop_set n base f m a = range_set (Z.of_nat n) base f m a.
Proof.
  unfold range_set. induction n as [| n IH]; cbn [loop_set].
  - destruct (Z.leb_spec base a); cbn [andb]; [| done].
    by rewrite (proj2 (Z.ltb_ge _ _)) by lia.
  - destruct (Z.eqb_spec a (base + Z.of_nat n)) as [-> | Hne].
    + rewrite IH. rewrite (proj2 (Z.leb_le base (base + Z.of_nat n))), (proj2 (Z.ltb_ge _ _)),
        (proj2 (Z.ltb_lt _ _)) by lia. cbn [andb]. f_equal. lia.
    + rewrite IH. destruct (Z.leb_spec base a); cbn [andb]; [| done].
      destruct (Z.ltb_spec a (base + Z.of_nat n)), (Z.ltb_spec a (base + Z.of_nat (S n))); (done || lia).
Qed.

(** Writes to [m_mem] by such a loop, in range. *)
Definition mem_set (n base : Z) (f : Z -> Z -> Z) (s : FLASHSIM) : option FLASHSIM :=
  if (0 <=? base) && (base + n <=? m_membytes s)
  then Some (s <| m_fmem := range_set n base f (m_fmem s) |>) else None.

Definition ff (_ _ : Z) : Z := 0xff.

(** The constructor. *)
Definition flash_new (lglen ndummy addr count : Z) (pmem : Z -> Z) : FLASHSIM :=
  mkFLASHSIM QSPIF_IDLE (fun _ => 0xff) pmem 1 0 0 0 0x01c addr count 0 0x001
    (1 .<< lglen) ((1 .<< lglen) - 1) false FM_SPI ndummy.

(** [load(addr, fname)]: [file] is what [fopen] and [fread] give. *)
Definition flash_load_file (addr : Z) (file : option (list Z)) (s : FLASHSIM) : FLASHSIM :=
  if m_membytes s <=? addr then s
  else
    let len := m_membytes s - addr in
    let bs := match file with Some bs => take (Z.to_nat len) bs | None => [] end in
    let nr := Z.of_nat (length bs) in
    s <| m_fmem := fun a =>
      if (addr <=? a) && (a <? addr + nr) then bs !!! Z.to_nat (a - addr)
      else if (addr + nr <=? a) && (a <? m_membytes s) then 0xff else m_fmem s a |>.

(** [load(offset, data, len)] *)
Definition flash_load (offset : Z) (data : list Z) (s : FLASHSIM) : option FLASHSIM :=
  mem_set (Z.of_nat (length data)) (offset .& m_memmask s) (fun i _ => data !!! Z.to_nat i) s.

Definition deep_sleep (s : FLASHSIM) : bool := truthy (m_sreg s .& QSPIF_DEEP_POWER_DOWN_FLAG).
Definition set_deep_sleep (newval : bool) (s : FLASHSIM) : FLASHSIM :=
  if newval then s <| m_sreg := m_sreg s .| QSPIF_DEEP_POWER_DOWN_FLAG |>
  else s <| m_sreg := m_sreg s .& (0xffffffff .^ QSPIF_DEEP_POWER_DOWN_FLAG) |>.
Definition write_protect (s : FLASHSIM) : bool := m_sreg s .& QSPIF_WEL_FLAG =? 0.
Definition write_in_progress (s : FLASHSIM) : bool := negb (m_sreg s .| QSPIF_WIP_FLAG =? 0).
Definition xip_mode (s : FLASHSIM) : bool := bool_decide (m_state s = QSPIF_QUAD_READ_IDLE).
Definition dual_mode (s : FLASHSIM) : bool := bool_decide (m_mode s = FM_DSPI).
Definition quad_mode (s : FLASHSIM) : bool := bool_decide (m_mode s = FM_QSPI).

(** [operator[]] and [set]: big-endian words. *)
Definition flash_word (index : Z) (s : FLASHSIM) : Z :=
  let p := index .<< 2 in
  let v := m_fmem s p in
  let v := u32 (v .<< 8) .| m_fmem s (p + 1) in
  let v := u32 (v .<< 8) .| m_fmem s (p + 2) in
  u32 (v .<< 8) .| m_fmem s (p + 3).
Definition flash_set (addr val : Z) (s : FLASHSIM) : option FLASHSIM :=
  mem_set 4 (u32 (addr .<< 2)) (fun i _ => u8 (val .>> (24 - 8 * i))) s.

(** [QOREG(A)] *)
Definition QOREG (a : Z) (s : FLASHSIM) : FLASHSIM :=
  s <| m_oreg := (m_oreg s .& 0xffffff00) .| (a .& 0x0ff) |>.

(** [QOREG(m_mem[m_addr++])] *)
Definition QOREG_mem (s : FLASHSIM) : option FLASHSIM :=
  if (0 <=? m_addr s) && (m_addr s <? m_membytes s)
  then Some ((QOREG (m_fmem s (m_addr s)) s) <| m_addr := u32 (m_addr s + 1) |>) else None.

(** ** [operator()] *)

(** The timer at its start. *)
Definition fl_timer (s : FLASHSIM) : FLASHSIM :=
  if 0 <? m_write_count s then
    let s := s <| m_write_count := m_write_count s - 1 |> in
    if m_write_count s =? 0 then s <| m_sreg := m_sreg s .& 0x0fc |> else s
  else s.

Definition clear_wel_set_wip (s : FLASHSIM) : FLASHSIM :=
  s <| m_sreg := (m_sreg s .& (0xffffffff .^ QSPIF_WEL_FLAG)) .| QSPIF_WIP_FLAG |>.

(** The mode byte of a quad or dual read that ends. *)
Definition end_read (next : QSPIF_STATE) (s : FLASHSIM) : FLASHSIM :=
  if negb (m_mode_byte s .& 0x0f0 =? 0x0a0) then s <| m_mode := FM_SPI |> else s <| m_state := next |>.

(** The chip is deselected: what was commanded starts. *)
Definition fl_csn (s : FLASHSIM) : option FLASHSIM :=
  let s := s <| m_last_sck := 1 |> <| m_ireg := 0 |> <| m_oreg := 0 |> <| m_count := 0 |> in
  let r :=
    match m_state s with
    | QSPIF_PP | QSPIF_QPP =>
        let s := s <| m_write_count := tPP |> <| m_state := QSPIF_IDLE |> in
        let s := clear_wel_set_wip s in
        let pmem := m_pmem s in
        match mem_set 256 (m_addr s .& 0xffffff00) (fun i v => v .& pmem i) s with
        | Some s => Some (s <| m_mode := FM_SPI |>)
        | None => None
        end
    | QSPIF_SECTOR_ERASE =>
        let s := s <| m_write_count := tSE |> <| m_state := QSPIF_IDLE |> in
        let s := clear_wel_set_wip s in
        let s := s <| m_addr := m_addr s .& 0xffff0000 |> in
        mem_set 65536 (m_addr s) ff s
    | QSPIF_WRSR => Some (clear_wel_set_wip (s <| m_write_count := tW |> <| m_state := QSPIF_IDLE |>))
    | QSPIF_CLSR => Some (s <| m_state := QSPIF_IDLE |> <| m_sreg := m_sreg s .& 0x09f |>)
    | QSPIF_BULK_ERASE =>
        let s := clear_wel_set_wip (s <| m_write_count := tBE |> <| m_state := QSPIF_IDLE |>) in
        mem_set (m_membytes s) 0 ff s
    | QSPIF_DEEP_POWER_DOWN => Some (s <| m_write_count := tDP |> <| m_state := QSPIF_IDLE |>)
    | QSPIF_RELEASE => Some (s <| m_write_count := tRES |> <| m_state := QSPIF_IDLE |>)
    | QSPIF_QUAD_READ_CMD | QSPIF_QUAD_READ => Some (end_read QSPIF_QUAD_READ_IDLE s)
    | QSPIF_DUAL_READ_CMD | QSPIF_DUAL_READ => Some (end_read QSPIF_DUAL_READ_IDLE s)
    | _ => Some s
    end in
  match r with
  | Some s => Some (s <| m_oreg := 0x0fe |>)
  | None => None
  end.

(** The value returned while the chip is selected. *)
Definition fl_out (dat : Z) (s : FLASHSIM) : Z :=
  match m_mode s with
  | FM_QSPI => (m_oreg s .>> 8) .& 0x0f
  | FM_DSPI => ((m_oreg s .>> 8) .& 0x03) .| (dat .& 0x0c)
  | FM_SPI => (if truthy (m_oreg s .& 0x0100) then 2 else 0) .| (dat .& 0x0d)
  end.

(** The falling edge: bits in, bits out. *)
Definition fl_shift (dat : Z) (s : FLASHSIM) : FLASHSIM :=
  match m_mode s with
  | FM_QSPI =>
      s <| m_ireg := u32 (m_ireg s .<< 4) .| (dat .& 0x0f) |> <| m_count := u32 (m_count s + 4) |>
        <| m_oreg := u32 (m_oreg s .<< 4) |>
  | FM_DSPI =>
      s <| m_ireg := u32 (m_ireg s .<< 2) .| (dat .& 0x03) |> <| m_count := u32 (m_count s + 2) |>
        <| m_oreg := u32 (m_oreg s .<< 2) |>
  | FM_SPI =>
      s <| m_ireg := u32 (m_ireg s .<< 1) .| (dat .& 1) |> <| m_count := u32 (m_count s + 1) |>
        <| m_oreg := u32 (m_oreg s .<< 1) |>
  end.

(** [QSPIF_QUAD_READ_IDLE] and [QSPIF_DUAL_READ_IDLE]: an address comes first. *)
Definition fl_idle (in_mode : bool) (next : QSPIF_STATE) (s : FLASHSIM) : option FLASHSIM :=
  if truthy (m_sreg s .& QSPIF_DEEP_POWER_DOWN_FLAG) then None
  else if negb in_mode then None
  else
    let s := if m_count s =? 24
             then s <| m_addr := m_ireg s .& m_memmask s |> <| m_state := next |> else s in
    Some (s <| m_oreg := 0 |>).

(** A command that needs the write enable latch, and no write in progress. *)
Definition if_writable (next : QSPIF_STATE) (s : FLASHSIM) : FLASHSIM :=
  if negb (2 =? m_sreg s .& 0x203) then s <| m_state := QSPIF_INVALID |> else s <| m_state := next |>.

(** The first eight bits: a command. *)
Definition fl_cmd (s : FLASHSIM) : option FLASHSIM :=
  let s := QOREG 0x0a5 s in
  let cmd := m_ireg s .& 0x0ff in
  if truthy (m_sreg s .& QSPIF_DEEP_POWER_DOWN_FLAG) && negb (cmd =? 0xab) then Some s
  else if cmd =? 0x01 then Some (if_writable QSPIF_WRSR s)
  else if cmd =? 0x02 then Some (if_writable QSPIF_PP s)
  else if cmd =? 0x03 then Some (s <| m_state := QSPIF_SLOW_READ |>)
  else if cmd =? 0x04 then
    Some (s <| m_state := QSPIF_IDLE |> <| m_sreg := m_sreg s .& (0xffffffff .^ QSPIF_WEL_FLAG) |>)
  else if cmd =? 0x05 then Some (QOREG (m_sreg s) (s <| m_state := QSPIF_RDSR |>))
  else if cmd =? 0x06 then
    Some (s <| m_state := QSPIF_IDLE |> <| m_sreg := m_sreg s .| QSPIF_WEL_FLAG |>)
  else if cmd =? 0x0b then Some (s <| m_state := QSPIF_FAST_READ |>)
  else if cmd =? 0x30 then Some (s <| m_state := QSPIF_CLSR |>)
  else if cmd =? 0x32 then Some (if_writable QSPIF_QPP s)
  else if cmd =? 0x35 then Some (QOREG (m_creg s) (s <| m_state := QSPIF_RDCR |>))
  else if cmd =? 0x50 then Some (QOREG 0 (s <| m_state := QSPIF_IDLE |>))
  else if cmd =? 0x61 then Some (QOREG 0 (s <| m_state := QSPIF_IDLE |>))
  else if cmd =? 0x70 then Some (QOREG 0 (s <| m_state := QSPIF_IDLE |>))
  else if cmd =? 0x81 then Some (QOREG 0 s)
  else if cmd =? 0x9f then Some (QOREG ((DEVID .>> 24) .& 0x0ff) (s <| m_state := QSPIF_RDID |>))
  else if cmd =? 0xab then
    let s :=
      if truthy (m_sreg s .& QSPIF_DEEP_POWER_DOWN_FLAG)
      then s <| m_sreg := m_sreg s .& (0xffffffff .^ QSPIF_DEEP_POWER_DOWN_FLAG) |> <| m_write_count := tRES |>
      else s in
    Some (s <| m_state := QSPIF_RELEASE |>)
  else if cmd =? 0xb9 then
    Some (if truthy (m_sreg s .& 0x01) then s <| m_state := QSPIF_INVALID |>
          else s <| m_sreg := m_sreg s .| QSPIF_DEEP_POWER_DOWN_FLAG |> <| m_state := QSPIF_IDLE |>)
  else if cmd =? 0xbb then Some (s <| m_state := QSPIF_DUAL_READ_CMD |> <| m_mode := FM_DSPI |>)
  else if cmd =? 0xc7 then Some (if_writable QSPIF_BULK_ERASE s)
  else if cmd =? 0xd8 then Some (if_writable QSPIF_SECTOR_ERASE s)
  else if cmd =? 0xeb then Some (s <| m_state := QSPIF_QUAD_READ_CMD |> <| m_mode := FM_QSPI |>)
  else if (cmd =? 0x00) || (cmd =? 0xff) then Some (s <| m_state := QSPIF_IDLE |> <| m_mode := FM_SPI |>)
  else None.

(** The address of a command, and a byte of a page program. *)
Definition take_addr (s : FLASHSIM) : FLASHSIM := s <| m_addr := m_ireg s .& m_memmask s |>.
Definition page_byte (s : FLASHSIM) : FLASHSIM :=
  let i := m_addr s .& 0x0ff in
  let pmem := m_pmem s in
  let b := m_ireg s .& 0x0ff in
  s <| m_pmem := fun j => if j =? i then b else pmem j |>
    <| m_addr := (m_addr s .& 0xffffff00) .| ((m_addr s + 1) .& 0x0ff) |>.
Definition clear_pmem (s : FLASHSIM) : FLASHSIM :=
  let pmem := m_pmem s in
  s <| m_pmem := range_set 256 0 ff pmem |>.

(** Every eighth bit after the command. *)
Definition fl_byte (s : FLASHSIM) : option FLASHSIM :=
  let s := QOREG 0 s in
  let s := if m_idle_throttle s && negb (bool_decide (m_state s = QSPIF_IDLE))
           then s <| m_idle_throttle := false |> else s in
  let count := m_count s in
  let ready := m_sreg s .& 0x01 =? 0 in
  match m_state s with
  | QSPIF_IDLE => Some (s <| m_idle_throttle := true |>)
  | QSPIF_WRSR =>
      if count =? 16 then Some (s <| m_sreg := (m_sreg s .& 0x061) .| (m_ireg s .& 0x09c) |>)
      else if count =? 24 then Some (s <| m_creg := (m_creg s .& 0x0fd) .| (m_ireg s .& 0x02) |>)
      else None
  | QSPIF_CLSR => None
  | QSPIF_RDID => if count <=? 32 then Some (QOREG (DEVID .>> (32 - count)) s) else None
  | QSPIF_RDSR => Some (QOREG (m_sreg s) s)
  | QSPIF_RDCR => Some (QOREG (m_creg s) s)
  | QSPIF_SLOW_READ =>
      if count =? 32 then QOREG_mem (take_addr s)
      else if (40 <=? count) && ready then QOREG_mem s
      else Some (s <| m_oreg := 0 |>)
  | QSPIF_FAST_READ =>
      if count =? 32 then Some (QOREG 0x0c3 (take_addr s))
      else if (40 <=? count) && ready then QOREG_mem s
      else Some (s <| m_oreg := 0 |>)
  | QSPIF_DUAL_READ_CMD =>
      if count =? 32 then Some (take_addr s)
      else if (count =? 40) && ready then QOREG_mem (s <| m_mode_byte := m_ireg s .& 0x0ff |>)
      else if (40 <? count) && ready then QOREG_mem s
      else Some (s <| m_oreg := 0 |>)
  | QSPIF_QUAD_READ_CMD =>
      if count =? 32 then Some (take_addr s)
      else if count =? 40 then
        let s := s <| m_mode_byte := m_ireg s .& 0x0ff |> in
        if NDUMMY s =? 2 then QOREG_mem s else Some s
      else if (u32 (32 + 4 * NDUMMY s) <? count) && ready then QOREG_mem s
      else Some (s <| m_oreg := 0 |>)
  | QSPIF_DUAL_READ =>
      QOREG_mem (if count =? 32 then s <| m_mode_byte := m_ireg s .& 0x0ff |> else s)
  | QSPIF_QUAD_READ =>
      if count =? 32 then
        let s := s <| m_mode_byte := m_ireg s .& 0x0ff |> in
        if NDUMMY s =? 2 then QOREG_mem s else Some s
      else if (u32 (24 + 4 * NDUMMY s) <=? count) && ready then QOREG_mem s
      else Some (s <| m_oreg := 0 |>)
  | QSPIF_PP =>
      if count =? 32 then Some (clear_pmem (take_addr s))
      else if 40 <=? count then Some (page_byte s)
      else Some s
  | QSPIF_QPP =>
      if count =? 32 then Some (clear_pmem ((take_addr s) <| m_mode := FM_QSPI |>))
      else if 40 <=? count then Some (page_byte s)
      else Some s
  | QSPIF_SECTOR_ERASE =>
      if count =? 32 then
        let s := s <| m_addr := m_ireg s .& 0x0ffc000 |> in
        if m_addr s .& 0xfc00000 =? 0 then Some s else None
      else Some s
  | QSPIF_RELEASE => Some (if 32 <=? count then QOREG DEVESD s else s)
  | QSPIF_QUAD_READ_IDLE | QSPIF_DUAL_READ_IDLE | QSPIF_BULK_ERASE | QSPIF_DEEP_POWER_DOWN
  | QSPIF_INVALID => Some s
  end.

(** What a falling edge leads to, after the shift. *)
Definition fl_process (s : FLASHSIM) : option FLASHSIM :=
  match m_state s with
  | QSPIF_QUAD_READ_IDLE => fl_idle (quad_mode s) QSPIF_QUAD_READ s
  | QSPIF_DUAL_READ_IDLE => fl_idle (dual_mode s) QSPIF_DUAL_READ s
  | _ =>
      if m_count s =? 8 then fl_cmd s
      else if (m_count s .& 0x07 =? 0) && negb (m_count s =? 0) then fl_byte s
      else Some s
  end.

Definition fl_call (csn sck dat : Z) (s : FLASHSIM) : option (Z * FLASHSIM) :=
  let s := fl_timer s in
  if truthy csn then
    match fl_csn s with Some s => Some (dat, s) | None => None end
  else if negb (truthy (m_last_sck s)) || (sck =? m_last_sck s) then
    let s := s <| m_last_sck := sck |> in Some (fl_out dat s, s)
  else
    match fl_process (fl_shift dat s) with
    | Some s => let s := s <| m_last_sck := sck |> in Some (fl_out dat s, s)
    | None => None
    end.

(** [simtick]: what the controller sees of the four lines in each of its
    modes, [line] being the [RDDELAY] values of [m_rddelay] that delay it. *)
Definition simtick (csn sck dat md : Z) (line : list Z) (s : FLASHSIM) : option (Z * list Z * FLASHSIM) :=
  match fl_call csn sck dat s with
  | Some (r, s) =>
      let r :=
        if (md =? 0) || (md =? 1) then ((r .& 2) .| (dat .& 1)) .| 0x0c
        else if md =? 2 then dat
        else if md =? 3 then r
        else if md =? 4 then (dat .& 3) .| 0x0c
        else if md =? 5 then (r .& 3) .| 0x0c
        else r in
      match line with
      | [] => Some (r, [], s)
      | lclr :: line' => Some (lclr .& 0x0f, line' ++ [r], s)
      end
  | None => None
  end.

(** ** Bytes on the wire

    A bit in single-bit mode is a falling and a rising edge of the clock; the
    chip's answer is read at the falling one. *)

Definition spi_bit (b : bool) (s : FLASHSIM) : option (bool * FLASHSIM) :=
  match fl_call 0 0 (of_bool b) s with
  | Some (r, s1) =>
      match fl_call 0 1 (of_bool b) s1 with
      | Some (_, s2) => Some (truthy (r .& 2), s2)
      | None => None
      end
  | None => None
  end.

Fixpoint spi_bits (bits : list bool) (s : FLASHSIM) : option (list bool * FLASHSIM) :=
  match bits with
  | [] => Some ([], s)
  | b :: bits' =>
      match spi_bit b s with
      | Some (o, s1) =>
          match spi_bits bits' s1 with Some (os, s2) => Some (o :: os, s2) | None => None end
      | None => None
      end
  end.

Definition bits_of (n : nat) (v : Z) : list bool :=
  map (fun i => Z.testbit v (Z.of_nat (n - 1 - i))) (seq 0 n).
Definition of_bits (bits : list bool) : Z := foldl (fun v b => 2 * v + of_bool b) 0 bits.

Definition spi_byte (v : Z) (s : FLASHSIM) : option (Z * FLASHSIM) :=
  match spi_bits (bits_of 8 v) s with
  | Some (os, s1) => Some (of_bits os, s1)
  | None => None
  end.

Fixpoint spi_bytes (vs : list Z) (s : FLASHSIM) : option (list Z * FLASHSIM) :=
  match vs with
  | [] => Some ([], s)
  | v :: vs' =>
      match spi_byte v s with
      | Some (o, s1) =>
          match spi_bytes vs' s1 with Some (os, s2) => Some (o :: os, s2) | None => None end
      | None => None
      end
  end.

(** A transaction: bytes, then the chip is deselected. *)
Definition spi_xfer (vs : list Z) (s : FLASHSIM) : option (list Z * FLASHSIM) :=
  match spi_bytes vs s with
  | Some (os, s1) => match fl_call 1 1 0 s1 with Some (_, s2) => Some (os, s2) | None => None end
  | None => None
  end.

(** The three bytes of an address. *)
Definition abytes (a : Z) : list Z := [(a .>> 16) .& 0xff; (a .>> 8) .& 0xff; a .& 0xff].
