(* ===== verification/FlashProps.v ===== *)
(** The flash model over its wire: what a transaction of bytes in single-bit
    mode does to the registers, the memory page and the memory.  The bit
    transfers of [operator()] are first folded into a step per byte, and the
    commands' theorems are proved with that step. *)

From stdpp Require Import base tactics list numbers option.
From Stdlib Require Import ZArith Lia.
From S2P Require Import Prelude FlashSim.
Local Open Scope Z_scope.

(** Reads and updates of fields, and nothing else. *)
Ltac fields := cbv [set_field set_m_state set_m_fmem set_m_pmem set_m_last_sck set_m_write_count
  set_m_ireg set_m_oreg set_m_sreg set_m_addr set_m_count set_m_mode_byte set_m_creg
  set_m_idle_throttle set_m_mode m_state m_fmem m_pmem m_last_sck m_write_count m_ireg m_oreg
  m_sreg m_addr m_count m_mode_byte m_creg m_membytes m_memmask m_idle_throttle m_mode NDUMMY] in *.

(** ** From bits to bytes *)

(** The registers after [n] bits of value [v]. *)
Definition shifted (n v : Z) (s : FLASHSIM) : FLASHSIM :=
  s <| m_ireg := u32 (m_ireg s * 2 ^ n + v) |> <| m_oreg := u32 (m_oreg s * 2 ^ n) |>
    <| m_count := m_count s + n |>.

(** The chip listens bit by bit, and no timer runs. *)
Record listening (s : FLASHSIM) : Prop := {
  ls_mode : m_mode s = FM_SPI;
  ls_sck : m_last_sck s = 1;
  ls_timer : m_write_count s = 0;
  ls_quad : m_state s <> QSPIF_QUAD_READ_IDLE;
  ls_dual : m_state s <> QSPIF_DUAL_READ_IDLE;
  ls_count : 0 <= m_count s < 2 ^ 31
}.

Lemma u32_acc x y z : u32 (u32 x * y + z) = u32 (x * y + z).
Proof. unfold u32. rewrite <- Zplus_mod_idemp_l, Zmult_mod_idemp_l, Zplus_mod_idemp_l. done. Qed.

Lemma shifted_shifted n v b s :
  0 <= n -> shifted 1 b (shifted n v s) = shifted (n + 1) (2 * v + b) s.
Proof.
  intros Hn. unfold shifted. destruct s; fields. f_equal.
  - rewrite u32_acc. f_equal. rewrite Z.pow_add_r by lia. lia.
  - rewrite <- (Z.add_0_r (u32 _ * 2 ^ 1)), u32_acc. f_equal. rewrite Z.pow_add_r by lia. lia.
  - lia.
Qed.

Lemma shifted_0 s : 0 <= m_ireg s < 2 ^ 32 -> 0 <= m_oreg s < 2 ^ 32 -> shifted 0 0 s = s.
Proof.
  intros Hi Ho. unfold shifted, u32. destruct s; fields.
  rewrite !Z.pow_0_r, !Z.mul_1_r, !Z.add_0_r, !Z.mod_small by done. done.
Qed.

Lemma listening_shifted n v s :
  0 <= n < 64 -> m_count s < 2 ^ 30 -> listening s -> listening (shifted n v s).
Proof. intros Hn Hc [? ? ? ? ? ?]. split; unfold shifted; destruct s; fields; (done || lia). Qed.

Lemma fl_timer_0 s : m_write_count s = 0 -> fl_timer s = s.
Proof. intros H. unfold fl_timer. by rewrite H. Qed.

Lemma fl_shift_spi b s :
  m_mode s = FM_SPI -> 0 <= m_count s < 2 ^ 31 ->
  fl_shift (of_bool b) s = shifted 1 (of_bool b) s.
Proof.
  intros Hm Hc. unfold fl_shift, shifted. rewrite Hm. destruct s; fields. f_equal.
  - rewrite Z.shiftl_mul_pow2 by lia. rewrite land_1, (Z.mod_small (of_bool b)) by (destruct b; cbn; lia).
    unfold u32. rewrite lor_add.
    + rewrite <- (Z.add_mod_idemp_l (_ * _)) by done. symmetry. apply Z.mod_small.
      destruct b; cbn; zlia.
    + destruct b; [| apply Z.land_0_r]. cbn [of_bool]. rewrite land_1. zlia.
  - by rewrite Z.shiftl_mul_pow2.
  - unfold u32. apply Z.mod_small. lia.
Qed.

(** A bit that completes no byte. *)
Lemma spi_bit_shift b s :
  listening s -> (m_count s + 1) mod 8 <> 0 ->
  spi_bit b s = Some (Z.testbit (m_oreg s) 7, shifted 1 (of_bool b) s).
Proof.
  intros [Hm Hk Hw Hq Hd Hc] H8. unfold spi_bit, fl_call.
  rewrite fl_timer_0 by done. rewrite Hk. cbn [truthy negb Z.eqb orb].
  rewrite fl_shift_spi by done. set (t := shifted 1 (of_bool b) s).
  assert (Hp : fl_process t = Some t).
  { unfold fl_process. replace (m_state t) with (m_state s) by (by destruct s).
    replace (m_count t) with (m_count s + 1) by (by destruct s).
    rewrite land_7. destruct (Z.eqb_spec (m_count s + 1) 8) as [E | _]; [by rewrite E in H8 |].
    destruct (Z.eqb_spec ((m_count s + 1) mod 8) 0); [done |]. by destruct (m_state s). }
  rewrite Hp. cbv beta iota zeta.
  rewrite (fl_timer_0 (t <| m_last_sck := 0 |>)) by (by destruct s).
  replace (m_last_sck (t <| m_last_sck := 0 |>)) with 0 by (by destruct s).
  cbn [truthy negb Z.eqb orb]. cbv beta iota zeta.
  f_equal. f_equal.
  - unfold fl_out. replace (m_mode (t <| m_last_sck := 0 |>)) with FM_SPI by (by destruct s).
    replace (m_oreg (t <| m_last_sck := 0 |>)) with (u32 (m_oreg s * 2 ^ 1)) by (by destruct s).
    change 0x0100 with (2 ^ 8).
    replace (truthy (u32 (m_oreg s * 2 ^ 1) .& 2 ^ 8)) with (Z.testbit (m_oreg s) 7).
    2: { unfold truthy, u32. rewrite Z.land_comm.
         replace (Z.testbit (m_oreg s) 7) with (Z.testbit (m_oreg s * 2 ^ 1 mod 2 ^ 32) 8).
         2: { rewrite Z.mod_pow2_bits_low by lia. rewrite <- Z.shiftl_mul_pow2 by lia.
              by rewrite Z.shiftl_spec by lia. }
         set (x := _ mod _). destruct (Z.eqb_spec (2 ^ 8 .& x) 0) as [E | E].
         - cbn [negb]. apply (f_equal (fun z => Z.testbit z 8)) in E.
           rewrite Z.land_spec, Z.testbit_0_l, Z.pow2_bits_true in E by lia. done.
         - cbn [negb]. destruct (Z.testbit x 8) eqn:Eb; [done |]. exfalso. apply E.
           apply Z.bits_inj'. intros n Hn. rewrite Z.land_spec, Z.testbit_0_l, Z.pow2_bits_eqb by lia.
           destruct (Z.eqb_spec 8 n); [by subst | done]. }
    by destruct (Z.testbit (m_oreg s) 7), b.
  - destruct s; fields; subst; done.
Qed.

(** The bit that completes a byte: the command or the byte is processed
    before the bit of the answer is taken. *)
Lemma spi_bit_last b s s' :
  listening s -> (m_count s + 1) mod 8 = 0 ->
  fl_process (shifted 1 (of_bool b) s) = Some s' ->
  m_mode s' = FM_SPI -> m_write_count s' = 0 -> m_last_sck s' = 1 ->
  spi_bit b s = Some (truthy (m_oreg s' .& 0x0100), s').
Proof.
  intros [Hm Hk Hw Hq Hd Hc] H8 Hp Hm' Hw' Hk'. unfold spi_bit, fl_call.
  rewrite fl_timer_0 by done. rewrite Hk. cbn [truthy negb Z.eqb orb].
  rewrite fl_shift_spi, Hp by done. cbv beta iota zeta.
  rewrite (fl_timer_0 (s' <| m_last_sck := 0 |>)) by (by destruct s').
  replace (m_last_sck (s' <| m_last_sck := 0 |>)) with 0 by (by destruct s').
  cbn [truthy negb Z.eqb orb]. cbv beta iota zeta. f_equal. f_equal.
  - unfold fl_out. replace (m_mode (s' <| m_last_sck := 0 |>)) with FM_SPI by (by destruct s').
    replace (m_oreg (s' <| m_last_sck := 0 |>)) with (m_oreg s') by (by destruct s').
    by destruct (truthy (m_oreg s' .& 0x0100)), b.
  - destruct s'; fields; subst; done.
Qed.

Lemma spi_bits_app xs ys s :
  spi_bits (xs ++ ys) s =
    match spi_bits xs s with
    | Some (o, s1) => match spi_bits ys s1 with Some (o', s2) => Some (o ++ o', s2) | None => None end
    | None => None
    end.
Proof.
  revert s. induction xs as [| x xs IH]; intros s; cbn [app spi_bits].
  - by destruct (spi_bits ys s) as [[? ?] |].
  - destruct (spi_bit x s) as [[o s1] |]; [| done]. rewrite IH.
    destruct (spi_bits xs s1) as [[o1 s2] |]; [| done]. by destruct (spi_bits ys s2) as [[? ?] |].
Qed.

(** The first seven bits of a byte. *)
Lemma spi_bits_7 bs s :
  bs <> [] -> listening s -> (m_count s) mod 8 = 0 -> m_count s < 2 ^ 30 -> (length bs <= 7)%nat ->
  spi_bits bs s = Some (map (fun i => Z.testbit (m_oreg s) (7 - Z.of_nat i)) (seq 0 (length bs)),
                        shifted (Z.of_nat (length bs)) (of_bits bs) s).
Proof.
  intros Hne Hl H8 Hc. induction bs as [| b bs IH] using rev_ind; [done |]. clear Hne.
  intros Hlen. rewrite length_app in *. cbn [length] in *. rewrite spi_bits_app.
  destruct bs as [| b0 bs0].
  - cbn [spi_bits]. rewrite spi_bit_shift by (done || zlia). done.
  - set (bs := b0 :: bs0) in *. rewrite IH by (done || lia). cbn [spi_bits].
    set (n := length bs) in *. assert (Hn : (1 <= n)%nat) by (subst n bs; cbn; lia).
    rewrite spi_bit_shift.
    2: { apply listening_shifted; (done || lia). }
    2: { unfold shifted. destruct s; fields. zlia. }
    f_equal. f_equal.
    + rewrite seq_app, map_app. f_equal. cbn [seq map]. f_equal.
      unfold shifted. destruct s; fields. unfold u32.
      rewrite Z.mod_pow2_bits_low by lia. rewrite <- Z.shiftl_mul_pow2 by lia.
      by rewrite Z.shiftl_spec by lia.
    + rewrite shifted_shifted by lia. rewrite Nat2Z.inj_add.
      unfold of_bits at 2. rewrite foldl_app. done.
Qed.

Lemma bits_of_8 v : bits_of 8 v = bits_of 7 (v / 2) ++ [Z.testbit v 0].
Proof.
  unfold bits_of. cbn [seq map Nat.sub Z.of_nat app Pos.of_succ_nat Pos.succ].
  rewrite <- !Z.div2_div, !Z.div2_spec, !Z.shiftr_spec by lia. done.
Qed.

Definition byte_bits_ok (v : Z) : bool :=
  (of_bits (bits_of 8 v) =? v) && (of_bits (bits_of 7 (v / 2)) =? v / 2).

Lemma byte_bits v : 0 <= v < 256 ->
  of_bits (bits_of 8 v) = v /\ of_bits (bits_of 7 (v / 2)) = v / 2.
Proof.
  intros Hv. assert (H : byte_bits_ok v = true) by (by_range v 0 256%nat).
  unfold byte_bits_ok in H. apply andb_true_iff in H as [H1 H2]. split; by apply Z.eqb_eq.
Qed.

(** One byte: the registers take it, and then it is processed. *)
Lemma spi_byte_step v s s' :
  listening s -> m_count s mod 8 = 0 -> m_count s < 2 ^ 30 -> 0 <= v < 256 ->
  fl_process (shifted 8 v s) = Some s' ->
  m_mode s' = FM_SPI -> m_write_count s' = 0 -> m_last_sck s' = 1 ->
  spi_byte v s = Some (2 * (m_oreg s mod 256 / 2) + of_bool (truthy (m_oreg s' .& 0x0100)), s').
Proof.
  intros Hl H8 Hc Hv Hp Hm' Hw' Hk'. unfold spi_byte. rewrite bits_of_8, spi_bits_app.
  destruct (byte_bits v Hv) as [_ Hb7].
  rewrite spi_bits_7; [| done .. | done]. change (length (bits_of 7 (v / 2))) with 7%nat.
  rewrite Hb7. cbn [spi_bits].
  rewrite (spi_bit_last _ _ s'); [| | | | done ..].
  2: { apply listening_shifted; (done || lia). }
  2: { unfold shifted. destruct s; fields. zlia. }
  2: { rewrite shifted_shifted by lia. change (Z.of_nat 7 + 1) with 8.
       replace (2 * (v / 2) + of_bool (Z.testbit v 0)) with v; [done |].
       rewrite Z.bit0_odd. pose proof (Z.div2_odd v) as E. rewrite Z.div2_div in E. unfold of_bool, Z.b2z in *. lia. }
  f_equal. f_equal. unfold of_bits. rewrite foldl_app. cbn [foldl]. f_equal. f_equal.
  transitivity (of_bits (bits_of 7 (m_oreg s mod 256 / 2))); [| apply byte_bits; zlia].
  unfold of_bits, bits_of. f_equal. apply map_ext_in. intros i Hi. apply in_seq in Hi.
  rewrite <- Z.div2_div, Z.div2_spec, Z.shiftr_spec by lia. change 256 with (2 ^ 8).
  rewrite Z.mod_pow2_bits_low by lia. f_equal. lia.
Qed.

(** ** Bytes after a command *)

(** The states in which a byte is a byte of a command in single-bit mode. *)
Definition plain (st : QSPIF_STATE) : bool :=
  match st with
  | QSPIF_IDLE | QSPIF_RDSR | QSPIF_RDCR | QSPIF_RDID | QSPIF_RELEASE | QSPIF_SLOW_READ
  | QSPIF_FAST_READ | QSPIF_SECTOR_ERASE | QSPIF_PP | QSPIF_BULK_ERASE | QSPIF_INVALID => true
  | _ => false
  end.

(** What a byte leaves alone. *)
Record keeps (s s' : FLASHSIM) : Prop := {
  k_state : m_state s' = m_state s;
  k_fmem : m_fmem s' = m_fmem s;
  k_sck : m_last_sck s' = m_last_sck s;
  k_timer : m_write_count s' = m_write_count s;
  k_ireg : m_ireg s' = m_ireg s;
  k_sreg : m_sreg s' = m_sreg s;
  k_count : m_count s' = m_count s;
  k_bytes : m_membytes s' = m_membytes s;
  k_mask : m_memmask s' = m_memmask s;
  k_mode : m_mode s' = m_mode s
}.

Lemma fl_byte_keeps s s' : plain (m_state s) = true -> fl_byte s = Some s' -> keeps s s'.
Proof.
  intros Hp. unfold fl_byte, QOREG_mem, take_addr, clear_pmem, page_byte, QOREG.
  destruct s; fields. cbv beta iota zeta.
  destruct m_state; try discriminate Hp; intros H;
    repeat match type of H with
      | context [if ?c then _ else _] => destruct c
      end; simplify_eq/=; split; reflexivity.
Qed.

(** A transfer by whole bytes, without the wire. *)
Definition step (v : Z) (s : FLASHSIM) : option (Z * FLASHSIM) :=
  match fl_byte (shifted 8 v s) with
  | Some s' => Some (2 * (m_oreg s mod 256 / 2) + of_bool (truthy (m_oreg s' .& 0x0100)), s')
  | None => None
  end.

Fixpoint feed (vs : list Z) (s : FLASHSIM) : option (list Z * FLASHSIM) :=
  match vs with
  | [] => Some ([], s)
  | v :: vs' =>
      match step v s with
      | Some (o, s1) => match feed vs' s1 with Some (os, s2) => Some (o :: os, s2) | None => None end
      | None => None
      end
  end.

(** Between the bytes of a command. *)
Record mid (n : Z) (s : FLASHSIM) : Prop := {
  md_listening : listening s;
  md_plain : plain (m_state s) = true;
  md_count : m_count s = n
}.

Lemma shifted_fields n v s :
  m_state (shifted n v s) = m_state s /\ m_fmem (shifted n v s) = m_fmem s /\
  m_pmem (shifted n v s) = m_pmem s /\ m_sreg (shifted n v s) = m_sreg s /\
  m_addr (shifted n v s) = m_addr s /\ m_membytes (shifted n v s) = m_membytes s /\
  m_memmask (shifted n v s) = m_memmask s /\ m_last_sck (shifted n v s) = m_last_sck s /\
  m_write_count (shifted n v s) = m_write_count s /\ m_mode (shifted n v s) = m_mode s /\
  m_count (shifted n v s) = m_count s + n.
Proof. unfold shifted. by destruct s. Qed.

Ltac shifted_facts n v s :=
  destruct (shifted_fields n v s) as (?Hsst & ?Hsm & ?Hsp & ?Hss & ?Hsa & ?Hsb & ?Hsk & ?Hsl & ?Hst & ?Hsd & ?Hsc).

Lemma step_mid n v s o s' :
  mid n s -> 0 <= n < 2 ^ 30 -> step v s = Some (o, s') -> mid (n + 8) s' /\ keeps (shifted 8 v s) s'.
Proof.
  intros [Hl Hp Hn] Hr Hs. unfold step in Hs. shifted_facts 8 v s.
  destruct (fl_byte (shifted 8 v s)) as [s1 |] eqn:Hb; [| done]. injection Hs as _ <-.
  destruct (fl_byte_keeps _ _ ltac:(by rewrite Hsst) Hb) as [] eqn:E. clear E.
  destruct Hl. split; [split; [split | |] |]; [congruence .. | | congruence | lia | by split].
  rewrite k_count0, Hsc. lia.
Qed.

Lemma spi_bytes_feed n vs s os s' :
  mid n s -> 8 <= n -> n mod 8 = 0 -> n + 8 * Z.of_nat (length vs) < 2 ^ 30 ->
  Forall (fun v => 0 <= v < 256) vs ->
  feed vs s = Some (os, s') -> spi_bytes vs s = Some (os, s').
Proof.
  intros Hmid Hn H8 Hlen Hvs. revert n s os Hmid Hn H8 Hlen.
  induction Hvs as [| v vs Hv Hvs IH]; intros n s os Hmid Hn H8 Hlen; cbn [feed spi_bytes]; [done |].
  cbn [length] in Hlen. destruct (step v s) as [[o s1] |] eqn:Hst; [| done].
  destruct (step_mid n v s o s1 Hmid ltac:(lia) Hst) as [Hmid1 Hk]. destruct Hmid as [Hl Hp Hcn].
  pose proof Hmid1 as [Hl1 _ _]. shifted_facts 8 v s.
  rewrite (spi_byte_step v s s1); [| done | by subst | lia | done | | apply Hl1 ..].
  2: { unfold fl_process. rewrite Hsst, Hsc.
       rewrite land_7, (proj2 (Z.eqb_neq (m_count s + 8) 8)), (proj2 (Z.eqb_neq (m_count s + 8) 0)) by lia.
       replace ((m_count s + 8) mod 8) with 0 by zlia. cbn [Z.eqb negb andb].
       unfold step in Hst. destruct (fl_byte (shifted 8 v s)); [| done].
       destruct Hl. destruct (m_state s); (done || congruence). }
  intros H. destruct (feed vs s1) as [[os1 s2] |] eqn:Hf; [| done].
  rewrite (IH (n + 8) s1 os1); [| done | lia | zlia | lia | congruence].
  unfold step in Hst. destruct (fl_byte (shifted 8 v s)); [| done]. congruence.
Qed.

(** ** The command and its address *)

(** Deselected, in single-bit mode, awake and without a timer: the state in
    which a transaction starts.  The memory has [2^k] bytes. *)
Record ready (k : Z) (s : FLASHSIM) : Prop := {
  rd_listening : listening s;
  rd_count : m_count s = 0;
  rd_ireg : m_ireg s = 0;
  rd_awake : m_sreg s .& 0x200 = 0;
  rd_k : 16 <= k <= 24;
  rd_bytes : m_membytes s = 2 ^ k;
  rd_mask : m_memmask s = 2 ^ k - 1;
  rd_mem : forall a, 0 <= m_fmem s a < 256
}.

(** What the bytes of a command leave alone. *)
Record same (s s' : FLASHSIM) : Prop := {
  sm_state : m_state s' = m_state s;
  sm_fmem : m_fmem s' = m_fmem s;
  sm_sreg : m_sreg s' = m_sreg s;
  sm_bytes : m_membytes s' = m_membytes s;
  sm_mask : m_memmask s' = m_memmask s
}.

#[export] Instance same_refl : Reflexive same.
Proof. by split. Qed.
#[export] Instance same_trans : Transitive same.
Proof. intros s1 s2 s3 [] []. split; congruence. Qed.

Lemma keeps_same v s s' : keeps (shifted 8 v s) s' -> same s s'.
Proof. shifted_facts 8 v s. intros []. split; congruence. Qed.

(** The command byte. *)
Lemma spi_command k c s s1 :
  ready k s -> 0 <= c < 256 -> fl_cmd (shifted 8 c s) = Some s1 ->
  m_mode s1 = FM_SPI -> m_write_count s1 = 0 -> m_last_sck s1 = 1 ->
  exists o, spi_byte c s = Some (o, s1).
Proof.
  intros [Hl Hc _ _ _ _ _ _] Hv Hcmd Hm Hw Hk. eexists.
  apply spi_byte_step; [done | by rewrite Hc | by rewrite Hc | done | | done ..].
  unfold fl_process. shifted_facts 8 c s. rewrite Hsst, Hsc, Hc.
  destruct Hl. destruct (m_state s); (done || congruence).
Qed.

(** The commands that take an address. *)
Definition addressed (st : QSPIF_STATE) : bool :=
  match st with
  | QSPIF_SLOW_READ | QSPIF_FAST_READ | QSPIF_PP | QSPIF_SECTOR_ERASE => true
  | _ => false
  end.

Lemma fl_byte_addr s :
  addressed (m_state s) = true -> m_count s = 16 \/ m_count s = 24 -> exists s', fl_byte s = Some s'.
Proof.
  intros Ha Hn. unfold fl_byte, QOREG. destruct s; fields.
  destruct m_state; try discriminate Ha; destruct Hn as [-> | ->]; cbv beta iota zeta;
    destruct (m_idle_throttle && _); cbn; eauto.
Qed.

(** A byte of the address but the last. *)
Lemma step_flash_addr n v s :
  mid n s -> n = 8 \/ n = 16 -> addressed (m_state s) = true ->
  exists o s', step v s = Some (o, s') /\ mid (n + 8) s' /\ same s s' /\
    m_ireg s' = u32 (m_ireg s * 256 + v).
Proof.
  intros Hmid Hn Ha. assert (Hst : exists o s', step v s = Some (o, s')).
  { unfold step. shifted_facts 8 v s. destruct Hmid as [_ _ Hcn].
    destruct (fl_byte_addr (shifted 8 v s)) as [s' ->]; [by rewrite Hsst | lia | eauto]. }
  destruct Hst as (o & s' & Hst). exists o, s'. split; [done |].
  destruct (step_mid n v s o s' Hmid ltac:(lia) Hst) as [Hm Hk].
  split; [done |]. split; [by eapply keeps_same |]. destruct Hk as [_ _ _ _ -> _ _ _ _ _].
  unfold shifted. by destruct s.
Qed.

Lemma addr_parts a : 0 <= a < 2 ^ 24 ->
  exists h m l, abytes a = [h; m; l] /\ a = (h * 256 + m) * 256 + l /\
    0 <= h < 256 /\ 0 <= m < 256 /\ 0 <= l < 256.
Proof.
  intros Ha. unfold abytes. rewrite !land_255, !shiftr_div by lia.
  eexists _, _, _. split; [done |]. zlia.
Qed.

(** The three bytes of the address, up to what the last of them does. *)
Lemma feed_addr c a s :
  mid 8 s -> addressed (m_state s) = true -> m_ireg s = c -> 0 <= c < 256 -> 0 <= a < 2 ^ 24 ->
  exists os s3 l, mid 24 s3 /\ same s s3 /\ length os = 2%nat /\ 0 <= l < 256 /\
    m_ireg (shifted 8 l s3) = c * 2 ^ 24 + a /\
    forall vs, feed (abytes a ++ vs) s =
      match feed (l :: vs) s3 with Some (os', s') => Some (os ++ os', s') | None => None end.
Proof.
  intros Hmid Hst Hi Hc Ha. destruct (addr_parts a Ha) as (h & m & l & -> & Hav & Hh & Hm & Hl).
  destruct (step_flash_addr 8 h s Hmid ltac:(by left) Hst) as (o1 & s1 & H1 & Hmid1 & Hs1 & Hi1).
  destruct (step_flash_addr 16 m s1 Hmid1 ltac:(by right)) as (o2 & s2 & H2 & Hmid2 & Hs2 & Hi2).
  { by rewrite (sm_state _ _ Hs1). }
  exists [o1; o2], s2, l. split; [done |]. split; [by transitivity s1 |]. split; [done |].
  split; [done |]. split.
  - unfold shifted. replace (m_ireg _) with (u32 (m_ireg s2 * 2 ^ 8 + l)) by (by destruct s2).
    rewrite Hi2, Hi1, Hi. unfold u32. zlia.
  - intros vs. cbn [app feed]. rewrite H1, H2. destruct (step l s2) as [[o s'] |]; [| done].
    by destruct (feed vs s') as [[? ?] |].
Qed.

(** ** Reading *)

(** The output register after [QOREG]: a new low byte, and the bit that the
    wire takes next. *)
Definition oreg_next (b o o' : Z) : Prop :=
  o' mod 256 = b mod 256 /\ truthy (o' .& 0x0100) = truthy (o .& 0x0100).

Lemma qoreg_next b o : oreg_next b o ((o .& 0xffffff00) .| (b .& 0x0ff)).
Proof.
  split.
  - rewrite land_255. change 256 with (2 ^ 8). apply Z.bits_inj'. intros n Hn.
    destruct (Z.lt_ge_cases n 8).
    + rewrite !Z.mod_pow2_bits_low, Z.lor_spec, Z.land_spec, Z.mod_pow2_bits_low by lia.
      change 0xffffff00 with (0xffffff .<< 8). rewrite Z.shiftl_spec_low by lia.
      by rewrite andb_false_r.
    + by rewrite !Z.mod_pow2_bits_high by lia.
  - f_equal. rewrite Z.land_lor_distr_l. change 0x0100 with (0x100 .& 0xffffff00) at 1.
    rewrite <- !Z.land_assoc. change (0x0ff .& 0x100) with 0. rewrite Z.land_0_r, Z.lor_0_r. done.
Qed.

Lemma oreg_next_trans b1 b2 o1 o2 o3 : oreg_next b1 o1 o2 -> oreg_next b2 o2 o3 -> oreg_next b2 o1 o3.
Proof. intros [_ ?] [? ?]. split; congruence. Qed.

(** The bit lost by the shift is the one the wire takes. *)
Lemma oreg_out v s o' b :
  oreg_next b (m_oreg (shifted 8 v s)) o' ->
  2 * (m_oreg s mod 256 / 2) + of_bool (truthy (o' .& 0x0100)) = m_oreg s mod 256.
Proof.
  intros [_ ->]. replace (m_oreg (shifted 8 v s)) with (u32 (m_oreg s * 2 ^ 8)) by (by destruct s).
  replace (truthy (u32 (m_oreg s * 2 ^ 8) .& 0x0100)) with (negb (m_oreg s mod 2 =? 0)).
  - destruct (Z.eqb_spec (m_oreg s mod 2) 0); cbn [negb of_bool]; zlia.
  - unfold truthy. f_equal. rewrite <- Z.shiftl_mul_pow2 by lia. unfold u32.
    rewrite <- Z.land_ones, <- Z.land_assoc by lia. change (Z.ones 32 .& 256) with (1 .<< 8).
    rewrite <- Z.shiftl_land, land_1, Z.shiftl_mul_pow2 by lia.
    destruct (Z.eqb_spec (m_oreg s mod 2) 0), (Z.eqb_spec (m_oreg s mod 2 * 2 ^ 8) 0); (done || lia).
Qed.

Definition reading (st : QSPIF_STATE) : bool :=
  match st with QSPIF_SLOW_READ | QSPIF_FAST_READ => true | _ => false end.

Lemma fl_byte_read t :
  reading (m_state t) = true -> 40 <= m_count t -> m_sreg t .& 0x01 = 0 ->
  0 <= m_addr t < m_membytes t ->
  exists t', fl_byte t = Some t' /\ m_addr t' = u32 (m_addr t + 1) /\
    oreg_next (m_fmem t (m_addr t)) (m_oreg t) (m_oreg t').
Proof.
  intros Hst Hc Hs Ha. unfold fl_byte, QOREG_mem, QOREG. destruct t; fields.
  destruct m_state; try discriminate Hst; destruct (m_idle_throttle && _); cbv beta iota zeta;
    rewrite Hs, (proj2 (Z.eqb_neq m_count 32)), (proj2 (Z.leb_le 40 m_count)),
      (proj2 (Z.leb_le 0 m_addr)), (proj2 (Z.ltb_lt m_addr m_membytes)) by lia;
    cbn [Z.eqb andb];
    (eexists; split; [reflexivity |]; split; [reflexivity |];
     eapply oreg_next_trans; apply qoreg_next).
Qed.

Lemma feed_read vs n s :
  mid n s -> 32 <= n -> n + 8 * Z.of_nat (length vs) < 2 ^ 30 ->
  reading (m_state s) = true -> m_sreg s .& 0x01 = 0 -> m_membytes s <= 2 ^ 24 ->
  (forall a, 0 <= m_fmem s a < 256) ->
  0 <= m_addr s -> m_addr s + Z.of_nat (length vs) <= m_membytes s ->
  exists os s', feed vs s = Some (os, s') /\ mid (n + 8 * Z.of_nat (length vs)) s' /\ same s s' /\
    os ++ [m_oreg s' mod 256] =
      (m_oreg s mod 256) :: map (fun i => m_fmem s (m_addr s + Z.of_nat i)) (seq 0 (length vs)).
Proof.
  revert n s. induction vs as [| v vs IH]; intros n s Hmid Hn Hlen Hst Hs Hb Hmem Ha Hfit; cbn [feed length] in *.
  { exists [], s. replace (n + 8 * Z.of_nat 0) with n by lia. split_and!; done. }
  shifted_facts 8 v s. pose proof (md_count _ _ Hmid) as Hcn.
  destruct (fl_byte_read (shifted 8 v s)) as (s1 & H1 & Ha1 & Ho1);
    [by rewrite Hsst | lia | by rewrite Hss | lia |].
  assert (Hst1 : step v s = Some (m_oreg s mod 256, s1)).
  { unfold step. rewrite H1. f_equal. f_equal. by eapply oreg_out. }
  rewrite Hst1. destruct (step_mid n v s _ s1 Hmid ltac:(lia) Hst1) as [Hmid1 Hk].
  pose proof (keeps_same _ _ _ Hk) as [E1 E2 E3 E4 E5]. rewrite Hsa in Ha1.
  unfold u32 in Ha1. rewrite Z.mod_small in Ha1 by lia.
  destruct (IH (n + 8) s1) as (os & s2 & Hf & Hmid2 & Hsm2 & Hos); [done | lia | lia | congruence | congruence | by rewrite E4 | by rewrite E2 | lia | rewrite E4; lia |].
  rewrite Hf. exists (m_oreg s mod 256 :: os), s2. split; [done |].
  replace (n + 8 * Z.of_nat (S (length vs))) with (n + 8 + 8 * Z.of_nat (length vs)) by lia.
  split; [done |]. split; [transitivity s1; [by eapply keeps_same | done] |].
  cbn [app]. f_equal. rewrite Hos. cbn [seq map]. f_equal.
  + destruct Ho1 as [-> _]. rewrite Hsm, Hsa, Z.add_0_r. by apply Z.mod_small.
  + rewrite <- seq_shift, map_map. apply map_ext. intros i. rewrite E2. f_equal. lia.
Qed.

(** ** The commands *)

(** The chip after a command byte: its state, and its status register. *)
Record commanded (k c : Z) (st : QSPIF_STATE) (sreg : Z) (s s1 : FLASHSIM) : Prop := {
  cm_mid : mid 8 s1;
  cm_state : m_state s1 = st;
  cm_ireg : m_ireg s1 = c;
  cm_fmem : m_fmem s1 = m_fmem s;
  cm_sreg : m_sreg s1 = sreg;
  cm_bytes : m_membytes s1 = 2 ^ k;
  cm_mask : m_memmask s1 = 2 ^ k - 1
}.

(** The effect of [fl_cmd] on [c] in the status [r]: a state, and a status. *)
Definition cmd_to (c r : Z) (st : QSPIF_STATE) (g : Z) : Prop :=
  forall t, m_ireg t = c -> m_sreg t = r ->
  exists o, fl_cmd t = Some (t <| m_oreg := o |> <| m_state := st |> <| m_sreg := g |>).

Lemma spi_cmd k c st g s :
  ready k s -> 0 <= c < 256 -> plain st = true -> cmd_to c (m_sreg s) st g ->
  exists o s1, spi_byte c s = Some (o, s1) /\ commanded k c st g s s1.
Proof.
  intros Hr Hc Hp Hcmd. pose proof Hr as [[Hm Hk Hw Hq Hd _] Hn Hi Haw Hkk Hb Hmk _].
  destruct (Hcmd (shifted 8 c s)) as [o Ho].
  { unfold shifted. destruct s; fields. subst. unfold u32. zlia. }
  { by destruct s. }
  destruct (spi_command k c s _ Hr Hc Ho) as [b Hbyte]; [by destruct s .. |].
  exists b. eexists. split; [exact Hbyte |].
  split; [split; [split | |] | ..]; destruct s; fields; unfold shifted, u32; fields; subst;
    try done; try zlia; by destruct st.
Qed.

Ltac cmd_to := intros t Hc Hs; unfold fl_cmd, if_writable, QOREG, QSPIF_DEEP_POWER_DOWN_FLAG;
  destruct t; fields; subst;
  match goal with H : _ .& 512 = 0 |- _ => rewrite H end;
  try match goal with H : _ .& 515 = _ |- _ => rewrite H end;
  cbv -[Z.land Z.lor]; eauto.

Lemma cmd_slow_read r : r .& 0x200 = 0 -> cmd_to 0x03 r QSPIF_SLOW_READ r.
Proof. intros H. cmd_to. Qed.
Lemma cmd_fast_read r : r .& 0x200 = 0 -> cmd_to 0x0b r QSPIF_FAST_READ r.
Proof. intros H. cmd_to. Qed.
Lemma cmd_write_enable r : r .& 0x200 = 0 -> cmd_to 0x06 r QSPIF_IDLE (r .| QSPIF_WEL_FLAG).
Proof. intros H. cmd_to. Qed.
Lemma cmd_page_program r : r .& 0x200 = 0 -> r .& 0x203 = 2 -> cmd_to 0x02 r QSPIF_PP r.
Proof. intros H H2. cmd_to. Qed.
Lemma cmd_sector_erase r : r .& 0x200 = 0 -> r .& 0x203 = 2 -> cmd_to 0xd8 r QSPIF_SECTOR_ERASE r.
Proof. intros H H2. cmd_to. Qed.

(** The commands that change the memory or the configuration. *)
Definition writes (c : Z) : bool := existsb (Z.eqb c) [0x01; 0x02; 0x32; 0xc7; 0xd8].

Lemma cmd_protected c r :
  writes c = true -> r .& 0x200 = 0 -> r .& 0x203 <> 2 -> cmd_to c r QSPIF_INVALID r.
Proof.
  intros Hc H Hn. assert (E : negb (2 =? r .& 0x203) = true).
  { rewrite negb_true_iff. apply Z.eqb_neq. congruence. }
  unfold writes in Hc. apply existsb_exists in Hc as (x & Hx & ->%Z.eqb_eq).
  intros t Ht Hs. unfold fl_cmd, if_writable, QOREG, QSPIF_DEEP_POWER_DOWN_FLAG.
  destruct t; fields; subst. rewrite H, E.
  repeat (destruct Hx as [<- | Hx]; [cbv -[Z.land Z.lor]; eauto |]). destruct Hx.
Qed.

(** ** Deselecting the chip *)

Definition cleared (s : FLASHSIM) : FLASHSIM :=
  s <| m_last_sck := 1 |> <| m_ireg := 0 |> <| m_oreg := 0x0fe |> <| m_count := 0 |>.

(** Nothing was commanded that starts now. *)
Definition passive (st : QSPIF_STATE) : bool :=
  match st with
  | QSPIF_IDLE | QSPIF_RDSR | QSPIF_RDCR | QSPIF_RDID | QSPIF_SLOW_READ | QSPIF_FAST_READ
  | QSPIF_INVALID => true
  | _ => false
  end.

Lemma csn_passive s :
  passive (m_state s) = true -> m_write_count s = 0 -> fl_call 1 1 0 s = Some (0, cleared s).
Proof.
  intros Hp Hw. unfold fl_call. rewrite fl_timer_0 by done. unfold fl_csn, cleared. cbn [truthy Z.eqb negb].
  destruct s; fields. by destruct m_state.
Qed.

Lemma ready_cleared k s :
  mid (m_count s) s -> m_sreg s .& 0x200 = 0 -> 16 <= k <= 24 -> m_membytes s = 2 ^ k ->
  m_memmask s = 2 ^ k - 1 -> (forall a, 0 <= m_fmem s a < 256) -> ready k (cleared s).
Proof.
  intros [[] ? ?] ? ? ? ? ?. unfold cleared. destruct s; fields. split; fields; done.
Qed.

(** A transaction: the command byte, the bytes after it, and the deselection. *)
Lemma spi_xfer_command k c st g s vs :
  ready k s -> 0 <= c < 256 -> plain st = true -> cmd_to c (m_sreg s) st g ->
  Forall (fun v => 0 <= v < 256) vs -> Z.of_nat (length vs) < 2 ^ 20 ->
  exists o s1, commanded k c st g s s1 /\
    forall os s2, feed vs s1 = Some (os, s2) ->
      spi_xfer (c :: vs) s =
        match fl_call 1 1 0 s2 with Some (_, s3) => Some (o :: os, s3) | None => None end.
Proof.
  intros Hr Hc Hp Hcmd Hvs Hlen. destruct (spi_cmd k c st g s Hr Hc Hp Hcmd) as (o & s1 & Hb & Hcm).
  exists o, s1. split; [done |]. intros os s2 Hf. unfold spi_xfer. cbn [spi_bytes]. rewrite Hb.
  rewrite (spi_bytes_feed 8 vs s1 os s2); [done | apply Hcm | done | done | lia | done | done].
Qed.

Lemma abytes_bytes a : Forall (fun v => 0 <= v < 256) (abytes a).
Proof. unfold abytes. rewrite !land_255. repeat constructor; zlia. Qed.

Lemma take_addr_land k c a : 16 <= k <= 24 -> 0 <= a < 2 ^ k -> (c * 2 ^ 24 + a) .& (2 ^ k - 1) = a.
Proof.
  intros Hk Ha. rewrite land_ones_mod by lia.
  replace (2 ^ 24) with (2 ^ (24 - k) * 2 ^ k) by (rewrite <- Z.pow_add_r by lia; f_equal; lia).
  rewrite Z.mul_assoc, Z.add_comm, Z_mod_plus_full. by apply Z.mod_small.
Qed.

Lemma pow2_k k : 16 <= k <= 24 -> 2 ^ 16 <= 2 ^ k <= 2 ^ 24.
Proof. intros. split; apply Z.pow_le_mono_r; lia. Qed.

(** The last byte of a read's address. *)
Lemma step_slow_addr k a l s :
  mid 24 s -> m_state s = QSPIF_SLOW_READ -> 16 <= k <= 24 -> m_membytes s = 2 ^ k ->
  m_memmask s = 2 ^ k - 1 -> 0 <= a < 2 ^ k -> (forall x, 0 <= m_fmem s x < 256) ->
  m_ireg (shifted 8 l s) = 0x03 * 2 ^ 24 + a ->
  exists o s', step l s = Some (o, s') /\ m_addr s' = a + 1 /\ m_oreg s' mod 256 = m_fmem s a.
Proof.
  intros Hmid Hst Hk Hb Hmk Ha Hmem Hi. unfold step. shifted_facts 8 l s.
  assert (Hx : exists t, fl_byte (shifted 8 l s) = Some t /\ m_addr t = u32 (a + 1) /\
    m_oreg t = (((m_oreg (shifted 8 l s) .& 0xffffff00) .| (0 .& 0x0ff)) .& 0xffffff00) .| (m_fmem s a .& 0x0ff)).
  { rewrite (md_count _ _ Hmid) in Hsc. rewrite Hst in Hsst. rewrite Hmk in Hsk. rewrite Hb in Hsb.
    unfold fl_byte, QOREG_mem, take_addr, QOREG. set (t := shifted 8 l s) in *. clearbody t.
    destruct t. fields. rewrite Hsc, Hsst. cbn [Z.add Z.eqb Pos.eqb].
    destruct (m_idle_throttle && _); cbv beta iota zeta; cbn [Z.add Z.eqb Pos.eqb Pos.add Pos.succ];
      rewrite Hi, Hsk, take_addr_land, Hsb, (proj2 (Z.leb_le 0 a)), (proj2 (Z.ltb_lt a (2 ^ k))) by lia;
      cbn [andb]; eexists; (split; [reflexivity |]); fields; by rewrite Hsm. }
  destruct Hx as (t & -> & Hat & Hot). eexists _, t. split; [done |]. pose proof (pow2_k k Hk).
  split; [rewrite Hat; unfold u32; apply Z.mod_small; lia |].
  rewrite Hot, (proj1 (qoreg_next _ _)). by apply Z.mod_small.
Qed.

(** The bytes of memory from [a]. *)
Definition membytes_at (m : Z -> Z) (a : Z) (n : nat) : list Z :=
  map (fun i => m (a + Z.of_nat i)) (seq 0 n).

Lemma membytes_at_cons m a n : membytes_at m a (S n) = m a :: membytes_at m (a + 1) n.
Proof.
  unfold membytes_at. cbn [seq map]. f_equal; [f_equal; lia |].
  rewrite <- seq_shift, map_map. apply map_ext. intros i. f_equal. lia.
Qed.

Lemma membytes_at_snoc m a n : membytes_at m a (S n) = membytes_at m a n ++ [m (a + Z.of_nat n)].
Proof. unfold membytes_at. by rewrite seq_S, map_app. Qed.

Lemma slow_read k a s vs :
  ready k s -> m_sreg s .& 0x01 = 0 ->
  0 <= a -> a + Z.of_nat (length vs) < 2 ^ k -> Z.of_nat (length vs) < 2 ^ 20 - 3 ->
  Forall (fun v => 0 <= v < 256) vs ->
  exists os s', spi_xfer (0x03 :: abytes a ++ vs) s = Some (os ++ membytes_at (m_fmem s) a (length vs), s') /\
    length os = 4%nat /\ ready k s' /\ m_fmem s' = m_fmem s /\ m_sreg s' = m_sreg s.
Proof.
  intros Hr Hwip Ha Hfit Hlen Hvs. pose proof Hr as [_ _ _ Haw Hk Hb Hmk Hmem]. pose proof (pow2_k k Hk).
  destruct (spi_xfer_command k 0x03 QSPIF_SLOW_READ (m_sreg s) s (abytes a ++ vs) Hr ltac:(lia) eq_refl (cmd_slow_read _ Haw))
    as (o & s1 & [Hmid1 Hst1 Hi1 Hm1 Hs1 Hb1 Hk1] & Hx).
  { apply Forall_app. split; [apply abytes_bytes | done]. }
  { rewrite length_app. cbn. lia. }
  destruct (feed_addr 0x03 a s1 Hmid1) as (os1 & s3 & l & Hmid3 & Hsm3 & Hl1 & Hl & Hi3 & Hf); [by rewrite Hst1 | done | lia | lia |].
  destruct Hsm3 as [E1 E2 E3 E4 E5].
  destruct (step_slow_addr k a l s3) as (o4 & s4 & Hst4 & Ha4 & Ho4); [done | congruence | done | congruence | congruence | lia | | done |].
  { intros x. by rewrite E2, Hm1. }
  destruct (step_mid 24 l s3 o4 s4 Hmid3 ltac:(lia) Hst4) as [Hmid4 [F1 F2 F3 F4 F5]%keeps_same].
  destruct (feed_read vs 32 s4) as (os & s5 & Hf5 & Hmid5 & [G1 G2 G3 G4 G5] & Hos); [done | lia | lia | | | | | lia | |].
  1: by rewrite F1, E1, Hst1.
  1: by rewrite F3, E3, Hs1.
  1: rewrite F4, E4, Hb1; lia.
  1: intros x; by rewrite F2, E2, Hm1.
  1: rewrite F4, E4, Hb1; lia.
  assert (Hmemeq : m_fmem s4 = m_fmem s) by congruence.
  assert (Hos' : os = membytes_at (m_fmem s) a (length vs)).
  { fold (membytes_at (m_fmem s4) (m_addr s4) (length vs)) in Hos.
    rewrite Ho4, Ha4, Hmemeq, E2, Hm1, <- membytes_at_cons, membytes_at_snoc in Hos.
    by apply app_inj_tail in Hos as [-> _]. }
  specialize (Hf vs). cbn [feed] in Hf. rewrite Hst4, Hf5 in Hf. rewrite (Hx _ _ Hf).
  assert (Hst5 : m_state s5 = QSPIF_SLOW_READ) by congruence.
  rewrite csn_passive by (by rewrite ?Hst5 || apply Hmid5).
  exists (o :: os1 ++ [o4]), (cleared s5). rewrite Hos'. split.
  { f_equal. f_equal. cbn [app]. by rewrite <- app_assoc. }
  split; [cbn; rewrite length_app, Hl1; done |]. split; [| split].
  - apply ready_cleared; try congruence; [| intros x; rewrite G2, Hmemeq; apply Hmem].
    destruct Hmid5. split; [done | done | done].
  - unfold cleared. destruct s5; fields. congruence.
  - unfold cleared. destruct s5; fields. congruence.
Qed.

(** ** Programming a page *)

(** The page buffer after the bytes [ps] for address [a]: it wraps around. *)
Definition page (a : Z) (ps : list Z) (j : Z) : Z := default 0xff (ps !! Z.to_nat ((j - a) mod 256)).

Record programming (a : Z) (ps : list Z) (s : FLASHSIM) : Prop := {
  pg_state : m_state s = QSPIF_PP;
  pg_addr : m_addr s = 256 * (a / 256) + (a + Z.of_nat (length ps)) mod 256;
  pg_pmem : forall j, 0 <= j < 256 -> m_pmem s j = page a ps j
}.

(** A mask of [w] bits from bit [k]. *)
Lemma land_window x w k : 0 <= w -> 0 <= k -> x .& (Z.ones w .<< k) = (x / 2 ^ k mod 2 ^ w) * 2 ^ k.
Proof.
  intros Hw Hk. rewrite <- Z.land_ones, <- shiftr_div, <- shiftl_mul by done.
  apply Z.bits_inj'. intros n Hn. rewrite Z.land_spec. destruct (Z.lt_ge_cases n k).
  - by rewrite !Z.shiftl_spec_low, andb_false_r by lia.
  - rewrite !Z.shiftl_spec, Z.land_spec, Z.shiftr_spec by lia. do 2 f_equal. lia.
Qed.

Lemma page_addr x : 0 <= x < 2 ^ 32 -> x .& 0xffffff00 = 256 * (x / 256).
Proof. intros Hx. change 0xffffff00 with (Z.ones 24 .<< 8). rewrite land_window by done. zlia. Qed.

Lemma page_next x : 0 <= x < 2 ^ 32 ->
  (x .& 0xffffff00) .| ((x + 1) .& 0x0ff) = 256 * (x / 256) + (x + 1) mod 256.
Proof.
  intros Hx. rewrite page_addr, land_255 by done.
  rewrite Z.mul_comm. change 256 with (2 ^ 8) at 2. rewrite <- shiftl_mul by lia.
  rewrite lor_shiftl_add by (first [lia | apply Z.mod_pos_bound; lia]). done.
Qed.

Lemma page_snoc a ps v j :
  (length ps < 256)%nat -> 0 <= j < 256 ->
  page a (ps ++ [v]) j = if j =? (a + Z.of_nat (length ps)) mod 256 then v else page a ps j.
Proof.
  intros Hl Hj. unfold page. destruct (Z.eqb_spec j ((a + Z.of_nat (length ps)) mod 256)) as [-> | Hne].
  - rewrite lookup_app_r by zlia.
    replace (Z.to_nat _ - length ps)%nat with 0%nat by zlia. done.
  - destruct (decide (Z.to_nat ((j - a) mod 256) < length ps)%nat).
    + by rewrite lookup_app_l.
    + rewrite !lookup_ge_None_2; [done | lia | rewrite length_app; cbn; zlia].
Qed.

(** A data byte goes into the page buffer. *)
Lemma fl_byte_page a ps v t :
  m_state t = QSPIF_PP -> 40 <= m_count t -> m_ireg t mod 256 = v ->
  programming a ps t -> 0 <= a < 2 ^ 24 -> (length ps < 256)%nat ->
  exists t', fl_byte t = Some t' /\ programming a (ps ++ [v]) t'.
Proof.
  intros Hst Hc Hv [_ Ha Hp] Hr Hl. unfold fl_byte, page_byte, QOREG. destruct t; fields. subst m_state.
  assert (Ha32 : 0 <= m_addr < 2 ^ 32) by zlia.
  destruct (m_idle_throttle && _); rewrite (proj2 (Z.eqb_neq m_count 32)), (proj2 (Z.leb_le 40 m_count)) by lia;
    cbv beta iota zeta;
    (eexists; split; [reflexivity |]; split; fields;
     [done | rewrite page_next by done; rewrite length_app; cbn [length]; zlia |];
     intros j Hj; rewrite page_snoc, !land_255, Hv, Hp by done;
     rewrite Ha; replace ((256 * (a / 256) + (a + Z.of_nat (length ps)) mod 256) mod 256)
       with ((a + Z.of_nat (length ps)) mod 256) by zlia; done).
Qed.

Lemma feed_page a ds ps n s :
  mid n s -> 32 <= n -> n + 8 * Z.of_nat (length ds) < 2 ^ 30 -> programming a ps s ->
  0 <= a < 2 ^ 24 -> (length ps + length ds <= 256)%nat -> Forall (fun v => 0 <= v < 256) ds ->
  exists os s', feed ds s = Some (os, s') /\ mid (n + 8 * Z.of_nat (length ds)) s' /\ same s s' /\
    programming a (ps ++ ds) s'.
Proof.
  intros Hmid Hn Hlen Hpg Ha Hl Hds. revert n ps s Hmid Hn Hlen Hpg Hl.
  induction Hds as [| v ds Hv Hds IH]; intros n ps s Hmid Hn Hlen Hpg Hl; cbn [feed length] in *.
  { exists [], s. replace (n + 8 * Z.of_nat 0) with n by lia. by rewrite app_nil_r. }
  shifted_facts 8 v s. pose proof (md_count _ _ Hmid) as Hcn. pose proof Hpg as [P1 P2 P3].
  destruct (fl_byte_page a ps v (shifted 8 v s)) as (s1 & H1 & Hp1); [congruence | lia | | | done | lia |].
  { replace (m_ireg _) with (u32 (m_ireg s * 2 ^ 8 + v)) by (by destruct s). unfold u32. zlia. }
  { split; [congruence | congruence |]. by rewrite Hsp. }
  assert (Hst1 : exists o, step v s = Some (o, s1)) by (unfold step; rewrite H1; eauto).
  destruct Hst1 as [o Hst1]. rewrite Hst1.
  destruct (step_mid n v s _ s1 Hmid ltac:(lia) Hst1) as [Hmid1 Hk].
  destruct (IH (n + 8) (ps ++ [v]) s1) as (os & s2 & Hf & Hmid2 & Hsm2 & Hp2);
    [done | lia | lia | done | rewrite length_app; cbn; lia |].
  rewrite Hf. exists (o :: os), s2. split; [done |].
  replace (n + 8 * Z.of_nat (S (length ds))) with (n + 8 + 8 * Z.of_nat (length ds)) by lia.
  split; [done |]. split; [transitivity s1; [by eapply keeps_same | done] |].
  by rewrite <- app_assoc in Hp2.
Qed.

Lemma step_page_addr k a l s :
  mid 24 s -> m_state s = QSPIF_PP -> 16 <= k <= 24 -> m_memmask s = 2 ^ k - 1 -> 0 <= a < 2 ^ k ->
  m_ireg (shifted 8 l s) = 0x02 * 2 ^ 24 + a ->
  exists o s', step l s = Some (o, s') /\ programming a [] s'.
Proof.
  intros Hmid Hst Hk Hmk Ha Hi. unfold step. shifted_facts 8 l s.
  assert (Hx : exists t, fl_byte (shifted 8 l s) = Some t /\ programming a [] t).
  { rewrite (md_count _ _ Hmid) in Hsc. rewrite Hst in Hsst. rewrite Hmk in Hsk.
    unfold fl_byte, take_addr, clear_pmem, QOREG. set (t := shifted 8 l s) in *. clearbody t.
    destruct t. fields. rewrite Hsc, Hsst.
    destruct (m_idle_throttle && _); cbv beta iota zeta; cbn [Z.add Z.eqb Pos.eqb Pos.add Pos.succ];
      rewrite Hi, Hsk, take_addr_land by lia; eexists; (split; [reflexivity |]);
      (split; fields; [done | cbn [length Z.of_nat]; zlia |]; intros j Hj; unfold range_set;
       rewrite (proj2 (Z.leb_le 0 j)), (proj2 (Z.ltb_lt j (0 + 256))) by lia; done). }
  destruct Hx as (t & -> & Hp). eauto.
Qed.

(** Memory [m] with the bytes [ds] programmed at [a]: bits are only cleared,
    and only within the page of [a]. *)
Definition program (m : Z -> Z) (a : Z) (ds : list Z) (x : Z) : Z :=
  if x / 256 =? a / 256 then m x .& page a ds (x mod 256) else m x.

(** A write or an erase in progress. *)
Record busy (k n : Z) (s : FLASHSIM) : Prop := {
  bz_mode : m_mode s = FM_SPI;
  bz_sck : m_last_sck s = 1;
  bz_timer : m_write_count s = n;
  bz_state : m_state s = QSPIF_IDLE;
  bz_count : m_count s = 0;
  bz_ireg : m_ireg s = 0;
  bz_k : 16 <= k <= 24;
  bz_bytes : m_membytes s = 2 ^ k;
  bz_mask : m_memmask s = 2 ^ k - 1;
  bz_mem : forall a, 0 <= m_fmem s a < 256
}.

Lemma land_byte x y : 0 <= x < 256 -> 0 <= x .& y < 256.
Proof.
  intros Hx. split; [apply Z.land_nonneg; lia |].
  rewrite <- (Z.mod_small x 256) by done. change 256 with (2 ^ 8).
  rewrite <- Z.land_ones, <- Z.land_assoc, (Z.land_comm (Z.ones 8)), Z.land_assoc, Z.land_ones by lia.
  by apply Z.mod_pos_bound.
Qed.

Lemma program_byte m a ds x : (forall x, 0 <= m x < 256) -> 0 <= program m a ds x < 256.
Proof. intros Hm. unfold program. destruct (_ =? _); [by apply land_byte | done]. Qed.

(** The deselection that starts a page program. *)
Lemma csn_program k a ds n s :
  mid n s -> programming a ds s -> 16 <= k <= 24 -> 0 <= a < 2 ^ k -> m_membytes s = 2 ^ k ->
  m_memmask s = 2 ^ k - 1 -> (forall x, 0 <= m_fmem s x < 256) ->
  exists r s', fl_call 1 1 0 s = Some (r, s') /\ busy k tPP s' /\
    m_sreg s' = (m_sreg s .& (0xffffffff .^ QSPIF_WEL_FLAG)) .| QSPIF_WIP_FLAG /\
    forall x, m_fmem s' x = program (m_fmem s) a ds x.
Proof.
  intros [[Hm Hk Hw _ _ _] _ _] [Hst Ha Hp] Hkk Har Hb Hmk Hmem. pose proof (pow2_k k Hkk).
  unfold fl_call. rewrite fl_timer_0 by done.
  assert (Hbase : m_addr s .& 0xffffff00 = 256 * (a / 256)) by (rewrite Ha, page_addr; zlia).
  assert (Hin : 256 * (a / 256) + 256 <= 2 ^ k).
  { replace (2 ^ k) with (256 * 2 ^ (k - 8)) in * by (change 256 with (2 ^ 8); rewrite <- Z.pow_add_r by lia; f_equal; lia). zlia. }
  set (x' := fun i v => v .& m_pmem s i).
  assert (Hset : forall x, range_set 256 (256 * (a / 256)) x' (m_fmem s) x = program (m_fmem s) a ds x).
  { intros x. unfold range_set, program, x'.
    destruct (Z.leb_spec (256 * (a / 256)) x), (Z.ltb_spec x (256 * (a / 256) + 256)),
      (Z.eqb_spec (x / 256) (a / 256)); cbn [andb]; try zlia; try done.
    replace (x - 256 * (a / 256)) with (x mod 256) by zlia. by rewrite Hp by zlia. }
  assert (Hmem' : forall x, 0 <= range_set 256 (256 * (a / 256)) x' (m_fmem s) x < 256).
  { intros x. rewrite Hset. by apply program_byte. }
  unfold fl_csn, mem_set, clear_wel_set_wip. cbn [truthy Z.eqb negb]. subst x'.
  destruct s; fields. rewrite Hst. cbv beta iota zeta. rewrite Hbase.
  rewrite (proj2 (Z.leb_le 0 (256 * (a / 256)))), Hb, (proj2 (Z.leb_le _ (2 ^ k))) by zlia.
  cbn [andb]. cbv beta iota zeta. do 2 eexists. split; [reflexivity |]. split; [by split | done].
Qed.

(** ** Waiting *)

(** [n] calls with the chip deselected. *)
Fixpoint idle (n : nat) (s : FLASHSIM) : option FLASHSIM :=
  match n with
  | O => Some s
  | S n' => match fl_call 1 1 0 s with Some (_, s1) => idle n' s1 | None => None end
  end.

Lemma land_fc_awake x : (x .& 0x0fc) .& 0x200 = 0.
Proof. rewrite <- Z.land_assoc. apply Z.land_0_r. Qed.

(** When the timer runs out, the write is no longer in progress. *)
Lemma idle_done k n s :
  busy k (Z.of_nat (S n)) s ->
  exists s', idle (S n) s = Some s' /\ ready k s' /\ m_fmem s' = m_fmem s /\ m_sreg s' = m_sreg s .& 0x0fc.
Proof.
  revert s. induction n as [| n IH]; intros s [B1 B2 B3 B4 B5 B6 B7 B8 B9 B10]; cbn [idle].
  - unfold fl_call, fl_timer, fl_csn. destruct s; fields; subst. cbn. eexists. split; [reflexivity |].
    split; [| done]. split; [by split | done | done | apply land_fc_awake | done ..].
  - assert (Hx : exists r s1, fl_call 1 1 0 s = Some (r, s1) /\ busy k (Z.of_nat (S n)) s1 /\
      m_fmem s1 = m_fmem s /\ m_sreg s1 = m_sreg s).
    { unfold fl_call, fl_timer, fl_csn. destruct s; fields; subst.
      rewrite (proj2 (Z.ltb_lt 0 _)) by lia. cbv beta iota zeta.
      rewrite (proj2 (Z.eqb_neq (Z.of_nat (S (S n)) - 1) 0)) by lia. cbv beta iota zeta. cbn [truthy Z.eqb negb].
      do 2 eexists. split; [reflexivity |]. split; [| done]. split; fields; try done. lia. }
    destruct Hx as (r & s1 & -> & Hb & Hm & Hs). destruct (IH s1 Hb) as (s' & Hi & Hr & Hm' & Hs').
    exists s'. split; [exact Hi |]. split; [done |]. split; congruence.
Qed.

(** ** Transactions *)

Definition writable (s : FLASHSIM) : Prop := m_sreg s .& 0x203 = 2.

Lemma wel_set r : r .& 0x200 = 0 -> r .& 0x01 = 0 ->
  (r .| QSPIF_WEL_FLAG) .& 0x203 = 2 /\ (r .| QSPIF_WEL_FLAG) .& 0x200 = 0.
Proof.
  intros Ha Hw. rewrite !Z.land_lor_distr_l, Ha. split; [| done].
  change (r .& 0x203) with (r .& (0x01 .| 0x02 .| 0x200)). rewrite !Z.land_lor_distr_r, Hw, Ha, Z.lor_0_r, Z.lor_0_l.
  change (QSPIF_WEL_FLAG .& _) with 2. apply Z.bits_inj'. intros n _. rewrite Z.lor_spec, Z.land_spec.
  by destruct (Z.testbit r n), (Z.testbit 2 n).
Qed.

Lemma write_enable k s :
  ready k s -> m_sreg s .& 0x01 = 0 ->
  exists os s', spi_xfer [0x06] s = Some (os, s') /\ ready k s' /\ m_fmem s' = m_fmem s /\
    m_sreg s' = m_sreg s .| QSPIF_WEL_FLAG /\ writable s'.
Proof.
  intros Hr Hwip. pose proof Hr as [_ _ _ Haw Hk Hb Hmk Hmem].
  pose proof (wel_set _ Haw Hwip) as [Hw2 Haw2].
  destruct (spi_xfer_command k 0x06 QSPIF_IDLE (m_sreg s .| QSPIF_WEL_FLAG) s [] Hr ltac:(lia) eq_refl
    (cmd_write_enable _ Haw)) as (o & s1 & [Hmid1 Hst1 Hi1 Hm1 Hs1 Hb1 Hk1] & Hx); [done | done |].
  rewrite (Hx [] s1 eq_refl), csn_passive by (by rewrite ?Hst1 || apply Hmid1).
  exists [o], (cleared s1). split; [done |]. split; [| split; [| split]].
  - apply ready_cleared; try congruence; [| intros x; rewrite Hm1; apply Hmem].
    destruct Hmid1. split; [done | done | done].
  - unfold cleared. destruct s1; fields. congruence.
  - unfold cleared. destruct s1; fields. congruence.
  - unfold writable, cleared. destruct s1; fields. by rewrite Hs1.
Qed.

Lemma page_program k a ds s :
  ready k s -> writable s -> 0 <= a < 2 ^ k -> (length ds <= 256)%nat ->
  Forall (fun v => 0 <= v < 256) ds ->
  exists os s', spi_xfer (0x02 :: abytes a ++ ds) s = Some (os, s') /\ busy k tPP s' /\
    m_sreg s' = (m_sreg s .& (0xffffffff .^ QSPIF_WEL_FLAG)) .| QSPIF_WIP_FLAG /\
    forall x, m_fmem s' x = program (m_fmem s) a ds x.
Proof.
  intros Hr Hwr Ha Hlen Hds. pose proof Hr as [_ _ _ Haw Hk Hb Hmk Hmem]. pose proof (pow2_k k Hk).
  destruct (spi_xfer_command k 0x02 QSPIF_PP (m_sreg s) s (abytes a ++ ds) Hr ltac:(lia) eq_refl
    (cmd_page_program _ Haw Hwr)) as (o & s1 & [Hmid1 Hst1 Hi1 Hm1 Hs1 Hb1 Hk1] & Hx).
  { apply Forall_app. split; [apply abytes_bytes | done]. }
  { rewrite length_app. cbn. lia. }
  destruct (feed_addr 0x02 a s1 Hmid1) as (os1 & s3 & l & Hmid3 & Hsm3 & Hl1 & Hl & Hi3 & Hf); [by rewrite Hst1 | done | lia | lia |].
  destruct Hsm3 as [E1 E2 E3 E4 E5].
  destruct (step_page_addr k a l s3) as (o4 & s4 & Hst4 & Hp4); [done | congruence | done | congruence | lia | done |].
  destruct (step_mid 24 l s3 o4 s4 Hmid3 ltac:(lia) Hst4) as [Hmid4 [F1 F2 F3 F4 F5]%keeps_same].
  destruct (feed_page a ds [] 32 s4) as (os & s5 & Hf5 & Hmid5 & [G1 G2 G3 G4 G5] & Hp5); [done | lia | lia | done | lia | cbn; lia | done |].
  specialize (Hf ds). cbn [feed] in Hf. rewrite Hst4, Hf5 in Hf. rewrite (Hx _ _ Hf).
  destruct (csn_program k a ds _ s5 Hmid5 Hp5) as (r & s' & Hc & Hbz & Hs' & Hm'); [done | done | congruence | congruence | |].
  { intros x. rewrite G2, F2, E2, Hm1. apply Hmem. }
  rewrite Hc. eexists _, s'. split; [done |]. split; [done |]. split; [congruence |].
  intros x. rewrite Hm'. unfold program. by rewrite G2, F2, E2, Hm1.
Qed.

(** ** Erasing *)

(** Memory [m] with the sector of [a] erased. *)
Definition erase (m : Z -> Z) (a : Z) (x : Z) : Z := if x / 65536 =? a / 65536 then 0xff else m x.

Lemma sector_addr x : 0 <= x < 2 ^ 32 -> x .& 0xffff0000 = 65536 * (x / 65536).
Proof. intros Hx. change 0xffff0000 with (Z.ones 16 .<< 16). rewrite land_window by done. zlia. Qed.

(** The mask of the command keeps address bits 14 to 23. *)
Lemma sector_mask c a : 0 <= a < 2 ^ 24 ->
  exists y, (c * 2 ^ 24 + a) .& 0x0ffc000 = y /\ 0 <= y < 2 ^ 24 /\ y / 65536 = a / 65536 /\
    y .& 0xfc00000 = (a / 2 ^ 22) * 2 ^ 22.
Proof.
  intros Ha. eexists. split; [done |].
  change 0x0ffc000 with (Z.ones 10 .<< 14). change 0xfc00000 with (Z.ones 6 .<< 22).
  rewrite !land_window by done. zlia.
Qed.

(** The last byte of an erase's address. *)
Lemma fl_byte_erase_addr c a t :
  m_state t = QSPIF_SECTOR_ERASE -> m_count t = 32 -> m_ireg t = c * 2 ^ 24 + a -> 0 <= a < 2 ^ 24 ->
  exists y, 0 <= y < 2 ^ 24 /\ y / 65536 = a / 65536 /\
    if a <? 2 ^ 22 then exists t', fl_byte t = Some t' /\ m_addr t' = y else fl_byte t = None.
Proof.
  intros Hst Hc Hi Ha. destruct (sector_mask c a Ha) as (y & Hy & Hr & Hd & Hm). exists y.
  split; [done |]. split; [done |]. unfold fl_byte, QOREG. destruct t; fields. subst m_state m_count m_ireg.
  destruct (m_idle_throttle && _); cbv beta iota zeta; cbn [Z.eqb Pos.eqb]; rewrite Hy, Hm;
    destruct (Z.ltb_spec a (2 ^ 22)).
  1, 3: replace (a / 2 ^ 22) with 0 by zlia; cbn; eauto.
  all: rewrite (proj2 (Z.eqb_neq _ 0)) by zlia; done.
Qed.

Lemma erase_byte m a x : (forall x, 0 <= m x < 256) -> 0 <= erase m a x < 256.
Proof. intros Hm. unfold erase. destruct (_ =? _); [lia | done]. Qed.

Lemma csn_erase k a n s :
  mid n s -> m_state s = QSPIF_SECTOR_ERASE -> 0 <= m_addr s < 2 ^ 24 -> m_addr s / 65536 = a / 65536 ->
  16 <= k <= 24 -> 0 <= a < 2 ^ k -> m_membytes s = 2 ^ k ->
  m_memmask s = 2 ^ k - 1 -> (forall x, 0 <= m_fmem s x < 256) ->
  exists r s', fl_call 1 1 0 s = Some (r, s') /\ busy k tSE s' /\
    m_sreg s' = (m_sreg s .& (0xffffffff .^ QSPIF_WEL_FLAG)) .| QSPIF_WIP_FLAG /\
    forall x, m_fmem s' x = erase (m_fmem s) a x.
Proof.
  intros [[Hm Hk Hw _ _ _] _ _] Hst Ha Had Hkk Har Hb Hmk Hmem. pose proof (pow2_k k Hkk).
  unfold fl_call. rewrite fl_timer_0 by done.
  assert (Hbase : m_addr s .& 0xffff0000 = 65536 * (a / 65536)) by (rewrite sector_addr by lia; lia).
  assert (Hin : 65536 * (a / 65536) + 65536 <= 2 ^ k).
  { replace (2 ^ k) with (65536 * 2 ^ (k - 16)) in * by (change 65536 with (2 ^ 16); rewrite <- Z.pow_add_r by lia; f_equal; lia). zlia. }
  assert (Hset : forall x, range_set 65536 (65536 * (a / 65536)) ff (m_fmem s) x = erase (m_fmem s) a x).
  { intros x. unfold range_set, erase.
    destruct (Z.leb_spec (65536 * (a / 65536)) x), (Z.ltb_spec x (65536 * (a / 65536) + 65536)),
      (Z.eqb_spec (x / 65536) (a / 65536)); cbn [andb]; try zlia; done. }
  assert (Hmem' : forall x, 0 <= range_set 65536 (65536 * (a / 65536)) ff (m_fmem s) x < 256).
  { intros x. rewrite Hset. by apply erase_byte. }
  unfold fl_csn, mem_set, clear_wel_set_wip. cbn [truthy Z.eqb negb].
  destruct s; fields. rewrite Hst. cbv beta iota zeta. rewrite Hbase.
  rewrite (proj2 (Z.leb_le 0 (65536 * (a / 65536)))), Hb, (proj2 (Z.leb_le _ (2 ^ k))) by zlia.
  cbn [andb]. cbv beta iota zeta. do 2 eexists. split; [reflexivity |]. split; [by split | done].
Qed.

Lemma sector_erase k a s :
  ready k s -> writable s -> 0 <= a < 2 ^ k -> a < 2 ^ 22 ->
  exists os s', spi_xfer (0xd8 :: abytes a) s = Some (os, s') /\ busy k tSE s' /\
    m_sreg s' = (m_sreg s .& (0xffffffff .^ QSPIF_WEL_FLAG)) .| QSPIF_WIP_FLAG /\
    forall x, m_fmem s' x = erase (m_fmem s) a x.
Proof.
  intros Hr Hwr Ha Ha22. pose proof Hr as [_ _ _ Haw Hk Hb Hmk Hmem]. pose proof (pow2_k k Hk).
  destruct (spi_xfer_command k 0xd8 QSPIF_SECTOR_ERASE (m_sreg s) s (abytes a) Hr ltac:(lia) eq_refl
    (cmd_sector_erase _ Haw Hwr) (abytes_bytes a) eq_refl) as (o & s1 & [Hmid1 Hst1 Hi1 Hm1 Hs1 Hb1 Hk1] & Hx).
  destruct (feed_addr 0xd8 a s1 Hmid1) as (os1 & s3 & l & Hmid3 & Hsm3 & Hl1 & Hl & Hi3 & Hf); [by rewrite Hst1 | done | lia | lia |].
  destruct Hsm3 as [E1 E2 E3 E4 E5]. shifted_facts 8 l s3.
  destruct (fl_byte_erase_addr 0xd8 a (shifted 8 l s3)) as (y & Hy & Hyd & Hfb); [congruence | | done | lia |].
  { rewrite Hsc, (md_count _ _ Hmid3). done. }
  rewrite (proj2 (Z.ltb_lt a (2 ^ 22))) in Hfb by done. destruct Hfb as (s4 & Hb4 & Ha4).
  assert (Hst4 : exists o4, step l s3 = Some (o4, s4)) by (unfold step; rewrite Hb4; eauto).
  destruct Hst4 as [o4 Hst4].
  destruct (step_mid 24 l s3 o4 s4 Hmid3 ltac:(lia) Hst4) as [Hmid4 [F1 F2 F3 F4 F5]%keeps_same].
  specialize (Hf []). rewrite app_nil_r in Hf. cbn [feed] in Hf. rewrite Hst4 in Hf. rewrite (Hx _ _ Hf).
  destruct (csn_erase k a _ s4 Hmid4) as (r & s' & Hc & Hbz & Hs' & Hm'); [congruence | by rewrite Ha4 | by rewrite Ha4 | done | lia | congruence | congruence | |].
  { intros x. rewrite F2, E2, Hm1. apply Hmem. }
  rewrite Hc. eexists _, s'. split; [done |]. split; [done |]. split; [congruence |].
  intros x. rewrite Hm'. unfold erase. by rewrite F2, E2, Hm1.
Qed.

(** ** Refusals *)

Lemma feed_invalid n vs s :
  mid n s -> m_state s = QSPIF_INVALID -> 0 <= n -> n + 8 * Z.of_nat (length vs) < 2 ^ 30 ->
  exists os s', feed vs s = Some (os, s') /\ mid (n + 8 * Z.of_nat (length vs)) s' /\ same s s'.
Proof.
  revert n s. induction vs as [| v vs IH]; intros n s Hmid Hst Hn Hlen; cbn [feed length] in *.
  { exists [], s. by replace (n + 8 * Z.of_nat 0) with n by lia. }
  assert (Hx : exists o s1, step v s = Some (o, s1)).
  { unfold step, fl_byte. replace (m_state _) with QSPIF_INVALID; [eauto |].
    unfold shifted, QOREG. destruct s; fields. by destruct (m_idle_throttle && _). }
  destruct Hx as (o & s1 & Hx). rewrite Hx.
  destruct (step_mid n v s o s1 Hmid ltac:(lia) Hx) as [Hmid1 Hs1%keeps_same].
  destruct (IH (n + 8) s1) as (os & s2 & -> & Hmid2 & Hs2); [done | | lia | lia |].
  { by rewrite (sm_state _ _ Hs1). }
  exists (o :: os), s2. split; [done |].
  replace (n + 8 * Z.of_nat (S (length vs))) with (n + 8 + 8 * Z.of_nat (length vs)) by lia.
  split; [done | by transitivity s1].
Qed.

(** A byte whose processing fails. *)
Lemma spi_byte_fail v s :
  listening s -> m_count s mod 8 = 0 -> 8 <= m_count s < 2 ^ 30 -> 0 <= v < 256 ->
  fl_byte (shifted 8 v s) = None -> spi_byte v s = None.
Proof.
  intros Hl H8 Hc Hv Hp. unfold spi_byte. rewrite bits_of_8, spi_bits_app.
  destruct (byte_bits v Hv) as [_ Hb7].
  rewrite spi_bits_7; [| done | done | done | lia | done]. change (length (bits_of 7 (v / 2))) with 7%nat.
  rewrite Hb7. cbn [spi_bits]. set (t := shifted (Z.of_nat 7) (v / 2) s).
  assert (Ht : listening t) by (apply listening_shifted; (done || lia)).
  enough (H : spi_bit (Z.testbit v 0) t = None) by (by rewrite H).
  unfold spi_bit, fl_call. pose proof Ht as [T1 T2 T3 T4 T5 T6]. rewrite fl_timer_0 by done.
  rewrite T2. cbn [truthy negb Z.eqb orb]. rewrite fl_shift_spi by done. subst t.
  rewrite shifted_shifted by lia. change (Z.of_nat 7 + 1) with 8.
  replace (2 * (v / 2) + of_bool (Z.testbit v 0)) with v.
  2: { rewrite Z.bit0_odd. pose proof (Z.div2_odd v) as E. rewrite Z.div2_div in E.
       unfold of_bool, Z.b2z in *. lia. }
  shifted_facts 8 v s. unfold fl_process. rewrite Hsst, Hsc, land_7, Hp.
  rewrite (proj2 (Z.eqb_neq (m_count s + 8) 8)), (proj2 (Z.eqb_neq (m_count s + 8) 0)) by lia.
  replace ((m_count s + 8) mod 8) with 0 by zlia. cbn [Z.eqb negb andb].
  destruct Hl. destruct (m_state s); (done || congruence).
Qed.

Lemma spi_bytes_app xs ys s :
  spi_bytes (xs ++ ys) s =
    match spi_bytes xs s with
    | Some (o, s1) => match spi_bytes ys s1 with Some (o', s2) => Some (o ++ o', s2) | None => None end
    | None => None
    end.
Proof.
  revert s. induction xs as [| x xs IH]; intros s; cbn [app spi_bytes].
  - by destruct (spi_bytes ys s) as [[? ?] |].
  - destruct (spi_byte x s) as [[o s1] |]; [| done]. rewrite IH.
    destruct (spi_bytes xs s1) as [[o1 s2] |]; [| done]. by destruct (spi_bytes ys s2) as [[? ?] |].
Qed.
