(* ===== verification/FlashClaims.v ===== *)
(** The claims on the flash model (sim/verilated/flashsim.cpp): its read,
    program, erase and write-protection transactions over the single-bit wire,
    and the addresses at which it stops the simulation. *)

From stdpp Require Import base tactics list numbers option.
From Stdlib Require Import ZArith Lia.
From S2P Require Import Prelude FlashSim FlashProps.
Local Open Scope Z_scope.

(** ** Sequences of transactions *)

(** Erase the sector of [a], program [ds] at [a] (each with its write enable
    and its wait), read [n] bytes from [a]. *)
Definition erase_seq (a : Z) (s : FLASHSIM) : option FLASHSIM :=
  '(_, s) ← spi_xfer [0x06] s; '(_, s) ← spi_xfer (0xd8 :: abytes a) s; idle (Z.to_nat tSE) s.
Definition program_seq (a : Z) (ds : list Z) (s : FLASHSIM) : option FLASHSIM :=
  '(_, s) ← spi_xfer [0x06] s; '(_, s) ← spi_xfer (0x02 :: abytes a ++ ds) s; idle (Z.to_nat tPP) s.
Definition read_seq (a : Z) (n : nat) (s : FLASHSIM) : option (list Z * FLASHSIM) :=
  '(os, s) ← spi_xfer (0x03 :: abytes a ++ replicate n 0) s; Some (drop 4 os, s).

Lemma busy_wait k t s :
  0 < t -> busy k t s ->
  exists s', idle (Z.to_nat t) s = Some s' /\ ready k s' /\ m_fmem s' = m_fmem s /\ m_sreg s' .& 0x01 = 0.
Proof.
  intros Ht Hb. replace (Z.to_nat t) with (S (Z.to_nat (t - 1))) by lia.
  destruct (idle_done k (Z.to_nat (t - 1)) s) as (s' & Hi & Hr & Hm & Hs).
  { replace (Z.of_nat (S (Z.to_nat (t - 1)))) with t by lia. done. }
  exists s'. split; [done |]. split; [done |]. split; [done |]. rewrite Hs, <- Z.land_assoc. apply Z.land_0_r.
Qed.

Lemma erase_seq_ok k a s :
  ready k s -> m_sreg s .& 0x01 = 0 -> 0 <= a < 2 ^ k -> a < 2 ^ 22 ->
  exists s', erase_seq a s = Some s' /\ ready k s' /\ m_sreg s' .& 0x01 = 0 /\
    forall x, m_fmem s' x = erase (m_fmem s) a x.
Proof.
  intros Hr Hw Ha Ha22. unfold erase_seq.
  destruct (write_enable k s Hr Hw) as (o1 & s1 & -> & Hr1 & Hm1 & _ & Hw1).
  destruct (sector_erase k a s1 Hr1 Hw1 Ha Ha22) as (o2 & s2 & H2 & Hb2 & _ & Hm2).
  cbn [mbind option_bind]. rewrite H2. destruct (busy_wait k tSE s2 eq_refl Hb2) as (s' & Hi & Hr' & Hm' & Hs').
  exists s'. split; [exact Hi |]. split; [done |]. split; [done |].
  intros x. rewrite Hm', Hm2. unfold erase. by rewrite Hm1.
Qed.

Lemma program_seq_ok k a ds s :
  ready k s -> m_sreg s .& 0x01 = 0 -> 0 <= a < 2 ^ k -> (length ds <= 256)%nat ->
  Forall (fun v => 0 <= v < 256) ds ->
  exists s', program_seq a ds s = Some s' /\ ready k s' /\ m_sreg s' .& 0x01 = 0 /\
    forall x, m_fmem s' x = program (m_fmem s) a ds x.
Proof.
  intros Hr Hw Ha Hl Hds. unfold program_seq.
  destruct (write_enable k s Hr Hw) as (o1 & s1 & -> & Hr1 & Hm1 & _ & Hw1).
  destruct (page_program k a ds s1 Hr1 Hw1 Ha Hl Hds) as (o2 & s2 & H2 & Hb2 & _ & Hm2).
  cbn [mbind option_bind]. rewrite H2. destruct (busy_wait k tPP s2 eq_refl Hb2) as (s' & Hi & Hr' & Hm' & Hs').
  exists s'. split; [exact Hi |]. split; [done |]. split; [done |].
  intros x. rewrite Hm', Hm2. unfold program. by rewrite Hm1.
Qed.

Lemma read_seq_ok k a n s :
  ready k s -> m_sreg s .& 0x01 = 0 -> 0 <= a -> a + Z.of_nat n < 2 ^ k -> Z.of_nat n < 2 ^ 20 - 3 ->
  exists s', read_seq a n s = Some (membytes_at (m_fmem s) a n, s') /\ ready k s' /\
    m_fmem s' = m_fmem s /\ m_sreg s' = m_sreg s.
Proof.
  intros Hr Hw Ha Hfit Hn. unfold read_seq.
  destruct (slow_read k a s (replicate n 0)) as (os & s' & Hx & Hl & Hr' & Hm & Hs); rewrite ?length_replicate; try done.
  { apply Forall_replicate. lia. }
  exists s'. rewrite Hx, length_replicate. cbn [mbind option_bind].
  rewrite drop_app_length' by done. done.
Qed.

(** A page of erased memory takes the bytes as they are. *)
Lemma program_erased m a b ds :
  (forall i, 0 <= i < Z.of_nat (length ds) -> m (a + i) = 0xff) ->
  a mod 256 + Z.of_nat (length ds) <= 256 -> b = a ->
  Forall (fun v => 0 <= v < 256) ds ->
  membytes_at (program m a ds) b (length ds) = ds.
Proof.
  intros Hm Hp -> Hds. apply list_eq. intros i. unfold membytes_at.
  destruct (decide (i < length ds)%nat).
  2: { rewrite !lookup_ge_None_2; [done | lia | rewrite length_map, length_seq; lia]. }
  destruct (lookup_lt_is_Some_2 ds i) as [d Hd]; [done |].
  rewrite list_lookup_fmap, lookup_seq_lt, Hd by done. cbn [fmap option_fmap option_map Nat.add]. f_equal.
  unfold program. replace ((a + Z.of_nat i) / 256 =? a / 256) with true by (symmetry; apply Z.eqb_eq; zlia).
  unfold page. replace (Z.to_nat (((a + Z.of_nat i) mod 256 - a) mod 256)) with i by zlia.
  rewrite Hd. cbn [default from_option]. rewrite Hm by lia. rewrite Z.land_comm, land_255.
  apply Z.mod_small. by apply (Forall_lookup_1 (fun v => 0 <= v < 256) ds i d).
Qed.

Lemma membytes_at_ext m m' a n :
  (forall x, m x = m' x) -> membytes_at m a n = membytes_at m' a n.
Proof. intros H. unfold membytes_at. apply map_ext. intros. apply H. Qed.

(** ** Where the model stops *)

(** The address bytes on the wire, up to the last one. *)
Lemma spi_addr k c st g s a :
  ready k s -> 0 <= c < 256 -> plain st = true -> addressed st = true -> cmd_to c (m_sreg s) st g ->
  0 <= a < 2 ^ 24 ->
  exists s3 l, mid 24 s3 /\ m_state s3 = st /\ m_fmem s3 = m_fmem s /\ m_sreg s3 = g /\ m_membytes s3 = 2 ^ k /\
    m_memmask s3 = 2 ^ k - 1 /\ 0 <= l < 256 /\ m_ireg (shifted 8 l s3) = c * 2 ^ 24 + a /\
    forall vs, spi_bytes (l :: vs) s3 = None -> spi_xfer (c :: abytes a ++ vs) s = None.
Proof.
  intros Hr Hc Hp Had Hcmd Ha. destruct (addr_parts a Ha) as (h & m & l & -> & Hav & Hh & Hm & Hl).
  destruct (spi_cmd k c st g s Hr Hc Hp Hcmd) as (o & s1 & Hb & [Hmid1 Hst1 Hi1 Hm1 Hs1 Hb1 Hk1]).
  destruct (step_flash_addr 8 h s1 Hmid1 ltac:(by left)) as (o1 & s2 & H1 & Hmid2 & [A1 A2 A3 A4 A5] & Hi2); [by rewrite Hst1 |].
  destruct (step_flash_addr 16 m s2 Hmid2 ltac:(by right)) as (o2 & s3 & H2 & Hmid3 & [B1 B2 B3 B4 B5] & Hi3); [by rewrite A1, Hst1 |].
  exists s3, l. split; [done |]. do 5 (split; [congruence |]). split; [done |]. split.
  - unfold shifted. replace (m_ireg _) with (u32 (m_ireg s3 * 2 ^ 8 + l)) by (by destruct s3).
    rewrite Hi3, Hi2, Hi1. unfold u32. zlia.
  - intros vs Hn. unfold spi_xfer. change (c :: [h; m; l] ++ vs) with (c :: ([h; m] ++ (l :: vs))).
    cbn [spi_bytes]. rewrite Hb, spi_bytes_app.
    rewrite (spi_bytes_feed 8 [h; m] s1 [o1; o2] s3);
      [by rewrite Hn | done | lia | done | done | repeat constructor; lia |].
    cbn [feed]. by rewrite H1, H2.
Qed.

Lemma fl_byte_read_end t :
  reading (m_state t) = true -> 40 <= m_count t -> m_sreg t .& 0x01 = 0 ->
  m_membytes t <= m_addr t -> fl_byte t = None.
Proof.
  intros Hst Hc Hs Ha. unfold fl_byte, QOREG_mem, QOREG. destruct t; fields.
  destruct m_state; try discriminate Hst; destruct (m_idle_throttle && _); cbv beta iota zeta;
    rewrite Hs, (proj2 (Z.eqb_neq m_count 32)), (proj2 (Z.leb_le 40 m_count)),
      (proj2 (Z.ltb_ge m_addr m_membytes)), andb_false_r by lia; done.
Qed.

Lemma mid_fail n v vs s :
  mid n s -> n mod 8 = 0 -> 8 <= n < 2 ^ 30 -> 0 <= v < 256 ->
  fl_byte (shifted 8 v s) = None -> spi_bytes (v :: vs) s = None.
Proof. intros [] ? ? ? ?. cbn [spi_bytes]. by rewrite spi_byte_fail by (done || congruence || lia). Qed.

(** ** A chip to start from *)

(** A flash of [2^16] bytes, after its first deselection. *)
Definition chip : FLASHSIM := cleared (flash_new 16 8 0 0 (fun _ => 0)).

Lemma chip_ready : ready 16 chip.
Proof. split; [split | ..]; cbv; try done; intros; by split. Qed.

(** ** Claims *)

(** C17: A sector that is erased, then programmed with at most a page of bytes
    that do not cross the page, then read back over the single-bit wire (each
    write with its write enable command and its wait) returns exactly the bytes
    programmed; every call returns, and the chip is again ready. *)
Theorem erase_program_read k a ds s :
  ready k s -> m_sreg s .& 0x01 = 0 ->
  0 <= a -> a + Z.of_nat (length ds) < 2 ^ k -> a < 2 ^ 22 ->
  a mod 256 + Z.of_nat (length ds) <= 256 ->
  Forall (fun v => 0 <= v < 256) ds ->
  exists s1 s2 s3, erase_seq a s = Some s1 /\ program_seq a ds s1 = Some s2 /\
    read_seq a (length ds) s2 = Some (ds, s3) /\ ready k s3.
Proof.
  intros Hr Hw Ha Hfit Ha22 Hpg Hds.
  destruct (erase_seq_ok k a s) as (s1 & H1 & Hr1 & Hw1 & Hm1); [done | done | lia | done |].
  destruct (program_seq_ok k a ds s1) as (s2 & H2 & Hr2 & Hw2 & Hm2); [done | done | lia | zlia | done |].
  destruct (read_seq_ok k a (length ds) s2) as (s3 & H3 & Hr3 & _); [done | done | done | done | zlia |].
  exists s1, s2, s3. split; [done |]. split; [done |]. split; [| done]. rewrite H3. do 2 f_equal.
  rewrite (membytes_at_ext _ _ _ _ Hm2). apply program_erased; [| done | done | done].
  intros i Hi. rewrite Hm1. unfold erase.
  by replace ((a + i) / 65536 =? a / 65536) with true by (symmetry; apply Z.eqb_eq; zlia).
Qed.

Lemma erase_program_read_witness :
  exists s1 s2 s3, erase_seq 0x1234 chip = Some s1 /\ program_seq 0x1234 [0xde; 0xad] s1 = Some s2 /\
    read_seq 0x1234 2 s2 = Some ([0xde; 0xad], s3) /\ ready 16 s3.
Proof.
  apply (erase_program_read 16 0x1234 [0xde; 0xad] chip);
    [apply chip_ready | reflexivity | lia | done | done | done | repeat constructor; lia].
Defined.

(** After write enable, a page program of at most 256 bytes at [a] and its
    wait, each byte of the page of [a] is the old byte and-ed with the byte sent
    for it (the address wraps around within the page; bytes not sent count as
    0xff), and every other byte of the memory is as before. *)
Theorem page_program_memory k a ds s :
  ready k s -> m_sreg s .& 0x01 = 0 -> 0 <= a < 2 ^ k -> (length ds <= 256)%nat ->
  Forall (fun v => 0 <= v < 256) ds ->
  exists s', program_seq a ds s = Some s' /\ ready k s' /\
    (forall i d, ds !! i = Some d ->
      let x := 256 * (a / 256) + (a + Z.of_nat i) mod 256 in m_fmem s' x = m_fmem s x .& d) /\
    (forall x, x / 256 <> a / 256 -> m_fmem s' x = m_fmem s x) /\
    (forall x, m_fmem s' x .& m_fmem s x = m_fmem s' x).
Proof.
  intros Hr Hw Ha Hl Hds. destruct (program_seq_ok k a ds s) as (s' & H & Hr' & _ & Hm); try done.
  exists s'. split; [done |]. split; [done |]. split; [| split].
  - intros i d Hi x. pose proof (lookup_lt_Some _ _ _ Hi). rewrite Hm. unfold program.
    replace (x / 256 =? a / 256) with true by (symmetry; apply Z.eqb_eq; subst x; zlia).
    unfold page. replace (Z.to_nat ((x mod 256 - a) mod 256)) with i by (subst x; zlia). by rewrite Hi.
  - intros x Hx. rewrite Hm. unfold program. by rewrite (proj2 (Z.eqb_neq _ _)).
  - intros x. rewrite Hm. unfold program. destruct (_ =? _); [| apply Z.land_diag].
    rewrite <- Z.land_assoc, (Z.land_comm (page _ _ _)), Z.land_assoc, Z.land_diag. done.
Qed.

Lemma page_program_memory_witness :
  exists s', program_seq 0x12ff [0x0f; 0xf0] chip = Some s' /\ ready 16 s' /\
    m_fmem s' 0x12ff = 0x0f /\ m_fmem s' 0x1200 = 0xf0.
Proof.
  destruct (page_program_memory 16 0x12ff [0x0f; 0xf0] chip) as (s' & H & Hr & Hd & _);
    [apply chip_ready | reflexivity | done | cbn; lia | repeat constructor; lia |].
  exists s'. split; [exact H |]. split; [exact Hr |]. split; [exact (Hd 0%nat _ eq_refl) | exact (Hd 1%nat _ eq_refl)].
Defined.

(** A read command (0x03) with a 24-bit address returns, after four bytes
    of no meaning, the bytes of memory in order from that address, changes
    neither memory nor status, and leaves the chip ready. *)
Theorem read_returns_memory k a s vs :
  ready k s -> m_sreg s .& 0x01 = 0 ->
  0 <= a -> a + Z.of_nat (length vs) < 2 ^ k -> Z.of_nat (length vs) < 2 ^ 20 - 3 ->
  Forall (fun v => 0 <= v < 256) vs ->
  exists os s', spi_xfer (0x03 :: abytes a ++ vs) s = Some (os ++ membytes_at (m_fmem s) a (length vs), s') /\
    length os = 4%nat /\ ready k s' /\ m_fmem s' = m_fmem s /\ m_sreg s' = m_sreg s.
Proof. apply slow_read. Qed.

Lemma read_returns_memory_witness :
  exists os s', spi_xfer (0x03 :: abytes 0x10 ++ [0; 0; 0]) chip = Some (os ++ [0xff; 0xff; 0xff], s') /\
    length os = 4%nat /\ ready 16 s' /\ m_fmem s' = m_fmem chip /\ m_sreg s' = m_sreg chip.
Proof.
  exact (read_returns_memory 16 0x10 chip [0; 0; 0] chip_ready eq_refl ltac:(lia) ltac:(done) ltac:(done)
    ltac:(repeat constructor; lia)).
Defined.

(** Without the write enable latch, or with a write in progress, none of
    the commands that write the status register, program or erase has any
    effect: whatever bytes follow, memory and status are unchanged when the
    chip is deselected. *)
Theorem protected_unchanged k c vs s :
  ready k s -> writes c = true -> m_sreg s .& 0x203 <> 2 ->
  Forall (fun v => 0 <= v < 256) vs -> Z.of_nat (length vs) < 2 ^ 20 ->
  exists os s', spi_xfer (c :: vs) s = Some (os, s') /\ ready k s' /\
    m_fmem s' = m_fmem s /\ m_sreg s' = m_sreg s.
Proof.
  intros Hr Hc Hn Hvs Hlen. pose proof Hr as [_ _ _ Haw Hk Hb Hmk Hmem].
  assert (Hc8 : 0 <= c < 256).
  { unfold writes in Hc. apply existsb_exists in Hc as (x & Hx & ->%Z.eqb_eq).
    repeat (destruct Hx as [<- | Hx]; [lia |]). destruct Hx. }
  destruct (spi_xfer_command k c QSPIF_INVALID (m_sreg s) s vs Hr Hc8 eq_refl (cmd_protected c _ Hc Haw Hn) Hvs Hlen)
    as (o & s1 & [Hmid1 Hst1 Hi1 Hm1 Hs1 Hb1 Hk1] & Hx).
  destruct (feed_invalid 8 vs s1 Hmid1 Hst1 ltac:(lia) ltac:(lia)) as (os & s2 & Hf & Hmid2 & [E1 E2 E3 E4 E5]).
  rewrite (Hx _ _ Hf). assert (Hst2 : m_state s2 = QSPIF_INVALID) by congruence.
  rewrite csn_passive by (by rewrite ?Hst2 || apply Hmid2).
  exists (o :: os), (cleared s2). split; [done |]. split; [| split].
  - apply ready_cleared; try congruence; [| intros x; rewrite E2, Hm1; apply Hmem].
    destruct Hmid2. split; [done | done | done].
  - unfold cleared. destruct s2; fields. congruence.
  - unfold cleared. destruct s2; fields. congruence.
Qed.

Lemma protected_unchanged_witness :
  exists os s', spi_xfer [0x02; 0; 0; 0; 0x55] chip = Some (os, s') /\ ready 16 s' /\
    m_fmem s' = m_fmem chip /\ m_sreg s' = m_sreg chip.
Proof.
  apply (protected_unchanged 16 0x02 [0; 0; 0; 0x55] chip);
    [apply chip_ready | reflexivity | done | repeat constructor; lia | done].
Defined.

(** A sector erase of any address from 4 MB on fails its assertion as soon
    as the address is in, also in a flash of 16 MB (the default size) that has
    such a sector. *)
Theorem erase_upper_sectors k a s :
  ready k s -> writable s -> 2 ^ 22 <= a < 2 ^ k ->
  spi_xfer (0xd8 :: abytes a) s = None.
Proof.
  intros Hr Hw Ha. pose proof Hr as [_ _ _ Haw Hk _ _ _]. pose proof (pow2_k k Hk).
  destruct (spi_addr k 0xd8 QSPIF_SECTOR_ERASE (m_sreg s) s a Hr ltac:(lia) eq_refl eq_refl
    (cmd_sector_erase _ Haw Hw) ltac:(lia)) as (s3 & l & Hmid & Hst & _ & _ & _ & _ & Hl & Hi & Hx).
  specialize (Hx []). rewrite app_nil_r in Hx. apply Hx. apply (mid_fail 24); [done | done | lia | done |].
  shifted_facts 8 l s3.
  destruct (fl_byte_erase_addr 0xd8 a (shifted 8 l s3)) as (y & _ & _ & Hf); [congruence | | done | lia |].
  { rewrite Hsc, (md_count _ _ Hmid). done. }
  by rewrite (proj2 (Z.ltb_ge a (2 ^ 22))) in Hf by lia.
Qed.

(** The same chip with 16 MB, and its write enable latch set. *)
Definition big_chip : FLASHSIM := (cleared (flash_new 24 8 0 0 (fun _ => 0))) <| m_sreg := 0x1e |>.

Lemma big_chip_ready : ready 24 big_chip.
Proof. split; [split | ..]; cbv; try done; intros; by split. Qed.

Lemma erase_upper_sectors_witness : spi_xfer (0xd8 :: abytes 0x400000) big_chip = None.
Proof. apply (erase_upper_sectors 24); [apply big_chip_ready | reflexivity | done]. Defined.

(** The model fetches one byte ahead: reading the last byte of the memory
    indexes the memory array at its length, before that byte is out. *)
Theorem read_last_byte k v s :
  ready k s -> m_sreg s .& 0x01 = 0 -> 0 <= v < 256 -> spi_xfer (0x03 :: abytes (2 ^ k - 1) ++ [v]) s = None.
Proof.
  intros Hr Hwip Hv. pose proof Hr as [_ _ _ Haw Hk _ _ Hmem]. pose proof (pow2_k k Hk).
  destruct (spi_addr k 0x03 QSPIF_SLOW_READ (m_sreg s) s (2 ^ k - 1) Hr ltac:(lia) eq_refl eq_refl
    (cmd_slow_read _ Haw) ltac:(lia)) as (s3 & l & Hmid & Hst & Hm & Hs3 & Hb & Hmk & Hl & Hi & Hx).
  apply Hx. destruct (step_slow_addr k (2 ^ k - 1) l s3) as (o4 & s4 & Hst4 & Ha4 & _); try done; [lia | by rewrite Hm |].
  destruct (step_mid 24 l s3 o4 s4 Hmid ltac:(lia) Hst4) as [Hmid4 [F1 F2 F3 F4 F5]%keeps_same].
  change (l :: [v]) with ([l] ++ [v]). rewrite spi_bytes_app.
  rewrite (spi_bytes_feed 24 [l] s3 [o4] s4); [| done | lia | done | done | by constructor | cbn [feed]; by rewrite Hst4].
  rewrite (mid_fail 32 v [] s4); [done | done | done | lia | done |].
  shifted_facts 8 v s4. rewrite (md_count _ _ Hmid4) in Hsc.
  apply fl_byte_read_end; [by rewrite Hsst, F1, Hst | lia | congruence | lia].
Qed.

Lemma read_last_byte_witness : spi_xfer [0x03; 0x00; 0xff; 0xff; 0] chip = None.
Proof. exact (read_last_byte 16 0 chip chip_ready eq_refl ltac:(lia)). Defined.
