(* ===== verification/FlashDrvr.v ===== *)
(** The flash programmer of the host (src/sw/host/flashdrvr.cpp), against the
    interface of a device bus (devbus.h), with QSPI_FLASH and the FLASH_* values
    of regdefs.h.

    An access to [data] outside of the caller's buffer raises [FAULT].  What is
    only printed is left out. *)

From stdpp Require Import base tactics list numbers option.
From Stdlib Require Import ZArith Lia.
From S2P Require Import Prelude Words.
Local Open Scope Z_scope.

(** The operations of a device bus that its users need here. *)
Class DEVBUS (W : Type) := {
  dev_writeio : Z -> Z -> M W unit;
  dev_readio : Z -> M W Z;
  dev_readi : Z -> nat -> M W (list Z);
  dev_writei : Z -> list Z -> M W unit
}.

(** ** Constants (regdefs.h, flashdrvr.cpp) *)

Definition R_FLASHCFG : Z := 0x00100000.
Definition R_FLASHSCOPE : Z := 0x00300000.
Definition R_FLASH : Z := 0x01000000.
Definition FLASHBASE : Z := 0x01000000.
Definition FLASHLEN : Z := 0x01000000.
Definition FLASH_NDUMMY : Z := 2.
Definition SZPAGEB : Z := 256.
Definition PGLENB : Z := 256.
Definition SZPAGEW : nat := 64.
Definition NPAGES : nat := 256.
Definition SECTORSZB : Z := Z.of_nat NPAGES * SZPAGEB.
Definition SECTOROF (a : Z) : Z := u32 (a .& (-1 .<< 16)).
Definition PAGEOF (a : Z) : Z := u32 (a .& (-1 .<< 8)).

Definition FLASH_UNKNOWN : Z := 0.
Definition MICRON_FLASHID : Z := 0x20ba1810.
Definition CFG_USERMODE : Z := 1 .<< 12.
Definition CFG_QSPEED : Z := 1 .<< 11.
Definition CFG_WEDIR : Z := 1 .<< 9.
Definition CFG_USER_CS_n : Z := 1 .<< 8.
Definition F_RESET : Z := CFG_USERMODE .| 0x0ff.
Definition F_EMPTY : Z := CFG_USERMODE .| 0x000.
Definition F_PP : Z := CFG_USERMODE .| 0x002.
Definition F_WRDI : Z := CFG_USERMODE .| 0x004.
Definition F_RDSR1 : Z := CFG_USERMODE .| 0x005.
Definition F_WREN : Z := CFG_USERMODE .| 0x006.
Definition F_SE : Z := CFG_USERMODE .| 0x0d8.
Definition F_END : Z := CFG_USERMODE .| CFG_USER_CS_n.
Definition QUAD_IO_READ : Z := CFG_USERMODE .| 0xeb.

(** ** State *)

Record FLASHDRVR (W : Type) : Type := mkDRVR { m_id : Z; m_fpga : W }.
Arguments mkDRVR {W}.
Arguments m_id {W}.
Arguments m_fpga {W}.
#[export] Instance set_m_id {W} : Setter (m_id (W := W)) := fun v s => mkDRVR v (m_fpga s).
#[export] Instance set_m_fpga {W} : Setter (m_fpga (W := W)) := fun v s => mkDRVR (m_id s) v.

Definition FLASHDRVR_new {W} (fpga : W) : FLASHDRVR W := mkDRVR FLASH_UNKNOWN fpga.

Section Driver.
Context {W : Type} `{DEVBUS W}.
Abbreviation DM := (M (FLASHDRVR W)).

Definition fpga {A} (m : M W A) : DM A := fun s =>
  match m (m_fpga s) with
  | Ret a w => Ret a (s <| m_fpga := w |>)
  | Exn e w => Exn e (s <| m_fpga := w |>)
  end.

(** [m_fpga->writeio(R_FLASHCFG, v)], once and for each value of a list. *)
Definition cfg (v : Z) : DM unit := fpga (dev_writeio R_FLASHCFG v).
Definition cfgs (vs : list Z) : DM unit := for_each vs cfg.

Definition take_offline : DM unit :=
  cfgs [F_END; F_RESET; F_RESET; F_RESET; F_RESET; F_RESET; F_RESET; F_END].

Definition restore_quadio : DM unit :=
  cfg F_END ;;
  let* s := get in
  (if m_id s =? MICRON_FLASHID then
     cfgs [F_WREN; F_END; CFG_USERMODE .| 0x81; CFG_USERMODE .| 0x23; F_END]
   else ret tt) ;;
  cfg QUAD_IO_READ ;;
  cfg (CFG_USERMODE .| CFG_QSPEED .| CFG_WEDIR) ;;
  cfg (CFG_USERMODE .| CFG_QSPEED .| CFG_WEDIR) ;;
  cfg (CFG_USERMODE .| CFG_QSPEED .| CFG_WEDIR) ;;
  cfg (CFG_USERMODE .| CFG_QSPEED .| CFG_WEDIR .| 0xa0) ;;
  cfgs (replicate (Z.to_nat ((FLASH_NDUMMY - 2) / 2)) (CFG_USERMODE .| CFG_QSPEED)) ;;
  cfg (CFG_USERMODE .| CFG_QSPEED) ;;
  cfg CFG_USERMODE ;;
  cfg CFG_USER_CS_n.

Definition place_online : DM unit := restore_quadio.

(** [m_fpga->writeio(R_FLASHCFG, CFG_USERMODE | 0x00); ... m_fpga->readio(R_FLASHCFG) & 0x0ff] *)
Definition read_cfg_byte : DM Z :=
  cfg (CFG_USERMODE .| 0x00) ;;
  let* v := fpga (dev_readio R_FLASHCFG) in
  ret (v .& 0x0ff).

Definition flashid : DM Z :=
  let* s := get in
  if negb (m_id s =? FLASH_UNKNOWN) then ret (m_id s)
  else
    take_offline ;;
    cfg (CFG_USERMODE .| 0x9f) ;;
    let* r := read_cfg_byte in
    let* b := read_cfg_byte in
    let r := u32 (r .<< 8) .| b in
    let* b := read_cfg_byte in
    let r := u32 (r .<< 8) .| b in
    let* b := read_cfg_byte in
    let r := u32 (r .<< 8) .| b in
    modify (fun s => s <| m_id := r |>) ;;
    place_online ;;
    ret r.

(** The [do ... while(sr&WIP)] loop of [flwait]. *)
Definition flwait_turn (_ : unit) : DM (unit + unit) :=
  cfg F_EMPTY ;;
  let* sr := fpga (dev_readio R_FLASHCFG) in
  if truthy (sr .& 1) then ret (inl tt) else ret (inr tt).

Definition flwait (fuel : nat) : DM unit :=
  cfg F_END ;;
  cfg F_RDSR1 ;;
  loop fuel flwait_turn tt ;;
  cfg F_END.

(** The three bytes of an address. *)
Definition cfg_addr (a : Z) : list Z :=
  [CFG_USERMODE .| ((a .>> 16) .& 0x0ff); CFG_USERMODE .| ((a .>> 8) .& 0x0ff); CFG_USERMODE .| (a .& 0x0ff)].

(** The pages of a sector that was erased, with [n] left from [i]. *)
Fixpoint verify_pages (n : nat) (flashaddr i : Z) : DM bool :=
  match n with
  | O => ret true
  | S n' =>
      let* page := fpga (dev_readi (R_FLASH + flashaddr + i * SZPAGEB) SZPAGEW) in
      if forallb (fun w => w =? 0xffffffff) page then verify_pages n' flashaddr (i + 1) else ret false
  end.

Definition erase_sector (fuel : nat) (sector : Z) (verify_erase : bool) : DM bool :=
  let flashaddr := sector .& 0x0ffffff in
  take_offline ;;
  cfgs [F_END; F_WREN; F_END] ;;
  cfg F_SE ;;
  cfgs (cfg_addr flashaddr) ;;
  cfg F_END ;;
  flwait fuel ;;
  place_online ;;
  if verify_erase then verify_pages NPAGES flashaddr 0 else ret true.

(** [for(unsigned i=0; i<len; i+=4) bswapd[i>>2] = buildword(&data[i]);] with the
    words so far; [data] is the memory from [data] on. *)
Fixpoint buildwords (n : nat) (data : list Z) : option (list Z) :=
  match n with
  | O => Some []
  | S n' =>
      match data with
      | b0 :: b1 :: b2 :: b3 :: data' => ws ← buildwords n' data'; Some (buildword b0 b1 b2 b3 :: ws)
      | _ => None
      end
  end.

Definition page_program (fuel : nat) (addr len : Z) (data : list Z) (verify_write : bool) : DM bool :=
  let flashaddr := addr .& 0x0ffffff in
  take_offline ;;
  assert (0 <? len) ;;
  assert (len <=? PGLENB) ;;
  assert (PAGEOF addr =? PAGEOF (u32 (addr + len - 1))) ;;
  match buildwords (Z.to_nat ((len + 3) / 4)) data with
  | None => raise FAULT
  | Some bswapd =>
      if forallb (fun v => v =? 0xffffffff) bswapd then place_online ;; ret true
      else
        cfgs [F_END; F_WREN; F_END] ;;
        cfg F_PP ;;
        cfgs (cfg_addr flashaddr) ;;
        cfgs (map (fun d => CFG_USERMODE .| CFG_WEDIR .| (d .& 0x0ff)) (take (Z.to_nat len) data)) ;;
        cfg F_END ;;
        flwait fuel ;;
        place_online ;;
        if verify_write then
          let* buf := fpga (dev_readi addr (Z.to_nat (len .>> 2))) in
          ret (bool_decide (buf = take (Z.to_nat (len .>> 2)) bswapd))
        else ret true
  end.

Definition verify_config : DM bool := ret true.
Definition set_config : DM unit := ret tt.

(** The bytes of the words that [readi] has put into a buffer of bytes. *)
Definition word_bytes (w : Z) : list Z := [w .& 0xff; (w .>> 8) .& 0xff; (w .>> 16) .& 0xff; (w .>> 24) .& 0xff].

(** The comparison of a sector with the data: is an erase needed, and where do
    they differ first ([newv], 0 for nowhere). *)
Fixpoint compare (n : nat) (i base : Z) (sbuf dp : list Z) (newv : Z) : option (bool * Z) :=
  match n with
  | O => Some (false, newv)
  | S n' =>
      match sbuf, dp with
      | b :: sbuf', d :: dp' =>
          if negb (b .& d .& 0x0ff =? d .& 0x0ff) then Some (true, u32 ((i .& -4) + base))
          else if negb (b =? d) && (newv =? 0) then compare n' (i + 1) base sbuf' dp' (u32 ((i .& -4) + base))
          else compare n' (i + 1) base sbuf' dp' newv
      | _, _ => None
      end
  end.

(** The loop over the pages of a sector.  The [len] of its body is declared by
    an initialiser that names it: it starts from what the memory holds,
    [len_junk]. *)
Fixpoint write_pages (pages fuel : nat) (len_junk addr len s : Z) (data : list Z) (verify : bool) (p : Z) : DM bool :=
  if (p <? u32 (s + SECTORSZB)) && (p <? u32 (addr + len)) then
    match pages with
    | O => raise NOFUEL
    | S pages' =>
        let start := p in
        let len' := u32 (addr + len_junk - start) in
        let len' := if negb (PAGEOF (u32 (start + len' - 1)) =? PAGEOF start)
                    then u32 (PAGEOF (u32 (start + PGLENB)) - start) else len' in
        let* ok := page_program fuel start len' (drop (Z.to_nat (u32 (p - addr))) data) verify in
        if ok then write_pages pages' fuel len_junk addr len s data verify (PAGEOF (u32 (p + PGLENB)))
        else ret false
    end
  else ret true.

(** One sector.  [sbuf_junk] is what [new char[SECTORSZB]] holds. *)
Definition write_sector (fuel : nat) (sbuf_junk : list Z) (len_junk addr len : Z) (data : list Z) (verify : bool) (s : Z) : DM bool :=
  let base := if s <? addr then addr else s in
  let ln := u32 ((if u32 (s + SECTORSZB) <? u32 (addr + len) then u32 (s + SECTORSZB) else u32 (addr + len)) - base) in
  let* ws := fpga (dev_readi base (Z.to_nat (ln .>> 2))) in
  fpga (dev_writeio R_FLASHSCOPE 8180) ;;
  let sbuf := flat_map word_bytes ws in
  match compare (Z.to_nat ln) 0 base (sbuf ++ drop (length sbuf) sbuf_junk) (drop (Z.to_nat (u32 (base - addr))) data) 0 with
  | None => raise FAULT
  | Some (need_erase, newv) =>
      if newv =? 0 then ret true
      else
        let* ok := (if need_erase then erase_sector fuel s verify else ret true) in
        if ok then
          let newv := if need_erase then base else newv in
          write_pages NPAGES fuel len_junk addr len s data verify newv
        else ret false
  end.

Fixpoint write_sectors (sectors fuel : nat) (sbuf_junk : list Z) (len_junk addr len : Z) (data : list Z) (verify : bool) (s : Z) : DM bool :=
  if s <? SECTOROF (u32 (addr + len + SECTORSZB - 1)) then
    match sectors with
    | O => raise NOFUEL
    | S sectors' =>
        let* ok := write_sector fuel sbuf_junk len_junk addr len data verify s in
        if ok then write_sectors sectors' fuel sbuf_junk len_junk addr len data verify (u32 (s + SECTORSZB)) else ret false
    end
  else ret true.

Definition write (fuel : nat) (sbuf_junk : list Z) (len_junk addr len : Z) (data : list Z) (verify : bool) : DM bool :=
  flashid ;;
  assert (FLASHBASE <=? addr) ;;
  assert (u32 (addr + len) <=? FLASHBASE + FLASHLEN) ;;
  let* ok := verify_config in
  let* ok := (if ok then ret true else set_config ;; verify_config) in
  if ok then
    let* ok := write_sectors 256 fuel sbuf_junk len_junk addr len data verify (SECTOROF addr) in
    if ok then
      take_offline ;;
      cfg F_WRDI ;;
      cfg F_END ;;
      place_online ;;
      ret true
    else ret false
  else ret false.
End Driver.
