(* ===== verification/FlashChip.v ===== *)
(** The serial flash behind its controller, as the driver sees it through the
    configuration port and the memory map: one transfer for each byte that is
    written to the port, as the data sheet of the flash and the register map of
    the controller (rtl/qflexpress.v) describe them.

    Programming and erasing change the memory as [program] and [erase] do, which
    [FlashProps] proves of the simulated flash.  A memory read while the flash is
    not in its read mode, or is busy, raises [FAULT]. *)

From stdpp Require Import base tactics list numbers option.
From Stdlib Require Import ZArith Lia.
From S2P Require Import Prelude Words FlashSim FlashProps FlashDrvr.
Local Open Scope Z_scope.

Record CHIP : Type := mkCHIP {
  k_mem : Z -> Z;
  k_wel : bool;                (* write enable latch *)
  k_wait : nat;                (* status reads until the write in progress ends *)
  k_user : bool;               (* the port has the flash *)
  k_xip : bool;                (* quad reads without a command *)
  k_rx : list (bool * Z);      (* bytes since the selection, with their speed *)
  k_in : Z                     (* the byte that came back last *)
}.

#[export] Instance set_k_mem : Setter k_mem := fun v s => mkCHIP v (k_wel s) (k_wait s) (k_user s) (k_xip s) (k_rx s) (k_in s).
#[export] Instance set_k_wel : Setter k_wel := fun v s => mkCHIP (k_mem s) v (k_wait s) (k_user s) (k_xip s) (k_rx s) (k_in s).
#[export] Instance set_k_wait : Setter k_wait := fun v s => mkCHIP (k_mem s) (k_wel s) v (k_user s) (k_xip s) (k_rx s) (k_in s).
#[export] Instance set_k_user : Setter k_user := fun v s => mkCHIP (k_mem s) (k_wel s) (k_wait s) v (k_xip s) (k_rx s) (k_in s).
#[export] Instance set_k_xip : Setter k_xip := fun v s => mkCHIP (k_mem s) (k_wel s) (k_wait s) (k_user s) v (k_rx s) (k_in s).
#[export] Instance set_k_rx : Setter k_rx := fun v s => mkCHIP (k_mem s) (k_wel s) (k_wait s) (k_user s) (k_xip s) v (k_in s).
#[export] Instance set_k_in : Setter k_in := fun v s => mkCHIP (k_mem s) (k_wel s) (k_wait s) (k_user s) (k_xip s) (k_rx s) v.

Section Chip.
(** The identification, and the number of status reads that a write lasts. *)
Context (chip_id : list Z) (t_write : nat).

(** The end of a selection: the command takes effect. *)
Definition command (bs : list (bool * Z)) (k : CHIP) : CHIP :=
  match bs with
  | [(false, 0x06)] => k <| k_wel := true |>
  | [(false, 0x04)] => k <| k_wel := false |>
  | (false, 0x81) :: _ => k <| k_wel := false |>
  | (false, 0x02) :: (false, a2) :: (false, a1) :: (false, a0) :: ds =>
      if k_wel k
      then k <| k_mem := program (k_mem k) (a2 * 65536 + a1 * 256 + a0) (snd <$> ds) |>
             <| k_wel := false |> <| k_wait := t_write |>
      else k
  | [(false, 0xd8); (false, a2); (false, a1); (false, a0)] =>
      if k_wel k
      then k <| k_mem := erase (k_mem k) (a2 * 65536 + a1 * 256 + a0) |> <| k_wel := false |> <| k_wait := t_write |>
      else k
  | (false, 0xeb) :: (true, _) :: (true, _) :: (true, _) :: (true, md) :: _ =>
      k <| k_xip := (md .& 0xf0 =? 0xa0) |>
  | _ => k
  end.

Definition deselect (k : CHIP) : CHIP :=
  let bs := k_rx k in
  let k := k <| k_rx := [] |> in
  if k_xip k then (if forallb (fun b => snd b =? 0xff) bs && negb (bool_decide (bs = [])) then k <| k_xip := false |> else k)
  else if decide (k_wait k = 0%nat) then command bs k
  else k.

(** A byte out, and the byte that comes back. *)
Definition exchange (quad : bool) (b : Z) (k : CHIP) : CHIP :=
  let k' := k <| k_rx := k_rx k ++ [(quad, b)] |> in
  if k_xip k then k' <| k_in := 0xff |>
  else match k_rx k with
  | (false, 0x05) :: _ =>
      k' <| k_in := (if decide (k_wait k = 0%nat) then 0 else 1) .| (if k_wel k then 2 else 0) |> <| k_wait := pred (k_wait k) |>
  | (false, 0x9f) :: bs => k' <| k_in := nth (length bs) chip_id 0 |>
  | _ => k' <| k_in := 0xff |>
  end.

(** A write to the configuration port. *)
Definition port_write (v : Z) (k : CHIP) : CHIP :=
  if truthy (v .& CFG_USERMODE) then
    if truthy (v .& CFG_USER_CS_n) then (deselect k) <| k_user := true |>
    else (exchange (truthy (v .& CFG_QSPEED)) (v .& 0xff) k) <| k_user := true |>
  else (deselect k) <| k_user := false |>.

(** A word of memory, as the bus gives it. *)
Definition mem_word (m : Z -> Z) (a : Z) : Z := buildword (m a) (m (a + 1)) (m (a + 2)) (m (a + 3)).

Definition chip_writeio (a v : Z) : M CHIP unit := fun k =>
  if a =? R_FLASHCFG then Ret tt (port_write v k) else Ret tt k.
Definition chip_readio (a : Z) : M CHIP Z := fun k => Ret (k_in k) k.
Definition chip_readi (a : Z) (n : nat) : M CHIP (list Z) := fun k =>
  if negb (k_user k) && k_xip k && bool_decide (k_wait k = 0%nat)
  then Ret (map (fun i => mem_word (k_mem k) (a - FLASHBASE + 4 * Z.of_nat i)) (seq 0 n)) k
  else Exn FAULT k.
(** Writes to the memory map are ignored. *)
Definition chip_writei (a : Z) (ws : list Z) : M CHIP unit := fun k => Ret tt k.

#[export] Instance chip_bus : DEVBUS CHIP :=
  {| dev_writeio := chip_writeio; dev_readio := chip_readio; dev_readi := chip_readi; dev_writei := chip_writei |}.
End Chip.
