(* ===== verification/FlashDrvrProps.v ===== *)
(** The flash programmer on the flash of [FlashChip]: what each operation leaves
    in the memory. *)

From stdpp Require Import base tactics list numbers option.
From Stdlib Require Import ZArith Lia.
From S2P Require Import Prelude Words FlashSim FlashProps FlashDrvr FlashChip.

Local Open Scope Z_scope.

Abbreviation bytes := (Forall (fun b => 0 <= b < 256)).

Section Props.
Context (chip_id : list Z) (t_write : nat).
#[local] Hint Extern 0 (DEVBUS CHIP) => exact (chip_bus chip_id t_write) : typeclass_instances.

(** The driver with a flash that is on line, or takes commands. *)
Abbreviation on id m i := (mkDRVR id (mkCHIP m false 0 false true [] i)).
Abbreviation off id m w i := (mkDRVR id (mkCHIP m w 0 true false [] i)).

Lemma take_offline_on id m i : take_offline (on id m i) = Ret tt (off id m false 255).
Proof. reflexivity. Qed.

Lemma place_online_off id m w i : (w = false \/ id = MICRON_FLASHID) ->
  place_online (off id m w i) = Ret tt (on id m 255).
Proof.
  intros Hw. unfold place_online, restore_quadio.
  destruct (Z.eqb_spec id MICRON_FLASHID) as [-> | Hne].
  - destruct w; reflexivity.
  - destruct Hw as [-> | ?]; [| done]. erewrite bind_eq by reflexivity. erewrite bind_eq by reflexivity.
    match goal with |- context [m_id ?s =? _] => change (m_id s) with id end.
    rewrite (proj2 (Z.eqb_neq _ _) Hne). reflexivity.
Qed.

(** A byte that is written to the port. *)
Lemma port_byte b extra k :
  0 <= b < 256 -> (extra = 0 \/ extra = CFG_WEDIR) ->
  port_write chip_id t_write (CFG_USERMODE .| extra .| b) k = (exchange chip_id false b k) <| k_user := true |>.
Proof.
  intros Hb He. unfold port_write.
  assert (H : forall e, e = 0 \/ e = CFG_WEDIR ->
    truthy ((CFG_USERMODE .| e .| b) .& CFG_USERMODE) && negb (truthy ((CFG_USERMODE .| e .| b) .& CFG_USER_CS_n))
    && negb (truthy ((CFG_USERMODE .| e .| b) .& CFG_QSPEED)) && ((CFG_USERMODE .| e .| b) .& 0xff =? b) = true).
  { intros e [-> | ->]; by_range b 0 256%nat. }
  specialize (H extra He). repeat (apply andb_true_iff in H as [H ?]).
  rewrite H. destruct (truthy (_ .& CFG_USER_CS_n)); [done |]. destruct (truthy (_ .& CFG_QSPEED)); [done |].
  by rewrite (proj1 (Z.eqb_eq _ _) ltac:(eassumption)).
Qed.

Lemma cfgs_eq vs : forall id k,
  cfgs vs (mkDRVR id k) = Ret tt (mkDRVR id (fold_left (fun k v => port_write chip_id t_write v k) vs k)).
Proof.
  induction vs as [| v vs IH]; intros id k; [done |]. unfold cfgs in *. cbn [for_each fold_left].
  erewrite bind_eq by reflexivity. apply IH.
Qed.

(** Bytes after a command that does not answer. *)
Definition silent (c : Z) : bool := negb ((c =? 0x05) || (c =? 0x9f)).

Lemma exchange_silent c r m w i b :
  silent c = true ->
  exchange chip_id false b (mkCHIP m w 0 true false ((false, c) :: r) i) =
    mkCHIP m w 0 true false ((false, c) :: r ++ [(false, b)]) 255.
Proof.
  intros Hc. unfold exchange. cbn [k_rx k_xip]. unfold silent in Hc.
  destruct c; try done; repeat (match goal with |- context [match ?v with xH => _ | _ => _ end] => destruct v end; try done).
Qed.

Lemma bytes_out extra ds : forall c r m w i,
  silent c = true -> (extra = 0 \/ extra = CFG_WEDIR) -> bytes ds ->
  exists i', fold_left (fun k v => port_write chip_id t_write v k) (map (fun d => CFG_USERMODE .| extra .| d) ds)
      (mkCHIP m w 0 true false ((false, c) :: r) i) =
    mkCHIP m w 0 true false ((false, c) :: r ++ map (pair false) ds) i'.
Proof.
  induction ds as [| d ds IH]; intros c r m w i Hc He Hds; cbn [map fold_left].
  - exists i. by rewrite app_nil_r.
  - apply Forall_cons_1 in Hds as [Hd Hds]. rewrite port_byte by done. rewrite exchange_silent by done.
    destruct (IH c (r ++ [(false, d)]) m w 255 Hc He Hds) as (i' & Hi). exists i'. 
    change (set_field k_user true (mkCHIP m w 0 true false ((false, c) :: r ++ [(false, d)]) 255))
      with (mkCHIP m w 0 true false ((false, c) :: r ++ [(false, d)]) 255). rewrite Hi. by rewrite <- app_assoc.
Qed.

(** The bytes of an address of the flash. *)
Definition addr_bytes (a : Z) : list Z := [(a .>> 16) .& 0x0ff; (a .>> 8) .& 0x0ff; a .& 0x0ff].

Lemma addr_bytes_ok a : bytes (addr_bytes a).
Proof. unfold addr_bytes. repeat constructor; rewrite land_255; apply Z.mod_pos_bound; lia. Qed.

Lemma addr_bytes_value a : 0 <= a < 2 ^ 24 ->
  ((a .>> 16) .& 0x0ff) * 65536 + ((a .>> 8) .& 0x0ff) * 256 + (a .& 0x0ff) = a.
Proof. intros Ha. rewrite !land_255, !shiftr_div by lia. zlia. Qed.

Lemma cfg_addr_map a : cfg_addr a = map (fun d => CFG_USERMODE .| 0 .| d) (addr_bytes a).
Proof. unfold cfg_addr, addr_bytes. cbn [map]. by rewrite Z.lor_0_r. Qed.

Lemma snd_pairs (ds : list Z) : snd <$> map (pair false) ds = ds.
Proof. induction ds as [| d ds IH]; [done |]. cbn. f_equal. exact IH. Qed.

Lemma write_enable_off id m i : cfgs [F_END; F_WREN; F_END] (off id m false i) = Ret tt (off id m true 255).
Proof. reflexivity. Qed.

(** The state of a flash that is writing. *)
Abbreviation writing id m t i := (mkDRVR id (mkCHIP m false t true false [] i)).

Lemma program_off {X} (k : M (FLASHDRVR CHIP) X) id m i a ds :
  0 <= a < 2 ^ 24 -> bytes ds ->
  exists i', (cfg F_PP ;; cfgs (cfg_addr a) ;;
    cfgs (map (fun d => CFG_USERMODE .| CFG_WEDIR .| (d .& 0x0ff)) ds) ;; cfg F_END ;; k) (off id m true i) =
    k (writing id (program m a ds) t_write i').
Proof.
  intros Ha Hds. set (k0 := mkCHIP m true 0 true false [(false, 2)] 255).
  erewrite (bind_eq (cfg F_PP) _ _ tt (mkDRVR id k0)) by reflexivity.
  rewrite cfg_addr_map. destruct (bytes_out 0 (addr_bytes a) 2 [] m true 255) as (i1 & H1); [done | by left | apply addr_bytes_ok |].
  erewrite bind_eq by apply cfgs_eq. unfold k0. rewrite H1. cbn [app map].
  replace (map (fun d => CFG_USERMODE .| CFG_WEDIR .| (d .& 0x0ff)) ds) with (map (fun d => CFG_USERMODE .| CFG_WEDIR .| d) ds).
  2: { clear - Hds. induction Hds as [| d ds Hd Hds IH]; [done |]. cbn [map]. f_equal; [| done].
       by rewrite land_255, (Z.mod_small d) by done. }
  destruct (bytes_out CFG_WEDIR ds 2 (map (pair false) (addr_bytes a)) m true i1) as (i2 & H2); [done | by right | done |].
  erewrite bind_eq by apply cfgs_eq. rewrite H2. exists i2.
  erewrite bind_eq by reflexivity.
  unfold port_write, deselect. cbn. by rewrite snd_pairs, addr_bytes_value.
Qed.

Lemma erase_off {X} (k : M (FLASHDRVR CHIP) X) id m i a :
  0 <= a < 2 ^ 24 ->
  exists i', (cfg F_SE ;; cfgs (cfg_addr a) ;; cfg F_END ;; k) (off id m true i) = k (writing id (erase m a) t_write i').
Proof.
  intros Ha. set (k0 := mkCHIP m true 0 true false [(false, 0xd8)] 255).
  erewrite (bind_eq (cfg F_SE) _ _ tt (mkDRVR id k0)) by reflexivity.
  rewrite cfg_addr_map. destruct (bytes_out 0 (addr_bytes a) 0xd8 [] m true 255) as (i1 & H1); [done | by left | apply addr_bytes_ok |].
  erewrite bind_eq by apply cfgs_eq. unfold k0. rewrite H1. exists i1.
  erewrite bind_eq by reflexivity.
  unfold port_write, deselect. cbn. by rewrite addr_bytes_value.
Qed.

(** Waiting ends when the flash has finished. *)
Lemma flwait_loop id m t : forall fuel r i,
  (t < fuel)%nat ->
  exists r' i', loop fuel flwait_turn tt (mkDRVR id (mkCHIP m false t true false ((false, 5) :: r) i)) =
    Ret tt (mkDRVR id (mkCHIP m false 0 true false ((false, 5) :: r') i')).
Proof.
  induction t as [| t IH]; intros fuel r i Hf; (destruct fuel as [| fuel]; [lia |]); cbn [loop].
  - eexists _, _. erewrite bind_eq by reflexivity. reflexivity.
  - destruct (IH fuel (r ++ [(false, 0)]) 1 ltac:(lia)) as (r' & i' & Hl). exists r', i'. rewrite <- Hl.
    erewrite bind_eq by reflexivity. reflexivity.
Qed.

Lemma flwait_writing id m t i fuel :
  (t < fuel)%nat -> exists i', flwait fuel (writing id m t i) = Ret tt (off id m false i').
Proof.
  intros Hf. unfold flwait.
  assert (H1 : cfg F_END (writing id m t i) = Ret tt (writing id m t i)) by (destruct t; reflexivity). nstep H1.
  erewrite (bind_eq (cfg F_RDSR1) _ _ tt (mkDRVR id (mkCHIP m false t true false [(false, 5)] 255))) by reflexivity.
  destruct (flwait_loop id m t fuel [] 255 Hf) as (r & i' & Hl). nstep Hl. by exists i'.
Qed.

(** ** Reading back *)

Lemma readi_on id m i a n :
  fpga (dev_readi a n) (on id m i) = Ret (map (fun j => mem_word m (a - FLASHBASE + 4 * Z.of_nat j)) (seq 0 n)) (on id m i).
Proof. reflexivity. Qed.

Lemma buildword_sum p0 p1 p2 p3 :
  bytes [p0; p1; p2; p3] -> buildword p0 p1 p2 p3 = p0 + p1 * 2 ^ 8 + p2 * 2 ^ 16 + p3 * 2 ^ 24.
Proof.
  intros H. repeat (apply Forall_cons_1 in H as [? H]). unfold buildword, u32.
  rewrite !shiftl_mul, !Z.mod_small by lia. rewrite <- !(shiftl_mul _ 8), <- !(shiftl_mul _ 16), <- !(shiftl_mul _ 24) by lia.
  rewrite (Z.lor_comm p0), lor_shiftl_add by lia. rewrite (Z.lor_comm _ (p2 .<< 16)), lor_shiftl_add by lia.
  rewrite Z.lor_comm, lor_shiftl_add by lia. rewrite !shiftl_mul by lia. lia.
Qed.

Lemma buildword_bytes p0 p1 p2 p3 : bytes [p0; p1; p2; p3] -> word_bytes (buildword p0 p1 p2 p3) = [p0; p1; p2; p3].
Proof.
  intros H. rewrite buildword_sum by done. repeat (apply Forall_cons_1 in H as [? H]).
  unfold word_bytes. rewrite !land_255, !shiftr_div by lia. repeat f_equal; zlia.
Qed.

Lemma buildword_inj a0 a1 a2 a3 b0 b1 b2 b3 :
  bytes [a0; a1; a2; a3] -> bytes [b0; b1; b2; b3] ->
  buildword a0 a1 a2 a3 = buildword b0 b1 b2 b3 -> [a0; a1; a2; a3] = [b0; b1; b2; b3].
Proof. intros Ha Hb E. by rewrite <- (buildword_bytes a0 a1 a2 a3), E, buildword_bytes. Qed.

(** The words of the memory are those of the bytes that it holds. *)
Lemma buildwords_mem m n : forall a data,
  (forall j, (j < 4 * n)%nat -> data !! j = Some (m (a + Z.of_nat j))) ->
  buildwords n data = Some (map (fun j => mem_word m (a + 4 * Z.of_nat j)) (seq 0 n)).
Proof.
  induction n as [| n IH]; intros a data Hd; [done |]. cbn [buildwords].
  assert (H0 := Hd 0%nat ltac:(lia)). assert (H1 := Hd 1%nat ltac:(lia)). assert (H2 := Hd 2%nat ltac:(lia)). assert (H3 := Hd 3%nat ltac:(lia)).
  destruct data as [| b0 [| b1 [| b2 [| b3 data]]]]; try done. injection H0 as ->. injection H1 as ->. injection H2 as ->. injection H3 as ->.
  rewrite (IH (a + 4) data).
  - cbn [mbind option_bind]. f_equal. cbn [seq map]. f_equal.
    + unfold mem_word. rewrite <- !Z.add_assoc. done.
    + rewrite <- seq_shift, map_map. apply map_ext. intros j. f_equal. lia.
  - intros j Hj. specialize (Hd (4 + j)%nat ltac:(lia)). change (data !! j = Some (m (a + Z.of_nat (4 + j)))) in Hd.
    rewrite Hd. do 2 f_equal. lia.
Qed.

(** What [data] is at a place. *)
Definition at_data (data : list Z) (x : Z) : Z := default 0 (data !! Z.to_nat x).

Lemma buildwords_data n data : (4 * n <= length data)%nat ->
  buildwords n data = Some (map (fun j => mem_word (at_data data) (0 + 4 * Z.of_nat j)) (seq 0 n)).
Proof.
  intros Hl. apply buildwords_mem. intros j Hj. unfold at_data. rewrite Z.add_0_l, Nat2Z.id.
  destruct (lookup_lt_is_Some_2 data j) as [b Hb]; [lia |]. by rewrite Hb.
Qed.

(** A page of ones. *)
Lemma ones_page n data :
  (4 * n <= length data)%nat -> bytes (take (4 * n) data) ->
  forallb (fun v => v =? 0xffffffff) (map (fun j => mem_word (at_data data) (0 + 4 * Z.of_nat j)) (seq 0 n)) = true ->
  forall j, (j < 4 * n)%nat -> data !! j = Some 255.
Proof.
  intros Hl Hb Hall j Hj. rewrite forallb_forall in Hall.
  assert (Hbyte : forall i, (i < 4 * n)%nat -> 0 <= at_data data (Z.of_nat i) < 256 /\ data !! i = Some (at_data data (Z.of_nat i))).
  { intros i Hi. destruct (lookup_lt_is_Some_2 data i) as [b Hd]; [lia |]. unfold at_data. rewrite Nat2Z.id, Hd. split; [| done].
    cbn. apply (Forall_lookup_1 _ _ i b Hb). by rewrite lookup_take_lt. }
  set (q := (j / 4)%nat). assert (Hq : (q < n)%nat) by (unfold q; apply Nat.Div0.div_lt_upper_bound; lia).
  specialize (Hall _ (in_map _ _ q (proj2 (in_seq n 0 q) ltac:(lia)))). apply Z.eqb_eq in Hall. unfold mem_word in Hall.
  change 0xffffffff with (buildword 255 255 255 255) in Hall.
  replace (0 + 4 * Z.of_nat q + 1) with (Z.of_nat (4 * q + 1)) in Hall by lia.
  replace (0 + 4 * Z.of_nat q + 2) with (Z.of_nat (4 * q + 2)) in Hall by lia.
  replace (0 + 4 * Z.of_nat q + 3) with (Z.of_nat (4 * q + 3)) in Hall by lia. replace (0 + 4 * Z.of_nat q) with (Z.of_nat (4 * q)) in Hall by lia.
  apply buildword_inj in Hall; [| repeat (constructor; [apply Hbyte; lia |]); constructor | repeat constructor; lia].
  injection Hall as E0 E1 E2 E3. destruct (Hbyte j Hj) as [_ ->]. f_equal.
  assert (Hr : j = (4 * q + j mod 4)%nat) by (unfold q; apply Nat.div_mod_eq).
  pose proof (Nat.mod_upper_bound j 4 ltac:(lia)). rewrite Hr.
  destruct (j mod 4)%nat as [| [| [| [| ?]]]]; [by rewrite Nat.add_0_r | done | done | done | lia].
Qed.

Lemma program_ones m a ds x : (forall y, 0 <= m y < 256) -> (forall j b, ds !! j = Some b -> b = 255) -> program m a ds x = m x.
Proof.
  intros Hm Hds. unfold program, page. destruct (_ =? _); [| done].
  assert (E : default 0xff (ds !! Z.to_nat ((x mod 256 - a) mod 256)) = 255).
  { destruct (ds !! _) as [b |] eqn:Hb; [by apply Hds in Hb | done]. }
  rewrite E, land_255. by apply Z.mod_small.
Qed.

(** The bytes of a page that is programmed. *)
Lemma program_data m a ds j d :
  a mod 256 + Z.of_nat (length ds) <= 256 -> ds !! j = Some d -> program m a ds (a + Z.of_nat j) = m (a + Z.of_nat j) .& d.
Proof.
  intros Hp Hd. pose proof (lookup_lt_Some _ _ _ Hd). unfold program, page.
  replace ((a + Z.of_nat j) / 256 =? a / 256) with true by (symmetry; apply Z.eqb_eq; zlia).
  replace (Z.to_nat (((a + Z.of_nat j) mod 256 - a) mod 256)) with j by zlia. by rewrite Hd.
Qed.

(** ** Addresses *)

Lemma land_high a n : 0 <= n -> a .& (-1 .<< n) = 2 ^ n * (a / 2 ^ n).
Proof.
  intros Hn. replace (-1 .<< n) with (Z.lnot (Z.ones n)).
  - rewrite <- Z.ldiff_land, Z.ldiff_ones_r, shiftl_mul, shiftr_div by done. lia.
  - rewrite shiftl_mul, Z.ones_equiv by done. unfold Z.lnot. lia.
Qed.

Lemma PAGEOF_eq a : 0 <= a < 2 ^ 32 -> PAGEOF a = 256 * (a / 256).
Proof. intros Ha. unfold PAGEOF. rewrite land_high by lia. apply Z.mod_small. change (2 ^ 8) with 256. zlia. Qed.

Lemma SECTOROF_eq a : 0 <= a < 2 ^ 32 -> SECTOROF a = 65536 * (a / 65536).
Proof. intros Ha. unfold SECTOROF. rewrite land_high by lia. apply Z.mod_small. change (2 ^ 16) with 65536. zlia. Qed.

(** An address of the memory map, and its place in the flash. *)
Abbreviation mapped a := (FLASHBASE <= a < FLASHBASE + FLASHLEN).

Lemma flashaddr_eq a : mapped a -> a .& 0x0ffffff = a - FLASHBASE.
Proof. unfold FLASHBASE, FLASHLEN. intros Ha. rewrite land_24bits. zlia. Qed.

(** ** Programming a page *)

Lemma page_program_on id m i addr n data fuel verify :
  mapped addr -> addr + 4 * Z.of_nat n <= FLASHBASE + FLASHLEN -> (0 < n)%nat ->
  addr mod 256 + 4 * Z.of_nat n <= 256 -> (4 * n <= length data)%nat -> bytes (take (4 * n) data) ->
  (t_write < fuel)%nat -> (forall x, 0 <= m x < 256) ->
  (forall j d, (j < 4 * n)%nat -> data !! j = Some d -> m (addr - FLASHBASE + Z.of_nat j) .& d = d) ->
  exists m' i', page_program fuel addr (4 * Z.of_nat n) data verify (on id m i) = Ret true (on id m' i') /\
    (forall x, m' x = program m (addr - FLASHBASE) (take (4 * n) data) x).
Proof.
  intros Ha Hend Hn Hpg Hlen Hb Hf Hm Hfit. set (a := addr - FLASHBASE) in *. set (ds := take (4 * n) data) in *.
  assert (Lds : length ds = (4 * n)%nat) by (unfold ds; rewrite length_take; lia).
  unfold FLASHBASE, FLASHLEN in Ha, Hend.
  assert (Hpage : a mod 256 + Z.of_nat (length ds) <= 256).
  { rewrite Lds. unfold a, FLASHBASE. zlia. }
  unfold page_program. rewrite flashaddr_eq by (unfold FLASHBASE, FLASHLEN; lia). fold a. nstep (take_offline_on id m i).
  rewrite (proj2 (Z.ltb_lt 0 (4 * Z.of_nat n))), (proj2 (Z.leb_le (4 * Z.of_nat n) PGLENB)) by (unfold PGLENB; zlia).
  do 2 erewrite bind_eq by reflexivity.
  assert (Hpo : (PAGEOF addr =? PAGEOF (u32 (addr + 4 * Z.of_nat n - 1))) = true).
  { apply Z.eqb_eq. unfold u32. rewrite (Z.mod_small (addr + _ - 1)) by lia. rewrite !PAGEOF_eq by lia. f_equal. zlia. }
  rewrite Hpo. erewrite bind_eq by reflexivity.
  replace (Z.to_nat ((4 * Z.of_nat n + 3) / 4)) with n by zlia.
  rewrite buildwords_data by done. set (ws := map _ (seq 0 n)).
  destruct (forallb _ ws) eqn:Hall.
  - nstep (place_online_off id m false 255 ltac:(by left)). exists m, 255. split; [done |]. intros x. symmetry.
    apply program_ones; [done |]. intros j b Hj. pose proof (lookup_lt_Some _ _ _ Hj) as Hl. rewrite Lds in Hl.
    unfold ds in Hj. rewrite lookup_take_lt in Hj by done. pose proof (ones_page n data Hlen Hb Hall j Hl). congruence.
  - nstep (write_enable_off id m 255). replace (Z.to_nat (4 * Z.of_nat n)) with (4 * n)%nat by lia. fold ds.
    match goal with |- context [bind (cfg F_END) (fun _ => ?k)] =>
      destruct (program_off k id m 255 a ds ltac:(unfold a, FLASHBASE; lia) Hb) as (i1 & Hp) end.
    rewrite Hp. destruct (flwait_writing id (program m a ds) t_write i1 fuel Hf) as (i2 & Hw). nstep Hw.
    nstep (place_online_off id (program m a ds) false i2 ltac:(by left)).
    exists (program m a ds), 255. split; [| done]. destruct verify; [| done].
    nstep (readi_on id (program m a ds) 255 addr (Z.to_nat ((4 * Z.of_nat n) .>> 2))).
    unfold ret. f_equal. apply bool_decide_eq_true. rewrite shiftr_div by lia. change (2 ^ 2) with 4.
    replace (Z.to_nat (4 * Z.of_nat n / 4)) with n by zlia. fold a.
    assert (Hws : buildwords n data = Some (map (fun j => mem_word (program m a ds) (a + 4 * Z.of_nat j)) (seq 0 n))).
    { apply buildwords_mem. intros j Hj. destruct (lookup_lt_is_Some_2 data j) as [d Hd]; [lia |].
      rewrite (program_data m a ds j d Hpage) by (unfold ds; by rewrite lookup_take_lt). rewrite (Hfit j d Hj Hd). done. }
    rewrite buildwords_data in Hws by done. fold ws in Hws. injection Hws as <-.
    rewrite firstn_all2; [done |]. unfold ws. by rewrite length_map, length_seq.
Qed.
End Props.
