(* ===== verification/FlashWrite.v ===== *)
(** [FLASHDRVR::write] on the flash of [FlashChip]: erasing, programming the
    pages of a sector, and all the sectors of a range. *)

From stdpp Require Import base tactics list numbers option.
From Stdlib Require Import ZArith Lia.
From S2P Require Import Prelude Words FlashSim FlashProps FlashDrvr FlashChip FlashDrvrProps.

Local Open Scope Z_scope.

Section Write.
Context (chip_id : list Z) (t_write : nat).
#[local] Hint Extern 0 (DEVBUS CHIP) => exact (chip_bus chip_id t_write) : typeclass_instances.

Abbreviation on id m i := (mkDRVR id (mkCHIP m false 0 false true [] i)).
Abbreviation off id m w i := (mkDRVR id (mkCHIP m w 0 true false [] i)).

(** ** Erasing a sector *)

Lemma verify_pages_on id m i a n : forall j,
  (forall x, a + 256 * j <= x < a + 256 * (j + Z.of_nat n) -> m x = 255) ->
  verify_pages n a j (on id m i) = Ret true (on id m i).
Proof.
  induction n as [| n IH]; intros j Hm; [done |]. cbn [verify_pages]. erewrite bind_eq by apply readi_on.
  replace (forallb _ _) with true.
  - apply IH. intros x Hx. apply Hm. lia.
  - symmetry. apply forallb_forall. intros w Hw. apply in_map_iff in Hw as (q & <- & Hq). apply in_seq in Hq.
    unfold mem_word, R_FLASH, FLASHBASE, SZPAGEB in *. rewrite !Hm; [done | unfold SZPAGEW in Hq; lia ..].
Qed.

Lemma erase_sector_on id m i k fuel verify :
  0 <= k < 256 -> (t_write < fuel)%nat ->
  exists i', erase_sector fuel (FLASHBASE + 65536 * k) verify (on id m i) = Ret true (on id (erase m (65536 * k)) i').
Proof.
  intros Hk Hf. unfold erase_sector. rewrite flashaddr_eq by (unfold FLASHBASE, FLASHLEN; lia).
  replace (FLASHBASE + 65536 * k - FLASHBASE) with (65536 * k) by lia.
  nstep (take_offline_on chip_id t_write id m i). nstep (write_enable_off chip_id t_write id m 255).
  match goal with |- context [bind (cfg F_END) (fun _ => ?c)] =>
    destruct (erase_off chip_id t_write c id m 255 (65536 * k) ltac:(lia)) as (i1 & ->) end.
  destruct (flwait_writing chip_id t_write id (erase m (65536 * k)) t_write i1 fuel Hf) as (i2 & Hw). nstep Hw.
  nstep (place_online_off chip_id t_write id (erase m (65536 * k)) false i2 ltac:(by left)). exists 255.
  destruct verify; [| done]. apply verify_pages_on. intros x Hx. unfold NPAGES in Hx. unfold erase.
  by replace (x / 65536 =? 65536 * k / 65536) with true by (symmetry; apply Z.eqb_eq; zlia).
Qed.

Lemma erase_outside m k x : x < 65536 * k \/ 65536 * k + 65536 <= x -> erase m (65536 * k) x = m x.
Proof. intros Hx. unfold erase. destruct (Z.eqb_spec (x / 65536) (65536 * k / 65536)) as [E | _]; [zlia | done]. Qed.

Lemma erase_inside m k x : 65536 * k <= x < 65536 * k + 65536 -> erase m (65536 * k) x = 255.
Proof. intros Hx. unfold erase. by replace (x / 65536 =? 65536 * k / 65536) with true by (symmetry; apply Z.eqb_eq; zlia). Qed.

(** ** The identification *)

Lemma flashid_on id m i : exists r id' i', flashid (on id m i) = Ret r (on id' m i').
Proof.
  unfold flashid. erewrite bind_eq by reflexivity. cbn [m_id]. destruct (negb (id =? FLASH_UNKNOWN)); [by eexists _, _, _ |].
  nstep (take_offline_on chip_id t_write id m i).
  do 6 (erewrite bind_eq by reflexivity; cbv beta zeta).
  match goal with |- context [bind place_online (fun _ => _) ?st] => set (s := st) end.
  assert (Hs : exists id' rx i', s = mkDRVR id' (mkCHIP m false 0 true false ((false, 0x9f) :: rx) i')) by (by eexists _, _, _).
  destruct Hs as (id' & rx & i' & ->). 
  assert (Hp : place_online (mkDRVR id' (mkCHIP m false 0 true false ((false, 0x9f) :: rx) i')) =
    place_online (off id' m false i')) by reflexivity.
  rewrite (bind_cong _ _ _ _ _ Hp). nstep (place_online_off chip_id t_write id' m false i' ltac:(by left)).
  by eexists _, _, _.
Qed.

(** ** The comparison of a sector with the data *)

Lemma land_m4 i : i .& -4 = 4 * (i / 4).
Proof. change (-4) with (-1 .<< 2). rewrite land_high by lia. done. Qed.

(** An answer [e, v]: without a need to erase every byte can be programmed, and
    the bytes below [v], or all for 0, are there already. *)
Definition compared (n : nat) (base : Z) (sb dp : list Z) (i newv : Z) (e : bool) (v : Z) : Prop :=
  (e = true -> v <> 0) /\
  (e = false ->
    (forall j b d, (j < n)%nat -> sb !! j = Some b -> dp !! j = Some d -> b .& d = d) /\
    (newv <> 0 -> v = newv) /\
    (newv = 0 ->
      (v = 0 /\ forall j, (j < n)%nat -> sb !! j = dp !! j) \/
      (base + 4 * (i / 4) <= v < base + i + Z.of_nat n /\ v mod 4 = 0 /\
        forall j, (j < n)%nat -> base + i + Z.of_nat j < v -> sb !! j = dp !! j))).

Lemma compare_spec base n : forall i sb dp newv,
  FLASHBASE <= base -> base mod 4 = 0 -> 0 <= i -> base + i + Z.of_nat n <= FLASHBASE + FLASHLEN ->
  (n <= length sb)%nat -> (n <= length dp)%nat -> bytes sb -> bytes dp ->
  exists e v, compare n i base sb dp newv = Some (e, v) /\ compared n base sb dp i newv e v.
Proof.
  induction n as [| n IH]; intros i sb dp newv Hb Hb4 Hi Hend Hs Hd Bs Bd; cbn [compare].
  { exists false, newv. split; [done |]. split; [done |]. intros _. split; [intros; lia |]. split; [done |]. intros ->. left. split; [done |]. intros; lia. }
  destruct sb as [| b sb]; [cbn in Hs; lia |]. destruct dp as [| d dp]; [cbn in Hd; lia |].
  apply Forall_cons_1 in Bs as [Hbb Bs]. apply Forall_cons_1 in Bd as [Hdb Bd]. cbn in Hs, Hd.
  unfold FLASHBASE, FLASHLEN in Hb, Hend.
  assert (Hv : u32 ((i .& -4) + base) = base + 4 * (i / 4)) by (rewrite land_m4; unfold u32; rewrite Z.mod_small; zlia).
  assert (Hm : b .& d .& 255 = b .& d /\ d .& 255 = d).
  { rewrite <- Z.land_assoc, land_255, (Z.mod_small d) by done. done. }
  change 0x0ff with 255. destruct Hm as [-> ->]. rewrite Hv.
  destruct (Z.eqb_spec (b .& d) d) as [Efit | Efit]; cbn [negb].
  2: { eexists _, _. split; [done |]. split; [intros _; zlia | done]. }
  assert (Hrec : forall v0, exists e v, compare n (i + 1) base sb dp v0 = Some (e, v) /\ compared n base sb dp (i + 1) v0 e v)
    by (intros v0; apply IH; unfold FLASHBASE, FLASHLEN; try done; lia).
  destruct (negb (b =? d) && (newv =? 0)) eqn:Hnew.
  - apply andb_true_iff in Hnew as [_ Hz]. apply Z.eqb_eq in Hz as ->.
    destruct (Hrec (base + 4 * (i / 4))) as (e & v & -> & Ht & Hf). exists e, v. split; [done |]. split; [done |].
    intros He. destruct (Hf He) as (Hfit & Heq & _). split; [| split; [done |]].
    + intros [| j] b' d' Hj Hb' Hd'; [by simplify_eq/= |]. apply (Hfit j); [lia | done | done].
    + intros _. right. rewrite Heq by zlia. split; [zlia |]. split; [zlia |]. intros j _ Hj. zlia.
  - destruct (Hrec newv) as (e & v & -> & Ht & Hf). exists e, v. split; [done |]. split; [done |].
    intros He. destruct (Hf He) as (Hfit & Heq & Hnone). split; [| split; [done |]].
    + intros [| j] b' d' Hj Hb' Hd'; [by simplify_eq/= |]. apply (Hfit j); [lia | done | done].
    + intros ->. rewrite andb_true_r in Hnew. apply negb_false_iff, Z.eqb_eq in Hnew as ->.
      destruct (Hnone eq_refl) as [[-> Hall] | (Hvr & Hv4 & Hall)].
      * left. split; [done |]. intros [| j] Hj; [done | apply Hall; lia].
      * right. split; [zlia |]. split; [done |]. intros [| j] Hj Hlt; [done | apply Hall; lia].
Qed.

(** ** The data of a write *)

(** The memory has, or can be programmed to, the data at the addresses from
    [lo] below [hi]. *)
Definition holds (m : Z -> Z) (addr : Z) (data : list Z) (lo hi : Z) : Prop :=
  forall x, lo <= x < hi -> m (x - FLASHBASE) = at_data data (x - addr).
Definition fits (m : Z -> Z) (addr : Z) (data : list Z) (lo hi : Z) : Prop :=
  forall x, lo <= x < hi -> m (x - FLASHBASE) .& at_data data (x - addr) = at_data data (x - addr).
(** Nothing changes below [lo] or from [hi] on. *)
Definition same_outside (m m' : Z -> Z) (lo hi : Z) : Prop :=
  forall x, x < lo \/ hi <= x -> m' (x - FLASHBASE) = m (x - FLASHBASE).

(** The end of the last page of a range that ends at [x]. *)
Definition page_up (x : Z) : Z := 256 * ((x + 255) / 256).

(** A range of words that [write] can be given, and its data, of whole pages. *)
Record writable (addr len len_junk : Z) (data : list Z) : Prop := {
  wr_base : FLASHBASE <= addr;
  wr_word : addr mod 4 = 0;
  wr_len : 0 < len;
  wr_words : len mod 4 = 0;
  wr_end : addr + len <= FLASHBASE + FLASHLEN;
  wr_data : page_up (addr + len) - addr <= Z.of_nat (length data);
  wr_bytes : bytes data;
  wr_junk : u32 (addr + len_junk - 1) < PAGEOF addr \/ page_up (addr + len) <= u32 (addr + len_junk - 1)
}.

Lemma at_data_byte data x : bytes data -> 0 <= at_data data x < 256.
Proof.
  intros Hb. unfold at_data. destruct (data !! Z.to_nat x) as [b |] eqn:E; cbn; [| lia].
  by apply (Forall_lookup_1 _ _ _ _ Hb E).
Qed.

Lemma at_data_lookup data (p j : nat) d : data !! (p + j)%nat = Some d -> at_data data (Z.of_nat p + Z.of_nat j) = d.
Proof. intros Hd. unfold at_data. rewrite <- Nat2Z.inj_add, Nat2Z.id. by rewrite Hd. Qed.

Lemma program_range m a ds x : (forall y, 0 <= m y < 256) -> bytes ds -> 0 <= program m a ds x < 256.
Proof.
  intros Hm Hd. unfold program. destruct (_ =? _); [| done].
  assert (0 <= page a ds (x mod 256) < 256).
  { unfold page. destruct (ds !! _) as [b |] eqn:E; cbn; [by apply (Forall_lookup_1 _ _ _ _ Hd E) | lia]. }
  specialize (Hm x). rewrite <- (Z.mod_small (m x) 256), <- land_255, <- Z.land_assoc, (Z.land_comm 255), Z.land_assoc, land_255 by done.
  apply Z.mod_pos_bound. lia.
Qed.

Lemma program_outside m a ds x :
  (forall y, 0 <= m y < 256) -> a mod 256 + Z.of_nat (length ds) <= 256 ->
  x < a \/ a + Z.of_nat (length ds) <= x -> program m a ds x = m x.
Proof.
  intros Hm Hp Hx. unfold program. destruct (Z.eqb_spec (x / 256) (a / 256)) as [E |]; [| done]. unfold page.
  rewrite lookup_ge_None_2 by zlia. cbn. rewrite land_255. by apply Z.mod_small.
Qed.

(** ** The pages of a sector *)

Section Range.
Context (fuel : nat) (addr len len_junk : Z) (data sbuf_junk : list Z) (verify : bool).
Context (HW : writable addr len len_junk data) (Hfuel : (t_write < fuel)%nat).

(** The end of the page of an address. *)
Definition page_end (p : Z) : Z := 256 * (p / 256) + 256.

Lemma write_page_on id m i p :
  (forall x, 0 <= m x < 256) -> addr <= p < page_up (addr + len) -> p mod 4 = 0 -> fits m addr data p (page_end p) ->
  exists m' i',
    page_program fuel p (page_end p - p) (drop (Z.to_nat (p - addr)) data) verify (on id m i) = Ret true (on id m' i') /\
    (forall x, 0 <= m' x < 256) /\ holds m' addr data p (page_end p) /\ same_outside m m' p (page_end p).
Proof.
  destruct HW as [Hbase Hword Hlen Hwords Hend Hdata Hbytes _]. intros Hm Hp Hp4 Hfit. unfold page_up in *.
  unfold FLASHBASE, FLASHLEN in *. set (q := page_end p) in *.
  assert (Hq : p < q <= 256 * ((addr + len + 255) / 256) /\ q - p <= 256 /\ (q - p) mod 4 = 0) by (unfold q, page_end; zlia).
  assert (Htop : 256 * ((addr + len + 255) / 256) <= 0x02000000) by zlia.
  set (n := Z.to_nat ((q - p) / 4)). assert (Hn : 4 * Z.of_nat n = q - p) by (unfold n; zlia).
  set (o := Z.to_nat (p - addr)). assert (Ho : Z.of_nat o = p - addr) by (unfold o; lia).
  set (d := drop o data). assert (Ld : (4 * n <= length d)%nat) by (unfold d; rewrite length_drop; lia).
  assert (Bd : bytes (take (4 * n) d)) by (apply Forall_take; by apply Forall_drop).
  assert (Hat : forall j b, d !! j = Some b -> at_data data (p + Z.of_nat j - addr) = b).
  { intros j b Hj. unfold d in Hj. rewrite lookup_drop in Hj. replace (p + Z.of_nat j - addr) with (Z.of_nat o + Z.of_nat j) by lia.
    by apply at_data_lookup. }
  set (ds := take (4 * n) d) in *. assert (Lds : Z.of_nat (length ds) = q - p) by (unfold ds; rewrite length_take; lia).
  assert (Hpg : (p - FLASHBASE) mod 256 + Z.of_nat (length ds) <= 256) by (rewrite Lds; unfold FLASHBASE, q, page_end; zlia).
  destruct (page_program_on chip_id t_write id m i p n d fuel verify) as (m' & i' & Hrun & Hm'); try done; try (unfold FLASHBASE, FLASHLEN; lia).
  { unfold q, page_end in Hn. zlia. }
  { intros j b Hj Hb. pose proof (Hfit (p + Z.of_nat j) ltac:(lia)) as E. rewrite (Hat j b Hb) in E.
    by replace (p - FLASHBASE + Z.of_nat j) with (p + Z.of_nat j - FLASHBASE) by lia. }
  rewrite Hn in Hrun. exists m', i'. split; [exact Hrun |]. split; [| split].
  - intros x. rewrite Hm'. by apply program_range.
  - intros x Hx. rewrite Hm'. set (j := Z.to_nat (x - p)).
    destruct (lookup_lt_is_Some_2 ds j) as [b Hb]; [unfold j; lia |].
    assert (Hb' : d !! j = Some b) by (unfold ds in Hb; rewrite lookup_take_lt in Hb; [done | unfold j; lia]).
    replace (x - FLASHBASE) with (p - FLASHBASE + Z.of_nat j) by (unfold j; lia). fold ds. rewrite (program_data m _ ds j b Hpg Hb).
    pose proof (Hfit x Hx) as E. replace (x - addr) with (p + Z.of_nat j - addr) in E |- * by (unfold j; lia).
    rewrite (Hat j b Hb') in E |- *. by replace (p - FLASHBASE + Z.of_nat j) with (x - FLASHBASE) by (unfold j; lia).
  - intros x Hx. rewrite Hm'. fold ds. apply program_outside; [done | done |]. rewrite Lds. lia.
Qed.

(** The length that the loop computes, whatever the uninitialised variable holds. *)
Lemma page_length p : addr <= p < page_up (addr + len) ->
  (let len' := u32 (addr + len_junk - p) in
   if negb (PAGEOF (u32 (p + len' - 1)) =? PAGEOF p) then u32 (PAGEOF (u32 (p + PGLENB)) - p) else len') = page_end p - p.
Proof.
  destruct HW as [Hbase _ _ _ Hend _ _ Hjunk]. intros Hp. unfold FLASHBASE, FLASHLEN, page_up in *. cbv zeta.
  assert (p < 0x02000000) by zlia.
  assert (Hu : u32 (p + u32 (addr + len_junk - p) - 1) = u32 (addr + len_junk - 1)).
  { unfold u32. replace (p + (addr + len_junk - p) mod 2 ^ 32 - 1) with ((addr + len_junk - p) mod 2 ^ 32 + (p - 1)) by lia.
    rewrite Zplus_mod_idemp_l. f_equal. lia. }
  rewrite Hu. assert (Hr : 0 <= u32 (addr + len_junk - 1) < 2 ^ 32) by (apply Z.mod_pos_bound; lia).
  rewrite !PAGEOF_eq in * by lia.
  replace (256 * (u32 (addr + len_junk - 1) / 256) =? 256 * (p / 256)) with false by (symmetry; apply Z.eqb_neq; zlia).
  cbn [negb]. unfold PGLENB. rewrite PAGEOF_eq by (apply Z.mod_pos_bound; lia). unfold u32, page_end. rewrite (Z.mod_small (p + 256)) by lia.
  rewrite Z.mod_small; zlia.
Qed.

Lemma write_pages_on id k pages : forall m i p,
  let s := FLASHBASE + 65536 * k in let hi := Z.min (s + 65536) (page_up (addr + len)) in
  0 <= k < 256 -> (forall x, 0 <= m x < 256) -> addr <= p -> s <= p <= hi -> p mod 4 = 0 -> (p < addr + len \/ p mod 256 = 0) ->
  hi <= 256 * (p / 256) + 256 * Z.of_nat pages -> fits m addr data p hi ->
  exists m' i', write_pages pages fuel len_junk addr len s data verify p (on id m i) = Ret true (on id m' i') /\
    (forall x, 0 <= m' x < 256) /\ holds m' addr data p hi /\ same_outside m m' p hi.
Proof.
  induction pages as [| pages IH]; intros m i p s hi Hk Hm Ha Hp Hp4 Hp256 Hpages Hfit.
  all: pose proof (wr_base _ _ _ _ HW) as Hbase; pose proof (wr_end _ _ _ _ HW) as Hend;
    unfold FLASHBASE, FLASHLEN in Hbase, Hend; unfold page_up in *;
    assert (Htop : hi <= 0x02000000) by (unfold hi; zlia).
  all: assert (Hc : (p <? u32 (s + SECTORSZB)) && (p <? u32 (addr + len)) = (p <? hi))
    by (unfold u32, SECTORSZB, s, FLASHBASE, NPAGES, SZPAGEB; rewrite !Z.mod_small by lia;
        apply eq_true_iff_eq; rewrite andb_true_iff, !Z.ltb_lt; unfold hi, s, FLASHBASE; zlia).
  all: assert (Hdone : hi <= p -> holds m addr data p hi) by (intros ? x Hx; lia).
  all: destruct (Z.ltb_spec p hi) as [Hlt | Hge]; cbn [write_pages]; rewrite Hc.
  2, 4: (eexists m, i; split; [done |]; split; [done |]; split; [by apply Hdone | done]).
  { exfalso. zlia. }
  rewrite page_length by (unfold page_up; lia).
  assert (Hu : u32 (p - addr) = p - addr) by (unfold u32; apply Z.mod_small; lia). rewrite Hu.
  assert (Hq : page_end p <= hi) by (unfold page_end, hi, s, FLASHBASE in *; zlia).
  destruct (write_page_on id m i p Hm ltac:(unfold page_up; lia) Hp4) as (m1 & i1 & Hrun & Hm1 & Hh1 & Ho1).
  { intros x Hx. apply Hfit. lia. }
  nstep Hrun.
  assert (Hn : PAGEOF (u32 (p + PGLENB)) = page_end p).
  { unfold PGLENB, u32. rewrite (Z.mod_small (p + 256)) by lia. rewrite PAGEOF_eq by lia. unfold page_end. zlia. }
  rewrite Hn. destruct (IH m1 i1 (page_end p)) as (m2 & i2 & Hrun2 & Hm2 & Hh2 & Ho2); try done.
  { unfold page_end. zlia. } { unfold page_end in *. zlia. } { unfold page_end. zlia. } { right. unfold page_end. zlia. } { unfold page_end. zlia. }
  { intros x Hx. rewrite Ho1 by lia. apply Hfit. unfold page_end in *. zlia. }
  exists m2, i2. split; [exact Hrun2 |]. split; [done |]. assert (p < page_end p) by (unfold page_end; zlia). split; intros x Hx.
  - destruct (Z.lt_ge_cases x (page_end p)); [rewrite Ho2 by lia; apply Hh1; lia | apply Hh2; lia].
  - rewrite Ho2 by lia. apply Ho1. lia.
Qed.

(** ** A sector *)

Lemma words_bytes m n : forall a, (forall x, 0 <= m x < 256) ->
  flat_map word_bytes (map (fun j => mem_word m (a + 4 * Z.of_nat j)) (seq 0 n)) = map (fun j => m (a + Z.of_nat j)) (seq 0 (4 * n)).
Proof.
  induction n as [| n IH]; intros a Hm; [done |]. replace (4 * S n)%nat with (4 + 4 * n)%nat by lia. rewrite seq_app, map_app. cbn [seq map flat_map].
  f_equal.
  - unfold mem_word. rewrite buildword_bytes by (repeat constructor; apply Hm). cbn. repeat f_equal; lia.
  - rewrite <- seq_shift, map_map. rewrite (map_ext _ (fun j => mem_word m (a + 4 + 4 * Z.of_nat j))) by (intros j; f_equal; lia).
    rewrite IH by done. change (0 + 4)%nat with 4%nat. do 4 rewrite <- seq_shift, map_map.
    apply map_ext. intros j. f_equal. lia.
Qed.

Lemma lookup_mem_bytes (m : Z -> Z) a n j : (j < n)%nat -> map (fun j => m (a + Z.of_nat j)) (seq 0 n) !! j = Some (m (a + Z.of_nat j)).
Proof. intros Hj. change (map ?f ?l) with (f <$> l). by rewrite list_lookup_fmap, lookup_seq_lt. Qed.

Lemma erase_range m a x : (forall y, 0 <= m y < 256) -> 0 <= erase m a x < 256.
Proof. intros Hm. unfold erase. by destruct (_ =? _). Qed.

(** The comparison, on the sector as it was read. *)
Lemma compare_on m lo hi :
  (forall x, 0 <= m x < 256) -> addr <= lo -> lo < hi <= addr + len -> lo mod 4 = 0 -> (hi - lo) mod 4 = 0 ->
  exists e v, compare (Z.to_nat (hi - lo)) 0 lo (map (fun j => m (lo - FLASHBASE + Z.of_nat j)) (seq 0 (Z.to_nat (hi - lo))))
      (drop (Z.to_nat (lo - addr)) data) 0 = Some (e, v) /\
    (e = true -> v <> 0) /\
    (e = false -> v = 0 -> holds m addr data lo hi) /\
    (e = false -> v <> 0 -> fits m addr data lo hi /\ holds m addr data lo v /\ lo <= v < hi /\ v mod 4 = 0).
Proof.
  destruct HW as [Hbase Hword Hlen Hwords Hend Hdata Hbytes _]. intros Hm Hlo Hhi Hlo4 Hln. assert (addr + len <= page_up (addr + len)) by (unfold page_up; zlia).
  set (n := Z.to_nat (hi - lo)). set (sb := map _ _). set (dp := drop _ data).
  assert (Hsb : forall j, (j < n)%nat -> sb !! j = Some (m (lo - FLASHBASE + Z.of_nat j))) by (intros j Hj; by apply lookup_mem_bytes).
  assert (Hdp : forall j, (j < n)%nat -> dp !! j = Some (at_data data (lo + Z.of_nat j - addr))).
  { intros j Hj. unfold dp. destruct (lookup_lt_is_Some_2 data (Z.to_nat (lo - addr) + j)) as [d Hd]; [lia |]. rewrite lookup_drop, Hd.
    replace (lo + Z.of_nat j - addr) with (Z.of_nat (Z.to_nat (lo - addr)) + Z.of_nat j) by lia. by erewrite at_data_lookup. }
  destruct (compare_spec lo n 0 sb dp 0) as (e & v & Hc & Ht & Hf); try done; try lia.
  { unfold sb. by rewrite length_map, length_seq. }
  { unfold dp. rewrite length_drop. lia. }
  { unfold sb. apply Forall_map, Forall_forall. intros j _. apply Hm. }
  { by apply Forall_drop. }
  exists e, v. split; [exact Hc |]. split; [done |].
  assert (Hx : forall x, lo <= x < hi -> (Z.to_nat (x - lo) < n)%nat /\ lo + Z.of_nat (Z.to_nat (x - lo)) = x) by (intros x Hx; lia).
  assert (Heq : forall x, lo <= x < hi -> sb !! Z.to_nat (x - lo) = dp !! Z.to_nat (x - lo) -> m (x - FLASHBASE) = at_data data (x - addr)).
  { intros x Hr E. destruct (Hx x Hr) as [Hj Hj']. rewrite Hsb, Hdp in E by done. rewrite Hj' in E. injection E as E. rewrite <- E. f_equal. lia. }
  unfold FLASHBASE, FLASHLEN in Hbase, Hend.
  split; intros He Hv; destruct (Hf He) as (Hfit & _ & Hnew); specialize (Hnew eq_refl); rewrite Z.add_0_r in Hnew.
  - destruct Hnew as [[_ Hall] | [Hr _]]; [| zlia]. intros x Hr. apply Heq; [done |]. apply Hall. by apply Hx.
  - destruct Hnew as [[? _] | (Hr & Hv4 & Hall)]; [done |]. split; [| split; [| split; [zlia | done]]].
    + intros x Hr'. destruct (Hx x Hr') as [Hj Hj']. specialize (Hfit _ _ _ Hj (Hsb _ Hj) (Hdp _ Hj)). rewrite Hj' in Hfit.
      by replace (lo - FLASHBASE + Z.of_nat (Z.to_nat (x - lo))) with (x - FLASHBASE) in Hfit by lia.
    + intros x Hr'. apply Heq; [lia |]. apply Hall; lia.
Qed.

Lemma write_sector_on id m i k :
  let s := FLASHBASE + 65536 * k in let lo := Z.max addr s in let hi := Z.min (s + 65536) (addr + len) in
  0 <= k < 256 -> (forall x, 0 <= m x < 256) -> lo < hi ->
  fits m addr data (addr + len) (page_up (addr + len)) ->
  exists m' i', write_sector fuel sbuf_junk len_junk addr len data verify s (on id m i) = Ret true (on id m' i') /\
    (forall x, 0 <= m' x < 256) /\ holds m' addr data lo hi /\ same_outside m m' s (s + 65536).
Proof.
  intros s lo hi Hk Hm Hlh Htail. pose proof HW as [Hbase Hword Hlen Hwords Hend Hdata Hbytes _]. unfold FLASHBASE, FLASHLEN in Hbase, Hend.
  assert (Hs : s = 0x01000000 + 65536 * k) by done.
  assert (Halign : lo mod 4 = 0 /\ (hi - lo) mod 4 = 0) by (unfold lo, hi; rewrite Hs; zlia).
  unfold write_sector.
  replace (if s <? addr then addr else s) with lo by (unfold lo; destruct (Z.ltb_spec s addr); lia).
  replace (if u32 (s + SECTORSZB) <? u32 (addr + len) then u32 (s + SECTORSZB) else u32 (addr + len)) with hi.
  2: { unfold u32, SECTORSZB, NPAGES, SZPAGEB. rewrite !Z.mod_small by lia. unfold hi. destruct (Z.ltb_spec (s + Z.of_nat 256 * 256) (addr + len)); lia. }
  assert (Hu : u32 (hi - lo) = hi - lo) by (apply Z.mod_small; lia). rewrite Hu.
  assert (Hu2 : u32 (lo - addr) = lo - addr) by (apply Z.mod_small; lia). rewrite Hu2.
  nstep (readi_on chip_id t_write id m i lo (Z.to_nat ((hi - lo) .>> 2))). erewrite bind_eq by reflexivity.
  rewrite words_bytes by done. rewrite shiftr_div by lia. replace (4 * Z.to_nat ((hi - lo) / 2 ^ 2))%nat with (Z.to_nat (hi - lo)) by zlia.
  destruct (compare_on m lo hi) as (e & v & Hc & Hne & Heq & Hfit); try done; try lia.
  set (sb := map _ _) in *.
  assert (Hgrow : forall n j sb' dp nv t, (n <= length sb')%nat -> compare n j lo (sb' ++ t) dp nv = compare n j lo sb' dp nv).
  { clear. induction n as [| n IH]; intros j [| b sb'] [| d dp] nv t Hl; cbn in Hl |- *; try done; try lia. rewrite !IH by lia. done. }
  rewrite Hgrow by (unfold sb; rewrite length_map, length_seq; lia). rewrite Hc.
  assert (Hup : addr + len <= page_up (addr + len)) by (unfold page_up; zlia).
  set (top := Z.min (s + 65536) (page_up (addr + len))). assert (Htop : hi <= top) by (unfold hi, top; lia).
  assert (Hlos : s <= lo) by lia. assert (Hhis : hi <= s + 65536) by lia. assert (Hloa : addr <= lo) by lia.
  destruct (Z.eqb_spec v 0) as [Hv | Hv].
  { exists m, i. split; [done |]. split; [done |]. split; [| by intros x _]. destruct e; [by specialize (Hne eq_refl) | by apply Heq]. }
  destruct e.
  - destruct (erase_sector_on id m i k fuel verify Hk Hfuel) as (i1 & Her). nstep Her.
    destruct (write_pages_on id k NPAGES (erase m (65536 * k)) i1 lo) as (m' & i' & Hrun & Hm' & Hh & Ho); try done; try lia.
    { intros x. by apply erase_range. } { fold s top. unfold NPAGES. zlia. }
    { fold s top. intros x Hx. rewrite erase_inside by (unfold FLASHBASE; lia). rewrite Z.land_comm, land_255. apply Z.mod_small. by apply at_data_byte. }
    fold s top in Hh, Ho. exists m', i'. split; [exact Hrun |]. split; [done |]. split; [intros x Hx; apply Hh; lia |].
    intros x Hx. rewrite Ho by lia. apply erase_outside. unfold FLASHBASE. lia.
  - destruct (Hfit eq_refl Hv) as (Hfits & Hheld & Hvr & Hv4). erewrite bind_eq by reflexivity. 
    destruct (write_pages_on id k NPAGES m i v) as (m' & i' & Hrun & Hm' & Hh & Ho); try done; fold s top; try lia.
    { unfold NPAGES. zlia. }
    { intros x Hx. destruct (Z.lt_ge_cases x hi); [apply Hfits; lia | apply Htail]. unfold hi, top in *. lia. }
    fold s top in Hh, Ho. exists m', i'. split; [exact Hrun |]. split; [done |]. split.
    + intros x Hx. destruct (Z.lt_ge_cases x v); [rewrite Ho by lia; apply Hheld; lia | apply Hh; lia].
    + intros x Hx. apply Ho. lia.
Qed.

(** ** All the sectors *)

Lemma write_sectors_on id n : forall m i k,
  let s := FLASHBASE + 65536 * k in
  0 <= k -> 65536 * (addr / 65536) <= s -> addr + len <= s + 65536 * Z.of_nat n ->
  (forall x, 0 <= m x < 256) -> holds m addr data addr (Z.min s (addr + len)) ->
  (s < addr + len -> fits m addr data (addr + len) (page_up (addr + len))) ->
  exists m' i', write_sectors n fuel sbuf_junk len_junk addr len data verify s (on id m i) = Ret true (on id m' i') /\
    (forall x, 0 <= m' x < 256) /\ holds m' addr data addr (addr + len) /\
    (forall x, x < s \/ 65536 * ((addr + len + 65535) / 65536) <= x -> m' (x - FLASHBASE) = m (x - FLASHBASE)).
Proof.
  pose proof HW as [Hbase _ Hlen _ Hend _ _ _]. unfold FLASHBASE, FLASHLEN in Hbase, Hend.
  induction n as [| n IH]; intros m i k s Hk Hlo Hn Hm Hh Htail; assert (Hs : s = 0x01000000 + 65536 * k) by done.
  all: assert (Hc : SECTOROF (u32 (addr + len + SECTORSZB - 1)) = 65536 * ((addr + len + 65535) / 65536))
    by (unfold SECTORSZB, NPAGES, SZPAGEB, u32; rewrite (Z.mod_small (addr + len + _ - 1)) by lia; rewrite SECTOROF_eq by lia; f_equal; f_equal; lia).
  all: cbn [write_sectors]; rewrite Hc; destruct (Z.ltb_spec s (65536 * ((addr + len + 65535) / 65536))) as [Hlt | Hge].
  2, 4: exists m, i; split; [done |]; split; [done |]; split; [rewrite Z.min_r in Hh by zlia; done | done].
  { exfalso. zlia. }
  assert (Hin : s < addr + len) by zlia.
  destruct (write_sector_on id m i k ltac:(lia) Hm) as (m1 & i1 & Hrun & Hm1 & Hh1 & Ho1); [fold s; zlia | by apply Htail |]. fold s in Hrun, Hh1, Ho1. nstep Hrun.
  assert (Hnext : u32 (s + SECTORSZB) = FLASHBASE + 65536 * (k + 1)).
  { unfold SECTORSZB, NPAGES, SZPAGEB, u32, FLASHBASE. rewrite Z.mod_small by lia. lia. }
  rewrite Hnext. assert (Hs1 : FLASHBASE + 65536 * (k + 1) = s + 65536) by (unfold s; lia).
  destruct (IH m1 i1 (k + 1)) as (m2 & i2 & Hrun2 & Hm2 & Hh2 & Ho2); try done; try lia.
  { rewrite Hs1. intros x Hx. destruct (Z.lt_ge_cases x s); [rewrite Ho1 by lia; apply Hh; lia | apply Hh1; lia]. }
  { rewrite Hs1. intros Hmore x Hx. rewrite Ho1 by lia. apply Htail; lia. }
  exists m2, i2. split; [exact Hrun2 |]. split; [done |]. split; [done |]. intros x Hx. rewrite Ho2 by (rewrite Hs1; lia).
  apply Ho1. zlia.
Qed.

Lemma write_on id m i : (forall x, 0 <= m x < 256) -> fits m addr data (addr + len) (page_up (addr + len)) ->
  exists id' m' i', write fuel sbuf_junk len_junk addr len data verify (on id m i) = Ret true (on id' m' i') /\
    holds m' addr data addr (addr + len) /\
    (forall x, x < SECTOROF addr \/ SECTOROF (addr + len + 65535) <= x -> m' (x - FLASHBASE) = m (x - FLASHBASE)).
Proof.
  intros Hm Htail. pose proof HW as [Hbase _ Hlen _ Hend _ _ _]. unfold FLASHBASE, FLASHLEN in Hbase, Hend.
  unfold write. destruct (flashid_on id m i) as (r & id' & i0 & Hid). nstep Hid.
  assert (Hu : u32 (addr + len) = addr + len) by (apply Z.mod_small; lia). rewrite Hu.
  rewrite (proj2 (Z.leb_le FLASHBASE addr)), (proj2 (Z.leb_le (addr + len) (FLASHBASE + FLASHLEN))) by done.
  do 4 erewrite bind_eq by reflexivity. cbv match. rewrite (SECTOROF_eq addr), (SECTOROF_eq (addr + len + 65535)) by lia.
  destruct (write_sectors_on id' 256 m i0 (addr / 65536 - 256)) as (m' & i' & Hrun & Hm' & Hh & Ho); try done;
    replace (FLASHBASE + 65536 * (addr / 65536 - 256)) with (65536 * (addr / 65536)) in * by (unfold FLASHBASE; lia).
  { zlia. } { lia. } { zlia. } { intros x Hx. zlia. }
  nstep Hrun. nstep (take_offline_on chip_id t_write id' m' i').
  erewrite bind_eq by reflexivity. erewrite (bind_eq (cfg F_END) _ _ tt (off id' m' false 255)) by reflexivity.
  nstep (place_online_off chip_id t_write id' m' false 255 ltac:(by left)). by exists id', m', 255.
Qed.
End Range.
End Write.

(** ** What [write] promises *)

Abbreviation ready id m := (mkDRVR id (mkCHIP m false 0 false true [] 0)).


Definition image256 : list Z := map Z.of_nat (seq 0 256).


(** When the uninitialised length happens to end within the page, the rest of
    the page is not programmed, and [write] returns true all the same. *)
Example flash_write_short :
  match write (H := chip_bus [0x01; 0x20; 0x18; 0x00] 3) 4 [] 8 0x01010000 256 image256 true (ready 0 (fun _ => 255)) with
  | Ret ok s => ok = true /\ k_mem (m_fpga s) 0x10007 = 7 /\ k_mem (m_fpga s) 0x10008 = 255 /\ image256 !! 8%nat = Some 8
  | Exn _ _ => False
  end.
Proof. vm_compute. repeat split. Qed.
