(* ===== verification/Uart.v ===== *)
(** The serial port of the simulation (src/sim/verilated/dbluartsim.cpp): a
    receiver and a transmitter that are stepped once per clock, between the pins
    of the design and two network connections, the command port and the console.

    The sockets are the operations of [Sockets].  Arrays are lists, and an access
    outside of one raises [FAULT].  What is only printed is left out. *)

From stdpp Require Import base tactics list numbers option.
From Stdlib Require Import ZArith Lia.
From S2P Require Import Prelude.
Local Open Scope Z_scope.

(** The system calls, with what POSIX documents of their results. *)
Class Sockets (W : Type) := {
  sk_poll : list Z -> W -> Z * list bool * W;      (** descriptors: return value, which have POLLIN set *)
  sk_accept : Z -> W -> Z * W;
  sk_recv : Z -> Z -> W -> Z * list Z * W;         (** descriptor, length: return value, bytes stored *)
  sk_send : Z -> list Z -> W -> Z * W;
  sk_close : Z -> W -> W;
  sk_shutdown : Z -> W -> W
}.

Class SocketsLaws (W : Type) `{Sockets W} : Prop := {
  sk_poll_ok : forall fds w, 0 <= (sk_poll fds w).1.1;
  sk_recv_length : forall fd n w, 0 <= n -> (sk_recv fd n w).1.1 <= n;
  sk_recv_bytes : forall fd n w, length (sk_recv fd n w).1.2 = Z.to_nat (sk_recv fd n w).1.1;
  sk_recv_range : forall fd n w, Forall (fun b => 0 <= b < 256) (sk_recv fd n w).1.2
}.

Definition TXIDLE : Z := 0.
Definition TXDATA : Z := 1.
Definition RXIDLE : Z := 0.
Definition RXDATA : Z := 1.
Definition DBLPIPEBUFLEN : Z := 256.

(** ** State *)

(** The pieces of the setup register. *)
Record UCFG : Type := mkUCFG {
  m_setup : Z; m_nparity : Z; m_fixdp : Z; m_evenp : Z; m_nbits : Z; m_nstop : Z; m_baud_counts : Z
}.
Record URX : Type := mkURX {
  m_rx_baudcounter : Z; m_rx_state : Z; m_rx_busy : Z; m_rx_changectr : Z; m_last_tx : Z; m_rx_data : Z
}.
Record UTX : Type := mkUTX { m_tx_baudcounter : Z; m_tx_state : Z; m_tx_busy : Z; m_tx_data : Z }.

Record DBLUARTSIM (W : Type) : Type := mkUART {
  m_skt : Z; m_console : Z; m_cmd : Z; m_con : Z;
  m_conbuf : list Z; m_cmdbuf : list Z; m_rxbuf : list Z; m_cmdline : list Z;
  m_ilen : Z; m_rxpos : Z; m_cmdpos : Z; m_conpos : Z; m_cllen : Z;
  u_cfg : UCFG; u_rx : URX; u_tx : UTX;
  u_net : W
}.
Arguments mkUART {W}.
Arguments m_skt {W}. Arguments m_console {W}. Arguments m_cmd {W}. Arguments m_con {W}.
Arguments m_conbuf {W}. Arguments m_cmdbuf {W}. Arguments m_rxbuf {W}. Arguments m_cmdline {W}.
Arguments m_ilen {W}. Arguments m_rxpos {W}. Arguments m_cmdpos {W}. Arguments m_conpos {W}. Arguments m_cllen {W}.
Arguments u_cfg {W}. Arguments u_rx {W}. Arguments u_tx {W}. Arguments u_net {W}.

#[export] Instance set_m_skt {W} : Setter (m_skt (W := W)) := fun v s =>
  mkUART v (m_console s) (m_cmd s) (m_con s) (m_conbuf s) (m_cmdbuf s) (m_rxbuf s) (m_cmdline s) (m_ilen s) (m_rxpos s) (m_cmdpos s) (m_conpos s) (m_cllen s) (u_cfg s) (u_rx s) (u_tx s) (u_net s).
#[export] Instance set_m_console {W} : Setter (m_console (W := W)) := fun v s =>
  mkUART (m_skt s) v (m_cmd s) (m_con s) (m_conbuf s) (m_cmdbuf s) (m_rxbuf s) (m_cmdline s) (m_ilen s) (m_rxpos s) (m_cmdpos s) (m_conpos s) (m_cllen s) (u_cfg s) (u_rx s) (u_tx s) (u_net s).
#[export] Instance set_m_cmd {W} : Setter (m_cmd (W := W)) := fun v s =>
  mkUART (m_skt s) (m_console s) v (m_con s) (m_conbuf s) (m_cmdbuf s) (m_rxbuf s) (m_cmdline s) (m_ilen s) (m_rxpos s) (m_cmdpos s) (m_conpos s) (m_cllen s) (u_cfg s) (u_rx s) (u_tx s) (u_net s).
#[export] Instance set_m_con {W} : Setter (m_con (W := W)) := fun v s =>
  mkUART (m_skt s) (m_console s) (m_cmd s) v (m_conbuf s) (m_cmdbuf s) (m_rxbuf s) (m_cmdline s) (m_ilen s) (m_rxpos s) (m_cmdpos s) (m_conpos s) (m_cllen s) (u_cfg s) (u_rx s) (u_tx s) (u_net s).
#[export] Instance set_m_conbuf {W} : Setter (m_conbuf (W := W)) := fun v s =>
  mkUART (m_skt s) (m_console s) (m_cmd s) (m_con s) v (m_cmdbuf s) (m_rxbuf s) (m_cmdline s) (m_ilen s) (m_rxpos s) (m_cmdpos s) (m_conpos s) (m_cllen s) (u_cfg s) (u_rx s) (u_tx s) (u_net s).
#[export] Instance set_m_cmdbuf {W} : Setter (m_cmdbuf (W := W)) := fun v s =>
  mkUART (m_skt s) (m_console s) (m_cmd s) (m_con s) (m_conbuf s) v (m_rxbuf s) (m_cmdline s) (m_ilen s) (m_rxpos s) (m_cmdpos s) (m_conpos s) (m_cllen s) (u_cfg s) (u_rx s) (u_tx s) (u_net s).
#[export] Instance set_m_rxbuf {W} : Setter (m_rxbuf (W := W)) := fun v s =>
  mkUART (m_skt s) (m_console s) (m_cmd s) (m_con s) (m_conbuf s) (m_cmdbuf s) v (m_cmdline s) (m_ilen s) (m_rxpos s) (m_cmdpos s) (m_conpos s) (m_cllen s) (u_cfg s) (u_rx s) (u_tx s) (u_net s).
#[export] Instance set_m_cmdline {W} : Setter (m_cmdline (W := W)) := fun v s =>
  mkUART (m_skt s) (m_console s) (m_cmd s) (m_con s) (m_conbuf s) (m_cmdbuf s) (m_rxbuf s) v (m_ilen s) (m_rxpos s) (m_cmdpos s) (m_conpos s) (m_cllen s) (u_cfg s) (u_rx s) (u_tx s) (u_net s).
#[export] Instance set_m_ilen {W} : Setter (m_ilen (W := W)) := fun v s =>
  mkUART (m_skt s) (m_console s) (m_cmd s) (m_con s) (m_conbuf s) (m_cmdbuf s) (m_rxbuf s) (m_cmdline s) v (m_rxpos s) (m_cmdpos s) (m_conpos s) (m_cllen s) (u_cfg s) (u_rx s) (u_tx s) (u_net s).
#[export] Instance set_m_rxpos {W} : Setter (m_rxpos (W := W)) := fun v s =>
  mkUART (m_skt s) (m_console s) (m_cmd s) (m_con s) (m_conbuf s) (m_cmdbuf s) (m_rxbuf s) (m_cmdline s) (m_ilen s) v (m_cmdpos s) (m_conpos s) (m_cllen s) (u_cfg s) (u_rx s) (u_tx s) (u_net s).
#[export] Instance set_m_cmdpos {W} : Setter (m_cmdpos (W := W)) := fun v s =>
  mkUART (m_skt s) (m_console s) (m_cmd s) (m_con s) (m_conbuf s) (m_cmdbuf s) (m_rxbuf s) (m_cmdline s) (m_ilen s) (m_rxpos s) v (m_conpos s) (m_cllen s) (u_cfg s) (u_rx s) (u_tx s) (u_net s).
#[export] Instance set_m_conpos {W} : Setter (m_conpos (W := W)) := fun v s =>
  mkUART (m_skt s) (m_console s) (m_cmd s) (m_con s) (m_conbuf s) (m_cmdbuf s) (m_rxbuf s) (m_cmdline s) (m_ilen s) (m_rxpos s) (m_cmdpos s) v (m_cllen s) (u_cfg s) (u_rx s) (u_tx s) (u_net s).
#[export] Instance set_m_cllen {W} : Setter (m_cllen (W := W)) := fun v s =>
  mkUART (m_skt s) (m_console s) (m_cmd s) (m_con s) (m_conbuf s) (m_cmdbuf s) (m_rxbuf s) (m_cmdline s) (m_ilen s) (m_rxpos s) (m_cmdpos s) (m_conpos s) v (u_cfg s) (u_rx s) (u_tx s) (u_net s).
#[export] Instance set_u_cfg {W} : Setter (u_cfg (W := W)) := fun v s =>
  mkUART (m_skt s) (m_console s) (m_cmd s) (m_con s) (m_conbuf s) (m_cmdbuf s) (m_rxbuf s) (m_cmdline s) (m_ilen s) (m_rxpos s) (m_cmdpos s) (m_conpos s) (m_cllen s) v (u_rx s) (u_tx s) (u_net s).
#[export] Instance set_u_rx {W} : Setter (u_rx (W := W)) := fun v s =>
  mkUART (m_skt s) (m_console s) (m_cmd s) (m_con s) (m_conbuf s) (m_cmdbuf s) (m_rxbuf s) (m_cmdline s) (m_ilen s) (m_rxpos s) (m_cmdpos s) (m_conpos s) (m_cllen s) (u_cfg s) v (u_tx s) (u_net s).
#[export] Instance set_u_tx {W} : Setter (u_tx (W := W)) := fun v s =>
  mkUART (m_skt s) (m_console s) (m_cmd s) (m_con s) (m_conbuf s) (m_cmdbuf s) (m_rxbuf s) (m_cmdline s) (m_ilen s) (m_rxpos s) (m_cmdpos s) (m_conpos s) (m_cllen s) (u_cfg s) (u_rx s) v (u_net s).
#[export] Instance set_u_net {W} : Setter (u_net (W := W)) := fun v s =>
  mkUART (m_skt s) (m_console s) (m_cmd s) (m_con s) (m_conbuf s) (m_cmdbuf s) (m_rxbuf s) (m_cmdline s) (m_ilen s) (m_rxpos s) (m_cmdpos s) (m_conpos s) (m_cllen s) (u_cfg s) (u_rx s) (u_tx s) v.

(** ** The receiver *)

Definition rx_bits (c : UCFG) : Z := m_nbits c + m_nparity c + m_nstop c.

(** The receiver's part of a tick: the new state, and the character that it
    passes to [received]. *)
Definition rx_tick (c : UCFG) (i_tx : Z) (r : URX) : URX * option Z :=
  let ctr := if negb (truthy i_tx) && truthy (m_last_tx r) then 0 else s32 (m_rx_changectr r + 1) in
  if m_rx_state r =? RXIDLE then
    if negb (truthy i_tx)
    then (mkURX (s32 (m_baud_counts c + m_baud_counts c / 2 - 1 - ctr)) RXDATA 0 ctr i_tx 0, None)
    else (mkURX (m_rx_baudcounter r) (m_rx_state r) (m_rx_busy r) ctr i_tx (m_rx_data r), None)
  else if m_rx_baudcounter r <=? 0 then
    if (1 .<< (rx_bits c - 1)) <=? m_rx_busy r
    then (mkURX (m_baud_counts c - 1) RXIDLE (m_rx_busy r) ctr i_tx (m_rx_data r),
          Some ((m_rx_data r .>> (32 - m_nbits c - m_nstop c - m_nparity c)) .& 0x0ff))
    else (mkURX (m_baud_counts c - 1) (m_rx_state r) ((m_rx_busy r .<< 1) .| 1) ctr i_tx
            (((i_tx .& 1) .<< 31) .| (m_rx_data r .>> 1)), None)
  else (mkURX (m_rx_baudcounter r - 1) (m_rx_state r) (m_rx_busy r) ctr i_tx (m_rx_data r), None).

(** ** The transmitter *)

Definition parity (c : UCFG) (tx_data : Z) : Z :=
  if truthy (m_fixdp c) then m_evenp c
  else
    let p := (tx_data .>> 1) .& 0x0ff in
    let p := Z.lxor p (p .>> 4) in
    let p := Z.lxor p (p .>> 2) in
    let p := Z.lxor p (p .>> 1) in
    Z.lxor (p .& 1) (m_evenp c).

(** A character that starts. *)
Definition tx_load (c : UCFG) (ch : Z) : UTX :=
  let d := u32 (-1 .<< (m_nbits c + m_nparity c + 1)) .| ((ch .<< 1) .& 0x01fe) in
  let d := if truthy (m_nparity c) then d .| (parity c d .<< (m_nbits c + m_nparity c)) else d in
  mkUTX (m_baud_counts c - 1) TXDATA ((1 .<< (m_nbits c + m_nparity c + m_nstop c + 1)) - 1) d.

(** A tick within a character, with the level of the line. *)
Definition tx_shift (c : UCFG) (t : UTX) : UTX * Z :=
  if m_tx_baudcounter t <=? 0 then
    let d := m_tx_data t .>> 1 in
    let busy := m_tx_busy t .>> 1 in
    (if busy =? 0 then mkUTX (m_tx_baudcounter t) TXIDLE busy d
     else mkUTX (m_baud_counts c - 1) (m_tx_state t) busy d, d .& 1)
  else (mkUTX (m_tx_baudcounter t - 1) (m_tx_state t) (m_tx_busy t) (m_tx_data t), m_tx_data t .& 1).

(** [setup] *)
Definition setup_fields (isetup : Z) : UCFG :=
  mkUCFG isetup ((isetup .>> 26) .& 1) ((isetup .>> 25) .& 1) ((isetup .>> 24) .& 1)
    (8 - ((isetup .>> 28) .& 0x03)) (((isetup .>> 27) .& 1) + 1) (isetup .& 0x0ffffff).

Section Uart.
Context {W : Type} `{Sockets W}.
Abbreviation UM := (M (DBLUARTSIM W)).

(** A system call. *)
Definition net {A} (f : W -> A * W) : UM A := fun s => let '(a, w) := f (u_net s) in Ret a (s <| u_net := w |>).
Definition net_ (f : W -> W) : UM unit := fun s => Ret tt (s <| u_net := f (u_net s) |>).

(** [a[i]] and [a[i] = v] of an array of the object. *)
Definition load (f : DBLUARTSIM W -> list Z) (i : Z) : UM Z := fun s =>
  match (if 0 <=? i then f s !! Z.to_nat i else None) with Some v => Ret v s | None => Exn FAULT s end.
Definition store (f : DBLUARTSIM W -> list Z) `{!Setter f} (i v : Z) : UM unit := fun s =>
  if (0 <=? i) && (i <? Z.of_nat (length (f s))) then Ret tt (s <| f := <[Z.to_nat i := v]> (f s) |>) else Exn FAULT s.
Fixpoint store_all (f : DBLUARTSIM W -> list Z) `{!Setter f} (i : Z) (vs : list Z) : UM unit :=
  match vs with [] => ret tt | v :: vs' => store f i v ;; store_all f (i + 1) vs' end.

Definition setup (isetup : Z) : UM unit :=
  let* s := get in
  if negb (isetup =? m_setup (u_cfg s)) then modify (fun s => s <| u_cfg := setup_fields isetup |>) else ret tt.

Definition accept_one (p : Z * bool) : UM unit :=
  let '(fd, pollin) := p in
  if pollin then
    let* s := get in
    if fd =? m_skt s then let* r := net (sk_accept (m_skt s)) in modify (fun s => s <| m_cmd := r |>)
    else if fd =? m_console s then let* r := net (sk_accept (m_console s)) in modify (fun s => s <| m_con := r |>)
    else ret tt
  else ret tt.

Definition poll_accept : UM unit :=
  let* s := get in
  let fds := (if m_cmd s <? 0 then [m_skt s] else []) ++ (if m_con s <? 0 then [m_console s] else []) in
  if bool_decide (fds = []) then ret tt
  else
    let* r := net (sk_poll fds) in
    let '(pr, pollin) := r in
    assert (0 <=? pr) ;;
    if 0 <? pr then for_each (combine fds pollin) accept_one else ret tt.

(** One character of the command port: the line that is printed, and the mark
    of a command. *)
Definition cmd_char (i : Z) : UM unit :=
  let* s := get in
  let* ch := load m_rxbuf i in
  store m_cmdline (m_cllen s) ch ;;
  (if negb (ch =? 13) then
     if ch =? 10 then store m_cmdline (m_cllen s) 0 ;; modify (fun s => s <| m_cllen := 0 |>)
     else modify (fun s => s <| m_cllen := m_cllen s + 1 |>)
   else ret tt) ;;
  let* s := get in
  (if 64 <=? m_cllen s then store m_cmdline (m_cllen s + 1) 0 ;; modify (fun s => s <| m_cllen := 0 |>) else ret tt) ;;
  store m_rxbuf i (ch .| 0x80).

Fixpoint cmd_chars (n : nat) (i : Z) : UM unit :=
  match n with O => ret tt | S n' => cmd_char i ;; cmd_chars n' (i + 1) end.

Fixpoint read_fds (pb : list (Z * bool)) : UM unit :=
  match pb with
  | [] => ret tt
  | (fd, pollin) :: pb' =>
      if pollin then
        let* s := get in
        let* r := net (sk_recv fd (DBLPIPEBUFLEN - m_ilen s)) in
        let '(nr, bs) := r in
        store_all m_rxbuf (m_ilen s) bs ;;
        (if fd =? m_cmd s then
           cmd_chars (Z.to_nat nr) (m_ilen s) ;;
           let* s := get in
           store m_cmdline (m_cllen s) 0 ;;
           (if nr <=? 0 then store m_cmdline (m_cllen s) 0 ;; modify (fun s => s <| m_cllen := 0 |>) else ret tt)
         else ret tt) ;;
        if 0 <? nr then
          modify (fun s => s <| m_ilen := m_ilen s + nr |>) ;;
          let* s := get in
          if m_ilen s =? DBLPIPEBUFLEN then ret tt else read_fds pb'
        else
          net_ (sk_close fd) ;;
          let* s := get in
          (if fd =? m_cmd s then modify (fun s => s <| m_cmd := -1 |>) else modify (fun s => s <| m_con := -1 |>)) ;;
          read_fds pb'
      else read_fds pb'
  end.

Definition poll_read : UM unit :=
  let* s := get in
  let fds := (if 0 <=? m_cmd s then [m_cmd s] else []) ++ (if 0 <=? m_con s then [m_con s] else []) in
  if bool_decide (fds = []) then ret tt
  else
    let* r := net (sk_poll fds) in
    let '(pr, pollin) := r in
    if pr =? 0 then ret tt
    else read_fds (combine fds pollin) ;; modify (fun s => s <| m_rxpos := 0 |>).

Definition flushrx : UM unit :=
  let* s := get in
  if m_cmdpos s =? 0 then ret tt
  else
    let* snt := (if 0 <=? m_cmd s then net (sk_send (m_cmd s) (take (Z.to_nat (m_cmdpos s)) (m_cmdbuf s))) else ret (m_cmdpos s)) in
    (if snt <? 0 then net_ (sk_close (m_cmd s)) ;; modify (fun s => s <| m_cmd := -1 |>) else ret tt) ;;
    store m_cmdbuf (m_cmdpos s) 0 ;;
    modify (fun s => s <| m_cmdpos := 0 |>).

(** The parts of [received]: the character is stored; the command port gets
    whole lines, the console each character; without a connection the lines of
    the console are printed. *)
Definition store_char (ch : Z) : UM unit :=
  let* s := get in
  if truthy (ch .& 0x80) then store m_cmdbuf (m_cmdpos s) (ch .& 0x7f) ;; modify (fun s => s <| m_cmdpos := m_cmdpos s + 1 |>)
  else store m_conbuf (m_conpos s) (ch .& 0x7f) ;; modify (fun s => s <| m_conpos := m_conpos s + 1 |>).

Definition flush_cmd : UM unit :=
  let* s := get in
  if 0 <? m_cmdpos s then
    let* l := load m_cmdbuf (m_cmdpos s - 1) in
    if (l =? 10) || (DBLPIPEBUFLEN - 2 <=? m_cmdpos s) then flushrx else ret tt
  else ret tt.

Definition send_con : UM unit :=
  let* s := get in
  if (0 <=? m_con s) && (0 <? m_conpos s) then
    let* l := load m_conbuf (m_conpos s - 1) in
    let* snt := net (sk_send (m_con s) [l]) in
    (if snt <? 0 then net_ (sk_close (m_con s)) ;; modify (fun s => s <| m_con := -1 |>) else ret tt) ;;
    modify (fun s => s <| m_conpos := 0 |>)
  else ret tt.

Definition print_con : UM unit :=
  let* s := get in
  if 0 <? m_conpos s then
    let* l := load m_conbuf (m_conpos s - 1) in
    if (l =? 10) || (DBLPIPEBUFLEN - 2 <=? m_conpos s)
    then store m_conbuf (m_conpos s) 0 ;; modify (fun s => s <| m_conpos := 0 |>) else ret tt
  else ret tt.

Definition received (ch : Z) : UM unit := store_char ch ;; flush_cmd ;; send_con ;; print_con.

Definition next : UM Z :=
  let* s := get in
  (if m_ilen s =? 0 then poll_read else ret tt) ;;
  let* s := get in
  if m_ilen s <=? 0 then ret (-1)
  else
    let* nval := load m_rxbuf (m_rxpos s) in
    modify (fun s => s <| m_rxpos := m_rxpos s + 1 |> <| m_ilen := m_ilen s - 1 |>) ;;
    ret (nval .& 0x0ff).

Definition tick (i_tx : Z) : UM Z :=
  poll_accept ;;
  let* s := get in
  let '(r, ch) := rx_tick (u_cfg s) i_tx (u_rx s) in
  modify (fun s => s <| u_rx := r |>) ;;
  (match ch with Some ch => received ch | None => ret tt end) ;;
  let* s := get in
  if m_tx_state (u_tx s) =? TXIDLE then
    let* ch := next in
    if 0 <=? ch then modify (fun s => s <| u_tx := tx_load (u_cfg s) ch |>) ;; ret 0 else ret 1
  else
    let '(t, o_rx) := tx_shift (u_cfg s) (u_tx s) in
    modify (fun s => s <| u_tx := t |>) ;;
    ret o_rx.

(** [operator()] with a setup register. *)
Definition tick_setup (i_tx isetup : Z) : UM Z := setup isetup ;; tick i_tx.

(** [while(1) { nr = read(...); if (nr <= 0) break; }] *)
Definition drain (fuel : nat) (fd : Z) : UM unit :=
  loop fuel (fun _ : unit =>
    let* r := net (sk_recv fd 512) in
    if r.1 <=? 0 then ret (inr tt) else ret (inl tt)) tt.

(** ["\n[SIM] Connection-Closed\n"] *)
Definition SIM_CLOSED : list Z :=
  [10; 91; 83; 73; 77; 93; 32; 67; 111; 110; 110; 101; 99; 116; 105; 111; 110; 45; 67; 108; 111; 115; 101; 100; 10].

Definition kill (fuel : nat) : UM unit :=
  let* s := get in
  (if 0 <=? m_con s then
     (if 0 <? m_conpos s then net (sk_send (m_con s) (take (Z.to_nat (m_conpos s)) (m_conbuf s))) ;; ret tt else ret tt) ;;
     let* nw := net (sk_send (m_con s) SIM_CLOSED) in
     if 0 <? nw then net_ (sk_shutdown (m_con s)) ;; drain fuel (m_con s) else ret tt
   else ret tt) ;;
  (if 0 <=? m_skt s then net_ (sk_close (m_skt s)) else ret tt) ;;
  (if 0 <=? m_console s then net_ (sk_close (m_console s)) else ret tt) ;;
  (if 0 <=? m_cmd s then
     (if 0 <? m_cmdpos s then net (sk_send (m_cmd s) (take (Z.to_nat (m_cmdpos s)) (m_cmdbuf s))) ;; ret tt else ret tt) ;;
     net_ (sk_shutdown (m_cmd s)) ;; drain fuel (m_cmd s)
   else ret tt) ;;
  modify (fun s => s <| m_con := -1 |> <| m_skt := -1 |> <| m_console := -1 |> <| m_cmd := -1 |>).

(** The constructor: the listening sockets, and what the memory held before in
    the arrays and in the members that it does not set. *)
Definition DBLUARTSIM_new (skt console : Z) (conbuf cmdbuf rxbuf cmdline : list Z) (cfg0 : UCFG) (rx0 : URX) (tx0 : UTX) (w : W) :
  res (DBLUARTSIM W) unit :=
  (setup 25 ;;
   modify (fun s => s
     <| u_rx := mkURX 0 RXIDLE (m_rx_busy rx0) (m_rx_changectr rx0) (m_last_tx rx0) (m_rx_data rx0) |>
     <| u_tx := mkUTX 0 TXIDLE (m_tx_busy tx0) (m_tx_data tx0) |>
     <| m_cllen := 0 |>))
  (mkUART skt console (-1) (-1) conbuf cmdbuf rxbuf cmdline 0 0 0 0 0 cfg0 rx0 tx0 w).
End Uart.
