(* ===== verification/UartRx.v ===== *)
(** The receiver and the transmitter of the simulated serial port: frames are
    decoded and produced as the protocol has them, at any rate. *)

From stdpp Require Import base tactics list numbers option.
From Stdlib Require Import ZArith Lia.
From S2P Require Import Prelude Uart.
Local Open Scope Z_scope.

(** ** Lines *)

Abbreviation bitlist := (Forall (fun v => v = 0 \/ v = 1)).

(** Each bit for [b] clocks. *)
Definition line (b : Z) (bits : list Z) : list Z := flat_map (fun v => replicate (Z.to_nat b) v) bits.

(** The value of bits that come low order bit first. *)
Fixpoint val (bits : list Z) : Z := match bits with [] => 0 | v :: bits' => v + 2 * val bits' end.

Definition option_out (o : option Z) : list Z := match o with Some ch => [ch] | None => [] end.

(** The receiver over the levels of a line, with the characters it passes on. *)
Fixpoint rx_run (c : UCFG) (l : list Z) (r : URX) : URX * list Z :=
  match l with
  | [] => (r, [])
  | i :: l' => let '(r1, o) := rx_tick c i r in let '(r2, chs) := rx_run c l' r1 in (r2, option_out o ++ chs)
  end.

Lemma rx_run_cons c i l r r1 o r2 chs :
  rx_tick c i r = (r1, o) -> rx_run c l r1 = (r2, chs) -> rx_run c (i :: l) r = (r2, option_out o ++ chs).
Proof. intros H1 H2. cbn. by rewrite H1, H2. Qed.

Lemma rx_run_app c l1 : forall l2 r r1 o1 r2 o2,
  rx_run c l1 r = (r1, o1) -> rx_run c l2 r1 = (r2, o2) -> rx_run c (l1 ++ l2) r = (r2, o1 ++ o2).
Proof.
  induction l1 as [| i l1 IH]; intros l2 r r1 o1 r2 o2 H1 H2; cbn in H1 |- *; [by simplify_eq |].
  destruct (rx_tick c i r) as [ra o]. destruct (rx_run c l1 ra) as [rb ob] eqn:Eb. simplify_eq.
  rewrite (IH l2 ra r1 ob r2 o2 Eb H2). by rewrite app_assoc.
Qed.

Lemma val_range bits : bitlist bits -> 0 <= val bits < 2 ^ Z.of_nat (length bits).
Proof.
  induction 1 as [| v bits Hv _ IH]; [done |]. cbn [val length]. rewrite Nat2Z.inj_succ, Z.pow_succ_r by lia. lia.
Qed.

Lemma val_snoc bits v : val (bits ++ [v]) = val bits + v * 2 ^ Z.of_nat (length bits).
Proof.
  induction bits as [| u bits IH]; [cbn; lia |]. cbn [val length app]. rewrite IH, Nat2Z.inj_succ, Z.pow_succ_r by lia. lia.
Qed.

Lemma line_cons b v bits : line b (v :: bits) = replicate (Z.to_nat b) v ++ line b bits.
Proof. done. Qed.

Lemma line_app b l1 l2 : line b (l1 ++ l2) = line b l1 ++ line b l2.
Proof. apply flat_map_app. Qed.

Section Rx.
Context (c : UCFG).
Abbreviation b := (m_baud_counts c).
Abbreviation n := (rx_bits c).
Context (Hb : 3 <= b < 2 ^ 24) (Hn : 1 <= n <= 31).

Lemma shl1 k : 0 <= k -> 1 .<< k = 2 ^ k.
Proof. intros Hk. rewrite shiftl_mul by done. lia. Qed.

(** Clocks between two samples. *)
Lemma count_down i busy data m : forall cnt ctr last, Z.of_nat m <= cnt ->
  exists ctr', rx_run c (replicate m i) (mkURX cnt RXDATA busy ctr last data) =
      (mkURX (cnt - Z.of_nat m) RXDATA busy ctr' (if decide (m = 0%nat) then last else i) data, []) /\
    (i = 0 -> last = 0 -> 0 <= ctr -> ctr + Z.of_nat m < 2 ^ 31 -> ctr' = ctr + Z.of_nat m).
Proof.
  induction m as [| m IH]; intros cnt ctr last Hm.
  { exists ctr. cbn. rewrite Z.sub_0_r. split; [done | lia]. }
  set (ctr1 := if negb (truthy i) && truthy last then 0 else s32 (ctr + 1)).
  destruct (IH (cnt - 1) ctr1 i ltac:(lia)) as (ctr' & Hrun & Hctr). exists ctr'. split.
  - cbn [replicate]. erewrite rx_run_cons; [| unfold rx_tick; cbn [m_rx_state m_rx_baudcounter m_last_tx m_rx_changectr];
      destruct (Z.leb_spec cnt 0); [lia | reflexivity] | exact Hrun].
    cbn [option_out app]. destruct (decide (S m = 0%nat)); [lia |]. f_equal. f_equal; [lia |]. by destruct (decide (m = 0%nat)).
  - intros -> -> H0 Hlt. rewrite Hctr; unfold ctr1; cbn; rewrite ?s32_id; lia.
Qed.

(** One bit, from the middle of the bit before to its own middle. *)
Lemma rx_bit v k d ctr last : (v = 0 \/ v = 1) -> 0 <= k < n -> 0 <= d < 2 ^ k ->
  exists ctr', rx_run c (replicate (Z.to_nat b) v) (mkURX (b / 2) RXDATA (2 ^ k - 1) ctr last (d * 2 ^ (32 - k))) =
    (mkURX (b / 2) RXDATA (2 ^ (k + 1) - 1) ctr' v ((d + v * 2 ^ k) * 2 ^ (32 - (k + 1))), []).
Proof.
  intros Hv Hk Hd.
  replace (Z.to_nat b) with (Z.to_nat (b / 2) + (1 + Z.to_nat (b - b / 2 - 1)))%nat by zlia. rewrite !replicate_add.
  destruct (count_down v (2 ^ k - 1) (d * 2 ^ (32 - k)) (Z.to_nat (b / 2)) (b / 2) ctr last ltac:(zlia)) as (c1 & H1 & _).
  replace (b / 2 - Z.of_nat (Z.to_nat (b / 2))) with 0 in H1 by zlia.
  set (l1 := if decide (Z.to_nat (b / 2) = 0%nat) then last else v) in *.
  assert (H2 : exists c2, rx_run c (replicate 1 v) (mkURX 0 RXDATA (2 ^ k - 1) c1 l1 (d * 2 ^ (32 - k))) =
    (mkURX (b - 1) RXDATA (2 ^ (k + 1) - 1) c2 v ((d + v * 2 ^ k) * 2 ^ (32 - (k + 1))), [])).
  { eexists. cbn [replicate]. erewrite rx_run_cons; [| | reflexivity].
    2: { unfold rx_tick. cbn [m_rx_state m_rx_baudcounter m_rx_busy m_rx_data]. rewrite shl1 by lia.
         pose proof (Z.pow_lt_mono_r 2 k n ltac:(lia) ltac:(lia) ltac:(lia)).
         destruct (Z.leb_spec (2 ^ (n - 1)) (2 ^ k - 1)) as [Hle | _]; [pose proof (Z.pow_le_mono_r 2 k (n - 1) ltac:(lia) ltac:(lia)); lia |].
         cbv beta iota. cbn [Z.leb Z.eqb]. reflexivity. }
    cbn [option_out app]. f_equal. f_equal.
    - rewrite lor_shiftl_add by lia.
      rewrite Z.pow_add_r by lia. lia.
    - rewrite land_1, (Z.mod_small v) by lia. rewrite (shiftr_div _ 1) by lia.
      replace (d * 2 ^ (32 - k) / 2 ^ 1) with (d * 2 ^ (31 - k)).
      2: { replace (32 - k) with (31 - k + 1) by lia. rewrite Z.pow_add_r, Z.mul_assoc, Z.div_mul by lia. done. }
      assert (Hlt : 0 <= d * 2 ^ (31 - k) < 2 ^ 31).
      { replace (2 ^ 31) with (2 ^ k * 2 ^ (31 - k)) by (rewrite <- Z.pow_add_r by lia; f_equal; lia).
        pose proof (Z.pow_pos_nonneg 2 (31 - k) ltac:(lia) ltac:(lia)). nia. }
      rewrite lor_shiftl_add by lia. replace (32 - (k + 1)) with (31 - k) by lia.
      replace (v * 2 ^ 31) with (v * 2 ^ k * 2 ^ (31 - k)); [lia |].
      rewrite <- Z.mul_assoc, <- Z.pow_add_r by lia. do 2 f_equal. lia. }
  destruct H2 as (c2 & H2).
  destruct (count_down v (2 ^ (k + 1) - 1) ((d + v * 2 ^ k) * 2 ^ (32 - (k + 1))) (Z.to_nat (b - b / 2 - 1)) (b - 1) c2 v ltac:(zlia)) as (c3 & H3 & _).
  exists c3. rewrite (rx_run_app _ _ _ _ _ _ _ _ H1 (rx_run_app _ _ _ _ _ _ _ _ H2 H3)). f_equal. f_equal; [zlia |].
  by destruct (decide (Z.to_nat (b - b / 2 - 1) = 0%nat)).
Qed.

Lemma rx_bits_run bs : forall pre ctr last,
  bitlist (pre ++ bs) -> Z.of_nat (length (pre ++ bs)) <= n ->
  exists ctr', rx_run c (line b bs) (mkURX (b / 2) RXDATA (2 ^ Z.of_nat (length pre) - 1) ctr last (val pre * 2 ^ (32 - Z.of_nat (length pre)))) =
    (mkURX (b / 2) RXDATA (2 ^ Z.of_nat (length (pre ++ bs)) - 1) ctr' (List.last bs last) (val (pre ++ bs) * 2 ^ (32 - Z.of_nat (length (pre ++ bs)))), []).
Proof.
  induction bs as [| v bs IH]; intros pre ctr last Hbits Hlen.
  { exists ctr. by rewrite app_nil_r. }
  replace (pre ++ v :: bs) with ((pre ++ [v]) ++ bs) in * by (by rewrite <- app_assoc).
  assert (Hpre : bitlist (pre ++ [v])) by (by apply Forall_app in Hbits as [? _]). pose proof (proj1 (Forall_app _ _ _) Hpre) as [Hp Hv].
  apply Forall_cons_1 in Hv as [Hv _]. rewrite length_app in Hlen. rewrite (length_app pre [v]) in Hlen. cbn [length] in Hlen.
  rewrite line_cons.
  destruct (rx_bit v (Z.of_nat (length pre)) (val pre) ctr last Hv ltac:(lia) (val_range _ Hp)) as (c1 & H1).
  rewrite <- val_snoc in H1. replace (Z.of_nat (length pre) + 1) with (Z.of_nat (length (pre ++ [v]))) in H1 by (rewrite length_app; cbn; lia).
  destruct (IH (pre ++ [v]) c1 v Hbits ltac:(rewrite !length_app in *; cbn in *; lia)) as (c2 & H2). exists c2.
  rewrite (rx_run_app _ _ _ _ _ _ _ _ H1 H2). do 2 f_equal. destruct bs as [| u bs]; [done |]. cbn [List.last].
  clear. revert u. induction bs as [| w bs IH]; intros u; [done |]. apply IH.
Qed.

(** ** Between characters *)

(** Waiting for a start bit; or before the end of a character, with [j] clocks
    to go until it is passed on. *)
Inductive between : option Z -> URX -> Prop :=
  | btw_idle cnt busy ctr data : between None (mkURX cnt RXIDLE busy ctr 1 data)
  | btw_end j ctr d : 0 <= j <= b / 2 -> 0 <= d < 2 ^ n ->
      between (Some (d mod 256)) (mkURX j RXDATA (2 ^ n - 1) ctr 1 (d * 2 ^ (32 - n))).

(** The tick that passes a character on. *)
Lemma rx_deliver i ctr d last : 0 <= d < 2 ^ n ->
  rx_tick c i (mkURX 0 RXDATA (2 ^ n - 1) ctr last (d * 2 ^ (32 - n))) =
    (mkURX (b - 1) RXIDLE (2 ^ n - 1) (if negb (truthy i) && truthy last then 0 else s32 (ctr + 1)) i (d * 2 ^ (32 - n)), Some (d mod 256)).
Proof.
  intros Hd. unfold rx_tick. cbn [m_rx_state m_rx_baudcounter m_rx_busy m_rx_changectr m_last_tx m_rx_data].
  rewrite shl1 by lia. pose proof (Z.pow_pos_nonneg 2 (n - 1) ltac:(lia) ltac:(lia)).
  assert (E : 2 ^ n = 2 * 2 ^ (n - 1)) by (rewrite <- Z.pow_succ_r by lia; f_equal; lia).
  destruct (Z.leb_spec (2 ^ (n - 1)) (2 ^ n - 1)); [| lia]. cbn [Z.eqb Z.leb].
  replace (32 - m_nbits c - m_nstop c - m_nparity c) with (32 - n) by (unfold rx_bits; lia).
  rewrite land_255, shiftr_div by lia. rewrite Z.div_mul by (apply Z.pow_nonzero; lia). done.
Qed.

(** A start bit that comes before the character is passed on: the clocks since
    the edge are counted. *)
Lemma end_low j ctr d : 0 <= j <= b / 2 -> 0 <= d < 2 ^ n ->
  rx_run c (replicate (Z.to_nat (j + 1)) 0) (mkURX j RXDATA (2 ^ n - 1) ctr 1 (d * 2 ^ (32 - n))) =
    (mkURX (b - 1) RXIDLE (2 ^ n - 1) j 0 (d * 2 ^ (32 - n)), [d mod 256]).
Proof.
  intros Hj Hd. destruct (decide (j = 0)) as [-> | Hj0].
  - change (Z.to_nat (0 + 1)) with 1%nat. cbn [replicate]. erewrite rx_run_cons; [| by apply rx_deliver | reflexivity]. done.
  - replace (Z.to_nat (j + 1)) with (1 + (Z.to_nat (j - 1) + 1))%nat by lia. rewrite !replicate_add.
    assert (H0 : rx_run c (replicate 1 0) (mkURX j RXDATA (2 ^ n - 1) ctr 1 (d * 2 ^ (32 - n))) =
      (mkURX (j - 1) RXDATA (2 ^ n - 1) 0 0 (d * 2 ^ (32 - n)), [])).
    { cbn [replicate]. erewrite rx_run_cons; [| unfold rx_tick; cbn [m_rx_state m_rx_baudcounter m_last_tx m_rx_changectr];
        destruct (Z.leb_spec j 0); [lia | reflexivity] | reflexivity]. done. }
    destruct (count_down 0 (2 ^ n - 1) (d * 2 ^ (32 - n)) (Z.to_nat (j - 1)) (j - 1) 0 0 ltac:(lia)) as (c1 & H1 & Hc1).
    specialize (Hc1 eq_refl eq_refl ltac:(lia) ltac:(zlia)).
    replace (j - 1 - Z.of_nat (Z.to_nat (j - 1))) with 0 in H1 by lia.
    replace (if decide (Z.to_nat (j - 1) = 0%nat) then 0 else 0) with 0 in H1 by (by destruct (decide (Z.to_nat (j - 1) = 0%nat))).
    assert (H2 : rx_run c (replicate 1 0) (mkURX 0 RXDATA (2 ^ n - 1) c1 0 (d * 2 ^ (32 - n))) =
      (mkURX (b - 1) RXIDLE (2 ^ n - 1) (s32 (c1 + 1)) 0 (d * 2 ^ (32 - n)), [d mod 256])).
    { cbn [replicate]. erewrite rx_run_cons; [| by apply rx_deliver | reflexivity]. done. }
    rewrite (rx_run_app _ _ _ _ _ _ _ _ H0 (rx_run_app _ _ _ _ _ _ _ _ H1 H2)). rewrite s32_id by zlia. do 2 f_equal. lia.
Qed.

Lemma between_start p r : between p r ->
  exists ctr, rx_run c (replicate (Z.to_nat b) 0) r = (mkURX (b / 2) RXDATA 0 ctr 0 0, option_out p).
Proof.
  destruct 1 as [cnt busy ctr data | j ctr d Hj Hd].
  - replace (Z.to_nat b) with (1 + Z.to_nat (b - 1))%nat by lia. rewrite replicate_add.
    destruct (count_down 0 0 0 (Z.to_nat (b - 1)) (b + b / 2 - 1) 0 0 ltac:(zlia)) as (c1 & H1 & _). exists c1.
    assert (H0 : rx_run c (replicate 1 0) (mkURX cnt RXIDLE busy ctr 1 data) = (mkURX (b + b / 2 - 1) RXDATA 0 0 0 0, [])).
    { cbn -[Z.div s32]. rewrite Z.sub_0_r, s32_id by zlia. done. }
    rewrite (rx_run_app _ _ _ _ _ _ _ _ H0 H1). f_equal. f_equal; [zlia |]. by destruct (decide (Z.to_nat (b - 1) = 0%nat)).
  - pose proof (end_low j ctr d Hj Hd) as H1.
    replace (Z.to_nat b) with (Z.to_nat (j + 1) + (1 + Z.to_nat (b - j - 2)))%nat by zlia. rewrite !replicate_add.
    assert (H2 : rx_run c (replicate 1 0) (mkURX (b - 1) RXIDLE (2 ^ n - 1) j 0 (d * 2 ^ (32 - n))) =
      (mkURX (b + b / 2 - 1 - (j + 1)) RXDATA 0 (j + 1) 0 0, [])).
    { cbn -[Z.div s32 Z.sub Z.add]. rewrite !s32_id by (rewrite ?s32_id; zlia). done. }
    destruct (count_down 0 0 0 (Z.to_nat (b - j - 2)) (b + b / 2 - 1 - (j + 1)) (j + 1) 0 ltac:(zlia)) as (c3 & H3 & _). exists c3.
    rewrite (rx_run_app _ _ _ _ _ _ _ _ H1 (rx_run_app _ _ _ _ _ _ _ _ H2 H3)). cbn [app option_out]. f_equal. f_equal; [zlia |].
    by destruct (decide (Z.to_nat (b - j - 2) = 0%nat)).
Qed.

(** A frame: its start bit, then the bits of [rx_bits], the last a stop bit. *)
Lemma between_frame p r bs : between p r -> bitlist (bs ++ [1]) -> Z.of_nat (length (bs ++ [1])) = n ->
  exists r', rx_run c (line b (0 :: bs ++ [1])) r = (r', option_out p) /\ between (Some (val (bs ++ [1]) mod 256)) r'.
Proof.
  intros Hp Hbits Hlen. destruct (between_start p r Hp) as (c1 & H1).
  destruct (rx_bits_run (bs ++ [1]) [] c1 0 Hbits ltac:(cbn [app]; lia)) as (c2 & H2). cbn [app length val] in H2.
  rewrite Z.mul_0_l in H2. change (2 ^ Z.of_nat 0 - 1) with 0 in H2. rewrite List.last_last, Hlen in H2.
  eexists. rewrite line_cons. split; [by rewrite (rx_run_app _ _ _ _ _ _ _ _ H1 H2), app_nil_r |].
  apply btw_end; [zlia |]. rewrite <- Hlen. by apply val_range.
Qed.

(** Clocks with the line high. *)
Lemma between_high m : forall p r, between p r ->
  exists p' r' out, rx_run c (replicate m 1) r = (r', out) /\ between p' r' /\ option_out p = out ++ option_out p' /\
    (b / 2 < Z.of_nat m -> p' = None).
Proof.
  assert (Hidle : forall k cnt busy ctr data, exists ctr', rx_run c (replicate k 1) (mkURX cnt RXIDLE busy ctr 1 data) =
    (mkURX cnt RXIDLE busy ctr' 1 data, [])).
  { induction k as [| k IH]; intros cnt busy ctr data; [by exists ctr |]. destruct (IH cnt busy (s32 (ctr + 1)) data) as (c' & H').
    exists c'. cbn [replicate]. erewrite rx_run_cons; [| reflexivity | exact H']. done. }
  intros p r Hp. destruct Hp as [cnt busy ctr data | j ctr d Hj Hd].
  - destruct (Hidle m cnt busy ctr data) as (c' & H'). exists None. eexists _, _. split; [exact H' |]. by split; [constructor |].
  - destruct (Z.le_gt_cases (Z.of_nat m) j) as [Hm | Hm].
    + destruct (count_down 1 (2 ^ n - 1) (d * 2 ^ (32 - n)) m j ctr 1 Hm) as (c1 & H1 & _).
      replace (if decide (m = 0%nat) then 1 else 1) with 1 in H1 by (by destruct (decide (m = 0%nat))).
      eexists _, _, _. split; [exact H1 |]. split; [apply btw_end; [lia | done] |]. split; [done | lia].
    + replace m with (Z.to_nat j + (1 + (m - Z.to_nat j - 1)))%nat by lia. rewrite !replicate_add.
      destruct (count_down 1 (2 ^ n - 1) (d * 2 ^ (32 - n)) (Z.to_nat j) j ctr 1 ltac:(lia)) as (c1 & H1 & _).
      replace (if decide (Z.to_nat j = 0%nat) then 1 else 1) with 1 in H1 by (by destruct (decide (Z.to_nat j = 0%nat))).
      replace (j - Z.of_nat (Z.to_nat j)) with 0 in H1 by lia.
      destruct (Hidle (m - Z.to_nat j - 1)%nat (b - 1) (2 ^ n - 1) (s32 (c1 + 1)) (d * 2 ^ (32 - n))) as (c3 & H3).
      exists None. eexists _, _. split; [eapply rx_run_app; [exact H1 |]; cbn [replicate app]; eapply rx_run_cons; [by apply rx_deliver | exact H3] |].
      by split; [constructor |].
Qed.

(** Characters on a line, each after some clocks of rest. *)
Definition traffic (cs : list (nat * list Z)) : list Z := flat_map (fun '(g, bs) => replicate g 1 ++ line b (0 :: bs ++ [1])) cs.

Lemma between_traffic cs : forall p r, between p r ->
  Forall (fun '(_, bs) => bitlist (bs ++ [1]) /\ Z.of_nat (length (bs ++ [1])) = n) cs ->
  exists p' r' out, rx_run c (traffic cs) r = (r', out) /\ between p' r' /\
    option_out p ++ map (fun '(_, bs) => val (bs ++ [1]) mod 256) cs = out ++ option_out p'.
Proof.
  induction cs as [| [g bs] cs IH]; intros p r Hp Hcs.
  { exists p, r, []. by rewrite app_nil_r. }
  apply Forall_cons_1 in Hcs as [[Hbits Hlen] Hcs]. unfold traffic. cbn [flat_map map]. fold (traffic cs).
  destruct (between_high g p r Hp) as (p1 & r1 & o1 & H1 & Hp1 & E1 & _).
  destruct (between_frame p1 r1 bs Hp1 Hbits Hlen) as (r2 & H2 & Hp2).
  destruct (IH _ r2 Hp2 Hcs) as (p3 & r3 & o3 & H3 & Hp3 & E3).
  exists p3, r3. eexists. split; [eapply rx_run_app; [eapply rx_run_app; [exact H1 | exact H2] | exact H3] |]. split; [done |].
  rewrite E1, <- !app_assoc. do 2 f_equal. exact E3.
Qed.
End Rx.
