(* ===== verification/UartTx.v ===== *)
(** The transmitter of the simulated serial port, and the receiver on its line. *)

From stdpp Require Import base tactics list numbers option.
From Stdlib Require Import ZArith Lia.
From S2P Require Import Prelude Uart UartRx.
Local Open Scope Z_scope.

(** ** Frames *)

(** The bits of a character, low order bit first. *)
Fixpoint bits (k : nat) (d : Z) : list Z := match k with O => [] | S k' => (d .& 1) :: bits k' (d .>> 1) end.

(** The parity of a character that is sent: fixed, or over all the bits. *)
Definition parity_bit (c : UCFG) (ch : Z) : Z :=
  if truthy (m_fixdp c) then m_evenp c else Z.lxor (foldr Z.lxor 0 (bits 8 ch)) (m_evenp c).

(** What follows the start bit, but for the last stop bit. *)
Definition frame (c : UCFG) (ch : Z) : list Z :=
  bits (Z.to_nat (m_nbits c)) ch ++ (if truthy (m_nparity c) then [parity_bit c ch] else []) ++ replicate (Z.to_nat (m_nstop c - 1)) 1.

(** The settings that the register can hold. *)
Record settings (c : UCFG) : Prop := {
  st_nbits : 5 <= m_nbits c <= 8;
  st_nparity : 0 <= m_nparity c <= 1;
  st_fixdp : 0 <= m_fixdp c <= 1;
  st_evenp : 0 <= m_evenp c <= 1;
  st_nstop : 1 <= m_nstop c <= 2;
  st_baud : 0 <= m_baud_counts c < 2 ^ 24
}.

Lemma setup_settings isetup : settings (setup_fields isetup).
Proof.
  split; cbn -[Z.land Z.shiftr]; rewrite ?land_1, ?land_24bits, ?(land_3 (isetup .>> 28)); zlia.
Qed.

(** Six bits with a computed parity: the one setting with a wrong parity bit. *)
Definition six_parity (c : UCFG) : bool := (m_nbits c =? 6) && truthy (m_nparity c) && negb (truthy (m_fixdp c)).

(** The bits of the transmitter's register are those of the frame: by cases. *)
Definition load_ok (nbits nparity fixdp evenp nstop ch : Z) : bool :=
  let c := mkUCFG 0 nparity fixdp evenp nbits nstop 0 in
  six_parity c || bool_decide (bits (Z.to_nat (rx_bits c + 2)) (m_tx_data (tx_load c ch)) = 0 :: (frame c ch ++ [1]) ++ [1]).

Lemma load_ok_all :
  forall_range 5 4 (fun nbits => forall_range 0 2 (fun nparity => forall_range 0 2 (fun fixdp => forall_range 0 2 (fun evenp =>
    forall_range 1 2 (fun nstop => forall_range 0 (Z.to_nat (2 ^ nbits)) (load_ok nbits nparity fixdp evenp nstop)))))) = true.
Proof. vm_compute. reflexivity. Qed.

Lemma load_bits c ch : settings c -> six_parity c = false -> 0 <= ch < 2 ^ m_nbits c ->
  bits (Z.to_nat (rx_bits c + 2)) (m_tx_data (tx_load c ch)) = 0 :: (frame c ch ++ [1]) ++ [1].
Proof.
  intros [H1 H2 H3 H4 H5 _] Hsix Hch.
  assert (Hok : load_ok (m_nbits c) (m_nparity c) (m_fixdp c) (m_evenp c) (m_nstop c) ch = true).
  { pose proof load_ok_all as H.
    apply (forall_range_spec _ _ _) with (x := m_nbits c) in H; [| lia].
    apply (forall_range_spec _ _ _) with (x := m_nparity c) in H; [| lia].
    apply (forall_range_spec _ _ _) with (x := m_fixdp c) in H; [| lia].
    apply (forall_range_spec _ _ _) with (x := m_evenp c) in H; [| lia].
    apply (forall_range_spec _ _ _) with (x := m_nstop c) in H; [| lia].
    apply (forall_range_spec _ _ _) with (x := ch) in H; [done | lia]. }
  unfold load_ok in Hok. destruct c. apply orb_true_iff in Hok as [Hok | Hok]; [exfalso; assert (true = false) by (rewrite <- Hok; exact Hsix); done |].
  by apply bool_decide_eq_true in Hok.
Qed.

(** ** The transmitter's clocks *)

(** Clocks within a character, with the levels of the line. *)
Inductive tx_runs (c : UCFG) : UTX -> list Z -> UTX -> Prop :=
  | tx_runs_nil t : tx_runs c t [] t
  | tx_runs_cons t o t1 os t2 : m_tx_state t <> TXIDLE -> tx_shift c t = (t1, o) -> tx_runs c t1 os t2 -> tx_runs c t (o :: os) t2.

Lemma tx_runs_app c t o1 t1 o2 t2 : tx_runs c t o1 t1 -> tx_runs c t1 o2 t2 -> tx_runs c t (o1 ++ o2) t2.
Proof. induction 1; [done |]. intros H2. cbn [app]. econstructor; eauto. Qed.

Lemma tx_hold c busy d m : forall cnt, Z.of_nat m <= cnt ->
  tx_runs c (mkUTX cnt TXDATA busy d) (replicate m (d .& 1)) (mkUTX (cnt - Z.of_nat m) TXDATA busy d).
Proof.
  induction m as [| m IH]; intros cnt Hm; cbn [replicate]; [rewrite Z.sub_0_r; constructor |].
  econstructor; [done | | replace (cnt - Z.of_nat (S m)) with (cnt - 1 - Z.of_nat m) by lia; apply IH; lia].
  unfold tx_shift. cbn [m_tx_baudcounter m_tx_state m_tx_busy m_tx_data]. by destruct (Z.leb_spec cnt 0); [lia |].
Qed.

(** The [S k] bits that are left, from the first clock of the first of them. *)
Lemma tx_bits c k : 1 <= m_baud_counts c -> forall d,
  exists os, tx_runs c (mkUTX (m_baud_counts c - 1) TXDATA (2 ^ Z.of_nat (S k) - 1) d) os (mkUTX 0 TXIDLE 0 (d .>> Z.of_nat (S k))) /\
    (d .& 1) :: os = line (m_baud_counts c) (bits (S k) d) ++ [(d .>> Z.of_nat (S k)) .& 1].
Proof.
  intros Hb. set (b := m_baud_counts c) in *. induction k as [| k IH]; intros d.
  all: assert (Hh : forall busy, tx_runs c (mkUTX (b - 1) TXDATA busy d) (replicate (Z.to_nat (b - 1)) (d .& 1)) (mkUTX 0 TXDATA busy d))
    by (intros busy; pose proof (tx_hold c busy d (Z.to_nat (b - 1)) (b - 1) ltac:(lia)) as Hh; by replace (b - 1 - Z.of_nat (Z.to_nat (b - 1))) with 0 in Hh by lia).
  - eexists. split; [eapply tx_runs_app; [apply Hh |]; econstructor; [done | reflexivity | constructor] |].
    cbn [bits]. rewrite line_cons, app_nil_r. replace (Z.to_nat b) with (S (Z.to_nat (b - 1))) by lia. done.
  - assert (Hs : tx_shift c (mkUTX 0 TXDATA (2 ^ Z.of_nat (S (S k)) - 1) d) = (mkUTX (b - 1) TXDATA (2 ^ Z.of_nat (S k) - 1) (d .>> 1), (d .>> 1) .& 1)).
    { unfold tx_shift. cbn [m_tx_baudcounter m_tx_state m_tx_busy m_tx_data].
      replace ((2 ^ Z.of_nat (S (S k)) - 1) .>> 1) with (2 ^ Z.of_nat (S k) - 1).
      2: { rewrite shiftr_div by lia. rewrite (Nat2Z.inj_succ (S k)), Z.pow_succ_r by lia. zlia. }
      assert (2 <= 2 ^ Z.of_nat (S k)) by (rewrite Nat2Z.inj_succ, Z.pow_succ_r by lia; pose proof (Z.pow_pos_nonneg 2 (Z.of_nat k)); lia).
      destruct (Z.eqb_spec (2 ^ Z.of_nat (S k) - 1) 0); [lia | done]. }
    destruct (IH (d .>> 1)) as (os & Hrun & Hos).
    rewrite Z.shiftr_shiftr in Hrun, Hos by lia. replace (1 + Z.of_nat (S k)) with (Z.of_nat (S (S k))) in Hrun, Hos by lia.
    eexists. split; [eapply tx_runs_app; [apply Hh |]; econstructor; [done | apply Hs | apply Hrun] |].
    change (bits (S (S k)) d) with ((d .& 1) :: bits (S k) (d .>> 1)). rewrite (line_cons b (d .& 1)), <- app_assoc, <- Hos.
    replace (Z.to_nat b) with (S (Z.to_nat (b - 1))) by lia. done.
Qed.

(** A character: its start bit, the frame, a stop bit, and one clock of rest. *)
Lemma tx_char c ch : settings c -> six_parity c = false -> 0 <= ch < 2 ^ m_nbits c -> 1 <= m_baud_counts c ->
  exists t os, tx_runs c (tx_load c ch) os t /\ m_tx_state t = TXIDLE /\ 0 :: os = line (m_baud_counts c) (0 :: frame c ch ++ [1]) ++ [1].
Proof.
  intros Hc Hsix Hch Hb. pose proof (load_bits c ch Hc Hsix Hch) as Hbits. destruct Hc as [H1 H2 H3 H4 H5 _].
  set (d := m_tx_data (tx_load c ch)) in *. set (N := Z.to_nat (rx_bits c)).
  assert (Ht : tx_load c ch = mkUTX (m_baud_counts c - 1) TXDATA (2 ^ Z.of_nat (S N) - 1) d).
  { unfold tx_load, d. f_equal. rewrite shiftl_mul by lia. rewrite Z.mul_1_l. f_equal. f_equal. unfold N, rx_bits. lia. }
  destruct (tx_bits c N Hb d) as (os & Hrun & Hos).
  replace (Z.to_nat (rx_bits c + 2)) with (S (S N)) in Hbits by (unfold N, rx_bits; lia).
  assert (Hsplit : forall k x, bits (S k) x = bits k x ++ [(x .>> Z.of_nat k) .& 1]).
  { clear. induction k as [| k IH]; intros x; [done |]. cbn [bits app] in *. f_equal. rewrite IH, Z.shiftr_shiftr by lia. repeat f_equal. lia. }
  rewrite Hsplit in Hbits. change (0 :: (frame c ch ++ [1]) ++ [1]) with ((0 :: frame c ch ++ [1]) ++ [1]) in Hbits.
  apply app_inj_tail in Hbits as [Hbits Hlast]. rewrite Hbits, Hlast in Hos.
  assert (Hd0 : d .& 1 = 0) by (cbn [bits] in Hbits; congruence). rewrite Hd0 in Hos.
  rewrite Ht. eexists _, os. split; [exact Hrun |]. by split.
Qed.

(** Eight bits come back as the character. *)
Lemma val_bits k x : 0 <= x < 2 ^ Z.of_nat k -> val (bits k x) = x.
Proof.
  revert x. induction k as [| k IH]; intros x Hx; cbn [bits val]; [cbn in Hx; lia |].
  rewrite Nat2Z.inj_succ, Z.pow_succ_r in Hx by lia. rewrite land_1, IH, shiftr_div by (rewrite ?shiftr_div; zlia). zlia.
Qed.

Lemma val_app l1 l2 : val (l1 ++ l2) = val l1 + val l2 * 2 ^ Z.of_nat (length l1).
Proof.
  induction l1 as [| u l1 IH]; [cbn; lia |]. cbn [val length app]. rewrite IH, Nat2Z.inj_succ, Z.pow_succ_r by lia. lia.
Qed.

Lemma bits_length k : forall x, length (bits k x) = k.
Proof. induction k as [| k IH]; intros x; cbn; [done | by rewrite IH]. Qed.

Lemma bits_bits k : forall x, bitlist (bits k x).
Proof. induction k as [| k IH]; intros x; cbn; [done |]. constructor; [rewrite land_1; zlia | done]. Qed.

Lemma frame_val c ch : m_nbits c = 8 -> 0 <= ch < 256 -> val (frame c ch ++ [1]) mod 256 = ch.
Proof.
  intros H8 Hch. unfold frame. rewrite H8, <- app_assoc, val_app, bits_length, val_bits by done.
  change (2 ^ Z.of_nat (Z.to_nat 8)) with 256. rewrite Z.mod_add by lia. by apply Z.mod_small.
Qed.

Lemma frame_ok c ch : settings c -> bitlist (frame c ch ++ [1]) /\ Z.of_nat (length (frame c ch ++ [1])) = rx_bits c.
Proof.
  intros [H1 H2 H3 H4 H5 _]. unfold frame, rx_bits. split.
  - repeat apply Forall_app_2; [apply bits_bits | | apply Forall_replicate; lia | repeat constructor; lia].
    destruct (truthy _); [| constructor]. constructor; [| constructor]. unfold parity_bit. destruct (truthy _); [lia |].
    assert (Hx : forall a e, (a = 0 \/ a = 1) -> (e = 0 \/ e = 1) -> Z.lxor a e = 0 \/ Z.lxor a e = 1) by (intros a e [-> | ->] [-> | ->]; first [by left | by right]).
    apply Hx; [| lia]. generalize (bits_bits 8 ch). generalize (bits 8 ch). induction 1 as [| v l Hv _ IH]; cbn; [lia | by apply Hx].
  - rewrite !length_app, bits_length, length_replicate. cbn [length]. unfold truthy. destruct (Z.eqb_spec (m_nparity c) 0); cbn [negb length]; lia.
Qed.

(** Frames on the line, and then rest: the characters, and a receiver that waits. *)
Lemma rx_run_frames c cs m r : settings c -> m_nbits c = 8 -> 3 <= m_baud_counts c -> between c None r ->
  Forall (fun '(_, ch) => 0 <= ch < 256) cs -> m_baud_counts c / 2 < Z.of_nat m ->
  exists r', rx_run c (traffic c (map (fun '(g, ch) => (g, frame c ch)) cs) ++ replicate m 1) r = (r', map snd cs) /\ between c None r'.
Proof.
  intros Hc H8 Hb Hidle Hcs Hm.
  assert (Hn : 1 <= rx_bits c <= 31) by (unfold rx_bits; destruct Hc; lia). assert (Hb2 : 3 <= m_baud_counts c < 2 ^ 24) by (destruct Hc; lia).
  set (fs := map _ cs).
  assert (Hfs : Forall (fun '(_, bs) => bitlist (bs ++ [1]) /\ Z.of_nat (length (bs ++ [1])) = rx_bits c) fs).
  { unfold fs. apply Forall_map, Forall_forall. intros [g ch] _. by apply frame_ok. }
  assert (Hval : map (fun '(_, bs) => val (bs ++ [1]) mod 256) fs = map snd cs).
  { unfold fs. rewrite map_map. clear - Hcs H8. induction Hcs as [| [g ch] cs Hch Hcs IH]; [done |]. cbn [map]. f_equal; [by apply frame_val | done]. }
  destruct (between_traffic c Hb2 Hn fs None r Hidle Hfs) as (p1 & r1 & o1 & H1 & Hp1 & E1). rewrite Hval in E1. cbn [option_out app] in E1.
  destruct (between_high c Hn m p1 r1 Hp1) as (p2 & r2 & o2 & H2 & Hp2 & E2 & Hnone). rewrite (Hnone Hm) in *.
  pose proof (rx_run_app _ _ _ _ _ _ _ _ H1 H2) as Hrun. cbn [option_out] in E2. rewrite app_nil_r in E2. rewrite <- E2, <- E1 in Hrun.
  by exists r2.
Qed.
