(* ===== verification/UartProps.v ===== *)
(** The simulated serial port as a whole: it stays within its arrays whatever
    the network does, and it carries characters between the line and the two
    connections. *)

From stdpp Require Import base tactics list numbers option.
From Stdlib Require Import ZArith Lia.
From S2P Require Import Prelude Uart UartRx UartTx.
Local Open Scope Z_scope.

Abbreviation never := (fun (_ : exn) _ => False).

(** The positions of the receiving and of the transmitting side are within the
    arrays. *)
Record rx_ok {W} (s : DBLUARTSIM W) : Prop := {
  ro_conbuf : length (m_conbuf s) = 256%nat;
  ro_cmdbuf : length (m_cmdbuf s) = 256%nat;
  ro_cmdpos : 0 <= m_cmdpos s < 254;
  ro_conpos : 0 <= m_conpos s < 254
}.
Record tx_ok {W} (s : DBLUARTSIM W) : Prop := {
  to_rxbuf : length (m_rxbuf s) = 256%nat;
  to_cmdline : length (m_cmdline s) = 256%nat;
  to_cllen : 0 <= m_cllen s < 64;
  to_ilen : 0 <= m_ilen s;
  to_rxpos : 0 <= m_rxpos s;
  to_pending : m_rxpos s + m_ilen s <= 256
}.

Ltac usimp := cbn [m_skt m_console m_cmd m_con m_conbuf m_cmdbuf m_rxbuf m_cmdline m_ilen m_rxpos m_cmdpos m_conpos m_cllen u_cfg u_rx u_tx u_net
  set_field set_m_skt set_m_console set_m_cmd set_m_con set_m_conbuf set_m_cmdbuf set_m_rxbuf set_m_cmdline set_m_ilen set_m_rxpos set_m_cmdpos
  set_m_conpos set_m_cllen set_u_cfg set_u_rx set_u_tx set_u_net fst snd] in *.

(** What the three parts of a tick keep: the buffers of the receiving side, those
    of the transmitting side, the line. *)
Definition rx_part {W} (s : DBLUARTSIM W) := (m_conbuf s, m_cmdbuf s, m_cmdpos s, m_conpos s).
Definition tx_part {W} (s : DBLUARTSIM W) := (m_rxbuf s, m_cmdline s, m_ilen s, m_rxpos s, m_cllen s).
Definition line_part {W} (s : DBLUARTSIM W) := (u_cfg s, u_rx s, u_tx s).

Lemma rx_ok_part {W} (s s' : DBLUARTSIM W) : rx_part s' = rx_part s -> rx_ok s -> rx_ok s'.
Proof. unfold rx_part. intros E [H1 H2 H3 H4]. injection E as E1 E2 E3 E4. split; rewrite ?E1, ?E2, ?E3, ?E4; done. Qed.

Lemma tx_ok_part {W} (s s' : DBLUARTSIM W) : tx_part s' = tx_part s -> tx_ok s -> tx_ok s'.
Proof. unfold tx_part. intros E [H1 H2 H3 H4 H5 H6]. injection E as E1 E2 E3 E4 E5. split; rewrite ?E1, ?E2, ?E3, ?E4, ?E5; done. Qed.

Section Wp.
Context {W : Type} `{Sockets W}.
Implicit Types s : DBLUARTSIM W.

Lemma wp_net {A} (f : W -> A * W) (Q : A -> DBLUARTSIM W -> Prop) E s :
  Q (f (u_net s)).1 (s <| u_net := (f (u_net s)).2 |>) -> wp (net f) Q E s.
Proof. unfold wp, net. by destruct (f (u_net s)). Qed.

Lemma wp_net_ (f : W -> W) (Q : unit -> DBLUARTSIM W -> Prop) E s : Q tt (s <| u_net := f (u_net s) |>) -> wp (net_ f) Q E s.
Proof. done. Qed.

Lemma wp_bind2 {A B C} (m1 : M (DBLUARTSIM W) A) (m2 : M (DBLUARTSIM W) B) (k : M (DBLUARTSIM W) C) Q E s :
  wp (m1 ;; m2) (fun _ s' => wp k Q E s') E s -> wp (m1 ;; m2 ;; k) Q E s.
Proof. unfold wp, bind. destruct (m1 s) as [a s1 | e s1]; [| done]. by destruct (m2 s1). Qed.

Lemma wp_load (f : DBLUARTSIM W -> list Z) i (Q : Z -> DBLUARTSIM W -> Prop) E s :
  0 <= i < Z.of_nat (length (f s)) -> (forall v, f s !! Z.to_nat i = Some v -> Q v s) -> wp (load f i) Q E s.
Proof.
  intros Hi HQ. unfold wp, load. destruct (Z.leb_spec 0 i); [| lia].
  destruct (lookup_lt_is_Some_2 (f s) (Z.to_nat i)) as [v Hv]; [lia |]. rewrite Hv. by apply HQ.
Qed.

Lemma wp_store (f : DBLUARTSIM W -> list Z) `{!Setter f} i v (Q : unit -> DBLUARTSIM W -> Prop) E s :
  0 <= i < Z.of_nat (length (f s)) -> Q tt (s <| f := <[Z.to_nat i := v]> (f s) |>) -> wp (store f i v) Q E s.
Proof. intros Hi HQ. unfold wp, store. destruct (Z.leb_spec 0 i); [| lia]. destruct (Z.ltb_spec i (Z.of_nat (length (f s)))); [done | lia]. Qed.
End Wp.

(** Symbolic execution, with the arrays' bounds left to [lia]. *)
Ltac ustep :=
  lazymatch goal with
  | |- wp (net _) _ _ _ => apply wp_net
  | |- wp (net_ _) _ _ _ => apply wp_net_
  | |- wp (load _ _) _ _ _ => apply wp_load; [| intros ? ?]
  | |- wp (store _ _ _) _ _ _ => apply wp_store
  | |- wp (if ?b then _ else _) _ _ _ => let Hc := fresh "Hc" in destruct b eqn:Hc
  | |- _ => wp_step
  end; usimp.

Ltac uarith := rewrite ?length_insert; bools; repeat match goal with
  | H : (_ =? _) = true |- _ => apply Z.eqb_eq in H
  | H : (_ =? _) = false |- _ => apply Z.eqb_neq in H
  end; try lia.

(** Two connections that stay open, with what was sent to each: a read that is
    asked for gets something, and a send takes all. *)
Record peers {W} `{Sockets W} (sent : Z -> W -> list Z) : Prop := {
  pe_recv : forall fd n w, 0 < n -> 0 < (sk_recv fd n w).1.1;
  pe_recv_sent : forall fd n w fd', sent fd' (sk_recv fd n w).2 = sent fd' w;
  pe_poll_sent : forall fds w fd', sent fd' (sk_poll fds w).2 = sent fd' w;
  pe_send : forall fd bs w, (sk_send fd bs w).1 = Z.of_nat (length bs);
  pe_send_sent : forall fd bs w fd', sent fd' (sk_send fd bs w).2 = if fd' =? fd then sent fd' w ++ bs else sent fd' w
}.

(** ** Safety *)

Section Safe.
Context {W : Type} `{SocketsLaws W}.
Implicit Types s : DBLUARTSIM W.

Lemma poll_accept_safe s :
  wp poll_accept (fun _ s' => rx_part s' = rx_part s /\ tx_part s' = tx_part s /\ line_part s' = line_part s) never s.
Proof.
  unfold poll_accept. repeat ustep; try done.
  set (fds := _ ++ _) in *. destruct (sk_poll fds (u_net s)) as [[pr pollin] w] eqn:Ep. usimp. repeat ustep; [| done |].
  - apply wp_for_each with (I := fun _ s' => rx_part s' = rx_part s /\ tx_part s' = tx_part s /\ line_part s' = line_part s); [| done | done].
    intros [fd pi] l s' Hs'. unfold accept_one. repeat ustep; exact Hs'.
  - pose proof (sk_poll_ok fds (u_net s)) as Hp. rewrite Ep in Hp. usimp. apply Z.leb_gt in H1. lia.
Qed.

Lemma flushrx_safe s :
  length (m_cmdbuf s) = 256%nat -> 0 <= m_cmdpos s < 256 ->
  wp flushrx (fun _ s' => length (m_cmdbuf s') = 256%nat /\ m_cmdpos s' = 0 /\ (m_conbuf s', m_conpos s') = (m_conbuf s, m_conpos s) /\
    tx_part s' = tx_part s /\ line_part s' = line_part s) never s.
Proof.
  intros Hl Hp. unfold flushrx. repeat ustep; uarith; done.
Qed.

(** The first part of [received]: the character is stored. *)
Lemma received_safe ch s : rx_ok s ->
  wp (received ch) (fun _ s' => rx_ok s' /\ tx_part s' = tx_part s /\ line_part s' = line_part s) never s.
Proof.
  intros [H1 H2 H3 H4]. unfold received. wp_step. apply wp_mono with
    (Q := fun _ s' => length (m_conbuf s') = 256%nat /\ length (m_cmdbuf s') = 256%nat /\ 0 <= m_cmdpos s' <= 254 /\ 0 <= m_conpos s' <= 254 /\
      tx_part s' = tx_part s /\ line_part s' = line_part s) (E := never); [| | done].
  { unfold store_char. repeat ustep; uarith; repeat split; uarith; done. }
  intros _ s1 (L1 & L2 & P1 & P2 & T1 & N1). wp_step. apply wp_mono with
    (Q := fun _ s' => length (m_conbuf s') = 256%nat /\ length (m_cmdbuf s') = 256%nat /\ 0 <= m_cmdpos s' < 254 /\ 0 <= m_conpos s' <= 254 /\
      tx_part s' = tx_part s /\ line_part s' = line_part s) (E := never); [| | done].
  { unfold flush_cmd. repeat ustep; uarith; [| by repeat split; uarith ..]. eapply wp_mono; [apply flushrx_safe; lia | | done].
    intros _ s2 (L3 & P4 & E & T2 & N2). cbn. injection E as -> ->. rewrite T2, N2, P4. repeat split; try done; lia. }
  intros _ s2 (L3 & L4 & P4 & P5 & T2 & N2). wp_step.
  apply wp_mono with (Q := fun _ s' => length (m_conbuf s') = 256%nat /\ length (m_cmdbuf s') = 256%nat /\ 0 <= m_cmdpos s' < 254 /\ 0 <= m_conpos s' <= 254 /\
      tx_part s' = tx_part s /\ line_part s' = line_part s) (E := never); [| | done].
  { unfold send_con. repeat ustep; uarith; by repeat split; uarith. }
  intros _ s3 (L5 & L6 & P6 & P7 & T3 & N3). unfold print_con.
  repeat ustep; uarith; (split; [split; usimp; uarith; try done; intuition lia | by split]).
Qed.

(** Arrays that are overwritten from a place on. *)
Definition overwrite (l : list Z) (i : Z) (vs : list Z) : list Z := take (Z.to_nat i) l ++ vs ++ drop (Z.to_nat i + length vs) l.

Lemma overwrite_length l i vs : 0 <= i -> i + Z.of_nat (length vs) <= Z.of_nat (length l) -> length (overwrite l i vs) = length l.
Proof. intros Hi Hl. unfold overwrite. rewrite !length_app, length_take, length_drop. lia. Qed.

Lemma overwrite_cons l i v vs : 0 <= i -> i + Z.of_nat (length (v :: vs)) <= Z.of_nat (length l) ->
  overwrite (<[Z.to_nat i := v]> l) (i + 1) vs = overwrite l i (v :: vs).
Proof.
  intros Hi Hl. cbn [length] in Hl. unfold overwrite. replace (Z.to_nat (i + 1)) with (S (Z.to_nat i)) by lia. cbn [length].
  rewrite drop_insert_lt by lia. rewrite (take_S_r _ _ v) by (apply list_lookup_insert_eq; lia). rewrite take_insert_ge by lia.
  rewrite <- app_assoc. cbn [app]. by replace (S (Z.to_nat i) + length vs)%nat with (Z.to_nat i + S (length vs))%nat by lia.
Qed.

(** Everything but the transmitting side. *)
Record same_rest (s s' : DBLUARTSIM W) : Prop := {
  sr_cmd : m_cmd s' = m_cmd s;
  sr_con : m_con s' = m_con s;
  sr_rx : rx_part s' = rx_part s;
  sr_line : line_part s' = line_part s;
  sr_net : u_net s' = u_net s
}.

Lemma same_rest_trans s1 s2 s3 : same_rest s1 s2 -> same_rest s2 s3 -> same_rest s1 s3.
Proof. intros [] []. split; congruence. Qed.

Lemma store_all_rxbuf vs : forall i s (Q : unit -> DBLUARTSIM W -> Prop),
  0 <= i -> i + Z.of_nat (length vs) <= Z.of_nat (length (m_rxbuf s)) ->
  Q tt (s <| m_rxbuf := overwrite (m_rxbuf s) i vs |>) -> wp (store_all m_rxbuf i vs) Q never s.
Proof.
  induction vs as [| v vs IH]; intros i s Q Hi Hl HQ; cbn [store_all].
  { wp_step. unfold overwrite in HQ. cbn [length app] in HQ. rewrite Nat.add_0_r, take_drop in HQ. by destruct s. }
  wp_step. apply wp_store; [cbn [length] in Hl; lia |]. apply IH; usimp; [lia | cbn [length] in *; rewrite length_insert; lia |].
  rewrite overwrite_cons by done. exact HQ.
Qed.

(** A command character is marked. *)
Lemma cmd_char_safe i s : 0 <= i < 256 -> length (m_rxbuf s) = 256%nat -> length (m_cmdline s) = 256%nat -> 0 <= m_cllen s < 64 ->
  wp (cmd_char i) (fun _ s' => m_rxbuf s' = <[Z.to_nat i := (m_rxbuf s !!! Z.to_nat i) .| 0x80]> (m_rxbuf s) /\
    length (m_cmdline s') = 256%nat /\ 0 <= m_cllen s' < 64 /\ m_ilen s' = m_ilen s /\ same_rest s s') never s.
Proof.
  intros Hi L1 L2 P. unfold cmd_char. repeat ustep; uarith; erewrite list_lookup_total_correct by eassumption; repeat split; usimp; uarith.
Qed.

Lemma cmd_chars_safe n : forall i s, 0 <= i -> i + Z.of_nat n <= 256 ->
  length (m_rxbuf s) = 256%nat -> length (m_cmdline s) = 256%nat -> 0 <= m_cllen s < 64 ->
  wp (cmd_chars n i) (fun _ s' => m_rxbuf s' = overwrite (m_rxbuf s) i (map (fun b => b .| 0x80) (take n (drop (Z.to_nat i) (m_rxbuf s)))) /\
    length (m_cmdline s') = 256%nat /\ 0 <= m_cllen s' < 64 /\ m_ilen s' = m_ilen s /\ same_rest s s') never s.
Proof.
  induction n as [| n IH]; intros i s Hi Hn L1 L2 P; cbn [cmd_chars].
  { wp_step. unfold overwrite. rewrite take_0. cbn [map length app]. rewrite Nat.add_0_r, take_drop. split_and!; first [done | lia | by split]. }
  wp_step. eapply wp_mono; [apply cmd_char_safe; lia | | done]. intros _ s1 (E1 & L3 & P1 & E2 & R1).
  assert (L4 : length (m_rxbuf s1) = 256%nat) by (by rewrite E1, length_insert).
  eapply wp_mono; [apply IH; lia | | done]. intros _ s2 (E3 & L5 & P2 & E4 & R2). split; [| split_and!; [lia | lia | lia | lia | by apply (same_rest_trans s s1 s2)]].
  destruct (lookup_lt_is_Some_2 (m_rxbuf s) (Z.to_nat i)) as [v Hv]; [lia |].
  rewrite E3, E1, (list_lookup_total_correct _ _ _ Hv). rewrite (drop_S _ v (Z.to_nat i)) by done. rewrite firstn_cons. cbn [map].
  replace (Z.to_nat (i + 1)) with (S (Z.to_nat i)) by lia. rewrite drop_insert_lt by lia.
  replace (Z.of_nat (S n)) with (Z.of_nat n + 1) in Hn by lia. apply overwrite_cons; [lia |]. cbn [length]. rewrite length_map, length_take, length_drop. lia.
Qed.

(** ** Reading from the connections *)

Record input_step (s s' : DBLUARTSIM W) : Prop := {
  in_rxbuf : length (m_rxbuf s') = 256%nat;
  in_cmdline : length (m_cmdline s') = 256%nat;
  in_cllen : 0 <= m_cllen s' < 64;
  in_ilen : m_ilen s <= m_ilen s' <= 256;
  in_rest : rx_part s' = rx_part s /\ line_part s' = line_part s;
  in_peers : forall sent, peers sent -> m_cmd s' = m_cmd s /\ m_con s' = m_con s /\ forall fd, sent fd (u_net s') = sent fd (u_net s)
}.

Lemma input_step_trans s1 s2 s3 : input_step s1 s2 -> input_step s2 s3 -> input_step s1 s3.
Proof.
  intros [A1 A2 A3 A4 [A5 A6] A7] [B1 B2 B3 B4 [B5 B6] B7]. split; try done; [lia | by rewrite B5, B6 |].
  intros sent Hp. destruct (A7 sent Hp) as (E1 & E2 & E3), (B7 sent Hp) as (F1 & F2 & F3). rewrite F1, F2. repeat split; try done.
  intros fd. by rewrite F3.
Qed.

(** The bytes of a read, after those that are there. *)
Lemma recv_step fd s (Q : DBLUARTSIM W -> Prop) r :
  sk_recv fd (DBLPIPEBUFLEN - m_ilen s) (u_net s) = r ->
  length (m_rxbuf s) = 256%nat -> length (m_cmdline s) = 256%nat -> 0 <= m_cllen s < 64 -> 0 <= m_ilen s < 256 ->
  (forall s', length (m_rxbuf s') = 256%nat -> length (m_cmdline s') = 256%nat -> 0 <= m_cllen s' < 64 -> m_ilen s' = m_ilen s ->
     m_cmd s' = m_cmd s -> m_con s' = m_con s -> rx_part s' = rx_part s -> line_part s' = line_part s -> u_net s' = r.2 -> Q s') ->
  wp (store_all m_rxbuf (m_ilen s) r.1.2 ;;
      (if fd =? m_cmd s then
         cmd_chars (Z.to_nat r.1.1) (m_ilen s) ;;
         let* s := get in
         store m_cmdline (m_cllen s) 0 ;;
         (if r.1.1 <=? 0 then store m_cmdline (m_cllen s) 0 ;; modify (fun s => s <| m_cllen := 0 |>) else ret tt)
       else ret tt)) (fun _ s' => Q s') never (s <| u_net := r.2 |>).
Proof.
  intros Hr L1 L2 P1 P2 HQ. pose proof (sk_recv_length fd (DBLPIPEBUFLEN - m_ilen s) (u_net s) ltac:(unfold DBLPIPEBUFLEN; lia)) as Hle.
  pose proof (sk_recv_bytes fd (DBLPIPEBUFLEN - m_ilen s) (u_net s)) as Hlen. rewrite Hr in Hle, Hlen. unfold DBLPIPEBUFLEN in Hle.
  assert (Hfit : m_ilen s + Z.of_nat (length r.1.2) <= 256) by lia.
  wp_step. apply store_all_rxbuf; usimp; [lia | lia |].
  assert (L3 : length (overwrite (m_rxbuf s) (m_ilen s) r.1.2) = 256%nat) by (rewrite overwrite_length; lia).
  ustep; [| ustep; apply HQ; usimp; done].
  wp_step. eapply wp_mono; [apply cmd_chars_safe; usimp; lia | | done]. intros _ s1 (E1 & L4 & P3 & E2 & R1). usimp.
  destruct R1 as [C1 C2 X1 Y1 W1]. usimp. repeat ustep; uarith; apply HQ; usimp; uarith; try done.
  all: rewrite E1, overwrite_length; rewrite ?length_map, ?length_take, ?length_drop, ?L3; lia.
Qed.

Lemma read_fds_safe pb : forall s,
  length (m_rxbuf s) = 256%nat -> length (m_cmdline s) = 256%nat -> 0 <= m_cllen s < 64 -> 0 <= m_ilen s < 256 ->
  wp (read_fds pb) (fun _ s' => input_step s s') never s.
Proof.
  assert (Hrefl : forall s, length (m_rxbuf s) = 256%nat -> length (m_cmdline s) = 256%nat -> 0 <= m_cllen s < 64 -> 0 <= m_ilen s < 256 -> input_step s s)
    by (intros; split; try done; lia).
  induction pb as [| [fd pollin] pb IH]; intros s L1 L2 P1 P2; cbn [read_fds]; [wp_step; by apply Hrefl |].
  ustep; [| by apply IH]. wp_step; wp_step. wp_step. apply wp_net.
  destruct (sk_recv fd (DBLPIPEBUFLEN - m_ilen s) (u_net s)) as [[nr bs] w] eqn:Er. usimp. apply wp_bind2.
  apply (recv_step fd s _ (nr, bs, w) Er); try done. intros s1 L3 L4 P3 E1 C1 C2 X1 Y1 W1.
  assert (Hle : nr <= 256 - m_ilen s).
  { pose proof (sk_recv_length fd (DBLPIPEBUFLEN - m_ilen s) (u_net s) ltac:(unfold DBLPIPEBUFLEN; lia)) as Hle. by rewrite Er in Hle. }
  assert (Hpe : forall sent, peers sent -> 0 < nr /\ forall fd', sent fd' w = sent fd' (u_net s)).
  { intros sent Hp. pose proof (pe_recv sent Hp fd (DBLPIPEBUFLEN - m_ilen s) (u_net s) ltac:(unfold DBLPIPEBUFLEN; lia)) as G1.
    pose proof (pe_recv_sent sent Hp fd (DBLPIPEBUFLEN - m_ilen s) (u_net s)) as G2. by rewrite Er in G1, G2. }
  repeat ustep; uarith.
  - split; usimp; try done; [lia |]. intros sent Hp. destruct (Hpe sent Hp). rewrite W1. done.
  - eapply wp_mono; [apply IH; usimp; try done; unfold DBLPIPEBUFLEN in *; lia | | done]. intros ? s2 Hs2. eapply input_step_trans; [| exact Hs2].
    split; usimp; try done; [lia |]. intros sent Hp. destruct (Hpe sent Hp). rewrite W1. done.
  - eapply wp_mono; [apply IH; usimp; try done; lia | | done]. intros ? s2 Hs2. eapply input_step_trans; [| exact Hs2].
    split; usimp; try done; [lia |]. intros sent Hp. destruct (Hpe sent Hp). lia.
  - eapply wp_mono; [apply IH; usimp; try done; lia | | done]. intros ? s2 Hs2. eapply input_step_trans; [| exact Hs2].
    split; usimp; try done; [lia |]. intros sent Hp. destruct (Hpe sent Hp). lia.
Qed.

(** The characters that wait for the transmitter. *)
Definition pending (s : DBLUARTSIM W) : list Z := take (Z.to_nat (m_ilen s)) (drop (Z.to_nat (m_rxpos s)) (m_rxbuf s)).

Lemma next_safe s : tx_ok s ->
  wp next (fun ch s' => tx_ok s' /\ rx_part s' = rx_part s /\ line_part s' = line_part s /\ -1 <= ch < 256 /\
    (0 < m_ilen s -> exists v, pending s = v :: pending s' /\ ch = v .& 0xff) /\
    (forall sent, peers sent -> m_cmd s' = m_cmd s /\ m_con s' = m_con s /\ forall fd, sent fd (u_net s') = sent fd (u_net s))) never s.
Proof.
  intros T0. pose proof T0 as [T1 T2 T3 T4 T5 T6]. unfold next. wp_step; wp_step. wp_step. apply wp_mono with
    (Q := fun _ s' => tx_ok s' /\ rx_part s' = rx_part s /\ line_part s' = line_part s /\ (0 < m_ilen s -> s' = s) /\
      (forall sent, peers sent -> m_cmd s' = m_cmd s /\ m_con s' = m_con s /\ forall fd, sent fd (u_net s') = sent fd (u_net s))) (E := never); [| | done].
  { ustep; [uarith | wp_step; by split_and!]. unfold poll_read. wp_step; wp_step. ustep; [by wp_step; split_and!; try lia |]. set (fds := _ ++ _) in *.
    pose proof (pe_poll_sent (W := W)) as Hps. wp_step. apply wp_net. specialize (fun sent Hp fd' => Hps sent Hp fds (u_net s) fd').
    destruct (sk_poll fds (u_net s)) as [[pr pollin] w] eqn:Ep. usimp. ustep; [wp_step; split_and!; try done; [lia |]; intros sent Hp; split_and!; try done; by apply Hps |].
    wp_step. uarith. eapply wp_mono; [apply read_fds_safe; usimp; lia | | done]. intros _ s1 [A1 A2 A3 A4 [A5 A6] A7]. wp_step. usimp.
    split_and!; [split; usimp; lia | done | done | lia |]. intros sent Hp. destruct (A7 sent Hp) as (B1 & B2 & B3). split_and!; [done | done |]. intros fd. rewrite B3. by apply Hps. }
  intros _ s1 (T & R1 & N1 & Hi & Hp1). pose proof T as [U1 U2 U3 U4 U5 U6]. repeat ustep; uarith.
  { split_and!; try done; try lia. intros Hpos. rewrite (Hi Hpos) in Hc. lia. }
  split; [split; usimp; try done; lia |]. split_and!; try done; rewrite ?land_255; try zlia.
  intros Hpos. rewrite (Hi Hpos) in *. exists v. split; [| by rewrite land_255]. unfold pending. usimp.
  rewrite (drop_S _ v (Z.to_nat (m_rxpos s))) by done. replace (Z.to_nat (m_rxpos s + 1)) with (S (Z.to_nat (m_rxpos s))) by lia.
  by replace (Z.to_nat (m_ilen s)) with (S (Z.to_nat (m_ilen s - 1))) by lia.
Qed.
End Safe.

(** ** Characters from the line to the connections *)

Section Peers.
Context {W : Type} `{SocketsLaws W} (sent : Z -> W -> list Z) (HP : peers sent).
Implicit Types s : DBLUARTSIM W.

Record connected s : Prop := {
  cn_rx : rx_ok s;
  cn_cmd : 0 <= m_cmd s;
  cn_con : 0 <= m_con s;
  cn_two : m_cmd s <> m_con s;
  cn_conpos : m_conpos s = 0
}.

(** The bounds within [received]. *)
Record rx_len s : Prop := {
  rl_conbuf : length (m_conbuf s) = 256%nat;
  rl_cmdbuf : length (m_cmdbuf s) = 256%nat;
  rl_cmdpos : 0 <= m_cmdpos s < 256;
  rl_conpos : 0 <= m_conpos s < 256
}.

(** What the command port got or will get, and what the console got. *)
Definition cmd_stream s : list Z := sent (m_cmd s) (u_net s) ++ take (Z.to_nat (m_cmdpos s)) (m_cmdbuf s).
Definition con_stream s : list Z := sent (m_con s) (u_net s).

(** The characters for each of them. *)
Definition for_cmd (chs : list Z) : list Z := map (fun ch => ch .& 0x7f) (List.filter (fun ch => truthy (ch .& 0x80)) chs).
Definition for_con (chs : list Z) : list Z := map (fun ch => ch .& 0x7f) (List.filter (fun ch => negb (truthy (ch .& 0x80))) chs).

Lemma flushrx_peers s : rx_len s -> 0 <= m_cmd s -> m_cmd s <> m_con s ->
  wp flushrx (fun _ s' => rx_len s' /\ m_cmdpos s' = 0 /\ m_conpos s' = m_conpos s /\ m_conbuf s' = m_conbuf s /\
    m_cmd s' = m_cmd s /\ m_con s' = m_con s /\ cmd_stream s' = cmd_stream s /\ con_stream s' = con_stream s) never s.
Proof.
  intros [L1 L2 P1 P2] Hc Hne. unfold flushrx, cmd_stream, con_stream.
  pose proof (pe_send sent HP (m_cmd s) (take (Z.to_nat (m_cmdpos s)) (m_cmdbuf s)) (u_net s)) as Hn.
  pose proof (pe_send_sent sent HP (m_cmd s) (take (Z.to_nat (m_cmdpos s)) (m_cmdbuf s)) (u_net s)) as Hs.
  repeat ustep; uarith; try (split_and!; try done; [split; usimp; rewrite ?length_insert; lia | ..]).
  - split_and!; done.
  - rewrite Hs, Z.eqb_refl. change (Z.to_nat 0) with 0%nat. by rewrite take_0, app_nil_r.
  - rewrite Hs. by destruct (Z.eqb_spec (m_con s) (m_cmd s)).
Qed.

(** The last command character makes a line, or fills the buffer. *)
Lemma flush_cmd_peers s : rx_len s -> 0 <= m_cmd s -> m_cmd s <> m_con s ->
  wp flush_cmd (fun _ s' => rx_len s' /\ m_cmdpos s' < 254 /\ (m_cmdbuf s !! Z.to_nat (m_cmdpos s - 1) = Some 10 -> 0 < m_cmdpos s -> m_cmdpos s' = 0) /\
    m_conpos s' = m_conpos s /\ m_conbuf s' = m_conbuf s /\
    m_cmd s' = m_cmd s /\ m_con s' = m_con s /\ cmd_stream s' = cmd_stream s /\ con_stream s' = con_stream s) never s.
Proof.
  intros L Hc Hne. pose proof L as [L1 L2 P1 P2]. unfold flush_cmd. repeat ustep; try lia; unfold DBLPIPEBUFLEN in *.
  - eapply wp_mono; [by apply flushrx_peers | | done]. intros ? s' (B1 & B2 & B3). cbn. rewrite B2. split_and!; try done; try lia; apply B3.
  - uarith. split_and!; try done. intros E _. congruence.
  - uarith. split_and!; try done; try lia.
Qed.

(** The console gets each character at once. *)
Lemma send_con_peers s l : rx_len s -> 0 <= m_con s -> m_cmd s <> m_con s ->
  l = (if 0 <? m_conpos s then take 1 (drop (Z.to_nat (m_conpos s - 1)) (m_conbuf s)) else []) ->
  wp send_con (fun _ s' => rx_len s' /\ m_cmdpos s' = m_cmdpos s /\ m_conpos s' = 0 /\
    m_cmd s' = m_cmd s /\ m_con s' = m_con s /\ cmd_stream s' = cmd_stream s /\ con_stream s' = con_stream s ++ l) never s.
Proof.
  intros L Hc Hne ->. pose proof L as [L1 L2 P1 P2]. unfold send_con, cmd_stream, con_stream.
  wp_step; wp_step. rewrite (proj2 (Z.leb_le 0 (m_con s)) Hc). cbn [andb]. destruct (Z.ltb_spec 0 (m_conpos s)).
  2: { wp_step. rewrite app_nil_r. split_and!; try done; lia. }
  wp_step. ustep; [lia |]. rewrite (drop_S _ v (Z.to_nat (m_conpos s - 1))) by done. cbn [take].
  pose proof (pe_send sent HP (m_con s) [v] (u_net s)) as Hn. pose proof (pe_send_sent sent HP (m_con s) [v] (u_net s)) as Hs. cbn [length] in Hn.
  repeat ustep; uarith. split_and!; try done.
  - rewrite Hs. by destruct (Z.eqb_spec (m_cmd s) (m_con s)).
  - by rewrite Hs, Z.eqb_refl.
Qed.

Lemma received_peers ch s : connected s ->
  wp (received ch) (fun _ s' => connected s' /\ m_cmd s' = m_cmd s /\ m_con s' = m_con s /\
    cmd_stream s' = cmd_stream s ++ for_cmd [ch] /\ con_stream s' = con_stream s ++ for_con [ch] /\
    (truthy (ch .& 0x80) = true -> ch .& 0x7f = 10 -> m_cmdpos s' = 0)) never s.
Proof.
  intros [[L1 L2 P1 P2] C1 C2 C3 C4]. unfold received. wp_step.
  apply wp_mono with (Q := fun _ s1 => rx_len s1 /\ m_cmd s1 = m_cmd s /\ m_con s1 = m_con s /\ con_stream s1 = con_stream s /\
    cmd_stream s1 = cmd_stream s ++ for_cmd [ch] /\
    for_con [ch] = (if 0 <? m_conpos s1 then take 1 (drop (Z.to_nat (m_conpos s1 - 1)) (m_conbuf s1)) else []) /\
    (truthy (ch .& 0x80) = true -> m_cmdbuf s1 !! Z.to_nat (m_cmdpos s1 - 1) = Some (ch .& 0x7f) /\ 0 < m_cmdpos s1)) (E := never); [| | done].
  { unfold store_char, cmd_stream, con_stream, for_cmd, for_con. cbn [List.filter]. wp_step; wp_step.
    ustep; cbn [negb map]; repeat ustep; try lia; split_and!; try done; try (split; usimp; rewrite ?length_insert; lia).
    - replace (Z.to_nat (m_cmdpos s + 1)) with (S (Z.to_nat (m_cmdpos s))) by lia.
      rewrite (take_S_r _ _ (ch .& 127)) by (apply list_lookup_insert_eq; lia). by rewrite take_insert_ge, app_assoc by lia.
    - by rewrite C4.
    - intros _. split; [| lia]. rewrite Z.add_simpl_r. apply list_lookup_insert_eq. lia.
    - by rewrite app_nil_r.
    - rewrite C4. cbn [Z.add Z.ltb Z.sub]. change (Z.to_nat (1 - 1)) with 0%nat. change (Z.to_nat 0) with 0%nat.
      destruct (m_conbuf s); [done |]. done. }
  intros ? s1 (B1 & B2 & B3 & B4 & B5 & B6 & B7).
  wp_step. eapply wp_mono; [apply flush_cmd_peers; [done | lia | congruence] | | done]. intros ? s2 (D1 & D2 & D3 & D4 & D5 & D6 & D7 & D8 & D9).
  wp_step. eapply wp_mono; [apply (send_con_peers s2 (for_con [ch])); [done | lia | congruence | by rewrite D4, D5] | | done].
  intros ? s3 (F1 & F2 & F3 & F4 & F5 & F6 & F7). pose proof F1 as [].
  unfold print_con. wp_step; wp_step. rewrite F3. cbn [Z.ltb Z.compare]. wp_step.
  split_and!; [split; try congruence; try lia; split; try done; lia | congruence | congruence | congruence | congruence |].
  intros Hb Hnl. destruct (B7 Hb) as [E1 E2]. rewrite F2. apply D3; [by rewrite E1, Hnl | done].
Qed.
End Peers.
