(* ===== verification/UartClaims.v ===== *)
(** What the simulated serial port promises, clock after clock. *)

From stdpp Require Import base tactics list numbers option.
From Stdlib Require Import ZArith Lia.
From S2P Require Import Prelude Uart UartRx UartTx UartProps.
Local Open Scope Z_scope.

(** The clocks, with the levels of the design's line; the answers are the levels
    of the line to the design. *)
Fixpoint ticks {W} `{Sockets W} (l : list Z) : M (DBLUARTSIM W) (list Z) :=
  match l with
  | [] => ret []
  | i :: l' => let* o := tick i in let* os := ticks l' in ret (o :: os)
  end.

Lemma wp_ret_eq {S A} (m : M S A) (Q : A -> S -> Prop) s : wp m Q never s -> exists a s', m s = Ret a s' /\ Q a s'.
Proof. unfold wp. destruct (m s) as [a s' | e s']; [by exists a, s' | done]. Qed.

Section Ticks.
Context {W : Type} `{SocketsLaws W}.
Implicit Types s : DBLUARTSIM W.

(** ** One clock *)

(** The transmitter's part. *)
Record tx_step s (o : Z) s' : Prop := {
  ts_busy : m_tx_state (u_tx s) <> TXIDLE -> (u_tx s', o) = tx_shift (u_cfg s) (u_tx s) /\ pending s' = pending s;
  ts_idle : m_tx_state (u_tx s) = TXIDLE -> 0 < m_ilen s ->
    exists v, pending s = v :: pending s' /\ u_tx s' = tx_load (u_cfg s) (v .& 0xff) /\ o = 0
}.

Lemma pending_part s s' : tx_part s' = tx_part s -> pending s' = pending s /\ m_ilen s' = m_ilen s.
Proof. unfold tx_part, pending. intros E. injection E as E1 _ E3 E4 _. by rewrite E1, E3, E4. Qed.

Lemma tick_safe i s : rx_ok s -> tx_ok s ->
  wp (tick i) (fun o s' => rx_ok s' /\ tx_ok s' /\ u_cfg s' = u_cfg s /\ u_rx s' = (rx_tick (u_cfg s) i (u_rx s)).1 /\ tx_step s o s') never s.
Proof.
  intros HR HT. unfold tick. wp_step. eapply wp_mono; [apply poll_accept_safe | | done]. intros _ s1 (R1 & T1 & N1).
  unfold line_part in N1. injection N1 as C1 X1 Y1. wp_step; wp_step. rewrite C1, X1.
  destruct (rx_tick (u_cfg s) i (u_rx s)) as [r ch] eqn:Er. cbn [fst]. wp_step; wp_step. wp_step.
  set (s2 := s1 <| u_rx := r |>).
  assert (R2 : rx_ok s2) by (apply (rx_ok_part s); [exact R1 | done]). assert (T2 : tx_part s2 = tx_part s) by exact T1.
  assert (N2 : line_part s2 = (u_cfg s, r, u_tx s)) by (unfold line_part, s2; usimp; by rewrite C1, Y1).
  apply wp_mono with (Q := fun _ s' => rx_ok s' /\ tx_part s' = tx_part s /\ line_part s' = (u_cfg s, r, u_tx s)) (E := never); [| | done].
  { destruct ch as [ch |]; [| by wp_step]. eapply wp_mono; [by apply received_safe | | done]. intros _ s3 (R3 & T3 & N3). by rewrite T3, N3. }
  intros _ s3 (R3 & T3 & N3). unfold line_part in N3. injection N3 as C3 X3 Y3. wp_step; wp_step. rewrite Y3.
  destruct (pending_part s s3 T3) as [Hpend Hil].
  ustep; uarith.
  - wp_step. eapply wp_mono; [apply next_safe; by apply (tx_ok_part s) | | done].
    intros c s4 (T4 & R4 & N4 & Hc4 & Hp4 & _). unfold line_part in N4. injection N4 as C4 X4 Y4. cbv beta.
    repeat ustep; uarith; split_and!; try congruence; try done; try (by apply (rx_ok_part s3)); try (by apply (tx_ok_part s4)).
    all: split; usimp; [intros ?; congruence |]; intros _ Hpos; destruct Hp4 as (v & Hv & ->); [lia |]; rewrite land_255 in *; try zlia.
    exists v. rewrite <- Hpend, Hv. split_and!; [done | usimp; by rewrite ?land_255, C4, C3 | done].
  - rewrite C3. destruct (tx_shift (u_cfg s) (u_tx s)) as [t o] eqn:Et. repeat ustep.
    split_and!; try congruence; try (by apply (rx_ok_part s3)); try (by apply (tx_ok_part s)).
    split; [| done]. intros _. split; [usimp; by rewrite Et | exact Hpend].
Qed.

Lemma ticks_safe l : forall s, rx_ok s -> tx_ok s ->
  wp (ticks l) (fun _ s' => rx_ok s' /\ tx_ok s' /\ u_cfg s' = u_cfg s /\ u_rx s' = (rx_run (u_cfg s) l (u_rx s)).1) never s.
Proof.
  induction l as [| i l IH]; intros s HR HT; cbn [ticks]; [by wp_step|].
  wp_step. eapply wp_mono; [by apply tick_safe | | done]. intros o s1 (R1 & T1 & C1 & X1 & _).
  wp_step. eapply wp_mono; [by apply IH | | done]. intros os s2 (R2 & T2 & C2 & X2). wp_step. split_and!; try done; [congruence |].
  rewrite X2, C1, X1. cbn [rx_run]. destruct (rx_tick _ i _) as [r o1]. cbn [fst]. by destruct (rx_run _ l r).
Qed.

(** ** Characters to the design *)

(** A character is under way: the clocks do not look at the network. *)
Lemma ticks_busy l os : forall s t, tx_runs (u_cfg s) (u_tx s) os t -> length l = length os -> rx_ok s -> tx_ok s ->
  wp (ticks l) (fun os' s' => os' = os /\ rx_ok s' /\ tx_ok s' /\ u_cfg s' = u_cfg s /\ u_tx s' = t /\ pending s' = pending s) never s.
Proof.
  revert os. induction l as [| i l IH]; intros os s t Hruns Hlen HR HT; (destruct os as [| o os]; [| try done]); [| done |].
  { inversion Hruns. subst. cbn [ticks]. by wp_step. }
  inversion Hruns as [| ? ? t1 ? ? Hst Hsh Hrun]. subst. cbn [ticks].
  wp_step. eapply wp_mono; [by apply tick_safe | | done]. intros o1 s1 (R1 & T1 & C1 & X1 & [Hb _]).
  destruct (Hb Hst) as [E1 E2]. rewrite Hsh in E1. injection E1 as E1 ->.
  wp_step. eapply wp_mono; [apply (IH os s1 t); [by rewrite C1, E1 | by injection Hlen | done | done] | | done].
  intros os2 s2 (-> & R2 & T2 & C2 & Y2 & P2). wp_step. split_and!; try done; congruence.
Qed.

Lemma ticks_app l1 l2 (Q : list Z -> DBLUARTSIM W -> Prop) s :
  wp (ticks l1) (fun o1 s1 => wp (ticks l2) (fun o2 s2 => Q (o1 ++ o2) s2) never s1) never s -> wp (ticks (l1 ++ l2)) Q never s.
Proof.
  revert Q s. induction l1 as [| i l1 IH]; intros Q s Hwp; cbn [ticks app] in *; [done |].
  apply wp_bind. unfold wp, bind in Hwp. unfold wp at 1. destruct (tick i s) as [o s1 | e s1]; [| done]. apply wp_bind. apply IH.
  unfold wp at 1. destruct (ticks l1 s1) as [o1 s2 | e s2]; [| done]. exact Hwp.
Qed.

(** What goes out for a character. *)
Definition sends (c : UCFG) (v : Z) : list Z := line (m_baud_counts c) (0 :: frame c (v .& 0xff) ++ [1]) ++ [1].

Lemma pending_ilen s : tx_ok s -> Z.of_nat (length (pending s)) = m_ilen s.
Proof. intros [L1 _ _ P1 P2 P3]. unfold pending. rewrite length_take, length_drop. lia. Qed.

Lemma ticks_transmit vs : forall l s,
  settings (u_cfg s) -> m_nbits (u_cfg s) = 8 -> 1 <= m_baud_counts (u_cfg s) ->
  rx_ok s -> tx_ok s -> m_tx_state (u_tx s) = TXIDLE -> pending s = vs -> length l = length (flat_map (sends (u_cfg s)) vs) ->
  wp (ticks l) (fun os s' => os = flat_map (sends (u_cfg s)) vs /\ rx_ok s' /\ tx_ok s' /\ u_cfg s' = u_cfg s /\
    m_tx_state (u_tx s') = TXIDLE /\ pending s' = []) never s.
Proof.
  induction vs as [| v vs IH]; intros l s Hc H8 Hb HR HT Hidle Hpend Hlen.
  { destruct l; [| done]. cbn [ticks]. by wp_step. }
  set (c := u_cfg s) in *. cbn [flat_map] in Hlen |- *. rewrite length_app in Hlen.
  assert (Hch : 0 <= v .& 255 < 256) by (rewrite land_255; zlia).
  destruct (tx_char c (v .& 255) Hc) as (t & os & Hrun & Ht & Hos); [by unfold six_parity; rewrite H8 | by rewrite H8 | done |].
  change (0 :: os = sends c v) in Hos. rewrite <- Hos in *. cbn [length] in Hlen.
  destruct l as [| i l]; [done |]. injection Hlen as Hlen. destruct (split_list (length os) l ltac:(lia)) as (l1 & l2 & -> & Hl1 & Hl2).
  cbn [ticks]. wp_step. eapply wp_mono; [by apply tick_safe | | done]. intros o s1 (R1 & T1 & C1 & X1 & [_ Hi]). cbv beta.
  destruct (Hi Hidle) as (v' & Hv' & Hl & ->); [rewrite <- pending_ilen, Hpend by done; cbn [length]; lia |].
  rewrite Hpend in Hv'. injection Hv' as <- Hpend1. wp_step.
  apply ticks_app. eapply wp_mono; [apply (ticks_busy l1 os s1 t); [by rewrite C1, Hl | done | done | done] | | done].
  intros os1 s2 (-> & R2 & T2 & C2 & Y2 & P2). fold c in C1.
  eapply wp_mono; [apply IH; rewrite ?C2, ?C1, ?Y2; try done; [congruence | lia] | | done].
  intros os2 s3 (-> & R3 & T3 & C3 & Y3 & P3). wp_step. rewrite C2, C1 in *. by split_and!.
Qed.

Context (sent : Z -> W -> list Z) (HP : peers sent).

Lemma connected_tx s t : connected s -> connected (s <| u_tx := t |>).
Proof. intros [HR C1 C2 C3 C4]. split; try done. by apply (rx_ok_part s). Qed.

Lemma tick_peers i s : connected s -> tx_ok s ->
  wp (tick i) (fun _ s' => connected s' /\ m_cmd s' = m_cmd s /\ m_con s' = m_con s /\
    cmd_stream sent s' = cmd_stream sent s ++ for_cmd (option_out (rx_tick (u_cfg s) i (u_rx s)).2) /\
    con_stream sent s' = con_stream sent s ++ for_con (option_out (rx_tick (u_cfg s) i (u_rx s)).2)) never s.
Proof.
  intros HC HT. pose proof HC as [HR C1 C2 C3 C4]. unfold tick. wp_step.
  assert (Hpa : poll_accept s = Ret tt s).
  { unfold poll_accept, bind, get. destruct (Z.ltb_spec (m_cmd s) 0); [lia |]. destruct (Z.ltb_spec (m_con s) 0); [lia |]. done. }
  unfold wp at 1. rewrite Hpa. wp_step; wp_step. destruct (rx_tick (u_cfg s) i (u_rx s)) as [r ch] eqn:Er. cbn [snd]. wp_step; wp_step. wp_step.
  set (s2 := s <| u_rx := r |>). assert (HC2 : connected s2) by (split; try done; by apply (rx_ok_part s)).
  apply wp_mono with (Q := fun _ s' => connected s' /\ m_cmd s' = m_cmd s /\ m_con s' = m_con s /\ tx_ok s' /\
    cmd_stream sent s' = cmd_stream sent s ++ for_cmd (option_out ch) /\ con_stream sent s' = con_stream sent s ++ for_con (option_out ch)) (E := never); [| | done].
  { destruct ch as [ch |]; [| wp_step; cbn; rewrite !app_nil_r; split_and!; try done; by apply (tx_ok_part s)].
    eapply wp_mono; [apply wp_and; [by apply (received_peers sent HP) | apply received_safe, HC2] | | by intros ? ? []].
    intros ? s3 ((D1 & D2 & D3 & D4 & D5 & _) & (_ & T3 & _)). split_and!; try done. by apply (tx_ok_part s). }
  intros ? s3 (D1 & D2 & D3 & T3 & D4 & D5). wp_step; wp_step. pose proof D1 as [E1 E2 E3 E4 E5]. ustep.
  - wp_step. eapply wp_mono; [by apply next_safe | | done]. intros c s4 (T4 & R4 & N4 & Hc4 & Hp4 & Hpe). destruct (Hpe sent HP) as (F1 & F2 & F3).
    assert (HC4 : connected s4).
    { split; rewrite ?F1, ?F2; try done; [by apply (rx_ok_part s3) |]. unfold rx_part in R4. congruence. }
    unfold rx_part in R4. injection R4 as G1 G2 G3 G4.
    repeat ustep; (split_and!; [first [exact HC4 | by apply connected_tx] | congruence | congruence | |]; unfold cmd_stream, con_stream in *; usimp; by rewrite ?F1, ?F2, ?F3, ?G2, ?G3).
  - destruct (tx_shift (u_cfg s3) (u_tx s3)) as [t o]. repeat ustep. split_and!; try done. by apply connected_tx.
Qed.

(** ** Characters from the design *)

Lemma for_cmd_app l1 l2 : for_cmd (l1 ++ l2) = for_cmd l1 ++ for_cmd l2.
Proof. unfold for_cmd. by rewrite List.filter_app, map_app. Qed.

Lemma for_con_app l1 l2 : for_con (l1 ++ l2) = for_con l1 ++ for_con l2.
Proof. unfold for_con. by rewrite List.filter_app, map_app. Qed.

Lemma ticks_peers l : forall s, connected s -> tx_ok s ->
  wp (ticks l) (fun _ s' => connected s' /\ tx_ok s' /\ u_cfg s' = u_cfg s /\ u_rx s' = (rx_run (u_cfg s) l (u_rx s)).1 /\
    cmd_stream sent s' = cmd_stream sent s ++ for_cmd (rx_run (u_cfg s) l (u_rx s)).2 /\
    con_stream sent s' = con_stream sent s ++ for_con (rx_run (u_cfg s) l (u_rx s)).2) never s.
Proof.
  induction l as [| i l IH]; intros s HC HT; cbn [ticks].
  { wp_step. cbn [rx_run snd]. change (for_cmd []) with (@nil Z). change (for_con []) with (@nil Z). rewrite !app_nil_r. by split_and!. }
  wp_step. eapply wp_mono; [apply wp_and; [apply tick_safe; [apply HC | done] | by apply tick_peers] | | by intros ? ? []].
  intros o s1 ((R1 & T1 & C1 & X1 & _) & (HC1 & _ & _ & D1 & D2)). wp_step. eapply wp_mono; [by apply IH | | done].
  intros os s2 (HC2 & T2 & C2 & X2 & D3 & D4). wp_step. rewrite C1, X1 in *. cbn [rx_run].
  destruct (rx_tick (u_cfg s) i (u_rx s)) as [r o1]. cbn [fst snd] in *. destruct (rx_run (u_cfg s) l r) as [r2 chs]. cbn [fst snd] in *.
  rewrite for_cmd_app, for_con_app, !app_assoc, <- D1, <- D2. by split_and!.
Qed.

(** Frames on the line, and then rest. *)
Lemma ticks_receive cs m s :
  connected s -> tx_ok s -> settings (u_cfg s) -> m_nbits (u_cfg s) = 8 -> 3 <= m_baud_counts (u_cfg s) ->
  between (u_cfg s) None (u_rx s) -> Forall (fun '(_, ch) => 0 <= ch < 256) cs -> m_baud_counts (u_cfg s) / 2 < Z.of_nat m ->
  wp (ticks (traffic (u_cfg s) (map (fun '(g, ch) => (g, frame (u_cfg s) ch)) cs) ++ replicate m 1)) (fun _ s' =>
    connected s' /\ tx_ok s' /\ u_cfg s' = u_cfg s /\ between (u_cfg s) None (u_rx s') /\
    cmd_stream sent s' = cmd_stream sent s ++ for_cmd (map snd cs) /\ con_stream sent s' = con_stream sent s ++ for_con (map snd cs)) never s.
Proof.
  intros HC HT Hc H8 Hb Hidle Hcs Hm. destruct (rx_run_frames (u_cfg s) cs m (u_rx s) Hc H8 Hb Hidle Hcs Hm) as (r2 & Hrun & Hp2).
  eapply wp_mono; [by apply ticks_peers | | done]. intros os s' (HC' & T' & C' & X' & D1 & D2). rewrite Hrun in X', D1, D2.
  cbn [fst snd] in *. rewrite X'. by split_and!.
Qed.
End Ticks.

(** What a transmitter sends, as frames with rests: a clock between two. *)
Lemma sends_traffic c vs m : exists cs m',
  flat_map (sends c) vs ++ replicate m 1 = traffic c (map (fun '(g, ch) => (g, frame c ch)) cs) ++ replicate m' 1 /\
  map snd cs = map (fun v => v .& 0xff) vs /\ Forall (fun '(_, ch) => 0 <= ch < 256) cs /\ (m <= m')%nat.
Proof.
  enough (Hg : forall vs g, exists cs m',
    replicate g 1 ++ flat_map (sends c) vs ++ replicate m 1 = traffic c (map (fun '(g, ch) => (g, frame c ch)) cs) ++ replicate m' 1 /\
    map snd cs = map (fun v => v .& 0xff) vs /\ Forall (fun '(_, ch) => 0 <= ch < 256) cs /\ (m <= m')%nat) by exact (Hg vs 0%nat).
  clear vs. induction vs as [| v vs IH]; intros g.
  { exists [], (g + m)%nat. cbn [flat_map map app traffic]. rewrite replicate_add. split_and!; try done; lia. }
  destruct (IH 1%nat) as (cs & m' & E & Hmap & Hr & Hm). exists ((g, v .& 0xff) :: cs), m'. cbn [map snd]. split_and!; [| by rewrite Hmap | | done].
  - cbn [flat_map]. unfold sends at 1. unfold traffic. cbn [flat_map]. fold (traffic c (map (fun '(g, ch) => (g, frame c ch)) cs)).
    rewrite <- !app_assoc. do 2 f_equal. exact E.
  - constructor; [rewrite land_255; zlia | done].
Qed.

(** ** The claims *)


(** Characters that the design sends, at any rate from three clocks per bit,
    with any parity and stop bits and any rest between them, reach the
    connections in order: those with the high bit the command port, the others
    the console. *)
Theorem uart_bridges {W} `{SocketsLaws W} sent (cs : list (nat * Z)) m (s : DBLUARTSIM W) :
  peers sent -> connected s -> tx_ok s -> settings (u_cfg s) -> m_nbits (u_cfg s) = 8 -> 3 <= m_baud_counts (u_cfg s) ->
  m_rx_state (u_rx s) = RXIDLE -> m_last_tx (u_rx s) = 1 ->
  Forall (fun '(_, ch) => 0 <= ch < 256) cs -> m_baud_counts (u_cfg s) / 2 < Z.of_nat m ->
  exists os s',
    ticks (traffic (u_cfg s) (map (fun '(g, ch) => (g, frame (u_cfg s) ch)) cs) ++ replicate m 1) s = Ret os s' /\
    cmd_stream sent s' = cmd_stream sent s ++ for_cmd (map snd cs) /\ con_stream sent s' = con_stream sent s ++ for_con (map snd cs).
Proof.
  intros HP HC HT Hc H8 Hb Hidle Hlast Hcs Hm.
  assert (Hbtw : between (u_cfg s) None (u_rx s)) by (destruct (u_rx s); cbn in Hidle, Hlast; subst; constructor).
  destruct (wp_ret_eq _ _ _ (ticks_receive sent HP cs m s HC HT Hc H8 Hb Hbtw Hcs Hm)) as (os & s' & E & _ & _ & _ & _ & D1 & D2).
  by exists os, s'.
Qed.

(** C12: What the transmitter sends, the receiver of another port with the same setup
    takes: the characters that wait in one port go out whole, whatever it
    receives meanwhile, and come out of the other's connections. *)
Theorem uart_loopback {W V} `{SocketsLaws W} `{SocketsLaws V} sent l m (s : DBLUARTSIM W) (r : DBLUARTSIM V) :
  rx_ok s -> tx_ok s -> m_tx_state (u_tx s) = TXIDLE ->
  peers sent -> connected r -> tx_ok r -> m_rx_state (u_rx r) = RXIDLE -> m_last_tx (u_rx r) = 1 ->
  u_cfg r = u_cfg s -> settings (u_cfg s) -> m_nbits (u_cfg s) = 8 -> 3 <= m_baud_counts (u_cfg s) ->
  length l = length (flat_map (sends (u_cfg s)) (pending s)) -> m_baud_counts (u_cfg s) / 2 < Z.of_nat m ->
  exists os s' os' r',
    ticks l s = Ret os s' /\ pending s' = [] /\ ticks (os ++ replicate m 1) r = Ret os' r' /\
    cmd_stream sent r' = cmd_stream sent r ++ for_cmd (map (fun v => v .& 0xff) (pending s)) /\
    con_stream sent r' = con_stream sent r ++ for_con (map (fun v => v .& 0xff) (pending s)).
Proof.
  intros HR HT Htx HP HC HTr Hidle Hlast Hcfg Hc H8 Hb Hlen Hm.
  destruct (wp_ret_eq _ _ _ (ticks_transmit (pending s) l s Hc H8 ltac:(lia) HR HT Htx eq_refl Hlen)) as (os & s' & E & -> & _ & _ & _ & _ & Hp).
  exists (flat_map (sends (u_cfg s)) (pending s)), s'.
  assert (Hbtw : between (u_cfg r) None (u_rx r)) by (destruct (u_rx r); cbn in Hidle, Hlast; subst; constructor).
  destruct (sends_traffic (u_cfg s) (pending s) m) as (cs & m' & Hcs & Hmap & Hrange & Hm'). rewrite Hcs, <- Hmap. rewrite <- Hcfg in *.
  destruct (wp_ret_eq _ _ _ (ticks_receive sent HP cs m' r HC HTr Hc H8 Hb Hbtw Hrange ltac:(lia))) as (os' & r' & E' & _ & _ & _ & _ & D1 & D2).
  by exists os', r'.
Qed.

(** ** A network that takes everything and is silent *)

Definition LOG : Type := list (Z * list Z).
#[export] Instance log_sockets : Sockets LOG := {|
  sk_poll := fun _ w => (0, [], w);
  sk_accept := fun _ w => (-1, w);
  sk_recv := fun _ n w => if 0 <? n then (1, [65], w) else (0, [], w);
  sk_send := fun fd bs w => (Z.of_nat (length bs), w ++ [(fd, bs)]);
  sk_close := fun _ w => w;
  sk_shutdown := fun _ w => w
|}.
Definition log_sent (fd : Z) (w : LOG) : list Z := flat_map (fun '(fd', bs) => if fd =? fd' then bs else []) w.

#[export] Instance log_laws : SocketsLaws LOG.
Proof.
  split; intros; cbn; try done; destruct (Z.ltb_spec 0 n); cbn; try done; try lia. repeat constructor; lia.
Qed.

Lemma log_peers : peers log_sent.
Proof.
  split.
  - intros fd n w Hn. cbn. by destruct (Z.ltb_spec 0 n); [| lia].
  - intros fd n w fd'. cbn. by destruct (0 <? n).
  - done.
  - done.
  - intros fd bs w fd'. unfold log_sent. change (sk_send fd bs w).2 with (w ++ [(fd, bs)]). rewrite flat_map_app. cbn [flat_map].
    destruct (fd' =? fd); by rewrite ?app_nil_r.
Qed.

(** A port at 25 clocks per bit, with connections 5 and 6, and characters that wait. *)
Definition uart0 (w : LOG) (chs : list Z) : DBLUARTSIM LOG :=
  mkUART 3 4 5 6 (replicate 256 0) (replicate 256 0) (chs ++ replicate (256 - length chs) 0) (replicate 256 0)
    (Z.of_nat (length chs)) 0 0 0 0 (setup_fields 25) (mkURX 0 RXIDLE 0 0 1 0) (mkUTX 0 TXIDLE 0 0) w.

Lemma uart0_rx w chs : rx_ok (uart0 w chs).
Proof. split; cbn; done. Qed.

Lemma uart0_tx w chs : (length chs <= 256)%nat -> tx_ok (uart0 w chs).
Proof. intros Hl. split; cbn -[replicate Nat.sub]; rewrite ?length_app, ?length_replicate; try done; lia. Qed.

Lemma uart0_connected w chs : connected (uart0 w chs).
Proof. split; cbn; done. Qed.


Lemma uart_bridges_witness :
  let cs := [(3%nat, 0xc1); (0%nat, 0x42); (1%nat, 0x8a)] in
  exists os s', ticks (traffic (setup_fields 25) (map (fun '(g, ch) => (g, frame (setup_fields 25) ch)) cs) ++ replicate 25 1) (uart0 [] []) = Ret os s' /\
    cmd_stream log_sent s' = [0x41; 0x0a] /\ con_stream log_sent s' = [0x42].
Proof.
  intros cs. destruct (uart_bridges log_sent cs 25 (uart0 [] [])) as (os & s' & E & D1 & D2).
  - apply log_peers.
  - apply uart0_connected.
  - apply uart0_tx. cbn. lia.
  - apply setup_settings.
  - reflexivity.
  - by vm_compute.
  - reflexivity.
  - reflexivity.
  - repeat (constructor; [cbn; lia |]); constructor.
  - by vm_compute.
  - exists os, s'. split; [exact E |]. rewrite D1, D2. split; reflexivity.
Defined.

Lemma uart_loopback_witness :
  let l := replicate (length (flat_map (sends (setup_fields 25)) [0xe8; 0x69; 0x8a])) 1 in
  exists os s' os' r', ticks l (uart0 [] [0xe8; 0x69; 0x8a]) = Ret os s' /\ ticks (os ++ replicate 13 1) (uart0 [] []) = Ret os' r' /\
    cmd_stream log_sent r' = [0x68; 0x0a] /\ con_stream log_sent r' = [0x69].
Proof.
  intros l. destruct (uart_loopback log_sent l 13 (uart0 [] [0xe8; 0x69; 0x8a]) (uart0 [] [])) as (os & s' & os' & r' & E1 & _ & E2 & D1 & D2).
  - apply uart0_rx.
  - apply uart0_tx. cbn. lia.
  - reflexivity.
  - apply log_peers.
  - apply uart0_connected.
  - apply uart0_tx. cbn. lia.
  - reflexivity.
  - reflexivity.
  - reflexivity.
  - apply setup_settings.
  - reflexivity.
  - by vm_compute.
  - vm_compute. reflexivity.
  - by vm_compute.
  - exists os, s', os', r'. rewrite D1, D2. repeat split; assumption.
Defined.

(** With seven bits the receiver takes a stop bit for the high bit of the
    character: a console character goes to the command port. *)
Example seven_bits_misrouted :
  let c := setup_fields (0x10000000 + 25) in
  (rx_run c (line 25 (0 :: bits 7 0x41 ++ [1]) ++ replicate 25 1) (mkURX 0 RXIDLE 0 0 1 0)).2 = [0xc1].
Proof. vm_compute. reflexivity. Qed.

(** With six bits the computed parity is that of the character and of a bit
    behind it: it is inverted; and a set [m_evenp] selects odd parity. *)
Example six_bits_parity :
  let c := setup_fields (0x24000000 + 25) in
  bits 8 (m_tx_data (tx_load c 0x01)) = 0 :: bits 6 0x01 ++ [0] /\ parity_bit c 0x01 = 1 /\
  parity_bit (setup_fields (0x05000000 + 25)) 0x01 = 0.
Proof. vm_compute. repeat split. Qed.
