(* ===== verification/UartSim.v ===== *)
(** The serial port of the helloworld simulation (src/rtl/helloworld/uartsim.cpp): the
    line of [Uart], which is the same text, with one connection behind it, or the
    terminal, and no buffers: a character is read when the line is free for it, and
    written when it is complete.

    System calls are the operations of [Sockets] and [Console]; what is only printed is
    left out. *)

From stdpp Require Import base tactics list numbers option.
From Stdlib Require Import ZArith Lia.
From S2P Require Import Prelude Uart.
Local Open Scope Z_scope.

(** [read] and [write] of descriptors that are not sockets. *)
Class Console (W : Type) := {
  fd_read : Z -> Z -> W -> Z * list Z * W;         (** descriptor, length: return value, bytes stored *)
  fd_write : Z -> list Z -> W -> Z * W
}.

Record UARTSIM (W : Type) : Type := mkUS {
  us_skt : Z; us_conrd : Z; us_conwr : Z;
  us_cfg : UCFG; us_rx : URX; us_tx : UTX;
  us_net : W
}.
Arguments mkUS {W}. Arguments us_skt {W}. Arguments us_conrd {W}. Arguments us_conwr {W}.
Arguments us_cfg {W}. Arguments us_rx {W}. Arguments us_tx {W}. Arguments us_net {W}.

#[export] Instance set_us_skt {W} : Setter (us_skt (W := W)) := fun v s => mkUS v (us_conrd s) (us_conwr s) (us_cfg s) (us_rx s) (us_tx s) (us_net s).
#[export] Instance set_us_conrd {W} : Setter (us_conrd (W := W)) := fun v s => mkUS (us_skt s) v (us_conwr s) (us_cfg s) (us_rx s) (us_tx s) (us_net s).
#[export] Instance set_us_conwr {W} : Setter (us_conwr (W := W)) := fun v s => mkUS (us_skt s) (us_conrd s) v (us_cfg s) (us_rx s) (us_tx s) (us_net s).
#[export] Instance set_us_cfg {W} : Setter (us_cfg (W := W)) := fun v s => mkUS (us_skt s) (us_conrd s) (us_conwr s) v (us_rx s) (us_tx s) (us_net s).
#[export] Instance set_us_rx {W} : Setter (us_rx (W := W)) := fun v s => mkUS (us_skt s) (us_conrd s) (us_conwr s) (us_cfg s) v (us_tx s) (us_net s).
#[export] Instance set_us_tx {W} : Setter (us_tx (W := W)) := fun v s => mkUS (us_skt s) (us_conrd s) (us_conwr s) (us_cfg s) (us_rx s) v (us_net s).
#[export] Instance set_us_net {W} : Setter (us_net (W := W)) := fun v s => mkUS (us_skt s) (us_conrd s) (us_conwr s) (us_cfg s) (us_rx s) (us_tx s) v.

Definition STDIN_FILENO : Z := 0.
Definition STDOUT_FILENO : Z := 1.

Section UartSim.
Context {W : Type} {HS : Sockets W} {HC : Console W}.
Abbreviation UM := (M (UARTSIM W)).

Definition call {A} (f : W -> A * W) : UM A := fun s => let '(a, w) := f (us_net s) in Ret a (s <| us_net := w |>).
Definition call_ (f : W -> W) : UM unit := fun s => Ret tt (s <| us_net := f (us_net s) |>).

Definition hang_up : UM unit := modify (fun s => s <| us_conrd := -1 |> <| us_conwr := -1 |>).

Definition us_setup (isetup : Z) : UM unit :=
  let* s := get in
  if negb (isetup =? m_setup (us_cfg s)) then modify (fun s => s <| us_cfg := setup_fields isetup |>) else ret tt.

(** The constructor, with the socket of [setup_listener], and what the memory held
    before in the members it does not set. *)
Definition UARTSIM_new (port skt : Z) (cfg0 : UCFG) (rx0 : URX) (tx0 : UTX) (w : W) : res (UARTSIM W) unit :=
  (us_setup 25 ;;
   modify (fun s => s
     <| us_rx := mkURX 0 RXIDLE (m_rx_busy rx0) (m_rx_changectr rx0) (m_last_tx rx0) (m_rx_data rx0) |>
     <| us_tx := mkUTX 0 TXIDLE (m_tx_busy tx0) (m_tx_data tx0) |>))
  (if port =? 0 then mkUS (-1) STDIN_FILENO STDOUT_FILENO cfg0 rx0 tx0 w
   else mkUS skt (-1) (-1) cfg0 rx0 tx0 w).

Definition us_kill : UM unit :=
  let* s := get in
  (if us_conrd s =? STDIN_FILENO then modify (fun s => s <| us_conwr := -1 |>) else ret tt) ;;
  let* s := get in
  (if us_conwr s =? STDOUT_FILENO then modify (fun s => s <| us_conwr := -1 |>) else ret tt) ;;
  let* s := get in
  (if 0 <=? us_conrd s then call_ (sk_close (us_conrd s)) else ret tt) ;;
  (if (0 <=? us_conwr s) && negb (us_conwr s =? us_conrd s) then call_ (sk_close (us_conwr s)) else ret tt) ;;
  (if 0 <=? us_skt s then call_ (sk_close (us_skt s)) else ret tt) ;;
  modify (fun s => s <| us_conrd := -1 |> <| us_conwr := -1 |> <| us_skt := -1 |>).

(** [pb.revents & POLLIN] for one descriptor. *)
Definition pollin (fd : Z) : UM bool :=
  let* r := call (sk_poll [fd]) in ret (default false (r.2 !! 0%nat)).

Definition check_for_new_connections : UM unit :=
  let* s := get in
  if (us_conrd s <? 0) && (us_conwr s <? 0) && (0 <=? us_skt s) then
    let* p := pollin (us_skt s) in
    if p then
      let* fd := call (sk_accept (us_skt s)) in
      modify (fun s => s <| us_conrd := fd |> <| us_conwr := fd |>)
    else ret tt
  else ret tt.

(** A character that the design sent. *)
Definition us_received (network : bool) (ch : Z) : UM unit :=
  let* s := get in
  if 0 <=? us_conwr s then
    if network then
      let* r := call (sk_send (us_conwr s) [ch]) in
      if negb (r =? 1) then call_ (sk_close (us_conwr s)) ;; hang_up else ret tt
    else
      let* r := call (fd_write (us_conwr s) [ch]) in
      if negb (r =? 1) then hang_up else ret tt
  else ret tt.

(** The line is free: a character for the design, if there is one. *)
Definition us_next (network : bool) : UM Z :=
  let* s := get in
  let* p := pollin (us_conrd s) in
  if p then
    let* r := call ((if network then sk_recv else fd_read) (us_conrd s) 1) in
    let '(nr, buf) := r in
    if nr =? 1 then
      modify (fun s => s <| us_tx := tx_load (us_cfg s) (default 0 (buf !! 0%nat)) |>) ;; ret 0
    else if network && (nr =? 0) then call_ (sk_close (us_conrd s)) ;; hang_up ;; ret 1
    else if nr <? 0 then
      (if network then call_ (sk_close (us_conrd s)) ;; hang_up else modify (fun s => s <| us_conrd := -1 |>)) ;;
      ret 1
    else ret 1
  else ret 1.

Definition rawtick (i_tx : Z) (network : bool) : UM Z :=
  (if network then check_for_new_connections else ret tt) ;;
  let* s := get in
  let '(r, ch) := rx_tick (us_cfg s) i_tx (us_rx s) in
  modify (fun s => s <| us_rx := r |>) ;;
  (match ch with Some ch => us_received network ch | None => ret tt end) ;;
  let* s := get in
  if (m_tx_state (us_tx s) =? TXIDLE) && (network || (0 <=? us_conrd s)) then us_next network
  else
    let '(t, o_rx) := tx_shift (us_cfg s) (us_tx s) in
    modify (fun s => s <| us_tx := t |>) ;;
    ret o_rx.

(** [operator()], without and with a setup register. *)
Definition us_tick (i_tx : Z) : UM Z := let* s := get in rawtick i_tx (0 <=? us_skt s).
Definition us_tick_setup (i_tx isetup : Z) : UM Z := us_setup isetup ;; us_tick i_tx.

(** The clocks of a line, with what the port drives. *)
Fixpoint us_ticks (l : list Z) : UM (list Z) :=
  match l with [] => ret [] | i :: l' => let* o := us_tick i in let* os := us_ticks l' in ret (o :: os) end.
End UartSim.
