(* ===== verification/UartSimProps.v ===== *)
(** The serial port of helloworld: what one port sends another one receives, every bit
    of it, whether over the network or the terminal; what happens to the line when the
    terminal cannot be read. *)

From stdpp Require Import base tactics list numbers option.
From Stdlib Require Import ZArith Lia.
From S2P Require Import Prelude Uart UartRx UartTx UartProps UartClaims UartSim.
Local Open Scope Z_scope.

(** ** A port that is connected *)

(** A connection that works: [waiting] can be read from it, [said] was written to it. *)
Record peer {W} {HS : Sockets W} {HC : Console W} (net : bool) (rd wr : Z) (waiting said : W -> list Z) : Prop := {
  pr_poll : forall w, let '(_, rev, w') := sk_poll [rd] w in
    default false (rev !! 0%nat) = negb (bool_decide (waiting w = [])) /\ waiting w' = waiting w /\ said w' = said w;
  pr_read : forall w b rest, waiting w = b :: rest ->
    exists w', (if net then sk_recv else fd_read) rd 1 w = (1, [b], w') /\ waiting w' = rest /\ said w' = said w;
  pr_write : forall w b, exists w', (if net then sk_send else fd_write) wr [b] w = (1, w') /\ said w' = said w ++ [b] /\ waiting w' = waiting w
}.

Section Port.
Context {W : Type} {HS : Sockets W} {HC : Console W} (net : bool) (rd wr : Z) (waiting said : W -> list Z).
Hypothesis HP : peer net rd wr waiting said.
Implicit Types s : UARTSIM W.

Record attached s : Prop := {
  at_net : (0 <=? us_skt s) = net;
  at_rd : us_conrd s = rd;
  at_wr : us_conwr s = wr;
  at_open : 0 <= rd /\ 0 <= wr
}.

(** One clock: the receiver's part, and the transmitter's. *)
Definition tx_part_of s (o : Z) s' : Prop :=
  if m_tx_state (us_tx s) =? TXIDLE then
    match waiting (us_net s) with
    | [] => us_tx s' = us_tx s /\ o = 1 /\ waiting (us_net s') = []
    | v :: rest => us_tx s' = tx_load (us_cfg s) v /\ o = 0 /\ waiting (us_net s') = rest
    end
  else (us_tx s', o) = tx_shift (us_cfg s) (us_tx s) /\ waiting (us_net s') = waiting (us_net s).

Definition clock i s (o : Z) s' : Prop :=
  attached s' /\ us_cfg s' = us_cfg s /\ us_rx s' = (rx_tick (us_cfg s) i (us_rx s)).1 /\
  said (us_net s') = said (us_net s) ++ option_out (rx_tick (us_cfg s) i (us_rx s)).2 /\ tx_part_of s o s'.

Lemma received_said ch s : attached s -> exists w, us_received net ch s = Ret tt (s <| us_net := w |>) /\
  said w = said (us_net s) ++ [ch] /\ waiting w = waiting (us_net s).
Proof.
  intros [Hn Hr Hw [_ Ho]]. destruct (pr_write _ _ _ _ _ HP (us_net s) ch) as (w & E & Hs & Hwt). exists w. split; [| done].
  unfold us_received, bind, get, call. rewrite Hw, (proj2 (Z.leb_le _ _) Ho). destruct net; rewrite E; done.
Qed.

Lemma next_read s : attached s -> m_tx_state (us_tx s) = TXIDLE ->
  exists o s', us_next net s = Ret o s' /\ attached s' /\ us_cfg s' = us_cfg s /\ us_rx s' = us_rx s /\
    said (us_net s') = said (us_net s) /\ tx_part_of s o s'.
Proof.
  intros Hat Hid. pose proof Hat as [Hn Hr Hw Ho]. unfold us_next, tx_part_of. rewrite Hid. cbn [Z.eqb TXIDLE].
  rewrite (bind_eq get _ s s s) by done. unfold pollin, call. unfold bind at 1 2. rewrite Hr.
  pose proof (pr_poll _ _ _ _ _ HP (us_net s)) as Hp. destruct (sk_poll [rd] (us_net s)) as [[k rev] w1]. destruct Hp as (E & Ew & Es).
  cbn [snd ret]. rewrite E. destruct (waiting (us_net s)) as [| v rest] eqn:Ewt.
  - rewrite bool_decide_true by done. cbn [negb]. eexists _, _. split; [reflexivity |].
    split; [by split |]. cbn. by rewrite Ew, Es.
  - rewrite bool_decide_false by done. cbn [negb]. destruct (pr_read _ _ _ _ _ HP w1 v rest Ew) as (w2 & E2 & Ew2 & Es2).
    exists 0, (s <| us_net := w2 |> <| us_tx := tx_load (us_cfg s) v |>). split; [unfold bind, ret; cbn; destruct net; rewrite E2; done |].
    split; [by split |]. cbn. by rewrite Es2, Es.
Qed.

Lemma us_tick_clock i s : attached s -> exists o s', us_tick i s = Ret o s' /\ clock i s o s'.
Proof.
  intros Hat. pose proof Hat as [Hn Hr Hw [Ho Ho']]. unfold us_tick. rewrite (bind_eq get _ s s s) by done. rewrite Hn. unfold rawtick, clock.
  rewrite (bind_eq _ _ s tt s).
  2: { destruct net; [| done]. unfold check_for_new_connections. rewrite (bind_eq get _ s s s) by done. rewrite Hr. by rewrite (proj2 (Z.ltb_ge _ _) Ho). }
  rewrite (bind_eq get _ s s s) by done. destruct (rx_tick (us_cfg s) i (us_rx s)) as [r ch]. cbn [fst snd].
  rewrite (bind_eq _ _ s tt (s <| us_rx := r |>)) by done.
  assert (H1 : exists w, (match ch with Some ch => us_received net ch | None => ret tt end) (s <| us_rx := r |>) = Ret tt (s <| us_rx := r |> <| us_net := w |>) /\
    said w = said (us_net s) ++ option_out ch /\ waiting w = waiting (us_net s)).
  { destruct ch as [ch |]; [exact (received_said ch (s <| us_rx := r |>) ltac:(by split)) |]. exists (us_net s). cbn. rewrite app_nil_r. by destruct s. }
  destruct H1 as (w & E1 & Hs & Hwt). rewrite (bind_eq _ _ _ _ _ E1). set (s1 := _ <| us_net := w |>).
  rewrite (bind_eq get _ s1 s1 s1) by done. change (us_conrd s1) with (us_conrd s). change (us_tx s1) with (us_tx s). change (us_cfg s1) with (us_cfg s).
  rewrite Hr, (proj2 (Z.leb_le 0 _) Ho), orb_true_r, andb_true_r. assert (Hat1 : attached s1) by (by split).
  destruct (m_tx_state (us_tx s) =? TXIDLE) eqn:Eid.
  - destruct (next_read s1 Hat1) as (o & s2 & E2 & A2 & C2 & X2 & S2 & T2); [by apply Z.eqb_eq |]. exists o, s2. split; [done |].
    split; [done |]. split; [by rewrite C2 |]. split; [by rewrite X2 |]. split; [by rewrite S2 |].
    unfold tx_part_of in *. change (us_tx s1) with (us_tx s) in T2. change (us_net s1) with w in T2. rewrite Hwt in T2. exact T2.
  - destruct (tx_shift (us_cfg s) (us_tx s)) as [t o] eqn:Et. eexists _, _. split; [reflexivity |].
    split; [by split |]. split; [done |]. split; [done |]. split; [exact Hs |]. unfold tx_part_of. rewrite Eid, Et. by split.
Qed.

(** ** Many clocks *)

Lemma us_ticks_app l1 l2 s os1 s1 os2 s2 : us_ticks l1 s = Ret os1 s1 -> us_ticks l2 s1 = Ret os2 s2 -> us_ticks (l1 ++ l2) s = Ret (os1 ++ os2) s2.
Proof.
  revert s os1. induction l1 as [| i l1 IH]; intros s os1 H1 H2; cbn [us_ticks app] in *; [by injection H1 as <- <- |].
  unfold bind in *. destruct (us_tick i s) as [o s' |]; [| done]. destruct (us_ticks l1 s') as [os s'' |] eqn:E; [| done].
  injection H1 as <- <-. by rewrite (IH s' os E H2).
Qed.

Lemma us_ticks_cons i l s o s1 os s2 : us_tick i s = Ret o s1 -> us_ticks l s1 = Ret os s2 -> us_ticks (i :: l) s = Ret (o :: os) s2.
Proof. intros H1 H2. cbn [us_ticks]. by rewrite (bind_eq _ _ _ _ _ H1), (bind_eq _ _ _ _ _ H2). Qed.

(** What the line brings is written. *)
Lemma us_ticks_rx l : forall s, attached s -> exists os s', us_ticks l s = Ret os s' /\ attached s' /\ us_cfg s' = us_cfg s /\
  us_rx s' = (rx_run (us_cfg s) l (us_rx s)).1 /\ said (us_net s') = said (us_net s) ++ (rx_run (us_cfg s) l (us_rx s)).2.
Proof.
  induction l as [| i l IH]; intros s Hat; [exists [], s; cbn; by rewrite app_nil_r |].
  destruct (us_tick_clock i s Hat) as (o & s1 & E1 & A1 & C1 & X1 & S1 & _). destruct (IH s1 A1) as (os & s2 & E2 & A2 & C2 & X2 & S2).
  exists (o :: os), s2. split; [by eapply us_ticks_cons |]. rewrite X2, S2, C2, S1, X1, C1. cbn [rx_run].
  destruct (rx_tick (us_cfg s) i (us_rx s)) as [r ch]. cbn [fst snd]. destruct (rx_run (us_cfg s) l r) as [r2 chs]. cbn [fst snd]. by rewrite app_assoc.
Qed.

(** A character is under way. *)
Lemma us_ticks_busy l os : forall s t, tx_runs (us_cfg s) (us_tx s) os t -> length l = length os -> attached s ->
  exists s', us_ticks l s = Ret os s' /\ attached s' /\ us_cfg s' = us_cfg s /\ us_tx s' = t /\ waiting (us_net s') = waiting (us_net s).
Proof.
  revert os. induction l as [| i l IH]; intros os s t Hruns Hlen Hat; (destruct os as [| o os]; [| try done]); [| done |].
  { inversion Hruns. subst. by exists s. }
  inversion Hruns as [| ? ? t1 ? ? Hst Hsh Hrun]. subst.
  destruct (us_tick_clock i s Hat) as (o1 & s1 & E1 & A1 & C1 & _ & _ & T1). unfold tx_part_of in T1.
  rewrite (proj2 (Z.eqb_neq _ _) Hst), Hsh in T1. destruct T1 as [T1 W1]. injection T1 as T1 ->.
  destruct (IH os s1 t) as (s2 & E2 & A2 & C2 & T2 & W2); [by rewrite C1, T1 | by injection Hlen | done |].
  exists s2. split; [by eapply us_ticks_cons |]. by rewrite C2, W2.
Qed.

(** What waits goes out, a character after the other. *)
Lemma us_transmit vs : forall l s, settings (us_cfg s) -> m_nbits (us_cfg s) = 8 -> 1 <= m_baud_counts (us_cfg s) ->
  attached s -> m_tx_state (us_tx s) = TXIDLE -> waiting (us_net s) = vs -> Forall (fun v => 0 <= v < 256) vs ->
  length l = length (flat_map (sends (us_cfg s)) vs) ->
  exists s', us_ticks l s = Ret (flat_map (sends (us_cfg s)) vs) s' /\ attached s' /\ us_cfg s' = us_cfg s /\
    m_tx_state (us_tx s') = TXIDLE /\ waiting (us_net s') = [].
Proof.
  induction vs as [| v vs IH]; intros l s Hc H8 Hb Hat Hid Hw Hr Hlen; [destruct l; [by exists s | done] |].
  apply Forall_cons_1 in Hr as [Hv Hr]. set (c := us_cfg s) in *. cbn [flat_map] in Hlen |- *. rewrite length_app in Hlen.
  assert (Hff : v .& 255 = v) by (rewrite land_255; by apply Z.mod_small).
  destruct (tx_char c (v .& 255) Hc) as (t & os & Hrun & Ht & Hos); [by unfold six_parity; rewrite H8 | by rewrite Hff, H8 | done |].
  change (0 :: os = sends c v) in Hos. rewrite <- Hos in *. rewrite Hff in Hrun. cbn [length] in Hlen.
  destruct l as [| i l]; [done |]. injection Hlen as Hlen. destruct (split_list (length os) l ltac:(lia)) as (l1 & l2 & -> & Hl1 & Hl2).
  destruct (us_tick_clock i s Hat) as (o & s1 & E1 & A1 & C1 & _ & _ & T1). unfold tx_part_of in T1. rewrite Hid, Hw in T1. destruct T1 as (T1 & -> & W1).
  destruct (us_ticks_busy l1 os s1 t) as (s2 & E2 & A2 & C2 & T2 & W2); [by rewrite C1, T1 | done | done |].
  assert (C : us_cfg s2 = c) by (by rewrite C2, C1). destruct (IH l2 s2) as (s3 & E3 & A3 & C3 & T3 & W3); rewrite ?C, ?T2, ?W2; try done; [lia |].
  rewrite C in E3, C3. exists s3. split; [| done]. cbn [app]. eapply us_ticks_cons; [exact E1 |]. by eapply us_ticks_app.
Qed.
End Port.

(** ** From one port to another *)

(** C14: What can be read at one port goes out on its line, and another port with the same
    setup writes it, each character whole, while both also do what their other
    direction asks for. *)
Theorem uartsim_loopback {W V} {HS : Sockets W} {HC : Console W} {HS' : Sockets V} {HC' : Console V}
    net rd wr waiting said net' rd' wr' waiting' said' l m (s : UARTSIM W) (r : UARTSIM V) :
  peer net rd wr waiting said -> peer net' rd' wr' waiting' said' ->
  attached net rd wr s -> m_tx_state (us_tx s) = TXIDLE -> Forall (fun v => 0 <= v < 256) (waiting (us_net s)) ->
  attached net' rd' wr' r -> m_rx_state (us_rx r) = RXIDLE -> m_last_tx (us_rx r) = 1 ->
  us_cfg r = us_cfg s -> settings (us_cfg s) -> m_nbits (us_cfg s) = 8 -> 3 <= m_baud_counts (us_cfg s) ->
  length l = length (flat_map (sends (us_cfg s)) (waiting (us_net s))) -> m_baud_counts (us_cfg s) / 2 < Z.of_nat m ->
  exists os s' os' r', us_ticks l s = Ret os s' /\ waiting (us_net s') = [] /\
    us_ticks (os ++ replicate m 1) r = Ret os' r' /\ said' (us_net r') = said' (us_net r) ++ waiting (us_net s).
Proof.
  intros HP HP' Hs Htx Hv Hr Hidle Hlast Hcfg Hc H8 Hb Hlen Hm.
  destruct (us_transmit net rd wr waiting said HP _ l s Hc H8 ltac:(lia) Hs Htx eq_refl Hv Hlen) as (s' & E & _ & _ & _ & Hw).
  eexists _, s'. destruct (sends_traffic (us_cfg s) (waiting (us_net s)) m) as (cs & m' & Hcs & Hmap & Hrange & Hm').
  assert (Hbtw : between (us_cfg r) None (us_rx r)) by (destruct (us_rx r); cbn in Hidle, Hlast; subst; constructor).
  destruct (rx_run_frames (us_cfg s) cs m' (us_rx r) Hc H8 Hb ltac:(by rewrite <- Hcfg) Hrange ltac:(lia)) as (r2 & Hrun & _).
  destruct (us_ticks_rx net' rd' wr' waiting' said' HP' (flat_map (sends (us_cfg s)) (waiting (us_net s)) ++ replicate m 1) r Hr) as (os' & r' & E' & _ & _ & _ & Hsaid).
  exists os', r'. split; [exact E |]. split; [done |]. split; [exact E' |]. rewrite Hsaid, Hcfg, Hcs, Hrun. cbn [snd]. rewrite Hmap. f_equal.
  clear - Hv. induction Hv as [| v vs Hv _ IH]; [done |]. cbn [map]. rewrite IH, land_255. f_equal. by apply Z.mod_small.
Qed.

(** ** A terminal that cannot be read *)

Section Lost.
Context {W : Type} {HS : Sockets W} {HC : Console W}.
Implicit Types s : UARTSIM W.

(** The port reads the terminal no more, and no character is under way. *)
Record lost (d : Z) s : Prop := {
  lo_skt : us_skt s < 0;
  lo_rd : us_conrd s < 0;
  lo_tx : exists bc, us_tx s = mkUTX bc TXIDLE 0 d /\ bc <= 0
}.

Lemma lost_tick i d s : lost d s -> exists s', us_tick i s = Ret ((d .>> 1) .& 1) s' /\ lost (d .>> 1) s'.
Proof.
  intros [Hk Hr (bc & Ht & Hbc)]. unfold us_tick. rewrite (bind_eq get _ s s s) by done. rewrite (proj2 (Z.leb_gt _ _) Hk). unfold rawtick.
  rewrite (bind_eq (ret tt) _ s tt s) by done. rewrite (bind_eq get _ s s s) by done. destruct (rx_tick (us_cfg s) i (us_rx s)) as [r ch].
  rewrite (bind_eq _ _ s tt (s <| us_rx := r |>)) by done.
  assert (H1 : exists s1, (match ch with Some ch => us_received false ch | None => ret tt end) (s <| us_rx := r |>) = Ret tt s1 /\
    us_skt s1 = us_skt s /\ us_conrd s1 < 0 /\ us_tx s1 = us_tx s).
  { destruct ch as [ch |]; [| by eexists]. unfold us_received, bind, get, call. destruct (0 <=? _); [| by eexists].
    destruct (fd_write _ _ _) as [n w]. destruct (negb _); by eexists. }
  destruct H1 as (s1 & E1 & K1 & R1 & T1). rewrite (bind_eq _ _ _ _ _ E1), (bind_eq get _ s1 s1 s1) by done.
  rewrite (proj2 (Z.leb_gt _ _) R1), T1, Ht. cbn [m_tx_state TXIDLE Z.eqb orb andb]. unfold tx_shift. cbn [m_tx_baudcounter m_tx_data m_tx_busy].
  rewrite (proj2 (Z.leb_le _ _) Hbc). change (0 .>> 1) with 0. cbn [Z.eqb]. eexists. split; [reflexivity |]. split; [exact (eq_ind_r (fun z => z < 0) Hk K1) | exact R1 |].
  exists bc. by split.
Qed.

(** When the terminal cannot be read any more, the port does not rest: it shifts what is
    left of the last character, and after at most 31 clocks the line is low, and stays
    so, which the design takes for a break. *)
Theorem uartsim_line_falls d l s : lost d s -> 0 <= d < 2 ^ 32 ->
  exists os s', us_ticks l s = Ret os s' /\ length os = length l /\ forall k o, (31 <= k)%nat -> os !! k = Some o -> o = 0.
Proof.
  intros Hl Hd.
  assert (H : exists os s', us_ticks l s = Ret os s' /\ length os = length l /\ forall k o, os !! k = Some o -> o = (d .>> (Z.of_nat k + 1)) .& 1).
  { clear Hd. revert d s Hl. induction l as [| i l IH]; intros d s Hl; [by exists [], s |].
    destruct (lost_tick i d s Hl) as (s1 & E1 & Hl1). destruct (IH _ _ Hl1) as (os & s2 & E2 & Hn & Ho). exists (((d .>> 1) .& 1) :: os), s2.
    split; [by eapply us_ticks_cons |]. split; [cbn; lia |]. intros [| k] o Hk; [by injection Hk as <- |]. rewrite (Ho k o Hk), Z.shiftr_shiftr by lia.
    do 2 f_equal. lia. }
  destruct H as (os & s' & E & Hn & Ho). exists os, s'. split; [done |]. split; [done |]. intros k o Hk Hok. rewrite (Ho k o Hok), shiftr_div by lia.
  rewrite Z.div_small; [done |]. split; [lia |]. eapply Z.lt_le_trans; [apply Hd |]. apply Z.pow_le_mono_r; lia.
Qed.
End Lost.

(** ** A terminal *)

(** What can be read, and what was written. *)
Record TERMINAL : Type := mkTERM { t_in : list Z; t_out : list Z; t_closed : list Z }.

#[export] Instance terminal_sockets : Sockets TERMINAL := {|
  sk_poll fds t := (0, (fun _ => negb (bool_decide (t_in t = []))) <$> fds, t);
  sk_accept _ t := (-1, t); sk_recv _ _ t := (-1, [], t); sk_send _ _ t := (-1, t);
  sk_close fd t := mkTERM (t_in t) (t_out t) (t_closed t ++ [fd]); sk_shutdown _ t := t |}.
#[export] Instance terminal_console : Console TERMINAL := {|
  fd_read _ _ t := match t_in t with [] => (0, [], t) | b :: rest => (1, [b], mkTERM rest (t_out t) (t_closed t)) end;
  fd_write _ bs t := (Z.of_nat (length bs), mkTERM (t_in t) (t_out t ++ bs) (t_closed t)) |}.

Lemma terminal_peer : peer false STDIN_FILENO STDOUT_FILENO t_in t_out.
Proof.
  split.
  - intros w. by split.
  - intros w b rest Hw. eexists. cbn. by rewrite Hw.
  - intros w b. eexists. by split.
Qed.

(** A port on the terminal, with three clocks per bit, even parity and two stop bits. *)
Definition term_port (chs : list Z) : UARTSIM TERMINAL :=
  mkUS (-1) 0 1 (setup_fields 0x0c000003) (mkURX 0 RXIDLE 0 0 1 0) (mkUTX 0 TXIDLE 0 0) (mkTERM chs [] []).

Lemma uartsim_loopback_witness :
  let s := term_port [0x80; 65; 255] in
  exists os s' os' r', us_ticks (replicate 111 1) s = Ret os s' /\ t_in (us_net s') = [] /\
    us_ticks (os ++ replicate 2 1) (term_port [66]) = Ret os' r' /\ t_out (us_net r') = [0x80; 65; 255].
Proof.
  intros s. apply (uartsim_loopback false 0 1 t_in t_out false 0 1 t_in t_out (replicate 111 1) 2 s (term_port [66])
    terminal_peer terminal_peer ltac:(by split) eq_refl); try (by split); try reflexivity; try done.
  repeat constructor; lia.
Defined.

(** Killing a port on the terminal closes the terminal's input, which the check before
    it is meant to prevent. *)
Example kill_closes_stdin : match us_kill (term_port []) with Ret _ s => t_closed (us_net s) = [STDIN_FILENO] | _ => False end.
Proof. reflexivity. Qed.

Lemma uartsim_line_falls_witness :
  exists os s', us_ticks (replicate 40 1) (mkUS (-1) (-1) 1 (setup_fields 25) (mkURX 0 RXIDLE 0 0 1 0) (mkUTX 0 TXIDLE 0 0xffffffff) (mkTERM [] [] [])) = Ret os s' /\
    length os = 40%nat /\ forall k o, (31 <= k)%nat -> os !! k = Some o -> o = 0.
Proof. apply (uartsim_line_falls 0xffffffff (replicate 40 1)); [split; [done | done | by exists 0] | lia]. Defined.
