(* ===== verification/Zopcodes.v ===== *)
(** The disassembler of the host (src/sw/host/zopcodes.cpp), which the debugger
    (zipdbg.cpp) shows the program with.

    Text is a [string]; an index outside of a table of names is [None].  A
    [sprintf] that is given its own buffer is taken to read it before it writes. *)

From stdpp Require Import base tactics list numbers option strings.
From Stdlib Require Import Ascii ZArith Lia.
From S2P Require Import Prelude.
Local Open Scope Z_scope.

(** ** The fields of an instruction (zopcodes.h) *)

Definition ZIP_OPUNUSED : Z := -1.
Definition ZIP_BITFIELD (ln mn : Z) : Z := ((ln .& 0x0ff) .<< 8) + (mn .& 0x0ff).
Definition ZIP_REGFIELD (mn : Z) : Z := 0x00000400 + (mn .& 0x0ff).
Definition ZIP_URGFIELD (mn : Z) : Z := 0x0100400 + (mn .& 0x0ff).
Definition ZIP_IMMFIELD (ln mn : Z) : Z := 0x40000000 + (((ln .& 0x0ff) .<< 8) + (mn .& 0x0ff)).
Definition ZIP_SP : Z := 0xd0000.

Record ZOPCODE : Type := mkZOPCODE {
  s_opstr : string; s_mask : Z; s_val : Z;
  s_result : Z; s_ra : Z; s_rb : Z; s_i : Z; s_cf : Z
}.

Definition zip_regstr : list string :=
  ["R0"; "R1"; "R2"; "R3"] ++
  ["R4"; "R5"; "R6"; "R7"] ++
  ["R8"; "R9"; "R10"; "R11"] ++
  ["R12"; "SP"; "CC"; "PC"] ++
  ["uR0"; "uR1"; "uR2"; "uR3"] ++
  ["uR4"; "uR5"; "uR6"; "uR7"] ++
  ["uR8"; "uR9"; "uR10"; "uR11"] ++
  ["uR12"; "uSP"; "uCC"; "uPC"] ++
  ["sR0"; "sR1"; "sR2"; "sR3"] ++
  ["sR4"; "sR5"; "sR6"; "sR7"] ++
  ["sR8"; "sR9"; "sR10"; "sR11"] ++
  ["sR12"; "sSP"; "sCC"; "sPC"; "rILL"].

Definition zip_ccstr : list string := [""; ".Z"; ".LT"; ".C"; ".V"; ".NZ"; ".GE"; ".NC"].

Definition zip_oplist : list ZOPCODE := [
  mkZOPCODE "BUSY" 0xffc7ffff 0x7883ffff ZIP_OPUNUSED ZIP_OPUNUSED ZIP_OPUNUSED ZIP_OPUNUSED (ZIP_BITFIELD 3 19);
  mkZOPCODE "BZ" 0xfffc0000 0x78880000 ZIP_OPUNUSED ZIP_OPUNUSED ZIP_OPUNUSED (ZIP_IMMFIELD 18 0) ZIP_OPUNUSED;
  mkZOPCODE "BLT" 0xfffc0000 0x78900000 ZIP_OPUNUSED ZIP_OPUNUSED ZIP_OPUNUSED (ZIP_IMMFIELD 18 0) ZIP_OPUNUSED;
  mkZOPCODE "BC" 0xfffc0000 0x78980000 ZIP_OPUNUSED ZIP_OPUNUSED ZIP_OPUNUSED (ZIP_IMMFIELD 18 0) ZIP_OPUNUSED;
  mkZOPCODE "BV" 0xfffc0000 0x78a00000 ZIP_OPUNUSED ZIP_OPUNUSED ZIP_OPUNUSED (ZIP_IMMFIELD 18 0) ZIP_OPUNUSED;
  mkZOPCODE "BNZ" 0xfffc0000 0x78a80000 ZIP_OPUNUSED ZIP_OPUNUSED ZIP_OPUNUSED (ZIP_IMMFIELD 18 0) ZIP_OPUNUSED;
  mkZOPCODE "BGE" 0xfffc0000 0x78b00000 ZIP_OPUNUSED ZIP_OPUNUSED ZIP_OPUNUSED (ZIP_IMMFIELD 18 0) ZIP_OPUNUSED;
  mkZOPCODE "BNC" 0xfffc0000 0x78b80000 ZIP_OPUNUSED ZIP_OPUNUSED ZIP_OPUNUSED (ZIP_IMMFIELD 18 0) ZIP_OPUNUSED;
  mkZOPCODE "BRA" 0xffc40000 0x78800000 ZIP_OPUNUSED ZIP_OPUNUSED ZIP_OPUNUSED (ZIP_IMMFIELD 18 0) (ZIP_BITFIELD 3 19);
  mkZOPCODE "TRAP" 0xfffffff0 0x76000000 ZIP_OPUNUSED ZIP_OPUNUSED ZIP_OPUNUSED ZIP_OPUNUSED ZIP_OPUNUSED;
  mkZOPCODE "TRAP" 0xff800000 0x76000000 ZIP_OPUNUSED ZIP_OPUNUSED ZIP_OPUNUSED ZIP_OPUNUSED ZIP_OPUNUSED;
  mkZOPCODE "TRAP" 0xffc7ffff 0x72000000 ZIP_OPUNUSED ZIP_OPUNUSED ZIP_OPUNUSED (ZIP_IMMFIELD 18 0) (ZIP_BITFIELD 3 19);
  mkZOPCODE "TRAP" 0xffc4ffff 0x72400000 ZIP_OPUNUSED ZIP_OPUNUSED ZIP_OPUNUSED ZIP_OPUNUSED (ZIP_BITFIELD 3 19);
  mkZOPCODE "TRAP" 0xffc40000 0x72400000 ZIP_OPUNUSED ZIP_OPUNUSED ZIP_OPUNUSED (ZIP_IMMFIELD 18 0) (ZIP_BITFIELD 3 19);
  mkZOPCODE "CLR" 0x87ffffff 0x06000000 (ZIP_REGFIELD 27) ZIP_OPUNUSED ZIP_OPUNUSED ZIP_OPUNUSED ZIP_OPUNUSED;
  mkZOPCODE "CLR" 0x87c7ffff 0x02000000 (ZIP_REGFIELD 27) (ZIP_REGFIELD 27) ZIP_OPUNUSED (ZIP_IMMFIELD 18 0) (ZIP_BITFIELD 3 19);
  mkZOPCODE "HALT" 0xffc7ffff 0x70c00010 ZIP_OPUNUSED ZIP_OPUNUSED ZIP_OPUNUSED ZIP_OPUNUSED (ZIP_BITFIELD 3 19);
  mkZOPCODE "WAIT" 0xffc7ffff 0x70c00030 ZIP_OPUNUSED ZIP_OPUNUSED ZIP_OPUNUSED ZIP_OPUNUSED (ZIP_BITFIELD 3 19);
  mkZOPCODE "RTU" 0xffc7ffff 0x70c00020 ZIP_OPUNUSED ZIP_OPUNUSED ZIP_OPUNUSED ZIP_OPUNUSED (ZIP_BITFIELD 3 19);
  mkZOPCODE "RTN" 0xffc7ffff 0x7b400000 ZIP_OPUNUSED ZIP_OPUNUSED ZIP_OPUNUSED ZIP_OPUNUSED (ZIP_BITFIELD 3 19);
  mkZOPCODE "JMP" 0xffc40000 0x7b400000 ZIP_OPUNUSED ZIP_OPUNUSED (ZIP_REGFIELD 14) (ZIP_IMMFIELD 13 0) (ZIP_BITFIELD 3 19);
  mkZOPCODE "JMPI" 0xff800000 0x7e000000 (ZIP_REGFIELD 27) ZIP_OPUNUSED ZIP_OPUNUSED (ZIP_IMMFIELD 23 0) ZIP_OPUNUSED;
  mkZOPCODE "LJMP" 0xffffffff 0x7c87c000 ZIP_OPUNUSED ZIP_OPUNUSED ZIP_OPUNUSED ZIP_OPUNUSED ZIP_OPUNUSED;
  mkZOPCODE "SUB" 0x87c40000 0x00000000 (ZIP_REGFIELD 27) (ZIP_REGFIELD 27) ZIP_OPUNUSED (ZIP_IMMFIELD 18 0) (ZIP_BITFIELD 3 19);
  mkZOPCODE "SUB" 0x87c40000 0x00040000 (ZIP_REGFIELD 27) (ZIP_REGFIELD 27) (ZIP_REGFIELD 14) (ZIP_IMMFIELD 14 0) (ZIP_BITFIELD 3 19);
  mkZOPCODE "AND" 0x87c40000 0x00400000 (ZIP_REGFIELD 27) (ZIP_REGFIELD 27) ZIP_OPUNUSED (ZIP_IMMFIELD 18 0) (ZIP_BITFIELD 3 19);
  mkZOPCODE "AND" 0x87c40000 0x00440000 (ZIP_REGFIELD 27) (ZIP_REGFIELD 27) (ZIP_REGFIELD 14) (ZIP_IMMFIELD 14 0) (ZIP_BITFIELD 3 19);
  mkZOPCODE "ADD" 0x87c40000 0x00800000 (ZIP_REGFIELD 27) (ZIP_REGFIELD 27) ZIP_OPUNUSED (ZIP_IMMFIELD 18 0) (ZIP_BITFIELD 3 19);
  mkZOPCODE "ADD" 0x87c40000 0x00840000 (ZIP_REGFIELD 27) (ZIP_REGFIELD 27) (ZIP_REGFIELD 14) (ZIP_IMMFIELD 14 0) (ZIP_BITFIELD 3 19);
  mkZOPCODE "OR" 0x87c40000 0x00c00000 (ZIP_REGFIELD 27) (ZIP_REGFIELD 27) ZIP_OPUNUSED (ZIP_IMMFIELD 18 0) (ZIP_BITFIELD 3 19);
  mkZOPCODE "OR" 0x87c40000 0x00c40000 (ZIP_REGFIELD 27) (ZIP_REGFIELD 27) (ZIP_REGFIELD 14) (ZIP_IMMFIELD 14 0) (ZIP_BITFIELD 3 19);
  mkZOPCODE "XOR" 0x87c40000 0x01000000 (ZIP_REGFIELD 27) (ZIP_REGFIELD 27) ZIP_OPUNUSED (ZIP_IMMFIELD 18 0) (ZIP_BITFIELD 3 19);
  mkZOPCODE "XOR" 0x87c40000 0x01040000 (ZIP_REGFIELD 27) (ZIP_REGFIELD 27) (ZIP_REGFIELD 14) (ZIP_IMMFIELD 14 0) (ZIP_BITFIELD 3 19);
  mkZOPCODE "LSR" 0x87c40000 0x01400000 (ZIP_REGFIELD 27) (ZIP_REGFIELD 27) ZIP_OPUNUSED (ZIP_IMMFIELD 18 0) (ZIP_BITFIELD 3 19);
  mkZOPCODE "LSR" 0x87c40000 0x01440000 (ZIP_REGFIELD 27) (ZIP_REGFIELD 27) (ZIP_REGFIELD 14) (ZIP_IMMFIELD 14 0) (ZIP_BITFIELD 3 19);
  mkZOPCODE "LSL" 0x87c40000 0x01800000 (ZIP_REGFIELD 27) (ZIP_REGFIELD 27) ZIP_OPUNUSED (ZIP_IMMFIELD 18 0) (ZIP_BITFIELD 3 19);
  mkZOPCODE "LSL" 0x87c40000 0x01840000 (ZIP_REGFIELD 27) (ZIP_REGFIELD 27) (ZIP_REGFIELD 14) (ZIP_IMMFIELD 14 0) (ZIP_BITFIELD 3 19);
  mkZOPCODE "ASR" 0x87c40000 0x01c00000 (ZIP_REGFIELD 27) (ZIP_REGFIELD 27) ZIP_OPUNUSED (ZIP_IMMFIELD 18 0) (ZIP_BITFIELD 3 19);
  mkZOPCODE "ASR" 0x87c40000 0x01c40000 (ZIP_REGFIELD 27) (ZIP_REGFIELD 27) (ZIP_REGFIELD 14) (ZIP_IMMFIELD 14 0) (ZIP_BITFIELD 3 19);
  mkZOPCODE "BREV" 0x87c40000 0x02000000 (ZIP_REGFIELD 27) (ZIP_REGFIELD 27) ZIP_OPUNUSED (ZIP_IMMFIELD 18 0) (ZIP_BITFIELD 3 19);
  mkZOPCODE "BREV" 0x87c40000 0x02040000 (ZIP_REGFIELD 27) (ZIP_REGFIELD 27) (ZIP_REGFIELD 14) (ZIP_IMMFIELD 14 0) (ZIP_BITFIELD 3 19);
  mkZOPCODE "LDILO" 0x87c40000 0x02400000 (ZIP_REGFIELD 27) (ZIP_REGFIELD 27) ZIP_OPUNUSED (ZIP_IMMFIELD 18 0) (ZIP_BITFIELD 3 19);
  mkZOPCODE "LDILO" 0x87c40000 0x02440000 (ZIP_REGFIELD 27) (ZIP_REGFIELD 27) (ZIP_REGFIELD 14) (ZIP_IMMFIELD 14 0) (ZIP_BITFIELD 3 19);
  mkZOPCODE "MPYUHI" 0x87c40000 0x02800000 (ZIP_REGFIELD 27) (ZIP_REGFIELD 27) ZIP_OPUNUSED (ZIP_IMMFIELD 18 0) (ZIP_BITFIELD 3 19);
  mkZOPCODE "MPYUHI" 0x87c40000 0x02840000 (ZIP_REGFIELD 27) (ZIP_REGFIELD 27) (ZIP_REGFIELD 14) (ZIP_IMMFIELD 14 0) (ZIP_BITFIELD 3 19);
  mkZOPCODE "MPYSHI" 0x87c40000 0x02c00000 (ZIP_REGFIELD 27) (ZIP_REGFIELD 27) ZIP_OPUNUSED (ZIP_IMMFIELD 18 0) (ZIP_BITFIELD 3 19);
  mkZOPCODE "MPYSHI" 0x87c40000 0x02c40000 (ZIP_REGFIELD 27) (ZIP_REGFIELD 27) (ZIP_REGFIELD 14) (ZIP_IMMFIELD 14 0) (ZIP_BITFIELD 3 19);
  mkZOPCODE "MPY" 0x87c40000 0x03000000 (ZIP_REGFIELD 27) (ZIP_REGFIELD 27) ZIP_OPUNUSED (ZIP_IMMFIELD 18 0) (ZIP_BITFIELD 3 19);
  mkZOPCODE "MPY" 0x87c40000 0x03040000 (ZIP_REGFIELD 27) (ZIP_REGFIELD 27) (ZIP_REGFIELD 14) (ZIP_IMMFIELD 14 0) (ZIP_BITFIELD 3 19);
  mkZOPCODE "MOV" 0x87c42000 0x03400000 (ZIP_REGFIELD 27) ZIP_OPUNUSED (ZIP_REGFIELD 14) (ZIP_IMMFIELD 13 0) (ZIP_BITFIELD 3 19);
  mkZOPCODE "MOV" 0x87c42000 0x03440000 (ZIP_URGFIELD 27) ZIP_OPUNUSED (ZIP_REGFIELD 14) (ZIP_IMMFIELD 13 0) (ZIP_BITFIELD 3 19);
  mkZOPCODE "MOV" 0x87c42000 0x03402000 (ZIP_REGFIELD 27) ZIP_OPUNUSED (ZIP_URGFIELD 14) (ZIP_IMMFIELD 13 0) (ZIP_BITFIELD 3 19);
  mkZOPCODE "MOV" 0x87c42000 0x03442000 (ZIP_URGFIELD 27) ZIP_OPUNUSED (ZIP_URGFIELD 14) (ZIP_IMMFIELD 13 0) (ZIP_BITFIELD 3 19);
  mkZOPCODE "DIVU" 0x87c40000 0x03800000 (ZIP_REGFIELD 27) (ZIP_REGFIELD 27) ZIP_OPUNUSED (ZIP_IMMFIELD 18 0) (ZIP_BITFIELD 3 19);
  mkZOPCODE "DIVU" 0x87c40000 0x03840000 (ZIP_REGFIELD 27) (ZIP_REGFIELD 27) (ZIP_REGFIELD 14) (ZIP_IMMFIELD 14 0) (ZIP_BITFIELD 3 19);
  mkZOPCODE "DIVS" 0x87c40000 0x03c00000 (ZIP_REGFIELD 27) (ZIP_REGFIELD 27) ZIP_OPUNUSED (ZIP_IMMFIELD 18 0) (ZIP_BITFIELD 3 19);
  mkZOPCODE "DIVS" 0x87c40000 0x03c40000 (ZIP_REGFIELD 27) (ZIP_REGFIELD 27) (ZIP_REGFIELD 14) (ZIP_IMMFIELD 14 0) (ZIP_BITFIELD 3 19);
  mkZOPCODE "CMP" 0x87c40000 0x04000000 ZIP_OPUNUSED (ZIP_REGFIELD 27) ZIP_OPUNUSED (ZIP_IMMFIELD 18 0) (ZIP_BITFIELD 3 19);
  mkZOPCODE "CMP" 0x87c40000 0x04040000 ZIP_OPUNUSED (ZIP_REGFIELD 27) (ZIP_REGFIELD 14) (ZIP_IMMFIELD 14 0) (ZIP_BITFIELD 3 19);
  mkZOPCODE "TST" 0x87c40000 0x04400000 ZIP_OPUNUSED (ZIP_REGFIELD 27) ZIP_OPUNUSED (ZIP_IMMFIELD 18 0) (ZIP_BITFIELD 3 19);
  mkZOPCODE "TST" 0x87c40000 0x04440000 ZIP_OPUNUSED (ZIP_REGFIELD 27) (ZIP_REGFIELD 14) (ZIP_IMMFIELD 14 0) (ZIP_BITFIELD 3 19);
  mkZOPCODE "LW" 0x87c40000 0x04800000 (ZIP_REGFIELD 27) ZIP_OPUNUSED ZIP_OPUNUSED (ZIP_IMMFIELD 18 0) (ZIP_BITFIELD 3 19);
  mkZOPCODE "LW" 0x87c40000 0x04840000 (ZIP_REGFIELD 27) ZIP_OPUNUSED (ZIP_REGFIELD 14) (ZIP_IMMFIELD 14 0) (ZIP_BITFIELD 3 19);
  mkZOPCODE "SW" 0x87c40000 0x04c00000 ZIP_OPUNUSED (ZIP_REGFIELD 27) ZIP_OPUNUSED (ZIP_IMMFIELD 18 0) (ZIP_BITFIELD 3 19);
  mkZOPCODE "SW" 0x87c40000 0x04c40000 ZIP_OPUNUSED (ZIP_REGFIELD 27) (ZIP_REGFIELD 14) (ZIP_IMMFIELD 14 0) (ZIP_BITFIELD 3 19);
  mkZOPCODE "LH" 0x87c40000 0x05000000 (ZIP_REGFIELD 27) ZIP_OPUNUSED ZIP_OPUNUSED (ZIP_IMMFIELD 18 0) (ZIP_BITFIELD 3 19);
  mkZOPCODE "LH" 0x87c40000 0x05040000 (ZIP_REGFIELD 27) ZIP_OPUNUSED (ZIP_REGFIELD 14) (ZIP_IMMFIELD 14 0) (ZIP_BITFIELD 3 19);
  mkZOPCODE "SH" 0x87c40000 0x05400000 ZIP_OPUNUSED (ZIP_REGFIELD 27) ZIP_OPUNUSED (ZIP_IMMFIELD 18 0) (ZIP_BITFIELD 3 19);
  mkZOPCODE "SH" 0x87c40000 0x05440000 ZIP_OPUNUSED (ZIP_REGFIELD 27) (ZIP_REGFIELD 14) (ZIP_IMMFIELD 14 0) (ZIP_BITFIELD 3 19);
  mkZOPCODE "LB" 0x87c40000 0x05800000 (ZIP_REGFIELD 27) ZIP_OPUNUSED ZIP_OPUNUSED (ZIP_IMMFIELD 18 0) (ZIP_BITFIELD 3 19);
  mkZOPCODE "LB" 0x87c40000 0x05840000 (ZIP_REGFIELD 27) ZIP_OPUNUSED (ZIP_REGFIELD 14) (ZIP_IMMFIELD 14 0) (ZIP_BITFIELD 3 19);
  mkZOPCODE "SB" 0x87c40000 0x05c00000 ZIP_OPUNUSED (ZIP_REGFIELD 27) ZIP_OPUNUSED (ZIP_IMMFIELD 18 0) (ZIP_BITFIELD 3 19);
  mkZOPCODE "SB" 0x87c40000 0x05c40000 ZIP_OPUNUSED (ZIP_REGFIELD 27) (ZIP_REGFIELD 14) (ZIP_IMMFIELD 14 0) (ZIP_BITFIELD 3 19);
  mkZOPCODE "LDI" 0x87800000 0x06000000 (ZIP_REGFIELD 27) ZIP_OPUNUSED ZIP_OPUNUSED (ZIP_IMMFIELD 23 0) ZIP_OPUNUSED;
  mkZOPCODE "BRK" 0xf7ffffff 0x77000000 ZIP_OPUNUSED ZIP_OPUNUSED ZIP_OPUNUSED ZIP_OPUNUSED ZIP_OPUNUSED;
  mkZOPCODE "BRK" 0xf7c00000 0x77000000 ZIP_OPUNUSED ZIP_OPUNUSED ZIP_OPUNUSED (ZIP_IMMFIELD 22 0) ZIP_OPUNUSED;
  mkZOPCODE "LOCK" 0xf7ffffff 0x77400000 ZIP_OPUNUSED ZIP_OPUNUSED ZIP_OPUNUSED ZIP_OPUNUSED ZIP_OPUNUSED;
  mkZOPCODE "LOCK" 0xf7c00000 0x77400000 ZIP_OPUNUSED ZIP_OPUNUSED ZIP_OPUNUSED (ZIP_IMMFIELD 22 0) ZIP_OPUNUSED;
  mkZOPCODE "SIM" 0xf7ffffff 0x77800000 ZIP_OPUNUSED ZIP_OPUNUSED ZIP_OPUNUSED ZIP_OPUNUSED ZIP_OPUNUSED;
  mkZOPCODE "SEXIT" 0xf7ffffff 0x77800100 ZIP_OPUNUSED ZIP_OPUNUSED ZIP_OPUNUSED ZIP_OPUNUSED ZIP_OPUNUSED;
  mkZOPCODE "SEXIT" 0xf7fffff0 0x77800310 ZIP_OPUNUSED (ZIP_URGFIELD 0) ZIP_OPUNUSED ZIP_OPUNUSED ZIP_OPUNUSED;
  mkZOPCODE "SEXIT" 0xf7ffffe0 0x77800300 ZIP_OPUNUSED (ZIP_REGFIELD 0) ZIP_OPUNUSED ZIP_OPUNUSED ZIP_OPUNUSED;
  mkZOPCODE "SEXIT" 0xf7ffff00 0x77800100 ZIP_OPUNUSED ZIP_OPUNUSED ZIP_OPUNUSED (ZIP_IMMFIELD 8 0) ZIP_OPUNUSED;
  mkZOPCODE "SDUMP" 0xf7ffffff 0x778002ff ZIP_OPUNUSED ZIP_OPUNUSED ZIP_OPUNUSED ZIP_OPUNUSED ZIP_OPUNUSED;
  mkZOPCODE "SDUMP" 0xf7fffff0 0x77800200 ZIP_OPUNUSED (ZIP_REGFIELD 0) ZIP_OPUNUSED ZIP_OPUNUSED ZIP_OPUNUSED;
  mkZOPCODE "SDUMP" 0xf7fffff0 0x77800210 ZIP_OPUNUSED (ZIP_URGFIELD 0) ZIP_OPUNUSED ZIP_OPUNUSED ZIP_OPUNUSED;
  mkZOPCODE "SOUT" 0xf7fffff0 0x77800230 ZIP_OPUNUSED (ZIP_URGFIELD 0) ZIP_OPUNUSED ZIP_OPUNUSED ZIP_OPUNUSED;
  mkZOPCODE "SOUT" 0xf7ffffe0 0x77800220 ZIP_OPUNUSED (ZIP_REGFIELD 0) ZIP_OPUNUSED ZIP_OPUNUSED ZIP_OPUNUSED;
  mkZOPCODE "SOUT" 0xf7ffff00 0x77800400 ZIP_OPUNUSED ZIP_OPUNUSED ZIP_OPUNUSED (ZIP_IMMFIELD 8 0) ZIP_OPUNUSED;
  mkZOPCODE "SDUMP" 0xf7ffff00 0x77800200 ZIP_OPUNUSED ZIP_OPUNUSED ZIP_OPUNUSED (ZIP_IMMFIELD 8 0) ZIP_OPUNUSED;
  mkZOPCODE "SIM" 0xf7c00000 0x77800000 ZIP_OPUNUSED ZIP_OPUNUSED ZIP_OPUNUSED (ZIP_IMMFIELD 22 0) ZIP_OPUNUSED;
  mkZOPCODE "NOOP" 0xf7ffffff 0x77c00000 ZIP_OPUNUSED ZIP_OPUNUSED ZIP_OPUNUSED ZIP_OPUNUSED ZIP_OPUNUSED;
  mkZOPCODE "NEXIT" 0xf7ffffff 0x77c00100 ZIP_OPUNUSED ZIP_OPUNUSED ZIP_OPUNUSED ZIP_OPUNUSED ZIP_OPUNUSED;
  mkZOPCODE "NEXIT" 0xf7ffff00 0x77c00100 ZIP_OPUNUSED ZIP_OPUNUSED ZIP_OPUNUSED (ZIP_IMMFIELD 8 0) ZIP_OPUNUSED;
  mkZOPCODE "NEXIT" 0xf7fffff0 0x77c00310 ZIP_OPUNUSED (ZIP_URGFIELD 0) ZIP_OPUNUSED ZIP_OPUNUSED ZIP_OPUNUSED;
  mkZOPCODE "NEXIT" 0xf7ffffe0 0x77c00300 ZIP_OPUNUSED (ZIP_REGFIELD 0) ZIP_OPUNUSED ZIP_OPUNUSED ZIP_OPUNUSED;
  mkZOPCODE "NDUMP" 0xf7ffffff 0x77c002ff ZIP_OPUNUSED ZIP_OPUNUSED ZIP_OPUNUSED ZIP_OPUNUSED ZIP_OPUNUSED;
  mkZOPCODE "NDUMP" 0xf7fffff0 0x77c00200 ZIP_OPUNUSED (ZIP_REGFIELD 0) ZIP_OPUNUSED ZIP_OPUNUSED ZIP_OPUNUSED;
  mkZOPCODE "NDUMP" 0xf7fffff0 0x77c00210 ZIP_OPUNUSED (ZIP_URGFIELD 0) ZIP_OPUNUSED ZIP_OPUNUSED ZIP_OPUNUSED;
  mkZOPCODE "NOUT" 0xf7fffff0 0x77c00230 ZIP_OPUNUSED (ZIP_URGFIELD 0) ZIP_OPUNUSED ZIP_OPUNUSED ZIP_OPUNUSED;
  mkZOPCODE "NOUT" 0xf7ffffe0 0x77c00220 ZIP_OPUNUSED (ZIP_REGFIELD 0) ZIP_OPUNUSED ZIP_OPUNUSED ZIP_OPUNUSED;
  mkZOPCODE "NOUT" 0xf7ffff00 0x77c00400 ZIP_OPUNUSED ZIP_OPUNUSED ZIP_OPUNUSED (ZIP_IMMFIELD 8 0) ZIP_OPUNUSED;
  mkZOPCODE "NDUMP" 0xf7ffff00 0x77c00200 ZIP_OPUNUSED ZIP_OPUNUSED ZIP_OPUNUSED ZIP_OPUNUSED ZIP_OPUNUSED;
  mkZOPCODE "NSIM" 0xf7c00000 0x77c00000 ZIP_OPUNUSED ZIP_OPUNUSED ZIP_OPUNUSED (ZIP_IMMFIELD 22 0) ZIP_OPUNUSED;
  mkZOPCODE "FPADD" 0x87c43fff 0x06840000 (ZIP_REGFIELD 27) (ZIP_REGFIELD 27) (ZIP_REGFIELD 14) ZIP_OPUNUSED (ZIP_BITFIELD 3 19);
  mkZOPCODE "FPSUB" 0x87c43fff 0x06c40000 (ZIP_REGFIELD 27) (ZIP_REGFIELD 27) (ZIP_REGFIELD 14) ZIP_OPUNUSED (ZIP_BITFIELD 3 19);
  mkZOPCODE "FPMPY" 0x87c43fff 0x07040000 (ZIP_REGFIELD 27) (ZIP_REGFIELD 27) (ZIP_REGFIELD 14) ZIP_OPUNUSED (ZIP_BITFIELD 3 19);
  mkZOPCODE "FPDIV" 0x87c43fff 0x07440000 (ZIP_REGFIELD 27) (ZIP_REGFIELD 27) (ZIP_REGFIELD 14) ZIP_OPUNUSED (ZIP_BITFIELD 3 19);
  mkZOPCODE "FPI2F" 0x87c40000 0x07800000 (ZIP_REGFIELD 27) ZIP_OPUNUSED ZIP_OPUNUSED (ZIP_IMMFIELD 18 0) (ZIP_BITFIELD 3 19);
  mkZOPCODE "FPI2F" 0x87c40000 0x07840000 (ZIP_REGFIELD 27) ZIP_OPUNUSED (ZIP_REGFIELD 14) (ZIP_IMMFIELD 14 0) (ZIP_BITFIELD 3 19);
  mkZOPCODE "FPF2I" 0x87c40000 0x07c40000 (ZIP_REGFIELD 27) ZIP_OPUNUSED (ZIP_REGFIELD 14) (ZIP_IMMFIELD 14 0) (ZIP_BITFIELD 3 19);
  mkZOPCODE "BRA" 0xff800000 0xf9000000 ZIP_OPUNUSED ZIP_OPUNUSED ZIP_OPUNUSED (ZIP_IMMFIELD 7 16) ZIP_OPUNUSED;
  mkZOPCODE "CLR" 0x87ff0000 0x86000000 (ZIP_REGFIELD 27) ZIP_OPUNUSED ZIP_OPUNUSED ZIP_OPUNUSED ZIP_OPUNUSED;
  mkZOPCODE "RTN" 0xffff0000 0xff800000 ZIP_OPUNUSED ZIP_OPUNUSED ZIP_OPUNUSED ZIP_OPUNUSED ZIP_OPUNUSED;
  mkZOPCODE "JMP" 0xff800000 0xff000000 (ZIP_REGFIELD 27) ZIP_OPUNUSED (ZIP_REGFIELD 19) (ZIP_IMMFIELD 3 16) ZIP_OPUNUSED;
  mkZOPCODE "SUB" 0x87800000 0x80000000 (ZIP_REGFIELD 27) (ZIP_REGFIELD 27) ZIP_OPUNUSED (ZIP_IMMFIELD 7 16) ZIP_OPUNUSED;
  mkZOPCODE "SUB" 0x87800000 0x80800000 (ZIP_REGFIELD 27) (ZIP_REGFIELD 27) (ZIP_REGFIELD 19) (ZIP_IMMFIELD 3 16) ZIP_OPUNUSED;
  mkZOPCODE "AND" 0x87800000 0x81000000 (ZIP_REGFIELD 27) (ZIP_REGFIELD 27) ZIP_OPUNUSED (ZIP_IMMFIELD 7 16) ZIP_OPUNUSED;
  mkZOPCODE "AND" 0x87800000 0x81800000 (ZIP_REGFIELD 27) (ZIP_REGFIELD 27) (ZIP_REGFIELD 19) (ZIP_IMMFIELD 3 16) ZIP_OPUNUSED;
  mkZOPCODE "ADD" 0x87800000 0x82000000 (ZIP_REGFIELD 27) (ZIP_REGFIELD 27) ZIP_OPUNUSED (ZIP_IMMFIELD 7 16) ZIP_OPUNUSED;
  mkZOPCODE "ADD" 0x87800000 0x82800000 (ZIP_REGFIELD 27) (ZIP_REGFIELD 27) (ZIP_REGFIELD 19) (ZIP_IMMFIELD 3 16) ZIP_OPUNUSED;
  mkZOPCODE "CMP" 0x87800000 0x83000000 (ZIP_REGFIELD 27) ZIP_OPUNUSED (ZIP_REGFIELD 19) (ZIP_IMMFIELD 7 16) ZIP_OPUNUSED;
  mkZOPCODE "CMP" 0x87800000 0x83800000 (ZIP_REGFIELD 27) ZIP_OPUNUSED (ZIP_REGFIELD 19) (ZIP_IMMFIELD 3 16) ZIP_OPUNUSED;
  mkZOPCODE "LW" 0x87800000 0x84000000 (ZIP_REGFIELD 27) ZIP_OPUNUSED ZIP_SP (ZIP_IMMFIELD 7 16) ZIP_OPUNUSED;
  mkZOPCODE "LW" 0x87800000 0x84800000 (ZIP_REGFIELD 27) ZIP_OPUNUSED (ZIP_REGFIELD 19) (ZIP_IMMFIELD 3 16) ZIP_OPUNUSED;
  mkZOPCODE "SW" 0x87000000 0x85000000 ZIP_OPUNUSED (ZIP_REGFIELD 27) ZIP_SP (ZIP_IMMFIELD 7 16) ZIP_OPUNUSED;
  mkZOPCODE "SW" 0x87800000 0x85800000 ZIP_OPUNUSED (ZIP_REGFIELD 27) (ZIP_REGFIELD 19) (ZIP_IMMFIELD 3 16) ZIP_OPUNUSED;
  mkZOPCODE "LDI" 0x87000000 0x86000000 (ZIP_REGFIELD 27) ZIP_OPUNUSED ZIP_OPUNUSED (ZIP_IMMFIELD 8 16) ZIP_OPUNUSED;
  mkZOPCODE "MOV" 0x87800000 0x87800000 ZIP_OPUNUSED (ZIP_REGFIELD 27) (ZIP_REGFIELD 19) (ZIP_IMMFIELD 3 16) ZIP_OPUNUSED;
  mkZOPCODE "ILLV" 0x80000000 0x80000000 ZIP_OPUNUSED ZIP_OPUNUSED ZIP_OPUNUSED (ZIP_IMMFIELD 32 16) ZIP_OPUNUSED;
  mkZOPCODE "ILL" 0x00000000 0x00000000 ZIP_OPUNUSED ZIP_OPUNUSED ZIP_OPUNUSED (ZIP_IMMFIELD 32 0) ZIP_OPUNUSED].

Definition zip_opbottomlist : list ZOPCODE := [
  mkZOPCODE "BRA" 0x80007f80 0x80007900 ZIP_OPUNUSED ZIP_OPUNUSED ZIP_OPUNUSED (ZIP_IMMFIELD 7 0) ZIP_OPUNUSED;
  mkZOPCODE "CLR" 0x800007ff 0x80000600 (ZIP_REGFIELD 11) ZIP_OPUNUSED ZIP_OPUNUSED ZIP_OPUNUSED ZIP_OPUNUSED;
  mkZOPCODE "RTN" 0x80007fff 0x80007f80 ZIP_OPUNUSED ZIP_OPUNUSED ZIP_OPUNUSED ZIP_OPUNUSED ZIP_OPUNUSED;
  mkZOPCODE "JMP" 0x80007f80 0x80007f00 (ZIP_REGFIELD 11) ZIP_OPUNUSED (ZIP_REGFIELD 3) (ZIP_IMMFIELD 3 0) ZIP_OPUNUSED;
  mkZOPCODE "LJMP" 0x80007fff 0x80007cf8 (ZIP_REGFIELD 11) ZIP_OPUNUSED (ZIP_REGFIELD 3) (ZIP_IMMFIELD 3 0) ZIP_OPUNUSED;
  mkZOPCODE "SUB" 0x80000780 0x80000000 (ZIP_REGFIELD 11) (ZIP_REGFIELD 11) ZIP_OPUNUSED (ZIP_IMMFIELD 7 0) ZIP_OPUNUSED;
  mkZOPCODE "SUB" 0x80000780 0x80000080 (ZIP_REGFIELD 11) (ZIP_REGFIELD 11) (ZIP_REGFIELD 3) (ZIP_IMMFIELD 3 0) ZIP_OPUNUSED;
  mkZOPCODE "AND" 0x80000780 0x80000100 (ZIP_REGFIELD 11) (ZIP_REGFIELD 11) ZIP_OPUNUSED (ZIP_IMMFIELD 7 0) ZIP_OPUNUSED;
  mkZOPCODE "AND" 0x80000780 0x80000180 (ZIP_REGFIELD 11) (ZIP_REGFIELD 11) (ZIP_REGFIELD 3) (ZIP_IMMFIELD 3 0) ZIP_OPUNUSED;
  mkZOPCODE "ADD" 0x80000780 0x80000200 (ZIP_REGFIELD 11) (ZIP_REGFIELD 11) ZIP_OPUNUSED (ZIP_IMMFIELD 7 0) ZIP_OPUNUSED;
  mkZOPCODE "ADD" 0x80000780 0x80000280 (ZIP_REGFIELD 11) (ZIP_REGFIELD 11) (ZIP_REGFIELD 3) (ZIP_IMMFIELD 3 0) ZIP_OPUNUSED;
  mkZOPCODE "CMP" 0x80000780 0x80000300 (ZIP_REGFIELD 11) ZIP_OPUNUSED ZIP_OPUNUSED (ZIP_IMMFIELD 7 0) ZIP_OPUNUSED;
  mkZOPCODE "CMP" 0x80000780 0x80000380 (ZIP_REGFIELD 11) ZIP_OPUNUSED (ZIP_REGFIELD 3) (ZIP_IMMFIELD 3 0) ZIP_OPUNUSED;
  mkZOPCODE "LW" 0x80000780 0x80000400 (ZIP_REGFIELD 11) ZIP_OPUNUSED ZIP_SP (ZIP_IMMFIELD 7 0) ZIP_OPUNUSED;
  mkZOPCODE "LW" 0x80000780 0x80000480 (ZIP_REGFIELD 11) ZIP_OPUNUSED (ZIP_REGFIELD 3) (ZIP_IMMFIELD 3 0) ZIP_OPUNUSED;
  mkZOPCODE "SW" 0x80000780 0x80000500 ZIP_OPUNUSED (ZIP_REGFIELD 11) ZIP_SP (ZIP_IMMFIELD 7 0) ZIP_OPUNUSED;
  mkZOPCODE "SW" 0x80000780 0x80000580 ZIP_OPUNUSED (ZIP_REGFIELD 11) (ZIP_REGFIELD 3) (ZIP_IMMFIELD 3 0) ZIP_OPUNUSED;
  mkZOPCODE "LDI" 0x80000700 0x80000600 (ZIP_REGFIELD 11) ZIP_OPUNUSED ZIP_OPUNUSED (ZIP_IMMFIELD 8 0) ZIP_OPUNUSED;
  mkZOPCODE "MOV" 0x80000780 0x80000780 (ZIP_REGFIELD 11) ZIP_OPUNUSED (ZIP_REGFIELD 3) (ZIP_IMMFIELD 3 0) ZIP_OPUNUSED;
  mkZOPCODE "ILLV" 0x80000000 0x80000000 ZIP_OPUNUSED ZIP_OPUNUSED ZIP_OPUNUSED (ZIP_IMMFIELD 15 0) ZIP_OPUNUSED;
  mkZOPCODE "ILL" 0x00000000 0x00000000 ZIP_OPUNUSED ZIP_OPUNUSED ZIP_OPUNUSED (ZIP_IMMFIELD 15 0) ZIP_OPUNUSED].

(** ** Patterns of several words *)

Definition TWOWORD_LOAD (one two : Z) : bool :=
  (one .& 0x87c40000 =? 0x02000000) && (two .& 0x87c40000 =? 0x02400000) && (Z.lxor one two .& 0xf8380000 =? 0).
Definition OFFSET_PC_MOV (ins : Z) : bool := ins .& 0x87c7e000 =? 0x0343c000.
Definition TWOWORD_LJMP (iword : Z) : bool := (iword =? 0x7c87c000) || (iword .& 0x80007fff =? 0x80007cf8).
Definition TWOWORD_JSR (iword nxtword : Z) : bool := (iword =? 0x0343c001) && (nxtword .& 0xffc40000 =? 0x78800000).
Definition THREEWORD_LJSR (iword nxtword : Z) : bool := (iword =? 0x0343c002) && (nxtword =? 0x7c87c000).
Definition CIS_JSR (iword : Z) : bool := iword =? 0x87f9fcf8.
Definition POSSIBLE_TWOWORD_BEGINNING (iword : Z) : bool :=
  TWOWORD_LJMP iword || (iword =? 0x0343c001) || (iword =? 0x0343c002) || CIS_JSR iword || (iword .& 0x87c40000 =? 0x02000000).

(** [for(b=0; b<32; b++, v>>=1) r = (r<<1)|(v&1);] *)
Fixpoint bitreverse_loop (n : nat) (r v : Z) : Z :=
  match n with O => r | S n' => bitreverse_loop n' (u32 (r .<< 1) .| (v .& 1)) (v .>> 1) end.
Definition zip_bitreverse (v : Z) : Z := bitreverse_loop 32 0 v.
Definition TWOWORD_VALUE (one two : Z) : Z := (two .& 0x0ffff) .| zip_bitreverse (one .& 0x0ffff).

(** ** Fields *)

Definition zip_sbits (val bits : Z) : Z :=
  let r := val .& ((1 .<< bits) - 1) in
  if truthy (r .& (1 .<< (bits - 1))) then r .| (-1 .<< bits) else r.
Definition zip_ubits (val bits : Z) : Z := val .& ((1 .<< bits) - 1).
Definition zip_getbits (ins which : Z) : Z :=
  if truthy (which .& 0x40000000) then s32 (zip_sbits (ins .>> (which .& 0x03f)) ((which .>> 8) .& 0x03f))
  else s32 (zip_ubits (ins .>> (which .& 0x03f)) ((which .>> 8) .& 0x03f) + ((which .>> 16) .& 0x0ff)).

(** ** Text: [%d], [%08x], [%-11s], and the comparisons of names *)

Definition digit (d : Z) : ascii := ascii_of_nat (Z.to_nat (if d <? 10 then 48 + d else 87 + d)).

Fixpoint decimal (fuel : nat) (n : Z) : string :=
  match fuel with
  | O => ""
  | S fuel' => (if n <? 10 then "" else decimal fuel' (n / 10)) +:+ String (digit (n mod 10)) ""
  end.
Definition fmt_d (n : Z) : string := if n <? 0 then "-" +:+ decimal 10 (- n) else decimal 10 n.

Fixpoint hex (k : nat) (n : Z) : string :=
  match k with O => "" | S k' => hex k' (n / 16) +:+ String (digit (n mod 16)) "" end.
Definition fmt_08x (n : Z) : string := hex 8 n.

Fixpoint spaces (n : nat) : string := match n with O => "" | S n' => String " " (spaces n') end.
Definition pad11 (s : string) : string := s +:+ spaces (11 - String.length s).

Definition upper (c : ascii) : ascii :=
  let n := nat_of_ascii c in if (97 <=? n)%nat && (n <=? 122)%nat then ascii_of_nat (n - 32) else c.
Fixpoint upcase (s : string) : string := match s with "" => "" | String c s' => String (upper c) (upcase s') end.
Definition strcasecmp_eq (a b : string) : bool := String.eqb (upcase a) (upcase b).
Definition strncasecmp_eq (a b : string) (n : nat) : bool := String.eqb (upcase (String.substring 0 n a)) (upcase (String.substring 0 n b)).
Definition is_char (s : string) (i : nat) (c : ascii) : bool := bool_decide (upper <$> String.get i s = Some c).

(** The name of a register, or of a condition. *)
Definition name (l : list string) (i : Z) : option string := if i <? 0 then None else l !! Z.to_nat i.

(** ** One instruction *)

Definition used (which : Z) : bool := negb (which =? ZIP_OPUNUSED).

(** What follows the operation. *)
Definition is_store (e : ZOPCODE) : bool :=
  strncasecmp_eq "SW" (s_opstr e) 2 || strncasecmp_eq "SH" (s_opstr e) 2 || strncasecmp_eq "SB" (s_opstr e) 2.
Definition is_branch (e : ZOPCODE) (addr : Z) : bool :=
  bool_decide (String.get 0 (s_opstr e) = Some "B"%char) && negb (strcasecmp_eq (s_opstr e) "BUSY") &&
  negb (strcasecmp_eq (s_opstr e) "BREV") && negb (strcasecmp_eq (s_opstr e) "BRK") && negb (addr =? 0).
Definition is_memop (e : ZOPCODE) : bool :=
  is_char (s_opstr e) 0 "L" && (is_char (s_opstr e) 1 "W" || is_char (s_opstr e) 1 "H" || is_char (s_opstr e) 1 "B") &&
  Nat.leb (String.length (s_opstr e)) 2.

Definition field (ins which dflt : Z) : Z := if used which then zip_getbits ins which else dflt.

Definition store_text (e : ZOPCODE) (ra rb imv : Z) : option string :=
  a ← name zip_regstr ra;
  b ← (if used (s_rb e) then b ← name zip_regstr rb; Some ("(" +:+ b +:+ ")") else Some "");
  Some (a +:+ "," +:+
    (if used (s_i e) then if negb (used (s_rb e)) then "($" +:+ fmt_d imv +:+ ")" else if negb (imv =? 0) then "$" +:+ fmt_d imv else "" else "") +:+ b).

Definition imm_text (e : ZOPCODE) (imv : Z) : string :=
  let memop := is_memop e in
  if used (s_i e) then
    if memop && negb (used (s_rb e)) then "($" +:+ fmt_d imv +:+ ")"
    else if memop && negb (imv =? 0) then fmt_d imv
    else if negb memop && (negb (imv =? 0) || negb (used (s_rb e))) then "$" +:+ fmt_d imv +:+ (if used (s_rb e) then "+" else "")
    else ""
  else "".

Definition operands_text (e : ZOPCODE) (rr ra rb imv : Z) : option string :=
  b ← (if used (s_rb e) then b ← name zip_regstr rb; Some (if is_memop e then "(" +:+ b +:+ ")" else b) else Some "");
  d ← (if used (s_ra e) then name zip_regstr ra else if used (s_result e) then name zip_regstr rr else Some "");
  Some (imm_text e imv +:+ b +:+
    (if (used (s_i e) || used (s_rb e)) && (used (s_ra e) || used (s_result e)) then "," else "") +:+ d).

(** The address that a branch is shown with. *)
Definition branch_target (addr ins : Z) (e : ZOPCODE) : Z := u32 (addr + (zip_getbits ins (s_i e) + 4)).

Definition entry_text (addr ins : Z) (e : ZOPCODE) : option string :=
  cc ← (if used (s_cf e) then name zip_ccstr (zip_getbits ins (s_cf e)) else Some "");
  let rr := field ins (s_result e) (-1) in
  let ra := field ins (s_ra e) (-1) in
  let rb := field ins (s_rb e) (-1) in
  let imv := field ins (s_i e) 0 in
  let imv := if used (s_rb e) && (rb =? 15) then s32 (imv .<< 2) else imv in
  args ← (if is_store e then store_text e ra rb imv
          else if strncasecmp_eq "LJMP" (s_opstr e) 3 then Some ""
          else if is_branch e addr then Some ("@0x" +:+ fmt_08x (branch_target addr ins e))
          else operands_text e rr ra rb imv);
  Some (pad11 (s_opstr e +:+ cc) +:+ args).

(** The first entry that matches, before the mark of the end. *)
Fixpoint lookup_op (l : list ZOPCODE) (ins : Z) : option ZOPCODE :=
  match l with
  | [] => None
  | e :: l' => if s_mask e =? 0 then None else if ins .& s_mask e =? s_val e then Some e else lookup_op l' ins
  end.

(** [assert(((~s_mask)&s_val)==0)] for each entry. *)
Definition consistent (e : ZOPCODE) : bool := u32 (Z.lnot (s_mask e)) .& s_val e =? 0.

Definition zipi_to_halfstring (addr ins : Z) (listp : list ZOPCODE) : option string :=
  if OFFSET_PC_MOV ins then
    cc ← name zip_ccstr (zip_getbits ins (ZIP_BITFIELD 3 19));
    d ← name zip_regstr (zip_getbits ins (ZIP_REGFIELD 27));
    Some (pad11 ("MOV" +:+ cc) +:+ "0x" +:+ fmt_08x (u32 ((zip_sbits ins 13 .<< 2) + addr + 4)) +:+ "," +:+ d)
  else if forallb consistent zip_oplist then
    match lookup_op listp ins with
    | Some e => entry_text addr ins e
    | None => Some ("ILL " +:+ fmt_08x ins)
    end
  else None.

Definition zipi_to_double_string (addr ins : Z) : option (string * string) :=
  la ← zipi_to_halfstring addr ins zip_oplist;
  lb ← (if truthy (ins .& 0x80000000) then zipi_to_halfstring addr ins zip_opbottomlist else Some "");
  Some (la, lb).

Definition zop_early_branch (pc insn : Z) : Z :=
  if negb (insn .& 0xf8000000 =? 0x78000000) then u32 (pc + 4)
  else if insn .& 0xffc60000 =? 0x78800000 then u32 (pc + 4 + ((insn .& 0x3ffff) .<< 2))
  else if insn .& 0xffc60000 =? 0x78820000 then u32 (pc + 4 + ((0x40000 - (insn .& 0x3ffff)) .<< 2))
  else u32 (pc + 4).
