(* ===== verification/ZopcodesProps.v ===== *)
(** The disassembler is total and its text fits the debugger's buffers; where it
    and [zop_early_branch] disagree; an instruction that it takes for another. *)

From stdpp Require Import base tactics list numbers option strings.
From Stdlib Require Import Ascii ZArith Lia.
From S2P Require Import Prelude Zopcodes.
Local Open Scope Z_scope.

(** ** Lengths *)

Lemma len_app s1 s2 : String.length (s1 +:+ s2) = (String.length s1 + String.length s2)%nat.
Proof. induction s1 as [| c s1 IH]; [done |]. change (S (String.length (s1 +:+ s2)) = S (String.length s1 + String.length s2)). f_equal. exact IH. Qed.

Lemma len_decimal f : forall n, (String.length (decimal f n) <= f)%nat.
Proof.
  induction f as [| f IH]; intros n; cbn [decimal]; [done |]. rewrite len_app. cbn [String.length].
  specialize (IH (n / 10)). destruct (n <? 10); cbn [String.length]; lia.
Qed.

Lemma len_fmt_d n : (String.length (fmt_d n) <= 11)%nat.
Proof.
  unfold fmt_d. pose proof (len_decimal 10 (- n)). pose proof (len_decimal 10 n).
  destruct (n <? 0); [rewrite len_app; cbn [String.length] |]; lia.
Qed.

Lemma len_hex k : forall n, String.length (hex k n) = k.
Proof. induction k as [| k IH]; intros n; cbn [hex]; [done |]. rewrite len_app, IH. cbn. lia. Qed.

Lemma len_spaces n : String.length (spaces n) = n.
Proof. induction n as [| n IH]; [done |]. cbn. by rewrite IH. Qed.

Lemma len_pad11 s : (String.length (pad11 s) <= Nat.max 11 (String.length s))%nat.
Proof. unfold pad11. rewrite len_app, len_spaces. lia. Qed.

(** ** Fields that are indices *)

(** The field is an index below [n] in any instruction. *)
Definition idx_ok (n which : Z) : bool :=
  (which .& 0x40000000 =? 0) && ((which .>> 8) .& 0x03f <? 31) && (2 ^ ((which .>> 8) .& 0x03f) + ((which .>> 16) .& 0x0ff) <=? n).

Lemma getbits_range n ins which : idx_ok n which = true -> n <= 256 -> 0 <= zip_getbits ins which < n.
Proof.
  intros Hok Hn. unfold idx_ok in Hok. apply andb_true_iff in Hok as [Hok H3]. apply andb_true_iff in Hok as [H1 H2].
  apply Z.eqb_eq in H1. apply Z.ltb_lt in H2. apply Z.leb_le in H3.
  unfold zip_getbits, truthy. rewrite H1. cbn [negb Z.eqb]. unfold zip_ubits.
  assert (Hw : 0 <= (which .>> 8) .& 63) by (rewrite land_63; zlia). set (w := (which .>> 8) .& 63) in *.
  assert (Ho : 0 <= (which .>> 16) .& 255) by (rewrite land_255; zlia).
  rewrite (shiftl_mul 1), Z.mul_1_l by done. rewrite land_ones_mod by done.
  pose proof (Z.mod_pos_bound (ins .>> (which .& 63)) (2 ^ w) ltac:(apply Z.pow_pos_nonneg; lia)). unfold s32. rewrite Z.mod_small; lia.
Qed.

(** Names that are there, and short. *)
Definition short (k : nat) (o : option string) : Prop := exists s, o = Some s /\ (String.length s <= k)%nat.

Lemma name_short l k i : forallb (fun s => Nat.leb (String.length s) k) l = true -> 0 <= i < Z.of_nat (length l) -> short k (name l i).
Proof.
  intros Hl Hi. unfold name. destruct (Z.ltb_spec i 0); [lia |].
  destruct (lookup_lt_is_Some_2 l (Z.to_nat i)) as [s Hs]; [lia |]. exists s. split; [done |].
  rewrite forallb_forall in Hl. apply Nat.leb_le, Hl, list_elem_of_In, (list_elem_of_lookup_2 _ _ _ Hs).
Qed.

Lemma reg_short ins which : idx_ok 49 which = true -> short 4 (name zip_regstr (zip_getbits ins which)).
Proof. intros Hok. apply name_short; [reflexivity |]. by apply getbits_range. Qed.

Lemma cc_short ins which : idx_ok 8 which = true -> short 3 (name zip_ccstr (zip_getbits ins which)).
Proof. intros Hok. apply name_short; [reflexivity |]. by apply getbits_range. Qed.

(** ** Entries *)

Definition entry_ok (e : ZOPCODE) : bool :=
  Nat.leb (String.length (s_opstr e)) 7 &&
  (negb (used (s_cf e)) || idx_ok 8 (s_cf e)) && (negb (used (s_ra e)) || idx_ok 49 (s_ra e)) &&
  (negb (used (s_rb e)) || idx_ok 49 (s_rb e)) && (negb (used (s_result e)) || idx_ok 49 (s_result e)) &&
  (negb (is_store e) || used (s_ra e)).

Lemma tables_ok : forallb entry_ok zip_oplist && forallb entry_ok zip_opbottomlist = true.
Proof. vm_compute. reflexivity. Qed.

Lemma opt_reg_short ins which : negb (used which) || idx_ok 49 which = true -> used which = true -> short 4 (name zip_regstr (field ins which (-1))).
Proof. intros H Hu. unfold field. rewrite Hu in H |- *. by apply reg_short. Qed.

Lemma empty_short k : short k (Some "").
Proof. exists "". split; [done | cbn; lia]. Qed.

(** A register within text, when the entry uses it. *)
Lemma wrapped_short ins which (wrap : string -> string) k :
  negb (used which) || idx_ok 49 which = true -> (forall b, (String.length (wrap b) <= String.length b + k)%nat) ->
  short (4 + k) (if used which then b ← name zip_regstr (field ins which (-1)); Some (wrap b) else Some "").
Proof.
  intros Hok Hwrap. destruct (used which) eqn:Eu; [| apply empty_short].
  destruct (opt_reg_short ins which ltac:(by rewrite Eu) Eu) as (b & Eb & Lb). rewrite Eb. exists (wrap b). split; [done |]. specialize (Hwrap b). lia.
Qed.

Lemma store_text_short ins e imv : entry_ok e = true -> is_store e = true ->
  short 30 (store_text e (field ins (s_ra e) (-1)) (field ins (s_rb e) (-1)) imv).
Proof.
  intros Hok Es. unfold entry_ok in Hok. rewrite Es in Hok. cbn [negb orb] in Hok. repeat (apply andb_true_iff in Hok as [Hok ?]).
  pose proof (len_fmt_d imv) as Ld. unfold store_text.
  destruct (opt_reg_short ins (s_ra e)) as (a & -> & La); [done | done |]. cbn [mbind option_bind].
  destruct (wrapped_short ins (s_rb e) (fun b => "(" +:+ b +:+ ")") 2) as (b & -> & Lb); [done | intros b; rewrite !len_app; cbn [String.length]; lia |].
  cbn [mbind option_bind]. eexists. split; [done |]. repeat (rewrite !len_app; cbn [String.length]).
  destruct (used (s_i e)), (used (s_rb e)), (imv =? 0); cbn [negb]; repeat (rewrite ?len_app; cbn [String.length]); lia.
Qed.

Lemma imm_text_short e imv : (String.length (imm_text e imv) <= 14)%nat.
Proof.
  pose proof (len_fmt_d imv). unfold imm_text.
  destruct (used (s_i e)), (is_memop e), (used (s_rb e)), (imv =? 0); cbn [negb andb orb]; repeat (rewrite ?len_app; cbn [String.length]); lia.
Qed.

Lemma operands_text_short ins e imv : entry_ok e = true ->
  short 30 (operands_text e (field ins (s_result e) (-1)) (field ins (s_ra e) (-1)) (field ins (s_rb e) (-1)) imv).
Proof.
  intros Hok. unfold entry_ok in Hok. repeat (apply andb_true_iff in Hok as [Hok ?]). unfold operands_text.
  destruct (wrapped_short ins (s_rb e) (fun b => if is_memop e then "(" +:+ b +:+ ")" else b) 2) as (b & -> & Lb);
    [done | intros b; destruct (is_memop e); rewrite ?len_app; cbn [String.length]; lia |]. cbn [mbind option_bind].
  assert (Hd : short 4 (if used (s_ra e) then name zip_regstr (field ins (s_ra e) (-1))
    else if used (s_result e) then name zip_regstr (field ins (s_result e) (-1)) else Some "")).
  { destruct (used (s_ra e)) eqn:Eu; [apply opt_reg_short; by rewrite ?Eu |].
    destruct (used (s_result e)) eqn:Er; [apply opt_reg_short; by rewrite ?Er | apply empty_short]. }
  destruct Hd as (d & -> & Ldd). cbn [mbind option_bind]. eexists. split; [done |]. pose proof (imm_text_short e imv).
  rewrite !len_app. destruct ((used (s_i e) || used (s_rb e)) && _); cbn [String.length]; lia.
Qed.

Lemma entry_text_short addr ins e : entry_ok e = true -> short 60 (entry_text addr ins e).
Proof.
  intros He. pose proof He as Hok. unfold entry_ok in Hok. repeat (apply andb_true_iff in Hok as [Hok ?]). apply Nat.leb_le in Hok. unfold entry_text.
  assert (Hcc : short 3 (if used (s_cf e) then name zip_ccstr (zip_getbits ins (s_cf e)) else Some "")).
  { destruct (used (s_cf e)); [by apply cc_short | apply empty_short]. }
  destruct Hcc as (cc & -> & Lcc). cbn [mbind option_bind]. set (imv := if _ && _ then _ else _).
  match goal with |- short 60 (args ← ?o; _) => enough (Ha : short 30 o) end.
  { destruct Ha as (a & -> & La). cbn. eexists. split; [done |]. rewrite len_app. pose proof (len_pad11 (s_opstr e +:+ cc)) as Hp. rewrite len_app in Hp. lia. }
  destruct (is_store e) eqn:Es; [by apply store_text_short |]. destruct (strncasecmp_eq _ _ _); [apply empty_short |].
  destruct (is_branch e addr); [| by apply operands_text_short].
  eexists. split; [done |]. rewrite len_app. unfold fmt_08x. rewrite len_hex. cbn. lia.
Qed.

Lemma table_consistent : forallb consistent zip_oplist = true.
Proof. vm_compute. reflexivity. Qed.

Lemma lookup_op_in l ins e : lookup_op l ins = Some e -> In e l.
Proof.
  induction l as [| e' l IH]; cbn; [done |]. destruct (s_mask e' =? 0); [done |]. destruct (_ =? _); [intros [= ->]; by left | auto].
Qed.

Lemma halfstring_short addr ins l : forallb entry_ok l = true -> short 60 (zipi_to_halfstring addr ins l).
Proof.
  intros Hl. unfold zipi_to_halfstring. destruct (OFFSET_PC_MOV ins).
  - destruct (cc_short ins (ZIP_BITFIELD 3 19) eq_refl) as (cc & -> & Lcc). destruct (reg_short ins (ZIP_REGFIELD 27) eq_refl) as (d & -> & Ld).
    cbn [mbind option_bind]. eexists. split; [done |]. pose proof (len_pad11 ("MOV" +:+ cc)) as Hp.
    repeat (rewrite !len_app in *; cbn [String.length] in *). unfold fmt_08x. rewrite len_hex. lia.
  - rewrite table_consistent. destruct (lookup_op l ins) as [e |] eqn:E.
    + apply entry_text_short. rewrite forallb_forall in Hl. by apply Hl, (lookup_op_in l ins).
    + eexists. split; [done |]. rewrite len_app. unfold fmt_08x. rewrite len_hex. cbn. lia.
Qed.

(** ** Which entry an instruction gets *)

(** No instruction with the bits [v] under the mask [m] matches the entry. *)
Definition conflict (m v : Z) (e : ZOPCODE) : bool := negb (s_mask e =? 0) && negb (s_val e .& m =? v .& s_mask e).

Lemma lookup_skip m v ins l1 l2 : ins .& m = v -> forallb (conflict m v) l1 = true -> lookup_op (l1 ++ l2) ins = lookup_op l2 ins.
Proof.
  intros Hins. induction l1 as [| e l1 IH]; intros Hl; [done |]. cbn [forallb app lookup_op] in *. apply andb_true_iff in Hl as [He Hl].
  unfold conflict in He. apply andb_true_iff in He as [H1 H2]. apply negb_true_iff in H1, H2. rewrite H1. apply Z.eqb_neq in H2.
  destruct (Z.eqb_spec (ins .& s_mask e) (s_val e)) as [E |]; [| by apply IH].
  exfalso. apply H2. rewrite <- E, <- Hins, <- !Z.land_assoc. f_equal. apply Z.land_comm.
Qed.

Lemma lookup_at m v ins l k e :
  ins .& m = v -> forallb (conflict m v) (take k l) = true -> l !! k = Some e ->
  s_mask e <> 0 -> s_mask e .& m = s_mask e -> v .& s_mask e = s_val e -> lookup_op l ins = Some e.
Proof.
  intros Hins Hc He H0 Hm Hv. rewrite <- (take_drop k l), (lookup_skip m v) by done. rewrite (drop_S _ e) by done. cbn [lookup_op].
  rewrite (proj2 (Z.eqb_neq _ _) H0). replace (ins .& s_mask e) with (s_val e); [by rewrite Z.eqb_refl |].
  rewrite <- Hv, <- Hins, <- Z.land_assoc, (Z.land_comm m), Hm. done.
Qed.

(** ** Claims *)


(** The entry of a branch. *)
Definition BRA : ZOPCODE := mkZOPCODE "BRA" 0xffc40000 0x78800000 ZIP_OPUNUSED ZIP_OPUNUSED ZIP_OPUNUSED (ZIP_IMMFIELD 18 0) (ZIP_BITFIELD 3 19).

Lemma land_split x k m : 0 <= k -> 0 <= x < 2 ^ k -> forall a, ((a .<< k) .| x) .& (m .<< k) = (a .& m) .<< k.
Proof.
  intros Hk Hx a. apply Z.bits_inj'. intros n Hn. rewrite Z.land_spec, Z.lor_spec, !Z.shiftl_spec, Z.land_spec by done.
  destruct (Z.lt_ge_cases n k).
  - rewrite !(Z.testbit_neg_r _ (n - k)) by lia. by rewrite andb_false_r.
  - rewrite (testbit_above x k n) by lia. by rewrite orb_false_r.
Qed.

Lemma branch_masked imm m : 0 <= imm < 2 ^ 18 -> (0x78800000 + imm) .& (m .<< 18) = (0x1e20 .& m) .<< 18.
Proof.
  intros Hi. replace (0x78800000 + imm) with ((0x1e20 .<< 18) .| imm) by (rewrite lor_shiftl_add by lia; lia). by apply land_split.
Qed.

Lemma branch_imm imm : 0 <= imm < 2 ^ 18 ->
  zip_getbits (0x78800000 + imm) (ZIP_IMMFIELD 18 0) = (if imm <? 2 ^ 17 then imm else imm - 2 ^ 18) /\ (0x78800000 + imm) .& 0x3ffff = imm.
Proof.
  intros Hi. assert (Hl : (0x78800000 + imm) .& (2 ^ 18 - 1) = imm) by (rewrite land_ones_mod by lia; zlia). split; [| exact Hl].
  change (zip_getbits (0x78800000 + imm) (ZIP_IMMFIELD 18 0)) with (s32 (zip_sbits ((0x78800000 + imm) .>> 0) 18)). rewrite Z.shiftr_0_r.
  unfold zip_sbits. change ((1 .<< 18) - 1) with (2 ^ 18 - 1). rewrite Hl. change (1 .<< (18 - 1)) with (2 ^ 17).
  assert (Ht : truthy (imm .& 2 ^ 17) = negb (imm <? 2 ^ 17)).
  { unfold truthy. f_equal. assert (Hs : imm = ((imm / 2 ^ 17) .<< 17) .| (imm mod 2 ^ 17)) by (rewrite lor_shiftl_add by zlia; zlia).
    rewrite Hs at 1. change (2 ^ 17) with (1 .<< 17) at 3. rewrite land_split by zlia.
    assert (Hq : imm / 2 ^ 17 = 0 \/ imm / 2 ^ 17 = 1) by zlia.
    destruct Hq as [E | E]; rewrite E; destruct (Z.ltb_spec imm (2 ^ 17)); try reflexivity; zlia. }
  rewrite Ht. destruct (Z.ltb_spec imm (2 ^ 17)); cbn [negb].
  - unfold s32. rewrite Z.mod_small; lia.
  - rewrite Z.lor_comm, lor_shiftl_add by lia. unfold s32. rewrite Z.mod_small; lia.
Qed.

Definition BUSY : ZOPCODE := mkZOPCODE "BUSY" 0xffc7ffff 0x7883ffff ZIP_OPUNUSED ZIP_OPUNUSED ZIP_OPUNUSED ZIP_OPUNUSED (ZIP_BITFIELD 3 19).

Lemma lookup_op_cons e l ins :
  lookup_op (e :: l) ins = if s_mask e =? 0 then None else if ins .& s_mask e =? s_val e then Some e else lookup_op l ins.
Proof. reflexivity. Qed.

Lemma oplist_head : zip_oplist = BUSY :: tail zip_oplist.
Proof. reflexivity. Qed.

Lemma branch_not_mov imm : 0 <= imm < 2 ^ 18 -> OFFSET_PC_MOV (0x78800000 + imm) = false.
Proof.
  intros Hi. apply Z.eqb_neq. intros E. apply (f_equal (fun x => x .& (0x21f0 .<< 18))) in E. rewrite <- Z.land_assoc in E.
  change (0x87c7e000 .& (0x21f0 .<< 18)) with (0x21f0 .<< 18) in E. rewrite branch_masked in E by done. discriminate E.
Qed.

Lemma branch_lookup imm : 0 <= imm < 2 ^ 18 - 1 -> lookup_op zip_oplist (0x78800000 + imm) = Some BRA.
Proof.
  intros Hi. destruct (branch_imm imm ltac:(lia)) as [_ Hl]. assert (Hm := branch_masked imm 0x3fff ltac:(lia)).
  revert Hl Hm. generalize (0x78800000 + imm). intros ins Hl Hm.
  assert (Hz : (s_mask BUSY =? 0) = false) by reflexivity.
  assert (Hbusy : (ins .& s_mask BUSY =? s_val BUSY) = false).
  { apply Z.eqb_neq. intros E. apply (f_equal (fun x => x .& 0x3ffff)) in E. rewrite <- Z.land_assoc in E.
    change (s_mask BUSY .& 0x3ffff) with 0x3ffff in E. rewrite Hl in E. change (s_val BUSY .& 0x3ffff) with 0x3ffff in E. lia. }
  rewrite oplist_head, lookup_op_cons, Hz, Hbusy.
  assert (Hc : forallb (conflict (0x3fff .<< 18) ((0x1e20 .& 0x3fff) .<< 18)) (take 7 (tail zip_oplist)) = true) by (vm_compute; reflexivity).
  assert (He : tail zip_oplist !! 7%nat = Some BRA) by (vm_compute; reflexivity).
  apply (lookup_at _ _ ins _ 7 BRA Hm Hc He); [discriminate | reflexivity | reflexivity].
Qed.

Lemma branch_entry_text pc ins : 0 < pc -> zip_getbits ins (ZIP_BITFIELD 3 19) = 0 ->
  entry_text pc ins BRA = Some ("BRA        @0x" +:+ fmt_08x (branch_target pc ins BRA)).
Proof.
  intros Hpc Hcc. unfold entry_text. change (s_cf BRA) with (ZIP_BITFIELD 3 19). rewrite Hcc. change (used (ZIP_BITFIELD 3 19)) with true. cbv match.
  change (name zip_ccstr 0) with (Some ""). cbn [mbind option_bind].
  change (is_store BRA) with false. change (strncasecmp_eq "LJMP" (s_opstr BRA) 3) with false. cbv match.
  assert (Hb : is_branch BRA pc = true) by (unfold is_branch; rewrite (proj2 (Z.eqb_neq pc 0)) by lia; reflexivity). rewrite Hb.
  generalize (fmt_08x (branch_target pc ins BRA)). reflexivity.
Qed.

Lemma halfstring_entry addr ins l e : OFFSET_PC_MOV ins = false -> lookup_op l ins = Some e -> zipi_to_halfstring addr ins l = entry_text addr ins e.
Proof. intros Hm Hl. unfold zipi_to_halfstring. by rewrite Hm, table_consistent, Hl. Qed.

(** A branch is shown with its target. *)
Lemma branch_text pc imm : 0 < pc -> 0 < imm < 2 ^ 18 - 1 ->
  zipi_to_double_string pc (0x78800000 + imm) = Some ("BRA        @0x" +:+ fmt_08x (branch_target pc (0x78800000 + imm) BRA), "").
Proof.
  intros Hpc Hi. assert (Hm := branch_masked imm 0x2000 ltac:(lia)).
  assert (Hcc : zip_getbits (0x78800000 + imm) (ZIP_BITFIELD 3 19) = 0).
  { change (zip_getbits ?i (ZIP_BITFIELD 3 19)) with (s32 ((i .>> 19) .& 7 + 0)). rewrite land_7, shiftr_div by lia.
    replace ((0x78800000 + imm) / 2 ^ 19) with 0xf10 by zlia. reflexivity. }
  pose proof (branch_entry_text pc (0x78800000 + imm) Hpc Hcc) as Htext. pose proof (branch_lookup imm ltac:(lia)) as Hop.
  pose proof (branch_not_mov imm ltac:(lia)) as Hmov. unfold zipi_to_double_string.
  rewrite (halfstring_entry _ _ _ _ Hmov Hop), Htext. cbn [mbind option_bind]. change 0x80000000 with (0x2000 .<< 18). rewrite Hm.
  change (truthy ((0x1e20 .& 0x2000) .<< 18)) with false. reflexivity.
Qed.

(** The debugger follows branches with [zop_early_branch], which takes an offset
    of bytes for words and loses the sign: for every branch but one to the next
    instruction it goes elsewhere than the disassembly of the branch says. *)
Theorem early_branch_wrong pc imm :
  0 < pc < 2 ^ 32 -> 0 < imm < 2 ^ 18 - 1 ->
  let ins := 0x78800000 + imm in
  let target := u32 (pc + 4 + (if imm <? 2 ^ 17 then imm else imm - 2 ^ 18)) in
  zipi_to_double_string pc ins = Some ("BRA        @0x" +:+ fmt_08x target, "") /\
  zop_early_branch pc ins = u32 (pc + 4 + 4 * (if imm <? 2 ^ 17 then imm else 2 ^ 18 - imm)) /\
  zop_early_branch pc ins <> target.
Proof.
  intros Hpc Hi ins target. destruct (branch_imm imm ltac:(lia)) as [Hf Hl]. fold ins in Hf, Hl.
  assert (Hm := fun m => branch_masked imm m ltac:(lia)). fold ins in Hm.
  assert (Heb : zop_early_branch pc ins = u32 (pc + 4 + 4 * (if imm <? 2 ^ 17 then imm else 2 ^ 18 - imm))).
  { unfold zop_early_branch. change 0xf8000000 with (0x3e00 .<< 18). rewrite Hm. cbn [negb Z.eqb Z.shiftl Z.land]. rewrite Hl.
    assert (H17 : ins .& 0xffc60000 = 0x78800000 + (imm / 2 ^ 17) * 2 ^ 17).
    { unfold ins. replace (0x78800000 + imm) with (((0x3c40 + imm / 2 ^ 17) .<< 17) .| (imm mod 2 ^ 17)) by (rewrite lor_shiftl_add by zlia; zlia).
      change 0xffc60000 with (0x7fe3 .<< 17). rewrite land_split by zlia.
      assert (Hq : imm / 2 ^ 17 = 0 \/ imm / 2 ^ 17 = 1) by zlia. destruct Hq as [-> | ->]; reflexivity. }
    rewrite H17. destruct (Z.ltb_spec imm (2 ^ 17)).
    - replace (imm / 2 ^ 17) with 0 by zlia. cbn -[u32 Z.shiftl Z.add Z.mul]. f_equal. rewrite shiftl_mul by lia. lia.
    - replace (imm / 2 ^ 17) with 1 by zlia. cbn -[u32 Z.shiftl Z.add Z.mul Z.sub]. f_equal. rewrite shiftl_mul by lia. lia. }
  split; [| split; [exact Heb |]].
  - unfold ins. rewrite branch_text by lia. unfold branch_target. cbn [s_i BRA]. fold ins. rewrite Hf. unfold target.
    by replace (pc + ((if imm <? 2 ^ 17 then imm else imm - 2 ^ 18) + 4)) with (pc + 4 + (if imm <? 2 ^ 17 then imm else imm - 2 ^ 18)) by lia.
  - rewrite Heb. unfold target, u32. destruct (Z.ltb_spec imm (2 ^ 17)); zlia.
Qed.

Lemma early_branch_wrong_witness : 0 < 0x01000000 < 2 ^ 32 /\ zop_early_branch 0x01000000 (0x78800000 + 0x3fff8) <> 0x00fffffc.
Proof. split; [lia |]. exact (proj2 (proj2 (early_branch_wrong 0x01000000 0x3fff8 ltac:(lia) ltac:(lia)))). Defined.

(** Compressed stores. *)
Definition SW_SP : ZOPCODE := mkZOPCODE "SW" 0x87000000 0x85000000 ZIP_OPUNUSED (ZIP_REGFIELD 27) ZIP_SP (ZIP_IMMFIELD 7 16) ZIP_OPUNUSED.
Definition SW_low : ZOPCODE := mkZOPCODE "SW" 0x80000780 0x80000580 ZIP_OPUNUSED (ZIP_REGFIELD 11) (ZIP_REGFIELD 3) (ZIP_IMMFIELD 3 0) ZIP_OPUNUSED.

Lemma cis_not_mov ins : ins .& 0x80000000 = 0x80000000 -> OFFSET_PC_MOV ins = false.
Proof.
  intros Hi. apply Z.eqb_neq. intros E. apply (f_equal (fun x => x .& 0x80000000)) in E. rewrite <- Z.land_assoc in E.
  change (0x87c7e000 .& 0x80000000) with 0x80000000 in E. rewrite Hi in E. discriminate E.
Qed.

Lemma masked_bits ins m v k : ins .& m = v -> m .& k = k -> ins .& k = v .& k.
Proof. intros <- Hk. by rewrite <- Z.land_assoc, Hk. Qed.

(** The text of a store, once its names are known. *)
Lemma store_entry_text addr ins e a b :
  s_opstr e = "SW" -> s_cf e = ZIP_OPUNUSED -> used (s_ra e) = true -> used (s_rb e) = true -> used (s_i e) = true ->
  name zip_regstr (zip_getbits ins (s_ra e)) = Some a -> name zip_regstr (zip_getbits ins (s_rb e)) = Some b ->
  exists i, entry_text addr ins e = Some ("SW         " +:+ a +:+ "," +:+ i +:+ "(" +:+ b +:+ ")").
Proof.
  intros Hop Hcf Hra Hrb Hi Ha Hb. unfold entry_text. rewrite Hcf. change (used ZIP_OPUNUSED) with false. cbn [mbind option_bind].
  assert (Hs : is_store e = true) by (unfold is_store; rewrite Hop; reflexivity). rewrite Hs.
  unfold store_text, field. rewrite Hra, Hrb, Hi, Ha, Hb. cbn [mbind option_bind negb]. rewrite Hop. eexists. reflexivity.
Qed.

Lemma high_store_text addr ins : ins .& 0x87800000 = 0x85800000 ->
  exists a i, zipi_to_halfstring addr ins zip_oplist = Some ("SW         " +:+ a +:+ "," +:+ i +:+ "(SP)").
Proof.
  intros Hins.
  assert (Hc : forallb (conflict 0x87800000 0x85800000) (take 125 zip_oplist) = true) by (vm_compute; reflexivity).
  assert (He : zip_oplist !! 125%nat = Some SW_SP) by (vm_compute; reflexivity).
  assert (Hop : lookup_op zip_oplist ins = Some SW_SP) by (apply (lookup_at _ _ ins _ 125 SW_SP Hins Hc He); [discriminate | reflexivity | reflexivity]).
  rewrite (halfstring_entry _ _ _ _ (cis_not_mov ins (masked_bits _ _ _ 0x80000000 Hins eq_refl)) Hop).
  destruct (reg_short ins (ZIP_REGFIELD 27) eq_refl) as (a & Ha & _).
  assert (Hb : zip_getbits ins ZIP_SP = 13).
  { change (zip_getbits ins ZIP_SP) with (s32 ((ins .>> 0) .& 0 + 13)). by rewrite Z.land_0_r. }
  destruct (store_entry_text addr ins SW_SP a "SP") as (i & E); try reflexivity; [exact Ha | cbn [s_rb SW_SP]; by rewrite Hb |].
  exists a, i. exact E.
Qed.

Lemma low_store_text addr ins : ins .& 0x80000780 = 0x80000580 ->
  exists a i b, zipi_to_halfstring addr ins zip_opbottomlist = Some ("SW         " +:+ a +:+ "," +:+ i +:+ "(" +:+ b +:+ ")") /\
    name zip_regstr (zip_getbits ins (ZIP_REGFIELD 3)) = Some b.
Proof.
  intros Hins.
  assert (Hc : forallb (conflict 0x80000780 0x80000580) (take 16 zip_opbottomlist) = true) by (vm_compute; reflexivity).
  assert (He : zip_opbottomlist !! 16%nat = Some SW_low) by (vm_compute; reflexivity).
  assert (Hop : lookup_op zip_opbottomlist ins = Some SW_low) by (apply (lookup_at _ _ ins _ 16 SW_low Hins Hc He); [discriminate | reflexivity | reflexivity]).
  rewrite (halfstring_entry _ _ _ _ (cis_not_mov ins (masked_bits _ _ _ 0x80000000 Hins eq_refl)) Hop).
  destruct (reg_short ins (ZIP_REGFIELD 11) eq_refl) as (a & Ha & _). destruct (reg_short ins (ZIP_REGFIELD 3) eq_refl) as (b & Hb & _).
  destruct (store_entry_text addr ins SW_low a b) as (i & E); try reflexivity; [exact Ha | exact Hb |]. by exists a, i, b.
Qed.

(** A compressed store through a register in the high half of a word is shown as
    a store to the stack: its entry comes after one that also matches it.  In the
    low half it is shown with its register. *)
Theorem high_store_misread addr ins :
  (ins .& 0x87800000 = 0x85800000 ->
   exists a i, zipi_to_halfstring addr ins zip_oplist = Some ("SW         " +:+ a +:+ "," +:+ i +:+ "(SP)")) /\
  (ins .& 0x80000780 = 0x80000580 ->
   exists a i b, zipi_to_halfstring addr ins zip_opbottomlist = Some ("SW         " +:+ a +:+ "," +:+ i +:+ "(" +:+ b +:+ ")") /\
     name zip_regstr (zip_getbits ins (ZIP_REGFIELD 3)) = Some b).
Proof.
  split; intros Hins.
  - destruct (high_store_text addr ins Hins) as (a & i & E). by exists a, i.
  - destruct (low_store_text addr ins Hins) as (a & i & b & E & Hb). by exists a, i, b.
Qed.

Lemma high_store_misread_witness : exists a i, zipi_to_halfstring 0x100 0x85900000 zip_oplist = Some ("SW         " +:+ a +:+ "," +:+ i +:+ "(SP)").
Proof. exact (proj1 (high_store_misread 0x100 0x85900000) eq_refl). Defined.
