(* ===== verification/Boot.v ===== *)
(** The boot loader of the board (src/sw/rv32/bootloader.c; the copy in
    src/sw/zlib/crt0.c is the same where the DMA is not used).

    Memory is a function from addresses to words, and the symbols of the linker
    script, which are aligned, are addresses of words; [NULL] is 0. *)

From stdpp Require Import base tactics list numbers.
From Stdlib Require Import ZArith Lia.
From S2P Require Import Prelude.
Local Open Scope Z_scope.

Record LAYOUT : Type := mkLAYOUT {
  _rom : Z; _kram : Z; _ram : Z;
  _kram_start : Z; _kram_end : Z;
  _ram_image_end : Z; _bss_image_end : Z
}.

Definition upd (m : Z -> Z) (a v : Z) : Z -> Z := fun x => if x =? a then v else m x.

(** [*wrp++ = *rdp++], and [*wrp++ = 0], [n] times. *)
Fixpoint copy (n : nat) (rdp wrp : Z) (m : Z -> Z) : Z -> Z :=
  match n with O => m | S n' => copy n' (rdp + 1) (wrp + 1) (upd m wrp (m rdp)) end.
Fixpoint zero (n : nat) (wrp : Z) (m : Z -> Z) : Z -> Z :=
  match n with O => m | S n' => zero n' (wrp + 1) (upd m wrp 0) end.

Definition bootloader (l : LAYOUT) (m : Z -> Z) : Z -> Z :=
  if _rom l =? 0 then
    let wrp := _ram_image_end l in
    zero (Z.to_nat (_ram_image_end l - wrp)) wrp m
  else
    let rdp := _kram_start l in
    let wrp := if negb (_kram l =? 0) then _kram l else _ram l in
    let n := if negb (_kram_end l =? _kram_start l) then Z.to_nat (_kram_end l - wrp) else O in
    let m := copy n rdp wrp m in
    let rdp := rdp + Z.of_nat n in
    let wrp := wrp + Z.of_nat n in
    let wrp := if negb (_ram l =? 0) then _ram l else wrp in
    let n := Z.to_nat (_ram_image_end l - _ram l) in
    let m := copy n rdp wrp m in
    let wrp := wrp + Z.of_nat n in
    zero (Z.to_nat (_bss_image_end l - _ram_image_end l)) wrp m.

(** ** The loops *)

Lemma copy_spec n : forall rdp wrp m, (rdp + Z.of_nat n <= wrp \/ wrp + Z.of_nat n <= rdp) ->
  forall x, copy n rdp wrp m x = if (wrp <=? x) && (x <? wrp + Z.of_nat n) then m (rdp + (x - wrp)) else m x.
Proof.
  induction n as [| n IH]; intros rdp wrp m Hd x; cbn [copy].
  - destruct (Z.leb_spec wrp x), (Z.ltb_spec x (wrp + Z.of_nat 0)); try done; lia.
  - rewrite IH by lia. unfold upd. 
    destruct (Z.leb_spec (wrp + 1) x), (Z.ltb_spec x (wrp + 1 + Z.of_nat n)), (Z.leb_spec wrp x), (Z.ltb_spec x (wrp + Z.of_nat (S n)));
      cbn [andb]; try lia.
    + destruct (Z.eqb_spec (rdp + 1 + (x - (wrp + 1))) wrp); [lia |]. f_equal. lia.
    + destruct (Z.eqb_spec x wrp); [lia | done].
    + destruct (Z.eqb_spec x wrp); [f_equal; lia | lia].
    + destruct (Z.eqb_spec x wrp); [lia | done].
Qed.

Lemma zero_spec n : forall wrp m x, zero n wrp m x = if (wrp <=? x) && (x <? wrp + Z.of_nat n) then 0 else m x.
Proof.
  induction n as [| n IH]; intros wrp m x; cbn [zero].
  - destruct (Z.leb_spec wrp x), (Z.ltb_spec x (wrp + Z.of_nat 0)); try done; lia.
  - rewrite IH. unfold upd.
    destruct (Z.leb_spec (wrp + 1) x), (Z.ltb_spec x (wrp + 1 + Z.of_nat n)), (Z.leb_spec wrp x), (Z.ltb_spec x (wrp + Z.of_nat (S n)));
      cbn [andb]; try lia; destruct (Z.eqb_spec x wrp); try lia; done.
Qed.

(** ** Layouts *)

(** The areas of a program in flash, whose image starts at [_kram_start]: block
    RAM, when there is any, then memory and what is to be cleared behind it. *)
Record in_flash (l : LAYOUT) : Prop := {
  fl_rom : _rom l <> 0;
  fl_ram : _ram l <> 0;
  fl_ram_size : _ram l <= _ram_image_end l <= _bss_image_end l;
  fl_kram : _kram_end l = _kram_start l \/ (_kram l <> 0 /\ _kram l <= _kram_end l /\ (_kram_end l <= _ram l \/ _bss_image_end l <= _kram l))
}.

Definition kram_words (l : LAYOUT) : Z := if _kram_end l =? _kram_start l then 0 else _kram_end l - _kram l.
Definition ram_words (l : LAYOUT) : Z := _ram_image_end l - _ram l.

(** The image is apart from what is written. *)
Record image_apart (l : LAYOUT) : Prop := {
  ia_ram : _kram_start l + kram_words l + ram_words l <= _ram l \/ _bss_image_end l <= _kram_start l;
  ia_kram : kram_words l = 0 \/ _kram_start l + kram_words l + ram_words l <= _kram l \/ _kram_end l <= _kram_start l
}.

Lemma boot_areas l m : in_flash l -> image_apart l ->
  (forall i, 0 <= i < kram_words l -> bootloader l m (_kram l + i) = m (_kram_start l + i)) /\
  (forall i, 0 <= i < ram_words l -> bootloader l m (_ram l + i) = m (_kram_start l + kram_words l + i)) /\
  (forall x, _ram_image_end l <= x < _bss_image_end l -> bootloader l m x = 0) /\
  (forall x, (x < _ram l \/ _bss_image_end l <= x) -> (kram_words l = 0 \/ x < _kram l \/ _kram_end l <= x) -> bootloader l m x = m x).
Proof.
  intros [F1 F2 F3 F4] [A1 A2]. unfold bootloader. rewrite (proj2 (Z.eqb_neq _ _) F1), (proj2 (Z.eqb_neq _ _) F2). cbn [negb].
  set (w := if negb (_kram l =? 0) then _kram l else _ram l).
  set (n := if negb (_kram_end l =? _kram_start l) then Z.to_nat (_kram_end l - w) else O).
  assert (Hn : Z.of_nat n = kram_words l /\ (kram_words l = 0 \/ w = _kram l)).
  { unfold n, kram_words, w in *. destruct (Z.eqb_spec (_kram_end l) (_kram_start l)); cbn [negb]; [lia |].
    destruct F4 as [? | (? & ? & ?)]; [done |]. rewrite (proj2 (Z.eqb_neq (_kram l) 0)) by done. cbn [negb]. lia. }
  destruct Hn as [Hn Hw]. unfold kram_words, ram_words in *. set (k := if _kram_end l =? _kram_start l then 0 else _kram_end l - _kram l) in *.
  assert (Hk : k = 0 \/ (k = _kram_end l - _kram l /\ 0 <= k /\ (_kram_end l <= _ram l \/ _bss_image_end l <= _kram l))).
  { unfold k. destruct (Z.eqb_spec (_kram_end l) (_kram_start l)); [by left |]. destruct F4 as [? | (? & ? & ?)]; [done | right; lia]. }
  repeat split; intros x Hx; try intros Hx2; rewrite zero_spec, copy_spec by lia.
  all: repeat match goal with |- context [(?a <=? ?b) && (?c <? ?d)] =>
    destruct (Z.leb_spec a b), (Z.ltb_spec c d); cbn [andb]; try lia end.
  all: try (rewrite copy_spec by lia); repeat match goal with |- context [(?a <=? ?b) && (?c <? ?d)] =>
    destruct (Z.leb_spec a b), (Z.ltb_spec c d); cbn [andb]; try lia end.
  all: f_equal; lia.
Qed.

(** C38: After the boot loader each area has its part of the image, what the program
    expects to be clear is clear, and nothing else has changed. *)
Theorem boot_loads l m : in_flash l -> image_apart l ->
  (forall i, 0 <= i < kram_words l -> bootloader l m (_kram l + i) = m (_kram_start l + i)) /\
  (forall i, 0 <= i < ram_words l -> bootloader l m (_ram l + i) = m (_kram_start l + kram_words l + i)) /\
  (forall x, _ram_image_end l <= x < _bss_image_end l -> bootloader l m x = 0) /\
  (forall x, (x < _ram l \/ _bss_image_end l <= x) -> (kram_words l = 0 \/ x < _kram l \/ _kram_end l <= x) -> bootloader l m x = m x).
Proof. apply boot_areas. Qed.

(** The layout of board.ld, with no block RAM of its own. *)
Definition board_ld : LAYOUT := mkLAYOUT 0x400000 0 0x280000 0x401000 0x401000 0x280100 0x280200.

Lemma boot_loads_witness :
  in_flash board_ld /\ (forall i, 0 <= i < 256 -> bootloader board_ld (fun x => x) (0x280000 + i) = 0x401000 + i) /\ bootloader board_ld (fun x => x) 0x280100 = 0.
Proof.
  assert (F : in_flash board_ld) by (split; cbn; lia).
  assert (A : image_apart board_ld) by (split; cbn; lia).
  destruct (boot_loads board_ld (fun x => x) F A) as (_ & H2 & H3 & _). split; [exact F |]. split; [| apply H3; cbn; lia].
  intros i Hi. transitivity (0x401000 + 0 + i); [apply (H2 i); unfold ram_words; cbn; lia | lia].
Defined.

(** A program that is linked into memory (bkram.ld, without flash): its area of
    cleared memory is not cleared. *)
Lemma boot_without_flash l m : _rom l = 0 -> bootloader l m = m.
Proof. intros Hr. unfold bootloader. rewrite Hr, Z.sub_diag. done. Qed.
