(* ===== verification/Txfns.v ===== *)
(** The output routines of the board (src/sw/rv32/txfns.c).

    The serial port is a status that is read until it is ready and a register
    for the characters; how many reads that takes is given by [tx_waits]. *)

From stdpp Require Import base tactics list numbers.
From Stdlib Require Import ZArith Lia.
From S2P Require Import Prelude.
Local Open Scope Z_scope.

(** The static variable of [txchr], what was written, and for each character to
    come the number of reads that find the port busy. *)
Record TXS : Type := mkTXS { last_was_cr : Z; u_tx : list Z; tx_waits : nat -> nat }.
#[export] Instance set_last_was_cr : Setter last_was_cr := fun v s => mkTXS v (u_tx s) (tx_waits s).
#[export] Instance set_u_tx : Setter u_tx := fun v s => mkTXS (last_was_cr s) v (tx_waits s).
#[export] Instance set_tx_waits : Setter tx_waits := fun v s => mkTXS (last_was_cr s) (u_tx s) v.

Abbreviation TM := (M TXS).

(** [UARTTX_READY], a read of the status. *)
Definition uarttx_ready : TM bool := fun s =>
  match tx_waits s 0%nat with
  | O => Ret true s
  | S n => Ret false (s <| tx_waits := fun i => if decide (i = 0%nat) then n else tx_waits s i |>)
  end.

(** [while(!UARTTX_READY) ;] *)
Definition wait_ready (fuel : nat) : TM unit :=
  loop fuel (fun _ : unit => let* r := uarttx_ready in if r then ret (inr tt) else ret (inl tt)) tt.

(** [_uart->u_tx = c] *)
Definition write_tx (c : Z) : TM unit := modify (fun s => s <| u_tx := u_tx s ++ [c] |> <| tx_waits := fun i => tx_waits s (S i) |>).

(** [val] is the character as a signed [char]. *)
Definition txchr (fuel : nat) (val : Z) : TM unit :=
  let v := u8 val in
  let* s := get in
  (if (0 =? last_was_cr s) && (val =? 10) then wait_ready fuel ;; write_tx 13 else ret tt) ;;
  wait_ready fuel ;;
  write_tx v ;;
  modify (fun s => s <| last_was_cr := if v =? 13 then 1 else 0 |>).

(** The characters of a string up to its end. *)
Definition txstr (fuel : nat) (str : list Z) : TM unit := for_each str (txchr fuel).

Definition hex_digit (val i : Z) : Z :=
  let ch := ((val .>> i) .& 0x0f) + 48 in
  if 57 <? ch then ch - 48 + 65 - 10 else ch.
Definition txhex (fuel : nat) (val : Z) : TM unit :=
  for_each [28; 24; 20; 16; 12; 8; 4; 0] (fun i => txchr fuel (hex_digit val i)).

(** The digits of [uval] in [tmp], low order digit first. *)
Fixpoint digits (n : nat) (uval : Z) : option (list Z) :=
  if 0 <? uval then
    match n with
    | O => None
    | S n' => let dval := Z.quot uval 10 in
              let digit := u32 (uval - dval * 10) in
              ds ← digits n' dval; Some (digit + 48 :: ds)
    end
  else Some [].

(** [tmp] has 16 characters. *)
Definition txdecimal (fuel : nat) (val : Z) : TM unit :=
  let uval := if val <? 0 then s32 (- val) else val in
  txchr fuel (if val <? 0 then 45 else 32) ;;
  match (if uval =? 0 then Some [48] else digits 16 uval) with
  | None => raise FAULT
  | Some tmp => for_each (rev tmp) (txchr fuel)
  end.

(** ** What is sent *)

(** The characters as they go out: a line feed gets a carriage return before it,
    unless there is one. *)
Fixpoint cooked (cr : bool) (l : list Z) : list Z :=
  match l with
  | [] => []
  | c :: l' => (if negb cr && (c =? 10) then [13] else []) ++ u8 c :: cooked (u8 c =? 13) l'
  end.

Definition patient (fuel : nat) (s : TXS) : Prop := forall i, (tx_waits s i < fuel)%nat.

Lemma wait_ready_ok fuel s : patient fuel s ->
  exists w, wait_ready fuel s = Ret tt (s <| tx_waits := w |>) /\ w 0%nat = 0%nat /\ (forall i, w (S i) = tx_waits s (S i)).
Proof.
  intros Hp. specialize (Hp 0%nat). unfold wait_ready. remember (tx_waits s 0%nat) as k eqn:Hk. revert s fuel Hk Hp.
  induction k as [| k IH]; intros s fuel Hk Hp; (destruct fuel as [| fuel]; [lia |]); cbn [loop].
  - exists (tx_waits s). unfold bind, uarttx_ready. rewrite <- Hk. cbn. split; [by destruct s | done].
  - set (s1 := s <| tx_waits := fun i => if decide (i = 0%nat) then k else tx_waits s i |>).
    destruct (IH s1 fuel eq_refl ltac:(lia)) as (w & Hl & H0 & HS). exists w. split; [| split; [done |]].
    + unfold bind at 1. unfold bind at 1, uarttx_ready. rewrite <- Hk. exact Hl.
    + intros i. by rewrite HS.
Qed.

(** One character. *)
Lemma send_ok fuel c s : patient fuel s ->
  exists w, (wait_ready fuel ;; write_tx c) s = Ret tt (mkTXS (last_was_cr s) (u_tx s ++ [c]) w) /\ (forall i, w i = tx_waits s (S i)).
Proof.
  intros Hp. destruct (wait_ready_ok fuel s Hp) as (w & Hw & _ & HS). eexists. split; [unfold bind; by rewrite Hw |]. intros i. apply HS.
Qed.

Lemma txchr_ok fuel c s : patient fuel s ->
  exists w, txchr fuel c s = Ret tt (mkTXS (if u8 c =? 13 then 1 else 0) (u_tx s ++ cooked (negb (0 =? last_was_cr s)) [c]) w) /\
    patient fuel (mkTXS (if u8 c =? 13 then 1 else 0) (u_tx s ++ cooked (negb (0 =? last_was_cr s)) [c]) w).
Proof.
  intros Hp. unfold txchr. cbn [cooked]. rewrite negb_involutive. erewrite bind_eq by reflexivity.
  destruct ((0 =? last_was_cr s) && (c =? 10)).
  - destruct (send_ok fuel 13 s Hp) as (w1 & H1 & Hw1). nstep H1. set (s1 := mkTXS _ _ w1).
    destruct (send_ok fuel (u8 c) s1) as (w2 & H2 & Hw2); [intros i; cbn; rewrite Hw1; apply Hp |].
    exists w2. split; [| intros i; cbn; rewrite Hw2; cbn; rewrite Hw1; apply Hp]. rewrite <- bind_assoc. nstep H2. cbn. by rewrite <- app_assoc.
  - erewrite bind_eq by reflexivity. destruct (send_ok fuel (u8 c) s Hp) as (w2 & H2 & Hw2).
    exists w2. split; [| intros i; cbn; rewrite Hw2; apply Hp]. rewrite <- bind_assoc. nstep H2. done.
Qed.

Lemma cooked_cons cr c l : cooked cr (c :: l) = cooked cr [c] ++ cooked (u8 c =? 13) l.
Proof. cbn. by destruct (negb cr && (c =? 10)). Qed.

Lemma txstr_ok fuel l : forall s, patient fuel s ->
  exists s', txstr fuel l s = Ret tt s' /\ u_tx s' = u_tx s ++ cooked (negb (0 =? last_was_cr s)) l /\ patient fuel s'.
Proof.
  induction l as [| c l IH]; intros s Hp; unfold txstr in *; cbn [for_each].
  { exists s. cbn. by rewrite app_nil_r. }
  destruct (txchr_ok fuel c s Hp) as (w & Hc & Hp1). nstep Hc. destruct (IH _ Hp1) as (s' & Hl & Hu & Hp').
  exists s'. split; [exact Hl |]. split; [| done]. rewrite Hu, (cooked_cons _ c l), app_assoc. cbn [u_tx last_was_cr]. f_equal. by destruct (u8 c =? 13).
Qed.

(** ** Numbers *)

(** The value of decimal digits, high order digit first. *)
Definition decimal_value (ds : list Z) : Z := foldl (fun a d => 10 * a + (d - 48)) 0 ds.
Abbreviation is_digit := (fun d => 48 <= d <= 57).

Lemma decimal_value_snoc ds d : decimal_value (ds ++ [d]) = 10 * decimal_value ds + (d - 48).
Proof. unfold decimal_value. by rewrite foldl_app. Qed.

Lemma digits_ok n : forall uval, 0 < uval < 10 ^ Z.of_nat n -> uval < 2 ^ 31 ->
  exists ds, digits n uval = Some ds /\ Forall is_digit ds /\ decimal_value (rev ds) = uval /\ exists d l, rev ds = d :: l /\ d <> 48.
Proof.
  induction n as [| n IH]; intros uval Hu H31; [cbn in Hu; lia |].
  rewrite Nat2Z.inj_succ, Z.pow_succ_r in Hu by lia. cbn [digits]. destruct (Z.ltb_spec 0 uval); [| lia].
  assert (Hq : Z.quot uval 10 = uval / 10) by (apply Z.quot_div_nonneg; lia). rewrite Hq.
  assert (Hd : u32 (uval - uval / 10 * 10) = uval mod 10) by (unfold u32; rewrite Z.mod_small; zlia). rewrite Hd.
  destruct (Z.eq_dec (uval / 10) 0) as [E | E].
  - rewrite E. replace (digits n 0) with (Some (@nil Z)) by (by destruct n). cbn [mbind option_bind]. eexists. split; [done |].
    split; [repeat constructor; zlia |]. cbn [rev app]. split; [unfold decimal_value; cbn; zlia |]. eexists _, []. split; [done | zlia].
  - destruct (IH (uval / 10)) as (ds & -> & Hds & Hv & d & l & Hr & Hne); [zlia | zlia |]. cbn [mbind option_bind]. eexists. split; [done |].
    split; [constructor; [zlia | done] |]. cbn [rev]. rewrite decimal_value_snoc, Hv. split; [zlia |]. rewrite Hr. by eexists _, _.
Qed.

Lemma cooked_plain l : Forall (fun c => 13 < c < 256) l -> forall cr, cooked cr l = l.
Proof.
  induction 1 as [| c l Hc _ IH]; intros cr; [done |]. cbn [cooked]. rewrite IH. unfold u8. rewrite Z.mod_small by lia.
  destruct (Z.eqb_spec c 10); [lia |]. by rewrite andb_false_r.
Qed.

(** The digits of a number, as [txdecimal] computes them. *)
Lemma decimal_digits val : - 2 ^ 31 < val < 2 ^ 31 ->
  exists tmp, (if (if val <? 0 then s32 (- val) else val) =? 0 then Some [48] else digits 16 (if val <? 0 then s32 (- val) else val)) = Some tmp /\
    Forall is_digit (rev tmp) /\ decimal_value (rev tmp) = Z.abs val /\ (val <> 0 -> exists d l, rev tmp = d :: l /\ d <> 48).
Proof.
  intros Hv. assert (Hu : (if val <? 0 then s32 (- val) else val) = Z.abs val).
  { destruct (Z.ltb_spec val 0); [| lia]. unfold s32. rewrite Z.mod_small; lia. }
  rewrite Hu. destruct (Z.eqb_spec (Z.abs val) 0) as [E | E].
  - exists [48]. split; [done |]. split; [repeat constructor; lia |]. split; [by rewrite E | lia].
  - destruct (digits_ok 16 (Z.abs val)) as (ds & Hd & Hds & Hval & Hne); [cbn; lia | lia |]. exists ds. split; [done |].
    split; [by apply Forall_rev |]. split; [done |]. by intros _.
Qed.

(** [txdecimal] sends a sign or a space and then the decimal digits of its
    argument without a leading zero, whatever the port takes to be ready. *)
Theorem txdecimal_prints fuel val s :
  patient fuel s -> - 2 ^ 31 < val < 2 ^ 31 ->
  exists ds s', txdecimal fuel val s = Ret tt s' /\ u_tx s' = u_tx s ++ (if val <? 0 then 45 else 32) :: ds /\
    Forall is_digit ds /\ decimal_value ds = Z.abs val /\ (val <> 0 -> exists d l, ds = d :: l /\ d <> 48).
Proof.
  intros Hp Hv. destruct (decimal_digits val Hv) as (tmp & Htmp & Hds & Hval & Hne). exists (rev tmp).
  set (sign := if val <? 0 then 45 else 32). assert (Hplain : Forall (fun c => 13 < c < 256) (sign :: rev tmp)).
  { constructor; [unfold sign; destruct (val <? 0); lia |]. eapply Forall_impl; [| exact Hds]. cbv beta. lia. }
  destruct (txstr_ok fuel (sign :: rev tmp) s Hp) as (s' & Hl & Hu & _). rewrite cooked_plain in Hu by done.
  exists s'. split; [| done]. unfold txdecimal. rewrite Htmp. exact Hl.
Qed.

Lemma txdecimal_prints_witness : exists ds s', txdecimal 4 (-1234) (mkTXS 0 [] (fun _ => 3%nat)) = Ret tt s' /\ decimal_value ds = 1234 /\ u_tx s' = 45 :: ds.
Proof.
  destruct (txdecimal_prints 4 (-1234) (mkTXS 0 [] (fun _ => 3%nat))) as (ds & s' & E & Hu & _ & Hv & _); [intros i; cbn; lia | lia |].
  exists ds, s'. split; [exact E |]. split; [exact Hv | exact Hu].
Defined.

(** Lines: each line feed goes out as a carriage return and a line feed, also
    when the string has the carriage return itself. *)
Example txstr_line : match txstr 4 [104; 10; 13; 10] (mkTXS 0 [] (fun _ => 3%nat)) with Ret _ s => u_tx s = [104; 13; 10; 13; 10] | Exn _ _ => False end.
Proof. vm_compute. reflexivity. Qed.

(** The most negative number is sent as a sign alone. *)
Example txdecimal_min : match txdecimal 1 (- 2 ^ 31) (mkTXS 0 [] (fun _ => 0%nat)) with Ret _ s => u_tx s = [45] | Exn _ _ => False end.
Proof. vm_compute. reflexivity. Qed.

(** [txhex] sends the eight hexadecimal digits of its argument. *)
Definition hex_value (ds : list Z) : Z := foldl (fun a d => 16 * a + (if 57 <? d then d - 55 else d - 48)) 0 ds.

Definition hex8 (val : Z) : list Z := map (hex_digit val) [28; 24; 20; 16; 12; 8; 4; 0].

Lemma hex8_plain val : Forall (fun c => 13 < c < 256) (hex8 val).
Proof.
  apply Forall_map, Forall_forall. intros i _. unfold hex_digit. rewrite land_15. pose proof (Z.mod_pos_bound (val .>> i) 16 ltac:(lia)).
  destruct (Z.ltb_spec 57 ((val .>> i) mod 16 + 48)); lia.
Qed.

Lemma hex8_value val : 0 <= val < 2 ^ 32 -> hex_value (hex8 val) = val.
Proof.
  intros Hv. assert (Hval : forall i, (if 57 <? hex_digit val i then hex_digit val i - 55 else hex_digit val i - 48) = (val .>> i) mod 16).
  { intros i. unfold hex_digit. rewrite land_15. pose proof (Z.mod_pos_bound (val .>> i) 16 ltac:(lia)).
    destruct (Z.ltb_spec 57 ((val .>> i) mod 16 + 48)); [rewrite (proj2 (Z.ltb_lt 57 _)) by lia | rewrite (proj2 (Z.ltb_ge 57 _)) by lia]; lia. }
  unfold hex_value, hex8. cbn [map foldl]. rewrite !Hval, !shiftr_div by lia. zlia.
Qed.

Lemma txhex_ok fuel val s : patient fuel s -> 0 <= val < 2 ^ 32 ->
  exists ds s', txhex fuel val s = Ret tt s' /\ u_tx s' = u_tx s ++ ds /\ length ds = 8%nat /\ hex_value ds = val.
Proof.
  intros Hp Hv. destruct (txstr_ok fuel (hex8 val) s Hp) as (s' & Hl & Hu & _). rewrite cooked_plain in Hu by apply hex8_plain.
  exists (hex8 val), s'. split; [exact Hl |]. split; [done |]. split; [done | by apply hex8_value].
Qed.
