(* ===== verification/Irq.v ===== *)
(** The interrupt handler of the board (src/sw/rv32/irq.c).

    It counts interrupts, and on an illegal instruction or a bus error prints a
    report through the routines of [Txfns] and stops.  The registers are the
    words from its argument on, the program the halfwords of memory.  The theorems:
    an interrupt that is no error is counted and says nothing; for an error the
    report is complete, and its table shows every register where it says. *)

From stdpp Require Import base tactics list numbers strings.
From Stdlib Require Import ZArith Lia.
From S2P Require Import Prelude Txfns.
Local Open Scope Z_scope.

(** The characters of a literal. *)
Definition literal (s : string) : list Z := (fun c => Z.of_nat (Ascii.nat_of_ascii c)) <$> String.list_ascii_of_string s.
Definition NL : list Z := [10].

(** The serial port and the static variables of [irq]. *)
Record IRQS : Type := mkIRQS { i_tx : TXS; ext_irq_4_count : Z; ext_irq_5_count : Z; timer_irq_count : Z }.
#[export] Instance set_i_tx : Setter i_tx := fun v s => mkIRQS v (ext_irq_4_count s) (ext_irq_5_count s) (timer_irq_count s).
#[export] Instance set_ext_irq_4_count : Setter ext_irq_4_count := fun v s => mkIRQS (i_tx s) v (ext_irq_5_count s) (timer_irq_count s).
#[export] Instance set_ext_irq_5_count : Setter ext_irq_5_count := fun v s => mkIRQS (i_tx s) (ext_irq_4_count s) v (timer_irq_count s).
#[export] Instance set_timer_irq_count : Setter timer_irq_count := fun v s => mkIRQS (i_tx s) (ext_irq_4_count s) (ext_irq_5_count s) v.

(** A call of an output routine. *)
Definition on_tx {A} (m : TM A) : M IRQS A := fun s =>
  match m (i_tx s) with
  | Ret a t => Ret a (s <| i_tx := t |>)
  | Exn e t => Exn e (s <| i_tx := t |>)
  end.

(** [ebreak] while an interrupt is handled stops the processor. *)
Definition ebreak : M IRQS unit := raise HANG.

Section irq.
  Context (fuel : nat) (mem16 : Z -> Z) (heap : Z) (regs : Z -> Z).

Definition tx_str (s : list Z) : M IRQS unit := on_tx (txstr fuel s).
Definition tx_chr (c : Z) : M IRQS unit := on_tx (txchr fuel c).
Definition tx_hex (v : Z) : M IRQS unit := on_tx (txhex fuel v).
(** The argument of [txdecimal] is an [int]. *)
Definition tx_decimal (v : Z) : M IRQS unit := on_tx (txdecimal fuel (s32 v)).

Definition irq_pc : Z := if truthy (regs 0 .& 1) then u32 (regs 0 - 3) else u32 (regs 0 - 4).
Definition irq_instr : Z :=
  let instr := mem16 irq_pc in
  if instr .& 3 =? 3 then instr .| u32 (mem16 (u32 (irq_pc + 2)) .<< 16) else instr.

(** The check of the compressed instruction's mark. *)
Definition irq_check : M IRQS unit :=
  if negb (of_bool (negb (irq_instr .& 3 =? 3)) =? regs 0 .& 1) then
    tx_str (literal "Mismatch between q0 LSB and decoded instruction word! q0=0x") ;;
    tx_hex (regs 0) ;;
    tx_str (literal ", instr=0x") ;;
    (if irq_instr .& 3 =? 3 then tx_hex irq_instr else tx_hex irq_instr) ;;
    tx_str NL ;;
    ebreak
  else ret tt.

Definition irq_count (irqs : Z) : M IRQS unit :=
  (if truthy (irqs .& (1 .<< 4)) then modify (fun s => s <| ext_irq_4_count := u32 (ext_irq_4_count s + 1) |>) else ret tt) ;;
  (if truthy (irqs .& (1 .<< 5)) then modify (fun s => s <| ext_irq_5_count := u32 (ext_irq_5_count s + 1) |>) else ret tt) ;;
  (if truthy (irqs .& 1) then modify (fun s => s <| timer_irq_count := u32 (timer_irq_count s + 1) |>) else ret tt).

Definition irq_ruler : list Z := literal "------------------------------------------------------------" ++ NL.

(** What happened, and where. *)
Definition irq_cause (irqs : Z) : M IRQS unit :=
  (if truthy (irqs .& 2) then
     if (irq_instr =? 0x00100073) || (irq_instr =? 0x9002) then
       tx_str (literal "EBREAK instruction at 0x") ;; tx_hex irq_pc ;; tx_str NL
     else
       tx_str (literal "Illegal Instruction at 0x") ;; tx_hex irq_pc ;; tx_str (literal ": 0x") ;; tx_hex irq_instr ;; tx_str NL
   else ret tt) ;;
  (if truthy (irqs .& 4) then
     tx_str (literal "Bus error in Instruction at 0x") ;; tx_hex irq_pc ;; tx_str (literal ": 0x") ;; tx_hex irq_instr ;; tx_str NL
   else ret tt).

(** The name of register [r]. *)
Definition irq_regname (r : Z) : M IRQS unit :=
  if r =? 0 then tx_str (literal "pc  ")
  else if r =? 2 then tx_str (literal "sp  ")
  else if r <? 10 then tx_chr 120 ;; tx_chr (48 + r) ;; tx_chr 32 ;; tx_chr 32
  else if r <? 20 then tx_chr 120 ;; tx_chr 49 ;; tx_chr (48 + r - 10) ;; tx_chr 32
  else if r <? 30 then tx_chr 120 ;; tx_chr 50 ;; tx_chr (48 + r - 20) ;; tx_chr 32
  else tx_chr 120 ;; tx_chr 51 ;; tx_chr (48 + r - 30) ;; tx_chr 32.

Definition irq_regtable : M IRQS unit :=
  for_each [0; 1; 2; 3; 4; 5; 6; 7] (fun i => for_each [0; 1; 2; 3] (fun k =>
    let r := i + k * 8 in
    irq_regname r ;;
    tx_hex (regs r) ;;
    tx_str (if k =? 3 then NL else literal "    "))).

Definition irq_tail : M IRQS unit :=
  tx_str (literal "Heap pointer: 0x") ;; tx_hex heap ;; tx_str NL ;;
  tx_str (literal "Number of fast external IRQs counted: ") ;;
  (let* s := get in tx_decimal (ext_irq_4_count s)) ;;
  tx_str NL ;;
  tx_str (literal "Number of slow external IRQs counted: ") ;;
  (let* s := get in tx_decimal (ext_irq_5_count s)) ;;
  tx_str NL ;;
  tx_str (literal "Number of timer IRQs counted: ") ;;
  (let* s := get in tx_decimal (timer_irq_count s)) ;;
  tx_str NL.

(** [irq] returns [regs]. *)
Definition irq (irqs : Z) : M IRQS unit :=
  (if truthy (irqs .& 6) then irq_check else ret tt) ;;
  irq_count irqs ;;
  if truthy (irqs .& 6) then
    tx_str NL ;; tx_str irq_ruler ;; irq_cause irqs ;; irq_regtable ;; tx_str irq_ruler ;; irq_tail ;; ebreak
  else ret tt.
End irq.

(** ** The report

    The characters of each part, and that the part sends them. *)

Definition dec_text (v : Z) : list Z :=
  (if v <? 0 then 45 else 32) :: rev (default [] (let uval := if v <? 0 then s32 (- v) else v in if uval =? 0 then Some [48] else digits 16 uval)).

Definition reg_names : list string :=
  ["pc  "; "x1  "; "sp  "; "x3  "; "x4  "; "x5  "; "x6  "; "x7  "; "x8  "; "x9  "; "x10 "; "x11 "; "x12 "; "x13 "; "x14 "; "x15 ";
   "x16 "; "x17 "; "x18 "; "x19 "; "x20 "; "x21 "; "x22 "; "x23 "; "x24 "; "x25 "; "x26 "; "x27 "; "x28 "; "x29 "; "x30 "; "x31 "].
Definition reg_name (r : Z) : list Z := literal (default EmptyString (reg_names !! Z.to_nat r)).

Definition cell (regs : Z -> Z) (r : Z) : list Z := reg_name r ++ hex8 (regs r).
(** A row of the table without its line end. *)
Definition row (regs : Z -> Z) (i : Z) : list Z :=
  cell regs i ++ literal "    " ++ cell regs (i + 8) ++ literal "    " ++ cell regs (i + 16) ++ literal "    " ++ cell regs (i + 24).
Definition rows : list Z := [0; 1; 2; 3; 4; 5; 6; 7].

Definition at_text (what : string) (pc : Z) : list Z := literal what ++ hex8 pc.
Definition cause_text (irqs pc instr : Z) : list Z :=
  (if truthy (irqs .& 2) then
     if (instr =? 0x00100073) || (instr =? 0x9002) then at_text "EBREAK instruction at 0x" pc ++ NL
     else at_text "Illegal Instruction at 0x" pc ++ at_text ": 0x" instr ++ NL
   else []) ++
  (if truthy (irqs .& 4) then at_text "Bus error in Instruction at 0x" pc ++ at_text ": 0x" instr ++ NL else []).
Definition count_text (what : string) (n : Z) : list Z := literal what ++ dec_text (s32 n) ++ NL.
Definition tail_text (heap : Z) (c : Z * Z * Z) : list Z :=
  at_text "Heap pointer: 0x" heap ++ NL ++
  count_text "Number of fast external IRQs counted: " c.1.1 ++
  count_text "Number of slow external IRQs counted: " c.1.2 ++
  count_text "Number of timer IRQs counted: " c.2.

Definition counts (s : IRQS) : Z * Z * Z := (ext_irq_4_count s, ext_irq_5_count s, timer_irq_count s).

(** [prints c t m]: with the counts [c], [m] is the sending of [t]. *)
Section prints.
  Context (fuel : nat) (c : Z * Z * Z).

Definition prints (t : list Z) (m : M IRQS unit) : Prop := forall s, counts s = c -> m s = tx_str fuel t s.

Lemma txstr_app t1 t2 s : txstr fuel (t1 ++ t2) s = (txstr fuel t1 ;; txstr fuel t2) s.
Proof.
  unfold txstr. revert s. induction t1 as [| x t1 IH]; intros s; [done |]. cbn [for_each app]. rewrite bind_assoc. unfold bind at 1 2.
  destruct (txchr fuel x s); [apply IH | done].
Qed.

Lemma prints_seq t1 t2 m1 m2 : prints t1 m1 -> prints t2 m2 -> prints (t1 ++ t2) (m1 ;; m2).
Proof.
  intros H1 H2 s Hs. unfold bind. rewrite (H1 s Hs). unfold tx_str, on_tx. rewrite txstr_app. unfold bind.
  destruct (txstr fuel t1 (i_tx s)) as [[] t | e t]; [| done]. by rewrite (H2 (s <| i_tx := t |>)).
Qed.

Lemma prints_nil : prints [] (ret tt).
Proof. intros s _. by destruct s. Qed.
Lemma prints_str t : prints t (tx_str fuel t).
Proof. done. Qed.
Lemma prints_hex v : prints (hex8 v) (tx_hex fuel v).
Proof. done. Qed.
Lemma prints_chr ch : prints [ch] (tx_chr fuel ch).
Proof. intros s _. unfold tx_chr, tx_str, on_tx, txstr. cbn [for_each]. unfold bind. by destruct (txchr fuel ch (i_tx s)) as [[] ? | ? ?]. Qed.

Lemma prints_decimal (f : IRQS -> Z) v : (forall s, counts s = c -> f s = v) -> prints (dec_text (s32 v)) (let* s := get in tx_decimal fuel (f s)).
Proof.
  intros Hf s Hs. unfold bind, get. rewrite (Hf s Hs). unfold tx_decimal, tx_str, on_tx, txdecimal, dec_text. cbv zeta.
  assert (Hv : - 2 ^ 31 <= s32 v < 2 ^ 31) by (unfold s32; zlia). set (w := s32 v) in *.
  assert (exists tmp, (if (if w <? 0 then s32 (- w) else w) =? 0 then Some [48] else digits 16 (if w <? 0 then s32 (- w) else w)) = Some tmp) as [tmp ->].
  { destruct (Z.eq_dec w (- 2 ^ 31)) as [-> | Hne]; [by eexists |]. destruct (decimal_digits w) as (tmp & Htmp & _); [lia |]. by exists tmp. }
  done.
Qed.

Lemma prints_if (b : bool) t1 t2 m1 m2 : prints t1 m1 -> prints t2 m2 -> prints (if b then t1 else t2) (if b then m1 else m2).
Proof. by destruct b. Qed.

Lemma prints_for_each {A} (f : A -> list Z) m l : (forall x, x ∈ l -> prints (f x) (m x)) -> prints (concat (f <$> l)) (for_each l m).
Proof.
  induction l as [| x l IH]; intros H; [apply prints_nil |]. cbn [fmap list_fmap concat for_each]. apply prints_seq; [apply H; left |].
  apply IH. intros y Hy. apply H. by right.
Qed.

Lemma prints_eq t t' m : t' = t -> prints t m -> prints t' m.
Proof. by intros ->. Qed.
End prints.

Create HintDb prints.
#[export] Hint Resolve prints_nil prints_str prints_hex prints_chr prints_seq prints_if : prints.

Section report.
  Context (fuel : nat) (mem16 : Z -> Z) (heap : Z) (regs : Z -> Z) (c : Z * Z * Z).

Lemma prints_cause irqs : prints fuel c (cause_text irqs (irq_pc regs) (irq_instr mem16 regs)) (irq_cause fuel mem16 regs irqs).
Proof. unfold cause_text, irq_cause, at_text. rewrite <- ?app_assoc. auto 12 with prints. Qed.

Lemma prints_regname r : 0 <= r < 32 -> prints fuel c (reg_name r) (irq_regname fuel r).
Proof.
  intros Hr. eapply prints_eq; [| unfold irq_regname; repeat (apply prints_if || apply prints_seq || apply prints_str || apply prints_chr)].
  destruct (Z_of_nat_complete r) as [n ->]; [lia |]. do 32 (destruct n as [| n]; [reflexivity |]). lia.
Qed.

Lemma prints_regtable : prints fuel c (concat ((fun i => row regs i ++ NL) <$> rows)) (irq_regtable fuel regs).
Proof.
  apply prints_for_each. intros i Hi. assert (0 <= i < 8) by (unfold rows in Hi; rewrite ?elem_of_cons, elem_of_nil in Hi; lia).
  eapply (prints_eq _ _ (concat ((fun k => reg_name (i + k * 8) ++ hex8 (regs (i + k * 8)) ++ (if k =? 3 then NL else literal "    ")) <$> [0; 1; 2; 3]))).
  - unfold row, cell. cbn [fmap list_fmap concat]. rewrite <- ?app_assoc. cbn [Z.eqb Pos.eqb Z.mul Pos.mul].  rewrite Z.add_0_r, app_nil_r. reflexivity.
  - apply prints_for_each. intros k Hk. rewrite ?elem_of_cons, elem_of_nil in Hk. cbv zeta. auto using prints_regname with prints lia.
Qed.

Lemma prints_tail : prints fuel c (tail_text heap c) (irq_tail fuel heap).
Proof.
  unfold tail_text, irq_tail, at_text, count_text. rewrite <- ?app_assoc.
  repeat (apply prints_seq; [apply prints_str || apply prints_hex || (apply prints_decimal; intros s <-; reflexivity) |]). apply prints_str.
Qed.

(** The whole of the report. *)
Definition report (irqs : Z) : list Z :=
  (NL ++ irq_ruler ++ cause_text irqs (irq_pc regs) (irq_instr mem16 regs)) ++ concat ((fun i => row regs i ++ NL) <$> rows) ++ irq_ruler ++ tail_text heap c.

Lemma prints_report irqs s : counts s = c ->
  (tx_str fuel NL ;; tx_str fuel irq_ruler ;; irq_cause fuel mem16 regs irqs ;; irq_regtable fuel regs ;; tx_str fuel irq_ruler ;; irq_tail fuel heap ;; ebreak) s
  = (tx_str fuel (report irqs) ;; ebreak) s.
Proof.
  intros Hs. unfold report. rewrite <- !app_assoc. symmetry.
  etransitivity; [| rewrite <- !bind_assoc; reflexivity].
  apply bind_cong. symmetry. rewrite !bind_assoc.
  revert s Hs. apply prints_seq; [apply prints_str |]. apply prints_seq; [apply prints_str |]. apply prints_seq; [apply prints_cause |].
  apply prints_seq; [apply prints_regtable |]. apply prints_seq; [apply prints_str | apply prints_tail].
Qed.
End report.

(** ** What the handler does *)

(** The characters as they go out, over two texts. *)
Lemma cooked_app cr l1 l2 : cooked cr (l1 ++ l2) = cooked cr l1 ++ cooked (match last l1 with None => cr | Some ch => u8 ch =? 13 end) l2.
Proof.
  revert cr. induction l1 as [| ch l1 IH]; intros cr; [done |]. cbn [cooked app]. rewrite IH, last_cons, <- !app_assoc. cbn [app].
  by destruct (last l1).
Qed.

Lemma cooked_line l : Forall (fun ch => 13 < ch < 256) l -> cooked false (l ++ NL) = l ++ [13; 10].
Proof.
  intros Hl. rewrite cooked_app, cooked_plain by done. f_equal. destruct (last l) as [ch |] eqn:E; [| done].
  apply last_Some in E as [l' ->]. apply Forall_app in Hl as [_ Hl]. inversion_clear Hl. unfold u8. rewrite Z.mod_small by lia.
  by destruct (Z.eqb_spec ch 13); [lia |].
Qed.

Lemma cooked_lines {A} (f : A -> list Z) l : (forall x, Forall (fun ch => 13 < ch < 256) (f x)) ->
  cooked false (concat ((fun x => f x ++ NL) <$> l)) = concat ((fun x => f x ++ [13; 10]) <$> l).
Proof.
  intros Hf. induction l as [| x l IH]; [done |]. cbn [fmap list_fmap concat]. rewrite cooked_app, cooked_line by done. f_equal.
  replace (last (f x ++ NL)) with (Some 10) by (symmetry; apply last_snoc). exact IH.
Qed.

Lemma literal_plain s : forallb (fun ch => (13 <? ch) && (ch <? 256)) (literal s) = true -> Forall (fun ch => 13 < ch < 256) (literal s).
Proof. intros H. apply Forall_forall. intros ch Hc. rewrite forallb_forall in H. specialize (H ch). rewrite <- list_elem_of_In in H. specialize (H Hc). bools. lia. Qed.

Lemma cell_plain regs r : Forall (fun ch => 13 < ch < 256) (cell regs r).
Proof.
  apply Forall_app. split; [| apply hex8_plain]. apply literal_plain.
  destruct (decide (Z.to_nat r < 32)%nat) as [Hr | Hr].
  - destruct (Z.to_nat r) as [| n]; [done |]. do 31 (destruct n as [| n]; [reflexivity |]). lia.
  - rewrite lookup_ge_None_2 by (cbn; lia). done.
Qed.

Lemma row_plain regs i : Forall (fun ch => 13 < ch < 256) (row regs i).
Proof. unfold row. rewrite !Forall_app. auto 10 using cell_plain, literal_plain. Qed.

(** The part before the table ends with its line. *)
Lemma head_last irqs pc instr : last (NL ++ irq_ruler ++ cause_text irqs pc instr) = Some 10.
Proof.
  unfold cause_text. destruct (truthy (irqs .& 4)); [| destruct (truthy (irqs .& 2)); [destruct ((instr =? 0x00100073) || (instr =? 0x9002)) |]];
    rewrite ?app_nil_r, ?app_assoc; first [reflexivity | by apply last_snoc].
Qed.

(** The table as it goes out: register [r] is in row [r mod 8], column [r / 8]. *)
Definition table (regs : Z -> Z) : list Z := concat ((fun i => row regs i ++ [13; 10]) <$> rows).
Definition cell_at (r : Z) : nat := Z.to_nat (62 * (r mod 8) + 16 * (r / 8)).

Lemma table_cell regs r : 0 <= r < 32 -> take 12 (drop (cell_at r) (table regs)) = cell regs r.
Proof.
  intros Hr. destruct (Z_of_nat_complete r) as [n ->]; [lia |].
  do 32 (destruct n as [| n]; [reflexivity |]). lia.
Qed.

(** An instruction of two bytes when its low bits are not both set. *)
Definition compressed (mem16 : Z -> Z) (pc : Z) : bool := negb (mem16 pc mod 4 =? 3).
Definition instr_at (mem16 : Z -> Z) (pc : Z) : Z := if compressed mem16 pc then mem16 pc else mem16 pc + 65536 * mem16 (pc + 2).

(** The processor gives the address after the failed instruction at [pc], with a
    mark when it is compressed. *)
Definition failed_at (mem16 regs : Z -> Z) (pc : Z) : Prop :=
  0 <= pc /\ pc + 4 < 2 ^ 32 /\ pc mod 2 = 0 /\ regs 0 = (if compressed mem16 pc then pc + 2 + 1 else pc + 4) /\ forall a, 0 <= mem16 a < 2 ^ 16.

(** The counts after an interrupt. *)
Definition counted (irqs : Z) (s : IRQS) : Z * Z * Z :=
  let bump (i n : Z) := if Z.testbit irqs i then u32 (n + 1) else n in
  (bump 4 (ext_irq_4_count s), bump 5 (ext_irq_5_count s), bump 0 (timer_irq_count s)).

Lemma irq_count_ok irqs s : exists s', irq_count irqs s = Ret tt s' /\ i_tx s' = i_tx s /\ counts s' = counted irqs s.
Proof.
  assert (B : forall i, 0 <= i -> truthy (irqs .& 2 ^ i) = Z.testbit irqs i) by (intros i Hi; unfold truthy; by rewrite land_bit, negb_involutive).
  unfold irq_count, counted. change (1 .<< 4) with (2 ^ 4). change (1 .<< 5) with (2 ^ 5). change (irqs .& 1) with (irqs .& 2 ^ 0).
  rewrite !B by lia. destruct (Z.testbit irqs 4), (Z.testbit irqs 5), (Z.testbit irqs 0); eexists; (split; [reflexivity | by split]).
Qed.

Section failed.
  Context (fuel : nat) (mem16 : Z -> Z) (heap : Z) (regs : Z -> Z) (pc : Z) (Hf : failed_at mem16 regs pc).

Lemma irq_pc_failed : irq_pc regs = pc.
Proof.
  destruct Hf as (H0 & H4 & He & Hr & _). unfold irq_pc, truthy, u32. rewrite land_1, Hr.
  destruct (compressed mem16 pc).
  - replace ((pc + 2 + 1) mod 2) with 1 by zlia. cbn [Z.eqb negb]. rewrite Z.mod_small; lia.
  - replace ((pc + 4) mod 2) with 0 by zlia. cbn [Z.eqb negb]. rewrite Z.mod_small; lia.
Qed.

Lemma irq_instr_failed : irq_instr mem16 regs = instr_at mem16 pc.
Proof.
  destruct Hf as (H0 & H4 & He & _ & Hm). unfold irq_instr, instr_at, compressed. rewrite irq_pc_failed, land_3.
  destruct (mem16 pc mod 4 =? 3); [| done]. cbn [negb]. rewrite (u32_id (pc + 2)) by lia.
  pose proof (Hm pc). pose proof (Hm (pc + 2)). rewrite shiftl_mul, u32_id by lia. rewrite <- shiftl_mul, Z.lor_comm, lor_shiftl_add by lia. lia.
Qed.

Lemma irq_check_failed : irq_check fuel mem16 regs = ret tt.
Proof.
  unfold irq_check. rewrite irq_instr_failed, land_3, land_1. destruct Hf as (H0 & H4 & He & -> & _). unfold instr_at, compressed.
  destruct (Z.eqb_spec (mem16 pc mod 4) 3) as [E | E]; cbn [negb].
  - replace ((mem16 pc + 65536 * mem16 (pc + 2)) mod 4) with 3 by zlia. by replace ((pc + 4) mod 2) with 0 by zlia.
  - destruct (Z.eqb_spec (mem16 pc mod 4) 3); [lia |]. by replace ((pc + 2 + 1) mod 2) with 1 by zlia.
Qed.
End failed.

(** An interrupt that is no error is counted, and nothing is printed. *)
Theorem irq_counts fuel mem16 heap regs irqs s : irqs .& 6 = 0 ->
  exists s', irq fuel mem16 heap regs irqs s = Ret tt s' /\ i_tx s' = i_tx s /\ counts s' = counted irqs s.
Proof.
  intros H6. unfold irq, truthy. rewrite H6. cbn [Z.eqb negb]. erewrite bind_eq by reflexivity.
  destruct (irq_count_ok irqs s) as (s' & E & Ht & Hc). nstep E. by exists s'.
Qed.

(** C40: After an illegal instruction or a bus error the handler does not mistake the
    mark of the processor, prints the address and the words of the instruction, a
    table in which each register stands in its place under its name, the heap and
    the counts, and stops. *)
Theorem irq_reports fuel mem16 heap regs irqs pc s :
  patient fuel (i_tx s) -> irqs .& 6 <> 0 -> failed_at mem16 regs pc -> (forall r, 0 <= r < 32 -> 0 <= regs r < 2 ^ 32) ->
  exists s', irq fuel mem16 heap regs irqs s = Exn HANG s' /\ counts s' = counted irqs s /\
    u_tx (i_tx s') = u_tx (i_tx s) ++ cooked (negb (0 =? last_was_cr (i_tx s))) (NL ++ irq_ruler ++ cause_text irqs pc (instr_at mem16 pc)) ++
      table regs ++ cooked false (irq_ruler ++ tail_text heap (counted irqs s)) /\
    forall r, 0 <= r < 32 -> exists ds, take 12 (drop (cell_at r) (table regs)) = reg_name r ++ ds /\ hex_value ds = regs r.
Proof.
  intros Hp H6 Hf Hr. unfold irq, truthy. destruct (Z.eqb_spec (irqs .& 6) 0); [done |]. cbn [negb].
  rewrite (irq_check_failed fuel mem16 regs pc Hf). erewrite bind_eq by reflexivity.
  destruct (irq_count_ok irqs s) as (s1 & E & Ht & Hc). nstep E. rewrite (prints_report _ _ _ _ _ _ _ Hc).
  rewrite <- Ht in Hp. destruct (txstr_ok fuel (report mem16 heap regs (counted irqs s) irqs) _ Hp) as (t & Et & Hu & _).
  exists (s1 <| i_tx := t |>). split; [| split; [exact Hc | split]].
  - unfold bind, tx_str, on_tx. by rewrite Et.
  - cbn. rewrite Hu, Ht. unfold report. rewrite (irq_pc_failed _ _ _ Hf), (irq_instr_failed _ _ _ Hf), cooked_app. f_equal. f_equal.
    rewrite head_last. rewrite cooked_app, (cooked_lines (row regs)) by apply row_plain. reflexivity.
  - intros r Hb. exists (hex8 (regs r)). split; [by rewrite table_cell | by apply hex8_value, Hr].
Qed.

(** An illegal instruction of two bytes at 0x100, with a timer interrupt. *)
Lemma irq_reports_witness :
  let regs := fun r => if r =? 0 then 0x103 else r in
  exists s', irq 4 (fun _ => 0) 0x2000 regs 3 (mkIRQS (mkTXS 0 [] (fun _ => 3%nat)) 0 0 7) = Exn HANG s' /\ counts s' = (0, 0, 8).
Proof.
  intros regs. destruct (irq_reports 4 (fun _ => 0) 0x2000 regs 3 0x100 (mkIRQS (mkTXS 0 [] (fun _ => 3%nat)) 0 0 7)) as (s' & E & Hc & _).
  - intros i. cbn. lia.
  - vm_compute. discriminate.
  - repeat split; vm_compute; congruence.
  - intros r Hr. unfold regs. destruct (r =? 0); lia.
  - exists s'. split; [exact E | exact Hc].
Defined.

Lemma irq_counts_witness : exists s', irq 4 (fun _ => 0) 0 (fun _ => 0) 0x31 (mkIRQS (mkTXS 0 [] (fun _ => 3%nat)) 0 0 (2 ^ 32 - 1)) = Ret tt s' /\ counts s' = (1, 1, 0).
Proof.
  destruct (irq_counts 4 (fun _ => 0) 0 (fun _ => 0) 0x31 (mkIRQS (mkTXS 0 [] (fun _ => 3%nat)) 0 0 (2 ^ 32 - 1)) eq_refl) as (s' & E & _ & Hc).
  exists s'. split; [exact E | exact Hc].
Defined.
