(* ===== verification/Zipelf.v ===== *)
(** The reader of program files of the host (src/sw/host/zipelf.cpp; the copy in
    src/sim/verilated is the same): [iself] and [elfread], for the RISC-V
    processor of the board (INCLUDE_PICORV).

    What libelf and [read] say of the file is the record [ELF]; the bytes of a
    segment are those of the file from its offset on.  The block that [elfread]
    allocates holds an array of pointers and the sections behind it: a pointer is
    an offset into the block, and the state is the sections that were written, by
    their offsets.  [m_data] is the memory from the field up to the next section;
    [behind] is what it holds after the bytes that were read. *)

From stdpp Require Import base tactics list numbers option gmap.
From Stdlib Require Import ZArith Lia.
From S2P Require Import Prelude.
Local Open Scope Z_scope.

Record ELFSECTION : Type := mkSEC { m_start : Z; m_len : Z; m_data : list Z }.

Record PHDR : Type := mkPHDR { p_paddr : Z; p_filesz : Z; p_memsz : Z; p_bytes : list Z }.

Record ELF : Type := mkELF { e_class32 : bool; e_machine : Z; e_entry : Z; e_phdrs : list PHDR }.

(** [fgetc], on what is left of the file. *)
Definition fgetc (f : list Z) : Z * list Z := match f with [] => (-1, []) | c :: f' => (c, f') end.

Definition iself (file : option (list Z)) : bool :=
  match file with
  | None => false
  | Some f =>
      let '(c, f) := fgetc f in let ret := (0x7f =? c) in
      let '(c, f) := fgetc f in let ret := (0x45 =? c) && ret in
      let '(c, f) := fgetc f in let ret := (0x4c =? c) && ret in
      let '(c, f) := fgetc f in (0x46 =? c) && ret
  end.

Definition EXIT_FAILURE : Z := 1.
Definition SIZEOF_PTR : Z := 8.
Definition SIZEOF_ELFSECTION : Z := 12.

(** The first loop over the headers, and the size of the block. *)
Definition total_octets (hs : list PHDR) : Z :=
  fold_left (fun t h => u32 (t + SIZEOF_PTR + SIZEOF_ELFSECTION + p_memsz h)) hs 0.
Definition block_size (hs : list PHDR) : Z := total_octets hs + SIZEOF_ELFSECTION + SIZEOF_PTR.

Abbreviation EM := (M (gmap Z ELFSECTION)).

Section Read.
Context (behind : PHDR -> list Z).

(** [read(fd, r[i]->m_data, sz)] *)
Definition read_data (h : PHDR) (sz : Z) : list Z := take (Z.to_nat sz) (p_bytes h) ++ behind h.

(** [if (phdr.p_filesz > phdr.p_memsz) phdr.p_filesz = 0] *)
Definition read_size (h : PHDR) : Z := if p_memsz h <? p_filesz h then 0 else p_filesz h.

(** The second loop: the pointers [r], the offset of the next section, and the
    number of the sections. *)
Fixpoint fill_sections (hs : list PHDR) (r : list Z) (current_offset current_section : Z) : EM (list Z * Z * Z) :=
  match hs with
  | [] => ret (r, current_offset, current_section)
  | h :: hs' =>
      let r := r ++ [current_offset] in
      if p_filesz h =? 0 then fill_sections hs' r current_offset current_section
      else
        let current_section := u32 (current_section + 1) in
        let sz := read_size h in
        if Z.of_nat (length (p_bytes h)) <? sz then raise (EXIT EXIT_FAILURE)
        else
          modify (insert current_offset (mkSEC (u32 (p_paddr h)) (u32 (p_filesz h)) (read_data h sz))) ;;
          fill_sections hs' r (u32 (current_offset + p_memsz h + SIZEOF_ELFSECTION)) current_section
  end.

(** [p->m_start = 0; p->m_len = 0] *)
Definition end_section (p : Z) : EM unit :=
  modify (fun st => <[p := mkSEC 0 0 (match st !! p with Some s => m_data s | None => [] end)]> st).

(** The entry address and the array of pointers. *)
Definition elfread (e : ELF) : EM (Z * list Z) :=
  if negb (e_class32 e) then raise (EXIT EXIT_FAILURE)
  else if negb (e_machine e =? 0x0f3) then raise (EXIT EXIT_FAILURE)
  else
    let n := Z.of_nat (length (e_phdrs e)) in
    assert (negb (n =? 0)) ;;
    let* (r, current_offset, current_section) := fill_sections (e_phdrs e) [] (u32 ((n + 1) * SIZEOF_PTR)) 0 in
    let r := r ++ [current_offset] in
    match r !! Z.to_nat current_section with
    | None => raise FAULT
    | Some p => end_section p ;; ret (u32 (e_entry e), r)
    end.

(** What a loop [for(i=0; secpp[i]->m_len; i++)] sees. *)
Fixpoint sections (r : list Z) (st : gmap Z ELFSECTION) : option (list ELFSECTION) :=
  match r with
  | [] => None
  | p :: r' =>
      match st !! p with
      | None => None
      | Some s => if m_len s =? 0 then Some [] else cons s <$> sections r' st
      end
  end.

(** ** The block *)

Definition section_of (h : PHDR) : ELFSECTION := mkSEC (u32 (p_paddr h)) (u32 (p_filesz h)) (read_data h (read_size h)).
Definition empty_hdr (h : PHDR) : bool := p_filesz h =? 0.
Definition count (hs : list PHDR) : nat := length (List.filter (fun h => negb (empty_hdr h)) hs).

(** The offset behind the sections of [hs], from [o] on. *)
Fixpoint next (o : Z) (hs : list PHDR) : Z :=
  match hs with [] => o | h :: t => next (if empty_hdr h then o else o + p_memsz h + SIZEOF_ELFSECTION) t end.
Fixpoint ptrs (o : Z) (hs : list PHDR) : list Z :=
  match hs with [] => [] | h :: t => o :: ptrs (if empty_hdr h then o else o + p_memsz h + SIZEOF_ELFSECTION) t end.
Fixpoint store (o : Z) (hs : list PHDR) (st : gmap Z ELFSECTION) : gmap Z ELFSECTION :=
  match hs with
  | [] => st
  | h :: t => if empty_hdr h then store o t st else store (o + p_memsz h + SIZEOF_ELFSECTION) t (<[o := section_of h]> st)
  end.

Definition readable (h : PHDR) : Prop :=
  0 <= p_memsz h /\ 0 <= p_filesz h < 2 ^ 32 /\ read_size h <= Z.of_nat (length (p_bytes h)).

Lemma next_ge hs : Forall readable hs -> forall o, o <= next o hs.
Proof.
  induction 1 as [| h t Hh _ IH]; intros o; cbn [next]; [lia |].
  destruct Hh as (? & _). specialize (IH (if empty_hdr h then o else o + p_memsz h + SIZEOF_ELFSECTION)).
  destruct (empty_hdr h); unfold SIZEOF_ELFSECTION in *; lia.
Qed.

Lemma next_app o a b : next o (a ++ b) = next (next o a) b.
Proof. revert o. induction a as [| h t IH]; intros o; cbn; [done | apply IH]. Qed.
Lemma ptrs_app o a b : ptrs o (a ++ b) = ptrs o a ++ ptrs (next o a) b.
Proof. revert o. induction a as [| h t IH]; intros o; cbn; [done | by rewrite IH]. Qed.
Lemma store_app o a b st : store o (a ++ b) st = store (next o a) b (store o a st).
Proof. revert o st. induction a as [| h t IH]; intros o st; cbn; [done |]. destruct (empty_hdr h); apply IH. Qed.
Lemma ptrs_split o a b : exists rest, ptrs o (a ++ b) ++ [next o (a ++ b)] = ptrs o a ++ next o a :: rest.
Proof. rewrite ptrs_app, next_app, <- app_assoc. destruct b; cbn; eauto. Qed.
Lemma length_ptrs o hs : length (ptrs o hs) = length hs.
Proof. revert o. induction hs as [| h t IH]; intros o; cbn; [done | by rewrite IH]. Qed.

Lemma fill_sections_ok hs : Forall readable hs -> forall r o c st,
  0 <= o -> next o hs < 2 ^ 32 -> 0 <= c -> c + Z.of_nat (length hs) < 2 ^ 32 ->
  fill_sections hs r o c st = Ret (r ++ ptrs o hs, next o hs, c + Z.of_nat (count hs)) (store o hs st).
Proof.
  induction 1 as [| h t Hh Ht IH]; intros r o c st Ho Hn Hc Hl; cbn [fill_sections ptrs next store].
  - rewrite app_nil_r. unfold count. cbn. by rewrite Z.add_0_r.
  - cbn [next length] in Hn, Hl. unfold count, empty_hdr in *. cbn [List.filter].
    revert Hn. destruct (Z.eqb_spec (p_filesz h) 0) as [E | E]; cbn [negb]; intros Hn.
    + rewrite IH by lia. by rewrite <- app_assoc.
    + destruct Hh as (Hm & Hf & Hr). rewrite (proj2 (Z.ltb_ge _ _)) by lia. erewrite bind_eq by reflexivity.
      pose proof (next_ge t Ht (o + p_memsz h + SIZEOF_ELFSECTION)). unfold SIZEOF_ELFSECTION in *.
      unfold u32 at 1 2. rewrite !Z.mod_small by lia. rewrite IH by lia. rewrite <- app_assoc. cbn [length]. replace (c + Z.of_nat (S _)) with (c + 1 + Z.of_nat (count t)) by (unfold count, empty_hdr; lia). done.
Qed.

Lemma store_below hs : Forall readable hs -> forall o st p, p < o -> store o hs st !! p = st !! p.
Proof.
  induction 1 as [| h t Hh _ IH]; intros o st p Hp; cbn [store]; [done |]. destruct Hh as (? & _).
  destruct (empty_hdr h); [by apply IH |]. unfold SIZEOF_ELFSECTION. rewrite IH by lia. apply lookup_insert_ne. lia.
Qed.

Lemma store_at o a x b st : Forall readable (a ++ x :: b) -> empty_hdr x = false ->
  store o (a ++ x :: b) st !! next o a = Some (section_of x).
Proof.
  intros Hr Hx. rewrite store_app. cbn [store]. rewrite Hx. apply Forall_app in Hr as [_ Hr]. apply Forall_cons in Hr as [(? & _) Hb].
  unfold SIZEOF_ELFSECTION. rewrite store_below by (done || lia). apply lookup_insert_eq.
Qed.

(** The segments that the pointers lead to: the pointer of an empty segment is
    the one of the next section. *)
Fixpoint aliased (hs : list PHDR) : list ELFSECTION :=
  match hs with
  | [] => []
  | h :: t => match List.find (fun x => negb (empty_hdr x)) hs with Some x => section_of x :: aliased t | None => [] end
  end.

Lemma next_empty hs : forallb empty_hdr hs = true -> forall o, next o hs = o.
Proof. induction hs as [| h t IH]; intros He o; cbn in *; [done |]. apply andb_true_iff in He as [-> He]. by apply IH. Qed.

Lemma find_nonempty hs :
  match List.find (fun x => negb (empty_hdr x)) hs with
  | Some x => exists a b, hs = a ++ x :: b /\ forallb empty_hdr a = true /\ empty_hdr x = false
  | None => forallb empty_hdr hs = true
  end.
Proof.
  induction hs as [| h t IH]; cbn; [done |]. destruct (empty_hdr h) eqn:E; cbn.
  - destruct (List.find _ t); [| done]. destruct IH as (a & b & -> & Ha & Hx). exists (h :: a), b. cbn. by rewrite E.
  - by exists [], t.
Qed.

Lemma sections_seen b rest q st : forall a o, Forall readable (a ++ b) -> q = next o a ->
  (forall pre x post, a = pre ++ x :: post -> empty_hdr x = false -> st !! next o pre = Some (section_of x)) ->
  forall s0, st !! q = Some s0 -> m_len s0 = 0 -> sections (ptrs o a ++ q :: rest) st = Some (aliased a).
Proof.
  induction a as [| h t IH]; intros o Hr Hq Hst s0 Hs0 Hl; cbn [ptrs app sections aliased].
  - by rewrite Hs0, Hl.
  - pose proof (find_nonempty (h :: t)) as Hf. destruct (List.find _ (h :: t)) as [x |].
    + destruct Hf as (a' & b' & E & Ha' & Hx). pose proof (Hst a' x b' E Hx) as Hs. rewrite (next_empty a' Ha') in Hs. rewrite Hs.
      assert (Hin : readable x) by (eapply List.Forall_forall; [exact Hr |]; rewrite E, !in_app_iff; cbn; tauto).
      destruct Hin as (_ & Hf & _). unfold empty_hdr in Hx. apply Z.eqb_neq in Hx.
      unfold section_of at 1. cbn [m_len]. unfold u32. rewrite Z.mod_small by lia. rewrite (proj2 (Z.eqb_neq _ _) Hx).
      erewrite IH; [done | by apply Forall_cons in Hr as [_ ?] | exact Hq | | exact Hs0 | exact Hl].
      intros pre y post Et Hy. specialize (Hst (h :: pre) y post). rewrite Et in Hst. by apply Hst.
    + assert (Hqo : q = o) by (rewrite Hq; by apply next_empty). by rewrite <- Hqo, Hs0, Hl.
Qed.

(** ** What [elfread] gives *)

Definition memsz_sum (hs : list PHDR) : Z := fold_right (fun h t => p_memsz h + t) 0 hs.

(** A file that can be read, whose block has a size of 32 bits. *)
Record elf_ok (e : ELF) : Prop := {
  eo_class : e_class32 e = true;
  eo_machine : e_machine e = 0x0f3;
  eo_some : e_phdrs e <> [];
  eo_hdrs : Forall readable (e_phdrs e);
  eo_size : Z.of_nat (length (e_phdrs e)) * 20 + memsz_sum (e_phdrs e) + 20 < 2 ^ 32
}.

Lemma memsz_sum_ge hs : Forall readable hs -> 0 <= memsz_sum hs.
Proof. induction 1 as [| h t (? & _) _ IH]; cbn; [lia |]. fold (memsz_sum t). lia. Qed.

Lemma next_le hs : Forall readable hs -> forall o, next o hs <= o + Z.of_nat (length hs) * 12 + memsz_sum hs.
Proof.
  induction 1 as [| h t (? & _) Ht IH]; intros o; cbn [next length memsz_sum fold_right]; [lia |]. fold (memsz_sum t).
  specialize (IH (if empty_hdr h then o else o + p_memsz h + SIZEOF_ELFSECTION)). unfold SIZEOF_ELFSECTION in *. revert IH. destruct (empty_hdr h); intros; cbn [Datatypes.length] in *; lia.
Qed.

Lemma total_octets_eq hs : Forall readable hs -> forall t, 0 <= t -> t + Z.of_nat (length hs) * 20 + memsz_sum hs < 2 ^ 32 ->
  fold_left (fun t h => u32 (t + SIZEOF_PTR + SIZEOF_ELFSECTION + p_memsz h)) hs t = t + Z.of_nat (length hs) * 20 + memsz_sum hs.
Proof.
  induction 1 as [| h l (Hm & _) Hl IH]; intros t Ht Hb; cbn [fold_left length memsz_sum fold_right] in *; [lia |]. fold (memsz_sum l) in *.
  pose proof (memsz_sum_ge l Hl). unfold SIZEOF_PTR, SIZEOF_ELFSECTION in *. unfold u32 at 2. rewrite Z.mod_small by lia. rewrite IH by lia. lia.
Qed.

Lemma count_le hs : (count hs <= length hs)%nat.
Proof. unfold count. apply filter_length_le. Qed.

(** The offset of the first section. *)
Definition first_offset (e : ELF) : Z := (Z.of_nat (length (e_phdrs e)) + 1) * SIZEOF_PTR.

Lemma elfread_runs e : elf_ok e ->
  let hs := e_phdrs e in let o := first_offset e in
  let q := next o (take (count hs) hs) in
  exists rest, elfread e empty = Ret (u32 (e_entry e), ptrs o (take (count hs) hs) ++ q :: rest)
    (<[q := mkSEC 0 0 (match store o hs empty !! q with Some s => m_data s | None => [] end)]> (store o hs empty)) /\
    ptrs o (take (count hs) hs) ++ q :: rest = ptrs o hs ++ [next o hs].
Proof.
  intros [Hc Hm Hn Hr Hs] hs o q. fold hs in Hn, Hr, Hs. assert (Eo : o = (Z.of_nat (length hs) + 1) * 8) by done. clearbody o. pose proof (memsz_sum_ge hs Hr). pose proof (next_le hs Hr o). pose proof (count_le hs).
  assert (Ho : u32 ((Z.of_nat (length hs) + 1) * SIZEOF_PTR) = o) by (unfold u32, SIZEOF_PTR; rewrite Z.mod_small; lia).
  unfold elfread. rewrite Hc, Hm. change (243 =? 0x0f3) with true. cbn [negb]. cbv zeta. fold hs. rewrite Ho.
  replace (Z.of_nat (length hs) =? 0) with false by (symmetry; apply Z.eqb_neq; destruct hs; cbn; [done | lia]).
  erewrite bind_eq by reflexivity.
  rewrite (bind_eq _ _ _ _ _ (fill_sections_ok hs Hr [] o 0 empty ltac:(lia) ltac:(lia) ltac:(lia) ltac:(lia))).
  cbn [app]. rewrite Z.add_0_l, Nat2Z.id.
  assert (E : exists rest, ptrs o hs ++ [next o hs] = ptrs o (take (count hs) hs) ++ q :: rest).
  { pose proof (ptrs_split o (take (count hs) hs) (drop (count hs) hs)) as E. by rewrite take_drop in E. }
  destruct E as (rest & E). exists rest. split; [| done]. rewrite E. rewrite lookup_app_r by (rewrite length_ptrs, length_take; lia).
  rewrite length_ptrs, length_take, Nat.min_l, Nat.sub_diag by done. cbn [lookup]. done.
Qed.

(** The loops over the sections see the segments of the first headers, as many as
    there are segments that are not empty; where one of those headers is empty
    its pointer leads to the next section. *)
Lemma elfread_seen e : elf_ok e -> exists r st, elfread e empty = Ret (u32 (e_entry e), r) st /\
  sections r st = Some (aliased (take (count (e_phdrs e)) (e_phdrs e))).
Proof.
  intros He. destruct (elfread_runs e He) as (rest & Hrun & _). eexists _, _. split; [exact Hrun |].
  pose proof (eo_hdrs e He) as Hr. set (hs := e_phdrs e) in *. set (a := take _ hs). set (o := first_offset e) in *.
  assert (Hab : hs = a ++ drop (count hs) hs) by (symmetry; apply take_drop).
  eapply (sections_seen (drop (count hs) hs)); [by rewrite <- Hab | done | | apply lookup_insert_eq | done].
  intros pre x post Ea Hx. rewrite lookup_insert_ne.
  - rewrite Hab, Ea, <- app_assoc. cbn [app]. rewrite Hab, Ea, <- app_assoc in Hr. by apply store_at.
  - rewrite Ea, next_app. cbn [next]. rewrite Hx. rewrite Hab, Ea, <- app_assoc in Hr. cbn [app] in Hr.
    apply Forall_app in Hr as [_ Hr]. apply Forall_cons in Hr as [(? & _) Hr]. apply Forall_app in Hr as [Hr _].
    pose proof (next_ge post Hr (next o pre + p_memsz x + SIZEOF_ELFSECTION)). unfold SIZEOF_ELFSECTION in *. lia.
Qed.

Lemma aliased_nonempty hs : forallb (fun h => negb (empty_hdr h)) hs = true -> aliased hs = map section_of hs.
Proof. induction hs as [| h t IH]; intros H; [done |]. cbn in *. apply andb_true_iff in H as [-> H]. by rewrite IH. Qed.

Lemma aliased_in hs : Forall (fun s => exists x, In x hs /\ s = section_of x) (aliased hs).
Proof.
  induction hs as [| h t IH]; cbn [aliased]; [constructor |]. destruct (List.find _ (h :: t)) as [x |] eqn:E; [| constructor].
  constructor; [exists x; split; [by eapply find_some | done] |]. eapply Forall_impl; [exact IH |]. intros s (y & Hy & ->). exists y. split; [by right | done].
Qed.

Lemma count_app a b : count (a ++ b) = (count a + count b)%nat.
Proof. unfold count. by rewrite List.filter_app, length_app. Qed.
Lemma count_all a : forallb (fun h => negb (empty_hdr h)) a = true -> count a = length a.
Proof. unfold count. induction a as [| h t IH]; cbn; [done |]. intros H. apply andb_true_iff in H as [-> H]. cbn. by rewrite IH. Qed.
Lemma count_none z : forallb empty_hdr z = true -> count z = O.
Proof. unfold count. induction z as [| h t IH]; cbn; [done |]. intros H. apply andb_true_iff in H as [-> H]. by apply IH. Qed.

Lemma store_above hs : Forall readable hs -> forall o st p s, (forall q t, st !! q = Some t -> o <= q) -> store o hs st !! p = Some s -> o <= p.
Proof.
  intros Hr o st p s Hst Hp. destruct (Z.lt_ge_cases p o) as [Hlt | ?]; [| done]. rewrite store_below in Hp by done. specialize (Hst _ _ Hp). lia.
Qed.

(** The sections lie within the block, one behind the other. *)
Lemma store_in_block hs : Forall readable hs -> Forall (fun h => Z.of_nat (length (behind h)) = p_memsz h - read_size h + 4) hs ->
  forall o st p s, (forall q t, st !! q = Some t -> q + 8 + Z.of_nat (length (m_data t)) <= o) ->
  store o hs st !! p = Some s -> p + 8 + Z.of_nat (length (m_data s)) <= next o hs.
Proof.
  intros Hr. induction Hr as [| h t (Hm & Hf & Hb) Hr IH]; intros Hbe o st p s Hst Hp; cbn [store next] in *; [by eapply Hst |].
  apply Forall_cons in Hbe as [Hh Hbe]. destruct (empty_hdr h); [by eapply IH |]. unfold SIZEOF_ELFSECTION in *.
  eapply IH; [done | | exact Hp]. intros q u Hq. apply lookup_insert_Some in Hq as [[<- <-] | [_ Hq]].
  - cbn [m_data section_of]. unfold read_data. rewrite length_app, length_take. unfold read_size in *. destruct (p_memsz h <? p_filesz h); lia.
  - specialize (Hst _ _ Hq). lia.
Qed.
End Read.

(** ** The claims *)

Lemma elfread_ordered behind e a z : elf_ok e -> e_phdrs e = a ++ z ->
  forallb (fun h => negb (empty_hdr h)) a = true -> forallb empty_hdr z = true ->
  exists r st, elfread behind e empty = Ret (u32 (e_entry e), r) st /\ sections r st = Some (map (section_of behind) a).
Proof.
  intros He E Ha Hz. destruct (elfread_seen behind e He) as (r & st & Hrun & Hs). exists r, st. split; [exact Hrun |].
  rewrite Hs, E, count_app, (count_all a Ha), (count_none z Hz), Nat.add_0_r, take_app_length. by rewrite aliased_nonempty.
Qed.

(** C28: When the empty segments are the last ones, as the loader needs, the sections
    are the other segments, in the order of the file. *)
Theorem elfread_complete behind e a z : elf_ok e -> e_phdrs e = a ++ z ->
  forallb (fun h => negb (empty_hdr h)) a = true -> forallb empty_hdr z = true ->
  exists r st, elfread behind e empty = Ret (u32 (e_entry e), r) st /\ sections r st = Some (map (section_of behind) a).
Proof. apply elfread_ordered. Qed.

Definition ph (a : Z) (bs : list Z) : PHDR := mkPHDR a (Z.of_nat (length bs)) (Z.of_nat (length bs)) bs.
Definition two_segments : ELF := mkELF true 0xf3 0x01000000 [ph 0x01000000 [1; 2; 3; 4]; ph 0x00a00000 [5; 6]; ph 0x00a00100 []].

Lemma two_segments_ok : elf_ok two_segments.
Proof. split; [done .. | | vm_compute; done]. cbn. repeat constructor; vm_compute; done. Qed.

Lemma elfread_complete_witness : exists r st, elfread (fun _ => [0; 0; 0; 0]) two_segments empty = Ret (0x01000000, r) st /\
  sections r st = Some [mkSEC 0x01000000 4 [1; 2; 3; 4; 0; 0; 0; 0]; mkSEC 0x00a00000 2 [5; 6; 0; 0; 0; 0]].
Proof.
  exact (elfread_complete (fun _ => [0; 0; 0; 0]) two_segments [ph 0x01000000 [1; 2; 3; 4]; ph 0x00a00000 [5; 6]] [ph 0x00a00100 []]
    two_segments_ok eq_refl eq_refl eq_refl).
Defined.

(** An empty segment before the last one makes the loader lose that last one: the
    end of the list is marked in the pointer with the number of the sections. *)
Theorem elfread_drops behind e pre x mid h : elf_ok e -> e_phdrs e = pre ++ x :: mid ++ [h] ->
  empty_hdr x = true -> empty_hdr h = false ->
  exists r st l, elfread behind e empty = Ret (u32 (e_entry e), r) st /\ sections r st = Some l /\
    Forall (fun s => exists y, In y (pre ++ x :: mid) /\ s = section_of behind y) l.
Proof.
  intros He E Hx Hh. destruct (elfread_seen behind e He) as (r & st & Hrun & Hs). exists r, st. eexists. split; [exact Hrun |]. split; [exact Hs |].
  rewrite E. replace (pre ++ x :: mid ++ [h]) with ((pre ++ x :: mid) ++ [h]) by (rewrite <- app_assoc; done).
  assert (Hc : (count ((pre ++ x :: mid) ++ [h]) <= length (pre ++ x :: mid))%nat).
  { rewrite !count_app. replace (count (x :: mid)) with (count mid) by (unfold count; cbn; by rewrite Hx). replace (count [h]) with 1%nat by (unfold count; cbn; by rewrite Hh).
    rewrite length_app. cbn [length]. pose proof (count_le pre). pose proof (count_le mid). lia. }
  rewrite take_app_le by done. eapply Forall_impl; [apply aliased_in |]. intros s (y & Hy & ->). exists y. split; [| done].
  rewrite <- (take_drop (count ((pre ++ x :: mid) ++ [h])) (pre ++ x :: mid)). apply in_app_iff. by left.
Qed.

(** A segment for cleared memory only, between two others. *)
Definition hole : ELF := mkELF true 0xf3 0x01000000 [ph 0x01000000 [1; 2; 3; 4]; mkPHDR 0x00a00000 0 64 []; ph 0x01000100 [5; 6]].

Lemma hole_ok : elf_ok hole.
Proof. split; [done .. | | vm_compute; done]. cbn. repeat constructor; vm_compute; done. Qed.

Lemma elfread_drops_witness : exists r st l, elfread (fun _ => []) hole empty = Ret (0x01000000, r) st /\ sections r st = Some l /\
  Forall (fun s => exists y, In y [ph 0x01000000 [1; 2; 3; 4]; mkPHDR 0x00a00000 0 64 []] /\ s = section_of (fun _ => []) y) l.
Proof. exact (elfread_drops (fun _ => []) hole [ph 0x01000000 [1; 2; 3; 4]] (mkPHDR 0x00a00000 0 64 []) [] (ph 0x01000100 [5; 6]) hole_ok eq_refl eq_refl eq_refl). Defined.

(** C29: Every section that was written, and the mark of the end, lie within the
    block, behind the pointers. *)
Theorem elfread_in_block behind e : elf_ok e ->
  Forall (fun h => Z.of_nat (length (behind h)) = p_memsz h - read_size h + 4) (e_phdrs e) ->
  exists r st, elfread behind e empty = Ret (u32 (e_entry e), r) st /\
    Z.of_nat (length r) * SIZEOF_PTR = first_offset e /\
    forall p s, st !! p = Some s -> first_offset e <= p /\ p + 8 + Z.of_nat (length (m_data s)) <= block_size (e_phdrs e).
Proof.
  intros He Hb. destruct (elfread_runs behind e He) as (rest & Hrun & Hr). eexists _, _. split; [exact Hrun |].
  destruct He as [_ _ _ Hrd Hs]. set (hs := e_phdrs e) in *. pose proof (memsz_sum_ge hs Hrd). pose proof (next_le hs Hrd (first_offset e)) as Hle.
  split; [rewrite Hr, length_app, length_ptrs; unfold first_offset; fold hs; cbn [length]; lia |].
  assert (Hblk : next (first_offset e) hs + 12 <= block_size hs).
  { unfold block_size, total_octets. rewrite total_octets_eq by (done || lia). unfold first_offset, SIZEOF_PTR, SIZEOF_ELFSECTION in *. fold hs in Hle |- *. lia. }
  assert (Hst : forall p s, store behind (first_offset e) hs empty !! p = Some s ->
    first_offset e <= p /\ p + 8 + Z.of_nat (length (m_data s)) <= next (first_offset e) hs).
  { intros p s Hp. split; [eapply store_above; [exact Hrd | | exact Hp] | eapply store_in_block; [exact Hrd | exact Hb | | exact Hp]];
      intros q t Hq; by rewrite lookup_empty in Hq. }
  intros p s Hp. apply lookup_insert_Some in Hp as [[<- <-] | [_ Hp]]; [| specialize (Hst _ _ Hp); lia]. cbn [m_data].
  set (q := next _ (take _ _)) in *. assert (Hq : first_offset e <= q <= next (first_offset e) hs).
  { rewrite <- (take_drop (count hs) hs) in Hrd. apply Forall_app in Hrd as [H1 H2]. split; [by apply next_ge |].
    transitivity (next (first_offset e) (take (count hs) hs ++ drop (count hs) hs)); [| by rewrite take_drop]. rewrite next_app. by apply next_ge. }
  destruct (store _ _ _ _ !! q) as [t |] eqn:E; [specialize (Hst _ _ E) |]; cbn [length]; lia.
Qed.

Lemma elfread_in_block_witness : exists r st, elfread (fun _ => [0; 0; 0; 0]) two_segments empty = Ret (0x01000000, r) st /\
  Z.of_nat (length r) * SIZEOF_PTR = 32 /\
  forall p s, st !! p = Some s -> 32 <= p /\ p + 8 + Z.of_nat (length (m_data s)) <= 86.
Proof. apply (elfread_in_block (fun _ => [0; 0; 0; 0]) two_segments two_segments_ok). cbn. repeat constructor. Defined.
