(* ===== verification/Zipload.v ===== *)
(** The program loader of the host (src/sw/host/zipload.cpp), for the board as it
    is configured (the macros of rtl/main.v): block RAM, flash and no SDRAM, with a
    processor that is held in reset by a GPIO wire.

    [files] is the file system, and [elf_of] what libelf says of a file; the host
    is little endian.  The buffer of the flash, [fbuf], is a function of the
    offset.  What is only printed is left out. *)

From stdpp Require Import base tactics list numbers option gmap strings.
From Stdlib Require Import Ascii ZArith Lia.
From S2P Require Import Prelude Words FlashDrvr Zipelf.
Local Open Scope Z_scope.

(** ** Constants (regdefs.h) *)

Definition R_GPIO : Z := 0x00600018.
Definition R_VERSION : Z := 0x0060002c.
Definition GPIO_CPU_RESET : Z := 16.
Definition BKRAMBASE : Z := 0x00a00000.
Definition BKRAMLEN : Z := 0x00010000.
Definition RESET_ADDRESS : Z := 16777216.
Definition EXIT_SUCCESS : Z := 0.

(** ** Command line *)

(** The options, and the arguments that are not options; [inl] is [exit]. *)
Fixpoint options (argv : list string) : Z + list string :=
  match argv with
  | [] => inr []
  | a :: argv' =>
      match a with
      | String "-" o =>
          match o with
          | String "h" _ => inl EXIT_SUCCESS
          | String "v" _ => options argv'
          | _ => inl EXIT_FAILURE
          end
      | _ => match options argv' with inr fs => inr (a :: fs) | e => e end
      end
  end.

Section Files.
Context (files : string -> option (list Z)).

(** The loop over the files: [execfile], [bitfile] and [altbitfile]. *)
Fixpoint sort_files (argv : list string) (execfile bitfile altbitfile : option string)
  : Z + option string * option string * option string :=
  match argv with
  | [] => inr (execfile, bitfile, altbitfile)
  | a :: argv' =>
      if iself (files a) then
        match execfile with
        | Some _ => inl EXIT_FAILURE
        | None => sort_files argv' (Some a) bitfile altbitfile
        end
      else
        match bitfile, altbitfile with
        | None, _ => sort_files argv' execfile (Some a) altbitfile
        | Some _, None => sort_files argv' execfile bitfile (Some a)
        | Some _, Some _ => inl EXIT_FAILURE
        end
  end.

(** [(f)&&(access(f,R_OK)!=0)] *)
Definition unreadable (f : option string) : bool :=
  match f with None => false | Some a => bool_decide (files a = None) end.

(** The name [codef], or the code of an [exit]. *)
Definition arguments (argv : list string) : Z + option string :=
  if bool_decide (argv = []) then inl EXIT_SUCCESS
  else
    match options argv with
    | inl e => inl e
    | inr fs =>
        match sort_files fs None None None with
        | inl e => inl e
        | inr (execfile, bitfile, altbitfile) =>
            if bool_decide (execfile = None) && bool_decide (bitfile = None) then inl EXIT_FAILURE
            else if unreadable bitfile then inl EXIT_FAILURE
            else if unreadable altbitfile then inl EXIT_FAILURE
            else if unreadable execfile then inl EXIT_FAILURE
            else inr (head fs)
        end
    end.
End Files.

(** ** Sections *)

Definition in_bkram (s : ELFSECTION) : bool :=
  (BKRAMBASE <=? m_start s) && (u32 (m_start s + m_len s) <=? BKRAMBASE + BKRAMLEN).
Definition in_flash (s : ELFSECTION) : bool :=
  (FLASHBASE <=? m_start s) && (u32 (m_start s + m_len s) <=? FLASHBASE + FLASHLEN).
Definition valid (s : ELFSECTION) : bool :=
  in_bkram s || ((RESET_ADDRESS <=? m_start s) && (u32 (m_start s + m_len s) <=? FLASHBASE + FLASHLEN)).

(** [memcpy(dst, src, n)]: the bytes, when there are as many. *)
Definition memcpy (n : Z) (src : list Z) : option (list Z) :=
  if n <=? Z.of_nat (length src) then Some (take (Z.to_nat n) src) else None.

(** The words of a buffer of bytes. *)
Fixpoint host_words (bs : list Z) : list Z :=
  match bs with
  | b0 :: b1 :: b2 :: b3 :: bs' => le32 b0 b1 b2 b3 :: host_words bs'
  | _ => []
  end.

(** [try { m } catch(BUSERR b) { exit(code); }] *)
Definition or_exit {S A} (code : Z) (m : M S A) : M S A := fun s =>
  match m s with Exn (BUSERR _) s' => Exn (EXIT code) s' | r => r end.

Section Load.
Context {W : Type} `{DEVBUS W}.
Abbreviation LM := (M (FLASHDRVR W)).

(** [startaddr], [codelen] and [fbuf]. *)
Record IMAGE : Type := mkIMAGE { startaddr : Z; codelen : Z; fbuf : Z -> Z }.

Definition check_section (s : ELFSECTION) : LM unit :=
  if valid s then ret tt else raise (EXIT EXIT_FAILURE).

Definition load_bkram (s : ELFSECTION) : LM unit :=
  let ln := u32 ((m_len s + 3) .& -4) in
  match memcpy ln (m_data s) with
  | None => raise FAULT
  | Some bytes =>
      match byteswapbuf (ln .>> 2) (host_words bytes) with
      | None => raise FAULT
      | Some bswapd => fpga (dev_writei (m_start s) bswapd)
      end
  end.

Definition load_flash (s : ELFSECTION) (i : IMAGE) : LM IMAGE :=
  let '(sa, cl) :=
    if m_start s <? startaddr i then (m_start s, u32 (codelen i + (startaddr i - m_start s)))
    else (startaddr i, codelen i) in
  let cl := if u32 (sa + cl) <? u32 (m_start s + m_len s) then u32 (m_start s + m_len s - sa) else cl in
  match memcpy (m_len s) (m_data s) with
  | None => raise FAULT
  | Some bytes =>
      let o := m_start s - FLASHBASE in
      ret (mkIMAGE sa cl (fun x => if (o <=? x) && (x <? o + m_len s) then default 0 (bytes !! Z.to_nat (x - o)) else fbuf i x))
  end.

Definition load_section (s : ELFSECTION) (i : IMAGE) : LM IMAGE :=
  if in_bkram s then load_bkram s ;; ret i
  else if in_flash s then load_flash s i
  else ret i.

Fixpoint load_sections (l : list ELFSECTION) (i : IMAGE) : LM IMAGE :=
  match l with [] => ret i | s :: l' => let* i := load_section s i in load_sections l' i end.

(** [&fbuf[startaddr-FLASHBASE]], up to the end of the buffer. *)
Definition fbuf_from (i : IMAGE) : list Z :=
  map (fun j => fbuf i (startaddr i - FLASHBASE + Z.of_nat j)) (seq 0 (Z.to_nat (FLASHLEN - (startaddr i - FLASHBASE)))).

Definition write_flash (fuel : nat) (sbuf_junk : list Z) (len_junk : Z) (i : IMAGE) : LM unit :=
  if 0 <? codelen i then
    let* ok := write fuel sbuf_junk len_junk (startaddr i) (codelen i) (fbuf_from i) true in
    if ok then ret tt else raise (EXIT EXIT_FAILURE)
  else ret tt.

(** From the sections in memory to the start of the processor. *)
Definition load (fuel : nat) (sbuf_junk : list Z) (len_junk : Z) (l : list ELFSECTION) : LM unit :=
  for_each l check_section ;;
  let* i := load_sections l (mkIMAGE RESET_ADDRESS 0 (fun _ => 255)) in
  write_flash fuel sbuf_junk len_junk i ;;
  fpga (dev_readio R_VERSION) ;;
  fpga (dev_writeio R_GPIO (GPIO_CPU_RESET .<< 16)).

Context (files : string -> option (list Z)) (elf_of : string -> ELF) (behind : PHDR -> list Z).

(** [elfread], and the list that its array of pointers is. *)
Definition read_sections (codef : string) : LM (list ELFSECTION) :=
  match elfread behind (elf_of codef) empty with
  | Exn e _ => raise e
  | Ret (_, r) st => match sections r st with Some l => ret l | None => raise FAULT end
  end.

Definition zipload (fuel : nat) (sbuf_junk : list Z) (len_junk : Z) (argv : list string) : LM unit :=
  match arguments files argv with
  | inl e => raise (EXIT e)
  | inr codef =>
      let* v := or_exit EXIT_FAILURE (fpga (dev_readio R_VERSION)) in
      (if v <? 0x20170910 then raise (EXIT EXIT_FAILURE) else ret tt) ;;
      or_exit EXIT_FAILURE (fpga (dev_writeio R_GPIO (GPIO_CPU_RESET .| (GPIO_CPU_RESET .<< 16)))) ;;
      modify (fun s => s <| m_id := FLASH_UNKNOWN |>) ;;
      match codef with
      | None => ret tt
      | Some codef =>
          or_exit (-2) (
            if iself (files codef) then
              let* l := read_sections codef in
              load fuel sbuf_junk len_junk l
            else raise (EXIT EXIT_FAILURE))
      end
  end.
End Load.
