(* ===== verification/LoadBoard.v ===== *)
(** The board as the program loader sees it: the flash of [FlashChip], block RAM
    and the processor's reset on one bus; and how the flash driver, which is
    proved on the flash alone, runs on it.

    A processor that runs while its memory is written is noted ([b_disturbed]). *)

From stdpp Require Import base tactics list numbers option.
From Stdlib Require Import ZArith Lia.
From S2P Require Import Prelude Words FlashSim FlashProps FlashDrvr FlashChip FlashDrvrProps FlashWrite Zipelf Zipload.
Local Open Scope Z_scope.

Record BOARD : Type := mkBOARD {
  b_chip : CHIP;
  b_ram : Z -> Z;           (* the words of block RAM, by their number *)
  b_running : bool;
  b_disturbed : bool
}.

#[export] Instance set_b_chip : Setter b_chip := fun v s => mkBOARD v (b_ram s) (b_running s) (b_disturbed s).
#[export] Instance set_b_ram : Setter b_ram := fun v s => mkBOARD (b_chip s) v (b_running s) (b_disturbed s).
#[export] Instance set_b_running : Setter b_running := fun v s => mkBOARD (b_chip s) (b_ram s) v (b_disturbed s).
#[export] Instance set_b_disturbed : Setter b_disturbed := fun v s => mkBOARD (b_chip s) (b_ram s) (b_running s) v.

Section Board.
Context (chip_id : list Z) (t_write : nat) (version : Z).

Definition touch (b : BOARD) : BOARD := b <| b_disturbed := b_disturbed b || b_running b |>.

Definition on_chip {A} (m : M CHIP A) : M BOARD A := fun b =>
  match m (b_chip b) with
  | Ret a k => Ret a (b <| b_chip := k |>)
  | Exn e k => Exn e (b <| b_chip := k |>)
  end.

(** The GPIO port changes the wires whose bits are set in the upper half of the
    word (rtl/wbgpio.v). *)
Definition board_writeio (a v : Z) : M BOARD unit := fun b =>
  if a =? R_GPIO then
    Ret tt (if truthy (v .& (GPIO_CPU_RESET .<< 16)) then b <| b_running := negb (truthy (v .& GPIO_CPU_RESET)) |> else b)
  else on_chip (chip_writeio chip_id t_write a v) (touch b).

Definition board_readio (a : Z) : M BOARD Z := fun b =>
  if a =? R_VERSION then Ret version b else on_chip (chip_readio a) b.

Definition ram_write (m : Z -> Z) (w : Z) (ws : list Z) : Z -> Z := fun x =>
  if (w <=? x) && (x <? w + Z.of_nat (length ws)) then default 0 (ws !! Z.to_nat (x - w)) else m x.

Definition board_writei (a : Z) (ws : list Z) : M BOARD unit := fun b =>
  if (BKRAMBASE <=? a) && (a + 4 * Z.of_nat (length ws) <=? BKRAMBASE + BKRAMLEN)
  then Ret tt ((touch b) <| b_ram := ram_write (b_ram b) ((a - BKRAMBASE) / 4) ws |>)
  else Exn (BUSERR a) b.

#[export] Instance board_bus : DEVBUS BOARD :=
  {| dev_writeio := board_writeio; dev_readio := board_readio; dev_readi := fun a n => on_chip (chip_readi a n); dev_writei := board_writei |}.

(** ** The driver on the board

    [lifts m m']: while the processor is in reset, [m'] does on the board what
    [m] does on the flash. *)

#[local] Hint Extern 0 (DEVBUS CHIP) => exact (chip_bus chip_id t_write) : typeclass_instances.
#[local] Hint Extern 0 (DEVBUS BOARD) => exact board_bus : typeclass_instances.

Definition lift_res {A} (b : BOARD) (r : res (FLASHDRVR CHIP) A) : res (FLASHDRVR BOARD) A :=
  match r with
  | Ret a s => Ret a (mkDRVR (m_id s) (b <| b_chip := m_fpga s |>))
  | Exn e s => Exn e (mkDRVR (m_id s) (b <| b_chip := m_fpga s |>))
  end.

Definition lifts {A} (m : M (FLASHDRVR CHIP) A) (m' : M (FLASHDRVR BOARD) A) : Prop :=
  forall b id k, b_running b = false -> m' (mkDRVR id (b <| b_chip := k |>)) = lift_res b (m (mkDRVR id k)).

Lemma lifts_ret {A} (a : A) : lifts (ret a) (ret a).
Proof. done. Qed.
Lemma lifts_raise {A} e : lifts (raise (A := A) e) (raise e).
Proof. done. Qed.
Lemma lifts_assert c : lifts (assert c) (assert c).
Proof. by destruct c. Qed.
Lemma lifts_bind {A B} (m : M (FLASHDRVR CHIP) A) m' (k : A -> M (FLASHDRVR CHIP) B) k' :
  lifts m m' -> (forall a, lifts (k a) (k' a)) -> lifts (bind m k) (bind m' k').
Proof.
  intros Hm Hk b id c Hb. unfold bind. rewrite Hm by done. destruct (m (mkDRVR id c)) as [a [i f] | e [i f]]; cbn; [by apply Hk | done].
Qed.
Lemma lifts_id {A} (k : Z -> M (FLASHDRVR CHIP) A) (k' : Z -> M (FLASHDRVR BOARD) A) :
  (forall i, lifts (k i) (k' i)) -> lifts (let* s := get in k (m_id s)) (let* s := get in k' (m_id s)).
Proof. intros Hk b id c Hb. cbn. by apply Hk. Qed.
Lemma lifts_set_id r : lifts (modify (fun s => s <| m_id := r |>)) (modify (fun s => s <| m_id := r |>)).
Proof. done. Qed.
Lemma lifts_if {A} (c : bool) (m n : M (FLASHDRVR CHIP) A) m' n' : lifts m m' -> lifts n n' -> lifts (if c then m else n) (if c then m' else n').
Proof. by destruct c. Qed.
Lemma lifts_for_each {A} (l : list A) f f' : (forall a, lifts (f a) (f' a)) -> lifts (for_each l f) (for_each l f').
Proof. intros Hf. induction l as [| a l IH]; cbn; [apply lifts_ret |]. by apply lifts_bind. Qed.
Lemma lifts_loop {A B} fuel (f : A -> M (FLASHDRVR CHIP) (A + B)) f' : (forall a, lifts (f a) (f' a)) -> forall a, lifts (loop fuel f a) (loop fuel f' a).
Proof. intros Hf. induction fuel as [| n IH]; intros a; cbn; [apply lifts_raise |]. apply lifts_bind; [done |]. intros [a' | b]; [apply IH | apply lifts_ret]. Qed.

Lemma lifts_writeio a v : a <> R_GPIO -> lifts (fpga (dev_writeio a v)) (fpga (dev_writeio a v)).
Proof.
  intros Ha b id k Hb. unfold fpga. cbn. unfold board_writeio. rewrite (proj2 (Z.eqb_neq _ _) Ha). unfold on_chip, touch. cbn.
  rewrite Hb, orb_false_r. unfold chip_writeio. by destruct (a =? R_FLASHCFG); destruct b.
Qed.
Lemma lifts_readcfg : lifts (fpga (dev_readio R_FLASHCFG)) (fpga (dev_readio R_FLASHCFG)).
Proof. intros b id k Hb. by destruct b. Qed.
Lemma lifts_readi a n : lifts (fpga (dev_readi a n)) (fpga (dev_readi a n)).
Proof. intros b id k Hb. unfold fpga. cbn. unfold on_chip. cbn. destruct (chip_readi a n k); by destruct b. Qed.
Lemma lifts_cfg v : lifts (cfg v) (cfg v).
Proof. by apply lifts_writeio. Qed.
Lemma lifts_cfgs vs : lifts (cfgs vs) (cfgs vs).
Proof. apply lifts_for_each, lifts_cfg. Qed.

Create HintDb lift.
#[local] Hint Resolve lifts_ret lifts_raise lifts_assert lifts_set_id lifts_readcfg lifts_readi lifts_cfg lifts_cfgs : lift.

(** The structure of a program, down to what the hints know. *)
Ltac lift := repeat first
  [ solve [eauto with lift]
  | apply lifts_bind; [| intros ?]
  | apply lifts_if
  | apply lifts_loop; intros ?
  | apply lifts_writeio; done
  | match goal with |- lifts (match ?x with _ => _ end) _ => destruct x end ].

Lemma lifts_take_offline : lifts take_offline take_offline.
Proof. unfold take_offline. lift. Qed.
Lemma lifts_place_online : lifts place_online place_online.
Proof.
  unfold place_online, restore_quadio. apply lifts_bind; [lift | intros _].
  apply (lifts_id (fun i => (if i =? MICRON_FLASHID then _ else _) ;; _) (fun i => (if i =? MICRON_FLASHID then _ else _) ;; _)). intros i. lift.
Qed.
#[local] Hint Resolve lifts_take_offline lifts_place_online : lift.
Lemma lifts_read_cfg_byte : lifts read_cfg_byte read_cfg_byte.
Proof. unfold read_cfg_byte. lift. Qed.
#[local] Hint Resolve lifts_read_cfg_byte : lift.
Lemma lifts_flashid : lifts flashid flashid.
Proof.
  unfold flashid. apply (lifts_id (fun i => if negb (i =? FLASH_UNKNOWN) then ret i else _) (fun i => if negb (i =? FLASH_UNKNOWN) then ret i else _)).
  intros i. lift.
Qed.
Lemma lifts_flwait fuel : lifts (flwait fuel) (flwait fuel).
Proof. unfold flwait, flwait_turn. lift. Qed.
Lemma lifts_verify_pages n : forall a i, lifts (verify_pages n a i) (verify_pages n a i).
Proof. induction n as [| n IH]; intros a i; cbn [verify_pages]; lift. Qed.
#[local] Hint Resolve lifts_flashid lifts_flwait lifts_verify_pages : lift.
Lemma lifts_erase_sector fuel s v : lifts (erase_sector fuel s v) (erase_sector fuel s v).
Proof. unfold erase_sector. lift. Qed.
Lemma lifts_page_program fuel a n d v : lifts (page_program fuel a n d v) (page_program fuel a n d v).
Proof. unfold page_program. lift. Qed.
#[local] Hint Resolve lifts_erase_sector lifts_page_program : lift.
Lemma lifts_write_pages pages fuel j a n s d v : forall p, lifts (write_pages pages fuel j a n s d v p) (write_pages pages fuel j a n s d v p).
Proof. induction pages as [| pages IH]; intros p; cbn [write_pages]; lift. Qed.
#[local] Hint Resolve lifts_write_pages : lift.
Lemma lifts_write_sector fuel sb j a n d v s : lifts (write_sector fuel sb j a n d v s) (write_sector fuel sb j a n d v s).
Proof. unfold write_sector. lift. Qed.
#[local] Hint Resolve lifts_write_sector : lift.
Lemma lifts_write_sectors k fuel sb j a n d v : forall s, lifts (write_sectors k fuel sb j a n d v s) (write_sectors k fuel sb j a n d v s).
Proof. induction k as [| k IH]; intros s; cbn [write_sectors]; lift. Qed.
#[local] Hint Resolve lifts_write_sectors : lift.
Lemma lifts_write fuel sb j a n d v : lifts (write fuel sb j a n d v) (write fuel sb j a n d v).
Proof. unfold write, verify_config, set_config. lift. Qed.
End Board.
