(* ===== verification/LoadProps.v ===== *)
(** The program loader on the board: what is in the memories when the processor
    starts. *)

From stdpp Require Import base tactics list numbers option gmap strings.
From Stdlib Require Import ZArith Lia.
From S2P Require Import Prelude Words FlashSim FlashProps FlashDrvr FlashChip FlashDrvrProps FlashWrite Zipelf Zipload LoadBoard.
Local Open Scope Z_scope.

(** The length of a section in whole words. *)
Definition word_len (s : ELFSECTION) : Z := 4 * ((m_len s + 3) / 4).

(** A section as [elfread] leaves it, with a start on a word. *)
Record section_ok (s : ELFSECTION) : Prop := {
  so_start : 0 <= m_start s;
  so_word : m_start s mod 4 = 0;
  so_len : 0 < m_len s;
  so_end : m_start s + word_len s < 2 ^ 32;
  so_data : word_len s <= Z.of_nat (length (m_data s));
  so_bytes : bytes (m_data s)
}.

(** What a section leaves in the buffer of the flash, in block RAM, and behind
    the end of the flash image. *)
Definition flash_over (f : Z -> Z) (s : ELFSECTION) : Z -> Z :=
  if in_bkram s then f
  else fun x => let o := m_start s - FLASHBASE in
    if (o <=? x) && (x <? o + m_len s) then default 0 (take (Z.to_nat (m_len s)) (m_data s) !! Z.to_nat (x - o)) else f x.
Definition section_words (s : ELFSECTION) : list Z := map byteswap (host_words (take (Z.to_nat (word_len s)) (m_data s))).
Definition ram_over (m : Z -> Z) (s : ELFSECTION) : Z -> Z :=
  if in_bkram s then ram_write m ((m_start s - BKRAMBASE) / 4) (section_words s) else m.
Definition top_over (t : Z) (s : ELFSECTION) : Z :=
  if in_bkram s then t else Z.max t (m_start s + m_len s - FLASHBASE).

Lemma u32_word_len s : section_ok s -> u32 ((m_len s + 3) .& -4) = word_len s.
Proof.
  intros [H0 H4 Hl He _ _]. change (-4) with (~. Z.ones 2). rewrite <- Z.ldiff_land, Z.ldiff_ones_r, shiftl_mul, shiftr_div by done.
  unfold word_len, u32 in *. change (2 ^ 2) with 4. rewrite Z.mod_small; zlia.
Qed.

Lemma host_words_length n : forall bs, length bs = (4 * n)%nat -> length (host_words bs) = n.
Proof.
  induction n as [| n IH]; intros bs Hl; [by destruct bs |]. do 4 (destruct bs as [| ? bs]; [cbn in Hl; lia |]). cbn. rewrite IH; [done |]. cbn in Hl. lia.
Qed.

Lemma byteswapbuf_all buf n : n = Z.of_nat (length buf) -> byteswapbuf n buf = Some (map byteswap buf).
Proof.
  intros ->. unfold byteswapbuf. rewrite Nat2Z.id, byteswapbuf_from_spec by lia. rewrite take_0, drop_0. cbn [app]. rewrite Nat.add_0_l.
  by rewrite firstn_all, drop_ge, app_nil_r by lia.
Qed.

Lemma section_words_length s : section_ok s -> Z.of_nat (length (section_words s)) = word_len s / 4.
Proof.
  intros [_ _ Hl _ Hd _]. unfold section_words. rewrite length_map.
  rewrite (host_words_length (Z.to_nat (word_len s / 4))); [unfold word_len; zlia |]. rewrite length_take. unfold word_len in *. zlia.
Qed.

(** The end of a section of block RAM, in words. *)
Lemma bkram_end s : section_ok s -> in_bkram s = true -> BKRAMBASE <= m_start s /\ m_start s + word_len s <= BKRAMBASE + BKRAMLEN.
Proof.
  intros [H0 H4 Hl He _ _] Hr. unfold word_len in He. unfold in_bkram, u32 in Hr. rewrite Z.mod_small in Hr by zlia. bools. unfold word_len, BKRAMBASE, BKRAMLEN in *. zlia.
Qed.

Lemma flash_end s : section_ok s -> in_flash s = true -> FLASHBASE <= m_start s /\ m_start s + m_len s <= FLASHBASE + FLASHLEN.
Proof. intros [H0 H4 Hl He _ _] Hr. unfold word_len in He. unfold in_flash, u32 in Hr. rewrite Z.mod_small in Hr by zlia. bools. done. Qed.

Lemma valid_cases s : valid s = true -> in_bkram s = true \/ (in_bkram s = false /\ in_flash s = true).
Proof. unfold valid. destruct (in_bkram s); [by left |]. intros H. right. split; [done | exact H]. Qed.

Section Load.
Context (chip_id : list Z) (t_write : nat) (version : Z).
#[local] Hint Extern 0 (DEVBUS BOARD) => exact (board_bus chip_id t_write version) : typeclass_instances.

Lemma load_bkram_on s id b : section_ok s -> in_bkram s = true -> b_running b = false -> b_disturbed b = false ->
  load_bkram s (mkDRVR id b) = Ret tt (mkDRVR id (b <| b_ram := ram_over (b_ram b) s |>)).
Proof.
  intros Hs Hr Hrun Hdis. destruct (bkram_end s Hs Hr) as [Hlo Hhi]. pose proof (section_words_length s Hs) as Hlen. unfold load_bkram, ram_over. rewrite Hr, u32_word_len by done.
  unfold memcpy. rewrite (proj2 (Z.leb_le _ _)) by apply Hs.
  rewrite byteswapbuf_all.
  - fold (section_words s). unfold fpga. cbn [m_fpga dev_writei board_bus]. unfold board_writei. rewrite Hlen.
    assert (E : 4 * (word_len s / 4) = word_len s) by (unfold word_len; zlia). rewrite E.
    rewrite (proj2 (Z.leb_le _ _)), (proj2 (Z.leb_le _ _)) by done. cbn [andb]. unfold touch. rewrite Hrun, Hdis. destruct b. cbn in *. by subst.
  - unfold section_words in Hlen. rewrite length_map in Hlen. rewrite shiftr_div by lia. by rewrite Hlen.
Qed.

Lemma load_flash_on s id b i : section_ok s -> in_bkram s = false -> in_flash s = true -> startaddr i = FLASHBASE -> 0 <= codelen i <= FLASHLEN ->
  load_flash (W := BOARD) s i (mkDRVR id b) = Ret (mkIMAGE FLASHBASE (top_over (codelen i) s) (flash_over (fbuf i) s)) (mkDRVR id b).
Proof.
  intros Hs Hr Hf Hsa Hcl. destruct (flash_end s Hs Hf) as [Hlo Hhi]. unfold load_flash, top_over, flash_over. rewrite Hr, Hsa.
  rewrite (proj2 (Z.ltb_ge _ _)) by done. destruct Hs as [H0 H4 Hl He Hd _]. unfold memcpy.
  rewrite (proj2 (Z.leb_le _ _)) by (unfold word_len in Hd; zlia). unfold ret. unfold FLASHBASE, FLASHLEN in *.
  unfold u32. rewrite (Z.mod_small (0x01000000 + codelen i)), (Z.mod_small (m_start s + m_len s)), (Z.mod_small (m_start s + m_len s - 0x01000000)) by lia.
  destruct (Z.ltb_spec (0x01000000 + codelen i) (m_start s + m_len s)); do 2 f_equal; lia.
Qed.

Lemma load_sections_on l : Forall section_ok l -> Forall (fun s => valid s = true) l -> forall id b i,
  b_running b = false -> b_disturbed b = false -> startaddr i = FLASHBASE -> 0 <= codelen i <= FLASHLEN ->
  load_sections l i (mkDRVR id b) =
    Ret (mkIMAGE FLASHBASE (fold_left top_over l (codelen i)) (fold_left flash_over l (fbuf i)))
      (mkDRVR id (b <| b_ram := fold_left ram_over l (b_ram b) |>)).
Proof.
  induction 1 as [| s l Hs _ IH]; intros Hv id b i Hrun Hdis Hsa Hcl; cbn [load_sections fold_left].
  - destruct b, i. cbn in *. by subst.
  - apply Forall_cons in Hv as [Hv Hvl]. unfold load_section. destruct (valid_cases s Hv) as [Hr | [Hr Hf]].
    + rewrite Hr, bind_assoc. nstep (load_bkram_on s id b Hs Hr Hrun Hdis). erewrite bind_eq by reflexivity. rewrite IH by done.
      replace (top_over (codelen i) s) with (codelen i) by (unfold top_over; by rewrite Hr).
      replace (flash_over (fbuf i) s) with (fbuf i) by (unfold flash_over; by rewrite Hr). by destruct b.
    + rewrite Hr, Hf. nstep (load_flash_on s id b i Hs Hr Hf Hsa Hcl). rewrite IH; [| done .. |].
      * cbn. replace (ram_over (b_ram b) s) with (b_ram b) by (unfold ram_over; by rewrite Hr). done.
      * cbn. unfold top_over. rewrite Hr. destruct (flash_end s Hs Hf). lia.
Qed.

(** ** The whole image *)

Definition image_len (l : list ELFSECTION) : Z := fold_left top_over l 0.
Definition flash_image (l : list ELFSECTION) : Z -> Z := fold_left flash_over l (fun _ => 255).

(** Sections that can be loaded.  Where there is something for the flash, it ends
    with a word; the rest of its last page is blank; and the uninitialised
    variable of the flash driver has no value between. *)
Record loadable (l : list ELFSECTION) (len_junk : Z) (m : Z -> Z) : Prop := {
  ld_ok : Forall section_ok l;
  ld_valid : Forall (fun s => valid s = true) l;
  ld_words : image_len l mod 4 = 0;
  ld_tail : forall x, image_len l <= x < page_up (image_len l) -> m x = 255;
  ld_junk : u32 (FLASHBASE + len_junk - 1) < FLASHBASE \/ page_up (FLASHBASE + image_len l) <= u32 (FLASHBASE + len_junk - 1)
}.

Lemma image_len_range l : Forall section_ok l -> Forall (fun s => valid s = true) l -> forall t, 0 <= t <= FLASHLEN ->
  0 <= fold_left top_over l t <= FLASHLEN.
Proof.
  induction 1 as [| s l Hs _ IH]; intros Hv t Ht; cbn [fold_left]; [done |]. apply Forall_cons in Hv as [Hv Hvl]. apply IH; [done |].
  unfold top_over. destruct (valid_cases s Hv) as [-> | [-> Hf]]; [done |]. destruct (flash_end s Hs Hf). lia.
Qed.

Lemma flash_image_byte l : Forall section_ok l -> forall f, (forall x, 0 <= f x < 256) -> forall x, 0 <= fold_left flash_over l f x < 256.
Proof.
  induction 1 as [| s l Hs _ IH]; intros f Hf x; cbn [fold_left]; [done |]. apply IH. intros y. unfold flash_over.
  destruct (in_bkram s); [done |]. cbv zeta. destruct (_ && _); [| done]. destruct (_ !! _) as [d |] eqn:E; cbn; [| lia].
  by apply (Forall_lookup_1 _ _ _ _ (Forall_take _ _ _ (so_bytes s Hs)) E).
Qed.

(** Behind the end of the image the buffer is blank. *)
Lemma flash_image_tail l : Forall section_ok l -> forall f t x, fold_left top_over l t <= x -> fold_left flash_over l f x = f x /\ t <= x.
Proof.
  induction 1 as [| s l Hs _ IH]; intros f t x Hx; cbn [fold_left] in *; [done |]. destruct (IH (flash_over f s) _ _ Hx) as [-> Ht].
  unfold top_over in Ht. unfold flash_over. destruct (in_bkram s); [done |]. cbv zeta. split; [| lia].
  destruct (Z.leb_spec (m_start s - FLASHBASE) x), (Z.ltb_spec x (m_start s - FLASHBASE + m_len s)); cbn; try done. lia.
Qed.

Lemma at_fbuf t f x : 0 <= x < FLASHLEN -> at_data (fbuf_from (mkIMAGE FLASHBASE t f)) x = f x.
Proof.
  intros Hx. unfold at_data, fbuf_from. cbn [startaddr fbuf]. rewrite lookup_mem_bytes by lia. cbn. f_equal. lia.
Qed.

Lemma page_up_base x : page_up (FLASHBASE + x) = FLASHBASE + page_up x.
Proof. unfold page_up, FLASHBASE. zlia. Qed.

Lemma image_writable l len_junk m : loadable l len_junk m -> 0 < image_len l ->
  let data := fbuf_from (mkIMAGE FLASHBASE (image_len l) (flash_image l)) in
  writable FLASHBASE (image_len l) len_junk data /\ fits m FLASHBASE data (FLASHBASE + image_len l) (page_up (FLASHBASE + image_len l)).
Proof.
  intros [Hok Hv Hw Ht Hj] Hpos data. pose proof (image_len_range l Hok Hv 0 ltac:(unfold FLASHLEN; lia)) as Hr. fold (image_len l) in Hr.
  assert (Hup : page_up (image_len l) <= FLASHLEN) by (unfold page_up, FLASHLEN in *; zlia). split.
  - split; [lia | done | lia | exact Hw | lia | | | exact Hj].
    + rewrite page_up_base. unfold data, fbuf_from. rewrite length_map, length_seq. cbn [startaddr]. lia.
    + unfold data, fbuf_from. apply Forall_map, Forall_forall. intros j _. cbn [fbuf]. by apply flash_image_byte.
  - intros x Hx. rewrite page_up_base in Hx. unfold data. rewrite at_fbuf by lia. unfold flash_image.
    destruct (flash_image_tail l Hok (fun _ => 255) 0 (x - FLASHBASE)) as [-> _]; [fold (image_len l); lia |]. rewrite Ht by lia. done.
Qed.

Abbreviation flash m i := (mkCHIP m false 0 false true [] i).
Abbreviation board m i ram run := (mkBOARD (flash m i) ram run false).

Lemma write_flash_on fuel sbuf_junk len_junk l id m i ram :
  loadable l len_junk m -> (t_write < fuel)%nat -> (forall x, 0 <= m x < 256) ->
  exists id' m' i', write_flash fuel sbuf_junk len_junk (mkIMAGE FLASHBASE (image_len l) (flash_image l)) (mkDRVR id (board m i ram false)) =
      Ret tt (mkDRVR id' (board m' i' ram false)) /\
    (forall x, 0 <= x < image_len l -> m' x = flash_image l x) /\
    (forall x, x < 0 \/ 65536 * ((image_len l + 65535) / 65536) <= x -> m' x = m x).
Proof.
  intros Hl Hf Hm. unfold write_flash. cbn [codelen startaddr]. destruct (Z.ltb_spec 0 (image_len l)) as [Hpos | Hz].
  - destruct (image_writable l len_junk m Hl Hpos) as [HW Ht]. set (data := fbuf_from _) in *.
    destruct (write_on chip_id t_write fuel FLASHBASE (image_len l) len_junk data sbuf_junk true HW Hf id m i Hm Ht) as (id' & m' & i' & Hrun & Hh & Ho).
    pose proof (lifts_write chip_id t_write version fuel sbuf_junk len_junk FLASHBASE (image_len l) data true (board m i ram false) id (flash m i) eq_refl) as L.
    rewrite Hrun in L. nstep L. exists id', m', i'. split; [done |].
    pose proof (image_len_range l (ld_ok _ _ _ Hl) (ld_valid _ _ _ Hl) 0 ltac:(unfold FLASHLEN; lia)) as Hr. fold (image_len l) in Hr. unfold FLASHLEN in Hr. split.
    + intros x Hx. specialize (Hh (FLASHBASE + x) ltac:(lia)). replace (FLASHBASE + x - FLASHBASE) with x in Hh by lia. rewrite Hh.
      unfold data. apply at_fbuf. unfold FLASHLEN. lia.
    + intros x Hx. specialize (Ho (FLASHBASE + x)). replace (FLASHBASE + x - FLASHBASE) with x in Ho by lia. apply Ho.
      rewrite (SECTOROF_eq FLASHBASE), SECTOROF_eq by (unfold FLASHBASE; lia). unfold FLASHBASE. zlia.
  - exists id, m, i. split; [done |]. split; [intros x Hx; lia | done].
Qed.

Lemma load_on fuel sbuf_junk len_junk l id m i ram :
  loadable l len_junk m -> (t_write < fuel)%nat -> (forall x, 0 <= m x < 256) ->
  exists id' m' i', load fuel sbuf_junk len_junk l (mkDRVR id (board m i ram false)) =
      Ret tt (mkDRVR id' (board m' i' (fold_left ram_over l ram) true)) /\
    (forall x, 0 <= x < image_len l -> m' x = flash_image l x) /\
    (forall x, x < 0 \/ 65536 * ((image_len l + 65535) / 65536) <= x -> m' x = m x).
Proof.
  intros Hl Hf Hm. destruct (write_flash_on fuel sbuf_junk len_junk l id m i (fold_left ram_over l ram) Hl Hf Hm) as (id' & m' & i' & Hrun & Hh & Ho).
  exists id', m', i'. split; [| done]. unfold load. destruct Hl as [Hok Hv _ _ _].
  assert (Hc : for_each l check_section (mkDRVR id (board m i ram false)) = Ret tt (mkDRVR id (board m i ram false))).
  { clear -Hv. induction Hv as [| s l Hs _ IH]; cbn [for_each]; [done |]. unfold check_section at 1. rewrite Hs. by erewrite bind_eq by reflexivity. }
  nstep Hc. nstep (load_sections_on l Hok Hv id (board m i ram false) (mkIMAGE RESET_ADDRESS 0 (fun _ => 255)) eq_refl eq_refl eq_refl ltac:(unfold FLASHLEN; cbn; lia)).
  cbn [codelen fbuf b_ram]. fold (image_len l) (flash_image l). nstep Hrun. done.
Qed.

(** ** The command *)

Section Command.
Context (files : string -> option (list Z)) (elf_of : string -> ELF) (behind : PHDR -> list Z).

Lemma zipload_on fuel sbuf_junk len_junk argv codef l id m i ram run :
  arguments files argv = inr (Some codef) -> iself (files codef) = true -> 0x20170910 <= version ->
  (forall s, read_sections (W := BOARD) elf_of behind codef s = Ret l s) ->
  zipload files elf_of behind fuel sbuf_junk len_junk argv (mkDRVR id (board m i ram run)) =
    or_exit (-2) (load fuel sbuf_junk len_junk l) (mkDRVR FLASH_UNKNOWN (board m i ram false)).
Proof.
  intros Ha Hself Hver Hrd. unfold zipload. rewrite Ha.
  assert (Hv : or_exit EXIT_FAILURE (fpga (dev_readio R_VERSION)) (mkDRVR id (board m i ram run)) = Ret version (mkDRVR id (board m i ram run))) by done.
  nstep Hv. rewrite (proj2 (Z.ltb_ge _ _)) by done. erewrite bind_eq by reflexivity.
  assert (Hh : or_exit EXIT_FAILURE (fpga (dev_writeio R_GPIO (GPIO_CPU_RESET .| (GPIO_CPU_RESET .<< 16)))) (mkDRVR id (board m i ram run)) =
    Ret tt (mkDRVR id (board m i ram false))) by done.
  nstep Hh. erewrite bind_eq by reflexivity. rewrite Hself. unfold or_exit. nstep (Hrd (mkDRVR FLASH_UNKNOWN (board m i ram false))). done.
Qed.
End Command.
End Load.
