(* ===== verification/LoadClaims.v ===== *)
(** The claims on the program loader, alone and with the boot loader of the
    program that it has loaded. *)

From stdpp Require Import base tactics list numbers option gmap strings.
From Stdlib Require Import ZArith Lia.
From S2P Require Import Prelude Words FlashSim FlashProps FlashDrvr FlashChip FlashDrvrProps FlashWrite Zipelf Zipload LoadBoard LoadProps.
From S2P Require Boot.
Local Open Scope Z_scope.

Abbreviation flash m i := (mkCHIP m false 0 false true [] i).
Abbreviation board m i ram run := (mkBOARD (flash m i) ram run false).

(** Two sections that do not share a word. *)
Definition apart (s t : ELFSECTION) : Prop := m_start s + word_len s <= m_start t \/ m_start t + word_len t <= m_start s.

Lemma fold_over_at {A} (over : (Z -> Z) -> A -> Z -> Z) l1 s l2 f x :
  Forall (fun t => forall g, over g t x = g x) l2 -> fold_left over (l1 ++ s :: l2) f x = over (fold_left over l1 f) s x.
Proof.
  intros H. rewrite fold_left_app. cbn [fold_left]. generalize (over (fold_left over l1 f) s). induction H as [| t l2 Ht _ IH]; intros g; cbn [fold_left]; [done |].
  by rewrite IH, Ht.
Qed.

Lemma flash_over_at f l1 s l2 j d : section_ok s -> Forall section_ok l2 -> Forall (apart s) l2 -> in_bkram s = false ->
  m_data s !! j = Some d -> Z.of_nat j < m_len s -> fold_left flash_over (l1 ++ s :: l2) f (m_start s - FLASHBASE + Z.of_nat j) = d.
Proof.
  intros Hs Hl Ha Hr Hd Hj. rewrite fold_over_at.
  - unfold flash_over. rewrite Hr. cbv zeta. rewrite (proj2 (Z.leb_le _ _)), (proj2 (Z.ltb_lt _ _)) by lia. cbn [andb].
    replace (Z.to_nat _) with j by lia. rewrite lookup_take_lt by lia. by rewrite Hd.
  - clear l1. induction Hl as [| t l2 Ht _ IH]; [constructor |]. apply Forall_cons in Ha as [Ha Hal]. constructor; [| by apply IH]. intros g. unfold flash_over.
    destruct (in_bkram t); [done |]. cbv zeta. pose proof (so_len t Ht). pose proof (so_len s Hs). unfold apart, word_len in Ha.
    destruct (Z.leb_spec (m_start t - FLASHBASE) (m_start s - FLASHBASE + Z.of_nat j)), (Z.ltb_spec (m_start s - FLASHBASE + Z.of_nat j) (m_start t - FLASHBASE + m_len t));
      cbn [andb]; try done. exfalso. zlia.
Qed.

Lemma ram_image_at l1 s l2 ram j w : section_ok s -> Forall section_ok l2 -> Forall (apart s) l2 -> in_bkram s = true ->
  section_words s !! j = Some w -> fold_left ram_over (l1 ++ s :: l2) ram ((m_start s - BKRAMBASE) / 4 + Z.of_nat j) = w.
Proof.
  intros Hs Hl Ha Hr Hw. pose proof (lookup_lt_Some _ _ _ Hw) as Hlt. pose proof (section_words_length s Hs) as Hlen. rewrite fold_over_at.
  - unfold ram_over. rewrite Hr. unfold ram_write. rewrite (proj2 (Z.leb_le _ _)), (proj2 (Z.ltb_lt _ _)) by lia. cbn [andb].
    replace (Z.to_nat _) with j by lia. by rewrite Hw.
  - clear l1. induction Hl as [| t l2 Ht _ IH]; [constructor |]. apply Forall_cons in Ha as [Ha Hal]. constructor; [| by apply IH]. intros g. unfold ram_over.
    destruct (in_bkram t) eqn:Hrt; [| done]. unfold ram_write. rewrite (section_words_length t Ht).
    destruct (bkram_end s Hs Hr), (bkram_end t Ht Hrt). pose proof (so_word s Hs). pose proof (so_word t Ht). unfold apart, word_len, BKRAMBASE in *.
    destruct (Z.leb_spec ((m_start t - 10485760) / 4) ((m_start s - 10485760) / 4 + Z.of_nat j)),
      (Z.ltb_spec ((m_start s - 10485760) / 4 + Z.of_nat j) ((m_start t - 10485760) / 4 + 4 * ((m_len t + 3) / 4) / 4)); cbn [andb]; try done. exfalso. zlia.
Qed.

(** What the loader leaves of a section, unless a later one covers it: its bytes
    in flash, or its words in block RAM, with their bytes swapped. *)
Definition loaded (l : list ELFSECTION) (m' ram' : Z -> Z) : Prop := forall l1 s l2,
  l = l1 ++ s :: l2 -> Forall (apart s) l2 ->
  (in_bkram s = false -> forall j d, m_data s !! j = Some d -> Z.of_nat j < m_len s -> m' (m_start s - FLASHBASE + Z.of_nat j) = d) /\
  (in_bkram s = true -> forall j w, section_words s !! j = Some w -> ram' ((m_start s - BKRAMBASE) / 4 + Z.of_nat j) = w).

Lemma load_loads l m' ram : Forall section_ok l -> Forall (fun s => valid s = true) l ->
  (forall x, 0 <= x < image_len l -> m' x = flash_image l x) -> loaded l m' (fold_left ram_over l ram).
Proof.
  intros Hok Hv Hm l1 s l2 E Ha. assert (H : section_ok s /\ Forall section_ok l2 /\ valid s = true).
  { rewrite E in Hok, Hv. apply Forall_app in Hok as [_ Hok], Hv as [_ Hv]. apply Forall_cons in Hok as [? ?], Hv as [? _]. done. }
  destruct H as (Hs & Hl2 & Hvs). split; intros Hr j d Hd.
  - intros Hj. destruct (valid_cases s Hvs) as [? | [_ Hf]]; [congruence |]. destruct (flash_end s Hs Hf). rewrite Hm.
    + rewrite E. unfold flash_image. by apply flash_over_at.
    + assert (Ht : m_start s + m_len s - FLASHBASE <= image_len l); [| lia].
      rewrite E. unfold image_len. rewrite fold_left_app. cbn [fold_left]. set (t := fold_left top_over l1 0).
      assert (Hmono : forall l t, t <= fold_left top_over l t).
      { clear. induction l as [| s l IH]; intros t; cbn [fold_left]; [lia |]. specialize (IH (top_over t s)). unfold top_over in *. destruct (in_bkram s); lia. }
      specialize (Hmono l2 (top_over t s)). unfold top_over in Hmono at 1. rewrite Hr in Hmono. lia.
  - rewrite E. by apply ram_image_at.
Qed.

(** A program file whose empty segments are the last ones. *)
Record program (behind : PHDR -> list Z) (e : ELF) (l : list ELFSECTION) : Prop := {
  pg_ok : elf_ok e;
  pg_split : exists a z, e_phdrs e = a ++ z /\ forallb (fun h => negb (empty_hdr h)) a = true /\ forallb empty_hdr z = true /\
    l = map (section_of behind) a
}.

Lemma program_sections elf_of behind codef l : program behind (elf_of codef) l ->
  forall s, read_sections (W := BOARD) elf_of behind codef s = Ret l s.
Proof.
  intros [He (a & z & E & Ha & Hz & ->)] s. destruct (elfread_ordered behind (elf_of codef) a z He E Ha Hz) as (r & st & Hrun & Hs).
  unfold read_sections. by rewrite Hrun, Hs.
Qed.

Section Claims.
Context (chip_id : list Z) (t_write : nat) (version : Z).
Context (files : string -> option (list Z)) (elf_of : string -> ELF) (behind : PHDR -> list Z).
Abbreviation zipload_here := (zipload (H := board_bus chip_id t_write version) files elf_of behind).

Lemma zipload_runs fuel sbuf_junk len_junk argv codef l id m i ram run :
  arguments files argv = inr (Some codef) -> iself (files codef) = true -> 0x20170910 <= version ->
  program behind (elf_of codef) l -> loadable l len_junk m -> (t_write < fuel)%nat -> (forall x, 0 <= m x < 256) ->
  exists id' m' i' ram', zipload_here fuel sbuf_junk len_junk argv (mkDRVR id (board m i ram run)) =
      Ret tt (mkDRVR id' (board m' i' ram' true)) /\
    loaded l m' ram' /\ (forall x, x < 0 \/ 65536 * ((image_len l + 65535) / 65536) <= x -> m' x = m x).
Proof.
  intros Ha Hself Hver Hp Hl Hf Hm.
  destruct (load_on chip_id t_write version fuel sbuf_junk len_junk l FLASH_UNKNOWN m i ram Hl Hf Hm) as (id' & m' & i' & Hrun & Hh & Ho).
  exists id', m', i', (fold_left ram_over l ram). split; [| split; [| done]].
  - rewrite (zipload_on chip_id t_write version files elf_of behind fuel sbuf_junk len_junk argv codef l id m i ram run Ha Hself Hver (program_sections _ _ _ _ Hp)).
    unfold or_exit. by rewrite Hrun.
  - destruct Hl as [Hok Hv _ _ _]. by apply load_loads.
Qed.
End Claims.


(** A program with a segment in flash and one in block RAM. *)
Definition prog_bytes : list Z := [0x13; 0; 0; 0; 0x6f; 0; 0; 0].
Definition prog : ELF := mkELF true 0xf3 0x01000000 [ph 0x01000000 prog_bytes; ph 0x00a00000 [1; 2; 3; 4; 5]].
Definition pad4 (h : PHDR) : list Z := [0; 0; 0; 0].
Definition prog_sections : list ELFSECTION :=
  [mkSEC 0x01000000 8 (prog_bytes ++ [0; 0; 0; 0]); mkSEC 0x00a00000 5 [1; 2; 3; 4; 5; 0; 0; 0; 0]].
Definition disk (f : string) : option (list Z) := if bool_decide (f = "prog"%string) then Some [0x7f; 0x45; 0x4c; 0x46] else if bool_decide (f = "top.bit"%string) then Some [0; 1] else None.

Lemma prog_program : program pad4 prog prog_sections.
Proof.
  split; [split; [done .. | | vm_compute; done]; cbn; repeat constructor; vm_compute; done |].
  exists (e_phdrs prog), []. repeat split.
Qed.

Lemma prog_loadable : loadable prog_sections 0 (fun _ => 255).
Proof.
  assert (Hb : bytes (prog_bytes ++ [0; 0; 0; 0]) /\ bytes [1; 2; 3; 4; 5; 0; 0; 0; 0]) by (split; repeat constructor; lia). destruct Hb as [Hb1 Hb2].
  split; [| repeat constructor | reflexivity | done | left; reflexivity].
  apply Forall_cons. split; [| apply Forall_cons; split; [| constructor]]; split; try exact Hb1; try exact Hb2; cbn; done.
Qed.



Definition prog_sdram : ELF := mkELF true 0xf3 0x01000000 [ph 0x01000000 prog_bytes; ph 0x02000000 prog_bytes].


(** The loader loads its first file: a bit file before the program, which the
    usage of the command allows, makes it fail after it has put the processor in
    reset. *)
Theorem zipload_bitfile_first chip_id t_write version files elf_of behind fuel sbuf_junk len_junk bit prog id m i ram run :
  String.prefix "-" bit = false -> String.prefix "-" prog = false ->
  iself (files bit) = false -> files bit <> None -> iself (files prog) = true -> 0x20170910 <= version ->
  zipload (H := board_bus chip_id t_write version) files elf_of behind fuel sbuf_junk len_junk [bit; prog] (mkDRVR id (board m i ram run)) =
    Exn (EXIT EXIT_FAILURE) (mkDRVR FLASH_UNKNOWN (board m i ram false)).
Proof.
  intros Hb Hp Hbit Hbe Hprog Hver. assert (Hno : forall a l, String.prefix "-" a = false -> options (a :: l) = match options l with inr fs => inr (a :: fs) | e => e end).
  { clear. intros [| c a] l H; [done |]. destruct c as [[] [] [] [] [] [] [] []]; try reflexivity. by destruct a. }
  assert (Ha : arguments files [bit; prog] = inr (Some bit)).
  { unfold arguments. rewrite (Hno bit), (Hno prog) by done. cbn [options sort_files]. rewrite Hbit, Hprog. cbn [sort_files unreadable].
    rewrite !bool_decide_false by done. destruct (files prog) as [f |] eqn:E; [| done]. by rewrite bool_decide_false by done. }
  unfold zipload. rewrite Ha.
  erewrite (bind_eq (or_exit _ (fpga (dev_readio R_VERSION)))) by reflexivity. rewrite (proj2 (Z.ltb_ge _ _)) by done. erewrite bind_eq by reflexivity.
  erewrite (bind_eq (or_exit _ (fpga (dev_writeio _ _)))) by reflexivity. erewrite bind_eq by reflexivity. rewrite Hbit. done.
Qed.

Lemma zipload_bitfile_first_witness :
  zipload (H := board_bus [] 3 0x20190101) disk (fun _ => prog) pad4 4 [] 0 ["top.bit"%string; "prog"%string] (mkDRVR 5 (board (fun _ => 255) 0 (fun _ => 0) true)) =
    Exn (EXIT EXIT_FAILURE) (mkDRVR FLASH_UNKNOWN (board (fun _ => 255) 0 (fun _ => 0) false)).
Proof. apply zipload_bitfile_first; [reflexivity | reflexivity | reflexivity | done | reflexivity | lia]. Defined.

(** ** Loading and booting *)

(** The words of the processor's memory: the flash, where it is, and the rest. *)
Definition cpu_memory (m' rest : Z -> Z) (x : Z) : Z :=
  if (FLASHBASE <=? 4 * x) && (4 * x <? FLASHBASE + FLASHLEN) then mem_word m' (4 * x - FLASHBASE) else rest x.

(** The word of a section at an address of the processor. *)
Definition section_word (s : ELFSECTION) (x : Z) : Z := mem_word (at_data (m_data s)) (4 * x - m_start s).

(** The image that the boot loader copies is in the section [s]. *)
Record image_in (s : ELFSECTION) (lay : Boot.LAYOUT) : Prop := {
  ii_lo : m_start s <= 4 * Boot._kram_start lay;
  ii_hi : 4 * (Boot._kram_start lay + Boot.kram_words lay + Boot.ram_words lay) <= m_start s + m_len s
}.

Lemma loaded_word l m' ram' rest l1 s l2 x : Forall section_ok l -> Forall (fun s => valid s = true) l -> loaded l m' ram' ->
  l = l1 ++ s :: l2 -> Forall (apart s) l2 -> in_bkram s = false -> m_start s <= 4 * x -> 4 * x + 4 <= m_start s + m_len s ->
  cpu_memory m' rest x = section_word s x.
Proof.
  intros Hok Hv Hl E Ha Hr Hlo Hhi. destruct (Hl l1 s l2 E Ha) as [Hf _]. specialize (Hf Hr).
  assert (H : section_ok s /\ valid s = true) by (rewrite E in Hok, Hv; apply Forall_app in Hok as [_ Hok], Hv as [_ Hv]; by apply Forall_cons in Hok as [? _], Hv as [? _]).
  destruct H as [Hs Hvs]. destruct (valid_cases s Hvs) as [? | [_ Hfl]]; [congruence |]. destruct (flash_end s Hs Hfl).
  unfold cpu_memory, section_word. rewrite (proj2 (Z.leb_le _ _)), (proj2 (Z.ltb_lt _ _)) by lia. cbn [andb].
  assert (Hb : forall y, m_start s <= y < m_start s + m_len s -> m' (y - FLASHBASE) = at_data (m_data s) (y - m_start s)).
  { intros y Hy. pose proof (so_data s Hs). destruct (lookup_lt_is_Some_2 (m_data s) (Z.to_nat (y - m_start s))) as [d Hd]; [unfold word_len in *; zlia |].
    pose proof (Hf _ _ Hd ltac:(lia)) as E1. replace (m_start s - FLASHBASE + Z.of_nat (Z.to_nat (y - m_start s))) with (y - FLASHBASE) in E1 by lia.
    rewrite E1. unfold at_data. by rewrite Hd. }
  unfold mem_word.
  replace (4 * x - FLASHBASE + 1) with (4 * x + 1 - FLASHBASE) by lia. replace (4 * x - FLASHBASE + 2) with (4 * x + 2 - FLASHBASE) by lia.
  replace (4 * x - FLASHBASE + 3) with (4 * x + 3 - FLASHBASE) by lia. rewrite !Hb by lia. f_equal; f_equal; lia.
Qed.


(** The image of two words at the start of the flash goes to block RAM. *)
Definition prog_layout : Boot.LAYOUT := Boot.mkLAYOUT 0x400000 0 0x280100 0x400000 0x400000 0x280102 0x280110.

