(* ===== verification/MainTb.v ===== *)
(** Loading programs into the simulated board (src/sim/verilated/main_tb.cpp): [load]
    splits what is loaded between the flash and block RAM of the simulation, and
    [loadelf] loads the sections of a program file.

    Block RAM is the array that Verilator makes of the memory of rtl/memdev.v, 2^14 words
    of 32 bits (LGMEMSZ in rtl/main.v), as a function with that bound; a copy that leaves
    an array raises [FAULT].  The parts of the flash and of block RAM are built, as in
    rtl/main.v. *)

From stdpp Require Import base tactics list gmap numbers option.
From Stdlib Require Import ZArith Lia.
From S2P Require Import Prelude Words FlashSim FlashProps FlashDrvr FlashChip FlashDrvrProps FlashWrite Zipelf Zipload LoadBoard LoadProps LoadClaims.
Local Open Scope Z_scope.

Record MAINTB : Type := mkTB { tb_flash : FLASHSIM; block_ram : Z -> Z }.

#[export] Instance set_tb_flash : Setter tb_flash := fun v s => mkTB v (block_ram s).
#[export] Instance set_block_ram : Setter block_ram := fun v s => mkTB (tb_flash s) v.

Definition RAMWORDS : Z := 2 ^ 14.

(** The addresses of a component, and what of the data goes there. *)
Definition covers (base adrln addr : Z) : bool := (base <=? addr) && (addr <? base + adrln).
Definition part (base adrln addr len : Z) : Z * Z * Z :=
  let start := if base <? addr then addr - base else 0 in
  let offset := u32 (start + base - addr) in
  let wlen := if u32 (adrln - start) <? u32 (len - offset) then u32 (adrln - start) else u32 (len - offset) in
  (start, offset, wlen).

Definition tb_load_flash (start : Z) (data : list Z) : M MAINTB unit := fun s =>
  match flash_load start data (tb_flash s) with Some f => Ret tt (s <| tb_flash := f |>) | None => Exn FAULT s end.

(** The new array has room for [len+8] characters; [junk] is what it holds. *)
Definition tb_load_bkram (junk start wlen len : Z) (buf : list Z) : M MAINTB unit :=
  let start := u32 (start .& -4) in
  match memcpy wlen buf with
  | None => raise FAULT
  | Some bytes =>
      let bswapd := host_words bytes ++ replicate (Z.to_nat (len / 4 + 2 - wlen / 4)) junk in
      match byteswapbuf (len .>> 2) bswapd with
      | None => raise FAULT
      | Some bswapd =>
          if start + wlen / 4 <=? RAMWORDS
          then modify (fun s => s <| block_ram := ram_write (block_ram s) start (take (Z.to_nat (wlen / 4)) bswapd) |>)
          else raise FAULT
      end
  end.

(** [load] calls itself for what is behind a component. *)
Fixpoint tb_load (fuel : nat) (junk addr : Z) (buf : list Z) (len : Z) : M MAINTB bool :=
  match fuel with
  | O => raise NOFUEL
  | S fuel' =>
      let rest base adrln offset wlen :=
        if base + adrln <? u32 (addr + len)
        then tb_load fuel' junk (base + adrln) (drop (Z.to_nat (offset + wlen)) buf) (u32 (len - wlen))
        else ret true in
      if covers FLASHBASE FLASHLEN addr then
        let '(start, offset, wlen) := part FLASHBASE FLASHLEN addr len in
        match memcpy wlen (drop (Z.to_nat offset) buf) with
        | None => raise FAULT
        | Some data => tb_load_flash start data ;; rest FLASHBASE FLASHLEN offset wlen
        end
      else if covers BKRAMBASE BKRAMLEN addr then
        let '(start, offset, wlen) := part BKRAMBASE BKRAMLEN addr len in
        let wlen := u32 ((wlen + 3) .& -4) in
        tb_load_bkram junk start wlen len (drop (Z.to_nat offset) buf) ;;
        rest BKRAMBASE BKRAMLEN offset wlen
      else ret false
  end.

(** Two components, and what is behind the second. *)
Definition LOADS : nat := 3.

(** The sections that could not be loaded, for which there is a message. *)
Fixpoint loadelf_sections (junk : Z) (l : list ELFSECTION) : M MAINTB (list ELFSECTION) :=
  match l with
  | [] => ret []
  | s :: l' =>
      let* ok := tb_load LOADS junk (m_start s) (m_data s) (m_len s) in
      let* bad := loadelf_sections junk l' in
      ret (if ok then bad else s :: bad)
  end.

Definition loadelf (junk : Z) (behind : PHDR -> list Z) (e : ELF) : M MAINTB (list ELFSECTION) :=
  match elfread behind e empty with
  | Exn x _ => raise x
  | Ret (_, r) st => match sections r st with Some l => loadelf_sections junk l | None => raise FAULT end
  end.

(** ** One section *)

(** The flash of the constructor, 2^24 bytes. *)
Definition flash_sized (f : FLASHSIM) : Prop := m_membytes f = 2 ^ 24 /\ m_memmask f = 2 ^ 24 - 1.

Lemma part_whole base adrln addr len : covers base adrln addr = true -> 0 <= base -> 0 <= len -> addr + len <= base + adrln -> base + adrln < 2 ^ 32 ->
  part base adrln addr len = (addr - base, 0, len).
Proof.
  unfold covers, part. intros Hc Hb Hl He Hr. bools.
  assert (Hs : (if base <? addr then addr - base else 0) = addr - base) by (destruct (Z.ltb_spec base addr); lia). rewrite Hs.
  replace (addr - base + base - addr) with 0 by lia. change (u32 0) with 0. unfold u32. rewrite !Z.mod_small by lia. rewrite Z.sub_0_r.
  by rewrite (proj2 (Z.ltb_ge _ _)) by lia.
Qed.

Lemma tb_load_flash_section fuel junk s tb : section_ok s -> in_bkram s = false -> in_flash s = true -> flash_sized (tb_flash tb) ->
  exists f, tb_load (S fuel) junk (m_start s) (m_data s) (m_len s) tb = Ret true (tb <| tb_flash := f |>) /\ flash_sized f /\
    forall x, m_fmem f x = flash_over (m_fmem (tb_flash tb)) s x.
Proof.
  intros Hs Hr Hf [Hsz Hmask]. destruct (flash_end s Hs Hf) as [Hlo Hhi]. pose proof Hs as [H0 H4 Hl He Hd Hb]. unfold word_len in Hd.
  unfold FLASHBASE, FLASHLEN in Hlo, Hhi.
  assert (Hc : covers FLASHBASE FLASHLEN (m_start s) = true) by (unfold covers, FLASHBASE, FLASHLEN; apply andb_true_iff; split; [apply Z.leb_le | apply Z.ltb_lt]; lia).
  cbn [tb_load]. rewrite Hc, part_whole by (done || lia || (unfold FLASHBASE, FLASHLEN; lia)). rewrite drop_0. unfold memcpy.
  rewrite (proj2 (Z.leb_le _ _)) by zlia. set (data := take (Z.to_nat (m_len s)) (m_data s)).
  assert (Hlen : Z.of_nat (length data) = m_len s) by (unfold data; rewrite length_take; zlia).
  assert (Hm : (m_start s - FLASHBASE) .& m_memmask (tb_flash tb) = m_start s - FLASHBASE).
  { rewrite Hmask, land_ones_mod by lia. apply Z.mod_small. unfold FLASHBASE. lia. }
  eexists. split.
  - unfold tb_load_flash, flash_load, mem_set, bind. rewrite Hm, Hlen, Hsz. rewrite (proj2 (Z.leb_le _ _)), (proj2 (Z.leb_le _ _)) by (unfold FLASHBASE; lia). cbn [andb].
    unfold u32. rewrite Z.mod_small by lia. rewrite (proj2 (Z.ltb_ge _ _)) by (unfold FLASHBASE, FLASHLEN; lia). reflexivity.
  - split; [by split |]. intros x. cbn. unfold range_set, flash_over. rewrite Hr. cbv zeta. fold data.
    destruct ((m_start s - FLASHBASE <=? x) && (x <? m_start s - FLASHBASE + m_len s)) eqn:Ex; [| done]. bools.
    destruct (lookup_lt_is_Some_2 data (Z.to_nat (x - (m_start s - FLASHBASE))) ltac:(lia)) as [d Hdx]. by rewrite (list_lookup_total_correct _ _ _ Hdx), Hdx.
Qed.

(** A section of block RAM with whole words: its words, with their bytes swapped, from
    the word on whose number is the distance of its start in bytes. *)
Lemma tb_load_bkram_section fuel junk s tb : section_ok s -> in_bkram s = true -> m_len s mod 4 = 0 ->
  let off := m_start s - BKRAMBASE in
  tb_load (S fuel) junk (m_start s) (m_data s) (m_len s) tb =
  if off + m_len s / 4 <=? RAMWORDS then Ret true (tb <| block_ram := ram_write (block_ram tb) off (section_words s) |>) else Exn FAULT tb.
Proof.
  intros Hs Hr Hw off. destruct (bkram_end s Hs Hr) as [Hlo Hhi]. pose proof (section_words_length s Hs) as Hlen. pose proof (u32_word_len s Hs) as Hu.
  pose proof Hs as [H0 H4 Hl He Hd Hb]. assert (Ewl : word_len s = m_len s) by (unfold word_len; zlia). rewrite Ewl in *.
  unfold BKRAMBASE, BKRAMLEN in Hlo, Hhi.
  assert (Hcf : covers FLASHBASE FLASHLEN (m_start s) = false) by (unfold covers, FLASHBASE; apply andb_false_iff; left; apply Z.leb_gt; lia).
  assert (Hc : covers BKRAMBASE BKRAMLEN (m_start s) = true) by (unfold covers, BKRAMBASE, BKRAMLEN; apply andb_true_iff; split; [apply Z.leb_le | apply Z.ltb_lt]; lia).
  cbn [tb_load]. rewrite Hcf, Hc, part_whole by (done || lia || (unfold BKRAMBASE, BKRAMLEN; lia)). fold off. rewrite drop_0, Hu.
  assert (Hoff : u32 (off .& -4) = off).
  { change (-4) with (~. Z.ones 2). rewrite <- Z.ldiff_land, Z.ldiff_ones_r, shiftl_mul, shiftr_div by done. unfold u32, off, BKRAMBASE. change (2 ^ 2) with 4.
    rewrite Z.mod_small; zlia. }
  unfold tb_load_bkram. rewrite Hoff. unfold memcpy. rewrite (proj2 (Z.leb_le _ _)) by lia. set (ws := host_words _).
  assert (Hws : Z.of_nat (length ws) = m_len s / 4) by (unfold section_words in Hlen; rewrite length_map, Ewl in Hlen; exact Hlen).
  replace (m_len s / 4 + 2 - m_len s / 4) with 2 by lia. change (Z.to_nat 2) with 2%nat. unfold byteswapbuf. rewrite shiftr_div by lia. change (2 ^ 2) with 4.
  replace (Z.to_nat (m_len s / 4)) with (length ws) by lia.
  rewrite byteswapbuf_from_spec by (rewrite length_app, length_replicate; lia). rewrite take_0, drop_0. cbn [app]. rewrite take_app_length, Nat.add_0_l, drop_app_length.
  assert (Etake : take (length ws) (map byteswap ws ++ replicate 2 junk) = section_words s).
  { rewrite take_app_length' by (by rewrite length_map). unfold section_words, ws. by rewrite Ewl. }
  rewrite Etake. destruct (off + m_len s / 4 <=? RAMWORDS); [| done]. rewrite (bind_eq _ _ tb tt (tb <| block_ram := ram_write (block_ram tb) off (section_words s) |>)) by done.
  unfold u32. rewrite Z.mod_small by lia. by rewrite (proj2 (Z.ltb_ge _ _)) by (unfold BKRAMBASE, BKRAMLEN; lia).
Qed.

(** ** A program *)

Lemma flash_over_ext s f g : (forall x, f x = g x) -> forall x, flash_over f s x = flash_over g s x.
Proof. intros E x. unfold flash_over. destruct (in_bkram s); [done |]. cbv zeta. by destruct (_ && _). Qed.

Lemma flash_fold_ext l : forall f g, (forall x, f x = g x) -> forall x, fold_left flash_over l f x = fold_left flash_over l g x.
Proof. induction l as [| s l IH]; intros f g E x; cbn [fold_left]; [done |]. apply IH. by apply flash_over_ext. Qed.

Lemma image_loaded l f ram : Forall section_ok l -> loaded l (fold_left flash_over l f) (fold_left ram_over l ram).
Proof.
  intros Hok l1 s l2 -> Ha. apply Forall_app in Hok as [_ Hok]. apply Forall_cons_1 in Hok as [Hs Hl2].
  split; intros Hr j d Hd; [intros Hj; exact (flash_over_at f l1 s l2 j d Hs Hl2 Ha Hr Hd Hj) | by apply ram_image_at].
Qed.

(** What [load] puts where the section asks for. *)
Definition sim_placed (s : ELFSECTION) : Prop := in_bkram s = true -> m_start s = BKRAMBASE /\ m_len s mod 4 = 0.

Lemma loadelf_sections_runs junk l : forall tb, Forall section_ok l -> Forall (fun s => valid s = true) l -> Forall sim_placed l -> flash_sized (tb_flash tb) ->
  exists tb', loadelf_sections junk l tb = Ret [] tb' /\ (forall x, m_fmem (tb_flash tb') x = fold_left flash_over l (m_fmem (tb_flash tb)) x) /\
    block_ram tb' = fold_left ram_over l (block_ram tb).
Proof.
  induction l as [| s l IH]; intros tb Hok Hv Hp Hsz; [by exists tb |].
  apply Forall_cons_1 in Hok as [Hs Hok], Hv as [Hvs Hv], Hp as [Hps Hp]. cbn [loadelf_sections fold_left]. change LOADS with 3%nat.
  destruct (valid_cases s Hvs) as [Hr | [Hr Hf]].
  - destruct (Hps Hr) as [Est Hw]. destruct (bkram_end s Hs Hr) as [_ Hhi]. pose proof (so_len s Hs).
    pose proof (tb_load_bkram_section 2 junk s tb Hs Hr Hw) as E. cbv zeta in E. rewrite Est, Z.sub_diag in E.
    rewrite (proj2 (Z.leb_le _ _)) in E by (unfold word_len, RAMWORDS, BKRAMBASE, BKRAMLEN in *; zlia).
    rewrite Est, (bind_eq _ _ _ _ _ E). cbv beta. set (tb1 := tb <| block_ram := _ |>). destruct (IH tb1 Hok Hv Hp Hsz) as (tb' & E' & Hm & Hram). exists tb'.
    split; [unfold bind; by rewrite E' |]. unfold flash_over at 2, ram_over at 2. rewrite Hr, Est. split; [exact Hm |]. exact Hram.
  - destruct (tb_load_flash_section 2 junk s tb Hs Hr Hf Hsz) as (f & E & Hsz' & Hm1). rewrite (bind_eq _ _ _ _ _ E). cbv beta.
    set (tb1 := tb <| tb_flash := f |>). destruct (IH tb1 Hok Hv Hp Hsz') as (tb' & E' & Hm & Hram). exists tb'. split; [unfold bind; by rewrite E' |].
    split; [intros x; rewrite Hm; by apply flash_fold_ext |]. unfold ram_over at 2. by rewrite Hr.
Qed.

(** C11: The simulation's loader leaves a program as the loader of the board does: every
    section in its memory, in block RAM with the bytes of each word swapped; and there is
    no message.  Sections of block RAM have whole words and start with it. *)
Theorem sim_loads_program junk behind e l tb :
  program behind e l -> Forall section_ok l -> Forall (fun s => valid s = true) l -> Forall sim_placed l -> flash_sized (tb_flash tb) ->
  exists tb', loadelf junk behind e tb = Ret [] tb' /\ loaded l (m_fmem (tb_flash tb')) (block_ram tb').
Proof.
  intros [He (a & z & E & Ha & Hz & ->)] Hok Hv Hp Hsz. destruct (elfread_ordered behind e a z He E Ha Hz) as (r & st & Hrun & Hsec).
  unfold loadelf. rewrite Hrun, Hsec. destruct (loadelf_sections_runs junk _ tb Hok Hv Hp Hsz) as (tb' & El & Hm & Hram). exists tb'. split; [exact El |].
  rewrite Hram. intros l1 s l2 Es Hap. destruct (image_loaded _ (m_fmem (tb_flash tb)) (block_ram tb) Hok l1 s l2 Es Hap) as [H1 H2].
  split; [| exact H2]. intros Hr j d Hd Hj. rewrite Hm. by apply H1.
Qed.

(** C31: A section of block RAM that does not start with it is put at the word whose number
    is the distance in bytes, four times too far: its own first word stays as it was, and
    a section that fits the memory may be written behind the end of it. *)
Theorem sim_load_misplaced junk s tb : section_ok s -> in_bkram s = true -> m_len s mod 4 = 0 ->
  let off := m_start s - BKRAMBASE in 0 < off ->
  (off + m_len s / 4 <= RAMWORDS -> exists tb', tb_load LOADS junk (m_start s) (m_data s) (m_len s) tb = Ret true tb' /\
     block_ram tb' (off / 4) = block_ram tb (off / 4) /\ forall j w, section_words s !! j = Some w -> block_ram tb' (off + Z.of_nat j) = w) /\
  (RAMWORDS < off + m_len s / 4 -> tb_load LOADS junk (m_start s) (m_data s) (m_len s) tb = Exn FAULT tb).
Proof.
  intros Hs Hr Hw off Hoff. pose proof (tb_load_bkram_section 2 junk s tb Hs Hr Hw) as E. cbv zeta in E. fold off in E. change LOADS with 3%nat. rewrite E. split; intros Hfit.
  - rewrite (proj2 (Z.leb_le _ _) Hfit). eexists. split; [reflexivity |]. cbn. unfold ram_write. split.
    + rewrite (proj2 (Z.leb_gt _ _)) by zlia. done.
    + intros j w Hj. pose proof (lookup_lt_Some _ _ _ Hj). rewrite (proj2 (Z.leb_le _ _)), (proj2 (Z.ltb_lt _ _)) by lia. cbn [andb].
      replace (Z.to_nat _) with j by lia. by rewrite Hj.
  - by rewrite (proj2 (Z.leb_gt _ _)).
Qed.

(** ** A board *)

Definition new_tb : MAINTB := mkTB (flash_new 24 2 0 0 (fun _ => 0)) (fun _ => 0).
Definition whole_prog : ELF := mkELF true 0xf3 0x01000000 [ph 0x01000000 prog_bytes; ph 0x00a00000 [1; 2; 3; 4]].
Definition whole_sections : list ELFSECTION := [mkSEC 0x01000000 8 (prog_bytes ++ [0; 0; 0; 0]); mkSEC 0x00a00000 4 [1; 2; 3; 4; 0; 0; 0; 0]].

Lemma whole_program : program pad4 whole_prog whole_sections.
Proof.
  split; [split; [done .. | | vm_compute; done]; cbn; repeat constructor; vm_compute; done |].
  exists (e_phdrs whole_prog), []. repeat split.
Qed.

Lemma byte_section a n bs : 0 <= a -> a mod 4 = 0 -> 0 < n -> a + 4 * ((n + 3) / 4) < 2 ^ 32 -> 4 * ((n + 3) / 4) <= Z.of_nat (length bs) ->
  forallb (fun b => (0 <=? b) && (b <? 256)) bs = true -> section_ok (mkSEC a n bs).
Proof.
  intros ? ? ? ? ? Hbs. split; cbn; try done. apply Forall_forall. intros b Hb.
  pose proof (proj1 (forallb_forall _ _) Hbs b Hb) as Hx. cbv beta in Hx. bools. lia.
Qed.

Lemma sim_loads_program_witness : exists tb', loadelf 7 pad4 whole_prog new_tb = Ret [] tb' /\
  m_fmem (tb_flash tb') 4 = 0x6f /\ block_ram tb' 0 = 0x01020304.
Proof.
  destruct (sim_loads_program 7 pad4 whole_prog whole_sections new_tb whole_program) as (tb' & E & Hl).
  - repeat apply Forall_cons_2; [by apply byte_section .. | apply Forall_nil_2].
  - repeat apply Forall_cons_2; [reflexivity .. | apply Forall_nil_2].
  - repeat apply Forall_cons_2; [done | by intros _ | apply Forall_nil_2].
  - by split.
  - exists tb'. split; [exact E |]. split.
    + exact (proj1 (Hl [] _ [mkSEC 0x00a00000 4 [1; 2; 3; 4; 0; 0; 0; 0]] eq_refl ltac:(apply Forall_cons_2; [by right | apply Forall_nil_2])) eq_refl 4%nat _ eq_refl ltac:(done)).
    + exact (proj2 (Hl [mkSEC 0x01000000 8 (prog_bytes ++ [0; 0; 0; 0])] _ [] eq_refl (Forall_nil_2 _)) eq_refl 0%nat _ eq_refl).
Defined.

Lemma sim_load_misplaced_witness : exists tb', tb_load LOADS 7 0x00a00010 [1; 2; 3; 4; 5; 6; 7; 8] 8 new_tb = Ret true tb' /\
  block_ram tb' 4 = 0 /\ block_ram tb' 16 = 0x01020304.
Proof.
  destruct (sim_load_misplaced 7 (mkSEC 0x00a00010 8 [1; 2; 3; 4; 5; 6; 7; 8]) new_tb ltac:(by apply byte_section) eq_refl eq_refl ltac:(done)) as [H _].
  destruct (H ltac:(done)) as (tb' & E & H0 & Hw). exists tb'. split; [exact E |]. split; [exact H0 |]. exact (Hw 0%nat _ eq_refl).
Defined.
