(* ===== verification/Wbregs.v ===== *)
(** Reading and writing registers by name (src/sw/host/wbregs.cpp and regdefs.cpp).

    Text is the list of its character codes without the final NUL, and [argv] a list
    of texts, in which the program moves its arguments; an access outside of it raises
    [FAULT].  The lines that the program prints are kept as the values they show.  The
    opening of the connection and the signals are left out. *)

From stdpp Require Import base tactics list numbers option strings.
From Stdlib Require Import ZArith Lia.
From S2P Require Import Prelude FlashDrvr Zipelf Zipload.
Local Open Scope Z_scope.

(** ** Characters and numbers (ctype.h, strings.h, stdlib.h) *)

Definition text (s : string) : list Z := (fun c => Z.of_nat (Ascii.nat_of_ascii c)) <$> String.list_ascii_of_string s.

(** The character at [i], the final NUL included. *)
Definition ch (v : list Z) (i : nat) : Z := default 0 (v !! i).

Definition isspace (c : Z) : bool := (c =? 32) || ((9 <=? c) && (c <=? 13)).
Definition isdigit (c : Z) : bool := (48 <=? c) && (c <=? 57).
Definition isupper (c : Z) : bool := (65 <=? c) && (c <=? 90).
Definition isalpha (c : Z) : bool := isupper c || ((97 <=? c) && (c <=? 122)).
Definition isgraph (c : Z) : bool := (33 <=? c) && (c <=? 126).
Definition tolower (c : Z) : Z := if isupper c then c + 32 else c.

Fixpoint skip_while (p : Z -> bool) (v : list Z) : list Z :=
  match v with [] => [] | c :: v' => if p c then skip_while p v' else v end.

(** [strcasecmp(a, b) == 0] *)
Definition same_text (a b : list Z) : bool := bool_decide (tolower <$> a = tolower <$> b).

Definition digit_of (c : Z) : Z := if isdigit c then c - 48 else if isalpha c then tolower c - 87 else 36.

Fixpoint number (base acc : Z) (v : list Z) : Z :=
  match v with
  | [] => acc
  | c :: v' => if digit_of c <? base then number base (acc * base + digit_of c) v' else acc
  end.

Definition ULONG_MAX : Z := 2 ^ 64 - 1.

(** [strtoul(v, NULL, 0)] *)
Definition strtoul (v : list Z) : Z :=
  let v := skip_while isspace v in
  let neg := ch v 0 =? 45 in
  let v := if neg || (ch v 0 =? 43) then drop 1 v else v in
  let n :=
    if negb (ch v 0 =? 48) then number 10 0 v
    else if (tolower (ch v 1) =? 120) && (digit_of (ch v 2) <? 16) then number 16 0 (drop 2 v)
    else number 8 0 v in
  if ULONG_MAX <? n then ULONG_MAX else if neg then u64 (- n) else n.

(** [%0kx] *)
Definition hex_char (d : Z) : Z := if d <? 10 then 48 + d else 87 + d.
Fixpoint hex_text (k : nat) (a : Z) : list Z :=
  match k with O => [] | S k' => hex_text k' (a / 16) ++ [hex_char (a mod 16)] end.

(** ** The registers (regdefs.h, regdefs.cpp) *)

Record REGNAME : Type := mkREG { m_addr : Z; m_name : string }.

Definition bregs : list REGNAME := [
  mkREG R_FLASHCFG "FLASHCFG"; mkREG R_FLASHCFG "QSPIC";
  mkREG 0x00200000 "NETSCOPE"; mkREG 0x00200004 "NETSCOPED";
  mkREG R_FLASHSCOPE "FLASHSCOPE"; mkREG 0x00300004 "FLASHSCOPED";
  mkREG 0x00400004 "UFIFO"; mkREG 0x00400008 "RX"; mkREG 0x0040000c "TX";
  mkREG 0x00500000 "RXCMD"; mkREG 0x00500000 "NETRX"; mkREG 0x00500004 "TXCMD"; mkREG 0x00500004 "NETTX";
  mkREG 0x00500008 "MACHI"; mkREG 0x0050000c "MACLO"; mkREG 0x00500010 "NETMISS"; mkREG 0x00500014 "NETERR";
  mkREG 0x00500018 "NETCRCER"; mkREG 0x0050001c "NETCOL";
  mkREG 0x00600000 "BUILDTIME"; mkREG 0x00600000 "BUILDTIME"; mkREG 0x00600004 "BUSERR"; mkREG 0x00600004 "BUSERR";
  mkREG 0x00600008 "PIC"; mkREG 0x00600008 "PIC"; mkREG 0x0060000c "CPUACTIVEIRQ"; mkREG 0x0060000c "CPUACTIVEIRQ";
  mkREG 0x00600010 "CPUBUSERR"; mkREG 0x00600010 "CPUBUSERR"; mkREG 0x00600014 "CPUBUSERRPC"; mkREG 0x00600014 "CPUBUSERRPC";
  mkREG R_GPIO "GPIO"; mkREG R_GPIO "GPI"; mkREG R_GPIO "GPO"; mkREG R_GPIO "GPIO"; mkREG R_GPIO "GPI"; mkREG R_GPIO "GPO";
  mkREG 0x0060001c "NET1DLY"; mkREG 0x0060001c "NET1DLY"; mkREG 0x00600020 "PWRCOUNT"; mkREG 0x00600020 "PWRCOUNT";
  mkREG 0x00600024 "SPIO"; mkREG 0x00600024 "SPIO";
  mkREG 0x00600028 "ZIPTIMER"; mkREG 0x00600028 "TIMER"; mkREG 0x00600028 "SYSTIMER";
  mkREG 0x00600028 "ZIPTIMER"; mkREG 0x00600028 "TIMER"; mkREG 0x00600028 "SYSTIMER";
  mkREG R_VERSION "VERSION"; mkREG R_VERSION "VERSION";
  mkREG 0x00700000 "BMCR"; mkREG 0x00700004 "BMSR"; mkREG 0x00700008 "PHYIDR1"; mkREG 0x0070000c "PHYIDR2";
  mkREG 0x00700010 "ANAR"; mkREG 0x00700014 "ANLPAR"; mkREG 0x00700018 "ANER"; mkREG 0x0070001c "ANNPTR";
  mkREG 0x00700020 "ANNPRR"; mkREG 0x00700024 "GBECTRL"; mkREG 0x00700028 "GBESTAT";
  mkREG 0x00800000 "NETRXB"; mkREG 0x00800800 "NETTXB"; mkREG 0x00a00000 "RAM"; mkREG R_FLASH "FLASH" ].

(** The processor's registers are not part of this design. *)
Definition addrdecode {S} (v : list Z) : M S Z :=
  if isalpha (ch v 0) then
    match List.find (fun r => same_text v (text (m_name r))) bregs with
    | Some r => ret (m_addr r)
    | None => raise (EXIT (-2))
    end
  else ret (u32 (strtoul v)).

Definition addrname (v : Z) : option (list Z) :=
  (fun r => text (m_name r)) <$> List.find (fun r => m_addr r =? v) bregs.

(** ** Map files *)

Definition isvalue (v : list Z) : bool :=
  let ptr := skip_while isspace v in
  let ptr := if (ch ptr 0 =? 43) || (ch ptr 0 =? 45) then drop 1 ptr else ptr in
  let ptr := if ch ptr 0 =? 43 then drop 1 ptr else ptr in
  let ptr :=
    if ch ptr 0 =? 48 then
      let ptr := drop 1 ptr in if tolower (ch ptr 0) =? 120 then drop 1 ptr else ptr
    else ptr in
  isdigit (ch ptr 0).

(** What [fgets] gives of a file, with [room] characters left in the array. *)
Fixpoint fgets_all (room : nat) (line : list Z) (file : list Z) : list (list Z) :=
  match file with
  | [] => match line with [] => [] | _ => [line] end
  | c :: file' =>
      if (c =? 10) || (room =? 1)%nat then (line ++ [c]) :: fgets_all 511 [] file'
      else fgets_all (room - 1) (line ++ [c]) file'
  end.

(** The tokens that [strtok(line, " \t\n")] gives, one after the other. *)
Definition is_sep (c : Z) : bool := (c =? 32) || (c =? 9) || (c =? 10).
Fixpoint strtoks (tok : list Z) (line : list Z) : list (list Z) :=
  let here := match tok with [] => [] | _ => [tok] end in
  match line with
  | [] => here
  | c :: line' => if c =? 0 then here else if is_sep c then here ++ strtoks [] line' else strtoks (tok ++ [c]) line'
  end.

(** The address and name of a line that has both, and nothing else. *)
Definition map_line (line : list Z) : option (list Z * list Z) :=
  match strtoks [] line with
  | [astr; nstr] => if isvalue astr then Some (astr, nstr) else None
  | _ => None
  end.

Definition map_lines (file : list Z) : list (list Z * list Z) := omap map_line (fgets_all 511 [] file).

Section Wbregs.
(** The contents of the files that can be read. *)
Context (files : list Z -> option (list Z)).

Definition getmap_address {S} (map_fname name : list Z) : M S Z :=
  match files map_fname with
  | None => raise (EXIT EXIT_FAILURE)
  | Some file =>
      ret (match List.find (fun l => same_text l.2 name) (map_lines file) with
           | Some l => u32 (strtoul l.1)
           | None => 0
           end)
  end.

Definition getmap_name {S} (map_fname : option (list Z)) (val : Z) : M S (option (list Z)) :=
  match map_fname with
  | None => ret None
  | Some f =>
      match files f with
      | None => raise (EXIT EXIT_FAILURE)
      | Some file => ret (snd <$> List.find (fun l => strtoul l.1 =? val) (map_lines file))
      end
  end.

(** ** The program *)

Inductive SHOWN : Type :=
  | Usage
  | Named (v : list Z)
  | Decimal (v : Z)
  | Shown (address : Z) (nm : option (list Z)) (chars : list Z) (v : Z)
  | BusError (address : Z) (nm : option (list Z))
  | Written (address : Z) (nm : option (list Z)) (value : Z)
  | Interrupted.

Record PROG (W : Type) : Type := mkPROG { g_fpga : W; g_stdout : list SHOWN }.
#[global] Arguments mkPROG {W}. #[global] Arguments g_fpga {W}. #[global] Arguments g_stdout {W}.

Context {W : Type} {HD : DEVBUS W} (dev_poll : W -> bool).
Abbreviation PM := (M (PROG W)).

Definition printf (l : SHOWN) : PM unit := modify (fun s => mkPROG (g_fpga s) (g_stdout s ++ [l])).
Definition bus {A} (m : M W A) : PM A := fun s =>
  match m (g_fpga s) with Ret a w => Ret a (mkPROG w (g_stdout s)) | Exn e w => Exn e (mkPROG w (g_stdout s)) end.

Definition argv_at (argv : list (list Z)) (i : Z) : PM (list Z) :=
  match (if 0 <=? i then argv !! Z.to_nat i else None) with Some v => ret v | None => raise FAULT end.
Definition argv_put (argv : list (list Z)) (i : Z) (v : list Z) : PM (list (list Z)) :=
  if (0 <=? i) && (i <? Z.of_nat (length argv)) then ret (<[Z.to_nat i := v]> argv) else raise FAULT.

Record OPTIONS : Type := mkOPT { o_argn : Z; o_skp : Z; o_decimal : bool; o_map : option (list Z); o_argv : list (list Z) }.

(** A turn of the loop over the arguments. *)
Definition args_step (argc : Z) (o : OPTIONS) : PM (OPTIONS + OPTIONS) :=
  let '(mkOPT argn skp use_decimal map_file argv) := o in
  if negb (argn <? argc - skp) then ret (inr o)
  else
    let* arg := argv_at argv (argn + skp) in
    if ch arg 0 =? 45 then
      if ch arg 1 =? 100 then ret (inl (mkOPT argn (skp + 1) true map_file argv))
      else if ch arg 1 =? 109 then
        if argc <=? argn + skp + 1 then raise (EXIT 0)
        else
          let* f := argv_at argv (argn + skp + 1) in
          ret (inl (mkOPT (argn - 1) (skp + 2) use_decimal (Some f) argv))
      else printf Usage ;; raise (EXIT 0)
    else
      let* argv := argv_put argv argn arg in
      ret (inl (mkOPT (argn + 1) skp use_decimal map_file argv)).

(** The address that the first argument stands for, and its name. *)
Definition lookup_address (map_file : option (list Z)) (named_address : list Z) : PM (Z * option (list Z)) :=
  if isvalue named_address then
    printf (Named named_address) ;;
    let address := u32 (strtoul named_address) in
    let* nm := getmap_name map_file address in
    ret (address, match nm with Some n => Some n | None => addrname address end)
  else
    let decoded := let* address := addrdecode named_address in ret (address, addrname address) in
    match map_file with
    | Some f =>
        let* address := getmap_address f named_address in
        let* nm := getmap_name map_file address in
        match nm with Some n => ret (address, Some n) | None => decoded end
    | None => decoded
    end.

Definition shown_char (c : Z) : Z := if isgraph c then c else 46.

(** [try { ... } catch(BUSERR b) { ... }] around the reading of a register. *)
Definition peek_register (use_decimal : bool) (address : Z) (nm : option (list Z)) : PM unit := fun s =>
  match bus (dev_readio address) s with
  | Ret v s' =>
      printf (if use_decimal then Decimal (s32 v)
              else Shown address nm (shown_char <$> [(v .>> 24) .& 0x0ff; (v .>> 16) .& 0x0ff; (v .>> 8) .& 0x0ff; v .& 0x0ff]) v) s'
  | Exn (BUSERR _) s' => printf (BusError address nm) s'
  | Exn e s' => Exn e s'
  end.

Definition poke_register (address : Z) (nm : option (list Z)) (arg : list Z) : PM unit :=
  let value := u32 (strtoul arg) in
  bus (dev_writeio address value) ;;
  printf (Written address nm value).

Definition main (argv : list (list Z)) : PM unit :=
  let argc := Z.of_nat (length argv) in
  let* o := loop (S (length argv)) (args_step argc) (mkOPT 0 1 false None argv) in
  let argc := argc - o_skp o in
  if (argc <? 1) || (2 <? argc) then printf Usage ;; raise (EXIT (-1))
  else
    (match o_map o with
     | Some f => match files f with Some _ => ret tt | None => raise (EXIT EXIT_FAILURE) end
     | None => ret tt
     end) ;;
    let* named_address := argv_at (o_argv o) 0 in
    let* an := lookup_address (o_map o) named_address in
    let '(address, nm) := an in
    (if argc <? 2 then peek_register (o_decimal o) address nm
     else let* arg := argv_at (o_argv o) 1 in poke_register address nm arg) ;;
    let* s := get in
    if dev_poll (g_fpga s) then printf Interrupted else ret tt.
End Wbregs.
