(* ===== verification/WbregsProps.v ===== *)
(** wbregs reads and writes the register that its first argument names or spells, and
    nothing else; what its option for a map file does. *)

From stdpp Require Import base tactics list numbers option strings.
From Stdlib Require Import ZArith Lia.
From S2P Require Import Prelude FlashDrvr Zipelf Zipload Wbregs.
Local Open Scope Z_scope.

(** ** Names *)

Lemma tolower_alpha c : isalpha (tolower c) = isalpha c.
Proof.
  unfold isalpha, tolower. destruct (isupper c) eqn:E; [| by rewrite E]. unfold isupper in *. bools.
  rewrite (proj2 (Z.leb_gt _ 90)), (proj2 (Z.leb_le 97 _)), (proj2 (Z.leb_le _ 122)) by lia. by rewrite andb_false_r.
Qed.

Lemma same_text_first a b : same_text a b = true -> isalpha (ch a 0) = isalpha (ch b 0).
Proof.
  intros H%bool_decide_eq_true. rewrite <- (tolower_alpha (ch a 0)), <- (tolower_alpha (ch b 0)).
  destruct a as [| x a], b as [| y b]; [done .. |]. rewrite !fmap_cons in H. injection H as H _. unfold ch. cbn. by rewrite H.
Qed.

(** Names that differ in case only have one address, and start with a letter. *)
Lemma bregs_agree : forallb (fun r => isalpha (ch (text (m_name r)) 0) &&
  forallb (fun q => negb (same_text (text (m_name r)) (text (m_name q))) || (m_addr r =? m_addr q)) bregs) bregs = true.
Proof. vm_compute. reflexivity. Qed.

Lemma bregs_name r : r ∈ bregs -> isalpha (ch (text (m_name r)) 0) = true /\
  forall q, q ∈ bregs -> same_text (text (m_name r)) (text (m_name q)) = true -> m_addr r = m_addr q.
Proof.
  intros Hr%list_elem_of_In. pose proof (proj1 (forallb_forall _ _) bregs_agree r Hr) as [H1 H2]%andb_true_iff.
  split; [done |]. intros q Hq%list_elem_of_In Hn. pose proof (proj1 (forallb_forall _ _) H2 q Hq) as H. cbv beta in H.
  rewrite Hn in H. cbn in H. by apply Z.eqb_eq.
Qed.

Lemma addrdecode_name {S} v r (s : S) : r ∈ bregs -> same_text v (text (m_name r)) = true -> addrdecode v s = Ret (m_addr r) s.
Proof.
  intros Hr Hv. destruct (bregs_name r Hr) as [Ha Hu]. unfold addrdecode. rewrite (same_text_first _ _ Hv), Ha.
  destruct (List.find _ bregs) as [q |] eqn:E.
  - apply find_some in E as [Hq%list_elem_of_In Hn]. rewrite (Hu q Hq); [done |]. unfold same_text in *.
    apply bool_decide_eq_true in Hv, Hn. apply bool_decide_eq_true. congruence.
  - apply list_elem_of_In in Hr. pose proof (find_none _ _ E r Hr) as Hn. cbv beta in Hn. congruence.
Qed.

(** ** Numbers *)

Lemma digit_of_hex d : 0 <= d < 16 -> digit_of (hex_char d) = d.
Proof. intros Hd. apply Z.eqb_eq. by_range d 0 16%nat. Qed.

Lemma number_app acc u v : Forall (fun c => digit_of c < 16) u -> number 16 acc (u ++ v) = number 16 (number 16 acc u) v.
Proof.
  intros Hu. revert acc. induction Hu as [| c u Hc _ IH]; intros acc; [done |]. cbn. rewrite (proj2 (Z.ltb_lt _ _) Hc). apply IH.
Qed.

Lemma hex_text_digits k a : Forall (fun c => digit_of c < 16) (hex_text k a).
Proof.
  revert a. induction k as [| k IH]; intros a; [apply Forall_nil_2 |]. cbn. apply Forall_app_2; [apply IH |].
  apply Forall_cons_2; [rewrite digit_of_hex; apply Z.mod_pos_bound; lia | apply Forall_nil_2].
Qed.

Lemma number_hex k : forall a, 0 <= a < 16 ^ Z.of_nat k -> number 16 0 (hex_text k a) = a.
Proof.
  induction k as [| k IH]; intros a Ha; [cbn in *; lia |]. rewrite Nat2Z.inj_succ, Z.pow_succ_r in Ha by lia. cbn [hex_text].
  rewrite number_app by apply hex_text_digits. rewrite IH by zlia. cbn [number].
  rewrite digit_of_hex by (apply Z.mod_pos_bound; lia). rewrite (proj2 (Z.ltb_lt _ _)) by (apply Z.mod_pos_bound; lia). zlia.
Qed.

Lemma hex_text_cons k a : exists c t, hex_text (S k) a = c :: t /\ digit_of c < 16.
Proof.
  destruct (hex_text (S k) a) as [| c t] eqn:E; [cbn in E; by destruct (hex_text k (a / 16)) |].
  exists c, t. split; [done |]. pose proof (hex_text_digits (S k) a) as H. rewrite E in H. by apply Forall_inv in H.
Qed.

Lemma strtoul_hex k a : (k < 8)%nat -> 0 <= a < 16 ^ Z.of_nat (S k) -> strtoul (text "0x" ++ hex_text (S k) a) = a.
Proof.
  intros Hk Ha. destruct (hex_text_cons k a) as (c & t & E & Hc). pose proof (number_hex _ _ Ha) as Hn.
  assert (a < 2 ^ 32).
  { eapply Z.lt_le_trans; [apply Ha |]. change (2 ^ 32) with (16 ^ 8). apply Z.pow_le_mono_r; lia. }
  rewrite E in *. change (text "0x" ++ c :: t) with (48 :: 120 :: c :: t).
  change (strtoul (48 :: 120 :: c :: t)) with
    (let n := if digit_of c <? 16 then number 16 0 (c :: t) else number 8 0 (48 :: 120 :: c :: t) in if ULONG_MAX <? n then ULONG_MAX else n).
  cbv zeta. rewrite (proj2 (Z.ltb_lt _ _) Hc), Hn. unfold ULONG_MAX. by rewrite (proj2 (Z.ltb_ge _ _)) by lia.
Qed.

(** ** What an argument stands for *)

(** The name of a register in any case, or its address in up to eight digits. *)
Inductive spells : list Z -> Z -> Prop :=
  | by_name v r : r ∈ bregs -> same_text v (text (m_name r)) = true -> spells v (m_addr r)
  | by_address k a : (k < 8)%nat -> 0 <= a < 16 ^ Z.of_nat (S k) -> spells (text "0x" ++ hex_text (S k) a) a.

Lemma spells_range v a : spells v a -> 0 <= a < 2 ^ 32.
Proof.
  intros [u r Hr _ | k b Hk Hb].
  - assert (H : forallb (fun r => (0 <=? m_addr r) && (m_addr r <? 2 ^ 32)) bregs = true) by (vm_compute; reflexivity).
    apply list_elem_of_In in Hr. pose proof (proj1 (forallb_forall _ _) H r Hr) as Hb. cbv beta in Hb. bools. lia.
  - split; [lia |]. eapply Z.lt_le_trans; [apply Hb |]. change (2 ^ 32) with (16 ^ 8). apply Z.pow_le_mono_r; lia.
Qed.

Lemma alpha_range c : isalpha c = true -> 65 <= c <= 122.
Proof. intros Ha. unfold isalpha, isupper in Ha. bools. destruct Ha; bools; lia. Qed.

Lemma skip_letter c v : 65 <= c -> skip_while isspace (c :: v) = c :: v.
Proof. intros Hc. cbn. unfold isspace. by rewrite (proj2 (Z.eqb_neq _ _)), (proj2 (Z.leb_gt c 13)), andb_false_r by lia. Qed.

(** An argument that starts with a letter is not a number. *)
Lemma alpha_not_value v : isalpha (ch v 0) = true -> isvalue v = false /\ ch v 0 <> 45.
Proof.
  intros Ha. unfold isvalue. destruct v as [| c v]; [done |]. cbn in Ha.
  pose proof (alpha_range c Ha) as Hc. rewrite skip_letter by lia. cbv zeta. change (ch (c :: v) 0) with c. split; [| lia].
  assert (E : forall n, n < 65 -> (c =? n) = false) by (intros; apply Z.eqb_neq; lia).
  repeat (rewrite !E by lia; cbn [orb]; change (ch (c :: v) 0) with c). unfold isdigit. rewrite (proj2 (Z.leb_gt c 57)) by lia. apply andb_false_r.
Qed.

(** ** The arguments *)

(** The arguments that are no options, and those that are right without a map file. *)
Definition is_option (arg : list Z) : bool := ch arg 0 =? 45.
Definition positional (args : list (list Z)) : list (list Z) := List.filter (fun a => negb (is_option a)) args.
Definition plain (arg : list Z) : bool := negb (is_option arg) || (ch arg 1 =? 100).

Lemma positional_snoc l a : positional (l ++ [a]) = positional l ++ if is_option a then [] else [a].
Proof. unfold positional. rewrite List.filter_app. cbn. by destruct (is_option a). Qed.

Lemma positional_length l : (length (positional l) <= length l)%nat.
Proof. apply filter_length_le. Qed.

Section Props.
Context (files : list Z -> option (list Z)) {W : Type} {HD : DEVBUS W} (dev_poll : W -> bool).
Implicit Types (s : PROG W).

(** The state of the loop after the arguments [past]: the first places of [argv] have
    those of them that are no options, and the rest is as it was. *)
Definition parsed (past rest : list (list Z)) (o : OPTIONS) : Prop :=
  o_argn o = Z.of_nat (length (positional past)) /\ o_argn o + o_skp o = Z.of_nat (S (length past)) /\
  o_decimal o = existsb is_option past /\ o_map o = None /\
  length (o_argv o) = S (length past + length rest) /\ drop (S (length past)) (o_argv o) = rest /\
  take (length (positional past)) (o_argv o) = positional past.

Lemma parsed_next past arg rest o s : parsed past (arg :: rest) o -> plain arg = true ->
  exists o', args_step (Z.of_nat (S (length past + S (length rest)))) o s = Ret (inl o') s /\ parsed (past ++ [arg]) rest o'.
Proof.
  destruct o as [argn skp dec mp argv]. intros (Hn & Hk & Hd & Hm & Hl & Hr & Ht) Hp. cbn in *. subst mp.
  assert (Hat : argv !! S (length past) = Some arg) by (rewrite <- (Nat.add_0_r (S (length past))), <- lookup_drop, Hr; done).
  assert (Hr' : drop (S (length (past ++ [arg]))) argv = rest).
  { rewrite length_app. cbn [length]. replace (S (length past + 1)) with (S (length past) + 1)%nat by lia. by rewrite <- drop_drop, Hr. }
  pose proof (positional_length past). unfold args_step. rewrite (proj2 (Z.ltb_lt _ _)) by lia. cbn [negb].
  unfold argv_at. rewrite Hk, (proj2 (Z.leb_le _ _)), Nat2Z.id, Hat by lia. rewrite (bind_eq _ _ s arg s) by done.
  unfold plain in Hp. change (ch arg 0 =? 45) with (is_option arg) in *. unfold parsed. rewrite positional_snoc, existsb_app.
  destruct (is_option arg) eqn:Eo; cbn [negb orb] in Hp.
  - rewrite Hp. eexists. split; [reflexivity |]. cbn. rewrite app_nil_r, Eo, orb_true_r, length_app. cbn [length].
    split_and!; try done; try lia. by rewrite <- Hr', length_app.
  - unfold argv_put. rewrite (proj2 (Z.leb_le _ _)), (proj2 (Z.ltb_lt _ _)) by lia. cbn [andb]. rewrite (bind_eq _ _ s _ s) by done.
    eexists. split; [reflexivity |]. cbn. rewrite Hn, Nat2Z.id, Eo, !orb_false_r, !length_app. cbn [length].
    split_and!; try done; try lia; rewrite ?length_insert; try lia.
    + rewrite drop_insert_lt by lia. rewrite <- Hr'. by rewrite length_app.
    + by rewrite Nat.add_1_r, take_insert_end, Ht by lia.
Qed.

Lemma args_loop rest : forall fuel past o s, (length rest < fuel)%nat -> forallb plain rest = true -> parsed past rest o ->
  exists o', loop fuel (args_step (Z.of_nat (S (length past + length rest)))) o s = Ret o' s /\ parsed (past ++ rest) [] o'.
Proof.
  induction rest as [| arg rest IH]; intros fuel past o s Hf Hp Ho; (destruct fuel as [| fuel]; [cbn in Hf; lia |]).
  - exists o. rewrite app_nil_r. split; [| done]. destruct o as [argn skp dec mp argv]. destruct Ho as (Hn & Hk & _). cbn in *.
    unfold bind, args_step. rewrite (proj2 (Z.ltb_ge _ _)) by lia. done.
  - cbn in Hp. apply andb_true_iff in Hp as [Hp Hps]. destruct (parsed_next past arg rest o s Ho Hp) as (o1 & E & Ho1).
    cbn [loop length]. rewrite (bind_eq _ _ s _ s E). destruct (IH fuel (past ++ [arg]) o1 s) as (o2 & E2 & Ho2); [cbn in Hf; lia | done .. |].
    exists o2. rewrite <- app_assoc in Ho2. split; [| done]. rewrite <- E2, length_app. cbn [length]. do 2 f_equal. do 2 f_equal. lia.
Qed.

(** ** The program *)

(** A number is shown as it was given. *)
Definition greeting (v : list Z) : list SHOWN := if isvalue v then [Named v] else [].

Lemma lookup_spells v a s : spells v a ->
  lookup_address files None v s = Ret (a, addrname a) (mkPROG (g_fpga s) (g_stdout s ++ greeting v)).
Proof.
  intros Hv. unfold lookup_address, greeting. assert (Hs : s = mkPROG (g_fpga s) (g_stdout s ++ [])) by (rewrite app_nil_r; by destruct s).
  destruct Hv as [v r Hr Hv | k a Hk Ha].
  - assert (Hal : isalpha (ch v 0) = true) by (rewrite (same_text_first _ _ Hv); by apply bregs_name).
    rewrite (proj1 (alpha_not_value v Hal)), <- Hs. by rewrite (bind_eq _ _ s _ s (addrdecode_name v r s Hr Hv)).
  - assert (Hu : u32 (strtoul (text "0x" ++ hex_text (S k) a)) = a).
    { rewrite strtoul_hex by done. apply Z.mod_small, (spells_range _ a (by_address k a Hk Ha)). }
    destruct (isvalue (text "0x" ++ hex_text (S k) a)).
    + rewrite Hu. reflexivity.
    + rewrite <- Hs. unfold addrdecode. rewrite Hu. reflexivity.
Qed.

(** The end of the program. *)
Definition finished (w : W) (out : list SHOWN) : res (PROG W) unit :=
  Ret tt (mkPROG w (out ++ if dev_poll w then [Interrupted] else [])).

Lemma at_end s : (let* s := get in if dev_poll (g_fpga s) then printf Interrupted else ret tt) s = finished (g_fpga s) (g_stdout s).
Proof. unfold bind, get, finished. destruct (dev_poll (g_fpga s)); [done |]. rewrite app_nil_r. by destruct s. Qed.

Lemma main_plain prog args v xs s a : forallb plain args = true -> positional args = v :: xs -> (length xs <= 1)%nat -> spells v a ->
  main files dev_poll (prog :: args) s =
  ((match xs with [] => peek_register (existsb is_option args) a (addrname a) | x :: _ => poke_register a (addrname a) x end) ;;
   (let* s := get in if dev_poll (g_fpga s) then printf Interrupted else ret tt)) (mkPROG (g_fpga s) (g_stdout s ++ greeting v)).
Proof.
  intros Hp Hpos Hxs Hv. unfold main.
  destruct (args_loop args (S (length (prog :: args))) [] (mkOPT 0 1 false None (prog :: args)) s) as (o & E & Hn & Hk & Hd & Hm & Hl & _ & Ht).
  { cbn. lia. } { done. } { by split_and!. }
  rewrite (bind_eq _ _ s o s E). cbn [app] in *. rewrite Hpos in Hn, Ht. cbn [length] in *. rewrite Hm, Hd.
  replace (Z.of_nat (S (length args)) - o_skp o) with (Z.of_nat (S (length xs))) by lia.
  rewrite (proj2 (Z.ltb_ge _ 1)), (proj2 (Z.ltb_ge 2 _)) by lia. cbn [orb]. rewrite (bind_eq (ret tt) _ s tt s) by done.
  assert (H0 : o_argv o !! 0%nat = Some v) by (rewrite <- (lookup_take_lt _ (S (length xs))), Ht by lia; done).
  rewrite (bind_eq _ _ s v s) by (unfold argv_at; change (Z.to_nat 0) with 0%nat; by rewrite H0).
  rewrite (bind_eq _ _ s _ _ (lookup_spells v a s Hv)). destruct xs as [| x xs]; [done |].
  assert (H1 : o_argv o !! 1%nat = Some x) by (rewrite <- (lookup_take_lt _ (S (length (x :: xs)))), Ht by (cbn; lia); done).
  rewrite (proj2 (Z.ltb_ge _ 2)) by (cbn [length]; lia). unfold argv_at. change (Z.to_nat 1) with 1%nat. by rewrite H1.
Qed.

(** With one argument that names or spells an address, and any number of -d, the program
    reads the word there and nothing else, and shows it, or that the bus had no answer. *)
Theorem wbregs_peeks prog args v s a : forallb plain args = true -> positional args = [v] -> spells v a ->
  main files dev_poll (prog :: args) s =
  match dev_readio a (g_fpga s) with
  | Ret x w => finished w (g_stdout s ++ greeting v ++
      [if existsb is_option args then Decimal (s32 x)
       else Shown a (addrname a) (shown_char <$> [(x .>> 24) .& 0x0ff; (x .>> 16) .& 0x0ff; (x .>> 8) .& 0x0ff; x .& 0x0ff]) x])
  | Exn (BUSERR _) w => finished w (g_stdout s ++ greeting v ++ [BusError a (addrname a)])
  | Exn e w => Exn e (mkPROG w (g_stdout s ++ greeting v))
  end.
Proof.
  intros Hp Hpos Hv. rewrite (main_plain prog args v [] s a Hp Hpos ltac:(cbn; lia) Hv). unfold bind at 1, peek_register, bus. cbn [g_fpga g_stdout].
  destruct (dev_readio a (g_fpga s)) as [x w | [] w]; try done;
    (refine (eq_trans (at_end (mkPROG w ((g_stdout s ++ greeting v) ++ [_]))) _); cbn [g_fpga g_stdout]; by rewrite <- app_assoc).
Qed.

(** With two, it writes the value of the second there, and nothing else. *)
Theorem wbregs_pokes prog args v x s a : forallb plain args = true -> positional args = [v; x] -> spells v a ->
  main files dev_poll (prog :: args) s =
  match dev_writeio a (u32 (strtoul x)) (g_fpga s) with
  | Ret _ w => finished w (g_stdout s ++ greeting v ++ [Written a (addrname a) (u32 (strtoul x))])
  | Exn e w => Exn e (mkPROG w (g_stdout s ++ greeting v))
  end.
Proof.
  intros Hp Hpos Hv. rewrite (main_plain prog args v [x] s a Hp Hpos ltac:(cbn; lia) Hv). unfold bind at 1, poke_register, bind at 1, bus. cbn [g_fpga g_stdout].
  destruct (dev_writeio a _ (g_fpga s)) as [[] w | e w]; [| done].
  refine (eq_trans (at_end (mkPROG w ((g_stdout s ++ greeting v) ++ [_]))) _). cbn [g_fpga g_stdout]. by rewrite <- app_assoc.
Qed.

(** ** The option for a map file *)

Lemma step_option_m argc argn skp dec mp argv f s : argn + skp + 1 < argc -> 0 <= argn + skp ->
  argv !! Z.to_nat (argn + skp) = Some (text "-m") -> argv !! Z.to_nat (argn + skp + 1) = Some f ->
  args_step argc (mkOPT argn skp dec mp argv) s = Ret (inl (mkOPT (argn - 1) (skp + 2) dec (Some f) argv)) s.
Proof.
  intros Hlt Hk Hm Hf. unfold args_step, argv_at. rewrite (proj2 (Z.ltb_lt _ _)), !(proj2 (Z.leb_le 0 _)), Hm, Hf by lia. cbn [negb].
  rewrite (bind_eq _ _ s (text "-m") s) by done. change (ch (text "-m") 0 =? 45) with true. change (ch (text "-m") 1 =? 100) with false.
  change (ch (text "-m") 1 =? 109) with true. cbv iota. rewrite (proj2 (Z.leb_gt _ _)) by lia. by rewrite (bind_eq _ _ s f s).
Qed.

Lemma step_argument argc argn skp dec mp argv v s : argn < argc - skp -> 0 <= argn + skp -> argv !! Z.to_nat (argn + skp) = Some v ->
  is_option v = false -> args_step argc (mkOPT argn skp dec mp argv) s =
    bind (argv_put argv argn v) (fun argv => ret (inl (mkOPT (argn + 1) skp dec mp argv))) s.
Proof.
  intros Hlt Hk Hv Ho. unfold args_step, argv_at. rewrite (proj2 (Z.ltb_lt _ _)), (proj2 (Z.leb_le 0 _)), Hv by lia. cbn [negb].
  rewrite (bind_eq _ _ s v s) by done. unfold is_option in Ho. by rewrite Ho.
Qed.

Lemma strtoul_letter f : isalpha (ch f 0) = true -> strtoul f = 0.
Proof.
  intros Ha. destruct f as [| c f]; [done |]. cbn in Ha.
  pose proof (alpha_range c Ha) as Hc. unfold strtoul. rewrite skip_letter by lia. cbv zeta. change (ch (c :: f) 0) with c.
  assert (E : forall n, n < 65 -> (c =? n) = false) by (intros; apply Z.eqb_neq; lia).
  repeat (rewrite !E by lia; cbn [orb negb]; change (ch (c :: f) 0) with c). cbn [number].
  assert (Hd : 10 <= digit_of c).
  { unfold digit_of, isdigit. rewrite (proj2 (Z.leb_gt c 57)), andb_false_r by lia. unfold isalpha, isupper, tolower in *. rewrite Ha.
    unfold isupper. bools. destruct Ha; bools; destruct (_ && _) eqn:Eu; bools; lia. }
  by rewrite (proj2 (Z.ltb_ge _ 10)).
Qed.

End Props.

(** A bus that notes what is written. *)
#[local] Instance noted : DEVBUS (list (Z * Z)) :=
  {| dev_writeio a v := modify (fun w => w ++ [(a, v)]); dev_readio a := ret 0; dev_readi a n := ret []; dev_writei a ws := ret tt |}.

