(* ===== verification/WbregsTty.v ===== *)
(** wbregs over the serial line: a register that one run of the program has written is
    what a later run, over a connection of its own, shows. *)

From stdpp Require Import base tactics list numbers option strings.
From Stdlib Require Import ZArith Lia.
From S2P Require Import Prelude LLComms TtyBus WbuSpec TtyBase TtyRecv TtySend TtyWord TtyRead Board TtyProps FlashDrvr Zipelf Zipload Wbregs WbregsProps.
Local Open Scope Z_scope.

(** [TTYBUS] is what the host's programs use as their bus. *)
#[export] Instance tty_bus {V} {HOs : Os V} : DEVBUS (TTYBUS V) :=
  {| dev_writeio := writeio; dev_readio := TtyBus.readio; dev_readi := fun a n => readi a (Z.of_nat n);
     dev_writei := fun a ws => writei a (Z.of_nat (length ws)) ws |}.

Section Tty.
Context {f0 : wbu} {m0 : Z -> Z}.

(** A connection that has just been opened to a board; what the object has in the
    memory that its constructor leaves as it is. *)
Definition opened (b : Board f0 m0) (la : Z) (rt wt : list Z) : TTYBUS (Board f0 m0) := init (LLCOMMSI_init b) la rt wt.

(** The board has nothing to say, and is between two commands. *)
Definition quiet (b : Board f0 m0) : Prop := bd_in b = [] /\ w_pend (board_rx (f0 := f0) (bd_out b)) = [].

Definition board_of (s : TTYBUS (Board f0 m0)) : Board f0 m0 := ll_os (m_dev s).

Lemma writeio_board a x (s : TTYBUS (Board f0 m0)) :
  tty_wf s -> link s (rx_of s) -> pending s = [] -> 0 <= a -> a mod 4 = 0 -> a + 4 < 2 ^ 32 -> 0 <= x < 2 ^ 32 ->
  exists s', writeio a x s = Ret tt s' /\ quiet (board_of s') /\
    board_mem (f0 := f0) (m0 := m0) (bd_out (board_of s')) = mem_after (mem_of s) [BusWrite (a / 4) x].
Proof.
  intros Hwf Hlk Hp Ha Hal Hend Hx.
  destruct (writev_silent false a [x] s (rx_of s)) as (s1 & out & Hw & Hs & _ & _ & Hl1 & Hev & Hp1);
    [done | done | apply board_mute | done | done | done | cbn; lia | by apply Forall_singleton | done |].
  exists (s1 <| m_lastaddr := a |> <| m_addr_set := true |>). change (of_bool false) with 0 in Hw. change (Z.of_nat (length [x])) with 1 in Hw.
  unfold writeio. rewrite (bind_eq _ _ _ _ _ Hw). split; [done |].
  change (bd_out (board_of _)) with (ll_sent (m_dev s1)). unfold quiet. change (bd_out (board_of _)) with (ll_sent (m_dev s1)).
  rewrite Hs, board_rx_app, board_mem_app. change (board_rx (ll_sent (m_dev s))) with (rx_of s). rewrite Hev.
  split; [split; [exact Hp1 | apply Hl1] | done].
Qed.

Lemma opened_ok b la rt wt : quiet b -> 0 <= la < 2 ^ 32 -> length rt = 1024%nat -> length wt = 512%nat ->
  let s := opened b la rt wt in tty_wf s /\ link s (rx_of s) /\ pending s = [] /\ ll_sent (m_dev s) = bd_out b.
Proof. intros [Hin Hpd] Hla Hrt Hwt. split; [by apply init_wf |]. split; [by apply init_link |]. split; [exact Hin | reflexivity]. Qed.

Lemma readio_board b la rt wt a x : quiet b -> 0 <= la < 2 ^ 32 -> length rt = 1024%nat -> length wt = 512%nat ->
  0 <= a < 2 ^ 32 -> a mod 4 = 0 -> 0 <= x < 2 ^ 32 -> board_mem (f0 := f0) (m0 := m0) (bd_out b) (a / 4) = x ->
  exists s', TtyBus.readio a (opened b la rt wt) = Ret x s'.
Proof.
  intros Hq Hla Hrt Hwt Ha Hal Hx Hm. destruct (opened_ok b la rt wt Hq Hla Hrt Hwt) as (Hwf & Hlk & Hp & Hs).
  set (s := opened b la rt wt) in *. pose proof (board_serves false a 1 s Hp Ha Hal) as Hsv. cbv zeta in Hsv.
  assert (Hv : map (peek (mem_of s)) (rd_addrs false (a / 4) 1) = [x]).
  { change (rd_addrs false (a / 4) 1) with [a / 4]. cbn [map]. unfold peek, mem_of. rewrite Hs, Hm. f_equal. by apply Z.mod_small. }
  rewrite Hv in Hsv. destruct (readio_returns_word a x s (rx_of s) _ Hwf Hlk Ha Hal Hsv) as (s' & Hr & _). by exists s'.
Qed.

(** The line that shows a word. *)
Definition shown (args : list (list Z)) (a x : Z) : SHOWN :=
  if existsb is_option args then Decimal (s32 x)
  else Shown a (addrname a) (shown_char <$> [(x .>> 24) .& 0x0ff; (x .>> 16) .& 0x0ff; (x .>> 8) .& 0x0ff; x .& 0x0ff]) x.

End Tty.

(** The board as it starts. *)
Definition new_board : Board idle (fun _ => 0) := mkBoard [] [] 2.

Lemma gpio_reg : mkREG R_GPIO "GPO" ∈ bregs.
Proof. apply list_elem_of_In. do 33 right. by left. Qed.

Lemma gpio_spelt : spells (text "gpo") R_GPIO /\ spells (text "0x600018") R_GPIO.
Proof. split; [exact (by_name (text "gpo") _ gpio_reg eq_refl) | exact (by_address 5 R_GPIO ltac:(lia) ltac:(done))]. Qed.

