(* ===== verification/Mkspeech.v ===== *)
(** The program that turns a text into the memory image of the speech generator
    (src/rtl/helloworld/mkspeech.cpp), and the reader of such files: what $readmemh of
    Verilog stores is the text, with the line ends of a terminal.

    Text is the list of its character codes, as in [Wbregs].  The lines of an include
    file are kept as the address and the byte they show. *)

From stdpp Require Import base tactics list numbers option strings.
From Stdlib Require Import ZArith Lia.
From S2P Require Import Prelude FlashDrvr Zipelf Zipload Wbregs WbregsProps.
Local Open Scope Z_scope.

(** ** The program *)

Definition endswith (str ending : list Z) : bool :=
  let slen := length str in
  let send := length ending in
  if (slen <? send)%nat then false
  else bool_decide (drop (slen - send) str = text ".txt").

Inductive SPEECHIMAGE : Type := HexFile (t : list Z) | IncFile (lines : list (Z * Z)).

(** A byte of a hex file; a line that is full ends, and the next one starts. *)
Definition hex_byte (ch linelen addr : Z) : list Z * Z * Z :=
  let t := hex_text 2 (ch .& 0x0ff) ++ [32] in
  let linelen := linelen + 3 in
  let addr := addr + 1 in
  if 77 <=? linelen then (t ++ [10] ++ [64] ++ hex_text 8 addr ++ [32], 4 + 6, addr) else (t, linelen, addr).

Fixpoint hex_bytes (file : list Z) (linelen addr : Z) : list Z :=
  match file with
  | [] => [10]
  | ch :: file' =>
      let '(t1, linelen, addr) := if ch =? 10 then hex_byte 13 linelen addr else ([], linelen, addr) in
      let '(t2, linelen, addr) := hex_byte ch linelen addr in
      t1 ++ t2 ++ hex_bytes file' linelen addr
  end.

Definition hex_file (file : list Z) : list Z := ([64] ++ hex_text 8 0 ++ [32]) ++ hex_bytes file (4 + 6) 0.

Fixpoint inc_bytes (file : list Z) (addr : Z) : list (Z * Z) :=
  match file with
  | [] => (fun i => (i, 32)) <$> seqZ addr (2048 - addr)
  | ch :: file' =>
      if ch =? 10 then (addr, 10) :: (addr + 1, ch) :: inc_bytes file' (addr + 2)
      else (addr, ch) :: inc_bytes file' (addr + 1)
  end.

Record SPEECH : Type := mkSPEECH { input_filename : option (list Z); output_filename : option (list Z); xise_file : bool }.

(** The loop over the arguments. *)
Fixpoint speech_args {S} (args : list (list Z)) (o : SPEECH) : M S SPEECH :=
  match args with
  | [] => ret o
  | arg :: args' =>
      if ch arg 0 =? 45 then
        if (length arg <? 2)%nat then raise FAULT
        else if ch arg 2 =? 0 then
          if ch arg 1 =? 120 then speech_args args' (mkSPEECH (input_filename o) (output_filename o) true)
          else if ch arg 1 =? 111 then
            match args' with
            | f :: args'' => speech_args args'' (mkSPEECH (input_filename o) (Some f) (xise_file o))
            | [] => raise (EXIT EXIT_FAILURE)
            end
          else raise (EXIT EXIT_FAILURE)
        else raise (EXIT EXIT_FAILURE)
      else
        match input_filename o with
        | None => speech_args args' (mkSPEECH (Some arg) (output_filename o) (xise_file o))
        | Some _ => raise (EXIT EXIT_FAILURE)
        end
  end.

Section Main.
(** The files that can be read and written; the state is what was written. *)
Context (files : list Z -> option (list Z)) (writable : list Z -> bool).

(** A file that is its own output is emptied before it is read. *)
Definition speech_main (args : list (list Z)) : M (list (list Z * SPEECHIMAGE)) unit :=
  let* o := speech_args args (mkSPEECH None None false) in
  match input_filename o with
  | None => raise (EXIT EXIT_FAILURE)
  | Some input =>
      if negb (endswith input (text ".txt")) then raise (EXIT EXIT_FAILURE)
      else
        match files input with
        | None => raise (EXIT EXIT_FAILURE)
        | Some contents =>
            let output := match output_filename o with Some f => f | None => if xise_file o then text "speech.inc" else text "speech.hex" end in
            if negb (writable output) then raise (EXIT EXIT_FAILURE)
            else
              let contents := if bool_decide (output = input) then [] else contents in
              modify (fun s => s ++ [(output, if xise_file o then IncFile (inc_bytes contents 0) else HexFile (hex_file contents))])
        end
  end.
End Main.

(** ** The reader of hex files (IEEE 1364, $readmemh) *)

(** Words between blanks and line ends. *)
Definition is_blank (c : Z) : bool := (c =? 32) || (c =? 10).
Fixpoint words_of (w : list Z) (t : list Z) : list (list Z) :=
  match t with
  | [] => match w with [] => [] | _ => [w] end
  | c :: t' =>
      if is_blank c then match w with [] => words_of [] t' | _ => w :: words_of [] t' end
      else words_of (w ++ [c]) t'
  end.

(** A word is an address, or a value for the next address. *)
Fixpoint load_words (ws : list (list Z)) (addr : Z) : list (Z * Z) :=
  match ws with
  | [] => []
  | w :: ws' => if ch w 0 =? 64 then load_words ws' (number 16 0 (drop 1 w)) else (addr, number 16 0 w) :: load_words ws' (addr + 1)
  end.

Definition readmemh (t : list Z) : list (Z * Z) := load_words (words_of [] t) 0.

(** The text as it is spoken: line ends are carriage return and line feed. *)
Definition crlf (file : list Z) : list Z := flat_map (fun c => if c =? 10 then [13; 10] else [c]) file.
Definition image_at (addr : Z) (bytes : list Z) : list (Z * Z) := zip (seqZ addr (Z.of_nat (length bytes))) bytes.

(** ** A hex file is read as the text *)

Lemma words_of_word w t : forall u, Forall (fun c => is_blank c = false) w -> u ++ w <> [] -> words_of u (w ++ 32 :: t) = (u ++ w) :: words_of [] t.
Proof.
  induction w as [| c w IH]; intros u Hw Hne; cbn; [rewrite app_nil_r in *; by destruct u |].
  apply Forall_cons_1 in Hw as [Hc Hw]. rewrite Hc, IH; [by rewrite <- app_assoc | done | by destruct u].
Qed.

Lemma hex_char_blank d : 0 <= d < 16 -> is_blank (hex_char d) = false /\ (hex_char d =? 64) = false.
Proof. intros Hd. split; apply negb_true_iff; by_range d 0 16%nat. Qed.

Lemma hex_text_blank k : forall a, Forall (fun c => is_blank c = false /\ (c =? 64) = false) (hex_text k a).
Proof.
  induction k as [| k IH]; intros a; [apply Forall_nil_2 |]. cbn. apply Forall_app_2; [apply IH |].
  apply Forall_cons_2; [apply hex_char_blank, Z.mod_pos_bound; lia | apply Forall_nil_2].
Qed.

Lemma words_of_hex k a t : words_of [] (hex_text (S k) a ++ 32 :: t) = hex_text (S k) a :: words_of [] t.
Proof.
  rewrite words_of_word; [done | |].
  - eapply Forall_impl; [apply hex_text_blank | by intros c [? _]].
  - destruct (hex_text_cons k a) as (c & u & E & _). by rewrite E.
Qed.

Lemma load_byte b addr ws : 0 <= b < 256 -> load_words (hex_text 2 b :: ws) addr = (addr, b) :: load_words ws (addr + 1).
Proof.
  intros Hb. cbn [load_words]. destruct (hex_text_cons 1 b) as (c & u & E & _). pose proof (hex_text_blank 2 b) as Hn. rewrite E in Hn.
  apply Forall_cons_1 in Hn as [[_ Hc] _]. pose proof (number_hex 2 b ltac:(cbn; lia)) as Hv.
  rewrite E in *. change (ch (c :: u) 0) with c. by rewrite Hc, Hv.
Qed.

Lemma load_address a addr t : 0 <= a < 2 ^ 32 -> load_words (words_of [] (64 :: hex_text 8 a ++ 32 :: t)) addr = load_words (words_of [] t) a.
Proof.
  intros Ha. change (64 :: hex_text 8 a ++ 32 :: t) with ((64 :: hex_text 8 a) ++ 32 :: t). rewrite words_of_word; [| | done].
  - cbn [app load_words]. change (ch (64 :: hex_text 8 a) 0 =? 64) with true. cbv iota. change (drop 1 (64 :: hex_text 8 a)) with (hex_text 8 a).
    by rewrite number_hex.
  - apply Forall_cons_2; [done |]. eapply Forall_impl; [apply hex_text_blank | by intros c [? _]].
Qed.

Lemma load_put ch linelen addr rest : 0 <= ch < 256 -> 0 <= addr -> addr + 1 < 2 ^ 32 ->
  let '(t, linelen', addr') := hex_byte ch linelen addr in
  addr' = addr + 1 /\ load_words (words_of [] (t ++ rest)) addr = (addr, ch) :: load_words (words_of [] rest) (addr + 1).
Proof.
  intros Hc Ha Ha'. unfold hex_byte. assert (Hff : ch .& 0x0ff = ch) by (rewrite land_255; by apply Z.mod_small). rewrite Hff.
  destruct (77 <=? linelen + 3); (split; [done |]); rewrite <- !app_assoc; change ([32] ++ ?x) with (32 :: x); rewrite words_of_hex, load_byte by done; [| done].
  f_equal. cbn [app]. change (words_of [] (10 :: 64 :: hex_text 8 (addr + 1) ++ 32 :: rest)) with (words_of [] (64 :: hex_text 8 (addr + 1) ++ 32 :: rest)).
  apply load_address. lia.
Qed.

Lemma image_cons addr b bytes : image_at addr (b :: bytes) = (addr, b) :: image_at (addr + 1) bytes.
Proof. unfold image_at. cbn [length]. rewrite seqZ_cons by lia. cbn. do 3 f_equal. lia. Qed.

Lemma load_bytes file : forall linelen addr, Forall (fun c => 0 <= c < 256) file -> 0 <= addr -> addr + 2 * Z.of_nat (length file) < 2 ^ 32 ->
  load_words (words_of [] (hex_bytes file linelen addr)) addr = image_at addr (crlf file).
Proof.
  induction file as [| c file IH]; intros linelen addr Hf Ha Hlen; [done |]. apply Forall_cons_1 in Hf as [Hc Hf]. cbn [length] in Hlen.
  cbn [hex_bytes crlf flat_map]. destruct (Z.eqb_spec c 10) as [-> | Hne].
  - pose proof (fun rest => load_put 13 linelen addr rest ltac:(lia) Ha ltac:(lia)) as H1. destruct (hex_byte 13 linelen addr) as [[t1 l1] a1].
    pose proof (fun rest => load_put 10 l1 a1 rest ltac:(lia) ltac:(destruct (H1 []); lia) ltac:(destruct (H1 []); lia)) as H2.
    destruct (H1 []) as [-> _]. destruct (hex_byte 10 l1 (addr + 1)) as [[t2 l2] a2]. destruct (H2 []) as [-> _].
    rewrite (proj2 (H1 _)), (proj2 (H2 _)), IH by (done || lia). cbn [app]. by rewrite !image_cons.
  - pose proof (fun rest => load_put c linelen addr rest Hc Ha ltac:(lia)) as H1. destruct (hex_byte c linelen addr) as [[t1 l1] a1].
    destruct (H1 []) as [-> _]. cbn [app]. rewrite (proj2 (H1 _)), IH by (done || lia). by rewrite image_cons.
Qed.

(** ** Claims *)

(** C15: A text file that is converted to a hex file is read by $readmemh as its text, from
    address zero on, with carriage return and line feed at the line ends, however the
    lines of the hex file are broken. *)
Theorem mkspeech_roundtrip files writable input contents s :
  endswith input (text ".txt") = true -> ch input 0 <> 45 -> files input = Some contents -> writable (text "speech.hex") = true ->
  Forall (fun c => 0 <= c < 256) contents -> 2 * Z.of_nat (length contents) < 2 ^ 32 ->
  exists t, speech_main files writable [input] s = Ret tt (s ++ [(text "speech.hex", HexFile t)]) /\ readmemh t = image_at 0 (crlf contents).
Proof.
  intros He Hd Hf Hw Hc Hlen. exists (hex_file contents). split.
  - unfold speech_main. cbn [speech_args]. rewrite (proj2 (Z.eqb_neq _ _) Hd). rewrite (bind_eq _ _ s (mkSPEECH (Some input) None false) s) by done.
    cbn [input_filename output_filename xise_file]. rewrite He, Hf, Hw. cbn [negb].
    rewrite bool_decide_false; [done |]. intros <-. by vm_compute in He.
  - unfold readmemh, hex_file. rewrite <- !app_assoc. cbn [app]. rewrite load_address by lia. apply load_bytes; [done | lia | lia].
Qed.

Lemma mkspeech_roundtrip_witness : exists t,
  speech_main (fun _ => Some (text "Hi there, said the board to itself" ++ [10; 63])) (fun _ => true) [text "a.txt"] [] = Ret tt [(text "speech.hex", HexFile t)] /\
  readmemh t = image_at 0 (crlf (text "Hi there, said the board to itself" ++ [10; 63])).
Proof.
  apply (mkspeech_roundtrip (fun _ => Some (text "Hi there, said the board to itself" ++ [10; 63])) (fun _ => true) (text "a.txt") _ []); try done.
  repeat constructor; lia.
Defined.

(** The include file has two line feeds where the hex file has a carriage return and a
    line feed. *)
Example include_file_line_ends : match inc_bytes [65; 10; 66] 0 with l => take 5 l = [(0, 65); (1, 10); (2, 10); (3, 66); (4, 32)] /\ length l = 2048%nat end.
Proof. vm_compute. by split. Qed.

(** [endswith] compares with .txt whatever ending it is asked for. *)
Example endswith_ignores : endswith (text "a.txt") (text ".hex") = true /\ endswith (text "a.hex") (text ".hex") = false.
Proof. by split. Qed.
