(* ===== verification/Syscalls.v ===== *)
(** The system calls of the board's C library (src/sw/rv32/syscalls.c; the copy for
    the ZipCPU, src/sw/zlib/syscalls.c, differs in [_sbrk_r] and at the end of
    [_exit]).

    The console is the output side of [Txfns] and the list of the values that the
    reads of the receiver's register will give: bit 8 is set while there is no
    character, as it is behind the end of the list.  A pointer of the heap is an
    address in bytes. *)

From stdpp Require Import base tactics list numbers.
From Stdlib Require Import ZArith Lia.
From S2P Require Import Prelude Txfns.
Local Open Scope Z_scope.

Inductive ERRNO : Type := EBADF | ENOSYS | EIO | EACCES | ECHILD.

Definition STDIN_FILENO : Z := 0.
Definition STDOUT_FILENO : Z := 1.
Definition STDERR_FILENO : Z := 2.
Definition GPIO_HALT : Z := 8.
Definition GPIO_SIMHALT : Z := (GPIO_HALT .<< 16) .| GPIO_HALT.

Record SYS : Type := mkSYS {
  sy_uart : TXS;
  sy_rx : list Z;               (* what the next reads of u_rx give *)
  sy_txbusy : nat;              (* reads of u_tx that find it busy *)
  sy_last_was_cr : Z;           (* the static variable of _inbyte *)
  sy_errno : option ERRNO;
  sy_heap : Z;
  sy_gpio : list Z
}.

#[export] Instance set_sy_uart : Setter sy_uart := fun v s => mkSYS v (sy_rx s) (sy_txbusy s) (sy_last_was_cr s) (sy_errno s) (sy_heap s) (sy_gpio s).
#[export] Instance set_sy_rx : Setter sy_rx := fun v s => mkSYS (sy_uart s) v (sy_txbusy s) (sy_last_was_cr s) (sy_errno s) (sy_heap s) (sy_gpio s).
#[export] Instance set_sy_txbusy : Setter sy_txbusy := fun v s => mkSYS (sy_uart s) (sy_rx s) v (sy_last_was_cr s) (sy_errno s) (sy_heap s) (sy_gpio s).
#[export] Instance set_sy_last_was_cr : Setter sy_last_was_cr := fun v s => mkSYS (sy_uart s) (sy_rx s) (sy_txbusy s) v (sy_errno s) (sy_heap s) (sy_gpio s).
#[export] Instance set_sy_errno : Setter sy_errno := fun v s => mkSYS (sy_uart s) (sy_rx s) (sy_txbusy s) (sy_last_was_cr s) v (sy_heap s) (sy_gpio s).
#[export] Instance set_sy_heap : Setter sy_heap := fun v s => mkSYS (sy_uart s) (sy_rx s) (sy_txbusy s) (sy_last_was_cr s) (sy_errno s) v (sy_gpio s).
#[export] Instance set_sy_gpio : Setter sy_gpio := fun v s => mkSYS (sy_uart s) (sy_rx s) (sy_txbusy s) (sy_last_was_cr s) (sy_errno s) (sy_heap s) v.

Abbreviation SM := (M SYS).

Definition uart {A} (m : TM A) : SM A := fun s =>
  match m (sy_uart s) with
  | Ret a u => Ret a (s <| sy_uart := u |>)
  | Exn e u => Exn e (s <| sy_uart := u |>)
  end.

(** ** The console *)

(** [while(TXWAIT) ; UARTTX = c] *)
Definition put_tx (fuel : nat) (c : Z) : SM unit := uart (wait_ready fuel ;; write_tx c).

Definition _outbyte (fuel : nat) (v : Z) : SM unit :=
  (if v =? 10 then put_tx fuel 13 else ret tt) ;;
  put_tx fuel (u8 v).

(** [rv = UARTRX] *)
Definition uartrx : SM Z := fun s =>
  match sy_rx s with
  | [] => Ret 0x100 s
  | r :: rx => Ret r (s <| sy_rx := rx |>)
  end.

Definition _inbyte (fuel : nat) : SM Z :=
  let* rv := uartrx in
  let* s := get in
  let* rv :=
    (if truthy (rv .& 0x0100) then ret (-1)
     else if rv =? 13 then modify (fun s => s <| sy_last_was_cr := 1 |>) ;; ret 10
     else if rv =? 10 then
       if truthy (sy_last_was_cr s) then modify (fun s => s <| sy_last_was_cr := 0 |>) ;; ret (-1)
       else ret rv
     else modify (fun s => s <| sy_last_was_cr := 0 |>) ;; ret rv) in
  (if negb (rv =? -1) then _outbyte fuel (u8 rv) else ret tt) ;;
  ret rv.

(** ** Calls that fail *)

Definition fail (e : ERRNO) : SM Z := modify (fun s => s <| sy_errno := Some e |>) ;; ret (-1).

Definition _close_r (file : Z) : SM Z := fail EBADF.
Definition _execve_r : SM Z := fail ENOSYS.
Definition _fork_r : SM Z := fail ENOSYS.
Definition _kill_r (pid sig : Z) : SM Z := fail ENOSYS.
Definition _link_r : SM Z := fail ENOSYS.
Definition _lseek_r (file ptr dir : Z) : SM Z := fail ENOSYS.
Definition _open_r (flags mode : Z) : SM Z := fail ENOSYS.
Definition _readlink_r (bufsize : Z) : SM Z := fail ENOSYS.
Definition _stat_r : SM Z := fail EIO.
Definition _unlink_r : SM Z := fail EIO.
Definition _times : SM Z := fail EACCES.
Definition _wait : SM Z := fail ECHILD.
Definition _getpid_r : SM Z := ret 1.

Definition is_console (file : Z) : bool := (STDIN_FILENO =? file) || (STDOUT_FILENO =? file) || (STDERR_FILENO =? file).
Definition _isatty_r (file : Z) : SM Z := ret (if is_console file then 1 else 0).
(** The second value: [st_mode] is set to [S_IFCHR]. *)
Definition _fstat_r (file : Z) : SM (Z * bool) :=
  if is_console file then ret (0, true) else let* r := fail EBADF in ret (r, false).

(** ** Reading and writing *)

(** The first loop of [_read_r], and the second, with [cap] bytes at [ptr]. *)
Definition read_first (fuel fuel_rx : nat) : SM Z :=
  loop fuel_rx (fun _ : unit => let* rv := _inbyte fuel in ret (if truthy (rv .& 0x0100) then inl tt else inr rv)) tt.

Definition store (cap : nat) (rv : Z) (buf : list Z) : SM (list Z) :=
  if decide (length buf < cap)%nat then ret (buf ++ [u8 rv]) else raise FAULT.

Definition read_rest (fuel fuel_rx cap : nat) (len : Z) (buf : list Z) : SM (list Z) :=
  loop fuel_rx (fun buf =>
    if Z.of_nat (length buf) <? len then
      let* rv := _inbyte fuel in
      if truthy (rv .& 0x0100) then ret (inr buf)
      else let* buf := store cap rv buf in ret (inl buf)
    else ret (inr buf)) buf.

(** The result and what was stored at [ptr]. *)
Definition _read_r (fuel fuel_rx cap : nat) (file len : Z) : SM (Z * list Z) :=
  if STDIN_FILENO =? file then
    let* rv := read_first fuel fuel_rx in
    let* buf := store cap rv [] in
    let* buf := read_rest fuel fuel_rx cap len buf in
    ret (Z.of_nat (length buf), buf)
  else let* r := fail ENOSYS in ret (r, []).

Definition _write_r (fuel : nat) (fd : Z) (cbuf : list Z) : SM Z :=
  if (STDOUT_FILENO =? fd) || (STDERR_FILENO =? fd) then
    for_each cbuf (_outbyte fuel) ;;
    ret (Z.of_nat (length cbuf))
  else fail EBADF.

(** ** The heap *)

(** [SBRK: OUT-OF-MEMORY!!\n] *)
Definition oom_message : list Z :=
  [83; 66; 82; 75; 58; 32; 79; 85; 84; 45; 79; 70; 45; 77; 69; 77; 79; 82; 89; 33; 33; 10].

(** [(sz+sizeof(int)-1)/sizeof(int)], and a pointer that many [int]s on. *)
Definition heap_words (sz : Z) : Z := u32 (sz + 4 - 1) / 4.
Definition heap_next (heap sz : Z) : Z := u32 (heap + 4 * heap_words sz).

Definition _sbrk_r (fuel : nat) (_end_of_heap sz : Z) : SM Z :=
  let* s := get in
  let prev := sy_heap s in
  if negb (_end_of_heap =? 0) && (_end_of_heap <? heap_next prev sz) then
    uart (txstr fuel oom_message) ;; ret 0
  else
    modify (fun s => s <| sy_heap := heap_next prev sz |>) ;; ret prev.

(** The one of the ZipCPU's library: [heap += sz]. *)
Definition zip_sbrk_r (sz : Z) : SM Z :=
  let* s := get in
  modify (fun s' => s' <| sy_heap := u32 (sy_heap s + 4 * sz) |>) ;; ret (sy_heap s).

(** ** The end *)

(** [while(TXBUSY) ;] *)
Definition wait_txbusy : SM unit := modify (fun s => s <| sy_txbusy := 0%nat |>).

Definition _exit (fuel : nat) (rcode : Z) : SM unit :=
  _outbyte fuel 32 ;;
  _outbyte fuel 32 ;;
  wait_txbusy ;;
  modify (fun s => s <| sy_gpio := sy_gpio s ++ [GPIO_SIMHALT] |>) ;;
  raise HANG.

(** ** The time

    For a board with a clock and a date (no configuration here has them); [s], the
    seconds, is not used. *)

Definition bcd (v k : Z) : Z := ((v .>> k) .& 0x0f) + ((v .>> (k + 4)) .& 0x0f) * 10.

(** The months of the year before [m], with the leap day. *)
Definition month_days (m : Z) (ly : bool) : Z :=
  (if 1 <? m then 31 + (if 2 <? m then 28 + (if ly then 1 else 0)
    + (if 3 <? m then 31 + (if 4 <? m then 30 + (if 5 <? m then 31 + (if 6 <? m then 30 + (if 7 <? m then 31
    + (if 8 <? m then 31 + (if 9 <? m then 30 + (if 10 <? m then 31 + (if 11 <? m then 30 else 0)
    else 0) else 0) else 0) else 0) else 0) else 0) else 0) else 0) else 0) else 0).

(** [for(yy=1970; yy<year; yy++)] *)
Fixpoint year_days (n : nat) (yy days : Z) : Z :=
  match n with O => days | S n' => year_days n' (yy + 1) (u32 (days + if yy .& 3 =? 0 then 366 else 365)) end.

Definition gettimeofday (now date : Z) : Z :=
  let d := bcd date 0 in let m := bcd date 8 in let y := bcd date 16 in let c := bcd date 24 in
  let ly := y .& 3 =? 0 in
  let days := d + month_days m ly in
  let days := year_days (Z.to_nat (c * 100 + y - 1970)) 1970 days in
  let tv_sec := u32 (days * 86400) in
  let m := bcd now 8 in let h := bcd now 16 in
  let tod := (h * 60 + m) * 60 in
  tv_sec + tod.

(** On this board. *)
Definition _gettimeofday_r : SM Z := fail ENOSYS.
