(* ===== verification/SyscallsProps.v ===== *)
(** The system calls: what the console carries, the heap and the time. *)

From stdpp Require Import base tactics list numbers.
From Stdlib Require Import ZArith Lia.
From S2P Require Import Prelude Txfns Syscalls.
Local Open Scope Z_scope.

(** ** Output *)

(** A character as it goes out. *)
Definition outb (c : Z) : list Z := if c =? 10 then [13; 10] else [u8 c].

Definition ready (fuel : nat) (s : SYS) : Prop := patient fuel (sy_uart s).

(** What output changes: the characters sent, and the port's state. *)
Definition sent (fuel : nat) (s s' : SYS) (cs : list Z) : Prop :=
  exists u, s' = s <| sy_uart := u |> /\ u_tx u = u_tx (sy_uart s) ++ cs /\ ready fuel s'.

Lemma sent_nil fuel s : ready fuel s -> sent fuel s s [].
Proof. intros Hr. exists (sy_uart s). split; [by destruct s |]. by rewrite app_nil_r. Qed.

Lemma sent_trans fuel s1 s2 s3 a b : sent fuel s1 s2 a -> sent fuel s2 s3 b -> sent fuel s1 s3 (a ++ b).
Proof. intros (u & -> & Hu & _) (v & -> & Hv & Hr). exists v. split; [done |]. split; [| done]. rewrite Hv. cbn. by rewrite Hu, app_assoc. Qed.

Lemma put_tx_ok fuel c s : ready fuel s -> exists s', put_tx fuel c s = Ret tt s' /\ sent fuel s s' [c].
Proof.
  intros Hr. destruct (send_ok fuel c (sy_uart s) Hr) as (w & Hs & Hw). eexists. unfold put_tx, uart. rewrite Hs. split; [done |].
  eexists. split; [done |]. split; [done |]. intros i. cbn. rewrite Hw. apply Hr.
Qed.

Lemma sent_ready fuel s s' cs : sent fuel s s' cs -> ready fuel s'.
Proof. by intros (u & _ & _ & Hr). Qed.

Lemma outbyte_ok fuel c s : ready fuel s -> exists s', _outbyte fuel c s = Ret tt s' /\ sent fuel s s' (outb c).
Proof.
  intros Hr. unfold _outbyte, outb. destruct (Z.eqb_spec c 10) as [-> |].
  - destruct (put_tx_ok fuel 13 s Hr) as (s1 & H1 & S1). nstep H1. destruct (put_tx_ok fuel (u8 10) s1 (sent_ready _ _ _ _ S1)) as (s2 & H2 & S2).
    exists s2. split; [exact H2 |]. exact (sent_trans _ _ _ _ _ _ S1 S2).
  - erewrite bind_eq by reflexivity. by apply put_tx_ok.
Qed.

Lemma outbytes_ok fuel cs : forall s, ready fuel s -> exists s', for_each cs (_outbyte fuel) s = Ret tt s' /\ sent fuel s s' (flat_map outb cs).
Proof.
  induction cs as [| c cs IH]; intros s Hr; cbn [for_each flat_map]; [exists s; split; [done | by apply sent_nil] |].
  destruct (outbyte_ok fuel c s Hr) as (s1 & H1 & S1). nstep H1. destruct (IH s1 (sent_ready _ _ _ _ S1)) as (s2 & H2 & S2).
  exists s2. split; [exact H2 |]. by eapply sent_trans.
Qed.

Lemma write_ok fuel fd cs s : fd = 1 \/ fd = 2 -> ready fuel s ->
  exists s', _write_r fuel fd cs s = Ret (Z.of_nat (length cs)) s' /\ sent fuel s s' (flat_map outb cs).
Proof.
  intros Hfd Hr. destruct (outbytes_ok fuel cs s Hr) as (s' & H1 & S1). exists s'. split; [| done]. unfold _write_r.
  replace ((STDOUT_FILENO =? fd) || (STDERR_FILENO =? fd)) with true by (by destruct Hfd as [-> | ->]). by nstep H1.
Qed.

(** ** Input *)

(** One value of the receiver's register: the character, and whether it was a
    carriage return. *)
Definition rx_step (cr : bool) (r : Z) : option Z * bool :=
  if truthy (r .& 0x0100) then (None, cr)
  else if r =? 13 then (Some 10, true)
  else if r =? 10 then (if cr then None else Some 10, false)
  else (Some r, false).

Fixpoint translated (cr : bool) (rx : list Z) : list Z :=
  match rx with
  | [] => []
  | r :: rx' => let '(c, cr') := rx_step cr r in match c with Some c => u8 c :: translated cr' rx' | None => translated cr' rx' end
  end.
Fixpoint cr_after (cr : bool) (rx : list Z) : bool :=
  match rx with [] => cr | r :: rx' => cr_after (snd (rx_step cr r)) rx' end.

Lemma translated_app cr a b : translated cr (a ++ b) = translated cr a ++ translated (cr_after cr a) b.
Proof. revert cr. induction a as [| r a IH]; intros cr; cbn; [done |]. destruct (rx_step cr r) as [[c |] cr']; cbn; by rewrite IH. Qed.
Lemma cr_after_app cr a b : cr_after cr (a ++ b) = cr_after (cr_after cr a) b.
Proof. revert cr. induction a as [| r a IH]; intros cr; cbn; [done | apply IH]. Qed.

Definition was_cr (s : SYS) : bool := truthy (sy_last_was_cr s).

(** What input changes: registers read, and the characters echoed. *)
Definition took (fuel : nat) (s s' : SYS) (rx : list Z) (cs : list Z) : Prop :=
  exists u lc, s' = s <| sy_uart := u |> <| sy_rx := rx |> <| sy_last_was_cr := lc |> /\ u_tx u = u_tx (sy_uart s) ++ flat_map outb cs /\ ready fuel s'.

Lemma inbyte_ok fuel r rx s : ready fuel s -> sy_rx s = r :: rx -> 0 <= r ->
  let '(c, cr) := rx_step (was_cr s) r in
  exists s', _inbyte fuel s = Ret (default (-1) c) s' /\ was_cr s' = cr /\ took fuel s s' rx (option_list (u8 <$> c)).
Proof.
  intros Hr Hrx Hpos. unfold _inbyte, rx_step. assert (H1 : uartrx s = Ret r (s <| sy_rx := rx |>)) by (unfold uartrx; by rewrite Hrx).
  nstep H1. erewrite bind_eq by reflexivity. change (truthy (sy_last_was_cr (s <| sy_rx := rx |>))) with (was_cr s).
  assert (Hecho : forall lc c, 0 <= c -> exists s',
    ((if negb (c =? -1) then _outbyte fuel (u8 c) else ret tt) ;; ret c) (s <| sy_rx := rx |> <| sy_last_was_cr := lc |>) = Ret c s' /\
    sy_last_was_cr s' = lc /\ took fuel s s' rx [u8 c]).
  { intros lc c Hc. rewrite (proj2 (Z.eqb_neq c (-1))) by lia. cbn [negb].
    set (s0 := s <| sy_rx := rx |> <| sy_last_was_cr := lc |>). destruct (outbyte_ok fuel (u8 c) s0 Hr) as (s' & H2 & u & -> & Hu & Hr').
    eexists. split; [by nstep H2 |]. split; [done |]. exists u, lc. split; [by destruct s |]. split; [| done]. cbn [flat_map]. rewrite app_nil_r. exact Hu. }
  assert (Hquiet : forall lc, took fuel s (s <| sy_rx := rx |> <| sy_last_was_cr := lc |>) rx []).
  { intros lc. exists (sy_uart s), lc. split; [by destruct s |]. split; [by rewrite app_nil_r | exact Hr]. }
  assert (Hsame : s <| sy_rx := rx |> <| sy_last_was_cr := sy_last_was_cr s |> = s <| sy_rx := rx |>) by by destruct s.
  destruct (truthy (r .& 256)).
  { erewrite bind_eq by reflexivity. eexists. split; [done |]. split; [done |]. rewrite <- Hsame. apply Hquiet. }
  destruct (Z.eqb_spec r 13) as [-> |].
  { erewrite bind_eq by reflexivity. destruct (Hecho 1 10 ltac:(lia)) as (s' & -> & Hl & Ht). exists s'. split; [done |]. split; [unfold was_cr; by rewrite Hl | done]. }
  destruct (Z.eqb_spec r 10) as [-> |].
  - destruct (was_cr s) eqn:Ecr.
    + erewrite bind_eq by reflexivity. eexists. split; [done |]. split; [done |]. apply Hquiet.
    + erewrite bind_eq by reflexivity. destruct (Hecho (sy_last_was_cr s) 10 ltac:(lia)) as (s' & E & Hl & Ht). rewrite Hsame in E. rewrite E.
      exists s'. split; [done |]. split; [unfold was_cr; by rewrite Hl | done].
  - erewrite bind_eq by reflexivity. destruct (Hecho 0 r ltac:(lia)) as (s' & -> & Hl & Ht). exists s'. split; [done |]. split; [unfold was_cr; by rewrite Hl | done].
Qed.

Lemma took_trans fuel s1 s2 s3 r1 r2 a b : took fuel s1 s2 r1 a -> took fuel s2 s3 r2 b -> took fuel s1 s3 r2 (a ++ b).
Proof.
  intros (u & l & -> & Hu & _) (v & k & -> & Hv & Hr). exists v, k. split; [done |]. split; [| done]. rewrite Hv. cbn. by rewrite Hu, flat_map_app, app_assoc.
Qed.

Lemma took_rx fuel s s' rx cs : took fuel s s' rx cs -> sy_rx s' = rx /\ ready fuel s'.
Proof. by intros (u & l & -> & _ & Hr). Qed.

(** The result of [_inbyte] says whether there was a character. *)
Lemma inbyte_none cr r : 0 <= r -> truthy (default (-1) (fst (rx_step cr r)) .& 0x0100) = bool_decide (fst (rx_step cr r) = None).
Proof.
  intros Hr. unfold rx_step. destruct (truthy (r .& 256)) eqn:E; [done |]. destruct (r =? 13); [done |]. destruct (r =? 10); [by destruct cr |]. by cbn.
Qed.

Abbreviation regs := (Forall (fun r => 0 <= r)).

(** The first loop takes what there is up to the first character. *)
Lemma read_first_ok fuel : forall rx s n, ready fuel s -> regs rx -> sy_rx s = rx -> translated (was_cr s) rx <> [] -> (length rx < n)%nat ->
  exists a b c s', rx = a ++ b /\ read_first fuel n s = Ret c s' /\ translated (was_cr s) a = [u8 c] /\
    was_cr s' = cr_after (was_cr s) a /\ took fuel s s' b [u8 c].
Proof.
  induction rx as [| r rx IH]; intros s n Hr Hg Hrx Ht Hn; [done |]. apply Forall_cons_1 in Hg as [H0 Hg]. destruct n as [| n]; [lia |].
  pose proof (inbyte_ok fuel r rx s Hr Hrx H0) as Hin. pose proof (inbyte_none (was_cr s) r H0) as Hnone. cbn [translated] in Ht.
  destruct (rx_step (was_cr s) r) as [c cr] eqn:E. destruct Hin as (s1 & H1 & Hcr & T1). cbn [fst] in Hnone. destruct (took_rx _ _ _ _ _ T1) as [Hrx1 Hr1].
  unfold read_first in *. cbn [loop]. rewrite bind_assoc. nstep H1. rewrite Hnone. destruct c as [c |]; cbn [default option_list fmap] in *.
  - rewrite bool_decide_false by done. erewrite bind_eq by reflexivity. exists [r], rx, c, s1. split; [done |]. split; [done |]. cbn [translated cr_after]. rewrite E. done.
  - rewrite bool_decide_true by done. erewrite bind_eq by reflexivity. cbn [length] in Hn.
    destruct (IH s1 n Hr1 Hg Hrx1 ltac:(by rewrite Hcr) ltac:(lia)) as (a & b & c & s' & -> & Hl & Hta & Hcra & T2).
    exists (r :: a), b, c, s'. split; [done |]. split; [exact Hl |]. cbn [translated cr_after]. rewrite E. cbn [snd]. rewrite <- Hcr. split; [done |]. split; [done |].
    exact (took_trans _ _ _ _ _ _ _ _ T1 T2).
Qed.

Lemma inbyte_idle fuel s : sy_rx s = [] -> _inbyte fuel s = Ret (-1) s.
Proof. intros Hrx. unfold _inbyte. assert (H1 : uartrx s = Ret 0x100 s) by (unfold uartrx; by rewrite Hrx). by nstep H1. Qed.

Lemma took_nil fuel s : ready fuel s -> took fuel s s (sy_rx s) [].
Proof. intros Hr. exists (sy_uart s), (sy_last_was_cr s). split; [by destruct s |]. by rewrite app_nil_r. Qed.

(** The second loop goes on while there are characters and room. *)
Lemma read_rest_ok fuel cap len : len <= Z.of_nat cap -> forall rx s n buf, ready fuel s -> regs rx -> sy_rx s = rx -> (length rx + 1 < n)%nat ->
  exists a b cs s', rx = a ++ b /\ read_rest fuel n cap len buf s = Ret (buf ++ cs) s' /\ translated (was_cr s) a = cs /\
    was_cr s' = cr_after (was_cr s) a /\ took fuel s s' b cs /\ Z.of_nat (length cs) <= Z.max 0 (len - Z.of_nat (length buf)).
Proof.
  intros Hcap. induction rx as [| r rx IH]; intros s n buf Hr Hg Hrx Hn; (destruct n as [| n]; [lia |]); unfold read_rest in *; cbn [loop].
  all: destruct (Z.ltb_spec (Z.of_nat (length buf)) len) as [Hlt | Hge].
  2, 4: erewrite bind_eq by reflexivity; exists [], (sy_rx s), [], s; rewrite (app_nil_r buf); split; [by rewrite Hrx |]; do 3 (split; [done |]); split; [by apply took_nil | cbn; lia].
  - rewrite bind_assoc. nstep (inbyte_idle fuel s Hrx). erewrite bind_eq by reflexivity. exists [], (sy_rx s), [], s. rewrite (app_nil_r buf).
    split; [by rewrite Hrx |]. do 3 (split; [done |]). split; [by apply took_nil | cbn; lia].
  - apply Forall_cons_1 in Hg as [H0 Hg].
    pose proof (inbyte_ok fuel r rx s Hr Hrx H0) as Hin. pose proof (inbyte_none (was_cr s) r H0) as Hnone.
    destruct (rx_step (was_cr s) r) as [c cr] eqn:E. destruct Hin as (s1 & H1 & Hcr & T1). cbn [fst] in Hnone. destruct (took_rx _ _ _ _ _ T1) as [Hrx1 Hr1].
    rewrite bind_assoc. nstep H1. rewrite Hnone. destruct c as [c |]; cbn [default option_list fmap option_fmap option_map] in *.
    + rewrite bool_decide_false by done. unfold store. rewrite decide_True by lia. rewrite bind_assoc. erewrite bind_eq by reflexivity. erewrite bind_eq by reflexivity.
      cbn [length] in Hn. destruct (IH s1 n (buf ++ [u8 c]) Hr1 Hg Hrx1 ltac:(lia)) as (a & b & cs & s' & -> & Hl & Hta & Hcra & T2 & Hlen).
      exists (r :: a), b, (u8 c :: cs), s'. split; [done |]. rewrite <- app_assoc in Hl. split; [exact Hl |]. cbn [translated cr_after]. rewrite E. cbn [snd]. rewrite <- Hcr, Hta.
      split; [done |]. split; [done |]. split; [exact (took_trans _ _ _ _ _ _ _ _ T1 T2) |]. rewrite length_app in Hlen. cbn [length] in *. lia.
    + rewrite bool_decide_true by done. erewrite bind_eq by reflexivity. exists [r], rx, [], s1. rewrite (app_nil_r buf). split; [done |]. split; [done |].
      cbn [translated cr_after]. rewrite E. cbn [snd]. split; [done |]. split; [done |]. split; [done | cbn; lia].
Qed.

(** A read waits for a character and takes what is there, up to [len]: the next
    characters of the line, as [translated] has them, echoed. *)
Lemma read_ok fuel n cap len s : ready fuel s -> regs (sy_rx s) -> translated (was_cr s) (sy_rx s) <> [] ->
  (length (sy_rx s) + 1 < n)%nat -> 1 <= len <= Z.of_nat cap ->
  exists a b cs s', sy_rx s = a ++ b /\ _read_r fuel n cap 0 len s = Ret (Z.of_nat (length cs), cs) s' /\ translated (was_cr s) a = cs /\
    was_cr s' = cr_after (was_cr s) a /\ took fuel s s' b cs /\ 1 <= Z.of_nat (length cs) <= len.
Proof.
  intros Hr Hg Ht Hn Hlen. destruct (read_first_ok fuel (sy_rx s) s n Hr Hg eq_refl Ht ltac:(lia)) as (a & b & c & s1 & E & H1 & Ta & Ca & T1).
  destruct (took_rx _ _ _ _ _ T1) as [Hrx1 Hr1]. rewrite E in Hg, Hn. rewrite length_app in Hn. apply Forall_app in Hg as [_ Hg].
  destruct (read_rest_ok fuel cap len ltac:(lia) b s1 n [u8 c] Hr1 Hg Hrx1 ltac:(lia)) as (a2 & b2 & cs & s2 & -> & H2 & Ta2 & Ca2 & T2 & Hl).
  exists (a ++ a2), b2, (u8 c :: cs), s2. split; [by rewrite E, app_assoc |]. split.
  - unfold _read_r. change (STDIN_FILENO =? 0) with true. cbv match. nstep H1. unfold store. rewrite decide_True by (cbn; lia). erewrite bind_eq by reflexivity.
    change ([] ++ [u8 c]) with [u8 c]. by nstep H2.
  - rewrite translated_app, cr_after_app, Ta, <- Ca, Ta2, <- Ca2. split; [done |]. split; [done |]. split; [exact (took_trans _ _ _ _ _ _ _ _ T1 T2) |].
    cbn [length] in *. lia.
Qed.

(** ** From one console to another *)

(** The characters among the values of the register. *)
Definition chars (rx : list Z) : list Z := List.filter (fun r => negb (truthy (r .& 0x0100))) rx.

Lemma translated_chars rx : forall cr, translated cr rx = translated cr (chars rx).
Proof.
  induction rx as [| r rx IH]; intros cr; cbn; [done |]. destruct (truthy (r .& 256)) eqn:E; cbn [negb translated].
  - unfold rx_step at 1. rewrite E. apply IH.
  - by destruct (rx_step cr r) as [[c |] cr']; rewrite IH.
Qed.

(** Bytes that are not carriage returns. *)
Definition text (l : list Z) : Prop := Forall (fun c => 0 <= c < 256 /\ c <> 13) l.

Lemma byte_no_flag c : 0 <= c < 256 -> truthy (c .& 0x0100) = false.
Proof. intros Hc. apply negb_true_iff. by_range c 0 256%nat. Qed.

Lemma translated_text l : text l -> translated false (flat_map outb l) = l.
Proof.
  induction 1 as [| c l [Hc Hn] _ IH]; [done |]. cbn [flat_map]. unfold outb at 1. destruct (Z.eqb_spec c 10) as [-> |].
  - change (translated false ([13; 10] ++ flat_map outb l)) with (10 :: translated false (flat_map outb l)). by rewrite IH.
  - unfold u8. rewrite Z.mod_small by done. cbn [app translated]. unfold rx_step. rewrite byte_no_flag by done.
    rewrite (proj2 (Z.eqb_neq c 13)), (proj2 (Z.eqb_neq c 10)) by done. unfold u8. rewrite Z.mod_small by done. by rewrite IH.
Qed.

(** A program that reads until it has [want] characters. *)
Fixpoint gather (calls fuel n cap : nat) (len : Z) (want : nat) (acc : list Z) : SM (list Z) :=
  if decide (length acc < want)%nat then
    match calls with
    | O => raise NOFUEL
    | S calls' => let* (_, b) := _read_r fuel n cap 0 len in gather calls' fuel n cap len want (acc ++ b)
    end
  else ret acc.

Lemma gather_ok fuel n cap len want : 1 <= len <= Z.of_nat cap -> forall calls s acc, ready fuel s -> regs (sy_rx s) -> (length (sy_rx s) + 1 < n)%nat ->
  (length acc + length (translated (was_cr s) (sy_rx s)) = want)%nat -> (want <= length acc + calls)%nat ->
  exists s', gather calls fuel n cap len want acc s = Ret (acc ++ translated (was_cr s) (sy_rx s)) s'.
Proof.
  intros Hlen. induction calls as [| calls IH]; intros s acc Hr Hg Hn Hw Hc; cbn [gather].
  all: destruct (decide (length acc < want)%nat) as [Hlt | Hge]; [| exists s; destruct (translated _ _); [by rewrite app_nil_r | cbn in Hw; lia]].
  - lia.
  - destruct (read_ok fuel n cap len s Hr Hg) as (a & b & cs & s1 & E & H1 & Ta & Ca & T1 & Hl); [destruct (translated _ _); cbn in Hw; [lia | done] | done | done |].
    destruct (took_rx _ _ _ _ _ T1) as [Hrx1 Hr1]. nstep H1. rewrite E in Hg, Hn, Hw |- *. rewrite length_app in Hn. apply Forall_app in Hg as [_ Hg].
    rewrite translated_app, Ta, <- Ca in Hw |- *. rewrite length_app in Hw. rewrite <- Hrx1 in Hw, Hg, Hn |- *.
    destruct (IH s1 (acc ++ cs) Hr1 Hg ltac:(lia) ltac:(rewrite length_app; lia) ltac:(rewrite length_app; lia)) as (s' & Hs'). exists s'. by rewrite app_assoc.
Qed.


Definition quiet_sys (rx : list Z) : SYS := mkSYS (mkTXS 0 [] (fun _ => 2%nat)) rx 0 0 None 0 [].


(** [_read_r] stores the first character also where the caller has no room. *)
Lemma read_nothing fuel n c rx s : ready fuel s -> sy_rx s = c :: rx -> regs rx -> 14 <= c < 256 -> (length (sy_rx s) + 1 < n)%nat ->
  exists s', _read_r fuel n 0 0 0 s = Exn FAULT s'.
Proof.
  intros Hr Hrx Hg Hc Hn. assert (E : rx_step (was_cr s) c = (Some c, false)).
  { unfold rx_step. rewrite byte_no_flag by lia. rewrite (proj2 (Z.eqb_neq c 13)), (proj2 (Z.eqb_neq c 10)) by lia. done. }
  destruct (read_first_ok fuel (sy_rx s) s n Hr) as (a & b & c' & s1 & _ & H1 & _); [rewrite Hrx; constructor; [lia | done] | done | rewrite Hrx; cbn; by rewrite E | lia |].
  exists s1. unfold _read_r. change (STDIN_FILENO =? 0) with true. cbv match. by nstep H1.
Qed.

(** ** The heap *)

(** A program that asks for memory again and again. *)
Fixpoint sbrks (fuel : nat) (_end_of_heap : Z) (szs : list Z) : SM (list Z) :=
  match szs with
  | [] => ret []
  | sz :: szs' => let* p := _sbrk_r fuel _end_of_heap sz in let* ps := sbrks fuel _end_of_heap szs' in ret (p :: ps)
  end.

Definition sizes (szs : list Z) : Prop := Forall (fun sz => 0 <= sz < 2 ^ 31) szs.

Lemma heap_next_eq h sz : 0 <= h < 2 ^ 31 -> 0 <= sz < 2 ^ 31 -> heap_next h sz = h + 4 * ((sz + 3) / 4).
Proof. intros Hh Hs. unfold heap_next, heap_words, u32. rewrite (Z.mod_small (sz + 4 - 1)) by lia. rewrite Z.mod_small; zlia. Qed.

(** One call: memory behind the heap, or a message and nothing. *)
Lemma sbrk_ok fuel e sz s : ready fuel s -> 0 < sy_heap s <= e -> e < 2 ^ 31 -> sy_heap s mod 4 = 0 -> 0 <= sz < 2 ^ 31 ->
  exists p s', _sbrk_r fuel e sz s = Ret p s' /\ ready fuel s' /\ sy_heap s <= sy_heap s' <= e /\ sy_heap s' mod 4 = 0 /\
    ((p = 0 /\ sy_heap s' = sy_heap s /\ e < sy_heap s + 4 * ((sz + 3) / 4)) \/ (p = sy_heap s /\ p + sz <= sy_heap s')).
Proof.
  intros Hr Hh He Hm Hsz. unfold _sbrk_r. erewrite bind_eq by reflexivity. rewrite heap_next_eq by lia.
  rewrite (proj2 (Z.eqb_neq e 0)) by lia. cbn [negb andb]. destruct (Z.ltb_spec e (sy_heap s + 4 * ((sz + 3) / 4))) as [Hlt | Hge].
  - destruct (txstr_ok fuel oom_message (sy_uart s) Hr) as (u & Hu & _ & Hp). eexists 0, _.
    assert (H1 : uart (txstr fuel oom_message) s = Ret tt (s <| sy_uart := u |>)) by (unfold uart; by rewrite Hu). split; [by nstep H1 |].
    split; [exact Hp |]. cbn. split; [lia |]. split; [done |]. left. done.
  - eexists _, _. erewrite bind_eq by reflexivity. split; [done |]. split; [exact Hr |]. cbn. split; [zlia |]. split; [zlia |]. right. zlia.
Qed.

(** C27: The calls end, and the memory that they give is aligned, within the heap, of
    the size asked for, and given only once. *)
Theorem sbrk_blocks fuel e szs s : ready fuel s -> 0 < sy_heap s <= e -> e < 2 ^ 31 -> sy_heap s mod 4 = 0 -> sizes szs ->
  exists ps s', sbrks fuel e szs s = Ret ps s' /\ length ps = length szs /\ sy_heap s <= sy_heap s' <= e /\
    forall i p sz, ps !! i = Some p -> szs !! i = Some sz -> p <> 0 ->
      p mod 4 = 0 /\ sy_heap s <= p /\ p + sz <= sy_heap s' /\
      forall j q, (i < j)%nat -> ps !! j = Some q -> q <> 0 -> p + sz <= q.
Proof.
  intros Hr Hh He Hm Hs. revert s Hr Hh Hm. induction Hs as [| sz szs Hsz _ IH]; intros s Hr Hh Hm; cbn [sbrks].
  - exists [], s. split; [done |]. split; [done |]. split; [lia |]. intros i p sz Hp. by rewrite lookup_nil in Hp.
  - destruct (sbrk_ok fuel e sz s Hr Hh He Hm Hsz) as (p & s1 & H1 & Hr1 & Hh1 & Hm1 & Hp). nstep H1.
    destruct (IH s1 Hr1 ltac:(lia) Hm1) as (ps & s2 & H2 & Hl & Hh2 & Hps). nstep H2. exists (p :: ps), s2. split; [done |].
    split; [cbn; by rewrite Hl |]. split; [lia |]. intros [| i] p' sz' Hp' Hsz' Hne; cbn in Hp', Hsz'.
    + injection Hp' as <-. injection Hsz' as <-. destruct Hp as [[? _] | [-> Hend]]; [done |]. split; [done |]. split; [lia |]. split; [lia |].
      intros [| j] q Hj Hq Hqn; [lia |]. cbn in Hq. destruct (lookup_lt_is_Some_2 szs j) as [sq Hsq]; [rewrite <- Hl; by eapply lookup_lt_Some |].
      destruct (Hps j q sq Hq Hsq Hqn) as (_ & ? & _). lia.
    + destruct (Hps i p' sz' Hp' Hsz' Hne) as (Hp4 & Hlo & Hhi & Hlater). split; [done |]. split; [lia |]. split; [done |].
      intros [| j] q Hj Hq Hqn; [lia |]. apply (Hlater j); [lia | done | done].
Qed.

Definition heap_sys : SYS := (quiet_sys []) <| sy_heap := 0x00a01000 |>.

Lemma sbrk_blocks_witness : exists ps s', sbrks 3 0x00a10000 [100; 3; 70000; 4] heap_sys = Ret ps s' /\ length ps = 4%nat /\
  forall i p sz, ps !! i = Some p -> [100; 3; 70000; 4] !! i = Some sz -> p <> 0 -> p + sz <= sy_heap s'.
Proof.
  destruct (sbrk_blocks 3 0x00a10000 [100; 3; 70000; 4] heap_sys) as (ps & s' & H1 & H2 & _ & H3).
  - intros i. cbn. lia.
  - cbn. lia.
  - lia.
  - reflexivity.
  - repeat (constructor; [lia |]). constructor.
  - exists ps, s'. split; [exact H1 |]. split; [exact H2 |]. intros i p sz Hp Hsz Hn. by destruct (H3 i p sz Hp Hsz Hn) as (_ & _ & H & _).
Defined.

(** The third request of the example does not fit, the fourth one does. *)
Example sbrk_example : exists s', sbrks 3 0x00a10000 [100; 3; 70000; 4] heap_sys = Ret [0x00a01000; 0x00a01064; 0; 0x00a01068] s'.
Proof. eexists. vm_compute. reflexivity. Qed.

(** Memory can be given back, in whole words. *)
Lemma heap_shrinks h k : 0 < k < 2 ^ 31 -> k <= h < 2 ^ 31 -> heap_next h (- k) = h - 4 * (k / 4).
Proof. intros Hk Hh. unfold heap_next, heap_words, u32. zlia. Qed.

(** The library of the ZipCPU takes four bytes for each that it is asked for, and
    does not stop at the end of the heap. *)
Lemma zip_sbrk_fourfold sz s : 0 <= sy_heap s + 4 * sz < 2 ^ 32 ->
  zip_sbrk_r sz s = Ret (sy_heap s) (s <| sy_heap := sy_heap s + 4 * sz |>).
Proof. intros H. unfold zip_sbrk_r. do 2 erewrite bind_eq by reflexivity. unfold u32. by rewrite Z.mod_small. Qed.

(** ** The time *)

(** The days from the start of 1970 to a date of the Gregorian calendar. *)
Definition leap (y : Z) : bool := (y mod 4 =? 0) && (negb (y mod 100 =? 0) || (y mod 400 =? 0)).
Fixpoint days_of_years (n : nat) : Z :=
  match n with O => 0 | S n' => days_of_years n' + (if leap (1970 + Z.of_nat n') then 366 else 365) end.
Definition month_lengths (y : Z) : list Z := [31; if leap y then 29 else 28; 31; 30; 31; 30; 31; 31; 30; 31; 30; 31].
Definition days_since_1970 (y m d : Z) : Z :=
  days_of_years (Z.to_nat (y - 1970)) + foldr Z.add 0 (take (Z.to_nat (m - 1)) (month_lengths y)) + (d - 1).

(** Two decimal digits. *)
Definition to_bcd (n : Z) : Z := (n / 10) * 16 + n mod 10.
Definition date_reg (y m d : Z) : Z := to_bcd (y / 100) * 2 ^ 24 + to_bcd (y mod 100) * 2 ^ 16 + to_bcd m * 2 ^ 8 + to_bcd d.
Definition clock_reg (h m s : Z) : Z := to_bcd h * 2 ^ 16 + to_bcd m * 2 ^ 8 + to_bcd s.

Lemma bcd_field hi n lo k : 0 <= k -> 0 <= n < 100 -> 0 <= lo < 2 ^ k -> bcd (hi * 2 ^ (k + 8) + to_bcd n * 2 ^ k + lo) k = n.
Proof.
  intros Hk Hn Hlo. unfold bcd. rewrite !land_15, !shiftr_div by lia. rewrite (Z.pow_add_r 2 k 4) by lia. rewrite <- Z.div_div by lia.
  replace (hi * 2 ^ (k + 8) + to_bcd n * 2 ^ k + lo) with ((hi * 256 + to_bcd n) * 2 ^ k + lo) by (rewrite Z.pow_add_r by lia; lia).
  rewrite Z.div_add_l, (Z.div_small lo) by lia. unfold to_bcd. zlia.
Qed.

Lemma date_fields y m d : 0 <= y < 10000 -> 0 <= m < 100 -> 0 <= d < 100 ->
  bcd (date_reg y m d) 0 = d /\ bcd (date_reg y m d) 8 = m /\ bcd (date_reg y m d) 16 = y mod 100 /\ bcd (date_reg y m d) 24 = y / 100.
Proof.
  intros Hy Hm Hd. assert (Hb : forall n, 0 <= n < 100 -> 0 <= to_bcd n < 256) by (intros n Hn; unfold to_bcd; zlia).
  pose proof (Hb m Hm). pose proof (Hb d Hd). pose proof (Hb (y mod 100) ltac:(zlia)). unfold date_reg.
  set (C := to_bcd (y / 100)) in *. set (Y := to_bcd (y mod 100)) in *. set (M := to_bcd m) in *. set (D := to_bcd d) in *.
  split; [| split; [| split]].
  - replace (C * _ + _ + _ + _) with ((C * 2 ^ 16 + Y * 2 ^ 8 + M) * 2 ^ (0 + 8) + to_bcd d * 2 ^ 0 + 0) by (fold D; lia). apply bcd_field; lia.
  - replace (C * _ + _ + _ + _) with ((C * 2 ^ 8 + Y) * 2 ^ (8 + 8) + to_bcd m * 2 ^ 8 + D) by (fold M; lia). apply bcd_field; lia.
  - replace (C * _ + _ + _ + _) with (C * 2 ^ (16 + 8) + to_bcd (y mod 100) * 2 ^ 16 + (M * 2 ^ 8 + D)) by (fold Y; lia). apply bcd_field; zlia.
  - replace (C * _ + _ + _ + _) with (0 * 2 ^ (24 + 8) + to_bcd (y / 100) * 2 ^ 24 + (Y * 2 ^ 16 + M * 2 ^ 8 + D)) by (fold C; lia). apply bcd_field; zlia.
Qed.

Lemma clock_fields h m s : 0 <= h < 100 -> 0 <= m < 100 -> 0 <= s < 100 -> bcd (clock_reg h m s) 8 = m /\ bcd (clock_reg h m s) 16 = h.
Proof.
  intros Hh Hm Hs. assert (Hb : forall n, 0 <= n < 100 -> 0 <= to_bcd n < 256) by (intros n Hn; unfold to_bcd; zlia).
  pose proof (Hb m Hm). pose proof (Hb s Hs). unfold clock_reg. split.
  - replace (to_bcd h * _ + _ + _) with (to_bcd h * 2 ^ (8 + 8) + to_bcd m * 2 ^ 8 + to_bcd s) by lia. apply bcd_field; lia.
  - replace (to_bcd h * _ + _ + _) with (0 * 2 ^ (16 + 8) + to_bcd h * 2 ^ 16 + (to_bcd m * 2 ^ 8 + to_bcd s)) by lia. apply bcd_field; lia.
Qed.

Lemma year_days_add n : forall yy days, 0 <= days -> days + 366 * Z.of_nat n < 2 ^ 32 -> year_days n yy days = year_days n yy 0 + days.
Proof.
  induction n as [| n IH]; intros yy days Hd Hb; cbn [year_days]; [lia |]. set (k := if _ : bool then 366 else 365).
  assert (Hk : 365 <= k <= 366) by (unfold k; destruct (_ =? _); lia). unfold u32. rewrite !Z.mod_small by lia.
  rewrite (IH _ (days + k)), (IH _ (0 + k)) by lia. lia.
Qed.

(** From 1970 to 2099 the years that are divisible by four are the leap years. *)
Lemma years_agree y : 1970 <= y <= 2099 -> year_days (Z.to_nat (y - 1970)) 1970 0 = days_of_years (Z.to_nat (y - 1970)).
Proof. intros Hy. apply Z.eqb_eq. by_range y 1970 130%nat. Qed.

Lemma months_agree y m : 1970 <= y <= 2099 -> 1 <= m <= 12 ->
  month_days m (y mod 100 .& 3 =? 0) = foldr Z.add 0 (take (Z.to_nat (m - 1)) (month_lengths y)).
Proof.
  intros Hy Hm. assert (E : leap y = (y mod 100 .& 3 =? 0)) by (apply eqb_true_iff; by_range y 1970 130%nat).
  unfold month_lengths. rewrite E. destruct (_ =? 0); apply Z.eqb_eq; by_range m 1 12%nat.
Qed.

(** From 1970 to 2099 the time that [_gettimeofday_r] computes from the clock and
    the date is that of the Gregorian calendar, without the seconds, and a day
    late. *)
Theorem gettimeofday_day_late y mo d h mi s :
  1970 <= y <= 2099 -> 1 <= mo <= 12 -> 1 <= d <= 31 -> 0 <= h < 24 -> 0 <= mi < 60 -> 0 <= s < 60 ->
  gettimeofday (clock_reg h mi s) (date_reg y mo d) = 86400 * (days_since_1970 y mo d + 1) + 3600 * h + 60 * mi.
Proof.
  intros Hy Hmo Hd Hh Hmi Hs. destruct (date_fields y mo d) as (E1 & E2 & E3 & E4); [lia | lia | lia |].
  destruct (clock_fields h mi s) as (F1 & F2); [lia | lia | lia |]. unfold gettimeofday. rewrite E1, E2, E3, E4, F1, F2.
  replace (y / 100 * 100 + y mod 100 - 1970) with (y - 1970) by zlia. unfold days_since_1970. rewrite <- (months_agree y mo Hy Hmo), <- (years_agree y Hy).
  assert (Hm : 0 <= month_days mo (y mod 100 .& 3 =? 0) <= 335) by (rewrite <- !Z.leb_le, <- andb_true_iff; destruct (_ =? 0); by_range mo 1 12%nat).
  assert (Hyd : 0 <= year_days (Z.to_nat (y - 1970)) 1970 0 <= 47481) by (rewrite <- !Z.leb_le, <- andb_true_iff; by_range y 1970 130%nat).
  rewrite year_days_add by lia. unfold u32. rewrite Z.mod_small by lia. lia.
Qed.

Lemma gettimeofday_day_late_witness : gettimeofday (clock_reg 0 0 59) (date_reg 1970 1 1) = 86400 /\ days_since_1970 1970 1 1 = 0.
Proof. split; [exact (gettimeofday_day_late 1970 1 1 0 0 59 ltac:(lia) ltac:(lia) ltac:(lia) ltac:(lia) ltac:(lia) ltac:(lia)) | reflexivity]. Defined.
