(* ===== verification/NetUart.v ===== *)
(** The bridge between the serial line and the network (src/sw/host/netuart.cpp):
    characters with the high bit set belong to the command port, the others to the
    console; each has a socket, at most one client, and a log on the terminal.

    The system calls are the operations of [Files].  Arrays are lists, and an access
    outside of one raises [FAULT].  The messages of errors are left out. *)

From stdpp Require Import base tactics list numbers option.
From Stdlib Require Import ZArith Lia.
From S2P Require Import Prelude.
Local Open Scope Z_scope.

(** The result of [write]. *)
Inductive WRES : Type := Wrote (n : Z) | WAgain | WError.

Class Files (W : Type) := {
  fs_poll : list Z -> W -> (Z * list Z) * W;       (** the return value, and each [revents] *)
  fs_read : Z -> Z -> W -> (Z * list Z) * W;       (** the return value, and the bytes stored *)
  fs_write : Z -> list Z -> W -> WRES * W;
  fs_accept : Z -> W -> Z * W;
  fs_close : Z -> W -> unit * W
}.

Definition POLLIN : Z := 1.

(** ** LINBUFS *)

Record LINBUFS : Type := mkLB {
  m_iline : list Z;     (* 512 *)
  m_oline : list Z;     (* 512 *)
  m_buf : list Z;       (* 256 *)
  m_ilen : Z;
  m_olen : Z;
  m_fd : Z;
  m_connected : bool
}.

#[export] Instance set_m_iline : Setter m_iline := fun v b => mkLB v (m_oline b) (m_buf b) (m_ilen b) (m_olen b) (m_fd b) (m_connected b).
#[export] Instance set_m_oline : Setter m_oline := fun v b => mkLB (m_iline b) v (m_buf b) (m_ilen b) (m_olen b) (m_fd b) (m_connected b).
#[export] Instance set_m_buf : Setter m_buf := fun v b => mkLB (m_iline b) (m_oline b) v (m_ilen b) (m_olen b) (m_fd b) (m_connected b).
#[export] Instance set_m_ilen : Setter m_ilen := fun v b => mkLB (m_iline b) (m_oline b) (m_buf b) v (m_olen b) (m_fd b) (m_connected b).
#[export] Instance set_m_olen : Setter m_olen := fun v b => mkLB (m_iline b) (m_oline b) (m_buf b) (m_ilen b) v (m_fd b) (m_connected b).
#[export] Instance set_m_fd : Setter m_fd := fun v b => mkLB (m_iline b) (m_oline b) (m_buf b) (m_ilen b) (m_olen b) v (m_connected b).
#[export] Instance set_m_connected : Setter m_connected := fun v b => mkLB (m_iline b) (m_oline b) (m_buf b) (m_ilen b) (m_olen b) (m_fd b) v.

(** The constructor leaves the arrays as they are. *)
Definition LINBUFS_new (iline oline buf : list Z) : LINBUFS := mkLB iline oline buf 0 0 (-1) false.

Record BRIDGE (W : Type) : Type := mkBR { lbcmd : LINBUFS; lbcon : LINBUFS; n_stdout : list (list Z); n_os : W }.
Arguments mkBR {W}. Arguments lbcmd {W}. Arguments lbcon {W}. Arguments n_stdout {W}. Arguments n_os {W}.

#[export] Instance set_lbcmd {W} : Setter (lbcmd (W := W)) := fun v s => mkBR v (lbcon s) (n_stdout s) (n_os s).
#[export] Instance set_lbcon {W} : Setter (lbcon (W := W)) := fun v s => mkBR (lbcmd s) v (n_stdout s) (n_os s).
#[export] Instance set_n_stdout {W} : Setter (n_stdout (W := W)) := fun v s => mkBR (lbcmd s) (lbcon s) v (n_os s).
#[export] Instance set_n_os {W} : Setter (n_os (W := W)) := fun v s => mkBR (lbcmd s) (lbcon s) (n_stdout s) v.

(** Which of the two an operation is called on. *)
Inductive PORT : Type := CMD | CON.
#[export] Instance PORT_dec : EqDecision PORT.
Proof. solve_decision. Defined.

Definition lb {W} (p : PORT) (s : BRIDGE W) : LINBUFS := match p with CMD => lbcmd s | CON => lbcon s end.
Definition set_lb {W} (p : PORT) (b : LINBUFS) (s : BRIDGE W) : BRIDGE W :=
  match p with CMD => s <| lbcmd := b |> | CON => s <| lbcon := b |> end.

(** A C string in an array. *)
Fixpoint cstr (l : list Z) : list Z := match l with [] => [] | c :: l' => if c =? 0 then [] else c :: cstr l' end.

Section NetUart.
Context {W : Type} `{Files W}.
Abbreviation BM := (M (BRIDGE W)).

Definition sys {A} (f : W -> A * W) : BM A := fun s => let '(a, w) := f (n_os s) in Ret a (s <| n_os := w |>).

(** Changes of a [LINBUFS], and its arrays. *)
Definition upd (p : PORT) (f : LINBUFS -> LINBUFS) : BM unit := modify (fun s => set_lb p (f (lb p s)) s).
Definition elt (l : list Z) (i : Z) : BM Z := fun s =>
  match (if 0 <=? i then l !! Z.to_nat i else None) with Some v => Ret v s | None => Exn FAULT s end.
Definition put (l : list Z) (i v : Z) : BM (list Z) := fun s =>
  if (0 <=? i) && (i <? Z.of_nat (length l)) then Ret (<[Z.to_nat i := v]> l) s else Exn FAULT s.

Definition close (p : PORT) : BM unit :=
  let* s := get in
  if negb (m_connected (lb p s)) then upd p (fun b => b <| m_fd := -1 |>)
  else if m_fd (lb p s) <? 0 then upd p (fun b => b <| m_connected := false |>)
  else sys (fs_close (m_fd (lb p s))) ;; upd p (fun b => b <| m_fd := -1 |> <| m_connected := false |>).

Definition read (p : PORT) : BM Z :=
  let* s := get in
  let* r := sys (fs_read (m_fd (lb p s)) 256) in
  upd p (fun b => b <| m_buf := r.2 ++ drop (length r.2) (m_buf b) |>) ;;
  ret r.1.

Definition accept (p : PORT) (skt : Z) : BM unit :=
  let* fd := sys (fs_accept skt) in
  upd p (fun b => b <| m_fd := fd |>) ;;
  if fd <? 0 then raise (EXIT 1) else upd p (fun b => b <| m_connected := 0 <=? fd |>).

(** [for(int i=0; i<ln; i++) m_buf[i] |= mask;] with [n] left. *)
Fixpoint mask_buf (n : nat) (p : PORT) (i mask : Z) : BM unit :=
  match n with
  | O => ret tt
  | S n' =>
      let* s := get in
      let* c := elt (m_buf (lb p s)) i in
      let* l := put (m_buf (lb p s)) i (c .| mask) in
      upd p (fun b => b <| m_buf := l |>) ;;
      mask_buf n' p (i + 1) mask
  end.

(** A turn of the loop of [write], at [pos]. *)
Definition write_step (p : PORT) (fd ln pos : Z) : BM (Z + Z) :=
  let* s := get in
  let* nw := sys (fs_write fd (take (Z.to_nat (ln - pos)) (drop (Z.to_nat pos) (m_buf (lb p s))))) in
  let* nw :=
    match nw with
    | WAgain => ret 0
    | WError => raise (EXIT 1)
    | Wrote n => if n =? 0 then raise (EXIT 0) else ret n
    end in
  let pos := pos + nw in
  ret (if pos <? ln then inl pos else inr pos).

Definition write (fuel : nat) (p : PORT) (fd ln mask : Z) : BM Z :=
  (if truthy mask then mask_buf (Z.to_nat ln) p 0 mask else ret tt) ;;
  loop fuel (write_step p fd ln) 0.

Definition print (l : list Z) : BM unit := modify (fun s => s <| n_stdout := n_stdout s ++ [l] |>).

Definition is_nl (c : Z) : bool := (c =? 10) || (c =? 13).

Definition print_in_char (p : PORT) (prefix : list Z) (i : Z) : BM unit :=
  let* s := get in
  let b := lb p s in
  let* c := elt (m_buf b) i in
  let* l := put (m_iline b) (m_ilen b) c in
  let ilen := m_ilen b + 1 in
  if is_nl c || (511 <=? ilen) then
    let* l := put l (if 511 <=? ilen then ilen else ilen - 1) 0 in
    (if 1 <? ilen then print (prefix ++ cstr l) else ret tt) ;;
    upd p (fun b => b <| m_iline := l |> <| m_ilen := 0 |>)
  else upd p (fun b => b <| m_iline := l |> <| m_ilen := ilen |>).

Fixpoint print_in_chars (n : nat) (p : PORT) (prefix : list Z) (i : Z) : BM unit :=
  match n with O => ret tt | S n' => print_in_char p prefix i ;; print_in_chars n' p prefix (i + 1) end.

Definition print_in (p : PORT) (ln : Z) (prefix : list Z) : BM unit :=
  assert (0 <? ln) ;;
  print_in_chars (Z.to_nat ln) p prefix 0.

Definition print_out_char (p : PORT) (prefix : list Z) (i : Z) : BM unit :=
  let* s := get in
  let b := lb p s in
  let* c := elt (m_buf b) i in
  let ch := c .& 0x07f in
  let* l := put (m_oline b) (m_olen b) ch in
  let olen := m_olen b + 1 in
  assert (negb (c =? 0)) ;;
  if is_nl ch || (511 <=? olen) then
    let* l := put l (if 511 <=? olen then olen else olen - 1) 0 in
    (if 1 <? olen then print (prefix ++ cstr l) else ret tt) ;;
    upd p (fun b => b <| m_oline := l |> <| m_olen := 0 |>)
  else upd p (fun b => b <| m_oline := l |> <| m_olen := olen |>).

Fixpoint print_out (n : nat) (p : PORT) (prefix : list Z) (i : Z) : BM unit :=
  match n with O => ret tt | S n' => print_out_char p prefix i ;; print_out n' p prefix (i + 1) end.

Definition flush_out (p : PORT) (prefix : list Z) : BM unit :=
  let* s := get in
  let b := lb p s in
  if 0 <? m_olen b then
    let* l := put (m_oline b) (m_olen b) 0 in
    print (prefix ++ cstr l) ;;
    upd p (fun b => b <| m_oline := l |> <| m_olen := 0 |>)
  else ret tt.

(** ** main *)

(** The descriptors of the serial line and of the two listening sockets. *)
Context (tty skt console : Z).

(** The characters of the line, to the two buffers. *)
Fixpoint split_raw (raw : list Z) (ncmd ncon : Z) : BM (Z * Z) :=
  match raw with
  | [] => ret (ncmd, ncon)
  | c :: raw' =>
      let* s := get in
      if truthy (c .& 0x80) then
        let* l := put (m_buf (lbcmd s)) ncmd (c .& 0x07f) in
        upd CMD (fun b => b <| m_buf := l |>) ;; split_raw raw' (ncmd + 1) ncon
      else
        let* l := put (m_buf (lbcon s)) ncon c in
        upd CON (fun b => b <| m_buf := l |>) ;; split_raw raw' ncmd (ncon + 1)
  end.

Definition forward (fuel : nat) (p : PORT) (n : Z) : BM unit :=
  let* s := get in
  if (0 <=? m_fd (lb p s)) && (0 <? n) then
    let* nw := write fuel p (m_fd (lb p s)) n 0 in
    if negb (nw =? n) then close p else ret tt
  else ret tt.

(** ["> "], ["# "] and ["< "] *)
Definition cmd_prefix (connected : bool) : list Z := if connected then [62; 32] else [35; 32].
Definition out_prefix : list Z := [60; 32].

Definition tty_chunk (fuel : nat) (raw : list Z) : BM unit :=
  let* n := split_raw raw 0 0 in
  let '(ncmd, ncon) := n in
  forward fuel CMD ncmd ;;
  forward fuel CON ncon ;;
  let* s := get in
  (if 0 <? ncmd then print_in CMD ncmd (cmd_prefix (0 <=? m_fd (lbcmd s))) else ret tt) ;;
  if 0 <? ncon then print_in CON ncon [] else ret tt.

Definition tty_turn (fuel : nat) : BM unit :=
  let* r := sys (fs_read tty 256) in
  if r.1 =? 0 then raise (EXIT 0)
  else if r.1 <? 0 then raise (EXIT 1)
  else
    loop fuel (fun raw =>
      tty_chunk fuel raw ;;
      let* r := sys (fs_read tty 256) in
      ret (if 0 <? r.1 then inl r.2 else inr tt)) r.2.

(** A client, or one that waits: [fd] is the descriptor that was polled. *)
Definition client_turn (fuel : nat) (p : PORT) (listener fd mask : Z) (prefix : list Z) : BM unit :=
  if fd =? listener then accept p listener
  else
    let* nr := read p in
    if nr =? 0 then flush_out p prefix ;; close p
    else if 0 <? nr then write fuel p tty nr mask ;; print_out (Z.to_nat nr) p prefix 0
    else ret tt.

Definition polled (p : PORT) (listener : Z) (s : BRIDGE W) : Z :=
  if m_connected (lb p s) then m_fd (lb p s) else listener.

Definition turn (fuel : nat) : BM unit :=
  let* s := get in
  let f1 := polled CMD skt s in
  let f2 := polled CON console s in
  let* r := sys (fs_poll [tty; f1; f2]) in
  let '(pv, revents) := r in
  if pv <? 0 then raise (EXIT (-1))
  else
    let rev (i : nat) := default 0 (revents !! i) in
    (if truthy (rev 0%nat .& POLLIN) then tty_turn fuel
     else if truthy (rev 0%nat) then raise (EXIT 1) else ret tt) ;;
    (if truthy (rev 1%nat .& POLLIN) then client_turn fuel CMD skt f1 0x80 out_prefix else ret tt) ;;
    (if truthy (rev 2%nat .& POLLIN) then client_turn fuel CON console f2 0 [] else ret tt).
End NetUart.
