(* ===== verification/NetUartProps.v ===== *)
(** The bridge between the serial line and the network: while its two clients are
    connected, each gets its share of the line and nothing else, and the line gets
    what they send, marked with whose it is. *)

From stdpp Require Import base tactics list numbers option.
From Stdlib Require Import ZArith Lia.
From S2P Require Import Prelude NetUart.
Local Open Scope Z_scope.

(** ** What the bridge relies on

    The line [tty] and two clients that work: reads and writes of them move bytes,
    perhaps after asking to try again, and a line that has input has a byte to read.
    [got] and [sent] are what has been read and written of a descriptor. *)

Class Wired (W : Type) `{Files W} (tty c d : Z) := {
  got : W -> Z -> list Z;
  sent : W -> Z -> list Z;
  work : W -> nat;       (** what is left to read, and of asking again *)
  ready : W -> bool;     (** the line has input *)
  poll_law : forall fds w, let '(pv, rev, w') := fs_poll (tty :: fds) w in
    0 <= pv /\ got w' = got w /\ sent w' = sent w /\ (work w' <= work w)%nat /\
    (default 0 (rev !! 0%nat) = 0 \/ (default 0 (rev !! 0%nat) = POLLIN /\ ready w' = true));
  read_law : forall fd w, fd ∈ [tty; c; d] -> let '(r, bs, w') := fs_read fd 256 w in
    0 <= r <= 256 /\ length bs = Z.to_nat r /\ Forall (fun b => 0 <= b < 256) bs /\ (fd = d -> Forall (fun b => 0 < b < 128) bs) /\
    (forall x, got w' x = got w x ++ if decide (x = fd) then bs else []) /\ sent w' = sent w /\
    (work w' <= work w)%nat /\ (0 < r -> (work w' < work w)%nat) /\ (fd = tty -> ready w = true -> 0 < r);
  write_law : forall fd bs w, fd ∈ [tty; c; d] -> bs <> [] ->
    match fs_write fd bs w with
    | (Wrote n, w') => 0 < n <= Z.of_nat (length bs) /\ got w' = got w /\ (work w' <= work w)%nat /\
        forall x, sent w' x = sent w x ++ if decide (x = fd) then take (Z.to_nat n) bs else []
    | (WAgain, w') => got w' = got w /\ sent w' = sent w /\ (work w' < work w)%nat
    | (WError, _) => False
    end;
  close_law : forall fd w, got (fs_close fd w).2 = got w /\ sent (fs_close fd w).2 = sent w /\ (work (fs_close fd w).2 <= work w)%nat
}.
#[global] Hint Mode Wired + - - - - : typeclass_instances.

(** ** The two directions *)

Definition high (b : Z) : bool := truthy (b .& 0x80).
Definition hi (bs : list Z) : list Z := (fun b => b .& 0x07f) <$> List.filter high bs.
Definition lo (bs : list Z) : list Z := List.filter (fun b => negb (high b)) bs.

Lemma hi_app xs ys : hi (xs ++ ys) = hi xs ++ hi ys.
Proof. unfold hi. by rewrite List.filter_app, fmap_app. Qed.
Lemma lo_app xs ys : lo (xs ++ ys) = lo xs ++ lo ys.
Proof. apply List.filter_app. Qed.

Lemma hi_cons b bs : hi (b :: bs) = if high b then (b .& 0x07f) :: hi bs else hi bs.
Proof. unfold hi. cbn [List.filter]. by destruct (high b). Qed.
Lemma lo_cons b bs : lo (b :: bs) = if high b then lo bs else b :: lo bs.
Proof. unfold lo. cbn [List.filter]. by destruct (high b). Qed.

(** ** The state *)

Record shape (b : LINBUFS) : Prop := {
  sh_iline : length (m_iline b) = 512%nat;
  sh_oline : length (m_oline b) = 512%nat;
  sh_buf : length (m_buf b) = 256%nat;
  sh_ilen : 0 <= m_ilen b < 511;
  sh_olen : 0 <= m_olen b < 511
}.

Section Props.
Context {W : Type} {HF : Files W} (tty skt console c d : Z) {HW : Wired W tty c d}.
Implicit Types (s : BRIDGE W) (w : W).
Abbreviation BM := (M (BRIDGE W)).

Definition ok s : Prop := forall p, shape (lb p s).

(** The connections, and the buffers. *)
Definition links s : PORT -> Z * bool := fun p => (m_fd (lb p s), m_connected (lb p s)).
Definition bufs s : PORT -> list Z := fun p => m_buf (lb p s).

(** What was read and written between two states of the system. *)
Definition delta (w w' : W) (g t : Z -> list Z) : Prop :=
  (forall x, got w' x = got w x ++ g x) /\ (forall x, sent w' x = sent w x ++ t x) /\ (work w' <= work w)%nat.
Definition none : Z -> list Z := fun _ => [].
Definition only (fd : Z) (l : list Z) : Z -> list Z := fun x => if decide (x = fd) then l else [].

Lemma delta_refl w : delta w w none none.
Proof. unfold delta, none. split; [| split]; [intros; by rewrite app_nil_r .. | lia]. Qed.

Lemma delta_trans w w1 w2 g t g' t' : delta w w1 g t -> delta w1 w2 g' t' -> delta w w2 (fun x => g x ++ g' x) (fun x => t x ++ t' x).
Proof.
  intros (G & T & K) (G' & T' & K'). split; [| split]; [| | lia]; intros x; rewrite ?G', ?T', ?G, ?T; by rewrite <- app_assoc.
Qed.

Lemma delta_eq w w' g t g' t' : delta w w' g t -> (forall x, g x = g' x) -> (forall x, t x = t' x) -> delta w w' g' t'.
Proof. intros (G & T & K) Hg Ht. split; [| split]; [| | done]; intros x; [by rewrite <- Hg | by rewrite <- Ht]. Qed.

Lemma lb_set p b s : lb p (set_lb p b s) = b.
Proof. by destruct p, s. Qed.
Lemma lb_set_ne p q b s : p <> q -> lb q (set_lb p b s) = lb q s.
Proof. by destruct p, q, s. Qed.
Lemma os_set p b s : n_os (set_lb p b s) = n_os s.
Proof. by destruct p, s. Qed.

Lemma set_lb_ok p b s : ok s -> shape b -> ok (set_lb p b s).
Proof. intros Hs Hb q. destruct (decide (p = q)) as [<- | Hne]; [by rewrite lb_set | rewrite lb_set_ne by done; apply Hs]. Qed.

(** Steps that touch the logs on the terminal only. *)
Definition calm s s' : Prop := ok s' /\ n_os s' = n_os s /\ (forall p, links s' p = links s p) /\ (forall p, bufs s' p = bufs s p).

Lemma calm_refl s : ok s -> calm s s.
Proof. intros Hs. split; [exact Hs |]. split; [done |]. by split. Qed.
Lemma calm_trans s1 s2 s3 : calm s1 s2 -> calm s2 s3 -> calm s1 s3.
Proof.
  intros (O1 & N1 & L1 & B1) (O2 & N2 & L2 & B2). split; [done |]. split; [by rewrite N2 |].
  split; intros p; [by rewrite L2 | by rewrite B2].
Qed.

Lemma calm_set p b s : ok s -> shape b -> m_buf b = m_buf (lb p s) -> m_fd b = m_fd (lb p s) -> m_connected b = m_connected (lb p s) ->
  calm s (set_lb p b s).
Proof.
  intros Hs Hb H1 H2 H3. split; [by apply set_lb_ok |]. split; [apply os_set |].
  unfold links, bufs. split; intros q; (destruct (decide (p = q)) as [<- | Hne]; [rewrite lb_set; congruence | by rewrite lb_set_ne]).
Qed.

Lemma calm_print l s : ok s -> calm s (s <| n_stdout := n_stdout s ++ [l] |>).
Proof. intros Hs. split; [intros p; specialize (Hs p); by destruct p, s |]. split; [done |]. by split; intros p; destruct p, s. Qed.

(** ** Arrays *)

Abbreviation NO := (fun (_ : exn) (_ : BRIDGE W) => False).

Lemma wp_elt l i Q E s : 0 <= i < Z.of_nat (length l) -> (forall v, l !! Z.to_nat i = Some v -> Q v s) -> wp (elt (W := W) l i) Q E s.
Proof.
  intros Hi HQ. unfold wp, elt. rewrite (proj2 (Z.leb_le 0 i)) by lia.
  destruct (lookup_lt_is_Some_2 l (Z.to_nat i)) as [v Hv]; [lia |]. rewrite Hv. by apply HQ.
Qed.

Lemma wp_put l i v Q E s : 0 <= i < Z.of_nat (length l) -> Q (<[Z.to_nat i := v]> l) s -> wp (put (W := W) l i v) Q E s.
Proof. intros Hi HQ. unfold wp, put. by rewrite (proj2 (Z.leb_le 0 i)), (proj2 (Z.ltb_lt _ _)) by lia. Qed.

Lemma wp_upd p f Q E s : Q tt (set_lb p (f (lb p s)) s) -> wp (upd p f) Q E s.
Proof. done. Qed.

Lemma wp_sys {A} (f : W -> A * W) Q E s : (forall a w, f (n_os s) = (a, w) -> Q a (s <| n_os := w |>)) -> wp (sys f) Q E s.
Proof. intros HQ. unfold wp, sys. destruct (f (n_os s)) as [a w] eqn:E0. by apply HQ. Qed.

(** ** The logs on the terminal *)

Lemma shape_iline b l n : shape b -> length l = 512%nat -> 0 <= n < 511 -> shape (b <| m_iline := l |> <| m_ilen := n |>).
Proof. by intros []; split. Qed.
Lemma shape_oline b l n : shape b -> length l = 512%nat -> 0 <= n < 511 -> shape (b <| m_oline := l |> <| m_olen := n |>).
Proof. by intros []; split. Qed.
Lemma shape_buf b l : shape b -> length l = 256%nat -> shape (b <| m_buf := l |>).
Proof. by intros []; split. Qed.
Lemma shape_fd b fd v : shape b -> shape (b <| m_fd := fd |> <| m_connected := v |>).
Proof. by intros []; split. Qed.

Lemma calm_iline p l n s : ok s -> length l = 512%nat -> 0 <= n < 511 ->
  calm s (set_lb p ((lb p s) <| m_iline := l |> <| m_ilen := n |>) s).
Proof. intros Hs Hl Hn. by apply calm_set; [| apply shape_iline | | |]. Qed.
Lemma calm_oline p l n s : ok s -> length l = 512%nat -> 0 <= n < 511 ->
  calm s (set_lb p ((lb p s) <| m_oline := l |> <| m_olen := n |>) s).
Proof. intros Hs Hl Hn. by apply calm_set; [| apply shape_oline | | |]. Qed.

Lemma print_in_char_calm p prefix i s : ok s -> 0 <= i < 256 -> wp (print_in_char p prefix i) (fun _ s' => calm s s') NO s.
Proof.
  intros Hs Hi. destruct (Hs p) as [S1 S2 S3 S4 S5]. unfold print_in_char. repeat wp_step. apply wp_elt; [lia |]. intros ch Hch.
  wp_step. apply wp_put; [lia |]. destruct (is_nl ch || (511 <=? m_ilen (lb p s) + 1)) eqn:En.
  - wp_step. apply wp_put; [rewrite length_insert; case_match; bools; lia |].
    set (l := <[_ := 0]> _). assert (Hl : length l = 512%nat) by (unfold l; by rewrite !length_insert).
    wp_step. case_match.
    + unfold print. wp_step. apply wp_upd. set (s1 := s <| n_stdout := _ |>).
      assert (Hq : calm s s1) by by apply calm_print. apply (calm_trans s s1); [done |].
      by apply calm_iline; [apply Hq | |].
    + wp_step. apply wp_upd. by apply calm_iline.
  - apply orb_false_iff in En as [_ En]. bools. apply wp_upd. by apply calm_iline; [| rewrite length_insert | lia].
Qed.

Lemma print_in_chars_calm p prefix n : forall i s, ok s -> 0 <= i -> i + Z.of_nat n <= 256 ->
  wp (print_in_chars n p prefix i) (fun _ s' => calm s s') NO s.
Proof.
  induction n as [| n IH]; intros i s Hs Hi Hn; cbn [print_in_chars].
  - wp_step. by apply calm_refl.
  - wp_step. eapply wp_mono; [apply print_in_char_calm; [done | lia] | | done]. intros [] s1 Hq. cbv beta.
    eapply wp_mono; [apply IH; [apply Hq | lia | lia] | | done]. intros [] s2 Hq2. by apply (calm_trans s s1).
Qed.

Lemma print_in_calm p prefix n s : ok s -> 0 < n <= 256 -> wp (print_in p n prefix) (fun _ s' => calm s s') NO s.
Proof. intros Hs Hn. unfold print_in. repeat wp_step; [apply print_in_chars_calm; [done | lia | lia] | bools; lia]. Qed.

Lemma print_out_char_calm p prefix i s : ok s -> 0 <= i < 256 -> (forall v, bufs s p !! Z.to_nat i = Some v -> v <> 0) ->
  wp (print_out_char p prefix i) (fun _ s' => calm s s') NO s.
Proof.
  intros Hs Hi Hnz. destruct (Hs p) as [S1 S2 S3 S4 S5]. unfold print_out_char. repeat wp_step. apply wp_elt; [lia |]. intros ch Hch.
  wp_step. apply wp_put; [lia |]. repeat wp_step.
  2: { apply (Hnz ch Hch). by destruct (Z.eqb_spec ch 0). }
  destruct (is_nl (ch .& 0x7f) || (511 <=? m_olen (lb p s) + 1)) eqn:En.
  - wp_step. apply wp_put; [rewrite length_insert; case_match; bools; lia |].
    set (l := <[_ := 0]> _). assert (Hl : length l = 512%nat) by (unfold l; by rewrite !length_insert).
    wp_step. case_match.
    + unfold print. wp_step. apply wp_upd. set (s1 := s <| n_stdout := _ |>).
      assert (Hq : calm s s1) by by apply calm_print. apply (calm_trans s s1); [done |].
      by apply calm_oline; [apply Hq | |].
    + wp_step. apply wp_upd. by apply calm_oline.
  - apply orb_false_iff in En as [_ En]. bools. apply wp_upd. by apply calm_oline; [| rewrite length_insert | lia].
Qed.

Lemma print_out_calm p prefix n : forall i s, ok s -> 0 <= i -> i + Z.of_nat n <= 256 ->
  (forall k v, (k < Z.to_nat i + n)%nat -> bufs s p !! k = Some v -> v <> 0) ->
  wp (print_out n p prefix i) (fun _ s' => calm s s') NO s.
Proof.
  induction n as [| n IH]; intros i s Hs Hi Hn Hnz; cbn [print_out].
  - wp_step. by apply calm_refl.
  - wp_step. eapply wp_mono; [apply print_out_char_calm; [done | lia |] | | done].
    { intros v Hv. apply (Hnz (Z.to_nat i) v); [lia | done]. }
    intros [] s1 Hq. cbv beta. eapply wp_mono; [apply IH; [apply Hq | lia | lia |] | | done].
    + intros k v Hk Hv. destruct Hq as (_ & _ & _ & Hb). rewrite Hb in Hv. apply (Hnz k v); [lia | done].
    + intros [] s2 Hq2. by apply (calm_trans s s1).
Qed.

Lemma flush_out_calm p prefix s : ok s -> wp (flush_out p prefix) (fun _ s' => calm s s') NO s.
Proof.
  intros Hs. destruct (Hs p) as [S1 S2 S3 S4 S5]. unfold flush_out. repeat wp_step. case_match; [| wp_step; by apply calm_refl].
  wp_step. apply wp_put; [lia |]. unfold print. repeat wp_step. apply wp_upd.
  set (s1 := s <| n_stdout := _ |>). assert (Hq : calm s s1) by by apply calm_print. apply (calm_trans s s1); [done |].
  by apply calm_oline; [apply Hq | rewrite length_insert |].
Qed.

(** ** Writing *)

Lemma ok_os w s : ok s -> ok (s <| n_os := w |>).
Proof. intros Hs p. specialize (Hs p). by destruct p, s. Qed.
Lemma lb_os p w s : lb p (s <| n_os := w |>) = lb p s.
Proof. by destruct p, s. Qed.

(** Steps that keep the connections. *)
Definition linked s s' : Prop := ok s' /\ forall p, links s' p = links s p.

Lemma calm_linked s s' : calm s s' -> linked s s'.
Proof. by intros (? & _ & ? & _). Qed.
Lemma linked_trans s1 s2 s3 : linked s1 s2 -> linked s2 s3 -> linked s1 s3.
Proof. intros (O1 & L1) (O2 & L2). split; [done |]. intros p. by rewrite L2. Qed.
Lemma linked_buf p l s : ok s -> length l = 256%nat -> linked s (set_lb p ((lb p s) <| m_buf := l |>) s).
Proof.
  intros Hs Hl. split; [apply set_lb_ok; [done | by apply shape_buf] |]. unfold links. intros q.
  destruct (decide (p = q)) as [<- | Hne]; [by rewrite lb_set | by rewrite lb_set_ne].
Qed.

Definition fuel_ok (fuel : nat) w : Prop := (work w + 256 < fuel)%nat.
Lemma fuel_delta fuel w w' g t : fuel_ok fuel w -> delta w w' g t -> fuel_ok fuel w'.
Proof. intros H (_ & _ & K). unfold fuel_ok in *. lia. Qed.

Lemma only_app fd x y z : only fd (x ++ y) z = only fd x z ++ only fd y z.
Proof. unfold only. by case_decide. Qed.

Lemma write_loop_delta fuel p fd ln s : ok s -> fd ∈ [tty; c; d] -> 0 < ln <= 256 -> fuel_ok fuel (n_os s) ->
  wp (loop fuel (write_step p fd ln) 0) (fun r s' => r = ln /\ linked s s' /\ (forall q, bufs s' q = bufs s q) /\
    delta (n_os s) (n_os s') none (only fd (take (Z.to_nat ln) (bufs s p)))) NO s.
Proof.
  intros Hs Hfd Hln Hf.
  apply (wp_loop _ (fun pos s' => 0 <= pos < ln /\ linked s s' /\ (forall q, bufs s' q = bufs s q) /\
      delta (n_os s) (n_os s') none (only fd (take (Z.to_nat pos) (bufs s p))))
    (fun pos s' => (work (n_os s') + Z.to_nat (ln - pos))%nat)).
  - intros pos s1 (Hpos & Hl & Hb & Hd). pose proof (sh_buf _ (Hs p)) as Hlen. fold (bufs s p) in Hlen.
    unfold write_step. repeat wp_step. apply wp_sys. intros r w Hw. fold (bufs s1 p) in Hw. rewrite Hb in Hw.
    set (bs := take _ _) in Hw. assert (Hbs : length bs = Z.to_nat (ln - pos)) by (unfold bs; rewrite length_take, length_drop; lia).
    pose proof (write_law fd bs (n_os s1) Hfd) as Hlaw. rewrite Hw in Hlaw.
    specialize (Hlaw ltac:(intros E; apply (f_equal length) in E; cbn in E; lia)).
    assert (Hl' : linked s (s1 <| n_os := w |>)) by (split; [apply ok_os, Hl | intros q; unfold links; rewrite lb_os; apply Hl]).
    assert (Hb' : forall q, bufs (s1 <| n_os := w |>) q = bufs s q) by (intros q; unfold bufs; rewrite lb_os; apply Hb).
    wp_step. destruct r as [n | |]; [| wp_step | done].
    + destruct Hlaw as (Hn & Hg & Hk & Hse). rewrite (proj2 (Z.eqb_neq n 0)) by lia. repeat wp_step.
      assert (Hd' : delta (n_os s) w none (only fd (take (Z.to_nat (pos + n)) (bufs s p)))).
      { eapply delta_eq; [apply (delta_trans _ (n_os s1) _ _ _ none (only fd (take (Z.to_nat n) bs)) Hd) | done |].
        - split; [intros; by rewrite Hg, app_nil_r |]. split; [exact Hse | done].
        - intros x. cbv beta. rewrite <- only_app. f_equal. unfold bs. rewrite take_take, Nat.min_l by lia.
          replace (Z.to_nat (pos + n)) with (Z.to_nat pos + Z.to_nat n)%nat by lia. by rewrite take_take_drop. }
      destruct (Z.ltb_spec (pos + n) ln).
      * split; [split; [lia | done] |]. cbn. lia.
      * replace (pos + n) with ln in * by lia. done.
    + destruct Hlaw as (Hg & Hse & Hk). wp_step. rewrite Z.add_0_r, (proj2 (Z.ltb_lt _ _)) by lia.
      split; [| cbn; lia]. split; [lia |]. split; [done |]. split; [done |]. change (n_os (s1 <| n_os := w |>)) with w.
      eapply delta_eq; [apply (delta_trans _ (n_os s1) _ _ _ none none Hd) | done |].
      * split; [intros; by rewrite Hg, app_nil_r |]. split; [intros; by rewrite Hse, app_nil_r | cbn; lia].
      * intros x. cbv beta. by rewrite app_nil_r.
  - split; [lia |]. split; [by split |]. split; [done |]. eapply delta_eq; [apply delta_refl | done |].
    intros x. unfold none, only. by case_decide.
  - unfold fuel_ok in Hf. lia.
Qed.

(** The mark of a command. *)
Lemma mask_buf_marks p mask n : forall i s, ok s -> (i + n <= 256)%nat ->
  wp (mask_buf n p (Z.of_nat i) mask) (fun _ s' => linked s s' /\ n_os s' = n_os s /\
    (forall q, q <> p -> bufs s' q = bufs s q) /\
    bufs s' p = take i (bufs s p) ++ ((fun b => b .| mask) <$> take n (drop i (bufs s p))) ++ drop (i + n) (bufs s p)) NO s.
Proof.
  induction n as [| n IH]; intros i s Hs Hn; cbn [mask_buf]; pose proof (sh_buf _ (Hs p)) as Hlen; fold (bufs s p) in Hlen.
  - wp_step. split; [by split |]. split; [done |]. split; [done |]. rewrite Nat.add_0_r, take_0. cbn [fmap list_fmap app]. by rewrite take_drop.
  - repeat wp_step. fold (bufs s p). apply wp_elt; [lia |]. intros v Hv. rewrite Nat2Z.id in Hv. wp_step. apply wp_put; [lia |]. rewrite Nat2Z.id.
    wp_step. apply wp_upd. set (l := <[i := _]> _). set (s1 := set_lb p _ s).
    assert (Hl1 : linked s s1) by (apply linked_buf; [done | unfold l; by rewrite length_insert]).
    assert (Hb1 : bufs s1 p = l) by (unfold bufs, s1; by rewrite lb_set).
    replace (Z.of_nat i + 1) with (Z.of_nat (S i)) by lia.
    eapply wp_mono; [apply (IH (S i) s1); [apply Hl1 | lia] | | done]. intros [] s2 (Hl2 & Ho2 & Hq2 & Hb2).
    split; [by apply (linked_trans s s1) |]. split; [rewrite Ho2; apply os_set |].
    split; [intros q Hq; rewrite Hq2 by done; unfold bufs, s1; by rewrite lb_set_ne by done |].
    rewrite Hb2, Hb1. unfold l. rewrite (take_S_r _ i (v .| mask)) by (apply list_lookup_insert_eq; lia).
    rewrite take_insert_ge, !drop_insert_lt, <- app_assoc by lia. f_equal.
    rewrite (drop_S (bufs s p) v i) by done. cbn [take fmap list_fmap app]. do 2 f_equal. f_equal. lia.
Qed.

Definition marked (mask : Z) (l : list Z) : list Z := (fun b => b .| mask) <$> l.

Lemma marked_0 l : marked 0 l = l.
Proof. unfold marked. induction l as [| b l IH]; cbn; [done |]. by rewrite Z.lor_0_r, IH. Qed.

Lemma write_delta fuel p fd ln mask s : ok s -> fd ∈ [tty; c; d] -> 0 < ln <= 256 -> fuel_ok fuel (n_os s) ->
  wp (write fuel p fd ln mask) (fun r s' => r = ln /\ linked s s' /\ (forall q, q <> p -> bufs s' q = bufs s q) /\
    take (Z.to_nat ln) (bufs s' p) = marked mask (take (Z.to_nat ln) (bufs s p)) /\
    delta (n_os s) (n_os s') none (only fd (marked mask (take (Z.to_nat ln) (bufs s p))))) NO s.
Proof.
  intros Hs Hfd Hln Hf. unfold write. wp_step. pose proof (sh_buf _ (Hs p)) as Hlen. fold (bufs s p) in Hlen.
  unfold truthy. destruct (Z.eqb_spec mask 0) as [-> | Hm]; cbn [negb].
  - wp_step. eapply wp_mono; [by apply write_loop_delta | | done]. cbv beta. intros r s' (-> & Hl & Hb & Hd).
    rewrite Hb, marked_0. done.
  - eapply wp_mono; [apply (mask_buf_marks p mask (Z.to_nat ln) 0 s); [done | lia] | | done]. cbv beta.
    intros [] s1 (Hl & Ho & Hq & Hb). cbn [Nat.add] in Hb. rewrite take_0, drop_0 in Hb. cbn [app] in Hb. fold (marked mask (take (Z.to_nat ln) (bufs s p))) in Hb.
    assert (Ht : take (Z.to_nat ln) (bufs s1 p) = marked mask (take (Z.to_nat ln) (bufs s p))).
    { rewrite Hb. apply take_app_length'. unfold marked. rewrite length_fmap, length_take. lia. }
    eapply wp_mono; [apply write_loop_delta; [apply Hl | done | done | by rewrite Ho] | | done]. cbv beta.
    intros r s' (-> & Hl' & Hb' & Hd). rewrite Hb', Ht, <- Ho in *. split; [done |]. split; [by apply (linked_trans s s1) |].
    split; [intros q Hne; by rewrite Hb', Hq by done | done].
Qed.

Lemma forward_delta fuel p n s : ok s -> m_fd (lb p s) ∈ [tty; c; d] -> 0 <= m_fd (lb p s) -> 0 <= n <= 256 -> fuel_ok fuel (n_os s) ->
  wp (forward fuel p n) (fun _ s' => linked s s' /\ (forall q, q <> p -> bufs s' q = bufs s q) /\
    delta (n_os s) (n_os s') none (only (m_fd (lb p s)) (take (Z.to_nat n) (bufs s p)))) NO s.
Proof.
  intros Hs Hfd H0 Hn Hf. unfold forward. repeat wp_step. rewrite (proj2 (Z.leb_le 0 _)) by done. cbn [andb].
  destruct (Z.ltb_spec 0 n).
  - wp_step. eapply wp_mono; [apply write_delta; [done | done | lia | done] | | done]. cbv beta.
    intros r s' (-> & Hl & Hb & _ & Hd). rewrite Z.eqb_refl. cbn [negb]. wp_step. rewrite marked_0 in Hd. done.
  - wp_step. replace n with 0 by lia. split; [by split |]. split; [done |].
    eapply delta_eq; [apply delta_refl | done |]. intros x. unfold none, only. by case_decide.
Qed.

(** ** The line *)

Lemma split_raw_ok raw : forall ncmd ncon s, ok s -> (ncmd + length (hi raw) <= 256)%nat -> (ncon + length (lo raw) <= 256)%nat ->
  wp (split_raw raw (Z.of_nat ncmd) (Z.of_nat ncon)) (fun r s' => linked s s' /\ n_os s' = n_os s /\
    r = (Z.of_nat (ncmd + length (hi raw)), Z.of_nat (ncon + length (lo raw))) /\
    take (ncmd + length (hi raw)) (bufs s' CMD) = take ncmd (bufs s CMD) ++ hi raw /\
    take (ncon + length (lo raw)) (bufs s' CON) = take ncon (bufs s CON) ++ lo raw) NO s.
Proof.
  induction raw as [| b raw IH]; intros ncmd ncon s Hs H1 H2; cbn [split_raw].
  - wp_step. cbn [hi lo List.filter fmap list_fmap length]. rewrite !Nat.add_0_r, !app_nil_r. by split; [split |].
  - pose proof (sh_buf _ (Hs CMD)) as L1. pose proof (sh_buf _ (Hs CON)) as L2. fold (bufs s CMD) in L1. fold (bufs s CON) in L2.
    rewrite hi_cons, lo_cons in *. repeat wp_step. change (truthy (b .& 0x80)) with (high b).
    change (m_buf (lbcmd s)) with (bufs s CMD). change (m_buf (lbcon s)) with (bufs s CON).
    destruct (high b); cbn [length] in *.
    + wp_step. apply wp_put; [lia |]. rewrite Nat2Z.id. wp_step. apply wp_upd. set (l := <[_ := _]> _). set (s1 := set_lb CMD _ s).
      assert (Hl : linked s s1) by (apply linked_buf; [done | unfold l; by rewrite length_insert]).
      replace (Z.of_nat ncmd + 1) with (Z.of_nat (S ncmd)) by lia.
      eapply wp_mono; [apply (IH (S ncmd) ncon s1); [apply Hl | lia | lia] | | done]. cbv beta.
      intros r s2 (Hl2 & Ho & -> & T1 & T2). split; [by apply (linked_trans s s1) |]. split; [by rewrite Ho |].
      split; [f_equal; lia |]. split; [| exact T2]. rewrite <- Nat.add_succ_comm, T1.
      change (bufs s1 CMD) with l. unfold l. rewrite take_insert_end, <- app_assoc by lia. done.
    + wp_step. apply wp_put; [lia |]. rewrite Nat2Z.id. wp_step. apply wp_upd. set (l := <[_ := _]> _). set (s1 := set_lb CON _ s).
      assert (Hl : linked s s1) by (apply linked_buf; [done | unfold l; by rewrite length_insert]).
      replace (Z.of_nat ncon + 1) with (Z.of_nat (S ncon)) by lia.
      eapply wp_mono; [apply (IH ncmd (S ncon) s1); [apply Hl | lia | lia] | | done]. cbv beta.
      intros r s2 (Hl2 & Ho & -> & T1 & T2). split; [by apply (linked_trans s s1) |]. split; [by rewrite Ho |].
      split; [f_equal; lia |]. split; [exact T1 |]. rewrite <- Nat.add_succ_comm, T2.
      change (bufs s1 CON) with l. unfold l. rewrite take_insert_end, <- app_assoc by lia. done.
Qed.

(** Both clients are there. *)
Definition joined s : Prop := links s CMD = (c, true) /\ links s CON = (d, true).

Lemma joined_linked s s' : joined s -> linked s s' -> joined s'.
Proof. intros [J1 J2] [_ L]. split; by rewrite L. Qed.
Lemma joined_fd s : joined s -> m_fd (lb CMD s) = c /\ m_fd (lb CON s) = d.
Proof. intros [J1 J2]. unfold links in *. split; congruence. Qed.

Context (Hc : 0 <= c) (Hd : 0 <= d) (Hcd : c <> d) (Htc : tty <> c) (Htd : tty <> d) (Hsc : c <> skt) (Hsd : d <> console).

(** What the two clients get of the line. *)
Definition share (bt : list Z) : Z -> list Z := fun x => only c (hi bt) x ++ only d (lo bt) x.

Lemma share_app xs ys x : share (xs ++ ys) x = share xs x ++ share ys x.
Proof.
  unfold share, only. rewrite hi_app, lo_app. repeat case_decide; try congruence; by rewrite ?app_nil_r.
Qed.

Lemma hi_lo_length bs : (length (hi bs) + length (lo bs) = length bs)%nat.
Proof. induction bs as [| b bs IH]; [done |]. rewrite hi_cons, lo_cons. destruct (high b); cbn [length]; lia. Qed.

Lemma delta_none_l w w1 w2 g t t' : delta w w1 g t -> delta w1 w2 none t' -> delta w w2 g (fun x => t x ++ t' x).
Proof. intros H1 H2. eapply delta_eq; [exact (delta_trans _ _ _ _ _ _ _ H1 H2) | | done]. intros x. apply app_nil_r. Qed.

Lemma tty_chunk_delta fuel raw s : ok s -> joined s -> (length raw <= 256)%nat -> fuel_ok fuel (n_os s) ->
  wp (tty_chunk fuel raw) (fun _ s' => linked s s' /\ delta (n_os s) (n_os s') none (share raw)) NO s.
Proof.
  intros Hs Hj Hraw Hf. pose proof (hi_lo_length raw) as Hlen. unfold tty_chunk. wp_step.
  eapply wp_mono; [apply (split_raw_ok raw 0 0 s); [done | lia | lia] | | done]. cbv beta.
  intros r s1 (L1 & O1 & -> & T1 & T2). cbn [Nat.add] in *. rewrite !take_0 in T1, T2. cbn [app] in T1, T2.
  destruct (joined_fd s1 (joined_linked _ _ Hj L1)) as [F1 _]. wp_step.
  eapply wp_mono; [apply forward_delta; [apply L1 | rewrite F1; by repeat constructor | by rewrite F1 | lia | by rewrite O1] | | done]. cbv beta.
  intros [] s2 (L2 & B2 & D2). rewrite F1, Nat2Z.id, T1, O1 in D2.
  assert (L12 : linked s s2) by by apply (linked_trans s s1).
  destruct (joined_fd s2 (joined_linked _ _ Hj L12)) as [_ F2]. wp_step.
  eapply wp_mono; [apply forward_delta; [apply L2 | rewrite F2; by repeat constructor | by rewrite F2 | lia | exact (fuel_delta _ _ _ _ _ Hf D2)] | | done]. cbv beta.
  intros [] s3 (L3 & _ & D3). rewrite F2, Nat2Z.id, (B2 CON), T2 in D3 by done.
  assert (L123 : linked s s3) by by apply (linked_trans s s2).
  pose proof (delta_none_l _ _ _ _ _ _ D2 D3) as D23. repeat wp_step.
  assert (Hcalm : forall p n prefix s', linked s s' -> n_os s' = n_os s3 -> 0 <= n <= 256 ->
    wp (if 0 <? n then print_in p n prefix else ret tt) (fun _ s'' => linked s s'' /\ n_os s'' = n_os s3) NO s').
  { intros p n prefix s' L' O' Hn. destruct (Z.ltb_spec 0 n); [| by wp_step].
    eapply wp_mono; [apply print_in_calm; [apply L' | lia] | | done]. cbv beta. intros [] s'' Hq.
    split; [apply (linked_trans s s'); [done | by apply calm_linked] |]. destruct Hq as (_ & -> & _ & _). done. }
  eapply wp_mono; [apply Hcalm; [done | done | lia] | | done]. cbv beta. intros [] s4 [L4 O4].
  eapply wp_mono; [apply Hcalm; [done | done | lia] | | done]. cbv beta. intros [] s5 [L5 O5].
  split; [done |]. rewrite O5. exact D23.
Qed.

Lemma only_cat fd x y z : only fd x z ++ only fd y z = only fd (x ++ y) z.
Proof. by rewrite only_app. Qed.

(** A read of one of the three. *)
Lemma read_delta fd s r bs w : fd ∈ [tty; c; d] -> fs_read fd 256 (n_os s) = (r, bs, w) ->
  delta (n_os s) w (only fd bs) none /\ 0 <= r <= 256 /\ length bs = Z.to_nat r /\ Forall (fun b => 0 <= b < 256) bs /\
  (fd = d -> Forall (fun b => 0 < b < 128) bs) /\ (0 < r -> (work w < work (n_os s))%nat) /\ (fd = tty -> ready (n_os s) = true -> 0 < r).
Proof.
  intros Hfd Hr. pose proof (read_law fd (n_os s) Hfd) as H. rewrite Hr in H.
  destruct H as (H1 & H2 & H3 & H4 & H5 & H6 & H7 & H8 & H9). split; [| done].
  split; [exact H5 |]. split; [intros x; rewrite H6; by rewrite app_nil_r | done].
Qed.

Lemma tty_turn_delta fuel s : ok s -> joined s -> fuel_ok fuel (n_os s) -> ready (n_os s) = true ->
  wp (tty_turn tty fuel) (fun _ s' => linked s s' /\ exists bt, delta (n_os s) (n_os s') (only tty bt) (share bt)) NO s.
Proof.
  intros Hs Hj Hf Hrdy. unfold tty_turn. wp_step. apply wp_sys. intros [r bs] w Hr.
  destruct (read_delta tty s r bs w ltac:(by repeat constructor) Hr) as (D0 & R1 & R2 & _ & _ & R3 & R4).
  specialize (R4 eq_refl Hrdy). cbn [fst snd]. rewrite (proj2 (Z.eqb_neq r 0)), (proj2 (Z.ltb_ge r 0)) by lia.
  apply (wp_loop _ (fun raw s' => linked s s' /\ (length raw <= 256)%nat /\
      exists bt, delta (n_os s) (n_os s') (only tty (bt ++ raw)) (share bt)) (fun _ s' => work (n_os s'))).
  - intros raw s1 (L1 & Hraw & bt & D1). wp_step.
    eapply wp_mono; [apply tty_chunk_delta; [apply L1 | exact (joined_linked _ _ Hj L1) | done | exact (fuel_delta _ _ _ _ _ Hf D1)] | | done]. cbv beta.
    intros [] s2 [L2 D2]. wp_step. apply wp_sys. intros [r' bs'] w' Hr'.
    destruct (read_delta tty s2 r' bs' w' ltac:(by repeat constructor) Hr') as (D3 & R1' & R2' & _ & _ & R3' & _). wp_step. cbn [fst snd].
    assert (L' : linked s (s2 <| n_os := w' |>)).
    { apply (linked_trans s s1); [done |]. apply (linked_trans s1 s2); [done |]. split; [apply ok_os, L2 |]. intros p. unfold links. by rewrite lb_os. }
    pose proof (delta_trans _ _ _ _ _ _ _ (delta_none_l _ _ _ _ _ _ D1 D2) D3) as D. change (n_os (s2 <| n_os := w' |>)) with w'.
    assert (D' : delta (n_os s) w' (only tty ((bt ++ raw) ++ bs')) (share (bt ++ raw))).
    { eapply delta_eq; [exact D | intros x; apply only_cat | intros x; cbv beta; unfold none; by rewrite app_nil_r, share_app]. }
    destruct (Z.ltb_spec 0 r').
    + split; [| destruct D2 as (_ & _ & K2); specialize (R3' ltac:(lia)); lia]. split; [done |]. split; [lia |]. by exists (bt ++ raw).
    + split; [done |]. exists (bt ++ raw). destruct bs'; [| cbn in R2'; lia]. by rewrite app_nil_r in D'.
  - split; [split; [by apply ok_os | intros p; unfold links; by rewrite lb_os] |]. split; [lia |]. exists [].
    eapply delta_eq; [exact D0 | done |]. intros x. unfold share, only, none, hi, lo. by repeat case_decide.
  - destruct D0 as (_ & _ & K). unfold fuel_ok in Hf. cbn. lia.
Qed.

(** ** The clients *)

(** Steps that keep the connection of the other port. *)
Definition apart p s s' : Prop := ok s' /\ forall q, q <> p -> links s' q = links s q.
Lemma linked_apart p s s' : linked s s' -> apart p s s'.
Proof. intros [O L]. split; [done |]. intros q _. apply L. Qed.
Lemma apart_trans p s1 s2 s3 : apart p s1 s2 -> apart p s2 s3 -> apart p s1 s3.
Proof. intros (O1 & L1) (O2 & L2). split; [done |]. intros q Hq. by rewrite L2, L1. Qed.

Lemma close_delta p s : ok s -> wp (close p) (fun _ s' => apart p s s' /\ delta (n_os s) (n_os s') none none) NO s.
Proof.
  intros Hs. assert (Ha : forall b s', ok s' -> shape b -> apart p s' (set_lb p b s')).
  { intros b s' Hs' Hb. split; [by apply set_lb_ok |]. intros q Hq. unfold links. by rewrite lb_set_ne. }
  unfold close. repeat wp_step. case_match.
  - apply wp_upd. split; [apply Ha; [done | by destruct (Hs p); split] |]. rewrite os_set. apply delta_refl.
  - case_match.
    + apply wp_upd. split; [apply Ha; [done | by destruct (Hs p); split] |]. rewrite os_set. apply delta_refl.
    + wp_step. apply wp_sys. intros [] w Hw. apply wp_upd. rewrite os_set. pose proof (close_law (m_fd (lb p s)) (n_os s)) as H3. rewrite Hw in H3.
      destruct H3 as (G & T & K). split.
      * apply (apart_trans p s (s <| n_os := w |>)).
        { split; [by apply ok_os |]. intros q _. unfold links. by rewrite lb_os. }
        apply Ha; [by apply ok_os |]. apply shape_fd. rewrite lb_os. apply Hs.
      * split; [intros x; cbn [snd] in G; cbn; rewrite G; by rewrite app_nil_r |].
        split; [intros x; cbn [snd] in T; cbn; rewrite T; by rewrite app_nil_r | done].
Qed.

Lemma marked_nonzero mask bs : 0 < mask \/ Forall (fun b => 0 < b < 128) bs -> 0 <= mask -> Forall (fun b => 0 <= b < 256) bs ->
  Forall (fun b => b <> 0) (marked mask bs).
Proof.
  intros Hm H0 Hb. unfold marked. apply Forall_fmap, Forall_forall. intros b Hin.
  rewrite Forall_forall in Hb. specialize (Hb b Hin). cbn. intros [E1 E2]%Z.lor_eq_0_iff.
  destruct Hm as [Hm | Hm]; [lia |]. rewrite Forall_forall in Hm. specialize (Hm b Hin). cbn in Hm. lia.
Qed.

Lemma client_delta fuel p fd listener mask prefix s : ok s -> links s p = (fd, true) -> fd ∈ [tty; c; d] -> fd <> listener ->
  0 <= mask -> (0 < mask \/ fd = d) -> fuel_ok fuel (n_os s) ->
  wp (client_turn tty fuel p listener fd mask prefix) (fun _ s' => apart p s s' /\
    exists bs, delta (n_os s) (n_os s') (only fd bs) (only tty (marked mask bs)) /\ (fd = d -> Forall (fun b => 0 < b < 128) bs)) NO s.
Proof.
  intros Hs Hlk Hfd Hne Hm Hmd Hf. unfold client_turn. rewrite (proj2 (Z.eqb_neq fd listener)) by done.
  wp_step. unfold read. repeat wp_step. apply wp_sys. intros [r bs] w Hr. replace (m_fd (lb p s)) with fd in Hr by (unfold links in Hlk; congruence).
  destruct (read_delta fd s r bs w Hfd Hr) as (D0 & R1 & R2 & R3 & R4 & _ & _). wp_step. apply wp_upd. cbn [fst snd]. wp_step.
  set (s1 := set_lb p _ _). pose proof (sh_buf _ (Hs p)) as Hlen.
  assert (L0 : linked s (s <| n_os := w |>)) by (split; [by apply ok_os | intros q; unfold links; by rewrite lb_os]).
  assert (L1 : linked s s1).
  { apply (linked_trans s (s <| n_os := w |>)); [done |]. apply linked_buf; [apply L0 |]. rewrite lb_os, length_app, length_drop. lia. }
  assert (O1 : n_os s1 = w) by (unfold s1; by rewrite os_set).
  assert (B1 : bufs s1 p = bs ++ drop (length bs) (m_buf (lb p s))) by (unfold bufs, s1; rewrite lb_set, lb_os; done).
  destruct (Z.eqb_spec r 0) as [-> | Hr0].
  - destruct bs; [| cbn in R2; lia]. wp_step. eapply wp_mono; [apply flush_out_calm, L1 | | done]. cbv beta. intros [] s2 Q2.
    eapply wp_mono; [apply close_delta, Q2 | | done]. cbv beta. intros [] s3 [A3 D3]. split.
    + apply (apart_trans p s s1); [by apply linked_apart |]. apply (apart_trans p s1 s2); [by apply linked_apart, calm_linked | done].
    + exists []. split; [| done]. destruct Q2 as (_ & E & _ & _). rewrite E, O1 in D3.
      eapply delta_eq; [exact (delta_trans _ _ _ _ _ _ _ D0 D3) | intros x; cbv beta; by rewrite app_nil_r |].
      intros x. unfold none, only, marked. by case_decide.
  - rewrite (proj2 (Z.ltb_lt 0 r)) by lia. wp_step.
    assert (Hf1 : fuel_ok fuel (n_os s1)) by (rewrite O1; exact (fuel_delta _ _ _ _ _ Hf D0)).
    eapply wp_mono; [apply (write_delta fuel p tty r mask s1); [apply L1 | by repeat constructor | lia | done] | | done]. cbv beta.
    intros r' s2 (-> & L2 & _ & T2 & D2). rewrite B1, O1, take_app_length' in * by lia.
    eapply wp_mono; [apply print_out_calm; [apply L2 | lia | lia |] | | done].
    + intros k v Hk Hv. assert (Hnz : Forall (fun b => b <> 0) (marked mask bs)).
      { apply marked_nonzero; [| done | done]. destruct Hmd; [by left | right; auto]. }
      rewrite <- T2, Forall_lookup in Hnz. apply (Hnz k). rewrite lookup_take_lt by (cbn in Hk; lia). exact Hv.
    + cbv beta. intros [] s3 Q3. split.
      * apply linked_apart, (linked_trans s s1); [done |]. apply (linked_trans s1 s2); [done | by apply calm_linked].
      * exists bs. split; [| exact R4]. destruct Q3 as (_ & -> & _ & _).
        eapply delta_eq; [exact (delta_trans _ _ _ _ _ _ _ D0 D2) | intros x; cbv beta; by rewrite app_nil_r | done].
Qed.

(** ** The bridge *)

(** The clients got their shares of the line, and the line all of theirs: a command
    with its mark, the console without. *)
Definition bridged (w w' : W) : Prop := exists bt bc bd bo,
  got w' tty = got w tty ++ bt /\ got w' c = got w c ++ bc /\ got w' d = got w d ++ bd /\
  sent w' c = sent w c ++ hi bt /\ sent w' d = sent w d ++ lo bt /\
  sent w' tty = sent w tty ++ bo /\ hi bo = (fun b => b .& 0x07f) <$> bc /\ lo bo = bd.

Lemma bridged_refl w : bridged w w.
Proof. exists [], [], [], []. by rewrite !app_nil_r. Qed.

Lemma bridged_trans w1 w2 w3 : bridged w1 w2 -> bridged w2 w3 -> bridged w1 w3.
Proof.
  intros (bt & bc & bd & bo & A1 & A2 & A3 & A4 & A5 & A6 & A7 & A8) (bt' & bc' & bd' & bo' & B1 & B2 & B3 & B4 & B5 & B6 & B7 & B8).
  exists (bt ++ bt'), (bc ++ bc'), (bd ++ bd'), (bo ++ bo').
  rewrite B1, A1, B2, A2, B3, A3, B4, A4, B5, A5, B6, A6, !hi_app, !lo_app, fmap_app, A7, A8, B7, B8.
  by rewrite <- !app_assoc.
Qed.

Lemma high_marked b : high (b .| 0x80) = true.
Proof.
  unfold high, truthy. rewrite Z.land_comm, Z.land_lor_distr_r, Z.land_diag.
  destruct (Z.eqb_spec ((0x80 .& b) .| 0x80) 0) as [E |]; [| done]. by apply Z.lor_eq_0_iff in E as [_ E].
Qed.

Lemma hi_marked bs : hi (marked 0x80 bs) = (fun b => b .& 0x07f) <$> bs /\ lo (marked 0x80 bs) = [].
Proof.
  induction bs as [| b bs [IH1 IH2]]; [done |]. unfold marked. cbn [fmap list_fmap]. rewrite hi_cons, lo_cons, high_marked.
  fold (marked 0x80 bs). cbn [fmap list_fmap]. split; [| exact IH2]. f_equal; [| exact IH1].
  rewrite Z.land_lor_distr_l. change (0x80 .& 0x7f) with 0. by rewrite Z.lor_0_r.
Qed.

Lemma low_console bs : Forall (fun b => 0 < b < 128) bs -> hi bs = [] /\ lo bs = bs.
Proof.
  induction 1 as [| b bs Hb Hbs [IH1 IH2]]; [done |]. rewrite hi_cons, lo_cons.
  assert (E : high b = false).
  { unfold high, truthy. change 0x80 with (2 ^ 7). rewrite <- (Z.mod_small b (2 ^ 7)), <- Z.land_ones, <- Z.land_assoc by lia.
    change (Z.ones 7 .& 2 ^ 7) with 0. by rewrite Z.land_0_r. }
  rewrite E, IH2. done.
Qed.

Lemma delta_none_app w w1 w2 g t : delta w w1 g t -> delta w1 w2 none none -> delta w w2 g t.
Proof.
  intros H1 H2. eapply delta_eq; [exact (delta_trans _ _ _ _ _ _ _ H1 H2) | |]; intros x; apply app_nil_r.
Qed.

Lemma turn_wp fuel s : ok s -> joined s -> fuel_ok fuel (n_os s) ->
  wp (turn tty skt console fuel) (fun _ s' => ok s' /\ fuel_ok fuel (n_os s') /\ bridged (n_os s) (n_os s')) NO s.
Proof.
  intros Hs Hj Hf. unfold turn, polled. repeat wp_step. destruct Hj as [J1 J2].
  assert (Hpoll : forall p fd, links s p = (fd, true) -> (if m_connected (lb p s) then m_fd (lb p s) else 0) = fd /\ m_connected (lb p s) = true)
    by (intros p fd E; unfold links in E; injection E as -> ->; done).
  destruct (Hpoll CMD c J1) as [E1 C1]. destruct (Hpoll CON d J2) as [E2 C2]. rewrite C1 in *. rewrite C2 in *. rewrite E1, E2.
  apply wp_sys. intros [pv rev] w Hw. pose proof (poll_law [c; d] (n_os s)) as Hp. rewrite Hw in Hp.
  destruct Hp as (P0 & P1 & P2 & P3 & P4). rewrite (proj2 (Z.ltb_ge pv 0)) by lia.
  set (s0 := s <| n_os := w |>).
  assert (D0 : delta (n_os s) (n_os s0) none none).
  { split; [intros x; cbn; by rewrite P1, app_nil_r |]. split; [intros x; cbn; by rewrite P2, app_nil_r | done]. }
  assert (L0 : linked s s0) by (split; [by apply ok_os | intros p; unfold links, s0; by rewrite lb_os]).
  wp_step. eapply (wp_mono _ (fun _ s1 => linked s s1 /\ exists bt, delta (n_os s) (n_os s1) (only tty bt) (share bt)) _ NO); [| | done].
  { assert (Hnil : delta (n_os s) (n_os s0) (only tty []) (share [])).
    { eapply delta_eq; [exact D0 | |]; intros x; unfold none, share, only, hi, lo; by repeat case_decide. }
    destruct P4 as [-> | [-> Hrdy]].
    - change (truthy (0 .& POLLIN)) with false. change (truthy 0) with false. cbv iota. wp_step. split; [done |]. by exists [].
    - change (truthy (POLLIN .& POLLIN)) with true. cbv iota.
      eapply wp_mono; [apply tty_turn_delta; [apply L0 | split; rewrite <- ?J1, <- ?J2; apply L0 | exact (fuel_delta _ _ _ _ _ Hf D0) | done] | | done].
      cbv beta. intros [] s1 [L1 [bt D1]]. split; [by apply (linked_trans s s0) |]. exists bt.
      eapply delta_eq; [exact (delta_trans _ _ _ _ _ _ _ D0 D1) | |]; done. }
  cbv beta. intros [] s1 [L1 [bt D1]]. wp_step.
  eapply (wp_mono _ (fun _ s2 => apart CMD s s2 /\ exists bc, delta (n_os s1) (n_os s2) (only c bc) (only tty (marked 0x80 bc))) _ NO); [| | done].
  { case_match.
    - eapply wp_mono; [apply client_delta; [apply L1 | rewrite <- J1; apply L1 | by repeat constructor | done | lia | left; lia | exact (fuel_delta _ _ _ _ _ Hf D1)] | | done].
      cbv beta. intros [] s2 [A2 [bc [D2 _]]]. split; [apply (apart_trans CMD s s1); [by apply linked_apart | done] | by exists bc].
    - wp_step. split; [by apply linked_apart |]. exists []. eapply delta_eq; [apply delta_refl | |]; intros x; unfold none, only, marked; by case_decide. }
  cbv beta. intros [] s2 [A2 [bc D2]]. pose proof (delta_trans _ _ _ _ _ _ _ D1 D2) as D12.
  eapply (wp_mono _ (fun _ s3 => ok s3 /\ exists bd, delta (n_os s2) (n_os s3) (only d bd) (only tty bd) /\ Forall (fun b => 0 < b < 128) bd) _ NO); [| | done].
  { case_match.
    - eapply wp_mono; [apply client_delta; [apply A2 | rewrite <- J2; by apply A2 | by repeat constructor | done | lia | by right | exact (fuel_delta _ _ _ _ _ Hf D12)] | | done].
      cbv beta. intros [] s3 [[A3 _] [bd [D3 R3]]]. split; [done |]. exists bd. rewrite marked_0 in D3. auto.
    - wp_step. split; [apply A2 |]. exists []. split; [| done].
      eapply delta_eq; [apply delta_refl | |]; intros x; unfold none, only; by case_decide. }
  cbv beta. intros [] s3 [O3 [bd [D3 R3]]]. pose proof (delta_trans _ _ _ _ _ _ _ D12 D3) as D. split; [done |].
  split; [exact (fuel_delta _ _ _ _ _ Hf D) |]. destruct D as (G & T & _).
  exists bt, bc, bd, (marked 0x80 bc ++ bd). destruct (hi_marked bc) as [M1 M2]. destruct (low_console bd R3) as [N1 N2].
  rewrite hi_app, lo_app, M1, M2, N1, N2, app_nil_r. cbn [app].
  rewrite !G, !T. unfold share, only. repeat case_decide; try congruence. by rewrite ?app_nil_r.
Qed.

(** Turns of the loop, each with both clients connected at its start. *)
Inductive run (fuel : nat) : BRIDGE W -> BRIDGE W -> Prop :=
  | run_nil s : run fuel s s
  | run_step s s1 s2 : joined s -> turn tty skt console fuel s = Ret tt s1 -> run fuel s1 s2 -> run fuel s s2.

Lemma run_bridged fuel s s' : run fuel s s' -> ok s -> fuel_ok fuel (n_os s) ->
  ok s' /\ fuel_ok fuel (n_os s') /\ bridged (n_os s) (n_os s').
Proof.
  induction 1 as [s | s s1 s2 Hj Ht Hr IH]; intros Hs Hf; [split; [done | split; [done | apply bridged_refl]] |].
  pose proof (turn_wp fuel s Hs Hj Hf) as Hw. unfold wp in Hw. rewrite Ht in Hw. destruct Hw as (O1 & F1 & B1).
  destruct (IH O1 F1) as (O2 & F2 & B2). split; [done |]. split; [done |]. exact (bridged_trans _ _ _ B1 B2).
Qed.

End Props.

(** A write to a client that fails ends the bridge: the code that would close the
    connection instead, after a write that came back short, is never reached. *)
Theorem netuart_reset_exits {W} `{Files W} fuel p n s w :
  0 <= m_fd (lb p s) -> 0 < n -> fs_write (m_fd (lb p s)) (take (Z.to_nat n) (m_buf (lb p s))) (n_os s) = (WError, w) ->
  forward (S fuel) p n s = Exn (EXIT 1) (s <| n_os := w |>).
Proof.
  intros Hfd Hn Hw. unfold forward, write. rewrite (bind_eq get _ s s s) by done.
  rewrite (proj2 (Z.leb_le 0 _)), (proj2 (Z.ltb_lt 0 n)) by done. cbn [andb]. apply bind_exn.
  rewrite (bind_eq _ _ s tt s) by done. cbn [loop]. apply bind_exn. unfold write_step.
  rewrite (bind_eq get _ s s s) by done. rewrite Z.sub_0_r, drop_0. unfold bind, sys. by rewrite Hw.
Qed.

(** ** A system that works *)

(** What waits on each descriptor, what was moved, and how often a write is refused;
    a write takes three characters at most. *)
Record WORLD : Type := mkWORLD { w_wait : Z -> list Z; w_got : Z -> list Z; w_sent : Z -> list Z; w_again : nat }.

Definition TTY : Z := 3.
Definition CMDFD : Z := 6.
Definition CONFD : Z := 7.

Definition w_byte (fd b : Z) : Z := if fd =? CONFD then b mod 127 + 1 else b mod 256.
Definition w_input (w : WORLD) (fd : Z) : Z := if decide (w_wait w fd = []) then 0 else POLLIN.

#[export] Instance world_files : Files WORLD := {
  fs_poll fds w := ((3, w_input w <$> fds), w);
  fs_read fd n w :=
    let bs := w_byte fd <$> take (Z.to_nat n) (w_wait w fd) in
    ((Z.of_nat (length bs), bs),
     mkWORLD (fun x => if decide (x = fd) then drop (Z.to_nat n) (w_wait w x) else w_wait w x)
       (fun x => w_got w x ++ if decide (x = fd) then bs else []) (w_sent w) (w_again w));
  fs_write fd bs w :=
    match w_again w with
    | S k => (WAgain, mkWORLD (w_wait w) (w_got w) (w_sent w) k)
    | O => (Wrote (Z.of_nat (min 3 (length bs))),
        mkWORLD (w_wait w) (w_got w) (fun x => w_sent w x ++ if decide (x = fd) then take (min 3 (length bs)) bs else []) O)
    end;
  fs_accept skt w := (CMDFD, w);
  fs_close fd w := (tt, w)
}.

Definition w_work (w : WORLD) : nat :=
  length (w_wait w TTY) + length (w_wait w CMDFD) + length (w_wait w CONFD) + w_again w.

Definition w_ready (w : WORLD) : bool := negb (bool_decide (w_wait w TTY = [])).

Lemma w_byte_range fd b : 0 <= w_byte fd b < 256 /\ (fd = CONFD -> 0 < w_byte fd b < 128).
Proof. unfold w_byte. destruct (Z.eqb_spec fd CONFD); split; (done || zlia). Qed.

Lemma world_read_law fd w : fd ∈ [TTY; CMDFD; CONFD] -> let '(r, bs, w') := fs_read fd 256 w in
  0 <= r <= 256 /\ length bs = Z.to_nat r /\ Forall (fun b => 0 <= b < 256) bs /\ (fd = CONFD -> Forall (fun b => 0 < b < 128) bs) /\
  (forall x, w_got w' x = w_got w x ++ if decide (x = fd) then bs else []) /\ w_sent w' = w_sent w /\
  (w_work w' <= w_work w)%nat /\ (0 < r -> (w_work w' < w_work w)%nat) /\ (fd = TTY -> w_ready w = true -> 0 < r).
Proof.
  intros Hfd. cbn. rewrite length_fmap, length_take. change (Pos.to_nat 256) with 256%nat.
  split; [lia |]. split; [lia |]. split; [apply Forall_fmap, Forall_true; intros b; apply (w_byte_range fd b) |].
  split; [intros E; apply Forall_fmap, Forall_true; intros b; by apply (w_byte_range fd b) |]. split; [done |]. split; [done |].
  unfold w_work. cbn. rewrite !elem_of_cons in Hfd. change (Pos.to_nat 256) with 256%nat.
  assert (Hlen : forall x, length (if decide (x = fd) then drop 256 (w_wait w x) else w_wait w x) =
    (length (w_wait w x) - if decide (x = fd) then 256 else 0)%nat) by (intros x; case_decide; [apply length_drop | lia]).
  rewrite !Hlen. destruct Hfd as [-> | [-> | [-> | Hin]]]; [| | | by apply elem_of_nil in Hin];
    (split; [lia |]); (split; [repeat first [rewrite decide_True by done | rewrite decide_False by done]; lia |]); [| done ..].
  intros _ Hr. unfold w_ready in Hr. destruct (w_wait w TTY); [done | cbn; lia].
Qed.

Lemma world_write_law fd bs w : bs <> [] ->
  match fs_write fd bs w with
  | (Wrote n, w') => 0 < n <= Z.of_nat (length bs) /\ w_got w' = w_got w /\ (w_work w' <= w_work w)%nat /\
      forall x, w_sent w' x = w_sent w x ++ if decide (x = fd) then take (Z.to_nat n) bs else []
  | (WAgain, w') => w_got w' = w_got w /\ w_sent w' = w_sent w /\ (w_work w' < w_work w)%nat
  | (WError, _) => False
  end.
Proof.
  intros Hbs. cbn [fs_write world_files]. destruct (w_again w) as [| k] eqn:E; unfold w_work; cbn [w_got w_sent w_wait w_again].
  - split; [destruct bs; [done | cbn [length]; lia] |]. split; [done |]. split; [lia |]. intros x. by rewrite Nat2Z.id.
  - rewrite E. split; [done |]. split; [done | lia].
Qed.

Lemma world_poll_law fds w : let '(pv, rev, w') := fs_poll (TTY :: fds) w in
  0 <= pv /\ w_got w' = w_got w /\ w_sent w' = w_sent w /\ (w_work w' <= w_work w)%nat /\
  (default 0 (rev !! 0%nat) = 0 \/ (default 0 (rev !! 0%nat) = POLLIN /\ w_ready w' = true)).
Proof.
  cbn. split; [lia |]. split; [done |]. split; [done |]. split; [done |].
  unfold w_input, w_ready. case_decide; [by left |]. right. split; [done |]. by rewrite bool_decide_false.
Qed.

#[export] Instance world_wired : Wired WORLD TTY CMDFD CONFD := {
  got := w_got; sent := w_sent; work := w_work; ready := w_ready;
  poll_law := world_poll_law; read_law := world_read_law; write_law fd bs w _ := world_write_law fd bs w;
  close_law fd w := conj eq_refl (conj eq_refl (le_n _))
}.

(** Both clients are connected; the line and they have something to say. *)
Definition bridge_lb (fd : Z) : LINBUFS := mkLB (replicate 512 0) (replicate 512 0) (replicate 256 0) 0 0 fd true.
Definition bridge : BRIDGE WORLD :=
  mkBR (bridge_lb CMDFD) (bridge_lb CONFD) []
    (mkWORLD (fun x => if x =? TTY then [0xd2; 72; 105; 0x8a; 10] else if x =? CMDFD then [65; 48] else if x =? CONFD then [107; 9] else [])
       (fun _ => []) (fun _ => []) 4).


Example bridge_runs : match turn TTY 4 5 300 bridge with
  | Ret _ s => (w_sent (n_os s) CMDFD, w_sent (n_os s) CONFD, w_sent (n_os s) TTY, n_stdout s) =
      ([82; 10], [72; 105; 10], [193; 176; 108; 10], [[62; 32; 82]; [72; 105]; [108]])
  | _ => False
  end.
Proof. vm_compute. reflexivity. Qed.

(** A system whose writes fail. *)
Definition broken_files : Files unit := {|
  fs_poll fds w := ((0, []), w); fs_read fd n w := ((0, []), w); fs_write fd bs w := (WError, w);
  fs_accept fd w := (-1, w); fs_close fd w := (tt, w)
|}.

Lemma netuart_reset_exits_witness :
  let s := mkBR (bridge_lb CMDFD) (bridge_lb CONFD) [] tt in @forward unit broken_files 9 CMD 3 s = Exn (EXIT 1) s.
Proof. intros s. by apply (@netuart_reset_exits unit broken_files 8 CMD 3 s tt). Defined.
