(* ===== verification/TtyBridge.v ===== *)
(** The debug bus driver over the network bridge: what [TTYBUS] sends to the command
    port of netuart reaches the serial line as the same bus writes, whatever the
    console sends in between. *)

From stdpp Require Import base tactics list numbers option.
From Stdlib Require Import ZArith Lia.
From S2P Require Import Prelude NetUart NetUartProps LLComms TtyBus WbuSpec TtyBase TtyRecv TtySend TtyWord TtyRead Board TtyProps.
Local Open Scope Z_scope.

(** Seven bits are what the bridge leaves of a character. *)
Lemma ascii_masked cs : ascii cs -> (fun b => b .& 0x07f) <$> cs = cs.
Proof.
  induction 1 as [| b cs Hb _ IH]; [done |]. rewrite fmap_cons, IH. f_equal.
  change 0x07f with (Z.ones 7). rewrite Z.land_ones by lia. apply Z.mod_small. lia.
Qed.

(** What the FPGA gets of the line: the characters that have the mark are commands. *)
Definition commands_of (f : wbu) (line : list Z) : list bus_event := (rxbytes f (hi line)).2.


(** A write of two words, and the console typing meanwhile. *)
Definition two_words : list Z := [5; 0xfffffff0].
Definition two_words_sent : list Z := [56; 71; 80; 48; 48; 48; 48; 53; 86; 37; 37; 37; 37; 109; 10].
Definition busy_bridge : BRIDGE WORLD :=
  mkBR (bridge_lb CMDFD) (bridge_lb CONFD) []
    (mkWORLD (fun x => if x =? CMDFD then two_words_sent else if x =? CONFD then [107; 9] else [])
       (fun _ => []) (fun _ => []) 4).
Definition after_turn : BRIDGE WORLD :=
  match turn TTY 4 5 300 busy_bridge with Ret _ b => b | Exn _ b => b end.

Example busy_bridge_turns : match turn TTY 4 5 300 busy_bridge with
  | Ret _ b => (w_got (n_os b) CMDFD, w_got (n_os b) CONFD) = (two_words_sent, [108; 10])
  | Exn _ _ => False
  end.
Proof. vm_compute. reflexivity. Qed.

Lemma busy_bridge_turn : turn TTY 4 5 300 busy_bridge = Ret tt after_turn /\ w_got (n_os after_turn) CMDFD = two_words_sent.
Proof.
  pose proof busy_bridge_turns as H. unfold after_turn.
  destruct (turn TTY 4 5 300 busy_bridge) as [[] b | e b]; [| destruct H].
  split; [reflexivity |]. by injection H.
Qed.

Example two_words_sends : match writev 0x40 1 2 two_words (demo []) with
  | Ret _ s => ll_sent (m_dev s) = two_words_sent | Exn _ _ => False end.
Proof. vm_compute. reflexivity. Qed.

