(* ===== verification/Scope.v ===== *)
(** The logic analyzers of the board, as the host reads them out
    (src/sw/host/scopecls.cpp): the capture, perhaps run-length compressed, and the
    VCD file that is made of it.

    A VCD file is the list of its lines; a line with a time has the clock it stands
    for, whose conversion to nanoseconds (with [double]) is left out.  [decode] and
    [define_traces] are methods of the user of the class. *)

From stdpp Require Import base tactics list numbers option strings.
From Stdlib Require Import ZArith Lia.
From S2P Require Import Prelude.
Local Open Scope Z_scope.

Class SCOPEBUS (W : Type) := {
  sb_readio : Z -> M W Z;
  sb_readz : Z -> nat -> M W (list Z)
}.

Record TRACEINFO : Type := mkTRACE { m_name : string; m_key : string; m_nbits : Z; m_nshift : Z }.

Record SCOPE (W : Type) : Type := mkSCOPE {
  m_fpga : W;
  m_addr : Z;
  m_compressed : bool;
  m_vector_read : bool;
  m_scoplen : Z;
  m_holdoff : Z;
  m_data : option (list Z);
  m_traces : list TRACEINFO
}.
Arguments mkSCOPE {W}. Arguments m_fpga {W}. Arguments m_addr {W}. Arguments m_compressed {W}. Arguments m_vector_read {W}.
Arguments m_scoplen {W}. Arguments m_holdoff {W}. Arguments m_data {W}. Arguments m_traces {W}.

#[export] Instance set_m_fpga {W} : Setter (m_fpga (W := W)) := fun v '(mkSCOPE _ b c d e f g h) => mkSCOPE v b c d e f g h.
#[export] Instance set_m_scoplen {W} : Setter (m_scoplen (W := W)) := fun v '(mkSCOPE a b c d _ f g h) => mkSCOPE a b c d v f g h.
#[export] Instance set_m_holdoff {W} : Setter (m_holdoff (W := W)) := fun v '(mkSCOPE a b c d e _ g h) => mkSCOPE a b c d e v g h.
#[export] Instance set_m_data {W} : Setter (m_data (W := W)) := fun v '(mkSCOPE a b c d e f _ h) => mkSCOPE a b c d e f v h.
#[export] Instance set_m_traces {W} : Setter (m_traces (W := W)) := fun v '(mkSCOPE a b c d e f g _) => mkSCOPE a b c d e f g v.

(** The constructor; [m_holdoff] is left as it is. *)
Definition SCOPE_new {W} (fpga : W) (addr : Z) (compressed vecread : bool) (holdoff : Z) : SCOPE W :=
  mkSCOPE fpga addr compressed vecread 0 holdoff None [].

(** ** Text *)

Definition newline : string := String (Ascii.ascii_of_nat 10) "".

Inductive LINE : Type :=
  | LTime (clk : Z)         (** [#<time>], at a clock *)
  | LHalf (clk : Z)         (** [#<time>], half a clock later *)
  | LText (t : string).

Definition bit_char (b : Z) : string := if b =? 0 then "0" else "1".

(** The [k] lowest bits, from the highest. *)
Fixpoint bits_text (k : nat) (val : Z) : string :=
  match k with O => "" | S k' => bit_char ((val .>> Z.of_nat k') .& 1) +:+ bits_text k' val end.

Definition write_binary_trace (nbits val : Z) (str : string) : string :=
  if nbits <=? 1 then bit_char (val .& 1) +:+ str +:+ newline
  else
    let val := if nbits <? 32 then val .& ~. (-1 .<< nbits) else val in
    "b" +:+ bits_text (Z.to_nat nbits) val +:+ " " +:+ str +:+ newline.

Definition write_trace (info : TRACEINFO) (value : Z) : string :=
  write_binary_trace (m_nbits info) (value .>> m_nshift info) (m_key info).

(** The key of a new trace, of which there were [nkey] before. *)
Definition trace_key (nkey : Z) : string :=
  "v" +:+ String (Ascii.ascii_of_nat (Z.to_nat (
    if nkey <? 26 then 97 + nkey else if nkey <? 26 + 26 then 65 + nkey - 26 else 48 + nkey - 26 - 26))) "".

Definition T_LINE (b : string) : LINE := LText (b +:+ "'T" +:+ newline).
Definition C_LINE (b : string) : LINE := LText (b +:+ "'C" +:+ newline).
Definition R_KEY : string := "'R" +:+ newline.

(** What is printed of a capture. *)
Inductive PLINE : Type :=
  | PSkip (n : Z)                                (** [** (+n)] *)
  | PStars                                       (** [**** ****] *)
  | PWord (addr word : Z) (trigger : bool).

Definition is_run (w : Z) : bool := truthy ((w .>> 31) .& 1).
Definition run_length (w : Z) : Z := w .& 0x7fffffff.

(** ** The loops over a capture *)

(** [getaddresslen] of a compressed one, from word [i]. *)
Fixpoint count_clocks (i : nat) (data : list Z) (alen : Z) : Z :=
  match data with
  | [] => alen
  | w :: data' => count_clocks (S i) data' (if truthy (w .& 0x80000000) && negb (Nat.eqb i 0) then u32 (alen + run_length w) else alen)
  end.

Fixpoint print_runs (data : list Z) (offset addrv : Z) : list PLINE :=
  match data with
  | [] => []
  | w :: data' =>
      if is_run w then PSkip (run_length w) :: print_runs data' offset (addrv + (run_length w + 1))
      else PWord addrv w (s32 (addrv + 1) =? offset) :: print_runs data' offset (addrv + 1)
  end.

(** [before] is the words before [i], from the last. *)
Fixpoint print_words (i n : Z) (before data : list Z) (offset : Z) : list PLINE :=
  match data with
  | [] => []
  | w :: data' =>
      let rest := print_words (i + 1) n (w :: before) data' offset in
      if (0 <? i) && (w =? default 0 (before !! 0%nat)) && (i <? n - 1) then
        (if (2 <? i) && negb (w =? default 0 (before !! 1%nat)) then [PStars] else []) ++ rest
      else PWord i w (i =? offset) :: rest
  end.

(** The lines of a word. *)
Definition word_lines (nbits : Z) (traces : list TRACEINFO) (w : Z) : list LINE :=
  LText (write_binary_trace nbits w R_KEY) :: map (fun t => LText (write_trace t w)) traces.

Fixpoint vcd_runs (traces : list TRACEINFO) (alen offset : Z) (i : nat) (data : list Z) (addrv : Z) (last_trigger : bool) : list LINE :=
  match data with
  | [] => []
  | w :: data' =>
      if is_run w then
        if negb (Nat.eqb i 0) then
          (if last_trigger then [LTime (addrv + 1); T_LINE "0"] else []) ++
          vcd_runs traces alen offset (S i) data' (addrv + (run_length w + 1)) last_trigger
        else vcd_runs traces alen offset (S i) data' addrv last_trigger
      else
        let trigger := s32 (addrv - alen) =? offset in
        LTime addrv :: (if trigger then [T_LINE "1"] else if last_trigger then [T_LINE "0"] else []) ++
        word_lines 31 traces w ++
        vcd_runs traces alen offset (S i) data' (addrv + 1) (trigger || last_trigger)
  end.

Fixpoint vcd_words (traces : list TRACEINFO) (offset i : Z) (data : list Z) : list LINE :=
  match data with
  | [] => []
  | w :: data' =>
      [LTime i; C_LINE "1"; LText (write_binary_trace 32 w R_KEY); T_LINE (if i =? offset then "1" else "0")] ++
      map (fun t => LText (write_trace t w)) traces ++ [LHalf i; C_LINE "0"] ++
      vcd_words traces offset (i + 1) data'
  end.

(** ** SCOPE *)

Section Scope.
Context {W : Type} `{SCOPEBUS W}.
Abbreviation CM := (M (SCOPE W)).

Definition bus {A} (m : M W A) : CM A := fun s =>
  match m (m_fpga s) with Ret a w => Ret a (s <| m_fpga := w |>) | Exn e w => Exn e (s <| m_fpga := w |>) end.

Definition ready : CM bool :=
  let* s := get in
  let* v := bus (sb_readio (m_addr s)) in
  (if m_scoplen s =? 0
   then modify (fun s => s <| m_scoplen := u32 (1 .<< ((v .>> 20) .& 0x01f)) |> <| m_holdoff := v .& ((1 .<< 20) - 1) |>)
   else ret tt) ;;
  ret ((v .>> 28) .& 6 =? 6).

Definition scoplen : CM Z :=
  let* s := get in
  (if m_scoplen s =? 0 then
     let* v := bus (sb_readio (m_addr s)) in
     modify (fun s => s <| m_holdoff := v .& ((1 .<< 20) - 1) |>) ;;
     let lgln := (v .>> 20) .& 0x1f in
     if negb (lgln =? 0) then modify (fun s => s <| m_scoplen := u32 (1 .<< lgln) |>) else ret tt
   else ret tt) ;;
  let* s := get in ret (s32 (m_scoplen s)).

(** [for(i=0; i<m_scoplen; i++) m_data[i] = m_fpga->readio(m_addr+4);] with [n] left. *)
Fixpoint read_each (n : nat) (addr : Z) : CM (list Z) :=
  match n with
  | O => ret []
  | S n' => let* v := bus (sb_readio addr) in let* l := read_each n' addr in ret (v :: l)
  end.

Definition rawread : CM unit :=
  let* s := get in
  match m_data s with
  | Some _ => ret tt
  | None =>
      let* n := scoplen in
      if n <=? 4 then ret tt
      else
        let* s := get in
        let len := Z.to_nat (m_scoplen s) in
        let* d := (if m_vector_read s then bus (sb_readz (m_addr s + 4) len) else read_each len (m_addr s + 4)) in
        modify (fun s => s <| m_data := Some d |>)
  end.

(** The words that a loop to [m_scoplen] reads. *)
Definition words : CM (list Z) := fun s =>
  if s32 (m_scoplen s) <=? 0 then Ret [] s
  else match m_data s with
       | Some d => if decide (Z.to_nat (m_scoplen s) <= length d)%nat then Ret (take (Z.to_nat (m_scoplen s)) d) s else Exn FAULT s
       | None => Exn FAULT s
       end.

Definition getaddresslen : CM Z :=
  let* s := get in
  if m_compressed s then let* d := words in ret (count_clocks 0 d (m_scoplen s)) else ret (m_scoplen s).

Definition trigger_offset (alen holdoff : Z) : Z := s32 (alen - holdoff - 1).

Definition print : CM (list PLINE) :=
  rawread ;;
  let* alen := getaddresslen in
  let* s := get in
  let offset := trigger_offset alen (m_holdoff s) in
  let* d := words in
  ret (if m_compressed s then print_runs d offset 0 else print_words 0 (m_scoplen s) [] d offset).

Definition register_trace (name : string) (nbits shift : Z) : CM unit :=
  modify (fun s => s <| m_traces := m_traces s ++ [mkTRACE name (trace_key (Z.of_nat (length (m_traces s)))) nbits shift] |>).

(** The lines behind the header of the file. *)
Definition writevcd (define_traces : CM unit) : CM (list LINE) :=
  let* s := get in
  (if bool_decide (m_data s = None) then rawread else ret tt) ;;
  let* s := get in
  (if bool_decide (m_traces s = []) then define_traces else ret tt) ;;
  let* alen := getaddresslen in
  let* s := get in
  let offset := trigger_offset alen (m_holdoff s) in
  let* d := words in
  ret (if m_compressed s then vcd_runs (m_traces s) alen offset 0 d 0 true else vcd_words (m_traces s) offset 0 d).
End Scope.
