(* ===== verification/ScopeProps.v ===== *)
(** What a reader of the VCD file finds: at every clock of the capture the fields of
    the word that was captured, for compressed captures too; and the trigger, for
    the uncompressed ones only. *)

From stdpp Require Import base tactics list numbers option strings.
From Stdlib Require Import Ascii ZArith Lia.
From S2P Require Import Prelude Scope.
Local Open Scope Z_scope.

(** ** A reader of VCD files *)

(** Binary digits up to a space. *)
Fixpoint parse_bits (s : string) (v : Z) : option (Z * string) :=
  match s with
  | String ch s' =>
      if decide (ch = "0"%char) then parse_bits s' (2 * v)
      else if decide (ch = "1"%char) then parse_bits s' (2 * v + 1)
      else if decide (ch = " "%char) then Some (v, s') else None
  | EmptyString => None
  end.

(** A change of a value: the value, and the key up to the end of the line. *)
Definition parse_line (s : string) : option (Z * string) :=
  match s with
  | String ch s' =>
      if decide (ch = "b"%char) then parse_bits s' 0
      else if decide (ch = "0"%char) then Some (0, s')
      else if decide (ch = "1"%char) then Some (1, s') else None
  | EmptyString => None
  end.

Definition value_of (key : string) (s : string) : list Z :=
  match parse_line s with Some (v, k) => if decide (k = key) then [v] else [] | None => [] end.

(** The changes of a key, with their clocks. *)
Fixpoint vcd_read (key : string) (t : Z) (ls : list LINE) : list (Z * Z) :=
  match ls with
  | [] => []
  | LTime c :: ls' => vcd_read key c ls'
  | LHalf _ :: ls' => vcd_read key t ls'
  | LText s :: ls' => map (fun v => (t, v)) (value_of key s) ++ vcd_read key t ls'
  end.

(** The value that is held at a clock. *)
Fixpoint held (cur : option Z) (l : list (Z * Z)) (t : Z) : option Z :=
  match l with [] => cur | (a, v) :: l' => held (if a <=? t then Some v else cur) l' t end.

(** ** Lines *)

Lemma app_cons ch s1 s2 : String ch s1 +:+ s2 = String ch (s1 +:+ s2).
Proof. done. Qed.

Lemma app_assoc_str (s1 s2 s3 : string) : (s1 +:+ s2) +:+ s3 = s1 +:+ (s2 +:+ s3).
Proof. induction s1 as [| ch s1 IH]; [done |]. rewrite !app_cons. by rewrite IH. Qed.

Lemma parse_bits_text k val : forall v r, 0 <= v ->
  parse_bits (bits_text k val +:+ " " +:+ r) v = Some (v * 2 ^ Z.of_nat k + val mod 2 ^ Z.of_nat k, r).
Proof.
  induction k as [| k IH]; intros v r Hv; cbn [bits_text].
  - change (2 ^ Z.of_nat 0) with 1. rewrite Z.mod_1_r, Z.mul_1_r, Z.add_0_r. done.
  - rewrite Nat2Z.inj_succ. rewrite Z.pow_succ_r by lia.
    assert (Hm : val mod (2 * 2 ^ Z.of_nat k) = (val .>> Z.of_nat k) .& 1 * 2 ^ Z.of_nat k + val mod 2 ^ Z.of_nat k).
    { rewrite land_1, shiftr_div by lia. rewrite (Z.mul_comm 2), Z.rem_mul_r by lia. lia. }
    rewrite Hm. set (b := (val .>> Z.of_nat k) .& 1). assert (Hb : b = 0 \/ b = 1) by (unfold b; rewrite land_1; zlia).
    rewrite app_assoc_str. clearbody b. destruct Hb as [-> | ->]; cbn [bit_char Z.eqb].
    + change (parse_bits (("0" : string) +:+ (bits_text k val +:+ " " +:+ r)) v) with (parse_bits (bits_text k val +:+ " " +:+ r) (2 * v)).
      rewrite IH by lia. do 2 f_equal. lia.
    + change (parse_bits (("1" : string) +:+ (bits_text k val +:+ " " +:+ r)) v) with (parse_bits (bits_text k val +:+ " " +:+ r) (2 * v + 1)).
      rewrite IH by lia. do 2 f_equal. lia.
Qed.

Lemma parse_bit b r : 0 <= b < 2 -> parse_line (bit_char b +:+ r) = Some (b, r).
Proof. intros Hb. assert (b = 0 \/ b = 1) as [-> | ->] by lia; done. Qed.

Lemma land_low val n : 0 <= n -> val .& ~. (-1 .<< n) = val mod 2 ^ n.
Proof.
  intros Hn. rewrite <- Z.land_ones by done. f_equal. apply Z.bits_inj'. intros i Hi.
  rewrite Z.lnot_spec, Z.shiftl_spec, Z.testbit_ones_nonneg by lia.
  destruct (Z.ltb_spec i n); [by rewrite Z.testbit_neg_r by lia | by rewrite Z.bits_m1 by lia].
Qed.

Lemma parse_trace nbits val str : 1 <= nbits <= 32 ->
  parse_line (write_binary_trace nbits val str) = Some (val mod 2 ^ nbits, str +:+ newline).
Proof.
  intros Hn. unfold write_binary_trace. destruct (Z.leb_spec nbits 1).
  - replace nbits with 1 by lia. rewrite land_1. change (2 ^ 1) with 2. apply parse_bit. zlia.
  - set (v := if nbits <? 32 then _ else _).
    assert (Hv : v mod 2 ^ nbits = val mod 2 ^ nbits).
    { unfold v. case_match; [| done]. rewrite land_low by lia. apply Z.mod_mod. lia. }
    change (parse_line _) with (parse_bits (bits_text (Z.to_nat nbits) v +:+ " " +:+ str +:+ newline) 0).
    rewrite parse_bits_text by lia. rewrite Z2Nat.id, Hv by lia. done.
Qed.

Definition field (t : TRACEINFO) (w : Z) : Z := (w .>> m_nshift t) mod 2 ^ m_nbits t.
Definition narrow (t : TRACEINFO) : Prop := 1 <= m_nbits t <= 32.

Lemma newline_inj s1 s2 : s1 +:+ newline = s2 +:+ newline -> s1 = s2.
Proof.
  revert s2. induction s1 as [| c1 s1 IH]; intros [| c2 s2] E; [done | | |].
  - rewrite app_cons in E. injection E as _ E. by destruct s2.
  - rewrite app_cons in E. injection E as _ E. by destruct s1.
  - rewrite !app_cons in E. injection E as -> E. by rewrite (IH _ E).
Qed.

Lemma value_of_trace key t w : narrow t -> value_of (key +:+ newline) (write_trace t w) = if decide (m_key t = key) then [field t w] else [].
Proof.
  intros Hn. unfold value_of, write_trace. rewrite parse_trace by done.
  destruct (decide (m_key t = key)) as [-> | Hne]; [by rewrite decide_True |].
  rewrite decide_False; [done |]. intros E. by apply newline_inj in E.
Qed.

(** The lines of a word, for a key that one trace has. *)
Lemma values_of_traces key w ts rest tm :
  Forall narrow ts -> NoDup (m_key <$> ts) ->
  vcd_read (key +:+ newline) tm (map (fun t => LText (write_trace t w)) ts ++ rest) =
    map (fun v => (tm, v)) (map (fun t => field t w) (List.filter (fun t => bool_decide (m_key t = key)) ts)) ++ vcd_read (key +:+ newline) tm rest.
Proof.
  induction 1 as [| t' ts Ht Hts IH]; intros Hnd; [done |]. cbn [map app vcd_read List.filter]. cbn [fmap list_fmap] in Hnd.
  apply NoDup_cons in Hnd as [_ Hnd]. rewrite (IH Hnd), (value_of_trace key t' w Ht).
  case_decide; [rewrite bool_decide_true by done | rewrite bool_decide_false by done]; done.
Qed.

Lemma filter_key t ts : NoDup (m_key <$> ts) -> t ∈ ts -> List.filter (fun t' => bool_decide (m_key t' = m_key t)) ts = [t].
Proof.
  induction ts as [| t' ts IH]; intros Hnd Hin; [by apply elem_of_nil in Hin |]. cbn [fmap list_fmap List.filter] in *.
  apply NoDup_cons in Hnd as [Hni Hnd]. apply elem_of_cons in Hin as [-> | Hin].
  - rewrite bool_decide_true by done. f_equal. clear IH. induction ts as [| t2 ts IH]; [done |]. cbn [fmap list_fmap List.filter] in *.
    apply not_elem_of_cons in Hni as [H1 H2]. apply NoDup_cons in Hnd as [_ Hnd]. rewrite bool_decide_false by congruence. by apply IH.
  - rewrite bool_decide_false; [by apply IH |]. intros E. apply Hni. rewrite E. by apply list_elem_of_fmap_2.
Qed.

Lemma read_traces t w ts rest tm : Forall narrow ts -> NoDup (m_key <$> ts) -> t ∈ ts ->
  vcd_read (m_key t +:+ newline) tm (map (fun t => LText (write_trace t w)) ts ++ rest) = (tm, field t w) :: vcd_read (m_key t +:+ newline) tm rest.
Proof. intros H1 H2 H3. rewrite values_of_traces by done. by rewrite filter_key. Qed.

(** ** The capture, clock by clock *)

(** The words of a compressed capture with the clocks they were taken at. *)
Fixpoint samples (i : nat) (data : list Z) (a : Z) : list (Z * Z) :=
  match data with
  | [] => []
  | w :: data' => if is_run w then samples (S i) data' (if Nat.eqb i 0 then a else a + (run_length w + 1)) else (a, w) :: samples (S i) data' (a + 1)
  end.

(** What a compressed capture stands for: a run repeats the word before it. *)
Fixpoint expand (i : nat) (last : option Z) (data : list Z) : list (option Z) :=
  match data with
  | [] => []
  | w :: data' =>
      if is_run w then (if Nat.eqb i 0 then [] else replicate (Z.to_nat (run_length w + 1)) last) ++ expand (S i) last data'
      else Some w :: expand (S i) (Some w) data'
  end.

Definition clocks (compressed : bool) (data : list Z) : list (option Z) := if compressed then expand 0 None data else Some <$> data.

Lemma run_length_nonneg w : 0 <= run_length w.
Proof. unfold run_length. change 0x7fffffff with (Z.ones 31). rewrite Z.land_ones by lia. by apply Z.mod_pos_bound. Qed.

Definition fields (t : TRACEINFO) (l : list (Z * Z)) : list (Z * Z) := (fun '(a, w) => (a, field t w)) <$> l.

Lemma held_before t data : forall i a cur x, x < a -> held cur (fields t (samples i data a)) x = cur.
Proof.
  induction data as [| w data IH]; intros i a cur x Hx; [done |]. cbn [samples]. pose proof (run_length_nonneg w).
  destruct (is_run w); [apply IH; case_match; lia |]. cbn. rewrite (proj2 (Z.leb_gt a x)) by done. apply IH. lia.
Qed.

Lemma held_expand t data : forall i a last k v, expand i last data !! k = Some v ->
  held (field t <$> last) (fields t (samples i data a)) (a + Z.of_nat k) = field t <$> v.
Proof.
  induction data as [| w data IH]; intros i a last k v Hk; cbn [expand samples] in *; [done |].
  destruct (is_run w).
  - destruct (Nat.eqb i 0); [by apply IH |]. pose proof (run_length_nonneg w) as Hr.
    apply lookup_app_Some in Hk as [Hk | [Hk1 Hk2]].
    + apply lookup_replicate in Hk as [-> Hk]. apply held_before. lia.
    + rewrite length_replicate in *. replace (a + Z.of_nat k) with (a + (run_length w + 1) + Z.of_nat (k - Z.to_nat (run_length w + 1))) by lia.
      by apply IH.
  - cbn [fields fmap list_fmap]. destruct k as [| k].
    + injection Hk as <-. cbn [held]. rewrite (proj2 (Z.leb_le a _)) by lia. apply held_before. lia.
    + cbn [lookup list_lookup] in Hk. cbn [held]. rewrite (proj2 (Z.leb_le a _)) by lia.
      replace (a + Z.of_nat (S k)) with (a + 1 + Z.of_nat k) by lia. exact (IH (S i) (a + 1) (Some w) k v Hk).
Qed.

(** The words of an uncompressed capture. *)
Fixpoint numbered (a : Z) (data : list Z) : list (Z * Z) :=
  match data with [] => [] | w :: data' => (a, w) :: numbered (a + 1) data' end.

Lemma held_numbered (f : Z -> Z -> Z) data : forall a cur k w, data !! k = Some w ->
  held cur ((fun '(a, w) => (a, f a w)) <$> numbered a data) (a + Z.of_nat k) = Some (f (a + Z.of_nat k) w).
Proof.
  assert (Hbefore : forall data a cur x, x < a -> held cur ((fun '(a, w) => (a, f a w)) <$> numbered a data) x = cur).
  { clear. induction data as [| w data IH]; intros a cur x Hx; [done |]. cbn. rewrite (proj2 (Z.leb_gt a x)) by done. apply IH. lia. }
  induction data as [| w' data IH]; intros a cur k w Hk; [done |]. cbn [numbered fmap list_fmap held]. rewrite (proj2 (Z.leb_le a _)) by lia.
  destruct k as [| k]; cbn [lookup list_lookup] in Hk.
  - injection Hk as ->. rewrite Z.add_0_r. apply Hbefore. lia.
  - replace (a + Z.of_nat (S k)) with (a + 1 + Z.of_nat k) by lia. by apply IH.
Qed.

(** ** The file *)

Definition raw (nbits : Z) : TRACEINFO := mkTRACE "_raw_data" R_KEY nbits 0.
Definition T_KEY : string := "'T".
Definition C_KEY : string := "'C".

Record traces_ok (ts : list TRACEINFO) : Prop := {
  to_narrow : Forall narrow ts;
  to_keys : NoDup (R_KEY :: (m_key <$> ts));
  to_trigger : T_KEY ∉ R_KEY :: (m_key <$> ts);
  to_clock : C_KEY ∉ R_KEY :: (m_key <$> ts)
}.

Lemma value_of_bit key b k : 0 <= b < 2 -> value_of (key +:+ newline) (bit_char b +:+ k +:+ newline) = if decide (k = key) then [b] else [].
Proof.
  intros Hb. unfold value_of. rewrite parse_bit by done. destruct (decide (k = key)) as [-> | Hne]; [by rewrite decide_True |].
  rewrite decide_False; [done |]. intros E. by apply newline_inj in E.
Qed.

Lemma read_bit key b k tm rest : 0 <= b < 2 ->
  vcd_read (key +:+ newline) tm (LText (bit_char b +:+ k +:+ newline) :: rest) =
    (if decide (k = key) then [(tm, b)] else []) ++ vcd_read (key +:+ newline) tm rest.
Proof. intros Hb. cbn [vcd_read]. rewrite value_of_bit by done. by case_decide. Qed.

Lemma read_T key b tm rest : 0 <= b < 2 -> key <> T_KEY ->
  vcd_read (key +:+ newline) tm (T_LINE (bit_char b) :: rest) = vcd_read (key +:+ newline) tm rest.
Proof. intros Hb Hk. unfold T_LINE. rewrite (read_bit key b T_KEY) by done. by rewrite decide_False. Qed.
Lemma read_C key b tm rest : 0 <= b < 2 -> key <> C_KEY ->
  vcd_read (key +:+ newline) tm (C_LINE (bit_char b) :: rest) = vcd_read (key +:+ newline) tm rest.
Proof. intros Hb Hk. unfold C_LINE. rewrite (read_bit key b C_KEY) by done. by rewrite decide_False. Qed.

Lemma word_lines_map nbits ts w : word_lines nbits ts w = map (fun t => LText (write_trace t w)) (raw nbits :: ts).
Proof. unfold word_lines. cbn [map]. f_equal. Qed.

Lemma read_time key tm c l : vcd_read key tm (LTime c :: l) = vcd_read key c l.
Proof. done. Qed.
Lemma read_half key tm c l : vcd_read key tm (LHalf c :: l) = vcd_read key tm l.
Proof. done. Qed.
Lemma read_text key tm s l : vcd_read key tm (LText s :: l) = map (fun v => (tm, v)) (value_of key s) ++ vcd_read key tm l.
Proof. done. Qed.

Section File.
Context (ts : list TRACEINFO) (Hts : traces_ok ts).

Lemma all_narrow n : 1 <= n <= 32 -> Forall narrow (raw n :: ts).
Proof. intros Hn. constructor; [done | apply Hts]. Qed.

Lemma key_not_T n t : t ∈ raw n :: ts -> m_key t <> T_KEY /\ m_key t <> C_KEY.
Proof.
  intros Hin. apply (list_elem_of_fmap_2 m_key) in Hin. split; intros E; rewrite E in Hin; [by apply (to_trigger ts Hts) | by apply (to_clock ts Hts)].
Qed.

(** A compressed file has the samples at their clocks. *)
Lemma read_runs t alen offset data : t ∈ raw 31 :: ts -> forall i a tm lt,
  vcd_read (m_key t +:+ newline) tm (vcd_runs ts alen offset i data a lt) = fields t (samples i data a).
Proof.
  intros Ht. destruct (key_not_T 31 t Ht) as [HT _].
  induction data as [| w data IH]; intros i a tm lt; [done |]. cbn [vcd_runs samples]. destruct (is_run w).
  - destruct (Nat.eqb i 0); cbn [negb]; [apply IH |]. destruct lt; [| by rewrite app_nil_l, IH].
    cbn [app]. rewrite read_time. change (T_LINE "0") with (T_LINE (bit_char 0)). rewrite read_T by (done || lia). apply IH.
  - rewrite read_time. assert (Htr : forall l tm b1 b2, vcd_read (m_key t +:+ newline) tm
      ((if b1 : bool then [T_LINE "1"] else if b2 : bool then [T_LINE "0"] else []) ++ l) = vcd_read (m_key t +:+ newline) tm l).
    { intros l tm' [] b2; [exact (read_T _ 1 tm' l ltac:(lia) HT) |]. destruct b2; [exact (read_T _ 0 tm' l ltac:(lia) HT) | done]. }
    rewrite Htr, word_lines_map, read_traces; [| by apply all_narrow | apply Hts | done]. cbn [fields fmap list_fmap]. f_equal. apply IH.
Qed.

(** An uncompressed one has the words, one at a clock. *)
Lemma read_words t offset data : t ∈ raw 32 :: ts -> forall a tm,
  vcd_read (m_key t +:+ newline) tm (vcd_words ts offset a data) = fields t (numbered a data).
Proof.
  intros Ht. destruct (key_not_T 32 t Ht) as [HT HC].
  induction data as [| w data IH]; intros a tm; [done |]. cbn [vcd_words numbered app]. rewrite read_time.
  change (C_LINE "1") with (C_LINE (bit_char 1)). rewrite read_C by (done || lia).
  set (l := _ ++ LHalf a :: _). transitivity (vcd_read (m_key t +:+ newline) a (LText (write_binary_trace 32 w R_KEY) :: l)).
  { rewrite (read_text _ _ _ l), read_text. f_equal. destruct (a =? offset); [exact (read_T _ 1 a l ltac:(lia) HT) | exact (read_T _ 0 a l ltac:(lia) HT)]. }
  unfold l. change (LText (write_binary_trace 32 w R_KEY) :: map (fun t => LText (write_trace t w)) ts ++ ?x)
    with (map (fun t => LText (write_trace t w)) (raw 32 :: ts) ++ x).
  rewrite read_traces; [| by apply all_narrow | apply Hts | done]. cbn [fields fmap list_fmap]. f_equal. rewrite read_half.
  change (C_LINE "0") with (C_LINE (bit_char 0)). rewrite read_C by (done || lia). apply IH.
Qed.

Lemma no_value key w n : key ∉ R_KEY :: (m_key <$> ts) -> 1 <= n <= 32 -> forall tm rest,
  vcd_read (key +:+ newline) tm (map (fun t => LText (write_trace t w)) (raw n :: ts) ++ rest) = vcd_read (key +:+ newline) tm rest.
Proof.
  intros Hk Hn tm rest. rewrite values_of_traces; [| by apply all_narrow | apply Hts].
  assert (E : List.filter (fun t => bool_decide (m_key t = key)) (raw n :: ts) = []); [| by rewrite E].
  change (R_KEY :: (m_key <$> ts)) with (m_key <$> (raw n :: ts)) in Hk. revert Hk. generalize (raw n :: ts). clear.
  induction l as [| t l IH]; intros Hk; [done |]. cbn [fmap list_fmap List.filter] in *. apply not_elem_of_cons in Hk as [H1 H2].
  rewrite bool_decide_false by congruence. by apply IH.
Qed.

(** The trigger of an uncompressed capture. *)
Lemma read_words_trigger offset data : forall a tm,
  vcd_read (T_KEY +:+ newline) tm (vcd_words ts offset a data) = (fun '(k, _) => (k, if k =? offset then 1 else 0)) <$> numbered a data.
Proof.
  induction data as [| w data IH]; intros a tm; [done |]. cbn [vcd_words numbered app]. rewrite read_time.
  change (C_LINE "1") with (C_LINE (bit_char 1)). rewrite read_C by (done || lia). rewrite read_text.
  set (l := _ ++ LHalf a :: _).
  assert (Hl : vcd_read (T_KEY +:+ newline) a (LText (write_binary_trace 32 w R_KEY) :: l) = vcd_read (T_KEY +:+ newline) a (LHalf a :: C_LINE "0" :: vcd_words ts offset (a + 1) data)).
  { unfold l. apply (no_value T_KEY w 32 (to_trigger ts Hts)); lia. }
  rewrite read_text, read_half in Hl. assert (Hr : value_of (T_KEY +:+ newline) (write_binary_trace 32 w R_KEY) = []).
  { change (write_binary_trace 32 w R_KEY) with (write_trace (raw 32) w). rewrite value_of_trace by done. by rewrite decide_False. }
  rewrite Hr in *. cbn [map app] in *. cbn [fmap list_fmap].
  assert (Hb : forall b, 0 <= b < 2 -> vcd_read (T_KEY +:+ newline) a (T_LINE (bit_char b) :: l) = (a, b) :: vcd_read (T_KEY +:+ newline) a l).
  { intros b Hb. unfold T_LINE. rewrite (read_bit T_KEY b T_KEY) by done. by rewrite decide_True. }
  transitivity ((a, if a =? offset then 1 else 0) :: vcd_read (T_KEY +:+ newline) a l); [destruct (a =? offset); [exact (Hb 1 ltac:(lia)) | exact (Hb 0 ltac:(lia))] |].
  f_equal. rewrite Hl. change (C_LINE "0") with (C_LINE (bit_char 0)). rewrite read_C by (done || lia). apply IH.
Qed.
End File.

(** ** Keys *)

(** Up to 62 traces have keys of their own. *)
Lemma trace_key_inj i j : 0 <= i < 62 -> 0 <= j < 62 -> trace_key i = trace_key j -> i = j.
Proof.
  intros Hi Hj E.
  assert (H : forall_range 0 62 (fun j => bool_decide (trace_key i = trace_key j -> i = j)) = true) by by_range i 0 62%nat.
  pose proof (forall_range_spec 0 62 _ H j ltac:(lia)) as Hb. cbv beta in Hb. apply bool_decide_eq_true in Hb. auto.
Qed.

Fixpoint registered (k : Z) (defs : list (string * Z * Z)) : list TRACEINFO :=
  match defs with [] => [] | (name, nbits, shift) :: defs' => mkTRACE name (trace_key k) nbits shift :: registered (k + 1) defs' end.

Lemma registered_lookup defs : forall k i name nbits shift, defs !! i = Some (name, nbits, shift) ->
  mkTRACE name (trace_key (k + Z.of_nat i)) nbits shift ∈ registered k defs.
Proof.
  induction defs as [| [[n b] sh] defs IH]; intros k i name nbits shift Hi; [done |]. cbn [registered]. destruct i as [| i].
  - injection Hi as -> -> ->. rewrite Z.add_0_r. apply elem_of_cons. by left.
  - apply elem_of_cons. right. replace (k + Z.of_nat (S i)) with (k + 1 + Z.of_nat i) by lia. by apply IH.
Qed.

Lemma registered_key defs : forall k key, key ∈ m_key <$> registered k defs -> exists i, k <= i < k + Z.of_nat (length defs) /\ key = trace_key i.
Proof.
  induction defs as [| [[n b] sh] defs IH]; intros k key Hin; cbn [registered fmap list_fmap length] in *; [by apply elem_of_nil in Hin |].
  apply elem_of_cons in Hin as [-> | Hin]; [exists k; split; [lia | done] |].
  destruct (IH _ _ Hin) as (i & Hi & ->). exists i. split; [lia | done].
Qed.

Lemma registered_nodup defs : forall k, 0 <= k -> k + Z.of_nat (length defs) <= 62 -> NoDup (m_key <$> registered k defs).
Proof.
  induction defs as [| [[n b] sh] defs IH]; intros k Hk Hn; cbn [registered fmap list_fmap length] in *; [constructor |].
  constructor; [| apply IH; lia]. intros Hin. destruct (registered_key _ _ _ Hin) as (i & Hi & E).
  apply trace_key_inj in E; lia.
Qed.

Definition narrow_def (def : string * Z * Z) : Prop := 1 <= def.1.2 <= 32.

Lemma registered_ok defs : (length defs <= 62)%nat -> Forall narrow_def defs -> traces_ok (registered 0 defs).
Proof.
  intros Hn Hd. assert (Hv : forall key, key ∈ m_key <$> registered 0 defs -> exists s, key = String "v" s).
  { intros key Hin. destruct (registered_key _ _ _ Hin) as (i & _ & ->). by eexists. }
  assert (Hnot : forall key, (forall s, key <> String "v" s) -> key ∉ m_key <$> registered 0 defs).
  { intros key Hne Hin. destruct (Hv key Hin) as [s ->]. by apply (Hne s). }
  split.
  - clear Hn Hv Hnot. generalize 0 as k. induction Hd as [| [[n b] sh] defs Hb Hd IH]; intros k; [constructor |]. constructor; [exact Hb | apply IH].
  - constructor; [by apply Hnot | apply registered_nodup; lia].
  - intros [E | Hin]%elem_of_cons; [done | by apply Hnot in Hin].
  - intros [E | Hin]%elem_of_cons; [done | by apply Hnot in Hin].
Qed.

Section Claims.
Context {W : Type} `{SCOPEBUS W}.
Implicit Types (s : SCOPE W).

(** [define_traces] of a scope, as a list. *)
Definition define (defs : list (string * Z * Z)) : M (SCOPE W) unit :=
  for_each defs (fun '(name, nbits, shift) => register_trace name nbits shift).

Lemma define_eq defs : forall s, define defs s = Ret tt (s <| m_traces := m_traces s ++ registered (Z.of_nat (length (m_traces s))) defs |>).
Proof.
  unfold define. induction defs as [| [[n b] sh] defs IH]; intros s; cbn [for_each registered].
  - rewrite app_nil_r. by destruct s.
  - erewrite bind_eq by done. rewrite IH. destruct s as [a1 a2 a3 a4 a5 a6 a7 ts]. cbn. do 2 f_equal.
    rewrite length_app. cbn [length]. rewrite <- app_assoc. cbn [app]. do 3 f_equal. lia.
Qed.

(** A capture that was read out. *)
Record captured s (d : list Z) : Prop := {
  cp_data : m_data s = Some d;
  cp_len : m_scoplen s = Z.of_nat (length d);
  cp_range : 0 < Z.of_nat (length d) < 2 ^ 31
}.

Lemma words_eq s d : captured s d -> words s = Ret d s.
Proof.
  intros [H1 H2 H3]. unfold words. rewrite H1, H2. unfold s32. rewrite Z.mod_small by lia.
  rewrite (proj2 (Z.leb_gt _ 0)), Nat2Z.id, decide_True, take_ge by lia. done.
Qed.

(** The lines of the file. *)
Definition vcd_lines s (d : list Z) (ts : list TRACEINFO) : list LINE :=
  if m_compressed s
  then let alen := count_clocks 0 d (Z.of_nat (length d)) in vcd_runs ts alen (trigger_offset alen (m_holdoff s)) 0 d 0 true
  else vcd_words ts (trigger_offset (Z.of_nat (length d)) (m_holdoff s)) 0 d.

Lemma writevcd_eq defs s d : captured s d -> m_traces s = [] ->
  exists s', writevcd (define defs) s = Ret (vcd_lines s d (registered 0 defs)) s'.
Proof.
  intros Hc Ht. unfold writevcd. rewrite (bind_eq get _ s s s) by done. rewrite (cp_data s d Hc).
  rewrite (bind_eq _ _ s tt s) by done. rewrite (bind_eq get _ s s s) by done. rewrite Ht.
  rewrite (bind_eq _ _ _ _ _ (define_eq defs s)). rewrite Ht. cbn [app length]. change (Z.of_nat 0) with 0.
  set (s1 := s <| m_traces := _ |>).
  assert (Hc1 : captured s1 d) by (destruct Hc, s; by split).
  assert (Hm : m_compressed s1 = m_compressed s /\ m_holdoff s1 = m_holdoff s /\ m_traces s1 = registered 0 defs) by (by destruct s).
  destruct Hm as (M1 & M2 & M3). exists s1.
  assert (Ha : getaddresslen s1 = Ret (if m_compressed s then count_clocks 0 d (Z.of_nat (length d)) else Z.of_nat (length d)) s1).
  { unfold getaddresslen. rewrite (bind_eq get _ s1 s1 s1) by done. rewrite M1, (cp_len s1 d Hc1). destruct (m_compressed s); [| done].
    by rewrite (bind_eq _ _ _ _ _ (words_eq s1 d Hc1)). }
  rewrite (bind_eq _ _ _ _ _ Ha), (bind_eq get _ s1 s1 s1) by done. rewrite (bind_eq _ _ _ _ _ (words_eq s1 d Hc1)).
  rewrite M1, M2, M3. unfold vcd_lines. by destruct (m_compressed s).
Qed.

Lemma held_lines s d ts t k x : traces_ok ts -> t ∈ raw (if m_compressed s then 31 else 32) :: ts -> clocks (m_compressed s) d !! k = Some x ->
  held None (vcd_read (m_key t +:+ newline) 0 (vcd_lines s d ts)) (Z.of_nat k) = field t <$> x.
Proof.
  intros Hts Hin Hk. unfold vcd_lines, clocks in *. destruct (m_compressed s).
  - rewrite read_runs by done. exact (held_expand t d 0 0 None k x Hk).
  - rewrite read_words by done. rewrite list_lookup_fmap in Hk. destruct (d !! k) as [w |] eqn:E; [| done]. injection Hk as <-.
    exact (held_numbered (fun _ => field t) d 0 None k w E).
Qed.

(** C23: In the file that [writevcd] makes of a capture, the raw data and each trace
    have at every clock the value they had when the capture was taken: also for a
    compressed capture, whose runs stand for many clocks; and the trigger of an
    uncompressed capture is at its clock alone. *)
Theorem scope_vcd_faithful defs s d :
  captured s d -> m_traces s = [] -> (length defs <= 62)%nat -> Forall narrow_def defs ->
  exists ls s', writevcd (define defs) s = Ret ls s' /\
    (forall i name nbits shift k x, defs !! i = Some (name, nbits, shift) -> clocks (m_compressed s) d !! k = Some x ->
       held None (vcd_read (trace_key (Z.of_nat i) +:+ newline) 0 ls) (Z.of_nat k) = (fun w => (w .>> shift) mod 2 ^ nbits) <$> x) /\
    (forall k x, clocks (m_compressed s) d !! k = Some x ->
       held None (vcd_read (R_KEY +:+ newline) 0 ls) (Z.of_nat k) = (fun w => w mod 2 ^ (if m_compressed s then 31 else 32)) <$> x) /\
    (m_compressed s = false -> forall k, (k < length d)%nat ->
       held None (vcd_read (T_KEY +:+ newline) 0 ls) (Z.of_nat k) =
         Some (if Z.of_nat k =? trigger_offset (Z.of_nat (length d)) (m_holdoff s) then 1 else 0)).
Proof.
  intros Hc Ht Hn Hd. destruct (writevcd_eq defs s d Hc Ht) as [s' Hs']. pose proof (registered_ok defs Hn Hd) as Hok.
  exists (vcd_lines s d (registered 0 defs)), s'. split; [exact Hs' |]. split; [| split].
  - intros i name nbits shift k x Hi Hk. pose proof (registered_lookup defs 0 i name nbits shift Hi) as Hin. rewrite Z.add_0_l in Hin.
    exact (held_lines s d _ (mkTRACE name (trace_key (Z.of_nat i)) nbits shift) k x Hok (list_elem_of_further _ _ _ Hin) Hk).
  - intros k x Hk. exact (held_lines s d _ (raw (if m_compressed s then 31 else 32)) k x Hok (list_elem_of_here _ _) Hk).
  - intros Hm k Hk. unfold vcd_lines. rewrite Hm, read_words_trigger by done.
    destruct (lookup_lt_is_Some_2 d k Hk) as [w Hw].
    exact (held_numbered (fun k _ => if k =? trigger_offset (Z.of_nat (length d)) (m_holdoff s) then 1 else 0) d 0 None k w Hw).
Qed.

(** ** The length, and the trigger, of a compressed capture *)

Lemma run_bit w : truthy (w .& 0x80000000) = is_run w.
Proof.
  unfold is_run, truthy. f_equal. change 0x80000000 with (2 ^ 31). rewrite land_1, shiftr_div, <- Z.testbit_spec' by lia.
  destruct (Z.testbit w 31) eqn:E.
  - apply Z.eqb_neq. intros E0. apply (f_equal (fun x => Z.testbit x 31)) in E0.
    rewrite Z.land_spec, E, Z.pow2_bits_true in E0 by lia. done.
  - apply Z.eqb_eq. apply Z.bits_inj'. intros n Hn. rewrite Z.land_spec, Z.testbit_0_l, Z.pow2_bits_eqb by lia.
    destruct (Z.eqb_spec 31 n) as [<- |]; [by rewrite E | by rewrite andb_false_r].
Qed.

Lemma count_clocks_eq data : forall i last alen, (i <> 0)%nat -> 0 <= alen ->
  alen + Z.of_nat (length (expand i last data)) - Z.of_nat (length data) < 2 ^ 32 ->
  count_clocks i data alen = alen + Z.of_nat (length (expand i last data)) - Z.of_nat (length data) /\
  Z.of_nat (length data) <= Z.of_nat (length (expand i last data)).
Proof.
  induction data as [| w data IH]; intros i last alen Hi Ha Hlt; cbn [count_clocks expand length] in *; [lia |].
  rewrite run_bit. rewrite (proj2 (Nat.eqb_neq i 0)) in * by done. pose proof (run_length_nonneg w) as Hr.
  destruct (is_run w); cbn [andb negb length] in *.
  - rewrite length_app, length_replicate in *.
    assert (Hge : Z.of_nat (length data) <= Z.of_nat (length (expand (S i) last data))) by (apply (IH (S i) last 0); lia).
    unfold u32. rewrite Z.mod_small by lia. destruct (IH (S i) last (alen + run_length w)) as [-> _]; lia.
  - destruct (IH (S i) (Some w) alen) as [-> ?]; lia.
Qed.

(** The clocks of a capture; a run in its first word counts as one. *)
Lemma alen_eq d : Z.of_nat (length (expand 0 None d)) + 1 < 2 ^ 32 ->
  count_clocks 0 d (Z.of_nat (length d)) = Z.of_nat (length (expand 0 None d)) + (if default false (is_run <$> head d) then 1 else 0) /\
  Z.of_nat (length d) <= Z.of_nat (length (expand 0 None d)) + 1.
Proof.
  destruct d as [| w d]; [done |]. cbn [expand count_clocks length head fmap option_fmap option_map default]. rewrite andb_false_r.
  intros Hlt. destruct (is_run w); cbn [Nat.eqb app length] in *;
    [destruct (count_clocks_eq d 1 None (Z.of_nat (S (length d)))) as [-> ?] | destruct (count_clocks_eq d 1 (Some w) (Z.of_nat (S (length d)))) as [-> ?]];
    cbn [id]; lia.
Qed.

Lemma no_trigger ts alen offset data (Hts : traces_ok ts) : 0 <= offset -> alen <= 2 ^ 31 -> forall i last a tm lt t,
  0 <= a -> a + Z.of_nat (length (expand i last data)) <= alen ->
  (t, 1) ∉ vcd_read (T_KEY +:+ newline) tm (vcd_runs ts alen offset i data a lt).
Proof.
  intros Ho Hal. induction data as [| w data IH]; intros i last a tm lt t Ha Hle; cbn [vcd_runs expand length] in *; [apply not_elem_of_nil |].
  assert (H0 : forall tm' l, (t, 1) ∉ vcd_read (T_KEY +:+ newline) tm' l -> (t, 1) ∉ vcd_read (T_KEY +:+ newline) tm' (T_LINE "0" :: l)).
  { intros tm' l Hl. change (T_LINE "0") with (LText (bit_char 0 +:+ T_KEY +:+ newline)). rewrite read_bit, decide_True by (done || lia).
    cbn [app]. by apply not_elem_of_cons. }
  pose proof (run_length_nonneg w) as Hr. destruct (is_run w).
  - destruct (Nat.eqb i 0); cbn [negb] in *; [by apply (IH _ last) |]. rewrite length_app, length_replicate in Hle.
    assert (Hrest : forall tm', (t, 1) ∉ vcd_read (T_KEY +:+ newline) tm' (vcd_runs ts alen offset (S i) data (a + (run_length w + 1)) lt)).
    { intros tm'. apply (IH _ last); lia. }
    destruct lt; [| apply Hrest]. cbn [app]. rewrite read_time. by apply H0.
  - cbn [length] in Hle. rewrite read_time, s32_id by lia. rewrite (proj2 (Z.eqb_neq (a - alen) offset)) by lia. cbn [orb].
    rewrite word_lines_map. set (l := _ ++ vcd_runs _ _ _ _ _ _ _).
    assert (Hl : (t, 1) ∉ vcd_read (T_KEY +:+ newline) a l).
    { unfold l. rewrite (no_value ts Hts T_KEY w 31); [apply (IH _ (Some w)); lia | apply Hts | lia]. }
    destruct lt; [by apply H0 | exact Hl].
Qed.

(** The file of a compressed capture never shows the trigger: the clock is compared
    after the length of the capture has been taken from it, which makes it negative. *)
Theorem scope_trigger_lost defs s d :
  captured s d -> m_traces s = [] -> (length defs <= 62)%nat -> Forall narrow_def defs -> m_compressed s = true ->
  Z.of_nat (length (expand 0 None d)) + 1 < 2 ^ 31 ->
  0 <= m_holdoff s < count_clocks 0 d (Z.of_nat (length d)) ->
  exists ls s', writevcd (define defs) s = Ret ls s' /\ forall t, (t, 1) ∉ vcd_read (T_KEY +:+ newline) 0 ls.
Proof.
  intros Hc Ht Hn Hd Hm Hlt Hh. destruct (writevcd_eq defs s d Hc Ht) as [s' Hs']. pose proof (registered_ok defs Hn Hd) as Hok.
  eexists _, s'. split; [exact Hs' |]. intros t. unfold vcd_lines. rewrite Hm. destruct (alen_eq d ltac:(lia)) as [E _].
  set (alen := count_clocks 0 d _) in *. assert (Ha : alen <= Z.of_nat (length (expand 0 None d)) + 1) by (rewrite E; case_match; lia).
  apply (no_trigger _ _ _ _ Hok) with (last := None); [| lia | lia | rewrite E; case_match; lia].
  unfold trigger_offset. rewrite s32_id by lia. lia.
Qed.
End Claims.

(** ** A capture *)

#[export] Instance no_bus : SCOPEBUS unit := { sb_readio a := ret 0; sb_readz a n := ret [] }.

(** Two words, the second of them for four clocks, and a third. *)
Definition capture : list Z := [0x40000005; 0x12345678; 0x80000002; 0x00000001].
Definition scope (compressed : bool) : SCOPE unit := mkSCOPE tt 0 compressed true 4 2 (Some capture) [].
Definition scope_defs : list (string * Z * Z) := [("wb_cyc"%string, 1, 30); ("wb_data"%string, 8, 0)].

Lemma scope_vcd_faithful_witness : exists ls s', writevcd (define scope_defs) (scope true) = Ret ls s' /\
  held None (vcd_read (trace_key 1 +:+ newline) 0 ls) 4 = Some 0x78.
Proof.
  destruct (scope_vcd_faithful scope_defs (scope true) capture) as (ls & s' & H1 & H2 & _); [by split | done | cbn; lia | by repeat constructor |].
  exists ls, s'. split; [exact H1 |]. exact (H2 1%nat "wb_data"%string 8 0 4%nat (Some 0x12345678) eq_refl eq_refl).
Defined.

Lemma scope_trigger_lost_witness : exists ls s', writevcd (define scope_defs) (scope true) = Ret ls s' /\
  forall t, (t, 1) ∉ vcd_read (T_KEY +:+ newline) 0 ls.
Proof.
  apply (scope_trigger_lost scope_defs (scope true) capture); [by split | done | cbn; lia | by repeat constructor | done | by vm_compute | by vm_compute].
Defined.

(** The same capture as an uncompressed one, and on the terminal, where the mark is
    at the clock before the trigger. *)
Example scope_runs :
  (match writevcd (define scope_defs) (scope false) with Ret ls _ => vcd_read (T_KEY +:+ newline) 0 ls | _ => [] end) = [(0, 0); (1, 1); (2, 0); (3, 0)] /\
  trigger_offset 6 4 = 1 /\
  (match print ((scope true) <| m_holdoff := 4 |>) with Ret ls _ => ls | _ => [] end) =
    [PWord 0 0x40000005 true; PWord 1 0x12345678 false; PSkip 2; PWord 5 1 false].
Proof. split; [| split]; vm_compute; reflexivity. Qed.
