(* ===== verification/LongDiv.v ===== *)
(** The 64-bit division of the board's C library (src/sw/zlib/udiv.c and
    umod.c), for a processor that divides 32-bit words only: [zip_bitrev],
    [cltz], [__udivdi3], [__divdi3] and [__umoddi3], with [unsigned long] of 64
    bits.  A division by zero is [None]. *)

From stdpp Require Import base tactics list numbers option.
From Stdlib Require Import ZArith Lia.
From S2P Require Import Prelude.
Local Open Scope Z_scope.

(** ** The code *)

(** [for(int i=0; i<32; i++) { r = (r<<1) | (b&1); b >>= 1; }] *)
Fixpoint bitrev_loop (n : nat) (r b : Z) : Z :=
  match n with
  | O => r
  | S n' => bitrev_loop n' (u32 (r .<< 1) .| (b .& 1)) (b .>> 1)
  end.
Definition zip_bitrev (a : Z) : Z := bitrev_loop 32 0 a.

(** [if ((hv & mask)==0) { cnt += k; hv = hv >> k; }] *)
Definition cltz_step (mask k : Z) (c : Z * Z) : Z * Z :=
  let '(cnt, hv) := c in
  if hv .& mask =? 0 then (cnt + k, hv .>> k) else (cnt, hv).

Definition cltz (v : Z) : Z :=
  let hv := u32 (v .>> 32) in
  let '(cnt, hv) := if hv =? 0 then (32, v .& 0x0ffffffff) else (0, hv) in
  let hv := zip_bitrev hv in
  let c := cltz_step 0x0ffff 16 (cnt, hv) in
  let c := cltz_step 0x0ff 8 c in
  let c := cltz_step 0x0f 4 c in
  let '(cnt, hv) := cltz_step 0x03 2 c in
  if hv .& 0x01 =? 0 then cnt + 1 else cnt.

(** A division of 32-bit words, in hardware. *)
Definition div32 (a b : Z) : option Z := if b =? 0 then None else Some (a / b).

(** The [while(m > 0)] loop; [fuel] bounds its iterations. *)
Fixpoint udiv_loop (fuel : nat) (a b m r : Z) : option Z :=
  match fuel with
  | O => None
  | S fuel' =>
      if 0 <? m then
        let '(r, a) := if b <=? a then (r .| m, a - b) else (r, a) in
        udiv_loop fuel' a (b .>> 1) (m .>> 1) r
      else Some r
  end.

Definition udivdi3 (a b : Z) : option Z :=
  if a <? b then Some 0
  else if (b .>> 32 =? 0) && (a .>> 32 =? 0) then div32 (u32 a) (u32 b)
  else
    let la := cltz a in
    let lb := cltz b in
    let a := u64 (a .<< la) in
    if (lb - la <? 32) && (u64 (b .<< la) .& 0x0ffffffff =? 0) then
      let b := u64 (b .<< la) in
      div32 (u32 (a .>> 32)) (u32 (b .>> 32))
    else
      let b := u64 (b .<< lb) in
      let m := u64 (1 .<< (lb - la)) in
      udiv_loop 65 a b m 0.

Definition divdi3 (a b : Z) : option Z :=
  let s := 0 in
  let '(s, a) := if a <? 0 then (1, s64 (- a)) else (s, a) in
  let '(s, b) := if b <? 0 then (s .^ 1, s64 (- b)) else (s, b) in
  match udivdi3 (u64 a) (u64 b) with
  | Some r => let r := s64 r in Some (if truthy s then s64 (- r) else r)
  | None => None
  end.

Definition umoddi3 (a b : Z) : option Z :=
  match udivdi3 a b with
  | Some r => let r := u64 (r * b) in Some (u64 (a - r))
  | None => None
  end.

(** ** Counting leading zeros *)

(** [hv] holds the [n] low bits of [h] in reverse. *)
Definition reversed (n : Z) (hv h : Z) : Prop :=
  forall i, 0 <= i < n -> Z.testbit hv i = Z.testbit h (n - 1 - i).

Lemma bitrev_loop_bits n r b k :
  0 <= k -> k + Z.of_nat n <= 32 -> 0 <= r < 2 ^ k -> 0 <= b ->
  forall i, 0 <= i < k + Z.of_nat n ->
    Z.testbit (bitrev_loop n r b) i =
      if i <? Z.of_nat n then Z.testbit b (Z.of_nat n - 1 - i) else Z.testbit r (i - Z.of_nat n).
Proof.
  revert r b k. induction n as [| n IH]; intros r b k Hk Hn Hr Hb i Hi; cbn [bitrev_loop].
  { rewrite (proj2 (Z.ltb_ge i (Z.of_nat 0))) by lia. f_equal. lia. }
  assert (Hp : 2 ^ (k + 1) = 2 * 2 ^ k) by (rewrite Z.pow_add_r by lia; lia).
  assert (Hle : 2 ^ (k + 1) <= 2 ^ 32) by (apply Z.pow_le_mono_r; lia).
  assert (Hr' : u32 (r .<< 1) .| (b .& 1) = 2 * r + b mod 2).
  { unfold u32. rewrite Z.mod_small by (rewrite shiftl_mul; lia).
    rewrite land_1, lor_shiftl_add by zlia. lia. }
  rewrite Hr'. rewrite (IH (2 * r + b mod 2) (b .>> 1) (k + 1)); [| lia | lia | zlia | | lia].
  2: { rewrite shiftr_div by lia. zlia. }
  destruct (Z.ltb_spec i (Z.of_nat n)).
  - rewrite (proj2 (Z.ltb_lt i _)) by lia. rewrite Z.shiftr_spec by lia. f_equal. lia.
  - destruct (Z.ltb_spec i (Z.of_nat (S n))).
    + replace (i - Z.of_nat n) with 0 by lia. replace (Z.of_nat (S n) - 1 - i) with 0 by lia.
      rewrite !Z.bit0_odd, Z.odd_add, Z.odd_mul. cbn [Z.odd andb xorb].
      rewrite <- Z.bit0_odd. change 2 with (2 ^ 1). rewrite Z.mod_pow2_bits_low by lia.
      by rewrite Z.bit0_odd; destruct (Z.odd b).
    + replace r with ((2 * r + b mod 2) / 2 ^ 1) at 2 by zlia.
      rewrite Z.div_pow2_bits by lia. f_equal. lia.
Qed.

Lemma zip_bitrev_reversed h : 0 <= h -> reversed 32 (zip_bitrev h) h.
Proof.
  intros Hh i Hi. unfold zip_bitrev. rewrite (bitrev_loop_bits 32 0 h 0) by lia.
  by rewrite (proj2 (Z.ltb_lt i _)) by lia.
Qed.

(** The leading zeros of [h] among [n] bits. *)
Definition clz (n h : Z) : Z := n - 1 - Z.log2 h.

(** One halving: the top half is zero, or it decides. *)
Lemma halving k hv h :
  0 < k -> 0 < h < 2 ^ (2 * k) -> reversed (2 * k) hv h ->
  if hv .& Z.ones k =? 0
  then 0 < h < 2 ^ k /\ reversed k (hv .>> k) h /\ clz (2 * k) h = k + clz k h
  else 0 < h / 2 ^ k < 2 ^ k /\ reversed k hv (h / 2 ^ k) /\ clz (2 * k) h = clz k (h / 2 ^ k).
Proof.
  intros Hk Hh Hrev. assert (Hp : 2 ^ (2 * k) = 2 ^ k * 2 ^ k) by (rewrite <- Z.pow_add_r by lia; f_equal; lia).
  rewrite Z.land_ones by lia. destruct (Z.eqb_spec (hv mod 2 ^ k) 0) as [H0 | H0].
  - assert (Hlt : h < 2 ^ k).
    { apply Z.log2_lt_pow2; [lia |]. apply Z.nle_gt. intros Hlog.
      assert (Hl2 : Z.log2 h < 2 * k) by (apply Z.log2_lt_pow2; lia).
      assert (Hb : Z.testbit (hv mod 2 ^ k) (2 * k - 1 - Z.log2 h) = true).
      { rewrite Z.mod_pow2_bits_low, Hrev by lia.
        replace (2 * k - 1 - (2 * k - 1 - Z.log2 h)) with (Z.log2 h) by lia. apply Z.bit_log2. lia. }
      by rewrite H0, Z.testbit_0_l in Hb. }
    split; [lia |]. split; [| unfold clz; lia].
    intros i Hi. rewrite Z.shiftr_spec, Hrev by lia. f_equal. lia.
  - assert (Hge : 2 ^ k <= h).
    { apply Z.nlt_ge. intros Hlt. apply H0. apply Z.bits_inj'. intros i Hi. rewrite Z.testbit_0_l.
      destruct (Z.lt_ge_cases i k); [| by apply Z.mod_pow2_bits_high; lia].
      rewrite Z.mod_pow2_bits_low, Hrev by lia. apply (testbit_above h k); lia. }
    assert (Hd : 0 < h / 2 ^ k < 2 ^ k).
    { split; [apply Z.div_str_pos; lia | apply Z.div_lt_upper_bound; lia]. }
    split; [done |]. split.
    + intros i Hi. rewrite Hrev, Z.div_pow2_bits by lia. f_equal. lia.
    + unfold clz. rewrite <- Z.shiftr_div_pow2, Z.log2_shiftr by lia.
      assert (k <= Z.log2 h) by (apply Z.log2_le_pow2; lia). lia.
Qed.

(** [halving], for a step of the code. *)
Lemma cltz_step_ok k cnt hv h :
  0 < k -> 0 < h < 2 ^ (2 * k) -> reversed (2 * k) hv h ->
  exists cnt' hv' h', cltz_step (Z.ones k) k (cnt, hv) = (cnt', hv') /\
    0 < h' < 2 ^ k /\ reversed k hv' h' /\ cnt + clz (2 * k) h = cnt' + clz k h'.
Proof.
  intros Hk Hh Hrev. pose proof (halving k hv h Hk Hh Hrev) as H. unfold cltz_step.
  destruct (hv .& Z.ones k =? 0); destruct H as (H1 & H2 & H3); eexists _, _, _;
    (split; [done |]; split; [exact H1 |]; split; [exact H2 | lia]).
Qed.

Lemma cltz_spec v : 0 < v < 2 ^ 64 -> cltz v = 63 - Z.log2 v.
Proof.
  intros Hv. unfold cltz. set (h := if u32 (v .>> 32) =? 0 then v .& 0x0ffffffff else u32 (v .>> 32)).
  assert (Hh : 0 < h < 2 ^ 32 /\ clz 64 v = (if u32 (v .>> 32) =? 0 then 32 else 0) + clz 32 h).
  { subst h. unfold u32. rewrite shiftr_div by lia.
    change 0x0ffffffff with (2 ^ 32 - 1). rewrite land_ones_mod by lia.
    rewrite (Z.mod_small (v / 2 ^ 32)) by zlia. unfold clz.
    destruct (Z.eqb_spec (v / 2 ^ 32) 0) as [H0 | H0].
    - rewrite Z.mod_small by zlia. split; [zlia | lia].
    - split; [zlia |]. rewrite <- Z.shiftr_div_pow2, Z.log2_shiftr by lia.
      assert (32 <= Z.log2 v) by (apply Z.log2_le_pow2; zlia). lia. }
  destruct Hh as [Hh Hc]. change (clz 64 v) with (63 - Z.log2 v) in Hc.
  set (c0 := if u32 (v .>> 32) =? 0 then 32 else 0) in *.
  replace (if u32 (v .>> 32) =? 0 then (32, v .& 0x0ffffffff) else (0, u32 (v .>> 32))) with (c0, h)
    by (subst c0 h; by destruct (_ =? 0)).
  cbv beta iota zeta.
  destruct (cltz_step_ok 16 c0 (zip_bitrev h) h) as (c1 & v1 & h1 & E1 & H1 & R1 & S1);
    [lia | done | apply zip_bitrev_reversed; lia |].
  destruct (cltz_step_ok 8 c1 v1 h1) as (c2 & v2 & h2 & E2 & H2 & R2 & S2); [lia | done | done |].
  destruct (cltz_step_ok 4 c2 v2 h2) as (c3 & v3 & h3 & E3 & H3 & R3 & S3); [lia | done | done |].
  destruct (cltz_step_ok 2 c3 v3 h3) as (c4 & v4 & h4 & E4 & H4 & R4 & S4); [lia | done | done |].
  destruct (cltz_step_ok 1 c4 v4 h4) as (c5 & v5 & h5 & E5 & H5 & R5 & S5); [lia | done | done |].
  change (Z.ones 16) with 0x0ffff in E1. change (Z.ones 8) with 0x0ff in E2.
  change (Z.ones 4) with 0x0f in E3. change (Z.ones 2) with 0x03 in E4. change (Z.ones 1) with 0x01 in E5.
  rewrite E1, E2, E3, E4. unfold cltz_step in E5.
  assert (h5 = 1) by lia. subst h5. change (clz 1 1) with 0 in S5.
  change (2 * 16) with 32 in S1. change (2 * 8) with 16 in S2. change (2 * 4) with 8 in S3.
  change (2 * 2) with 4 in S4. change (2 * 1) with 2 in S5.
  destruct (v4 .& 1 =? 0); injection E5 as <- _; lia.
Qed.

(** ** The division loop *)

Lemma udiv_loop_ok (j : nat) : forall fuel a B r q,
  (j + 1 < fuel)%nat -> 0 < B -> 0 <= a < 2 * (B * 2 ^ Z.of_nat j) -> r = q * 2 ^ (Z.of_nat j + 1) ->
  udiv_loop fuel a (B * 2 ^ Z.of_nat j) (2 ^ Z.of_nat j) r = Some (r + a / B).
Proof.
  induction j as [| j IH]; intros fuel a B r q Hf HB Ha Hr.
  - destruct fuel as [| [| fuel]]; [lia | lia |]. cbn [udiv_loop]. rewrite Z.mul_1_r in *.
    change (2 ^ Z.of_nat 0) with 1 in *. change (0 <? 1) with true. cbv iota.
    change (1 .>> 1) with 0. change (0 <? 0) with false. cbv iota.
    assert (Hor : r .| 1 = r + 1).
    { apply lor_add. rewrite land_1, Hr. change (2 ^ (Z.of_nat 0 + 1)) with 2. zlia. }
    destruct (Z.leb_spec B a).
    + rewrite Hor. f_equal. f_equal. apply (Z.div_unique_pos _ _ _ (a - B)); lia.
    + f_equal. rewrite Z.div_small; lia.
  - destruct fuel as [| fuel]; [lia |]. cbn [udiv_loop].
    set (n := Z.of_nat j) in *. replace (Z.of_nat (S j)) with (n + 1) in * by lia.
    assert (Hn : 0 <= n) by lia.
    assert (Hp : 2 ^ (n + 1) = 2 * 2 ^ n) by (rewrite Z.pow_add_r by lia; lia).
    assert (Hpos : 0 < 2 ^ n) by (apply Z.pow_pos_nonneg; lia).
    rewrite (proj2 (Z.ltb_lt 0 (2 ^ (n + 1)))) by lia.
    assert (Hb : (B * 2 ^ (n + 1)) .>> 1 = B * 2 ^ n).
    { rewrite shiftr_div, Hp by lia. replace (B * (2 * 2 ^ n)) with (B * 2 ^ n * 2 ^ 1) by lia.
      by rewrite Z.div_mul. }
    assert (Hm : 2 ^ (n + 1) .>> 1 = 2 ^ n).
    { rewrite shiftr_div, Hp by lia. replace (2 * 2 ^ n) with (2 ^ n * 2 ^ 1) by lia. by rewrite Z.div_mul. }
    rewrite Hb, Hm. replace (n + 1 + 1) with ((n + 1) + 1) in Hr by lia.
    rewrite Z.pow_add_r in Hr by lia. change (2 ^ 1) with 2 in Hr.
    destruct (Z.leb_spec (B * 2 ^ (n + 1)) a).
    + assert (Hor : r .| 2 ^ (n + 1) = r + 2 ^ (n + 1)).
      { rewrite Hr, (Z.mul_comm (2 ^ (n + 1)) 2), Z.mul_assoc, <- (shiftl_mul _ (n + 1)) by lia.
        apply lor_add. apply Z.bits_inj'. intros i Hi. rewrite Z.land_spec, Z.testbit_0_l, Z.pow2_bits_eqb by lia.
        destruct (Z.eqb_spec (n + 1) i) as [<- |]; [| apply andb_false_r]. rewrite Z.shiftl_spec by lia.
        rewrite Z.sub_diag, Z.bit0_odd, Z.odd_mul, andb_false_r. done. }
      rewrite Hor. rewrite (IH fuel _ B _ (2 * q + 1)); [| lia | done | rewrite Hp in *; lia | lia].
      f_equal. replace a with (a - B * 2 ^ (n + 1) + 2 ^ (n + 1) * B) at 2 by lia. rewrite Z.div_add by lia. lia.
    + rewrite (IH fuel _ B _ (2 * q)); [done | lia | done | rewrite Hp in *; lia | lia].
Qed.

Lemma log2_scaled v : 0 < v < 2 ^ 64 ->
  0 <= Z.log2 v < 64 /\ 2 ^ 63 <= v * 2 ^ (63 - Z.log2 v) < 2 ^ 64.
Proof.
  intros Hv. assert (Hl : 0 <= Z.log2 v < 64).
  { split; [apply Z.log2_nonneg | apply Z.log2_lt_pow2; lia]. }
  split; [done |]. destruct (Z.log2_spec v) as [H1 H2]; [lia |].
  assert (H63 : 2 ^ 63 = 2 ^ Z.log2 v * 2 ^ (63 - Z.log2 v)) by (rewrite <- Z.pow_add_r by lia; f_equal; lia).
  assert (H64 : 2 ^ 64 = 2 ^ Z.succ (Z.log2 v) * 2 ^ (63 - Z.log2 v)) by (rewrite <- Z.pow_add_r by lia; f_equal; lia).
  assert (0 < 2 ^ (63 - Z.log2 v)) by (apply Z.pow_pos_nonneg; lia).
  rewrite H63, H64. split; [apply Z.mul_le_mono_nonneg_r | apply Z.mul_lt_mono_pos_r]; lia.
Qed.

Lemma udivdi3_div a b : 0 <= a < 2 ^ 64 -> 0 < b < 2 ^ 64 -> udivdi3 a b = Some (a / b).
Proof.
  intros Ha Hb. unfold udivdi3, div32. rewrite !shiftr_div by lia.
  destruct (Z.ltb_spec a b); [rewrite (Z.div_small a b) by lia; done |].
  destruct ((b / 2 ^ 32 =? 0) && (a / 2 ^ 32 =? 0)) eqn:E.
  { apply andb_true_iff in E as [E1%Z.eqb_eq E2%Z.eqb_eq]. unfold u32. rewrite !Z.mod_small by zlia.
    by rewrite (proj2 (Z.eqb_neq b 0)) by lia. }
  rewrite !cltz_spec by lia. destruct (log2_scaled a) as [La Sa]; [lia |]. destruct (log2_scaled b) as [Lb Sb]; [lia |].
  assert (Hll : Z.log2 b <= Z.log2 a) by (apply Z.log2_le_mono; lia).
  set (la := 63 - Z.log2 a) in *. set (lb := 63 - Z.log2 b) in *.
  assert (Hla : 0 <= la) by lia. assert (Hp : 0 < 2 ^ la) by (apply Z.pow_pos_nonneg; lia).
  assert (HB : b * 2 ^ la <= a * 2 ^ la) by (apply Z.mul_le_mono_nonneg_r; lia).
  assert (HB0 : 0 < b * 2 ^ la) by (apply Z.mul_pos_pos; lia).
  rewrite !shiftl_mul by lia. unfold u64. rewrite (Z.mod_small (a * 2 ^ la)), (Z.mod_small (b * 2 ^ la)) by lia.
  assert (Hq : a * 2 ^ la / (b * 2 ^ la) = a / b) by (apply Z.div_mul_cancel_r; lia).
  destruct ((lb - la <? 32) && (b * 2 ^ la .& 0x0ffffffff =? 0)) eqn:E2.
  - apply andb_true_iff in E2 as [_ E2%Z.eqb_eq]. change 0x0ffffffff with (2 ^ 32 - 1) in E2.
    rewrite land_ones_mod in E2 by lia. set (A := a * 2 ^ la) in *. set (B := b * 2 ^ la) in *.
    unfold u32. rewrite !Z.mod_small by zlia.
    rewrite (proj2 (Z.eqb_neq (B / 2 ^ 32) 0)) by zlia. f_equal. rewrite <- Hq.
    rewrite Z.div_div by zlia. f_equal. zlia.
  - assert (Hbl : b * 2 ^ lb = b * 2 ^ la * 2 ^ (lb - la)).
    { rewrite <- Z.mul_assoc, <- Z.pow_add_r by lia. do 2 f_equal. lia. }
    rewrite Z.mul_1_l, (Z.mod_small (b * 2 ^ lb)) by lia.
    assert (H1 : 2 ^ (lb - la) <= 2 ^ 63) by (apply Z.pow_le_mono_r; lia).
    assert (H0 : 0 < 2 ^ (lb - la)) by (apply Z.pow_pos_nonneg; lia).
    rewrite (Z.mod_small (2 ^ (lb - la))) by lia. rewrite Hbl in *.
    replace (lb - la) with (Z.of_nat (Z.to_nat (lb - la))) in * by lia.
    rewrite (udiv_loop_ok _ 65 _ _ 0 0); [by rewrite Hq | lia | done | lia | lia].
Qed.

(** ** Claims *)

(** C19: The shift-and-subtract division by 64-bit words, with its shortcuts
    through the 32-bit divider, computes quotient and remainder for every
    dividend and every divisor but zero; 65 iterations are always enough. *)
Theorem udivdi3_correct a b : 0 <= a < 2 ^ 64 -> 0 < b < 2 ^ 64 ->
  udivdi3 a b = Some (a / b) /\ umoddi3 a b = Some (a mod b).
Proof.
  intros Ha Hb. split; [by apply udivdi3_div |]. unfold umoddi3. rewrite udivdi3_div by done.
  f_equal. unfold u64. pose proof (Z.div_mod a b ltac:(lia)). pose proof (Z.mod_pos_bound a b ltac:(lia)).
  assert (0 <= a / b) by (apply Z.div_pos; lia).
  rewrite (Z.mod_small (a / b * b)) by nia. rewrite Z.mod_small; nia.
Qed.

Lemma udivdi3_correct_witness :
  udivdi3 0xfedcba9876543210 0x1000003 = Some 1094624713696 /\ umoddi3 0xfedcba9876543210 0x1000003 = Some 2973296.
Proof. apply (udivdi3_correct 0xfedcba9876543210 0x1000003); lia. Defined.

(** The signed division truncates toward zero, for every pair of 64-bit
    integers with a divisor other than zero; the one quotient that does not
    fit, of the smallest integer by -1, wraps around. *)
Theorem divdi3_truncates a b : - 2 ^ 63 <= a < 2 ^ 63 -> - 2 ^ 63 <= b < 2 ^ 63 -> b <> 0 ->
  divdi3 a b = Some (s64 (Z.quot a b)).
Proof.
  intros Ha Hb Hb0. assert (Hu : forall x, - 2 ^ 63 <= x < 2 ^ 63 -> x < 0 -> u64 (s64 (- x)) = - x).
  { intros x Hx Hn. unfold u64, s64. zlia. }
  assert (Hp : forall x, 0 <= x < 2 ^ 63 -> u64 x = x) by (intros; unfold u64; apply Z.mod_small; lia).
  assert (Hneg : forall r, s64 (- s64 r) = s64 (- r)) by (intros; unfold s64; zlia).
  assert (Hid : forall r, s64 (s64 r) = s64 r) by (intros; unfold s64; zlia).
  unfold divdi3. destruct (Z.ltb_spec a 0), (Z.ltb_spec b 0); cbn [Z.lxor truthy Z.eqb negb];
    cbv beta iota zeta; rewrite ?Hu, ?Hp by lia; rewrite udivdi3_div by lia; cbn [Pos.lxor truthy Z.eqb negb];
    rewrite ?Hneg; do 2 f_equal.
  - rewrite <- (Z.opp_involutive a), <- (Z.opp_involutive b) at 2. rewrite Z.quot_opp_opp by lia.
    symmetry. apply Z.quot_div_nonneg; lia.
  - rewrite <- (Z.opp_involutive a) at 2. rewrite Z.quot_opp_l by lia. f_equal.
    symmetry. apply Z.quot_div_nonneg; lia.
  - rewrite <- (Z.opp_involutive b) at 2. rewrite Z.quot_opp_r by lia. f_equal.
    symmetry. apply Z.quot_div_nonneg; lia.
  - symmetry. apply Z.quot_div_nonneg; lia.
Qed.

Lemma divdi3_truncates_witness : divdi3 (-7) 2 = Some (-3).
Proof. apply (divdi3_truncates (-7) 2); lia. Defined.
