(* ===== verification/Net.v ===== *)
(** The packet layer of the board's network software (src/sw/rv32): packets on
    the heap with their reference counts (pkt.c, pkt.h), Ethernet (ethproto.c)
    and the internet checksum (ipcksum.c).

    A [NET_PACKET *] is the number of a block of [n_heap]; [p_user] is the
    distance of the pointer from [p_raw].  Access through a freed pointer, or
    outside of the packet's memory, raises [FAULT].  [malloc] succeeds, and its
    memory holds the bytes [n_junk].  [char] is unsigned, as the RISC-V ABI has
    it.  What is only printed is left out.

    The network device is its two command registers, its receive buffer and the
    list of the frames it was told to send, each with the command. *)

From stdpp Require Import base tactics list numbers option gmap.
From Stdlib Require Import ZArith Lia.
From S2P Require Import Prelude.
Local Open Scope Z_scope.

(** ** Constants (zlib/board.h, protoconst.h) *)

Definition ENET_TXBUSY : Z := 0x004000.
Definition ENET_TXGO : Z := 0x004000.
Definition ENET_NOHWIPCHK : Z := 0x040000.
Definition ENET_RXLEN (cmd : Z) : Z := cmd .& 0x03fff.
Definition ENET_RXAVAIL : Z := 0x004000.
Definition ENET_RXBUSY : Z := 0x008000.
Definition ENET_RXMISS : Z := 0x010000.
Definition ENET_RXERR : Z := 0x020000.
Definition ENET_RXCRC : Z := 0x040000.
Definition ENET_RXCLR : Z := 0x004000.
Definition ENET_RXCLRERR : Z := ENET_RXMISS .| ENET_RXERR .| ENET_RXCRC .| ENET_RXBUSY.
Definition ETHERTYPE_IP : Z := 0x0800.
Definition ETHERTYPE_ARP : Z := 0x0806.
Definition IPPROTO_ICMP : Z := 1.
Definition IPPROTO_UDP : Z := 17.
Definition ICMP_ECHOREPLY : Z := 0.
Definition ICMP_PING : Z := 8.
Definition BIG_PRIME : Z := 0x0134513b.

(** ** State *)

Record NET_PACKET : Type := mkPkt {
  p_usage_count : Z;
  p_rawlen : Z;
  p_length : Z;
  p_user : Z;             (* p_user - p_raw *)
  p_mem : list Z          (* the memory at p_raw *)
}.

Record ARP_TABLE_ENTRY : Type := mkArp { valid : Z; age : Z; ipaddr : Z; mac : Z }.

Record NET : Type := mkNET {
  n_heap : gmap nat NET_PACKET;
  n_fresh : nat;
  n_junk : nat -> Z;
  my_mac_addr : Z;
  my_ip_addr : Z;
  my_ip_mask : Z;
  my_ip_router : Z;
  router_mac_addr : Z;
  ip_pktid : Z;
  icmppkt_id : Z;
  arp_requests_sent : Z;
  arp_table : list ARP_TABLE_ENTRY;
  arp_logid : Z;
  arp_table_log : list (Z * Z);
  eid_junk : Z;           (* what an uninitialised local of arp_table_add holds *)
  waiting_pkt : option nat;
  n_rxcmd : Z;
  n_txcmd : Z;
  n_rxbuf : list Z;       (* _netbrx *)
  n_sent : list (Z * list Z);
  n_gpio : Z
}.

#[export] Instance set_p_usage_count : Setter p_usage_count := fun v s =>
  mkPkt v (p_rawlen s) (p_length s) (p_user s) (p_mem s).
#[export] Instance set_p_length : Setter p_length := fun v s =>
  mkPkt (p_usage_count s) (p_rawlen s) v (p_user s) (p_mem s).
#[export] Instance set_p_user : Setter p_user := fun v s =>
  mkPkt (p_usage_count s) (p_rawlen s) (p_length s) v (p_mem s).
#[export] Instance set_p_mem : Setter p_mem := fun v s =>
  mkPkt (p_usage_count s) (p_rawlen s) (p_length s) (p_user s) v.
#[export] Instance set_valid : Setter valid := fun v s =>
  mkArp v (age s) (ipaddr s) (mac s).
#[export] Instance set_age : Setter age := fun v s =>
  mkArp (valid s) v (ipaddr s) (mac s).
#[export] Instance set_ipaddr : Setter ipaddr := fun v s =>
  mkArp (valid s) (age s) v (mac s).
#[export] Instance set_mac : Setter mac := fun v s =>
  mkArp (valid s) (age s) (ipaddr s) v.
#[export] Instance set_n_heap : Setter n_heap := fun v s =>
  mkNET v (n_fresh s) (n_junk s) (my_mac_addr s) (my_ip_addr s) (my_ip_mask s) (my_ip_router s) (router_mac_addr s) (ip_pktid s) (icmppkt_id s) (arp_requests_sent s) (arp_table s) (arp_logid s) (arp_table_log s) (eid_junk s) (waiting_pkt s) (n_rxcmd s) (n_txcmd s) (n_rxbuf s) (n_sent s) (n_gpio s).
#[export] Instance set_n_fresh : Setter n_fresh := fun v s =>
  mkNET (n_heap s) v (n_junk s) (my_mac_addr s) (my_ip_addr s) (my_ip_mask s) (my_ip_router s) (router_mac_addr s) (ip_pktid s) (icmppkt_id s) (arp_requests_sent s) (arp_table s) (arp_logid s) (arp_table_log s) (eid_junk s) (waiting_pkt s) (n_rxcmd s) (n_txcmd s) (n_rxbuf s) (n_sent s) (n_gpio s).
#[export] Instance set_router_mac_addr : Setter router_mac_addr := fun v s =>
  mkNET (n_heap s) (n_fresh s) (n_junk s) (my_mac_addr s) (my_ip_addr s) (my_ip_mask s) (my_ip_router s) v (ip_pktid s) (icmppkt_id s) (arp_requests_sent s) (arp_table s) (arp_logid s) (arp_table_log s) (eid_junk s) (waiting_pkt s) (n_rxcmd s) (n_txcmd s) (n_rxbuf s) (n_sent s) (n_gpio s).
#[export] Instance set_ip_pktid : Setter ip_pktid := fun v s =>
  mkNET (n_heap s) (n_fresh s) (n_junk s) (my_mac_addr s) (my_ip_addr s) (my_ip_mask s) (my_ip_router s) (router_mac_addr s) v (icmppkt_id s) (arp_requests_sent s) (arp_table s) (arp_logid s) (arp_table_log s) (eid_junk s) (waiting_pkt s) (n_rxcmd s) (n_txcmd s) (n_rxbuf s) (n_sent s) (n_gpio s).
#[export] Instance set_icmppkt_id : Setter icmppkt_id := fun v s =>
  mkNET (n_heap s) (n_fresh s) (n_junk s) (my_mac_addr s) (my_ip_addr s) (my_ip_mask s) (my_ip_router s) (router_mac_addr s) (ip_pktid s) v (arp_requests_sent s) (arp_table s) (arp_logid s) (arp_table_log s) (eid_junk s) (waiting_pkt s) (n_rxcmd s) (n_txcmd s) (n_rxbuf s) (n_sent s) (n_gpio s).
#[export] Instance set_arp_requests_sent : Setter arp_requests_sent := fun v s =>
  mkNET (n_heap s) (n_fresh s) (n_junk s) (my_mac_addr s) (my_ip_addr s) (my_ip_mask s) (my_ip_router s) (router_mac_addr s) (ip_pktid s) (icmppkt_id s) v (arp_table s) (arp_logid s) (arp_table_log s) (eid_junk s) (waiting_pkt s) (n_rxcmd s) (n_txcmd s) (n_rxbuf s) (n_sent s) (n_gpio s).
#[export] Instance set_arp_table : Setter arp_table := fun v s =>
  mkNET (n_heap s) (n_fresh s) (n_junk s) (my_mac_addr s) (my_ip_addr s) (my_ip_mask s) (my_ip_router s) (router_mac_addr s) (ip_pktid s) (icmppkt_id s) (arp_requests_sent s) v (arp_logid s) (arp_table_log s) (eid_junk s) (waiting_pkt s) (n_rxcmd s) (n_txcmd s) (n_rxbuf s) (n_sent s) (n_gpio s).
#[export] Instance set_arp_logid : Setter arp_logid := fun v s =>
  mkNET (n_heap s) (n_fresh s) (n_junk s) (my_mac_addr s) (my_ip_addr s) (my_ip_mask s) (my_ip_router s) (router_mac_addr s) (ip_pktid s) (icmppkt_id s) (arp_requests_sent s) (arp_table s) v (arp_table_log s) (eid_junk s) (waiting_pkt s) (n_rxcmd s) (n_txcmd s) (n_rxbuf s) (n_sent s) (n_gpio s).
#[export] Instance set_arp_table_log : Setter arp_table_log := fun v s =>
  mkNET (n_heap s) (n_fresh s) (n_junk s) (my_mac_addr s) (my_ip_addr s) (my_ip_mask s) (my_ip_router s) (router_mac_addr s) (ip_pktid s) (icmppkt_id s) (arp_requests_sent s) (arp_table s) (arp_logid s) v (eid_junk s) (waiting_pkt s) (n_rxcmd s) (n_txcmd s) (n_rxbuf s) (n_sent s) (n_gpio s).
#[export] Instance set_waiting_pkt : Setter waiting_pkt := fun v s =>
  mkNET (n_heap s) (n_fresh s) (n_junk s) (my_mac_addr s) (my_ip_addr s) (my_ip_mask s) (my_ip_router s) (router_mac_addr s) (ip_pktid s) (icmppkt_id s) (arp_requests_sent s) (arp_table s) (arp_logid s) (arp_table_log s) (eid_junk s) v (n_rxcmd s) (n_txcmd s) (n_rxbuf s) (n_sent s) (n_gpio s).
#[export] Instance set_n_rxcmd : Setter n_rxcmd := fun v s =>
  mkNET (n_heap s) (n_fresh s) (n_junk s) (my_mac_addr s) (my_ip_addr s) (my_ip_mask s) (my_ip_router s) (router_mac_addr s) (ip_pktid s) (icmppkt_id s) (arp_requests_sent s) (arp_table s) (arp_logid s) (arp_table_log s) (eid_junk s) (waiting_pkt s) v (n_txcmd s) (n_rxbuf s) (n_sent s) (n_gpio s).
#[export] Instance set_n_txcmd : Setter n_txcmd := fun v s =>
  mkNET (n_heap s) (n_fresh s) (n_junk s) (my_mac_addr s) (my_ip_addr s) (my_ip_mask s) (my_ip_router s) (router_mac_addr s) (ip_pktid s) (icmppkt_id s) (arp_requests_sent s) (arp_table s) (arp_logid s) (arp_table_log s) (eid_junk s) (waiting_pkt s) (n_rxcmd s) v (n_rxbuf s) (n_sent s) (n_gpio s).
#[export] Instance set_n_sent : Setter n_sent := fun v s =>
  mkNET (n_heap s) (n_fresh s) (n_junk s) (my_mac_addr s) (my_ip_addr s) (my_ip_mask s) (my_ip_router s) (router_mac_addr s) (ip_pktid s) (icmppkt_id s) (arp_requests_sent s) (arp_table s) (arp_logid s) (arp_table_log s) (eid_junk s) (waiting_pkt s) (n_rxcmd s) (n_txcmd s) (n_rxbuf s) v (n_gpio s).
#[export] Instance set_n_gpio : Setter n_gpio := fun v s =>
  mkNET (n_heap s) (n_fresh s) (n_junk s) (my_mac_addr s) (my_ip_addr s) (my_ip_mask s) (my_ip_router s) (router_mac_addr s) (ip_pktid s) (icmppkt_id s) (arp_requests_sent s) (arp_table s) (arp_logid s) (arp_table_log s) (eid_junk s) (waiting_pkt s) (n_rxcmd s) (n_txcmd s) (n_rxbuf s) (n_sent s) v.

(** ** Pointers *)

Abbreviation NM := (M NET).

Definition deref (p : nat) : NM NET_PACKET := fun s =>
  match n_heap s !! p with Some k => Ret k s | None => Exn FAULT s end.
Definition assign (p : nat) (k : NET_PACKET) : NM unit :=
  modify (fun s => s <| n_heap := <[p := k]> (n_heap s) |>).
Definition update (p : nat) (f : NET_PACKET -> NET_PACKET) : NM unit :=
  let* k := deref p in assign p (f k).

(** [p->p_user[i]] *)
Definition rdb (p : nat) (i : Z) : NM Z :=
  let* k := deref p in
  let j := p_user k + i in
  if 0 <=? j then
    match p_mem k !! Z.to_nat j with Some b => ret b | None => raise FAULT end
  else raise FAULT.

(** [p->p_user[i] = v] *)
Definition wrb (p : nat) (i v : Z) : NM unit :=
  let* k := deref p in
  let j := p_user k + i in
  if (0 <=? j) && (j <? Z.of_nat (length (p_mem k)))
  then assign p (k <| p_mem := <[Z.to_nat j := u8 v]> (p_mem k) |>)
  else raise FAULT.

(** [p->p_user[i]], [p->p_user[i+1]], ... set in turn. *)
Fixpoint wrbs (p : nat) (i : Z) (vs : list Z) : NM unit :=
  match vs with
  | [] => ret tt
  | v :: vs' => wrb p i v ;; wrbs p (i + 1) vs'
  end.

(** [n] bytes of memory from [p->p_user+i]. *)
Definition rdbs (p : nat) (i n : Z) : NM (list Z) :=
  let* k := deref p in
  let j := p_user k + i in
  if (0 <=? j) && (0 <=? n) && (j + n <=? Z.of_nat (length (p_mem k)))
  then ret (take (Z.to_nat n) (drop (Z.to_nat j) (p_mem k)))
  else raise FAULT.

(** [p->p_user += n; p->p_length -= n;] *)
Definition advance_user (p : nat) (n : Z) : NM unit :=
  update p (fun k => k <| p_user := p_user k + n |> <| p_length := p_length k - n |>).

(** ** pkt.c *)

Definition malloc_pkt (f : NET_PACKET) : NM nat := fun s =>
  let p := n_fresh s in
  Ret p (s <| n_heap := <[p := f]> (n_heap s) |> <| n_fresh := S p |>).

(** A write to [_net1->n_rxcmd]: the bits written clear their conditions. *)
Definition write_rxcmd (v : Z) : NM unit := modify (fun s => s <| n_rxcmd := n_rxcmd s .& ~. v |>).

Definition rx_pkt : NM (option nat) :=
  let* s := get in
  let rxv := n_rxcmd s in
  if truthy (rxv .& ENET_RXAVAIL) then
    let pktlen := ENET_RXLEN rxv in
    if truthy (rxv .& ENET_RXCLRERR) || (2047 <? pktlen) then
      write_rxcmd (ENET_RXCLRERR .| ENET_RXCLR) ;; ret None
    else if decide (Z.to_nat pktlen + 2 <= length (n_rxbuf s))%nat then
      let* p := malloc_pkt (mkPkt 1 pktlen pktlen 0 (take (Z.to_nat pktlen + 2) (n_rxbuf s))) in
      write_rxcmd (ENET_RXCLRERR .| ENET_RXCLR) ;; ret (Some p)
    else raise FAULT
  else ret None.

Definition pkt_reset (p : nat) : NM unit :=
  update p (fun k => k <| p_length := p_rawlen k |> <| p_user := 0 |>).

Definition new_pkt (msglen : Z) : NM nat :=
  let* s := get in
  malloc_pkt (mkPkt 1 msglen msglen 0 (map (fun i => u8 (n_junk s i)) (seq 0 (Z.to_nat msglen)))).

Definition free_pkt (p : nat) : NM unit :=
  let* k := deref p in
  let k := if 0 <? p_usage_count k then k <| p_usage_count := p_usage_count k - 1 |> else k in
  assign p k ;;
  if p_usage_count k =? 0 then modify (fun s => s <| n_heap := delete p (n_heap s) |>) else ret tt.

(** [tx_busy] (pingtest.c, and the same in fftmain.c): one packet waits for the
    device, the latest one. *)
Definition tx_busy (p : nat) : NM unit :=
  let* s := get in
  match waiting_pkt s with
  | None => modify (fun s => s <| waiting_pkt := Some p |>)
  | Some q =>
      if decide (p = q) then ret tt
      else free_pkt q ;; modify (fun s => s <| waiting_pkt := Some p |>)
  end.

Definition tx_pkt (p : nat) : NM unit :=
  let* s := get in
  if truthy (n_txcmd s .& ENET_TXBUSY) then tx_busy p
  else
    let* k := deref p in
    let* bs := rdbs p 0 (p_length k) in
    let txcmd := (ENET_TXGO .| p_length k) .| ENET_NOHWIPCHK in
    modify (fun s => s <| n_txcmd := txcmd |> <| n_sent := n_sent s ++ [(txcmd, bs)] |>) ;;
    free_pkt p.

(** ** ethproto.c *)

Definition eth_headersize : Z := 8.

Definition new_ethpkt (ln : Z) : NM nat :=
  let* p := new_pkt (ln + 8) in
  advance_user p 8 ;;
  ret p.

(** The six bytes of a hardware address, the four of an internet address. *)
Definition mac_bytes (m : Z) : list Z :=
  [(m .>> 40) .& 0x0ff; (m .>> 32) .& 0x0ff; (m .>> 24) .& 0x0ff;
   (m .>> 16) .& 0x0ff; (m .>> 8) .& 0x0ff; m .& 0x0ff].
Definition ip_bytes (a : Z) : list Z :=
  [(a .>> 24) .& 0x0ff; (a .>> 16) .& 0x0ff; (a .>> 8) .& 0x0ff; a .& 0x0ff].
Definition be16 (v : Z) : list Z := [(v .>> 8) .& 0x0ff; v .& 0x0ff].

Definition tx_ethpkt (p : nat) (ethtype mac : Z) : NM unit :=
  advance_user p (- eth_headersize) ;;
  wrbs p 0 (mac_bytes mac) ;;
  wrbs p 6 (be16 ethtype) ;;
  tx_pkt p.

Definition rx_ethpkt (p : nat) : NM unit := advance_user p 8.

(** [v = (p_user[i] & 0xff) | (v << 8)] for [n] bytes from [i]; [w] is the
    width of [v]. *)
Fixpoint rdval (w : Z) (p : nat) (i : Z) (n : nat) (v : Z) : NM Z :=
  match n with
  | O => ret v
  | S n' => let* b := rdb p i in rdval w p (i + 1) n' ((b .& 0x0ff) .| ((v .<< 8) mod 2 ^ w))
  end.

Definition ethpkt_mac (p : nat) : NM Z := rdval 64 p 0 6 0.

Definition ethpkt_ethtype (p : nat) : NM Z :=
  let* b6 := rdb p 6 in
  let* b7 := rdb p 7 in
  ret (((b6 .& 0x0ff) .<< 8) .| (b7 .& 0x0ff)).

(** ** ipcksum.c *)

(** [for(int i=0; i<len; i+=2) checksum = checksum + (ucp[i]<<8) + ucp[i+1];]
    with [n] bytes left from [i]. *)
Fixpoint cksum_loop (fuel : nat) (len i : Z) (bs : list Z) (checksum : Z) : option Z :=
  match fuel with
  | O => None
  | S fuel' =>
      if i <? len then
        match bs !! Z.to_nat i, bs !! Z.to_nat (i + 1) with
        | Some a, Some b =>
            cksum_loop fuel' len (i + 2) bs (u32 (u32 (checksum + ((a .& 0x0ff) .<< 8)) + (b .& 0x0ff)))
        | _, _ => None
        end
      else Some checksum
  end.

(** [while(checksum & ~0x0ffff) checksum = (checksum & 0x0ffff) + (checksum >> 16);] *)
Fixpoint cksum_fold (fuel : nat) (checksum : Z) : option Z :=
  match fuel with
  | O => None
  | S fuel' =>
      if truthy (checksum .& 0xffff0000)
      then cksum_fold fuel' (u32 ((checksum .& 0x0ffff) + (checksum .>> 16)))
      else Some checksum
  end.

(** [bs] is the memory at [ptr]. *)
Definition ipcksum (len : Z) (bs : list Z) : option Z :=
  match cksum_loop (S (Z.to_nat len)) len 0 bs 0 with
  | Some c => match cksum_fold 3 c with Some c => Some (c .^ 0x0ffff) | None => None end
  | None => None
  end.

(** [ipcksum(len, p->p_user)] *)
Definition pkt_cksum (len : Z) (p : nat) : NM Z :=
  let* k := deref p in
  if 0 <=? p_user k then
    match ipcksum len (drop (Z.to_nat (p_user k)) (p_mem k)) with Some c => ret c | None => raise FAULT end
  else raise FAULT.
