(* ===== verification/NetProto.v ===== *)
(** The protocols of the board's network software (src/sw/rv32): address
    resolution (arp.c), internet packets (ipproto.c), echo (icmp.c), datagrams
    (udpproto.c), and the polling loop of the ping program (pingtest.c), over
    the packets of [Net].

    [new_udppkt] ends without a return statement: what its callers get is a
    parameter. *)

From stdpp Require Import base tactics list numbers option gmap.
From Stdlib Require Import ZArith Lia.
From S2P Require Import Prelude Net.
Local Open Scope Z_scope.

(** ** Printing a packet: the memory it reads, and what it puts back *)

Definition dump_raw (p : nat) : NM unit :=
  let* k := deref p in
  rdbs p (- p_user k) (p_user k) ;;
  rdbs p 0 (u32 (p_length k)) ;;
  ret tt.

Definition dump_arppkt (p : nat) : NM unit := rdbs p 0 28 ;; ret tt.

Definition dump_icmp (p : nat) : NM unit :=
  rdbs p 0 2 ;;
  let* b2 := rdb p 2 in
  let* b3 := rdb p 3 in
  let pktsum := ((b2 .& 0x0ff) .<< 8) .| (b3 .& 0x0ff) in
  wrb p 2 0 ;;
  wrb p 3 0 ;;
  let* k := deref p in
  pkt_cksum (p_length k) p ;;
  wrb p 2 ((pktsum .>> 8) .& 0x0ff) ;;
  wrb p 3 (pktsum .& 0x0ff) ;;
  (if 4 <? u32 (p_length k) then rdbs p 4 (u32 (p_length k) - 4) ;; ret tt else ret tt).

Definition dump_ippkt (p : nat) : NM unit :=
  let* b0 := rdb p 0 in
  let ihl := (b0 .& 0x0f) * 4 in
  let* k := deref p in
  if negb (b0 =? 0x45) then
    rdbs p 0 (Z.max 0 (p_rawlen k - p_user k)) ;;
    rdbs p (- p_user k) (p_rawlen k) ;;
    raise HANG
  else
    let* b2 := rdb p 2 in
    let* b3 := rdb p 3 in
    let pktln := ((b2 .& 0x0ff) .<< 8) .| (b3 .& 0x0ff) in
    if u32 (p_length k) <? pktln then ret tt
    else
      let* b9 := rdb p 9 in
      let proto := b9 .& 0x0ff in
      let* b10 := rdb p 10 in
      let* b11 := rdb p 11 in
      let cksum := ((b10 .& 0x0ff) .<< 8) .| (b11 .& 0x0ff) in
      wrb p 10 0 ;;
      wrb p 11 0 ;;
      pkt_cksum ihl p ;;
      wrb p 10 ((cksum .>> 8) .& 0x0ff) ;;
      wrb p 11 (cksum .& 0x0ff) ;;
      rdbs p 12 8 ;;
      advance_user p ihl ;;
      (if proto =? IPPROTO_ICMP then dump_icmp p else ret tt) ;;
      advance_user p (- ihl).

Definition dump_ethpkt (p : nat) : NM unit :=
  pkt_reset p ;;
  rdbs p 0 6 ;;
  let* ty := ethpkt_ethtype p in
  if ty =? ETHERTYPE_IP then advance_user p 8 ;; dump_ippkt p ;; advance_user p (-8)
  else if ty =? ETHERTYPE_ARP then advance_user p 8 ;; dump_arppkt p ;; advance_user p (-8)
  else ret tt.

(** ** arp.c *)

Definition ARP_REQUEST : Z := 1.
Definition ARP_REPLY : Z := 2.
Definition NUM_ARP_ENTRIES : nat := 8.

Definition arp_packet : list Z :=
  [0x00; 0x01; 0x08; 0x00; 0x06; 0x04; 0x00; 0x01] ++ replicate 20 0.

Definition arp_entry (eid : Z) : NM ARP_TABLE_ENTRY := fun s =>
  match (if 0 <=? eid then arp_table s !! Z.to_nat eid else None) with
  | Some e => Ret e s
  | None => Exn FAULT s
  end.
Definition arp_set (eid : Z) (f : ARP_TABLE_ENTRY -> ARP_TABLE_ENTRY) : NM unit :=
  let* e := arp_entry eid in
  modify (fun s => s <| arp_table := <[Z.to_nat eid := f e]> (arp_table s) |>).

Fixpoint init_arp_loop (n : nat) (k : Z) : NM unit :=
  match n with
  | O => ret tt
  | S n' => arp_set k (fun e => e <| valid := 0 |>) ;; init_arp_loop n' (k + 1)
  end.
Definition init_arp_table : NM unit := init_arp_loop NUM_ARP_ENTRIES 0.

(** The first entry not in use, or else the eldest. *)
Fixpoint next_index_loop (n : nat) (eid eldest oldage : Z) : NM Z :=
  match n with
  | O => ret eldest
  | S n' =>
      let* e := arp_entry eid in
      if negb (truthy (valid e)) then ret eid
      else if oldage <? age e then next_index_loop n' (eid + 1) eid (age e)
      else next_index_loop n' (eid + 1) eldest oldage
  end.
Definition get_next_arp_index : NM Z := next_index_loop NUM_ARP_ENTRIES 0 0 0.

Definition new_arp : NM nat := new_ethpkt 28.

(** The body of a request or reply of ours. *)
Definition arp_fill (p : nat) (op dst_mac dst_ip : Z) : NM unit :=
  let* s := get in
  wrbs p 0 arp_packet ;;
  wrb p 7 op ;;
  wrbs p 8 (mac_bytes (my_mac_addr s)) ;;
  wrbs p 14 (ip_bytes (my_ip_addr s)) ;;
  wrbs p 18 (mac_bytes dst_mac) ;;
  wrbs p 24 (ip_bytes dst_ip).

Definition broadcast : Z := 0x0ffffffffffff.

Definition send_arp_request (ip : Z) : NM unit :=
  let* p := new_arp in
  arp_fill p ARP_REQUEST 0 ip ;;
  modify (fun s => s <| arp_requests_sent := u32 (arp_requests_sent s + 1) |>) ;;
  tx_ethpkt p ETHERTYPE_ARP broadcast.

(** The search of [arp_lookup]: the hardware address found.  Entries passed
    over grow older, and the eldest so far is dropped at a great age. *)
Fixpoint arp_search (n : nat) (eid oldage : Z) (ip : Z) : NM (option Z) :=
  match n with
  | O => ret None
  | S n' =>
      let* e := arp_entry eid in
      if truthy (valid e) then
        if ipaddr e =? ip then
          arp_set eid (fun e => e <| age := 0 |>) ;; ret (Some (mac e))
        else if oldage <? age e then
          arp_set eid (fun e => e <| age := u32 (age e + 1) |>) ;;
          (if 0x010000 <=? s32 (age e) then arp_set eid (fun e => e <| valid := 0 |>) else ret tt) ;;
          arp_search n' (eid + 1) (age e) ip
        else
          arp_set eid (fun e => e <| age := u32 (age e + 1) |>) ;;
          arp_search n' (eid + 1) oldage ip
      else arp_search n' (eid + 1) oldage ip
  end.

(** [None] for a result of 1: not found, and asked for. *)
Definition arp_lookup (ip : Z) : NM (option Z) :=
  let* s := get in
  if (truthy ((ip .^ my_ip_addr s) .& my_ip_mask s) || (ip =? my_ip_router s)) && truthy (router_mac_addr s)
  then ret (Some (router_mac_addr s))
  else
    let* r := arp_search NUM_ARP_ENTRIES 0 0 ip in
    match r with
    | Some m => ret (Some m)
    | None => send_arp_request ip ;; ret None
    end.

(** The loop that replaces the hardware address of a known host. *)
Fixpoint arp_replace (n : nat) (eid ip m : Z) : NM unit :=
  match n with
  | O => ret tt
  | S n' =>
      let* e := arp_entry eid in
      if truthy (valid e) && (ipaddr e =? ip) then
        arp_set eid (fun e => e <| valid := 0 |>) ;;
        arp_set eid (fun e => e <| age := 0 |>) ;;
        arp_set eid (fun e => e <| mac := m |>) ;;
        arp_set eid (fun e => e <| valid := 1 |>)
      else arp_replace n' (eid + 1) ip m
  end.

Definition arp_log (ip m : Z) : NM unit :=
  modify (fun s => s <| arp_table_log := <[Z.to_nat (arp_logid s) := (ip, m)]> (arp_table_log s) |>
                     <| arp_logid := (arp_logid s + 1) .& 31 |>).

(** In the last branch [ev] points to the entry of an [eid] that has no value
    yet. *)
Definition arp_table_add (ip m : Z) : NM unit :=
  arp_log ip m ;;
  let* s := get in
  if ip =? my_ip_addr s then ret tt
  else if ip =? my_ip_router s then modify (fun s => s <| router_mac_addr := m |>)
  else
    let* r := arp_lookup ip in
    match r with
    | Some lclmac =>
        if negb (m =? lclmac) then arp_replace NUM_ARP_ENTRIES 0 ip m else ret tt
    | None =>
        let ev := eid_junk s in
        let* eid := get_next_arp_index in
        arp_set ev (fun e => e <| valid := 0 |>) ;;
        arp_set eid (fun e => e <| age := 0 |>) ;;
        arp_set eid (fun e => e <| ipaddr := ip |>) ;;
        arp_set eid (fun e => e <| mac := m |>) ;;
        arp_set ev (fun e => e <| valid := 1 |>)
    end.

Definition send_arp_reply (dst_mac dst_ip : Z) : NM unit :=
  let* p := new_arp in
  arp_fill p ARP_REPLY dst_mac dst_ip ;;
  tx_ethpkt p ETHERTYPE_ARP dst_mac.

(** The first bytes are those of [arp_packet]: [n] left from [k]. *)
Fixpoint arp_matches (n : nat) (p : nat) (k : Z) : NM bool :=
  match n with
  | O => ret true
  | S n' =>
      let* b := rdb p k in
      if negb (b =? arp_packet !!! Z.to_nat k) then ret false else arp_matches n' p (k + 1)
  end.

Definition rx_arp (p : nat) : NM unit :=
  let* ok := arp_matches 6 p 0 in
  if negb ok then
    dump_raw p ;;
    pkt_reset p ;;
    dump_ethpkt p ;;
    free_pkt p
  else
    let* src_mac := rdval 64 p 8 6 0 in
    let* src_ip := rdval 32 p 14 4 0 in
    let* op := rdb p 7 in
    (if op =? 1 then send_arp_reply src_mac src_ip
     else if op =? 2 then arp_table_add src_ip src_mac
     else ret tt) ;;
    free_pkt p.

(** ** ipproto.c *)

Definition ip_headersize : Z := 5 * 4.

Definition new_ippkt (ln : Z) : NM nat :=
  let* p := new_ethpkt (ln + 20) in
  advance_user p 20 ;;
  ret p.

Definition ip_set (p : nat) (subproto src dest : Z) : NM unit :=
  let* k := deref p in
  wrbs p 0 [0x45; 0x00; (p_length k .>> 8) .& 0x0ff; p_length k .& 0x0ff] ;;
  modify (fun s => s <| ip_pktid := u32 (ip_pktid s + BIG_PRIME) |>) ;;
  let* s := get in
  wrbs p 4 [(ip_pktid s .>> 8) .& 0x0ff; ip_pktid s .& 0x0ff; 0x00; 0x00; 0x80; subproto; 0x00; 0x00] ;;
  wrbs p 12 (ip_bytes src) ;;
  wrbs p 16 (ip_bytes dest) ;;
  let* cksum := pkt_cksum ip_headersize p in
  wrb p 10 ((cksum .>> 8) .& 0x0ff) ;;
  wrb p 11 (cksum .& 0x0ff).

Definition tx_ippkt (p : nat) (subproto src dest : Z) : NM unit :=
  let* k := deref p in
  if p_user k <? 20 + 8 then
    dump_ippkt p ;;
    free_pkt p ;;
    modify (fun s => s <| n_gpio := 0x0100010 |>)
  else
    advance_user p (- ip_headersize) ;;
    ip_set p subproto src dest ;;
    let* r := arp_lookup dest in
    match r with
    | Some m => tx_ethpkt p ETHERTYPE_IP m
    | None => free_pkt p
    end.

Definition rx_ippkt (p : nat) : NM unit :=
  let* b := rdb p 0 in
  advance_user p ((b .& 0x0f) * 4).

Definition ippkt_src (p : nat) : NM Z := rdval 32 p 12 4 0.
Definition ippkt_dst (p : nat) : NM Z := rdval 32 p 16 4 0.
Definition ippkt_subproto (p : nat) : NM Z := let* b := rdb p 9 in ret (b .& 0x0ff).

(** ** icmp.c *)

Definition new_icmp (ln : Z) : NM nat := new_ippkt ln.

Definition icmp_reply (ip : Z) (req : nat) : NM unit :=
  let* k := deref req in
  let pktln := if p_length k <? 8 then 8 else p_length k in
  let* b := rdb req 0 in
  if negb (b =? ICMP_PING) then ret tt
  else if 1024 <=? pktln then ret tt
  else
    let* p := new_icmp pktln in
    let* bs := rdbs req 0 pktln in
    wrbs p 0 bs ;;
    wrbs p 0 [ICMP_ECHOREPLY; 0; 0; 0] ;;
    let* k := deref p in
    let* cksum := pkt_cksum (p_length k) p in
    wrbs p 2 (be16 cksum) ;;
    let* s := get in
    tx_ippkt p IPPROTO_ICMP (my_ip_addr s) ip.

Definition icmp_send_ping (ip : Z) : NM unit :=
  let* p := new_icmp 8 in
  wrbs p 0 [ICMP_PING; 0x00; 0x00; 0x00] ;;
  modify (fun s => s <| icmppkt_id := u32 (icmppkt_id s + BIG_PRIME + (BIG_PRIME .<< 2)) |>) ;;
  let* s := get in
  wrbs p 4 (ip_bytes (icmppkt_id s)) ;;
  let* cksum := pkt_cksum 8 p in
  wrbs p 2 (be16 cksum) ;;
  update p (fun k => k <| p_length := 8 |>) ;;
  tx_ippkt p IPPROTO_ICMP (my_ip_addr s) ip.

(** ** udpproto.c *)

Definition udp_headersize : Z := 8.

(** The function ends without a return statement: its callers get what the
    register of the result holds then, [a0] of the packet. *)
Definition new_udppkt (a0 : nat -> nat) (len : Z) : NM nat :=
  let* p := new_ippkt (len + udp_headersize) in
  advance_user p udp_headersize ;;
  ret (a0 p).

Definition tx_udp (p : nat) (dest sport dport : Z) : NM unit :=
  advance_user p (- udp_headersize) ;;
  let* k := deref p in
  wrbs p 0 (be16 sport ++ be16 dport ++ be16 (p_length k) ++ [0; 0]) ;;
  let* s := get in
  tx_ippkt p IPPROTO_UDP (my_ip_addr s) dest.

Definition rx_udp (p : nat) : NM unit :=
  let* b4 := rdb p 4 in
  let* b5 := rdb p 5 in
  let ln := ((b4 .& 0x0ff) .<< 8) .| (b5 .& 0x0ff) in
  update p (fun k =>
    k <| p_user := p_user k + udp_headersize |>
      <| p_length := if ln <=? 8 then 0
                     else if ln <? u32 (p_length k) then ln - udp_headersize
                     else p_length k - udp_headersize |>).

Definition udp_sport (p : nat) : NM Z :=
  let* b0 := rdb p 0 in
  let* b1 := rdb p 1 in
  ret (((b0 .& 0x0ff) .<< 8) .| (b1 .& 0x0ff)).
Definition udp_dport (p : nat) : NM Z :=
  let* b2 := rdb p 2 in
  let* b3 := rdb p 3 in
  ret (((b2 .& 0x0ff) .<< 8) .| (b3 .& 0x0ff)).

(** The checksum that it puts back is the one it has computed. *)
Definition dump_udppkt (p : nat) : NM unit :=
  udp_sport p ;;
  udp_dport p ;;
  let* b4 := rdb p 4 in
  let* b5 := rdb p 5 in
  let len := ((b4 .& 0x0ff) .<< 8) .| (b5 .& 0x0ff) in
  rdbs p 6 2 ;;
  wrb p 6 0 ;;
  wrb p 7 0 ;;
  let* cksum := pkt_cksum len p in
  wrb p 6 ((cksum .>> 8) .& 0x0ff) ;;
  wrb p 7 (cksum .& 0x0ff) ;;
  (if 8 <? len then rdbs p 8 (len - 8) ;; ret tt else ret tt).

(** ** pingtest.c *)

Definition BUSPIC_TIMER : Z := 1 .<< 1.
Definition BUSPIC_NETTX : Z := 1 .<< 6.
Definition BUSPIC_NETRX : Z := 1 .<< 7.

(** What is done with a packet that was received. *)
Definition ping_packet (p : nat) : NM unit :=
  update p (fun k => k <| p_usage_count := p_usage_count k + 1 |>) ;;
  let* ty := ethpkt_ethtype p in
  (if ty =? ETHERTYPE_ARP then
     rx_ethpkt p ;; rx_arp p
   else if ty =? ETHERTYPE_IP then
     rx_ethpkt p ;;
     let* ipsrc := ippkt_src p in
     let* ipdst := ippkt_dst p in
     let* subproto := ippkt_subproto p in
     rx_ippkt p ;;
     let* s := get in
     if ipdst =? my_ip_addr s then
       if subproto =? IPPROTO_ICMP then
         let* b := rdb p 0 in
         (if b =? ICMP_PING then icmp_reply ipsrc p else ret tt) ;;
         free_pkt p
       else pkt_reset p ;; dump_ethpkt p ;; free_pkt p
     else ret tt
   else pkt_reset p ;; dump_ethpkt p ;; free_pkt p) ;;
  free_pkt p.

(** One turn of the polling loop, with the interrupts [pic]: the new values of
    [now] and [lastping].  [heartbeats], [lasthello] and the acknowledgements
    of the interrupt controller are left out. *)
Definition ping_turn (host_ip pic : Z) (c : Z * Z) : NM (Z * Z) :=
  let '(now, lastping) := c in
  let* c :=
    (if truthy (pic .& BUSPIC_TIMER) then
       let now := u32 (now + 1) in
       let* s := get in
       if (20 <=? u32 (now - lastping)) && bool_decide (waiting_pkt s = None) then
         icmp_send_ping host_ip ;; ret (now, now)
       else ret (now, lastping)
     else ret (now, lastping)) in
  (if truthy (pic .& BUSPIC_NETRX) then
     let* r := rx_pkt in
     match r with Some p => ping_packet p | None => ret tt end
   else
     let* s := get in
     if truthy (n_rxcmd s .& ENET_RXCLRERR) then write_rxcmd (ENET_RXCLRERR .| ENET_RXCLR) else ret tt) ;;
  (if truthy (pic .& BUSPIC_NETTX) then
     let* s := get in
     match waiting_pkt s with
     | Some p => modify (fun s => s <| waiting_pkt := None |>) ;; tx_pkt p
     | None => ret tt
     end
   else ret tt) ;;
  ret c.
