(* ===== verification/NetWp.v ===== *)
(** Reasoning about packets in memory: what the operations of [Net] do to a
    packet whose memory is written as the pieces that they touch. *)

From stdpp Require Import base tactics list numbers option gmap.
From Stdlib Require Import ZArith Lia.
From S2P Require Import Prelude Net.
Local Open Scope Z_scope.

(** Reads and updates of fields, and nothing else. *)
Ltac nfields := cbv [
  set_field set_n_heap set_n_fresh set_router_mac_addr set_ip_pktid set_icmppkt_id
  set_arp_requests_sent set_arp_table set_arp_logid set_arp_table_log set_waiting_pkt
  set_n_rxcmd set_n_txcmd set_n_sent set_n_gpio set_p_usage_count set_p_length set_p_user
  set_p_mem set_valid set_age set_ipaddr set_mac n_heap n_fresh n_junk my_mac_addr
  my_ip_addr my_ip_mask my_ip_router router_mac_addr ip_pktid icmppkt_id arp_requests_sent
  arp_table arp_logid arp_table_log eid_junk waiting_pkt n_rxcmd n_txcmd n_rxbuf n_sent
  n_gpio p_usage_count p_rawlen p_length p_user p_mem valid age ipaddr mac] in *.

(** ** The heap *)

Definition put (p : nat) (k : NET_PACKET) (s : NET) : NET := s <| n_heap := <[p := k]> (n_heap s) |>.

Lemma put_lookup p k s : n_heap (put p k s) !! p = Some k.
Proof. destruct s. apply lookup_insert_eq. Qed.
Lemma put_put p k k' s : put p k' (put p k s) = put p k' s.
Proof. destruct s. unfold put. nfields. by rewrite insert_insert_eq. Qed.
Lemma put_id p k s : n_heap s !! p = Some k -> put p k s = s.
Proof. intros H. destruct s. unfold put. nfields. by rewrite insert_id. Qed.
Lemma put_other p q k s : p <> q -> n_heap (put p k s) !! q = n_heap s !! q.
Proof. intros H. destruct s. by apply lookup_insert_ne. Qed.

Create HintDb net.
#[export] Hint Resolve put_lookup : net.

(** A step whose result is known. *)
Lemma wp_eq {A} (m : NM A) Q E s a s' : m s = Ret a s' -> Q a s' -> wp m Q E s.
Proof. unfold wp. by intros ->. Qed.

Lemma deref_eq p k s : n_heap s !! p = Some k -> deref p s = Ret k s.
Proof. unfold deref. by intros ->. Qed.

Lemma update_eq p f k s : n_heap s !! p = Some k -> update p f s = Ret tt (put p (f k) s).
Proof. intros H. unfold update, bind. by rewrite (deref_eq _ _ _ H). Qed.

Lemma advance_user_eq p n k s : n_heap s !! p = Some k ->
  advance_user p n s = Ret tt (put p (k <| p_user := p_user k + n |> <| p_length := p_length k - n |>) s).
Proof. intros H. exact (update_eq _ _ _ _ H). Qed.

(** ** Bytes *)

Lemma rdb_eq p i k s b :
  n_heap s !! p = Some k -> 0 <= p_user k + i -> p_mem k !! Z.to_nat (p_user k + i) = Some b ->
  rdb p i s = Ret b s.
Proof.
  intros H Hi Hb. unfold rdb, bind. rewrite (deref_eq _ _ _ H).
  by rewrite (proj2 (Z.leb_le _ _)), Hb by done.
Qed.

Lemma rdbs_eq p i n k s a b c :
  n_heap s !! p = Some k -> p_mem k = a ++ b ++ c -> Z.of_nat (length a) = p_user k + i ->
  Z.of_nat (length b) = n -> rdbs p i n s = Ret b s.
Proof.
  intros H Hm Ha Hb. unfold rdbs, bind. rewrite (deref_eq _ _ _ H). rewrite <- Ha, Hm, !length_app.
  rewrite !(proj2 (Z.leb_le _ _)) by lia. cbn [andb]. unfold ret. f_equal.
  rewrite Nat2Z.id, drop_app_length, take_app_length' by lia. done.
Qed.

Lemma wrb_eq p i v k s a x c :
  n_heap s !! p = Some k -> p_mem k = a ++ x :: c -> Z.of_nat (length a) = p_user k + i ->
  wrb p i v s = Ret tt (put p (k <| p_mem := a ++ u8 v :: c |>) s).
Proof.
  intros H Hm Ha. unfold wrb, bind. rewrite (deref_eq _ _ _ H), <- Ha, Hm, !length_app. cbn [length].
  rewrite (proj2 (Z.leb_le _ _)), (proj2 (Z.ltb_lt _ _)) by lia. cbn [andb].
  rewrite Nat2Z.id, (insert_app_r_alt a (x :: c)), Nat.sub_diag by lia. done.
Qed.

Lemma wrbs_eq p i vs k s a b c :
  n_heap s !! p = Some k -> p_mem k = a ++ b ++ c -> Z.of_nat (length a) = p_user k + i ->
  length b = length vs -> wrbs p i vs s = Ret tt (put p (k <| p_mem := a ++ (u8 <$> vs) ++ c |>) s).
Proof.
  revert i k s a b. induction vs as [| v vs IH]; intros i k s a b H Hm Ha Hb; cbn [wrbs].
  - destruct b; [| done]. unfold ret. cbn. cbn in Hm. rewrite <- Hm.
    rewrite put_id; [done |]. by destruct k.
  - destruct b as [| x b]; [done |]. unfold bind. cbn [app] in Hm. rewrite (wrb_eq p i v k s a x (b ++ c)) by done.
    rewrite (IH (i + 1) (k <| p_mem := a ++ u8 v :: b ++ c |>) _ (a ++ [u8 v]) b).
    + rewrite put_put. do 2 f_equal. destruct k. nfields.
      cbn [fmap list_fmap]. by rewrite <- app_assoc.
    + apply put_lookup.
    + destruct k. nfields. by rewrite <- app_assoc.
    + rewrite length_app. destruct k. cbn in *. lia.
    + by injection Hb.
Qed.

(** The same of a packet written out, in the middle of a sequence of steps. *)

Lemma wrbs_put p i vs u r l o a b c s :
  Z.of_nat (length a) = o + i -> length b = length vs ->
  wrbs p i vs (put p (mkPkt u r l o (a ++ b ++ c)) s) = Ret tt (put p (mkPkt u r l o (a ++ (u8 <$> vs) ++ c)) s).
Proof.
  intros Ha Hb. erewrite (wrbs_eq p i vs _ _ a b c); [| apply put_lookup | done | done | done].
  by rewrite put_put.
Qed.

Lemma wrb_put p i v u r l o a x c s :
  Z.of_nat (length a) = o + i ->
  wrb p i v (put p (mkPkt u r l o (a ++ x :: c)) s) = Ret tt (put p (mkPkt u r l o (a ++ u8 v :: c)) s).
Proof. intros Ha. erewrite (wrb_eq p i v _ _ a x c); [| apply put_lookup | done | done]. by rewrite put_put. Qed.

Lemma deref_put p k s : deref p (put p k s) = Ret k (put p k s).
Proof. apply deref_eq, put_lookup. Qed.

Lemma advance_put p n u r l o m s :
  advance_user p n (put p (mkPkt u r l o m) s) = Ret tt (put p (mkPkt u r (l - n) (o + n) m) s).
Proof. rewrite (advance_user_eq _ _ _ _ (put_lookup _ _ _)). by rewrite put_put. Qed.

Lemma pkt_cksum_put p n u r l o a b s c :
  Z.of_nat (length a) = o -> ipcksum n b = Some c ->
  pkt_cksum n p (put p (mkPkt u r l o (a ++ b)) s) = Ret c (put p (mkPkt u r l o (a ++ b)) s).
Proof.
  intros Ha Hb. unfold pkt_cksum. rewrite (bind_eq _ _ _ _ _ (deref_put _ _ _)). nfields.
  rewrite <- Ha, (proj2 (Z.leb_le 0 _)), Nat2Z.id, drop_app_length, Hb by lia. done.
Qed.

(** ** Big-endian values *)

Definition be (bs : list Z) : Z := foldl (fun v b => v * 256 + b) 0 bs.

Lemma be_acc bs v : foldl (fun v b => v * 256 + b) v bs = v * 256 ^ Z.of_nat (length bs) + be bs.
Proof.
  unfold be. revert v. induction bs as [| b bs IH]; intros v; cbn [foldl length].
  - cbn. lia.
  - rewrite (IH (v * 256 + b)), (IH (0 * 256 + b)). rewrite Nat2Z.inj_succ, Z.pow_succ_r by lia. lia.
Qed.

Lemma be_cons b bs : be (b :: bs) = b * 256 ^ Z.of_nat (length bs) + be bs.
Proof. unfold be at 1. cbn [foldl]. by rewrite be_acc. Qed.

Abbreviation bytes := (Forall (fun b => 0 <= b < 256)).

Lemma rdval_eq w p i n k s a bs c v :
  n_heap s !! p = Some k -> p_mem k = a ++ bs ++ c -> Z.of_nat (length a) = p_user k + i ->
  length bs = n -> bytes bs -> 0 <= v -> (v + 1) * 256 ^ Z.of_nat n <= 2 ^ w ->
  rdval w p i n v s = Ret (v * 256 ^ Z.of_nat n + be bs) s.
Proof.
  intros H Hm Ha Hn Hbs. revert i a v n Hm Ha Hn.
  induction Hbs as [| b bs Hb Hbs IH]; intros i a v n Hm Ha <- Hv Hlt; cbn [rdval length].
  - unfold ret. f_equal. cbn. lia.
  - unfold bind. cbn [length] in *. rewrite Nat2Z.inj_succ in *. rewrite Z.pow_succ_r in * by lia.
    assert (Hp : 0 < 256 ^ Z.of_nat (length bs)) by (apply Z.pow_pos_nonneg; lia).
    rewrite (rdb_eq p i k s b); [| done | lia |].
    2: { rewrite <- Ha, Nat2Z.id, Hm. by apply list_lookup_middle. }
    rewrite land_255, (Z.mod_small b) by done. rewrite shiftl_mul, Z.mod_small by nia.
    rewrite Z.lor_comm, <- (shiftl_mul v 8), lor_shiftl_add by lia.
    rewrite (IH (i + 1) (a ++ [b]) (v * 2 ^ 8 + b) (length bs)).
    + f_equal. rewrite be_cons. lia.
    + by rewrite <- app_assoc.
    + rewrite length_app. cbn. lia.
    + done.
    + lia.
    + change (2 ^ 8) with 256. nia.
Qed.

(** ** The checksum *)

(** The sum of the 16-bit words of a list of bytes. *)
Fixpoint wsum (bs : list Z) : Z :=
  match bs with
  | a :: b :: bs' => a * 256 + b + wsum bs'
  | _ => 0
  end.

(** Induction by two elements at a time. *)
Lemma pair_ind (P : list Z -> Prop) :
  P [] -> (forall a, P [a]) -> (forall a b l, P l -> P (a :: b :: l)) -> forall l, P l.
Proof.
  intros H0 H1 H2. assert (H : forall l, P l /\ forall a, P (a :: l)).
  { induction l as [| x l [IH1 IH2]]; split; auto. }
  intros l. apply H.
Qed.

Lemma wsum_app xs ys : Nat.Even (length xs) -> wsum (xs ++ ys) = wsum xs + wsum ys.
Proof.
  revert xs. refine (pair_ind _ _ _ _); cbn [app wsum length].
  - intros _. lia.
  - intros a [n Hn]. lia.
  - intros a b l IH [n Hn]. rewrite IH; [lia |]. exists (n - 1)%nat. lia.
Qed.

Lemma wsum_range bs : bytes bs -> 0 <= wsum bs <= 65535 * Z.of_nat (length bs).
Proof.
  revert bs. refine (pair_ind _ _ _ _); cbn [wsum length].
  - lia.
  - intros a _. lia.
  - intros a b l IH H. inversion H as [| ? ? Ha H1]; subst. inversion H1 as [| ? ? Hb H2]; subst.
    specialize (IH H2). lia.
Qed.

Lemma cksum_loop_ok post seg : forall pre fuel c,
  bytes seg -> Nat.Even (length seg) -> (length seg < fuel)%nat -> 0 <= c -> c + wsum seg < 2 ^ 32 ->
  cksum_loop fuel (Z.of_nat (length pre + length seg)) (Z.of_nat (length pre)) (pre ++ seg ++ post) c =
    Some (c + wsum seg).
Proof.
  revert seg. refine (pair_ind _ _ _ _); cbn [wsum length app].
  - intros pre [| fuel] c _ _ Hf Hc Hs; [lia |]. cbn [cksum_loop].
    rewrite (proj2 (Z.ltb_ge _ _)) by lia. f_equal. lia.
  - intros a pre fuel c _ [n Hn]. lia.
  - intros a b l IH pre [| fuel] c Hb [n Hn] Hf Hc Hs; [lia |]. cbn [cksum_loop].
    inversion Hb as [| ? ? Ha H1]; subst. inversion H1 as [| ? ? Hb' H2]; subst.
    rewrite (proj2 (Z.ltb_lt _ _)) by lia. rewrite Nat2Z.id.
    replace (Z.to_nat (Z.of_nat (length pre) + 1)) with (S (length pre)) by lia.
    rewrite list_lookup_middle by done.
    replace (pre ++ a :: b :: l ++ post) with ((pre ++ [a]) ++ b :: l ++ post) by (by rewrite <- app_assoc).
    rewrite (list_lookup_middle (pre ++ [a])) by (rewrite length_app; cbn; lia).
    pose proof (wsum_range l H2) as Hl.
    assert (Hc' : u32 (u32 (c + ((a .& 0x0ff) .<< 8)) + (b .& 0x0ff)) = c + (a * 256 + b)).
    { rewrite !land_255, !(Z.mod_small _ 256), shiftl_mul by lia. change (2 ^ 8) with 256.
      unfold u32. rewrite (Z.mod_small (c + a * 256)) by lia. rewrite Z.mod_small; lia. }
    rewrite Hc'.
    replace (Z.of_nat (length pre) + 2) with (Z.of_nat (length ((pre ++ [a]) ++ [b]))) by (rewrite !length_app; cbn; lia).
    replace (Z.of_nat (length pre + S (S (length l)))) with (Z.of_nat (length ((pre ++ [a]) ++ [b]) + length l))
      by (rewrite !length_app; cbn; lia).
    replace ((pre ++ [a]) ++ b :: l ++ post) with (((pre ++ [a]) ++ [b]) ++ l ++ post) by (by rewrite <- !app_assoc).
    rewrite IH; [f_equal; lia | done | exists (n - 1)%nat; lia | lia | lia | lia].
Qed.

Lemma fold_step c : 0 <= c < 2 ^ 32 ->
  truthy (c .& 0xffff0000) = negb (c / 65536 =? 0) /\
  u32 ((c .& 0x0ffff) + (c .>> 16)) = c mod 65536 + c / 65536.
Proof.
  intros Hc. split.
  - unfold truthy. f_equal. change 0xffff0000 with (Z.ones 16 .<< 16).
    replace c with ((c / 65536) * 2 ^ 16 + c mod 65536) at 1 by zlia.
    rewrite <- lor_shiftl_add, Z.land_lor_distr_l, <- Z.shiftl_land by zlia.
    rewrite Z.land_ones, (Z.mod_small (c / 65536)) by zlia.
    assert (E : c mod 65536 .& (Z.ones 16 .<< 16) = 0).
    { rewrite <- land_65535. change 65535 with (Z.ones 16). rewrite <- Z.land_assoc. apply Z.land_0_r. }
    rewrite E, Z.lor_0_r, shiftl_mul by lia.
    destruct (Z.eqb_spec (c / 65536) 0), (Z.eqb_spec (c / 65536 * 2 ^ 16) 0); (done || zlia).
  - rewrite land_65535, shiftr_div by lia. unfold u32. apply Z.mod_small. zlia.
Qed.

Lemma cksum_fold_ok c : 0 <= c < 2 ^ 32 ->
  exists r, cksum_fold 3 c = Some r /\ 0 <= r < 65536 /\ r mod 65535 = c mod 65535 /\ (0 < c <-> 0 < r).
Proof.
  intros Hc. cbn [cksum_fold]. destruct (fold_step c Hc) as [-> ->].
  destruct (Z.eqb_spec (c / 65536) 0); cbn [negb]; [exists c; split; [done |]; zlia |].
  destruct (fold_step (c mod 65536 + c / 65536)) as [-> ->]; [zlia |]. set (d := c mod 65536 + c / 65536).
  assert (Hd : d mod 65535 = c mod 65535 /\ 0 < d <= 131070).
  { subst d. rewrite (Z.div_mod c 65536) at 3 by lia.
    replace (65536 * (c / 65536) + c mod 65536) with (c mod 65536 + c / 65536 + (c / 65536) * 65535) by lia.
    rewrite Z_mod_plus_full. split; [done | zlia]. }
  clearbody d. destruct (Z.eqb_spec (d / 65536) 0); cbn [negb]; [exists d; split; [done |]; zlia |].
  destruct (fold_step (d mod 65536 + d / 65536)) as [-> _]; [zlia |].
  replace ((d mod 65536 + d / 65536) / 65536) with 0 by zlia. cbn [Z.eqb negb].
  eexists. split; [done |]. destruct Hd as [Hd1 Hd2]. zlia.
Qed.

Lemma xor_ffff r : 0 <= r < 65536 -> r .^ 0x0ffff = 65535 - r.
Proof.
  intros Hr. assert (H : 65535 - r + r = (r .^ 0x0ffff) + r); [| lia].
  rewrite (Z.add_nocarry_lxor (r .^ 0xffff) r).
  - rewrite Z.lxor_assoc, (Z.lxor_comm 0xffff), <- Z.lxor_assoc, Z.lxor_nilpotent, Z.lxor_0_l. lia.
  - apply Z.bits_inj'. intros n Hn. rewrite Z.land_spec, Z.lxor_spec, Z.testbit_0_l.
    change 0xffff with (Z.ones 16). rewrite Z.testbit_ones_nonneg by lia.
    destruct (Z.ltb_spec n 16); [by destruct (Z.testbit r n) |].
    rewrite (testbit_above r 16) by lia. done.
Qed.

(** [ipcksum] of an even number of bytes. *)
Lemma ipcksum_ok seg post :
  bytes seg -> Nat.Even (length seg) -> Z.of_nat (length seg) < 65536 ->
  exists c, ipcksum (Z.of_nat (length seg)) (seg ++ post) = Some c /\ 0 <= c < 65536 /\
    (wsum seg + c) mod 65535 = 0 /\ (0 < wsum seg -> c < 65535) /\ 0 < wsum seg + c.
Proof.
  intros Hb He Hl. pose proof (wsum_range seg Hb) as Hs. unfold ipcksum.
  pose proof (cksum_loop_ok post seg [] (S (Z.to_nat (Z.of_nat (length seg)))) 0 Hb He ltac:(lia) ltac:(lia) ltac:(lia)) as Hloop.
  cbn [length app Nat.add] in Hloop. rewrite Z.add_0_l in Hloop. change (Z.of_nat 0) with 0 in Hloop. rewrite Hloop.
  destruct (cksum_fold_ok (wsum seg)) as (r & -> & Hr & Hm & Hpos); [lia |].
  rewrite xor_ffff by done. eexists. split; [done |]. split; [lia |]. split; [| lia].
  replace (wsum seg + (65535 - r)) with (wsum seg - r + 1 * 65535) by lia.
  rewrite Z_mod_plus_full, Zminus_mod, Hm, Z.sub_diag. done.
Qed.
