(* ===== verification/NetIp.v ===== *)
(** Sending internet packets: the header and its checksum, the address
    resolution table, and the frame that [tx_ippkt] gives to the device. *)

From stdpp Require Import base tactics list numbers option gmap.
From Stdlib Require Import ZArith Lia.
From S2P Require Import Prelude Net NetProto NetWp.
Local Open Scope Z_scope.

(** ** Fields as bytes *)

Lemma byte_land x : 0 <= x .& 0x0ff < 256.
Proof. rewrite land_255. by apply Z.mod_pos_bound. Qed.
#[export] Hint Resolve byte_land : net.

Lemma u8_byte x : 0 <= x < 256 -> u8 x = x.
Proof. apply Z.mod_small. Qed.

Lemma u8_bytes bs : bytes bs -> u8 <$> bs = bs.
Proof.
  induction 1 as [| b bs Hb Hbs IH]; [done |]. cbn. by rewrite u8_byte, IH.
Qed.

Lemma mac_bytes_ok m : bytes (mac_bytes m).
Proof. unfold mac_bytes. repeat constructor; apply byte_land. Qed.
Lemma ip_bytes_ok a : bytes (ip_bytes a).
Proof. unfold ip_bytes. repeat constructor; apply byte_land. Qed.
Lemma be16_ok v : bytes (be16 v).
Proof. unfold be16. repeat constructor; apply byte_land. Qed.
#[export] Hint Resolve mac_bytes_ok ip_bytes_ok be16_ok : net.

(** A list of bytes, piece by piece. *)
Ltac bytes_tac := repeat match goal with
  | H : ?g |- ?g => exact H
  | |- Forall _ [] => apply Forall_nil_2
  | |- Forall _ (_ :: _) => apply Forall_cons_2; [first [apply byte_land | lia] |]
  | |- Forall _ (_ ++ _) => apply Forall_app_2
  | |- Forall _ (mac_bytes _) => apply mac_bytes_ok
  | |- Forall _ (ip_bytes _) => apply ip_bytes_ok
  | |- Forall _ (be16 _) => apply be16_ok
  end.

Lemma be_be16 v : 0 <= v < 65536 -> be (be16 v) = v.
Proof. intros Hv. unfold be16, be. cbn [foldl]. rewrite !land_255, shiftr_div by lia. zlia. Qed.
Lemma be_ip_bytes a : 0 <= a < 2 ^ 32 -> be (ip_bytes a) = a.
Proof. intros Ha. unfold ip_bytes, be. cbn [foldl]. rewrite !land_255, !shiftr_div by lia. zlia. Qed.
Lemma be_mac_bytes m : 0 <= m < 2 ^ 48 -> be (mac_bytes m) = m.
Proof. intros Ha. unfold mac_bytes, be. cbn [foldl]. rewrite !land_255, !shiftr_div by lia. zlia. Qed.

Lemma wsum_be16 v : 0 <= v < 65536 -> wsum (be16 v) = v.
Proof. intros Hv. unfold be16. cbn [wsum]. rewrite !land_255, shiftr_div by lia. zlia. Qed.

(** A checksum put in the place of two zero bytes makes the whole check. *)
Lemma cksum_put a c post :
  bytes a -> bytes c -> Nat.Even (length a) -> Nat.Even (length c) ->
  Z.of_nat (length a + 2 + length c) < 65536 ->
  exists ck, ipcksum (Z.of_nat (length a + 2 + length c)) (a ++ [0; 0] ++ c ++ post) = Some ck /\
    0 <= ck < 65536 /\
    ipcksum (Z.of_nat (length a + 2 + length c)) (a ++ be16 ck ++ c) = Some 0.
Proof.
  intros Ha Hc Hea Hec Hl.
  assert (Hlen : forall x : list Z, length x = 2%nat -> length (a ++ x ++ c) = (length a + 2 + length c)%nat).
  { intros x Hx. rewrite !length_app, Hx. lia. }
  assert (Hev : forall x : list Z, length x = 2%nat -> Nat.Even (length (a ++ x ++ c))).
  { intros x Hx. rewrite (Hlen x Hx). destruct Hea as [p Hp], Hec as [q Hq]. exists (p + 1 + q)%nat. lia. }
  assert (Hws : forall x, length x = 2%nat -> wsum (a ++ x ++ c) = wsum a + wsum x + wsum c).
  { intros x Hx. rewrite wsum_app by done. rewrite wsum_app by (rewrite Hx; by exists 1%nat). lia. }
  destruct (ipcksum_ok (a ++ [0; 0] ++ c) post) as (ck & H1 & Hr & Hm & _ & Hpos).
  { repeat (apply Forall_app; split); try done. repeat constructor; lia. }
  { by apply Hev. }
  { by rewrite (Hlen [0; 0]). }
  rewrite (Hlen [0; 0]) in H1 by done. rewrite (Hws [0; 0]) in Hm, Hpos by done. cbn [wsum] in Hm, Hpos.
  exists ck. rewrite <- !app_assoc in H1. split; [exact H1 |]. split; [done |].
  destruct (ipcksum_ok (a ++ be16 ck ++ c) []) as (ck' & H2 & Hr2 & Hm2 & Hlt2 & _).
  { repeat (apply Forall_app; split); auto with net. }
  { by apply Hev. }
  { by rewrite (Hlen (be16 ck)). }
  rewrite app_nil_r, (Hlen (be16 ck)) in H2 by done. rewrite H2. f_equal.
  rewrite (Hws (be16 ck)), wsum_be16 in Hm2, Hlt2 by done.
  specialize (Hlt2 ltac:(lia)).
  replace (wsum a + ck + wsum c + ck') with (wsum a + (0 * 256 + 0 + 0) + wsum c + ck + ck') in Hm2 by lia.
  rewrite Zplus_mod, Hm, Z.add_0_l, Zmod_mod in Hm2. rewrite Z.mod_small in Hm2; lia.
Qed.

(** ** The internet header *)

Definition ip_header (len id subproto src dest ck : Z) : list Z :=
  ([0x45; 0x00] ++ be16 len ++ be16 id ++ [0x00; 0x00; 0x80; subproto]) ++ be16 ck ++ ip_bytes src ++ ip_bytes dest.

Lemma ip_set_put p sub src dest u r l o a h c s :
  Z.of_nat (length a) = o -> length h = 20%nat -> 0 <= sub < 256 ->
  exists ck, 0 <= ck < 65536 /\
    let id := u32 (ip_pktid s + BIG_PRIME) in
    let hdr := ip_header l id sub src dest ck in
    ip_set p sub src dest (put p (mkPkt u r l o (a ++ h ++ c)) s) =
      Ret tt (put p (mkPkt u r l o (a ++ hdr ++ c)) (s <| ip_pktid := id |>)) /\
    ipcksum 20 hdr = Some 0.
Proof.
  intros Ha Hh Hsub. set (id := u32 (ip_pktid s + BIG_PRIME)).
  set (h1 := [0x45; 0x00] ++ be16 l ++ be16 id ++ [0x00; 0x00; 0x80; sub]).
  set (h2 := ip_bytes src ++ ip_bytes dest).
  destruct (cksum_put h1 h2 c) as (ck & H1 & Hck & H2).
  { unfold h1. bytes_tac. }
  { unfold h2. bytes_tac. }
  { by exists 5%nat. } { by exists 4%nat. }
  { done. }
  exists ck. split; [done |]. split; [| exact H2].
  destruct (split_list 4 h) as (q0 & h' & -> & L0 & Hh'); [lia |].
  destruct (split_list 8 h') as (q1 & h'' & -> & L1 & Hh''); [lia |].
  destruct (split_list 4 h'') as (q2 & q3 & -> & L2 & L3); [lia |].
  assert (Hu : forall bs, bytes bs -> u8 <$> bs = bs) by apply u8_bytes.
  unfold ip_set. nstep (deref_put p (mkPkt u r l o (a ++ ((q0 ++ q1 ++ q2 ++ q3) ++ c))) s).
  rewrite <- !app_assoc. change (p_length _) with l.
  nstep (wrbs_put p 0 [0x45; 0x00; (l .>> 8) .& 0x0ff; l .& 0x0ff] u r l o a q0 (q1 ++ q2 ++ q3 ++ c) s ltac:(lia) L0).
  rewrite Hu by bytes_tac. set (w0 := [0x45; 0x00; (l .>> 8) .& 0x0ff; l .& 0x0ff]).
  erewrite (bind_eq (modify _) _ _ tt (put p (mkPkt u r l o (a ++ w0 ++ q1 ++ q2 ++ q3 ++ c)) (s <| ip_pktid := id |>))) by reflexivity.
  erewrite bind_eq by reflexivity. change (ip_pktid (put _ _ (s <| ip_pktid := id |>))) with id.
  set (s1 := s <| ip_pktid := id |>). set (w1 := [(id .>> 8) .& 0x0ff; id .& 0x0ff; 0x00; 0x00; 0x80; sub; 0x00; 0x00]).
  rewrite (app_assoc a w0). nstep (wrbs_put p 4 w1 u r l o (a ++ w0) q1 (q2 ++ q3 ++ c) s1 ltac:(rewrite length_app; cbn; lia) L1).
  rewrite Hu by (unfold w1; bytes_tac).
  rewrite (app_assoc _ w1). nstep (wrbs_put p 12 (ip_bytes src) u r l o ((a ++ w0) ++ w1) q2 (q3 ++ c) s1 ltac:(rewrite !length_app; cbn; lia) L2).
  rewrite Hu by bytes_tac.
  rewrite (app_assoc _ (ip_bytes src)).
  nstep (wrbs_put p 16 (ip_bytes dest) u r l o (((a ++ w0) ++ w1) ++ ip_bytes src) q3 c s1 ltac:(rewrite !length_app; cbn; lia) ltac:(cbn; lia)).
  rewrite Hu by bytes_tac.
  assert (Hmem : forall x, (((a ++ w0) ++ [(id .>> 8) .& 0x0ff; id .& 0x0ff; 0x00; 0x00; 0x80; sub] ++ x) ++ ip_bytes src) ++ ip_bytes dest ++ c
    = a ++ h1 ++ x ++ h2 ++ c).
  { intros x. unfold h1, h2, w0. rewrite <- !app_assoc. done. }
  change w1 with ([(id .>> 8) .& 0x0ff; id .& 0x0ff; 0x00; 0x00; 0x80; sub] ++ [0; 0]). rewrite Hmem.
  nstep (pkt_cksum_put p ip_headersize u r l o a (h1 ++ [0; 0] ++ h2 ++ c) s1 ck Ha H1).
  rewrite (app_assoc a h1). change ([0; 0] ++ h2 ++ c) with (0 :: 0 :: h2 ++ c).
  nstep (wrb_put p 10 ((ck .>> 8) .& 0x0ff) u r l o (a ++ h1) 0 (0 :: h2 ++ c) s1 ltac:(rewrite !length_app; cbn; lia)).
  change (u8 ((ck .>> 8) .& 0x0ff) :: 0 :: h2 ++ c) with ([u8 ((ck .>> 8) .& 0x0ff)] ++ 0 :: h2 ++ c).
  rewrite (app_assoc (a ++ h1)).
  rewrite (wrb_put p 11 (ck .& 0x0ff) u r l o ((a ++ h1) ++ [u8 ((ck .>> 8) .& 0x0ff)]) 0 (h2 ++ c) s1) by (rewrite !length_app; cbn; lia).
  rewrite !u8_byte by apply byte_land. do 3 f_equal. unfold ip_header. fold h1 h2.
  rewrite <- !app_assoc. done.
Qed.

(** ** The address resolution table *)

(** The first entry in use for [ip]. *)
Fixpoint arp_find (t : list ARP_TABLE_ENTRY) (ip : Z) : option Z :=
  match t with
  | [] => None
  | e :: t' => if truthy (valid e) && (ipaddr e =? ip) then Some (mac e) else arp_find t' ip
  end.

(** What the search may do to an entry. *)
Definition aged (e e' : ARP_TABLE_ENTRY) : Prop :=
  ipaddr e' = ipaddr e /\ mac e' = mac e /\ (valid e' = valid e \/ valid e' = 0 /\ 0x010000 <= s32 (age e)).

#[export] Instance aged_refl : Reflexive aged.
Proof. intros e. unfold aged. auto. Qed.
Lemma arp_entry_eq pre e t s :
  arp_table s = pre ++ e :: t -> arp_entry (Z.of_nat (length pre)) s = Ret e s.
Proof.
  intros H. unfold arp_entry. rewrite (proj2 (Z.leb_le 0 _)), H, Nat2Z.id by lia.
  by rewrite list_lookup_middle.
Qed.

Lemma arp_set_eq pre e t f s :
  arp_table s = pre ++ e :: t ->
  arp_set (Z.of_nat (length pre)) f s = Ret tt (s <| arp_table := pre ++ f e :: t |>).
Proof.
  intros H. unfold arp_set. nstep (arp_entry_eq pre e t s H). unfold modify. rewrite H, Nat2Z.id.
  by rewrite insert_app_r_alt, Nat.sub_diag by lia.
Qed.

(** The search finds the first entry; entries grow old, but none is lost for
    the host that is looked for. *)
Lemma arp_search_ok t : forall pre oldage ip s,
  arp_table s = pre ++ t ->
  exists t', arp_search (length t) (Z.of_nat (length pre)) oldage ip s =
      Ret (arp_find t ip) (s <| arp_table := pre ++ t' |>) /\ Forall2 aged t t' /\ arp_find t' ip = arp_find t ip.
Proof.
  induction t as [| e t IH]; intros pre oldage ip s H; cbn [arp_search arp_find length].
  { exists []. rewrite <- H. split; [by destruct s | by split]. }
  nstep (arp_entry_eq pre e t s H).
  assert (Hgo : forall old e', aged e e' -> truthy (valid e') && (ipaddr e' =? ip) = false -> exists t',
    arp_search (length t) (Z.of_nat (length pre) + 1) old ip (s <| arp_table := pre ++ e' :: t |>) =
      Ret (arp_find t ip) (s <| arp_table := pre ++ t' |>) /\ Forall2 aged (e :: t) t' /\ arp_find t' ip = arp_find t ip).
  { intros old e' He Hf. replace (Z.of_nat (length pre) + 1) with (Z.of_nat (length (pre ++ [e']))) by (rewrite length_app; cbn; lia).
    destruct (IH (pre ++ [e']) old ip (s <| arp_table := pre ++ e' :: t |>)) as (t' & Ht & Ha & Hff); [by rewrite <- app_assoc |].
    rewrite Ht. exists (e' :: t'). rewrite <- app_assoc. split; [by destruct s |]. split; [by constructor |]. cbn. by rewrite Hf. }
  destruct (truthy (valid e)) eqn:Hv; cbn [andb].
  2: { destruct (Hgo oldage e) as (t' & Ht); [reflexivity | by rewrite Hv |].
       replace (s <| arp_table := pre ++ e :: t |>) with s in Ht by (rewrite <- H; by destruct s). by exists t'. }
  destruct (ipaddr e =? ip) eqn:Hip.
  { nstep (arp_set_eq pre e t (fun e => e <| age := 0 |>) s H). exists ((e <| age := 0 |>) :: t).
    split; [done |]. split; [constructor; [unfold aged; destruct e; auto | reflexivity] |]. cbn.
    change (valid (e <| age := 0 |>)) with (valid e). change (ipaddr (e <| age := 0 |>)) with (ipaddr e).
    by rewrite Hv, Hip. }
  set (e1 := e <| age := u32 (age e + 1) |>).
  assert (He1 : aged e e1) by (unfold aged; destruct e; auto).
  assert (Hf1 : truthy (valid e1) && (ipaddr e1 =? ip) = false)
    by (change (ipaddr e1) with (ipaddr e); by rewrite Hip, andb_false_r).
  destruct (oldage <? age e).
  - nstep (arp_set_eq pre e t (fun e => e <| age := u32 (age e + 1) |>) s H).
    destruct (Z.leb_spec 0x010000 (s32 (age e))).
    + erewrite bind_eq by (apply (arp_set_eq pre e1 t); by destruct s).
      apply (Hgo (age e) (e1 <| valid := 0 |>)); [unfold aged; destruct e; auto | done].
    + erewrite bind_eq by reflexivity. by apply (Hgo (age e) e1).
  - nstep (arp_set_eq pre e t (fun e => e <| age := u32 (age e + 1) |>) s H). by apply (Hgo oldage e1).
Qed.

(** Whom a packet to [ip] goes to, as far as is known. *)
Definition arp_answer (s : NET) (ip : Z) : option Z :=
  if (truthy ((ip .^ my_ip_addr s) .& my_ip_mask s) || (ip =? my_ip_router s)) && truthy (router_mac_addr s)
  then Some (router_mac_addr s)
  else arp_find (arp_table s) ip.

Lemma arp_lookup_known s ip m :
  length (arp_table s) = NUM_ARP_ENTRIES -> arp_answer s ip = Some m ->
  exists t', arp_lookup ip s = Ret (Some m) (s <| arp_table := t' |>) /\ Forall2 aged (arp_table s) t'.
Proof.
  intros Hl Ha. unfold arp_lookup, arp_answer in *. erewrite bind_eq by reflexivity.
  destruct (_ && _).
  - exists (arp_table s). injection Ha as <-. split; [by destruct s | reflexivity].
  - destruct (arp_search_ok (arp_table s) [] 0 ip s eq_refl) as (t' & Ht & Hag & _).
    change (Z.of_nat (length [])) with 0 in Ht. rewrite Hl in Ht. nstep Ht. rewrite Ha. by exists t'.
Qed.

(** ** Sending *)

Definition tx_cmd (l : Z) : Z := (ENET_TXGO .| l) .| ENET_NOHWIPCHK.

(** The device was given a frame. *)
Definition sent (f : list Z) (s : NET) : NET :=
  let cmd := tx_cmd (Z.of_nat (length f)) in
  s <| n_txcmd := cmd |> <| n_sent := n_sent s ++ [(cmd, f)] |>.

Definition tx_idle (s : NET) : Prop := n_txcmd s .& ENET_TXBUSY = 0.

Lemma assign_put p k k' s : assign p k' (put p k s) = Ret tt (put p k' s).
Proof. rewrite <- (put_put p k k' s). done. Qed.

Lemma delete_put p k s :
  n_heap s !! p = None -> (put p k s) <| n_heap := delete p (n_heap (put p k s)) |> = s.
Proof. intros Hp. unfold put. destruct s; nfields. by rewrite delete_insert_id. Qed.

Lemma free_put p r l o m s :
  n_heap s !! p = None -> free_pkt p (put p (mkPkt 1 r l o m) s) = Ret tt s.
Proof.
  intros Hp. unfold free_pkt. nstep (deref_put p (mkPkt 1 r l o m) s).
  nstep (assign_put p (mkPkt 1 r l o m) (mkPkt 0 r l o m) s). change (p_usage_count _ =? 0) with true. cbv iota.
  unfold modify. by rewrite delete_put.
Qed.

Lemma tx_pkt_put p r l o a f s :
  n_heap s !! p = None -> tx_idle s -> Z.of_nat (length a) = o -> Z.of_nat (length f) = l ->
  tx_pkt p (put p (mkPkt 1 r l o (a ++ f)) s) = Ret tt (sent f s).
Proof.
  intros Hp Hi Ha Hf. unfold tx_pkt. erewrite bind_eq by reflexivity.
  change (n_txcmd (put p (mkPkt 1 r l o (a ++ f)) s)) with (n_txcmd s). rewrite Hi. cbn [truthy Z.eqb negb].
  nstep (deref_put p (mkPkt 1 r l o (a ++ f)) s).
  assert (Hrd : rdbs p 0 l (put p (mkPkt 1 r l o (a ++ f)) s) = Ret f (put p (mkPkt 1 r l o (a ++ f)) s)).
  { apply (rdbs_eq p 0 l (mkPkt 1 r l o (a ++ f)) _ a f []); [apply put_lookup | by rewrite app_nil_r | nfields; lia | done]. }
  change (p_length (mkPkt 1 r l o (a ++ f))) with l. nstep Hrd. subst l.
  erewrite (bind_eq (modify _) _ _ tt (put p (mkPkt 1 r (Z.of_nat (length f)) o (a ++ f)) (sent f s))) by reflexivity.
  by apply free_put.
Qed.

Lemma tx_ethpkt_put p r l o ty m a h f s :
  n_heap s !! p = None -> tx_idle s -> Z.of_nat (length a) = o - 8 -> length h = 8%nat ->
  Z.of_nat (length f) = l ->
  tx_ethpkt p ty m (put p (mkPkt 1 r l o (a ++ h ++ f)) s) = Ret tt (sent (mac_bytes m ++ be16 ty ++ f) s).
Proof.
  intros Hp Hi Ha Hh Hf. destruct (split_list 6 h) as (h1 & h2 & -> & L1 & L2); [lia |].
  unfold tx_ethpkt. nstep (advance_put p (- eth_headersize) 1 r l o (a ++ (h1 ++ h2) ++ f) s).
  rewrite <- app_assoc. change (l - - eth_headersize) with (l + 8). change (o + - eth_headersize) with (o - 8).
  nstep (wrbs_put p 0 (mac_bytes m) 1 r (l + 8) (o - 8) a h1 (h2 ++ f) s ltac:(lia) ltac:(cbn; lia)).
  rewrite u8_bytes by bytes_tac. rewrite (app_assoc a).
  nstep (wrbs_put p 6 (be16 ty) 1 r (l + 8) (o - 8) (a ++ mac_bytes m) h2 f s ltac:(rewrite length_app; cbn; lia) ltac:(cbn; lia)).
  rewrite u8_bytes by bytes_tac. rewrite <- app_assoc.
  apply tx_pkt_put; [done | done | lia | rewrite !length_app; cbn; lia].
Qed.

(** The frame of an internet packet with payload [f]. *)
Definition ip_frame (m len id sub src dest ck : Z) (f : list Z) : list Z :=
  mac_bytes m ++ be16 ETHERTYPE_IP ++ ip_header len id sub src dest ck ++ f.

Lemma tx_ippkt_put p r l o sub src dest m a h f s :
  n_heap s !! p = None -> tx_idle s -> length (arp_table s) = NUM_ARP_ENTRIES ->
  arp_answer s dest = Some m -> 28 <= o -> Z.of_nat (length a) = o - 28 -> length h = 28%nat ->
  Z.of_nat (length f) = l -> 0 <= sub < 256 ->
  exists ck t', 0 <= ck < 65536 /\ Forall2 aged (arp_table s) t' /\
    let id := u32 (ip_pktid s + BIG_PRIME) in
    ipcksum 20 (ip_header (l + 20) id sub src dest ck) = Some 0 /\
    tx_ippkt p sub src dest (put p (mkPkt 1 r l o (a ++ h ++ f)) s) =
      Ret tt (sent (ip_frame m (l + 20) id sub src dest ck f) (s <| ip_pktid := id |> <| arp_table := t' |>)).
Proof.
  intros Hp Hi Ht Hans Ho Ha Hh Hf Hsub. destruct (split_list 8 h) as (h1 & h2 & -> & L1 & L2); [lia |].
  destruct (ip_set_put p sub src dest 1 r (l + 20) (o - 20) (a ++ h1) h2 f s) as (ck & Hck & Hset & Hver);
    [rewrite length_app; lia | lia | done |].
  set (id := u32 (ip_pktid s + BIG_PRIME)) in *. cbv zeta in Hset, Hver.
  set (s1 := s <| ip_pktid := id |>) in *.
  destruct (arp_lookup_known (put p (mkPkt 1 r (l + 20) (o - 20) ((a ++ h1) ++ ip_header (l + 20) id sub src dest ck ++ f)) s1) dest m Ht Hans) as (t' & Hlk & Hag).
  exists ck, t'. split; [done |]. split; [exact Hag |]. split; [done |]. unfold tx_ippkt.
  nstep (deref_put p (mkPkt 1 r l o (a ++ (h1 ++ h2) ++ f)) s). change (p_user _) with o.
  rewrite (proj2 (Z.ltb_ge o (20 + 8))) by lia.
  nstep (advance_put p (- ip_headersize) 1 r l o (a ++ (h1 ++ h2) ++ f) s).
  change (l - - ip_headersize) with (l + 20). change (o + - ip_headersize) with (o - 20).
  replace (a ++ (h1 ++ h2) ++ f) with ((a ++ h1) ++ h2 ++ f) by (by rewrite <- !app_assoc).
  nstep Hset. nstep Hlk. rewrite <- app_assoc.
  refine (tx_ethpkt_put p r (l + 20) (o - 20) ETHERTYPE_IP m a h1 (ip_header (l + 20) id sub src dest ck ++ f)
    (s1 <| arp_table := t' |>) _ _ _ _ _); [done | done | lia | done | rewrite length_app; cbn; lia].
Qed.

Definition junk_bytes (s : NET) (n : Z) : list Z := map (fun i => u8 (n_junk s i)) (seq 0 (Z.to_nat n)).

Lemma new_ippkt_eq ln s : 0 <= ln ->
  new_ippkt ln s = Ret (n_fresh s) (put (n_fresh s) (mkPkt 1 (ln + 28) ln 28 (junk_bytes s (ln + 28)))
    (s <| n_fresh := S (n_fresh s) |>)).
Proof.
  intros Hl. unfold new_ippkt, new_ethpkt.
  assert (Hn : new_pkt (ln + 20 + 8) s = Ret (n_fresh s) (put (n_fresh s)
    (mkPkt 1 (ln + 28) (ln + 28) 0 (junk_bytes s (ln + 28))) (s <| n_fresh := S (n_fresh s) |>))).
  { replace (ln + 20 + 8) with (ln + 28) by lia. reflexivity. }
  erewrite bind_eq; [| nstep Hn; nstep (advance_put (n_fresh s) 8 1 (ln + 28) (ln + 28) 0 (junk_bytes s (ln + 28))
    (s <| n_fresh := S (n_fresh s) |>)); reflexivity].
  nstep (advance_put (n_fresh s) 20 1 (ln + 28) (ln + 28 - 8) (0 + 8) (junk_bytes s (ln + 28)) (s <| n_fresh := S (n_fresh s) |>)).
  unfold ret. do 3 f_equal. lia.
Qed.
