(* ===== verification/NetRx.v ===== *)
(** Receiving: reading the fields of a packet, and the frame that the device
    holds. *)

From stdpp Require Import base tactics list numbers option gmap.
From Stdlib Require Import ZArith Lia.
From S2P Require Import Prelude Net NetProto NetWp NetIp.
Local Open Scope Z_scope.

(** Lengths of lists written as appends. *)
Lemma length_ip_bytes a : length (ip_bytes a) = 4%nat.
Proof. done. Qed.
Lemma length_mac_bytes m : length (mac_bytes m) = 6%nat.
Proof. done. Qed.
Lemma length_be16 v : length (be16 v) = 2%nat.
Proof. done. Qed.
Ltac llen := repeat first [rewrite length_app | rewrite length_cons | rewrite length_ip_bytes
  | rewrite length_mac_bytes | rewrite length_be16 | progress cbn [length]]; lia.

(** ** A packet that is received *)

Lemma rdb_put p i u r l o a x c s :
  Z.of_nat (length a) = o + i ->
  rdb p i (put p (mkPkt u r l o (a ++ x :: c)) s) = Ret x (put p (mkPkt u r l o (a ++ x :: c)) s).
Proof.
  intros Ha. eapply rdb_eq; [apply put_lookup | nfields; lia |]. nfields.
  rewrite <- Ha, Nat2Z.id. by apply list_lookup_middle.
Qed.

Lemma rdval32_put p i u r l o a v c s :
  Z.of_nat (length a) = o + i -> 0 <= v < 2 ^ 32 ->
  rdval 32 p i 4 0 (put p (mkPkt u r l o (a ++ ip_bytes v ++ c)) s) =
    Ret v (put p (mkPkt u r l o (a ++ ip_bytes v ++ c)) s).
Proof.
  intros Ha Hv. erewrite (rdval_eq 32 p i 4 _ _ a (ip_bytes v) c 0);
    [| apply put_lookup | done | done | done | apply ip_bytes_ok | done | done].
  by rewrite be_ip_bytes.
Qed.

Lemma rdval48_put p i u r l o a v c s :
  Z.of_nat (length a) = o + i -> 0 <= v < 2 ^ 48 ->
  rdval 64 p i 6 0 (put p (mkPkt u r l o (a ++ mac_bytes v ++ c)) s) =
    Ret v (put p (mkPkt u r l o (a ++ mac_bytes v ++ c)) s).
Proof.
  intros Ha Hv. erewrite (rdval_eq 64 p i 6 _ _ a (mac_bytes v) c 0);
    [| apply put_lookup | done | done | done | apply mac_bytes_ok | done | done].
  by rewrite be_mac_bytes.
Qed.

Lemma ethtype_put p u r l smac ty c s :
  length smac = 6%nat -> 0 <= ty < 65536 ->
  ethpkt_ethtype p (put p (mkPkt u r l 0 (smac ++ be16 ty ++ c)) s) =
    Ret ty (put p (mkPkt u r l 0 (smac ++ be16 ty ++ c)) s).
Proof.
  intros Hm Hty. unfold ethpkt_ethtype, be16. cbn [app].
  nstep (rdb_put p 6 u r l 0 smac ((ty .>> 8) .& 0x0ff) (ty .& 0x0ff :: c) s ltac:(lia)).
  change (smac ++ (ty .>> 8) .& 0x0ff :: ty .& 0x0ff :: c)
    with (smac ++ [(ty .>> 8) .& 0x0ff] ++ ty .& 0x0ff :: c). rewrite app_assoc.
  nstep (rdb_put p 7 u r l 0 (smac ++ [(ty .>> 8) .& 0x0ff]) (ty .& 0x0ff) c s ltac:(llen)).
  unfold ret. f_equal. rewrite !land_255, !Zmod_mod, shiftr_div by lia.
  rewrite lor_shiftl_add by zlia. zlia.
Qed.

(** The device holds the frame [f], received without an error. *)
Definition received (f : list Z) (s : NET) : Prop :=
  n_rxcmd s = ENET_RXAVAIL .| Z.of_nat (length f) /\ (length f <= 2047)%nat /\
  exists rest, (2 <= length rest)%nat /\ n_rxbuf s = f ++ rest.

(** The register after the frame was taken from it. *)
Definition rx_taken (s : NET) : NET := s <| n_rxcmd := n_rxcmd s .& ~. (ENET_RXCLRERR .| ENET_RXCLR) |>.

Lemma rx_pkt_received f s : received f s ->
  exists c, rx_pkt s = Ret (Some (n_fresh s))
    (put (n_fresh s) (mkPkt 1 (Z.of_nat (length f)) (Z.of_nat (length f)) 0 (f ++ c))
       ((rx_taken s) <| n_fresh := S (n_fresh s) |>)).
Proof.
  intros (Hcmd & Hlen & rest & Hrest & Hbuf). set (n := Z.of_nat (length f)) in *.
  assert (Hn : 0 <= n < 2 ^ 14) by lia.
  assert (H1 : n_rxcmd s .& ENET_RXAVAIL = ENET_RXAVAIL /\ ENET_RXLEN (n_rxcmd s) = n /\ n_rxcmd s .& ENET_RXCLRERR = 0).
  { rewrite Hcmd. assert (E : ENET_RXAVAIL .| n = 1 * 2 ^ 14 + n).
    { change ENET_RXAVAIL with (1 .<< 14). apply lor_shiftl_add; lia. }
    unfold ENET_RXLEN. change 0x3fff with (2 ^ 14 - 1). rewrite land_ones_mod by lia.
    assert (Hz : forall k, n .& (k .<< 14) = 0).
    { intros k. rewrite <- (Z.mod_small n (2 ^ 14)), <- Z.land_ones, <- Z.land_assoc by lia.
      replace (Z.ones 14 .& (k .<< 14)) with 0; [apply Z.land_0_r |]. apply Z.bits_inj'. intros i Hi.
      rewrite Z.testbit_0_l, Z.land_spec. destruct (Z.ltb_spec i 14).
      - rewrite (Z.shiftl_spec_low k) by done. by rewrite andb_false_r.
      - by rewrite Z.ones_spec_high by lia. }
    split; [| split].
    - rewrite Z.land_lor_distr_l. change ENET_RXAVAIL with (1 .<< 14) at 3. by rewrite Hz.
    - rewrite E, Z.add_comm, Z_mod_plus_full. by apply Z.mod_small.
    - rewrite Z.land_lor_distr_l. change ENET_RXCLRERR with (0x1e .<< 14) at 2. by rewrite Hz. }
  destruct H1 as (H1 & H2 & H3). exists (take 2 rest).
  unfold rx_pkt. erewrite bind_eq by reflexivity. rewrite H1, H2, H3. change (truthy ENET_RXAVAIL) with true.
  change (truthy 0) with false. cbv iota. cbn [orb]. rewrite (proj2 (Z.ltb_ge 2047 n)) by lia.
  rewrite decide_True by (rewrite Hbuf, length_app; lia).
  replace (take (Z.to_nat n + 2) (n_rxbuf s)) with (f ++ take 2 rest).
  2: { rewrite Hbuf. unfold n. by rewrite Nat2Z.id, take_app_add. }
  reflexivity.
Qed.

(** ** Internet packets *)

(** The first 20 bytes of the header. *)
Definition ip_in (b0 : Z) (x : list Z) (sub : Z) (y : list Z) (src dst : Z) : list Z :=
  b0 :: x ++ sub :: y ++ ip_bytes src ++ ip_bytes dst.

(** The fields of a header, from the packet in memory. *)
Section Fields.
Context (p : nat) (u r l : Z) (h : list Z) (b0 : Z) (x : list Z) (sub : Z) (y : list Z) (src dst : Z) (f : list Z) (s : NET).
Context (Hh : length h = 8%nat) (Hx : length x = 8%nat) (Hy : length y = 2%nat).
Let m : list Z := h ++ ip_in b0 x sub y src dst ++ f.
Let st : NET := put p (mkPkt u r l 8 m) s.

Lemma ippkt_src_put : 0 <= src < 2 ^ 32 -> ippkt_src p st = Ret src st.
Proof.
  assert (M : m = (h ++ b0 :: x ++ sub :: y) ++ ip_bytes src ++ ip_bytes dst ++ f) by (unfold m, ip_in; lapp; done).
  intros Hs. unfold ippkt_src, st. rewrite M. apply rdval32_put; [llen | done].
Qed.

Lemma ippkt_dst_put : 0 <= dst < 2 ^ 32 -> ippkt_dst p st = Ret dst st.
Proof.
  assert (M : m = (h ++ b0 :: x ++ sub :: y ++ ip_bytes src) ++ ip_bytes dst ++ f) by (unfold m, ip_in; lapp; done).
  intros Hd. unfold ippkt_dst, st. rewrite M. apply rdval32_put; [llen | done].
Qed.

Lemma ippkt_subproto_put : 0 <= sub < 256 -> ippkt_subproto p st = Ret sub st.
Proof.
  assert (M : m = (h ++ b0 :: x) ++ sub :: y ++ ip_bytes src ++ ip_bytes dst ++ f) by (unfold m, ip_in; lapp; done).
  intros Hs. unfold ippkt_subproto, st. rewrite M.
  nstep (rdb_put p 9 u r l 8 (h ++ b0 :: x) sub (y ++ ip_bytes src ++ ip_bytes dst ++ f) s ltac:(llen)).
  unfold ret. by rewrite land_255, Z.mod_small.
Qed.

Lemma rx_ippkt_put ihl : b0 .& 0x0f = ihl ->
  rx_ippkt p st = Ret tt (put p (mkPkt u r (l - ihl * 4) (8 + ihl * 4) m) s).
Proof.
  assert (M : m = h ++ b0 :: (x ++ sub :: y ++ ip_bytes src ++ ip_bytes dst ++ f)) by (unfold m, ip_in; lapp; done).
  intros Hb. unfold rx_ippkt, st. rewrite M.
  nstep (rdb_put p 0 u r l 8 h b0 (x ++ sub :: y ++ ip_bytes src ++ ip_bytes dst ++ f) s ltac:(lia)).
  by rewrite Hb, advance_put.
Qed.
End Fields.

(** What [ping_packet] has found out before it looks at the destination. *)
Lemma ping_packet_ip p smac b0 ihl x sub y src dst f n s :
  length smac = 6%nat -> length x = 8%nat -> length y = 2%nat -> b0 .& 0x0f = ihl -> 0 <= sub < 256 ->
  0 <= src < 2 ^ 32 -> 0 <= dst < 2 ^ 32 ->
  let m := smac ++ be16 ETHERTYPE_IP ++ ip_in b0 x sub y src dst ++ f in
  ping_packet p (put p (mkPkt 1 n n 0 m) s) =
    ((if dst =? my_ip_addr s then
        if sub =? IPPROTO_ICMP then
          let* b := rdb p 0 in
          (if b =? ICMP_PING then icmp_reply src p else ret tt) ;;
          free_pkt p
        else pkt_reset p ;; dump_ethpkt p ;; free_pkt p
      else ret tt) ;; free_pkt p)
    (put p (mkPkt 2 n (n - 8 - ihl * 4) (8 + ihl * 4) m) s).
Proof.
  intros Hm Hx Hy Hb Hsub Hsrc Hdst m. unfold ping_packet.
  assert (H1 : update p (fun k => k <| p_usage_count := p_usage_count k + 1 |>) (put p (mkPkt 1 n n 0 m) s) =
    Ret tt (put p (mkPkt 2 n n 0 m) s)).
  { rewrite (update_eq _ _ _ _ (put_lookup _ _ _)). by rewrite put_put. }
  nstep H1. nstep (ethtype_put p 2 n n smac ETHERTYPE_IP (ip_in b0 x sub y src dst ++ f) s Hm ltac:(done)). fold m.
  change (ETHERTYPE_IP =? ETHERTYPE_ARP) with false. change (ETHERTYPE_IP =? ETHERTYPE_IP) with true. cbv iota.
  set (h := smac ++ be16 ETHERTYPE_IP).
  assert (Hh : length h = 8%nat) by (unfold h; llen). apply bind_cong.
  unfold rx_ethpkt. nstep (advance_put p 8 2 n n 0 m s).
  replace m with (h ++ ip_in b0 x sub y src dst ++ f) by (unfold m, h; lapp; done).
  nstep (ippkt_src_put p 2 n (n - 8) h b0 x sub y src dst f s Hh Hx Hy Hsrc).
  nstep (ippkt_dst_put p 2 n (n - 8) h b0 x sub y src dst f s Hh Hx Hy Hdst).
  nstep (ippkt_subproto_put p 2 n (n - 8) h b0 x sub y src dst f s Hh Hx Hy Hsub).
  nstep (rx_ippkt_put p 2 n (n - 8) h b0 x sub y src dst f s Hh Hx Hy ihl Hb).
  erewrite bind_eq by reflexivity. done.
Qed.

(** ** One turn of the loop *)

Lemma free_put2 p r l o m s :
  n_heap s !! p = None -> (free_pkt p ;; free_pkt p) (put p (mkPkt 2 r l o m) s) = Ret tt s.
Proof.
  intros Hp. assert (H : free_pkt p (put p (mkPkt 2 r l o m) s) = Ret tt (put p (mkPkt 1 r l o m) s)).
  { unfold free_pkt. nstep (deref_put p (mkPkt 2 r l o m) s).
    nstep (assign_put p (mkPkt 2 r l o m) (mkPkt 1 r l o m) s). done. }
  nstep H. by apply free_put.
Qed.

Lemma turn_received host c s p s' :
  rx_pkt s = Ret (Some p) s' ->
  ping_turn host BUSPIC_NETRX c s = (ping_packet p ;; ret c) s'.
Proof.
  intros H. destruct c as [now lastping]. unfold ping_turn.
  change (truthy (BUSPIC_NETRX .& BUSPIC_TIMER)) with false.
  change (truthy (BUSPIC_NETRX .& BUSPIC_NETRX)) with true.
  change (truthy (BUSPIC_NETRX .& BUSPIC_NETTX)) with false. cbv iota.
  erewrite bind_eq by reflexivity. unfold bind. rewrite H.
  by destruct (ping_packet p s').
Qed.

(** The state once the frame is in memory. *)
Definition rx_state (s : NET) : NET := (rx_taken s) <| n_fresh := S (n_fresh s) |>.

(** No block of memory that is still to be handed out is in use. *)
Definition heap_ok (s : NET) : Prop := forall p, (n_fresh s <= p)%nat -> n_heap s !! p = None.

(** ** A board for the witnesses: one host is known to it, and the device holds
    the frame [f]. *)
Definition board0 (f : list Z) : NET := {|
  n_heap := ∅; n_fresh := 0; n_junk := fun _ => 0;
  my_mac_addr := 0xa25345b6fb5e; my_ip_addr := 0xc0a80f16; my_ip_mask := 0xffffff00;
  my_ip_router := 0xc0a80f01; router_mac_addr := 0; ip_pktid := 0; icmppkt_id := 0; arp_requests_sent := 0;
  arp_table := mkArp 1 0 0xc0a80f05 0x112233445566 :: replicate 7 (mkArp 0 0 0 0);
  arp_logid := 0; arp_table_log := replicate 32 (0, 0); eid_junk := 0; waiting_pkt := None;
  n_rxcmd := ENET_RXAVAIL .| Z.of_nat (length f); n_txcmd := 0; n_rxbuf := f ++ [0; 0]; n_sent := []; n_gpio := 0
|}.

Lemma received_board0 f : (length f <= 2047)%nat -> received f (board0 f).
Proof. intros H. split; [done |]. split; [done |]. exists [0; 0]. split; [cbn; lia | done]. Qed.
Lemma heap_ok_board0 f : heap_ok (board0 f).
Proof. intros p _. apply lookup_empty. Qed.
