(* ===== verification/NetClaims.v ===== *)
(** The claims on the network software: echo replies, address resolution,
    datagrams, and what becomes of the packets received. *)

From stdpp Require Import base tactics list numbers option gmap.
From Stdlib Require Import ZArith Lia.
From S2P Require Import Prelude Net NetProto NetWp NetIp NetRx.
Local Open Scope Z_scope.

(** ** Echo *)

Definition icmp_msg (ty code ck : Z) (data : list Z) : list Z := [ty; code] ++ be16 ck ++ data.

Lemma junk_split s n m : 0 <= n -> 0 <= m ->
  exists x y, junk_bytes s (n + m) = x ++ y /\ Z.of_nat (length x) = n /\ Z.of_nat (length y) = m.
Proof.
  intros Hn Hm. destruct (split_list (Z.to_nat n) (junk_bytes s (n + m))) as (x & y & H & Hx & Hy);
    unfold junk_bytes in *; rewrite length_map, length_seq in *; [lia |].
  exists x, y. split; [done | lia].
Qed.

Section Reply.
Context (s : NET) (p : nat) (u r o ip : Z) (a c : list Z) (code c1 c2 : Z) (data : list Z).
Let body : list Z := [ICMP_PING; code; c1; c2] ++ data.
Let l : Z := Z.of_nat (length body).
Context (Hp : n_heap s !! p = Some (mkPkt u r l o (a ++ body ++ c))) (Ha : Z.of_nat (length a) = o).
Context (Hb : bytes body) (Hlen : (4 <= length data < 1020)%nat).
Context (Hq : n_heap s !! n_fresh s = None).

(** The packet that [icmp_reply] fills in, up to its checksum. *)
Lemma icmp_reply_body :
  exists j, length j = 28%nat /\
    icmp_reply ip p s =
      (let* k := deref (n_fresh s) in
       let* cksum := pkt_cksum (p_length k) (n_fresh s) in
       wrbs (n_fresh s) 2 (be16 cksum) ;;
       let* s' := get in
       tx_ippkt (n_fresh s) IPPROTO_ICMP (my_ip_addr s') ip)
      (put (n_fresh s) (mkPkt 1 (28 + l) l 28 (j ++ [0; 0; 0; 0] ++ data)) (s <| n_fresh := S (n_fresh s) |>)).
Proof.
  set (q := n_fresh s) in *. assert (Hpq : q <> p) by (intros ->; by rewrite Hp in Hq).
  assert (Hl : l = 4 + Z.of_nat (length data)) by (subst l body; cbn; lia).
  set (s1 := s <| n_fresh := S q |>).
  destruct (junk_split s 28 l) as (j & y & Hj & Lj & Ly); [lia | lia |].
  exists j. split; [lia |]. unfold icmp_reply. nstep (deref_eq _ _ _ Hp). cbn [p_length].
  change (p_length (mkPkt u r l o (a ++ body ++ c))) with l. rewrite (proj2 (Z.ltb_ge l 8)) by lia.
  assert (Hrd : rdb p 0 s = Ret ICMP_PING s).
  { eapply rdb_eq; [exact Hp | nfields; lia |]. nfields. rewrite Z.add_0_r, <- Ha, Nat2Z.id.
    by apply list_lookup_middle. }
  nstep Hrd. cbn [Z.eqb Pos.eqb negb ICMP_PING]. change (negb (ICMP_PING =? ICMP_PING)) with false. cbv iota.
  rewrite (proj2 (Z.leb_gt 1024 l)) by lia.
  nstep (new_ippkt_eq l s ltac:(lia)). fold q s1. rewrite (Z.add_comm l 28), Hj.
  set (K := mkPkt 1 (28 + l) l 28 (j ++ y)).
  assert (Hrd2 : rdbs p 0 l (put q K s1) = Ret body (put q K s1)).
  { eapply (rdbs_eq p 0 l (mkPkt u r l o (a ++ body ++ c)) _ a body c); [| done | nfields; lia | done].
    rewrite put_other by done. exact Hp. }
  nstep Hrd2. unfold K. rewrite <- (app_nil_r y).
  nstep (wrbs_put q 0 body 1 (28 + l) l 28 j y [] s1 ltac:(lia) ltac:(lia)).
  rewrite u8_bytes, app_nil_r by done.
  nstep (wrbs_put q 0 [ICMP_ECHOREPLY; 0; 0; 0] 1 (28 + l) l 28 j [ICMP_PING; code; c1; c2] data s1 ltac:(lia) eq_refl).
  reflexivity.
Qed.

Context (Heven : Nat.Even (length data)) (m : Z).
Context (Hi : tx_idle s) (Ht : length (arp_table s) = NUM_ARP_ENTRIES) (Hans : arp_answer s ip = Some m).

(** The reply that is sent. *)
Lemma icmp_reply_ok :
  let id := u32 (ip_pktid s + BIG_PRIME) in
  exists ck ck2 t', Forall2 aged (arp_table s) t' /\
    ipcksum 20 (ip_header (l + 20) id IPPROTO_ICMP (my_ip_addr s) ip ck) = Some 0 /\
    ipcksum l (icmp_msg ICMP_ECHOREPLY 0 ck2 data) = Some 0 /\
    icmp_reply ip p s =
      Ret tt (sent (ip_frame m (l + 20) id IPPROTO_ICMP (my_ip_addr s) ip ck (icmp_msg ICMP_ECHOREPLY 0 ck2 data))
        (s <| n_fresh := S (n_fresh s) |> <| ip_pktid := id |> <| arp_table := t' |>)).
Proof.
  intros id. destruct icmp_reply_body as (j & Lj & Hr). set (q := n_fresh s) in *.
  set (s1 := s <| n_fresh := S q |>) in *. assert (Hbd : bytes data) by (by apply Forall_app in Hb as [_ ?]).
  destruct (cksum_put [ICMP_ECHOREPLY; 0] data []) as (ck2 & H1 & Hck & H2); [bytes_tac | done | by exists 1%nat | done | cbn; lia |].
  { unfold ICMP_ECHOREPLY. repeat constructor; lia. }
  assert (Hl : Z.of_nat (length [ICMP_ECHOREPLY; 0] + 2 + length data) = l) by done. rewrite Hl, app_nil_r in *.
  destruct (tx_ippkt_put q (28 + l) l 28 IPPROTO_ICMP (my_ip_addr s) ip m [] j (icmp_msg ICMP_ECHOREPLY 0 ck2 data) s1)
    as (ck & t' & Hck' & Hag & Hv & Htx); [exact Hq | exact Hi | exact Ht | exact Hans | lia | done | done | | done |].
  { unfold icmp_msg. rewrite !length_app. cbn. unfold l, body. rewrite length_app. cbn. lia. }
  exists ck, ck2, t'. split; [exact Hag |]. split; [exact Hv |]. split; [exact H2 |].
  rewrite Hr. nstep (deref_put q (mkPkt 1 (28 + l) l 28 (j ++ [0; 0; 0; 0] ++ data)) s1). cbn [p_length].
  change (p_length _) with l.
  nstep (pkt_cksum_put q l 1 (28 + l) l 28 j ([0; 0; 0; 0] ++ data) s1 ck2 ltac:(lia) H1).
  change ([0; 0; 0; 0] ++ data) with ([0; 0] ++ [0; 0] ++ data). rewrite (app_assoc j).
  nstep (wrbs_put q 2 (be16 ck2) 1 (28 + l) l 28 (j ++ [0; 0]) [0; 0] data s1 ltac:(rewrite length_app; cbn; lia) eq_refl).
  rewrite u8_bytes by bytes_tac. erewrite bind_eq by reflexivity. rewrite <- app_assoc. exact Htx.
Qed.
End Reply.

(** ** A frame that arrives *)

(** An internet packet, as the device has it. *)
Definition ip_in_frame (smac : list Z) (b0 : Z) (x : list Z) (sub : Z) (y : list Z) (src dst : Z) (f : list Z) : list Z :=
  smac ++ be16 ETHERTYPE_IP ++ ip_in b0 x sub y src dst ++ f.

Section Arrival.
Context (s : NET) (host : Z) (c : Z * Z) (smac : list Z) (b0 ihl : Z) (x : list Z) (sub : Z) (y : list Z).
Context (src dst : Z) (f : list Z).
Let frame : list Z := ip_in_frame smac b0 x sub y src dst f.
Let n : Z := Z.of_nat (length frame).
Context (Hrx : received frame s) (Hm : length smac = 6%nat) (Hx : length x = 8%nat) (Hy : length y = 2%nat).
Context (Hb : b0 .& 0x0f = ihl) (Hsub : 0 <= sub < 256) (Hsrc : 0 <= src < 2 ^ 32) (Hdst : 0 <= dst < 2 ^ 32).

Lemma ping_turn_ip : exists c0 : list Z,
  let p := n_fresh s in
  ping_turn host BUSPIC_NETRX c s =
    (((if dst =? my_ip_addr s then
        if sub =? IPPROTO_ICMP then
          let* b := rdb p 0 in
          (if b =? ICMP_PING then icmp_reply src p else ret tt) ;;
          free_pkt p
        else pkt_reset p ;; dump_ethpkt p ;; free_pkt p
      else ret tt) ;; free_pkt p) ;; ret c)
    (put p (mkPkt 2 n (n - 8 - ihl * 4) (8 + ihl * 4) (frame ++ c0)) (rx_state s)).
Proof.
  destruct (rx_pkt_received frame s Hrx) as (c0 & Hr). exists c0. cbv zeta. rewrite (turn_received _ _ _ _ _ Hr).
  apply bind_cong. pose proof (ping_packet_ip (n_fresh s) smac b0 ihl x sub y src dst (f ++ c0) n (rx_state s)
    Hm Hx Hy Hb Hsub Hsrc Hdst) as Hpk. cbv zeta in Hpk.
  replace (smac ++ be16 ETHERTYPE_IP ++ ip_in b0 x sub y src dst ++ f ++ c0) with (frame ++ c0) in Hpk.
  - exact Hpk.
  - unfold frame, ip_in_frame. lapp. done.
Qed.

(** A turn of the loop on a packet to someone else leaves it on the heap. *)
Lemma ping_turn_foreign : dst <> my_ip_addr s -> exists c0 : list Z,
  ping_turn host BUSPIC_NETRX c s =
    Ret c (put (n_fresh s) (mkPkt 1 n (n - 8 - ihl * 4) (8 + ihl * 4) (frame ++ c0)) (rx_state s)).
Proof.
  intros Hne. destruct ping_turn_ip as (c0 & H). exists c0. cbv zeta in H. rewrite H, (proj2 (Z.eqb_neq _ _) Hne).
  rewrite bind_assoc. erewrite bind_eq by reflexivity. set (K := mkPkt 2 _ _ _ _).
  unfold free_pkt. rewrite bind_assoc. nstep (deref_put (n_fresh s) K (rx_state s)).
  rewrite bind_assoc. nstep (assign_put (n_fresh s) K (K <| p_usage_count := 1 |>) (rx_state s)). done.
Qed.
End Arrival.

(** ** The echo server *)

(** An echo request to [dst] as the device has it. *)
Definition ping_frame (smac : list Z) (b0 : Z) (x y : list Z) (src dst code c1 c2 : Z) (data : list Z) : list Z :=
  ip_in_frame smac b0 x IPPROTO_ICMP y src dst ([ICMP_PING; code; c1; c2] ++ data).

(** The request in memory, [icmp_reply] about to be called. *)
Lemma ping_turn_echo s host c smac b0 x y src code c1 c2 data :
  let f := ping_frame smac b0 x y src (my_ip_addr s) code c1 c2 data in
  received f s -> length smac = 6%nat -> length x = 8%nat -> length y = 2%nat -> b0 .& 0x0f = 5 ->
  0 <= src < 2 ^ 32 -> 0 <= my_ip_addr s < 2 ^ 32 ->
  exists h c0 n, Z.of_nat (length h) = 28 /\
    ping_turn host BUSPIC_NETRX c s =
      (icmp_reply src (n_fresh s) ;; (free_pkt (n_fresh s) ;; free_pkt (n_fresh s)) ;; ret c)
      (put (n_fresh s) (mkPkt 2 n (Z.of_nat (4 + length data)) 28 (h ++ ([ICMP_PING; code; c1; c2] ++ data) ++ c0))
         (rx_state s)).
Proof.
  intros f Hrx Hm Hx Hy Hb Hsrc Hmy. set (body := [ICMP_PING; code; c1; c2] ++ data).
  set (h := smac ++ be16 ETHERTYPE_IP ++ ip_in b0 x IPPROTO_ICMP y src (my_ip_addr s)).
  destruct (ping_turn_ip s host c smac b0 5 x IPPROTO_ICMP y src (my_ip_addr s) body Hrx Hm Hx Hy Hb ltac:(done) Hsrc Hmy) as (c0 & H).
  cbv zeta in H. set (p := n_fresh s) in *.
  exists h, c0, (Z.of_nat (length f)). assert (Hh : Z.of_nat (length h) = 28) by (unfold h, ip_in; llen).
  split; [exact Hh |]. rewrite H, Z.eqb_refl. change (IPPROTO_ICMP =? IPPROTO_ICMP) with true. cbv iota.
  replace (ip_in_frame smac b0 x IPPROTO_ICMP y src (my_ip_addr s) body ++ c0) with (h ++ body ++ c0)
    by (unfold ip_in_frame, h; lapp; done).
  fold (ping_frame smac b0 x y src (my_ip_addr s) code c1 c2 data). fold f.
  replace (Z.of_nat (length (ip_in_frame smac b0 x IPPROTO_ICMP y src (my_ip_addr s) body)) - 8 - 5 * 4)
    with (Z.of_nat (4 + length data)) by (unfold ip_in_frame, ip_in, body; llen).
  rewrite !bind_assoc. change (8 + 5 * 4) with 28.
  nstep (rdb_put p 0 2 (Z.of_nat (length f)) (Z.of_nat (4 + length data)) 28 h ICMP_PING ([code; c1; c2] ++ data ++ c0) (rx_state s) Hh).
  change (ICMP_PING =? ICMP_PING) with true. cbv iota. rewrite bind_assoc. unfold bind.
  change (h ++ body ++ c0) with (h ++ ICMP_PING :: [code; c1; c2] ++ data ++ c0).
  destruct (icmp_reply _ _ _) as [[] s' | e s']; [| done].
  by destruct (free_pkt p s').
Qed.


(** ** Messages of odd length *)

Lemma cksum_loop_odd seg : forall pre fuel c,
  Nat.Odd (length seg) ->
  cksum_loop fuel (Z.of_nat (length pre + length seg)) (Z.of_nat (length pre)) (pre ++ seg) c = None.
Proof.
  revert seg. refine (pair_ind _ _ _ _); cbn [length].
  - intros pre fuel c [n Hn]. lia.
  - intros a pre [| fuel] c _; [done |]. cbn [cksum_loop]. rewrite (proj2 (Z.ltb_lt _ _)) by lia.
    rewrite Nat2Z.id. replace (Z.to_nat (Z.of_nat (length pre) + 1)) with (S (length pre)) by lia.
    rewrite list_lookup_middle by done. rewrite (lookup_ge_None_2 (pre ++ [a])); [done | rewrite length_app; cbn; lia].
  - intros a b l IH pre [| fuel] c [n Hn]; [done |]. cbn [cksum_loop].
    rewrite (proj2 (Z.ltb_lt _ _)) by lia. rewrite Nat2Z.id.
    destruct (_ !! _) as [x |]; [| done]. destruct (_ !! _) as [z |]; [| done].
    replace (Z.of_nat (length pre) + 2) with (Z.of_nat (length (pre ++ [a; b]))) by (rewrite !length_app; cbn; lia).
    replace (Z.of_nat (length pre + S (S (length l)))) with (Z.of_nat (length (pre ++ [a; b]) + length l))
      by (rewrite !length_app; cbn; lia).
    replace (pre ++ a :: b :: l) with ((pre ++ [a; b]) ++ l) by (by rewrite <- !app_assoc).
    apply IH. exists (n - 1)%nat. lia.
Qed.

(** The checksum of an odd number of bytes reads one more. *)
Lemma ipcksum_odd seg : Nat.Odd (length seg) -> ipcksum (Z.of_nat (length seg)) seg = None.
Proof. intros H. unfold ipcksum. pose proof (cksum_loop_odd seg [] (S (Z.to_nat (Z.of_nat (length seg)))) 0 H) as E. cbn [length app Nat.add] in E. change (Z.of_nat 0) with 0 in E. by rewrite E. Qed.

(** An echo request whose data has an odd length makes the board read past the
    end of the reply that it has allocated. *)
Theorem ping_odd_fault s host c smac b0 x y src code c1 c2 data :
  received (ping_frame smac b0 x y src (my_ip_addr s) code c1 c2 data) s ->
  length smac = 6%nat -> length x = 8%nat -> length y = 2%nat -> b0 .& 0x0f = 5 ->
  0 <= src < 2 ^ 32 -> 0 <= my_ip_addr s < 2 ^ 32 -> bytes ([code; c1; c2] ++ data) ->
  (4 <= length data < 1020)%nat -> Nat.Odd (length data) -> heap_ok s ->
  exists s', ping_turn host BUSPIC_NETRX c s = Exn FAULT s'.
Proof.
  intros Hrx Hm Hx Hy Hb Hsrc Hmy Hbytes Hlen Hodd Hheap.
  destruct (ping_turn_echo s host c _ _ _ _ _ _ _ _ _ Hrx Hm Hx Hy Hb Hsrc Hmy) as (h & c0 & n & Hh & Hturn).
  set (p := n_fresh s) in *. set (body := [ICMP_PING; code; c1; c2] ++ data) in *.
  set (l := Z.of_nat (4 + length data)) in *.
  set (s2 := put p (mkPkt 2 n l 28 (h ++ body ++ c0)) (rx_state s)) in *.
  destruct (icmp_reply_body s2 p 2 n 28 src h c0 code c1 c2 data) as (j & Lj & Hr);
    [apply put_lookup | done | | done | |].
  { by apply (Forall_cons_2 _ ICMP_PING ([code; c1; c2] ++ data)). }
  { unfold s2. rewrite put_other by (cbn; lia). apply Hheap. cbn. lia. }
  rewrite Hturn. cbv zeta in Hr. eexists. eapply bind_exn. rewrite Hr.
  set (q := n_fresh s2) in *. set (s3 := s2 <| n_fresh := S q |>). fold body l.
  change (Z.of_nat (length body)) with l. set (K := mkPkt 1 (28 + l) l 28 (j ++ [0; 0; 0; 0] ++ data)).
  nstep (deref_put q K s3). apply bind_exn. unfold pkt_cksum. nstep (deref_put q K s3).
  change (p_user K) with 28. change (p_length K) with l. change (p_mem K) with (j ++ [0; 0; 0; 0] ++ data).
  change (0 <=? 28) with true. cbv iota. change (Z.to_nat 28) with 28%nat. rewrite <- Lj, drop_app_length.
  change l with (Z.of_nat (length ([0; 0; 0; 0] ++ data))). rewrite ipcksum_odd; [reflexivity |].
  destruct Hodd as [k Hk]. exists (k + 2)%nat. rewrite length_app. cbn. lia.
Qed.

(** ** Packets for others, and packets with options *)

(** A packet that is not addressed to the board stays in memory for ever: one
    of its two users has let go of it, and nobody holds it. *)
Theorem ping_foreign_leak s host c smac b0 ihl x sub y src dst f :
  received (ip_in_frame smac b0 x sub y src dst f) s ->
  length smac = 6%nat -> length x = 8%nat -> length y = 2%nat -> b0 .& 0x0f = ihl -> 0 <= sub < 256 ->
  0 <= src < 2 ^ 32 -> 0 <= dst < 2 ^ 32 -> dst <> my_ip_addr s ->
  exists k, p_usage_count k = 1 /\
    ping_turn host BUSPIC_NETRX c s = Ret c (put (n_fresh s) k (rx_state s)).
Proof.
  intros Hrx Hm Hx Hy Hb Hsub Hsrc Hdst Hne.
  destruct (ping_turn_foreign s host c smac b0 ihl x sub y src dst f Hrx Hm Hx Hy Hb Hsub Hsrc Hdst Hne) as (c0 & H).
  eexists. split; [| exact H]. done.
Qed.

Lemma reset_put p u r l o m s : pkt_reset p (put p (mkPkt u r l o m) s) = Ret tt (put p (mkPkt u r r 0 m) s).
Proof. unfold pkt_reset. rewrite (update_eq _ _ _ _ (put_lookup _ _ _)). by rewrite put_put. Qed.

(** Printing a packet whose header is not of the plain form does not end. *)
Lemma dump_ethpkt_hang p u l o smac b0 z c0 s :
  length smac = 6%nat -> b0 <> 0x45 ->
  let f := smac ++ be16 ETHERTYPE_IP ++ b0 :: z in
  exists s', dump_ethpkt p (put p (mkPkt u (Z.of_nat (length f)) l o (f ++ c0)) s) = Exn HANG s'.
Proof.
  intros Hm Hb0 f. set (n := Z.of_nat (length f)). unfold dump_ethpkt. nstep (reset_put p u n l o (f ++ c0) s).
  set (h := smac ++ be16 ETHERTYPE_IP). assert (Hh : length h = 8%nat) by (unfold h; llen).
  assert (Hrd : rdbs p 0 6 (put p (mkPkt u n n 0 (f ++ c0)) s) = Ret smac (put p (mkPkt u n n 0 (f ++ c0)) s)).
  { eapply (rdbs_eq p 0 6 _ _ [] smac); [apply put_lookup | unfold f; nfields; by rewrite <- app_assoc | done | lia]. }
  nstep Hrd. replace (f ++ c0) with (smac ++ be16 ETHERTYPE_IP ++ b0 :: z ++ c0) by (unfold f; lapp; done).
  nstep (ethtype_put p u n n smac ETHERTYPE_IP (b0 :: z ++ c0) s Hm ltac:(done)).
  change (ETHERTYPE_IP =? ETHERTYPE_IP) with true. cbv iota. rewrite app_assoc. fold h.
  nstep (advance_put p 8 u n n 0 (h ++ b0 :: z ++ c0) s). eexists. eapply bind_exn. unfold dump_ippkt.
  nstep (rdb_put p 0 u n (n - 8) (0 + 8) h b0 (z ++ c0) s ltac:(lia)).
  nstep (deref_put p (mkPkt u n (n - 8) (0 + 8) (h ++ b0 :: z ++ c0)) s). nfields.
  rewrite (proj2 (Z.eqb_neq _ _) Hb0). cbn [negb].
  assert (Hn : n = Z.of_nat (length (h ++ b0 :: z))) by (unfold n, f, h; by rewrite <- app_assoc).
  erewrite bind_eq.
  2: { eapply (rdbs_eq p 0 _ _ _ h (b0 :: z) c0); [apply put_lookup | lapp; done | nfields; lia |].
       rewrite Hn. llen. }
  erewrite bind_eq.
  2: { eapply (rdbs_eq p _ _ _ _ [] (h ++ b0 :: z) c0); [apply put_lookup | lapp; done | nfields; done |].
       by rewrite Hn. }
  reflexivity.
Qed.

(** An internet packet of another protocol, whose header is not the plain one
    of 20 bytes, stops the board. *)
Theorem ping_options_hang s host c smac b0 ihl x sub y src f :
  received (ip_in_frame smac b0 x sub y src (my_ip_addr s) f) s ->
  length smac = 6%nat -> length x = 8%nat -> length y = 2%nat -> b0 .& 0x0f = ihl -> b0 <> 0x45 ->
  0 <= sub < 256 -> sub <> IPPROTO_ICMP -> 0 <= src < 2 ^ 32 -> 0 <= my_ip_addr s < 2 ^ 32 ->
  exists s', ping_turn host BUSPIC_NETRX c s = Exn HANG s'.
Proof.
  intros Hrx Hm Hx Hy Hb Hb0 Hsub Hsne Hsrc Hmy.
  destruct (ping_turn_ip s host c smac b0 ihl x sub y src (my_ip_addr s) f Hrx Hm Hx Hy Hb Hsub Hsrc Hmy) as (c0 & H).
  cbv zeta in H. rewrite H, Z.eqb_refl, (proj2 (Z.eqb_neq _ _) Hsne). set (p := n_fresh s).
  set (frame := ip_in_frame smac b0 x sub y src (my_ip_addr s) f). set (n := Z.of_nat (length frame)).
  set (z := (x ++ sub :: y ++ ip_bytes src ++ ip_bytes (my_ip_addr s)) ++ f).
  destruct (dump_ethpkt_hang p 2 n 0 smac b0 z c0 (rx_state s) Hm Hb0) as (s' & Hd).
  exists s'. do 2 eapply bind_exn.
  nstep (reset_put p 2 n (n - 8 - ihl * 4) (8 + ihl * 4) (frame ++ c0) (rx_state s)).
  eapply bind_exn. exact Hd.
Qed.

(** ** Witnesses *)

Definition smac0 : list Z := [0x11; 0x22; 0x33; 0x44; 0x55; 0x66].
Definition echo0 (data : list Z) : list Z :=
  ping_frame smac0 0x45 [0; 0; 32; 0; 1; 0; 0; 64] [0; 0] 0xc0a80f05 0xc0a80f16 0 0x12 0x34 data.
Definition udp0 (b0 dst : Z) : list Z :=
  ip_in_frame smac0 b0 [0; 0; 32; 0; 1; 0; 0; 64] IPPROTO_UDP [0; 0] 0xc0a80f05 dst [1; 2; 3; 4].


Lemma ping_odd_fault_witness : exists s',
  ping_turn 0xc0a80f01 BUSPIC_NETRX (0, 0) (board0 (echo0 [1; 2; 3; 4; 5])) = Exn FAULT s'.
Proof.
  apply (ping_odd_fault (board0 (echo0 [1; 2; 3; 4; 5])) 0xc0a80f01 (0, 0) smac0 0x45 [0; 0; 32; 0; 1; 0; 0; 64] [0; 0]
    0xc0a80f05 0 0x12 0x34 [1; 2; 3; 4; 5]);
    [apply received_board0; cbn; lia | reflexivity | reflexivity | reflexivity | reflexivity | lia | cbn; lia
    | repeat constructor; lia | cbn; lia | by exists 2%nat | apply heap_ok_board0].
Defined.

Lemma ping_foreign_leak_witness : exists k, p_usage_count k = 1 /\
  ping_turn 0xc0a80f01 BUSPIC_NETRX (0, 0) (board0 (udp0 0x45 0xc0a80fff)) =
    Ret (0, 0) (put 0 k (rx_state (board0 (udp0 0x45 0xc0a80fff)))).
Proof.
  apply (ping_foreign_leak (board0 (udp0 0x45 0xc0a80fff)) 0xc0a80f01 (0, 0) smac0 0x45 5 [0; 0; 32; 0; 1; 0; 0; 64]
    IPPROTO_UDP [0; 0] 0xc0a80f05 0xc0a80fff [1; 2; 3; 4]);
    [apply received_board0; cbn; lia | reflexivity | reflexivity | reflexivity | reflexivity | done | lia | lia | done].
Defined.

Lemma ping_options_hang_witness : exists s',
  ping_turn 0xc0a80f01 BUSPIC_NETRX (0, 0) (board0 (udp0 0x46 0xc0a80f16)) = Exn HANG s'.
Proof.
  apply (ping_options_hang (board0 (udp0 0x46 0xc0a80f16)) 0xc0a80f01 (0, 0) smac0 0x46 6 [0; 0; 32; 0; 1; 0; 0; 64]
    IPPROTO_UDP [0; 0] 0xc0a80f05 [1; 2; 3; 4]);
    [apply received_board0; cbn; lia | reflexivity | reflexivity | reflexivity | reflexivity | lia | done | done | lia | cbn; lia].
Defined.
