(* ===== verification/NetArp.v ===== *)
(** Address resolution: the requests and replies that are sent, and what the
    table remembers (src/sw/rv32/arp.c). *)

From stdpp Require Import base tactics list numbers option gmap.
From Stdlib Require Import ZArith Lia.
From S2P Require Import Prelude Net NetProto NetWp NetIp NetRx.
Local Open Scope Z_scope.

(** ** What is sent *)

(** The body of a request or a reply of the board with addresses [mymac] and
    [myip]. *)
Definition arp_body (mymac myip op m ip : Z) : list Z :=
  [0x00; 0x01; 0x08; 0x00; 0x06; 0x04; 0x00; op] ++ mac_bytes mymac ++ ip_bytes myip ++ mac_bytes m ++ ip_bytes ip.

Definition arp_frame (s : NET) (op to m ip : Z) : list Z :=
  mac_bytes to ++ be16 ETHERTYPE_ARP ++ arp_body (my_mac_addr s) (my_ip_addr s) op m ip.

Lemma arp_fill_put p op m ip u r l o a b s :
  Z.of_nat (length a) = o -> length b = 28%nat -> 0 <= op < 256 ->
  arp_fill p op m ip (put p (mkPkt u r l o (a ++ b)) s) =
    Ret tt (put p (mkPkt u r l o (a ++ arp_body (my_mac_addr s) (my_ip_addr s) op m ip)) s).
Proof.
  intros Ha Hb Hop. unfold arp_fill. erewrite bind_eq by reflexivity.
  change (my_mac_addr (put _ _ s)) with (my_mac_addr s). change (my_ip_addr (put _ _ s)) with (my_ip_addr s).
  rewrite <- (app_nil_r b). nstep (wrbs_put p 0 arp_packet u r l o a b [] s ltac:(lia) ltac:(done)).
  set (h := [0x00; 0x01; 0x08; 0x00; 0x06; 0x04; 0x00]).
  change ((u8 <$> arp_packet) ++ []) with (h ++ 1 :: replicate 6 0 ++ replicate 4 0 ++ replicate 6 0 ++ replicate 4 0 ++ []).
  rewrite (app_assoc a h).
  nstep (wrb_put p 7 op u r l o (a ++ h) 1 (replicate 6 0 ++ replicate 4 0 ++ replicate 6 0 ++ replicate 4 0 ++ []) s ltac:(unfold h; llen)).
  rewrite u8_byte by done. rewrite (cons_middle op), (app_assoc (a ++ h)).
  nstep (wrbs_put p 8 (mac_bytes (my_mac_addr s)) u r l o ((a ++ h) ++ [op]) (replicate 6 0)
    (replicate 4 0 ++ replicate 6 0 ++ replicate 4 0 ++ []) s ltac:(unfold h; llen) eq_refl).
  rewrite u8_bytes by bytes_tac. rewrite (app_assoc _ (mac_bytes _)).
  nstep (wrbs_put p 14 (ip_bytes (my_ip_addr s)) u r l o (((a ++ h) ++ [op]) ++ mac_bytes (my_mac_addr s)) (replicate 4 0)
    (replicate 6 0 ++ replicate 4 0 ++ []) s ltac:(unfold h; llen) eq_refl).
  rewrite u8_bytes by bytes_tac. rewrite (app_assoc _ (ip_bytes _)).
  nstep (wrbs_put p 18 (mac_bytes m) u r l o ((((a ++ h) ++ [op]) ++ mac_bytes (my_mac_addr s)) ++ ip_bytes (my_ip_addr s))
    (replicate 6 0) (replicate 4 0 ++ []) s ltac:(unfold h; llen) eq_refl).
  rewrite u8_bytes by bytes_tac. rewrite (app_assoc _ (mac_bytes m)).
  rewrite (wrbs_put p 24 (ip_bytes ip) u r l o (((((a ++ h) ++ [op]) ++ mac_bytes (my_mac_addr s)) ++ ip_bytes (my_ip_addr s)) ++ mac_bytes m)
    (replicate 4 0) [] s) by (reflexivity || (unfold h; llen)).
  rewrite u8_bytes by bytes_tac. unfold arp_body, h. do 3 f_equal. lapp. done.
Qed.

Lemma new_arp_eq s :
  new_arp s = Ret (n_fresh s) (put (n_fresh s) (mkPkt 1 36 28 8 (junk_bytes s 36)) (s <| n_fresh := S (n_fresh s) |>)).
Proof.
  unfold new_arp, new_ethpkt.
  assert (Hn : new_pkt (28 + 8) s = Ret (n_fresh s) (put (n_fresh s)
    (mkPkt 1 36 36 0 (junk_bytes s 36)) (s <| n_fresh := S (n_fresh s) |>))) by reflexivity.
  nstep Hn. nstep (advance_put (n_fresh s) 8 1 36 36 0 (junk_bytes s 36) (s <| n_fresh := S (n_fresh s) |>)). done.
Qed.

Section Send.
Context (s : NET) (Hq : n_heap s !! n_fresh s = None) (Hi : tx_idle s).
Let q : nat := n_fresh s.
Let s1 : NET := s <| n_fresh := S q |>.

Lemma junk_36 : exists h b, junk_bytes s 36 = h ++ b /\ length h = 8%nat /\ length b = 28%nat.
Proof.
  destruct (split_list 8 (junk_bytes s 36)) as (h & b & H & Hh & Hb); [by unfold junk_bytes; rewrite length_map, length_seq; lia |].
  exists h, b. split; [done |]. split; [done |]. rewrite Hb. unfold junk_bytes. rewrite length_map, length_seq. lia.
Qed.

Lemma send_arp_reply_ok m ip :
  send_arp_reply m ip s = Ret tt (sent (arp_frame s ARP_REPLY m m ip) s1).
Proof.
  destruct junk_36 as (h & b & Hj & Hh & Hb). unfold send_arp_reply. nstep (new_arp_eq s). rewrite Hj. fold q s1.
  nstep (arp_fill_put q ARP_REPLY m ip 1 36 28 8 h b s1 ltac:(lia) Hb ltac:(done)).
  rewrite <- (app_nil_l (h ++ _)). apply tx_ethpkt_put; done.
Qed.

Lemma send_arp_request_ok ip :
  send_arp_request ip s = Ret tt (sent (arp_frame s ARP_REQUEST broadcast 0 ip)
    (s1 <| arp_requests_sent := u32 (arp_requests_sent s + 1) |>)).
Proof.
  destruct junk_36 as (h & b & Hj & Hh & Hb). unfold send_arp_request. nstep (new_arp_eq s). rewrite Hj. fold q s1.
  nstep (arp_fill_put q ARP_REQUEST 0 ip 1 36 28 8 h b s1 ltac:(lia) Hb ltac:(done)).
  set (s2 := s1 <| arp_requests_sent := u32 (arp_requests_sent s + 1) |>).
  set (K := mkPkt 1 36 28 8 (h ++ arp_body (my_mac_addr s1) (my_ip_addr s1) ARP_REQUEST 0 ip)).
  erewrite (bind_eq (modify _) _ _ tt (put q K s2)) by reflexivity.
  unfold K. rewrite <- (app_nil_l (h ++ _)). apply tx_ethpkt_put; done.
Qed.

End Send.

(** A host that is not known is asked for, and the caller told so. *)
Lemma arp_lookup_unknown s ip :
  n_heap s !! n_fresh s = None -> tx_idle s ->
  length (arp_table s) = NUM_ARP_ENTRIES -> arp_answer s ip = None ->
  exists t', Forall2 aged (arp_table s) t' /\ arp_find t' ip = None /\
    arp_lookup ip s = Ret None (sent (arp_frame s ARP_REQUEST broadcast 0 ip)
      (s <| n_fresh := S (n_fresh s) |> <| arp_requests_sent := u32 (arp_requests_sent s + 1) |> <| arp_table := t' |>)).
Proof.
  intros Hq Hi Hl Ha. unfold arp_lookup, arp_answer in *. erewrite bind_eq by reflexivity.
  destruct (_ && _); [done |].
  destruct (arp_search_ok (arp_table s) [] 0 ip s eq_refl) as (t' & Ht & Hag & Hf).
  exists t'. split; [done |]. split; [congruence |].
  change (Z.of_nat (length [])) with 0 in Ht. rewrite Hl in Ht. nstep Ht. rewrite Ha.
  set (s2 := s <| arp_table := [] ++ t' |>). nstep (send_arp_request_ok s2 Hq Hi ip). done.
Qed.

(** ** What is received *)

(** A request or reply as the device has it: of the target only the memory. *)
Definition arp_in (smac : list Z) (o1 op m ip : Z) (rest : list Z) : list Z :=
  smac ++ be16 ETHERTYPE_ARP ++ [0x00; 0x01; 0x08; 0x00; 0x06; 0x04; o1; op] ++ mac_bytes m ++ ip_bytes ip ++ rest.

Lemma arp_matches_put p u r l h o1 op c s :
  length h = 8%nat ->
  let k := mkPkt u r l 8 (h ++ [0x00; 0x01; 0x08; 0x00; 0x06; 0x04; o1; op] ++ c) in
  arp_matches 6 p 0 (put p k s) = Ret true (put p k s).
Proof.
  intros Hh k.
  assert (Hstep : forall n i, (i < 6)%nat ->
    arp_matches (S n) p (Z.of_nat i) (put p k s) = arp_matches n p (Z.of_nat (S i)) (put p k s)).
  { intros n i Hi. cbn [arp_matches]. rewrite (bind_eq _ _ _ (arp_packet !!! i) (put p k s)).
    - rewrite Nat2Z.id, Z.eqb_refl. cbn [negb]. f_equal. lia.
    - eapply rdb_eq; [apply put_lookup | cbn; lia |]. unfold k. cbn [p_user p_mem].
      replace (Z.to_nat (8 + Z.of_nat i)) with (length h + i)%nat by lia. rewrite lookup_app_r by lia.
      replace (length h + i - length h)%nat with i by lia. do 6 (destruct i as [| i]; [done |]). lia. }
  change 0 with (Z.of_nat 0). by rewrite !Hstep by lia.
Qed.

(** What [rx_arp] makes of it. *)
Lemma rx_arp_put p u r l h o1 op m ip c s :
  length h = 8%nat -> 0 <= m < 2 ^ 48 -> 0 <= ip < 2 ^ 32 ->
  let k := mkPkt u r l 8 (h ++ [0x00; 0x01; 0x08; 0x00; 0x06; 0x04; o1; op] ++ mac_bytes m ++ ip_bytes ip ++ c) in
  rx_arp p (put p k s) =
    ((if op =? 1 then send_arp_reply m ip else if op =? 2 then arp_table_add ip m else ret tt) ;; free_pkt p) (put p k s).
Proof.
  intros Hh Hm Hip k. unfold rx_arp. nstep (arp_matches_put p u r l h o1 op (mac_bytes m ++ ip_bytes ip ++ c) s Hh).
  cbn [negb]. set (b := [0x00; 0x01; 0x08; 0x00; 0x06; 0x04; o1; op]).
  assert (M1 : k = mkPkt u r l 8 ((h ++ b) ++ mac_bytes m ++ ip_bytes ip ++ c)) by (unfold k, b; by rewrite <- app_assoc).
  assert (M2 : k = mkPkt u r l 8 (((h ++ b) ++ mac_bytes m) ++ ip_bytes ip ++ c)) by (rewrite M1; by rewrite <- !app_assoc).
  assert (M3 : k = mkPkt u r l 8 ((h ++ [0x00; 0x01; 0x08; 0x00; 0x06; 0x04; o1]) ++ op :: mac_bytes m ++ ip_bytes ip ++ c))
    by (rewrite M1; by rewrite <- !app_assoc).
  assert (H1 : rdval 64 p 8 6 0 (put p k s) = Ret m (put p k s)).
  { rewrite M1. apply rdval48_put; [unfold b; llen | done]. }
  assert (H2 : rdval 32 p 14 4 0 (put p k s) = Ret ip (put p k s)).
  { rewrite M2. apply rdval32_put; [unfold b; llen | done]. }
  assert (H3 : rdb p 7 (put p k s) = Ret op (put p k s)).
  { rewrite M3. apply rdb_put. llen. }
  nstep H1. nstep H2. nstep H3. done.
Qed.

Lemma ping_packet_arp p smac c n s :
  length smac = 6%nat ->
  let m := smac ++ be16 ETHERTYPE_ARP ++ c in
  ping_packet p (put p (mkPkt 1 n n 0 m) s) = (rx_arp p ;; free_pkt p) (put p (mkPkt 2 n (n - 8) 8 m) s).
Proof.
  intros Hm m. unfold ping_packet.
  assert (H1 : update p (fun k => k <| p_usage_count := p_usage_count k + 1 |>) (put p (mkPkt 1 n n 0 m) s) =
    Ret tt (put p (mkPkt 2 n n 0 m) s)).
  { rewrite (update_eq _ _ _ _ (put_lookup _ _ _)). by rewrite put_put. }
  nstep H1. nstep (ethtype_put p 2 n n smac ETHERTYPE_ARP c s Hm ltac:(done)). fold m.
  change (ETHERTYPE_ARP =? ETHERTYPE_ARP) with true. cbv iota. rewrite bind_assoc.
  unfold rx_ethpkt. nstep (advance_put p 8 2 n n 0 m s). done.
Qed.

(** C34: Any request is answered with the addresses of the board, whatever address it
    asks for: one reply is sent, and both packets are freed. *)
Theorem arp_request_answered s host c smac o1 m ip rest :
  received (arp_in smac o1 ARP_REQUEST m ip rest) s -> length smac = 6%nat ->
  0 <= m < 2 ^ 48 -> 0 <= ip < 2 ^ 32 -> heap_ok s -> tx_idle s ->
  ping_turn host BUSPIC_NETRX c s =
    Ret c (sent (arp_frame s ARP_REPLY m m ip) ((rx_taken s) <| n_fresh := S (S (n_fresh s)) |>)).
Proof.
  intros Hrx Hsm Hm Hip Hheap Hi. destruct (rx_pkt_received _ s Hrx) as (c0 & Hr). rewrite (turn_received _ _ _ _ _ Hr).
  set (p := n_fresh s) in *. fold (rx_state s). set (s1 := rx_state s). set (n := Z.of_nat _).
  set (h := smac ++ be16 ETHERTYPE_ARP).
  set (mem := h ++ [0x00; 0x01; 0x08; 0x00; 0x06; 0x04; o1; ARP_REQUEST] ++ mac_bytes m ++ ip_bytes ip ++ rest ++ c0).
  replace (arp_in smac o1 ARP_REQUEST m ip rest ++ c0) with mem by (unfold mem, arp_in, h; lapp; done).
  rewrite (bind_cong _ (rx_arp p ;; free_pkt p) _ _ (put p (mkPkt 2 n (n - 8) 8 mem) s1)).
  2: { unfold mem, h. rewrite <- app_assoc. by apply ping_packet_arp. }
  rewrite bind_assoc. 
  unfold mem. rewrite (bind_cong _ _ _ _ _ (rx_arp_put p 2 n (n - 8) h o1 ARP_REQUEST m ip (rest ++ c0) s1 ltac:(unfold h; llen) Hm Hip)).
  fold mem. change (ARP_REQUEST =? 1) with true. cbv iota. rewrite bind_assoc.
  set (s2 := put p (mkPkt 2 n (n - 8) 8 mem) s1).
  assert (Hq : n_heap s2 !! n_fresh s2 = None).
  { unfold s2. rewrite put_other by (cbn; lia). apply Hheap. cbn. lia. }
  nstep (send_arp_reply_ok s2 Hq Hi m ip).
  set (s4 := sent (arp_frame s ARP_REPLY m m ip) ((rx_taken s) <| n_fresh := S (S p) |>)).
  match goal with |- bind _ _ ?st = _ => change st with (put p (mkPkt 2 n (n - 8) 8 mem) s4) end.
  rewrite <- bind_assoc.
  rewrite (bind_eq _ _ _ _ _ (free_put2 p n (n - 8) 8 mem s4 (Hheap p ltac:(done)))). done.
Qed.

(** ** The table as a map from hosts to hardware addresses *)

(** The entry is the one for [ip]. *)
Abbreviation is_for ip e := (truthy (valid e) && (ipaddr e =? ip)).

Lemma arp_find_app pre t ip :
  Forall (fun e => is_for ip e = false) pre -> arp_find (pre ++ t) ip = arp_find t ip.
Proof. induction 1 as [| e pre He Hpre IH]; [done |]. cbn [app arp_find]. by rewrite He. Qed.

Lemma arp_find_None t ip : arp_find t ip = None <-> Forall (fun e => is_for ip e = false) t.
Proof.
  induction t as [| e t IH]; cbn [arp_find]; [by split |]. destruct (is_for ip e) eqn:He.
  - split; [done |]. inversion 1; congruence.
  - rewrite IH. split; [by constructor | by inversion 1].
Qed.

Lemma arp_set_same pre e t f g s :
  arp_table s = pre ++ e :: t ->
  (arp_set (Z.of_nat (length pre)) f ;; arp_set (Z.of_nat (length pre)) g) s =
    Ret tt (s <| arp_table := pre ++ g (f e) :: t |>).
Proof.
  intros H. nstep (arp_set_eq pre e t f s H). rewrite (arp_set_eq pre (f e) t g) by (by destruct s).
  by destruct s.
Qed.

(** The new hardware address of a host in the table; other hosts keep theirs. *)
Lemma arp_replace_ok m ip t : forall pre m0 s,
  arp_table s = pre ++ t -> arp_find t ip = Some m0 ->
  exists t', arp_replace (length t) (Z.of_nat (length pre)) ip m s = Ret tt (s <| arp_table := pre ++ t' |>) /\
    length t' = length t /\ arp_find t' ip = Some m /\ forall ip', ip' <> ip -> arp_find t' ip' = arp_find t ip'.
Proof.
  induction t as [| e t IH]; intros pre m0 s H Hf; [done |]. cbn [arp_replace length].
  nstep (arp_entry_eq pre e t s H). cbn [arp_find] in Hf. destruct (is_for ip e) eqn:He.
  - set (e1 := mkArp 1 0 ip m). exists (e1 :: t). split; [| split; [done |]; split].
    + set (f1 := fun e => e <| valid := 0 |>). set (f2 := fun e => e <| age := 0 |>).
      set (f3 := fun e => e <| mac := m |>). set (f4 := fun e => e <| valid := 1 |>).
      nstep (arp_set_eq pre e t f1 s H). erewrite bind_eq by (apply (arp_set_eq pre (f1 e) t f2); by destruct s).
      erewrite (arp_set_same pre (f2 (f1 e)) t f3 f4) by (by destruct s).
      apply andb_true_iff in He as [_ He]. apply Z.eqb_eq in He. subst e1. destruct s, e. cbn in He. by subst.
    + cbn. by rewrite Z.eqb_refl.
    + intros ip' Hne. apply andb_true_iff in He as [Hv He]. apply Z.eqb_eq in He. cbn [arp_find]. rewrite Hv.
      change (ipaddr e1) with ip. rewrite He, (proj2 (Z.eqb_neq ip ip')) by done. by rewrite andb_false_r.
  - replace (Z.of_nat (length pre) + 1) with (Z.of_nat (length (pre ++ [e]))) by (rewrite length_app; cbn; lia).
    destruct (IH (pre ++ [e]) m0 s) as (t' & Ht & Hl & H1 & H2); [by rewrite <- app_assoc | done |].
    rewrite Ht. exists (e :: t'). rewrite <- app_assoc. split; [done |]. split; [cbn; lia |].
    split; [cbn [arp_find]; by rewrite He |]. intros ip' Hne. cbn [arp_find]. by rewrite H2.
Qed.

Definition logged (ip m : Z) (s : NET) : NET :=
  s <| arp_table_log := <[Z.to_nat (arp_logid s) := (ip, m)]> (arp_table_log s) |>
    <| arp_logid := (arp_logid s + 1) .& 31 |>.

(** The host is reached directly: no router is in the way. *)
Definition direct (s : NET) (ip : Z) : Prop :=
  (truthy ((ip .^ my_ip_addr s) .& my_ip_mask s) || (ip =? my_ip_router s)) && truthy (router_mac_addr s) = false.

(** A reply from a host that the table knows: the table gives its new hardware
    address from then on. *)
Theorem arp_add_known s ip m m0 :
  length (arp_table s) = NUM_ARP_ENTRIES -> ip <> my_ip_addr s -> ip <> my_ip_router s -> direct s ip ->
  arp_find (arp_table s) ip = Some m0 ->
  exists t', length t' = NUM_ARP_ENTRIES /\ arp_find t' ip = Some m /\
    arp_table_add ip m s = Ret tt ((logged ip m s) <| arp_table := t' |>).
Proof.
  intros Hl Hme Hr Hd Hf. unfold arp_table_add. set (s1 := logged ip m s).
  erewrite (bind_eq (arp_log ip m) _ s tt s1) by reflexivity. erewrite bind_eq by reflexivity.
  change (my_ip_addr s1) with (my_ip_addr s). change (my_ip_router s1) with (my_ip_router s).
  rewrite (proj2 (Z.eqb_neq _ _) Hme), (proj2 (Z.eqb_neq _ _) Hr).
  assert (Hlk : exists t1, arp_lookup ip s1 = Ret (Some m0) (s1 <| arp_table := t1 |>) /\
    length t1 = NUM_ARP_ENTRIES /\ arp_find t1 ip = Some m0).
  { unfold arp_lookup, direct in *. erewrite bind_eq by reflexivity.
    change (my_ip_addr s1) with (my_ip_addr s). change (my_ip_router s1) with (my_ip_router s).
    change (my_ip_mask s1) with (my_ip_mask s). change (router_mac_addr s1) with (router_mac_addr s). rewrite Hd.
    destruct (arp_search_ok (arp_table s1) [] 0 ip s1 eq_refl) as (t1 & Ht & Hag & Hf1).
    change (Z.of_nat (length [])) with 0 in Ht. change (length (arp_table s1)) with (length (arp_table s)) in Ht.
    rewrite Hl in Ht. exists t1. apply Forall2_length in Hag. change (arp_table s1) with (arp_table s) in *.
    split; [by nstep Ht; rewrite Hf | split; congruence]. }
  destruct Hlk as (t1 & Ht1 & Hl1 & Hf1). nstep Ht1. destruct (Z.eqb_spec m m0) as [-> | Hne]; cbn [negb].
  - by exists t1.
  - destruct (arp_replace_ok m ip t1 [] m0 (s1 <| arp_table := t1 |>)) as (t2 & Ht2 & Hl2 & Hf2 & _); [by destruct s1 | done |].
    change (Z.of_nat (length [])) with 0 in Ht2. rewrite Hl1 in Ht2. exists t2. split; [congruence |]. split; [done |].
    rewrite Ht2. by destruct s1.
Qed.

(** An entry that is not in use is taken first. *)
Lemma next_index_free t : forall pre eldest oldage s,
  arp_table s = pre ++ t -> Exists (fun e => valid e = 0) t ->
  exists i e, next_index_loop (length t) (Z.of_nat (length pre)) eldest oldage s = Ret (Z.of_nat (length pre + i)) s /\
    t !! i = Some e /\ valid e = 0.
Proof.
  induction t as [| e t IH]; intros pre eldest oldage s H Hex; [by inversion Hex |]. cbn [next_index_loop length].
  nstep (arp_entry_eq pre e t s H). unfold truthy. destruct (Z.eqb_spec (valid e) 0) as [Hz | Hz]; cbn [negb].
  - exists 0%nat, e. by rewrite Nat.add_0_r.
  - apply Exists_cons in Hex as [? | Hex]; [done |].
    replace (Z.of_nat (length pre) + 1) with (Z.of_nat (length (pre ++ [e]))) by (rewrite length_app; cbn; lia).
    assert (Hgo : forall el old, exists i e', next_index_loop (length t) (Z.of_nat (length (pre ++ [e]))) el old s =
      Ret (Z.of_nat (length pre + S i)) s /\ t !! i = Some e' /\ valid e' = 0).
    { intros el old. destruct (IH (pre ++ [e]) el old s) as (i & e' & Hi & Hl & Hv); [by rewrite <- app_assoc | done |].
      exists i, e'. split; [| done]. rewrite Hi. f_equal. rewrite length_app. cbn. lia. }
    destruct (oldage <? age e); [destruct (Hgo (Z.of_nat (length pre)) (age e)) as (i & e' & ?) |
      destruct (Hgo eldest oldage) as (i & e' & ?)]; by exists (S i), e'.
Qed.

Lemma arp_set_at i e f s :
  arp_table s !! i = Some e ->
  arp_set (Z.of_nat i) f s = Ret tt (s <| arp_table := <[i := f e]> (arp_table s) |>).
Proof.
  intros H. unfold arp_set, arp_entry, bind. rewrite (proj2 (Z.leb_le 0 _)), Nat2Z.id, H by lia. done.
Qed.

(** The stores of [arp_table_add] to the entry [i], between those to the flag of
    the entry [j]. *)
Lemma arp_store_at i j ei ej ip m s :
  i <> j -> arp_table s !! i = Some ei -> arp_table s !! j = Some ej ->
  (arp_set (Z.of_nat j) (fun e => e <| valid := 0 |>) ;;
   arp_set (Z.of_nat i) (fun e => e <| age := 0 |>) ;;
   arp_set (Z.of_nat i) (fun e => e <| ipaddr := ip |>) ;;
   arp_set (Z.of_nat i) (fun e => e <| mac := m |>) ;;
   arp_set (Z.of_nat j) (fun e => e <| valid := 1 |>)) s =
  Ret tt (s <| arp_table := <[j := ej <| valid := 1 |>]> (<[i := mkArp (valid ei) 0 ip m]> (arp_table s)) |>).
Proof.
  intros Hne Hi Hj. destruct s as [hp fr jk mm mi mk rt rm pid cid rs t li lg ej0 wt rc tc rb st gp]. nfields.
  pose proof (lookup_lt_Some _ _ _ Hi) as Li. pose proof (lookup_lt_Some _ _ _ Hj) as Lj.
  erewrite bind_eq by (apply arp_set_at; nfields; exact Hj). nfields.
  erewrite bind_eq by (apply arp_set_at; nfields; rewrite list_lookup_insert_ne by done; exact Hi). nfields.
  erewrite bind_eq by (apply arp_set_at; nfields; apply list_lookup_insert_eq; rewrite length_insert; exact Li). nfields.
  erewrite bind_eq by (apply arp_set_at; nfields; apply list_lookup_insert_eq; rewrite !length_insert; exact Li). nfields.
  rewrite !list_insert_insert_eq.
  erewrite arp_set_at by (nfields; rewrite list_lookup_insert_ne by done; apply list_lookup_insert_eq; exact Lj). nfields.
  destruct ei, ej. nfields. do 2 f_equal. rewrite (list_insert_insert_ne _ i j) by done. by rewrite list_insert_insert_eq.
Qed.

(** A reply from a host that the table does not know yet, while the local
    variable that is read before it is set holds the index of an entry in use:
    the host is written to a free entry, which is not marked as valid, and the
    table still does not know it. *)
Theorem arp_add_lost s ip m ev ee :
  length (arp_table s) = NUM_ARP_ENTRIES -> ip <> my_ip_addr s -> ip <> my_ip_router s -> arp_answer s ip = None ->
  n_heap s !! n_fresh s = None -> tx_idle s ->
  Exists (fun e => valid e = 0) (arp_table s) ->
  eid_junk s = Z.of_nat ev -> arp_table s !! ev = Some ee -> valid ee <> 0 -> s32 (age ee) < 0x010000 ->
  exists s', arp_table_add ip m s = Ret tt s' /\ arp_find (arp_table s') ip = None.
Proof.
  intros Hl Hme Hr Ha Hq Hi Hfree Hev Hee Hvee Hage. unfold arp_table_add. set (s1 := logged ip m s).
  erewrite (bind_eq (arp_log ip m) _ s tt s1) by reflexivity. erewrite bind_eq by reflexivity.
  change (my_ip_addr s1) with (my_ip_addr s). change (my_ip_router s1) with (my_ip_router s).
  change (eid_junk s1) with (eid_junk s). rewrite (proj2 (Z.eqb_neq _ _) Hme), (proj2 (Z.eqb_neq _ _) Hr), Hev.
  destruct (arp_lookup_unknown s1 ip Hq Hi Hl Ha) as (t & Hag & Hf & Hlk). nstep Hlk. set (s2 := sent _ _).
  change (arp_table s1) with (arp_table s) in Hag.
  assert (Hfree2 : Exists (fun e => valid e = 0) t).
  { clear - Hfree Hag. induction Hag as [| e e' t t' He _ IH]; [by inversion Hfree |].
    destruct He as (_ & _ & He). apply Exists_cons in Hfree as [Hz | Hz]; [left; destruct He as [? | [? _]]; congruence | right; auto]. }
  destruct (next_index_free t [] 0 0 s2 eq_refl Hfree2) as (i & ei & Hix & Hei & Hvi).
  change (Z.of_nat (length [])) with 0 in Hix. rewrite <- (Forall2_length _ _ _ Hag), Hl in Hix.
  nstep Hix. cbn [length Nat.add].
  destruct (Forall2_lookup_l _ _ _ _ _ Hag Hee) as (ej & Hej & Hag2).
  assert (Hvj : valid ej = valid ee) by (destruct Hag2 as (_ & _ & [? | [_ ?]]); [done | lia]).
  assert (Hne : i <> ev) by (intros ->; congruence).
  rewrite (arp_store_at i ev ei ej ip m s2 Hne Hei Hej). eexists. split; [reflexivity |].
  change (arp_table (s2 <| arp_table := ?x |>)) with x. change (arp_table s2) with t.
  apply arp_find_None. apply Forall_insert; [apply Forall_insert; [by apply arp_find_None | cbn; by rewrite Hvi] |].
  apply arp_find_None in Hf. pose proof (Forall_lookup_1 _ _ _ _ Hf Hej) as Hnj. cbn beta in Hnj |- *.
  destruct ej as [v a i2 mc]. nfields. subst v. apply andb_false_iff in Hnj as [Hnj | ->]; [| by rewrite andb_false_r].
  unfold truthy in Hnj. by apply negb_false_iff, Z.eqb_eq in Hnj.
Qed.

(** ** Witnesses *)

Definition arp0 : list Z :=
  arp_in [0x11; 0x22; 0x33; 0x44; 0x55; 0x66] 0 ARP_REQUEST 0x112233445566 0xc0a80f05 (mac_bytes 0 ++ ip_bytes 0xc0a80fff).

Lemma arp_request_answered_witness :
  ping_turn 0xc0a80f01 BUSPIC_NETRX (0, 0) (board0 arp0) =
    Ret (0, 0) (sent (arp_frame (board0 arp0) ARP_REPLY 0x112233445566 0x112233445566 0xc0a80f05)
      ((rx_taken (board0 arp0)) <| n_fresh := 2%nat |>)).
Proof.
  apply (arp_request_answered (board0 arp0) 0xc0a80f01 (0, 0) [0x11; 0x22; 0x33; 0x44; 0x55; 0x66] 0 0x112233445566
    0xc0a80f05 (mac_bytes 0 ++ ip_bytes 0xc0a80fff));
    [apply received_board0; cbn; lia | reflexivity | lia | lia | apply heap_ok_board0 | reflexivity].
Defined.

Lemma arp_add_known_witness : exists t', length t' = NUM_ARP_ENTRIES /\ arp_find t' 0xc0a80f05 = Some 0xaabbccddeeff /\
  arp_table_add 0xc0a80f05 0xaabbccddeeff (board0 []) =
    Ret tt ((logged 0xc0a80f05 0xaabbccddeeff (board0 [])) <| arp_table := t' |>).
Proof.
  apply (arp_add_known (board0 []) 0xc0a80f05 0xaabbccddeeff 0x112233445566);
    [reflexivity | cbn; lia | cbn; lia | reflexivity | reflexivity].
Defined.

Lemma arp_add_lost_witness : exists s',
  arp_table_add 0xc0a80f07 0xaabbccddeeff (board0 []) = Ret tt s' /\ arp_find (arp_table s') 0xc0a80f07 = None.
Proof.
  apply (arp_add_lost (board0 []) 0xc0a80f07 0xaabbccddeeff 0 (mkArp 1 0 0xc0a80f05 0x112233445566));
    [reflexivity | cbn; lia | cbn; lia | reflexivity | apply lookup_empty | reflexivity
    | right; left; reflexivity | reflexivity | reflexivity | cbn; lia | vm_compute; reflexivity].
Defined.
