(* ===== verification/NetUdp.v ===== *)
(** Datagrams: what [tx_udp] sends is what [rx_udp] and the accessors of ports
    find at the other end (src/sw/rv32/udpproto.c). *)

From stdpp Require Import base tactics list numbers option gmap.
From Stdlib Require Import ZArith Lia.
From S2P Require Import Prelude Net NetProto NetWp NetIp NetRx.
Local Open Scope Z_scope.

(** A datagram. *)
Definition udp_msg (sport dport : Z) (payload : list Z) : list Z :=
  (be16 sport ++ be16 dport ++ be16 (8 + Z.of_nat (length payload)) ++ [0; 0]) ++ payload.

Lemma new_udppkt_eq a0 len s : 0 <= len ->
  new_udppkt a0 len s = Ret (a0 (n_fresh s)) (put (n_fresh s) (mkPkt 1 (len + 36) len 36 (junk_bytes s (len + 36)))
    (s <| n_fresh := S (n_fresh s) |>)).
Proof.
  intros Hl. unfold new_udppkt. change udp_headersize with 8. nstep (new_ippkt_eq (len + 8) s ltac:(lia)).
  replace (len + 8 + 28) with (len + 36) by lia.
  nstep (advance_put (n_fresh s) 8 1 (len + 36) (len + 8) 28 (junk_bytes s (len + 36)) (s <| n_fresh := S (n_fresh s) |>)).
  unfold ret. do 3 f_equal. lia.
Qed.

(** The frame that is sent. *)
Lemma tx_udp_put p r dest sport dport m h payload s :
  n_heap s !! p = None -> tx_idle s -> length (arp_table s) = NUM_ARP_ENTRIES ->
  arp_answer s dest = Some m -> length h = 36%nat ->
  let len := Z.of_nat (length payload) in
  let id := u32 (ip_pktid s + BIG_PRIME) in
  exists ck t', 0 <= ck < 65536 /\ Forall2 aged (arp_table s) t' /\
    ipcksum 20 (ip_header (len + 28) id IPPROTO_UDP (my_ip_addr s) dest ck) = Some 0 /\
    tx_udp p dest sport dport (put p (mkPkt 1 r len 36 (h ++ payload)) s) =
      Ret tt (sent (ip_frame m (len + 28) id IPPROTO_UDP (my_ip_addr s) dest ck (udp_msg sport dport payload))
        (s <| ip_pktid := id |> <| arp_table := t' |>)).
Proof.
  intros Hp Hi Ht Hans Hh len id. destruct (split_list 28 h) as (h1 & h2 & -> & L1 & L2); [lia |].
  destruct (tx_ippkt_put p r (8 + len) 28 IPPROTO_UDP (my_ip_addr s) dest m [] h1 (udp_msg sport dport payload) s)
    as (ck & t' & Hck & Hag & Hv & Htx); [done | done | done | done | lia | done | done | | done |].
  { unfold udp_msg, len. llen. }
  replace (8 + len + 20) with (len + 28) in * by lia.
  exists ck, t'. split; [done |]. split; [done |]. split; [exact Hv |]. unfold tx_udp. change udp_headersize with 8.
  nstep (advance_put p (-8) 1 r len 36 ((h1 ++ h2) ++ payload) s). replace (len - -8) with (8 + len) by lia.
  change (36 + -8) with 28. nstep (deref_put p (mkPkt 1 r (8 + len) 28 ((h1 ++ h2) ++ payload)) s).
  change (p_length _) with (8 + len). rewrite <- app_assoc.
  set (b := be16 sport ++ be16 dport ++ be16 (8 + len) ++ [0; 0]).
  nstep (wrbs_put p 0 b 1 r (8 + len) 28 h1 h2 payload s ltac:(lia) ltac:(unfold b; cbn; lia)).
  rewrite u8_bytes by (unfold b; bytes_tac). erewrite bind_eq by reflexivity. exact Htx.
Qed.

(** What a program finds in a datagram. *)
Definition udp_open (p : nat) : NM (Z * Z * list Z) :=
  rx_ethpkt p ;;
  rx_ippkt p ;;
  let* sport := udp_sport p in
  let* dport := udp_dport p in
  rx_udp p ;;
  let* k := deref p in
  let* data := rdbs p 0 (p_length k) in
  ret (sport, dport, data).

Lemma be16_read v : 0 <= v < 65536 -> ((((v .>> 8) .& 0x0ff) .& 0x0ff) .<< 8) .| ((v .& 0x0ff) .& 0x0ff) = v.
Proof.
  intros Hv. rewrite !land_255, !Zmod_mod, shiftr_div by lia. rewrite lor_shiftl_add by zlia. zlia.
Qed.

Lemma rd16_put {A} (k : Z -> NM A) p i j u r l o a v c s :
  Z.of_nat (length a) = o + i -> j = i + 1 -> 0 <= v < 65536 ->
  (let* b0 := rdb p i in let* b1 := rdb p j in k (((b0 .& 0x0ff) .<< 8) .| (b1 .& 0x0ff)))
    (put p (mkPkt u r l o (a ++ be16 v ++ c)) s) = k v (put p (mkPkt u r l o (a ++ be16 v ++ c)) s).
Proof.
  intros Ha -> Hv. unfold be16. cbn [app].
  nstep (rdb_put p i u r l o a ((v .>> 8) .& 0x0ff) (v .& 0x0ff :: c) s Ha). rewrite (cons_middle (_ .& _)), app_assoc.
  nstep (rdb_put p (i + 1) u r l o (a ++ [(v .>> 8) .& 0x0ff]) (v .& 0x0ff) c s ltac:(llen)).
  by rewrite be16_read.
Qed.

(** [rx_udp] leaves the payload, without what the network has added. *)
Lemma rx_udp_put p u r h sport dport payload pad c0 s :
  Z.of_nat (length h) = 28 -> (length payload + length pad < 2048)%nat ->
  let m := h ++ udp_msg sport dport payload ++ pad ++ c0 in
  rx_udp p (put p (mkPkt u r (Z.of_nat (8 + length payload + length pad)) 28 m) s) =
    Ret tt (put p (mkPkt u r (Z.of_nat (length payload)) 36 m) s).
Proof.
  intros Hh Hlen m. unfold rx_udp. set (l := Z.of_nat (8 + length payload + length pad)).
  set (len := 8 + Z.of_nat (length payload)).
  assert (M : m = (h ++ be16 sport ++ be16 dport) ++ be16 len ++ [0; 0] ++ payload ++ pad ++ c0).
  { unfold m, udp_msg, len. lapp. done. }
  rewrite M at 1.
  rewrite (rd16_put (fun ln => update p (fun k =>
    k <| p_user := p_user k + udp_headersize |>
      <| p_length := if ln <=? 8 then 0
                     else if ln <? u32 (p_length k) then ln - udp_headersize
                     else p_length k - udp_headersize |>)) p 4 5 u r l 28 (h ++ be16 sport ++ be16 dport) len) by (llen || lia).
  rewrite <- M, (update_eq _ _ _ _ (put_lookup _ _ _)), put_put. do 2 f_equal.
  change (mkPkt u r (if len <=? 8 then 0 else if len <? u32 l then len - 8 else l - 8) 36 m =
    mkPkt u r (Z.of_nat (length payload)) 36 m). f_equal. unfold u32. rewrite (Z.mod_small l) by lia.
  destruct (Z.leb_spec len 8); [lia |]. destruct (Z.ltb_spec len l); lia.
Qed.

(** The datagram in a packet that was received. *)
Lemma udp_open_put q u h8 z sport dport payload pad c0 s :
  length h8 = 8%nat -> length z = 19%nat -> (length payload + length pad < 1500)%nat ->
  0 <= sport < 65536 -> 0 <= dport < 65536 ->
  let n := Z.of_nat (36 + length payload + length pad) in
  let mem := (h8 ++ 0x45 :: z) ++ udp_msg sport dport payload ++ pad ++ c0 in
  udp_open q (put q (mkPkt u n n 0 mem) s) =
    Ret (sport, dport, payload) (put q (mkPkt u n (Z.of_nat (length payload)) 36 mem) s).
Proof.
  intros H8 Hz Hlen Hs Hd n mem. set (g := h8 ++ 0x45 :: z) in *. set (len := Z.of_nat (length payload)).
  assert (Hg : Z.of_nat (length g) = 28) by (unfold g; llen). unfold udp_open, rx_ethpkt.
  nstep (advance_put q 8 u n n 0 mem s).
  assert (Hip : rx_ippkt q (put q (mkPkt u n (n - 8) (0 + 8) mem) s) = Ret tt (put q (mkPkt u n (n - 28) 28 mem) s)).
  { assert (M : mem = h8 ++ 0x45 :: z ++ udp_msg sport dport payload ++ pad ++ c0) by (unfold mem, g; lapp; done).
    unfold rx_ippkt. rewrite M. nstep (rdb_put q 0 u n (n - 8) (0 + 8) h8 0x45
      (z ++ udp_msg sport dport payload ++ pad ++ c0) s ltac:(lia)).
    rewrite advance_put. change ((0x45 .& 0x0f) * 4) with 20. do 3 f_equal. lia. }
  nstep Hip. replace (n - 28) with (Z.of_nat (8 + length payload + length pad)) by lia.
  set (l := Z.of_nat (8 + length payload + length pad)).
  assert (Hsp : udp_sport q (put q (mkPkt u n l 28 mem) s) = Ret sport (put q (mkPkt u n l 28 mem) s)).
  { assert (M : mem = g ++ be16 sport ++ be16 dport ++ be16 (8 + len) ++ [0; 0] ++ payload ++ pad ++ c0)
      by (unfold mem, udp_msg; lapp; done). rewrite M. apply (rd16_put ret); [lia | done | done]. }
  assert (Hdp : udp_dport q (put q (mkPkt u n l 28 mem) s) = Ret dport (put q (mkPkt u n l 28 mem) s)).
  { assert (M : mem = (g ++ be16 sport) ++ be16 dport ++ be16 (8 + len) ++ [0; 0] ++ payload ++ pad ++ c0)
      by (unfold mem, udp_msg; lapp; done). rewrite M. apply (rd16_put ret); [llen | done | done]. }
  nstep Hsp. nstep Hdp. nstep (rx_udp_put q u n g sport dport payload pad c0 s Hg ltac:(lia)).
  fold mem len. nstep (deref_put q (mkPkt u n len 36 mem) s). change (p_length _) with len.
  erewrite bind_eq; [reflexivity |].
  apply (rdbs_eq q 0 len (mkPkt u n len 36 mem) _
    (g ++ be16 sport ++ be16 dport ++ be16 (8 + len) ++ [0; 0]) payload (pad ++ c0));
    [apply put_lookup | unfold mem, udp_msg; nfields; lapp; done | nfields; llen | done].
Qed.

(** C33: What is sent arrives: the ports, and the payload without the bytes that the
    network has added to a short frame. *)
Theorem udp_roundtrip p r dest sport dport m h payload s q u smac pad c0 s2 :
  n_heap s !! p = None -> tx_idle s -> length (arp_table s) = NUM_ARP_ENTRIES ->
  arp_answer s dest = Some m -> length h = 36%nat ->
  0 <= sport < 65536 -> 0 <= dport < 65536 -> length smac = 6%nat -> (length payload + length pad < 1500)%nat ->
  exists body s', length body = (30 + length payload)%nat /\ n_heap s' = n_heap s /\
    tx_udp p dest sport dport (put p (mkPkt 1 r (Z.of_nat (length payload)) 36 (h ++ payload)) s) =
      Ret tt (sent (mac_bytes m ++ body) s') /\
    let n := Z.of_nat (36 + length payload + length pad) in
    let mem := smac ++ body ++ pad ++ c0 in
    udp_open q (put q (mkPkt u n n 0 mem) s2) =
      Ret (sport, dport, payload) (put q (mkPkt u n (Z.of_nat (length payload)) 36 mem) s2).
Proof.
  intros Hp Hi Ht Hans Hh Hs Hd Hsm Hlen.
  destruct (tx_udp_put p r dest sport dport m h payload s Hp Hi Ht Hans Hh) as (ck & t' & Hck & _ & _ & Htx). cbv zeta in Htx.
  set (len := Z.of_nat (length payload)) in *. set (id := u32 (ip_pktid s + BIG_PRIME)) in *.
  set (s' := s <| ip_pktid := id |> <| arp_table := t' |>) in *.
  set (hdr := ip_header (len + 28) id IPPROTO_UDP (my_ip_addr s) dest ck) in *.
  exists (be16 ETHERTYPE_IP ++ hdr ++ udp_msg sport dport payload), s'.
  split; [unfold hdr, ip_header, udp_msg; llen |]. split; [done |]. split; [exact Htx |]. cbv zeta.
  set (h8 := smac ++ be16 ETHERTYPE_IP). set (z := drop 1 hdr).
  replace (smac ++ (be16 ETHERTYPE_IP ++ hdr ++ udp_msg sport dport payload) ++ pad ++ c0)
    with ((h8 ++ 0x45 :: z) ++ udp_msg sport dport payload ++ pad ++ c0) by (unfold h8, z, hdr, ip_header; lapp; done).
  apply udp_open_put; [unfold h8; llen | done | done | done | done].
Qed.

Lemma udp_roundtrip_witness : exists body s',
  tx_udp 0 0xc0a80f05 6783 4000 (put 0 (mkPkt 1 40 4 36 (replicate 36 0 ++ [1; 2; 3; 4])) (board0 [])) =
    Ret tt (sent (mac_bytes 0x112233445566 ++ body) s') /\
  udp_open 0 (put 0 (mkPkt 1 46 46 0 (replicate 6 0 ++ body ++ replicate 6 0 ++ [])) (board0 [])) =
    Ret (6783, 4000, [1; 2; 3; 4]) (put 0 (mkPkt 1 46 4 36 (replicate 6 0 ++ body ++ replicate 6 0 ++ [])) (board0 [])).
Proof.
  destruct (udp_roundtrip 0 40 0xc0a80f05 6783 4000 0x112233445566 (replicate 36 0) [1; 2; 3; 4] (board0 [])
    0 1 (replicate 6 0) (replicate 6 0) [] (board0 [])) as (body & s' & _ & _ & H1 & H2);
    [apply lookup_empty | reflexivity | reflexivity | reflexivity | reflexivity | lia | lia | reflexivity | cbn; lia |].
  exists body, s'. split; [exact H1 | exact H2].
Defined.
