(* ===== verification/SimplePing.v ===== *)
(** The earlier network program of the board, for the ZipCPU (src/sw/board):
    simple_ping.c, with its own arp.c and ipcksum.c.

    A user task answers what arrives; it sends by a system call that the
    supervisor's loop serves.  Memory is big endian words.  The devices are the
    command registers and buffers of the network port; a frame that is sent is its
    command and the words that were put into the buffer.  An access outside of an
    array raises [FAULT].  The LEDs and what is only printed are left out. *)

From stdpp Require Import base tactics list numbers option.
From Stdlib Require Import ZArith Lia.
From S2P Require Import Prelude Net.
Local Open Scope Z_scope.

(** ** ipcksum.c *)

(** The loop of the assembly: [R1], with the carry put back, and [R3]. *)
Fixpoint cksum_asm_loop (ptr : list Z) (r1 r3 : Z) : option Z :=
  match ptr with
  | [] => None
  | r4 :: ptr' =>
      let c := 2 ^ 32 <=? r1 + r4 in
      let r1 := u32 (r1 + r4) in
      let r1 := if c then u32 (r1 + 1) else r1 in
      let r3 := u32 (r3 - 1) in
      if r3 =? 0 then Some r1 else cksum_asm_loop ptr' r1 r3
  end.

Definition cksum_asm (len : Z) (ptr : list Z) : option Z :=
  match cksum_asm_loop ptr 0 (u32 len) with
  | None => None
  | Some r1 =>
      let r3 := r1 in
      let r1 := r1 .& 0x0ffff in
      let r3 := r3 .>> 16 in
      let r1 := u32 (r1 + r3) in
      let r1 := if negb (r1 .& 0xffff0000 =? 0) then u32 (r1 + 1) else r1 in
      let r1 := r1 .& 0x0ffff in
      Some (r1 .^ 0x0ffff)
  end.

(** The C text that the assembly stands for. *)
Fixpoint cksum_c_loop (n : nat) (ptr : list Z) (checksum : Z) : option Z :=
  match n with
  | O => Some checksum
  | S n' => match ptr with [] => None | w :: ptr' => cksum_c_loop n' ptr' (u32 (u32 (checksum + (w .& 0x0ffff)) + (w .>> 16))) end
  end.
Definition cksum_c (len : Z) (ptr : list Z) : option Z :=
  match cksum_c_loop (Z.to_nat len) ptr 0 with
  | None => None
  | Some c => match cksum_fold 3 c with Some c => Some (c .^ 0x0ffff) | None => None end
  end.

(** ** State *)

Inductive COUNT : Type :=
  | pkts_received | arp_requests_received | arp_pkt_count | arp_pkt_invalid | ip_pkts_received | ip_pkts_invalid
  | icmp_echo_requests | icmp_invalid | ping_reply_address_not_found | ping_replies_sent | ping_reply_err
  | user_tx_packets | ping_tx_count | ping_rx_count | arp_requests_sent.
#[export] Instance COUNT_dec : EqDecision COUNT.
Proof. solve_decision. Defined.

Record PING : Type := mkPING {
  n_rxcmd : Z;
  _netbrx : list Z;
  s_tx : list (Z * list Z);        (* the frames sent *)
  rxpkt : list Z;
  pkt_id : Z;
  ping_ip_addr : Z;
  ping_mac_addr : Z;
  s_ip_addr : Z;                   (* my_ip_addr *)
  s_mac_addr : Z;                  (* my_mac_addr *)
  s_ip_mask : Z;                   (* my_ip_mask *)
  s_ip_router : Z;                 (* my_ip_router *)
  s_router_mac : Z;                (* router_mac_addr *)
  s_arp_table : list ARP_TABLE_ENTRY;
  s_arp_log : list (Z * Z);        (* arp_table_log *)
  s_arp_logid : Z;
  counts : COUNT -> Z
}.

#[export] Instance set_n_rxcmd : Setter n_rxcmd := fun v '(mkPING _ b c d e f g h i j k l m n o p) => mkPING v b c d e f g h i j k l m n o p.
#[export] Instance set_s_tx : Setter s_tx := fun v '(mkPING a b _ d e f g h i j k l m n o p) => mkPING a b v d e f g h i j k l m n o p.
#[export] Instance set_rxpkt : Setter rxpkt := fun v '(mkPING a b c _ e f g h i j k l m n o p) => mkPING a b c v e f g h i j k l m n o p.
#[export] Instance set_pkt_id : Setter pkt_id := fun v '(mkPING a b c d _ f g h i j k l m n o p) => mkPING a b c d v f g h i j k l m n o p.
#[export] Instance set_ping_mac : Setter ping_mac_addr := fun v '(mkPING a b c d e f _ h i j k l m n o p) => mkPING a b c d e f v h i j k l m n o p.
#[export] Instance set_s_router_mac : Setter s_router_mac := fun v '(mkPING a b c d e f g h i j k _ m n o p) => mkPING a b c d e f g h i j k v m n o p.
#[export] Instance set_s_arp_table : Setter s_arp_table := fun v '(mkPING a b c d e f g h i j k l _ n o p) => mkPING a b c d e f g h i j k l v n o p.
#[export] Instance set_s_arp_log : Setter s_arp_log := fun v '(mkPING a b c d e f g h i j k l m _ o p) => mkPING a b c d e f g h i j k l m v o p.
#[export] Instance set_s_arp_logid : Setter s_arp_logid := fun v '(mkPING a b c d e f g h i j k l m n _ p) => mkPING a b c d e f g h i j k l m n v p.
#[export] Instance set_counts : Setter counts := fun v '(mkPING a b c d e f g h i j k l m n o _) => mkPING a b c d e f g h i j k l m n o v.

Abbreviation PM := (M PING).

Definition bump (c : COUNT) : PM unit :=
  modify (fun s => s <| counts := fun d => if decide (d = c) then u32 (counts s c + 1) else counts s d |>).

(** Arrays. *)
Definition elt (l : list Z) (k : Z) : PM Z := fun s =>
  match (if 0 <=? k then l !! Z.to_nat k else None) with Some v => Ret v s | None => Exn FAULT s end.
Definition put (l : list Z) (k v : Z) : PM (list Z) := fun s =>
  if (0 <=? k) && (k <? Z.of_nat (length l)) then Ret (<[Z.to_nat k := v]> l) s else Exn FAULT s.
Definition or_fault {A} (o : option A) : PM A := match o with Some a => ret a | None => raise FAULT end.

(** ** Sending *)

Definition ENET_TXCMD (len : Z) : Z := len .| ENET_TXGO.

(** What the supervisor does with [KTRAPID_SENDPKT], once the port is free. *)
Definition sendpkt (pkt : list Z) (ln : Z) : PM unit :=
  if u32 ln <? 1400 then
    let n := Z.to_nat ((ln + 3) .>> 2) in
    if decide (n <= length pkt)%nat then
      modify (fun s => s <| s_tx := s_tx s ++ [(ENET_TXCMD ln, take n pkt)] |>) ;;
      bump user_tx_packets
    else raise FAULT
  else ret tt.

(** ** arp.c *)

(** [mac>>16], and [(unsigned)(mac<<16)] with the sixteen bits below it. *)
Definition mac_hi (mac : Z) : Z := u32 (mac .>> 16).
Definition mac_lo (mac low : Z) : Z := u32 (mac .<< 16) .| low.

Definition send_arp_request (ip : Z) : PM unit :=
  let* s := get in
  bump arp_requests_sent ;;
  sendpkt [0xffffffff; 0xffff0000 .| ETHERTYPE_ARP; 0x010800; 0x06040001; mac_hi (s_mac_addr s);
           mac_lo (s_mac_addr s) (s_ip_addr s .>> 16); u32 (s_ip_addr s .<< 16); 0; ip] (9 * 4).

Definition send_arp_reply (machi maclo ip : Z) : PM unit :=
  let* s := get in
  sendpkt [u32 (machi .<< 16) .| (maclo .>> 16); u32 (maclo .<< 16) .| ETHERTYPE_ARP; 0x010800; 0x06040002; mac_hi (s_mac_addr s);
           mac_lo (s_mac_addr s) (s_ip_addr s .>> 16); u32 (s_ip_addr s .<< 16) .| machi; maclo; ip] (9 * 4).

Definition init_arp_table : PM unit := modify (fun s => s <| s_arp_table := map (fun e => e <| valid := 0 |>) (s_arp_table s) |>).

(** The loop of [arp_lookup]: the address found, and the table. *)
Fixpoint arp_search (t : list ARP_TABLE_ENTRY) (oldage ip : Z) : option Z * list ARP_TABLE_ENTRY :=
  match t with
  | [] => (None, [])
  | e :: t' =>
      if truthy (valid e) then
        if ipaddr e =? ip then (Some (mac e), e <| age := 0 |> :: t')
        else if oldage <? age e then
          let e' := e <| age := u32 (age e + 1) |> in
          let e' := if 0x010000 <=? s32 (age e) then e' <| valid := 0 |> else e' in
          let '(r, t') := arp_search t' (age e) ip in (r, e' :: t')
        else let '(r, t') := arp_search t' oldage ip in (r, e <| age := u32 (age e + 1) |> :: t')
      else let '(r, t') := arp_search t' oldage ip in (r, e :: t')
  end.

Definition arp_lookup (ip : Z) : PM (option Z) :=
  let* s := get in
  if (truthy ((ip .^ s_ip_addr s) .& s_ip_mask s) || (ip =? s_ip_router s)) && truthy (s_router_mac s)
  then ret (Some (s_router_mac s))
  else
    let '(r, t) := arp_search (s_arp_table s) 0 ip in
    modify (fun s => s <| s_arp_table := t |>) ;;
    match r with
    | Some m => ret (Some m)
    | None => send_arp_request ip ;; ret None
    end.

(** The first entry not in use, or else the eldest. *)
Fixpoint next_index (t : list ARP_TABLE_ENTRY) (eid eldest oldage : Z) : Z :=
  match t with
  | [] => eldest
  | e :: t' =>
      if negb (truthy (valid e)) then eid
      else if oldage <? age e then next_index t' (eid + 1) eid (age e)
      else next_index t' (eid + 1) eldest oldage
  end.
Definition get_next_arp_index : PM Z := let* s := get in ret (next_index (s_arp_table s) 0 0 0).

Fixpoint arp_replace (t : list ARP_TABLE_ENTRY) (ip m : Z) : list ARP_TABLE_ENTRY :=
  match t with
  | [] => []
  | e :: t' => if truthy (valid e) && (ipaddr e =? ip) then e <| age := 0 |> <| mac := m |> <| valid := 1 |> :: t' else e :: arp_replace t' ip m
  end.

Definition arp_set (eid : Z) (f : ARP_TABLE_ENTRY -> ARP_TABLE_ENTRY) : PM unit := fun s =>
  match (if 0 <=? eid then s_arp_table s !! Z.to_nat eid else None) with
  | Some e => Ret tt (s <| s_arp_table := <[Z.to_nat eid := f e]> (s_arp_table s) |>)
  | None => Exn FAULT s
  end.

Section Ping.
(** The uninitialised [eid] of [arp_table_add], and the [pkt] of [uping_reply]. *)
Context (ev : Z) (junk : list Z).

Definition arp_table_add (ip m : Z) : PM unit :=
  modify (fun s => s <| s_arp_log := <[Z.to_nat (s_arp_logid s) := (ip, m)]> (s_arp_log s) |>
                     <| s_arp_logid := (s_arp_logid s + 1) .& 31 |>) ;;
  let* s := get in
  if ip =? s_ip_addr s then ret tt
  else if ip =? s_ip_router s then modify (fun s => s <| s_router_mac := m |>)
  else
    let* r := arp_lookup ip in
    match r with
    | Some lclmac =>
        if negb (m =? lclmac) then modify (fun s => s <| s_arp_table := arp_replace (s_arp_table s) ip m |>) else ret tt
    | None =>
        let* eid := get_next_arp_index in
        arp_set ev (fun e => e <| valid := 0 |>) ;;
        arp_set eid (fun e => e <| age := 0 |> <| ipaddr := ip |> <| mac := m |>) ;;
        arp_set ev (fun e => e <| valid := 1 |>)
    end.

(** ** simple_ping.c: the user task *)

(** [for(int k=7; k<pktlnw; k++) pkt[k] = icmp_request[k-2];] with [n] left. *)
Fixpoint copy_request (n : nat) (k : Z) (req pkt : list Z) : PM (list Z) :=
  match n with
  | O => ret pkt
  | S n' =>
      let* v := elt req (k - 2) in
      let* pkt := put pkt k v in
      copy_request n' (k + 1) req pkt
  end.

(** [~((1<<((4-(pktln&3))<<3))-1)] *)
Definition tail_mask (pktln : Z) : Z := u32 (~. ((1 .<< ((4 - (pktln .& 3)) .<< 3)) - 1)).

(** [icmp_request] is the memory at the pointer. *)
Definition uping_reply (ip : Z) (icmp_request : list Z) : PM unit :=
  let* s := get in
  let maxsz := 1 .<< ((n_rxcmd s .>> 24) .& 0x0f) in
  let maxsz := if 2048 <? maxsz then 2048 else maxsz in
  let* r0 := elt icmp_request 0 in
  let pktln := (r0 .& 0x0ffff) + 8 in
  let pktlnw := (pktln + 3) .>> 2 in
  let* hw := arp_lookup ip in
  match hw with
  | None => bump ping_reply_address_not_found
  | Some hwaddr =>
      if (pktlnw <? maxsz) && (r0 .>> 24 =? 0x045) then
        let* pkt := put junk 0 (mac_hi hwaddr) in
        let* pkt := put pkt 1 (mac_lo hwaddr ETHERTYPE_IP) in
        let* pkt := put pkt 2 (r0 .& 0xff00ffff) in
        let* s := get in
        let* pkt := put pkt 3 (u32 ((pkt_id s .& 0x0ffff) .<< 16)) in
        let* pkt := put pkt 4 0xff010000 in
        let* r4 := elt icmp_request 4 in
        let* pkt := put pkt 5 r4 in
        let* r3 := elt icmp_request 3 in
        let* pkt := put pkt 6 r3 in
        let* pkt := copy_request (Z.to_nat (pktlnw - 7)) 7 icmp_request pkt in
        let* pkt := put pkt 7 0 in
        let* pkt :=
          (if negb (pktln .& 3 =? 0) then
             let* v := elt pkt (pktlnw - 1) in put pkt (pktlnw - 1) (v .& tail_mask pktln)
           else ret pkt) in
        let* ck := or_fault (cksum_asm 5 (drop 2 pkt)) in
        let* v := elt pkt 4 in
        let* pkt := put pkt 4 (v .| ck) in
        let* v := elt pkt 7 in
        let* pkt := put pkt 7 (v .& 0xffff0000) in
        let* ck := or_fault (cksum_asm (pktlnw - 7) (drop 7 pkt)) in
        let* v := elt pkt 7 in
        let* pkt := put pkt 7 (v .| ck) in
        bump ping_replies_sent ;;
        sendpkt pkt pktln
      else bump ping_reply_err
  end.

(** [for(int k=0; k<(ln+3)>>2; k++) rxpkt[k] = _netbrx[k];] with [n] left. *)
Fixpoint copy_rx (n : nat) (k : Z) : PM unit :=
  match n with
  | O => ret tt
  | S n' =>
      let* s := get in
      let* v := elt (_netbrx s) k in
      let* r := put (rxpkt s) k v in
      modify (fun s => s <| rxpkt := r |>) ;;
      copy_rx n' (k + 1)
  end.

Definition rx_ip (ip : list Z) : PM unit :=
  let* ip0 := elt ip 0 in
  let ippayload := drop (Z.to_nat ((ip0 .>> 24) .& 0x0f)) ip in
  let* ip1 := elt ip 1 in
  let* ip4 := elt ip 4 in
  let* s := get in
  let invalid :=
    if negb ((ip0 .>> 28) .& 15 =? 4) then true
    else if truthy (ip1 .& 0x0bfff) then true
    else negb (ip4 =? s_ip_addr s) in
  bump (if invalid then ip_pkts_invalid else ip_pkts_received) ;;
  let* ip2 := elt ip 2 in
  let ipproto := (ip2 .>> 16) .& 0x0ff in
  if negb invalid && (ipproto =? IPPROTO_ICMP) then
    let* p0 := elt ippayload 0 in
    let icmp_type := p0 .>> 24 in
    if icmp_type =? ICMP_ECHOREPLY then bump ping_rx_count
    else if icmp_type =? ICMP_PING then
      let* ip3 := elt ip 3 in
      uping_reply ip3 ip ;;
      bump icmp_echo_requests
    else bump icmp_invalid
  else ret tt.

Definition ENET_RXBROADCAST : Z := 0x080000.

Definition rx_arp (rxcmd : Z) (ep : list Z) : PM unit :=
  bump arp_pkt_count ;;
  let* e0 := elt ep 0 in
  if negb (e0 =? 0x010800) then bump arp_pkt_invalid
  else
    let* e1 := elt ep 1 in
    let* e2 := elt ep 2 in
    let* e3 := elt ep 3 in
    let* e4 := elt ep 4 in
    let* e6 := elt ep 6 in
    let* s := get in
    let sip := u32 (e3 .<< 16) .| (e4 .>> 16) in
    if (e1 =? 0x06040001) && truthy (rxcmd .& ENET_RXBROADCAST) && (e6 =? s_ip_addr s) then
      let sha1 := (e3 .>> 16) .| u32 (e2 .<< 16) in
      bump arp_requests_received ;;
      send_arp_reply (e2 .>> 16) sha1 sip
    else if (e1 =? 0x06040002) && negb (truthy (rxcmd .& ENET_RXBROADCAST)) && (e6 =? s_ip_addr s) then
      let sha := ((e2 .<< 32) .| e3) .>> 16 in
      (if sip =? ping_ip_addr s then modify (fun s => s <| ping_mac_addr := sha |>) else ret tt) ;;
      arp_table_add sip sha
    else ret tt.

(** The handling of a packet that is there. *)
Definition user_rx : PM unit :=
  let* s := get in
  let* w1 := elt (_netbrx s) 1 in
  let etype := w1 .& 0x0ffff in
  let rxcmd := n_rxcmd s in
  let ln := rxcmd .& 0x07ff in
  copy_rx (Z.to_nat ((ln + 3) .>> 2)) 0 ;;
  modify (fun s => s <| n_rxcmd := n_rxcmd s .& 0xff000000 |>) ;;
  bump pkts_received ;;
  let* s := get in
  if etype =? ETHERTYPE_IP then rx_ip (drop 2 (rxpkt s))
  else if etype =? ETHERTYPE_ARP then rx_arp rxcmd (drop 2 (rxpkt s))
  else ret tt.

(** A pass of the loops of [user_task]: the searches for addresses, and the packet
    when there is one. *)
Definition user_turn : PM unit :=
  let* s := get in
  let* r := arp_lookup (ping_ip_addr s) in
  (match r with
   | Some m => modify (fun s => s <| ping_mac_addr := m |>) ;; arp_lookup (s_ip_router s) ;; ret tt
   | None => ret tt
   end) ;;
  let* s := get in
  if truthy (n_rxcmd s .& ENET_RXAVAIL) then user_rx else ret tt.
End Ping.

(** ** simple_ping.c: the supervisor *)

Definition BIG_PRIME : Z := 0x0134513b.

Definition send_ping : PM unit :=
  let* s := get in
  if ping_mac_addr s =? 0 then ret tt
  else
    let id := u32 (pkt_id s + BIG_PRIME) in
    let id2 := u32 (id + BIG_PRIME) in
    let head := [0x4500001c; u32 ((id .& 0x0ffff) .<< 16)] in
    let addrs := [s_ip_addr s; ping_ip_addr s] in
    let icmp := [0x08000000; u32 (id2 + BIG_PRIME)] in
    let* ck := or_fault (cksum_asm 5 (head ++ [0x80010000] ++ addrs ++ icmp)) in
    let* ick := or_fault (cksum_asm 2 icmp) in
    modify (fun s => s <| pkt_id := id2 |>
      <| s_tx := s_tx s ++ [(ENET_TXCMD (9 * 4), [mac_hi (ping_mac_addr s); mac_lo (ping_mac_addr s) ETHERTYPE_IP] ++
           head ++ [0x80010000 .| ck] ++ addrs ++ [0x08000000 .| ick; u32 (id2 + BIG_PRIME)])] |>) ;;
    bump ping_tx_count.

(** The interrupts (zipsys.h, board.h): this board has no [SYSINT_PPS], which is
    then the timer's. *)
Definition SYSINT_TMA : Z := 0x0010.
Definition SYSINT_PPS : Z := SYSINT_TMA.
Definition INTNOW : Z := 0x08000.
Definition DINT (a : Z) : Z := a .<< 16.

(** What stopped the user task: a fault, or a system call. *)
Record UCC : Type := mkUCC { CC_FAULT : bool; CC_TRAP : bool }.

(** A turn of the inner loop: [None] for a halt, or whether the loop goes on, and
    the new [lastpps]. *)
Definition int_turn (ucc : UCC) (picv lastpps : Z) : option (bool * Z) :=
  if CC_FAULT ucc then None
  else if negb (CC_TRAP ucc) && ((picv .& INTNOW =? 0) || (picv .& DINT SYSINT_TMA =? 0) || (picv .& DINT SYSINT_PPS =? 0)) then None
  else
    let '(picv, lastpps) :=
      if truthy (picv .& SYSINT_TMA) then
        if lastpps =? 1 then (picv, 2) else (picv .& ~. SYSINT_TMA, 0)
      else (picv, lastpps) in
    if picv .& (SYSINT_TMA .| SYSINT_PPS) =? 0 then Some (true, lastpps)
    else Some (false, if truthy (picv .& SYSINT_PPS) then 1 else lastpps).

(** The inner loop, on the returns from the user task that come: those that were
    left when it ended, if it did, and [lastpps]. *)
Fixpoint int_loop (evs : list (UCC * Z)) (lastpps : Z) : option (option (list (UCC * Z)) * Z) :=
  match evs with
  | [] => Some (None, lastpps)
  | (ucc, picv) :: evs' =>
      match int_turn ucc picv lastpps with
      | None => None
      | Some (true, l) => int_loop evs' l
      | Some (false, l) => Some (Some evs', l)
      end
  end.

(** The outer loop: how often it came to the ping (while the link is up). *)
Fixpoint main_loop (fuel : nat) (evs : list (UCC * Z)) (lastpps : Z) : option nat :=
  match fuel with
  | O => None
  | S fuel' =>
      match int_loop evs lastpps with
      | None => None
      | Some (None, _) => Some 1%nat
      | Some (Some rest, l) => S <$> main_loop fuel' rest l
      end
  end.
