(* ===== verification/PingProps.v ===== *)
(** The earlier network program of the board: its checksum, which the assembly
    and the C text compute alike, and what its reply to a ping holds. *)

From stdpp Require Import base tactics list numbers option.
From Stdlib Require Import ZArith Lia.
From S2P Require Import Prelude Net NetWp NetIp SimplePing.
Local Open Scope Z_scope.

(** ** Sums of words *)

Abbreviation words := (Forall (fun w => 0 <= w < 2 ^ 32)).

(** The sum of the sixteen bit halves. *)
Fixpoint hsum (ws : list Z) : Z :=
  match ws with [] => 0 | w :: ws' => w / 65536 + w mod 65536 + hsum ws' end.

Lemma hsum_app xs ys : hsum (xs ++ ys) = hsum xs + hsum ys.
Proof. induction xs; cbn [hsum app]; lia. Qed.

Lemma hsum_range ws : words ws -> 0 <= hsum ws <= 131070 * Z.of_nat (length ws).
Proof. induction 1; cbn [hsum length]; zlia. Qed.

(** [r] is what is left of a sum: its class, with zero for no sum only. *)
Definition residue (t r : Z) : Prop := 0 <= r /\ r mod 65535 = t mod 65535 /\ (0 < t <-> 0 < r).

Lemma residue_unique t r r' : residue t r -> residue t r' -> r < 65536 -> r' < 65536 -> r = r'.
Proof.
  intros (H1 & H2 & H3) (H1' & H2' & H3') Hr Hr'. rewrite <- H2' in H2.
  destruct (Z.eq_dec r 0) as [-> | Hn]; [lia |].
  assert (Hd : (r - 1) mod 65535 = (r' - 1) mod 65535) by (rewrite Zminus_mod, H2, <- Zminus_mod; done).
  rewrite !Z.mod_small in Hd; lia.
Qed.

(** An addition whose carry comes back. *)
Lemma carry_add t r w : 0 <= t -> residue t r -> r < 2 ^ 32 -> 0 <= w < 2 ^ 32 ->
  let r' := if 2 ^ 32 <=? r + w then u32 (u32 (r + w) + 1) else u32 (r + w) in
  residue (t + (w / 65536 + w mod 65536)) r' /\ r' < 2 ^ 32.
Proof.
  intros Ht (H1 & H2 & H3) Hr Hw.
  assert (Hm : (r + w) mod 65535 = (t + (w / 65536 + w mod 65536)) mod 65535).
  { rewrite Zplus_mod, H2, <- Zplus_mod. rewrite (Z.div_mod w 65536) at 1 by lia.
    replace (t + (65536 * (w / 65536) + w mod 65536)) with (t + (w / 65536 + w mod 65536) + (w / 65536) * 65535) by lia.
    apply Z_mod_plus_full. }
  unfold residue. destruct (Z.leb_spec (2 ^ 32) (r + w)) as [Hc | Hc]; cbn zeta; unfold u32.
  - replace ((r + w) mod 2 ^ 32) with (r + w - 2 ^ 32) by zlia.
    rewrite (Z.mod_small (_ + 1)) by lia. split; [| lia].
    split; [lia |]. split; [| zlia]. rewrite <- Hm.
    replace (r + w) with (r + w - 2 ^ 32 + 1 + 65537 * 65535) at 2 by lia. by rewrite Z_mod_plus_full.
  - rewrite (Z.mod_small (r + w)) by lia. split; [| lia]. split; [lia |]. split; [done | zlia].
Qed.

Lemma asm_loop_ok ws post : words ws -> forall t r1 n,
  0 <= t -> residue t r1 -> r1 < 2 ^ 32 -> ws <> [] -> n = Z.of_nat (length ws) -> n < 2 ^ 32 ->
  exists r, cksum_asm_loop (ws ++ post) r1 n = Some r /\ residue (t + hsum ws) r /\ r < 2 ^ 32.
Proof.
  induction 1 as [| w ws Hw Hws IH]; intros t r1 n Ht Hr H1 Hne -> Hn; [done |].
  cbn [app cksum_asm_loop hsum length] in *.
  destruct (carry_add t r1 w Ht Hr H1 Hw) as [Hr' Hl]. cbv zeta in Hr', Hl.
  destruct ws as [| w' ws'].
  - rewrite (proj2 (Z.eqb_eq _ 0)) by done. eexists. split; [done |]. cbn [hsum]. by rewrite Z.add_0_r.
  - assert (Hk : u32 (Z.of_nat (S (length (w' :: ws'))) - 1) = Z.of_nat (length (w' :: ws'))).
    { unfold u32. rewrite Z.mod_small; cbn [length] in *; lia. }
    rewrite Hk, (proj2 (Z.eqb_neq _ 0)) by (cbn [length]; lia).
    rewrite Z.add_assoc. apply IH; [zlia | done | done | done | done | cbn [length] in *; lia].
Qed.

(** The words sum to what the checksum completes. *)
Definition completes (t c : Z) : Prop := 0 <= c < 65536 /\ residue t (65535 - c).

Lemma completes_unique t c c' : completes t c -> completes t c' -> c = c'.
Proof. intros [H1 H2] [H1' H2']. pose proof (residue_unique _ _ _ H2 H2'). lia. Qed.

Lemma cksum_asm_ok ws post : words ws -> ws <> [] -> Z.of_nat (length ws) < 2 ^ 32 ->
  exists c, cksum_asm (Z.of_nat (length ws)) (ws ++ post) = Some c /\ completes (hsum ws) c.
Proof.
  intros Hws Hne Hn. unfold cksum_asm, u32 at 1. rewrite (Z.mod_small (Z.of_nat _)) by lia.
  destruct (asm_loop_ok ws post Hws 0 0 (Z.of_nat (length ws))) as (r & -> & Hr & Hl); try done.
  rewrite Z.add_0_l in Hr. destruct Hr as (H1 & H2 & H3).
  destruct (fold_step r ltac:(lia)) as [_ ->]. set (x := r mod 65536 + r / 65536).
  assert (Hx : residue (hsum ws) x /\ x <= 131070).
  { subst x. unfold residue. split; [| zlia]. split; [zlia |]. split; [| zlia]. rewrite <- H2.
    rewrite (Z.div_mod r 65536) at 3 by lia.
    replace (65536 * (r / 65536) + r mod 65536) with (r mod 65536 + r / 65536 + (r / 65536) * 65535) by lia.
    by rewrite Z_mod_plus_full. }
  clearbody x. destruct Hx as [(X1 & X2 & X3) X4].
  destruct (fold_step x ltac:(lia)) as [Ht _]. unfold truthy in Ht. rewrite Ht.
  destruct (Z.eqb_spec (x / 65536) 0); cbn [negb]; rewrite land_65535.
  - rewrite (Z.mod_small x) by zlia. rewrite xor_ffff by zlia. eexists. split; [done |].
    split; [zlia |]. replace (65535 - (65535 - x)) with x by lia. done.
  - unfold u32. rewrite (Z.mod_small (x + 1)) by lia. replace ((x + 1) mod 65536) with (x - 65535) by zlia.
    rewrite xor_ffff by zlia. eexists. split; [done |].
    split; [zlia |]. replace (65535 - (65535 - (x - 65535))) with (x - 65535) by lia.
    split; [zlia |]. split; [| zlia]. rewrite <- X2. replace x with (x - 65535 + 1 * 65535) at 2 by lia.
    by rewrite Z_mod_plus_full.
Qed.

Lemma c_loop_ok ws post : words ws -> forall c, 0 <= c -> c + hsum ws < 2 ^ 32 ->
  cksum_c_loop (length ws) (ws ++ post) c = Some (c + hsum ws).
Proof.
  induction 1 as [| w ws Hw Hws IH]; intros c Hc Hlt; cbn [length app cksum_c_loop hsum] in *; [f_equal; lia |].
  pose proof (hsum_range ws Hws). rewrite land_65535, shiftr_div by lia. change (2 ^ 16) with 65536.
  unfold u32. rewrite (Z.mod_small (c + _)), (Z.mod_small (_ + w / 65536)) by zlia. rewrite IH by zlia. f_equal. lia.
Qed.

Lemma cksum_c_ok ws post : words ws -> Z.of_nat (length ws) <= 32768 ->
  exists c, cksum_c (Z.of_nat (length ws)) (ws ++ post) = Some c /\ completes (hsum ws) c.
Proof.
  intros Hws Hn. pose proof (hsum_range ws Hws) as Hs. unfold cksum_c.
  rewrite Nat2Z.id, c_loop_ok by (done || lia). rewrite Z.add_0_l.
  destruct (cksum_fold_ok (hsum ws) ltac:(lia)) as (r & -> & Hr & Hm & Hp). rewrite xor_ffff by done.
  eexists. split; [done |]. split; [lia |]. replace (65535 - (65535 - r)) with r by lia. split; [lia |]. done.
Qed.

(** The same words as bytes, for the checksum of the other program. *)
Definition word_bytes (ws : list Z) : list Z := ws ≫= ip_bytes.

Lemma word_bytes_len ws : length (word_bytes ws) = (4 * length ws)%nat.
Proof. induction ws as [| w ws IH]; [done |]. unfold word_bytes in *. cbn [mbind list_bind]. rewrite length_app, IH. cbn [length ip_bytes]. lia. Qed.

Lemma word_bytes_ok ws : bytes (word_bytes ws).
Proof. induction ws as [| w ws IH]; [constructor |]. cbn [word_bytes mbind list_bind]. apply Forall_app_2; [apply ip_bytes_ok | exact IH]. Qed.

Lemma wsum_word_bytes ws : words ws -> wsum (word_bytes ws) = hsum ws.
Proof.
  induction 1 as [| w ws Hw Hws IH]; [done |]. cbn [word_bytes mbind list_bind hsum].
  rewrite wsum_app by (by exists 2%nat). unfold word_bytes in IH. rewrite IH.
  unfold ip_bytes. cbn [wsum]. rewrite !land_255, !shiftr_div by lia. zlia.
Qed.

Lemma byte_cksum_ok ws : words ws -> Z.of_nat (length ws) < 16384 ->
  exists c, ipcksum (4 * Z.of_nat (length ws)) (word_bytes ws) = Some c /\ completes (hsum ws) c.
Proof.
  intros Hws Hn. destruct (ipcksum_ok (word_bytes ws) []) as (c & H1 & H2 & H3 & H4 & H5).
  - apply word_bytes_ok.
  - rewrite word_bytes_len. exists (2 * length ws)%nat. lia.
  - rewrite word_bytes_len. lia.
  - rewrite app_nil_r, word_bytes_len, Nat2Z.inj_mul in H1. exists c. split; [exact H1 |].
    rewrite wsum_word_bytes in * by done. pose proof (hsum_range ws Hws). split; [done |]. split; [lia |].
    split; [| zlia]. replace (hsum ws) with (hsum ws + c + - c) by lia.
    rewrite Zplus_mod, H3, Z.add_0_l, Zmod_mod. replace (65535 - c) with (- c + 1 * 65535) by lia. apply Z_mod_plus_full.
Qed.

(** C25: The checksum in assembly, the C text it stands for and the checksum by
    bytes of the later program agree on up to 16383 words of a packet. *)
Theorem cksum_asm_is_c ws post :
  words ws -> ws <> [] -> Z.of_nat (length ws) < 16384 ->
  cksum_asm (Z.of_nat (length ws)) (ws ++ post) = cksum_c (Z.of_nat (length ws)) (ws ++ post) /\
  cksum_asm (Z.of_nat (length ws)) (ws ++ post) = ipcksum (4 * Z.of_nat (length ws)) (word_bytes ws).
Proof.
  intros Hws Hne Hn. destruct (cksum_asm_ok ws post) as (c & -> & H1); [done | done | lia |].
  destruct (cksum_c_ok ws post) as (c' & -> & H2); [done | lia |].
  destruct (byte_cksum_ok ws) as (c'' & -> & H3); [done | lia |].
  by rewrite (completes_unique _ _ _ H1 H2), (completes_unique _ _ _ H2 H3).
Qed.

Lemma cksum_asm_is_c_witness :
  cksum_asm 3 [0xffffffff; 0xffffffff; 0x80000001; 7] = cksum_c 3 [0xffffffff; 0xffffffff; 0x80000001; 7] /\
  cksum_asm 3 [0xffffffff; 0xffffffff; 0x80000001; 7] = ipcksum 12 (word_bytes [0xffffffff; 0xffffffff; 0x80000001]).
Proof.
  apply (cksum_asm_is_c [0xffffffff; 0xffffffff; 0x80000001] [7]); [repeat constructor; lia | done | done].
Defined.

(** ** Packets as lists of words *)

Lemma elt_eq l k v s : 0 <= k -> l !! Z.to_nat k = Some v -> elt l k s = Ret v s.
Proof. intros Hk Hv. unfold elt. by rewrite (proj2 (Z.leb_le 0 k)), Hv. Qed.

Lemma put_eq l k v s : 0 <= k < Z.of_nat (length l) -> SimplePing.put l k v s = Ret (<[Z.to_nat k := v]> l) s.
Proof. intros Hk. unfold SimplePing.put. by rewrite (proj2 (Z.leb_le 0 k)), (proj2 (Z.ltb_lt _ _)) by lia. Qed.

Lemma or_fault_eq {A} (o : option A) a s : o = Some a -> or_fault o s = Ret a s.
Proof. by intros ->. Qed.

(** A checksum put under a word whose lower half is empty makes the whole check. *)
Lemma cksum_asm_put pre w x post rest : words pre -> words x -> 0 <= w < 65536 -> Z.of_nat (length pre + 1 + length x) <= 32768 ->
  let n := Z.of_nat (length pre + 1 + length x) in
  exists ck, cksum_asm n (pre ++ (w * 65536) :: x ++ post) = Some ck /\ 0 <= ck < 65536 /\
    (w * 65536) .| ck = w * 65536 + ck /\
    cksum_c n (pre ++ (w * 65536 + ck) :: x ++ rest) = Some 0.
Proof.
  intros Hpre Hx Hw Hn n.
  assert (Hl : forall v, n = Z.of_nat (length (pre ++ v :: x))) by (intros v; rewrite length_app; cbn [length]; lia).
  assert (Ha : forall v r, pre ++ v :: x ++ r = (pre ++ v :: x) ++ r) by (intros v r; by rewrite <- app_assoc).
  assert (Hws : forall v, 0 <= v < 2 ^ 32 -> words (pre ++ v :: x)).
  { intros v Hv. apply Forall_app_2; [done |]. by constructor. }
  destruct (cksum_asm_ok (pre ++ (w * 65536) :: x) post) as (ck & H1 & Hck & Hr).
  { apply Hws. lia. } { by destruct pre. } { rewrite <- Hl. lia. }
  rewrite <- Hl, <- Ha in H1. exists ck. split; [exact H1 |]. split; [done |].
  split. { change (w * 65536) with (w * 2 ^ 16). rewrite <- lor_shiftl_add by lia. by rewrite shiftl_mul by lia. }
  destruct (cksum_c_ok (pre ++ (w * 65536 + ck) :: x) rest) as (c & H2 & Hc & Hs).
  { apply Hws. lia. } { rewrite <- Hl. lia. }
  rewrite <- Hl, <- Ha in H2. rewrite H2. f_equal.
  assert (Hh : hsum (pre ++ (w * 65536 + ck) :: x) = hsum (pre ++ (w * 65536) :: x) + ck).
  { rewrite !hsum_app. cbn [hsum]. rewrite Z.add_assoc, !(Z.add_comm (w * 65536)), Z.div_add, Z.mod_add by lia.
    rewrite Z.div_mul, Z.mod_mul, Z.div_small, Z.mod_small by lia. lia. }
  rewrite Hh in Hs. destruct Hr as (R1 & R2 & R3), Hs as (S1 & S2 & S3).
  pose proof (hsum_range _ (Hws (w * 65536) ltac:(lia))) as Hpos. set (t := hsum _) in *. clearbody t.
  assert (Hm : (t + ck) mod 65535 = 0).
  { rewrite Zplus_mod, <- R2, <- Zplus_mod. replace (65535 - ck + ck) with 65535 by lia. done. }
  assert (Ht : 0 < t + ck) by zlia. rewrite Hm in S2. zlia.
Qed.

Lemma land_word w m : 0 <= w < 2 ^ 32 -> 0 <= w .& m < 2 ^ 32.
Proof.
  intros Hw. assert (E : w .& m = (w .& m) mod 2 ^ 32); [| rewrite E; by apply Z.mod_pos_bound].
  rewrite <- Z.land_ones by lia. rewrite <- Z.land_assoc, (Z.land_comm m), Z.land_assoc, Z.land_ones by lia.
  by rewrite Z.mod_small.
Qed.

Lemma copy_request_eq n : forall k req pkt s, (2 <= k)%nat -> (k - 2 + n <= length req)%nat -> (k + n <= length pkt)%nat ->
  copy_request n (Z.of_nat k) req pkt s = Ret (take k pkt ++ take n (drop (k - 2) req) ++ drop (k + n) pkt) s.
Proof.
  induction n as [| n IH]; intros k req pkt s Hk Hreq Hpkt; cbn [copy_request].
  - rewrite take_0, Nat.add_0_r. cbn [app]. by rewrite take_drop.
  - destruct (lookup_lt_is_Some_2 req (k - 2)) as [v Hv]; [lia |].
    rewrite (bind_eq _ _ _ _ _ (elt_eq req (Z.of_nat k - 2) v s ltac:(lia) ltac:(by replace (Z.to_nat (Z.of_nat k - 2)) with (k - 2)%nat by lia))).
    rewrite (bind_eq _ _ _ _ _ (put_eq pkt (Z.of_nat k) v s ltac:(lia))). rewrite Nat2Z.id.
    replace (Z.of_nat k + 1) with (Z.of_nat (S k)) by lia. rewrite IH by (rewrite ?length_insert; lia). f_equal.
    rewrite (take_S_r _ k v) by (apply list_lookup_insert_eq; lia).
    rewrite take_insert_ge, <- app_assoc by lia. f_equal.
    rewrite (drop_S req v (k - 2)) by done. cbn [take]. replace (S (k - 2)) with (S k - 2)%nat by lia.
    cbn [app]. f_equal. f_equal. rewrite drop_insert_lt by lia. f_equal. lia.
Qed.

(** What the reply does to the bytes after the end of the packet. *)
Definition masked (pktln : Z) (l : list Z) : list Z :=
  if pktln .& 3 =? 0 then l else alter (fun v => v .& tail_mask pktln) (length l - 1)%nat l.

Lemma masked_len pktln l : length (masked pktln l) = length l.
Proof. unfold masked. case_match; [done |]. apply length_alter. Qed.

Lemma masked_words pktln l : words l -> words (masked pktln l).
Proof. intros H. unfold masked. case_match; [done |]. apply Forall_alter; [done |]. intros x _ Hx. exact (land_word _ _ Hx). Qed.

(** The code's statement, on a packet of eight words and the rest. *)
Lemma mask_step pktln w0 w1 w2 w3 w4 w5 w6 ts junk s :
  (if negb (pktln .& 3 =? 0) then
     let* v := elt (w0 :: w1 :: w2 :: w3 :: w4 :: w5 :: w6 :: 0 :: ts ++ junk) (7 + Z.of_nat (length ts)) in
     SimplePing.put (w0 :: w1 :: w2 :: w3 :: w4 :: w5 :: w6 :: 0 :: ts ++ junk) (7 + Z.of_nat (length ts)) (v .& tail_mask pktln)
   else ret (w0 :: w1 :: w2 :: w3 :: w4 :: w5 :: w6 :: 0 :: ts ++ junk)) s =
  Ret (w0 :: w1 :: w2 :: w3 :: w4 :: w5 :: w6 :: 0 :: masked pktln ts ++ junk) s.
Proof.
  unfold masked. destruct (pktln .& 3 =? 0); [done |]. cbn [negb].
  set (pre := [w0; w1; w2; w3; w4; w5; w6]). assert (Hpre : length pre = 7%nat) by done.
  change (w0 :: w1 :: w2 :: w3 :: w4 :: w5 :: w6 :: 0 :: ts ++ junk) with (pre ++ (0 :: ts ++ junk)).
  destruct ts as [| t ts _] using rev_ind.
  - change (7 + Z.of_nat (length [])) with 7. rewrite (bind_eq _ _ _ 0 s) by (by apply elt_eq).
    rewrite put_eq by (rewrite length_app, Hpre; cbn [length]; lia). by rewrite Z.land_0_l.
  - rewrite length_app. cbn [length]. rewrite <- (app_assoc ts). cbn [app].
    set (l := pre ++ 0 :: ts ++ t :: junk).
    assert (Hk : Z.to_nat (7 + Z.of_nat (length ts + 1)) = length (pre ++ 0 :: ts)) by (rewrite length_app, Hpre; cbn [length]; lia).
    assert (Hl : l = (pre ++ 0 :: ts) ++ t :: junk) by (unfold l; by rewrite <- app_assoc).
    rewrite (bind_eq _ _ _ t s).
    2: { apply elt_eq; [lia |]. rewrite Hk, Hl. by apply list_lookup_middle. }
    rewrite put_eq by (rewrite Hl, length_app; rewrite length_app, Hpre; cbn [length]; lia).
    rewrite Hk, Hl. rewrite (insert_app_r_alt _ (t :: junk)), Nat.sub_diag by lia. cbn [insert list_insert].
    rewrite <- app_assoc. replace (length ts + 1 - 1)%nat with (length ts) by lia.
    rewrite (alter_app_r_alt _ ts [t]), Nat.sub_diag by lia. cbn [alter list_alter]. rewrite <- app_assoc. done.
Qed.

(** The address that a search finds. *)
Definition arp_find (s : PING) (ip : Z) : option Z :=
  if (truthy ((ip .^ s_ip_addr s) .& s_ip_mask s) || (ip =? s_ip_router s)) && truthy (s_router_mac s)
  then Some (s_router_mac s) else (arp_search (s_arp_table s) 0 ip).1.

Lemma arp_lookup_finds s ip m : arp_find s ip = Some m ->
  exists t, arp_lookup ip s = Ret (Some m) (s <| s_arp_table := t |>).
Proof.
  unfold arp_find, arp_lookup. rewrite (bind_eq get _ s s s) by done. case_match.
  - intros [= <-]. exists (s_arp_table s). by destruct s.
  - destruct (arp_search _ _ _) as [r t]. cbn [fst]. intros ->. by exists t.
Qed.

Lemma get_eq (s : PING) : get s = Ret s s.
Proof. done. Qed.

Lemma bump_eq c s : exists f, bump c s = Ret tt (s <| counts := f |>).
Proof. by eexists. Qed.

Lemma sendpkt_eq n a b s : 0 <= n < 1400 -> length a = Z.to_nat ((n + 3) .>> 2) ->
  exists s', sendpkt (a ++ b) n s = Ret tt s' /\ s_tx s' = s_tx s ++ [(ENET_TXCMD n, a)] /\
    (forall c, c <> user_tx_packets -> counts s' c = counts s c).
Proof.
  intros Hn Ha. unfold sendpkt. unfold u32. rewrite Z.mod_small by lia. rewrite (proj2 (Z.ltb_lt _ _)) by lia.
  rewrite <- Ha, decide_True by (rewrite length_app; lia). rewrite take_app_length. eexists. split; [done |].
  destruct s. split; [done |]. intros c Hc. cbn. by rewrite decide_False.
Qed.

(** A store into a packet at a place that is known. *)
Ltac pput k :=
  erewrite (bind_eq (SimplePing.put _ _ _)) by (apply put_eq; cbn [length]; lia);
  let n := eval vm_compute in (Z.to_nat k) in change (Z.to_nat k) with n; cbn [insert list_insert].
Ltac pelt v := erewrite (bind_eq (elt _ _) _ _ v) by (apply elt_eq; [lia | done]).

(** The frame of a reply. *)
Definition reply (hw id h0 h3 h4 ck ick pktln : Z) (ts : list Z) : list Z :=
  [mac_hi hw; mac_lo hw ETHERTYPE_IP; h0 .& 0xff00ffff; u32 ((id .& 0x0ffff) .<< 16); 0xff010000 + ck; h4; h3; ick] ++ masked pktln ts.

Lemma uping_reply_sends junk ip h0 h1 h2 h3 h4 t0 ts rest s hw :
  let req := h0 :: h1 :: h2 :: h3 :: h4 :: t0 :: ts ++ rest in
  let pktln := (h0 .& 0x0ffff) + 8 in
  length junk = 2048%nat -> words (h0 :: h3 :: h4 :: ts) -> arp_find s ip = Some hw -> h0 .>> 24 = 0x45 ->
  (pktln + 3) .>> 2 = 8 + Z.of_nat (length ts) -> 8 + Z.of_nat (length ts) < 1 .<< ((n_rxcmd s .>> 24) .& 0x0f) -> pktln < 1400 ->
  exists ck ick s2, let f := reply hw (pkt_id s) h0 h3 h4 ck ick pktln ts in
    uping_reply junk ip req s = Ret tt s2 /\ s_tx s2 = s_tx s ++ [(ENET_TXCMD pktln, f)] /\
    0 <= ck < 65536 /\ 0 <= ick < 65536 /\
    cksum_c 5 (drop 2 f) = Some 0 /\ cksum_c (1 + Z.of_nat (length ts)) (drop 7 f) = Some 0.
Proof.
  intros req pktln Hj Hw Harp Hv Hlen Hmax Hshort.
  apply Forall_cons_1 in Hw as [H0 Hw]. apply Forall_cons_1 in Hw as [H3 Hw]. apply Forall_cons_1 in Hw as [H4 Hts].
  assert (Hpl : 0 <= pktln) by (unfold pktln; rewrite land_65535; zlia).
  rewrite shiftr_div in Hlen by lia. change (2 ^ 2) with 4 in Hlen.
  destruct (arp_lookup_finds _ _ _ Harp) as [t Harp'].
  set (id := u32 ((pkt_id s .& 0x0ffff) .<< 16)). set (tl := drop (8 + length ts) junk).
  destruct (cksum_asm_put [] 0 (masked pktln ts) tl [] (Forall_nil_2 _) (masked_words _ _ Hts) ltac:(lia)) as (ick & I1 & Ir & I2 & I3).
  { rewrite masked_len. cbn [length]. zlia. }
  destruct (cksum_asm_put [h0 .& 0xff00ffff; id] 0xff01 [h4; h3] (0 :: masked pktln ts ++ tl) (ick :: masked pktln ts))
    as (ck & K1 & Kr & K2 & K3);
    [| exact (Forall_cons_2 _ _ _ H4 (Forall_cons_2 _ _ _ H3 (Forall_nil_2 _))) | lia | done |].
  { apply Forall_cons_2; [by apply land_word |]. apply Forall_cons_2; [by apply Z.mod_pos_bound | apply Forall_nil_2]. }
  rewrite masked_len in I1, I3. rewrite app_nil_r in I3. cbn [length app Nat.add] in *.
  change (65281 * 65536) with 4278255616 in *. change (0 * 65536) with 0 in *. rewrite Z.add_0_l in I2, I3.
  exists ck, ick. unfold uping_reply.
  destruct junk as [| j0 [| j1 [| j2 [| j3 [| j4 [| j5 [| j6 [| j7 junk]]]]]]]]; try done.
  nstep (get_eq s). nstep (elt_eq req 0 h0 s ltac:(lia) ltac:(done)). fold pktln.
  rewrite shiftr_div by lia. change (2 ^ 2) with 4. rewrite Hlen. nstep Harp'.
  set (s1 := s <| s_arp_table := t |>).
  assert (Hid : pkt_id s1 = pkt_id s) by (by destruct s). assert (Htx : s_tx s1 = s_tx s) by (by destruct s).
  rewrite Hv, Z.eqb_refl, andb_true_r, (proj2 (Z.ltb_lt _ _)).
  2: { case_match; zlia. }
  pput 0. pput 1. pput 2. nstep (get_eq s1). rewrite Hid. fold id.
  pput 3. pput 4. pelt h4. pput 5. pelt h3. pput 6.
  set (hd := mac_hi hw :: _).
  replace (Z.to_nat (8 + Z.of_nat (length ts) - 7)) with (S (length ts)) by lia.
  nstep (copy_request_eq (S (length ts)) 7 req hd s1 ltac:(lia) ltac:(unfold req; cbn [length]; rewrite length_app; lia)
    ltac:(unfold hd; cbn [length] in *; zlia)).
  replace (take 7 hd ++ _ ++ drop (7 + S (length ts)) hd)
    with (mac_hi hw :: mac_lo hw ETHERTYPE_IP :: h0 .& 4278255615 :: id :: 4278255616 :: h4 :: h3 :: t0 :: ts ++ tl).
  2: { unfold req, hd, tl. cbn [drop take app Nat.sub Nat.add]. by rewrite take_app_length. }
  pput 7. replace (8 + Z.of_nat (length ts) - 1) with (7 + Z.of_nat (length ts)) by lia.
  nstep (mask_step pktln (mac_hi hw) (mac_lo hw ETHERTYPE_IP) (h0 .& 4278255615) id 4278255616 h4 h3 ts tl s1).
  cbn [drop]. nstep (or_fault_eq _ _ s1 K1). pelt 4278255616. rewrite K2. pput 4. pelt 0. pput 7. cbn [drop].
  replace (8 + Z.of_nat (length ts) - 7) with (Z.of_nat (S (length ts))) by lia.
  nstep (or_fault_eq _ _ s1 I1). pelt 0. rewrite I2. pput 7.
  destruct (bump_eq ping_replies_sent s1) as [f Hf]. nstep Hf.
  set (fr := reply hw (pkt_id s) h0 h3 h4 ck ick pktln ts).
  destruct (sendpkt_eq pktln fr tl (s1 <| counts := f |>)) as (s2 & Hs & Ht & _); [lia | |].
  { unfold fr, reply. rewrite length_app, masked_len, shiftr_div by lia. change (2 ^ 2) with 4. rewrite Hlen. cbn [length]. lia. }
  exists s2. split; [exact Hs |]. split; [rewrite Ht, <- Htx; by destruct s1 |].
  split; [done |]. split; [done |]. split; [exact K3 |]. rewrite <- I3. f_equal. lia.
Qed.

(** ** The user task *)

Lemma copy_rx_eq n : forall k s, (k + n <= length (_netbrx s))%nat -> (k + n <= length (rxpkt s))%nat ->
  copy_rx n (Z.of_nat k) s = Ret tt (s <| rxpkt := take k (rxpkt s) ++ take n (drop k (_netbrx s)) ++ drop (k + n) (rxpkt s) |>).
Proof.
  induction n as [| n IH]; intros k s Hb Hr; cbn [copy_rx].
  - rewrite take_0, Nat.add_0_r. cbn [app]. rewrite take_drop. by destruct s.
  - destruct (lookup_lt_is_Some_2 (_netbrx s) k) as [v Hv]; [lia |]. nstep (get_eq s).
    nstep (elt_eq (_netbrx s) (Z.of_nat k) v s ltac:(lia) ltac:(by rewrite Nat2Z.id)).
    nstep (put_eq (rxpkt s) (Z.of_nat k) v s ltac:(lia)). rewrite Nat2Z.id.
    erewrite (bind_eq (modify _)) by done. replace (Z.of_nat k + 1) with (Z.of_nat (S k)) by lia.
    rewrite IH by (destruct s; cbn in *; rewrite ?length_insert; lia).
    destruct s as [a nb c rx e f g h i j l m o p q r]. cbn in *. do 2 f_equal.
    rewrite (take_S_r _ k v) by (apply list_lookup_insert_eq; lia).
    rewrite take_insert_ge, <- app_assoc by lia. f_equal.
    rewrite (drop_S nb v k) by done. cbn [take app]. f_equal. f_equal. rewrite drop_insert_lt by lia. f_equal. lia.
Qed.

(** How many words a frame has, and [rxpkt] once they are copied. *)
Definition rx_words (s : PING) : nat := Z.to_nat (((n_rxcmd s .& 0x07ff) + 3) .>> 2).
Definition received (s : PING) : list Z := take (rx_words s) (_netbrx s) ++ drop (rx_words s) (rxpkt s).

Lemma rx_words_le s : (rx_words s <= 512)%nat.
Proof. unfold rx_words. change 0x7ff with (Z.ones 11). rewrite Z.land_ones, shiftr_div by lia. zlia. Qed.

(** The state in which a packet is looked at. *)
Definition taken (s : PING) (f : COUNT -> Z) : PING :=
  s <| rxpkt := received s |> <| n_rxcmd := n_rxcmd s .& 0xff000000 |> <| counts := f |>.

Lemma user_rx_ip ev junk s w1 :
  (512 <= length (_netbrx s))%nat -> (512 <= length (rxpkt s))%nat ->
  _netbrx s !! 1%nat = Some w1 -> w1 .& 0xffff = ETHERTYPE_IP ->
  exists f, user_rx ev junk s = rx_ip junk (drop 2 (received s)) (taken s f).
Proof.
  intros Hb Hr H1 He. unfold user_rx. nstep (get_eq s). nstep (elt_eq (_netbrx s) 1 w1 s ltac:(lia) H1).
  rewrite He. pose proof (rx_words_le s) as Hn. fold (rx_words s).
  nstep (copy_rx_eq (rx_words s) 0 s ltac:(lia) ltac:(lia)).
  rewrite take_0, drop_0. cbn [app Nat.add]. fold (received s).
  erewrite (bind_eq (modify _)) by done.
  set (s1 := s <| rxpkt := received s |>). set (s2 := s1 <| n_rxcmd := n_rxcmd s1 .& 4278190080 |>).
  destruct (bump_eq pkts_received s2) as [f Hf]. nstep Hf. nstep (get_eq (s2 <| counts := f |>)).
  rewrite Z.eqb_refl. exists f. unfold taken, s2, s1. by destruct s.
Qed.

(** A ping to this host, as the words of the packet. *)
Record echo_request (s : PING) (h0 h1 h2 h4 t0 : Z) : Prop := {
  er_version : h0 .>> 24 = 0x45;
  er_whole : h1 .& 0x0bfff = 0;
  er_proto : (h2 .>> 16) .& 0x0ff = IPPROTO_ICMP;
  er_dest : h4 = s_ip_addr s;
  er_type : t0 .>> 24 = ICMP_PING
}.

Lemma version_4 h0 : h0 .>> 24 = 0x45 -> (h0 .>> 28) .& 15 = 4 /\ (h0 .>> 24) .& 15 = 5.
Proof.
  intros H. split; [| by rewrite H]. replace (h0 .>> 28) with ((h0 .>> 24) .>> 4); [by rewrite H |].
  by rewrite Z.shiftr_shiftr.
Qed.

Lemma rx_ip_echo junk s h0 h1 h2 h3 h4 t0 rest :
  let ip := h0 :: h1 :: h2 :: h3 :: h4 :: t0 :: rest in
  echo_request s h0 h1 h2 h4 t0 ->
  exists f, rx_ip junk ip s = (uping_reply junk h3 ip ;; bump icmp_echo_requests) (s <| counts := f |>).
Proof.
  intros ip [Hv Hf Hp Hd Ht]. unfold rx_ip. pelt h0. pelt h1. pelt h4. nstep (get_eq s).
  destruct (version_4 h0 Hv) as [-> ->]. rewrite Hf, Hd, !Z.eqb_refl. cbn [negb truthy Z.eqb].
  destruct (bump_eq ip_pkts_received s) as [f Hb]. nstep Hb. pelt h2. rewrite Hp. cbn [andb Z.eqb negb].
  rewrite (proj2 (Z.eqb_eq IPPROTO_ICMP _)) by done.
  erewrite (bind_eq (elt _ _) _ _ t0) by (apply elt_eq; done). rewrite Ht.
  rewrite (proj2 (Z.eqb_neq ICMP_PING ICMP_ECHOREPLY)), Z.eqb_refl by done.
  pelt h3. by exists f.
Qed.

Lemma taken_echo s f h0 h1 h2 h4 t0 : echo_request s h0 h1 h2 h4 t0 -> echo_request (taken s f) h0 h1 h2 h4 t0.
Proof. intros []. split; try done. by destruct s. Qed.

Lemma taken_room s f : 1 .<< ((n_rxcmd (taken s f) .>> 24) .& 0x0f) = 1 .<< ((n_rxcmd s .>> 24) .& 0x0f).
Proof.
  replace (n_rxcmd (taken s f)) with (n_rxcmd s .& 0xff000000) by (by destruct s).
  rewrite Z.shiftr_land, <- Z.land_assoc. done.
Qed.

(** A ping is answered with the words of [rxpkt] that its length says. *)
Lemma user_rx_sends ev junk s w1 f0 f1 h0 h1 h2 h3 h4 t0 ts rest hw :
  let pktln := (h0 .& 0x0ffff) + 8 in
  (512 <= length (_netbrx s))%nat -> (512 <= length (rxpkt s))%nat -> length junk = 2048%nat ->
  _netbrx s !! 1%nat = Some w1 -> w1 .& 0xffff = ETHERTYPE_IP ->
  received s = f0 :: f1 :: h0 :: h1 :: h2 :: h3 :: h4 :: t0 :: ts ++ rest ->
  words (h0 :: h3 :: h4 :: ts) -> echo_request s h0 h1 h2 h4 t0 -> arp_find s h3 = Some hw ->
  (pktln + 3) .>> 2 = 8 + Z.of_nat (length ts) -> 8 + Z.of_nat (length ts) < 1 .<< ((n_rxcmd s .>> 24) .& 0x0f) -> pktln < 1400 ->
  exists ck ick s2, let f := reply hw (pkt_id s) h0 h3 h4 ck ick pktln ts in
    user_rx ev junk s = Ret tt s2 /\ s_tx s2 = s_tx s ++ [(ENET_TXCMD pktln, f)] /\
    0 <= ck < 65536 /\ 0 <= ick < 65536 /\
    cksum_c 5 (drop 2 f) = Some 0 /\ cksum_c (1 + Z.of_nat (length ts)) (drop 7 f) = Some 0.
Proof.
  intros pktln Hb Hr Hj H1 He Hrec Hw Hecho Harp Hlen Hmax Hshort.
  destruct (user_rx_ip ev junk s w1 Hb Hr H1 He) as [f ->]. rewrite Hrec. cbn [drop].
  destruct (rx_ip_echo junk (taken s f) h0 h1 h2 h3 h4 t0 (ts ++ rest) (taken_echo _ _ _ _ _ _ _ Hecho)) as [g ->].
  set (s1 := (taken s f) <| counts := g |>).
  assert (Hp : pkt_id s1 = pkt_id s /\ s_tx s1 = s_tx s /\ arp_find s1 h3 = Some hw) by (rewrite <- Harp; by destruct s).
  destruct Hp as (Hid & Htx & Hfind).
  destruct (uping_reply_sends junk h3 h0 h1 h2 h3 h4 t0 ts rest s1 hw) as (ck & ick & s2 & Hs & Ht & Hrest); try done.
  { apply Hecho. }
  { rewrite <- (taken_room s f) in Hmax. replace (n_rxcmd s1) with (n_rxcmd (taken s f)) by (by destruct s). exact Hmax. }
  rewrite Hid, Htx in *. exists ck, ick. nstep Hs. destruct (bump_eq icmp_echo_requests s2) as [k Hk].
  exists (s2 <| counts := k |>). split; [exact Hk |]. split; [unfold pktln; rewrite <- Ht; by destruct s2 | exact Hrest].
Qed.
