(* ===== verification/PingClaims.v ===== *)
(** What the earlier network program of the board does with a ping: it answers one
    that came whole, tells old words to one that says it is longer than it is, and
    stops on one that is too short; and the pings it sends itself. *)

From stdpp Require Import base tactics list numbers option.
From Stdlib Require Import ZArith Lia.
From S2P Require Import Prelude Net NetWp NetIp SimplePing PingProps.
Local Open Scope Z_scope.

(** ** A ping that came whole *)

(** C24: A ping that came whole, from a known host, is answered with one frame: to
    the asker's addresses, with the data of the ping up to its length, and with both
    checksums right. *)
Theorem simple_ping_answers ev junk s f0 f1 h0 h1 h2 h3 h4 t0 ts rest hw :
  let pktln := (h0 .& 0x0ffff) + 8 in
  (512 <= length (_netbrx s))%nat -> (512 <= length (rxpkt s))%nat -> length junk = 2048%nat ->
  _netbrx s = f0 :: f1 :: h0 :: h1 :: h2 :: h3 :: h4 :: t0 :: ts ++ rest -> (8 + length ts <= rx_words s)%nat ->
  f1 .& 0xffff = ETHERTYPE_IP -> words (h0 :: h3 :: h4 :: ts) -> echo_request s h0 h1 h2 h4 t0 ->
  arp_find s h3 = Some hw -> (pktln + 3) .>> 2 = 8 + Z.of_nat (length ts) ->
  8 + Z.of_nat (length ts) < 1 .<< ((n_rxcmd s .>> 24) .& 0x0f) -> pktln < 1400 ->
  exists ck ick s2, let f := reply hw (pkt_id s) h0 h3 h4 ck ick pktln ts in
    user_rx ev junk s = Ret tt s2 /\ s_tx s2 = s_tx s ++ [(ENET_TXCMD pktln, f)] /\
    0 <= ck < 65536 /\ 0 <= ick < 65536 /\
    cksum_c 5 (drop 2 f) = Some 0 /\ cksum_c (1 + Z.of_nat (length ts)) (drop 7 f) = Some 0.
Proof.
  intros pktln Hb Hr Hj Hnb Hn He Hw Hecho Harp Hlen Hmax Hshort.
  apply (user_rx_sends ev junk s f1 f0 f1 h0 h1 h2 h3 h4 t0 ts
    (take (rx_words s - (8 + length ts)) rest ++ drop (rx_words s) (rxpkt s))); try done.
  - by rewrite Hnb.
  - unfold received. rewrite Hnb. rewrite app_assoc.
    change (f0 :: f1 :: h0 :: h1 :: h2 :: h3 :: h4 :: t0 :: ts ++ rest) with ((f0 :: f1 :: h0 :: h1 :: h2 :: h3 :: h4 :: t0 :: ts) ++ rest).
    by rewrite take_app_ge by (cbn [length]; lia).
Qed.

(** A host that knows 10.0.0.9, with a frame of [ws] in the port and old words in
    [rxpkt]. *)
Definition host (cmd : Z) (ws : list Z) : PING :=
  mkPING (0x0b000000 .| cmd) (ws ++ replicate 600 0) [] (replicate 2048 0x5ec2e700) 7 0 0 0x0a000001 0xd2d8000001 0xffffff00 0x0a0000fe 0
    [mkArp 1 0 0x0a000009 0x020304050607; mkArp 0 0 0 0] (replicate 32 (0, 0)) 0 (fun _ => 0).

(** A ping of [iplen] bytes, that far. *)
Definition ping_words (iplen : Z) : list Z :=
  [0x02030405; 0x06070800; 0x45000000 .| iplen; 0; 0x40010000; 0x0a000009; 0x0a000001; 0x08000000].

(** The conditions of a concrete frame. *)
Ltac concrete := first
  [ apply Nat.leb_le; vm_compute; reflexivity
  | apply Z.ltb_lt; vm_compute; reflexivity
  | apply Z.leb_le; vm_compute; reflexivity
  | (repeat (apply Forall_cons_2; [split; [apply Z.leb_le | apply Z.ltb_lt]; vm_compute; reflexivity |]); apply Forall_nil_2)
  | (split; vm_compute; reflexivity)
  | vm_compute; reflexivity ].

Lemma simple_ping_answers_witness :
  exists ck ick s2, let f := reply 0x020304050607 7 0x4500001e 0x0a000009 0x0a000001 ck ick 38 [0x00010002; 0x41424344] in
    user_rx 0 (replicate 2048 0) (host 60 (ping_words 30 ++ [0x00010002; 0x41424344])) = Ret tt s2 /\
    s_tx s2 = [] ++ [(ENET_TXCMD 38, f)] /\
    0 <= ck < 65536 /\ 0 <= ick < 65536 /\
    cksum_c 5 (drop 2 f) = Some 0 /\ cksum_c 3 (drop 7 f) = Some 0.
Proof.
  apply (simple_ping_answers 0 (replicate 2048 0) (host 60 (ping_words 30 ++ [0x00010002; 0x41424344]))
    0x02030405 0x06070800 0x4500001e 0 0x40010000 0x0a000009 0x0a000001 0x08000000 [0x00010002; 0x41424344] (replicate 600 0) 0x020304050607);
    concrete.
Defined.

(** ** A ping that says it is longer than it is *)

(** The length in the packet is not compared with what came: a ping that says
    more than the frame had is answered with the words of earlier packets. *)
Theorem simple_ping_leaks ev junk s f0 f1 h0 h1 h2 h3 h4 t0 ts old rest hw :
  let pktln := (h0 .& 0x0ffff) + 8 in
  (512 <= length (_netbrx s))%nat -> (512 <= length (rxpkt s))%nat -> length junk = 2048%nat ->
  take (rx_words s) (_netbrx s) = f0 :: f1 :: h0 :: h1 :: h2 :: h3 :: h4 :: t0 :: ts ->
  drop (rx_words s) (rxpkt s) = old ++ rest ->
  f1 .& 0xffff = ETHERTYPE_IP -> words (h0 :: h3 :: h4 :: ts ++ old) -> echo_request s h0 h1 h2 h4 t0 ->
  arp_find s h3 = Some hw -> pktln = 4 * (8 + Z.of_nat (length (ts ++ old))) ->
  8 + Z.of_nat (length (ts ++ old)) < 1 .<< ((n_rxcmd s .>> 24) .& 0x0f) -> pktln < 1400 ->
  exists s2 f, user_rx ev junk s = Ret tt s2 /\ s_tx s2 = s_tx s ++ [(ENET_TXCMD pktln, f)] /\
    drop (rx_words s) f = old.
Proof.
  intros pktln Hb Hr Hj Hnb Hrx He Hw Hecho Harp Hlen Hmax Hshort.
  assert (Hn : rx_words s = (8 + length ts)%nat).
  { pose proof (f_equal length Hnb) as HL. rewrite length_take in HL. cbn [length] in HL. pose proof (rx_words_le s). lia. }
  destruct (user_rx_sends ev junk s f1 f0 f1 h0 h1 h2 h3 h4 t0 (ts ++ old) rest hw) as (ck & ick & s2 & H1 & H2 & _); try done.
  - rewrite <- (lookup_take_lt _ (rx_words s)) by lia. by rewrite Hnb.
  - unfold received. rewrite Hnb, Hrx, <- app_assoc. done.
  - fold pktln. rewrite shiftr_div, Hlen by lia. change (2 ^ 2) with 4. zlia.
  - exists s2. eexists. split; [exact H1 |]. split; [exact H2 |]. fold pktln.
    unfold reply, masked. rewrite land_3, (proj2 (Z.eqb_eq _ 0)) by zlia. rewrite Hn. cbn [drop app Nat.add]. apply drop_app_length.
Qed.

Lemma simple_ping_leaks_witness :
  exists s2 f, user_rx 0 (replicate 2048 0) (host 32 (ping_words 40)) = Ret tt s2 /\
    s_tx s2 = [] ++ [(ENET_TXCMD 48, f)] /\ drop 8 f = replicate 4 0x5ec2e700.
Proof.
  apply (simple_ping_leaks 0 (replicate 2048 0) (host 32 (ping_words 40))
    0x02030405 0x06070800 0x45000028 0 0x40010000 0x0a000009 0x0a000001 0x08000000 [] (replicate 4 0x5ec2e700) (replicate 2036 0x5ec2e700) 0x020304050607);
    concrete.
Defined.

(** ** A ping that is too short *)

(** The loop of the checksum tests its count after a word. *)
Lemma asm_loop_none ptr : forall r1 r3, 0 <= r3 < 2 ^ 32 ->
  Z.of_nat (length ptr) < (if r3 =? 0 then 2 ^ 32 else r3) -> cksum_asm_loop ptr r1 r3 = None.
Proof.
  induction ptr as [| w ptr IH]; intros r1 r3 Hr Hl; [done |]. cbn [cksum_asm_loop length] in *. cbv zeta.
  assert (Hu : 0 < u32 (r3 - 1) /\ Z.of_nat (length ptr) < u32 (r3 - 1)).
  { unfold u32. destruct (Z.eqb_spec r3 0) as [-> |]; [rewrite (Z.mod_eq (0 - 1)) by lia; change ((0 - 1) / 2 ^ 32) with (-1); cbn [Z.eqb] in Hl; lia |].
    rewrite Z.mod_small by lia. lia. }
  rewrite (proj2 (Z.eqb_neq (u32 _) 0)) by lia. apply IH; [split; [lia | by apply Z.mod_pos_bound] |].
  rewrite (proj2 (Z.eqb_neq (u32 _) 0)) by lia. lia.
Qed.

Lemma asm_loop_some n : forall ptr r1, (S n <= length ptr)%nat -> Z.of_nat (S n) < 2 ^ 32 ->
  is_Some (cksum_asm_loop ptr r1 (Z.of_nat (S n))).
Proof.
  induction n as [| n IH]; intros [| w ptr] r1 Hl Hn; cbn [length] in Hl; try lia; cbn [cksum_asm_loop]; cbv zeta; [done |].
  replace (u32 (Z.of_nat (S (S n)) - 1)) with (Z.of_nat (S n)) by (unfold u32; rewrite Z.mod_small; lia).
  rewrite (proj2 (Z.eqb_neq (Z.of_nat (S n)) 0)) by lia. apply IH; lia.
Qed.

Lemma cksum_asm_some n ptr : (S n <= length ptr)%nat -> Z.of_nat (S n) < 2 ^ 32 ->
  is_Some (cksum_asm (Z.of_nat (S n)) ptr).
Proof.
  intros Hl Hn. unfold cksum_asm. unfold u32 at 1. rewrite Z.mod_small by lia.
  by destruct (asm_loop_some n ptr 0 Hl Hn) as [r ->].
Qed.

(** An element that is there. *)
Lemma elt_in l k s : 0 <= k < Z.of_nat (length l) -> exists v, elt l k s = Ret v s.
Proof.
  intros Hk. destruct (lookup_lt_is_Some_2 l (Z.to_nat k)) as [v Hv]; [lia |]. exists v. apply elt_eq; [lia | done].
Qed.

(** The mask of the last word, wherever that is. *)
Lemma mask_len pktln k pkt s : 0 <= k < Z.of_nat (length pkt) -> exists pkt',
  (if negb (pktln .& 3 =? 0) then let* v := elt pkt k in SimplePing.put pkt k (v .& tail_mask pktln) else ret pkt) s = Ret pkt' s /\
  length pkt' = length pkt.
Proof.
  intros Hk. case_match; [| by exists pkt]. destruct (elt_in pkt k s Hk) as [v Hv]. nstep Hv.
  eexists. split; [by apply put_eq | apply length_insert].
Qed.

(** The last steps of the reply. *)
Lemma reply_tail_faults pkt n s (k : list Z -> PM unit) : length pkt = 2048%nat -> - 2000 <= n <= 0 ->
  (let* ck := or_fault (cksum_asm 5 (drop 2 pkt)) in
   let* v := elt pkt 4 in
   let* pkt := SimplePing.put pkt 4 (v .| ck) in
   let* v := elt pkt 7 in
   let* pkt := SimplePing.put pkt 7 (v .& 0xffff0000) in
   let* ck := or_fault (cksum_asm n (drop 7 pkt)) in
   let* v := elt pkt 7 in
   let* pkt := SimplePing.put pkt 7 (v .| ck) in k pkt) s = Exn FAULT s.
Proof.
  intros Hl Hn. destruct (cksum_asm_some 4 (drop 2 pkt)) as [ck Hck]; [rewrite length_drop; lia | done |].
  nstep (or_fault_eq _ _ s Hck). destruct (elt_in pkt 4 s ltac:(lia)) as [v Hv]. nstep Hv.
  nstep (put_eq pkt 4 (v .| ck) s ltac:(lia)). set (p1 := <[_ := _]> pkt).
  assert (L1 : length p1 = 2048%nat) by (unfold p1; by rewrite length_insert).
  destruct (elt_in p1 7 s ltac:(lia)) as [v7 Hv7]. nstep Hv7.
  nstep (put_eq p1 7 (v7 .& 0xffff0000) s ltac:(lia)).
  erewrite bind_exn; [done |]. unfold cksum_asm. rewrite asm_loop_none; [done | by apply Z.mod_pos_bound |].
  rewrite length_drop, length_insert, L1. destruct (Z.eqb_spec (u32 n) 0); [done |].
  unfold u32 in *. destruct (decide (n = 0)) as [-> | Hne]; [done |].
  rewrite Z.mod_eq by lia. replace (n / 2 ^ 32) with (-1) by zlia. lia.
Qed.

Lemma uping_reply_short junk ip h0 h1 h2 h3 h4 rest s hw :
  length junk = 2048%nat -> arp_find s ip = Some hw -> h0 .>> 24 = 0x45 -> h0 .& 0x0ffff <= 20 ->
  8 <= 1 .<< ((n_rxcmd s .>> 24) .& 0x0f) ->
  exists s2, uping_reply junk ip (h0 :: h1 :: h2 :: h3 :: h4 :: rest) s = Exn FAULT s2.
Proof.
  intros Hj Harp Hv Hlen Hmax. set (req := h0 :: _). set (pktln := (h0 .& 0x0ffff) + 8).
  assert (Hpl : 8 <= pktln <= 28) by (unfold pktln; rewrite land_65535 in *; zlia).
  destruct (arp_lookup_finds _ _ _ Harp) as [t Harp']. unfold uping_reply.
  nstep (get_eq s). nstep (elt_eq req 0 h0 s ltac:(lia) ltac:(done)). fold pktln.
  set (w := (pktln + 3) .>> 2). assert (Hw : 2 <= w <= 7) by (unfold w; rewrite shiftr_div by lia; zlia).
  nstep Harp'. set (s1 := s <| s_arp_table := t |>).
  rewrite Hv, Z.eqb_refl, andb_true_r, (proj2 (Z.ltb_lt _ _)) by (case_match; lia).
  destruct junk as [| j0 [| j1 [| j2 [| j3 [| j4 [| j5 [| j6 [| j7 junk]]]]]]]]; try done.
  pput 0. pput 1. pput 2. nstep (get_eq s1). pput 3. pput 4. pelt h4. pput 5. pelt h3. pput 6.
  replace (Z.to_nat (w - 7)) with O by lia. cbn [copy_request].
  erewrite (bind_eq (ret _)) by done. pput 7. set (pkt := mac_hi hw :: _).
  destruct (mask_len pktln (w - 1) pkt s1 ltac:(unfold pkt; cbn [length]; lia)) as (pkt' & Hm & Hl). nstep Hm.
  exists s1. apply (reply_tail_faults pkt' (w - 7) s1 (fun pkt => bump ping_replies_sent ;; sendpkt pkt pktln)); [| lia].
  rewrite Hl. exact Hj.
Qed.

(** A ping whose length says that it has no data beyond the header makes the
    checksum count its words from zero downwards: it reads on through memory until a
    bus error, which halts the board. *)
Theorem simple_ping_short_faults ev junk s w1 f0 f1 h0 h1 h2 h3 h4 t0 rest hw :
  (512 <= length (_netbrx s))%nat -> (512 <= length (rxpkt s))%nat -> length junk = 2048%nat ->
  _netbrx s !! 1%nat = Some w1 -> w1 .& 0xffff = ETHERTYPE_IP ->
  received s = f0 :: f1 :: h0 :: h1 :: h2 :: h3 :: h4 :: t0 :: rest ->
  echo_request s h0 h1 h2 h4 t0 -> arp_find s h3 = Some hw ->
  h0 .& 0x0ffff <= 20 -> 8 <= 1 .<< ((n_rxcmd s .>> 24) .& 0x0f) ->
  exists s2, user_rx ev junk s = Exn FAULT s2.
Proof.
  intros Hb Hr Hj H1 He Hrec Hecho Harp Hlen Hmax.
  destruct (user_rx_ip ev junk s w1 Hb Hr H1 He) as [f ->]. rewrite Hrec. cbn [drop].
  destruct (rx_ip_echo junk (taken s f) h0 h1 h2 h3 h4 t0 rest (taken_echo _ _ _ _ _ _ _ Hecho)) as [g ->].
  set (s1 := (taken s f) <| counts := g |>).
  destruct (uping_reply_short junk h3 h0 h1 h2 h3 h4 (t0 :: rest) s1 hw) as [s2 Hs2]; try done.
  - rewrite <- Harp. by destruct s.
  - apply Hecho.
  - rewrite <- (taken_room s f) in Hmax. replace (n_rxcmd s1) with (n_rxcmd (taken s f)) by (by destruct s). exact Hmax.
  - exists s2. by apply bind_exn.
Qed.

Lemma simple_ping_short_faults_witness :
  exists s2, user_rx 0 (replicate 2048 0) (host 60 (ping_words 20)) = Exn FAULT s2.
Proof.
  apply (simple_ping_short_faults 0 (replicate 2048 0) (host 60 (ping_words 20)) 0x06070800
    0x02030405 0x06070800 0x45000014 0 0x40010000 0x0a000009 0x0a000001 0x08000000
    (replicate 7 0 ++ replicate 2033 0x5ec2e700) 0x020304050607); concrete.
Defined.

(** ** The pings sent *)

(** The ping that the supervisor sends, once it knows an address, goes to that
    host, with both checksums right, and takes two numbers. *)
Theorem send_ping_checks s :
  ping_mac_addr s <> 0 -> 0 <= s_ip_addr s < 2 ^ 32 -> 0 <= ping_ip_addr s < 2 ^ 32 ->
  exists s2 ck ick, let id := u32 (pkt_id s + BIG_PRIME) in
    let f := [mac_hi (ping_mac_addr s); mac_lo (ping_mac_addr s) ETHERTYPE_IP; 0x4500001c; u32 ((id .& 0x0ffff) .<< 16); 0x80010000 + ck;
              s_ip_addr s; ping_ip_addr s; 0x08000000 + ick; u32 (u32 (id + BIG_PRIME) + BIG_PRIME)] in
    send_ping s = Ret tt s2 /\ s_tx s2 = s_tx s ++ [(ENET_TXCMD 36, f)] /\ pkt_id s2 = u32 (id + BIG_PRIME) /\
    0 <= ck < 65536 /\ 0 <= ick < 65536 /\ cksum_c 5 (drop 2 f) = Some 0 /\ cksum_c 2 (drop 7 f) = Some 0.
Proof.
  intros Hm Ha Hp. set (id := u32 (pkt_id s + BIG_PRIME)). set (last := u32 (u32 (id + BIG_PRIME) + BIG_PRIME)).
  set (w1 := u32 ((id .& 0x0ffff) .<< 16)).
  assert (U : forall x, 0 <= u32 x < 2 ^ 32) by (intros; by apply Z.mod_pos_bound).
  destruct (cksum_asm_put [] 0x0800 [last] [] [] (Forall_nil_2 _)) as (ick & I1 & Ir & I2 & I3);
    [exact (Forall_cons_2 _ _ _ (U _) (Forall_nil_2 _)) | lia | done |].
  destruct (cksum_asm_put [0x4500001c; w1] 0x8001 [s_ip_addr s; ping_ip_addr s] [0x08000000; last] [0x08000000 + ick; last])
    as (ck & K1 & Kr & K2 & K3).
  { apply Forall_cons_2; [lia |]. exact (Forall_cons_2 _ _ _ (U _) (Forall_nil_2 _)). }
  { exact (Forall_cons_2 _ _ _ Ha (Forall_cons_2 _ _ _ Hp (Forall_nil_2 _))). }
  { lia. } { done. }
  cbn [app length Nat.add] in *. change (2048 * 65536) with 0x08000000 in *. change (32769 * 65536) with 0x80010000 in *.
  unfold send_ping. nstep (get_eq s). rewrite (proj2 (Z.eqb_neq _ 0)) by done. fold id. fold last. fold w1.
  cbn [app]. nstep (or_fault_eq _ _ s K1). nstep (or_fault_eq _ _ s I1).
  erewrite (bind_eq (modify _)) by done. rewrite I2, K2.
  eexists _, ck, ick. split; [done |]. destruct s. by repeat (split; [done |]).
Qed.

Lemma send_ping_checks_witness : exists s2, send_ping ((host 0 []) <| ping_mac_addr := 5 |>) = Ret tt s2 /\ length (s_tx s2) = 1%nat.
Proof.
  destruct (send_ping_checks ((host 0 []) <| ping_mac_addr := 5 |>)) as (s2 & ck & ick & H1 & H2 & _); [done | by split | by split |].
  exists s2. split; [exact H1 |]. by rewrite H2.
Defined.

(** ** When they are sent *)

(** A return from the user task at which the loop does not halt: the code's own
    conditions. *)
Definition goes_on (e : UCC * Z) : bool :=
  negb (CC_FAULT e.1) &&
  (CC_TRAP e.1 || negb ((e.2 .& INTNOW =? 0) || (e.2 .& DINT SYSINT_TMA =? 0) || (e.2 .& DINT SYSINT_PPS =? 0))).

Definition timer (e : UCC * Z) : bool := truthy (e.2 .& SYSINT_TMA).

Lemma int_turn_eq e l : goes_on e = true ->
  int_turn e.1 e.2 l = Some (negb (timer e && (l =? 1)), if timer e then if l =? 1 then 1 else 0 else l).
Proof.
  destruct e as [ucc p]. unfold goes_on, int_turn, timer. cbn [fst snd]. intros [Hf Ht]%andb_true_iff.
  destruct (CC_FAULT ucc); [done |].
  replace (negb (CC_TRAP ucc) && _) with false by (by destruct (CC_TRAP ucc); cbn in *; [| destruct (_ || _)]).
  unfold SYSINT_PPS. change (SYSINT_TMA .| SYSINT_TMA) with SYSINT_TMA. unfold truthy.
  destruct (Z.eqb_spec (p .& SYSINT_TMA) 0) as [E | E]; cbn [negb andb].
  - by rewrite E.
  - destruct (l =? 1); cbn [negb].
    + by rewrite (proj2 (Z.eqb_neq _ 0)) by done.
    + rewrite <- Z.land_assoc. change (~. SYSINT_TMA .& SYSINT_TMA) with 0. by rewrite Z.land_0_r.
Qed.

Lemma int_loop_stays evs : forall l, l <> 1 -> forallb goes_on evs = true -> exists l', int_loop evs l = Some (None, l').
Proof.
  induction evs as [| [u p] evs IH]; intros l Hl H; [by eexists |]. cbn [forallb] in H. apply andb_true_iff in H as [He H].
  cbn [int_loop]. pose proof (int_turn_eq (u, p) l He) as Ht. cbn [fst snd] in Ht. rewrite Ht, (proj2 (Z.eqb_neq l 1)), andb_false_r by done.
  cbn [negb]. destruct (timer (u, p)); by apply IH.
Qed.

Fixpoint timers (evs : list (UCC * Z)) : nat :=
  match evs with [] => O | e :: evs' => if timer e then S (timers evs') else timers evs' end.

Lemma int_loop_leaves evs : forallb goes_on evs = true ->
  (timers evs = O /\ int_loop evs 1 = Some (None, 1)) \/
  exists rest, int_loop evs 1 = Some (Some rest, 1) /\ forallb goes_on rest = true /\
    (length rest < length evs)%nat /\ timers evs = S (timers rest).
Proof.
  induction evs as [| [u p] evs IH]; intros H; [by left |]. cbn [forallb] in H. apply andb_true_iff in H as [He H].
  cbn [int_loop timers length]. pose proof (int_turn_eq (u, p) 1 He) as Ht. cbn [fst snd] in Ht. rewrite Ht.
  destruct (timer (u, p)); cbn [andb negb Z.eqb Pos.eqb].
  - right. exists evs. by repeat (split; [done || lia |]).
  - destruct (IH H) as [IH' | (rest & E1 & E2 & E3 & E4)]; [by left |]. right. exists rest.
    by repeat (split; [done || lia |]).
Qed.

Lemma main_loop_counts n : forall evs, (length evs < n)%nat -> forallb goes_on evs = true ->
  main_loop n evs 1 = Some (S (timers evs)).
Proof.
  induction n as [| n IH]; intros evs Hn H; [lia |]. cbn [main_loop].
  destruct (int_loop_leaves evs H) as [[-> ->] | (rest & -> & Hrest & Hl & ->)]; [done |].
  rewrite IH by (done || lia). done.
Qed.

(** The variable [lastpps], which nothing sets before the loop reads it, decides
    whether the board goes on to ping: from one, a ping is sent at every tick of the
    timer; from any other value the first ping is the last. *)
Theorem pings_depend_on_lastpps evs lastpps : forallb goes_on evs = true ->
  main_loop (S (length evs)) evs lastpps = Some (if lastpps =? 1 then S (timers evs) else 1%nat).
Proof.
  intros H. destruct (Z.eqb_spec lastpps 1) as [-> | Hl].
  - apply main_loop_counts; [lia | done].
  - cbn [main_loop]. by destruct (int_loop_stays evs lastpps Hl H) as [l ->].
Qed.

Lemma pings_depend_on_lastpps_witness :
  let tick := (mkUCC false false, 0x00108010) in let rx := (mkUCC false true, 0x00108000) in
  main_loop 5 [tick; rx; tick; tick] 1 = Some 4%nat /\ main_loop 5 [tick; rx; tick; tick] 0 = Some 1%nat.
Proof. split; apply pings_depend_on_lastpps; reflexivity. Defined.
