(* ===== verification/Fft.v ===== *)
(** The Fourier transform server of the board (src/sw/rv32/fftmain.c), over the
    network software of [Net] and [NetProto].

    The peripheral is the list of the words written to it since its last reset,
    each with its index, and what it reads as, a parameter: the logic of the
    transform is not software.  [a0] is what [new_udppkt] leaves in the register
    of its result. *)

From stdpp Require Import base tactics list numbers option gmap.
From Stdlib Require Import ZArith Lia.
From S2P Require Import Prelude Net NetProto.
Local Open Scope Z_scope.

Definition FFTPORT : Z := 6783.
Definition FFT_LENGTH : Z := 1 .<< 10.
Definition FFT_SIZE : Z := FFT_LENGTH.

Inductive FFT_STATE : Type := FFT_INPUT | FFT_OUTPUT.
#[export] Instance FFT_STATE_dec : EqDecision FFT_STATE.
Proof. solve_decision. Defined.

Record FFTS : Type := mkFFTS {
  f_net : NET;
  fft_id : Z;
  fft_srcip : Z;
  fft_port : Z;
  fft_posn : Z;
  fft_state : FFT_STATE;
  f_writes : list (Z * Z)
}.

#[export] Instance set_f_net : Setter f_net := fun v s =>
  mkFFTS v (fft_id s) (fft_srcip s) (fft_port s) (fft_posn s) (fft_state s) (f_writes s).
#[export] Instance set_fft_id : Setter fft_id := fun v s =>
  mkFFTS (f_net s) v (fft_srcip s) (fft_port s) (fft_posn s) (fft_state s) (f_writes s).
#[export] Instance set_fft_srcip : Setter fft_srcip := fun v s =>
  mkFFTS (f_net s) (fft_id s) v (fft_port s) (fft_posn s) (fft_state s) (f_writes s).
#[export] Instance set_fft_port : Setter fft_port := fun v s =>
  mkFFTS (f_net s) (fft_id s) (fft_srcip s) v (fft_posn s) (fft_state s) (f_writes s).
#[export] Instance set_fft_posn : Setter fft_posn := fun v s =>
  mkFFTS (f_net s) (fft_id s) (fft_srcip s) (fft_port s) v (fft_state s) (f_writes s).
#[export] Instance set_fft_state : Setter fft_state := fun v s =>
  mkFFTS (f_net s) (fft_id s) (fft_srcip s) (fft_port s) (fft_posn s) v (f_writes s).
#[export] Instance set_f_writes : Setter f_writes := fun v s =>
  mkFFTS (f_net s) (fft_id s) (fft_srcip s) (fft_port s) (fft_posn s) (fft_state s) v.

Abbreviation FM := (M FFTS).

(** An operation of the network software. *)
Definition net {A} (m : NM A) : FM A := fun s =>
  match m (f_net s) with
  | Ret a n => Ret a (s <| f_net := n |>)
  | Exn e n => Exn e (s <| f_net := n |>)
  end.

Definition reset_fft : FM unit := modify (fun s => s <| f_writes := [] |>).

Definition pkt_uint16 (p : nat) (pos : Z) : NM Z := let* v := rdval 32 p pos 2 0 in ret (u16 v).
Definition pkt_uint32 (p : nat) (pos : Z) : NM Z := rdval 32 p pos 4 0.

(** [hton32(&pkt->p_user[i], val)] *)
Definition hton32 (p : nat) (i val : Z) : NM unit :=
  wrb p (i + 3) val ;;
  wrb p (i + 2) (val .>> 8) ;;
  wrb p (i + 1) (val .>> 16) ;;
  wrb p i (val .>> 24).

Section Device.
Context (a0 : nat -> nat) (fft_data : list (Z * Z) -> Z -> Z).

(** The first bytes of each answer. *)
Definition fft_header (p : nat) (id posn : Z) : NM unit :=
  wrbs p 0 [(id .>> 8) .& 0x0ff; id .& 0x0ff; (posn .>> 8) .& 0x0ff; posn .& 0x0ff].

(** The answer without data. *)
Definition fft_ack (id posn : Z) : FM unit :=
  let* txpkt := net (new_udppkt a0 4) in
  net (fft_header txpkt id posn) ;;
  let* s := get in
  net (tx_udp txpkt (fft_srcip s) FFTPORT (fft_port s)).

(** [for(unsigned k=0; k<ln; k++) hton32(&txpkt->p_user[4+k*4], _wbfft_data[from+k]);]
    with [n] turns left. *)
Fixpoint fft_copy (n : nat) (txpkt : nat) (k from : Z) : FM unit :=
  match n with
  | O => ret tt
  | S n' =>
      let* s := get in
      net (hton32 txpkt (4 + k * 4) (fft_data (f_writes s) (k + from))) ;;
      fft_copy n' txpkt (k + 1) from
  end.

(** The answer with [ln] words of the peripheral. *)
Definition fft_result (id ln from : Z) : FM unit :=
  let* txpkt := net (new_udppkt a0 (4 + ln * 4)) in
  let* s := get in
  net (fft_header txpkt id (fft_posn s)) ;;
  fft_copy (Z.to_nat ln) txpkt 0 from ;;
  net (tx_udp txpkt (fft_srcip s) FFTPORT (fft_port s)).

(** [for(unsigned k=4; k < pkt->p_length; k+=4) { _wbfft_data[fft_posn] = ...; fft_posn++; }] *)
Fixpoint fft_input (fuel : nat) (p : nat) (k : Z) : FM unit :=
  match fuel with
  | O => raise NOFUEL
  | S fuel' =>
      let* pk := net (deref p) in
      if k <? u32 (p_length pk) then
        let* v := net (pkt_uint32 p k) in
        modify (fun s => s <| f_writes := f_writes s ++ [(fft_posn s, v)] |>) ;;
        modify (fun s => s <| fft_posn := fft_posn s + 1 |>) ;;
        fft_input fuel' p (k + 4)
      else ret tt
  end.

(** The switch of [fftpacket]: the packet [p] of [length] bytes came from [srcip]
    and [sport]. *)
Definition fft_switch (p : nat) (length srcip sport pkt_id pkt_posn : Z) : FM unit :=
  let* s := get in
  match fft_state s with
  | FFT_INPUT =>
      if (pkt_id =? u32 (fft_id s)) && (srcip =? fft_srcip s) && (u32 (fft_port s) =? sport)
         && (pkt_posn =? u32 (fft_posn s)) then
        fft_input (S (Z.to_nat length)) p 4 ;;
        let* s := get in
        fft_ack (fft_id s) (fft_posn s) ;;
        (if fft_posn s =? FFT_SIZE then modify (fun s => s <| fft_state := FFT_OUTPUT |>) else ret tt)
      else if negb (pkt_id =? u32 (fft_id s)) || negb (u32 (fft_port s) =? sport) then
        reset_fft ;;
        modify (fun s => s <| fft_id := pkt_id |> <| fft_srcip := srcip |> <| fft_port := sport |> <| fft_posn := 0 |>) ;;
        fft_ack pkt_id 0
      else fft_ack (fft_id s) (fft_posn s)
  | FFT_OUTPUT =>
      let* pkt_id := net (pkt_uint16 p 0) in
      let* pkt_posn := net (pkt_uint16 p 2) in
      if (pkt_id =? u32 (fft_id s)) && (srcip =? fft_srcip s) then
        (if 2 * FFT_LENGTH <=? pkt_posn then
           reset_fft ;;
           modify (fun s => s <| fft_state := FFT_INPUT |>)
         else
           let ln := u32 (FFT_LENGTH - pkt_posn) in
           let ln := if 128 <=? ln then 128 else ln in
           fft_result (fft_id s) ln (fft_posn s)) ;;
        (if u32 (fft_posn s) <? pkt_posn then modify (fun s => s <| fft_posn := pkt_posn |>) else ret tt)
      else if negb (pkt_id =? u32 (fft_id s)) then
        reset_fft ;;
        modify (fun s => s <| fft_id := pkt_id |> <| fft_state := FFT_INPUT |> <| fft_srcip := srcip |> <| fft_posn := 0 |>) ;;
        fft_ack pkt_id 0
      else ret tt
  end.

Definition fftpacket (p : nat) : FM unit :=
  let* k := net (deref p) in
  let puser := p_user k in
  let length := p_length k in
  net (pkt_reset p) ;;
  net (rx_ethpkt p) ;;
  let* srcip := net (ippkt_src p) in
  let* dstip := net (ippkt_dst p) in
  net (rx_ippkt p) ;;
  let* sport := net (udp_sport p) in
  net (update p (fun k => k <| p_user := puser |> <| p_length := length |>)) ;;
  let* pkt_id := net (pkt_uint16 p 0) in
  let* pkt_posn := net (pkt_uint16 p 2) in
  fft_switch p length srcip sport pkt_id pkt_posn ;;
  net (free_pkt p).

Definition ffttimeout : FM unit :=
  let* s := get in
  match fft_state s with
  | FFT_INPUT => if 0 <? fft_posn s then fft_ack (fft_id s) (fft_posn s) else ret tt
  | FFT_OUTPUT =>
      if fft_posn s <? 2 * FFT_SIZE then
        let ln := u32 (2 * FFT_LENGTH - fft_posn s) in
        let ln := if 128 <=? ln then 128 else ln in
        if ln <=? 0 then modify (fun s => s <| fft_state := FFT_INPUT |>)
        else fft_result (fft_id s) ln (fft_posn s - FFT_SIZE)
      else ret tt
  end.

(** What is done with a packet that was received. *)
Definition fft_rx (p : nat) : FM unit :=
  net (update p (fun k => k <| p_usage_count := p_usage_count k + 1 |>)) ;;
  let* ty := net (ethpkt_ethtype p) in
  (if ty =? ETHERTYPE_ARP then
     net (rx_ethpkt p) ;; net (rx_arp p)
   else if ty =? ETHERTYPE_IP then
     net (rx_ethpkt p) ;;
     let* ipsrc := net (ippkt_src p) in
     let* ipdst := net (ippkt_dst p) in
     let* subproto := net (ippkt_subproto p) in
     net (rx_ippkt p) ;;
     let* s := get in
     if ipdst =? my_ip_addr (f_net s) then
       if subproto =? IPPROTO_ICMP then
         let* b := net (rdb p 0) in
         (if b =? ICMP_PING then net (icmp_reply ipsrc p) else ret tt) ;;
         net (free_pkt p)
       else if subproto =? IPPROTO_UDP then
         let* dport := net (udp_dport p) in
         if FFTPORT =? dport then net (rx_udp p) ;; fftpacket p
         else net (free_pkt p)
       else net (pkt_reset p) ;; net (dump_ethpkt p) ;; net (free_pkt p)
     else ret tt
   else net (pkt_reset p) ;; net (dump_ethpkt p) ;; net (free_pkt p)) ;;
  net (free_pkt p).

(** One turn of the polling loop, with the interrupts [pic]: the new values of
    [now], [lastping] and [lastfft]. *)
Definition fft_turn (host_ip pic : Z) (c : Z * Z * Z) : FM (Z * Z * Z) :=
  let '(now, lastping, lastfft) := c in
  let* c :=
    (if truthy (pic .& BUSPIC_TIMER) then
       let now := u32 (now + 1) in
       let* s := get in
       let* lastping :=
         (if (200 <=? u32 (now - lastping)) && bool_decide (waiting_pkt (f_net s) = None) then
            net (icmp_send_ping host_ip) ;; ret now
          else ret lastping) in
       let* s := get in
       let* lastfft :=
         (if (5 <=? u32 (now - lastfft)) && bool_decide (waiting_pkt (f_net s) = None) then
            ffttimeout ;; ret now
          else ret lastfft) in
       ret (now, lastping, lastfft)
     else ret (now, lastping, lastfft)) in
  (if truthy (pic .& BUSPIC_NETRX) then
     let* r := net rx_pkt in
     match r with Some p => fft_rx p | None => ret tt end
   else
     let* s := get in
     if truthy (n_rxcmd (f_net s) .& ENET_RXCLRERR) then net (write_rxcmd (ENET_RXCLRERR .| ENET_RXCLR)) else ret tt) ;;
  (if truthy (pic .& BUSPIC_NETTX) then
     let* s := get in
     match waiting_pkt (f_net s) with
     | Some p => net (modify (fun s => s <| waiting_pkt := None |>)) ;; net (tx_pkt p)
     | None => ret tt
     end
   else ret tt) ;;
  ret c.
End Device.
