(* ===== verification/FftSpec.v ===== *)
(** What the Fourier transform server promises: an abstract server that answers
    requests, on the state that fftmain.c keeps, without packets or memory. *)

From stdpp Require Import base tactics list numbers option gmap.
From Stdlib Require Import ZArith Lia.
From S2P Require Import Prelude Net NetProto NetWp NetIp Fft.
Local Open Scope Z_scope.

Record SRV : Type := mkSRV {
  v_id : Z;
  v_src : Z;
  v_port : Z;
  v_posn : Z;
  v_state : FFT_STATE;
  v_writes : list (Z * Z)
}.

Definition srv (s : FFTS) : SRV :=
  mkSRV (fft_id s) (fft_srcip s) (fft_port s) (fft_posn s) (fft_state s) (f_writes s).

(** A request or an answer: transform, position, words. *)
Record MSG : Type := mkMSG { g_id : Z; g_posn : Z; g_words : list Z }.

(** As a datagram has it. *)
Definition encode (g : MSG) : list Z := be16 (g_id g) ++ be16 (g_posn g) ++ flat_map ip_bytes (g_words g).

(** The words with the indices they are written to. *)
Fixpoint indexed (i : Z) (ws : list Z) : list (Z * Z) :=
  match ws with
  | [] => []
  | w :: ws' => (i, w) :: indexed (i + 1) ws'
  end.

(** The words of the peripheral from [i]. *)
Definition words_at (rd : Z -> Z) (i : Z) (n : nat) : list Z := map (fun k => rd (Z.of_nat k + i)) (seq 0 n).

Section Serve.
Context (fft_data : list (Z * Z) -> Z -> Z).

Definition serve (v : SRV) (src port : Z) (g : MSG) : SRV * option MSG :=
  match v_state v with
  | FFT_INPUT =>
      if (g_id g =? v_id v) && (src =? v_src v) && (v_port v =? port) && (g_posn g =? v_posn v) then
        let posn := v_posn v + Z.of_nat (length (g_words g)) in
        (mkSRV (v_id v) (v_src v) (v_port v) posn (if posn =? FFT_SIZE then FFT_OUTPUT else FFT_INPUT)
           (v_writes v ++ indexed (v_posn v) (g_words g)),
         Some (mkMSG (v_id v) posn []))
      else if negb (g_id g =? v_id v) || negb (v_port v =? port) then
        (mkSRV (g_id g) src port 0 FFT_INPUT [], Some (mkMSG (g_id g) 0 []))
      else (v, Some (mkMSG (v_id v) (v_posn v) []))
  | FFT_OUTPUT =>
      if (g_id g =? v_id v) && (src =? v_src v) then
        let posn := Z.max (v_posn v) (g_posn g) in
        if 2 * FFT_SIZE <=? g_posn g then
          (mkSRV (v_id v) (v_src v) (v_port v) posn FFT_INPUT [], None)
        else
          let ln := if g_posn g <=? FFT_SIZE then Z.min 128 (FFT_SIZE - g_posn g) else 128 in
          (mkSRV (v_id v) (v_src v) (v_port v) posn FFT_OUTPUT (v_writes v),
           Some (mkMSG (v_id v) (v_posn v) (words_at (fft_data (v_writes v)) (v_posn v) (Z.to_nat ln))))
      else if negb (g_id g =? v_id v) then
        (mkSRV (g_id g) src (v_port v) 0 FFT_INPUT [], Some (mkMSG (g_id g) 0 []))
      else (v, None)
  end.

(** What is sent when the timer runs out. *)
Definition idle (v : SRV) : SRV * option MSG :=
  match v_state v with
  | FFT_INPUT => (v, if 0 <? v_posn v then Some (mkMSG (v_id v) (v_posn v) []) else None)
  | FFT_OUTPUT =>
      (v, if v_posn v <? 2 * FFT_SIZE
          then Some (mkMSG (v_id v) (v_posn v)
                 (words_at (fft_data (v_writes v)) (v_posn v - FFT_SIZE) (Z.to_nat (Z.min 128 (2 * FFT_SIZE - v_posn v)))))
          else None)
  end.
End Serve.

(** The values that the variables can have. *)
Definition srv_ok (v : SRV) : Prop :=
  -1 <= v_id v < 65536 /\ 0 <= v_src v < 2 ^ 32 /\ 0 <= v_port v < 65536 /\ 0 <= v_posn v < 2 ^ 17.

Definition msg_ok (g : MSG) : Prop :=
  0 <= g_id g < 65536 /\ 0 <= g_posn g < 65536 /\ Forall (fun w => 0 <= w < 2 ^ 32) (g_words g) /\
  (length (g_words g) < 500)%nat.

Lemma length_flat_ip ws : length (flat_map ip_bytes ws) = (4 * length ws)%nat.
Proof. induction ws as [| w ws IH]; [done |]. cbn [flat_map]. rewrite length_app, IH. cbn. lia. Qed.

Lemma length_encode g : length (encode g) = (4 + 4 * length (g_words g))%nat.
Proof. unfold encode. rewrite !length_app, length_flat_ip. cbn. lia. Qed.

Lemma encode_bytes g : bytes (encode g).
Proof.
  unfold encode. apply Forall_app; split; [bytes_tac |]. apply Forall_app; split; [bytes_tac |].
  induction (g_words g) as [| w ws IH]; [done |]. cbn [flat_map]. apply Forall_app; split; [bytes_tac | done].
Qed.

(** The variables stay in their ranges. *)
Lemma serve_ok fd v src port g :
  srv_ok v -> msg_ok g -> 0 <= src < 2 ^ 32 -> 0 <= port < 65536 -> srv_ok (fst (serve fd v src port g)).
Proof.
  intros (Hi & Hs & Hp & Hn) (Gi & Gp & _ & Gl) Hsrc Hport. unfold serve, srv_ok.
  destruct (v_state v).
  - destruct (_ && (g_posn g =? v_posn v)) eqn:E; cbn.
    + bools. apply Z.eqb_eq in H0. lia.
    + destruct (_ || _); cbn; lia.
  - destruct (_ && _); [destruct (_ <=? _); cbn; lia | destruct (negb _); cbn; lia].
Qed.
