(* ===== verification/FftProps.v ===== *)
(** The server of fftmain.c implements the abstract server of [FftSpec]. *)

From stdpp Require Import base tactics list numbers option gmap.
From Stdlib Require Import ZArith Lia.
From S2P Require Import Prelude Net NetProto NetWp NetIp NetRx NetUdp Fft FftSpec.
Local Open Scope Z_scope.

(** ** Lifting *)

Lemma net_eq {A} (m : NM A) s a n : m (f_net s) = Ret a n -> net m s = Ret a (s <| f_net := n |>).
Proof. unfold net. by intros ->. Qed.

(** A read: the state is as before. *)
Lemma net_read {A} (m : NM A) s a : m (f_net s) = Ret a (f_net s) -> net m s = Ret a s.
Proof. intros H. rewrite (net_eq m s a _ H). by destruct s. Qed.

(** The state of the server with a given network. *)
Definition mk (n : NET) (v : SRV) : FFTS :=
  mkFFTS n (v_id v) (v_src v) (v_port v) (v_posn v) (v_state v) (v_writes v).

Lemma net_mk {A} (m : NM A) n v a n' : m n = Ret a n' -> net m (mk n v) = Ret a (mk n' v).
Proof. intros H. exact (net_eq m (mk n v) a n' H). Qed.

(** ** Answers *)

(** The network can send: the device is idle, and the host is known. *)
Definition can_send (n : NET) (to m : Z) : Prop :=
  n_heap n !! n_fresh n = None /\ tx_idle n /\ length (arp_table n) = NUM_ARP_ENTRIES /\ arp_answer n to = Some m.

(** [n'] is [n] after a datagram was sent to [to]. *)
Definition answered (n : NET) (m to port : Z) (g : MSG) (n' : NET) : Prop :=
  exists ck t', Forall2 aged (arp_table n) t' /\
    let len := Z.of_nat (length (encode g)) in
    let id := u32 (ip_pktid n + BIG_PRIME) in
    ipcksum 20 (ip_header (len + 28) id IPPROTO_UDP (my_ip_addr n) to ck) = Some 0 /\
    n' = sent (ip_frame m (len + 28) id IPPROTO_UDP (my_ip_addr n) to ck (udp_msg FFTPORT port (encode g)))
      (n <| n_fresh := S (n_fresh n) |> <| ip_pktid := id |> <| arp_table := t' |>).

Lemma hton32_put p i v u r l o a w c s :
  Z.of_nat (length a) = o + i -> length w = 4%nat ->
  hton32 p i v (put p (mkPkt u r l o (a ++ w ++ c)) s) = Ret tt (put p (mkPkt u r l o (a ++ ip_bytes v ++ c)) s).
Proof.
  intros Ha Hw. destruct w as [| w0 [| w1 [| w2 [| w3 [| ? ?]]]]]; try done. unfold hton32. cbn [app].
  replace (a ++ w0 :: w1 :: w2 :: w3 :: c) with ((a ++ [w0; w1; w2]) ++ w3 :: c) by (lapp; done).
  nstep (wrb_put p (i + 3) v u r l o (a ++ [w0; w1; w2]) w3 c s ltac:(llen)).
  replace ((a ++ [w0; w1; w2]) ++ u8 v :: c) with ((a ++ [w0; w1]) ++ w2 :: u8 v :: c) by (lapp; done).
  nstep (wrb_put p (i + 2) (v .>> 8) u r l o (a ++ [w0; w1]) w2 (u8 v :: c) s ltac:(llen)).
  replace ((a ++ [w0; w1]) ++ u8 (v .>> 8) :: u8 v :: c) with ((a ++ [w0]) ++ w1 :: u8 (v .>> 8) :: u8 v :: c) by (lapp; done).
  nstep (wrb_put p (i + 1) (v .>> 16) u r l o (a ++ [w0]) w1 (u8 (v .>> 8) :: u8 v :: c) s ltac:(llen)).
  rewrite <- app_assoc. cbn [app].
  rewrite (wrb_put p i (v .>> 24) u r l o a w0 (u8 (v .>> 16) :: u8 (v .>> 8) :: u8 v :: c) s Ha).
  unfold ip_bytes, u8. cbn [app]. by rewrite !land_255.
Qed.

Section Refine.
Context (a0 : nat -> nat) (fft_data : list (Z * Z) -> Z -> Z).

(** The words are stored one after another. *)
Lemma fft_copy_put q r l v from n c : forall k a w s,
  Z.of_nat (length a) = 36 + (4 + k * 4) -> length w = (4 * n)%nat ->
  fft_copy fft_data n q k from (mk (put q (mkPkt 1 r l 36 (a ++ w ++ c)) s) v) =
    Ret tt (mk (put q (mkPkt 1 r l 36 (a ++ flat_map ip_bytes (words_at (fft_data (v_writes v)) (k + from) n) ++ c)) s) v).
Proof.
  induction n as [| n IH]; intros k a w s Ha Hw.
  - destruct w; [done | cbn in Hw; lia].
  - cbn [fft_copy]. destruct (split_list 4 w) as (w1 & w2 & -> & L1 & L2); [lia |]. rewrite <- app_assoc.
    erewrite bind_eq by reflexivity. change (f_writes (mk _ v)) with (v_writes v).
    set (x := fft_data (v_writes v) (k + from)).
    nstep (net_mk _ _ v _ _ (hton32_put q (4 + k * 4) x 1 r l 36 a w1 (w2 ++ c) s Ha L1)).
    rewrite (app_assoc a). rewrite (IH (k + 1) (a ++ ip_bytes x) w2 s); [| llen | lia].
    do 4 f_equal. rewrite <- app_assoc. f_equal. unfold words_at. cbn [seq map flat_map]. rewrite <- app_assoc.
    unfold x. rewrite Z.add_0_l. do 2 f_equal. rewrite <- seq_shift, map_map. f_equal. apply map_ext. intros j.
    f_equal. lia.
Qed.

Context (Ha0 : forall q, a0 q = q).

(** An answer, with or without words. *)
Lemma fft_result_ok n v m ln from :
  0 <= ln < 1000 -> can_send n (v_src v) m ->
  exists n', answered n m (v_src v) (v_port v)
      (mkMSG (v_id v) (v_posn v) (words_at (fft_data (v_writes v)) from (Z.to_nat ln))) n' /\
    fft_result a0 fft_data (v_id v) ln from (mk n v) = Ret tt (mk n' v).
Proof.
  intros Hln (Hq & Hi & Ht & Hans). set (q := n_fresh n) in *. set (n1 := n <| n_fresh := S q |>).
  set (g := mkMSG _ _ _). set (len := 4 + ln * 4).
  assert (Hlen : Z.of_nat (length (encode g)) = len).
  { rewrite length_encode. cbn [g g_words]. unfold words_at. rewrite length_map, length_seq. lia. }
  destruct (split_list 36 (junk_bytes n (len + 36))) as (h & b & Hj & Lh & Lb);
    unfold junk_bytes in *; rewrite length_map, length_seq in *; [lia |].
  destruct (split_list 4 b) as (b1 & b2 & -> & L1 & L2); [lia |].
  destruct (tx_udp_put q (len + 36) (v_src v) FFTPORT (v_port v) m h (encode g) n1) as (ck & t' & _ & Hag & Hck & Htx);
    [exact Hq | exact Hi | exact Ht | exact Hans | exact Lh |]. cbv zeta in Htx, Hck. rewrite Hlen in Htx, Hck.
  eexists. split; [exists ck, t'; split; [exact Hag |]; cbv zeta; rewrite Hlen; split; [exact Hck | reflexivity] |].
  unfold fft_result. nstep (net_mk _ n v _ _ (new_udppkt_eq a0 len n ltac:(lia))). rewrite Ha0. fold q n1.
  erewrite bind_eq by reflexivity. change (fft_posn (mk _ v)) with (v_posn v).
  change (fft_srcip (mk _ v)) with (v_src v). change (fft_port (mk _ v)) with (v_port v).
  unfold junk_bytes. rewrite Hj, <- (app_nil_r b2). unfold fft_header.
  set (hd := [(v_id v .>> 8) .& 0x0ff; v_id v .& 0x0ff; (v_posn v .>> 8) .& 0x0ff; v_posn v .& 0x0ff]).
  nstep (net_mk _ _ v _ _ (wrbs_put q 0 hd 1 (len + 36) len 36 h b1 (b2 ++ []) n1 ltac:(lia) L1)).
  rewrite u8_bytes by (unfold hd; bytes_tac). rewrite (app_assoc h).
  nstep (fft_copy_put q (len + 36) len v from (Z.to_nat ln) [] 0 (h ++ hd) b2 n1 ltac:(unfold hd; llen) ltac:(lia)).
  rewrite <- app_assoc, app_nil_r, Z.add_0_l. 
  apply (net_mk (tx_udp q (v_src v) FFTPORT (v_port v))). exact Htx.
Qed.

Lemma fft_ack_ok n v m :
  can_send n (v_src v) m ->
  exists n', answered n m (v_src v) (v_port v) (mkMSG (v_id v) (v_posn v) []) n' /\
    fft_ack a0 (v_id v) (v_posn v) (mk n v) = Ret tt (mk n' v).
Proof.
  intros Hc. destruct (fft_result_ok n v m 0 0 ltac:(lia) Hc) as (n' & Ha & Hr). exists n'. split; [exact Ha |].
  rewrite <- Hr. unfold fft_ack, fft_result. change (4 + 0 * 4) with 4.
  unfold bind, net, get. change (f_net (mk n v)) with n. destruct (new_udppkt a0 4 n) as [q n1 | e n1]; [| done].
  change (fft_posn ((mk n v) <| f_net := n1 |>)) with (v_posn v). change (f_net ((mk n v) <| f_net := n1 |>)) with n1.
  by destruct (fft_header q (v_id v) (v_posn v) n1) as [[] n2 | e n2].
Qed.

(** The state of the server after [ws] were given to the peripheral. *)
Definition fed (v : SRV) (ws : list Z) : SRV :=
  mkSRV (v_id v) (v_src v) (v_port v) (v_posn v + Z.of_nat (length ws)) (v_state v)
    (v_writes v ++ indexed (v_posn v) ws).

Lemma fft_input_put p u r n g ws c : forall pre v fuel,
  Z.of_nat (length g) = 36 -> Forall (fun w => 0 <= w < 2 ^ 32) ws -> (length ws < fuel)%nat ->
  let len := Z.of_nat (length pre + 4 * length ws) in
  len < 4000 ->
  let st := put p (mkPkt u r len 36 (g ++ pre ++ flat_map ip_bytes ws ++ c)) n in
  fft_input fuel p (Z.of_nat (length pre)) (mk st v) = Ret tt (mk st (fed v ws)).
Proof.
  induction ws as [| w ws IH]; intros pre v fuel Hg Hws Hf len Hlen st; (destruct fuel as [| fuel]; [cbn in Hf; lia |]); cbn [fft_input].
  - nstep (net_mk _ st v _ _ (deref_put p (mkPkt u r len 36 (g ++ pre ++ flat_map ip_bytes [] ++ c)) n)). nfields.
    unfold u32. rewrite (Z.mod_small len) by lia. rewrite (proj2 (Z.ltb_ge _ _)) by (cbn in *; lia).
    unfold ret, mk, fed. cbn. rewrite Z.add_0_r, app_nil_r. done.
  - nstep (net_mk _ st v _ _ (deref_put p (mkPkt u r len 36 (g ++ pre ++ flat_map ip_bytes (w :: ws) ++ c)) n)). nfields.
    unfold u32. rewrite (Z.mod_small len) by lia. rewrite (proj2 (Z.ltb_lt _ _)) by (cbn in *; lia).
    inversion Hws as [| ? ? Hw Hws']; subst.
    assert (Hrd : pkt_uint32 p (Z.of_nat (length pre)) st = Ret w st).
    { unfold pkt_uint32, st. cbn [flat_map]. rewrite <- app_assoc, (app_assoc g). apply rdval32_put; [llen | done]. }
    nstep (net_mk _ st v _ _ Hrd). do 2 erewrite bind_eq by reflexivity.
    specialize (IH (pre ++ ip_bytes w) (fed v [w]) fuel Hg Hws' ltac:(cbn in Hf; lia)). cbv zeta in IH.
    rewrite length_app, length_ip_bytes in IH.
    replace (Z.of_nat (length pre + 4 + 4 * length ws)) with len in IH by (cbn in *; lia).
    replace (Z.of_nat (length pre + 4)) with (Z.of_nat (length pre) + 4) in IH by lia.
    replace (g ++ (pre ++ ip_bytes w) ++ flat_map ip_bytes ws ++ c) with (g ++ pre ++ flat_map ip_bytes (w :: ws) ++ c) in IH
      by (cbn [flat_map]; lapp; done).
    fold st in IH. specialize (IH Hlen). etransitivity; [etransitivity; [| exact IH] |].
    + done.
    + unfold fed, mk. cbn. rewrite <- app_assoc. cbn [app]. do 2 f_equal. lia.
Qed.

Lemma u32_eqb x w : 0 <= x < 2 ^ 31 -> -1 <= w < 2 ^ 31 -> (x =? u32 w) = (x =? w).
Proof. intros Hx Hw. unfold u32. destruct (Z.eqb_spec x w), (Z.eqb_spec x (w mod 2 ^ 32)); (done || zlia). Qed.

Lemma pkt_uint16_put p i u r l o a v c s :
  Z.of_nat (length a) = o + i -> 0 <= v < 65536 ->
  pkt_uint16 p i (put p (mkPkt u r l o (a ++ be16 v ++ c)) s) = Ret v (put p (mkPkt u r l o (a ++ be16 v ++ c)) s).
Proof.
  intros Ha Hv. unfold pkt_uint16. erewrite bind_eq;
    [| eapply (rdval_eq 32 p i 2 _ _ a (be16 v) c 0); [apply put_lookup | done | done | done | apply be16_ok | done | done]].
  rewrite be_be16 by done. unfold ret, u16. rewrite Z.add_0_l, Z.mod_small by done. done.
Qed.

(** The packet of a request in memory, after [rx_udp]. *)
Section Packet.
Context (p : nat) (u r : Z) (h : list Z) (b0 : Z) (x : list Z) (sub : Z) (y : list Z) (src dst sport dport : Z).
Context (g : MSG) (c0 : list Z) (n : NET) (v : SRV).
Context (Hh : length h = 8%nat) (Hx : length x = 8%nat) (Hy : length y = 2%nat) (Hb0 : b0 .& 0x0f = 5).
Context (Hsrc : 0 <= src < 2 ^ 32) (Hdst : 0 <= dst < 2 ^ 32) (Hsport : 0 <= sport < 65536).
Context (Hv : srv_ok v) (Hg : msg_ok g).
Let mem : list Z := h ++ ip_in b0 x sub y src dst ++ udp_msg sport dport (encode g) ++ c0.
Let len : Z := Z.of_nat (length (encode g)).
Let K : NET_PACKET := mkPkt u r len 36 mem.
Let st : NET := put p K n.

Lemma mem_split : exists g36, Z.of_nat (length g36) = 36 /\
  mem = g36 ++ be16 (g_id g) ++ be16 (g_posn g) ++ flat_map ip_bytes (g_words g) ++ c0.
Proof.
  exists (h ++ ip_in b0 x sub y src dst ++ be16 sport ++ be16 dport ++ be16 (8 + len) ++ [0; 0]).
  split; [unfold ip_in; llen |]. unfold mem, udp_msg, encode. lapp. done.
Qed.

Lemma request_id : pkt_uint16 p 0 st = Ret (g_id g) st.
Proof.
  destruct mem_split as (g36 & Hl & M). unfold st, K. rewrite M. apply pkt_uint16_put; [lia |]. apply Hg.
Qed.

Lemma request_posn : pkt_uint16 p 2 st = Ret (g_posn g) st.
Proof.
  destruct mem_split as (g36 & Hl & M). unfold st, K. rewrite M, app_assoc. apply pkt_uint16_put; [llen |]. apply Hg.
Qed.

Lemma fftpacket_switch :
  fftpacket a0 fft_data p (mk st v) =
    (fft_switch a0 fft_data p len src sport (g_id g) (g_posn g) ;; net (free_pkt p)) (mk st v).
Proof.
  unfold fftpacket. nstep (net_mk _ st v _ _ (deref_put p K n)). change (p_user K) with 36. change (p_length K) with len.
  assert (H1 : pkt_reset p st = Ret tt (put p (mkPkt u r r 0 mem) n)).
  { unfold pkt_reset, st. rewrite (update_eq _ _ _ _ (put_lookup _ _ _)). by rewrite put_put. }
  nstep (net_mk _ st v _ _ H1). nstep (net_mk _ _ v _ _ (advance_put p 8 u r r 0 mem n)).
  nstep (net_mk _ _ v _ _ (ippkt_src_put p u r (r - 8) h b0 x sub y src dst (udp_msg sport dport (encode g) ++ c0) n Hh Hx Hy Hsrc)).
  nstep (net_mk _ _ v _ _ (ippkt_dst_put p u r (r - 8) h b0 x sub y src dst (udp_msg sport dport (encode g) ++ c0) n Hh Hx Hy Hdst)).
  nstep (net_mk _ _ v _ _ (rx_ippkt_put p u r (r - 8) h b0 x sub y src dst (udp_msg sport dport (encode g) ++ c0) n Hh Hx Hy 5 Hb0)).
  fold mem. change (8 + 5 * 4) with 28. set (l := r - 8 - 5 * 4).
  assert (H2 : udp_sport p (put p (mkPkt u r l 28 mem) n) = Ret sport (put p (mkPkt u r l 28 mem) n)).
  { assert (M : mem = (h ++ ip_in b0 x sub y src dst) ++ be16 sport ++ be16 dport ++ be16 (8 + len) ++ [0; 0] ++ encode g ++ c0)
      by (unfold mem, udp_msg; lapp; done).
    rewrite M. apply (rd16_put ret); [unfold ip_in; llen | done | done]. }
  nstep (net_mk _ _ v _ _ H2).
  assert (H3 : update p (fun k => k <| p_user := 36 |> <| p_length := len |>) (put p (mkPkt u r l 28 mem) n) = Ret tt st).
  { rewrite (update_eq _ _ _ _ (put_lookup _ _ _)). by rewrite put_put. }
  nstep (net_mk _ _ v _ _ H3). nstep (net_mk _ _ v _ _ request_id). nstep (net_mk _ _ v _ _ request_posn). done.
Qed.

(** What the network has done for an answer. *)
Definition answer (n1 : NET) (m : Z) (v' : SRV) (rep : option MSG) (n2 : NET) : Prop :=
  match rep with
  | Some a => answered n1 m (v_src v') (v_port v') a n2
  | None => n2 = n1
  end.

Lemma switch_feed m :
  (g_id g =? v_id v) && (src =? v_src v) && (v_port v =? sport) && (g_posn g =? v_posn v) = true ->
  v_state v = FFT_INPUT -> can_send st (v_src v) m ->
  exists n', answered st m (v_src v) (v_port v) (mkMSG (v_id v) (v_posn v + Z.of_nat (length (g_words g))) []) n' /\
    fft_switch a0 fft_data p len src sport (g_id g) (g_posn g) (mk st v) =
      Ret tt (mk n' (fst (serve fft_data v src sport g))).
Proof.
  intros Hm Hst Hc. destruct Hv as (Vi & Vs & Vp & Vn), Hg as (Gi & Gp & Gw & Gl).
  destruct mem_split as (g36 & Hl & M).
  destruct (fft_ack_ok st (fed v (g_words g)) m Hc) as (n' & Ha & Hack). exists n'. split; [exact Ha |].
  unfold fft_switch. erewrite bind_eq by reflexivity. change (fft_state (mk st v)) with (v_state v). rewrite Hst.
  change (fft_id (mk st v)) with (v_id v). change (fft_srcip (mk st v)) with (v_src v).
  change (fft_port (mk st v)) with (v_port v). change (fft_posn (mk st v)) with (v_posn v).
  rewrite !u32_eqb by lia. rewrite (Z.eqb_sym (u32 (v_port v))), u32_eqb, (Z.eqb_sym sport), Hm by lia.
  assert (Hin : fft_input (S (Z.to_nat len)) p 4 (mk st v) = Ret tt (mk st (fed v (g_words g)))).
  { pose proof (length_encode g) as Hle.
    pose proof (fft_input_put p u r n g36 (g_words g) c0 (be16 (g_id g) ++ be16 (g_posn g)) v (S (Z.to_nat len)) Hl Gw ltac:(lia)) as H.
    cbv zeta in H. rewrite length_app in H. rewrite !length_be16 in H. change (2 + 2)%nat with 4%nat in H.
    replace (Z.of_nat (4 + 4 * length (g_words g))) with len in H by lia. rewrite <- app_assoc, <- M in H. apply H. lia. }
  nstep Hin. erewrite bind_eq by reflexivity. nstep Hack. unfold serve. rewrite Hst, Hm. cbn [fst].
  change (fft_posn (mk st (fed v (g_words g)))) with (v_posn v + Z.of_nat (length (g_words g))).
  destruct (_ =? FFT_SIZE); [done |]. unfold mk, fed, ret. cbn. by rewrite Hst.
Qed.

Lemma switch_reset m v' :
  can_send st (v_src v') m -> v_posn v' = 0 ->
  exists n', answered st m (v_src v') (v_port v') (mkMSG (v_id v') 0 []) n' /\
    fft_ack a0 (v_id v') 0 (mk st v') = Ret tt (mk n' v').
Proof. intros Hc Hz. destruct (fft_ack_ok st v' m Hc) as (n' & Ha & Hack). rewrite Hz in *. by exists n'. Qed.

Lemma switch_input m :
  v_state v = FFT_INPUT ->
  let '(v', rep) := serve fft_data v src sport g in
  can_send st (v_src v') m ->
  exists n', answer st m v' rep n' /\
    fft_switch a0 fft_data p len src sport (g_id g) (g_posn g) (mk st v) = Ret tt (mk n' v').
Proof.
  intros Hst. pose proof (switch_feed m) as Hfeed. destruct Hv as (Vi & Vs & Vp & Vn), Hg as (Gi & Gp & Gw & Gl).
  unfold serve in *. rewrite Hst in *.
  destruct (_ && (g_posn g =? v_posn v)) eqn:E; [intros Hc; by apply Hfeed |]. clear Hfeed.
  unfold fft_switch. erewrite (bind_eq get) by reflexivity. change (fft_state (mk st v)) with (v_state v). rewrite Hst.
  change (fft_id (mk st v)) with (v_id v). change (fft_srcip (mk st v)) with (v_src v).
  change (fft_port (mk st v)) with (v_port v). change (fft_posn (mk st v)) with (v_posn v).
  rewrite !u32_eqb by lia. rewrite (Z.eqb_sym (u32 (v_port v))), u32_eqb, (Z.eqb_sym sport), E by lia.
  destruct (_ || _); intros Hc.
  - destruct (switch_reset m (mkSRV (g_id g) src sport 0 FFT_INPUT []) Hc eq_refl) as (n' & Ha & Hk).
    exists n'. split; [exact Ha |]. do 2 erewrite bind_eq by reflexivity. rewrite <- Hk. f_equal.
    unfold mk. by rewrite <- Hst.
  - destruct (fft_ack_ok st v m Hc) as (n' & Ha & Hk). by exists n'.
Qed.

Lemma switch_output m :
  v_state v = FFT_OUTPUT ->
  let '(v', rep) := serve fft_data v src sport g in
  can_send st (v_src v') m ->
  exists n', answer st m v' rep n' /\
    fft_switch a0 fft_data p len src sport (g_id g) (g_posn g) (mk st v) = Ret tt (mk n' v').
Proof.
  intros Hst. destruct Hv as (Vi & Vs & Vp & Vn), Hg as (Gi & Gp & Gw & Gl). unfold serve. rewrite Hst.
  unfold fft_switch. erewrite (bind_eq get) by reflexivity. change (fft_state (mk st v)) with (v_state v). rewrite Hst.
  change (fft_id (mk st v)) with (v_id v). change (fft_srcip (mk st v)) with (v_src v).
  change (fft_posn (mk st v)) with (v_posn v).
  rewrite (bind_eq _ _ _ _ _ (net_mk _ _ v _ _ request_id)), (bind_eq _ _ _ _ _ (net_mk _ _ v _ _ request_posn)).
  rewrite !u32_eqb by lia. assert (Hu : u32 (v_posn v) = v_posn v) by (apply Z.mod_small; lia). rewrite Hu.
  change FFT_LENGTH with FFT_SIZE. change FFT_SIZE with 1024.
  destruct (_ && _) eqn:E.
  - destruct (Z.leb_spec (2 * 1024) (g_posn g)) as [Hge | Hlt]; intros Hc.
    + exists st. split; [done |]. erewrite bind_eq by reflexivity.
      destruct (Z.ltb_spec (v_posn v) (g_posn g)); [rewrite Z.max_r by lia | rewrite Z.max_l by lia]; done.
    + set (ln := if g_posn g <=? 1024 then _ else _) in *.
      assert (Hln : (if 128 <=? u32 (1024 - g_posn g) then 128 else u32 (1024 - g_posn g)) = ln).
      { unfold ln, u32. destruct (Z.leb_spec (g_posn g) 1024).
        - rewrite Z.mod_small by lia. destruct (Z.leb_spec 128 (1024 - g_posn g)); lia.
        - replace ((1024 - g_posn g) mod 2 ^ 32) with (2 ^ 32 + 1024 - g_posn g) by zlia.
          destruct (Z.leb_spec 128 (2 ^ 32 + 1024 - g_posn g)); lia. }
      rewrite Hln. assert (Hln2 : 0 <= ln < 1000) by (unfold ln; destruct (Z.leb_spec (g_posn g) 1024); lia).
      destruct (fft_result_ok st v m ln (v_posn v) Hln2 Hc) as (n' & Ha & Hr).
      exists n'. split; [exact Ha |]. nstep Hr.
      destruct (Z.ltb_spec (v_posn v) (g_posn g)); [rewrite Z.max_r by lia | rewrite Z.max_l by lia];
        unfold mk; cbn; by rewrite Hst.
  - destruct (negb _) eqn:E2; intros Hc.
    + destruct (switch_reset m (mkSRV (g_id g) src (v_port v) 0 FFT_INPUT []) Hc eq_refl) as (n' & Ha & Hk).
      exists n'. split; [exact Ha |]. do 2 erewrite bind_eq by reflexivity. exact Hk.
    + by exists st.
Qed.
End Packet.

(** What was there when the answer was sent is there afterwards. *)
Lemma answer_put p k n m v' rep n1 :
  answer (put p k n) m v' rep n1 -> exists n2, n1 = put p k n2 /\ answer n m v' rep n2.
Proof.
  destruct rep as [a |]; cbn [answer]; [| intros ->; by exists n].
  intros (ck & t' & Hag & Hck & ->). eexists. split; [| exists ck, t'; split; [exact Hag |]; split; [exact Hck | reflexivity]].
  done.
Qed.

Lemma can_send_put p k n to m :
  p <> n_fresh n -> can_send n to m -> can_send (put p k n) to m.
Proof. intros Hp (H1 & H2 & H3 & H4). split; [by rewrite put_other | done]. Qed.

(** [fftpacket] does what the abstract server does. *)
Lemma fftpacket_serves p u r h b0 x sub y src dst sport dport g c0 n v m :
  length h = 8%nat -> length x = 8%nat -> length y = 2%nat -> b0 .& 0x0f = 5 ->
  0 <= src < 2 ^ 32 -> 0 <= dst < 2 ^ 32 -> 0 <= sport < 65536 -> srv_ok v -> msg_ok g -> p <> n_fresh n ->
  let '(v', rep) := serve fft_data v src sport g in
  can_send n (v_src v') m ->
  let k := mkPkt u r (Z.of_nat (length (encode g))) 36 (h ++ ip_in b0 x sub y src dst ++ udp_msg sport dport (encode g) ++ c0) in
  exists n', answer n m v' rep n' /\
    fftpacket a0 fft_data p (mk (put p k n) v) = net (free_pkt p) (mk (put p k n') v').
Proof.
  intros Hh Hx Hy Hb Hsrc Hdst Hsp Hv Hg Hp.
  assert (Hsw : let '(v', rep) := serve fft_data v src sport g in
    let st := put p (mkPkt u r (Z.of_nat (length (encode g))) 36 (h ++ ip_in b0 x sub y src dst ++ udp_msg sport dport (encode g) ++ c0)) n in
    can_send st (v_src v') m ->
    exists n', answer st m v' rep n' /\
      fft_switch a0 fft_data p (Z.of_nat (length (encode g))) src sport (g_id g) (g_posn g) (mk st v) = Ret tt (mk n' v')).
  { destruct (v_state v) eqn:Hst.
    - by apply (switch_input p u r h b0 x sub y src dst sport dport g c0 n v).
    - by apply (switch_output p u r h b0 x sub y src dst sport dport g c0 n v). }
  destruct (serve fft_data v src sport g) as [v' rep]. cbv zeta in Hsw. intros Hc k.
  destruct (Hsw (can_send_put p k n _ _ Hp Hc)) as (n1 & Ha & Hs). destruct (answer_put _ _ _ _ _ _ _ Ha) as (n2 & -> & Ha2).
  exists n2. split; [done |]. unfold k. rewrite (fftpacket_switch p u r h b0 x sub y src dst sport dport g c0 n v) by done.
  nstep Hs. done.
Qed.
End Refine.
