(* ===== verification/FftClaims.v ===== *)
(** The claims on the Fourier transform server: it implements the abstract
    server, frame by frame; and what the abstract server does with a transform. *)

From stdpp Require Import base tactics list numbers option gmap.
From Stdlib Require Import ZArith Lia.
From S2P Require Import Prelude Net NetProto NetWp NetIp NetRx NetUdp Fft FftSpec FftProps.
Local Open Scope Z_scope.

(** A request to the server, as the device has it; [pad] is what the network
    adds to a short frame. *)
Definition fft_frame (smac : list Z) (b0 : Z) (x y : list Z) (src dst sport : Z) (g : MSG) (pad : list Z) : list Z :=
  smac ++ be16 ETHERTYPE_IP ++ ip_in b0 x IPPROTO_UDP y src dst ++ udp_msg sport FFTPORT (encode g) ++ pad.

Section Turn.
Context (a0 : nat -> nat) (fft_data : list (Z * Z) -> Z -> Z).

Lemma fft_rx_udp p smac b0 x y src dst sport g pad c0 n v :
  length smac = 6%nat -> length x = 8%nat -> length y = 2%nat -> b0 .& 0x0f = 5 ->
  0 <= src < 2 ^ 32 -> 0 <= dst < 2 ^ 32 -> dst = my_ip_addr n -> (length (encode g) + length pad < 2048)%nat ->
  let r := Z.of_nat (length (fft_frame smac b0 x y src dst sport g pad)) in
  let mem := (smac ++ be16 ETHERTYPE_IP) ++ ip_in b0 x IPPROTO_UDP y src dst ++ udp_msg sport FFTPORT (encode g) ++ pad ++ c0 in
  fft_rx a0 fft_data p (mk (put p (mkPkt 1 r r 0 mem) n) v) =
    (fftpacket a0 fft_data p ;; net (free_pkt p))
    (mk (put p (mkPkt 2 r (Z.of_nat (length (encode g))) 36 mem) n) v).
Proof.
  intros Hm Hx Hy Hb Hsrc Hdst Hme Hlen r mem. set (h := smac ++ be16 ETHERTYPE_IP) in *.
  assert (Hh : length h = 8%nat) by (unfold h; llen). set (rest := udp_msg sport FFTPORT (encode g) ++ pad ++ c0) in *.
  unfold fft_rx.
  assert (H1 : update p (fun k => k <| p_usage_count := p_usage_count k + 1 |>) (put p (mkPkt 1 r r 0 mem) n) =
    Ret tt (put p (mkPkt 2 r r 0 mem) n)).
  { rewrite (update_eq _ _ _ _ (put_lookup _ _ _)). by rewrite put_put. }
  nstep (net_mk _ _ v _ _ H1).
  assert (H2 : ethpkt_ethtype p (put p (mkPkt 2 r r 0 mem) n) = Ret ETHERTYPE_IP (put p (mkPkt 2 r r 0 mem) n)).
  { unfold mem, h. rewrite <- app_assoc. by apply ethtype_put. }
  nstep (net_mk _ _ v _ _ H2). change (ETHERTYPE_IP =? ETHERTYPE_ARP) with false. change (ETHERTYPE_IP =? ETHERTYPE_IP) with true. cbv iota.
  rewrite bind_assoc. nstep (net_mk _ _ v _ _ (advance_put p 8 2 r r 0 mem n)).
  rewrite bind_assoc. nstep (net_mk _ _ v _ _ (ippkt_src_put p 2 r (r - 8) h b0 x IPPROTO_UDP y src dst rest n Hh Hx Hy Hsrc)).
  rewrite bind_assoc. nstep (net_mk _ _ v _ _ (ippkt_dst_put p 2 r (r - 8) h b0 x IPPROTO_UDP y src dst rest n Hh Hx Hy Hdst)).
  rewrite bind_assoc. nstep (net_mk _ _ v _ _ (ippkt_subproto_put p 2 r (r - 8) h b0 x IPPROTO_UDP y src dst rest n Hh Hx Hy ltac:(done))).
  rewrite bind_assoc. nstep (net_mk _ _ v _ _ (rx_ippkt_put p 2 r (r - 8) h b0 x IPPROTO_UDP y src dst rest n Hh Hx Hy 5 Hb)).
  fold mem. rewrite bind_assoc. erewrite bind_eq by reflexivity. change (my_ip_addr (f_net (mk _ v))) with (my_ip_addr n).
  rewrite <- Hme, Z.eqb_refl. change (IPPROTO_UDP =? IPPROTO_ICMP) with false. change (IPPROTO_UDP =? IPPROTO_UDP) with true. cbv iota.
  set (l := r - 8 - 5 * 4). change (8 + 5 * 4) with 28. set (hdr := h ++ ip_in b0 x IPPROTO_UDP y src dst).
  assert (Hhdr : Z.of_nat (length hdr) = 28) by (unfold hdr, ip_in; llen).
  assert (H3 : udp_dport p (put p (mkPkt 2 r l 28 mem) n) = Ret FFTPORT (put p (mkPkt 2 r l 28 mem) n)).
  { assert (M : mem = (hdr ++ be16 sport) ++ be16 FFTPORT ++ be16 (8 + Z.of_nat (length (encode g))) ++ [0; 0] ++ encode g ++ pad ++ c0)
      by (unfold mem, rest, hdr, udp_msg; lapp; done).
    rewrite M. apply (rd16_put ret); [llen | done | done]. }
  rewrite bind_assoc. nstep (net_mk _ _ v _ _ H3). change (FFTPORT =? FFTPORT) with true. cbv iota.
  assert (H4 : rx_udp p (put p (mkPkt 2 r l 28 mem) n) = Ret tt (put p (mkPkt 2 r (Z.of_nat (length (encode g))) 36 mem) n)).
  { assert (M : mem = hdr ++ udp_msg sport FFTPORT (encode g) ++ pad ++ c0) by (unfold mem, rest, hdr; lapp; done). rewrite M.
    replace l with (Z.of_nat (8 + length (encode g) + length pad)) by (unfold l, r, fft_frame, udp_msg, ip_in; llen).
    by apply rx_udp_put. }
  rewrite bind_assoc. nstep (net_mk _ _ v _ _ H4). done.
Qed.

Lemma fft_turn_received host c n v p n' :
  rx_pkt n = Ret (Some p) n' ->
  fft_turn a0 fft_data host BUSPIC_NETRX c (mk n v) = (fft_rx a0 fft_data p ;; ret c) (mk n' v).
Proof.
  intros H. destruct c as [[now lastping] lastfft]. unfold fft_turn.
  change (truthy (BUSPIC_NETRX .& BUSPIC_TIMER)) with false.
  change (truthy (BUSPIC_NETRX .& BUSPIC_NETRX)) with true.
  change (truthy (BUSPIC_NETRX .& BUSPIC_NETTX)) with false. cbv iota.
  erewrite bind_eq by reflexivity. rewrite bind_assoc. rewrite (bind_eq _ _ _ _ _ (net_mk _ n v _ _ H)).
  unfold bind. by destruct (fft_rx a0 fft_data p (mk n' v)).
Qed.
End Turn.

(** A request that the device has received, and its answer. *)
Lemma fft_turn_serves a0 fft_data host c n v smac b0 x y src sport g pad m :
  (forall q, a0 q = q) ->
  received (fft_frame smac b0 x y src (my_ip_addr n) sport g pad) n ->
  length smac = 6%nat -> length x = 8%nat -> length y = 2%nat -> b0 .& 0x0f = 5 ->
  0 <= src < 2 ^ 32 -> 0 <= my_ip_addr n < 2 ^ 32 -> 0 <= sport < 65536 -> srv_ok v -> msg_ok g ->
  heap_ok n -> tx_idle n -> length (arp_table n) = NUM_ARP_ENTRIES ->
  arp_answer n (v_src (fst (serve fft_data v src sport g))) = Some m ->
  exists n', fft_turn a0 fft_data host BUSPIC_NETRX c (mk n v) = Ret c (mk n' (fst (serve fft_data v src sport g))) /\
    answer (rx_state n) m (fst (serve fft_data v src sport g)) (snd (serve fft_data v src sport g)) n'.
Proof.
  intros Ha0 Hrx Hm Hx Hy Hb Hsrc Hmy Hsp Hv Hg Hheap Hi Ht Hans.
  destruct (rx_pkt_received _ n Hrx) as (c0 & Hr). rewrite (fft_turn_received _ _ _ _ _ _ _ _ Hr). fold (rx_state n).
  set (p := n_fresh n) in *. set (r := Z.of_nat _).
  set (mem := (smac ++ be16 ETHERTYPE_IP) ++ ip_in b0 x IPPROTO_UDP y src (my_ip_addr n) ++ udp_msg sport FFTPORT (encode g) ++ pad ++ c0).
  replace (fft_frame smac b0 x y src (my_ip_addr n) sport g pad ++ c0) with mem by (unfold mem, fft_frame; lapp; done).
  assert (Hlen : (length (encode g) + length pad < 2048)%nat).
  { destruct Hrx as (_ & Hl & _). unfold fft_frame, udp_msg in Hl. repeat rewrite ?length_app, ?length_cons in Hl. lia. }
  rewrite (bind_cong _ _ _ _ _ (fft_rx_udp a0 fft_data p smac b0 x y src (my_ip_addr n) sport g pad c0 (rx_state n) v
    Hm Hx Hy Hb Hsrc Hmy eq_refl Hlen)). fold r. rewrite bind_assoc.
  pose proof (fftpacket_serves a0 fft_data Ha0 p 2 r (smac ++ be16 ETHERTYPE_IP) b0 x IPPROTO_UDP y src (my_ip_addr n) sport FFTPORT g
    (pad ++ c0) (rx_state n) v m ltac:(llen) Hx Hy Hb Hsrc Hmy Hsp Hv Hg ltac:(cbn; lia)) as Hpk.
  destruct (serve fft_data v src sport g) as [v' rep]. cbn [fst snd] in *. cbv zeta in Hpk.
  destruct Hpk as (n' & Ha & Hpk). { split; [| split; [exact Hi | split; [exact Ht | exact Hans]]]. apply Hheap. cbn. lia. }
  exists n'. split; [| exact Ha]. fold mem in Hpk. rewrite (bind_cong _ _ _ _ _ Hpk), <- bind_assoc.
  assert (Hnone : n_heap n' !! p = None).
  { destruct rep as [a |]; cbn [answer] in Ha; [destruct Ha as (ck & t' & _ & _ & ->) | subst n']; exact (Hheap p ltac:(done)). }
  rewrite (bind_eq _ _ _ tt (mk n' v')); [done |].
  pose proof (free_put2 p r (Z.of_nat (length (encode g))) 36 mem n' Hnone) as Hf. unfold bind, net in *.
  change (f_net (mk (put p ?k n') v')) with (put p k n'). destruct (free_pkt p _) as [[] n1 | e n1]; [| done].
  change (f_net ((mk _ v') <| f_net := n1 |>)) with n1. by rewrite Hf.
Qed.


(** When the timer runs out, the server sends what [idle] says. *)
Theorem fft_timeout_serves a0 fft_data n v m :
  (forall q, a0 q = q) -> srv_ok v -> can_send n (v_src v) m ->
  exists n', ffttimeout a0 fft_data (mk n v) = Ret tt (mk n' (fst (idle fft_data v))) /\
    answer n m v (snd (idle fft_data v)) n'.
Proof.
  intros Ha0 (Vi & Vs & Vp & Vn) Hc. unfold ffttimeout, idle. erewrite bind_eq by reflexivity.
  change (fft_state (mk n v)) with (v_state v). change (fft_posn (mk n v)) with (v_posn v). change (fft_id (mk n v)) with (v_id v).
  change FFT_LENGTH with FFT_SIZE. change FFT_SIZE with 1024. destruct (v_state v) eqn:Hst; cbn [fst snd].
  - destruct (0 <? v_posn v); [| by exists n].
    destruct (fft_ack_ok a0 fft_data Ha0 n v m Hc) as (n' & Ha & Hk). by exists n'.
  - destruct (Z.ltb_spec (v_posn v) (2 * 1024)) as [Hlt | Hge]; [| by exists n].
    assert (Hu : u32 (2 * 1024 - v_posn v) = 2 * 1024 - v_posn v) by (apply Z.mod_small; lia). rewrite Hu.
    replace (if 128 <=? 2 * 1024 - v_posn v then 128 else 2 * 1024 - v_posn v) with (Z.min 128 (2 * 1024 - v_posn v))
      by (destruct (Z.leb_spec 128 (2 * 1024 - v_posn v)); lia).
    rewrite (proj2 (Z.leb_gt _ 0)) by lia.
    destruct (fft_result_ok a0 fft_data Ha0 n v m (Z.min 128 (2 * 1024 - v_posn v)) (v_posn v - 1024) ltac:(lia) Hc) as (n' & Ha & Hk).
    by exists n'.
Qed.

Lemma serve_misread fft_data v port g :
  v_state v = FFT_OUTPUT -> g_id g = v_id v -> FFT_SIZE <= v_posn v -> FFT_SIZE <= g_posn g < 2 * FFT_SIZE ->
  exists ws, serve fft_data v (v_src v) port g =
      (mkSRV (v_id v) (v_src v) (v_port v) (Z.max (v_posn v) (g_posn g)) FFT_OUTPUT (v_writes v),
       Some (mkMSG (v_id v) (v_posn v) ws)) /\
    (g_posn g = FFT_SIZE -> ws = []) /\
    (forall k w, ws !! k = Some w -> exists i, FFT_SIZE <= i /\ w = fft_data (v_writes v) i).
Proof.
  intros Hst Hid Hv Hg. unfold serve. rewrite Hst, Hid, !Z.eqb_refl. cbn [andb].
  rewrite (proj2 (Z.leb_gt (2 * FFT_SIZE) (g_posn g))) by lia. eexists. split; [reflexivity |]. split.
  - intros ->. rewrite (proj2 (Z.leb_le FFT_SIZE FFT_SIZE)), Z.sub_diag by lia. done.
  - intros k w Hk. unfold words_at in Hk. rewrite list_lookup_fmap in Hk.
    destruct (seq 0 _ !! k) as [j |]; [| done]. injection Hk as <-. exists (Z.of_nat j + v_posn v). split; [lia | done].
Qed.

(** A request for a result never gets one: the answer to a request from the first
    position has no words, and every later one has words from behind the end of
    the transform. *)
Theorem fft_request_misread a0 fft_data host c n v smac b0 x y sport g pad m :
  (forall q, a0 q = q) ->
  received (fft_frame smac b0 x y (v_src v) (my_ip_addr n) sport g pad) n ->
  length smac = 6%nat -> length x = 8%nat -> length y = 2%nat -> b0 .& 0x0f = 5 ->
  0 <= my_ip_addr n < 2 ^ 32 -> 0 <= sport < 65536 -> srv_ok v -> msg_ok g ->
  heap_ok n -> tx_idle n -> length (arp_table n) = NUM_ARP_ENTRIES -> arp_answer n (v_src v) = Some m ->
  v_state v = FFT_OUTPUT -> g_id g = v_id v -> FFT_SIZE <= v_posn v -> FFT_SIZE <= g_posn g < 2 * FFT_SIZE ->
  exists n' v' ws, fft_turn a0 fft_data host BUSPIC_NETRX c (mk n v) = Ret c (mk n' v') /\
    answered (rx_state n) m (v_src v) (v_port v) (mkMSG (v_id v) (v_posn v) ws) n' /\
    (g_posn g = FFT_SIZE -> ws = []) /\
    (forall k w, ws !! k = Some w -> exists i, FFT_SIZE <= i /\ w = fft_data (v_writes v) i).
Proof.
  intros Ha0 Hrx Hm Hx Hy Hb Hmy Hsp Hv Hg Hheap Hi Ht Hans Hst Hid Hp Hgp.
  destruct (serve_misread fft_data v sport g Hst Hid Hp Hgp) as (ws & Hs & H1 & H2).
  destruct (fft_turn_serves a0 fft_data host c n v smac b0 x y (v_src v) sport g pad m) as (n' & Hturn & Ha);
    try done; [apply Hv | by rewrite Hs |].
  rewrite Hs in *. by exists n', (mkSRV (v_id v) (v_src v) (v_port v) (Z.max (v_posn v) (g_posn g)) FFT_OUTPUT (v_writes v)), ws.
Qed.

(** ** Witnesses *)

Definition req0 : MSG := mkMSG 8 0 [1; 2; 3].
Definition fft0 : list Z :=
  fft_frame [0x11; 0x22; 0x33; 0x44; 0x55; 0x66] 0x45 [0; 0; 44; 0; 1; 0; 0; 64] [0; 0] 0xc0a80f05 0xc0a80f16 4000 req0 [].
Definition srv1 : SRV := mkSRV 8 0xc0a80f05 4000 0 FFT_INPUT [].

Lemma srv1_ok : srv_ok srv1.
Proof. unfold srv_ok, srv1. cbn. lia. Qed.
Lemma req0_ok : msg_ok req0.
Proof. unfold msg_ok, req0. cbn. split; [lia |]. split; [lia |]. split; [repeat constructor; lia | lia]. Qed.


Lemma fft_timeout_serves_witness : exists n',
  ffttimeout (fun q => q) (fun _ i => i) (mk (board0 []) (mkSRV 8 0xc0a80f05 4000 2040 FFT_OUTPUT [])) =
    Ret tt (mk n' (mkSRV 8 0xc0a80f05 4000 2040 FFT_OUTPUT [])) /\
  answered (board0 []) 0x112233445566 0xc0a80f05 4000 (mkMSG 8 2040 [1016; 1017; 1018; 1019; 1020; 1021; 1022; 1023]) n'.
Proof.
  apply (fft_timeout_serves (fun q => q) (fun _ i => i) (board0 []) (mkSRV 8 0xc0a80f05 4000 2040 FFT_OUTPUT []) 0x112233445566);
    [reflexivity | unfold srv_ok; cbn; lia | split; [apply lookup_empty | split; [reflexivity | split; reflexivity]]].
Defined.

Definition req1 : MSG := mkMSG 8 1152 [].
Definition srv2 : SRV := mkSRV 8 0xc0a80f05 4000 1152 FFT_OUTPUT [].
Definition fft1 : list Z :=
  fft_frame [0x11; 0x22; 0x33; 0x44; 0x55; 0x66] 0x45 [0; 0; 44; 0; 1; 0; 0; 64] [0; 0] 0xc0a80f05 0xc0a80f16 4000 req1 [].

Lemma fft_request_misread_witness : exists n' v' ws,
  fft_turn (fun q => q) (fun _ i => i) 0xc0a80f01 BUSPIC_NETRX (0, 0, 0) (mk (board0 fft1) srv2) = Ret (0, 0, 0) (mk n' v') /\
  answered (rx_state (board0 fft1)) 0x112233445566 0xc0a80f05 4000 (mkMSG 8 1152 ws) n' /\
  (1152 = FFT_SIZE -> ws = []) /\
  forall k w, ws !! k = Some w -> exists i, FFT_SIZE <= i /\ w = i.
Proof.
  apply (fft_request_misread (fun q => q) (fun _ i => i) 0xc0a80f01 (0, 0, 0) (board0 fft1) srv2
    [0x11; 0x22; 0x33; 0x44; 0x55; 0x66] 0x45 [0; 0; 44; 0; 1; 0; 0; 64] [0; 0] 4000 req1 [] 0x112233445566);
    [reflexivity | apply received_board0; cbn; lia | reflexivity | reflexivity | reflexivity | reflexivity | cbn; lia | lia
    | unfold srv_ok; cbn; lia | unfold msg_ok; cbn; split; [lia | split; [lia | split; [constructor | lia]]]
    | apply heap_ok_board0 | reflexivity | reflexivity | reflexivity | reflexivity | reflexivity
    | change FFT_SIZE with 1024; cbn; lia | change FFT_SIZE with 1024; cbn; lia].
Defined.
