(* ===== verification/FftClient.v ===== *)
(** The client of the Fourier transform server (src/sw/host/testfft.cpp), against
    the interface of a datagram socket, and the protocol that the two run: what
    arrives at the transform is the client's data.

    [char] buffers are lists of bytes; reads outside of a buffer or of the
    caller's data raise [FAULT]. *)

From stdpp Require Import base tactics list numbers option.
From Stdlib Require Import ZArith Lia.
From S2P Require Import Prelude Net NetWp NetIp NetRx Fft FftSpec.
Local Open Scope Z_scope.

(** A datagram socket (udpsocket.h): [read] gives a datagram, or nothing within
    the time. *)
Class Socket (W : Type) := {
  skt_write : list Z -> W -> W;
  skt_read : W -> list Z * W
}.

Definition MAXLN : nat := 128.
Definition BUFLN : nat := MAXLN * 4 + 4.

Record CLI (W : Type) : Type := mkCLI {
  c_fft_id : Z;           (* the static fft_id *)
  c_bufp : list Z;
  c_data : list Z;        (* the caller's data *)
  c_skt : W
}.
Arguments mkCLI {W}.
Arguments c_fft_id {W}.
Arguments c_bufp {W}.
Arguments c_data {W}.
Arguments c_skt {W}.
#[export] Instance set_c_fft_id {W} : Setter (c_fft_id (W := W)) := fun v s => mkCLI v (c_bufp s) (c_data s) (c_skt s).
#[export] Instance set_c_bufp {W} : Setter (c_bufp (W := W)) := fun v s => mkCLI (c_fft_id s) v (c_data s) (c_skt s).
#[export] Instance set_c_data {W} : Setter (c_data (W := W)) := fun v s => mkCLI (c_fft_id s) (c_bufp s) v (c_skt s).
#[export] Instance set_c_skt {W} : Setter (c_skt (W := W)) := fun v s => mkCLI (c_fft_id s) (c_bufp s) (c_data s) v.

Section Client.
Context {W : Type} `{Socket W}.
Abbreviation CM := (M (CLI W)).

Definition bufp (i : nat) : CM Z := fun s =>
  match c_bufp s !! i with Some b => Ret b s | None => Exn FAULT s end.
Definition set_bufp (i : nat) (v : Z) : CM unit := fun s =>
  if decide (i < length (c_bufp s))%nat then Ret tt (s <| c_bufp := <[i := u8 v]> (c_bufp s) |>) else Exn FAULT s.

Definition net_rd16t (loc : nat) : CM Z :=
  let* b0 := bufp loc in
  let v := b0 .& 0x0ff in
  let* b1 := bufp (loc + 1) in
  ret (u16 ((b1 .& 0x0ff) .| (v .<< 8))).

Definition net_wr16t (loc : nat) (v : Z) : CM unit :=
  let v := u16 v in
  set_bufp loc (v .>> 8) ;;
  set_bufp (loc + 1) v.

Definition net_rd32t (loc : nat) : CM Z :=
  let* b0 := bufp loc in
  let v := b0 .& 0x0ff in
  let* b1 := bufp (loc + 1) in
  let v := (b1 .& 0x0ff) .| u32 (v .<< 8) in
  let* b2 := bufp (loc + 2) in
  let v := (b2 .& 0x0ff) .| u32 (v .<< 8) in
  let* b3 := bufp (loc + 3) in
  ret ((b3 .& 0x0ff) .| u32 (v .<< 8)).

Definition net_wr32t (loc : nat) (v : Z) : CM unit :=
  let v := u32 v in
  set_bufp loc (v .>> 24) ;;
  set_bufp (loc + 1) (v .>> 16) ;;
  set_bufp (loc + 2) (v .>> 8) ;;
  set_bufp (loc + 3) v.

(** [skt->write(bufp, len)] *)
Definition write (len : nat) : CM unit := fun s =>
  if decide (len <= length (c_bufp s))%nat
  then Ret tt (s <| c_skt := skt_write (take len (c_bufp s)) (c_skt s) |>) else Exn FAULT s.

(** [nr = skt->read(bufp, bufln, TIMEOUT)] *)
Definition read : CM Z := fun s =>
  let '(d, w) := skt_read (c_skt s) in
  let d := take BUFLN d in
  Ret (Z.of_nat (length d)) (s <| c_bufp := d ++ drop (length d) (c_bufp s) |> <| c_skt := w |>).

(** [for(unsigned k=0; k<MAXLN; k++) net_wr32t(bufp, 4+(k*4), data[k+fpga_posn]);]
    with [n] turns left. *)
Fixpoint fill (n k : nat) (fpga_posn : Z) : CM unit :=
  match n with
  | O => ret tt
  | S n' =>
      let* s := get in
      match (if 0 <=? fpga_posn then c_data s !! (k + Z.to_nat fpga_posn)%nat else None) with
      | Some v => net_wr32t (4 + k * 4) v ;; fill n' (S k) fpga_posn
      | None => raise FAULT
      end
  end.

(** [for(int k=0; k<(nr-4)/4; k++) *dat++ = net_rd32t(bufp, k*4+4);] with [n]
    turns left. *)
Fixpoint unload (n k : nat) (dat : nat) : CM unit :=
  match n with
  | O => ret tt
  | S n' =>
      let* v := net_rd32t (k * 4 + 4) in
      let* s := get in
      if decide (dat < length (c_data s))%nat then
        modify (fun s => s <| c_data := <[dat := s32 v]> (c_data s) |>) ;;
        unload n' (S k) (S dat)
      else raise FAULT
  end.

(** One turn of the first loop: the position and [nr], or the end of the loop. *)
Definition upload_turn (fft_id : Z) (c : Z * Z) : CM (Z * Z + Z * Z) :=
  let '(fpga_posn, nr) := c in
  if fpga_posn <? FFT_SIZE then
    net_wr16t 0 fft_id ;;
    net_wr16t 2 fpga_posn ;;
    fill MAXLN 0 fpga_posn ;;
    write BUFLN ;;
    let* nr := read in
    if 4 <=? nr then
      let* pkt_id := net_rd16t 0 in
      let* pkt_posn := net_rd16t 2 in
      if negb (pkt_id =? fft_id) then ret (inl (0, nr))
      else if fpga_posn <? pkt_posn then
        if (4 <? nr) && (pkt_posn =? FFT_SIZE) then ret (inr (pkt_posn, nr)) else ret (inl (pkt_posn, nr))
      else ret (inl (fpga_posn, nr))
    else ret (inl (fpga_posn, nr))
  else ret (inr (fpga_posn, nr)).

(** One turn of the second loop. *)
Definition download_turn (fft_id : Z) (c : Z * Z) : CM (Z * Z + unit) :=
  let '(fpga_posn, nr) := c in
  if fpga_posn <? 2 * FFT_SIZE then
    net_wr16t 0 fft_id ;;
    net_wr16t 2 fpga_posn ;;
    write 4 ;;
    let* nr := (if nr <? 4 then read else ret nr) in
    if 4 <=? nr then
      let* pkt_id := net_rd16t 0 in
      let* pkt_posn := net_rd16t 2 in
      if negb (pkt_id =? fft_id) then raise ASSERT
      else if (4 <? nr) && (pkt_posn =? fpga_posn) then
        unload (Z.to_nat ((nr - 4) / 4)) 0 (Z.to_nat (fpga_posn - FFT_SIZE)) ;;
        let fpga_posn := fpga_posn + (nr - 4) / 4 in
        net_wr16t 0 fft_id ;;
        net_wr16t 2 fpga_posn ;;
        write 4 ;;
        ret (inl (fpga_posn, 0))
      else if (nr =? 4) && (pkt_posn =? 2 * FFT_SIZE) then ret (inr tt)
      else ret (inl (fpga_posn, 0))
    else ret (inl (fpga_posn, 0))
  else ret (inr tt).

(** [junk] is what [malloc] gives. *)
Definition runfft_test (fuel : nat) (junk : list Z) : CM Z :=
  modify (fun s => s <| c_bufp := take BUFLN junk |>) ;;
  modify (fun s => s <| c_fft_id := (c_fft_id s + 1) .& 0x0ffff |>) ;;
  let* s := get in
  let fft_id := c_fft_id s in
  let* (fpga_posn, nr) := loop fuel (upload_turn fft_id) (0, 0) in
  assert (fpga_posn =? FFT_SIZE) ;;
  loop fuel (download_turn fft_id) (fpga_posn, nr) ;;
  ret 0.
End Client.
