(* ===== verification/FftProto.v ===== *)
(** The client and the server of the Fourier transform together. *)

From stdpp Require Import base tactics list numbers option relations.
From Stdlib Require Import ZArith Lia.
From S2P Require Import Prelude Net NetWp NetIp NetRx Fft FftSpec FftClient.
Local Open Scope Z_scope.

(** ** Messages *)

Fixpoint words32 (bs : list Z) : list Z :=
  match bs with
  | a :: b :: c :: d :: bs' => be [a; b; c; d] :: words32 bs'
  | _ => []
  end.

Definition decode (bs : list Z) : MSG := mkMSG (be (take 2 bs)) (be (take 2 (drop 2 bs))) (words32 (drop 4 bs)).

Lemma words32_flat ws : Forall (fun w => 0 <= w < 2 ^ 32) ws -> words32 (flat_map ip_bytes ws) = ws.
Proof.
  induction 1 as [| w ws Hw Hws IH]; [done |].
  change (flat_map ip_bytes (w :: ws)) with (ip_bytes w ++ flat_map ip_bytes ws).
  change (words32 (ip_bytes w ++ flat_map ip_bytes ws)) with (be (ip_bytes w) :: words32 (flat_map ip_bytes ws)).
  by rewrite be_ip_bytes, IH.
Qed.

(** Messages survive the network. *)
Lemma decode_encode g :
  0 <= g_id g < 65536 -> 0 <= g_posn g < 65536 -> Forall (fun w => 0 <= w < 2 ^ 32) (g_words g) -> decode (encode g) = g.
Proof.
  intros Hi Hp Hw. destruct g as [i p ws]. cbn [g_id g_posn g_words] in *. unfold decode, encode. cbn [g_id g_posn g_words].
  change (take 2 (be16 i ++ ?x)) with (be16 i). change (drop 2 (be16 i ++ ?x)) with x.
  change (take 2 (be16 p ++ ?x)) with (be16 p). change (drop 4 (be16 i ++ be16 p ++ ?x)) with x.
  by rewrite !be_be16, words32_flat.
Qed.

(** ** A network that loses nothing: each request is answered at once *)

Record Link : Type := mkLink { l_srv : SRV; l_queue : list (list Z) }.

Definition deliver (fft_data : list (Z * Z) -> Z -> Z) (src port : Z) (b : list Z) (w : Link) : Link :=
  let '(v', rep) := serve fft_data (l_srv w) src port (decode b) in
  mkLink v' (l_queue w ++ match rep with Some a => [encode a] | None => [] end).

Definition collect (w : Link) : list Z * Link :=
  match l_queue w with
  | [] => ([], w)
  | d :: q => (d, mkLink (l_srv w) q)
  end.

(** ** The client's buffer *)

Section Buffer.
Context {W : Type} `{Socket W} (id : Z) (d : list Z) (w : W).
Abbreviation st := (fun b => mkCLI id b d w).

Lemma set_bufp_eq i a x c v : length a = i -> set_bufp i v (st (a ++ x :: c)) = Ret tt (st (a ++ u8 v :: c)).
Proof.
  intros <-. unfold set_bufp. cbn [c_bufp]. rewrite decide_True by (rewrite length_app; cbn; lia).
  by rewrite insert_app_r_alt, Nat.sub_diag by lia.
Qed.

Lemma wr16_eq i a x c v :
  length a = i -> length x = 2%nat -> net_wr16t i v (st (a ++ x ++ c)) = Ret tt (st (a ++ be16 (u16 v) ++ c)).
Proof.
  intros Ha Hx. destruct x as [| x0 [| x1 [| ? ?]]]; try done. unfold net_wr16t. cbn [app].
  nstep (set_bufp_eq i a x0 (x1 :: c) (u16 v .>> 8) Ha). rewrite (cons_middle (u8 _)), app_assoc.
  rewrite (set_bufp_eq (i + 1) (a ++ [u8 (u16 v .>> 8)]) x1 c (u16 v)) by llen. rewrite <- app_assoc.
  unfold be16, u8. by rewrite !land_255.
Qed.

Lemma wr32_eq i a x c v :
  length a = i -> length x = 4%nat -> net_wr32t i v (st (a ++ x ++ c)) = Ret tt (st (a ++ ip_bytes (u32 v) ++ c)).
Proof.
  intros Ha Hx. destruct x as [| x0 [| x1 [| x2 [| x3 [| ? ?]]]]]; try done. unfold net_wr32t. cbn [app]. set (z := u32 v).
  nstep (set_bufp_eq i a x0 (x1 :: x2 :: x3 :: c) (z .>> 24) Ha). rewrite (cons_middle (u8 _)), app_assoc.
  nstep (set_bufp_eq (i + 1) (a ++ [u8 (z .>> 24)]) x1 (x2 :: x3 :: c) (z .>> 16) ltac:(llen)). rewrite (cons_middle (u8 (z .>> 16))), app_assoc.
  nstep (set_bufp_eq (i + 2) ((a ++ [u8 (z .>> 24)]) ++ [u8 (z .>> 16)]) x2 (x3 :: c) (z .>> 8) ltac:(llen)). rewrite (cons_middle (u8 (z .>> 8))), app_assoc.
  rewrite (set_bufp_eq (i + 3) (((a ++ [u8 (z .>> 24)]) ++ [u8 (z .>> 16)]) ++ [u8 (z .>> 8)]) x3 c z) by llen.
  lapp. unfold ip_bytes, u8. by rewrite !land_255.
Qed.

(** The words of the data at a position. *)
Definition block (n : nat) (posn : nat) : list Z := u32 <$> take n (drop posn d).

Lemma fill_eq n : forall k a x posn,
  length a = (4 + k * 4)%nat -> length x = (4 * n)%nat -> (k + posn + n <= length d)%nat ->
  fill n k (Z.of_nat posn) (st (a ++ x)) = Ret tt (st (a ++ flat_map ip_bytes (block n (k + posn)))).
Proof.
  induction n as [| n IH]; intros k a x posn Ha Hx Hd; cbn [fill].
  { destruct x; [| done]. unfold block. done. }
  erewrite bind_eq by reflexivity. rewrite (proj2 (Z.leb_le 0 _)) by lia. rewrite Nat2Z.id. cbn [c_data].
  destruct (lookup_lt_is_Some_2 d (k + posn)) as [v Hv]; [lia |]. rewrite Hv.
  destruct (split_list 4 x) as (x1 & x2 & -> & L1 & L2); [lia |].
  nstep (wr32_eq (4 + k * 4) a x1 x2 v Ha L1). rewrite app_assoc.
  rewrite (IH (S k) (a ++ ip_bytes (u32 v)) x2 posn); [| llen | lia | lia].
  unfold block. rewrite (drop_S d v (k + posn)) by done. cbn [take fmap list_fmap flat_map].
  by rewrite <- app_assoc.
Qed.

(** The request for a block, in the buffer. *)
Lemma request_eq {X} (k : M (CLI W) X) posn b :
  length b = BUFLN -> (posn + MAXLN <= length d)%nat -> 0 <= id < 65536 -> Z.of_nat posn < 65536 ->
  (net_wr16t 0 id ;; net_wr16t 2 (Z.of_nat posn) ;; fill MAXLN 0 (Z.of_nat posn) ;; k) (st b) =
    k (st (encode (mkMSG id (Z.of_nat posn) (block MAXLN posn)))).
Proof.
  intros Hb Hd Hi Hp. destruct (split_list 2 b) as (b0 & b' & -> & L0 & L0'); [unfold BUFLN, MAXLN in *; lia |].
  destruct (split_list 2 b') as (b1 & b2 & -> & L1 & L2); [unfold BUFLN, MAXLN in *; lia |].
  nstep (wr16_eq 0 [] b0 (b1 ++ b2) id eq_refl L0). cbn [app]. 
  nstep (wr16_eq 2 (be16 (u16 id)) b1 b2 (Z.of_nat posn) eq_refl L1). rewrite app_assoc.
  nstep (fill_eq MAXLN 0 (be16 (u16 id) ++ be16 (u16 (Z.of_nat posn))) b2 posn eq_refl
    ltac:(unfold BUFLN, MAXLN in *; rewrite length_app in Hb; lia) ltac:(lia)).
  unfold u16. rewrite !Z.mod_small by lia. by rewrite <- app_assoc.
Qed.

Lemma bufp_eq i a x c : length a = i -> bufp i (st (a ++ x :: c)) = Ret x (st (a ++ x :: c)).
Proof. intros <-. unfold bufp. cbn [c_bufp]. by rewrite list_lookup_middle. Qed.

Lemma rd16_eq i a v c : length a = i -> 0 <= v < 65536 -> net_rd16t i (st (a ++ be16 v ++ c)) = Ret v (st (a ++ be16 v ++ c)).
Proof.
  intros Ha Hv. unfold net_rd16t, be16. cbn [app].
  nstep (bufp_eq i a ((v .>> 8) .& 0x0ff) (v .& 0x0ff :: c) Ha). rewrite (cons_middle (_ .& _)), app_assoc.
  nstep (bufp_eq (i + 1) (a ++ [(v .>> 8) .& 0x0ff]) (v .& 0x0ff) c ltac:(llen)). unfold ret. f_equal.
  rewrite Z.lor_comm, !land_255, !Zmod_mod, shiftr_div by lia. rewrite lor_shiftl_add by zlia. unfold u16. zlia.
Qed.
End Buffer.

(** ** The upload *)

Section Direct.
Context (fft_data : list (Z * Z) -> Z -> Z) (src port : Z).

#[local] Instance direct : Socket Link := {| skt_write := deliver fft_data src port; skt_read := collect |}.

(** One exchange: the client learns the position of the server. *)
Lemma upload_turn_direct id d b v v' posn nr rposn :
  0 <= id < 65536 -> length b = BUFLN -> (posn + MAXLN <= length d)%nat -> Z.of_nat posn < FFT_SIZE ->
  serve fft_data v src port (mkMSG id (Z.of_nat posn) (block d MAXLN posn)) = (v', Some (mkMSG id rposn [])) ->
  0 <= rposn < 65536 ->
  exists b', length b' = BUFLN /\
    upload_turn id (Z.of_nat posn, nr) (mkCLI id b d (mkLink v [])) =
      Ret (inl (if Z.of_nat posn <? rposn then rposn else Z.of_nat posn, 4)) (mkCLI id b' d (mkLink v' [])).
Proof.
  intros Hid Hb Hd Hpos Hs Hr. unfold upload_turn. rewrite (proj2 (Z.ltb_lt _ _) Hpos).
  assert (Hlen : FFT_SIZE = 1024) by done. set (g := mkMSG id (Z.of_nat posn) (block d MAXLN posn)) in *.
  rewrite (request_eq id d (mkLink v [])) by (done || lia). fold g.
  assert (Lblk : length (block d MAXLN posn) = MAXLN).
  { unfold block. rewrite length_fmap, length_take, length_drop. lia. }
  assert (Lg : length (encode g) = BUFLN).
  { rewrite length_encode. cbn [g g_words]. rewrite Lblk. done. }
  assert (Hdec : decode (encode g) = g).
  { apply decode_encode; [done | cbn; lia |]. cbn [g g_words]. unfold block. apply Forall_fmap, Forall_true.
    intros z. cbn. apply Z.mod_pos_bound. lia. }
  set (a := mkMSG id rposn []) in *.
  rewrite (bind_eq _ _ _ tt (mkCLI id (encode g) d (mkLink v' [encode a]))).
  2: { unfold write. cbn [c_bufp]. rewrite decide_True by lia. rewrite <- Lg, firstn_all. cbn [c_skt skt_write direct].
       unfold deliver. cbn [l_srv l_queue]. rewrite Hdec, Hs. done. }
  set (b' := encode a ++ drop 4 (encode g)).
  assert (Hrd : read (mkCLI id (encode g) d (mkLink v' [encode a])) = Ret 4 (mkCLI id b' d (mkLink v' []))) by done.
  nstep Hrd. cbn [Z.leb Z.compare Pos.compare Pos.compare_cont].
  change (4 <=? 4) with true. change (4 <? 4) with false. cbv iota. cbn [andb].
  assert (Mb : b' = be16 id ++ be16 rposn ++ drop 4 (encode g)) by done.
  exists b'. split; [rewrite Mb, !length_app, length_drop, Lg; done |].
  assert (R1 : net_rd16t 0 (mkCLI id b' d (mkLink v' [])) = Ret id (mkCLI id b' d (mkLink v' []))).
  { rewrite Mb. by apply (rd16_eq id d (mkLink v' []) 0 [] id). }
  assert (R2 : net_rd16t 2 (mkCLI id b' d (mkLink v' [])) = Ret rposn (mkCLI id b' d (mkLink v' []))).
  { rewrite Mb. by apply (rd16_eq id d (mkLink v' []) 2 (be16 id) rposn). }
  nstep R1. nstep R2. rewrite Z.eqb_refl. cbn [negb]. by destruct (Z.of_nat posn <? rposn).
Qed.

Lemma indexed_app i xs ys : indexed i (xs ++ ys) = indexed i xs ++ indexed (i + Z.of_nat (length xs)) ys.
Proof.
  revert i. induction xs as [| x xs IH]; intros i; cbn [app indexed length]; [by rewrite Z.add_0_r |].
  rewrite IH. do 3 f_equal. lia.
Qed.

(** The server in the middle of the transform [id] of [d]. *)
Definition receiving (id : Z) (d : list Z) (posn : nat) : SRV :=
  mkSRV id src port (Z.of_nat posn) (if decide (posn = 1024%nat) then FFT_OUTPUT else FFT_INPUT)
    (indexed 0 (u32 <$> take posn d)).

Lemma serve_block id d posn :
  length d = 1024%nat -> (posn + MAXLN <= 1024)%nat ->
  serve fft_data (receiving id d posn) src port (mkMSG id (Z.of_nat posn) (block d MAXLN posn)) =
    (receiving id d (posn + MAXLN), Some (mkMSG id (Z.of_nat (posn + MAXLN)) [])).
Proof.
  intros Hd Hp. assert (Hm : MAXLN = 128%nat) by done. unfold serve, receiving at 1. cbn [v_state].
  rewrite decide_False by lia. cbn [receiving v_id v_src v_port v_posn v_writes g_id g_posn g_words].
  rewrite !Z.eqb_refl. cbn [andb].
  assert (Lb : length (block d MAXLN posn) = MAXLN) by (unfold block; rewrite length_fmap, length_take, length_drop; lia).
  rewrite Lb, <- Nat2Z.inj_add. f_equal. unfold receiving. f_equal.
  - change FFT_SIZE with (Z.of_nat 1024). destruct (Z.eqb_spec (Z.of_nat (posn + MAXLN)) (Z.of_nat 1024)) as [E | E].
    + by rewrite decide_True by lia.
    + by rewrite decide_False by lia.
  - rewrite <- (take_drop posn (take (posn + MAXLN) d)), take_take, Nat.min_l by lia.
    rewrite fmap_app, indexed_app, length_fmap, length_take, Nat.min_l by lia. do 3 f_equal.
    unfold block. by rewrite skipn_firstn_comm, Nat.add_sub_swap, Nat.sub_diag by lia.
Qed.

Lemma upload_rest id d n : forall posn b nr fuel,
  0 <= id < 65536 -> length d = 1024%nat -> (posn + n * MAXLN = 1024)%nat -> (n < fuel)%nat -> length b = BUFLN ->
  exists b' nr', length b' = BUFLN /\
    loop fuel (upload_turn id) (Z.of_nat posn, nr) (mkCLI id b d (mkLink (receiving id d posn) [])) =
      Ret (FFT_SIZE, nr') (mkCLI id b' d (mkLink (receiving id d 1024) [])).
Proof.
  assert (Hm : MAXLN = 128%nat) by done.
  induction n as [| n IH]; intros posn b nr fuel Hid Hd Hp Hf Hb; (destruct fuel as [| fuel]; [lia |]); cbn [loop].
  - assert (posn = 1024%nat) as -> by lia. exists b, nr. split; [done |]. done.
  - destruct (upload_turn_direct id d b (receiving id d posn) (receiving id d (posn + MAXLN)) posn nr (Z.of_nat (posn + MAXLN)))
      as (b1 & Lb & Ht); [done | done | lia | change FFT_SIZE with 1024; lia | apply serve_block; lia | lia |].
    nstep Ht. rewrite (proj2 (Z.ltb_lt _ _)) by lia. apply IH; [done | done | lia | lia | done].
Qed.

(** C6: From a server that last worked on another transform: the client's first loop
    ends, and then the transform has been given the client's data, word by word
    at its place, and is about to be read. *)
Theorem upload_delivers id d b v fuel :
  0 <= id < 65536 -> length d = 1024%nat -> length b = BUFLN -> (10 <= fuel)%nat ->
  v_id v <> id -> (v_state v = FFT_INPUT \/ v_port v = port) ->
  exists b' nr', loop fuel (upload_turn id) (0, 0) (mkCLI id b d (mkLink v [])) =
    Ret (FFT_SIZE, nr') (mkCLI id b' d
      (mkLink (mkSRV id src port FFT_SIZE FFT_OUTPUT (indexed 0 (u32 <$> d))) [])).
Proof.
  intros Hid Hd Hb Hf Hv Hst. destruct fuel as [| fuel]; [lia |]. cbn [loop].
  assert (Hs : serve fft_data v src port (mkMSG id 0 (block d MAXLN 0)) = (receiving id d 0, Some (mkMSG id 0 []))).
  { unfold serve. cbn [g_id g_posn]. rewrite (proj2 (Z.eqb_neq id (v_id v))) by done. cbn [andb negb orb].
    destruct Hst as [-> | Hport]; [done |]. destruct (v_state v); [done |]. by rewrite Hport. }
  destruct (upload_turn_direct id d b v (receiving id d 0) 0 0 0) as (b1 & Lb & Ht);
    [done | done | rewrite Hd; unfold MAXLN; lia | done | exact Hs | lia |].
  nstep Ht. change (Z.of_nat 0 <? 0) with false. cbv iota.
  destruct (upload_rest id d 8 0 b1 4 fuel) as (b2 & nr & _ & Hl); [done | done | done | lia | done |].
  exists b2, nr. rewrite Hl. do 3 f_equal. unfold receiving. by rewrite decide_True, firstn_all2 by lia.
Qed.
End Direct.

(** ** A network that loses, repeats and reorders

    Every datagram that was ever sent can arrive, any number of times, at any
    time, or never.  The client [src], [port] sends blocks of its data [d] under
    the number [id] and asks for results; others use other numbers. *)

Section Lossy.
Context (fft_data : list (Z * Z) -> Z -> Z) (src port id : Z) (d : list Z).

Definition World : Type := SRV * list (Z * Z * MSG).

Inductive wstep : World -> World -> Prop :=
  | ws_block v fl k :                                   (* the client sends a block *)
      (k < 8)%nat ->
      wstep (v, fl) (v, (src, port, mkMSG id (Z.of_nat (k * MAXLN)) (block d MAXLN (k * MAXLN))) :: fl)
  | ws_ask v fl posn :                                  (* the client asks for a result *)
      FFT_SIZE <= posn -> wstep (v, fl) (v, (src, port, mkMSG id posn []) :: fl)
  | ws_other v fl src' port' g :                        (* another transform *)
      g_id g <> id -> wstep (v, fl) (v, (src', port', g) :: fl)
  | ws_deliver v fl src' port' g :                      (* a datagram arrives *)
      (src', port', g) ∈ fl -> wstep (v, fl) (fst (serve fft_data v src' port' g), fl).

(** What is in flight under [id]. *)
Definition flight_ok (m : Z * Z * MSG) : Prop :=
  let '(src', port', g) := m in
  g_id g <> id \/
  (exists k, (k < 8)%nat /\ g = mkMSG id (Z.of_nat (k * MAXLN)) (block d MAXLN (k * MAXLN))) \/
  (exists posn, FFT_SIZE <= posn /\ g = mkMSG id posn []).

(** What the server has done under [id]. *)
Definition srv_inv (v : SRV) : Prop :=
  v_id v = id ->
  match v_state v with
  | FFT_INPUT =>
      (exists k, (k < 8)%nat /\ v_posn v = Z.of_nat (k * MAXLN) /\ v_writes v = indexed 0 (u32 <$> take (k * MAXLN) d)) \/
      FFT_SIZE < v_posn v
  | FFT_OUTPUT => FFT_SIZE <= v_posn v /\ v_writes v = indexed 0 (u32 <$> d)
  end.

Definition world_inv (w : World) : Prop := srv_inv (fst w) /\ Forall flight_ok (snd w).

Context (Hd : length d = 1024%nat).

(** A block at the position of the server. *)
Lemma feed_inv v k :
  v_id v = id -> v_posn v = Z.of_nat (k * MAXLN) -> v_writes v = indexed 0 (u32 <$> take (k * MAXLN) d) -> (k < 8)%nat ->
  let posn := v_posn v + Z.of_nat (length (block d MAXLN (k * MAXLN))) in
  srv_inv (mkSRV (v_id v) (v_src v) (v_port v) posn (if posn =? FFT_SIZE then FFT_OUTPUT else FFT_INPUT)
    (v_writes v ++ indexed (v_posn v) (block d MAXLN (k * MAXLN)))).
Proof.
  intros Hi Hp Hw Hk posn. assert (Hm : MAXLN = 128%nat) by done.
  assert (Lb : length (block d MAXLN (k * MAXLN)) = MAXLN) by (unfold block; rewrite length_fmap, length_take, length_drop; lia).
  assert (Hposn : posn = Z.of_nat (S k * MAXLN)) by (unfold posn; rewrite Lb; lia).
  assert (Hws : v_writes v ++ indexed (v_posn v) (block d MAXLN (k * MAXLN)) = indexed 0 (u32 <$> take (S k * MAXLN) d)).
  { rewrite Hw, Hp. rewrite <- (take_drop (k * MAXLN) (take (S k * MAXLN) d)), take_take, Nat.min_l by lia.
    rewrite fmap_app, indexed_app, length_fmap, length_take, Nat.min_l by lia. do 2 f_equal.
    unfold block. rewrite skipn_firstn_comm. do 2 f_equal. lia. }
  intros _. cbn [v_state v_posn v_writes]. rewrite Hws, Hposn. change FFT_SIZE with 1024.
  destruct (Z.eqb_spec (Z.of_nat (S k * MAXLN)) 1024) as [E | E].
  - split; [lia |]. by rewrite firstn_all2 by lia.
  - left. exists (S k). split; [lia | done].
Qed.

Lemma fresh_inv src' port' : srv_inv (mkSRV id src' port' 0 FFT_INPUT []).
Proof. intros _. left. exists 0%nat. split; [lia | done]. Qed.

(** What arrives does not spoil it. *)
Lemma serve_inv v src' port' g : srv_inv v -> flight_ok (src', port', g) -> srv_inv (fst (serve fft_data v src' port' g)).
Proof.
  intros Hv Hg. unfold serve. destruct (Z.eqb_spec (g_id g) (v_id v)) as [Hid | Hid].
  2: { assert (Hfresh : forall port2, srv_inv (mkSRV (g_id g) src' port2 0 FFT_INPUT [])).
       { intros port2 H. cbn in H. rewrite H. by apply fresh_inv. }
       cbn [andb negb orb]. destruct (v_state v); apply Hfresh. }
  destruct (decide (v_id v = id)) as [Hi | Hi].
  2: { assert (Hoff : forall v', v_id v' = v_id v -> srv_inv v') by (intros v' E ?; congruence).
       cbn [andb negb orb]. destruct (v_state v).
       - destruct (_ && (g_posn g =? v_posn v)); [by apply Hoff |]. by destruct (negb _); apply Hoff.
       - destruct (src' =? v_src v); [| done]. by destruct (2 * FFT_SIZE <=? g_posn g); apply Hoff. }
  destruct Hg as [? | Hg]; [congruence |]. pose proof (Hv Hi) as HI. cbn [andb negb orb]. destruct (v_state v) eqn:Hst.
  - destruct (_ && (g_posn g =? v_posn v)) eqn:E.
    + apply andb_true_iff in E as [_ E]. apply Z.eqb_eq in E. cbn [fst]. destruct HI as [(k & Hk & Hp & Hw) | Hbig].
      * destruct Hg as [(k' & Hk' & ->) | (posn & Hposn & ->)]; cbn [g_posn g_words] in *.
        -- assert (k' = k) as -> by (unfold MAXLN in *; lia). by apply feed_inv.
        -- change FFT_SIZE with 1024 in *. unfold MAXLN in *. lia.
      * destruct Hg as [(k' & Hk' & ->) | (posn & Hposn & ->)]; cbn [g_posn g_words] in *.
        -- change FFT_SIZE with 1024 in *. unfold MAXLN in *. lia.
        -- intros _. cbn [v_state v_posn length]. rewrite Z.add_0_r, (proj2 (Z.eqb_neq _ _)) by lia. by right.
    + destruct (negb _); [cbn [fst]; rewrite Hid, Hi; apply fresh_inv | done].
  - destruct HI as [Hp Hw]. destruct (src' =? v_src v); [| done].
    destruct (Z.leb_spec (2 * FFT_SIZE) (g_posn g)); intros _; cbn [fst v_state v_posn v_writes].
    + right. change FFT_SIZE with 1024 in *. lia.
    + split; [lia | done].
Qed.

Lemma wstep_inv w w' : wstep w w' -> world_inv w -> world_inv w'.
Proof.
  intros Hs [Hv Hf]. destruct Hs as [v fl k Hk | v fl posn Hp | v fl src' port' g Hg | v fl src' port' g Hin]; cbn [fst snd] in *.
  - split; [done |]. constructor; [right; left; by exists k | done].
  - split; [done |]. constructor; [right; right; by exists posn | done].
  - split; [done |]. constructor; [by left | done].
  - split; [| done]. apply serve_inv; [done |]. rewrite Forall_forall in Hf. by apply Hf.
Qed.


(** A run in which every block arrives, the first one twice. *)
Definition block_msg (k : nat) : Z * Z * MSG := (src, port, mkMSG id (Z.of_nat (k * MAXLN)) (block d MAXLN (k * MAXLN))).
Definition all_blocks : list (Z * Z * MSG) := map block_msg [7; 6; 5; 4; 3; 2; 1; 0]%nat.

Lemma send_blocks v : rtc wstep (v, []) (v, all_blocks).
Proof.
  unfold all_blocks. cbn [map]. unfold block_msg.
  do 8 (eapply rtc_r; [| apply ws_block; lia]). apply rtc_refl.
Qed.

Lemma deliver_blocks n : forall k, (k + n = 8)%nat ->
  rtc wstep (receiving src port id d (k * MAXLN), all_blocks) (receiving src port id d 1024, all_blocks).
Proof.
  induction n as [| n IH]; intros k Hk.
  - assert (k = 8%nat) as -> by lia. apply rtc_refl.
  - eapply rtc_l; [| apply (IH (S k)); lia].
    assert (Hin : block_msg k ∈ all_blocks).
    { apply list_elem_of_In. apply in_map. do 8 (destruct k as [| k]; [cbn; tauto |]). lia. }
    pose proof (ws_deliver (receiving src port id d (k * MAXLN)) all_blocks _ _ _ Hin) as Hs.
    rewrite serve_block in Hs by (done || (unfold MAXLN; lia)). cbn [fst] in Hs.
    replace (S k * MAXLN)%nat with (k * MAXLN + MAXLN)%nat by lia. exact Hs.
Qed.

Lemma lossy_run v : v_id v <> id -> v_state v = FFT_INPUT ->
  rtc wstep (v, []) (receiving src port id d 1024, all_blocks).
Proof.
  intros Hv Hst. etransitivity; [apply send_blocks |]. eapply rtc_l; [| apply (deliver_blocks 8 0); done].
  assert (Hin : block_msg 0 ∈ all_blocks) by (apply list_elem_of_In, in_map; cbn; tauto).
  pose proof (ws_deliver v all_blocks _ _ _ Hin) as Hs.
  unfold serve in Hs. rewrite Hst in Hs. cbn [g_id] in Hs. rewrite (proj2 (Z.eqb_neq id (v_id v))) in Hs by done.
  cbn [andb negb orb fst] in Hs. exact Hs.
Qed.
End Lossy.

(** ** Witnesses *)

Definition data0 : list Z := replicate 1024 (-7).
Definition srv0 : SRV := mkSRV (-1) 0 0 0 FFT_INPUT [].

Lemma upload_delivers_witness : exists b' nr',
  loop 10 (upload_turn (H := direct (fun _ _ => 0) 0xc0a80f05 4000) 8) (0, 0)
    (mkCLI 8 (replicate BUFLN 0) data0 (mkLink srv0 [])) =
  Ret (FFT_SIZE, nr') (mkCLI 8 b' data0 (mkLink (mkSRV 8 0xc0a80f05 4000 FFT_SIZE FFT_OUTPUT (indexed 0 (u32 <$> data0))) [])).
Proof.
  apply (upload_delivers (fun _ _ => 0) 0xc0a80f05 4000 8 data0 (replicate BUFLN 0) srv0 10);
    [lia | apply length_replicate | apply length_replicate | lia | cbn; lia | left; reflexivity].
Defined.

